(* ===== verification/_CoqProject ===== *)
-Q . S2P
Prelude.v
TlBuf.v
Serial.v
HashCommon.v
Sha1.v
Sha256.v
Crc32.v
Base64.v
Tg.v
Packet.v
Header.v
Str.v
Images.v
LinkedList.v
Errors.v
Objects.v
Queue.v
QueueInv.v
Delivery.v
Receive.v
Sync.v
SocketLock.v
SendQuery.v
Mtx.v
MtxLayers.v
Handshake.v
MtxFacts.v
HandshakeFacts.v
Auth.v
Negotiation.v
TlParser.v
TlParserFacts.v
Service.v
Sql.v
Database.v
DatabaseFacts.v
Entities.v
EntitiesFacts.v
Files.v
FilesFacts.v
Srp.v
SrpFacts.v
Login.v
LoginFacts.v
Init.v
InitFacts.v
Peers.v
Messages.v
MessagesFacts.v
Updates.v
UpdatesFacts.v
Dialogs.v
DialogsFacts.v
Generator.v
GeneratorFacts.v
GeneratorEnds.v
GeneratorWrites.v
GeneratorRound.v
GeneratedAnswers.v
GeneratorFree.v
Fact.v
FactFacts.v
FactPrimes.v
Factorize.v
FactClient.v
Audio.v
Witness.v
MtxWitness.v
DatabaseWitness.v
ServiceWitness.v
LoginWitness.v
StoreWitness.v
MessagesWitness.v
SchemaWitness.v
GeneratorWitness.v
FactWitness.v
AudioWitness.v
