(* ===== verification/Prelude.v ===== *)
(** * The C library of iTgLegacy: libtg

    The repository is a Telegram client for old telephones.  Its own C code
    is the library under src/libtg, which speaks the protocol MTProto and
    keeps what it learns in an SQLite database; this development models that
    library.  File names below are relative to src/libtg.

    ** How the program is put together

    tl/ has byte buffers and the serialisation of TL objects, crypto/ the
    hash functions and the cipher, mtx/ a self-contained library that
    negotiates the authorisation key, tg/ the session: a query is written
    with the generated functions of tl/, gets a header, is encrypted and
    wrapped for the transport (tg/prepare_query.c) and goes through the
    query queue (tg/queue.c), where every query has a thread of its own and
    answers find the query they belong to.  On the queue stand login, files,
    users, chats and channels, and the database functions.  tl_generator/ is
    the program that writes tl/ from the schema.

    ** How it is modelled

    - A C expression that can run into undefined behaviour returns [res]
      (this file): [Ok v] or [Err f] with the fault.  Signed overflow wraps.  Reads and writes
      outside a block, null pointers, uninitialised variables, divisions by
      zero, failed assertions and self-deadlocks are faults, so a theorem
      "[f x = Ok y]" says that none occurs.
    - Integers are [Z], wrapped where C wraps them ([u8], [u32], [u64] and
      [int32] below).  Bytes are [Z]; a C string is the list of its
      characters up to the NUL or a [string].
    - State is passed explicitly: [tg_t] (Tg.v) is the session, [world]
      (Queue.v) what the threads of the queue share, [env] (Mtx.v) what
      the key exchange shares, [client] (Service.v) what the parts over the
      queue share, the list of executed texts the database (Sql.v).
    - OpenSSL, zlib, the sockets, the clock, the file system, SQLite and, for
      the parts over the queue, the serialisers written by the generator are
      classes: [Platform], [Env],
      [OpenSSL], [BigNum], [Hmac], [Zlib], [Network], [Peer], [Frame],
      [Factor] (Fact.v is an instance, FactClient.v), [FileSystem], [Server], [Sqlite], and [Schema] with
      [LoginSchema], [PeerSchema], [MessageSchema] and [DialogSchema] for the
      queries.  Their operations are parameters, their laws what their
      documentation says ([Documented] for SQLite).  [Server] is what answers
      a query and the key a negotiation gives; a session without a key
      negotiates it with its first query (tg_prepare_mtproto, in Queue.v for
      the queue and in Service.v for the parts over it).  What the code
      leaves to the compiler or the stack is a parameter too: the sprintf of
      files.c that reads what it writes ([FileSystem]), uninitialised
      variables ([Frame], [CafLayout]).  The files *Witness.v
      have instances, so that every theorem with hypotheses is applied to
      concrete arguments.
    - An object of the server is its number and its members ([tl_t],
      Objects.v), as a generated reader leaves it ([view], Generator.v); the
      table of readers is a parameter of the parts that use it.

    ** The files

    Foundations: Prelude (outcomes, machine integers, lists), TlBuf
    (tl/buf.c), Serial (tl/serialize.c, deserialize.c), Str (tl/str.h),
    Base64 (tl/base64.h), LinkedList (tg/list.h: the pointer operations
    refine those of sequences).

    Hashes: HashCommon (padding, blocks and schedule of FIPS 180), Sha1,
    Sha256 (mtx/src/sha1.c, sha256.c), Crc32 (mtx/src/crc.c): each is shown
    equal to the definition of the standard.

    The packet layers: Tg (tg/tg.h, ack.c, header.c), Packet (tg/header.c,
    encrypt.c, transport.c, prepare_query.c, crypto/hsh.c, aes.c), Header
    (theorems): layout of the header, container with pending
    acknowledgements, encryption that the server opens, round trips, the
    composition of the layers, and that msg_key is never verified.

    The queue: Errors (tg/errors.c, dc.h), Objects (tg/strerr.c,
    tl/gunzip.c), Queue (tg/queue.c, net.c), QueueInv (its invariant: the queries of
    the list are distinct and allocated, one that has left it can be released
    by the timer, mutexes are released, a callback runs at most once), Delivery, Receive, Sync (an answer reaches its query,
    however the network cuts it behind the word with its length; a word that
    is cut is misread; a synchronous query ends with its answer),
    SocketLock (the threads on one mutex as a step relation), SendQuery
    (tg/send_query.c, answer.c).

    The key exchange: Mtx, MtxLayers, Handshake (mtx/src/), MtxFacts,
    HandshakeFacts, Auth, Negotiation: with an honest server both sides hold
    the same key (when an uninitialised buffer of tgt.c, line 729, happens to
    be empty); what the checks that only print let through; replies that
    overflow.  Fact (mtx/src/fact.cpp): the factorisation of pq; FactFacts,
    FactPrimes: its arithmetic, tables and trial division are exact;
    Factorize: what factorize and factor return for numbers the two
    primality tests of the program judge rightly; FactClient: the class
    [Factor] with that function.

    The parts over the queue: Service (queries as they see them), Sql (the
    statements of SQL the library writes, and what SQLite documents),
    Database, DatabaseFacts (tg/database.c), Entities, EntitiesFacts
    (tg/user.c, chat.c, channel.c, dialogs.c and the member lists of their
    headers), Peers, Messages, MessagesFacts, Updates, UpdatesFacts, Dialogs,
    DialogsFacts (tg/peer.c, messages.c, updates.c, dialogs.c and the
    conversions of user.c, chat.c and channel.c), Files, FilesFacts (tg/files.c, peer.c), Srp, SrpFacts
    (tg/2fa.c, crypto/pbkdf2.c), Login, LoginFacts (tg/auth.c, connect.c),
    Init, InitFacts (tg/tg.c, the tables of database_init).  A session that
    was stored is found again; a user that is saved is read back; the
    history of a peer is kept and read without the server; the updates of an
    answer reach the application; a login asks and stores what it should; and
    where the texts of SQL, empty messages and the pages of dialogs go wrong.

    The generator: TlParser, TlParserFacts (tl_generator/tl_parser.c): the parser
    reads back every file made of the lines the two schema files consist of
    (SchemaWitness.v has mtproto_api.tl line by line) and ends for every
    file.
    Generator (tl_generator/generator.c): the structures, readers and writers
    it prints, as what their text does to a declaration the parser hands
    over.  GeneratorFacts: the layout of objects as a grammar with tables of its
    own for types, flag bits, omitted members and structures, and that the
    readers implement it; GeneratorEnds: they end on any bytes;
    GeneratorWrites: the words of flags and fields the writers write;
    GeneratorRound: writing and reading back, the run over both schema files,
    and the pointer to the flags when the block moves; GeneratorFree: what the
    release functions free; GeneratedAnswers: the queue with the generated
    table, from the call of a writer by the server to the callback.  [object_at] (grammar),
    [enc_method] (text of a call) and [becomes_members] (object of a call) are
    the specifications.

    Audio (tools/): the way of a recorded voice message to the encoder and of
    a received one to a WAV file, and which samples are lost or added;
    caf_extract reads a structure it never wrote.

    Witnesses: Witness, MtxWitness, DatabaseWitness, ServiceWitness,
    LoginWitness, StoreWitness, MessagesWitness, SchemaWitness,
    GeneratorWitness, FactWitness, AudioWitness.

    ** Bounds and fuel

    Loops whose end depends on the environment take fuel and end in
    [NoFuel] without it; the theorems state how much is enough: the number
    of blocks the network delivers for [_tg_receive], the number of turns
    for [tg_run_queue], the number of parts for a download, the length of
    the text for the tokens of the parser, a quarter of the bytes left in the
    block for nested objects ([enough]), the logarithm of the number for
    [factorize] below a million.  The searches of fact.cpp that depend on
    random numbers have no bound: [factor_semiprime] says what they return,
    and when one surely does.  The loops of its arithmetic have 200 turns,
    enough for 64 bits, [mc_power] 2000.  In [receive_closed_spins] and
    [dialogs_asked_for_ever] no fuel is enough.  Sizes are assumed below 2^31 or 2^32
    where the code keeps them in 32 bits, and the assumption is a hypothesis
    of the theorem.  BUFSIZ is any number from 256 on.

    ** Not modelled

    The C text the generator prints beyond what it does (tl/free.c, which is
    in the repository, has a function for every constructor; [tl_free_] of
    Generator.v is what they do), OpenSSL, zlib and SQLite
    themselves, stb_ds.h (third party), the two
    unfinished versions of the key exchange in tg/auth_key.c, tg/run_api.c
    (an older interface that is not compiled any more), opusfile and opusenc
    (arguments of Audio.v), output for logging.  Releasing memory is modelled where it can
    be seen: freed queries, a read after the release.  The Objective-C
    application under src/src, libtgvoip, the codecs and the headers of other
    libraries under src/include are
    other projects or user interface. *)
From stdpp Require Export base numbers list gmap strings option.
From Stdlib Require Export ZArith Lia.
#[export] Set Default Goal Selector "!".
Open Scope Z_scope.

(** ** Outcomes

    A C expression either yields a value or runs into behaviour the C
    standard leaves undefined.  The faults are the ones the sources of
    this repository can run into. *)
Inductive fault :=
| OutOfBounds      (* access outside an array or an allocated block *)
| NullDeref        (* dereference of a null pointer *)
| DivByZero        (* division or modulo by zero *)
| UseAfterFree     (* use of a block after realloc(p, 0) released it *)
| Uninit           (* use of an uninitialised variable *)
| AssertFailed     (* a failed assert() *)
| Deadlock         (* locking a mutex the thread already holds *)
| NoFuel.          (* the fuel of a bounded model ran out *)

Inductive res (A : Type) :=
| Ok (a : A)
| Err (f : fault).
Arguments Ok {A} _.
Arguments Err {A} _.

#[export] Instance fault_eq_dec : EqDecision fault.
Proof. solve_decision. Defined.
#[export] Instance res_eq_dec {A} `{EqDecision A} : EqDecision (res A).
Proof. solve_decision. Defined.

#[export] Instance res_ret : MRet res := fun A a => Ok a.
#[export] Instance res_bind : MBind res := fun A B k m =>
  match m with Ok a => k a | Err f => Err f end.
#[export] Instance res_fmap : FMap res := fun A B g m =>
  match m with Ok a => Ok (g a) | Err f => Err f end.

(** [assert(b)] *)
Definition guard_res (b : bool) (f : fault) : res unit :=
  if b then Ok tt else Err f.

Lemma res_bind_ok {A B} (a : A) (k : A -> res B) : (Ok a ≫= k) = k a.
Proof. reflexivity. Qed.

Lemma res_bind_inv {A B} (m : res A) (k : A -> res B) (b : B) :
  (m ≫= k) = Ok b -> exists a, m = Ok a /\ k a = Ok b.
Proof. destruct m; [eauto | discriminate]. Qed.

Lemma res_bind_err {A B} (f : fault) (k : A -> res B) : (Err f ≫= k) = Err f.
Proof. reflexivity. Qed.

Lemma res_bind_assoc {A B C} (m : res A) (k : A -> res B) (l : B -> res C) :
  ((m ≫= k) ≫= l) = (m ≫= fun a => k a ≫= l).
Proof. by destruct m. Qed.

Lemma res_bind_step {A B} (m : res A) (k : A -> res B) a r :
  m = Ok a -> k a = r -> (m ≫= k) = r.
Proof. by intros -> <-. Qed.

(** [step L] runs the first operation of a sequence by lemma [L] and leaves
    the lemma's side conditions first. *)
Tactic Notation "step" uconstr(L) := eapply res_bind_step; [eapply L | cbv beta iota].

(** [inv_res H] splits [H : (x ← m; k) = Ok b] into its steps. *)
Ltac inv_res H :=
  let a := fresh "a" in let Ha := fresh "Ha" in
  apply res_bind_inv in H as (a & Ha & H).

(** ** Machine integers *)
Definition u8  (z : Z) : Z := z mod 256.
Definition u32 (z : Z) : Z := z mod 4294967296.
Definition u64 (z : Z) : Z := z mod 18446744073709551616.
(* Signed 32-bit conversion, two's complement. *)
Definition i32 (z : Z) : Z :=
  (z + 2147483648) mod 4294967296 - 2147483648.
Definition i64 (z : Z) : Z :=
  (z + 9223372036854775808) mod 18446744073709551616 - 9223372036854775808.

Definition is_byte (b : Z) : Prop := 0 <= b < 256.
Definition is_u32 (z : Z) : Prop := 0 <= z < 4294967296.
Definition is_u64 (z : Z) : Prop := 0 <= z < 18446744073709551616.
Abbreviation bytes_ok l := (Forall is_byte l).

#[export] Instance is_byte_dec b : Decision (is_byte b).
Proof. unfold is_byte. apply _. Defined.

(* [lia] with the division and modulo operations expanded. *)
Ltac modlia := Z.to_euclidean_division_equations; lia.
Ltac unfold_int := unfold u8, u32, u64, i32, i64, is_byte, is_u32, is_u64 in *.

Lemma u8_range z : is_byte (u8 z).
Proof. unfold_int. modlia. Qed.
Lemma i32_small z : -2147483648 <= z < 2147483648 -> i32 z = z.
Proof. intros. unfold i32. rewrite Z.mod_small by lia. lia. Qed.
Lemma u32_range z : is_u32 (u32 z).
Proof. unfold_int. modlia. Qed.
Lemma u64_range z : is_u64 (u64 z).
Proof. unfold_int. modlia. Qed.
Lemma u8_id z : is_byte z -> u8 z = z.
Proof. unfold_int. intros. by apply Z.mod_small. Qed.
Lemma u32_id z : is_u32 z -> u32 z = z.
Proof. unfold_int. intros. by apply Z.mod_small. Qed.
Lemma u64_id z : is_u64 z -> u64 z = z.
Proof. unfold_int. intros. by apply Z.mod_small. Qed.
Lemma u32_idemp z : u32 (u32 z) = u32 z.
Proof. apply u32_id, u32_range. Qed.

(** Exclusive or stays within a width. *)
Lemma lxor_range n x y : 0 <= n -> 0 <= x < 2 ^ n -> 0 <= y < 2 ^ n -> 0 <= Z.lxor x y < 2 ^ n.
Proof.
  intros Hn Hx Hy. assert (0 < 2 ^ n) by (apply Z.pow_pos_nonneg; lia).
  split; [apply Z.lxor_nonneg; lia |]. destruct (decide (Z.lxor x y = 0)) as [-> | Hz]; [done |].
  apply Z.log2_lt_cancel. rewrite Z.log2_pow2 by done.
  eapply Z.le_lt_trans; [apply Z.log2_lxor; lia |].
  assert (n <> 0).
  { intros ->. assert (x = 0) by lia. assert (y = 0) by lia. by subst. }
  assert (Hlog : forall z, 0 <= z < 2 ^ n -> Z.log2 z < n).
  { intros z Hz'. destruct (decide (z = 0)) as [-> |]; [cbn; lia |]. apply Z.log2_lt_pow2; lia. }
  apply Z.max_lub_lt; auto.
Qed.

Lemma lxor_byte x y : is_byte x -> is_byte y -> is_byte (Z.lxor x y).
Proof. apply (lxor_range 8). lia. Qed.
Lemma lxor_u32 x y : is_u32 x -> is_u32 y -> is_u32 (Z.lxor x y).
Proof. apply (lxor_range 32). lia. Qed.

(** ** Byte lists *)
Definition zlen {A} (l : list A) : Z := Z.of_nat (length l).

Lemma zlen_nil {A} : zlen (@nil A) = 0.
Proof. reflexivity. Qed.
Lemma zlen_cons {A} (x : A) l : zlen (x :: l) = zlen l + 1.
Proof. unfold zlen. simpl. lia. Qed.
Lemma zlen_app {A} (l k : list A) : zlen (l ++ k) = zlen l + zlen k.
Proof. unfold zlen. rewrite length_app. lia. Qed.
Lemma zlen_nonneg {A} (l : list A) : 0 <= zlen l.
Proof. unfold zlen. lia. Qed.
Lemma zlen_replicate {A} n (x : A) : zlen (replicate n x) = Z.of_nat n.
Proof. unfold zlen. by rewrite length_replicate. Qed.
Lemma zlen_insert {A} (l : list A) i x : zlen (<[i:=x]> l) = zlen l.
Proof. unfold zlen. by rewrite length_insert. Qed.

(** [slice m off n]: the [n] bytes of [m] from offset [off]. *)
Definition slice {A} (m : list A) (off n : Z) : list A :=
  take (Z.to_nat n) (drop (Z.to_nat off) m).

Lemma zlen_slice {A} (m : list A) off n :
  0 <= off -> 0 <= n -> off + n <= zlen m -> zlen (slice m off n) = n.
Proof. unfold slice, zlen. rewrite length_take, length_drop. lia. Qed.

Lemma slice_0 {A} (m : list A) n : slice m 0 n = take (Z.to_nat n) m.
Proof. reflexivity. Qed.

Lemma slice_all {A} (m : list A) n : zlen m <= n -> slice m 0 n = m.
Proof. intros H. rewrite slice_0. unfold zlen in H. apply take_ge. lia. Qed.

Lemma slice_app_l {A} (l k : list A) n :
  n = zlen l -> slice (l ++ k) 0 n = l.
Proof. intros ->. unfold zlen. by rewrite slice_0, Nat2Z.id, take_app_length. Qed.

Lemma slice_app_r {A} (l k : list A) off n :
  off = zlen l -> slice (l ++ k) off n = slice k 0 n.
Proof.
  intros ->. unfold slice, zlen. by rewrite Nat2Z.id, drop_app_length.
Qed.

Lemma slice_forall {A} (P : A -> Prop) m off n : Forall P m -> Forall P (slice m off n).
Proof. intros. unfold slice. by apply Forall_take, Forall_drop. Qed.

(** [splice m off bs]: [m] with the bytes from offset [off] overwritten
    by [bs]. *)
Definition splice {A} (m : list A) (off : Z) (bs : list A) : list A :=
  take (Z.to_nat off) m ++ bs ++ drop (Z.to_nat off + length bs) m.

Lemma zlen_splice {A} (m : list A) off bs :
  0 <= off -> off + zlen bs <= zlen m -> zlen (splice m off bs) = zlen m.
Proof.
  unfold splice, zlen. intros. rewrite !length_app, length_take, length_drop. lia.
Qed.

Lemma splice_nil {A} (m : list A) off : splice m off [] = m.
Proof. unfold splice. simpl. rewrite Nat.add_0_r. apply take_drop. Qed.

Lemma splice_forall {A} (P : A -> Prop) m off bs :
  Forall P m -> Forall P bs -> Forall P (splice m off bs).
Proof. intros. unfold splice. rewrite !Forall_app. auto using Forall_take, Forall_drop. Qed.

Lemma splice_at {A} (a r bs : list A) off :
  off = zlen a -> splice (a ++ r) off bs = a ++ bs ++ drop (length bs) r.
Proof.
  intros ->. unfold splice, zlen. rewrite Nat2Z.id, take_app_length.
  by rewrite <- drop_drop, drop_app_length.
Qed.

Lemma splice_0 {A} (m bs : list A) : splice m 0 bs = bs ++ drop (length bs) m.
Proof. reflexivity. Qed.

Lemma split_at {A} (m : list A) off :
  0 <= off <= zlen m -> exists a r, m = a ++ r /\ zlen a = off.
Proof.
  intros. exists (take (Z.to_nat off) m), (drop (Z.to_nat off) m).
  rewrite take_drop. unfold zlen in *. rewrite length_take. split; [done | lia].
Qed.

Lemma splice_app {A} (m l k : list A) off :
  0 <= off -> off + zlen l <= zlen m ->
  splice (splice m off l) (off + zlen l) k = splice m off (l ++ k).
Proof.
  intros. pose proof (zlen_nonneg l).
  destruct (split_at m off) as (a & r & -> & <-); [lia |].
  rewrite (splice_at a r l), (splice_at a r (l ++ k)) by done.
  rewrite app_assoc, splice_at by (by rewrite zlen_app).
  by rewrite drop_drop, length_app, <- !app_assoc.
Qed.

Lemma slice_splice {A} (m bs : list A) off :
  0 <= off -> off + zlen bs <= zlen m -> slice (splice m off bs) off (zlen bs) = bs.
Proof.
  unfold slice, splice, zlen. intros. rewrite drop_app_ge by (rewrite length_take; lia).
  rewrite length_take, Nat2Z.id.
  replace (_ - _)%nat with 0%nat by lia. by rewrite drop_0, take_app_length.
Qed.

(** ** Memory blocks

    A block is the list of its bytes; [rd] and [wr] access one byte. *)
Definition rd (m : list Z) (i : Z) : res Z :=
  if 0 <=? i then
    match m !! Z.to_nat i with Some b => Ok b | None => Err OutOfBounds end
  else Err OutOfBounds.

Definition wr (m : list Z) (i b : Z) : res (list Z) :=
  if (0 <=? i) && (i <? zlen m) then Ok (<[Z.to_nat i := b]> m)
  else Err OutOfBounds.

(** [for (; n > 0; ++i, --n) dst[f(i)] = src[i];] *)
Fixpoint copy_loop (n : nat) (i : Z) (dst : list Z) (f : Z -> Z) (src : list Z)
  : res (list Z) :=
  match n with
  | O => Ok dst
  | S n => x ← rd src i;
           dst ← wr dst (f i) x;
           copy_loop n (i + 1) dst f src
  end.

(** [for (; n > 0; ++i, --n) dst[off + i] = g(i);] *)
Fixpoint fill_loop (n : nat) (i : Z) (dst : list Z) (off : Z) (g : Z -> res Z)
  : res (list Z) :=
  match n with
  | O => Ok dst
  | S n => x ← g i;
           dst ← wr dst (off + i) x;
           fill_loop n (i + 1) dst off g
  end.

Lemma rd_ok m i b : 0 <= i -> m !! Z.to_nat i = Some b -> rd m i = Ok b.
Proof. intros ? Hb. unfold rd. rewrite Hb. by destruct (Z.leb_spec 0 i); [| lia]. Qed.

Lemma rd_in_bounds m i : 0 <= i < zlen m -> exists b, rd m i = Ok b /\ m !! Z.to_nat i = Some b.
Proof.
  intros. destruct (lookup_lt_is_Some_2 m (Z.to_nat i)) as [b Hb].
  { unfold zlen in *. lia. }
  exists b. split; [apply rd_ok; [lia | done] | done].
Qed.

Lemma rd_oob m i : ~ (0 <= i < zlen m) -> rd m i = Err OutOfBounds.
Proof.
  intros H. unfold rd. destruct (Z.leb_spec 0 i); [| done].
  by rewrite lookup_ge_None_2 by (unfold zlen in H; lia).
Qed.

Lemma rd_app_l m k i : 0 <= i < zlen m -> rd (m ++ k) i = rd m i.
Proof.
  intros. unfold rd. destruct (Z.leb_spec 0 i); [| lia].
  by rewrite lookup_app_l by (unfold zlen in *; lia).
Qed.

Lemma rd_app_r m k i : zlen m <= i -> rd (m ++ k) i = rd k (i - zlen m).
Proof.
  intros. unfold rd. pose proof (zlen_nonneg m).
  destruct (Z.leb_spec 0 i); [| lia]. destruct (Z.leb_spec 0 (i - zlen m)); [| lia].
  rewrite lookup_app_r by (unfold zlen in *; lia).
  by replace (Z.to_nat i - length m)%nat with (Z.to_nat (i - zlen m)) by (unfold zlen in *; lia).
Qed.

Lemma rd_prefix m k j b : m !! j = Some b -> rd (m ++ k) (Z.of_nat j) = Ok b.
Proof. intros. apply rd_ok; [lia |]. rewrite Nat2Z.id. by apply lookup_app_l_Some. Qed.

Lemma wr_ok m i b : 0 <= i < zlen m -> wr m i b = Ok (splice m i [b]).
Proof.
  intros. unfold wr. replace ((0 <=? i) && (i <? zlen m)) with true by lia.
  f_equal. unfold splice. rewrite insert_take_drop by (unfold zlen in *; lia).
  simpl. do 3 f_equal. lia.
Qed.

Lemma wr_oob m i b : ~ (0 <= i < zlen m) -> wr m i b = Err OutOfBounds.
Proof. intros. unfold wr. by replace ((0 <=? i) && (i <? zlen m)) with false by lia. Qed.

(** The loops write a block: [copy_loop] is [memcpy] for disjoint blocks. *)
Lemma fill_loop_ok n : forall i dst off g xs,
  0 <= i -> 0 <= off -> length xs = n ->
  (forall j x, xs !! j = Some x -> g (i + Z.of_nat j) = Ok x) ->
  off + i + Z.of_nat n <= zlen dst ->
  fill_loop n i dst off g = Ok (splice dst (off + i) xs).
Proof.
  induction n as [|n IH]; intros i dst off g xs Hi Ho Hn Hg Hl; cbn [fill_loop].
  { destruct xs; [by rewrite splice_nil | done]. }
  destruct xs as [|x xs]; [done |]. injection Hn as Hn.
  pose proof (Hg 0%nat x eq_refl) as Hx. rewrite Z.add_0_r in Hx.
  rewrite Hx, res_bind_ok, wr_ok, res_bind_ok by lia.
  rewrite (IH _ _ _ _ xs); [| lia | lia | done | |].
  - replace (off + (i + 1)) with (off + i + zlen [x]) by (rewrite zlen_cons, zlen_nil; lia).
    rewrite splice_app; [done | lia | rewrite zlen_cons, zlen_nil; lia].
  - intros j y Hy. rewrite <- (Hg (S j) y Hy). f_equal. lia.
  - rewrite zlen_splice; [lia.. |]. rewrite zlen_cons, zlen_nil. lia.
Qed.

Lemma copy_loop_fill n : forall i dst f off src,
  (forall j, i <= j < i + Z.of_nat n -> f j = off + j) ->
  copy_loop n i dst f src = fill_loop n i dst off (rd src).
Proof.
  induction n as [|n IH]; intros i dst f off src Hf; cbn [copy_loop fill_loop]; [done |].
  rewrite Hf by lia. destruct (rd src i) as [x|]; [| done].
  rewrite !res_bind_ok. destruct (wr dst (off + i) x); [| done].
  rewrite !res_bind_ok. apply IH. intros. apply Hf. lia.
Qed.

Lemma slice_lookup {A} (m : list A) off n j :
  0 <= off -> 0 <= n -> Z.of_nat j < n ->
  slice m off n !! j = m !! Z.to_nat (off + Z.of_nat j).
Proof.
  intros. unfold slice. rewrite lookup_take_lt by lia.
  rewrite lookup_drop. f_equal. lia.
Qed.

Lemma copy_loop_ok n i dst f off src :
  (forall j, i <= j < i + Z.of_nat n -> f j = off + j) ->
  0 <= i -> 0 <= off -> i + Z.of_nat n <= zlen src ->
  off + i + Z.of_nat n <= zlen dst ->
  copy_loop n i dst f src = Ok (splice dst (off + i) (slice src i (Z.of_nat n))).
Proof.
  intros Hf Hi Ho Hs Hd. rewrite (copy_loop_fill _ _ _ _ off) by done.
  apply fill_loop_ok; [done | done | | | done].
  - pose proof (zlen_slice src i (Z.of_nat n) Hi ltac:(lia) Hs). unfold zlen in *. lia.
  - intros j x Hx. assert (Z.of_nat j < Z.of_nat n).
    { apply lookup_lt_Some in Hx. pose proof (zlen_slice src i (Z.of_nat n) Hi ltac:(lia) Hs).
      unfold zlen in *. lia. }
    rewrite slice_lookup in Hx by lia. by apply rd_ok; [lia |].
Qed.

(** Reading past the source is a fault, whatever the destination. *)
Lemma copy_loop_src_oob n : forall i dst f src,
  (0 < n)%nat -> 0 <= i -> zlen src < i + Z.of_nat n ->
  copy_loop n i dst f src = Err OutOfBounds.
Proof.
  induction n as [|n IH]; [lia |]. intros i dst f src _ Hi Hs. cbn [copy_loop].
  destruct (decide (i < zlen src)).
  - destruct (rd_in_bounds src i) as (b & -> & _); [lia |]. rewrite res_bind_ok.
    destruct (decide (0 <= f i < zlen dst)).
    + rewrite wr_ok, res_bind_ok by done. apply IH; lia.
    + by rewrite wr_oob.
  - by rewrite rd_oob by lia.
Qed.

(** A copy that runs past the end of the destination is a fault. *)
Lemma copy_loop_dst_oob n : forall i dst f src,
  (0 < n)%nat -> 0 <= i -> i + Z.of_nat n <= zlen src ->
  zlen dst <= f (i + Z.of_nat n - 1) ->
  copy_loop n i dst f src = Err OutOfBounds.
Proof.
  induction n as [|n IH]; [lia |]. intros i dst f src _ Hi Hs Hl. cbn [copy_loop].
  destruct (rd_in_bounds src i) as (b & -> & _); [lia |]. rewrite res_bind_ok.
  destruct (decide (0 <= f i < zlen dst)) as [Hr | Hr]; [| by rewrite wr_oob].
  assert (0 < n)%nat.
  { destruct n; [| lia]. replace (i + Z.of_nat 1 - 1) with i in Hl by lia. lia. }
  rewrite wr_ok, res_bind_ok by done.
  assert (zlen (splice dst (f i) [b]) = zlen dst) as Hz.
  { apply zlen_splice; [lia |]. rewrite zlen_cons, zlen_nil. lia. }
  apply IH; [lia | lia | lia |]. rewrite Hz.
  by replace (i + 1 + Z.of_nat n - 1) with (i + Z.of_nat (S n) - 1) by lia.
Qed.

(** ** Little-endian integers *)
Fixpoint le_bytes (n : nat) (z : Z) : list Z :=
  match n with O => [] | S n => u8 z :: le_bytes n (z / 256) end.

Fixpoint le_num (bs : list Z) : Z :=
  match bs with [] => 0 | b :: bs => b + 256 * le_num bs end.

Lemma zlen_le_bytes n z : zlen (le_bytes n z) = Z.of_nat n.
Proof. revert z. induction n; intros; simpl; [done |]. rewrite zlen_cons, IHn. lia. Qed.

Lemma le_bytes_ok n z : bytes_ok (le_bytes n z).
Proof. revert z. induction n; intros; simpl; constructor; auto using u8_range. Qed.

Lemma le_num_bound bs : bytes_ok bs -> 0 <= le_num bs < 256 ^ zlen bs.
Proof.
  induction 1 as [|b bs Hb _ IH]; [done |]. rewrite zlen_cons. cbn [le_num].
  rewrite Z.pow_add_r by (pose proof (zlen_nonneg bs); lia). unfold is_byte in Hb. lia.
Qed.

Lemma le_num_bytes n z : le_num (le_bytes n z) = z mod 256 ^ Z.of_nat n.
Proof.
  revert z. induction n as [|n IH]; intros; cbn [le_bytes le_num].
  { change (256 ^ Z.of_nat 0) with 1. by rewrite Z.mod_1_r. }
  rewrite IH. unfold u8.
  replace (Z.of_nat (S n)) with (1 + Z.of_nat n) by lia.
  rewrite Z.pow_add_r, Z.pow_1_r by lia.
  rewrite Z.rem_mul_r; [done | lia | apply Z.pow_pos_nonneg; lia].
Qed.

Lemma le_bytes_num bs : bytes_ok bs -> le_bytes (length bs) (le_num bs) = bs.
Proof.
  induction 1 as [|b bs Hb _ IH]; [done |]. cbn [length le_bytes le_num].
  unfold is_byte in Hb. f_equal.
  - unfold u8. modlia.
  - replace ((b + 256 * le_num bs) / 256) with (le_num bs) by modlia. done.
Qed.

Lemma le_num_app bs cs : le_num (bs ++ cs) = le_num bs + 256 ^ zlen bs * le_num cs.
Proof.
  induction bs as [|b bs IH]; cbn [app le_num]; [change (256 ^ zlen []) with 1; lia |].
  rewrite IH, zlen_cons, Z.pow_add_r by (pose proof (zlen_nonneg bs); lia). lia.
Qed.

Lemma le_num_zeros n : le_num (replicate n 0) = 0.
Proof. induction n as [|n IH]; [done |]. cbn [replicate le_num]. lia. Qed.

Lemma le_num_bytes4 z : le_num (le_bytes 4 z) = u32 z.
Proof. by rewrite le_num_bytes. Qed.
Lemma le_num_bytes8 z : le_num (le_bytes 8 z) = u64 z.
Proof. by rewrite le_num_bytes. Qed.

Lemma zeros_ok n : bytes_ok (replicate n 0).
Proof. apply Forall_replicate. unfold is_byte. lia. Qed.

Create HintDb bytes.
#[export] Hint Resolve u8_range u32_range u64_range le_bytes_ok zeros_ok : bytes.
#[export] Hint Resolve slice_forall splice_forall Forall_take Forall_drop : bytes.
#[export] Hint Resolve Forall_app_2 Forall_nil_2 Forall_cons_2 zlen_nonneg : bytes.
Create Rewrite HintDb zlen.
#[export] Hint Rewrite @zlen_nil @zlen_cons @zlen_app @zlen_replicate @zlen_insert
  zlen_le_bytes : zlen.

(** [zpos] records that the lengths the goal mentions are not negative. *)
Ltac zpos :=
  repeat match goal with
  | |- context [zlen ?l] =>
      lazymatch goal with
      | _ : 0 <= zlen l |- _ => fail
      | _ => pose proof (zlen_nonneg l)
      end
  end.

(** [zl] normalises lengths and calls [lia]. *)
Ltac zl := autorewrite with zlen in *; try lia.

(** ** State transformers

    Stateful code takes the state it works on and returns the new one, or
    stops with a fault. *)
Definition ST (S A : Type) : Type := S -> res (A * S).

#[export] Instance st_ret {S} : MRet (ST S) := fun A a s => Ok (a, s).
#[export] Instance st_bind {S} : MBind (ST S) := fun A B k m s =>
  match m s with Ok (a, s) => k a s | Err f => Err f end.

Section StateTransformers.
Context {S : Type}.

Definition lift {A} (m : res A) : ST S A := fun s => a ← m; Ok (a, s).
Definition gets {A} (f : S -> A) : ST S A := fun s => Ok (f s, s).
Definition modify (f : S -> S) : ST S unit := fun s => Ok (tt, f s).
Definition fail {A} (f : fault) : ST S A := fun _ => Err f.

(** An operation on a part of the state. *)
Definition zoom {T A} (get : S -> T) (set : T -> S -> S) (m : ST T A) : ST S A := fun s =>
  match m (get s) with Ok (a, t) => Ok (a, set t s) | Err f => Err f end.

Lemma bind_eq {A B} (m : ST S A) (k : A -> ST S B) s a s' :
  m s = Ok (a, s') -> (m ≫= k) s = k a s'.
Proof. intros E. unfold mbind, st_bind. by rewrite E. Qed.
Lemma bind_err {A B} (m : ST S A) (k : A -> ST S B) s f :
  m s = Err f -> (m ≫= k) s = Err f.
Proof. intros E. unfold mbind, st_bind. by rewrite E. Qed.
Lemma bind_inv {A B} (m : ST S A) (k : A -> ST S B) s r :
  (m ≫= k) s = Ok r -> exists a s', m s = Ok (a, s') /\ k a s' = Ok r.
Proof. unfold mbind, st_bind. destruct (m s) as [[a s']|]; [eauto | discriminate]. Qed.
Lemma bind_inv_err {A B} (m : ST S A) (k : A -> ST S B) s f :
  (m ≫= k) s = Err f -> m s = Err f \/ exists a s', m s = Ok (a, s') /\ k a s' = Err f.
Proof. unfold mbind, st_bind. destruct (m s) as [[a s']|]; [eauto | intros [= ->]; by left]. Qed.
Lemma lift_eq {A} (m : res A) s a : m = Ok a -> lift m s = Ok (a, s).
Proof. by intros ->. Qed.
Lemma lift_err {A} (m : res A) s f : m = Err f -> lift m s = Err f.
Proof. by intros ->. Qed.
Lemma bind_lift {A B} (m : res A) (k : A -> ST S B) s a :
  m = Ok a -> (lift m ≫= k) s = k a s.
Proof. by intros ->. Qed.
Lemma zoom_eq {T A} (get : S -> T) (set : T -> S -> S) (m : ST T A) s a t :
  m (get s) = Ok (a, t) -> zoom get set m s = Ok (a, set t s).
Proof. unfold zoom. by intros ->. Qed.

Lemma st_bind_step {A B} (m : ST S A) (k : A -> ST S B) s a s' r :
  m s = Ok (a, s') -> k a s' = r -> (m ≫= k) s = r.
Proof. intros E <-. by apply bind_eq. Qed.
End StateTransformers.

(** [tstep L] runs a stateful operation by lemma [L], [lstep L] a pure one,
    [pstep] one that only reads or writes a field. *)
Tactic Notation "tstep" uconstr(L) := eapply st_bind_step; [eapply L | cbv beta iota].
Tactic Notation "lstep" uconstr(L) := eapply st_bind_step; [eapply lift_eq, L | cbv beta iota].
Ltac pstep := eapply st_bind_step; [reflexivity | cbv beta iota].
