(* ===== verification/TlBuf.v ===== *)
(** * Growable byte buffers: libtg/tl/buf.c, buf.h

    [buf_t] is the buffer every layer of libtg passes by value: a
    [malloc]ed block ([aptr], [asize + 1] bytes) and a window into it
    ([data], [size]).  The C operations are translated statement by
    statement; [contents] is the abstract value of a buffer (the list of
    its bytes) and the theorems say what each operation does to it.

    A [buf_t] is modelled as a value that owns its block.  This is how the
    callers use it: [dest = buf_cat(dest, src)] never looks at the old
    [dest] again, which [realloc] may have freed. *)
From S2P Require Import Prelude.

(** What the C library leaves to the platform: the size [BUFSIZ] of the
    initial block, how large a block the allocator can deliver, the
    sequence [rand()] produces after [srand(seed)], and the width of
    [long]. *)
Class Platform := {
  BUFSIZ : Z;
  alloc_limit : Z;
  rand_seq : Z -> nat -> Z;
  long_bits : Z;
  BUFSIZ_min : 256 <= BUFSIZ;
  alloc_limit_min : BUFSIZ < alloc_limit;
  alloc_limit_max : alloc_limit < 4294967296;
  rand_nonneg : forall seed n, 0 <= rand_seq seed n;
  long_bits_cases : long_bits = 32 \/ long_bits = 64
}.

(** Conversion to [long]: 32 bits on the armv7 devices the application
    targets, 64 bits on arm64 and x86-64. *)
Definition to_long `{Platform} (z : Z) : Z :=
  if long_bits =? 32 then i32 z else i64 z.

Record buf_t := Buf {
  b_mem : list Z;   (* the block [aptr] points to *)
  b_off : Z;        (* [data - aptr] *)
  b_size : Z;
  b_asize : Z
}.

Definition set_mem (b : buf_t) (m : list Z) : buf_t :=
  Buf m (b_off b) (b_size b) (b_asize b).
Definition set_size (b : buf_t) (n : Z) : buf_t :=
  Buf (b_mem b) (b_off b) n (b_asize b).

(** The bytes readable from [b.data + k]. *)
Definition data_at (b : buf_t) (k : Z) : list Z :=
  drop (Z.to_nat (b_off b + k)) (b_mem b).

Definition contents (b : buf_t) : list Z := slice (b_mem b) (b_off b) (b_size b).

Section Buf.
Context `{Platform}.

(** [buf_init] fails only when [malloc] does; every caller ignores its
    result and would go on with an uninitialised buffer. *)
Definition buf_init : res buf_t :=
  if BUFSIZ + 1 <=? alloc_limit
  then Ok (Buf (replicate (Z.to_nat (BUFSIZ + 1)) 0) 0 0 BUFSIZ)
  else Err NullDeref.

Definition buf_new : res buf_t := buf_init.

(** [realloc]: the first bytes are kept; the fresh ones, indeterminate in
    C, are overwritten by the [memset] that follows. *)
Definition realloc_block (m : list Z) (n : Z) : list Z :=
  take (Z.to_nat n) m ++ replicate (Z.to_nat n - length m) 0.

(** [(0, b)] on success, [(1, b)] when [realloc] returns NULL. *)
Definition buf_realloc (b : buf_t) (size : Z) : res (Z * buf_t) :=
  if b_asize b <? size then
    if u32 (size + 1) =? 0 then Err UseAfterFree
    else if u32 (size + 1) <=? alloc_limit then
      m ← fill_loop (Z.to_nat (u32 (size - b_asize b + 1))) 0
            (realloc_block (b_mem b) (u32 (size + 1))) (b_asize b) (fun _ => Ok 0);
      Ok (0, Buf m (b_off b) (b_size b) size)
    else Ok (1, b)
  else Ok (0, b).

(** The callers that ignore the result of [buf_realloc]. *)
Definition buf_realloc_ (b : buf_t) (size : Z) : res buf_t :=
  p ← buf_realloc b size; Ok (snd p).

(** [data] is what is readable from the source pointer on. *)
Definition buf_add (data : list Z) (size : Z) : res buf_t :=
  b ← buf_init;
  b ← (if b_asize b <? size then buf_realloc_ b size else Ok b);
  m ← copy_loop (Z.to_nat size) 0 (b_mem b) (fun i => b_off b + i) data;
  Ok (set_size (set_mem b m) size).

Definition buf_add_buf (b : buf_t) : res buf_t :=
  buf_add (data_at b 0) (b_size b).

Definition buf_cat (dest src : buf_t) : res buf_t :=
  let s := u32 (b_size dest + b_size src) in
  dest ← (if b_asize dest <? s then buf_realloc_ dest s else Ok dest);
  let offset := b_size dest in
  m ← copy_loop (Z.to_nat (b_size src)) 0 (b_mem dest)
        (fun i => b_off dest + u32 (i + offset)) (data_at src 0);
  Ok (set_size (set_mem dest m) s).

Fixpoint cat_all (buf : buf_t) (args : list buf_t) : res buf_t :=
  match args with
  | [] => Ok buf
  | arg :: args => buf ← buf_cat buf arg; cat_all buf args
  end.

Definition buf_add_bufs (args : list buf_t) : res buf_t :=
  buf ← buf_init; cat_all buf args.

Fixpoint cmp_loop (n : nat) (i : Z) (a b : list Z) : res Z :=
  match n with
  | O => Ok 1
  | S n => x ← rd a i; y ← rd b i;
           if x =? y then cmp_loop n (i + 1) a b else Ok 0
  end.

(** 1 for equal, 0 for different; a difference in size is only printed. *)
Definition buf_cmp (a b : buf_t) : res Z :=
  cmp_loop (Z.to_nat (b_size a)) 0 (data_at a 0) (data_at b 0).

(** [while (lo < hi) { swap *lo, *hi; ++lo; --hi; }] *)
Fixpoint swap_loop (fuel : nat) (m : list Z) (lo hi : Z) : res (list Z) :=
  if lo <? hi then
    match fuel with
    | O => Err NoFuel
    | S fuel =>
        x ← rd m lo; y ← rd m hi;
        m ← wr m lo y; m ← wr m hi x;
        swap_loop fuel m (lo + 1) (hi - 1)
    end
  else Ok m.

Definition buf_swap (b : buf_t) : res buf_t :=
  m ← swap_loop (Z.to_nat (b_size b)) (b_mem b) (b_off b) (b_off b + b_size b - 1);
  Ok (set_mem b m).

Definition buf_add_ui32 (v : Z) : res buf_t := buf_add (le_bytes 4 v) 4.
Definition buf_add_ui64 (v : Z) : res buf_t := buf_add (le_bytes 8 v) 8.
(* A double is represented by its 64 bits. *)
Definition buf_add_double (v : Z) : res buf_t := buf_add (le_bytes 8 v) 8.

(** Loading an unsigned integer of [n] bytes on a little-endian machine. *)
Fixpoint rd_le (n : nat) (m : list Z) (i : Z) : res Z :=
  match n with
  | O => Ok 0
  | S n => b ← rd m i; r ← rd_le n m (i + 1); Ok (b + 256 * r)
  end.

Definition buf_get_ui32 (b : buf_t) : res Z := rd_le 4 (b_mem b) (b_off b).
Definition buf_get_ui64 (b : buf_t) : res Z := rd_le 8 (b_mem b) (b_off b).
Definition buf_get_double (b : buf_t) : res Z := rd_le 8 (b_mem b) (b_off b).

(** [now] is [time(NULL)]: the generator is reseeded on every call. *)
Definition buf_rand (now s : Z) : res buf_t :=
  b ← buf_init;
  m ← fill_loop (Z.to_nat s) 0 (b_mem b) (b_off b)
        (fun i => Ok (rand_seq (u32 now) (Z.to_nat i) mod 256));
  Ok (set_size (set_mem b m) s).

Definition buf_xor (a b : buf_t) : res buf_t :=
  r ← buf_init;
  r ← (if b_asize r <? b_size a then buf_realloc_ r (b_size a) else Ok r);
  m ← fill_loop (Z.to_nat (b_size a)) 0 (b_mem r) (b_off r)
        (fun i => x ← rd (data_at a 0) i; y ← rd (data_at b 0) i; Ok (Z.lxor x y));
  Ok (set_size (set_mem r m) (b_size a)).

Definition buf_cat_ui32 (dest : buf_t) (i : Z) : res buf_t :=
  src ← buf_add_ui32 i; buf_cat dest src.
Definition buf_cat_ui64 (dest : buf_t) (i : Z) : res buf_t :=
  src ← buf_add_ui64 i; buf_cat dest src.
Definition buf_cat_double (dest : buf_t) (i : Z) : res buf_t :=
  src ← buf_add_double i; buf_cat dest src.
Definition buf_cat_data (dest : buf_t) (data : list Z) (len : Z) : res buf_t :=
  src ← buf_add data len; buf_cat dest src.
Definition buf_cat_rand (now : Z) (dest : buf_t) (s : Z) : res buf_t :=
  src ← buf_rand now s; buf_cat dest src.

(** ** Well-formed buffers and their canonical form *)
Definition buf_wf (b : buf_t) : Prop :=
  zlen (b_mem b) = b_asize b + 1 /\ bytes_ok (b_mem b) /\
  0 <= b_off b /\ 0 <= b_size b /\ b_off b + b_size b <= b_asize b /\
  b_asize b < alloc_limit.

(** The buffer with contents [bs] and capacity [asz], zero past them. *)
Definition mk_buf (bs : list Z) (asz : Z) : buf_t :=
  Buf (bs ++ replicate (Z.to_nat (asz + 1) - length bs) 0) 0 (zlen bs) asz.

(** The buffer every constructor of buf.c returns. *)
Definition fresh (bs : list Z) : buf_t := mk_buf bs (Z.max BUFSIZ (zlen bs)).

(** [fits n]: the allocator can deliver a buffer of [n] bytes. *)
Definition fits (n : Z) : Prop := n < alloc_limit.

Lemma platform_bounds : 256 <= BUFSIZ < alloc_limit /\ alloc_limit < 4294967296.
Proof. pose proof BUFSIZ_min. pose proof alloc_limit_min. pose proof alloc_limit_max. lia. Qed.

End Buf.

Ltac platform := pose proof platform_bounds; unfold fits in *.
(* Side conditions on sizes. *)
Ltac blia := unfold fits, is_u32 in *; change (zlen (@nil Z)) with 0 in *; zpos; lia.

Section BufFacts.
Context `{Platform}.

Lemma mk_buf_wf bs asz :
  bytes_ok bs -> zlen bs <= asz -> asz < alloc_limit -> buf_wf (mk_buf bs asz).
Proof.
  intros. pose proof (zlen_nonneg bs). unfold buf_wf, mk_buf; cbn. repeat split; try lia.
  - zl. unfold zlen in *. lia.
  - auto with bytes.
Qed.

Lemma fresh_wf bs : bytes_ok bs -> fits (zlen bs) -> buf_wf (fresh bs).
Proof. intros. platform. apply mk_buf_wf; [done | lia | lia]. Qed.

Lemma contents_mk bs asz : contents (mk_buf bs asz) = bs.
Proof. unfold contents, mk_buf; cbn [b_mem b_off b_size]. by apply slice_app_l. Qed.
Lemma contents_fresh bs : contents (fresh bs) = bs.
Proof. apply contents_mk. Qed.
Lemma size_fresh bs : b_size (fresh bs) = zlen bs.
Proof. reflexivity. Qed.

Lemma zlen_contents b : buf_wf b -> zlen (contents b) = b_size b.
Proof. intros (Hm & _ & Ho & Hs & Hb & _). apply zlen_slice; lia. Qed.

Lemma contents_ok b : buf_wf b -> bytes_ok (contents b).
Proof. intros (_ & Hb & _). unfold contents. auto with bytes. Qed.

Lemma slice_data_at b n : slice (data_at b 0) 0 n = slice (b_mem b) (b_off b) n.
Proof. unfold slice, data_at. by rewrite Z.add_0_r. Qed.

Lemma zlen_data_at b k :
  0 <= b_off b + k -> zlen (data_at b k) = Z.max 0 (zlen (b_mem b) - b_off b - k).
Proof. intros. unfold data_at, zlen. rewrite length_drop. lia. Qed.

Lemma wf_data_at b : buf_wf b -> b_size b < zlen (data_at b 0).
Proof. intros (? & _ & ? & ? & ? & _). rewrite zlen_data_at; lia. Qed.

Lemma fresh_nil : fresh [] = mk_buf [] BUFSIZ.
Proof. platform. unfold fresh. by rewrite Z.max_l by blia. Qed.

(** ** What the constructors return *)
Lemma buf_init_ok : buf_init = Ok (fresh []).
Proof.
  platform. unfold buf_init. destruct (Z.leb_spec (BUFSIZ + 1) alloc_limit); [| lia].
  unfold fresh, mk_buf. change (zlen []) with 0. rewrite Z.max_l by lia. cbn [length app].
  by rewrite Nat.sub_0_r.
Qed.

Lemma splice_mk bs cs asz :
  zlen bs + zlen cs <= asz + 1 ->
  splice (b_mem (mk_buf bs asz)) (zlen bs) cs = b_mem (mk_buf (bs ++ cs) asz).
Proof.
  intros. unfold mk_buf; cbn [b_mem]. rewrite splice_at by done.
  rewrite drop_replicate, length_app, app_assoc. do 2 f_equal. lia.
Qed.

Lemma realloc_mk bs asz n :
  zlen bs <= asz -> asz < n -> fits n ->
  buf_realloc (mk_buf bs asz) n = Ok (0, Buf (b_mem (mk_buf bs n)) 0 (zlen bs) n).
Proof.
  intros Hb Hn Hf. platform. pose proof (zlen_nonneg bs).
  unfold buf_realloc. cbn [b_asize mk_buf b_mem b_off b_size].
  rewrite !u32_id by (unfold is_u32; lia).
  destruct (Z.ltb_spec asz n); [| lia]. destruct (Z.eqb_spec (n + 1) 0); [lia |].
  destruct (Z.leb_spec (n + 1) alloc_limit); [| lia].
  set (m := realloc_block _ _).
  assert (Hm : m = b_mem (mk_buf bs n)).
  { unfold m, realloc_block, mk_buf; cbn [b_mem].
    rewrite take_ge by (rewrite length_app, length_replicate; unfold zlen in *; lia).
    rewrite <- app_assoc, <- replicate_add, length_app, length_replicate.
    do 2 f_equal. unfold zlen in *. lia. }
  rewrite (fill_loop_ok _ _ _ _ _ (replicate (Z.to_nat (n - asz + 1)) 0));
    [| lia | lia | by rewrite length_replicate | | ].
  - rewrite Z.add_0_r, Hm. cbn. do 3 f_equal.
    unfold splice. rewrite length_replicate, drop_ge, app_nil_r
      by (rewrite length_app, length_replicate; unfold zlen in *; lia).
    rewrite take_app_ge by (unfold zlen in *; lia).
    rewrite take_replicate, <- app_assoc, <- replicate_add. do 2 f_equal.
    unfold zlen in *. lia.
  - intros j x Hx. by apply lookup_replicate in Hx as [-> _].
  - rewrite Hm. unfold mk_buf; cbn [b_mem]. zl. unfold zlen in *. lia.
Qed.

(** The step [if (n > asize) buf_realloc(&b, n)] on a canonical buffer. *)
Lemma grow_mk bs asz n :
  zlen bs <= asz -> fits n ->
  (if asz <? n then buf_realloc_ (mk_buf bs asz) n else Ok (mk_buf bs asz)) =
  Ok (mk_buf bs (Z.max asz n)).
Proof.
  intros Hb Hn. destruct (Z.ltb_spec asz n).
  - unfold buf_realloc_. rewrite realloc_mk by done. cbn [mbind res_bind snd].
    by rewrite Z.max_r by lia.
  - by rewrite Z.max_l by lia.
Qed.

(** The first growth of a new buffer. *)
Lemma realloc_fresh n :
  fits n -> buf_realloc (fresh []) n = Ok (0, mk_buf [] (Z.max BUFSIZ n)).
Proof.
  intros Hf. platform. rewrite fresh_nil. destruct (Z.ltb_spec BUFSIZ n).
  - rewrite realloc_mk by (try done; change (zlen []) with 0; lia). by rewrite Z.max_r by lia.
  - unfold buf_realloc. cbn [b_asize mk_buf]. destruct (Z.ltb_spec BUFSIZ n); [lia |].
    by rewrite Z.max_l by lia.
Qed.

Lemma take_slice (l : list Z) n : take (Z.to_nat n) l = slice l 0 n.
Proof. reflexivity. Qed.

Lemma buf_add_ok data n :
  0 <= n <= zlen data -> fits n ->
  buf_add data n = Ok (fresh (take (Z.to_nat n) data)).
Proof.
  intros Hn Hf. platform. unfold buf_add. rewrite buf_init_ok, res_bind_ok.
  rewrite fresh_nil.
  cbn [b_asize mk_buf]. rewrite grow_mk, res_bind_ok by blia.
  rewrite (copy_loop_ok _ _ _ _ 0) by
    (try (cbn; lia); unfold mk_buf; cbn [b_mem app length]; zl).
  rewrite res_bind_ok, Z2Nat.id by lia.
  change (0 + 0) with (zlen (@nil Z)) at 1. rewrite take_slice.
  assert (Hl : zlen (slice data 0 n) = n) by (apply zlen_slice; lia).
  rewrite splice_mk by (rewrite Hl; change (zlen []) with 0; lia).
  cbn [app]. unfold fresh. rewrite Hl. unfold set_mem, set_size, mk_buf. cbn. by rewrite Hl.
Qed.

Lemma buf_add_oob data n : zlen data < n -> fits n -> buf_add data n = Err OutOfBounds.
Proof.
  intros Hn Hf. platform. pose proof (zlen_nonneg data). unfold buf_add.
  rewrite buf_init_ok, res_bind_ok.
  rewrite fresh_nil.
  cbn [b_asize mk_buf]. rewrite grow_mk, res_bind_ok by blia.
  by rewrite copy_loop_src_oob by lia.
Qed.

Lemma buf_add_all data : fits (zlen data) -> buf_add data (zlen data) = Ok (fresh data).
Proof.
  intros. pose proof (zlen_nonneg data). rewrite buf_add_ok by (done || lia).
  unfold zlen. by rewrite Nat2Z.id, take_ge.
Qed.

Lemma buf_cat_mk bs asz src :
  zlen bs <= asz -> buf_wf src -> fits (zlen bs + b_size src) ->
  buf_cat (mk_buf bs asz) src =
  Ok (mk_buf (bs ++ contents src) (Z.max asz (zlen bs + b_size src))).
Proof.
  intros Hb Hw Hf. platform. pose proof (zlen_nonneg bs). pose proof Hw as (? & _ & ? & ? & ? & _).
  pose proof (wf_data_at src Hw) as Hd. unfold buf_cat. cbn [b_size mk_buf b_asize].
  rewrite u32_id by (unfold is_u32; lia).
  rewrite grow_mk by blia. rewrite res_bind_ok. cbn [b_size mk_buf b_off].
  rewrite (copy_loop_ok _ _ _ _ (zlen bs)); [| | lia | lia | lia |].
  - rewrite res_bind_ok, Z2Nat.id, Z.add_0_r, slice_data_at by lia. fold (contents src).
    pose proof (zlen_contents src Hw) as Hc.
    rewrite splice_mk by lia. unfold set_mem, set_size, mk_buf. cbn.
    by rewrite zlen_app, Hc.
  - intros j Hj. rewrite u32_id by (unfold is_u32; lia). lia.
  - unfold mk_buf; cbn [b_mem]. zl. unfold zlen in *. lia.
Qed.

(** Appending to a canonical buffer appends the contents. *)
Lemma buf_cat_ok bs src :
  buf_wf src -> fits (zlen bs + b_size src) ->
  buf_cat (fresh bs) src = Ok (fresh (bs ++ contents src)).
Proof.
  intros Hw Hf. unfold fresh. rewrite buf_cat_mk by (done || lia).
  rewrite zlen_app, (zlen_contents _ Hw). do 2 f_equal.
  destruct Hw as (_ & _ & _ & ? & _). lia.
Qed.

Lemma buf_cat_fresh bs cs :
  bytes_ok cs -> fits (zlen bs + zlen cs) ->
  buf_cat (fresh bs) (fresh cs) = Ok (fresh (bs ++ cs)).
Proof.
  intros Hc Hf. pose proof (zlen_nonneg bs). rewrite buf_cat_ok.
  - by rewrite contents_fresh.
  - apply fresh_wf; [done |]. unfold fits in *. lia.
  - done.
Qed.

Lemma buf_add_buf_ok b : buf_wf b -> buf_add_buf b = Ok (fresh (contents b)).
Proof.
  intros Hw. platform. pose proof (wf_data_at b Hw). pose proof Hw as (_ & _ & ? & ? & ? & ?).
  unfold buf_add_buf. rewrite buf_add_ok by blia. do 2 f_equal.
  by rewrite take_slice, slice_data_at.
Qed.

Lemma cat_all_ok bs args :
  Forall buf_wf args ->
  fits (zlen bs + zlen (concat (contents <$> args))) ->
  cat_all (fresh bs) args = Ok (fresh (bs ++ concat (contents <$> args))).
Proof.
  intros Hw. revert bs. induction Hw as [|a args Ha _ IH]; intros bs Hf; cbn [cat_all].
  { by rewrite app_nil_r. }
  cbn [fmap list_fmap concat] in *. rewrite zlen_app in Hf.
  rewrite (zlen_contents a Ha) in Hf. pose proof (zlen_nonneg (concat (contents <$> args))).
  rewrite buf_cat_ok, res_bind_ok by (done || blia).
  rewrite IH; [by rewrite <- app_assoc |].
  rewrite zlen_app, (zlen_contents a Ha). blia.
Qed.

Lemma buf_add_bufs_ok args :
  Forall buf_wf args -> fits (zlen (concat (contents <$> args))) ->
  buf_add_bufs args = Ok (fresh (concat (contents <$> args))).
Proof.
  intros. unfold buf_add_bufs. rewrite buf_init_ok, res_bind_ok.
  by rewrite cat_all_ok.
Qed.

Lemma fits_small n : n <= 256 -> fits n.
Proof. intros. platform. lia. Qed.

Lemma buf_add_ui32_ok v : buf_add_ui32 v = Ok (fresh (le_bytes 4 v)).
Proof. apply (buf_add_all (le_bytes 4 v)), fits_small. by rewrite zlen_le_bytes. Qed.
Lemma buf_add_ui64_ok v : buf_add_ui64 v = Ok (fresh (le_bytes 8 v)).
Proof. apply (buf_add_all (le_bytes 8 v)), fits_small. by rewrite zlen_le_bytes. Qed.

Lemma buf_cat_data_ok bs data n :
  bytes_ok data -> 0 <= n <= zlen data -> 0 <= n -> fits (zlen bs + n) ->
  buf_cat_data (fresh bs) data n = Ok (fresh (bs ++ take (Z.to_nat n) data)).
Proof.
  intros Hb Hn Hn0 Hf. pose proof (zlen_nonneg bs). unfold buf_cat_data.
  rewrite buf_add_ok, res_bind_ok by blia.
  rewrite buf_cat_fresh; [done | auto with bytes |].
  rewrite take_slice, zlen_slice; blia.
Qed.

Lemma buf_cat_ui32_ok bs v :
  fits (zlen bs + 4) -> buf_cat_ui32 (fresh bs) v = Ok (fresh (bs ++ le_bytes 4 v)).
Proof.
  intros. unfold buf_cat_ui32. rewrite buf_add_ui32_ok, res_bind_ok.
  rewrite buf_cat_fresh; auto with bytes.
Qed.
Lemma buf_cat_ui64_ok bs v :
  fits (zlen bs + 8) -> buf_cat_ui64 (fresh bs) v = Ok (fresh (bs ++ le_bytes 8 v)).
Proof.
  intros. unfold buf_cat_ui64. rewrite buf_add_ui64_ok, res_bind_ok.
  rewrite buf_cat_fresh; auto with bytes.
Qed.

(** ** Reading integers *)
Lemma rd_le_ok n : forall m i,
  0 <= i -> i + Z.of_nat n <= zlen m -> rd_le n m i = Ok (le_num (slice m i (Z.of_nat n))).
Proof.
  induction n as [|n IH]; intros m i Hi Hl; cbn [rd_le]; [done |].
  destruct (rd_in_bounds m i) as (b & -> & Hb); [lia |]. rewrite res_bind_ok, IH by lia.
  rewrite res_bind_ok. do 2 f_equal. unfold slice. rewrite !Nat2Z.id.
  rewrite (drop_S m b (Z.to_nat i)) by done.
  replace (Z.to_nat (i + 1)) with (S (Z.to_nat i)) by lia. done.
Qed.

Lemma buf_get_ui32_ok b :
  buf_wf b -> 3 <= b_asize b - b_off b ->
  buf_get_ui32 b = Ok (le_num (slice (b_mem b) (b_off b) 4)).
Proof. intros (? & _ & ? & _) ?. apply (rd_le_ok 4); lia. Qed.

Lemma slice_app_ge (m k : list Z) off n :
  0 <= off -> 0 <= n -> off + n <= zlen m -> slice (m ++ k) off n = slice m off n.
Proof.
  intros. unfold slice, zlen in *. rewrite drop_app_le by lia.
  apply take_app_le. rewrite length_drop. lia.
Qed.

Lemma buf_get_ui32_fresh bs :
  4 <= zlen bs -> buf_get_ui32 (fresh bs) = Ok (le_num (take 4 bs)).
Proof.
  intros. unfold buf_get_ui32, fresh, mk_buf. cbn [b_mem b_off].
  rewrite (rd_le_ok 4) by (rewrite ?zlen_app, ?zlen_replicate; lia).
  by rewrite slice_app_ge by lia.
Qed.
Lemma buf_get_ui64_fresh bs :
  8 <= zlen bs -> buf_get_ui64 (fresh bs) = Ok (le_num (take 8 bs)).
Proof.
  intros. unfold buf_get_ui64, fresh, mk_buf. cbn [b_mem b_off].
  rewrite (rd_le_ok 8) by (rewrite ?zlen_app, ?zlen_replicate; lia). by rewrite slice_app_ge by lia.
Qed.

(** ** Reversal *)
Lemma rd_mid (a r : list Z) x : rd (a ++ x :: r) (zlen a) = Ok x.
Proof. rewrite rd_app_r, Z.sub_diag by lia. done. Qed.

Lemma wr_mid (a r : list Z) x y : wr (a ++ x :: r) (zlen a) y = Ok (a ++ y :: r).
Proof.
  pose proof (zlen_nonneg a). pose proof (zlen_nonneg r).
  rewrite wr_ok by (rewrite zlen_app, zlen_cons; lia).
  by rewrite splice_at.
Qed.

Lemma swap_loop_ok fuel : forall a w c,
  (length w <= fuel)%nat ->
  swap_loop fuel (a ++ w ++ c) (zlen a) (zlen a + zlen w - 1) = Ok (a ++ rev w ++ c).
Proof.
  induction fuel as [|fuel IH]; intros a w c Hf.
  { destruct w; [| simpl in Hf; lia]. cbn [swap_loop]. change (zlen []) with 0.
    destruct (Z.ltb_spec (zlen a) (zlen a + 0 - 1)); [lia | done]. }
  destruct w as [|x w].
  { cbn [swap_loop]. change (zlen []) with 0.
    destruct (Z.ltb_spec (zlen a) (zlen a + 0 - 1)); [lia | done]. }
  destruct (List.exists_last (l := x :: w)) as (w' & y & Hy); [done |].
  destruct w' as [|x' w'].
  { injection Hy as -> ->. cbn [swap_loop].
    replace (zlen a + zlen [y] - 1) with (zlen a) by (rewrite zlen_cons; zl).
    by rewrite Z.ltb_irrefl. }
  injection Hy as <- ->. cbn [swap_loop].
  rewrite !zlen_cons, !zlen_app. change (zlen [y]) with 1.
  pose proof (zlen_nonneg w').
  destruct (Z.ltb_spec (zlen a) (zlen a + (zlen w' + 1 + 1) - 1)); [| lia].
  cbn [app]. rewrite rd_mid, res_bind_ok.
  set (m := a ++ x :: (w' ++ [y]) ++ c).
  replace m with ((a ++ x :: w') ++ y :: c)
    by (unfold m; rewrite <- !app_assoc; done).
  replace (zlen a + (zlen w' + 1 + 1) - 1) with (zlen (a ++ x :: w'))
    by (rewrite zlen_app, zlen_cons; lia).
  rewrite rd_mid, res_bind_ok. rewrite <- app_assoc. cbn [app].
  rewrite wr_mid, res_bind_ok.
  replace (a ++ y :: w' ++ y :: c) with ((a ++ y :: w') ++ y :: c)
    by (by rewrite <- app_assoc).
  replace (zlen (a ++ x :: w')) with (zlen (a ++ y :: w')) by (by rewrite !zlen_app).
  rewrite wr_mid, res_bind_ok.
  replace ((a ++ y :: w') ++ x :: c) with ((a ++ [y]) ++ w' ++ x :: c)
    by (by rewrite <- !app_assoc).
  replace (zlen a + 1) with (zlen (a ++ [y])) by (by rewrite zlen_app).
  replace (zlen (a ++ y :: w') - 1) with (zlen (a ++ [y]) + zlen w' - 1)
    by (rewrite !zlen_app, !zlen_cons; zl).
  rewrite IH.
  - f_equal. rewrite <- !app_assoc. cbn [app rev]. by rewrite rev_app_distr, <- !app_assoc.
  - cbn [length] in Hf. rewrite length_app in Hf. cbn [length] in Hf. lia.
Qed.

Lemma wf_split b :
  buf_wf b -> exists a c, b_mem b = a ++ contents b ++ c /\ zlen a = b_off b.
Proof.
  intros (Hm & _ & Ho & Hs & Hb & _).
  destruct (split_at (b_mem b) (b_off b)) as (a & r & Hr & Ha); [lia |].
  assert (zlen r = zlen (b_mem b) - zlen a) by (rewrite Hr, zlen_app; lia).
  destruct (split_at r (b_size b)) as (w & c & -> & Hw); [lia |].
  exists a, c. split; [| done]. unfold contents. rewrite Hr, <- Ha.
  rewrite (slice_app_r a) by done. by rewrite (slice_app_l w) by done.
Qed.

Lemma buf_swap_ok b :
  buf_wf b -> exists r, buf_swap b = Ok r /\ buf_wf r /\ contents r = rev (contents b) /\
    b_size r = b_size b /\ b_off r = b_off b.
Proof.
  intros Hw. destruct (wf_split b Hw) as (a & c & Hm & Ha).
  pose proof (zlen_contents b Hw) as Hc. pose proof (contents_ok b Hw) as Hok.
  destruct Hw as (Hl & Hb & Ho & Hs & Hd & Hf).
  remember (contents b) as w eqn:Ew. clear Ew. unfold buf_swap. rewrite Hm, <- Ha, <- Hc, swap_loop_ok
    by (unfold zlen; lia).
  eexists; split; [reflexivity |]. rewrite Hm in Hb, Hl.
  unfold buf_wf, contents, set_mem; cbn [b_mem b_off b_size b_asize].
  rewrite <- Ha, <- Hc, (slice_app_r a) by done.
  rewrite (slice_app_l (rev _)) by (unfold zlen; by rewrite length_rev).
  rewrite !zlen_app in Hl. rewrite !Forall_app in Hb |- *.
  repeat split; try done; try lia.
  - rewrite !zlen_app. unfold zlen at 2. rewrite length_rev. unfold zlen in *. lia.
  - tauto.
  - by apply Forall_rev.
  - tauto.
Qed.

(** ** Comparison *)
Lemma cmp_loop_ok n : forall i a b,
  0 <= i -> i + Z.of_nat n <= zlen a -> i + Z.of_nat n <= zlen b ->
  cmp_loop n i a b =
  Ok (if decide (slice a i (Z.of_nat n) = slice b i (Z.of_nat n)) then 1 else 0).
Proof.
  induction n as [|n IH]; intros i a b Hi Ha Hb; cbn [cmp_loop]; [done |].
  destruct (rd_in_bounds a i) as (x & -> & Hx); [lia |].
  destruct (rd_in_bounds b i) as (y & -> & Hy); [lia |].
  rewrite !res_bind_ok. unfold slice in *. rewrite !Nat2Z.id in *.
  rewrite (drop_S a x (Z.to_nat i)), (drop_S b y (Z.to_nat i)) by done.
  cbn [take firstn]. destruct (Z.eqb_spec x y) as [-> | Hne].
  - rewrite IH by lia. replace (Z.to_nat (i + 1)) with (S (Z.to_nat i)) by lia.
    repeat case_decide; congruence.
  - case_decide; congruence.
Qed.

Lemma buf_cmp_ok a b :
  buf_wf a -> buf_wf b -> b_size a = b_size b ->
  buf_cmp a b = Ok (if decide (contents a = contents b) then 1 else 0).
Proof.
  intros Ha Hb Hs. pose proof (wf_data_at a Ha). pose proof (wf_data_at b Hb).
  pose proof Ha as (_ & _ & _ & ? & _).
  unfold buf_cmp. rewrite cmp_loop_ok by lia. rewrite Z2Nat.id, !slice_data_at by lia.
  unfold contents. by rewrite Hs.
Qed.

(** ** Exclusive or *)
Definition xor_bytes (xs ys : list Z) : list Z := zip_with Z.lxor xs ys.

Lemma buf_xor_ok xs ys :
  zlen xs <= zlen ys -> fits (zlen xs) ->
  buf_xor (fresh xs) (fresh ys) = Ok (fresh (xor_bytes xs ys)).
Proof.
  intros Hl Hf. platform. pose proof (zlen_nonneg xs). unfold buf_xor.
  rewrite buf_init_ok, res_bind_ok. rewrite !size_fresh.
  assert (Hx : zlen (xor_bytes xs ys) = zlen xs).
  { unfold xor_bytes, zlen in *. rewrite length_zip_with. lia. }
  rewrite fresh_nil.
  cbn [b_asize mk_buf]. rewrite grow_mk, res_bind_ok by blia.
  rewrite (fill_loop_ok _ _ _ _ _ (xor_bytes xs ys)).
  - rewrite res_bind_ok. change (b_off _ + 0) with (zlen (@nil Z)).
    rewrite splice_mk by blia. unfold fresh, set_size, set_mem, mk_buf. cbn. by rewrite Hx.
  - lia.
  - done.
  - unfold zlen in Hx. unfold zlen. lia.
  - intros j z Hz. unfold xor_bytes in Hz.
    apply lookup_zip_with_Some in Hz as (x & y & -> & Hj & Hk).
    unfold data_at. cbn [b_off b_mem fresh mk_buf]. change (Z.to_nat (0 + 0)) with 0%nat.
    rewrite !drop_0, Z.add_0_l.
    by rewrite (rd_prefix xs _ j x Hj), res_bind_ok, (rd_prefix ys _ j y Hk).
  - unfold mk_buf; cbn [b_mem b_off app length]. rewrite zlen_replicate. blia.
Qed.

(** ** Random bytes *)
Definition rand_bytes (now : Z) (n : nat) : list Z :=
  (fun i => rand_seq (u32 now) i mod 256) <$> seq 0 n.

Lemma rand_bytes_ok now n : bytes_ok (rand_bytes now n).
Proof.
  unfold rand_bytes. apply Forall_fmap, Forall_true. intros i. cbn.
  unfold is_byte. apply Z.mod_pos_bound. lia.
Qed.

Lemma zlen_rand_bytes now n : zlen (rand_bytes now n) = Z.of_nat n.
Proof. unfold zlen, rand_bytes. by rewrite length_fmap, length_seq. Qed.

Lemma buf_rand_ok now n :
  0 <= n <= BUFSIZ -> buf_rand now n = Ok (fresh (rand_bytes now (Z.to_nat n))).
Proof.
  intros Hn. platform. unfold buf_rand. rewrite buf_init_ok, res_bind_ok.
  rewrite fresh_nil.
  rewrite (fill_loop_ok _ _ _ _ _ (rand_bytes now (Z.to_nat n))).
  - rewrite res_bind_ok. change (b_off _ + 0) with (zlen (@nil Z)).
    pose proof (zlen_rand_bytes now (Z.to_nat n)) as Hl. rewrite Z2Nat.id in Hl by lia.
    rewrite splice_mk by blia. unfold fresh, set_size, set_mem, mk_buf.
    rewrite Hl, Z.max_l by lia. cbn. done.
  - lia.
  - done.
  - unfold rand_bytes. by rewrite length_fmap, length_seq.
  - intros j x Hx. unfold rand_bytes in Hx. rewrite list_lookup_fmap in Hx.
    destruct (seq 0 _ !! j) as [k|] eqn:Hk; [| done]. apply lookup_seq in Hk as [-> ?].
    injection Hx as <-. do 4 f_equal. lia.
  - unfold mk_buf; cbn [b_mem b_off app length]. rewrite zlen_replicate. lia.
Qed.

(** ** Buffers in general *)
Lemma buf_realloc_wf b n :
  buf_wf b -> b_asize b < n -> fits n ->
  exists m, buf_realloc b n = Ok (0, Buf m (b_off b) (b_size b) n) /\
    zlen m = n + 1 /\ bytes_ok m /\
    exists t, m = take (Z.to_nat (b_asize b)) (b_mem b) ++ t.
Proof.
  intros (Hl & Hb & Ho & Hs & Hd & Ha) Hn Hf. platform.
  unfold buf_realloc. rewrite !u32_id by blia.
  destruct (Z.ltb_spec (b_asize b) n); [| lia]. destruct (Z.eqb_spec (n + 1) 0); [lia |].
  destruct (Z.leb_spec (n + 1) alloc_limit); [| lia].
  set (r := realloc_block _ _).
  assert (Hr : r = b_mem b ++ replicate (Z.to_nat (n + 1) - length (b_mem b)) 0).
  { unfold r, realloc_block. rewrite take_ge; [done |]. unfold zlen in *. lia. }
  assert (Hrl : zlen r = n + 1) by (rewrite Hr, zlen_app, zlen_replicate; unfold zlen in *; lia).
  set (z := replicate (Z.to_nat (n - b_asize b + 1)) 0).
  assert (Hz : zlen z = n - b_asize b + 1) by (unfold z; rewrite zlen_replicate; lia).
  rewrite (fill_loop_ok _ _ _ _ _ z);
    [| lia | lia | unfold z; by rewrite length_replicate | | lia ].
  2: { intros j x Hx. by apply lookup_replicate in Hx as [-> _]. }
  rewrite Z.add_0_r, res_bind_ok. eexists; split; [reflexivity |]. split; [| split].
  - rewrite zlen_splice; lia.
  - apply splice_forall; [| unfold z; auto with bytes].
    rewrite Hr. auto with bytes.
  - unfold splice. rewrite Hr, take_app_le by (unfold zlen in *; lia). eauto.
Qed.

Lemma grow_wf b n :
  buf_wf b -> fits n ->
  exists b', (if b_asize b <? n then buf_realloc_ b n else Ok b) = Ok b' /\ buf_wf b' /\
    n <= b_asize b' /\ b_off b' = b_off b /\ b_size b' = b_size b /\
    contents b' = contents b /\ b_asize b' < alloc_limit.
Proof.
  intros Hw Hf. pose proof Hw as (Hl & Hb & Ho & Hs & Hd & Ha). unfold fits in *.
  destruct (Z.ltb_spec (b_asize b) n) as [Hn | Hn]; [| by exists b].
  destruct (buf_realloc_wf b n Hw Hn Hf) as (m & Hm & Hml & Hmb & t & Ht).
  unfold buf_realloc_. rewrite Hm. eexists; split; [reflexivity |]. cbn.
  repeat split; cbn; try done; try lia.
  unfold contents; cbn. rewrite Ht. unfold slice.
  assert (Z.to_nat (b_off b) + Z.to_nat (b_size b) <= Z.to_nat (b_asize b))%nat by lia.
  rewrite drop_app_le by (rewrite length_take; unfold zlen in *; lia).
  rewrite take_app_le by (rewrite length_drop, length_take; unfold zlen in *; lia).
  rewrite skipn_firstn_comm, take_take. f_equal. lia.
Qed.

(** C37: appending keeps the invariant and concatenates the contents.  For
    every well-formed destination whose window starts at its block and
    every well-formed source, [buf_cat] succeeds (growing the block when
    it must), returns a well-formed buffer at offset 0, and its contents
    are those of the destination followed by those of the source. *)
Theorem buf_cat_appends dest src :
  buf_wf dest -> b_off dest = 0 -> buf_wf src -> fits (b_size dest + b_size src) ->
  exists r, buf_cat dest src = Ok r /\ buf_wf r /\ b_off r = 0 /\
    contents r = contents dest ++ contents src.
Proof.
  intros Hd H0 Hs Hf. platform.
  pose proof (wf_data_at src Hs) as Hsd. pose proof (contents_ok src Hs) as Hsb.
  pose proof (zlen_contents src Hs) as Hsl. pose proof (zlen_contents dest Hd) as Hdl.
  pose proof Hs as (_ & _ & _ & ? & _). pose proof Hd as (_ & _ & _ & ? & _).
  unfold buf_cat. rewrite u32_id by blia.
  destruct (grow_wf dest (b_size dest + b_size src) Hd Hf)
    as (d & -> & Hdw & Hda & Hdo & Hds & Hdc & Hdf). rewrite res_bind_ok, Hdo, H0.
  pose proof Hdw as (Hl & Hb & _). rewrite <- Hdc in *.
  rewrite (copy_loop_ok _ _ _ _ (b_size dest));
    [| intros; rewrite u32_id by blia; lia | lia | lia | lia | lia].
  rewrite res_bind_ok, Z2Nat.id, Z.add_0_r, slice_data_at by lia. fold (contents src).
  remember (contents src) as w eqn:Ew. clear Ew.
  eexists; split; [reflexivity |].
  unfold buf_wf, set_mem, set_size; cbn [b_mem b_off b_size b_asize].
  rewrite Hdo, H0 in *. repeat split; try lia.
  - rewrite zlen_splice; lia.
  - auto with bytes.
  - unfold contents; cbn [b_mem b_off b_size b_asize]. unfold splice.
    rewrite ?Hdo, ?H0, !slice_0, Hds, app_assoc.
    rewrite take_app_le, take_ge; [done | |];
      rewrite length_app, length_take; unfold zlen in *; lia.
Qed.

(** [buf_cat] overflows the heap block of an advanced buffer.  The
    capacity test compares the total size with [asize] and forgets the
    distance [data - aptr] by which the deserializers advance [data]: when
    the total fits in [asize] but not behind the offset, the copy writes
    past the block. *)
Theorem buf_cat_advanced_overflow dest src :
  buf_wf dest -> buf_wf src ->
  b_size dest + b_size src <= b_asize dest ->
  b_asize dest + 1 < b_off dest + b_size dest + b_size src ->
  buf_cat dest src = Err OutOfBounds.
Proof.
  intros Hd Hs Hfit Hover. platform.
  pose proof Hd as (Hl & _ & ? & ? & ? & ?). pose proof Hs as (_ & _ & _ & ? & _).
  pose proof (wf_data_at src Hs). unfold buf_cat. rewrite u32_id by blia.
  destruct (Z.ltb_spec (b_asize dest) (b_size dest + b_size src)); [lia |].
  rewrite res_bind_ok. rewrite copy_loop_dst_oob; [done | lia | lia | lia |].
  rewrite Z2Nat.id, u32_id by blia. lia.
Qed.

(** two random buffers drawn in the same second are prefixes of one
    another.  [buf_rand] reseeds the generator with [time(NULL)] on every
    call, so a 16-byte nonce sent in clear text is the beginning of every
    longer secret generated within that second. *)
Theorem buf_rand_same_second now now' m n :
  u32 now = u32 now' -> 0 <= m <= n -> n <= BUFSIZ ->
  exists a b, buf_rand now m = Ok a /\ buf_rand now' n = Ok b /\
    zlen (contents a) = m /\ contents a = take (Z.to_nat m) (contents b).
Proof.
  intros Hs Hm Hn. exists (fresh (rand_bytes now (Z.to_nat m))).
  exists (fresh (rand_bytes now' (Z.to_nat n))).
  rewrite !buf_rand_ok by lia. rewrite !contents_fresh.
  split; [done |]. split; [done |]. split; [rewrite zlen_rand_bytes; lia |].
  unfold rand_bytes. rewrite Hs, <- fmap_take. f_equal. rewrite take_seq. f_equal. lia.
Qed.

End BufFacts.
