(* ===== verification/Serial.v ===== *)
(** * TL strings and object dispatch: libtg/tl/serialize.c, deserialize.c

    [serialize_bytes], [serialize_string] and [serialize_str] write the TL
    encoding of a byte string; the [deserialize_*] functions read from the
    window of a buffer and advance it; [tl_deserialize] and [tl_free]
    dispatch on the constructor id through the tables the TL generator
    writes.  Those tables are parameters here.  A function that takes a
    [buf_t *] returns the updated buffer beside its result. *)
From S2P Require Import Prelude TlBuf.

(** [b->data += k; b->size -= k;] *)
Definition advance (b : buf_t) (k : Z) : buf_t :=
  Buf (b_mem b) (b_off b + k) (u32 (b_size b - k)) (b_asize b).

(** The address of the first NUL byte relative to the pointer. *)
Fixpoint strlen (s : list Z) : res Z :=
  match s with
  | [] => Err OutOfBounds
  | c :: s => if c =? 0 then Ok 0 else n ← strlen s; Ok (n + 1)
  end.

Section Serial.
Context `{Platform}.

(** A fresh buffer whose size is set to [pad]: [pad] zero bytes. *)
Definition pad_buf (pad : Z) : res buf_t :=
  p ← buf_init; Ok (set_size p pad).

(** [int pad = (4 - (s.size % 4)) % 4;] *)
Definition pad_of (size : Z) : Z := (4 - size mod 4) mod 4.

Definition serialize_bytes (bytes : list Z) (size : Z) : res buf_t :=
  if size <=? 253 then
    s ← buf_add (le_bytes 8 size) 1;
    b ← buf_add bytes size;
    s ← buf_cat s b;
    p ← pad_buf (pad_of (b_size s));
    buf_cat s p
  else
    s ← buf_add [254] 1;
    len ← buf_add (le_bytes 8 size) 3;
    s ← buf_cat s len;
    b ← buf_add bytes (u32 size);
    s ← buf_cat s b;
    let pad := pad_of (b_size s) in
    if pad =? 0 then Ok s else p ← pad_buf pad; buf_cat s p.

Definition serialize_string (string : list Z) : res buf_t :=
  n ← strlen string; serialize_bytes string n.

(** True when the flag is _not_ set. *)
Definition flag_is_set (value flag : Z) : bool :=
  let flagb := Z.shiftl 1 flag in negb (Z.land value flagb =? flagb).

Definition serialize_str (b : buf_t) : res buf_t :=
  s ← buf_init;
  let size := b_size b in
  if size <=? 253 then
    s ← buf_add (le_bytes 4 size) 1;
    s ← buf_cat s b;
    p ← pad_buf (pad_of (b_size s));
    buf_cat s p
  else if 254 <=? size then
    s ← buf_add [254] 1;
    len ← buf_add (le_bytes 4 size) 3;
    s ← buf_cat s len;
    s ← buf_cat s b;
    let pad := pad_of (b_size s) in
    if pad =? 0 then Ok s else p ← pad_buf pad; buf_cat s p
  else Ok s.

Definition deserialize_ui32 (b : buf_t) : res (Z * buf_t) :=
  c ← buf_get_ui32 b; Ok (c, advance b 4).
Definition deserialize_ui64 (b : buf_t) : res (Z * buf_t) :=
  c ← buf_get_ui64 b; Ok (c, advance b 8).
Definition deserialize_double (b : buf_t) : res (Z * buf_t) :=
  c ← buf_get_double b; Ok (c, advance b 8).

(** [size] is a C [int]; [buf_add] takes it as a [uint32_t]. *)
Definition deserialize_buf (b : buf_t) (size : Z) : res (buf_t * buf_t) :=
  ret ← buf_add (data_at b 0) (u32 size);
  Ok (ret, advance b size).

Definition deserialize_bytes (b : buf_t) : res (buf_t * buf_t) :=
  s ← buf_init;
  byte ← buf_add (data_at b 0) 4;
  b0 ← rd (data_at byte 0) 0;
  r ← (if b0 <=? 253 then
         let len := b0 in
         let b := advance b 1 in
         s ← buf_add (data_at b 0) len;
         Ok (s, b, len, 1)
       else if 254 <=? b0 then
         s1 ← buf_add [254] 1;
         s2 ← buf_add (data_at b 0) 1;
         eq ← buf_cmp s1 s2;   (* a mismatch is only printed *)
         len_ ← buf_add (data_at b 1) 3;
         len ← buf_get_ui32 (set_size len_ 4);
         let b := advance b 4 in
         s ← buf_add (data_at b 0) len;
         Ok (s, b, len, 0)
       else Ok (s, b, 0, 0));
  let '(s, b, len, offset) := r in
  let b := advance b len in
  let pad := (4 - u32 (len + offset) mod 4) mod 4 in
  let b := if pad =? 0 then b else advance b pad in
  Ok (s, b).

Record mtp_message_t := MtpMessage {
  msg_id : Z; seqno : Z; bytes : Z; body : buf_t
}.

(** The fields are a [long] and two [int]s; [bytes] is read back as such. *)
Definition deserialize_mtp_message (b : buf_t) : res (mtp_message_t * buf_t) :=
  '(id, b) ← deserialize_ui64 b;
  '(sq, b) ← deserialize_ui32 b;
  '(n, b) ← deserialize_ui32 b;
  '(bd, b) ← deserialize_buf b (i32 n);
  Ok (MtpMessage (to_long id) (i32 sq) (i32 n) bd, b).

Definition id_from_tl_buf (b : buf_t) : res Z := buf_get_ui32 b.

End Serial.

(** ** Dispatch tables *)
Section Tables.
Context `{Platform} {tl_t : Type}.

(** [tl_deserialize_table] and [tl_free_table] are generated: an id and a
    function per constructor.  [tl_id] reads [tl->_id]. *)
Variable tl_deserialize_table : list (Z * (buf_t -> res (option tl_t * buf_t))).
Variable tl_free_table : list (Z * (tl_t -> res unit)).
Variable tl_id : tl_t -> Z.

Fixpoint find_id {F} (i : nat) (table : list (Z * F)) (id : Z) : option (nat * F) :=
  match table with
  | [] => None
  | (k, fn) :: table => if k =? id then Some (i, fn) else find_id (S i) table id
  end.

Definition get_fun (id : Z) : option (buf_t -> res (option tl_t * buf_t)) :=
  match find_id 0 tl_deserialize_table id with
  | Some (_, fn) => Some fn
  | None => None
  end.

(** [NULL] for a zero id and for an unknown one. *)
Definition tl_deserialize (b : buf_t) : res (option tl_t * buf_t) :=
  id ← buf_get_ui32 b;
  if id =? 0 then Ok (None, b)
  else match get_fun id with
       | None => Ok (None, b)
       | Some fn => fn b
       end.

(** The position is looked up in the deserialize table, the function taken
    from the free table. *)
Definition get_free_fun (id : Z) : res (option (tl_t -> res unit)) :=
  match find_id 0 tl_deserialize_table id with
  | None => Ok None
  | Some (i, _) =>
      match tl_free_table !! i with
      | Some (_, fn) => Ok (Some fn)
      | None => Err OutOfBounds
      end
  end.

Definition tl_free (tl : option tl_t) : res unit :=
  match tl with
  | None => Ok tt
  | Some tl =>
      fn ← get_free_fun (tl_id tl);
      match fn with None => Ok tt | Some fn => fn tl end
  end.
End Tables.

(** ** The TL encoding of a byte string *)
Definition tl_head (n : Z) : list Z :=
  if n <=? 253 then [u8 n] else 254 :: le_bytes 3 n.

Definition tl_string (bs : list Z) : list Z :=
  let s := tl_head (zlen bs) ++ bs in
  s ++ replicate (Z.to_nat (pad_of (zlen s))) 0.

Lemma pad_of_bounds n : 0 <= pad_of n < 4 /\ (n + pad_of n) mod 4 = 0.
Proof. unfold pad_of. modlia. Qed.

Lemma tl_head_ok n : bytes_ok (tl_head n).
Proof.
  unfold tl_head. destruct (n <=? 253); (apply Forall_cons_2; [| auto with bytes]).
  - apply u8_range.
  - unfold is_byte. lia.
Qed.

Lemma zlen_tl_head n : 1 <= zlen (tl_head n) <= 4.
Proof. unfold tl_head, zlen. destruct (n <=? 253); cbn [length le_bytes]; lia. Qed.

Lemma zlen_tl_string bs :
  zlen (tl_string bs) = zlen (tl_head (zlen bs)) + zlen bs
    + pad_of (zlen (tl_head (zlen bs)) + zlen bs).
Proof.
  unfold tl_string. rewrite !zlen_app, zlen_replicate.
  pose proof (pad_of_bounds (zlen (tl_head (zlen bs)) + zlen bs)). lia.
Qed.

Lemma tl_string_ok bs : bytes_ok bs -> bytes_ok (tl_string bs).
Proof. intros. unfold tl_string. auto using tl_head_ok with bytes. Qed.

Section Serialize.
Context `{Platform}.

Lemma pad_buf_ok pad :
  0 <= pad <= 256 -> exists p, pad_buf pad = Ok p /\ buf_wf p /\ b_size p = pad /\
    contents p = replicate (Z.to_nat pad) 0.
Proof.
  intros Hp. platform. unfold pad_buf. rewrite buf_init_ok, res_bind_ok, fresh_nil.
  eexists; split; [reflexivity |]. unfold buf_wf, contents, set_size, mk_buf, slice; cbn [b_mem b_off b_size b_asize app length].
  rewrite zlen_replicate. change (Z.to_nat 0) with 0%nat. rewrite drop_0, take_replicate.
  repeat split; auto with bytes; try lia. f_equal. lia.
Qed.

Lemma cat_pad bs pad :
  0 <= pad <= 256 -> fits (zlen bs + pad) ->
  (p ← pad_buf pad; buf_cat (fresh bs) p) = Ok (fresh (bs ++ replicate (Z.to_nat pad) 0)).
Proof.
  intros Hp Hf. destruct (pad_buf_ok pad Hp) as (p & -> & Hw & Hs & Hc).
  by rewrite res_bind_ok, buf_cat_ok, Hc by (done || by rewrite Hs).
Qed.

(** The common tail of the two branches of the serializers. *)
Lemma serialize_tail hd bs :
  bytes_ok hd -> bytes_ok bs -> 1 <= zlen hd <= 4 -> fits (zlen bs + 8) ->
  (let pad := pad_of (b_size (fresh (hd ++ bs))) in
   p ← pad_buf pad; buf_cat (fresh (hd ++ bs)) p) =
  Ok (fresh ((hd ++ bs) ++ replicate (Z.to_nat (pad_of (zlen (hd ++ bs)))) 0)).
Proof.
  intros Hh Hb Hl Hf. cbv zeta. rewrite size_fresh.
  pose proof (pad_of_bounds (zlen (hd ++ bs))). apply cat_pad; [lia |].
  rewrite !zlen_app in *. blia.
Qed.

Lemma serialize_tail_if hd bs :
  bytes_ok hd -> bytes_ok bs -> 1 <= zlen hd <= 4 -> fits (zlen bs + 8) ->
  (let pad := pad_of (b_size (fresh (hd ++ bs))) in
   if pad =? 0 then Ok (fresh (hd ++ bs)) else p ← pad_buf pad; buf_cat (fresh (hd ++ bs)) p) =
  Ok (fresh ((hd ++ bs) ++ replicate (Z.to_nat (pad_of (zlen (hd ++ bs)))) 0)).
Proof.
  intros Hh Hb Hl Hf. cbv zeta.
  destruct (Z.eqb_spec (pad_of (b_size (fresh (hd ++ bs)))) 0) as [E | _].
  - rewrite size_fresh in E. rewrite E. by rewrite app_nil_r.
  - by apply serialize_tail.
Qed.

Lemma le_bytes_take m n z : (m <= n)%nat -> take m (le_bytes n z) = le_bytes m z.
Proof.
  revert n z. induction m as [|m IH]; intros n z Hn; [done |].
  destruct n as [|n]; [lia |]. cbn. f_equal. apply IH. lia.
Qed.

Lemma serialize_bytes_ok bs rest :
  bytes_ok bs -> fits (zlen bs + 8) ->
  serialize_bytes (bs ++ rest) (zlen bs) = Ok (fresh (tl_string bs)).
Proof.
  intros Hb Hf. platform. pose proof (zlen_nonneg bs). pose proof (zlen_nonneg rest).
  pose proof (fits_small 1 ltac:(lia)). pose proof (fits_small 3 ltac:(lia)).
  assert (Hd : take (Z.to_nat (zlen bs)) (bs ++ rest) = bs)
    by (unfold zlen; by rewrite Nat2Z.id, take_app_length).
  unfold serialize_bytes, tl_string, tl_head.
  destruct (Z.leb_spec (zlen bs) 253) as [Hs | Hs].
  - rewrite (buf_add_ok (le_bytes 8 _)), res_bind_ok by (unfold zlen in *; cbn [length le_bytes] in *; blia).
    rewrite (buf_add_ok (bs ++ rest)), res_bind_ok, Hd by (rewrite ?zlen_app; blia).
    change (take (Z.to_nat 1) (le_bytes 8 (zlen bs))) with [u8 (zlen bs)].
    rewrite buf_cat_fresh, res_bind_ok by (done || (rewrite zlen_cons; blia)).
    apply serialize_tail; auto with bytes; rewrite ?zlen_cons; blia.
  - rewrite (buf_add_ok [254]), res_bind_ok by (unfold zlen in *; cbn [length] in *; blia).
    rewrite (buf_add_ok (le_bytes 8 _)), res_bind_ok by (unfold zlen in *; cbn [length le_bytes] in *; blia).
    rewrite le_bytes_take by lia. change (take (Z.to_nat 1) [254]) with [254].
    change (Z.to_nat 3) with 3%nat.
    rewrite buf_cat_fresh, res_bind_ok by (auto with bytes; rewrite zlen_cons, zlen_le_bytes; blia).
    rewrite u32_id by blia.
    rewrite (buf_add_ok (bs ++ rest)), res_bind_ok, Hd by (rewrite ?zlen_app; blia).
    rewrite buf_cat_fresh, res_bind_ok
      by (auto with bytes; rewrite zlen_app, zlen_cons, zlen_le_bytes; blia).
    apply serialize_tail_if; auto with bytes.
    + apply Forall_cons_2; [unfold is_byte; lia | auto with bytes].
    + unfold zlen. cbn [length le_bytes]. lia.
Qed.

(** ** Reading through the window of a buffer *)
Lemma advance_cur a x d sz asz :
  advance (Buf (a ++ x ++ d) (zlen a) sz asz) (zlen x) =
  Buf ((a ++ x) ++ d) (zlen (a ++ x)) (u32 (sz - zlen x)) asz.
Proof. unfold advance; cbn. by rewrite <- app_assoc, zlen_app. Qed.

Lemma data_cur a d sz asz k :
  0 <= k -> data_at (Buf (a ++ d) (zlen a) sz asz) k = drop (Z.to_nat k) d.
Proof.
  intros. unfold data_at; cbn [b_mem b_off]. unfold zlen.
  rewrite Z2Nat.inj_add, Nat2Z.id by lia. by rewrite <- drop_drop, drop_app_length.
Qed.

Lemma data_cur0 a d sz asz : data_at (Buf (a ++ d) (zlen a) sz asz) 0 = d.
Proof. by rewrite data_cur. Qed.

(** A well-formed buffer is a block [a ++ contents ++ c] with a non-empty
    tail [c], read from the end of [a]. *)
Lemma wf_cursor b :
  buf_wf b -> exists a c, b = Buf (a ++ contents b ++ c) (zlen a) (zlen (contents b)) (b_asize b) /\
    1 <= zlen c.
Proof.
  intros Hw. destruct (wf_split b Hw) as (a & c & Hm & Ha).
  pose proof (zlen_contents b Hw) as Hc. destruct Hw as (Hl & _ & ? & ? & ? & _).
  exists a, c. split.
  - destruct b as [m o sz z]; cbn [b_mem b_off b_size b_asize] in *. by rewrite <- Hm, Ha, Hc.
  - rewrite Hm, !zlen_app in Hl. lia.
Qed.

Lemma cursor_wf a w c asz :
  bytes_ok (a ++ w ++ c) -> zlen (a ++ w ++ c) = asz + 1 -> 1 <= zlen c -> asz < alloc_limit ->
  buf_wf (Buf (a ++ w ++ c) (zlen a) (zlen w) asz).
Proof.
  intros Hb Hl Hc Ha. unfold buf_wf; cbn. pose proof (zlen_nonneg a). pose proof (zlen_nonneg w).
  repeat split; try done; try lia. rewrite !zlen_app in Hl. lia.
Qed.

Lemma contents_cur a w c asz : contents (Buf (a ++ w ++ c) (zlen a) (zlen w) asz) = w.
Proof.
  unfold contents; cbn [b_mem b_off b_size]. rewrite (slice_app_r a) by done.
  by apply slice_app_l.
Qed.

Lemma rd_fresh0 x l : rd (data_at (fresh (x :: l)) 0) 0 = Ok x.
Proof. reflexivity. Qed.

(** The "hack": three length bytes read as a 32-bit integer. *)
Lemma get_len3 n :
  buf_get_ui32 (set_size (fresh (le_bytes 3 n)) 4) = Ok (n mod 16777216).
Proof.
  platform. unfold buf_get_ui32, set_size, fresh, mk_buf; cbn [b_mem b_off].
  rewrite zlen_le_bytes, Z.max_l by lia.
  destruct (Z.to_nat (BUFSIZ + 1) - length (le_bytes 3 n))%nat as [|k] eqn:Hk;
    [cbn [length le_bytes] in Hk; lia |].
  rewrite (rd_le_ok 4) by (rewrite ?zlen_app, ?zlen_le_bytes, ?zlen_replicate; lia).
  f_equal. change (replicate (S k) 0) with ([0] ++ replicate k 0).
  rewrite app_assoc, (slice_app_l (le_bytes 3 n ++ [0])) by done.
  rewrite le_num_app, le_num_bytes. cbn [le_num]. change (256 ^ Z.of_nat 3) with 16777216. lia.
Qed.

End Serialize.

Section RoundTrip.
Context `{Platform}.

(** the two serializers of byte strings agree.  [serialize_str] on a
    buffer and [serialize_bytes] on its data pointer and size produce the
    same TL encoding of the contents: the length (one byte up to 253, the
    marker 254 and three bytes above), the bytes, and zero padding up to a
    multiple of four. *)
Theorem serialize_str_eq_bytes b :
  buf_wf b -> fits (b_size b + 8) ->
  serialize_str b = Ok (fresh (tl_string (contents b))) /\
  serialize_bytes (data_at b 0) (b_size b) = Ok (fresh (tl_string (contents b))) /\
  zlen (tl_string (contents b)) mod 4 = 0.
Proof.
  intros Hw Hf. platform. pose proof (zlen_contents b Hw) as Hl. pose proof (contents_ok b Hw) as Hb.
  pose proof (zlen_nonneg (contents b)). rewrite <- Hl in *. split; [| split].
  - pose proof (fits_small 1 ltac:(lia)). pose proof (fits_small 3 ltac:(lia)).
    unfold serialize_str, tl_string, tl_head. rewrite buf_init_ok, res_bind_ok, Hl.
    destruct (Z.leb_spec (b_size b) 253) as [Hs | Hs].
    + rewrite (buf_add_ok (le_bytes 4 _)), res_bind_ok
        by (unfold zlen in *; cbn [length le_bytes] in *; blia).
      change (take (Z.to_nat 1) (le_bytes 4 (b_size b))) with [u8 (b_size b)].
      rewrite buf_cat_ok, res_bind_ok by (done || (rewrite zlen_cons; blia)).
      apply serialize_tail; auto with bytes; rewrite ?zlen_cons; blia.
    + destruct (Z.leb_spec 254 (b_size b)); [| lia].
      rewrite (buf_add_ok [254]), res_bind_ok by (unfold zlen in *; cbn [length] in *; blia).
      rewrite (buf_add_ok (le_bytes 4 _)), res_bind_ok
        by (unfold zlen in *; cbn [length le_bytes] in *; blia).
      rewrite le_bytes_take by lia. change (take (Z.to_nat 1) [254]) with [254].
      change (Z.to_nat 3) with 3%nat.
      rewrite buf_cat_fresh, res_bind_ok
        by (auto with bytes; rewrite zlen_cons, zlen_le_bytes; blia).
      rewrite buf_cat_ok, res_bind_ok
        by (done || (rewrite zlen_app, zlen_cons, zlen_le_bytes; blia)).
      apply serialize_tail_if; auto with bytes.
      * apply Forall_cons_2; [unfold is_byte; lia | auto with bytes].
      * unfold zlen. cbn [length le_bytes]. lia.
  - destruct (wf_cursor b Hw) as (a & c & E & _). rewrite E at 1.
    by rewrite data_cur0, serialize_bytes_ok.
  - rewrite zlen_tl_string. apply pad_of_bounds.
Qed.

Lemma advance_to a x d sz asz :
  zlen x <= sz < 4294967296 ->
  advance (Buf (a ++ x ++ d) (zlen a) sz asz) (zlen x) =
  Buf ((a ++ x) ++ d) (zlen (a ++ x)) (sz - zlen x) asz.
Proof. intros. pose proof (zlen_nonneg x). rewrite advance_cur, u32_id by blia. done. Qed.

Lemma take_zlen_app (x d : list Z) : take (Z.to_nat (zlen x)) (x ++ d) = x.
Proof. unfold zlen. by rewrite Nat2Z.id, take_app_length. Qed.

(** Reading and skipping [bs] and its padding, once the length is known. *)
Lemma deserialize_body a bs d sz asz offset :
  bytes_ok bs -> fits (zlen bs + 4) ->
  0 <= offset < 4 ->
  (let pad := Z.to_nat (pad_of (offset + zlen bs)) in
   zlen bs + Z.of_nat pad <= sz < 4294967296 ->
   buf_add (data_at (Buf (a ++ bs ++ replicate pad 0 ++ d) (zlen a) sz asz) 0) (zlen bs)
     = Ok (fresh bs) /\
   (let b := advance (Buf (a ++ bs ++ replicate pad 0 ++ d) (zlen a) sz asz) (zlen bs) in
    let p := (4 - u32 (zlen bs + offset) mod 4) mod 4 in
    (if p =? 0 then b else advance b p) =
    Buf ((a ++ bs ++ replicate pad 0) ++ d) (zlen (a ++ bs ++ replicate pad 0))
      (sz - zlen bs - Z.of_nat pad) asz)).
Proof.
  intros Hb Hf Ho pad Hsz. pose proof (zlen_nonneg bs). platform.
  rewrite data_cur0, buf_add_ok, take_zlen_app by (rewrite ?zlen_app; blia).
  split; [done |]. cbv zeta. rewrite advance_to by blia.
  replace ((4 - u32 (zlen bs + offset) mod 4) mod 4) with (pad_of (offset + zlen bs))
    by (unfold pad_of; rewrite u32_id by blia; by rewrite Z.add_comm).
  pose proof (pad_of_bounds (offset + zlen bs)) as [Hp _].
  assert (Hz : zlen (replicate pad 0) = pad_of (offset + zlen bs))
    by (rewrite zlen_replicate; unfold pad; lia).
  destruct (Z.eqb_spec (pad_of (offset + zlen bs)) 0) as [E | E].
  - replace pad with 0%nat by (unfold pad; lia). cbn [replicate app]. rewrite app_nil_r. f_equal. lia.
  - rewrite <- Hz, advance_to by lia. rewrite <- !app_assoc. f_equal. rewrite Hz. unfold pad. lia.
Qed.

(** The two forms of a length.  Up to 253 it is the first byte. *)
Lemma deserialize_bytes_short a n d sz asz :
  0 <= n <= 253 -> 3 <= zlen d ->
  let b := advance (Buf (a ++ n :: d) (zlen a) sz asz) 1 in
  deserialize_bytes (Buf (a ++ n :: d) (zlen a) sz asz) =
  (s ← buf_add (data_at b 0) n;
   let b' := advance b n in
   let pad := (4 - u32 (n + 1) mod 4) mod 4 in
   Ok (s, if pad =? 0 then b' else advance b' pad)).
Proof.
  intros Hn Hd b. unfold deserialize_bytes. rewrite buf_init_ok, res_bind_ok, data_cur0.
  rewrite (buf_add_ok (n :: d) 4), res_bind_ok
    by (by apply fits_small || (rewrite zlen_cons; lia)).
  change (take (Z.to_nat 4) (n :: d)) with (n :: take 3 d).
  rewrite rd_fresh0, res_bind_ok. destruct (Z.leb_spec n 253); [| lia].
  fold b. by destruct (buf_add (data_at b 0) n).
Qed.

(** Above, it is in the three bytes after the marker. *)
Lemma deserialize_bytes_long a l0 l1 l2 d sz asz :
  bytes_ok [l0; l1; l2] ->
  let n := le_num [l0; l1; l2] in
  let b := advance (Buf (a ++ 254 :: l0 :: l1 :: l2 :: d) (zlen a) sz asz) 4 in
  deserialize_bytes (Buf (a ++ 254 :: l0 :: l1 :: l2 :: d) (zlen a) sz asz) =
  (s ← buf_add (data_at b 0) n;
   let b' := advance b n in
   let pad := (4 - u32 (n + 0) mod 4) mod 4 in
   Ok (s, if pad =? 0 then b' else advance b' pad)).
Proof.
  intros Hl3 n b. pose proof (le_num_bound _ Hl3) as Hn. fold n in Hn.
  change (256 ^ zlen [l0; l1; l2]) with 16777216 in Hn.
  assert (El : [l0; l1; l2] = le_bytes 3 n) by (symmetry; apply (le_bytes_num [l0; l1; l2] Hl3)).
  unfold deserialize_bytes. rewrite buf_init_ok, res_bind_ok, data_cur0.
  rewrite (buf_add_ok _ 4), res_bind_ok
    by (by apply fits_small || (rewrite !zlen_cons; zpos; lia)).
  change (take (Z.to_nat 4) (?x :: ?l)) with (x :: take 3 l).
  rewrite rd_fresh0, res_bind_ok. cbn [Z.leb Z.compare Pos.compare Pos.compare_cont].
  rewrite (buf_add_ok [254] 1), res_bind_ok by (done || by apply fits_small).
  rewrite (buf_add_ok (254 :: _) 1), res_bind_ok
    by (by apply fits_small || (rewrite zlen_cons; zpos; lia)).
  change (take (Z.to_nat 1) (254 :: ?l)) with [254].
  rewrite buf_cmp_ok, res_bind_ok; [| apply fresh_wf; [| by apply fits_small].. | done];
    [| by repeat constructor ..].
  rewrite data_cur by lia. change (drop (Z.to_nat 1) (?x :: ?l)) with l.
  rewrite (buf_add_ok _ 3), res_bind_ok
    by (by apply fits_small || (rewrite !zlen_cons; zpos; lia)).
  change (take (Z.to_nat 3) (l0 :: l1 :: l2 :: ?l)) with [l0; l1; l2]. rewrite El, get_len3.
  rewrite Z.mod_small, res_bind_ok by lia. fold b.
  by destruct (buf_add (data_at b 0) n).
Qed.

Lemma tl_string_split bs :
  exists pad, tl_string bs = tl_head (zlen bs) ++ bs ++ replicate pad 0 /\
    Z.of_nat pad = pad_of (zlen (tl_head (zlen bs)) + zlen bs).
Proof.
  exists (Z.to_nat (pad_of (zlen (tl_head (zlen bs)) + zlen bs))).
  pose proof (pad_of_bounds (zlen (tl_head (zlen bs)) + zlen bs)).
  split; [| lia]. unfold tl_string. by rewrite <- app_assoc, zlen_app.
Qed.

Lemma deserialize_bytes_run a bs d sz asz :
  bytes_ok bs -> zlen bs < 16777216 -> fits (zlen bs + 8) ->
  zlen (tl_string bs) <= sz < 4294967296 ->
  deserialize_bytes (Buf (a ++ tl_string bs ++ d) (zlen a) sz asz) =
  Ok (fresh bs, Buf ((a ++ tl_string bs) ++ d) (zlen (a ++ tl_string bs))
                  (sz - zlen (tl_string bs)) asz).
Proof.
  intros Hb Hn Hf Hsz. platform. pose proof (zlen_nonneg bs). pose proof (zlen_nonneg d).
  destruct (tl_string_split bs) as (pad & Es & Hp).
  pose proof (pad_of_bounds (zlen (tl_head (zlen bs)) + zlen bs)) as [_ Hal].
  rewrite <- Hp in Hal. rewrite Es in Hsz |- *. rewrite !zlen_app, zlen_replicate in Hsz.
  rewrite <- (app_assoc (tl_head _)), <- (app_assoc bs). clear Es.
  unfold tl_head in *. destruct (Z.leb_spec (zlen bs) 253) as [Hs | Hs].
  - rewrite (u8_id (zlen bs)) in * by (unfold is_byte; lia).
    change (zlen [zlen bs]) with 1 in *. cbn [app].
    rewrite deserialize_bytes_short by (rewrite ?zlen_app, ?zlen_replicate; modlia).
    change (a ++ zlen bs :: ?x) with (a ++ [zlen bs] ++ x).
    change (advance ?b 1) with (advance b (zlen [zlen bs])).
    rewrite advance_to by (change (zlen [zlen bs]) with 1; lia).
    change (sz - zlen [zlen bs]) with (sz - 1).
    destruct (deserialize_body (a ++ [zlen bs]) bs d (sz - 1) asz 1) as [Hadd Hadv];
      [done | blia | lia | rewrite <- Hp; lia |].
    rewrite <- Hp, Nat2Z.id in Hadd, Hadv. rewrite Hadd, !res_bind_ok.
    cbv beta zeta in Hadv |- *. rewrite Hadv. do 2 f_equal.
    f_equal; rewrite <- ?app_assoc; [done.. |].
    rewrite zlen_cons, !zlen_app, zlen_replicate. lia.
  - change (zlen (254 :: le_bytes 3 (zlen bs))) with 4 in *.
    assert (Hp' : Z.of_nat pad = pad_of (0 + zlen bs)) by (rewrite Hp; unfold pad_of; modlia).
    cbn [le_bytes app].
    rewrite deserialize_bytes_long by (change (bytes_ok (le_bytes 3 (zlen bs))); auto with bytes).
    change [u8 (zlen bs); u8 (zlen bs / 256); u8 (zlen bs / 256 / 256)] with (le_bytes 3 (zlen bs)).
    rewrite le_num_bytes. change (256 ^ Z.of_nat 3) with 16777216. rewrite Z.mod_small by lia.
    change (a ++ 254 :: ?x :: ?y :: ?z :: ?l) with (a ++ [254; x; y; z] ++ l).
    set (hd := [254; _; _; _]). change (advance ?b 4) with (advance b (zlen hd)).
    rewrite advance_to by (change (zlen hd) with 4; lia). change (zlen hd) with 4.
    destruct (deserialize_body (a ++ hd) bs d (sz - 4) asz 0) as [Hadd Hadv];
      [done | blia | lia | rewrite <- Hp'; lia |].
    rewrite <- Hp', Nat2Z.id in Hadd, Hadv. rewrite Hadd, !res_bind_ok.
    cbv beta zeta in Hadv |- *. rewrite Hadv. do 2 f_equal.
    f_equal; rewrite <- ?app_assoc; [done.. |].
    rewrite !zlen_cons, !zlen_app, zlen_replicate. lia.
Qed.

(** reading back a serialized byte string.  On a buffer that starts
    with the TL encoding of [bs] (less than 2^24 bytes), [deserialize_bytes]
    returns exactly [bs] and advances the buffer to what follows the
    encoding, padding included, keeping it well-formed. *)
Theorem deserialize_serialize_bytes bs rest b :
  bytes_ok bs -> zlen bs < 16777216 -> fits (zlen bs + 8) ->
  buf_wf b -> contents b = tl_string bs ++ rest ->
  exists b', deserialize_bytes b = Ok (fresh bs, b') /\ buf_wf b' /\ contents b' = rest.
Proof.
  intros Hb Hn Hf Hw Hc. platform.
  destruct (wf_cursor b Hw) as (a & c & E & Hcl). rewrite Hc in E.
  destruct Hw as (Hl & Hok & _ & _ & _ & Ha). rewrite E in Hl, Hok |- *.
  cbn [b_mem b_asize] in Hl, Hok. rewrite <- (app_assoc (tl_string bs)) in *.
  rewrite !zlen_app in Hl. rewrite zlen_app. pose proof (zlen_nonneg a).
  pose proof (zlen_nonneg rest). pose proof (zlen_nonneg (tl_string bs)).
  rewrite deserialize_bytes_run by (done || blia).
  replace (zlen (tl_string bs) + zlen rest - zlen (tl_string bs)) with (zlen rest) by lia.
  eexists; split; [reflexivity |]. split; [| apply contents_cur].
  apply cursor_wf; [by rewrite <- app_assoc | rewrite !zlen_app; lia | done | done].
Qed.

(** [deserialize_bytes] trusts the length the peer sent.  When the
    three length bytes announce more than the block holds, the copy reads
    past the end of the heap block, whatever [size] says. *)
Theorem deserialize_bytes_overread b l0 l1 l2 rest :
  buf_wf b -> contents b = 254 :: l0 :: l1 :: l2 :: rest ->
  zlen (b_mem b) - b_off b - 4 < le_num [l0; l1; l2] -> fits (le_num [l0; l1; l2]) ->
  deserialize_bytes b = Err OutOfBounds.
Proof.
  intros Hw Hc Hlen Hf. pose proof (contents_ok b Hw) as Hcb. rewrite Hc in Hcb.
  destruct (wf_cursor b Hw) as (a & c & E & Hcl). rewrite Hc in E.
  rewrite E in Hlen |- *. cbn [b_mem b_off] in Hlen. clear E.
  rewrite zlen_app in Hlen. cbn [app]. rewrite deserialize_bytes_long.
  - rewrite buf_add_oob; [done | | done]. unfold advance.
    rewrite zlen_data_at by (cbn [b_off]; zpos; lia). cbn [b_mem b_off].
    rewrite zlen_app, !zlen_cons, zlen_app. rewrite zlen_app, !zlen_cons in Hlen.
    pose proof (zlen_nonneg rest). lia.
  - apply Forall_cons_1 in Hcb as [_ Hcb]. by apply (Forall_app _ [l0; l1; l2] rest) in Hcb as [? _].
Qed.

End RoundTrip.

(** ** The tables *)
Section TableFacts.
Context `{Platform} {tl_t : Type}.
Implicit Types (dt : list (Z * (buf_t -> res (option tl_t * buf_t)))) (ft : list (Z * (tl_t -> res unit))).

Lemma find_id_parallel {F G} (t1 : list (Z * F)) (t2 : list (Z * G)) id : forall i,
  t1.*1 = t2.*1 ->
  match find_id i t1 id with
  | Some (k, _) => exists g, find_id i t2 id = Some (k, g) /\ (i <= k)%nat /\ t2 !! (k - i)%nat = Some (id, g)
  | None => find_id i t2 id = None
  end.
Proof.
  revert t2. induction t1 as [|[k1 f1] t1 IH]; intros [|[k2 g2] t2] i E; try done.
  injection E as -> E. cbn [find_id]. destruct (Z.eqb_spec k2 id) as [-> | _].
  - exists g2. by rewrite Nat.sub_diag.
  - specialize (IH t2 (S i) E). destruct (find_id (S i) t1 id) as [[k f]|]; [| done].
    destruct IH as (g & Hg & Hk & Hl). exists g. split; [done |]. split; [lia |].
    by replace (k - i)%nat with (S (k - S i)) by lia.
Qed.

(** objects are freed by the function of their own constructor.
    [get_free_fun] finds the position in the deserialize table and indexes
    the free table with it; when the generator wrote both tables in the
    same constructor order, this is the entry of the free table with that
    id, it never indexes past the table, and it is absent exactly for the
    ids that cannot be deserialized. *)
Theorem get_free_fun_aligned dt ft id :
  dt.*1 = ft.*1 ->
  get_free_fun dt ft id = Ok (snd <$> find_id 0 ft id) /\
  (get_free_fun dt ft id = Ok None <-> get_fun dt id = None).
Proof.
  intros E. pose proof (find_id_parallel dt ft id 0 E) as Hf.
  unfold get_free_fun, get_fun. destruct (find_id 0 dt id) as [[k f]|].
  - destruct Hf as (g & -> & _ & Hl). rewrite Nat.sub_0_r in Hl. by rewrite Hl.
  - by rewrite Hf.
Qed.
End TableFacts.
