(* ===== verification/HashCommon.v ===== *)
(** * What the two SHA implementations share

    The reference side: the message padding of FIPS 180 (section 5.1.1),
    the split into 64-byte blocks, the message schedule as a recurrence on
    the previous sixteen words, and the Merkle-Damgard fold.  The
    implementations keep the schedule in a circular array of sixteen words
    and absorb one byte at a time; the lemmas here relate the two. *)
From S2P Require Import Prelude.

(** ** 32-bit operations *)

(** Rotations, as arithmetic: the bits shifted out come back at the other
    end. *)
Definition rotl32 (x n : Z) : Z := (x * 2 ^ n) mod 2 ^ 32 + x / 2 ^ (32 - n).
Definition rotr32 (x n : Z) : Z := x / 2 ^ n + (x mod 2 ^ n) * 2 ^ (32 - n).

Lemma lor_disjoint a b n :
  0 <= n -> a mod 2 ^ n = 0 -> 0 <= b < 2 ^ n -> Z.lor a b = a + b.
Proof.
  intros Hn Ha Hb. symmetry. apply Z.add_nocarry_lor. apply Z.bits_inj'. intros i Hi.
  rewrite Z.land_spec, Z.bits_0. destruct (decide (i < n)).
  - rewrite <- (Z.mod_pow2_bits_low a n i), Ha, Z.bits_0 by lia. done.
  - rewrite <- (Z.mod_small b (2 ^ n)), Z.mod_pow2_bits_high by lia. by rewrite andb_false_r.
Qed.

Lemma rotl32_bits x n :
  is_u32 x -> 0 <= n <= 32 ->
  Z.lor (u32 (Z.shiftl x n)) (Z.shiftr x (32 - n)) = rotl32 x n.
Proof.
  intros Hx Hn. unfold rotl32, u32. rewrite Z.shiftl_mul_pow2, Z.shiftr_div_pow2 by lia.
  change 4294967296 with (2 ^ 32). assert (0 < 2 ^ n) by (apply Z.pow_pos_nonneg; lia).
  assert (E : 2 ^ 32 = 2 ^ (32 - n) * 2 ^ n) by (rewrite <- Z.pow_add_r by lia; f_equal; lia).
  assert (0 < 2 ^ (32 - n)) by (apply Z.pow_pos_nonneg; lia).
  apply lor_disjoint with n; [lia | |].
  - rewrite E at 1. rewrite Zmult_mod_distr_r. apply Z_mod_mult.
  - unfold is_u32 in Hx. change 4294967296 with (2 ^ 32) in Hx. split; [apply Z.div_pos; lia |].
    apply Z.div_lt_upper_bound; lia.
Qed.

Lemma rotr32_bits x n :
  is_u32 x -> 0 <= n <= 32 ->
  Z.lor (Z.shiftr x n) (u32 (Z.shiftl x (32 - n))) = rotr32 x n.
Proof.
  intros Hx Hn. rewrite Z.lor_comm. pose proof (rotl32_bits x (32 - n) Hx ltac:(lia)) as E.
  replace (32 - (32 - n)) with n in E by lia. rewrite E. unfold rotl32, rotr32.
  replace (32 - (32 - n)) with n by lia. rewrite Z.add_comm. f_equal.
  replace (2 ^ 32) with (2 ^ n * 2 ^ (32 - n)) by (rewrite <- Z.pow_add_r by lia; f_equal; lia).
  apply Zmult_mod_distr_r.
Qed.

Lemma rotl32_range x n : is_u32 x -> 0 <= n <= 32 -> is_u32 (rotl32 x n).
Proof.
  intros Hx Hn. unfold rotl32.
  assert (E : 2 ^ 32 = 2 ^ n * 2 ^ (32 - n)) by (rewrite <- Z.pow_add_r by lia; f_equal; lia).
  assert (0 < 2 ^ n) by (apply Z.pow_pos_nonneg; lia).
  assert (0 < 2 ^ (32 - n)) by (apply Z.pow_pos_nonneg; lia).
  unfold is_u32 in *. change 4294967296 with (2 ^ 32) in *. rewrite E, (Z.mul_comm x).
  rewrite Zmult_mod_distr_l. pose proof (Z.mod_pos_bound x (2 ^ (32 - n)) ltac:(lia)).
  assert (0 <= x / 2 ^ (32 - n) < 2 ^ n); [| nia].
  split; [apply Z.div_pos; lia | apply Z.div_lt_upper_bound; lia].
Qed.

Lemma u32_add_l x y : u32 (u32 x + y) = u32 (x + y).
Proof. unfold u32. by rewrite Zplus_mod_idemp_l. Qed.
Lemma u32_add_r x y : u32 (x + u32 y) = u32 (x + y).
Proof. unfold u32. by rewrite Zplus_mod_idemp_r. Qed.

(** [x + y + ...] of uint32_t values wraps at every addition; it equals
    wrapping the exact sum once. *)
Create Rewrite HintDb u32.
#[export] Hint Rewrite u32_add_l u32_add_r u32_idemp : u32.

(** Big-endian integers. *)
Definition be_bytes (n : nat) (z : Z) : list Z := rev (le_bytes n z).
Definition be_num (bs : list Z) : Z := le_num (rev bs).

(** ** Message schedules *)
Section Schedule.
(** [F win] is the next word after the sixteen words [win], oldest first. *)
Variable F : list Z -> Z.

Fixpoint schedule (n : nat) (win : list Z) : list Z :=
  match n with
  | O => []
  | S n => let x := F win in x :: schedule n (tail win ++ [x])
  end.

(** The circular array [c] holds the window [win] at time [i]. *)
Definition holds (i : nat) (c win : list Z) : Prop :=
  length c = 16%nat /\ length win = 16%nat /\
  forall d, (d < 16)%nat -> c !! ((i + d) mod 16)%nat = win !! d.

Lemma holds_init ws : length ws = 16%nat -> holds 0 ws ws.
Proof.
  intros. split; [done |]. split; [done |]. intros d Hd.
  by rewrite Nat.add_0_l, Nat.mod_small.
Qed.

Lemma holds_wrap i c win : holds i c win -> holds (i + 16) c win.
Proof.
  intros (? & ? & Hh). split; [done |]. split; [done |]. intros d Hd.
  rewrite <- Hh by done. f_equal.
  replace (i + 16 + d)%nat with (i + d + 1 * 16)%nat by lia. apply Nat.Div0.mod_add.
Qed.

(** Overwriting the oldest word moves the window by one. *)
Lemma holds_step i c win :
  holds i c win -> holds (S i) (<[(i mod 16)%nat := F win]> c) (tail win ++ [F win]).
Proof.
  intros (Hc & Hw & Hh). destruct win as [|x win]; [done |]. injection Hw as Hw. cbn [tail].
  split; [by rewrite length_insert |].
  split; [rewrite length_app, Hw; done |]. intros d Hd.
  destruct (decide (d = 15)%nat) as [-> | Hne].
  - replace (S i + 15)%nat with (i + 1 * 16)%nat by lia. rewrite Nat.Div0.mod_add.
    rewrite list_lookup_insert_eq by (rewrite Hc; apply Nat.mod_upper_bound; lia).
    rewrite lookup_app_r by lia. by rewrite Hw.
  - replace (S i + d)%nat with (i + S d)%nat by lia.
    rewrite list_lookup_insert_ne; [rewrite Hh by lia; by rewrite lookup_app_l by lia |].
    intros E. pose proof (Nat.div_mod_eq i 16). pose proof (Nat.div_mod_eq (i + S d) 16). lia.
Qed.

Lemma holds_lookup i c win d :
  holds i c win -> (d < 16)%nat -> c !!! ((i + d) mod 16)%nat = win !!! d.
Proof.
  intros (_ & _ & Hh) Hd. rewrite !list_lookup_total_alt. by rewrite Hh.
Qed.

(** The window after [n] steps. *)
Fixpoint slide (n : nat) (win : list Z) : list Z :=
  match n with O => win | S n => slide n (tail win ++ [F win]) end.

Lemma schedule_add m n win : schedule (m + n) win = schedule m win ++ schedule n (slide m win).
Proof. revert win. induction m as [|m IH]; intros win; cbn; [done |]. by rewrite IH. Qed.

Lemma slide_schedule n : forall win,
  (n <= length win)%nat -> slide n win = drop n win ++ schedule n win.
Proof.
  induction n as [|n IH]; intros win Hn; cbn [slide schedule]; [by rewrite app_nil_r |].
  destruct win as [|x win]; [cbn in Hn; lia |]. cbn [tail length] in *.
  rewrite IH by (rewrite length_app; lia).
  cbn [drop skipn]. rewrite drop_app_le by lia. by rewrite <- app_assoc.
Qed.

Lemma holds_eq c win : holds 16 c win -> c = win.
Proof.
  intros (Hc & Hw & Hh). apply list_eq. intros d. destruct (decide (d < 16)%nat) as [Hd | Hd].
  - rewrite <- (Hh d Hd). f_equal. replace (16 + d)%nat with (d + 1 * 16)%nat by lia.
    rewrite Nat.Div0.mod_add. by rewrite Nat.mod_small.
  - by rewrite !lookup_ge_None_2 by lia.
Qed.

Lemma schedule_length n win : length (schedule n win) = n.
Proof. revert win. induction n; intros; cbn; [done | by rewrite IHn]. Qed.

End Schedule.

(** ** Padding and blocks *)
Definition md_pad (m : list Z) : list Z :=
  m ++ [128] ++ replicate (Z.to_nat ((55 - zlen m) mod 64)) 0 ++ be_bytes 8 (8 * zlen m).

Fixpoint chunks (n : nat) (m : list Z) : list (list Z) :=
  match n with
  | O => []
  | S n => take 64 m :: chunks n (drop 64 m)
  end.

Definition blocks (m : list Z) : list (list Z) := chunks (length m / 64) m.

Lemma zlen_md_pad m : zlen (md_pad m) mod 64 = 0.
Proof.
  unfold md_pad. rewrite !zlen_app, zlen_replicate.
  change (zlen [128]) with 1. change (zlen (be_bytes 8 (8 * zlen m))) with 8.
  modlia.
Qed.

(** Absorbing byte by byte: a block is compressed as soon as it is full. *)
Section Absorb.
Context {H : Type} (compress : H -> list Z -> H).

Definition absorb (s : H * list Z) (b : Z) : H * list Z :=
  let p := snd s ++ [b] in
  if (length p =? 64)%nat then (compress (fst s) p, []) else (fst s, p).

Lemma absorb_short h p m :
  (length p + length m < 64)%nat -> foldl absorb (h, p) m = (h, p ++ m).
Proof.
  revert p. induction m as [|b m IH]; intros p Hl; cbn [foldl]; [by rewrite app_nil_r |].
  unfold absorb at 2. cbn [fst snd]. cbn [length] in Hl.
  destruct (Nat.eqb_spec (length (p ++ [b])) 64) as [E | _].
  { rewrite length_app in E. cbn in E. lia. }
  rewrite IH, <- app_assoc; [done |]. rewrite length_app. cbn. lia.
Qed.

Lemma absorb_block h m : length m = 64%nat -> foldl absorb (h, []) m = (compress h m, []).
Proof.
  intros Hl. destruct (List.exists_last (l := m)) as (m' & b & ->); [by intros -> |].
  rewrite length_app in Hl. cbn in Hl.
  rewrite foldl_app, absorb_short by (cbn; lia). cbn [foldl app]. unfold absorb. cbn [fst snd].
  rewrite length_app. cbn [length]. by replace (length m' + 1)%nat with 64%nat by lia.
Qed.

Lemma absorb_chunks n : forall h m,
  length m = (64 * n)%nat ->
  foldl absorb (h, []) m = (foldl compress h (chunks n m), []).
Proof.
  induction n as [|n IH]; intros h m Hl; cbn [chunks foldl].
  { by destruct m. }
  rewrite <- (take_drop 64 m) at 1. rewrite foldl_app, absorb_block
    by (rewrite length_take; lia).
  apply IH. rewrite length_drop. lia.
Qed.

Lemma absorb_blocks h m :
  zlen m mod 64 = 0 -> foldl absorb (h, []) m = (foldl compress h (blocks m), []).
Proof.
  intros Hm. unfold blocks. apply absorb_chunks. unfold zlen in Hm.
  change 64 with (Z.of_nat 64) in Hm. rewrite <- Nat2Z.inj_mod in Hm.
  pose proof (Nat.div_mod_eq (length m) 64). lia.
Qed.

(** How many bytes are pending. *)
Lemma snd_absorb_length h p b :
  zlen (snd (absorb (h, p) b)) = (if zlen p =? 63 then 0 else zlen p + 1).
Proof.
  unfold absorb, zlen. cbn [fst snd]. rewrite length_app. cbn [length].
  destruct (Nat.eqb_spec (length p + 1) 64), (Z.eqb_spec (Z.of_nat (length p)) 63);
    cbn [snd]; rewrite ?length_app; cbn [length]; lia.
Qed.

Lemma absorb_pending h m :
  length (snd (foldl absorb (h, []) m)) = (length m mod 64)%nat.
Proof.
  induction m as [|b m IH] using rev_ind; [done |].
  rewrite foldl_app, length_app. cbn [foldl length].
  destruct (foldl absorb (h, []) m) as [h' p]. unfold absorb. cbn [fst snd] in *.
  rewrite length_app, IH. cbn [length].
  pose proof (Nat.mod_upper_bound (length m) 64 ltac:(lia)).
  pose proof (Nat.div_mod_eq (length m) 64). pose proof (Nat.div_mod_eq (length m + 1) 64).
  pose proof (Nat.mod_upper_bound (length m + 1) 64 ltac:(lia)).
  destruct (Nat.eqb_spec (length m mod 64 + 1) 64); cbn [snd]; [cbn [length]; lia |].
  rewrite length_app, IH. cbn [length]. lia.
Qed.
End Absorb.

(** ** Words and bytes *)

(** Four bytes at a time, most significant first (the standard) or least
    significant first (a union of bytes and words on the target). *)
Definition quad (bs : list Z) (i : nat) : list Z := take 4 (drop (4 * i) bs).
Definition be_words (n : nat) (bs : list Z) : list Z := (fun i => be_num (quad bs i)) <$> seq 0 n.
Definition words_of (n : nat) (bs : list Z) : list Z := (fun i => le_num (quad bs i)) <$> seq 0 n.
Definition bytes_of (ws : list Z) : list Z := mjoin (le_bytes 4 <$> ws).
Definition be_bytes_of (ws : list Z) : list Z := mjoin (be_bytes 4 <$> ws).

Lemma be_words_length n bs : length (be_words n bs) = n.
Proof. unfold be_words. by rewrite length_fmap, length_seq. Qed.
Lemma words_of_length n bs : length (words_of n bs) = n.
Proof. unfold words_of. by rewrite length_fmap, length_seq. Qed.
Lemma bytes_of_cons w ws : bytes_of (w :: ws) = le_bytes 4 w ++ bytes_of ws.
Proof. reflexivity. Qed.
Lemma bytes_of_length ws : length (bytes_of ws) = (4 * length ws)%nat.
Proof.
  induction ws as [|w ws IH]; [done |].
  rewrite bytes_of_cons, length_app, IH. cbn [length le_bytes]. lia.
Qed.

Lemma quad_range bs i : bytes_ok bs -> is_u32 (le_num (quad bs i)).
Proof.
  intros Hb. unfold quad. pose proof (le_num_bound (take 4 (drop (4 * i) bs)) ltac:(auto with bytes)) as Hl.
  assert (zlen (take 4 (drop (4 * i) bs)) <= 4) by (unfold zlen; rewrite length_take; lia).
  assert (256 ^ zlen (take 4 (drop (4 * i) bs)) <= 256 ^ 4) by (apply Z.pow_le_mono_r; lia).
  unfold is_u32. change 4294967296 with (256 ^ 4). lia.
Qed.

Lemma words_of_range n bs : bytes_ok bs -> Forall is_u32 (words_of n bs).
Proof. intros. unfold words_of. apply Forall_fmap, Forall_true. intros. by apply quad_range. Qed.

Lemma quad_rev_range bs i : bytes_ok bs -> is_u32 (be_num (quad bs i)).
Proof.
  intros Hb. unfold be_num.
  replace (rev (quad bs i)) with (quad (rev (quad bs i)) 0).
  - apply quad_range. by apply Forall_rev, Forall_take, Forall_drop.
  - unfold quad at 1. rewrite drop_0. apply take_ge. rewrite length_rev. unfold quad.
    rewrite length_take. lia.
Qed.

Lemma be_words_range n bs : bytes_ok bs -> Forall is_u32 (be_words n bs).
Proof. intros. unfold be_words. apply Forall_fmap, Forall_true. intros. by apply quad_rev_range. Qed.

Lemma bytes_of_ok ws : bytes_ok (bytes_of ws).
Proof. induction ws as [|w ws IH]; [constructor | rewrite bytes_of_cons; auto with bytes]. Qed.

Lemma words_of_cons n b0 b1 b2 b3 bs :
  words_of (S n) (b0 :: b1 :: b2 :: b3 :: bs) = le_num [b0; b1; b2; b3] :: words_of n bs.
Proof.
  unfold words_of. cbn [seq]. rewrite <- seq_shift, fmap_cons, <- list_fmap_compose.
  apply (f_equal (cons _)). apply list_fmap_ext. intros _ i _. unfold quad. cbn [compose].
  by replace (4 * S i)%nat with (4 + 4 * i)%nat by lia.
Qed.

Lemma be_words_cons n b0 b1 b2 b3 bs :
  be_words (S n) (b0 :: b1 :: b2 :: b3 :: bs) = be_num [b0; b1; b2; b3] :: be_words n bs.
Proof.
  unfold be_words. cbn [seq]. rewrite <- seq_shift, fmap_cons, <- list_fmap_compose.
  apply (f_equal (cons _)). apply list_fmap_ext. intros _ i _. unfold quad. cbn [compose].
  by replace (4 * S i)%nat with (4 + 4 * i)%nat by lia.
Qed.

(** Writing words and reading them back. *)
Lemma words_of_bytes ws : Forall is_u32 ws -> words_of (length ws) (bytes_of ws) = ws.
Proof.
  induction 1 as [|w ws Hw _ IH]; [done |]. rewrite bytes_of_cons.
  cbn [length]. change (le_bytes 4 w ++ ?k) with
    (u8 w :: u8 (w / 256) :: u8 (w / 256 / 256) :: u8 (w / 256 / 256 / 256) :: k).
  rewrite words_of_cons, IH. f_equal.
  change [_; _; _; _] with (le_bytes 4 w). by rewrite le_num_bytes4, u32_id.
Qed.
