(* ===== verification/Sha1.v ===== *)
(** * SHA-1: libtg/mtx/src/sha1.c, include/sha1.h

    The C code keeps the 64-byte block in a union of bytes and words and
    stores byte [k] of the message at index [k ^ 3], so that on a
    little-endian machine the word view holds big-endian words.  The
    schedule overwrites the block in place.  The theorems state that the
    digest is the one FIPS 180 defines, whatever the structure contained
    before [sha1_init], and that the HMAC entry points compute RFC 2104. *)
From S2P Require Import Prelude HashCommon.

(** ** The C code *)
Module Sha1.

Definition HASH_LENGTH : Z := 20.
Definition BLOCK_LENGTH : Z := 64.
Definition SHA1_K0 : Z := 0x5a827999.
Definition SHA1_K20 : Z := 0x6ed9eba1.
Definition SHA1_K40 : Z := 0x8f1bbcdc.
Definition SHA1_K60 : Z := 0xca62c1d6.
Definition HMAC_IPAD : Z := 0x36.
Definition HMAC_OPAD : Z := 0x5c.

(** The unions are their bytes; [words_of] is the view [.w]. *)
Record sha1nfo := Sha1nfo {
  buffer : list Z;
  bufferOffset : Z;
  state : list Z;
  byteCount : Z;
  keyBuffer : list Z;
  innerHash : list Z
}.

Definition sha1InitState : list Z :=
  [0x01; 0x23; 0x45; 0x67; 0x89; 0xab; 0xcd; 0xef; 0xfe; 0xdc; 0xba; 0x98;
   0x76; 0x54; 0x32; 0x10; 0xf0; 0xe1; 0xd2; 0xc3].

Definition sha1_init (s : sha1nfo) : sha1nfo :=
  Sha1nfo (buffer s) 0 sha1InitState 0 (keyBuffer s) (innerHash s).

Definition sha1_rol32 (number bits : Z) : Z :=
  Z.lor (u32 (Z.shiftl number bits)) (Z.shiftr number (32 - bits)).

(** One turn of the loop of [sha1_hashBlock]; [w] is the block as words. *)
Definition hash_round (i : nat) (w : list Z) (v : Z * Z * Z * Z * Z)
  : list Z * (Z * Z * Z * Z * Z) :=
  let '(a, b, c, d, e) := v in
  let w :=
    if (16 <=? i)%nat then
      let t := Z.lxor (Z.lxor (Z.lxor (w !!! Nat.land (i + 13) 15) (w !!! Nat.land (i + 8) 15))
                 (w !!! Nat.land (i + 2) 15)) (w !!! Nat.land i 15) in
      <[Nat.land i 15 := sha1_rol32 t 1]> w
    else w in
  let t :=
    if (i <? 20)%nat then u32 (Z.lxor d (Z.land b (Z.lxor c d)) + SHA1_K0)
    else if (i <? 40)%nat then u32 (Z.lxor (Z.lxor b c) d + SHA1_K20)
    else if (i <? 60)%nat then u32 (Z.lor (Z.land b c) (Z.land d (Z.lor b c)) + SHA1_K40)
    else u32 (Z.lxor (Z.lxor b c) d + SHA1_K60) in
  let t := u32 (t + (sha1_rol32 a 5 + e + w !!! Nat.land i 15)) in
  (w, (t, a, sha1_rol32 b 30, c, d)).

Fixpoint hash_loop (n i : nat) (w : list Z) (v : Z * Z * Z * Z * Z)
  : list Z * (Z * Z * Z * Z * Z) :=
  match n with
  | O => (w, v)
  | S n => let '(w, v) := hash_round i w v in hash_loop n (S i) w v
  end.

Definition sha1_hashBlock (s : sha1nfo) : sha1nfo :=
  let st := words_of 5 (state s) in
  let v := (st !!! 0%nat, st !!! 1%nat, st !!! 2%nat, st !!! 3%nat, st !!! 4%nat) in
  let '(w, (a, b, c, d, e)) := hash_loop 80 0 (words_of 16 (buffer s)) v in
  let st := [u32 (st !!! 0%nat + a); u32 (st !!! 1%nat + b); u32 (st !!! 2%nat + c);
             u32 (st !!! 3%nat + d); u32 (st !!! 4%nat + e)] in
  Sha1nfo (bytes_of w) (bufferOffset s) (bytes_of st) (byteCount s) (keyBuffer s) (innerHash s).

Definition set_offset (s : sha1nfo) (o : Z) : sha1nfo :=
  Sha1nfo (buffer s) o (state s) (byteCount s) (keyBuffer s) (innerHash s).

Definition sha1_addUncounted (s : sha1nfo) (data : Z) : res sha1nfo :=
  buf ← wr (buffer s) (Z.lxor (bufferOffset s) 3) data;
  let s := Sha1nfo buf (u8 (bufferOffset s + 1)) (state s) (byteCount s)
             (keyBuffer s) (innerHash s) in
  Ok (if bufferOffset s =? BLOCK_LENGTH then set_offset (sha1_hashBlock s) 0 else s).

Definition sha1_writebyte (s : sha1nfo) (data : Z) : res sha1nfo :=
  sha1_addUncounted (Sha1nfo (buffer s) (bufferOffset s) (state s) (u32 (byteCount s + 1))
                       (keyBuffer s) (innerHash s)) data.

(** [data] is the [len] bytes the caller passes. *)
Fixpoint sha1_write (s : sha1nfo) (data : list Z) : res sha1nfo :=
  match data with
  | [] => Ok s
  | d :: data => s ← sha1_writebyte s d; sha1_write s data
  end.

(** [while (s->bufferOffset != 56)]; the fuel is more than a block. *)
Fixpoint pad_loop (fuel : nat) (s : sha1nfo) : res sha1nfo :=
  if bufferOffset s =? 56 then Ok s
  else match fuel with
       | O => Err NoFuel
       | S fuel => s ← sha1_addUncounted s 0; pad_loop fuel s
       end.

Fixpoint add_all (s : sha1nfo) (data : list Z) : res sha1nfo :=
  match data with
  | [] => Ok s
  | d :: data => s ← sha1_addUncounted s d; add_all s data
  end.

Definition sha1_pad (s : sha1nfo) : res sha1nfo :=
  s ← sha1_addUncounted s 0x80;
  s ← pad_loop 64 s;
  let n := byteCount s in
  add_all s [0; 0; 0; u8 (Z.shiftr n 29); u8 (Z.shiftr n 21); u8 (Z.shiftr n 13);
             u8 (Z.shiftr n 5); u8 (Z.shiftl n 3)].

Definition swap_word (a : Z) : Z :=
  let b := u32 (Z.shiftl a 24) in
  let b := Z.lor b (Z.land (u32 (Z.shiftl a 8)) 0x00ff0000) in
  let b := Z.lor b (Z.land (Z.shiftr a 8) 0x0000ff00) in
  Z.lor b (Z.shiftr a 24).

(** The returned pointer is [s->state.b]. *)
Definition sha1_result (s : sha1nfo) : res sha1nfo :=
  s ← sha1_pad s;
  Ok (Sha1nfo (buffer s) (bufferOffset s) (bytes_of (swap_word <$> words_of 5 (state s)))
        (byteCount s) (keyBuffer s) (innerHash s)).

Definition set_key (s : sha1nfo) (k : list Z) : sha1nfo :=
  Sha1nfo (buffer s) (bufferOffset s) (state s) (byteCount s) k (innerHash s).

Definition sha1_initHmac (s : sha1nfo) (key : list Z) : res sha1nfo :=
  let s := set_key s (replicate 64 0) in
  s ← (if BLOCK_LENGTH <? zlen key then
         s ← sha1_write (sha1_init s) key;
         s ← sha1_result s;
         Ok (set_key s (splice (keyBuffer s) 0 (take 20 (state s))))
       else Ok (set_key s (splice (keyBuffer s) 0 key)));
  sha1_write (sha1_init s) ((fun k => Z.lxor k HMAC_IPAD) <$> keyBuffer s).

Definition sha1_resultHmac (s : sha1nfo) : res sha1nfo :=
  s ← sha1_result s;
  let s := Sha1nfo (buffer s) (bufferOffset s) (state s) (byteCount s) (keyBuffer s)
             (take 20 (state s)) in
  s ← sha1_write (sha1_init s) ((fun k => Z.lxor k HMAC_OPAD) <$> keyBuffer s);
  s ← sha1_write s (innerHash s);
  sha1_result s.

(** [s0] is the uninitialised automatic variable. *)
Definition sha1 (s0 : sha1nfo) (d : list Z) : res (list Z) :=
  s ← sha1_write (sha1_init s0) d;
  s ← sha1_result s;
  Ok (take 20 (state s)).

End Sha1.

(** ** FIPS 180-4 *)
Module Fips.

Definition H0 : list Z := [0x67452301; 0xefcdab89; 0x98badcfe; 0x10325476; 0xc3d2e1f0].

Definition Ch (x y z : Z) : Z := Z.lxor (Z.land x y) (Z.land (Z.lnot x) z).
Definition Parity (x y z : Z) : Z := Z.lxor x (Z.lxor y z).
Definition Maj (x y z : Z) : Z := Z.lxor (Z.land x y) (Z.lxor (Z.land x z) (Z.land y z)).

Definition f_t (t : nat) : Z -> Z -> Z -> Z :=
  if (t <? 20)%nat then Ch else if (t <? 40)%nat then Parity
  else if (t <? 60)%nat then Maj else Parity.

Definition K_t (t : nat) : Z :=
  if (t <? 20)%nat then 0x5a827999 else if (t <? 40)%nat then 0x6ed9eba1
  else if (t <? 60)%nat then 0x8f1bbcdc else 0xca62c1d6.

(** [W_t = ROTL^1 (W_{t-3} xor W_{t-8} xor W_{t-14} xor W_{t-16})]. *)
Definition next_word (win : list Z) : Z :=
  rotl32 (Z.lxor (win !!! 13%nat) (Z.lxor (win !!! 8%nat)
            (Z.lxor (win !!! 2%nat) (win !!! 0%nat)))) 1.

Definition step (v : Z * Z * Z * Z * Z) (tw : nat * Z) : Z * Z * Z * Z * Z :=
  let '(a, b, c, d, e) := v in
  let '(t, w) := tw in
  (u32 (rotl32 a 5 + f_t t b c d + e + K_t t + w), a, rotl32 b 30, c, d).

Definition rounds (v : Z * Z * Z * Z * Z) (ws : list Z) : Z * Z * Z * Z * Z :=
  foldl step v (zip (seq 0 80) (ws ++ schedule next_word 64 ws)).

Definition compress (H : list Z) (block : list Z) : list Z :=
  match H with
  | [h0; h1; h2; h3; h4] =>
      let '(a, b, c, d, e) := rounds (h0, h1, h2, h3, h4) (be_words 16 block) in
      [u32 (h0 + a); u32 (h1 + b); u32 (h2 + c); u32 (h3 + d); u32 (h4 + e)]
  | _ => H
  end.

Definition SHA1 (m : list Z) : list Z :=
  be_bytes_of (foldl compress H0 (blocks (md_pad m))).

(** RFC 2104 with a block of 64 bytes. *)
Definition HMAC (key m : list Z) : list Z :=
  let k := if 64 <? zlen key then SHA1 key else key in
  let k := k ++ replicate (64 - length k) 0 in
  SHA1 (((fun x => Z.lxor x 0x5c) <$> k) ++ SHA1 (((fun x => Z.lxor x 0x36) <$> k) ++ m)).
End Fips.

Section Facts.
Import Sha1.

(** ** The words of a round *)
Lemma ch_eq b c d : Z.lxor d (Z.land b (Z.lxor c d)) = Fips.Ch b c d.
Proof.
  unfold Fips.Ch. apply Z.bits_inj'. intros n Hn.
  rewrite ?Z.lxor_spec, ?Z.land_spec, ?Z.lxor_spec, ?Z.lnot_spec by done.
  by destruct (Z.testbit b n), (Z.testbit c n), (Z.testbit d n).
Qed.

Lemma maj_eq b c d : Z.lor (Z.land b c) (Z.land d (Z.lor b c)) = Fips.Maj b c d.
Proof.
  unfold Fips.Maj. apply Z.bits_inj'. intros n Hn.
  rewrite ?Z.lxor_spec, ?Z.land_spec, ?Z.lor_spec, ?Z.land_spec, ?Z.lor_spec by done.
  by destruct (Z.testbit b n), (Z.testbit c n), (Z.testbit d n).
Qed.

Lemma rol_eq x n : is_u32 x -> 0 <= n <= 32 -> sha1_rol32 x n = rotl32 x n.
Proof. apply rotl32_bits. Qed.

Lemma land15 i : Nat.land i 15 = (i mod 16)%nat.
Proof. exact (Nat.land_ones i 4). Qed.

Definition u32s (v : Z * Z * Z * Z * Z) : Prop :=
  let '(a, b, c, d, e) := v in is_u32 a /\ is_u32 b /\ is_u32 c /\ is_u32 d /\ is_u32 e.

Lemma step_range v tw : u32s v -> u32s (Fips.step v tw).
Proof.
  destruct v as [[[[a b] c] d] e], tw as [t w]. cbn. intros (? & ? & ? & ? & ?).
  split_and!; try done; [apply u32_range | apply rotl32_range; [done | lia]].
Qed.

(** A round is the step of the standard on the word the schedule gives. *)
Definition sched (i : nat) (w : list Z) : list Z :=
  if (16 <=? i)%nat then
    <[(i mod 16)%nat := sha1_rol32
       (Z.lxor (Z.lxor (Z.lxor (w !!! ((i + 13) mod 16)%nat) (w !!! ((i + 8) mod 16)%nat))
          (w !!! ((i + 2) mod 16)%nat)) (w !!! (i mod 16)%nat)) 1]> w
  else w.

Lemma round_step i w v :
  u32s v ->
  hash_round i w v = (sched i w, Fips.step v (i, sched i w !!! (i mod 16)%nat)).
Proof.
  destruct v as [[[[a b] c] d] e]. intros (Ha & Hb & _).
  unfold hash_round. rewrite !land15. fold (sched i w).
  set (w' := sched i w). cbv zeta. unfold Fips.step.
  rewrite !rol_eq by (done || lia). f_equal. f_equal. f_equal. f_equal. f_equal.
  unfold Fips.f_t, Fips.K_t, Fips.Parity. rewrite ch_eq, maj_eq.
  destruct (i <? 20)%nat; [| destruct (i <? 40)%nat; [| destruct (i <? 60)%nat]];
    rewrite u32_add_l, ?Z.lxor_assoc; f_equal; unfold SHA1_K0, SHA1_K20, SHA1_K40, SHA1_K60; lia.
Qed.

Definition win_ok (win : list Z) : Prop := Forall is_u32 win.

Lemma total_u32 win i : win_ok win -> is_u32 (win !!! i).
Proof.
  intros Hw. rewrite list_lookup_total_alt. destruct (win !! i) eqn:E; cbn.
  - by eapply Forall_lookup_1.
  - unfold is_u32. cbn. lia.
Qed.

Lemma next_word_range win : win_ok win -> is_u32 (Fips.next_word win).
Proof.
  intros. unfold Fips.next_word. apply rotl32_range; [| lia].
  repeat apply lxor_u32; by apply total_u32.
Qed.

(** The second phase: sixteen words held in a circular array. *)
Lemma loop_schedule n : forall i w win v,
  (16 <= i)%nat -> holds i w win -> win_ok win -> u32s v ->
  snd (hash_loop n i w v) = foldl Fips.step v (zip (seq i n) (schedule Fips.next_word n win)).
Proof.
  induction n as [|n IH]; intros i w win v Hi Hh Hw Hv; [done |].
  cbn [hash_loop schedule seq zip zip_with foldl].
  rewrite round_step by done. remember (sched i w) as w' eqn:Hw'.
  unfold sched in Hw'. rewrite (proj2 (Nat.leb_le 16 i) Hi) in Hw'.
  replace (i mod 16)%nat with ((i + 0) mod 16)%nat in Hw' at 2 by (f_equal; lia).
  rewrite !(holds_lookup i w win) in Hw' by (done || lia).
  assert (Hx : is_u32 (Fips.next_word win)) by by apply next_word_range.
  rewrite rol_eq in Hw'; [| repeat apply lxor_u32; by apply total_u32 | lia].
  rewrite !Z.lxor_assoc in Hw'. fold (Fips.next_word win) in Hw'.
  pose proof (holds_step Fips.next_word i w win Hh) as Hh'. rewrite <- Hw' in Hh'.
  assert (Hl : w' !!! (i mod 16)%nat = Fips.next_word win).
  { rewrite Hw', list_lookup_total_insert_eq; [done |].
    destruct Hh as (-> & _). apply Nat.mod_upper_bound. lia. }
  rewrite Hl. apply IH; [lia | done | | by apply step_range].
  apply Forall_app_2; [| auto with bytes]. unfold win_ok in Hw. destruct win; [done |].
  by apply Forall_cons_1 in Hw as [_ Hw].
Qed.

(** The first phase reads the block. *)
Lemma loop_block n : forall i k w v,
  (i + n = 16)%nat -> length w = 16%nat -> u32s v ->
  hash_loop (n + k) i w v = hash_loop k 16 w (foldl Fips.step v (zip (seq i n) (drop i w))).
Proof.
  induction n as [|n IH]; intros i k w v Hi Hw Hv.
  { cbn. by replace i with 16%nat by lia. }
  cbn [Nat.add hash_loop]. rewrite round_step by done. unfold sched.
  rewrite (proj2 (Nat.leb_gt 16 i)) by lia. rewrite Nat.mod_small by lia.
  destruct (lookup_lt_is_Some_2 w i) as [x Hx]; [lia |].
  rewrite (drop_S w x i Hx). cbn [seq zip zip_with foldl].
  rewrite (list_lookup_total_correct w i x Hx).
  apply IH; [lia | done | by apply step_range].
Qed.

Lemma loop_length n : forall i w v, length (fst (hash_loop n i w v)) = length w.
Proof.
  induction n as [|n IH]; intros i w v; [done |]. cbn [hash_loop].
  destruct (hash_round i w v) as [w' v'] eqn:E. rewrite IH.
  replace w' with (fst (hash_round i w v)) by (by rewrite E).
  destruct v as [[[[a b] c] d] e]. unfold hash_round. cbn [fst].
  destruct (16 <=? i)%nat; [by rewrite length_insert | done].
Qed.

Lemma loop_eq ws v :
  length ws = 16%nat -> win_ok ws -> u32s v ->
  snd (hash_loop 80 0 ws v) = Fips.rounds v ws.
Proof.
  intros Hl Hw Hv. unfold Fips.rounds. rewrite (loop_block 16 0 64) by done. rewrite drop_0.
  change (seq 0 80) with (seq 0 16 ++ seq 16 64).
  rewrite zip_with_app, foldl_app by (by rewrite length_seq).
  apply loop_schedule; [lia | apply (holds_wrap 0), holds_init; done | done |].
  generalize (zip (seq 0 16) ws). intros l. revert v Hv.
  induction l as [|tw l IH]; intros v Hv; [done | apply IH; by apply step_range].
Qed.

Definition words5 (H : list Z) : Prop := length H = 5%nat /\ Forall is_u32 H.

(** ** The block function *)
Lemma hashBlock_ok s H block :
  state s = bytes_of H -> words5 H -> bytes_ok block ->
  words_of 16 (buffer s) = be_words 16 block ->
  exists buf, sha1_hashBlock s =
    Sha1nfo buf (bufferOffset s) (bytes_of (Fips.compress H block)) (byteCount s)
      (keyBuffer s) (innerHash s) /\
    length buf = 64%nat /\ bytes_ok buf /\ words5 (Fips.compress H block).
Proof.
  intros Hs [Hl Hr] Hbk Hb. unfold sha1_hashBlock.
  assert (Hwd : words_of 5 (bytes_of H) = H) by (pose proof (words_of_bytes H Hr) as E; by rewrite Hl in E).
  rewrite Hs, Hb, Hwd. clear Hwd.
  destruct H as [|h0 [|h1 [|h2 [|h3 [|h4 [|]]]]]]; try discriminate Hl.
  cbn [lookup_total list_lookup_total].
  set (ws := be_words 16 block). set (v := (h0, h1, h2, h3, h4)).
  assert (Hv : u32s v).
  { repeat match goal with Hr : Forall _ (_ :: _) |- _ => apply Forall_cons_1 in Hr as [? ?] end.
    done. }
  pose proof (loop_eq ws v (be_words_length 16 block) (be_words_range 16 block Hbk) Hv) as E.
  pose proof (loop_length 80 0 ws v) as Ew.
  unfold Fips.compress. fold ws. fold v. rewrite <- E. clear E.
  destruct (hash_loop 80 0 ws v) as [w [[[[a b] c] d] e]]. cbn [snd fst] in Ew |- *.
  eexists; split; [reflexivity |]. split; [| split; [apply bytes_of_ok |]].
  - rewrite bytes_of_length, Ew. unfold ws. by rewrite be_words_length.
  - split; [done |]. auto 10 with bytes.
Qed.

(** ** Absorbing bytes *)
Definition keys (s : sha1nfo) : list Z * list Z := (keyBuffer s, innerHash s).

Definition idx (j : nat) : nat := Z.to_nat (Z.lxor (Z.of_nat j) 3).

Lemma idx_facts :
  forallb (fun j => (idx j <? 64)%nat && (Z.of_nat (idx j) =? Z.lxor (Z.of_nat j) 3)
             && (idx (idx j) =? j)%nat) (seq 0 64) = true.
Proof. vm_compute. reflexivity. Qed.

Lemma idx_ok j : (j < 64)%nat -> (idx j < 64)%nat /\ Z.of_nat (idx j) = Z.lxor (Z.of_nat j) 3 /\
  idx (idx j) = j.
Proof.
  intros Hj. pose proof idx_facts as F. rewrite forallb_forall in F.
  specialize (F j ltac:(apply in_seq; lia)). rewrite !andb_true_iff in F.
  destruct F as [[F1 F2] F3]. split_and!; [by apply Nat.ltb_lt | by apply Z.eqb_eq | by apply Nat.eqb_eq].
Qed.

(** [s] has absorbed the pending bytes [p] after the chaining value [H]. *)
Record rep (s : sha1nfo) (H p : list Z) : Prop := {
  rep_state : state s = bytes_of H;
  rep_words : words5 H;
  rep_offset : bufferOffset s = zlen p;
  rep_pending : (length p < 64)%nat;
  rep_length : length (buffer s) = 64%nat;
  rep_bytes : bytes_ok (buffer s);
  rep_pbytes : bytes_ok p;
  rep_buffer : forall j x, p !! j = Some x -> buffer s !! idx j = Some x
}.

(** A quadruple of the byte view is the reversed quadruple of the message. *)
Lemma quad_idx buf p i :
  length p = 64%nat -> length buf = 64%nat -> (i < 16)%nat ->
  (forall j x, p !! j = Some x -> buf !! idx j = Some x) ->
  quad buf i = rev (quad p i).
Proof.
  intros Hp Hb Hi Hbuf. unfold quad.
  assert (Hsplit : forall l : list Z, length l = 64%nat -> exists a b c d,
    take 4 (drop (4 * i) l) = [a; b; c; d] /\ l !! (4 * i)%nat = Some a /\
    l !! (4 * i + 1)%nat = Some b /\ l !! (4 * i + 2)%nat = Some c /\ l !! (4 * i + 3)%nat = Some d).
  { intros l Hl. assert (Hn : (4 <= length (drop (4 * i) l))%nat) by (rewrite length_drop; lia).
    destruct (drop (4 * i) l) as [|a [|b [|c [|d t]]]] eqn:E; try (cbn in Hn; lia).
    exists a, b, c, d. split; [done |].
    assert (Hk : forall k, l !! (4 * i + k)%nat = (a :: b :: c :: d :: t) !! k)
      by (intros k; by rewrite <- E, lookup_drop).
    rewrite <- (Nat.add_0_r (4 * i)) at 1. by rewrite !Hk. }
  destruct (Hsplit p Hp) as (a & b & c & d & -> & Ha & Hb' & Hc & Hd).
  destruct (Hsplit buf Hb) as (a' & b' & c' & d' & -> & Ha' & Hb'' & Hc' & Hd').
  apply Hbuf in Ha, Hb', Hc, Hd.
  assert (Hx : idx (4 * i) = (4 * i + 3)%nat /\ idx (4 * i + 1) = (4 * i + 2)%nat /\
               idx (4 * i + 2) = (4 * i + 1)%nat /\ idx (4 * i + 3) = (4 * i)%nat).
  { clear -Hi. do 16 (destruct i as [|i]; [by vm_compute |]). lia. }
  destruct Hx as (Ea & Eb & Ec & Ed). rewrite Ea in Ha. rewrite Eb in Hb'. rewrite Ec in Hc.
  rewrite Ed in Hd. cbn [rev app]. congruence.
Qed.

Lemma full_words buf p :
  length p = 64%nat -> length buf = 64%nat ->
  (forall j x, p !! j = Some x -> buf !! idx j = Some x) ->
  words_of 16 buf = be_words 16 p.
Proof.
  intros. unfold words_of, be_words. apply list_fmap_ext. intros k i Hk.
  apply lookup_seq in Hk as [-> Hk]. unfold be_num. by rewrite quad_idx with (p := p).
Qed.

Lemma add_ok s H p d :
  rep s H p -> is_byte d ->
  exists s', sha1_addUncounted s d = Ok s' /\
    rep s' (fst (absorb Fips.compress (H, p) d)) (snd (absorb Fips.compress (H, p) d)) /\
    byteCount s' = byteCount s /\ keys s' = keys s.
Proof.
  intros [Hs Hw Ho Hp Hl Hb Hpb Hbuf] Hd. unfold sha1_addUncounted, absorb. cbn [fst snd].
  destruct (idx_ok (length p) Hp) as (Hi & Hx & _).
  rewrite Ho. change (zlen p) with (Z.of_nat (length p)). rewrite <- Hx.
  unfold wr. replace ((0 <=? Z.of_nat (idx (length p))) && (Z.of_nat (idx (length p)) <? zlen (buffer s)))
    with true by (unfold zlen; lia).
  rewrite res_bind_ok, Nat2Z.id. cbn [bufferOffset].
  rewrite u8_id by (unfold is_byte; lia).
  assert (Hins : forall j x, (p ++ [d]) !! j = Some x ->
            <[idx (length p) := d]> (buffer s) !! idx j = Some x).
  { intros j x Hj. destruct (decide (j = length p)) as [-> | Hne].
    - rewrite list_lookup_middle in Hj by done. injection Hj as ->.
      apply list_lookup_insert_eq. lia.
    - pose proof (lookup_lt_Some _ _ _ Hj) as Hlt. rewrite length_app in Hlt. cbn in Hlt.
      rewrite lookup_app_l in Hj by lia. rewrite list_lookup_insert_ne; [by apply Hbuf |].
      intros E. destruct (idx_ok j ltac:(lia)) as (_ & _ & E1).
      destruct (idx_ok (length p) Hp) as (_ & _ & E2). rewrite E, E1 in E2. lia. }
  assert (Hib : bytes_ok (<[idx (length p) := d]> (buffer s))) by by apply Forall_insert.
  rewrite length_app. cbn [length].
  destruct (Z.eqb_spec (Z.of_nat (length p) + 1) BLOCK_LENGTH) as [E | E]; unfold BLOCK_LENGTH in E.
  - rewrite (proj2 (Nat.eqb_eq (length p + 1) 64)) by lia. cbn [fst snd].
    destruct (hashBlock_ok (Sha1nfo (<[idx (length p):=d]> (buffer s)) (Z.of_nat (length p) + 1)
      (state s) (byteCount s) (keyBuffer s) (innerHash s)) H (p ++ [d])) as (buf & -> & Hbl & Hbb & Hcw);
      cbn [state buffer]; [done.. | auto with bytes | |].
    { apply full_words; [rewrite length_app; cbn; lia | by rewrite length_insert | done]. }
    eexists; split; [reflexivity |]. cbn. split; [| done].
    split; cbn; try done; (lia || auto with bytes).
  - rewrite (proj2 (Nat.eqb_neq (length p + 1) 64)) by lia. cbn [fst snd].
    eexists; split; [reflexivity |]. cbn [byteCount]. split; [| done].
    split; cbn [state buffer bufferOffset]; try done.
    + rewrite zlen_app. done.
    + rewrite length_app. cbn. lia.
    + by rewrite length_insert.
    + auto with bytes.
Qed.

Lemma write_ok m : forall s H p,
  rep s H p -> bytes_ok m -> 0 <= byteCount s -> byteCount s + zlen m < 4294967296 ->
  exists s', sha1_write s m = Ok s' /\
    (let '(H', p') := foldl (absorb Fips.compress) (H, p) m in rep s' H' p') /\
    byteCount s' = byteCount s + zlen m /\ keys s' = keys s.
Proof.
  induction m as [|d m IH]; intros s H p Hr Hm H0 Hl.
  { exists s. cbn. by rewrite Z.add_0_r. }
  apply Forall_cons_1 in Hm as [Hd Hm]. cbn [sha1_write]. unfold sha1_writebyte.
  rewrite zlen_cons in Hl. pose proof (zlen_nonneg m).
  destruct (add_ok (Sha1nfo (buffer s) (bufferOffset s) (state s) (u32 (byteCount s + 1))
    (keyBuffer s) (innerHash s)) H p d) as (s1 & -> & Hr1 & Hc1 & Hk1); [by destruct Hr | done |].
  cbn [byteCount] in Hc1. rewrite u32_id in Hc1 by (unfold is_u32; lia).
  rewrite res_bind_ok. destruct (IH s1 _ _ Hr1 Hm) as (s2 & -> & Hr2 & Hc2 & Hk2); [lia | lia |].
  exists s2. split; [done |]. cbn [foldl]. rewrite <- surjective_pairing in Hr2.
  split_and!; [done | rewrite zlen_cons; lia | by rewrite Hk2, Hk1].
Qed.

Lemma add_all_ok m : forall s H p,
  rep s H p -> bytes_ok m ->
  exists s', add_all s m = Ok s' /\
    (let '(H', p') := foldl (absorb Fips.compress) (H, p) m in rep s' H' p') /\
    byteCount s' = byteCount s /\ keys s' = keys s.
Proof.
  induction m as [|d m IH]; intros s H p Hr Hm; [by exists s |].
  apply Forall_cons_1 in Hm as [Hd Hm]. cbn [add_all].
  destruct (add_ok s H p d Hr Hd) as (s1 & -> & Hr1 & Hc1 & Hk1). rewrite res_bind_ok.
  destruct (IH s1 _ _ Hr1 Hm) as (s2 & -> & Hr2 & Hc2 & Hk2).
  exists s2. split; [done |]. cbn [foldl]. rewrite <- surjective_pairing in Hr2.
  split_and!; [done | congruence..].
Qed.

(** ** Padding *)
Lemma pad_loop_ok z : forall fuel s H p,
  (z <= fuel)%nat -> Z.of_nat z = (56 - zlen p) mod 64 -> rep s H p ->
  exists s', pad_loop fuel s = Ok s' /\
    (let '(H', p') := foldl (absorb Fips.compress) (H, p) (replicate z 0) in rep s' H' p') /\
    byteCount s' = byteCount s /\ keys s' = keys s.
Proof.
  induction z as [|z IH]; intros fuel s H p Hf Hz Hr; pose proof (rep_offset _ _ _ Hr) as Ho;
    pose proof (rep_pending _ _ _ Hr) as Hp.
  - exists s. split; [| done].
    assert (zlen p = 56) as E by (unfold zlen in *; modlia).
    destruct fuel; cbn [pad_loop]; by rewrite Ho, E.
  - destruct fuel as [|fuel]; [lia |]. cbn [pad_loop]. rewrite Ho.
    destruct (Z.eqb_spec (zlen p) 56) as [E | E]; [rewrite E in Hz; change ((56 - 56) mod 64) with 0 in Hz; lia |].
    destruct (add_ok s H p 0 Hr) as (s1 & -> & Hr1 & Hc1 & Hk1); [unfold is_byte; lia |].
    rewrite res_bind_ok.
    edestruct (IH fuel s1) as (s2 & -> & Hr2 & Hc2 & Hk2); [lia | | exact Hr1 |].
    + rewrite snd_absorb_length. unfold zlen in *. destruct (Z.eqb_spec (Z.of_nat (length p)) 63); modlia.
    + exists s2. split; [done |]. cbn [replicate foldl]. rewrite <- surjective_pairing in Hr2.
      split_and!; [done | congruence..].
Qed.

Lemma length_field n :
  0 <= n < 4294967296 ->
  [0; 0; 0; u8 (Z.shiftr n 29); u8 (Z.shiftr n 21); u8 (Z.shiftr n 13); u8 (Z.shiftr n 5);
   u8 (Z.shiftl n 3)] = be_bytes 8 (8 * n).
Proof.
  intros Hn. unfold be_bytes. cbn [le_bytes rev app].
  rewrite !Z.shiftr_div_pow2, Z.shiftl_mul_pow2 by lia. rewrite !Z.div_div by lia.
  unfold u8. repeat (apply (f_equal2 cons); [modlia |]). done.
Qed.

Lemma pad_ok s m :
  (let '(H, p) := foldl (absorb Fips.compress) (Fips.H0, []) m in rep s H p) ->
  byteCount s = zlen m -> zlen m < 4294967296 ->
  exists s', sha1_pad s = Ok s' /\ rep s' (foldl Fips.compress Fips.H0 (blocks (md_pad m))) [] /\
    keys s' = keys s.
Proof.
  intros Hr Hc Hm. pose proof (absorb_blocks Fips.compress Fips.H0 (md_pad m) (zlen_md_pad m)) as Hall.
  unfold md_pad in Hall at 1. rewrite !foldl_app in Hall.
  pose proof (absorb_pending Fips.compress Fips.H0 m) as Hpend.
  destruct (foldl (absorb Fips.compress) (Fips.H0, []) m) as [H p]. cbn [snd] in Hpend.
  unfold sha1_pad.
  destruct (add_ok s H p 0x80 Hr) as (s1 & -> & Hr1 & Hc1 & Hk1); [unfold is_byte; lia |].
  rewrite res_bind_ok. cbn [foldl] in Hall.
  edestruct (pad_loop_ok (Z.to_nat ((55 - zlen m) mod 64)) 64 s1)
    as (s2 & -> & Hr2 & Hc2 & Hk2); [| | exact Hr1 |].
  { pose proof (Z.mod_pos_bound (55 - zlen m) 64). lia. }
  { rewrite Z2Nat.id by (apply Z.mod_pos_bound; lia). rewrite snd_absorb_length.
    unfold zlen. pose proof (Nat.mod_upper_bound (length m) 64).
    rewrite Hpend, Nat2Z.inj_mod. destruct (Z.eqb_spec (Z.of_nat (length m) mod Z.of_nat 64) 63); modlia. }
  rewrite res_bind_ok, <- surjective_pairing in *.
  destruct (foldl _ _ (replicate _ 0)) as [H' p']. 
  rewrite Hc2, Hc1, Hc, length_field by (pose proof (zlen_nonneg m); lia).
  destruct (add_all_ok (be_bytes 8 (8 * zlen m)) s2 H' p' Hr2) as (s3 & -> & Hr3 & _ & Hk3).
  { unfold be_bytes. apply Forall_rev. auto with bytes. }
  rewrite Hall in Hr3. exists s3. split_and!; [done | done | congruence].
Qed.

(** ** The digest *)
Lemma land_byte_mask x k :
  0 <= k -> Z.land x (255 * 2 ^ k) = ((x / 2 ^ k) mod 256) * 2 ^ k.
Proof.
  intros Hk. change 255 with (Z.ones 8). change 256 with (2 ^ 8).
  rewrite <- !Z.shiftl_mul_pow2 by done. rewrite <- Z.land_ones by lia.
  rewrite <- Z.shiftr_div_pow2 by done. apply Z.bits_inj'. intros i Hi.
  rewrite Z.land_spec, !Z.shiftl_spec by done. destruct (decide (k <= i)).
  - rewrite Z.land_spec, Z.shiftr_spec by lia. do 2 f_equal. lia.
  - rewrite (Z.testbit_neg_r (Z.ones 8)), (Z.testbit_neg_r (Z.land _ _)) by lia.
    apply andb_false_r.
Qed.

Lemma swap_word_sum a :
  is_u32 a ->
  swap_word a = (a mod 256) * 2 ^ 24 + ((a / 2 ^ 8) mod 256) * 2 ^ 16
                + ((a / 2 ^ 16) mod 256) * 2 ^ 8 + a / 2 ^ 24.
Proof.
  unfold is_u32. intros Ha. unfold swap_word.
  change 0x00ff0000 with (255 * 2 ^ 16). change 0x0000ff00 with (255 * 2 ^ 8).
  rewrite !land_byte_mask by lia. unfold u32. rewrite !Z.shiftl_mul_pow2, !Z.shiftr_div_pow2 by lia.
  change (2 ^ 24) with 16777216. change (2 ^ 16) with 65536. change (2 ^ 8) with 256.
  set (x3 := (a * 16777216) mod 4294967296).
  set (x2 := ((a * 256) mod 4294967296 / 65536) mod 256 * 65536).
  set (x1 := (a / 256 / 256) mod 256 * 256).
  assert (E3 : x3 = (a mod 256) * 16777216) by (unfold x3; modlia).
  assert (E2 : x2 = ((a / 256) mod 256) * 65536) by (unfold x2; modlia).
  assert (E1 : x1 = ((a / 65536) mod 256) * 256) by (unfold x1; modlia).
  rewrite (lor_disjoint x3 x2 24) by (change (2 ^ 24) with 16777216; modlia).
  rewrite (lor_disjoint (x3 + x2) x1 16) by (change (2 ^ 16) with 65536; modlia).
  rewrite (lor_disjoint (x3 + x2 + x1) (a / 16777216) 8) by (change (2 ^ 8) with 256; modlia).
  lia.
Qed.

Lemma swap_word_bytes a : is_u32 a -> le_bytes 4 (swap_word a) = be_bytes 4 a.
Proof.
  intros Ha. assert (E : swap_word a = le_num (be_bytes 4 a)).
  { rewrite swap_word_sum by done. unfold is_u32 in Ha. unfold be_bytes.
    cbn [le_bytes rev app le_num]. replace (a / 256 / 256 / 256) with (a / 2 ^ 24) by (by rewrite !Z.div_div by lia).
    replace (a / 256 / 256) with (a / 2 ^ 16) by (by rewrite !Z.div_div by lia).
    rewrite (u8_id (a / 2 ^ 24)) by (unfold is_byte; change (2 ^ 24) with 16777216; modlia).
    unfold u8. change (2 ^ 8) with 256. lia. }
  rewrite E. apply (le_bytes_num (be_bytes 4 a)). apply Forall_rev. auto with bytes.
Qed.

Lemma swapped_bytes H : Forall is_u32 H -> bytes_of (swap_word <$> H) = be_bytes_of H.
Proof.
  induction 1 as [|h H Hh _ IH]; [done |]. rewrite fmap_cons, bytes_of_cons, IH, swap_word_bytes by done.
  reflexivity.
Qed.

Lemma be_bytes_of_length H : length (be_bytes_of H) = (4 * length H)%nat.
Proof.
  unfold be_bytes_of. induction H as [|h H IH]; [done |].
  change (mjoin (be_bytes 4 <$> h :: H)) with (be_bytes 4 h ++ mjoin (be_bytes 4 <$> H)).
  rewrite length_app, IH. cbn. lia.
Qed.

Lemma be_bytes_of_ok H : bytes_ok (be_bytes_of H).
Proof.
  unfold be_bytes_of. induction H as [|h H IH]; [constructor |].
  change (mjoin (be_bytes 4 <$> h :: H)) with (be_bytes 4 h ++ mjoin (be_bytes 4 <$> H)).
  apply Forall_app_2; [apply Forall_rev; auto with bytes | done].
Qed.

(** The block and its pending prefix after hashing [m]. *)
Definition hashed (s : sha1nfo) (m : list Z) : Prop :=
  (let '(H, p) := foldl (absorb Fips.compress) (Fips.H0, []) m in rep s H p) /\
  byteCount s = zlen m.

Lemma init_hashed s : length (buffer s) = 64%nat -> bytes_ok (buffer s) -> hashed (sha1_init s) [].
Proof.
  intros. split; [| done]. split; cbn; try done; try lia.
  split; [done |]. unfold Fips.H0, is_u32. repeat (apply Forall_cons_2; [lia |]). auto.
Qed.

Lemma hashed_buffer s m : hashed s m -> length (buffer s) = 64%nat /\ bytes_ok (buffer s).
Proof. intros [Hr _]. destruct (foldl _ _ m). by destruct Hr. Qed.

Lemma write_hashed s m k :
  hashed s m -> bytes_ok k -> zlen m + zlen k < 4294967296 ->
  exists s', sha1_write s k = Ok s' /\ hashed s' (m ++ k) /\ keys s' = keys s.
Proof.
  intros [Hr Hc] Hk Hl. unfold hashed. rewrite foldl_app.
  destruct (foldl _ _ m) as [H p].
  destruct (write_ok k s H p Hr Hk) as (s' & -> & Hr' & Hc' & Hk').
  { rewrite Hc. apply zlen_nonneg. }
  { lia. }
  exists s'. split_and!; [done | done | rewrite zlen_app; lia | done].
Qed.

Lemma result_ok s m :
  hashed s m -> zlen m < 4294967296 ->
  exists s', sha1_result s = Ok s' /\ state s' = Fips.SHA1 m /\ keys s' = keys s /\
    length (buffer s') = 64%nat /\ bytes_ok (buffer s').
Proof.
  intros [Hr Hc] Hl. destruct (pad_ok s m Hr Hc Hl) as (s' & E & [Hs [Hw1 Hw2] _ _ Hb Hbb _ _] & Hk).
  unfold sha1_result. rewrite E, res_bind_ok. eexists; split; [reflexivity |].
  cbn [state buffer]. split_and!; [| done | done | done].
  rewrite Hs. replace 5%nat with (length (foldl Fips.compress Fips.H0 (blocks (md_pad m)))).
  rewrite words_of_bytes by done. by rewrite swapped_bytes.
Qed.

Lemma SHA1_length m : length (Fips.SHA1 m) = 20%nat.
Proof.
  unfold Fips.SHA1. rewrite be_bytes_of_length.
  assert (E : length (foldl Fips.compress Fips.H0 (blocks (md_pad m))) = 5%nat); [| by rewrite E].
  generalize (blocks (md_pad m)). intros l. assert (Hl : length Fips.H0 = 5%nat) by done.
  revert Hl. generalize Fips.H0. induction l as [|b l IH]; intros h Hh; [done |].
  cbn [foldl]. apply IH. destruct h as [|h0 [|h1 [|h2 [|h3 [|h4 [|]]]]]]; try discriminate Hh.
  cbn [Fips.compress]. by destruct (Fips.rounds _ _) as [[[[? ?] ?] ?] ?].
Qed.

Lemma SHA1_ok m : bytes_ok (Fips.SHA1 m).
Proof. apply be_bytes_of_ok. Qed.

Lemma take_SHA1 m : take 20 (Fips.SHA1 m) = Fips.SHA1 m.
Proof. apply take_ge. by rewrite SHA1_length. Qed.

(** ** The entry points *)
Lemma sha1_eq s0 m :
  length (buffer s0) = 64%nat -> bytes_ok (buffer s0) ->
  bytes_ok m -> zlen m < 4294967296 ->
  sha1 s0 m = Ok (Fips.SHA1 m).
Proof.
  intros Hb Hbb Hm Hl. unfold sha1.
  destruct (write_hashed _ _ m (init_hashed s0 Hb Hbb) Hm) as (s1 & -> & Hh & _); [done |].
  rewrite res_bind_ok. destruct (result_ok s1 _ Hh Hl) as (s2 & -> & Hs & _).
  by rewrite res_bind_ok, Hs, take_SHA1.
Qed.

(** C38: the digest is the one of FIPS 180-4.  Starting from any
    uninitialised structure, [sha1] of a message of fewer than 2^32 bytes
    returns the SHA-1 digest of the standard: the byte-at-a-time block
    buffer, the circular message schedule and the padding loop (which
    terminates) agree with padding, 80-word schedule and compression of
    the definition. *)
Theorem sha1_fips s0 m :
  length (buffer s0) = 64%nat -> bytes_ok (buffer s0) ->
  bytes_ok m -> zlen m < 4294967296 ->
  sha1 s0 m = Ok (Fips.SHA1 m).
Proof. intros. by apply sha1_eq. Qed.

(** The normalised key of RFC 2104. *)
Definition norm_key (key : list Z) : list Z :=
  let k := if 64 <? zlen key then Fips.SHA1 key else key in
  k ++ replicate (64 - length k) 0.

Lemma norm_key_length key : length (norm_key key) = 64%nat.
Proof.
  unfold norm_key. destruct (Z.ltb_spec 64 (zlen key)); rewrite length_app, length_replicate.
  - by rewrite SHA1_length.
  - unfold zlen in *. lia.
Qed.

Lemma splice_key k :
  (length k <= 64)%nat -> splice (replicate 64 0) 0 k = k ++ replicate (64 - length k) 0.
Proof. intros. unfold splice. by rewrite drop_replicate. Qed.

Lemma xor_key_ok key c :
  bytes_ok key -> is_byte c -> bytes_ok ((fun x => Z.lxor x c) <$> norm_key key).
Proof.
  intros Hk Hc. assert (Hn : bytes_ok (norm_key key)).
  { unfold norm_key. destruct (64 <? zlen key); auto using SHA1_ok with bytes. }
  apply Forall_fmap. revert Hn. apply Forall_impl. intros x Hx. by apply lxor_byte.
Qed.

Lemma initHmac_ok s key :
  length (buffer s) = 64%nat -> bytes_ok (buffer s) -> bytes_ok key -> zlen key < 4294967296 ->
  exists s', sha1_initHmac s key = Ok s' /\
    hashed s' ((fun x => Z.lxor x 0x36) <$> norm_key key) /\ keyBuffer s' = norm_key key.
Proof.
  intros Hb Hbb Hk Hl. unfold sha1_initHmac, BLOCK_LENGTH. set (s1 := set_key s _).
  assert (Hkey : exists s2, (if 64 <? zlen key
           then s0 ← sha1_write (sha1_init s1) key; s0 ← sha1_result s0;
                Ok (set_key s0 (splice (keyBuffer s0) 0 (take 20 (state s0))))
           else Ok (set_key s1 (splice (keyBuffer s1) 0 key))) = Ok s2 /\
         keyBuffer s2 = norm_key key /\ length (buffer s2) = 64%nat /\ bytes_ok (buffer s2)).
  { unfold norm_key. destruct (Z.ltb_spec 64 (zlen key)).
    - destruct (write_hashed (sha1_init s1) [] key) as (s2 & -> & Hh & Hk2);
        [by apply init_hashed | done | exact Hl |].
      rewrite res_bind_ok. destruct (result_ok s2 _ Hh Hl) as (s3 & -> & Hs3 & Hk3 & Hb3 & Hbb3).
      rewrite res_bind_ok. eexists; split; [reflexivity |]. cbn [keyBuffer set_key buffer].
      injection Hk2 as Hk2 _. injection Hk3 as Hk3 _.
      rewrite Hs3, Hk3, Hk2. cbn [keyBuffer sha1_init s1 set_key app].
      rewrite take_SHA1, splice_key by (rewrite SHA1_length; lia). done.
    - eexists; split; [reflexivity |]. cbn [keyBuffer set_key buffer s1].
      rewrite splice_key by (unfold zlen in *; lia). done. }
  destruct Hkey as (s2 & -> & Hk2 & Hb2 & Hbb2). rewrite res_bind_ok.
  destruct (write_hashed (sha1_init s2) [] ((fun k => Z.lxor k HMAC_IPAD) <$> keyBuffer s2))
    as (s3 & -> & Hh & Hk3).
  - by apply init_hashed.
  - rewrite Hk2. apply xor_key_ok; [done |]. unfold is_byte, HMAC_IPAD. lia.
  - unfold zlen. rewrite length_fmap, Hk2, norm_key_length. cbn. lia.
  - exists s3. rewrite Hk2 in Hh. split_and!; [done | done |].
    injection Hk3 as Hk3 _. by rewrite Hk3.
Qed.

(** the HMAC entry points compute RFC 2104.  After [sha1_initHmac]
    with a key of any length and [sha1_write] of the message,
    [sha1_resultHmac] leaves HMAC-SHA1 of the message in the state. *)
Theorem sha1_hmac_rfc2104 s0 key m :
  length (buffer s0) = 64%nat -> bytes_ok (buffer s0) -> bytes_ok key -> bytes_ok m ->
  zlen key < 4294967296 -> zlen m + 64 < 4294967296 ->
  exists s1 s2 s3, sha1_initHmac s0 key = Ok s1 /\ sha1_write s1 m = Ok s2 /\
    sha1_resultHmac s2 = Ok s3 /\ take 20 (state s3) = Fips.HMAC key m.
Proof.
  intros Hb Hbb Hk Hm Hkl Hml.
  destruct (initHmac_ok s0 key Hb Hbb Hk Hkl) as (s1 & -> & Hh1 & Hk1).
  assert (Hpad : forall c, zlen ((fun x => Z.lxor x c) <$> norm_key key) = 64)
    by (intros; unfold zlen; by rewrite length_fmap, norm_key_length).
  destruct (write_hashed s1 _ m Hh1 Hm) as (s2 & E2 & Hh2 & Hk2); [rewrite Hpad; lia |].
  destruct (result_ok s2 _ Hh2) as (s3 & E3 & Hs3 & Hk3 & Hb3 & Hbb3);
    [rewrite zlen_app, Hpad; lia |].
  exists s1, s2. unfold sha1_resultHmac. rewrite E3, res_bind_ok. cbn [keyBuffer].
  injection Hk3 as Hk3 _. injection Hk2 as Hk2 _. rewrite Hk3, Hk2, Hk1.
  set (s4 := Sha1nfo _ _ _ _ _ _).
  destruct (write_hashed (sha1_init s4) [] ((fun k => Z.lxor k HMAC_OPAD) <$> norm_key key))
    as (s5 & E5 & Hh5 & Hk5); [by apply init_hashed | | by rewrite Hpad |].
  { apply xor_key_ok; [done |]. unfold is_byte, HMAC_OPAD. lia. }
  rewrite E5, res_bind_ok. injection Hk5 as _ Hi5. rewrite Hi5. cbn [innerHash sha1_init s4].
  rewrite Hs3, take_SHA1.
  destruct (write_hashed s5 _ _ Hh5 (SHA1_ok (((fun x => Z.lxor x 0x36) <$> norm_key key) ++ m)))
    as (s6 & E6 & Hh6 & _).
  { cbn [app]. rewrite Hpad. unfold zlen. by rewrite SHA1_length. }
  rewrite E6, res_bind_ok. destruct (result_ok s6 _ Hh6) as (s7 & E7 & Hs7 & _).
  { cbn [app]. rewrite zlen_app, Hpad. unfold zlen. by rewrite SHA1_length. }
  exists s7. split_and!; [done | done | done |]. rewrite Hs7. cbn [app]. apply take_SHA1.
Qed.

(** The first two vectors of the self-test at the end of sha1.c. *)
Definition zeros_info : sha1nfo := Sha1nfo (replicate 64 0) 0 (replicate 20 0) 0 (replicate 64 0) (replicate 20 0).

Example sha1_abc :
  sha1 zeros_info [97; 98; 99] =
  Ok [0xa9; 0x99; 0x3e; 0x36; 0x47; 0x06; 0x81; 0x6a; 0xba; 0x3e;
      0x25; 0x71; 0x78; 0x50; 0xc2; 0x6c; 0x9c; 0xd0; 0xd8; 0x9d].
Proof. vm_compute. reflexivity. Qed.

(* hmacKey2 and "Sample #2" *)
Example hmac_sample2 :
  (s ← sha1_initHmac zeros_info (Z.of_nat <$> seq 0x30 20);
   s ← sha1_write s [83; 97; 109; 112; 108; 101; 32; 35; 50];
   s ← sha1_resultHmac s; Ok (take 20 (state s))) =
  Ok [0x09; 0x22; 0xd3; 0x40; 0x5f; 0xaa; 0x3d; 0x19; 0x4f; 0x82;
      0xa4; 0x58; 0x30; 0x73; 0x7d; 0x5c; 0xc6; 0xc7; 0x5d; 0x24].
Proof. vm_compute. reflexivity. Qed.
End Facts.
