(* ===== verification/Sha256.v ===== *)
(** * SHA-256: libtg/mtx/src/sha256.c, include/sha256.h

    The code unrolls the compression function four rounds at a time,
    renaming the working variables instead of moving them, and updates the
    message schedule sixteen words at a time in place.  The theorems state
    that the byte and hexadecimal digests are those of FIPS 180-4. *)
From S2P Require Import Prelude HashCommon.

(** ** The C code *)
Module Sha256.

Record sha256 := MkSha256 {
  state : list Z;
  buffer : list Z;
  n_bits : Z;
  buffer_counter : Z
}.

Definition rotr (x n : Z) : Z := Z.lor (Z.shiftr x n) (u32 (Z.shiftl x (32 - n))).

Definition step1 (e f g : Z) : Z :=
  u32 (Z.lxor (Z.lxor (rotr e 6) (rotr e 11)) (rotr e 25)
       + Z.lxor (Z.land e f) (Z.land (u32 (Z.lnot e)) g)).

Definition step2 (a b c : Z) : Z :=
  u32 (Z.lxor (Z.lxor (rotr a 2) (rotr a 13)) (rotr a 22)
       + Z.lxor (Z.lxor (Z.land a b) (Z.land a c)) (Z.land b c)).

(** [n] turns of the loop from [j]; [buffer] is the advancing pointer. *)
Fixpoint update_w_loop (n j : nat) (w : list Z) (i : nat) (buffer : list Z) : list Z :=
  match n with
  | O => w
  | S n =>
      if (i <? 16)%nat then
        let x := Z.lor (Z.lor (Z.lor (u32 (Z.shiftl (buffer !!! 0%nat) 24))
                                     (u32 (Z.shiftl (buffer !!! 1%nat) 16)))
                              (u32 (Z.shiftl (buffer !!! 2%nat) 8)))
                       (buffer !!! 3%nat) in
        update_w_loop n (S j) (<[j := x]> w) i (drop 4 buffer)
      else
        let a := w !!! Nat.land (j + 1) 15 in
        let b := w !!! Nat.land (j + 14) 15 in
        let s0 := Z.lxor (Z.lxor (rotr a 7) (rotr a 18)) (Z.shiftr a 3) in
        let s1 := Z.lxor (Z.lxor (rotr b 17) (rotr b 19)) (Z.shiftr b 10) in
        let x := u32 (w !!! j + (w !!! Nat.land (j + 9) 15 + s0 + s1)) in
        update_w_loop n (S j) (<[j := x]> w) i buffer
  end.

Definition update_w (w : list Z) (i : nat) (buffer : list Z) : list Z :=
  update_w_loop 16 0 w i buffer.

(* Four constants. *)
Definition row (a b c d : Z) : list Z := [a; b; c; d].

Definition k : list Z :=
  row 0x428a2f98 0x71374491 0xb5c0fbcf 0xe9b5dba5 ++
  row 0x3956c25b 0x59f111f1 0x923f82a4 0xab1c5ed5 ++
  row 0xd807aa98 0x12835b01 0x243185be 0x550c7dc3 ++
  row 0x72be5d74 0x80deb1fe 0x9bdc06a7 0xc19bf174 ++
  row 0xe49b69c1 0xefbe4786 0x0fc19dc6 0x240ca1cc ++
  row 0x2de92c6f 0x4a7484aa 0x5cb0a9dc 0x76f988da ++
  row 0x983e5152 0xa831c66d 0xb00327c8 0xbf597fc7 ++
  row 0xc6e00bf3 0xd5a79147 0x06ca6351 0x14292967 ++
  row 0x27b70a85 0x2e1b2138 0x4d2c6dfc 0x53380d13 ++
  row 0x650a7354 0x766a0abb 0x81c2c92e 0x92722c85 ++
  row 0xa2bfe8a1 0xa81a664b 0xc24b8b70 0xc76c51a3 ++
  row 0xd192e819 0xd6990624 0xf40e3585 0x106aa070 ++
  row 0x19a4c116 0x1e376c08 0x2748774c 0x34b0bcb5 ++
  row 0x391c0cb3 0x4ed8aa4a 0x5b9cca4f 0x682e6ff3 ++
  row 0x748f82ee 0x78a5636f 0x84c87814 0x8cc70208 ++
  row 0x90befffa 0xa4506ceb 0xbef9a3f7 0xc67178f2.

Definition vars : Type := Z * Z * Z * Z * Z * Z * Z * Z.

(** The body of the loop on [j]: four rounds. *)
Definition four_rounds (w : list Z) (i : nat) (v : vars) (j : nat) : vars :=
  let '(a, b, c, d, e, f, g, h) := v in
  let temp := u32 (h + step1 e f g + k !!! (i + j + 0)%nat + w !!! (j + 0)%nat) in
  let h := u32 (temp + d) in
  let d := u32 (temp + step2 a b c) in
  let temp := u32 (g + step1 h e f + k !!! (i + j + 1)%nat + w !!! (j + 1)%nat) in
  let g := u32 (temp + c) in
  let c := u32 (temp + step2 d a b) in
  let temp := u32 (f + step1 g h e + k !!! (i + j + 2)%nat + w !!! (j + 2)%nat) in
  let f := u32 (temp + b) in
  let b := u32 (temp + step2 c d a) in
  let temp := u32 (e + step1 f g h + k !!! (i + j + 3)%nat + w !!! (j + 3)%nat) in
  let e := u32 (temp + a) in
  let a := u32 (temp + step2 b c d) in
  (a, b, c, d, e, f, g, h).

(** The body of the loop on [i]. *)
Definition sixteen_rounds (buffer : list Z) (wv : list Z * vars) (i : nat) : list Z * vars :=
  let w := update_w (fst wv) i buffer in
  (w, foldl (four_rounds w i) (snd wv) [0; 4; 8; 12]%nat).

(** The array [w] is uninitialised; the first turn fills it. *)
Definition sha256_block (sha : sha256) : sha256 :=
  let st := state sha in
  let v := (st !!! 0%nat, st !!! 1%nat, st !!! 2%nat, st !!! 3%nat,
            st !!! 4%nat, st !!! 5%nat, st !!! 6%nat, st !!! 7%nat) in
  let '(a, b, c, d, e, f, g, h) :=
    snd (foldl (sixteen_rounds (buffer sha)) (replicate 16 0, v) [0; 16; 32; 48]%nat) in
  MkSha256 [u32 (st !!! 0%nat + a); u32 (st !!! 1%nat + b); u32 (st !!! 2%nat + c);
          u32 (st !!! 3%nat + d); u32 (st !!! 4%nat + e); u32 (st !!! 5%nat + f);
          u32 (st !!! 6%nat + g); u32 (st !!! 7%nat + h)]
    (buffer sha) (n_bits sha) (buffer_counter sha).

Definition sha256_init (sha : sha256) : sha256 :=
  MkSha256 [0x6a09e667; 0xbb67ae85; 0x3c6ef372; 0xa54ff53a;
          0x510e527f; 0x9b05688c; 0x1f83d9ab; 0x5be0cd19] (buffer sha) 0 0.

Definition sha256_append_byte (sha : sha256) (byte : Z) : res sha256 :=
  buf ← wr (buffer sha) (buffer_counter sha) byte;
  let sha := MkSha256 (state sha) buf (u64 (n_bits sha + 8)) (u8 (buffer_counter sha + 1)) in
  Ok (if buffer_counter sha =? 64
      then sha256_block (MkSha256 (state sha) (buffer sha) (n_bits sha) 0)
      else sha).

Fixpoint sha256_append (sha : sha256) (src : list Z) : res sha256 :=
  match src with
  | [] => Ok sha
  | b :: src => sha ← sha256_append_byte sha b; sha256_append sha src
  end.

(** [while (sha->buffer_counter != 56)] *)
Fixpoint zero_loop (fuel : nat) (sha : sha256) : res sha256 :=
  if buffer_counter sha =? 56 then Ok sha
  else match fuel with
       | O => Err NoFuel
       | S fuel => sha ← sha256_append_byte sha 0; zero_loop fuel sha
       end.

Definition sha256_finalize (sha : sha256) : res sha256 :=
  let n_bits := n_bits sha in
  sha ← sha256_append_byte sha 0x80;
  sha ← zero_loop 64 sha;
  sha256_append sha
    ((fun i => Z.land (Z.shiftr n_bits (8 * i)) 0xff) <$> [7; 6; 5; 4; 3; 2; 1; 0]).

Definition hex_digits : list Z :=
  [48; 49; 50; 51; 52; 53; 54; 55; 56; 57; 97; 98; 99; 100; 101; 102].

Definition sha256_finalize_hex (sha : sha256) : res (list Z) :=
  sha ← sha256_finalize sha;
  Ok (mjoin ((fun i =>
        (fun j => hex_digits !!! Z.to_nat (Z.land (Z.shiftr (state sha !!! i) (j * 4)) 0xf))
          <$> [7; 6; 5; 4; 3; 2; 1; 0]) <$> seq 0 8) ++ [0]).

Definition sha256_finalize_bytes (sha : sha256) : res (list Z) :=
  sha ← sha256_finalize sha;
  Ok (mjoin ((fun i =>
        (fun j => Z.land (Z.shiftr (state sha !!! i) (j * 8)) 0xff) <$> [3; 2; 1; 0])
          <$> seq 0 8)).

(** [sha0] is the uninitialised automatic variable. *)
Definition sha256_hex (sha0 : sha256) (src : list Z) : res (list Z) :=
  sha ← sha256_append (sha256_init sha0) src; sha256_finalize_hex sha.

Definition sha256_bytes (sha0 : sha256) (src : list Z) : res (list Z) :=
  sha ← sha256_append (sha256_init sha0) src; sha256_finalize_bytes sha.

End Sha256.

(** ** FIPS 180-4 *)
Module Fips256.

(** The constants: the first 32 bits of the fractional parts of the square
    roots of the first eight primes and of the cube roots of the first
    sixty-four. *)
Definition primes : list Z := [
  2; 3; 5; 7; 11; 13; 17; 19; 23; 29; 31; 37; 41; 43; 47; 53; 59; 61; 67; 71; 73; 79; 83; 89; 97;
  101; 103; 107; 109; 113; 127; 131; 137; 139; 149; 151; 157; 163; 167; 173; 179; 181; 191; 193;
  197; 199; 211; 223; 227; 229; 233; 239; 241; 251; 257; 263; 269; 271; 277; 281; 283; 293; 307; 311].

(* The largest [r] in [lo, lo + 2^n) with [r^3 <= x], if [lo^3 <= x]. *)
Fixpoint icbrt (n : nat) (lo x : Z) : Z :=
  match n with
  | O => lo
  | S n => let mid := lo + 2 ^ Z.of_nat n in icbrt n (if mid ^ 3 <=? x then mid else lo) x
  end.

Definition H0 : list Z := (fun p => Z.sqrt (p * 2 ^ 64) mod 2 ^ 32) <$> take 8 primes.
Definition K : list Z := (fun p => icbrt 36 0 (p * 2 ^ 96) mod 2 ^ 32) <$> primes.

Definition Ch (x y z : Z) : Z := Z.lxor (Z.land x y) (Z.land (Z.lnot x) z).
Definition Maj (x y z : Z) : Z := Z.lxor (Z.land x y) (Z.lxor (Z.land x z) (Z.land y z)).
Definition Sigma0 (x : Z) : Z := Z.lxor (rotr32 x 2) (Z.lxor (rotr32 x 13) (rotr32 x 22)).
Definition Sigma1 (x : Z) : Z := Z.lxor (rotr32 x 6) (Z.lxor (rotr32 x 11) (rotr32 x 25)).
Definition sigma0 (x : Z) : Z := Z.lxor (rotr32 x 7) (Z.lxor (rotr32 x 18) (x / 2 ^ 3)).
Definition sigma1 (x : Z) : Z := Z.lxor (rotr32 x 17) (Z.lxor (rotr32 x 19) (x / 2 ^ 10)).

(** [W_t = sigma1(W_{t-2}) + W_{t-7} + sigma0(W_{t-15}) + W_{t-16}] *)
Definition next_word (win : list Z) : Z :=
  u32 (sigma1 (win !!! 14%nat) + win !!! 9%nat + sigma0 (win !!! 1%nat) + win !!! 0%nat).

Definition step (v : Sha256.vars) (kw : Z * Z) : Sha256.vars :=
  let '(a, b, c, d, e, f, g, h) := v in
  let T1 := h + Sigma1 e + Ch e f g + fst kw + snd kw in
  let T2 := Sigma0 a + Maj a b c in
  (u32 (T1 + T2), a, b, c, u32 (d + T1), e, f, g).

Definition rounds (v : Sha256.vars) (ws : list Z) : Sha256.vars :=
  foldl step v (zip K (ws ++ schedule next_word 48 ws)).

Definition compress (H : list Z) (block : list Z) : list Z :=
  match H with
  | [h0; h1; h2; h3; h4; h5; h6; h7] =>
      let '(a, b, c, d, e, f, g, h) :=
        rounds (h0, h1, h2, h3, h4, h5, h6, h7) (be_words 16 block) in
      [u32 (h0 + a); u32 (h1 + b); u32 (h2 + c); u32 (h3 + d);
       u32 (h4 + e); u32 (h5 + f); u32 (h6 + g); u32 (h7 + h)]
  | _ => H
  end.

Definition SHA256 (m : list Z) : list Z :=
  be_bytes_of (foldl compress H0 (blocks (md_pad m))).

(** Lower-case hexadecimal, two digits per byte. *)
Definition hex_char (n : Z) : Z := if n <? 10 then 48 + n else 87 + n.
Definition hex (bs : list Z) : list Z :=
  mjoin ((fun b => [hex_char (b / 16); hex_char (b mod 16)]) <$> bs).

End Fips256.

Section Facts.
Import Sha256.

(** ** The rounds *)
Lemma k_eq : k = Fips256.K.
Proof. vm_compute. reflexivity. Qed.
Lemma H0_eq sha : state (sha256_init sha) = Fips256.H0.
Proof. vm_compute. reflexivity. Qed.

Lemma sha256_ch_eq e f g : is_u32 g -> Z.lxor (Z.land e f) (Z.land (u32 (Z.lnot e)) g) = Fips256.Ch e f g.
Proof.
  intros Hg. unfold Fips256.Ch. f_equal. apply Z.bits_inj'. intros n Hn.
  rewrite !Z.land_spec. unfold u32. change 4294967296 with (2 ^ 32).
  rewrite Z.testbit_mod_pow2 by lia. destruct (Z.ltb_spec n 32); [done |].
  unfold is_u32 in Hg. change 4294967296 with (2 ^ 32) in Hg.
  rewrite <- (Z.mod_small g (2 ^ 32)), Z.mod_pow2_bits_high by lia. by rewrite !andb_false_r.
Qed.

Lemma rotr_eq x n : is_u32 x -> 0 <= n <= 32 -> rotr x n = rotr32 x n.
Proof. apply rotr32_bits. Qed.

Lemma step1_eq e f g :
  is_u32 e -> is_u32 g -> step1 e f g = u32 (Fips256.Sigma1 e + Fips256.Ch e f g).
Proof.
  intros. unfold step1, Fips256.Sigma1. by rewrite !rotr_eq, sha256_ch_eq, Z.lxor_assoc by (done || lia).
Qed.

Lemma step2_eq a b c :
  is_u32 a -> step2 a b c = u32 (Fips256.Sigma0 a + Fips256.Maj a b c).
Proof.
  intros. unfold step2, Fips256.Sigma0, Fips256.Maj.
  by rewrite !rotr_eq, !Z.lxor_assoc by (done || lia).
Qed.

Definition vars_ok (v : vars) : Prop :=
  let '(a, b, c, d, e, f, g, h) := v in
  is_u32 a /\ is_u32 b /\ is_u32 c /\ is_u32 d /\ is_u32 e /\ is_u32 f /\ is_u32 g /\ is_u32 h.

Lemma step_ok v kw : vars_ok v -> vars_ok (Fips256.step v kw).
Proof.
  destruct v as [[[[[[[a b] c] d] e] f] g] h]. cbn. intros (? & ? & ? & ? & ? & ? & ? & ?).
  split_and!; try done; apply u32_range.
Qed.

(** One of the four rounds computes the two new words of a step. *)
Lemma round_words a b c d e f g h kt wt :
  is_u32 e -> is_u32 g -> is_u32 a ->
  let temp := u32 (h + step1 e f g + kt + wt) in
  Fips256.step (a, b, c, d, e, f, g, h) (kt, wt) =
  (u32 (temp + step2 a b c), a, b, c, u32 (temp + d), e, f, g).
Proof.
  intros He Hg Ha. cbv zeta. unfold Fips256.step. cbn [fst snd].
  rewrite step1_eq, step2_eq by done.
  generalize (Fips256.Sigma1 e), (Fips256.Ch e f g), (Fips256.Sigma0 a), (Fips256.Maj a b c).
  intros S1 C S0 M. assert (E1 : u32 (h + S1 + C + kt + wt + (S0 + M)) =
    u32 (u32 (h + u32 (S1 + C) + kt + wt) + u32 (S0 + M))) by (unfold u32; modlia).
  assert (E2 : u32 (d + (h + S1 + C + kt + wt)) = u32 (u32 (h + u32 (S1 + C) + kt + wt) + d))
    by (unfold u32; modlia).
  by rewrite E1, E2.
Qed.

Lemma four_rounds_ok w i v j :
  vars_ok v ->
  four_rounds w i v j =
  foldl Fips256.step v ((fun d => (k !!! (i + j + d)%nat, w !!! (j + d)%nat)) <$> [0; 1; 2; 3]%nat).
Proof.
  destruct v as [[[[[[[a b] c] d] e] f] g] h]. intros (? & ? & ? & ? & ? & ? & ? & ?).
  rewrite !fmap_cons. cbn [fmap list_fmap foldl].
  rewrite !round_words by auto using u32_range. reflexivity.
Qed.

Lemma steps_ok l v : vars_ok v -> vars_ok (foldl Fips256.step v l).
Proof. revert v. induction l; intros v Hv; [done |]. cbn [foldl]. auto using step_ok. Qed.

Lemma four_rounds_vars w i v j : vars_ok v -> vars_ok (four_rounds w i v j).
Proof. intros. rewrite four_rounds_ok by done. by apply steps_ok. Qed.

Lemma lookups_eq (w : list Z) n : length w = n -> (fun t => w !!! t) <$> seq 0 n = w.
Proof.
  intros <-. apply list_eq. intros t. rewrite list_lookup_fmap.
  destruct (decide (t < length w)%nat) as [Ht | Ht].
  - rewrite (lookup_seq_lt 0 (length w) t) by lia. cbn. symmetry. by apply list_lookup_lookup_total_lt.
  - rewrite (lookup_seq_ge 0 (length w) t) by lia. cbn. symmetry. apply lookup_ge_None_2. lia.
Qed.

Lemma sixteen_ok w i v :
  vars_ok v -> length w = 16%nat -> In i [0; 16; 32; 48]%nat ->
  foldl (four_rounds w i) v [0; 4; 8; 12]%nat = foldl Fips256.step v (zip (take 16 (drop i k)) w).
Proof.
  intros Hv Hw Hi. rewrite <- (lookups_eq w 16 Hw) at 2.
  assert (Hk : take 16 (drop i k) = (fun t => k !!! (i + t)%nat) <$> seq 0 16).
  { destruct Hi as [E | [E | [E | [E | E]]]]; [subst i; vm_compute; reflexivity .. | destruct E]. }
  rewrite Hk. cbn [foldl]. rewrite !four_rounds_ok by auto 6 using steps_ok, four_rounds_vars.
  rewrite <- !foldl_app. f_equal. cbn [seq fmap list_fmap zip zip_with app].
  by rewrite <- !(Nat.add_assoc i).
Qed.

(** ** The message schedule *)
Lemma be_num4 b0 b1 b2 b3 :
  is_byte b0 -> is_byte b1 -> is_byte b2 -> is_byte b3 ->
  Z.lor (Z.lor (Z.lor (u32 (Z.shiftl b0 24)) (u32 (Z.shiftl b1 16))) (u32 (Z.shiftl b2 8))) b3
  = be_num [b0; b1; b2; b3].
Proof.
  unfold is_byte. intros. rewrite !Z.shiftl_mul_pow2 by lia.
  change (2 ^ 24) with 16777216. change (2 ^ 16) with 65536. change (2 ^ 8) with 256.
  rewrite !u32_id by (unfold is_u32; lia).
  rewrite (lor_disjoint (b0 * 16777216) (b1 * 65536) 24) by (change (2 ^ 24) with 16777216; modlia).
  rewrite (lor_disjoint _ (b2 * 256) 16) by (change (2 ^ 16) with 65536; modlia).
  rewrite (lor_disjoint _ b3 8) by (change (2 ^ 8) with 256; modlia).
  unfold be_num. cbn [rev app le_num]. lia.
Qed.

Lemma update_first n : forall j w i buf,
  (i < 16)%nat -> length w = (j + n)%nat -> (4 * n <= length buf)%nat -> bytes_ok buf ->
  update_w_loop n j w i buf = take j w ++ be_words n buf.
Proof.
  induction n as [|n IH]; intros j w i buf Hi Hw Hl Hb; cbn [update_w_loop].
  { rewrite take_ge by lia. by rewrite app_nil_r. }
  rewrite (proj2 (Nat.ltb_lt i 16) Hi).
  destruct buf as [|b0 [|b1 [|b2 [|b3 buf]]]]; cbn [length] in Hl; try lia.
  repeat match goal with H : Forall _ (_ :: _) |- _ => apply Forall_cons_1 in H as [? ?] end.
  cbn [lookup_total list_lookup_total]. change (drop 4 (b0 :: b1 :: b2 :: b3 :: buf)) with buf.
  rewrite be_num4 by done.
  rewrite be_words_cons, IH; [| done | rewrite length_insert; lia | cbn [length] in Hl; lia | done].
  rewrite (take_S_r _ _ (be_num [b0; b1; b2; b3])) by (apply list_lookup_insert_eq; lia).
  rewrite take_insert_ge by lia. by rewrite <- app_assoc.
Qed.

Lemma sha256_land15 i : Nat.land i 15 = (i mod 16)%nat.
Proof. exact (Nat.land_ones i 4). Qed.

Lemma sha256_next_word_range win : is_u32 (Fips256.next_word win).
Proof. apply u32_range. Qed.

Lemma schedule_range n win : Forall is_u32 (schedule Fips256.next_word n win).
Proof.
  revert win. induction n; intros win; cbn; [constructor |].
  apply Forall_cons_2; [apply sha256_next_word_range | done].
Qed.

Lemma sha256_total_u32 win i : Forall is_u32 win -> is_u32 (win !!! i).
Proof.
  intros Hw. rewrite list_lookup_total_alt. destruct (win !! i) eqn:E; cbn.
  - by eapply Forall_lookup_1.
  - unfold is_u32. cbn. lia.
Qed.

Lemma update_next n : forall j w win i buf,
  (16 <= i)%nat -> (j + n = 16)%nat -> holds j w win -> Forall is_u32 win ->
  holds 16 (update_w_loop n j w i buf) (slide Fips256.next_word n win).
Proof.
  induction n as [|n IH]; intros j w win i buf Hi Hn Hh Hw; cbn [update_w_loop slide].
  { by replace 16%nat with j by lia. }
  rewrite (proj2 (Nat.ltb_ge i 16) Hi). rewrite !sha256_land15.
  rewrite !(holds_lookup j w win) by (done || lia).
  replace (w !!! j) with (win !!! 0%nat)
    by (rewrite <- (holds_lookup j w win) by (done || lia); by rewrite Nat.add_0_r, Nat.mod_small by lia).
  rewrite !rotr_eq, !Z.shiftr_div_pow2 by (by apply sha256_total_u32 || lia).
  set (x := u32 _). assert (Ex : x = Fips256.next_word win).
  { unfold x, Fips256.next_word, Fips256.sigma0, Fips256.sigma1. rewrite !Z.lxor_assoc. f_equal. lia. }
  apply IH; [done | lia | |].
  - rewrite Ex. rewrite <- (Nat.mod_small j 16) at 2 by lia. by apply holds_step.
  - apply Forall_app_2; [| auto using sha256_next_word_range with bytes].
    destruct win; [done |]. by apply Forall_cons_1 in Hw as [_ Hw].
Qed.

Lemma update_w_first w i buf :
  (i < 16)%nat -> length w = 16%nat -> length buf = 64%nat -> bytes_ok buf ->
  update_w w i buf = be_words 16 buf.
Proof. intros. unfold update_w. by rewrite update_first by (done || lia). Qed.

Lemma update_w_next w i buf :
  (16 <= i)%nat -> length w = 16%nat -> Forall is_u32 w ->
  update_w w i buf = schedule Fips256.next_word 16 w.
Proof.
  intros Hi Hl Hw.
  pose proof (update_next 16 0 w w i buf Hi eq_refl (holds_init w Hl) Hw) as Hh.
  apply holds_eq in Hh. unfold update_w. rewrite Hh, slide_schedule by lia.
  by rewrite drop_ge by lia.
Qed.

(** ** The block function *)
Lemma turn_ok buf w v i w' :
  vars_ok v -> In i [0; 16; 32; 48]%nat -> update_w w i buf = w' -> length w' = 16%nat ->
  sixteen_rounds buf (w, v) i = (w', foldl Fips256.step v (zip (take 16 (drop i k)) w')).
Proof.
  intros Hv Hi <- Hl. unfold sixteen_rounds. cbn [fst snd]. by rewrite sixteen_ok.
Qed.

Lemma schedule_48 F w :
  length w = 16%nat ->
  schedule F 48 w = schedule F 16 w ++ schedule F 16 (schedule F 16 w)
    ++ schedule F 16 (schedule F 16 (schedule F 16 w)).
Proof.
  intros Hl. assert (S16 : forall w, length w = 16%nat -> slide F 16 w = schedule F 16 w).
  { intros w' Hw. rewrite slide_schedule by lia. by rewrite drop_ge by lia. }
  rewrite (schedule_add F 16 32), S16 by done.
  rewrite (schedule_add F 16 16), S16 by apply schedule_length. done.
Qed.

Lemma rounds_eq buf v :
  vars_ok v -> length buf = 64%nat -> bytes_ok buf ->
  snd (foldl (sixteen_rounds buf) (replicate 16 0, v) [0; 16; 32; 48]%nat) =
  Fips256.rounds v (be_words 16 buf).
Proof.
  intros Hv Hl Hb. unfold Fips256.rounds. rewrite <- k_eq, schedule_48 by apply be_words_length.
  pose proof (update_w_first (replicate 16 0) 0 buf ltac:(lia) eq_refl Hl Hb) as U0.
  pose proof (be_words_range 16 buf Hb) as R0. pose proof (be_words_length 16 buf) as L0.
  remember (be_words 16 buf) as w0. clear Heqw0.
  pose proof (update_w_next w0 16 buf ltac:(lia) L0 R0) as U1.
  pose proof (schedule_length Fips256.next_word 16 w0) as L1.
  pose proof (schedule_range 16 w0) as R1. remember (schedule _ 16 w0) as w1. clear Heqw1.
  pose proof (update_w_next w1 32 buf ltac:(lia) L1 R1) as U2.
  pose proof (schedule_length Fips256.next_word 16 w1) as L2.
  pose proof (schedule_range 16 w1) as R2. remember (schedule _ 16 w1) as w2. clear Heqw2.
  pose proof (update_w_next w2 48 buf ltac:(lia) L2 R2) as U3.
  pose proof (schedule_length Fips256.next_word 16 w2) as L3.
  remember (schedule _ 16 w2) as w3. clear Heqw3.
  change (foldl (sixteen_rounds buf) (replicate 16 0, v) [0; 16; 32; 48]%nat) with
    (sixteen_rounds buf (sixteen_rounds buf (sixteen_rounds buf
       (sixteen_rounds buf (replicate 16 0, v) 0) 16) 32) 48).
  rewrite (turn_ok buf (replicate 16 0) v 0 w0), (turn_ok buf w0 _ 16 w1), (turn_ok buf w1 _ 32 w2),
    (turn_ok buf w2 _ 48 w3) by (auto using steps_ok || (simpl; tauto)).
  cbn [snd]. rewrite <- !foldl_app, <- !zip_with_app
    by (rewrite ?length_app, ?L0, ?L1, ?L2, ?L3; reflexivity).
  reflexivity.
Qed.

Definition words8 (H : list Z) : Prop := length H = 8%nat /\ Forall is_u32 H.

Lemma block_ok sha H :
  state sha = H -> words8 H -> length (buffer sha) = 64%nat -> bytes_ok (buffer sha) ->
  sha256_block sha =
    MkSha256 (Fips256.compress H (buffer sha)) (buffer sha) (n_bits sha) (buffer_counter sha) /\
  words8 (Fips256.compress H (buffer sha)).
Proof.
  intros Hs [Hl Hr] Hb Hbb. unfold sha256_block. rewrite Hs.
  destruct H as [|h0 [|h1 [|h2 [|h3 [|h4 [|h5 [|h6 [|h7 [|]]]]]]]]]; try discriminate Hl.
  repeat match goal with Hr : Forall _ (_ :: _) |- _ => apply Forall_cons_1 in Hr as [? ?] end.
  cbn [lookup_total list_lookup_total Fips256.compress].
  rewrite rounds_eq by (done || cbn; tauto).
  destruct (Fips256.rounds _ _) as [[[[[[[a b] c] d] e] f] g] h].
  split; [done |]. split; [done |].
  repeat (apply Forall_cons_2; [apply u32_range |]). apply Forall_nil_2.
Qed.

(** ** Absorbing bytes *)
Record rep (s : sha256) (H p : list Z) : Prop := {
  rep_state : state s = H;
  rep_words : words8 H;
  rep_counter : buffer_counter s = zlen p;
  rep_pending : (length p < 64)%nat;
  rep_length : length (buffer s) = 64%nat;
  rep_bytes : bytes_ok (buffer s);
  rep_buffer : take (length p) (buffer s) = p
}.

Lemma append_byte_ok s H p d :
  rep s H p -> is_byte d ->
  exists s', sha256_append_byte s d = Ok s' /\
    rep s' (fst (absorb Fips256.compress (H, p) d)) (snd (absorb Fips256.compress (H, p) d)) /\
    n_bits s' = u64 (n_bits s + 8).
Proof.
  intros [Hs Hw Hc Hp Hl Hb Hbuf] Hd. unfold sha256_append_byte, absorb. cbn [fst snd].
  unfold wr. rewrite Hc.
  replace ((0 <=? zlen p) && (zlen p <? zlen (buffer s))) with true by (unfold zlen; lia).
  rewrite res_bind_ok. replace (Z.to_nat (zlen p)) with (length p) by (unfold zlen; lia).
  cbn [buffer_counter state buffer n_bits].
  rewrite u8_id by (unfold is_byte, zlen; lia).
  set (buf := <[length p := d]> (buffer s)).
  assert (Hbl : length buf = 64%nat) by (unfold buf; by rewrite length_insert).
  assert (Hbb : bytes_ok buf) by by apply Forall_insert.
  assert (Htk : take (S (length p)) buf = p ++ [d]).
  { unfold buf. rewrite (take_S_r _ _ d) by (apply list_lookup_insert_eq; lia).
    by rewrite take_insert_ge, Hbuf by lia. }
  rewrite length_app. cbn [length]. unfold zlen.
  destruct (Z.eqb_spec (Z.of_nat (length p) + 1) 64) as [E | E].
  - rewrite (proj2 (Nat.eqb_eq (length p + 1) 64)) by lia. cbn [fst snd].
    assert (Hbe : buf = p ++ [d]) by (rewrite <- Htk; symmetry; apply take_ge; lia).
    destruct (block_ok (MkSha256 (state s) buf (u64 (n_bits s + 8)) 0) H) as [Hbk Hwk]; [done.. |].
    rewrite Hbk. cbn [state buffer n_bits buffer_counter] in *. rewrite Hbe in Hwk |- *.
    eexists; split; [reflexivity |]. split; [| done]. rewrite Hbe in Hbl, Hbb.
    remember (Fips256.compress H (p ++ [d])) as H' eqn:EH. clear EH Hbk.
    split; cbn [state buffer buffer_counter length]; try done; lia.
  - rewrite (proj2 (Nat.eqb_neq (length p + 1) 64)) by lia. cbn [fst snd].
    eexists; split; [reflexivity |]. split; [| done].
    split; cbn [state buffer buffer_counter]; try done.
    + rewrite zlen_app. done.
    + rewrite length_app. cbn [length]. lia.
    + rewrite length_app. cbn [length]. by rewrite Nat.add_1_r.
Qed.

Lemma append_ok m : forall s H p,
  rep s H p -> bytes_ok m ->
  exists s', sha256_append s m = Ok s' /\
    (let '(H', p') := foldl (absorb Fips256.compress) (H, p) m in rep s' H' p') /\
    u64 (n_bits s') = u64 (n_bits s + 8 * zlen m).
Proof.
  induction m as [|d m IH]; intros s H p Hr Hm.
  { exists s. cbn [sha256_append foldl]. change (8 * zlen (@nil Z)) with 0. by rewrite Z.add_0_r. }
  apply Forall_cons_1 in Hm as [Hd Hm]. cbn [sha256_append].
  destruct (append_byte_ok s H p d Hr Hd) as (s1 & -> & Hr1 & Hc1). rewrite res_bind_ok.
  destruct (IH s1 _ _ Hr1 Hm) as (s2 & -> & Hr2 & Hc2).
  exists s2. split; [done |]. cbn [foldl]. rewrite <- surjective_pairing in Hr2.
  split; [done |]. rewrite Hc2, Hc1, zlen_cons. unfold u64. modlia.
Qed.

Lemma zero_loop_ok z : forall fuel s H p,
  (z <= fuel)%nat -> Z.of_nat z = (56 - zlen p) mod 64 -> rep s H p ->
  exists s', zero_loop fuel s = Ok s' /\
    (let '(H', p') := foldl (absorb Fips256.compress) (H, p) (replicate z 0) in rep s' H' p').
Proof.
  induction z as [|z IH]; intros fuel s H p Hf Hz Hr; pose proof (rep_counter _ _ _ Hr) as Ho;
    pose proof (rep_pending _ _ _ Hr) as Hp.
  - exists s. split; [| done].
    assert (zlen p = 56) as E by (unfold zlen in *; modlia).
    destruct fuel; cbn [zero_loop]; by rewrite Ho, E.
  - destruct fuel as [|fuel]; [lia |]. cbn [zero_loop]. rewrite Ho.
    destruct (Z.eqb_spec (zlen p) 56) as [E | E];
      [rewrite E in Hz; change ((56 - 56) mod 64) with 0 in Hz; lia |].
    destruct (append_byte_ok s H p 0 Hr) as (s1 & -> & Hr1 & _); [unfold is_byte; lia |].
    rewrite res_bind_ok.
    edestruct (IH fuel s1) as (s2 & -> & Hr2); [lia | | exact Hr1 |].
    + rewrite snd_absorb_length. unfold zlen in *.
      destruct (Z.eqb_spec (Z.of_nat (length p)) 63); modlia.
    + exists s2. split; [done |]. cbn [replicate foldl]. by rewrite <- surjective_pairing in Hr2.
Qed.

Lemma sha256_length_field n :
  (fun i => Z.land (Z.shiftr n (8 * i)) 0xff) <$> [7; 6; 5; 4; 3; 2; 1; 0] = be_bytes 8 n.
Proof.
  unfold be_bytes. cbn [fmap list_fmap le_bytes rev app]. change 255 with (Z.ones 8).
  rewrite !Z.land_ones, !Z.shiftr_div_pow2, !Z.div_div by lia. unfold u8.
  change (8 * 0) with 0. rewrite Z.div_1_r. done.
Qed.

Lemma be_bytes_u64 n : be_bytes 8 (u64 n) = be_bytes 8 n.
Proof.
  unfold be_bytes. f_equal. pose proof (le_bytes_num (le_bytes 8 n) (le_bytes_ok 8 n)) as E.
  by rewrite le_num_bytes8 in E.
Qed.

Lemma finalize_ok s m :
  (let '(H, p) := foldl (absorb Fips256.compress) (Fips256.H0, []) m in rep s H p) ->
  u64 (n_bits s) = u64 (8 * zlen m) ->
  exists s', sha256_finalize s = Ok s' /\
    state s' = foldl Fips256.compress Fips256.H0 (blocks (md_pad m)) /\
    words8 (state s').
Proof.
  intros Hr Hc.
  pose proof (absorb_blocks Fips256.compress Fips256.H0 (md_pad m) (zlen_md_pad m)) as Hall.
  unfold md_pad in Hall at 1. rewrite !foldl_app in Hall.
  pose proof (absorb_pending Fips256.compress Fips256.H0 m) as Hpend.
  destruct (foldl (absorb Fips256.compress) (Fips256.H0, []) m) as [H p]. cbn [snd] in Hpend.
  unfold sha256_finalize.
  destruct (append_byte_ok s H p 0x80 Hr) as (s1 & -> & Hr1 & _); [unfold is_byte; lia |].
  rewrite res_bind_ok. cbn [foldl] in Hall.
  edestruct (zero_loop_ok (Z.to_nat ((55 - zlen m) mod 64)) 64 s1) as (s2 & -> & Hr2);
    [| | exact Hr1 |].
  { pose proof (Z.mod_pos_bound (55 - zlen m) 64). lia. }
  { rewrite Z2Nat.id by (apply Z.mod_pos_bound; lia). rewrite snd_absorb_length.
    unfold zlen. pose proof (Nat.mod_upper_bound (length m) 64).
    rewrite Hpend, Nat2Z.inj_mod. destruct (Z.eqb_spec (Z.of_nat (length m) mod Z.of_nat 64) 63); modlia. }
  rewrite res_bind_ok, <- surjective_pairing in *.
  destruct (foldl _ _ (replicate _ 0)) as [H' p'].
  rewrite sha256_length_field, <- be_bytes_u64, Hc, be_bytes_u64.
  destruct (append_ok (be_bytes 8 (8 * zlen m)) s2 H' p' Hr2) as (s3 & E3 & Hr3 & _).
  { unfold be_bytes. apply Forall_rev. auto with bytes. }
  rewrite Hall in Hr3. exists s3. destruct Hr3 as [Hs Hw _ _ _ _ _]. split_and!; [done | done |].
  by rewrite Hs.
Qed.

Lemma append_init sha0 m :
  length (buffer sha0) = 64%nat -> bytes_ok (buffer sha0) -> bytes_ok m ->
  exists s, sha256_append (sha256_init sha0) m = Ok s /\
    (let '(H, p) := foldl (absorb Fips256.compress) (Fips256.H0, []) m in rep s H p) /\
    u64 (n_bits s) = u64 (8 * zlen m).
Proof.
  intros Hb Hbb Hm. apply (append_ok m (sha256_init sha0)); [| done].
  split; rewrite ?H0_eq; try done; try (cbn; lia). rewrite <- (H0_eq sha0). split; [done |].
  cbn [state sha256_init]. unfold is_u32. repeat (apply Forall_cons_2; [lia |]). apply Forall_nil_2.
Qed.

Lemma fmap_state (f : Z -> list Z) H :
  length H = 8%nat -> (fun i => f (H !!! i)) <$> seq 0 8 = f <$> H.
Proof.
  intros Hl. transitivity (f <$> ((fun t => H !!! t) <$> seq 0 8)).
  - by rewrite <- list_fmap_compose.
  - by rewrite lookups_eq.
Qed.

Lemma word_bytes x :
  (fun j => Z.land (Z.shiftr x (j * 8)) 0xff) <$> [3; 2; 1; 0] = be_bytes 4 x.
Proof.
  unfold be_bytes. cbn [fmap list_fmap le_bytes rev app]. change 255 with (Z.ones 8).
  rewrite !Z.land_ones, !Z.shiftr_div_pow2, !Z.div_div by lia. unfold u8.
  change (0 * 8) with 0. by rewrite Z.div_1_r.
Qed.

Lemma hex_digit_eq n : 0 <= n < 16 -> hex_digits !!! Z.to_nat n = Fips256.hex_char n.
Proof.
  intros Hn. assert (Hc : forallb (fun i => hex_digits !!! i =? Fips256.hex_char (Z.of_nat i)) (seq 0 16) = true)
    by (vm_compute; reflexivity).
  rewrite forallb_forall in Hc. specialize (Hc (Z.to_nat n) ltac:(apply in_seq; lia)).
  apply Z.eqb_eq in Hc. by rewrite Z2Nat.id in Hc by lia.
Qed.

Lemma word_hex x :
  (fun j => hex_digits !!! Z.to_nat (Z.land (Z.shiftr x (j * 4)) 0xf)) <$> [7; 6; 5; 4; 3; 2; 1; 0]
  = Fips256.hex (be_bytes 4 x).
Proof.
  unfold be_bytes, Fips256.hex. cbn [fmap list_fmap le_bytes rev app mjoin list_join].
  change 15 with (Z.ones 4). rewrite !Z.land_ones, !Z.shiftr_div_pow2 by lia.
  rewrite !hex_digit_eq by (apply Z.mod_pos_bound; lia). unfold u8. rewrite !Z.div_div by lia.
  change (0 * 4) with 0. rewrite Z.div_1_r.
  change (4 * 4) with 16. repeat (apply (f_equal2 cons); [f_equal; modlia |]). done.
Qed.

Lemma hex_app a b : Fips256.hex (a ++ b) = Fips256.hex a ++ Fips256.hex b.
Proof. unfold Fips256.hex. by rewrite fmap_app, join_app. Qed.

Lemma hex_words H : mjoin ((fun x => Fips256.hex (be_bytes 4 x)) <$> H) = Fips256.hex (be_bytes_of H).
Proof.
  induction H as [|x H IH]; [done |].
  change (be_bytes_of (x :: H)) with (be_bytes 4 x ++ be_bytes_of H). rewrite hex_app, <- IH. done.
Qed.

(** ** The entry points *)

(** C39: the digests are those of FIPS 180-4.  From any uninitialised
    structure [sha256_bytes] returns the SHA-256 digest of the message and
    [sha256_hex] its lower-case hexadecimal form followed by a NUL, 65
    characters in all; the round constants and the initial state are the
    fractional bits of cube and square roots of primes, as the standard
    defines them. *)
Theorem sha256_fips sha0 m :
  length (buffer sha0) = 64%nat -> bytes_ok (buffer sha0) -> bytes_ok m ->
  sha256_bytes sha0 m = Ok (Fips256.SHA256 m) /\
  sha256_hex sha0 m = Ok (Fips256.hex (Fips256.SHA256 m) ++ [0]).
Proof.
  intros Hb Hbb Hm. destruct (append_init sha0 m Hb Hbb Hm) as (s & E & Hr & Hc).
  destruct (finalize_ok s m Hr Hc) as (s' & E' & Hs & Hw).
  unfold sha256_bytes, sha256_hex, sha256_finalize_bytes, sha256_finalize_hex.
  rewrite E, !res_bind_ok, E', !res_bind_ok. unfold Fips256.SHA256. rewrite <- Hs.
  destruct Hw as [Hl _]. split; [f_equal | do 2 f_equal].
  - unfold be_bytes_of. rewrite <- (fmap_state (be_bytes 4)) by done. f_equal. apply list_fmap_ext. intros _ i _. apply word_bytes.
  - rewrite <- hex_words, <- (fmap_state (fun x => Fips256.hex (be_bytes 4 x))) by done. f_equal.
    apply list_fmap_ext. intros _ i _. apply word_hex.
Qed.

Definition zeros_sha : sha256 := MkSha256 (replicate 8 0) (replicate 64 0) 0 0.

(* SHA-256 of "abc" *)
Example sha256_abc :
  sha256_bytes zeros_sha [97; 98; 99] = Ok
    [0xba; 0x78; 0x16; 0xbf; 0x8f; 0x01; 0xcf; 0xea; 0x41; 0x41; 0x40; 0xde; 0x5d; 0xae; 0x22; 0x23;
     0xb0; 0x03; 0x61; 0xa3; 0x96; 0x17; 0x7a; 0x9c; 0xb4; 0x10; 0xff; 0x61; 0xf2; 0x00; 0x15; 0xad].
Proof. vm_compute. reflexivity. Qed.
End Facts.
