(* ===== verification/Base64.v ===== *)
(** * Base64: libtg/tl/base64.h and its callers in libtg/tl/buf.c

    The encoder writes a group of four characters for every three bytes
    and then overwrites the tail with padding; the decoder goes through a
    table of 256 characters of which only 64 are initialised.  The theorems
    state that the encoder is RFC 4648, that decoding gives the bytes back
    whatever the uninitialised entries hold, and that decoding an empty
    string reads before its beginning. *)
From S2P Require Import Prelude TlBuf Serial.

Module Base64.

Definition encoding_table : list Z := [
  65; 66; 67; 68; 69; 70; 71; 72; 73; 74; 75; 76; 77; 78; 79; 80;
  81; 82; 83; 84; 85; 86; 87; 88; 89; 90; 97; 98; 99; 100; 101; 102;
  103; 104; 105; 106; 107; 108; 109; 110; 111; 112; 113; 114; 115; 116; 117; 118;
  119; 120; 121; 122; 48; 49; 50; 51; 52; 53; 54; 55; 56; 57; 43; 47].

Definition mod_table : list Z := [0; 2; 1].

(** [decoding_table[encoding_table[i]] = i] over a [malloc]ed block [junk]. *)
Fixpoint build_loop (n : nat) (i : Z) (t : list Z) : res (list Z) :=
  match n with
  | O => Ok t
  | S n => c ← rd encoding_table i; t ← wr t c i; build_loop n (i + 1) t
  end.

Definition build_decoding_table (junk : list Z) : res (list Z) := build_loop 64 0 junk.

(** [i < input_length ? data[i++] : 0] *)
Definition octet (data : list Z) (input_length i : Z) : res (Z * Z) :=
  if i <? input_length then x ← rd data i; Ok (x, i + 1) else Ok (0, i).

(** [encoded_data[j] = encoding_table[x & 0x3F]] *)
Definition put_char (encoded : list Z) (j x : Z) : res (list Z) :=
  c ← rd encoding_table (Z.land x 0x3F); wr encoded j c.

Fixpoint encode_loop (fuel : nat) (data : list Z) (input_length i j : Z) (encoded : list Z)
  : res (list Z) :=
  if i <? input_length then
    match fuel with
    | O => Err NoFuel
    | S fuel =>
        '(a, i) ← octet data input_length i;
        '(b, i) ← octet data input_length i;
        '(c, i) ← octet data input_length i;
        let triple := u32 (u32 (Z.shiftl a 0x10) + u32 (Z.shiftl b 0x08) + c) in
        encoded ← put_char encoded j (Z.shiftr triple (3 * 6));
        encoded ← put_char encoded (j + 1) (Z.shiftr triple (2 * 6));
        encoded ← put_char encoded (j + 2) (Z.shiftr triple (1 * 6));
        encoded ← put_char encoded (j + 3) (Z.shiftr triple (0 * 6));
        encode_loop fuel data input_length i (j + 4) encoded
    end
  else Ok encoded.

Fixpoint pad_loop (n : nat) (i output_length : Z) (encoded : list Z) : res (list Z) :=
  match n with
  | O => Ok encoded
  | S n => encoded ← wr encoded (output_length - 1 - i) 61;
           pad_loop n (i + 1) output_length encoded
  end.

(** The encoded characters; [*output_length] is their number. *)
Definition base64_encode (data : list Z) (input_length : Z) : res (list Z) :=
  let output_length := 4 * ((input_length + 2) / 3) in
  let encoded := replicate (Z.to_nat output_length) 0 in
  encoded ← encode_loop (Z.to_nat input_length) data input_length 0 0 encoded;
  n ← rd mod_table (input_length mod 3);
  pad_loop (Z.to_nat n) 0 output_length encoded.

(** [data[i] == '=' ? 0 & i++ : decoding_table[data[i++]]] *)
Definition sextet (table data : list Z) (i : Z) : res Z :=
  c ← rd data i; if c =? 61 then Ok 0 else rd table c.

Definition put (j output_length x : Z) (decoded : list Z) : res (list Z * Z) :=
  if j <? output_length then decoded ← wr decoded j (Z.land x 0xFF); Ok (decoded, j + 1)
  else Ok (decoded, j).

Fixpoint decode_loop (fuel : nat) (table data : list Z) (input_length output_length i j : Z)
  (decoded : list Z) : res (list Z) :=
  if i <? input_length then
    match fuel with
    | O => Err NoFuel
    | S fuel =>
        a ← sextet table data i;
        b ← sextet table data (i + 1);
        c ← sextet table data (i + 2);
        d ← sextet table data (i + 3);
        let triple := u32 (u32 (Z.shiftl a (3 * 6)) + u32 (Z.shiftl b (2 * 6))
                           + u32 (Z.shiftl c (1 * 6)) + u32 (Z.shiftl d (0 * 6))) in
        '(decoded, j) ← put j output_length (Z.shiftr triple (2 * 8)) decoded;
        '(decoded, j) ← put j output_length (Z.shiftr triple (1 * 8)) decoded;
        '(decoded, j) ← put j output_length (Z.shiftr triple (0 * 8)) decoded;
        decode_loop fuel table data input_length output_length (i + 4) j decoded
    end
  else Ok decoded.

(** [None] is the NULL returned for a length that is not a multiple of 4. *)
Definition base64_decode (junk data : list Z) (input_length : Z) : res (option (list Z)) :=
  table ← build_decoding_table junk;
  if negb (input_length mod 4 =? 0) then Ok None
  else
    let n := input_length / 4 * 3 in
    c ← rd data (input_length - 1);
    let n := if c =? 61 then n - 1 else n in
    c ← rd data (input_length - 2);
    let n := if c =? 61 then n - 1 else n in
    d ← decode_loop (Z.to_nat input_length) table data input_length n 0 0 (replicate (Z.to_nat n) 0);
    Ok (Some d).

Section Callers.
Context `{Platform}.

(** The returned C string, without its terminator. *)
Definition buf_to_base64 (b : buf_t) : res (option (list Z)) :=
  if b_size b <? 1 then Ok None
  else s ← base64_encode (data_at b 0) (b_size b); Ok (Some s).

Definition buf_from_base64 (junk : list Z) (s : option (list Z)) : res buf_t :=
  b ← buf_init;
  match s with
  | None => Ok b
  | Some s =>
      n ← strlen s;
      data ← base64_decode junk s n;
      match data with
      | None => Ok b
      | Some data => buf_cat_data b data (zlen data)
      end
  end.
End Callers.
End Base64.

(** ** RFC 4648 *)
Definition alphabet (v : Z) : Z :=
  if v <? 26 then 65 + v else if v <? 52 then 71 + v else if v <? 62 then v - 4
  else if v =? 62 then 43 else 47.

(** Groups of three bytes; [=] stands for a missing one. *)
Fixpoint rfc4648 (bs : list Z) : list Z :=
  match bs with
  | [] => []
  | [a] => [alphabet (a / 4); alphabet (a mod 4 * 16); 61; 61]
  | [a; b] => [alphabet (a / 4); alphabet (a mod 4 * 16 + b / 16); alphabet (b mod 16 * 4); 61]
  | a :: b :: c :: bs =>
      alphabet (a / 4) :: alphabet (a mod 4 * 16 + b / 16)
        :: alphabet (b mod 16 * 4 + c / 64) :: alphabet (c mod 64) :: rfc4648 bs
  end.

Section Facts.
Import Base64.

(** ** The tables *)
Lemma alphabet_rd v : 0 <= v < 64 -> rd encoding_table v = Ok (alphabet v).
Proof.
  intros Hv. assert (Hc : forallb (fun i => bool_decide (rd encoding_table (Z.of_nat i) = Ok (alphabet (Z.of_nat i))))
    (seq 0 64) = true) by (vm_compute; reflexivity).
  rewrite forallb_forall in Hc. specialize (Hc (Z.to_nat v) ltac:(apply in_seq; lia)).
  apply bool_decide_eq_true_1 in Hc. by rewrite Z2Nat.id in Hc by lia.
Qed.

Lemma alphabet_range v : 0 <= v < 64 -> 43 <= alphabet v < 123 /\ alphabet v <> 61.
Proof.
  intros. unfold alphabet.
  destruct (Z.ltb_spec v 26), (Z.ltb_spec v 52), (Z.ltb_spec v 62), (Z.eqb_spec v 62); lia.
Qed.

Lemma alphabet_inj v w : 0 <= v < 64 -> 0 <= w < 64 -> alphabet v = alphabet w -> v = w.
Proof.
  intros Hv Hw. unfold alphabet.
  destruct (Z.ltb_spec v 26), (Z.ltb_spec v 52), (Z.ltb_spec v 62), (Z.eqb_spec v 62),
    (Z.ltb_spec w 26), (Z.ltb_spec w 52), (Z.ltb_spec w 62), (Z.eqb_spec w 62); lia.
Qed.

(** The decoding table inverts the alphabet, whatever [malloc] returned. *)
Lemma build_loop_ok n : forall i t,
  zlen t = 256 -> 0 <= i -> i + Z.of_nat n <= 64 ->
  (forall v, 0 <= v < i -> rd t (alphabet v) = Ok v) ->
  exists t', build_loop n i t = Ok t' /\ zlen t' = 256 /\
    forall v, 0 <= v < i + Z.of_nat n -> rd t' (alphabet v) = Ok v.
Proof.
  induction n as [|n IH]; intros i t Hl Hi Hn Ht; cbn [build_loop].
  { exists t. split_and!; [done | done |]. intros. apply Ht. lia. }
  rewrite alphabet_rd, res_bind_ok by lia.
  destruct (alphabet_range i ltac:(lia)) as [Ha _].
  unfold wr. replace ((0 <=? alphabet i) && (alphabet i <? zlen t)) with true by lia.
  rewrite res_bind_ok.
  destruct (IH (i + 1) (<[Z.to_nat (alphabet i) := i]> t)) as (t' & -> & Hl' & Ht');
    [by rewrite zlen_insert | lia | lia | |].
  - intros v Hv. destruct (alphabet_range v ltac:(lia)) as [Hb _]. apply rd_ok; [lia |].
    destruct (decide (v = i)) as [-> | Hne].
    + apply list_lookup_insert_eq. unfold zlen in Hl. lia.
    + rewrite list_lookup_insert_ne.
      * specialize (Ht v ltac:(lia)). unfold rd in Ht.
        replace (0 <=? alphabet v) with true in Ht by lia.
        destruct (t !! Z.to_nat (alphabet v)); [congruence | done].
      * intros E. apply Hne. symmetry. apply alphabet_inj; lia.
  - exists t'. split_and!; [done | done |]. intros. apply Ht'. lia.
Qed.

Lemma build_ok junk :
  zlen junk = 256 ->
  exists t, build_decoding_table junk = Ok t /\ forall v, 0 <= v < 64 -> rd t (alphabet v) = Ok v.
Proof.
  intros Hl. destruct (build_loop_ok 64 0 junk Hl) as (t & Ht & _ & Hv); [lia | lia | lia |].
  by exists t.
Qed.

(** ** Encoding *)
Lemma land63 x : Z.land x 0x3F = x mod 64.
Proof. change 0x3F with (Z.ones 6). by rewrite Z.land_ones by lia. Qed.
Lemma land255 x : Z.land x 0xFF = x mod 256.
Proof. change 0xFF with (Z.ones 8). by rewrite Z.land_ones by lia. Qed.

Lemma put_char_mid q y z x j :
  j = zlen q -> put_char (q ++ y :: z) j x = Ok ((q ++ [alphabet (x mod 64)]) ++ z).
Proof.
  intros ->. unfold put_char. rewrite land63, alphabet_rd, res_bind_ok by (apply Z.mod_pos_bound; lia).
  rewrite wr_mid. by rewrite <- app_assoc.
Qed.

Lemma octet_in p b r n i :
  i = zlen p -> n = zlen (p ++ b :: r) -> octet (p ++ b :: r) n i = Ok (b, i + 1).
Proof.
  intros -> ->. unfold octet. rewrite zlen_app, zlen_cons. pose proof (zlen_nonneg r).
  replace (zlen p <? _) with true by lia. by rewrite rd_mid, res_bind_ok.
Qed.

Lemma octet_out data n : octet data n n = Ok (0, n).
Proof. unfold octet. by rewrite Z.ltb_irrefl. Qed.

(** The groups as the loop leaves them, before the padding. *)
Fixpoint unpadded (bs : list Z) : list Z :=
  match bs with
  | [] => []
  | [a] => [alphabet (a / 4); alphabet (a mod 4 * 16); alphabet 0; alphabet 0]
  | [a; b] => [alphabet (a / 4); alphabet (a mod 4 * 16 + b / 16); alphabet (b mod 16 * 4); alphabet 0]
  | a :: b :: c :: bs =>
      alphabet (a / 4) :: alphabet (a mod 4 * 16 + b / 16)
        :: alphabet (b mod 16 * 4 + c / 64) :: alphabet (c mod 64) :: unpadded bs
  end.

Lemma triple_sum a b c :
  is_byte a -> is_byte b -> is_byte c ->
  u32 (u32 (Z.shiftl a 0x10) + u32 (Z.shiftl b 0x08) + c) = a * 65536 + b * 256 + c.
Proof.
  unfold is_byte. intros. rewrite !Z.shiftl_mul_pow2 by lia.
  change (2 ^ 16) with 65536. change (2 ^ 8) with 256. rewrite (u32_id (a * 65536)), (u32_id (b * 256)) by (unfold is_u32; lia).
  apply u32_id. unfold is_u32. lia.
Qed.

(** Writing the four characters of a triple. *)
Lemma group_ok (k : list Z -> res (list Z)) q y0 y1 y2 y3 z a b c j :
  is_byte a -> is_byte b -> is_byte c -> j = zlen q ->
  (let triple := u32 (u32 (Z.shiftl a 0x10) + u32 (Z.shiftl b 0x08) + c) in
   encoded ← put_char (q ++ y0 :: y1 :: y2 :: y3 :: z) j (Z.shiftr triple (3 * 6));
   encoded ← put_char encoded (j + 1) (Z.shiftr triple (2 * 6));
   encoded ← put_char encoded (j + 2) (Z.shiftr triple (1 * 6));
   encoded ← put_char encoded (j + 3) (Z.shiftr triple (0 * 6));
   k encoded) =
  k ((q ++ [alphabet (a / 4); alphabet (a mod 4 * 16 + b / 16);
            alphabet (b mod 16 * 4 + c / 64); alphabet (c mod 64)]) ++ z).
Proof.
  intros Ha Hb Hc ->. rewrite triple_sum by done. cbv zeta.
  do 4 (rewrite put_char_mid by zl; rewrite res_bind_ok).
  rewrite <- !app_assoc. cbn [app].
  rewrite !Z.shiftr_div_pow2 by lia.
  change (2 ^ (3 * 6)) with 262144. change (2 ^ (2 * 6)) with 4096.
  change (2 ^ (1 * 6)) with 64. change (2 ^ (0 * 6)) with 1. unfold is_byte in *.
  do 2 f_equal. repeat (apply (f_equal2 cons); [f_equal; modlia |]). done.
Qed.

(** Reading the next group, missing bytes as zeros. *)
Lemma octets_ok (k : Z -> Z -> Z -> Z -> res (list Z)) p r :
  r <> [] -> bytes_ok r ->
  exists a b c h r', r = h ++ r' /\ is_byte a /\ is_byte b /\ is_byte c /\ bytes_ok r' /\
    (length r' < length r)%nat /\ (zlen r + 2) / 3 = 1 + (zlen r' + 2) / 3 /\
    unpadded r = [alphabet (a / 4); alphabet (a mod 4 * 16 + b / 16);
                  alphabet (b mod 16 * 4 + c / 64); alphabet (c mod 64)] ++ unpadded r' /\
    (let n := zlen (p ++ r) in
     '(a, i) ← octet (p ++ r) n (zlen p);
     '(b, i) ← octet (p ++ r) n i;
     '(c, i) ← octet (p ++ r) n i;
     k a b c i) = k a b c (zlen (p ++ h)).
Proof.
  intros Hne Hr. destruct r as [|a r]; [done |]. apply Forall_cons_1 in Hr as [Ha Hr].
  assert (H0 : is_byte 0) by (unfold is_byte; lia). cbv zeta.
  destruct r as [|b r]; [| apply Forall_cons_1 in Hr as [Hb Hr]; destruct r as [|c r]].
  - exists a, 0, 0, [a], []. split_and!; try done; [cbn; lia | |].
    + unfold unpadded. cbn [app]. by rewrite Z.add_0_r.
    + rewrite (octet_in p a []), res_bind_ok by done.
      replace (zlen p + 1) with (zlen (p ++ [a])) by zl.
      by rewrite octet_out, res_bind_ok, octet_out, res_bind_ok.
  - exists a, b, 0, [a; b], []. split_and!; try done; [cbn; lia | |].
    + unfold unpadded. cbn [app]. by rewrite Z.add_0_r.
    + rewrite (octet_in p a [b]), res_bind_ok by done.
      change (a :: [b]) with ([a] ++ [b]). rewrite app_assoc.
      rewrite (octet_in (p ++ [a]) b []), res_bind_ok by zl.
      replace (zlen p + 1 + 1) with (zlen ((p ++ [a]) ++ [b])) by zl.
      by rewrite octet_out, res_bind_ok, <- app_assoc.
  - apply Forall_cons_1 in Hr as [Hc Hr]. exists a, b, c, [a; b; c], r.
    split_and!; try done; [cbn; lia | rewrite !zlen_cons; pose proof (zlen_nonneg r); modlia |].
    rewrite (octet_in p a (b :: c :: r)), res_bind_ok by done.
    change (a :: b :: c :: r) with ([a] ++ b :: c :: r). rewrite app_assoc.
    rewrite (octet_in (p ++ [a]) b (c :: r)), res_bind_ok by zl.
    change (b :: c :: r) with ([b] ++ c :: r). rewrite app_assoc.
    rewrite (octet_in ((p ++ [a]) ++ [b]) c r), res_bind_ok by zl.
    f_equal. zl.
Qed.

(* What the loop does with a triple. *)
Definition encode_body (fuel : nat) (data : list Z) (n j : Z) (encoded : list Z) (a b c i : Z) :=
  let triple := u32 (u32 (Z.shiftl a 0x10) + u32 (Z.shiftl b 0x08) + c) in
  encoded ← put_char encoded j (Z.shiftr triple (3 * 6));
  encoded ← put_char encoded (j + 1) (Z.shiftr triple (2 * 6));
  encoded ← put_char encoded (j + 2) (Z.shiftr triple (1 * 6));
  encoded ← put_char encoded (j + 3) (Z.shiftr triple (0 * 6));
  encode_loop fuel data n i (j + 4) encoded.

Lemma encode_loop_S fuel data n i j encoded :
  i < n ->
  encode_loop (S fuel) data n i j encoded =
  ('(a, i) ← octet data n i; '(b, i) ← octet data n i; '(c, i) ← octet data n i;
   encode_body fuel data n j encoded a b c i).
Proof. intros. cbn [encode_loop]. by replace (i <? n) with true by lia. Qed.

Lemma encode_loop_ok fuel : forall p r q z,
  bytes_ok r -> (length r <= fuel)%nat -> zlen z = 4 * ((zlen r + 2) / 3) ->
  encode_loop fuel (p ++ r) (zlen (p ++ r)) (zlen p) (zlen q) (q ++ z) = Ok (q ++ unpadded r).
Proof.
  induction fuel as [|fuel IH]; intros p r q z Hr Hf Hz; (destruct (decide (r = [])) as [-> | Hne];
    [ change (4 * ((zlen (@nil Z) + 2) / 3)) with 0 in Hz;
      assert (z = []) as -> by (destruct z; [done | unfold zlen in Hz; cbn in Hz; lia]);
      cbn [encode_loop]; by rewrite (app_nil_r p), Z.ltb_irrefl |]).
  { destruct r; [done | cbn in Hf; lia]. }
  rewrite encode_loop_S by (rewrite zlen_app; destruct r; [done |]; rewrite zlen_cons; zpos; lia).
  destruct (octets_ok (encode_body fuel (p ++ r) (zlen (p ++ r)) (zlen q) (q ++ z)) p r Hne Hr)
    as (a & b & c & h & r' & Er & Ha & Hb & Hc & Hr' & Hlr & Hdiv & Hun & E).
  cbv zeta in E. rewrite E. clear E. rewrite Hdiv in Hz. pose proof (zlen_nonneg r').
  assert (H4 : exists y0 y1 y2 y3 z', z = y0 :: y1 :: y2 :: y3 :: z').
  { destruct z as [|y0 [|y1 [|y2 [|y3 z']]]]; try (exfalso; unfold zlen in *; cbn [length] in Hz; modlia).
    by exists y0, y1, y2, y3, z'. }
  destruct H4 as (y0 & y1 & y2 & y3 & z' & ->). rewrite !zlen_cons in Hz.
  unfold encode_body. rewrite group_ok by done. rewrite Hun, Er, app_assoc.
  match goal with |- encode_loop _ _ _ _ _ ((q ++ ?g) ++ _) = _ =>
    replace (zlen q + 4) with (zlen (q ++ g)) by (rewrite zlen_app; done) end.
  rewrite IH; [by rewrite <- app_assoc | done | lia | lia].
Qed.

(** Bytes past [input_length] are not looked at. *)
Lemma octet_tail d c n i : 0 <= i -> n <= zlen d -> octet (d ++ c) n i = octet d n i.
Proof.
  intros Hi Hn. unfold octet. destruct (Z.ltb_spec i n); [| done]. by rewrite rd_app_l by lia.
Qed.

Lemma octet_pos d n i x i' : 0 <= i -> octet d n i = Ok (x, i') -> 0 <= i'.
Proof.
  intros Hi. unfold octet. destruct (i <? n); [| intros [= _ <-]; done].
  intros E. inv_res E. injection E as _ <-. lia.
Qed.

Lemma encode_loop_tail fuel : forall d c n i j e,
  0 <= i -> n <= zlen d -> encode_loop fuel (d ++ c) n i j e = encode_loop fuel d n i j e.
Proof.
  induction fuel as [|fuel IH]; intros d c n i j e Hi Hn; [done |].
  cbn [encode_loop]. destruct (i <? n); [| done].
  rewrite octet_tail by done. destruct (octet d n i) as [[a i1]|] eqn:E1; [| done].
  pose proof (octet_pos _ _ _ _ _ Hi E1) as Hi1. rewrite !res_bind_ok.
  rewrite octet_tail by done. destruct (octet d n i1) as [[b i2]|] eqn:E2; [| done].
  pose proof (octet_pos _ _ _ _ _ Hi1 E2) as Hi2. rewrite !res_bind_ok.
  rewrite octet_tail by done. destruct (octet d n i2) as [[x i3]|] eqn:E3; [| done].
  pose proof (octet_pos _ _ _ _ _ Hi2 E3) as Hi3. rewrite !res_bind_ok. cbv zeta.
  do 4 (destruct (put_char _ _ _); [rewrite !res_bind_ok | done]). by apply IH.
Qed.

(** ** Padding *)
Lemma three_ind (P : list Z -> Prop) :
  P [] -> (forall a, P [a]) -> (forall a b, P [a; b]) ->
  (forall a b c r, P r -> P (a :: b :: c :: r)) -> forall l, P l.
Proof.
  intros H0 H1 H2 H3. assert (H : forall n l, (length l <= n)%nat -> P l).
  { induction n as [|n IH]; intros l Hl.
    - destruct l; [done | cbn in Hl; lia].
    - destruct l as [|a [|b [|c l]]]; [done.. |]. apply H3, IH. cbn in Hl. lia. }
  intros l. by apply (H (length l)).
Qed.

(** The number of missing bytes in the last group. *)
Definition missing (bs : list Z) : Z := 2 - (zlen bs + 2) mod 3.

Lemma mod_table_ok bs : rd mod_table (zlen bs mod 3) = Ok (missing bs).
Proof.
  unfold missing. pose proof (Z.mod_pos_bound (zlen bs) 3 ltac:(lia)).
  assert (zlen bs mod 3 = 0 \/ zlen bs mod 3 = 1 \/ zlen bs mod 3 = 2) as [E | [E | E]] by lia;
    rewrite E; cbn; f_equal; modlia.
Qed.

Lemma missing_bounds bs : 0 <= missing bs <= 2.
Proof. unfold missing. modlia. Qed.

Lemma missing_cons3 a b c r : missing (a :: b :: c :: r) = missing r.
Proof. unfold missing. rewrite !zlen_cons. modlia. Qed.

Lemma padded bs :
  bytes_ok bs ->
  exists u, unpadded bs = u ++ replicate (Z.to_nat (missing bs)) 65 /\
    rfc4648 bs = u ++ replicate (Z.to_nat (missing bs)) 61 /\
    Forall (fun c => c <> 61 /\ c <> 0) u /\
    zlen u + missing bs = 4 * ((zlen bs + 2) / 3) /\ (bs <> [] -> 2 <= zlen u).
Proof.
  assert (Ha : forall v, 0 <= v < 64 -> alphabet v <> 61 /\ alphabet v <> 0)
    by (intros v Hv; pose proof (alphabet_range v Hv); lia).
  revert bs. refine (three_ind _ _ _ _ _).
  - intros _. exists []. by split_and!.
  - intros a Hb. apply Forall_cons_1 in Hb as [H1 _]. unfold is_byte in *.
    eexists [_; _]. split_and!; [reflexivity | reflexivity | | done | done].
    repeat (apply Forall_cons_2; [apply Ha; modlia |]). apply Forall_nil_2.
  - intros a b Hb. apply Forall_cons_1 in Hb as [H1 Hb]. apply Forall_cons_1 in Hb as [H2 _].
    unfold is_byte in *.
    eexists [_; _; _]. split_and!; [reflexivity | reflexivity | | done | done].
    repeat (apply Forall_cons_2; [apply Ha; modlia |]). apply Forall_nil_2.
  - intros a b c r IH Hb.
    repeat match goal with H : Forall _ (_ :: _) |- _ => apply Forall_cons_1 in H as [? ?] end.
    destruct IH as (u & E1 & E2 & Hu & Hl & _); [done |]. unfold is_byte in *.
    rewrite missing_cons3. cbn [unpadded rfc4648]. rewrite E1, E2.
    eexists (_ :: _ :: _ :: _ :: u). split_and!; [reflexivity | reflexivity | | |].
    + repeat (apply Forall_cons_2; [apply Ha; modlia |]). done.
    + rewrite !zlen_cons. pose proof (zlen_nonneg r). modlia.
    + intros _. rewrite !zlen_cons. pose proof (zlen_nonneg u). lia.
Qed.

Lemma base64_pad_loop_ok n : forall u c x,
  pad_loop n (zlen c) (zlen u + Z.of_nat n + zlen c) (u ++ replicate n x ++ c) =
  Ok (u ++ replicate n 61 ++ c).
Proof.
  induction n as [|n IH]; intros u c x; [done |]. cbn [pad_loop].
  replace (replicate (S n) x ++ c) with (replicate n x ++ x :: c)
    by (rewrite replicate_S_end, <- app_assoc; done).
  rewrite app_assoc.
  replace (zlen u + Z.of_nat (S n) + zlen c - 1 - zlen c) with (zlen (u ++ replicate n x)) by zl.
  rewrite wr_mid, res_bind_ok, <- app_assoc.
  specialize (IH u (61 :: c) x).
  replace (zlen c + 1) with (zlen (61 :: c)) by zl.
  replace (zlen u + Z.of_nat (S n) + zlen c) with (zlen u + Z.of_nat n + zlen (61 :: c)) by zl.
  rewrite IH. rewrite (replicate_S_end n 61), <- app_assoc. done.
Qed.

Lemma base64_encode_ok bs c :
  bytes_ok bs -> base64_encode (bs ++ c) (zlen bs) = Ok (rfc4648 bs).
Proof.
  intros Hb. unfold base64_encode. rewrite encode_loop_tail by lia.
  pose proof (zlen_nonneg bs) as Hn.
  pose proof (encode_loop_ok (Z.to_nat (zlen bs)) [] bs []
    (replicate (Z.to_nat (4 * ((zlen bs + 2) / 3))) 0) Hb) as E.
  rewrite !app_nil_l in E. change (zlen (@nil Z)) with 0 in E. rewrite E; [| unfold zlen; lia | rewrite zlen_replicate; modlia].
  rewrite res_bind_ok, mod_table_ok, res_bind_ok.
  destruct (padded bs Hb) as (u & -> & -> & _ & Hl & _). pose proof (missing_bounds bs).
  pose proof (base64_pad_loop_ok (Z.to_nat (missing bs)) u [] 65) as Ep. rewrite !app_nil_r in Ep.
  rewrite <- Ep. f_equal. change (zlen []) with 0. lia.
Qed.

(** ** Decoding *)
Definition inverts (t : list Z) : Prop := forall v, 0 <= v < 64 -> rd t (alphabet v) = Ok v.

Lemma sextet_at t p v r i :
  inverts t -> 0 <= v < 64 -> i = zlen p -> sextet t (p ++ alphabet v :: r) i = Ok v.
Proof.
  intros Ht Hv ->. unfold sextet. rewrite rd_mid, res_bind_ok.
  destruct (alphabet_range v Hv) as [_ H61]. by rewrite (proj2 (Z.eqb_neq _ _) H61), Ht.
Qed.

Lemma sextet_pad t p r i : i = zlen p -> sextet t (p ++ 61 :: r) i = Ok 0.
Proof. intros ->. unfold sextet. by rewrite rd_mid. Qed.

Lemma put_in q y z x j n :
  j = zlen q -> n = zlen (q ++ y :: z) ->
  put j n x (q ++ y :: z) = Ok ((q ++ [x mod 256]) ++ z, j + 1).
Proof.
  intros -> ->. unfold put. rewrite zlen_app, zlen_cons. pose proof (zlen_nonneg z).
  replace (zlen q <? _) with true by lia. by rewrite wr_mid, res_bind_ok, land255, <- app_assoc.
Qed.

Lemma put_full d j n x : n <= j -> put j n x d = Ok (d, j).
Proof. intros. unfold put. by replace (j <? n) with false by lia. Qed.

Lemma sextets_triple a b c :
  is_byte a -> is_byte b -> is_byte c ->
  u32 (u32 (Z.shiftl (a / 4) (3 * 6)) + u32 (Z.shiftl (a mod 4 * 16 + b / 16) (2 * 6))
       + u32 (Z.shiftl (b mod 16 * 4 + c / 64) (1 * 6)) + u32 (Z.shiftl (c mod 64) (0 * 6)))
  = a * 65536 + b * 256 + c.
Proof.
  unfold is_byte. intros. rewrite !Z.shiftl_mul_pow2 by lia.
  change (2 ^ (3 * 6)) with 262144. change (2 ^ (2 * 6)) with 4096.
  change (2 ^ (1 * 6)) with 64. change (2 ^ (0 * 6)) with 1.
  rewrite (u32_id (_ * 262144)), (u32_id (_ * 4096)), (u32_id (_ * 64)), (u32_id (_ * 1))
    by (unfold is_u32; modlia).
  rewrite u32_id by (unfold is_u32; modlia). modlia.
Qed.

Lemma triple_bytes a b c t :
  is_byte a -> is_byte b -> is_byte c -> t = a * 65536 + b * 256 + c ->
  Z.shiftr t (2 * 8) mod 256 = a /\ Z.shiftr t (1 * 8) mod 256 = b /\ Z.shiftr t (0 * 8) mod 256 = c.
Proof.
  unfold is_byte. intros ? ? ? ->. rewrite !Z.shiftr_div_pow2 by lia.
  change (2 ^ (2 * 8)) with 65536. change (2 ^ (1 * 8)) with 256. change (2 ^ (0 * 8)) with 1.
  split_and!; modlia.
Qed.

(* What the loop does with four sextets. *)
Definition decode_body (fuel : nat) (table data : list Z) (n m i j : Z) (decoded : list Z)
  (a b c d : Z) : res (list Z) :=
  let triple := u32 (u32 (Z.shiftl a (3 * 6)) + u32 (Z.shiftl b (2 * 6))
                     + u32 (Z.shiftl c (1 * 6)) + u32 (Z.shiftl d (0 * 6))) in
  '(decoded, j) ← put j m (Z.shiftr triple (2 * 8)) decoded;
  '(decoded, j) ← put j m (Z.shiftr triple (1 * 8)) decoded;
  '(decoded, j) ← put j m (Z.shiftr triple (0 * 8)) decoded;
  decode_loop fuel table data n m (i + 4) j decoded.

Lemma decode_loop_S fuel t data n m i j d :
  i < n ->
  decode_loop (S fuel) t data n m i j d =
  (a ← sextet t data i; b ← sextet t data (i + 1); c ← sextet t data (i + 2);
   e ← sextet t data (i + 3); decode_body fuel t data n m i j d a b c e).
Proof. intros. cbn [decode_loop]. by replace (i <? n) with true by lia. Qed.

(** A group stores as many of its bytes as there is room for. *)
Lemma body_ok fuel t data n i q a b c h z :
  is_byte a -> is_byte b -> is_byte c -> h <> [] -> zlen h <= 3 ->
  (exists tl, [a; b; c] = h ++ tl) -> (zlen h = 3 \/ drop (length h) z = []) ->
  zlen h <= zlen z ->
  decode_body fuel t data n (zlen (q ++ z)) i (zlen q) (q ++ z)
    (a / 4) (a mod 4 * 16 + b / 16) (b mod 16 * 4 + c / 64) (c mod 64) =
  decode_loop fuel t data n (zlen (q ++ z)) (i + 4) (zlen (q ++ h))
    ((q ++ h) ++ drop (length h) z).
Proof.
  intros Ha Hb Hc Hne Hh [tl Htl] Hz Hlz. unfold decode_body.
  rewrite sextets_triple by done. cbv zeta.
  destruct (triple_bytes a b c _ Ha Hb Hc eq_refl) as (E1 & E2 & E3).
  destruct h as [|a' h]; [done |]. injection Htl as <- Htl.
  destruct z as [|z0 z]; [exfalso; unfold zlen in Hlz; cbn [length] in Hlz; lia |].
  rewrite (put_in q z0 z), res_bind_ok, E1 by done. cbn [drop skipn length] in Hz |- *.
  destruct h as [|b' h].
  { destruct Hz as [Hz | Hz]; [done |]. cbn [drop skipn length] in Hz |- *. rewrite ?drop_0 in Hz. subst z.
    rewrite !app_nil_r. rewrite !put_full, !res_bind_ok
      by (rewrite !zlen_app; change (zlen [_]) with 1; lia).
    rewrite put_full, res_bind_ok by (rewrite !zlen_app; change (zlen [_]) with 1; lia).
    f_equal. rewrite zlen_app. done. }
  injection Htl as <- Htl.
  destruct z as [|z1 z]; [exfalso; unfold zlen in Hlz; cbn [length] in Hlz; lia |].
  rewrite (put_in (q ++ [a]) z1 z), res_bind_ok, E2 by zl.
  cbn [drop skipn length] in Hz |- *.
  destruct h as [|c' h].
  { destruct Hz as [Hz | Hz]; [done |]. cbn [drop skipn length] in Hz |- *. rewrite ?drop_0 in Hz. subst z.
    rewrite !app_nil_r. rewrite put_full, res_bind_ok by zl.
    rewrite <- app_assoc. f_equal. zl. }
  injection Htl as <- Htl. destruct h; [| done].
  destruct z as [|z2 z]; [exfalso; unfold zlen in Hlz; cbn [length] in Hlz; lia |].
  rewrite (put_in ((q ++ [a]) ++ [b]) z2 z), res_bind_ok, E3 by zl.
  rewrite <- !app_assoc. f_equal. zl.
Qed.

(** Four characters read as sextets. *)
Lemma sextets4 t p c0 c1 c2 c3 x v0 v1 v2 v3 :
  sextet t (p ++ c0 :: c1 :: c2 :: c3 :: x) (zlen p) = Ok v0 ->
  sextet t ((p ++ [c0]) ++ c1 :: c2 :: c3 :: x) (zlen (p ++ [c0])) = Ok v1 ->
  sextet t (((p ++ [c0]) ++ [c1]) ++ c2 :: c3 :: x) (zlen ((p ++ [c0]) ++ [c1])) = Ok v2 ->
  sextet t ((((p ++ [c0]) ++ [c1]) ++ [c2]) ++ c3 :: x) (zlen (((p ++ [c0]) ++ [c1]) ++ [c2])) = Ok v3 ->
  let data := p ++ [c0; c1; c2; c3] ++ x in
  sextet t data (zlen p) = Ok v0 /\ sextet t data (zlen p + 1) = Ok v1 /\
  sextet t data (zlen p + 2) = Ok v2 /\ sextet t data (zlen p + 3) = Ok v3.
Proof.
  intros H0 H1 H2 H3. rewrite <- !app_assoc, !zlen_app in H1. rewrite <- !app_assoc, !zlen_app in H2.
  rewrite <- !app_assoc, !zlen_app in H3. cbn [app] in *. cbv zeta. split_and!; [done | done | |].
  - rewrite <- H2. f_equal; zl.
  - rewrite <- H3. f_equal; zl.
Qed.

Lemma sextets_ok t p r x :
  r <> [] -> bytes_ok r -> inverts t ->
  exists a b c h r' g, r = h ++ r' /\ rfc4648 r = g ++ rfc4648 r' /\ zlen g = 4 /\
    is_byte a /\ is_byte b /\ is_byte c /\ bytes_ok r' /\ h <> [] /\ zlen h <= 3 /\
    (exists tl, [a; b; c] = h ++ tl) /\ (zlen h = 3 \/ r' = []) /\
    (let data := p ++ g ++ x in
     sextet t data (zlen p) = Ok (a / 4) /\
     sextet t data (zlen p + 1) = Ok (a mod 4 * 16 + b / 16) /\
     sextet t data (zlen p + 2) = Ok (b mod 16 * 4 + c / 64) /\
     sextet t data (zlen p + 3) = Ok (c mod 64)).
Proof.
  intros Hne Hr Ht. destruct r as [|a r]; [done |]. apply Forall_cons_1 in Hr as [Ha Hr].
  assert (H0 : is_byte 0) by (unfold is_byte; lia).
  destruct r as [|b r]; [| apply Forall_cons_1 in Hr as [Hb Hr]; destruct r as [|c r];
    [| apply Forall_cons_1 in Hr as [Hc Hr]]].
  - exists a, 0, 0, [a], [], (rfc4648 [a]). split_and!; try done; [by exists [0; 0] | by right |].
    cbn [rfc4648]. unfold is_byte in *. apply sextets4; rewrite ?sextet_pad by done; try done;
      (etransitivity; [apply sextet_at; [done | modlia | done] | f_equal; modlia]).
  - exists a, b, 0, [a; b], [], (rfc4648 [a; b]). split_and!; try done; [by exists [0] | by right |].
    cbn [rfc4648]. unfold is_byte in *. apply sextets4; rewrite ?sextet_pad by done; try done;
      (etransitivity; [apply sextet_at; [done | modlia | done] | f_equal; modlia]).
  - exists a, b, c, [a; b; c], r, (take 4 (rfc4648 (a :: b :: c :: r))).
    split_and!; try done; [by exists [] | by left |]. cbn [rfc4648 take firstn].
    unfold is_byte in *. apply sextets4;
      (etransitivity; [apply sextet_at; [done | modlia | done] | f_equal; modlia]).
Qed.

Lemma decode_loop_ok fuel t : forall p r x q z,
  inverts t -> bytes_ok r -> (length r <= fuel)%nat -> zlen z = zlen r ->
  decode_loop fuel t ((p ++ rfc4648 r) ++ x) (zlen (p ++ rfc4648 r)) (zlen (q ++ z)) (zlen p)
    (zlen q) (q ++ z) = Ok (q ++ r).
Proof.
  induction fuel as [|fuel IH]; intros p r x q z Ht Hr Hf Hz; (destruct (decide (r = [])) as [-> | Hne];
    [ assert (z = []) as -> by (destruct z; [done | unfold zlen in Hz; cbn in Hz; lia]);
      cbn [decode_loop rfc4648]; by rewrite (app_nil_r p), Z.ltb_irrefl |]).
  { destruct r; [done | cbn in Hf; lia]. }
  destruct (sextets_ok t p r) with (x := rfc4648 (drop (if (length r <? 3)%nat then length r else 3) r) ++ x)
    as (a & b & c & h & r' & g & Er & Eg & Hg & Ha & Hb & Hc & Hr' & Hhn & Hh & Htl & H3 & Hs); [done.. |].
  assert (Edrop : drop (if (length r <? 3)%nat then length r else 3) r = r').
  { subst r. destruct H3 as [H3 | ->].
    - rewrite length_app. unfold zlen in H3. rewrite (proj2 (Nat.ltb_ge _ _)) by lia.
      replace 3%nat with (length h) by lia. apply drop_app_length.
    - rewrite app_nil_r. unfold zlen in Hh. destruct (Nat.ltb_spec (length h) 3).
      + by rewrite drop_ge by lia.
      + by rewrite drop_ge by lia. }
  rewrite Edrop in Hs. rewrite Eg. rewrite <- (app_assoc p), <- (app_assoc g).
  destruct Hs as (S0 & S1 & S2 & S3).
  assert (Hlen : zlen h + zlen r' = zlen z) by (by rewrite Hz, Er, zlen_app).
  pose proof (zlen_nonneg r'). pose proof (zlen_nonneg (rfc4648 r')).
  rewrite decode_loop_S by (rewrite !zlen_app; lia).
  rewrite S0, res_bind_ok, S1, res_bind_ok, S2, res_bind_ok, S3, res_bind_ok.
  assert (Hd : zlen h = 3 \/ drop (length h) z = []).
  { destruct H3 as [H3 | E]; [by left | right]. rewrite E in Hlen. apply drop_ge.
    unfold zlen in *. cbn in Hlen. lia. }
  rewrite (body_ok _ _ _ _ _ q a b c h z) by (done || lia).
  rewrite (app_assoc g), (app_assoc p), (app_assoc p g).
  replace (zlen (q ++ z)) with (zlen ((q ++ h) ++ drop (length h) z))
    by (unfold zlen in *; rewrite !length_app, length_drop; lia).
  replace (zlen p + 4) with (zlen (p ++ g)) by (rewrite zlen_app; lia).
  rewrite IH; [by rewrite Er, <- app_assoc | done | done | |].
  - rewrite Er, length_app in Hf. destruct h; [done | cbn [length] in Hf; lia].
  - unfold zlen in *. rewrite length_drop. lia.
Qed.

Lemma not_pad u y i :
  Forall (fun c => c <> 61 /\ c <> 0) u -> 0 <= i < zlen u ->
  exists c, rd (u ++ y) i = Ok c /\ (c =? 61) = false.
Proof.
  intros Hu Hi. destruct (rd_in_bounds u i Hi) as (c & Hc & Hl). exists c.
  rewrite rd_app_l by done. split; [done |]. apply Z.eqb_neq.
  by apply (Forall_lookup_1 _ _ _ _ Hu Hl).
Qed.

Lemma pad_at u n y i :
  zlen u <= i < zlen u + Z.of_nat n -> rd (u ++ replicate n 61 ++ y) i = Ok 61.
Proof.
  intros Hi. rewrite rd_app_r, rd_app_l by (rewrite ?zlen_replicate; lia).
  apply rd_ok; [lia |]. apply lookup_replicate_2. lia.
Qed.

Lemma base64_decode_ok junk bs x :
  zlen junk = 256 -> bytes_ok bs -> bs <> [] ->
  base64_decode junk (rfc4648 bs ++ x) (zlen (rfc4648 bs)) = Ok (Some bs).
Proof.
  intros Hj Hb Hne. unfold base64_decode.
  destruct (build_ok junk Hj) as (t & -> & Ht). rewrite res_bind_ok.
  destruct (padded bs Hb) as (u & _ & E & Hu & Hl & Hu2). specialize (Hu2 Hne).
  pose proof (missing_bounds bs) as Hm. pose proof (zlen_nonneg bs) as Hn.
  assert (Hz : zlen (rfc4648 bs) = 4 * ((zlen bs + 2) / 3)) by (rewrite E, zlen_app, zlen_replicate; lia).
  assert (Hlen : zlen (rfc4648 bs) / 4 * 3 - missing bs = zlen bs) by (rewrite Hz; unfold missing; modlia).
  replace (zlen (rfc4648 bs) mod 4 =? 0) with true by (rewrite Hz; modlia). cbn [negb].
  pose proof (decode_loop_ok (Z.to_nat (zlen (rfc4648 bs))) t [] bs x []
    (replicate (Z.to_nat (zlen bs)) 0) Ht Hb) as D.
  rewrite !app_nil_l in D. change (zlen (@nil Z)) with 0 in D.
  rewrite zlen_replicate, Z2Nat.id in D by lia.
  assert (Hf : (length bs <= Z.to_nat (zlen (rfc4648 bs)))%nat) by (rewrite Hz; unfold zlen; modlia).
  specialize (D Hf eq_refl).
  assert (H1 : exists c, rd (rfc4648 bs ++ x) (zlen (rfc4648 bs) - 1) = Ok c /\
                         (c =? 61) = (1 <=? missing bs)).
  { rewrite Hz, E, <- app_assoc, <- Hl. destruct (Z.leb_spec 1 (missing bs)).
    - exists 61. split; [apply pad_at; lia | done].
    - apply not_pad; [done | lia]. }
  assert (H2 : exists c, rd (rfc4648 bs ++ x) (zlen (rfc4648 bs) - 2) = Ok c /\
                         (c =? 61) = (2 <=? missing bs)).
  { rewrite Hz, E, <- app_assoc, <- Hl. destruct (Z.leb_spec 2 (missing bs)).
    - exists 61. split; [apply pad_at; lia | done].
    - apply not_pad; [done | lia]. }
  destruct H1 as (c1 & -> & H1), H2 as (c2 & -> & H2). rewrite !res_bind_ok. cbv zeta.
  set (n := if c2 =? 61 then _ else _). assert (En : n = zlen bs).
  { unfold n. rewrite H1, H2. destruct (Z.leb_spec 1 (missing bs)), (Z.leb_spec 2 (missing bs)); lia. }
  rewrite En, D. done.
Qed.

Lemma strlen_ok s x : Forall (fun c => c <> 0) s -> strlen (s ++ 0 :: x) = Ok (zlen s).
Proof.
  induction 1 as [|c s Hc _ IH]; [done |]. cbn [app strlen].
  rewrite (proj2 (Z.eqb_neq c 0)) by done. by rewrite IH, res_bind_ok, zlen_cons.
Qed.

Context `{Platform}.

(** base64 is RFC 4648 and decodes to the same bytes.  For every
    non-empty buffer [buf_to_base64] returns the RFC 4648 encoding of its
    contents, and [buf_from_base64] of that string (NUL-terminated, with
    anything behind it) is a buffer with the same contents, whatever the
    uninitialised entries of the decoding table hold. *)
Theorem buf_base64_roundtrip b junk :
  buf_wf b -> 0 < b_size b -> zlen junk = 256 ->
  exists s, buf_to_base64 b = Ok (Some s) /\ s = rfc4648 (contents b) /\
    forall x, exists b', buf_from_base64 junk (Some (s ++ 0 :: x)) = Ok b' /\
      contents b' = contents b.
Proof.
  intros Hw Hs Hj. pose proof (zlen_contents b Hw) as Hl. pose proof (contents_ok b Hw) as Hb.
  assert (Hne : contents b <> []) by (intros E; rewrite E in Hl; change (zlen (@nil Z)) with 0 in Hl; lia).
  exists (rfc4648 (contents b)). split; [| split; [done |]].
  - unfold buf_to_base64. destruct (Z.ltb_spec (b_size b) 1); [lia |].
    destruct (wf_cursor b Hw) as (a & c & E & _).
    assert (Hd : data_at b 0 = contents b ++ c) by (rewrite E at 1; by rewrite data_cur0).
    by rewrite Hd, <- Hl, base64_encode_ok, res_bind_ok.
  - intros x. unfold buf_from_base64. rewrite buf_init_ok, res_bind_ok.
    destruct (padded (contents b) Hb) as (u & _ & E & Hu & _).
    rewrite strlen_ok, res_bind_ok.
    2: { rewrite E. apply Forall_app_2; [revert Hu; apply Forall_impl; tauto |].
         apply Forall_replicate. lia. }
    rewrite base64_decode_ok, res_bind_ok by done.
    assert (Hf : fits (zlen (contents b))) by (rewrite Hl; destruct Hw as (_ & _ & ? & ? & ? & ?); unfold fits; lia).
    rewrite buf_cat_data_ok by (done || lia || (zpos; change (zlen []) with 0; rewrite Z.add_0_l; done)).
    eexists; split; [reflexivity |]. rewrite contents_fresh. cbn [app].
    apply take_ge. unfold zlen. lia.
Qed.

(** decoding an empty string reads before it.  [base64_decode] looks at
    [data[input_length - 1]] before it looks at the length, so
    [buf_from_base64] of the empty string reads outside the string. *)
Theorem buf_from_base64_empty junk x :
  zlen junk = 256 -> buf_from_base64 junk (Some (0 :: x)) = Err OutOfBounds.
Proof.
  intros Hj. unfold buf_from_base64. rewrite buf_init_ok, res_bind_ok. cbn [strlen Z.eqb].
  rewrite res_bind_ok. unfold base64_decode. destruct (build_ok junk Hj) as (t & -> & _).
  rewrite res_bind_ok. cbn [Z.modulo negb Z.eqb]. by rewrite rd_oob by lia.
Qed.
End Facts.
