(* ===== verification/Tg.v ===== *)
(** * The session state of libtg: tg/tg.h, tg/ack.c and the clock of tg/header.c

    [tg_t] holds what the MTProto layers share: the authorization key, the
    server salt, the session id, the sequence counter, the ids of received
    messages to acknowledge and of answers to drop.  An operation on it is
    a state transformer that can also fault.  [ON_LOG] and [ON_ERR] only
    report and are left out; the mutexes are initialised by [tg_new] and
    held by one thread at a time, so a sequential run never takes the
    branches for a failing [pthread_mutex_lock]. *)
From S2P Require Import Prelude TlBuf.

Record tg_t := Tg {
  key : buf_t;
  salt : buf_t;
  ssid : buf_t;
  seqn : Z;             (* a C int *)
  msgids : list Z;
  todrop : list Z;
  timediff : Z;
  ticks : nat           (* how often the clock has been read *)
}.

Definition set_key (k : buf_t) (tg : tg_t) : tg_t :=
  Tg k (salt tg) (ssid tg) (seqn tg) (msgids tg) (todrop tg) (timediff tg) (ticks tg).
Definition set_salt (s : buf_t) (tg : tg_t) : tg_t :=
  Tg (key tg) s (ssid tg) (seqn tg) (msgids tg) (todrop tg) (timediff tg) (ticks tg).
Definition set_ssid (s : buf_t) (tg : tg_t) : tg_t :=
  Tg (key tg) (salt tg) s (seqn tg) (msgids tg) (todrop tg) (timediff tg) (ticks tg).
Definition set_seqn (n : Z) (tg : tg_t) : tg_t :=
  Tg (key tg) (salt tg) (ssid tg) n (msgids tg) (todrop tg) (timediff tg) (ticks tg).
Definition set_msgids (l : list Z) (tg : tg_t) : tg_t :=
  Tg (key tg) (salt tg) (ssid tg) (seqn tg) l (todrop tg) (timediff tg) (ticks tg).
Definition set_todrop (l : list Z) (tg : tg_t) : tg_t :=
  Tg (key tg) (salt tg) (ssid tg) (seqn tg) (msgids tg) l (timediff tg) (ticks tg).
Definition set_timediff (t : Z) (tg : tg_t) : tg_t :=
  Tg (key tg) (salt tg) (ssid tg) (seqn tg) (msgids tg) (todrop tg) t (ticks tg).
Definition set_ticks (n : nat) (tg : tg_t) : tg_t :=
  Tg (key tg) (salt tg) (ssid tg) (seqn tg) (msgids tg) (todrop tg) (timediff tg) n.

(** ** Operations on the session *)
Abbreviation TG := (ST tg_t).

(** What the environment supplies: the successive readings of the real-time
    clock in units of 2^-32 seconds (the product
    [(1LL << 32) * tg_get_utime(CLOCK_REALTIME)], truncated), and of
    [time(NULL)]; and the two TL constructors the generator writes. *)
Class Env `{Platform} := {
  utime : nat -> Z;
  wall : nat -> Z;
  tl_msgs_ack : list Z -> res buf_t;
  tl_rpc_drop_answer : Z -> res buf_t
}.

Section Ack.
Context `{Env}.

(** The clock of header.c: [& -4], then [+ timediff]. *)
Definition tg_get_current_time : TG Z :=
  n ← gets ticks;
  _ ← modify (set_ticks (S n));
  d ← gets timediff;
  mret (i64 (Z.land (utime n) (-4) + d)).

Definition tg_add_msgid (msgid : Z) : TG unit :=
  l ← gets msgids; modify (set_msgids (l ++ [msgid])).

(** The pending acknowledgements as a [msgs_ack] object; an empty buffer
    when there are none. *)
Definition tg_ack : TG buf_t :=
  ack ← lift buf_new;
  l ← gets msgids;
  if zlen l <? 1 then mret ack
  else
    ack ← lift (tl_msgs_ack l);
    _ ← modify (set_msgids []);
    mret ack.

Definition tg_add_todrop (msgid : Z) : TG unit :=
  l ← gets todrop; modify (set_todrop (l ++ [msgid])).

(** ** Messages: tg/header.c *)

(** [current_seqno*2 + 1] and an increment for a content message,
    [current_seqno*2] otherwise. *)
Definition next_seqno (content : bool) : TG Z :=
  n ← gets seqn;
  if content then _ ← modify (set_seqn (i32 (n + 1))); mret (i32 (n * 2 + 1))
  else mret (i32 (n * 2)).

(** Returns the message and the id stored through [msgid]. *)
Definition tg_mtp_message (payload : buf_t) (content : bool) : TG (buf_t * Z) :=
  msg ← lift buf_new;
  t ← tg_get_current_time;
  let msg_id := u64 t in
  msg ← lift (buf_cat_ui64 msg msg_id);
  n ← next_seqno content;
  msg ← lift (buf_cat_ui32 msg n);
  msg ← lift (buf_cat_ui32 msg (b_size payload));
  msg ← lift (buf_cat msg payload);
  mret (msg, msg_id).

Fixpoint drop_loop (l : list Z) (buf : buf_t) : TG buf_t :=
  match l with
  | [] => mret buf
  | id :: l =>
      drop ← lift (tl_rpc_drop_answer id);
      m ← tg_mtp_message drop true;
      buf ← lift (buf_cat buf (fst m));
      drop_loop l buf
  end.

(** The messages that drop answers, and how many they are. *)
Definition tg_to_drop (buf : buf_t) : TG (buf_t * Z) :=
  l ← gets todrop;
  if zlen l <? 1 then mret (buf, 0)
  else
    buf ← drop_loop l buf;
    _ ← modify (set_todrop []);
    mret (buf, zlen l).

Definition id_msg_container : Z := 0x73f1f8dc.

(** [msgid] is the pointer argument: [None] for NULL, else the value it
    points to; the new value is returned beside the packet. *)
Definition tg_header (query : buf_t) (enc content : bool) (msgid : option Z)
  : TG (buf_t * option Z) :=
  s ← lift buf_init;
  if enc then
    p ← match msgid with
        | None => fail NullDeref
        | Some v => mret (if v =? 0 then v else 0)
        end;
    buf ← lift buf_new;
    ack ← tg_ack;
    r ← (if 0 <? b_size ack then
           m0 ← tg_mtp_message query true;
           m1 ← tg_mtp_message ack false;
           buf ← lift (buf_add_ui32 id_msg_container);
           todrop ← lift buf_new;
           d ← tg_to_drop todrop;
           buf ← lift (buf_cat_ui32 buf (2 + snd d));
           buf ← lift (buf_cat buf (fst m0));
           buf ← lift (buf_cat buf (fst m1));
           buf ← lift (buf_cat buf (fst d));
           mret (buf, false, snd m0)
         else
           buf ← lift (buf_cat buf query);
           mret (buf, content, p));
    let '(buf, content, p) := r in
    sl ← gets salt; s ← lift (buf_cat s sl);
    sd ← gets ssid; s ← lift (buf_cat s sd);
    t ← tg_get_current_time;
    let _msgid := u64 t in
    s ← lift (buf_cat_ui64 s _msgid);
    let p := if p =? 0 then _msgid else p in
    n ← next_seqno content;
    s ← lift (buf_cat_ui32 s n);
    s ← lift (buf_cat_ui32 s (b_size buf));
    s ← lift (buf_cat s buf);
    k ← gets ticks;
    let pad := 16 + (16 - b_size buf mod 16) mod 16 in
    s ← lift (buf_cat_rand (wall k) s pad);
    mret (s, Some p)
  else
    s ← lift (buf_cat_ui64 s 0);
    t ← tg_get_current_time;
    s ← lift (buf_cat_ui64 s (u64 t));
    s ← lift (buf_cat_ui32 s (b_size query));
    s ← lift (buf_cat s query);
    mret (s, msgid).
End Ack.
