(* ===== verification/Packet.v ===== *)
(** * The MTProto packet layers: tg/header.c, tg/encrypt.c, tg/transport.c,
    tg/prepare_query.c, crypto/hsh.c, crypto/aes.c

    A query goes through [tg_header] (Tg.v), [tg_encrypt] and
    [tg_transport]; an answer through [tg_detransport] (plain phase only),
    [tg_decrypt] and [tg_deheader].  The hash functions and AES-IGE are
    OpenSSL's: parameters, with the facts the layers rely on as class
    fields. *)
From S2P Require Import Prelude TlBuf Serial Tg.

(** OpenSSL's [SHA1], [SHA256] and [AES_ige_encrypt] with a 256-bit key. *)
Class OpenSSL := {
  SHA1 : list Z -> list Z;
  SHA256 : list Z -> list Z;
  ige_encrypt : list Z -> list Z -> list Z -> list Z;
  ige_decrypt : list Z -> list Z -> list Z -> list Z;
  SHA1_length : forall m, zlen (SHA1 m) = 20;
  SHA1_bytes : forall m, bytes_ok (SHA1 m);
  SHA256_length : forall m, zlen (SHA256 m) = 32;
  SHA256_bytes : forall m, bytes_ok (SHA256 m);
  ige_encrypt_length : forall k iv m, zlen (ige_encrypt k iv m) = zlen m;
  ige_encrypt_bytes : forall k iv m, bytes_ok (ige_encrypt k iv m);
  ige_decrypt_length : forall k iv m, zlen (ige_decrypt k iv m) = zlen m;
  ige_decrypt_bytes : forall k iv m, bytes_ok (ige_decrypt k iv m);
  ige_inverse : forall k iv m, zlen k = 32 -> zlen iv = 32 -> zlen m mod 16 = 0 -> bytes_ok m ->
    ige_decrypt k iv (ige_encrypt k iv m) = m
}.

Section Packet.
Context `{Env} `{OpenSSL}.

(** Storing the output of a library function at [data]. *)
Definition store (b : buf_t) (bs : list Z) : res buf_t :=
  m ← copy_loop (length bs) 0 (b_mem b) (fun i => b_off b + i) bs; Ok (set_mem b m).

(** The [n] bytes a library function reads from the buffer's data. *)
Definition load (b : buf_t) (n : Z) : res (list Z) :=
  t ← buf_add (data_at b 0) n; Ok (contents t).

Definition tg_hsh_sha1 (b : buf_t) : res buf_t :=
  h ← buf_init; m ← load b (b_size b); h ← store h (SHA1 m); Ok (set_size h 20).

Definition tg_hsh_sha256 (b : buf_t) : res buf_t :=
  h ← buf_init; m ← load b (b_size b); h ← store h (SHA256 m); Ok (set_size h 32).

(** [AES_ige_encrypt] asserts that the length is a multiple of the block. *)
Definition aes_ige (f : list Z -> list Z -> list Z -> list Z) (b k iv : buf_t) : res buf_t :=
  r ← buf_init;
  r ← (if b_size r <? b_size b then buf_realloc_ r (u32 (b_size b * 3)) else Ok r);
  key ← load k 32;
  _ ← guard_res (b_size b mod 16 =? 0) AssertFailed;
  ivec ← load iv 32;
  m ← load b (b_size b);
  r ← store r (f key ivec m);
  Ok (set_size r (b_size b)).

Definition tg_cry_aes_e (b k iv : buf_t) : res buf_t := aes_ige ige_encrypt b k iv.
Definition tg_cry_aes_d (b k iv : buf_t) : res buf_t := aes_ige ige_decrypt b k iv.

Definition tg_encrypt (tg : tg_t) (b : buf_t) (enc : bool) : res buf_t :=
  e ← buf_init;
  if enc then
    key_hash ← tg_hsh_sha1 (key tg);
    auth_key_id ← buf_add (data_at key_hash 12) 8;
    large_ ← buf_add (data_at (key tg) 88) 32;
    large_ ← buf_cat large_ b;
    large ← tg_hsh_sha256 large_;
    msg_key ← buf_add (data_at large 8) 16;
    sha256_a_ ← buf_add (data_at msg_key 0) (b_size msg_key);
    sha256_a_ ← buf_cat_data sha256_a_ (data_at (key tg) 0) 36;
    sha256_a ← tg_hsh_sha256 sha256_a_;
    sha256_b_ ← buf_add (data_at (key tg) 40) 36;
    sha256_b_ ← buf_cat_data sha256_b_ (data_at msg_key 0) (b_size msg_key);
    sha256_b ← tg_hsh_sha256 sha256_b_;
    aes_key ← buf_add (data_at sha256_a 0) 8;
    aes_key ← buf_cat_data aes_key (data_at sha256_b 8) 16;
    aes_key ← buf_cat_data aes_key (data_at sha256_a 24) 8;
    aes_iv ← buf_add (data_at sha256_b 0) 8;
    aes_iv ← buf_cat_data aes_iv (data_at sha256_a 8) 16;
    aes_iv ← buf_cat_data aes_iv (data_at sha256_b 24) 8;
    enc ← tg_cry_aes_e b aes_key aes_iv;
    e ← buf_cat e auth_key_id;
    e ← buf_cat e msg_key;
    buf_cat e enc
  else buf_cat e b.

Definition tg_decrypt (tg : tg_t) (m : buf_t) (enc : bool) : res buf_t :=
  d ← buf_init;
  if b_size m =? 0 then Ok d
  else if enc then
    auth_key_id ← buf_get_ui64 m;
    key_hash ← tg_hsh_sha1 (key tg);
    auth_key_id_ ← buf_add (data_at key_hash 12) 8;
    id_ ← buf_get_ui64 auth_key_id_;
    if negb (auth_key_id =? id_) then Ok d
    else
      '(_, m) ← deserialize_ui64 m;
      '(msg_key, m) ← deserialize_buf m 16;
      if negb (b_size m mod 16 =? 0) then Ok d
      else
        sha256_a_ ← buf_add (data_at msg_key 0) (b_size msg_key);
        sha256_a_ ← buf_cat_data sha256_a_ (data_at (key tg) 8) 36;
        sha256_a ← tg_hsh_sha256 sha256_a_;
        sha256_b_ ← buf_add (data_at (key tg) (40 + 8)) 36;
        sha256_b_ ← buf_cat sha256_b_ msg_key;
        sha256_b ← tg_hsh_sha256 sha256_b_;
        aes_key ← buf_add (data_at sha256_a 0) 8;
        aes_key ← buf_cat_data aes_key (data_at sha256_b 8) 16;
        aes_key ← buf_cat_data aes_key (data_at sha256_a 24) 8;
        aes_iv ← buf_add (data_at sha256_b 0) 8;
        aes_iv ← buf_cat_data aes_iv (data_at sha256_a 8) 16;
        aes_iv ← buf_cat_data aes_iv (data_at sha256_b 24) 8;
        tg_cry_aes_d m aes_key aes_iv
  else buf_cat d m.

Definition tg_transport (buf : buf_t) : res buf_t :=
  b ← buf_init; b ← buf_cat_ui32 b (b_size buf); buf_cat b buf.

(** [len == -404] compares a uint32_t with the conversion of -404, which is
    0xfffffe6c. *)
Definition tg_detransport (a : buf_t) : res buf_t :=
  b ← buf_init;
  if b_size a =? 0 then Ok b
  else
    '(len, a) ← deserialize_ui32 a;
    is404 ← (if len =? u32 (-404) then Ok true
             else v ← buf_get_ui32 a; Ok (v =? 0xfffffe6c));
    if is404 : bool then buf_cat_ui32 b 0xfffffe6c
    else
      b ← buf_cat b a;
      if negb (len =? b_size b) then buf_add_ui32 (-405) else Ok b.

(** The session id and the declared length are compared and a difference
    reported, nothing more. *)
Definition tg_deheader (b : buf_t) (enc : bool) : TG buf_t :=
  if b_size b =? 0 then mret b
  else
    d ← lift buf_init;
    if enc then
      r ← lift (deserialize_ui64 b); let '(sl, b) := r in
      sb ← lift (buf_add_ui64 sl);
      _ ← modify (set_salt sb);
      r ← lift (deserialize_ui64 b); let '(_, b) := r in
      sd ← gets ssid;
      _ ← lift (buf_get_ui64 sd);
      r ← lift (deserialize_ui64 b); let '(msg_id, b) := r in
      _ ← tg_add_msgid msg_id;
      r ← lift (deserialize_ui32 b); let '(_, b) := r in
      r ← lift (deserialize_ui32 b); let '(msg_data_len, b) := r in
      lift (buf_cat d (set_size b msg_data_len))
    else
      auth_key_id ← lift (buf_get_ui64 b);
      if negb (auth_key_id =? 0) then mret b
      else
        r ← lift (deserialize_ui64 b); let '(_, b) := r in
        r ← lift (deserialize_ui64 b); let '(_, b) := r in
        r ← lift (deserialize_ui32 b); let '(_, b) := r in
        lift (buf_cat d b).

(** [*msgid] is read only for the message of an error report. *)
Definition tg_prepare_query (query : buf_t) (enc : bool) (msgid : option Z)
  : TG (buf_t * option Z) :=
  h ← tg_header query enc true msgid;
  tg ← gets (fun tg => tg);
  e ← lift (tg_encrypt tg (fst h) enc);
  t ← lift (tg_transport e);
  mret (t, snd h).
End Packet.

(** ** The packets as byte strings *)
Section Wire.
Context `{OpenSSL}.

Definition pad16 (n : Z) : Z := 16 + (16 - n mod 16) mod 16.

(** The plain and the encrypted header. *)
Definition plain_packet (msg_id : Z) (body : list Z) : list Z :=
  le_bytes 8 0 ++ le_bytes 8 msg_id ++ le_bytes 4 (zlen body) ++ body.

Definition enc_packet (salt ssid : list Z) (msg_id seqno : Z) (body padding : list Z) : list Z :=
  salt ++ ssid ++ le_bytes 8 msg_id ++ le_bytes 4 seqno ++ le_bytes 4 (zlen body) ++ body ++ padding.

Definition mtp_message (msg_id seqno : Z) (body : list Z) : list Z :=
  le_bytes 8 msg_id ++ le_bytes 4 seqno ++ le_bytes 4 (zlen body) ++ body.

(** The key derivation of MTProto 2.0; [x] is 0 for messages from the
    client and 8 for messages from the server. *)
Definition sub (l : list Z) (off n : Z) : list Z := slice l off n.
Definition kdf_a (x : Z) (k msg_key : list Z) : list Z := SHA256 (msg_key ++ sub k x 36).
Definition kdf_b (x : Z) (k msg_key : list Z) : list Z := SHA256 (sub k (40 + x) 36 ++ msg_key).
Definition kdf_key (x : Z) (k msg_key : list Z) : list Z :=
  sub (kdf_a x k msg_key) 0 8 ++ sub (kdf_b x k msg_key) 8 16 ++ sub (kdf_a x k msg_key) 24 8.
Definition kdf_iv (x : Z) (k msg_key : list Z) : list Z :=
  sub (kdf_b x k msg_key) 0 8 ++ sub (kdf_a x k msg_key) 8 16 ++ sub (kdf_b x k msg_key) 24 8.
Definition msg_key_of (x : Z) (k plain : list Z) : list Z :=
  sub (SHA256 (sub k (88 + x) 32 ++ plain)) 8 16.
Definition key_id_of (k : list Z) : list Z := sub (SHA1 k) 12 8.

(** The peer's side of the protocol, as the documentation describes it. *)
Definition seal (x : Z) (k plain : list Z) : list Z :=
  let mk := msg_key_of x k plain in
  key_id_of k ++ mk ++ ige_encrypt (kdf_key x k mk) (kdf_iv x k mk) plain.

Definition open (x : Z) (k packet : list Z) : option (list Z) :=
  let mk := sub packet 8 16 in
  let plain := ige_decrypt (kdf_key x k mk) (kdf_iv x k mk) (drop 24 packet) in
  if decide (sub packet 0 8 = key_id_of k /\ mk = msg_key_of x k plain) then Some plain else None.
End Wire.

(** ** Buffers built from parts of others *)
Section Parts.
Context `{Platform}.

Lemma contents_split b k n :
  buf_wf b -> 0 <= k -> 0 <= n -> k + n <= b_size b ->
  take (Z.to_nat n) (data_at b k) = slice (contents b) k n.
Proof.
  intros Hw Hk Hn Hs. destruct (wf_cursor b Hw) as (a & c & E & _).
  pose proof (zlen_contents b Hw) as Hl.
  assert (Ed : data_at b k = drop (Z.to_nat k) (contents b ++ c)) by (rewrite E at 1; by rewrite data_cur).
  rewrite Ed. unfold slice. unfold zlen in Hl. rewrite drop_app_le by lia.
  apply take_app_le. rewrite length_drop. lia.
Qed.

Lemma buf_add_at b k n :
  buf_wf b -> 0 <= k -> 0 <= n -> k + n <= b_size b ->
  buf_add (data_at b k) n = Ok (fresh (slice (contents b) k n)).
Proof.
  intros Hw Hk Hn Hs. pose proof Hw as (Hl & _ & Ho & _ & Hf & Ha).
  rewrite buf_add_ok, contents_split by first [done | lia | (rewrite zlen_data_at; lia) | (unfold fits; lia)].
  done.
Qed.

Lemma buf_cat_data_at bs b k n :
  buf_wf b -> 0 <= k -> 0 <= n -> k + n <= b_size b -> fits (zlen bs + n) ->
  buf_cat_data (fresh bs) (data_at b k) n = Ok (fresh (bs ++ slice (contents b) k n)).
Proof.
  intros Hw Hk Hn Hs Hf. unfold buf_cat_data. rewrite buf_add_at, res_bind_ok by done.
  pose proof (zlen_contents b Hw) as Hl.
  apply buf_cat_fresh; [apply slice_forall; by apply contents_ok |].
  by rewrite zlen_slice by lia.
Qed.

Lemma buf_add_whole b : buf_wf b -> buf_add (data_at b 0) (b_size b) = Ok (fresh (contents b)).
Proof.
  intros Hw. pose proof Hw as (_ & _ & _ & ? & _). rewrite buf_add_at by (done || lia).
  rewrite <- (zlen_contents b Hw). by rewrite slice_all by done.
Qed.

(** Consuming the front of a window. *)
Lemma advance_ok b w rest :
  buf_wf b -> contents b = w ++ rest ->
  buf_wf (advance b (zlen w)) /\ contents (advance b (zlen w)) = rest /\
  b_size (advance b (zlen w)) = zlen rest.
Proof.
  intros Hw Hc. platform. destruct (wf_cursor b Hw) as (a & c & E & Hcl). rewrite Hc in E.
  destruct Hw as (Hl & Hok & _ & _ & _ & Ha). rewrite E in Hl, Hok |- *.
  cbn [b_mem b_asize] in Hl, Hok. rewrite <- (app_assoc w) in *. rewrite !zlen_app in Hl.
  pose proof (zlen_nonneg a). pose proof (zlen_nonneg w). pose proof (zlen_nonneg rest).
  rewrite zlen_app. rewrite advance_to by lia.
  replace (zlen w + zlen rest - zlen w) with (zlen rest) by lia. split_and!.
  - apply cursor_wf; [by rewrite <- app_assoc | rewrite !zlen_app; lia | done | done].
  - apply contents_cur.
  - done.
Qed.

Lemma rd_le_window b n w rest :
  buf_wf b -> contents b = w ++ rest -> length w = n ->
  rd_le n (b_mem b) (b_off b) = Ok (le_num w).
Proof.
  intros Hw Hc Hn. destruct (wf_cursor b Hw) as (a & c & E & Hcl). rewrite Hc in E.
  rewrite E. cbn [b_mem b_off]. rewrite <- (app_assoc w).
  pose proof (zlen_nonneg a). pose proof (zlen_nonneg rest). pose proof (zlen_nonneg c).
  rewrite rd_le_ok by (rewrite ?zlen_app; unfold zlen in *; lia).
  rewrite (slice_app_r a) by done. rewrite slice_app_l by (unfold zlen; lia). done.
Qed.

Lemma get_ui64_window b w rest :
  buf_wf b -> contents b = w ++ rest -> zlen w = 8 -> buf_get_ui64 b = Ok (le_num w).
Proof. intros. eapply rd_le_window; [done | done | unfold zlen in *; lia]. Qed.

Lemma deserialize_ui64_window b w rest :
  buf_wf b -> contents b = w ++ rest -> zlen w = 8 ->
  deserialize_ui64 b = Ok (le_num w, advance b 8).
Proof. intros. unfold deserialize_ui64. by erewrite get_ui64_window. Qed.

Lemma deserialize_ui32_window b w rest :
  buf_wf b -> contents b = w ++ rest -> zlen w = 4 ->
  deserialize_ui32 b = Ok (le_num w, advance b 4).
Proof.
  intros. unfold deserialize_ui32, buf_get_ui32.
  erewrite (rd_le_window b 4); [done | done | done | unfold zlen in *; lia].
Qed.

Lemma deserialize_buf_window b w rest n :
  buf_wf b -> contents b = w ++ rest -> zlen w = n ->
  deserialize_buf b n = Ok (fresh w, advance b n).
Proof.
  intros Hw Hc Hn. platform. pose proof (zlen_contents b Hw) as Hl. rewrite Hc, zlen_app in Hl.
  pose proof Hw as (_ & _ & ? & ? & ? & ?). pose proof (zlen_nonneg w). pose proof (zlen_nonneg rest).
  unfold deserialize_buf. rewrite u32_id by (unfold is_u32; lia).
  rewrite buf_add_at, res_bind_ok, Hc by (done || lia). by rewrite slice_app_l by done.
Qed.

(** Side conditions of the form [fits] on sums of small sizes. *)
Lemma wf_fits b : buf_wf b -> fits (b_size b).
Proof. intros (_ & _ & ? & ? & ? & ?). unfold fits. lia. Qed.
End Parts.

Section Crypt.
Context `{Env} `{OpenSSL}.

Lemma load_ok b : buf_wf b -> load b (b_size b) = Ok (contents b).
Proof. intros Hw. unfold load. by rewrite buf_add_whole, res_bind_ok, contents_fresh by done. Qed.

Lemma store_mk bs asz :
  zlen bs <= asz -> store (mk_buf [] asz) bs = Ok (Buf (b_mem (mk_buf bs asz)) 0 0 asz).
Proof.
  intros Hl. pose proof (zlen_nonneg bs). unfold store.
  rewrite (copy_loop_ok _ _ _ _ 0); [| done | lia | lia | unfold zlen; lia |].
  - rewrite res_bind_ok. unfold slice. rewrite Nat2Z.id, drop_0, take_ge by lia.
    change (0 + 0) with (zlen (@nil Z)). rewrite splice_mk by (change (zlen []) with 0; lia). done.
  - unfold mk_buf; cbn [b_mem app length]. rewrite zlen_replicate. unfold zlen in *. lia.
Qed.

Lemma store_fresh bs :
  zlen bs <= BUFSIZ -> (h ← store (fresh []) bs; Ok (set_size h (zlen bs))) = Ok (fresh bs).
Proof.
  intros Hl. platform. rewrite fresh_nil, store_mk, res_bind_ok by lia.
  unfold fresh. by rewrite Z.max_l by lia.
Qed.

Lemma hsh_sha1_ok b : buf_wf b -> tg_hsh_sha1 b = Ok (fresh (SHA1 (contents b))).
Proof.
  intros Hw. platform. unfold tg_hsh_sha1. rewrite buf_init_ok, res_bind_ok, load_ok, res_bind_ok by done.
  pose proof (store_fresh (SHA1 (contents b))) as E. rewrite SHA1_length in E. apply E. lia.
Qed.

Lemma hsh_sha256_ok b : buf_wf b -> tg_hsh_sha256 b = Ok (fresh (SHA256 (contents b))).
Proof.
  intros Hw. platform. unfold tg_hsh_sha256. rewrite buf_init_ok, res_bind_ok, load_ok, res_bind_ok by done.
  pose proof (store_fresh (SHA256 (contents b))) as E. rewrite SHA256_length in E. apply E. lia.
Qed.

Lemma hsh_sha256_fresh bs :
  bytes_ok bs -> fits (zlen bs) -> tg_hsh_sha256 (fresh bs) = Ok (fresh (SHA256 bs)).
Proof. intros. by rewrite hsh_sha256_ok, contents_fresh by (by apply fresh_wf). Qed.

(** AES-IGE over whole blocks. *)
Lemma aes_ige_ok f b k iv :
  (forall k iv m, zlen (f k iv m) = zlen m) -> (forall k iv m, bytes_ok (f k iv m)) ->
  buf_wf b -> b_size b mod 16 = 0 -> fits (b_size b * 3) ->
  zlen k = 32 -> zlen iv = 32 -> bytes_ok k -> bytes_ok iv ->
  exists r, aes_ige f b (fresh k) (fresh iv) = Ok r /\ buf_wf r /\ contents r = f k iv (contents b).
Proof.
  intros Hfl Hfb Hw Hm Hf Hk Hiv Hkb Hivb. platform. pose proof Hw as (_ & _ & _ & Hs & _).
  pose proof (zlen_contents b Hw) as Hl.
  assert (Hload : forall l, bytes_ok l -> zlen l = 32 -> load (fresh l) 32 = Ok l).
  { intros l Hb E. pose proof (load_ok (fresh l)) as L. rewrite size_fresh, E, contents_fresh in L.
    apply L, fresh_wf; [done | unfold fits; lia]. }
  unfold aes_ige. rewrite buf_init_ok, res_bind_ok. change (b_size (fresh [])) with 0.
  rewrite u32_id by (unfold is_u32, fits in *; lia).
  assert (Hr : (if 0 <? b_size b then buf_realloc_ (fresh []) (b_size b * 3) else Ok (fresh [])) =
               Ok (mk_buf [] (Z.max BUFSIZ (b_size b * 3)))).
  { rewrite fresh_nil. assert (H0B : zlen (@nil Z) <= BUFSIZ) by (change (zlen (@nil Z)) with 0; lia).
    pose proof (grow_mk [] BUFSIZ (b_size b * 3) H0B Hf) as G.
    destruct (Z.ltb_spec 0 (b_size b)); [| by rewrite Z.max_l by lia].
    destruct (Z.ltb_spec BUFSIZ (b_size b * 3)); [done |].
    unfold buf_realloc_, buf_realloc. cbn [b_asize mk_buf].
    replace (BUFSIZ <? b_size b * 3) with false by lia. by rewrite res_bind_ok, Z.max_l by lia. }
  rewrite Hr, res_bind_ok, (Hload k), res_bind_ok by done. rewrite Hm. cbn [Z.eqb guard_res].
  rewrite res_bind_ok, (Hload iv), res_bind_ok, (load_ok b), res_bind_ok by done.
  set (out := f k iv (contents b)). assert (Ho : zlen out = b_size b) by (unfold out; by rewrite Hfl).
  rewrite store_mk, res_bind_ok by lia.
  assert (E : set_size (Buf (b_mem (mk_buf out (Z.max BUFSIZ (b_size b * 3)))) 0 0
                (Z.max BUFSIZ (b_size b * 3))) (b_size b) = mk_buf out (Z.max BUFSIZ (b_size b * 3)))
    by (unfold set_size, mk_buf; cbn; by rewrite Ho).
  rewrite E. eexists; split; [reflexivity |]. split; [| apply contents_mk].
  apply mk_buf_wf; [apply Hfb | lia | unfold fits in *; lia].
Qed.

Lemma buf_add_sub bs k n :
  bytes_ok bs -> fits (zlen bs) -> 0 <= k -> 0 <= n -> k + n <= zlen bs ->
  buf_add (data_at (fresh bs) k) n = Ok (fresh (sub bs k n)).
Proof.
  intros. rewrite buf_add_at by first [by apply fresh_wf | done | by rewrite size_fresh].
  by rewrite contents_fresh.
Qed.

Lemma buf_cat_sub bs cs k n :
  bytes_ok cs -> fits (zlen cs) -> 0 <= k -> 0 <= n -> k + n <= zlen cs -> fits (zlen bs + n) ->
  buf_cat_data (fresh bs) (data_at (fresh cs) k) n = Ok (fresh (bs ++ sub cs k n)).
Proof.
  intros. rewrite buf_cat_data_at by first [by apply fresh_wf | done | by rewrite size_fresh].
  by rewrite contents_fresh.
Qed.

Lemma zlen_sub l k n : 0 <= k -> 0 <= n -> k + n <= zlen l -> zlen (sub l k n) = n.
Proof. apply zlen_slice. Qed.

(** The part of both directions that assembles the AES key and vector. *)
Lemma kdf_ok {T} (kont : buf_t -> res T) A B :
  zlen A = 32 -> zlen B = 32 -> bytes_ok A -> bytes_ok B ->
  (r ← buf_add (data_at (fresh A) 0) 8;
   r ← buf_cat_data r (data_at (fresh B) 8) 16;
   r ← buf_cat_data r (data_at (fresh A) 24) 8;
   kont r) = kont (fresh (sub A 0 8 ++ sub B 8 16 ++ sub A 24 8)).
Proof.
  intros HA HB HAb HBb. platform.
  rewrite buf_add_sub, res_bind_ok by (done || (unfold fits; lia)).
  rewrite buf_cat_sub, res_bind_ok by (done || (rewrite ?zlen_sub; unfold fits; lia)).
  rewrite buf_cat_sub, res_bind_ok by (done || (rewrite ?zlen_app, ?zlen_sub; unfold fits; lia)).
  by rewrite <- app_assoc.
Qed.

Lemma kdf_length A B :
  zlen A = 32 -> zlen B = 32 -> zlen (sub A 0 8 ++ sub B 8 16 ++ sub A 24 8) = 32.
Proof. intros. rewrite !zlen_app, !zlen_sub by lia. done. Qed.

Lemma kdf_bytes A B :
  bytes_ok A -> bytes_ok B -> bytes_ok (sub A 0 8 ++ sub B 8 16 ++ sub A 24 8).
Proof. intros. unfold sub. auto with bytes. Qed.

(** A usable authorization key. *)
Definition key_ok (tg : tg_t) : Prop := buf_wf (key tg) /\ b_size (key tg) = 256.

Lemma key_part tg x n :
  key_ok tg -> 0 <= x -> 0 <= n -> x + n <= 256 ->
  buf_add (data_at (key tg) x) n = Ok (fresh (sub (contents (key tg)) x n)) /\
  zlen (sub (contents (key tg)) x n) = n /\ bytes_ok (sub (contents (key tg)) x n).
Proof.
  intros [Hw Hs] Hx Hn Hb. pose proof (zlen_contents _ Hw) as Hl. split_and!.
  - by rewrite buf_add_at by (done || lia).
  - apply zlen_sub; lia.
  - apply slice_forall. by apply contents_ok.
Qed.

Lemma cat_key_part tg bs x n :
  key_ok tg -> 0 <= x -> 0 <= n -> x + n <= 256 -> fits (zlen bs + n) ->
  buf_cat_data (fresh bs) (data_at (key tg) x) n = Ok (fresh (bs ++ sub (contents (key tg)) x n)).
Proof. intros [Hw Hs] Hx Hn Hb Hf. by rewrite buf_cat_data_at by (done || lia). Qed.

Lemma key_id_ok {T} (kont : buf_t -> res T) tg :
  key_ok tg ->
  (key_hash ← tg_hsh_sha1 (key tg); r ← buf_add (data_at key_hash 12) 8; kont r) =
  kont (fresh (key_id_of (contents (key tg)))).
Proof.
  intros [Hw Hs]. platform. rewrite hsh_sha1_ok, res_bind_ok by done.
  rewrite buf_add_sub, res_bind_ok by (apply SHA1_bytes || (rewrite ?SHA1_length; unfold fits; lia)).
  done.
Qed.

Lemma zlen_key_id k : zlen (key_id_of k) = 8.
Proof. unfold key_id_of. rewrite zlen_sub; rewrite ?SHA1_length; lia. Qed.
Lemma key_id_bytes k : bytes_ok (key_id_of k).
Proof. apply slice_forall, SHA1_bytes. Qed.
Lemma zlen_msg_key x k p : zlen (msg_key_of x k p) = 16.
Proof. unfold msg_key_of. rewrite zlen_sub; rewrite ?SHA256_length; lia. Qed.
Lemma msg_key_bytes x k p : bytes_ok (msg_key_of x k p).
Proof. apply slice_forall, SHA256_bytes. Qed.

(** What the peer sees: [tg_encrypt] is the sealing of MTProto 2.0. *)
Lemma tg_encrypt_ok tg b :
  key_ok tg -> buf_wf b -> b_size b mod 16 = 0 -> fits (b_size b * 3 + 256) ->
  exists e, tg_encrypt tg b true = Ok e /\ buf_wf e /\ b_off e = 0 /\
    contents e = seal 0 (contents (key tg)) (contents b).
Proof.
  intros Hk Hb Hm Hf. platform. pose proof Hb as (_ & _ & _ & Hs & _).
  pose proof (zlen_contents b Hb) as Hl. pose proof (contents_ok b Hb) as Hbb.
  set (k := contents (key tg)) in *. set (p := contents b) in *.
  destruct (key_part tg 88 32) as (K88 & L88 & B88); [done | lia.. |].
  destruct (key_part tg 0 36) as (_ & L0 & B0); [done | lia.. |].
  destruct (key_part tg 40 36) as (K40 & L40 & B40); [done | lia.. |].
  fold k in K88, L88, B88, L0, B0, K40, L40, B40.
  set (mk := msg_key_of 0 k p).
  assert (Lmk : zlen mk = 16) by apply zlen_msg_key. assert (Bmk : bytes_ok mk) by apply msg_key_bytes.
  assert (Wmk : buf_wf (fresh mk)) by (apply fresh_wf; [done | unfold fits; lia]).
  assert (LA : zlen (kdf_a 0 k mk) = 32) by apply SHA256_length.
  assert (LB : zlen (kdf_b 0 k mk) = 32) by apply SHA256_length.
  assert (BA : bytes_ok (kdf_a 0 k mk)) by apply SHA256_bytes.
  assert (BB : bytes_ok (kdf_b 0 k mk)) by apply SHA256_bytes.
  destruct (aes_ige_ok ige_encrypt b (kdf_key 0 k mk) (kdf_iv 0 k mk)) as (r & Er & Wr & Cr);
    [apply ige_encrypt_length | apply ige_encrypt_bytes | done | done | unfold fits in *; lia
    | by apply kdf_length | by apply kdf_length | by apply kdf_bytes | by apply kdf_bytes |].
  assert (Lr : b_size r = b_size b) by (rewrite <- (zlen_contents r Wr), Cr, ige_encrypt_length; done).
  pose proof (zlen_key_id k) as Lid. pose proof (key_id_bytes k) as Bid.
  eexists; split.
  - unfold tg_encrypt. step buf_init_ok. rewrite key_id_ok by done. fold k.
    step K88. step buf_cat_ok; [done | unfold fits in *; lia |]. fold p.
    step hsh_sha256_fresh; [auto with bytes | rewrite zlen_app; unfold fits in *; lia |].
    step buf_add_sub; [apply SHA256_bytes | rewrite SHA256_length; unfold fits; lia | lia | lia
                      | rewrite SHA256_length; lia |].
    change (sub (SHA256 (sub k 88 32 ++ p)) 8 16) with mk.
    step buf_add_whole; [done |]. rewrite contents_fresh.
    step cat_key_part; [done | lia | lia | lia | unfold fits; lia |]. fold k.
    step hsh_sha256_fresh; [auto with bytes | rewrite zlen_app; unfold fits; lia |].
    step K40. rewrite size_fresh, Lmk.
    step buf_cat_sub; [done | unfold fits; lia | lia | lia | lia | unfold fits; lia |].
    replace (sub mk 0 16) with mk by (unfold sub; by rewrite slice_all by lia).
    step hsh_sha256_fresh; [auto with bytes | rewrite zlen_app; unfold fits; lia |].
    fold (kdf_b 0 k mk) (kdf_a 0 k mk). rewrite kdf_ok by done. rewrite kdf_ok by done.
    step Er.
    step buf_cat_fresh; [done | change (zlen []) with 0; unfold fits; lia |].
    step buf_cat_fresh; [done | rewrite app_nil_l; unfold fits; lia |].
    apply buf_cat_ok; [done |]. rewrite app_nil_l, zlen_app. unfold fits in *. lia.
  - rewrite contents_fresh, app_nil_l. split_and!; [| done |].
    + pose proof (contents_ok r Wr). apply fresh_wf; [auto with bytes |].
      rewrite !zlen_app, (zlen_contents r Wr). unfold fits in *; lia.
    + by rewrite Cr, <- app_assoc.
Qed.

Lemma tg_decrypt_ok tg m mk c :
  key_ok tg -> buf_wf m -> contents m = key_id_of (contents (key tg)) ++ mk ++ c ->
  zlen mk = 16 -> zlen c mod 16 = 0 -> fits (zlen c * 3 + 256) ->
  exists d, tg_decrypt tg m true = Ok d /\ buf_wf d /\
    contents d = ige_decrypt (kdf_key 8 (contents (key tg)) mk) (kdf_iv 8 (contents (key tg)) mk) c.
Proof.
  intros Hk Hw Hc Lmk Hc16 Hf. platform.
  pose proof (contents_ok m Hw) as Hb. rewrite Hc, !Forall_app in Hb. destruct Hb as (_ & Bmk & Bc).
  set (k := contents (key tg)) in *. pose proof (zlen_key_id k) as Lid. pose proof (key_id_bytes k) as Bid.
  pose proof (zlen_nonneg c) as Hcn.
  assert (Hs : b_size m = 24 + zlen c)
    by (rewrite <- (zlen_contents m Hw), Hc, !zlen_app; lia).
  destruct (advance_ok m _ _ Hw Hc) as (W1 & C1 & S1). rewrite Lid in W1, C1, S1.
  destruct (advance_ok _ _ _ W1 C1) as (W2 & C2 & S2). rewrite Lmk in W2, C2, S2.
  destruct (key_part tg 8 36) as (_ & L8 & B8); [done | lia.. |].
  destruct (key_part tg 48 36) as (K48 & L48 & B48); [done | lia.. |].
  fold k in L8, B8, K48, L48, B48.
  assert (LA : zlen (kdf_a 8 k mk) = 32) by apply SHA256_length.
  assert (LB : zlen (kdf_b 8 k mk) = 32) by apply SHA256_length.
  assert (BA : bytes_ok (kdf_a 8 k mk)) by apply SHA256_bytes.
  assert (BB : bytes_ok (kdf_b 8 k mk)) by apply SHA256_bytes.
  assert (Wmk : buf_wf (fresh mk)) by (apply fresh_wf; [done | unfold fits; lia]).
  destruct (aes_ige_ok ige_decrypt (advance (advance m 8) 16) (kdf_key 8 k mk) (kdf_iv 8 k mk))
    as (r & Er & Wr & Cr);
    [apply ige_decrypt_length | apply ige_decrypt_bytes | done | by rewrite S2
    | rewrite S2; unfold fits in *; lia
    | by apply kdf_length | by apply kdf_length | by apply kdf_bytes | by apply kdf_bytes |].
  rewrite C2 in Cr. exists r. split; [| done].
  unfold tg_decrypt. step buf_init_ok. rewrite Hs. destruct (Z.eqb_spec (24 + zlen c) 0); [lia |].
  step get_ui64_window; [done | exact Hc | done |].
  rewrite key_id_ok by done. fold k.
  step get_ui64_window; [apply fresh_wf; [done | unfold fits; lia]
                        | rewrite contents_fresh; symmetry; apply app_nil_r | done |].
  rewrite Z.eqb_refl. cbn [negb].
  step deserialize_ui64_window; [done | exact Hc | done |].
  step deserialize_buf_window; [done | exact C1 | done |].
  rewrite S2, Hc16. cbn [Z.eqb negb].
  step buf_add_whole; [done |]. rewrite contents_fresh.
  step cat_key_part; [done | lia | lia | lia | unfold fits; lia |]. fold k.
  step hsh_sha256_fresh; [auto with bytes | rewrite zlen_app; unfold fits; lia |].
  step K48. step buf_cat_fresh; [done | unfold fits; lia |].
  step hsh_sha256_fresh; [auto with bytes | rewrite zlen_app; unfold fits; lia |].
  change (SHA256 (sub k 48 36 ++ mk)) with (kdf_b 8 k mk). fold (kdf_a 8 k mk).
  rewrite kdf_ok by done. rewrite kdf_ok by done. exact Er.
Qed.

Lemma open_seal x k p :
  0 <= x -> x + 120 <= zlen k -> zlen p mod 16 = 0 -> bytes_ok p -> open x k (seal x k p) = Some p.
Proof.
  intros Hx Hk Hp Hb. unfold open, seal.
  pose proof (zlen_key_id k) as Lid. pose proof (zlen_msg_key x k p) as Lmk.
  set (mk := msg_key_of x k p) in *. set (c := ige_encrypt _ _ p).
  assert (E1 : sub (key_id_of k ++ mk ++ c) 0 8 = key_id_of k) by (apply slice_app_l; done).
  assert (E2 : sub (key_id_of k ++ mk ++ c) 8 16 = mk).
  { unfold sub. rewrite (slice_app_r (key_id_of k)) by done. by apply slice_app_l. }
  assert (E3 : drop 24 (key_id_of k ++ mk ++ c) = c).
  { rewrite app_assoc. replace 24%nat with (length (key_id_of k ++ mk)); [apply drop_app_length |].
    rewrite length_app. unfold zlen in *. lia. }
  rewrite E1, E2, E3. unfold c. rewrite ige_inverse; [| | | done | done].
  - rewrite decide_True by done. done.
  - apply kdf_length; apply SHA256_length.
  - apply kdf_length; apply SHA256_length.
Qed.

(** C4: encrypted packets follow MTProto 2.0.  With a 256-byte key and a
    plaintext of whole AES blocks, [tg_encrypt] produces
    [auth_key_id | msg_key | AES-IGE], with [msg_key] taken from the
    SHA-256 of the key part and the plaintext and AES key and vector
    derived with x = 0; a server that checks the key id and the message
    key recovers exactly the plaintext. *)
Theorem tg_encrypt_seals tg b :
  key_ok tg -> buf_wf b -> b_size b mod 16 = 0 -> fits (b_size b * 3 + 256) ->
  exists e, tg_encrypt tg b true = Ok e /\ buf_wf e /\
    contents e = seal 0 (contents (key tg)) (contents b) /\
    open 0 (contents (key tg)) (contents e) = Some (contents b).
Proof.
  intros Hk Hb Hm Hf. destruct (tg_encrypt_ok tg b Hk Hb Hm Hf) as (e & He & We & _ & Ce).
  pose proof (zlen_contents b Hb) as Hl. exists e. split_and!; [done | done | done |].
  destruct Hk as [Hkw Hks]. rewrite Ce. apply open_seal; [lia | | by rewrite Hl | by apply contents_ok].
  rewrite (zlen_contents _ Hkw), Hks. lia.
Qed.

Lemma decrypt_seal tg m p :
  key_ok tg -> buf_wf m -> contents m = seal 8 (contents (key tg)) p ->
  zlen p mod 16 = 0 -> bytes_ok p -> fits (zlen p * 3 + 256) ->
  exists d, tg_decrypt tg m true = Ok d /\ buf_wf d /\ contents d = p.
Proof.
  intros Hk Hw Hc Hp Hb Hf. unfold seal in Hc. set (k := contents (key tg)) in *.
  destruct (tg_decrypt_ok tg m _ _ Hk Hw Hc) as (d & Hd & Wd & Cd);
    rewrite ?ige_encrypt_length; [apply zlen_msg_key | done | done |].
  exists d. split_and!; [done | done |]. rewrite Cd. fold k.
  apply ige_inverse; [| | done | done]; apply kdf_length; apply SHA256_length.
Qed.

(** C5: packets sealed by the server decrypt to their plaintext: with the
    key derivation for x = 8, [tg_decrypt] inverts the server's sealing, and
    a receiver that checks the message key accepts them too. *)
Theorem tg_decrypt_opens tg m p :
  key_ok tg -> buf_wf m -> contents m = seal 8 (contents (key tg)) p ->
  zlen p mod 16 = 0 -> bytes_ok p -> fits (zlen p * 3 + 256) ->
  (exists d, tg_decrypt tg m true = Ok d /\ buf_wf d /\ contents d = p) /\
  open 8 (contents (key tg)) (contents m) = Some p.
Proof.
  intros Hk Hw Hc Hp Hb Hf. split; [by apply decrypt_seal |].
  destruct Hk as [Hkw Hks]. pose proof (zlen_contents _ Hkw) as Lk. rewrite Hks in Lk.
  rewrite Hc. apply open_seal; [lia | lia | done | done].
Qed.

(** C35: [tg_decrypt] never verifies the message key.  Any 16 bytes in its
    place and any ciphertext of whole blocks are accepted: the result is
    whatever AES-IGE yields, also for packets that a check of [msg_key]
    (as the protocol requires of the receiver) rejects.  Packets with a
    foreign key id or a partial block give an empty buffer. *)
Theorem tg_decrypt_unauthenticated tg m mk c :
  key_ok tg -> buf_wf m -> zlen mk = 16 -> fits (zlen c * 3 + 256) ->
  contents m = key_id_of (contents (key tg)) ++ mk ++ c -> zlen c mod 16 = 0 ->
  let k := contents (key tg) in
  let plain := ige_decrypt (kdf_key 8 k mk) (kdf_iv 8 k mk) c in
  (exists d, tg_decrypt tg m true = Ok d /\ contents d = plain) /\
  (mk <> msg_key_of 8 k plain -> open 8 k (contents m) = None).
Proof.
  intros Hk Hw Lmk Hf Hc Hc16. cbv zeta. split.
  - destruct (tg_decrypt_ok tg m mk c Hk Hw Hc Lmk Hc16 Hf) as (d & Hd & _ & Cd). by exists d.
  - intros Hne. rewrite Hc. unfold open. set (k := contents (key tg)) in *.
    pose proof (zlen_key_id k) as Lid.
    assert (E2 : sub (key_id_of k ++ mk ++ c) 8 16 = mk).
    { unfold sub. rewrite (slice_app_r (key_id_of k)) by done. by apply slice_app_l. }
    assert (E3 : drop 24 (key_id_of k ++ mk ++ c) = c).
    { rewrite app_assoc. replace 24%nat with (length (key_id_of k ++ mk)); [apply drop_app_length |].
      rewrite length_app. unfold zlen in *. lia. }
    rewrite E2, E3. rewrite decide_False; [done | tauto].
Qed.
End Crypt.
