(* ===== verification/Header.v ===== *)
(** * Packet headers: what [tg_header] and [tg_deheader] write and read

    Theorems about the definitions of Tg.v and Packet.v: the layout of the
    plain and encrypted headers, the container that piggybacks pending
    acknowledgements, sequence numbers, the round trip through the two
    functions, and the composed stack [tg_prepare_query]. *)
From S2P Require Import Prelude TlBuf Serial Tg Packet.

Section Transport.
Context `{Env} `{OpenSSL}.

Lemma tg_transport_ok b :
  buf_wf b -> fits (b_size b + 4) ->
  tg_transport b = Ok (fresh (le_bytes 4 (b_size b) ++ contents b)).
Proof.
  intros Hw Hf. pose proof Hw as (_ & _ & _ & ? & _). unfold tg_transport.
  step buf_init_ok. step buf_cat_ui32_ok; [change (zlen []) with 0; unfold fits in *; lia |].
  rewrite app_nil_l. apply buf_cat_ok; [done |]. rewrite zlen_le_bytes. unfold fits in *. lia.
Qed.

Lemma tg_detransport_ok a w rest :
  buf_wf a -> contents a = w ++ rest -> zlen w = 4 -> 4 <= zlen rest ->
  le_num w <> 0xfffffe6c -> le_num (take 4 rest) <> 0xfffffe6c ->
  tg_detransport a =
    (if le_num w =? zlen rest then Ok (fresh rest) else buf_add_ui32 (-405)).
Proof.
  intros Hw Hc Hl Hr Hn1 Hn2. platform. destruct (advance_ok a w rest Hw Hc) as (W1 & C1 & S1).
  rewrite Hl in W1, C1, S1. pose proof (wf_fits _ W1) as Hf. rewrite S1 in Hf.
  pose proof (zlen_contents a Hw) as Hs. rewrite Hc, zlen_app in Hs.
  unfold tg_detransport. step buf_init_ok. destruct (Z.eqb_spec (b_size a) 0); [lia |].
  step deserialize_ui32_window; [done | exact Hc | done |].
  rewrite (proj2 (Z.eqb_neq (le_num w) (u32 (-404)))) by done.
  unfold buf_get_ui32.
  erewrite (rd_le_window (advance a 4) 4 (take 4 rest) (drop 4 rest));
    [| done | by rewrite take_drop | rewrite length_take; unfold zlen in Hr; lia].
  rewrite !res_bind_ok. rewrite (proj2 (Z.eqb_neq _ 0xfffffe6c)) by done.
  step buf_cat_ok; [done | change (zlen []) with 0; rewrite S1; done |].
  rewrite app_nil_l, C1, size_fresh. by destruct (le_num w =? zlen rest).
Qed.

(** C9: the intermediate transport is undone by its reader.  For a packet
    of at least four bytes that does not start with the 404 code,
    [tg_detransport] of [tg_transport] returns the packet; when the
    announced length is not the one received it returns the error word
    -405 instead of data. *)
Theorem transport_roundtrip b n a :
  buf_wf b -> 4 <= b_size b -> fits (b_size b + 4) ->
  b_size b <> 0xfffffe6c -> le_num (take 4 (contents b)) <> 0xfffffe6c ->
  (exists t, tg_transport b = Ok t /\ tg_detransport t = Ok (fresh (contents b))) /\
  (buf_wf a -> contents a = le_bytes 4 n ++ contents b -> is_u32 n -> n <> 0xfffffe6c ->
   n <> b_size b -> tg_detransport a = Ok (fresh (le_bytes 4 (-405)))).
Proof.
  intros Hw Hs Hf H404 Hn. platform. pose proof (zlen_contents b Hw) as Hl. unfold fits in *. split.
  - eexists; split; [by apply tg_transport_ok |].
    rewrite (tg_detransport_ok _ (le_bytes 4 (b_size b)) (contents b)).
    + by rewrite le_num_bytes4, u32_id, Hl, Z.eqb_refl by (unfold is_u32; lia).
    + pose proof (contents_ok b Hw). apply fresh_wf; [auto with bytes |].
      rewrite zlen_app, zlen_le_bytes. unfold fits. lia.
    + apply contents_fresh.
    + apply zlen_le_bytes.
    + lia.
    + by rewrite le_num_bytes4, u32_id by (unfold is_u32; lia).
    + done.
  - intros Ha Hc Hu Hn4 Hne. rewrite (tg_detransport_ok a (le_bytes 4 n) (contents b));
      [| done | done | apply zlen_le_bytes | lia | by rewrite le_num_bytes4, u32_id by done | done].
    rewrite le_num_bytes4, u32_id, Hl by done. rewrite (proj2 (Z.eqb_neq n _)) by done.
    apply buf_add_ui32_ok.
Qed.
End Transport.

(** ** Messages *)
Section Messages.
Context `{Env} `{OpenSSL}.

(** The id a clock reading gives. *)
Definition mid (tg : tg_t) (k : nat) : Z := u64 (i64 (Z.land (utime k) (-4) + timediff tg)).

Definition seqno_of (content : bool) (n : Z) : Z := if content then i32 (n * 2 + 1) else i32 (n * 2).

(** The session after a message header was written. *)
Definition bump (content : bool) (tg : tg_t) : tg_t :=
  let tg := set_ticks (S (ticks tg)) tg in
  if content then set_seqn (i32 (seqn tg + 1)) tg else tg.

Lemma next_seqno_ok content tg :
  next_seqno content tg =
  Ok (seqno_of content (seqn tg), if content then set_seqn (i32 (seqn tg + 1)) tg else tg).
Proof. by destruct content. Qed.

Lemma current_time_ok tg :
  tg_get_current_time tg =
  Ok (i64 (Z.land (utime (ticks tg)) (-4) + timediff tg), set_ticks (S (ticks tg)) tg).
Proof. reflexivity. Qed.

Lemma mtp_message_ok p content tg :
  buf_wf p -> fits (b_size p + 16) ->
  tg_mtp_message p content tg =
  Ok (fresh (mtp_message (mid tg (ticks tg)) (seqno_of content (seqn tg)) (contents p)),
      mid tg (ticks tg), bump content tg).
Proof.
  intros Hw Hf. pose proof Hw as (_ & _ & _ & ? & _). pose proof (zlen_contents p Hw) as Hl.
  unfold fits in *. unfold tg_mtp_message. lstep buf_init_ok. tstep current_time_ok.
  fold (mid tg (ticks tg)).
  lstep buf_cat_ui64_ok; [change (zlen []) with 0; unfold fits; lia |]. rewrite app_nil_l.
  tstep next_seqno_ok.
  lstep buf_cat_ui32_ok; [zl; unfold fits; lia |].
  lstep buf_cat_ui32_ok; [rewrite zlen_app, !zlen_le_bytes; unfold fits; lia |].
  lstep buf_cat_ok; [done | rewrite !zlen_app, !zlen_le_bytes; unfold fits; lia |].
  unfold mtp_message. rewrite Hl, <- !app_assoc. by destruct content.
Qed.

Lemma zlen_mtp_message id sq body : zlen (mtp_message id sq body) = 16 + zlen body.
Proof. unfold mtp_message. rewrite !zlen_app, !zlen_le_bytes. lia. Qed.
Lemma mtp_message_bytes id sq body : bytes_ok body -> bytes_ok (mtp_message id sq body).
Proof. intros. unfold mtp_message. auto 8 with bytes. Qed.

(** The messages that drop answers, starting at counter [n], reading [k]. *)
Variable drop_bytes : Z -> list Z.
Hypothesis drop_answer_ok : forall id, tl_rpc_drop_answer id = Ok (fresh (drop_bytes id)).
Hypothesis drop_answer_size : forall id, zlen (drop_bytes id) = 12 /\ bytes_ok (drop_bytes id).

Fixpoint drop_messages (tg : tg_t) (l : list Z) : list Z :=
  match l with
  | [] => []
  | id :: l =>
      mtp_message (mid tg (ticks tg)) (seqno_of true (seqn tg)) (drop_bytes id)
        ++ drop_messages (bump true tg) l
  end.

Lemma zlen_drop_messages l : forall tg, zlen (drop_messages tg l) = 28 * zlen l.
Proof.
  induction l as [|id l IH]; intros tg; [done |]. cbn [drop_messages].
  rewrite zlen_app, zlen_mtp_message, IH, zlen_cons, (proj1 (drop_answer_size id)). lia.
Qed.

Lemma drop_messages_bytes l : forall tg, bytes_ok (drop_messages tg l).
Proof.
  induction l as [|id l IH]; intros tg; [constructor |]. cbn [drop_messages].
  apply Forall_app_2; [apply mtp_message_bytes, drop_answer_size | done].
Qed.

Fixpoint bumps (n : nat) (tg : tg_t) : tg_t :=
  match n with O => tg | S n => bumps n (bump true tg) end.

Lemma drop_loop_ok l : forall tg bs,
  bytes_ok bs -> fits (zlen bs + 28 * zlen l) ->
  drop_loop l (fresh bs) tg = Ok (fresh (bs ++ drop_messages tg l), bumps (length l) tg).
Proof.
  induction l as [|id l IH]; intros tg bs Hb Hf; cbn [drop_loop drop_messages length bumps].
  { by rewrite app_nil_r. }
  destruct (drop_answer_size id) as [Hs Hd]. rewrite zlen_cons in Hf. pose proof (zlen_nonneg l).
  pose proof (zlen_nonneg bs).
  lstep drop_answer_ok. tstep mtp_message_ok.
  { apply fresh_wf; [done | apply fits_small; lia]. }
  { apply fits_small. rewrite size_fresh. lia. }
  rewrite contents_fresh. cbn [fst].
  lstep buf_cat_fresh; [by apply mtp_message_bytes | rewrite zlen_mtp_message; unfold fits in *; lia |].
  rewrite IH.
  - by rewrite <- app_assoc.
  - apply Forall_app_2; [done | by apply mtp_message_bytes].
  - rewrite zlen_app, zlen_mtp_message. unfold fits in *. lia.
Qed.

Lemma bumps_fields n : forall tg,
  key (bumps n tg) = key tg /\ salt (bumps n tg) = salt tg /\ ssid (bumps n tg) = ssid tg /\
  msgids (bumps n tg) = msgids tg /\ todrop (bumps n tg) = todrop tg /\
  timediff (bumps n tg) = timediff tg.
Proof. induction n as [|n IH]; intros tg; [done |]. cbn [bumps]. by destruct (IH (bump true tg)). Qed.

Lemma bumps_seqn n : forall tg,
  - 2 ^ 31 <= seqn tg -> seqn tg + Z.of_nat n < 2 ^ 31 -> seqn (bumps n tg) = seqn tg + Z.of_nat n.
Proof.
  induction n as [|n IH]; intros tg Hl Hh; [cbn; lia |]. cbn [bumps].
  assert (E : seqn (bump true tg) = seqn tg + 1).
  { unfold bump. cbn [seqn set_seqn set_ticks]. unfold i32. rewrite Z.mod_small; lia. }
  rewrite IH; rewrite E; lia.
Qed.

Lemma to_drop_ok tg :
  fits (28 * zlen (todrop tg)) ->
  exists tg', tg_to_drop (fresh []) tg =
    Ok (fresh (drop_messages tg (todrop tg)), zlen (todrop tg), tg') /\
    tg' = set_todrop [] (bumps (length (todrop tg)) tg).
Proof.
  intros Hf. unfold tg_to_drop. destruct (todrop tg) as [|id l] eqn:E.
  - exists tg. split; [| by destruct tg; cbn in *; subst].
    pstep. rewrite E. done.
  - eexists. split; [| reflexivity]. pstep. rewrite E.
    destruct (Z.ltb_spec (zlen (id :: l)) 1) as [Hlt | _];
      [rewrite zlen_cons in Hlt; pose proof (zlen_nonneg l); lia |].
    tstep drop_loop_ok; [apply Forall_nil_2 | done |]. rewrite app_nil_l. pstep. done.
Qed.

(** ** Headers *)
Definition session_ok (tg : tg_t) : Prop :=
  buf_wf (salt tg) /\ b_size (salt tg) = 8 /\ buf_wf (ssid tg) /\ b_size (ssid tg) = 8.

Lemma pad16_bounds n : 16 <= pad16 n <= 31 /\ (n + pad16 n) mod 16 = 0.
Proof. unfold pad16. modlia. Qed.

(* The end of the encrypted branch, from the salt on. *)
Definition enc_tail (s buf : buf_t) (content : bool) (p : Z) : TG (buf_t * option Z) :=
  sl ← gets salt; s ← lift (buf_cat s sl);
  sd ← gets ssid; s ← lift (buf_cat s sd);
  t ← tg_get_current_time;
  let _msgid := u64 t in
  s ← lift (buf_cat_ui64 s _msgid);
  let p := if p =? 0 then _msgid else p in
  n ← next_seqno content;
  s ← lift (buf_cat_ui32 s n);
  s ← lift (buf_cat_ui32 s (b_size buf));
  s ← lift (buf_cat s buf);
  k ← gets ticks;
  let pad := 16 + (16 - b_size buf mod 16) mod 16 in
  s ← lift (buf_cat_rand (wall k) s pad);
  mret (s, Some p).

Lemma buf_cat_rand_ok now bs n :
  0 <= n <= 256 -> fits (zlen bs + n) ->
  buf_cat_rand now (fresh bs) n = Ok (fresh (bs ++ rand_bytes now (Z.to_nat n))).
Proof.
  intros Hn Hf. platform. unfold buf_cat_rand. step buf_rand_ok; [lia |].
  apply buf_cat_fresh; [apply rand_bytes_ok |]. rewrite zlen_rand_bytes. unfold fits. lia.
Qed.

Lemma enc_tail_ok buf content p tg :
  session_ok tg -> buf_wf buf -> fits (b_size buf + 64) ->
  exists padding, zlen padding = pad16 (b_size buf) /\ bytes_ok padding /\
  enc_tail (fresh []) buf content p tg =
  Ok (fresh (enc_packet (contents (salt tg)) (contents (ssid tg)) (mid tg (ticks tg))
               (seqno_of content (seqn tg)) (contents buf) padding),
      Some (if p =? 0 then mid tg (ticks tg) else p), bump content tg).
Proof.
  intros (Ws & Ss & Wd & Sd) Hw Hf. pose proof Hw as (_ & _ & _ & ? & _).
  pose proof (zlen_contents buf Hw) as Hl. pose proof (zlen_contents _ Ws) as Ls.
  pose proof (zlen_contents _ Wd) as Ld. rewrite Ss in Ls. rewrite Sd in Ld.
  destruct (pad16_bounds (b_size buf)) as [Hpad _]. unfold fits in Hf.
  exists (rand_bytes (wall (S (ticks tg))) (Z.to_nat (pad16 (b_size buf)))).
  split; [rewrite zlen_rand_bytes; lia |]. split; [apply rand_bytes_ok |].
  unfold enc_tail. pstep.
  lstep buf_cat_ok; [done | rewrite Ss; apply fits_small; done |]. rewrite app_nil_l.
  pstep. lstep buf_cat_ok; [done | apply fits_small; lia |].
  tstep current_time_ok. fold (mid tg (ticks tg)). cbv zeta.
  lstep buf_cat_ui64_ok; [apply fits_small; rewrite zlen_app; lia |].
  tstep next_seqno_ok.
  lstep buf_cat_ui32_ok; [apply fits_small; rewrite !zlen_app, zlen_le_bytes; lia |].
  lstep buf_cat_ui32_ok; [apply fits_small; rewrite !zlen_app, !zlen_le_bytes; lia |].
  lstep buf_cat_ok; [done | unfold fits; rewrite !zlen_app, !zlen_le_bytes; lia |].
  pstep. fold (pad16 (b_size buf)).
  lstep buf_cat_rand_ok; [lia | unfold fits; rewrite !zlen_app, !zlen_le_bytes; lia |].
  unfold enc_packet. rewrite Hl, <- !app_assoc. by destruct content.
Qed.

Lemma header_plain_ok q content msgid tg :
  buf_wf q -> fits (b_size q + 20) ->
  tg_header q false content msgid tg =
  Ok (fresh (plain_packet (mid tg (ticks tg)) (contents q)), msgid, set_ticks (S (ticks tg)) tg).
Proof.
  intros Hw Hf. pose proof Hw as (_ & _ & _ & ? & _). pose proof (zlen_contents q Hw) as Hl.
  unfold fits in Hf. unfold tg_header. lstep buf_init_ok.
  lstep buf_cat_ui64_ok; [apply fits_small; done |]. rewrite app_nil_l.
  tstep current_time_ok. fold (mid tg (ticks tg)).
  lstep buf_cat_ui64_ok; [apply fits_small; done |].
  lstep buf_cat_ui32_ok; [apply fits_small; done |].
  lstep buf_cat_ok; [done | unfold fits; rewrite !zlen_app, !zlen_le_bytes; lia |].
  unfold plain_packet. by rewrite Hl, <- !app_assoc.
Qed.

Lemma ack_none tg : msgids tg = [] -> tg_ack tg = Ok (fresh [], tg).
Proof. intros E. unfold tg_ack. lstep buf_init_ok. pstep. by rewrite E. Qed.

Lemma ack_some ack tg :
  msgids tg <> [] -> tl_msgs_ack (msgids tg) = Ok ack -> tg_ack tg = Ok (ack, set_msgids [] tg).
Proof.
  intros Hne Ha. unfold tg_ack. lstep buf_init_ok. pstep.
  destruct (Z.ltb_spec (zlen (msgids tg)) 1).
  - destruct (msgids tg) as [|x l]; [done |]. rewrite zlen_cons in *. pose proof (zlen_nonneg l). lia.
  - lstep Ha. pstep. done.
Qed.

Lemma header_enc_ok q content v tg :
  session_ok tg -> buf_wf q -> fits (b_size q + 64) -> msgids tg = [] ->
  exists padding, zlen padding = pad16 (b_size q) /\ bytes_ok padding /\
  tg_header q true content (Some v) tg =
  Ok (fresh (enc_packet (contents (salt tg)) (contents (ssid tg)) (mid tg (ticks tg))
               (seqno_of content (seqn tg)) (contents q) padding),
      Some (mid tg (ticks tg)), bump content tg).
Proof.
  intros Hses Hw Hf Hm. pose proof (zlen_contents q Hw) as Hl. pose proof Hw as (_ & _ & _ & ? & _).
  assert (Wq : buf_wf (fresh (contents q)))
    by (apply fresh_wf; [by apply contents_ok | rewrite Hl; unfold fits in *; lia]).
  destruct (enc_tail_ok (fresh (contents q)) content 0 tg Hses Wq) as (padding & Lp & Bp & E);
    [by rewrite size_fresh, Hl |].
  rewrite size_fresh, Hl, contents_fresh in *. exists padding. split; [done |]. split; [done |].
  cbn [Z.eqb] in E. rewrite <- E.
  unfold tg_header. lstep buf_init_ok. eapply st_bind_step; [reflexivity | cbv beta iota].
  lstep buf_init_ok. tstep ack_none; [done |].
  change (0 <? b_size (fresh [])) with false. cbv iota.
  eapply st_bind_step.
  - lstep buf_cat_ok; [done | change (zlen []) with 0; unfold fits in *; lia |]. reflexivity.
  - cbv beta iota. rewrite app_nil_l. destruct (Z.eqb_spec v 0) as [-> |]; reflexivity.
Qed.

(** With acknowledgements pending: a container of the query, the
    acknowledgement and the messages that drop answers. *)
Definition after_acks (tg : tg_t) : tg_t := bump false (bump true (set_msgids [] tg)).

Definition ack_container (tg : tg_t) (query ack : list Z) : list Z :=
  le_bytes 4 id_msg_container ++ le_bytes 4 (2 + zlen (todrop tg))
  ++ mtp_message (mid tg (ticks tg)) (seqno_of true (seqn tg)) query
  ++ mtp_message (mid tg (S (ticks tg))) (seqno_of false (i32 (seqn tg + 1))) ack
  ++ drop_messages (after_acks tg) (todrop tg).

Definition after_container (tg : tg_t) : tg_t :=
  set_todrop [] (bumps (length (todrop tg)) (after_acks tg)).

Lemma zlen_ack_container tg q a :
  zlen (ack_container tg q a) = 40 + zlen q + zlen a + 28 * zlen (todrop tg).
Proof.
  unfold ack_container. rewrite !zlen_app, !zlen_le_bytes, !zlen_mtp_message, zlen_drop_messages. lia.
Qed.

Lemma ack_container_bytes tg q a : bytes_ok q -> bytes_ok a -> bytes_ok (ack_container tg q a).
Proof.
  intros. unfold ack_container.
  repeat (apply Forall_app_2; [auto using mtp_message_bytes with bytes |]). apply drop_messages_bytes.
Qed.

Lemma after_container_session tg :
  salt (after_container tg) = salt tg /\ ssid (after_container tg) = ssid tg /\
  key (after_container tg) = key tg /\ msgids (after_container tg) = [] /\
  todrop (after_container tg) = [] /\ timediff (after_container tg) = timediff tg.
Proof.
  unfold after_container.
  destruct (bumps_fields (length (todrop tg)) (after_acks tg)) as (E1 & E2 & E3 & E4 & E5 & E6).
  cbn [salt ssid key msgids todrop timediff set_todrop]. by rewrite E1, E2, E3, E4, E6.
Qed.

Lemma header_acks_ok q content v tg ack :
  session_ok tg -> buf_wf q -> msgids tg <> [] ->
  tl_msgs_ack (msgids tg) = Ok ack -> buf_wf ack -> 0 < b_size ack ->
  fits (b_size q + b_size ack + 28 * zlen (todrop tg) + 104) ->
  exists padding,
  let body := ack_container tg (contents q) (contents ack) in
  zlen padding = pad16 (zlen body) /\ bytes_ok padding /\
  tg_header q true content (Some v) tg =
  Ok (fresh (enc_packet (contents (salt tg)) (contents (ssid tg))
               (mid tg (ticks (after_container tg)))
               (seqno_of false (seqn (after_container tg))) body padding),
      Some (if mid tg (ticks tg) =? 0 then mid tg (ticks (after_container tg))
            else mid tg (ticks tg)),
      bump false (after_container tg)).
Proof.
  intros Hses Hw Hm Hack Wa Sa Hf. pose proof Hw as (_ & _ & _ & ? & _).
  pose proof (zlen_contents q Hw) as Hl. pose proof (zlen_contents ack Wa) as La.
  pose proof (zlen_nonneg (todrop tg)) as Hd. unfold fits in Hf.
  set (body := ack_container tg (contents q) (contents ack)).
  assert (Lb : zlen body = 40 + b_size q + b_size ack + 28 * zlen (todrop tg))
    by (unfold body; rewrite zlen_ack_container; lia).
  assert (Bb : bytes_ok body) by (apply ack_container_bytes; by apply contents_ok).
  assert (Wb : buf_wf (fresh body)) by (apply fresh_wf; [done | unfold fits; lia]).
  destruct (after_container_session tg) as (Es & Ed & _ & _ & _ & Et).
  assert (Hses' : session_ok (after_container tg)) by (unfold session_ok; by rewrite Es, Ed).
  destruct (enc_tail_ok (fresh body) false (mid tg (ticks tg)) (after_container tg) Hses' Wb)
    as (padding & Lp & Bp & E); [rewrite size_fresh; unfold fits; lia |].
  assert (Em : forall k, mid (after_container tg) k = mid tg k) by (intros; unfold mid; by rewrite Et).
  rewrite size_fresh, contents_fresh, Es, Ed, Em in *. exists padding. cbv zeta.
  split; [done |]. split; [done |]. rewrite <- E.
  unfold tg_header. lstep buf_init_ok. eapply st_bind_step; [reflexivity | cbv beta iota].
  lstep buf_init_ok. tstep ack_some; [done | exact Hack |].
  replace (0 <? b_size ack) with true by lia. cbv iota.
  eapply st_bind_step.
  - tstep mtp_message_ok; [done | unfold fits; lia |].
    tstep mtp_message_ok; [done | unfold fits; lia |].
    lstep buf_add_ui32_ok. lstep buf_init_ok.
    destruct (to_drop_ok (after_acks tg)) as (tg3 & Ed3 & Eq3); [unfold fits; cbn; lia |].
    eapply st_bind_step; [exact Ed3 | cbv beta iota]. cbn [fst snd].
    lstep buf_cat_ui32_ok; [apply fits_small; done |].
    lstep buf_cat_fresh; [apply mtp_message_bytes; by apply contents_ok
      | rewrite !zlen_app, !zlen_le_bytes, zlen_mtp_message; unfold fits; lia |].
    lstep buf_cat_fresh; [apply mtp_message_bytes; by apply contents_ok
      | rewrite !zlen_app, !zlen_le_bytes, !zlen_mtp_message; unfold fits; lia |].
    lstep buf_cat_fresh; [apply drop_messages_bytes
      | rewrite !zlen_app, !zlen_le_bytes, !zlen_mtp_message, zlen_drop_messages;
        unfold fits; cbn [todrop after_acks bump set_ticks set_seqn set_msgids]; lia |].
    rewrite Eq3. reflexivity.
  - cbv beta iota. unfold body, ack_container. rewrite <- !app_assoc. reflexivity.
Qed.
End Messages.

(** ** Reading packets *)
Section Reading.
Context `{Env} `{OpenSSL}.

Lemma deheader_enc_ok tg b sl sd id sq len rest body tail :
  buf_wf b -> contents b = sl ++ sd ++ id ++ sq ++ len ++ rest ->
  zlen sl = 8 -> zlen sd = 8 -> zlen id = 8 -> zlen sq = 4 -> zlen len = 4 ->
  buf_wf (ssid tg) -> b_size (ssid tg) = 8 ->
  rest = body ++ tail -> le_num len = zlen body ->
  tg_deheader b true tg =
  Ok (fresh body, set_msgids (msgids tg ++ [le_num id]) (set_salt (fresh (le_bytes 8 (le_num sl))) tg)).
Proof.
  intros Hw Hc L1 L2 L3 L4 L5 Wd Sd Er El. platform.
  pose proof (zlen_contents b Hw) as Hs.
  destruct (advance_ok b _ _ Hw Hc) as (W1 & C1 & _). rewrite L1 in W1, C1.
  destruct (advance_ok _ _ _ W1 C1) as (W2 & C2 & _). rewrite L2 in W2, C2.
  destruct (advance_ok _ _ _ W2 C2) as (W3 & C3 & _). rewrite L3 in W3, C3.
  destruct (advance_ok _ _ _ W3 C3) as (W4 & C4 & _). rewrite L4 in W4, C4.
  destruct (advance_ok _ _ _ W4 C4) as (W5 & C5 & S5). rewrite L5 in W5, C5, S5.
  pose proof (zlen_nonneg body). pose proof (zlen_nonneg tail).
  unfold tg_deheader. destruct (Z.eqb_spec (b_size b) 0) as [Hz | _].
  { rewrite Hc, !zlen_app in Hs. pose proof (zlen_nonneg rest). lia. }
  lstep buf_init_ok.
  lstep deserialize_ui64_window; [exact Hw | exact Hc | done |].
  lstep buf_add_ui64_ok. pstep.
  lstep deserialize_ui64_window; [exact W1 | exact C1 | done |]. pstep.
  cbn [ssid set_salt]. 
  lstep get_ui64_window; [exact Wd | symmetry; apply app_nil_r | by rewrite zlen_contents |].
  lstep deserialize_ui64_window; [exact W2 | exact C2 | done |].
  eapply st_bind_step; [reflexivity | cbv beta iota].
  lstep deserialize_ui32_window; [exact W3 | exact C3 | done |].
  lstep deserialize_ui32_window; [exact W4 | exact C4 | done |].
  apply lift_eq. rewrite El.
  set (b' := advance _ 4) in W5, C5, S5 |- *. clearbody b'.
  assert (Wb : buf_wf (set_size b' (zlen body)) /\ contents (set_size b' (zlen body)) = body).
  { rewrite Er, zlen_app in S5. destruct W5 as (A1 & A2 & A3 & A4 & A5 & A6).
    split; [by repeat split; cbn; try done; lia |].
    unfold contents in C5 |- *. cbn [set_size b_mem b_off b_size] in C5 |- *. rewrite S5, Er in C5.
    unfold slice in *. assert (E : take (Z.to_nat (zlen body)) (take (Z.to_nat (zlen body + zlen tail))
      (drop (Z.to_nat (b_off b')) (b_mem b'))) = body).
    { rewrite C5. unfold zlen. by rewrite Nat2Z.id, take_app_length. }
    rewrite take_take in E. rewrite <- E at 2. f_equal. lia. }
  destruct Wb as [Wb Cb]. rewrite buf_cat_ok; [by rewrite app_nil_l, Cb | done |].
  cbn [b_size set_size]. change (zlen []) with 0. pose proof (wf_fits _ Wb) as F. cbn in F. done.
Qed.

(** C6: an encrypted header is read back by its counterpart.  With no
    acknowledgement pending, [tg_header] writes
    [salt | session id | message id | seqno | length | query | padding] of
    12 to 1024 bytes of padding, whole AES blocks in all, with an odd
    sequence number and an increment of the counter exactly for content
    messages; [tg_deheader] of that packet returns the query, keeps the
    salt and queues the message id for acknowledgement. *)
Theorem header_deheader q content v tg :
  session_ok tg -> buf_wf q -> fits (b_size q + 64) -> msgids tg = [] ->
  exists s tg' id,
    tg_header q true content (Some v) tg = Ok (s, Some id, tg') /\
    id = mid tg (ticks tg) /\ b_size s mod 16 = 0 /\
    12 <= b_size s - 32 - b_size q <= 1024 /\
    seqn tg' = (if content then i32 (seqn tg + 1) else seqn tg) /\
    (exists padding, contents s = enc_packet (contents (salt tg)) (contents (ssid tg)) id
       (if content then i32 (seqn tg * 2 + 1) else i32 (seqn tg * 2)) (contents q) padding) /\
    exists tg'', tg_deheader s true tg' = Ok (fresh (contents q), tg'') /\
      contents (salt tg'') = contents (salt tg) /\ msgids tg'' = [id].
Proof.
  intros Hses Hw Hf Hm. destruct (header_enc_ok q content v tg Hses Hw Hf Hm) as (padding & Lp & Bp & E).
  destruct Hses as (Ws & Ss & Wd & Sd). pose proof (zlen_contents q Hw) as Hl.
  pose proof (zlen_contents _ Ws) as Ls. pose proof (zlen_contents _ Wd) as Ld.
  pose proof (contents_ok q Hw) as Bq. pose proof Hw as (_ & _ & _ & ? & _).
  destruct (pad16_bounds (b_size q)) as [Hpad Hpm]. unfold fits in Hf.
  set (id := mid tg (ticks tg)) in *. set (pkt := enc_packet _ _ _ _ _ _) in E.
  assert (Lk : zlen pkt = 32 + b_size q + pad16 (b_size q))
    by (unfold pkt, enc_packet; rewrite !zlen_app, !zlen_le_bytes; lia).
  assert (Bk : bytes_ok pkt).
  { pose proof (contents_ok _ Ws). pose proof (contents_ok _ Wd).
    unfold pkt, enc_packet. repeat (apply Forall_app_2; [auto with bytes |]). done. }
  assert (Wk : buf_wf (fresh pkt)) by (apply fresh_wf; [done | unfold fits; lia]).
  exists (fresh pkt), (bump content tg), id. rewrite size_fresh, contents_fresh, Lk.
  split; [done |]. split; [done |]. split; [modlia |]. split; [lia |].
  split; [by destruct content |]. split; [by exists padding |].
  eexists. split; [eapply deheader_enc_ok |].
  - exact Wk.
  - rewrite contents_fresh. reflexivity.
  - by rewrite Ls.
  - by rewrite Ld.
  - apply zlen_le_bytes.
  - apply zlen_le_bytes.
  - apply zlen_le_bytes.
  - by destruct content.
  - by destruct content.
  - reflexivity.
  - rewrite le_num_bytes4, u32_id; [done |]. platform. unfold is_u32. lia.
  - cbn [salt set_salt set_msgids msgids]. rewrite contents_fresh. split.
    + pose proof (le_bytes_num (contents (salt tg)) (contents_ok _ Ws)) as E8.
      by replace (length (contents (salt tg))) with 8%nat in E8 by (unfold zlen in Ls; lia).
    + assert (Hmb : msgids (bump content tg) = []) by (by destruct content).
      rewrite le_num_bytes8, Hmb. unfold id, mid. by rewrite u64_id by apply u64_range.
Qed.

(** C7: pending acknowledgements travel with the next query.  When message
    ids are waiting, the packet body is a container of 2 + d messages: the
    query with an odd sequence number, the [msgs_ack] object with an even
    one, and one message per answer to drop; the id reported for the query
    is that of its message inside the container (unless that is 0), and
    both waiting lists are empty afterwards. *)
Theorem header_piggybacks_acks drop_bytes q content v tg ack :
  (forall id, tl_rpc_drop_answer id = Ok (fresh (drop_bytes id))) ->
  (forall id, zlen (drop_bytes id) = 12 /\ bytes_ok (drop_bytes id)) ->
  session_ok tg -> buf_wf q -> msgids tg <> [] ->
  tl_msgs_ack (msgids tg) = Ok ack -> buf_wf ack -> 0 < b_size ack ->
  fits (b_size q + b_size ack + 28 * zlen (todrop tg) + 104) ->
  mid tg (ticks tg) <> 0 ->
  exists s tg' outer_id outer_seq padding,
    tg_header q true content (Some v) tg = Ok (s, Some (mid tg (ticks tg)), tg') /\
    contents s = enc_packet (contents (salt tg)) (contents (ssid tg)) outer_id outer_seq
      (le_bytes 4 id_msg_container ++ le_bytes 4 (2 + zlen (todrop tg))
       ++ mtp_message (mid tg (ticks tg)) (i32 (seqn tg * 2 + 1)) (contents q)
       ++ mtp_message (mid tg (S (ticks tg))) (i32 (i32 (seqn tg + 1) * 2)) (contents ack)
       ++ drop_messages drop_bytes (after_acks tg) (todrop tg)) padding /\
    b_size s mod 16 = 0 /\ msgids tg' = [] /\ todrop tg' = [].
Proof.
  intros Hd1 Hd2 Hses Hw Hm Hack Wa Sa Hf Hid.
  destruct (header_acks_ok drop_bytes Hd1 Hd2 q content v tg ack Hses Hw Hm Hack Wa Sa Hf)
    as (padding & Lp & Bp & E). cbv zeta in *.
  destruct Hses as (Ws & Ss & Wd & Sd).
  pose proof (zlen_contents _ Ws) as Ls. pose proof (zlen_contents _ Wd) as Ld.
  rewrite (proj2 (Z.eqb_neq _ 0) Hid) in E.
  eexists _, _, _, _, padding. split; [exact E |]. rewrite contents_fresh, size_fresh.
  split; [reflexivity |].
  destruct (after_container_session drop_bytes Hd2 tg) as (_ & _ & _ & E4 & E5 & _)
    || destruct (after_container_session tg) as (_ & _ & _ & E4 & E5 & _).
  split; [| done].
  unfold enc_packet. rewrite !(zlen_app (contents _)), !(zlen_app (le_bytes _ _)).
  rewrite zlen_app, !zlen_le_bytes, Lp, Ls, Ld, Ss, Sd.
  destruct (pad16_bounds (zlen (ack_container drop_bytes tg (contents q) (contents ack)))) as [_ Hp].
  modlia.
Qed.

(** the declared length is trusted.  [tg_deheader] sets the size of the
    buffer to the length field of the packet; when it announces more bytes
    than the block holds behind the header, the copy reads out of bounds. *)
Theorem deheader_overread tg b sl sd id sq len rest :
  buf_wf b -> contents b = sl ++ sd ++ id ++ sq ++ len ++ rest ->
  zlen sl = 8 -> zlen sd = 8 -> zlen id = 8 -> zlen sq = 4 -> zlen len = 4 ->
  buf_wf (ssid tg) -> b_size (ssid tg) = 8 ->
  zlen (b_mem b) - b_off b - 32 < le_num len -> fits (le_num len) ->
  tg_deheader b true tg = Err OutOfBounds.
Proof.
  intros Hw Hc L1 L2 L3 L4 L5 Wd Sd Hover Hf. platform.
  pose proof (zlen_contents b Hw) as Hs. pose proof Hw as (_ & _ & Ho & _ & Hoa & _).
  destruct (advance_ok b _ _ Hw Hc) as (W1 & C1 & _). rewrite L1 in W1, C1.
  destruct (advance_ok _ _ _ W1 C1) as (W2 & C2 & _). rewrite L2 in W2, C2.
  destruct (advance_ok _ _ _ W2 C2) as (W3 & C3 & _). rewrite L3 in W3, C3.
  destruct (advance_ok _ _ _ W3 C3) as (W4 & C4 & _). rewrite L4 in W4, C4.
  assert (Hz : 32 <= b_size b)
    by (rewrite <- Hs, Hc, !zlen_app; pose proof (zlen_nonneg rest); lia).
  pose proof Hw as (Hlm & _ & _ & _ & _ & _).
  unfold tg_deheader. destruct (Z.eqb_spec (b_size b) 0) as [? | _]; [lia |].
  lstep buf_init_ok.
  lstep deserialize_ui64_window; [exact Hw | exact Hc | done |].
  lstep buf_add_ui64_ok. pstep.
  lstep deserialize_ui64_window; [exact W1 | exact C1 | done |]. pstep.
  cbn [ssid set_salt].
  lstep get_ui64_window; [exact Wd | symmetry; apply app_nil_r | by rewrite zlen_contents |].
  lstep deserialize_ui64_window; [exact W2 | exact C2 | done |].
  eapply st_bind_step; [reflexivity | cbv beta iota].
  lstep deserialize_ui32_window; [exact W3 | exact C3 | done |].
  lstep deserialize_ui32_window; [exact W4 | exact C4 | done |].
  apply lift_err. unfold buf_cat. rewrite size_fresh. change (zlen []) with 0.
  cbn [b_size set_size]. unfold fits in Hf. rewrite Z.add_0_l, u32_id by (unfold is_u32; lia).
  change (b_asize (fresh [])) with (Z.max BUFSIZ (zlen (@nil Z))). rewrite fresh_nil.
  rewrite Z.max_l by (change (zlen (@nil Z)) with 0; lia).
  rewrite grow_mk, res_bind_ok by (unfold fits; change (zlen (@nil Z)) with 0; lia).
  rewrite copy_loop_src_oob; [done | lia | lia |].
  assert (Hd : zlen (data_at (set_size (advance (advance (advance (advance (advance b 8) 8) 8) 4) 4)
                (le_num len)) 0) = zlen (b_mem b) - b_off b - 32).
  { rewrite zlen_data_at; unfold advance, set_size; cbn [b_mem b_off]; lia. }
  rewrite Hd. lia.
Qed.

(** The packet of a query, and the session after it. *)
Lemma prepare_query_ok q v tg :
  session_ok tg -> key_ok tg -> buf_wf q -> msgids tg = [] -> fits (b_size q * 3 + 512) ->
  exists t sealed padding,
    tg_prepare_query q true (Some v) tg = Ok (t, Some (mid tg (ticks tg)), bump true tg) /\
    t = fresh (le_bytes 4 (zlen sealed) ++ sealed) /\ bytes_ok sealed /\ fits (4 + zlen sealed) /\
    open 0 (contents (key tg)) sealed =
      Some (enc_packet (contents (salt tg)) (contents (ssid tg)) (mid tg (ticks tg))
              (i32 (seqn tg * 2 + 1)) (contents q) padding).
Proof.
  intros Hses Hk Hw Hm Hf. platform. pose proof Hw as (_ & _ & _ & ? & _). unfold fits in Hf.
  destruct (header_enc_ok q true v tg Hses Hw) as (padding & Lp & Bp & E); [unfold fits; lia | done |].
  destruct Hses as (Ws & Ss & Wd & Sd). pose proof (zlen_contents q Hw) as Hl.
  pose proof (zlen_contents _ Ws) as Ls. pose proof (zlen_contents _ Wd) as Ld.
  pose proof (contents_ok q Hw) as Bq. pose proof (contents_ok _ Ws). pose proof (contents_ok _ Wd).
  destruct (pad16_bounds (b_size q)) as [Hpad Hpm].
  set (pkt := enc_packet _ _ _ _ _ _) in E.
  assert (Lk : zlen pkt = 32 + b_size q + pad16 (b_size q))
    by (unfold pkt, enc_packet; rewrite !zlen_app, !zlen_le_bytes; lia).
  assert (Bk : bytes_ok pkt).
  { unfold pkt, enc_packet. repeat (apply Forall_app_2; [auto with bytes |]). done. }
  assert (Wk : buf_wf (fresh pkt)) by (apply fresh_wf; [done | unfold fits; lia]).
  assert (Hk' : key_ok (bump true tg)) by done.
  destruct (tg_encrypt_ok (bump true tg) (fresh pkt) Hk' Wk) as (e & He & We & _ & Ce).
  { rewrite size_fresh, Lk. modlia. }
  { rewrite size_fresh, Lk. unfold fits. lia. }
  rewrite contents_fresh in Ce. change (key (bump true tg)) with (key tg) in Ce.
  pose proof (zlen_contents e We) as Le. assert (Se : b_size e = 24 + zlen pkt).
  { rewrite <- Le, Ce. unfold seal.
    rewrite !zlen_app, zlen_key_id, zlen_msg_key, ige_encrypt_length. lia. }
  exists (fresh (le_bytes 4 (b_size e) ++ contents e)), (contents e), padding. split_and!.
  - unfold tg_prepare_query. tstep E. cbn [fst snd]. pstep. lstep He.
    lstep tg_transport_ok; [done | unfold fits; lia |]. reflexivity.
  - by rewrite Le.
  - by apply contents_ok.
  - rewrite Le, Se, Lk. unfold fits. lia.
  - rewrite Ce. destruct Hk as [Hkw Hks]. pose proof (zlen_contents _ Hkw) as Lkey. rewrite Hks in Lkey.
    rewrite open_seal; [reflexivity | lia | lia
                       | rewrite Lk; modlia | done].
Qed.

(** C8: what leaves the socket is what the server needs.  [tg_prepare_query]
    composes header, encryption and transport: the packet is its length
    word followed by a sealed MTProto 2.0 packet, which a server holding
    the key opens to the header with this session's salt, session id and
    the reported message id, carrying the query. *)
Theorem prepare_query_delivers q v tg :
  session_ok tg -> key_ok tg -> buf_wf q -> msgids tg = [] -> fits (b_size q * 3 + 512) ->
  exists t id tg' sealed padding,
    tg_prepare_query q true (Some v) tg = Ok (t, Some id, tg') /\
    contents t = le_bytes 4 (zlen sealed) ++ sealed /\
    open 0 (contents (key tg)) sealed =
      Some (enc_packet (contents (salt tg)) (contents (ssid tg)) id (i32 (seqn tg * 2 + 1))
              (contents q) padding) /\
    seqn tg' = i32 (seqn tg + 1).
Proof.
  intros Hses Hk Hw Hm Hf.
  destruct (prepare_query_ok q v tg Hses Hk Hw Hm Hf) as (t & sealed & padding & E & -> & _ & _ & Ho).
  do 5 eexists. split_and!; [exact E | by rewrite contents_fresh | exact Ho | reflexivity].
Qed.

(** a NULL message-id pointer is dereferenced.  The encrypted branch of
    [tg_header] evaluates [*msgid] before any check; [tg_prepare_query]
    with NULL, as [tg_send_ack] calls it, faults. *)
Theorem prepare_query_null_msgid q tg :
  tg_prepare_query q true None tg = Err NullDeref.
Proof.
  unfold tg_prepare_query. apply bind_err. unfold tg_header.
  rewrite (bind_lift _ _ _ _ buf_init_ok). by apply bind_err.
Qed.
End Reading.
