(* ===== verification/Str.v ===== *)
(** * The dynamic string: libtg/tl/str.h

    [struct str] is a NUL-terminated heap string with its length and
    allocated size.  The block is a list of bytes; the theorem states that
    [str_append] keeps the string well-formed and appends, and that the
    growth loop ends. *)
From S2P Require Import Prelude TlBuf.

Record str := Str {
  s_str : list Z;    (* the block *)
  s_len : Z;
  s_size : Z
}.

Section Str.
Context `{Platform}.

(** The block [malloc] returns is uninitialised: [junk]. *)
Definition str_init (junk : list Z) : res str :=
  m ← wr junk 0 0; Ok (Str m 0 BUFSIZ).

(** [(0, s)], or [(-1, s)] when [realloc] fails. *)
Fixpoint _str_realloc (fuel : nat) (s : str) (new_size : Z) : res (Z * str) :=
  if s_size s <? new_size then
    match fuel with
    | O => Err NoFuel
    | S fuel =>
        if s_size s + BUFSIZ <=? alloc_limit then
          _str_realloc fuel
            (Str (realloc_block (s_str s) (s_size s + BUFSIZ)) (s_len s) (s_size s + BUFSIZ)) new_size
        else Ok (-1, s)
    end
  else Ok (0, s).

Definition str_append (s : str) (data : option (list Z)) (len : Z) : res str :=
  match data with
  | None => Ok s
  | Some data =>
      if len <? 1 then Ok s
      else
        let new_size := s_len s + len + 1 in
        '(e, s) ← _str_realloc (Z.to_nat new_size) s new_size;
        if negb (e =? 0) then Ok s
        else
          m ← copy_loop (Z.to_nat len) 0 (s_str s) (fun i => s_len s + i) data;
          m ← wr m (s_len s + len) 0;
          Ok (Str m (s_len s + len) (s_size s))
  end.

(** The C string held: the bytes before the terminator. *)
Definition str_value (s : str) : list Z := take (Z.to_nat (s_len s)) (s_str s).

Definition str_wf (s : str) : Prop :=
  zlen (s_str s) = s_size s /\ 0 <= s_len s /\ s_len s + 1 <= s_size s /\
  s_size s <= alloc_limit /\ s_str s !! Z.to_nat (s_len s) = Some 0.

Lemma realloc_prefix m n k :
  (n <= length m)%nat -> Z.of_nat n <= k -> take n (realloc_block m k) = take n m.
Proof.
  intros Hn Hk. unfold realloc_block. rewrite take_app_le by (rewrite length_take; lia).
  rewrite take_take. f_equal. lia.
Qed.

(** The growth loop ends within [new_size] turns and keeps what the string
    holds; it gives up only when the allocator does. *)
Lemma str_realloc_ok fuel : forall s new_size,
  zlen (s_str s) = s_size s -> 0 <= s_size s -> s_size s <= alloc_limit -> 0 <= s_len s <= s_size s ->
  (new_size - s_size s <= Z.of_nat fuel) ->
  new_size + BUFSIZ <= alloc_limit ->
  exists s', _str_realloc fuel s new_size = Ok (0, s') /\ s_len s' = s_len s /\
    zlen (s_str s') = s_size s' /\ new_size <= s_size s' /\ s_size s <= s_size s' <= alloc_limit /\
    str_value s' = str_value s.
Proof.
  induction fuel as [|fuel IH]; intros s new_size Hl H0 Ha Hlen Hf Hn; platform; cbn [_str_realloc].
  - destruct (Z.ltb_spec (s_size s) new_size); [lia |]. exists s. by split_and!.
  - destruct (Z.ltb_spec (s_size s) new_size); [| exists s; by split_and!].
    destruct (Z.leb_spec (s_size s + BUFSIZ) alloc_limit); [| lia].
    set (s1 := Str _ _ _).
    destruct (IH s1 new_size) as (s' & E & Hsl & Hss & Hsn & Hsa & Hsv); cbn [s_size s_len s_str s1]; try lia.
    + unfold realloc_block. rewrite zlen_app, zlen_replicate. unfold zlen in *. rewrite length_take. lia.
    + cbn [s_size s_len s_str s1] in *. exists s'. split_and!; [done | done | done | done | lia | lia |].
      rewrite Hsv. unfold str_value. cbn [s_str s_len s1]. apply realloc_prefix; unfold zlen in *; lia.
Qed.

Lemma str_append_ok s data len :
  str_wf s -> 0 <= len <= zlen data -> s_len s + len + 1 + BUFSIZ <= alloc_limit ->
  exists s', str_append s (Some data) len = Ok s' /\ str_wf s' /\
    str_value s' = str_value s ++ take (Z.to_nat len) data.
Proof.
  intros (Hl & H0 & H1 & Ha & Hz) Hd Hf. platform. unfold str_append.
  destruct (Z.ltb_spec len 1).
  { exists s. replace len with 0 by lia. rewrite app_nil_r. by split_and!. }
  destruct (str_realloc_ok (Z.to_nat (s_len s + len + 1)) s (s_len s + len + 1))
    as (s1 & -> & L1 & Z1 & N1 & A1 & V1); [done | lia.. |].
  rewrite res_bind_ok. cbn [Z.eqb negb].
  assert (Lv : zlen (take (Z.to_nat (s_len s)) (s_str s1)) = s_len s)
    by (unfold zlen in *; rewrite length_take; lia).
  rewrite (copy_loop_ok _ _ _ _ (s_len s1)) by lia. rewrite res_bind_ok, Z.add_0_r, Z2Nat.id by lia.
  assert (Lk : zlen (slice data 0 len) = len) by (apply zlen_slice; lia).
  assert (Lm : zlen (splice (s_str s1) (s_len s1) (slice data 0 len)) = s_size s1)
    by (rewrite zlen_splice; lia).
  rewrite wr_ok by lia. rewrite res_bind_ok. eexists. split; [reflexivity |].
  assert (E : splice (splice (s_str s1) (s_len s1) (slice data 0 len)) (s_len s1 + len) [0] =
              splice (s_str s1) (s_len s1) (slice data 0 len ++ [0])).
  { rewrite <- Lk at 2. rewrite splice_app by lia. done. }
  rewrite E. unfold str_wf, str_value. cbn [s_str s_len s_size]. rewrite L1.
  assert (E2 : splice (s_str s1) (s_len s) (slice data 0 len ++ [0]) =
    (str_value s ++ slice data 0 len) ++ 0 :: drop (Z.to_nat (s_len s) + length (slice data 0 len ++ [0])) (s_str s1)).
  { rewrite <- V1. unfold splice, str_value. rewrite L1, <- !app_assoc. done. }
  assert (Lp : zlen (str_value s ++ slice data 0 len) = s_len s + len).
  { rewrite zlen_app, Lk, <- V1. unfold str_value. rewrite L1. lia. }
  rewrite E2. split_and!; try lia.
  - rewrite <- E2, zlen_splice; [lia.. |]. rewrite zlen_app, Lk. change (zlen [0]) with 1. lia.
  - rewrite <- Lp. unfold zlen. rewrite Nat2Z.id. by apply list_lookup_middle.
  - rewrite <- Lp. unfold zlen. by rewrite Nat2Z.id, take_app_length.
Qed.

Lemma str_init_ok junk :
  zlen junk = BUFSIZ -> exists s, str_init junk = Ok s /\ str_wf s /\ str_value s = [].
Proof.
  intros Hj. platform. unfold str_init. rewrite wr_ok, res_bind_ok by lia.
  eexists; split; [reflexivity |]. unfold str_wf, str_value. cbn [s_str s_len s_size].
  split; [| done]. split_and!; try lia.
  - rewrite zlen_splice; [done | lia |]. change (zlen [0]) with 1. lia.
  - done.
Qed.

(** Appending a whole list of pieces, as the callers do. *)
Fixpoint append_all (s : str) (pieces : list (list Z)) : res str :=
  match pieces with
  | [] => Ok s
  | p :: pieces => s ← str_append s (Some p) (zlen p); append_all s pieces
  end.

Lemma wf_value_length s : str_wf s -> zlen (str_value s) = s_len s.
Proof. intros (Hl & H0 & H1 & _). unfold str_value, zlen in *. rewrite length_take. lia. Qed.

Lemma append_whole s p :
  str_wf s -> zlen (str_value s) + zlen p + 1 + BUFSIZ <= alloc_limit ->
  exists s', str_append s (Some p) (zlen p) = Ok s' /\ str_wf s' /\ str_value s' = str_value s ++ p.
Proof.
  intros Hw Hf. pose proof (zlen_nonneg p). rewrite (wf_value_length s Hw) in Hf.
  destruct (str_append_ok s p (zlen p) Hw) as (s' & E & W & V); [lia | lia |].
  exists s'. split_and!; [done | done |]. rewrite V. f_equal. unfold zlen. by rewrite Nat2Z.id, take_ge.
Qed.

Lemma append_all_ok pieces : forall s,
  str_wf s -> zlen (str_value s) + zlen (mjoin pieces) + 1 + BUFSIZ <= alloc_limit ->
  exists s', append_all s pieces = Ok s' /\ str_wf s' /\ str_value s' = str_value s ++ mjoin pieces.
Proof.
  induction pieces as [|p pieces IH]; intros s Hw Hf.
  { exists s. cbn [mjoin list_join]. by rewrite app_nil_r. }
  change (mjoin (p :: pieces)) with (p ++ mjoin pieces) in *. rewrite zlen_app in Hf.
  pose proof (zlen_nonneg (mjoin pieces)). cbn [append_all].
  destruct (append_whole s p Hw) as (s1 & -> & W1 & V1); [lia |]. rewrite res_bind_ok.
  destruct (IH s1 W1) as (s2 & -> & W2 & V2); [rewrite V1, zlen_app; lia |].
  exists s2. split_and!; [done | done |]. by rewrite V2, V1, <- app_assoc.
Qed.

(** the dynamic string concatenates.  From [str_init] on any
    uninitialised block, appending pieces one after the other terminates
    (the growth loop included), yields their concatenation, and leaves a
    string that is NUL-terminated inside its block; a NULL or empty piece
    changes nothing. *)
Theorem str_appends_concat junk pieces :
  zlen junk = BUFSIZ -> zlen (mjoin pieces) + 1 + BUFSIZ <= alloc_limit ->
  exists s, (s0 ← str_init junk; append_all s0 pieces) = Ok s /\
    str_value s = mjoin pieces /\ str_wf s /\
    str_append s None (zlen (mjoin pieces)) = Ok s /\ str_append s (Some []) 0 = Ok s.
Proof.
  intros Hj Hf. destruct (str_init_ok junk Hj) as (s0 & -> & W0 & V0). rewrite res_bind_ok.
  destruct (append_all_ok pieces s0 W0) as (s & E & W & V); [rewrite V0; change (zlen []) with 0; lia |].
  exists s. rewrite V, V0. by split_and!.
Qed.
End Str.
