(* ===== verification/Images.v ===== *)
(** * Thumbnails: libtg/tg/images.c

    [image_from_photo_stripped] rebuilds a JPEG file from the stripped
    thumbnail the server sends; [image_from_svg_path] expands a compressed
    outline into an SVG document. *)
From S2P Require Import Prelude TlBuf Serial Str.

Definition header : list Z := [
  0xff; 0xd8; 0xff; 0xe0; 0x00; 0x10; 0x4a; 0x46; 0x49; 0x46; 0x00; 0x01; 0x01; 0x00; 0x00; 0x01;
  0x00; 0x01; 0x00; 0x00; 0xff; 0xdb; 0x00; 0x43; 0x00; 0x28; 0x1c; 0x1e; 0x23; 0x1e; 0x19; 0x28;
  0x23; 0x21; 0x23; 0x2d; 0x2b; 0x28; 0x30; 0x3c; 0x64; 0x41; 0x3c; 0x37; 0x37; 0x3c; 0x7b; 0x58;
  0x5d; 0x49; 0x64; 0x91; 0x80; 0x99; 0x96; 0x8f; 0x80; 0x8c; 0x8a; 0xa0; 0xb4; 0xe6; 0xc3; 0xa0;
  0xaa; 0xda; 0xad; 0x8a; 0x8c; 0xc8; 0xff; 0xcb; 0xda; 0xee; 0xf5; 0xff; 0xff; 0xff; 0x9b; 0xc1;
  0xff; 0xff; 0xff; 0xfa; 0xff; 0xe6; 0xfd; 0xff; 0xf8; 0xff; 0xdb; 0x00; 0x43; 0x01; 0x2b; 0x2d;
  0x2d; 0x3c; 0x35; 0x3c; 0x76; 0x41; 0x41; 0x76; 0xf8; 0xa5; 0x8c; 0xa5; 0xf8; 0xf8; 0xf8; 0xf8;
  0xf8; 0xf8; 0xf8; 0xf8; 0xf8; 0xf8; 0xf8; 0xf8; 0xf8; 0xf8; 0xf8; 0xf8; 0xf8; 0xf8; 0xf8; 0xf8;
  0xf8; 0xf8; 0xf8; 0xf8; 0xf8; 0xf8; 0xf8; 0xf8; 0xf8; 0xf8; 0xf8; 0xf8; 0xf8; 0xf8; 0xf8; 0xf8;
  0xf8; 0xf8; 0xf8; 0xf8; 0xf8; 0xf8; 0xf8; 0xf8; 0xf8; 0xf8; 0xf8; 0xf8; 0xf8; 0xf8; 0xff; 0xc0;
  0x00; 0x11; 0x08; 0x00; 0x00; 0x00; 0x00; 0x03; 0x01; 0x22; 0x00; 0x02; 0x11; 0x01; 0x03; 0x11;
  0x01; 0xff; 0xc4; 0x00; 0x1f; 0x00; 0x00; 0x01; 0x05; 0x01; 0x01; 0x01; 0x01; 0x01; 0x01; 0x00;
  0x00; 0x00; 0x00; 0x00; 0x00; 0x00; 0x00; 0x01; 0x02; 0x03; 0x04; 0x05; 0x06; 0x07; 0x08; 0x09;
  0x0a; 0x0b; 0xff; 0xc4; 0x00; 0xb5; 0x10; 0x00; 0x02; 0x01; 0x03; 0x03; 0x02; 0x04; 0x03; 0x05;
  0x05; 0x04; 0x04; 0x00; 0x00; 0x01; 0x7d; 0x01; 0x02; 0x03; 0x00; 0x04; 0x11; 0x05; 0x12; 0x21;
  0x31; 0x41; 0x06; 0x13; 0x51; 0x61; 0x07; 0x22; 0x71; 0x14; 0x32; 0x81; 0x91; 0xa1; 0x08; 0x23;
  0x42; 0xb1; 0xc1; 0x15; 0x52; 0xd1; 0xf0; 0x24; 0x33; 0x62; 0x72; 0x82; 0x09; 0x0a; 0x16; 0x17;
  0x18; 0x19; 0x1a; 0x25; 0x26; 0x27; 0x28; 0x29; 0x2a; 0x34; 0x35; 0x36; 0x37; 0x38; 0x39; 0x3a;
  0x43; 0x44; 0x45; 0x46; 0x47; 0x48; 0x49; 0x4a; 0x53; 0x54; 0x55; 0x56; 0x57; 0x58; 0x59; 0x5a;
  0x63; 0x64; 0x65; 0x66; 0x67; 0x68; 0x69; 0x6a; 0x73; 0x74; 0x75; 0x76; 0x77; 0x78; 0x79; 0x7a;
  0x83; 0x84; 0x85; 0x86; 0x87; 0x88; 0x89; 0x8a; 0x92; 0x93; 0x94; 0x95; 0x96; 0x97; 0x98; 0x99;
  0x9a; 0xa2; 0xa3; 0xa4; 0xa5; 0xa6; 0xa7; 0xa8; 0xa9; 0xaa; 0xb2; 0xb3; 0xb4; 0xb5; 0xb6; 0xb7;
  0xb8; 0xb9; 0xba; 0xc2; 0xc3; 0xc4; 0xc5; 0xc6; 0xc7; 0xc8; 0xc9; 0xca; 0xd2; 0xd3; 0xd4; 0xd5;
  0xd6; 0xd7; 0xd8; 0xd9; 0xda; 0xe1; 0xe2; 0xe3; 0xe4; 0xe5; 0xe6; 0xe7; 0xe8; 0xe9; 0xea; 0xf1;
  0xf2; 0xf3; 0xf4; 0xf5; 0xf6; 0xf7; 0xf8; 0xf9; 0xfa; 0xff; 0xc4; 0x00; 0x1f; 0x01; 0x00; 0x03;
  0x01; 0x01; 0x01; 0x01; 0x01; 0x01; 0x01; 0x01; 0x01; 0x00; 0x00; 0x00; 0x00; 0x00; 0x00; 0x01;
  0x02; 0x03; 0x04; 0x05; 0x06; 0x07; 0x08; 0x09; 0x0a; 0x0b; 0xff; 0xc4; 0x00; 0xb5; 0x11; 0x00;
  0x02; 0x01; 0x02; 0x04; 0x04; 0x03; 0x04; 0x07; 0x05; 0x04; 0x04; 0x00; 0x01; 0x02; 0x77; 0x00;
  0x01; 0x02; 0x03; 0x11; 0x04; 0x05; 0x21; 0x31; 0x06; 0x12; 0x41; 0x51; 0x07; 0x61; 0x71; 0x13;
  0x22; 0x32; 0x81; 0x08; 0x14; 0x42; 0x91; 0xa1; 0xb1; 0xc1; 0x09; 0x23; 0x33; 0x52; 0xf0; 0x15;
  0x62; 0x72; 0xd1; 0x0a; 0x16; 0x24; 0x34; 0xe1; 0x25; 0xf1; 0x17; 0x18; 0x19; 0x1a; 0x26; 0x27;
  0x28; 0x29; 0x2a; 0x35; 0x36; 0x37; 0x38; 0x39; 0x3a; 0x43; 0x44; 0x45; 0x46; 0x47; 0x48; 0x49;
  0x4a; 0x53; 0x54; 0x55; 0x56; 0x57; 0x58; 0x59; 0x5a; 0x63; 0x64; 0x65; 0x66; 0x67; 0x68; 0x69;
  0x6a; 0x73; 0x74; 0x75; 0x76; 0x77; 0x78; 0x79; 0x7a; 0x82; 0x83; 0x84; 0x85; 0x86; 0x87; 0x88;
  0x89; 0x8a; 0x92; 0x93; 0x94; 0x95; 0x96; 0x97; 0x98; 0x99; 0x9a; 0xa2; 0xa3; 0xa4; 0xa5; 0xa6;
  0xa7; 0xa8; 0xa9; 0xaa; 0xb2; 0xb3; 0xb4; 0xb5; 0xb6; 0xb7; 0xb8; 0xb9; 0xba; 0xc2; 0xc3; 0xc4;
  0xc5; 0xc6; 0xc7; 0xc8; 0xc9; 0xca; 0xd2; 0xd3; 0xd4; 0xd5; 0xd6; 0xd7; 0xd8; 0xd9; 0xda; 0xe2;
  0xe3; 0xe4; 0xe5; 0xe6; 0xe7; 0xe8; 0xe9; 0xea; 0xf2; 0xf3; 0xf4; 0xf5; 0xf6; 0xf7; 0xf8; 0xf9;
  0xfa; 0xff; 0xda; 0x00; 0x0c; 0x03; 0x01; 0x00; 0x02; 0x11; 0x03; 0x11; 0x00; 0x3f; 0x00].

Definition footer : list Z := [0xff; 0xd9].

Definition lookup : list Z := [
  65; 65; 67; 65; 65; 65; 65; 72; 65; 65; 65; 76; 77; 65; 65; 65; 81; 65; 83; 84;
  65; 86; 65; 65; 65; 90; 97; 97; 99; 97; 97; 97; 97; 104; 97; 97; 97; 108; 109; 97;
  97; 97; 113; 97; 115; 116; 97; 118; 97; 46; 97; 122; 48; 49; 50; 51; 52; 53; 54; 55;
  56; 57; 45; 44].

(* The text up to the path data. *)
Definition svg_open : list Z := [
  60; 63; 120; 109; 108; 32; 118; 101; 114; 115; 105; 111; 110; 61; 34; 49; 46; 48; 34; 32;
  101; 110; 99; 111; 100; 105; 110; 103; 61; 34; 117; 116; 102; 45; 56; 34; 63; 62; 10; 60;
  115; 118; 103; 32; 118; 101; 114; 115; 105; 111; 110; 61; 34; 49; 46; 49; 34; 32; 120; 109;
  108; 110; 115; 61; 34; 104; 116; 116; 112; 58; 47; 47; 119; 119; 119; 46; 119; 51; 46; 111;
  114; 103; 47; 50; 48; 48; 48; 47; 115; 118; 103; 34; 32; 120; 109; 108; 110; 115; 58; 120;
  108; 105; 110; 107; 61; 34; 104; 116; 116; 112; 58; 47; 47; 119; 119; 119; 46; 119; 51; 46;
  111; 114; 103; 47; 49; 57; 57; 57; 47; 120; 108; 105; 110; 107; 34; 10; 118; 105; 101; 119;
  66; 111; 120; 61; 34; 48; 32; 48; 32; 53; 49; 50; 32; 53; 49; 50; 34; 32; 120; 109;
  108; 58; 115; 112; 97; 99; 101; 61; 34; 112; 114; 101; 115; 101; 114; 118; 101; 34; 62; 10;
  60; 112; 97; 116; 104; 32; 100; 61; 34].

(* The end of the path element and of the document. *)
Definition svg_path_end : list Z := [34; 47; 62; 10].
Definition svg_end : list Z := [60; 47; 115; 118; 103; 62; 10].

Section Images.
Context `{Platform}.

Definition image_from_photo_stripped (bytes : buf_t) : res buf_t :=
  buf ← buf_new;
  stop ← (if b_size bytes <? 3 then Ok true
          else b0 ← rd (data_at bytes 0) 0; Ok (negb (b0 =? 1)));
  if stop : bool then Ok buf
  else
    buf ← buf_cat_data buf header (zlen header);
    b1 ← rd (data_at bytes 0) 1;
    m ← wr (b_mem buf) (b_off buf + 164) b1;
    b2 ← rd (data_at bytes 0) 2;
    m ← wr m (b_off buf + 166) b2;
    let buf := set_mem buf m in
    buf ← buf_cat_data buf (data_at bytes 3) (b_size bytes - 3);
    buf_cat_data buf footer (zlen footer).

(** One character of the outline. *)
Definition svg_char (svg : str) (num : Z) : res str :=
  if 128 + 64 <=? num then str_append svg (Some (drop (Z.to_nat (num - 128 - 64)) lookup)) 1
  else
    svg ← (if 128 <=? num then str_append svg (Some [44]) 1
           else if 64 <=? num then str_append svg (Some [45]) 1
           else Ok svg);
    str_append svg (Some [Z.land num 63]) 1.

Fixpoint svg_loop (n : nat) (i : Z) (data : list Z) (svg : str) : res str :=
  match n with
  | O => Ok svg
  | S n => num ← rd data i; svg ← svg_char svg num; svg_loop n (i + 1) data svg
  end.

(** [str_appendf] of a literal appends its characters; the three literals
    are shorter than its buffer of [BUFSIZ] characters. *)
Definition image_from_svg_path (junk : list Z) (encoded : buf_t) : res (list Z) :=
  svg ← str_init junk;
  svg ← str_append svg (Some svg_open) (zlen svg_open);
  svg ← str_append svg (Some [77]) 1;
  svg ← svg_loop (Z.to_nat (b_size encoded)) 0 (data_at encoded 0) svg;
  svg ← str_append svg (Some [122]) 1;
  svg ← str_append svg (Some svg_path_end) (zlen svg_path_end);
  svg ← str_append svg (Some svg_end) (zlen svg_end);
  Ok (str_value svg).

(** ** What they produce *)

(** The outline character the code writes, and the one the comment in the
    function (the algorithm of the Telegram documentation) describes. *)
Definition code_char (num : Z) : list Z :=
  if 192 <=? num then [lookup !!! Z.to_nat (num - 192)]
  else (if 128 <=? num then [44] else if 64 <=? num then [45] else []) ++ [num mod 64].

Definition itoa (n : Z) : list Z := if n <? 10 then [48 + n] else [48 + n / 10; 48 + n mod 10].

Definition documented_char (num : Z) : list Z :=
  if 192 <=? num then [lookup !!! Z.to_nat (num - 192)]
  else (if 128 <=? num then [44] else if 64 <=? num then [45] else []) ++ itoa (num mod 64).

Lemma append_piece s p n x :
  str_wf s -> zlen (str_value s) + n + 1 + BUFSIZ <= alloc_limit -> n = zlen p ->
  exists s', str_append s (Some (p ++ x)) n = Ok s' /\ str_wf s' /\ str_value s' = str_value s ++ p.
Proof.
  intros Hw Hf ->. pose proof (zlen_nonneg p). rewrite (wf_value_length s Hw) in Hf.
  destruct (str_append_ok s (p ++ x) (zlen p) Hw) as (s' & E & W & V);
    [rewrite zlen_app; pose proof (zlen_nonneg x); lia | lia |].
  exists s'. split_and!; [done | done |]. rewrite V. f_equal. unfold zlen. by rewrite Nat2Z.id, take_app_length.
Qed.

Lemma svg_char_ok s num :
  str_wf s -> is_byte num -> zlen (str_value s) + 2 + 1 + BUFSIZ <= alloc_limit ->
  exists s', svg_char s num = Ok s' /\ str_wf s' /\ str_value s' = str_value s ++ code_char num.
Proof.
  intros Hw Hb Hf. unfold is_byte in Hb. unfold svg_char, code_char. change (128 + 64) with 192.
  destruct (Z.leb_spec 192 num).
  - replace (num - 128 - 64) with (num - 192) by lia.
    assert (E : drop (Z.to_nat (num - 192)) lookup =
      [lookup !!! Z.to_nat (num - 192)] ++ drop (S (Z.to_nat (num - 192))) lookup).
    { destruct (lookup_lt_is_Some_2 lookup (Z.to_nat (num - 192))) as [c Hc];
        [change (length lookup) with 64%nat; lia |].
      rewrite (drop_S _ _ _ Hc). by rewrite (list_lookup_total_correct _ _ _ Hc). }
    rewrite E. apply append_piece; [done | lia | done].
  - change 63 with (Z.ones 6). rewrite Z.land_ones by lia. change (2 ^ 6) with 64.
    assert (Hsep : exists s1 sep, (if 128 <=? num then str_append s (Some [44]) 1
             else if 64 <=? num then str_append s (Some [45]) 1 else Ok s) = Ok s1 /\ str_wf s1 /\
             str_value s1 = str_value s ++ sep /\ zlen sep <= 1 /\
             sep = (if 128 <=? num then [44] else if 64 <=? num then [45] else [])).
    { destruct (128 <=? num); [| destruct (64 <=? num)].
      - destruct (append_piece s [44] 1 [] Hw) as (s1 & E & W & V); [lia | done |]. exists s1, [44]. by split_and!.
      - destruct (append_piece s [45] 1 [] Hw) as (s1 & E & W & V); [lia | done |]. exists s1, [45]. by split_and!.
      - exists s, []. rewrite app_nil_r. by split_and!. }
    destruct Hsep as (s1 & sep & -> & W1 & V1 & L1 & <-). rewrite res_bind_ok.
    destruct (append_piece s1 [num mod 64] 1 [] W1) as (s2 & E & W2 & V2); [rewrite V1, zlen_app; lia | done |].
    exists s2. split_and!; [done | done |]. by rewrite V2, V1, <- app_assoc.
Qed.

Lemma zlen_code_char num : 1 <= zlen (code_char num) <= 2.
Proof.
  unfold code_char. destruct (192 <=? num); [by cbn |].
  destruct (128 <=? num); [| destruct (64 <=? num)]; by cbn.
Qed.

Lemma svg_loop_ok n : forall i data s,
  0 <= i -> i + Z.of_nat n <= zlen data -> bytes_ok data -> str_wf s ->
  zlen (str_value s) + 2 * Z.of_nat n + 1 + BUFSIZ <= alloc_limit ->
  exists s', svg_loop n i data s = Ok s' /\ str_wf s' /\
    str_value s' = str_value s ++ mjoin (code_char <$> slice data i (Z.of_nat n)).
Proof.
  induction n as [|n IH]; intros i data s Hi Hn Hb Hw Hf; cbn [svg_loop].
  { exists s. unfold slice. change (Z.to_nat (Z.of_nat 0)) with 0%nat. cbn. by rewrite app_nil_r. }
  destruct (rd_in_bounds data i) as (x & -> & Hx); [lia |]. rewrite res_bind_ok.
  pose proof (Forall_lookup_1 _ _ _ _ Hb Hx) as Hxb.
  destruct (svg_char_ok s x Hw Hxb) as (s1 & -> & W1 & V1); [lia |]. rewrite res_bind_ok.
  pose proof (zlen_code_char x).
  destruct (IH (i + 1) data s1) as (s2 & -> & W2 & V2); [lia | lia | done | done | rewrite V1, zlen_app; lia |].
  exists s2. split_and!; [done | done |]. rewrite V2, V1, <- app_assoc. f_equal.
  unfold slice. rewrite !Nat2Z.id, (drop_S data x (Z.to_nat i)) by done.
  replace (Z.to_nat (i + 1)) with (S (Z.to_nat i)) by lia. done.
Qed.

Lemma char_diverges num : 0 <= num < 192 -> code_char num <> documented_char num.
Proof.
  intros Hn. unfold code_char, documented_char. destruct (Z.leb_spec 192 num); [lia |].
  intros E. apply app_inv_head in E. unfold itoa in E.
  destruct (Z.ltb_spec (num mod 64) 10); [injection E as E; lia | done].
Qed.

(** the outline is expanded, but not as documented.  For every
    compressed path [image_from_svg_path] returns the SVG document around
    "M", the expansion of each byte and "z"; a byte below 192 is written
    as the raw value of its low six bits, where the documented algorithm
    quoted in the function appends the decimal digits of that value, so
    every such byte is expanded wrongly. *)
Theorem svg_path_expansion junk encoded num :
  zlen junk = BUFSIZ -> buf_wf encoded -> 2 * b_size encoded + 512 + BUFSIZ <= alloc_limit ->
  0 <= num < 192 ->
  image_from_svg_path junk encoded =
    Ok (svg_open ++ [77] ++ mjoin (code_char <$> contents encoded) ++ [122] ++ svg_path_end ++ svg_end) /\
  code_char num <> documented_char num.
Proof.
  intros Hj Hw Hf Hnum. split; [| by apply char_diverges].
  pose proof (wf_data_at encoded Hw) as Hd. pose proof Hw as (_ & Hbm & _ & Hs & _).
  assert (Hbd : bytes_ok (data_at encoded 0)) by (by apply Forall_drop).
  assert (Lo : zlen svg_open = 189) by reflexivity. assert (Lp : zlen svg_path_end = 4) by reflexivity.
  assert (Le : zlen svg_end = 7) by reflexivity.
  unfold image_from_svg_path. destruct (str_init_ok junk Hj) as (s0 & -> & W0 & V0). rewrite res_bind_ok.
  destruct (append_whole s0 svg_open W0) as (s1 & -> & W1 & V1);
    [rewrite V0, Lo; change (zlen []) with 0; lia |]. rewrite res_bind_ok, V0, app_nil_l in *.
  destruct (append_piece s1 [77] 1 [] W1) as (s2 & E2 & W2 & V2); [rewrite V1, Lo; lia | done |].
  rewrite app_nil_r in E2. rewrite E2, res_bind_ok. rewrite V1 in V2.
  assert (L2 : zlen (str_value s2) = 190) by (by rewrite V2, zlen_app, Lo).
  destruct (svg_loop_ok (Z.to_nat (b_size encoded)) 0 (data_at encoded 0) s2)
    as (s3 & -> & W3 & V3); [lia | lia | done | done | rewrite L2; lia |].
  rewrite res_bind_ok. rewrite Z2Nat.id, slice_data_at in V3 by lia. fold (contents encoded) in V3.
  assert (L3 : zlen (str_value s3) <= 190 + 2 * b_size encoded).
  { rewrite V3, zlen_app, L2. rewrite <- (zlen_contents encoded Hw). generalize (contents encoded).
    clear. intros l. induction l as [|x l IH]; [done |].
    change (mjoin (code_char <$> x :: l)) with (code_char x ++ mjoin (code_char <$> l)).
    rewrite zlen_app, zlen_cons. pose proof (zlen_code_char x). lia. }
  destruct (append_piece s3 [122] 1 [] W3) as (s4 & E4 & W4 & V4); [lia | done |].
  rewrite app_nil_r in E4. rewrite E4, res_bind_ok.
  destruct (append_whole s4 svg_path_end W4) as (s5 & -> & W5 & V5);
    [rewrite V4, zlen_app; change (zlen [122]) with 1; lia |]. rewrite res_bind_ok.
  destruct (append_whole s5 svg_end W5) as (s6 & -> & W6 & V6);
    [rewrite V5, V4, !zlen_app; change (zlen [122]) with 1; lia |].
  rewrite res_bind_ok, V6, V5, V4, V3, V2. f_equal. by rewrite <- !app_assoc.
Qed.

Lemma wr_fresh bs i x :
  0 <= i < zlen bs ->
  exists m, wr (b_mem (fresh bs)) (b_off (fresh bs) + i) x = Ok m /\
    set_mem (fresh bs) m = fresh (<[Z.to_nat i := x]> bs).
Proof.
  intros Hi. unfold wr, fresh, mk_buf. cbn [b_mem b_off]. rewrite Z.add_0_l, zlen_app.
  match goal with |- context [replicate ?n 0] => pose proof (zlen_nonneg (replicate n 0)) end.
  replace ((0 <=? i) && _) with true by lia. eexists; split; [reflexivity |].
  unfold set_mem. cbn [b_off b_size b_asize]. rewrite zlen_insert, length_insert, insert_app_l; [done |].
  unfold zlen in Hi. lia.
Qed.

(** a stripped thumbnail becomes a JPEG file.  For data starting with
    the marker byte 1 the result is the fixed header with height and width
    patched in at offsets 164 and 166, the remaining data, and the end
    marker; anything else gives an empty buffer. *)
Theorem photo_stripped_jpeg bytes :
  buf_wf bytes -> fits (b_size bytes + 1024) ->
  exists r, image_from_photo_stripped bytes = Ok r /\
    contents r = match contents bytes with
                 | 1 :: h :: w :: rest => <[166%nat := w]> (<[164%nat := h]> header) ++ rest ++ footer
                 | _ => []
                 end.
Proof.
  intros Hw Hf. platform. pose proof (zlen_contents bytes Hw) as Hl.
  destruct (wf_cursor bytes Hw) as (a & c & E & Hc).
  assert (Bc : bytes_ok c).
  { destruct Hw as (_ & B & _). rewrite E in B. cbn [b_mem] in B. rewrite !Forall_app in B. apply B. }
  assert (Hd : forall k, 0 <= k -> data_at bytes k = drop (Z.to_nat k) (contents bytes ++ c)).
  { intros. rewrite E at 1. by rewrite data_cur. }
  unfold image_from_photo_stripped, buf_new. rewrite buf_init_ok, (res_bind_ok (fresh [])), !Hd by lia.
  destruct (Z.ltb_spec (b_size bytes) 3) as [H3 | H3].
  { exists (fresh []). rewrite res_bind_ok. split; [done |]. rewrite contents_fresh.
    destruct (contents bytes) as [|x [|h [|w r]]]; cbn [length] in *;
      [done | by (destruct x as [|p|p]; [| destruct p |]) | by (destruct x as [|p|p]; [| destruct p |]) |].
    exfalso. unfold zlen in Hl. cbn [length] in Hl. lia. }
  destruct (contents bytes) as [|x [|h [|w r]]] eqn:Eb; try (exfalso; unfold zlen in Hl; cbn [length] in Hl; lia).
  change (Z.to_nat 0) with 0%nat. rewrite drop_0. cbn [app].
  assert (R0 : forall l, rd (x :: h :: w :: l) 0 = Ok x) by reflexivity.
  assert (R1 : forall l, rd (x :: h :: w :: l) 1 = Ok h) by reflexivity.
  assert (R2 : forall l, rd (x :: h :: w :: l) 2 = Ok w) by reflexivity.
  rewrite R0, !res_bind_ok. destruct (Z.eqb_spec x 1) as [-> | Hne]; cbn [negb].
  2: { exists (fresh []). rewrite contents_fresh. split; [done |]. destruct x as [|p|p]; [done | by destruct p | done]. }
  pose proof (contents_ok bytes Hw) as Hb. rewrite Eb in Hb.
  apply Forall_cons_1 in Hb as [_ Hb]. apply Forall_cons_1 in Hb as [Bh Hb].
  apply Forall_cons_1 in Hb as [Bw Hb]. rewrite !zlen_cons in Hl. unfold fits in Hf.
  assert (Lh : zlen header = 623) by reflexivity.
  assert (Bhd : bytes_ok header) by (apply (bool_decide_eq_true_1 _); vm_compute; reflexivity).
  destruct (wr_fresh header 164 h) as (m1 & E1 & S1); [rewrite Lh; lia |].
  change (Z.to_nat 164) with 164%nat in S1.
  destruct (wr_fresh (<[164%nat := h]> header) 166 w) as (m2 & E2 & S2); [rewrite zlen_insert, Lh; lia |].
  rewrite <- S1 in E2, S2. cbn [set_mem b_mem b_off] in E2.
  change (Z.to_nat 166) with 166%nat in S2.
  assert (Bp : bytes_ok (<[166%nat := w]> (<[164%nat := h]> header))) by (by repeat apply Forall_insert).
  eexists; split.
  - step (buf_cat_data_ok [] header 623); [done | rewrite Lh; lia | lia | change (zlen []) with 0; unfold fits; lia |].
    rewrite app_nil_l. change (take (Z.to_nat 623) header) with header.
    rewrite R1, res_bind_ok. step E1. rewrite R2, res_bind_ok. step E2.
    change (Buf m2 (b_off (fresh header)) (b_size (fresh header)) (b_asize (fresh header)))
      with (set_mem (set_mem (fresh header) m1) m2).
    replace (set_mem (fresh header) m2) with (set_mem (set_mem (fresh header) m1) m2) by reflexivity.
    rewrite S2. change (drop (Z.to_nat 3) (1 :: h :: w :: r ++ c)) with (drop 0 (r ++ c)). rewrite drop_0.
    assert (Lr : zlen r = b_size bytes - 3) by lia.
    step buf_cat_data_ok; [auto with bytes | rewrite zlen_app; pose proof (zlen_nonneg c); lia | lia
      | rewrite !zlen_insert, Lh; unfold fits; lia |].
    replace (take (Z.to_nat (b_size bytes - 3)) (r ++ c)) with r
      by (rewrite <- Lr; unfold zlen; by rewrite Nat2Z.id, take_app_length).
    apply (buf_cat_data_ok _ footer 2); [| done | lia |].
    + unfold footer, is_byte. repeat (apply Forall_cons_2; [lia |]). apply Forall_nil_2.
    + rewrite zlen_app, !zlen_insert, Lh. unfold fits. lia.
  - rewrite contents_fresh. by rewrite <- app_assoc.
Qed.
End Images.
