(* ===== verification/LinkedList.v ===== *)
(** * The linked list: libtg/tg/list.h

    Nodes live in a heap, a finite map from addresses to [struct list];
    a list is the address of its first node, [None] for NULL.  The
    operations are the C functions pointer by pointer; the theorems say that
    they refine the operations on the sequence of items. *)
From S2P Require Import Prelude.

Section LinkedList.
Context {D : Type}.

Record list_t := Node { prev : option nat; data : D }.

Implicit Types (h : gmap nat list_t) (l : option nat) (ds : list D).

Definition deref h (p : nat) : res list_t :=
  match h !! p with Some n => Ok n | None => Err UseAfterFree end.

(** [n] is what [malloc] returned. *)
Definition list_add (n : option nat) h (listp : option nat) (item : D)
  : Z * gmap nat list_t * option nat :=
  match n with
  | None => (1, h, listp)
  | Some n => (0, <[n := Node listp item]> h, Some n)
  end.

(** The loop of [list_cut]: [pr] is its variable [prev]. *)
Fixpoint cut_loop (fuel : nat) (cmp : D -> res bool) h (listp pr l : option nat)
  : res (option D * gmap nat list_t * option nat) :=
  match l with
  | None => Ok (None, h, listp)
  | Some p =>
      match fuel with
      | O => Err NoFuel
      | S fuel =>
          n ← deref h p;
          c ← cmp (data n);
          if c : bool then
            match pr with
            | Some q =>
                m ← deref h q;
                Ok (Some (data n), delete p (<[q := Node (prev n) (data m)]> h), listp)
            | None => Ok (Some (data n), delete p h, prev n)
            end
          else cut_loop fuel cmp h listp l (prev n)
      end
  end.

Definition list_cut (cmp : D -> res bool) h (listp : option nat)
  : res (option D * gmap nat list_t * option nat) :=
  cut_loop (size h) cmp h listp None listp.

(** The items [list_for_each] visits, in order. *)
Fixpoint for_each_loop (fuel : nat) h l : res (list D) :=
  match l with
  | None => Ok []
  | Some p =>
      match fuel with
      | O => Err NoFuel
      | S fuel => n ← deref h p; ds ← for_each_loop fuel h (prev n); Ok (data n :: ds)
      end
  end.

Definition list_for_each h l : res (list D) := for_each_loop (size h) h l.

Fixpoint free_loop (fuel : nat) h l : res (gmap nat list_t) :=
  match l with
  | None => Ok h
  | Some p =>
      match fuel with
      | O => Err NoFuel
      | S fuel => n ← deref h p; free_loop fuel (delete p h) (prev n)
      end
  end.

Definition list_free h (listp : option nat) : res (gmap nat list_t * option nat) :=
  h ← free_loop (size h) h listp; Ok (h, None).

(** ** The sequence a list holds *)
Inductive chain h : option nat -> list nat -> list D -> Prop :=
| chain_nil : chain h None [] []
| chain_cons p q ps d ds :
    h !! p = Some (Node q d) -> chain h q ps ds -> chain h (Some p) (p :: ps) (d :: ds).

(** [holds_items h l ds]: the acyclic list [l] holds the items [ds] and the
    heap holds nothing else. *)
Definition holds_items h l ds : Prop :=
  exists ps, chain h l ps ds /\ NoDup ps /\ dom h = list_to_set ps.

(** The reference: remove the first item that satisfies [cmp]. *)
Fixpoint cut (cmp : D -> res bool) ds : res (option D * list D) :=
  match ds with
  | [] => Ok (None, [])
  | d :: ds =>
      c ← cmp d;
      if c : bool then Ok (Some d, ds)
      else r ← cut cmp ds; Ok (fst r, d :: snd r)
  end.

Lemma chain_lookup h l ps ds p : chain h l ps ds -> p ∈ ps -> is_Some (h !! p).
Proof.
  induction 1 as [|p' q ps d ds E _ IH]; intros Hin; [by apply not_elem_of_nil in Hin |].
  apply elem_of_cons in Hin as [-> |]; [eauto | auto].
Qed.

Lemma chain_size h l ps ds : chain h l ps ds -> NoDup ps -> (length ps <= size h)%nat.
Proof.
  intros Hc Hn. rewrite <- size_dom. rewrite <- (size_list_to_set (C := gset nat) ps Hn).
  apply subseteq_size. intros p Hp. apply elem_of_list_to_set in Hp.
  apply elem_of_dom. eapply chain_lookup; eauto.
Qed.

Lemma chain_insert h l ps ds p n : chain h l ps ds -> p ∉ ps -> chain (<[p := n]> h) l ps ds.
Proof.
  induction 1 as [|p' q ps d ds E _ IH]; intros Hp; [constructor |].
  apply not_elem_of_cons in Hp as [Hne Hp].
  apply (chain_cons _ p' q); [by rewrite lookup_insert_ne | auto].
Qed.

Lemma chain_delete h l ps ds p : chain h l ps ds -> p ∉ ps -> chain (delete p h) l ps ds.
Proof.
  induction 1 as [|p' q ps d ds E _ IH]; intros Hp; [constructor |].
  apply not_elem_of_cons in Hp as [Hne Hp].
  apply (chain_cons _ p' q); [by rewrite lookup_delete_ne | auto].
Qed.

Lemma holds_items_unique h l ds ds' : holds_items h l ds -> holds_items h l ds' -> ds = ds'.
Proof.
  intros (ps & Hc & _) (ps' & Hc' & _). revert ps' ds' Hc'.
  induction Hc as [|p q ps d ds E _ IH]; intros ps' ds' Hc'; inversion Hc' as [|? q' ? d' ds2 E' Hc2];
    subst; [done |].
  rewrite E in E'. injection E' as <- <-. by rewrite (IH _ _ Hc2).
Qed.

Lemma holds_nil : holds_items ∅ None [].
Proof. exists []. split_and!; [constructor | constructor | set_solver]. Qed.

Lemma list_add_ok h l ds n item :
  holds_items h l ds -> n ∉ dom h ->
  exists h', list_add (Some n) h l item = (0, h', Some n) /\ holds_items h' (Some n) (item :: ds).
Proof.
  intros (ps & Hc & Hn & Hd) Hf. eexists; split; [reflexivity |].
  assert (n ∉ ps) by (rewrite Hd in Hf; set_solver).
  exists (n :: ps). split_and!.
  - apply (chain_cons _ n l ps item ds); [by rewrite lookup_insert_eq | by apply chain_insert].
  - by constructor.
  - rewrite dom_insert_L, Hd. set_solver.
Qed.

Lemma for_each_ok h l ps ds fuel :
  chain h l ps ds -> (length ps <= fuel)%nat -> for_each_loop fuel h l = Ok ds.
Proof.
  intros Hc. revert fuel. induction Hc as [|p q ps d ds E _ IH]; intros fuel Hf.
  { by destruct fuel. }
  destruct fuel as [|fuel]; cbn [length] in Hf; [lia |]. cbn [for_each_loop]. unfold deref.
  rewrite E, res_bind_ok. cbn [prev data]. by rewrite IH by lia.
Qed.

Lemma list_for_each_ok h l ds : holds_items h l ds -> list_for_each h l = Ok ds.
Proof. intros (ps & Hc & Hn & _). eapply for_each_ok; [done |]. by eapply chain_size. Qed.

Lemma free_loop_ok l : forall fuel h ps ds,
  chain h l ps ds -> NoDup ps -> dom h = list_to_set ps -> (length ps <= fuel)%nat ->
  free_loop fuel h l = Ok ∅.
Proof.
  intros fuel h ps. revert l fuel h. induction ps as [|p ps IH]; intros l fuel h ds Hc Hn Hd Hf.
  - inversion Hc; subst. destruct fuel; cbn; f_equal; apply dom_empty_inv_L; by rewrite Hd.
  - inversion Hc as [|p' q ps' d ds' E Hc']; subst. destruct fuel as [|fuel]; cbn [length] in Hf; [lia |].
    cbn [free_loop]. unfold deref. rewrite E, res_bind_ok. cbn [prev].
    apply list.NoDup_cons in Hn as [Hp Hn]. apply IH with ds'; [by apply chain_delete | done | | lia].
    rewrite dom_delete_L, Hd. set_solver.
Qed.

Lemma list_free_ok h l ds : holds_items h l ds -> list_free h l = Ok (∅, None).
Proof.
  intros (ps & Hc & Hn & Hd). unfold list_free.
  by rewrite (free_loop_ok l _ h ps ds) by (try done; by eapply chain_size).
Qed.

(** After the loop has passed the nodes [p0s]: [pr] is the last of them and
    points to [l]. *)
Definition passed h (head : option nat) (p0s : list nat) (d0s : list D) (pr l : option nat) : Prop :=
  match pr with
  | None => p0s = [] /\ d0s = [] /\ head = l
  | Some q =>
      exists p1s d1s d, p0s = p1s ++ [q] /\ d0s = d1s ++ [d] /\ h !! q = Some (Node l d) /\
        forall h' ps ds l', (forall p, p ∈ p1s -> h' !! p = h !! p) ->
          h' !! q = Some (Node l' d) -> chain h' l' ps ds ->
          chain h' head (p0s ++ ps) (d0s ++ ds)
  end.

Lemma passed_step h head p0s d0s pr p q d :
  passed h head p0s d0s pr (Some p) -> h !! p = Some (Node q d) ->
  passed h head (p0s ++ [p]) (d0s ++ [d]) (Some p) q.
Proof.
  intros Hp E. exists p0s, d0s, d. split_and!; [done | done | done |].
  intros h' ps ds l' Hsame E' Hc. rewrite <- !app_assoc. cbn [app].
  destruct pr as [r|].
  - destruct Hp as (p1s & d1s & d1 & -> & -> & Er & Hk). eapply (Hk h' (p :: ps) (d :: ds) (Some p)).
    + intros p' Hp'. apply Hsame. set_solver.
    + rewrite Hsame; [done | set_solver].
    + by econstructor.
  - destruct Hp as (-> & -> & ->). by econstructor.
Qed.

Lemma cut_loop_ok cmp ps : forall fuel h head l ds p0s d0s pr,
  chain h l ps ds -> passed h head p0s d0s pr l -> NoDup (p0s ++ ps) ->
  dom h = list_to_set (p0s ++ ps) -> chain h head (p0s ++ ps) (d0s ++ ds) ->
  (length ps <= fuel)%nat ->
  match cut cmp ds with
  | Ok (o, ds') => exists h' head', cut_loop fuel cmp h head pr l = Ok (o, h', head') /\
      holds_items h' head' (d0s ++ ds')
  | Err f => cut_loop fuel cmp h head pr l = Err f
  end.
Proof.
  induction ps as [|p ps IH]; intros fuel h head l ds p0s d0s pr Hc Hp Hn Hd Hall Hf.
  { inversion Hc; subst. exists h, head. destruct fuel; (split; [done | by exists (p0s ++ [])]). }
  inversion Hc as [|p' q ps' d ds' E Hc']; subst. destruct fuel as [|fuel]; cbn [length] in Hf; [lia |].
  cbn [cut cut_loop].
  assert (Hder : deref h p = Ok (Node q d)) by (unfold deref; by rewrite E).
  rewrite Hder, (res_bind_ok (Node q d)). cbn [prev data].
  destruct (cmp d) as [[|]|f] eqn:Ec; rewrite ?res_bind_ok, ?res_bind_err; [| | done].
  - apply list.NoDup_app in Hn as (Hn0 & Hdis & Hn). apply list.NoDup_cons in Hn as [Hpn Hn].
    assert (Hp0 : p ∉ p0s) by (intros Hin; apply (Hdis _ Hin); set_solver).
    assert (Hn' : NoDup (p0s ++ ps)) by (apply list.NoDup_app; split_and!; [done | set_solver | done]).
    destruct pr as [r|]; cbn [passed] in Hp.
    + destruct Hp as (p1s & d1s & d1 & -> & -> & Er & Hk). unfold deref. rewrite Er, res_bind_ok.
      do 2 eexists; split; [reflexivity |]. cbn [data].
      assert (Hr : r ∉ p1s /\ r ∉ ps /\ r <> p).
      { apply list.NoDup_app in Hn0 as (_ & Hx & _). split_and!; [set_solver | set_solver |].
        intros ->. apply Hp0. set_solver. }
      destruct Hr as (Hr1 & Hr2 & Hr3).
      exists ((p1s ++ [r]) ++ ps). split_and!; [| done |].
      * apply (Hk _ ps ds' q).
        -- intros x Hx. rewrite lookup_delete_ne by (intros ->; set_solver).
           apply lookup_insert_ne. intros ->. done.
        -- rewrite lookup_delete_ne by done. by rewrite lookup_insert_eq.
        -- apply chain_delete; [by apply chain_insert | done].
      * rewrite dom_delete_L, dom_insert_L, Hd. set_solver.
    + destruct Hp as (-> & -> & ->). do 2 eexists; split; [reflexivity |].
      exists ps. split_and!; [by apply chain_delete | done |]. rewrite dom_delete_L, Hd. set_solver.
  - specialize (IH fuel h head q ds' (p0s ++ [p]) (d0s ++ [d]) (Some p)).
    rewrite <- !app_assoc in IH. cbn [app] in IH.
    specialize (IH Hc' (passed_step _ _ _ _ _ _ _ _ Hp E) Hn Hd Hall ltac:(lia)).
    destruct (cut cmp ds') as [[o ds'']|f]; rewrite ?res_bind_ok, ?res_bind_err; [| done].
    cbn [fst snd]. destruct IH as (h' & head' & -> & Hh). exists h', head'. split; [done |].
    by rewrite <- app_assoc in Hh.
Qed.

Lemma list_cut_ok cmp h l ds :
  holds_items h l ds ->
  match cut cmp ds with
  | Ok (o, ds') => exists h' l', list_cut cmp h l = Ok (o, h', l') /\ holds_items h' l' ds'
  | Err f => list_cut cmp h l = Err f
  end.
Proof.
  intros (ps & Hc & Hn & Hd). pose proof (chain_size _ _ _ _ Hc Hn) as Hs.
  by apply (cut_loop_ok cmp ps (size h) h l l ds [] [] None).
Qed.

(** C34: the linked list is a sequence.  On an acyclic list, [list_add] with
    a fresh node prepends; [list_for_each] visits the items in order;
    [list_cut] (whose comparison may fault) ends, returns the first matching
    item, keeps the others in order and frees exactly that node; [list_free]
    frees every node. *)
Theorem list_refines cmp h l ds n item :
  holds_items h l ds -> n ∉ dom h ->
  (exists h', list_add (Some n) h l item = (0, h', Some n) /\ holds_items h' (Some n) (item :: ds)) /\
  list_for_each h l = Ok ds /\
  list_free h l = Ok (∅, None) /\
  match cut cmp ds with
  | Ok (o, ds') => exists h' l', list_cut cmp h l = Ok (o, h', l') /\ holds_items h' l' ds'
  | Err f => list_cut cmp h l = Err f
  end.
Proof.
  intros Hl Hn. split_and!; [by apply list_add_ok | by apply list_for_each_ok | by eapply list_free_ok |].
  by apply list_cut_ok.
Qed.
End LinkedList.
