(* ===== verification/Errors.v ===== *)
(** * Server errors: libtg/tg/errors.c, dc.h, strerr.c

    The text of an [rpc_error] decides what the client does next: move to
    another data centre or wait.  A C string is the list of its characters
    up to the terminating NUL, [None] stands for a NULL pointer. *)
From stdpp Require Import pretty.
From Stdlib Require Import Ascii String.
From S2P Require Import Prelude TlBuf Serial.

(** The characters of a literal. *)
Fixpoint chars (s : string) : list Z :=
  match s with
  | EmptyString => []
  | String a s => Z.of_N (N_of_ascii a) :: chars s
  end.

(** The string at an address: the characters before the first NUL. *)
Definition c_str (m : list Z) : res (list Z) := n ← strlen m; Ok (take (Z.to_nat n) m).

(** ** The C library *)
Fixpoint starts_with (pat s : list Z) : bool :=
  match pat, s with
  | [], _ => true
  | p :: pat, c :: s => (p =? c) && starts_with pat s
  | _, [] => false
  end.

(** [strstr]: what follows the start of the first occurrence. *)
Fixpoint strstr (s pat : list Z) : option (list Z) :=
  if starts_with pat s then Some s
  else match s with [] => None | _ :: s => strstr s pat end.

Definition is_space (c : Z) : bool := (c =? 32) || ((9 <=? c) && (c <=? 13)).
Definition is_digit (c : Z) : bool := (48 <=? c) && (c <=? 57).

Fixpoint skip_spaces (s : list Z) : list Z :=
  match s with
  | c :: s' => if is_space c then skip_spaces s' else s
  | [] => []
  end.

Fixpoint digits (acc : Z) (s : list Z) : Z :=
  match s with
  | c :: s => if is_digit c then digits (acc * 10 + (c - 48)) s else acc
  | [] => acc
  end.

Section Errors.
Context `{Platform}.

(** [atoi(s)] is [(int)strtol(s, NULL, 10)], and [strtol] saturates at the
    limits of [long]. *)
Definition atoi (s : list Z) : Z :=
  let s := skip_spaces s in
  let v := match s with
           | c :: t => if c =? 45 then - digits 0 t
                       else if c =? 43 then digits 0 t else digits 0 s
           | [] => 0
           end in
  i32 (Z.min (2 ^ (long_bits - 1) - 1) (Z.max (- 2 ^ (long_bits - 1)) v)).

(** ** errors.c *)
Definition tg_error_get_num (error pattern : list Z) : Z :=
  match strstr error pattern with
  | Some str => atoi (drop (length pattern) str)
  | None => 0
  end.

(** A pointer into [DCs] is its index; [None] is NULL. *)
Definition migrate (pattern : string) (error : option (list Z)) : option Z :=
  match error with
  | None => None
  | Some error =>
      let n := tg_error_get_num error (chars pattern) in
      if n =? 0 then None else Some n
  end.

Definition tg_error_migrate (error : option (list Z)) : option Z := migrate "MIGRATE_" error.
Definition tg_error_phone_migrate (error : option (list Z)) : option Z := migrate "PHONE_MIGRATE_" error.
Definition tg_error_user_migrate (error : option (list Z)) : option Z := migrate "USER_MIGRATE_" error.
Definition tg_error_file_migrate (error : option (list Z)) : option Z := migrate "FILE_MIGRATE_" error.

Definition tg_error_flood_wait (error : option (list Z)) : Z :=
  match error with
  | None => 0
  | Some error =>
      let n := tg_error_get_num error (chars "FLOOD_WAIT_") in
      if negb (n =? 0) then n else 0
  end.
End Errors.

(** ** dc.h *)
Record dc_t := Dc {
  dc : Z;                (* the enumerator *)
  number : Z;
  id_in_dh_params : Z;
  dc_name : string;
  ipv4 : string;
  ipv6 : string;
  description : string
}.

(** The rows of [DCS] with the enumerators [DC1], ..., [DC3t]; the second
    column is written in octal where it starts with 0. *)
Definition DC (n num : Z) (name ip4 ip6 desc : string) : dc_t := Dc n num n name ip4 ip6 desc.

Definition DCs : list dc_t := [
  Dc 0 0 0 "NULL" "0" "0" "NULL";
  DC 1 1 "pluto" "149.154.175.53" "2001:b28:f23d:f001::a" "MIA, Miami FL, USA";
  DC 2 2 "venus" "149.154.167.51" "2001:67c:4e8:f002::a" "AMS, Amsterdam, NL";
  DC 3 3 "aurora" "149.154.175.100" "2001:b28:f23d:f003::a" "MIA, Miami FL, USA";
  DC 4 4 "vesta" "149.154.167.91" "2001:67c:4e8:f004::a" "AMS, Amsterdam, NL";
  DC 5 5 "flora" "91.108.56.130" "2001:b28:f23f:f005::a" "SIN, Singapore";
  DC 6 10001 "pluto" "149.154.175.10" "2001:b28:f23f:f005::a" "MIA, Miami FL, USA TEST";
  DC 7 10002 "venus" "149.154.167.40" "2001:67c:4e8:f002::e" "AMS, Amsterdam, NL TEST";
  DC 8 10003 "aurora" "149.154.175.117" "2001:b28:f23d:f003::e" "MIA, Miami FL, USA TEST"
].

(** Reading through a pointer into the table. *)
Definition dc_at (n : Z) : res dc_t :=
  if 0 <=? n then match DCs !! Z.to_nat n with Some d => Ok d | None => Err OutOfBounds end
  else Err OutOfBounds.

(** ** The numbers in error texts *)
Lemma digits_app ds rest acc :
  Forall (fun c => is_digit c = true) ds -> (forall c r, rest = c :: r -> is_digit c = false) ->
  digits acc (ds ++ rest) = digits acc ds.
Proof.
  intros Hd Hr. revert acc. induction Hd as [|d ds Hc _ IH]; intros acc; cbn [app digits].
  - destruct rest as [|c r]; [done |]. cbn [digits]. by rewrite (Hr c r eq_refl).
  - rewrite Hc. apply IH.
Qed.

Lemma digits_nonneg ds : forall acc, 0 <= acc -> 0 <= digits acc ds.
Proof.
  induction ds as [|c ds IH]; intros acc Ha; cbn [digits]; [done |].
  unfold is_digit. destruct (Z.leb_spec 48 c), (Z.leb_spec c 57); cbn [andb]; try done.
  apply IH. lia.
Qed.

Section Numbers.
Context `{Platform}.

Lemma atoi_digits ds rest :
  ds <> [] -> Forall (fun c => is_digit c = true) ds -> (forall c r, rest = c :: r -> is_digit c = false) ->
  digits 0 ds < 2147483648 -> atoi (ds ++ rest) = digits 0 ds.
Proof.
  intros Hne Hd Hr Hv. pose proof (digits_nonneg ds 0 ltac:(lia)) as H0.
  unfold atoi. assert (Hs : skip_spaces (ds ++ rest) = ds ++ rest).
  { destruct ds as [|d ds]; [done |]. apply Forall_cons_1 in Hd as [Hd _]. cbn [app skip_spaces].
    unfold is_digit in Hd. unfold is_space.
    by replace ((d =? 32) || ((9 <=? d) && (d <=? 13))) with false by lia. }
  rewrite Hs.
  assert (Hv' : match ds ++ rest with
    | c :: t => if c =? 45 then - digits 0 t else if c =? 43 then digits 0 t else digits 0 (ds ++ rest)
    | [] => 0 end = digits 0 ds).
  { rewrite (digits_app ds rest 0 Hd Hr). destruct ds as [|d ds]; [done |]. cbn [app].
    apply Forall_cons_1 in Hd as [Hd _]. unfold is_digit in Hd.
    replace (d =? 45) with false by lia. replace (d =? 43) with false by lia. done. }
  rewrite Hv'. destruct long_bits_cases as [-> | ->].
  - change (2 ^ (32 - 1)) with 2147483648. rewrite Z.min_r, Z.max_r by lia. unfold i32. rewrite Z.mod_small; lia.
  - change (2 ^ (64 - 1)) with 9223372036854775808. rewrite Z.min_r, Z.max_r by lia.
    unfold i32. rewrite Z.mod_small; lia.
Qed.

(** The kinds of migration the server asks for. *)
Inductive migration := FILE | PHONE | USER | NETWORK | STATS.
Definition kind_name (k : migration) : string :=
  match k with FILE => "FILE_" | PHONE => "PHONE_" | USER => "USER_" | NETWORK => "NETWORK_" | STATS => "STATS_" end.

Definition migrate_text (k : migration) (ds rest : list Z) : list Z :=
  chars (kind_name k) ++ chars "MIGRATE_" ++ ds ++ rest.

Lemma get_num_migrate k ds rest :
  tg_error_get_num (migrate_text k ds rest) (chars "MIGRATE_") = atoi (ds ++ rest).
Proof. destruct k; reflexivity. Qed.

(** the number in an error text selects the data centre, without a
    bound.  For every kind of migration the client understands
    [..._MIGRATE_<n>] as a pointer to row [n] of [DCs]; that is the row
    meant for 1 to 8, no row for 0, and a read outside the table for any
    other number the server sends.  [FLOOD_WAIT_<n>] yields [n]. *)
Theorem error_number_selects_row k ds rest :
  ds <> [] -> Forall (fun c => is_digit c = true) ds -> (forall c r, rest = c :: r -> is_digit c = false) ->
  digits 0 ds < 2147483648 ->
  let n := digits 0 ds in
  tg_error_migrate (Some (migrate_text k ds rest)) = (if n =? 0 then None else Some n) /\
  (1 <= n <= 8 -> exists d, dc_at n = Ok d /\ dc d = n) /\
  (9 <= n -> dc_at n = Err OutOfBounds) /\
  tg_error_flood_wait (Some (chars "FLOOD_WAIT_" ++ ds ++ rest)) = n.
Proof.
  intros Hne Hd Hr Hv n. split_and!.
  - unfold tg_error_migrate, migrate. by rewrite get_num_migrate, atoi_digits.
  - intros Hn. assert (Hc : n = 1 \/ n = 2 \/ n = 3 \/ n = 4 \/ n = 5 \/ n = 6 \/ n = 7 \/ n = 8) by lia.
    clearbody n. decompose [or] Hc; subst n; eexists; by split.
  - intros Hn. unfold dc_at. destruct (Z.leb_spec 0 n); [| lia].
    rewrite (lookup_ge_None_2 DCs); [done |]. change (length DCs) with 9%nat. lia.
  - unfold tg_error_flood_wait. assert (E : tg_error_get_num (chars "FLOOD_WAIT_" ++ ds ++ rest) (chars "FLOOD_WAIT_") = n).
    { change (tg_error_get_num (chars "FLOOD_WAIT_" ++ ds ++ rest) (chars "FLOOD_WAIT_")) with (atoi (ds ++ rest)).
      by apply atoi_digits. }
    rewrite E. by destruct (Z.eqb_spec n 0).
Qed.
End Numbers.
