(* ===== verification/Objects.v ===== *)
(** * TL objects, their errors and compression: libtg/tl/tl.h, tg/strerr.c,
    tl/gunzip.c, tg/tg.c

    The generated structures begin with [_id] and [_buf], the bytes the
    object was read from.  The constructors the protocol layers inspect are
    below; all others, and those whose members only the parts over the queue
    read, are given by their number and their members ([Object]).  zlib is
    an interface. *)
From Stdlib Require Import String.
From stdpp Require Import pretty.
From S2P Require Import Prelude TlBuf Serial Packet Errors.

(** A pointer to another object is [None] when it is NULL. *)
Inductive tl_t := Tl (_buf : buf_t) (obj : tl_obj)
with tl_obj :=
| Rpc_result (req_msg_id_ : Z) (result_ : option tl_t)
| Rpc_error (error_code_ : Z) (error_message_ : buf_t)
| Msg_container (messages_ : list mtp_message_t)
| Gzip_packed (packed_data_ : buf_t)
| Bad_server_salt
| Bad_msg_notification (error_code_ : Z)
| New_session_created
| Pong
| Msgs_ack (msg_ids_ : list Z)
| Msg_detailed_info (answer_msg_id_ : Z)
| Msg_new_detailed_info (answer_msg_id_ : Z)
| UpdatesTooLong
| UpdateShort (m : list (string * slot))
| UpdateShortMessage (m : list (string * slot))
| UpdateShortChatMessage (m : list (string * slot))
| UpdateShortSentMessage
| UpdatesCombined (m : list (string * slot))
| Updates (m : list (string * slot))
| BoolTrue
| Upload_file (type_ : option tl_t) (mtime_ : Z) (bytes_ : buf_t)
| Vector (len_ : Z) (data_ : buf_t)
| Account_password (current_algo_ : option tl_t) (srp_B_ : buf_t) (srp_id_ : Z)
| PasswordKdfAlgoModPow (salt1_ salt2_ : buf_t) (g_ : Z) (p_ : buf_t)
| Auth_authorization (setup_password_required_ : bool) (future_auth_token_ : buf_t) (user_ : option tl_t)
| Auth_sentCode (phone_code_hash_ : buf_t)
| Config (dc_options_ : list (option (Z * buf_t)))   (* id_, ip_address_ *)
| User (m : list (string * slot))
| Object (id : Z) (m : list (string * slot))
(** A member: a number or flag, a byte string, a pointer to an object, an
    array of pointers, numbers, byte strings or messages (with its length), or
    a length that was refused, without an array.  A member the server did not
    send is zero, as the structure is allocated. *)
with slot :=
| SNum (z : Z)
| SBuf (b : buf_t)
| SPtr (t : option tl_t)
| SVec (l : list (option tl_t))
| SNums (l : list Z)
| SBufs (l : list buf_t)
| SMsgs (l : list mtp_message_t)
| SLen (n : Z).

Definition _buf (tl : tl_t) : buf_t := match tl with Tl b _ => b end.
Definition obj (tl : tl_t) : tl_obj := match tl with Tl _ o => o end.

(** The constructor numbers of the schema in tl_generator. *)
Definition _id (tl : tl_t) : Z :=
  match obj tl with
  | Rpc_result _ _ => 0xf35c6d01
  | Rpc_error _ _ => 0x2144ca19
  | Msg_container _ => 0x73f1f8dc
  | Gzip_packed _ => 0x3072cfa1
  | Bad_server_salt => 0xedab447b
  | Bad_msg_notification _ => 0xa7eff811
  | New_session_created => 0x9ec20908
  | Pong => 0x347773c5
  | Msgs_ack _ => 0x62d6b459
  | Msg_detailed_info _ => 0x276d3ec6
  | Msg_new_detailed_info _ => 0x809db6df
  | UpdatesTooLong => 0xe317af7e
  | UpdateShort _ => 0x78d4dec1
  | UpdateShortMessage _ => 0x313bc7f8
  | UpdateShortChatMessage _ => 0x4d6deea5
  | UpdateShortSentMessage => 0x9015e101
  | UpdatesCombined _ => 0x725b04c3
  | Updates _ => 0x74ae4240
  | BoolTrue => 0x997275b5
  | Upload_file _ _ _ => 0x096a18d5
  | Vector _ _ => 0x1cb5c415
  | Account_password _ _ _ => 0x957b50fb
  | PasswordKdfAlgoModPow _ _ _ _ => 0x3a912d4a
  | Auth_authorization _ _ _ => 0x2ea2c0d4
  | Auth_sentCode _ => 0x5e002502
  | Config _ => 0xcc1a241e
  | User _ => 0x83314fca
  | Object id _ => id
  end.

(** The members of a structure, in its order. *)
Definition members (t : tl_t) : list (string * slot) :=
  match obj t with
  | UpdateShort m | UpdateShortMessage m | UpdateShortChatMessage m | UpdatesCombined m | Updates m | User m | Object _ m => m
  | _ => []
  end.
Fixpoint slot_of (n : string) (m : list (string * slot)) : option slot :=
  match m with [] => None | (k, v) :: m => if String.eqb n k then Some v else slot_of n m end.
Definition num_of (n : string) (t : tl_t) : Z := match slot_of n (members t) with Some (SNum z) => z | _ => 0 end.
Definition buf_of (n : string) (t : tl_t) : buf_t := match slot_of n (members t) with Some (SBuf b) => b | _ => Buf [] 0 0 0 end.
Definition ptr_of (n : string) (t : tl_t) : option tl_t := match slot_of n (members t) with Some (SPtr p) => p | _ => None end.
Definition vec_of (n : string) (t : tl_t) : list (option tl_t) := match slot_of n (members t) with Some (SVec l) => l | _ => [] end.
Definition nums_of (n : string) (t : tl_t) : list Z := match slot_of n (members t) with Some (SNums l) => l | _ => [] end.
(** What a cast to a structure whose first member is a number reads. *)
Definition first_num (t : tl_t) : Z := match members t with (_, SNum z) :: _ => z | _ => 0 end.

(** ** zlib *)
(** [inflate (s, n)]: the return code for input [s] and an output area of
    [n] bytes, and the bytes written.  On a gzip stream with enough room it
    ends with [Z_STREAM_END]; with too little it fills the area and returns
    [Z_BUF_ERROR]. *)
Class Zlib := {
  gzip : list Z -> list Z;
  inflate : list Z -> Z -> Z * list Z;
  gzip_ok : forall m, bytes_ok m -> bytes_ok (gzip m);
  inflate_bound : forall s n, 0 <= n -> zlen (snd (inflate s n)) <= n;
  inflate_ok : forall s n, bytes_ok (snd (inflate s n));
  inflate_gzip : forall m n, bytes_ok m -> 0 <= n ->
    inflate (gzip m) n = if zlen m <=? n then (1, m) else (-5, take (Z.to_nat n) m)
}.

Definition Z_OK : Z := 0.
Definition Z_STREAM_END : Z := 1.
Definition Z_NEED_DICT : Z := 2.
Definition Z_STREAM_ERROR : Z := -2.
Definition Z_DATA_ERROR : Z := -3.
Definition Z_MEM_ERROR : Z := -4.
Definition Z_BUF_ERROR : Z := -5.

Open Scope string_scope.
Definition gunzip_buf_err (err : Z) : string :=
  if negb (err =? Z_OK)%Z && negb (err =? Z_STREAM_END)%Z then
    if (err =? Z_BUF_ERROR)%Z then
      "gunzip_buf_err: Z_BUF_ERROR (uncompress error: no progress is possible; either avail_in: or avail_out was zero)"
    else if (err =? Z_MEM_ERROR)%Z then
      "gunzip_buf_err: Z_MEM_ERROR (uncompress error: Insufficient memory)"
    else if (err =? Z_STREAM_ERROR)%Z then
      "gunzip_buf_err: Z_STREAM_ERROR (uncompress error: The state (as represented in stream) is inconsistent, or stream was NULL)"
    else if (err =? Z_NEED_DICT)%Z then
      "gunzip_buf_err: Z_NEED_DICT (uncompress error: A preset dictionary is required. The adler field shall be set to the Adler-32 checksum of the dictionary chosen by the compressor)"
    else if (err =? Z_DATA_ERROR)%Z then
      "gunzip_buf_err: Z_NEED_DICT (uncompress error: data is corrupted" ++ String (Ascii.ascii_of_nat 10) ")"
    else "gunzip_buf_err: uncompress error: " ++ pretty err
  else "no error".

(** ** tg/strerr.c *)
Definition hex_digit (n : Z) : string :=
  match String.get (Z.to_nat n) "0123456789abcdef" with Some c => String c "" | None => "" end.
(* [%.8x] *)
Fixpoint hex8 (k : nat) (z : Z) (acc : string) : string :=
  match k with
  | O => acc
  | S k => hex8 k (z / 16)%Z (hex_digit (z mod 16)%Z ++ acc)
  end.
Close Scope string_scope.

Section Strerr.
Context `{Platform}.
(* [TL_NAME_FROM_ID], generated from the schema; [None] is NULL. *)
Variable TL_NAME_FROM_ID : Z -> option string.

Definition tg_strerr (tl : option tl_t) : res (list Z) :=
  match tl with
  | None => Ok (chars "OBJECT_IS_NULL")
  | Some tl =>
      if _id tl =? 0xfffffe6c then Ok (chars "404_ERROR")
      else match obj tl with
           | Rpc_error _ msg =>
               (* strndup *)
               m ← load msg (b_size msg);
               Ok (match strlen m with Ok n => take (Z.to_nat n) m | Err _ => m end)
           | Bad_msg_notification code => Ok (chars ("BAD_MSG_NOTIFICATION: " ++ pretty code)%string)
           | _ => Ok (chars ("UMANAGED TL: tl_" ++ default "(null)" (TL_NAME_FROM_ID (_id tl))
                               ++ "_t (" ++ hex8 8 (_id tl) "" ++ ")")%string)
           end
  end.
End Strerr.

(** ** tl/gunzip.c *)
Section Gunzip.
Context `{Platform} `{Zlib}.

(** The return value and [dst].  An error return leaves [dst] initialised
    with size 0 and whatever [inflate] wrote; the failure of
    [inflateInit2] is an allocation failure inside zlib and left out. *)
Definition gunzip_buf (src : buf_t) : res (Z * buf_t) :=
  dst ← buf_init;
  dst ← buf_realloc_ dst (u32 (b_size src * 10));
  s ← load src (b_size src);
  let '(ret, out) := inflate s (b_asize dst) in
  dst ← store dst out;
  if negb (ret =? Z_OK) && negb (ret =? Z_STREAM_END) then Ok (ret, dst)
  else Ok (0, set_size dst (zlen out)).

Variable tl_table : list (Z * (buf_t -> res (option tl_t * buf_t))).

(** [tl_deserialize] over the generated table, without the advanced buffer. *)
Definition deserialize (b : buf_t) : res (option tl_t) := r ← tl_deserialize tl_table b; Ok (fst r).

(** tg/tg.c *)
Definition tg_tl_from_gzip (tl : option tl_t) : res (option tl_t) :=
  match tl with
  | None => Ok None
  | Some tl =>
      match obj tl with
      | Gzip_packed packed =>
          '(_e, buf) ← gunzip_buf packed;
          if negb (_e =? 0) then Ok None else deserialize buf
      | _ => Ok None
      end
  end.

(** The room [gunzip_buf] makes. *)
Definition gunzip_room (n : Z) : Z := Z.max BUFSIZ (n * 10).

Lemma gunzip_ok src s ret out :
  buf_wf src -> fits (b_size src * 10) -> contents src = s ->
  inflate s (gunzip_room (b_size src)) = (ret, out) ->
  exists b, gunzip_buf src = Ok (if negb (ret =? Z_OK) && negb (ret =? Z_STREAM_END) then (ret, b)
                                else (0, set_size b (zlen out))) /\
    b = Buf (b_mem (mk_buf out (gunzip_room (b_size src)))) 0 0 (gunzip_room (b_size src)) /\
    zlen out <= gunzip_room (b_size src).
Proof.
  intros Hw Hf Hs Hi. platform. pose proof Hw as (_ & _ & _ & Hsz & _).
  assert (Hroom : 0 <= gunzip_room (b_size src)) by (unfold gunzip_room; lia).
  pose proof (inflate_bound s _ Hroom) as Hb. rewrite Hi in Hb. cbn [snd] in Hb.
  eexists; split; [| split; [reflexivity | done]].
  unfold gunzip_buf. rewrite buf_init_ok, (res_bind_ok (fresh [])).
  assert (E : buf_realloc_ (fresh []) (u32 (b_size src * 10)) = Ok (mk_buf [] (gunzip_room (b_size src)))).
  { rewrite u32_id by (unfold is_u32; lia). unfold buf_realloc_. by rewrite realloc_fresh. }
  rewrite E, res_bind_ok. rewrite load_ok, (res_bind_ok (contents src)), Hs by done.
  cbn [b_asize mk_buf]. rewrite Hi, store_mk, res_bind_ok by done.
  by destruct (negb (ret =? Z_OK) && negb (ret =? Z_STREAM_END)).
Qed.

(** decompression stops at ten times the input.  [gunzip_buf] of a gzip
    stream returns 0 and exactly the data when they fit into the larger of
    [BUFSIZ] and ten times the compressed size; otherwise it returns
    [Z_BUF_ERROR], and [tg_tl_from_gzip] has no object: an answer that
    compresses better than that is lost. *)
Theorem gunzip_ratio_limit src m b0 :
  buf_wf src -> contents src = gzip m -> bytes_ok m -> fits (b_size src * 10) -> fits (zlen m) ->
  (zlen m <= gunzip_room (b_size src) ->
   exists b, gunzip_buf src = Ok (0, b) /\ buf_wf b /\ contents b = m) /\
  (gunzip_room (b_size src) < zlen m ->
   (exists b, gunzip_buf src = Ok (Z_BUF_ERROR, b) /\ b_size b = 0) /\
   tg_tl_from_gzip (Some (Tl b0 (Gzip_packed src))) = Ok None).
Proof.
  intros Hw Hs Hm Hf Hfm. platform. pose proof Hw as (_ & _ & _ & Hsz & _).
  assert (Hroom : 0 <= gunzip_room (b_size src)) by (unfold gunzip_room; lia).
  pose proof (inflate_gzip m _ Hm Hroom) as Hi. split; intros Hl.
  - replace (zlen m <=? _) with true in Hi by lia.
    destruct (gunzip_ok src _ _ _ Hw Hf Hs Hi) as (b & E & -> & _).
    eexists; split; [exact E |]. change (set_size _ _) with (mk_buf m (gunzip_room (b_size src))).
    split; [| by rewrite contents_mk].
    apply mk_buf_wf; [done | done |]. unfold gunzip_room. lia.
  - replace (zlen m <=? _) with false in Hi by lia.
    destruct (gunzip_ok src _ _ _ Hw Hf Hs Hi) as (b & E & Hb & _). cbn in E. split.
    + exists b. split; [done | by rewrite Hb].
    + unfold tg_tl_from_gzip. cbn [obj]. by rewrite E, res_bind_ok.
Qed.
End Gunzip.
