(* ===== verification/Queue.v ===== *)
(** * The query queue: libtg/tg/queue.c, queue.h, net.c, tg.c

    Every query runs in a thread of its own: [tg_run_queue] opens a socket,
    puts the queue object into the list [tg->queue], sends, and receives
    packets until [loop] is cleared; [handle_tl] walks through a received
    object and [catched_tl] hands a result to the query that waits for it.

    The world below is what these functions share.  A queue object is an
    address in [w_queues]; a freed one is absent, so a later access is the
    fault [UseAfterFree].  A thread runs without interruption in this file;
    a mutex is a flag, and locking one that is held is the fault
    [Deadlock].  Reporting ([ON_LOG], [ON_ERR]), the database mutex and the
    failure of small allocations and of [pthread_*] calls are left out. *)
From Stdlib Require Import String.
From S2P Require Import Prelude TlBuf Serial Tg Packet LinkedList Errors Objects.

(** [on_done] with its [userdata]: the callback of the synchronous calls,
    which stores into a variable of the caller, or one of the application. *)
Inductive callback := Sync (slot : nat) | User (k : nat).
Inductive thread := RunThread (q : nat) | TimerThread (q : nat).

Record tg_queue_t := Queue {
  ip : list Z;
  port : Z;
  p : option thread;
  socket : Z;
  loop : bool;
  multithread : bool;
  query : buf_t;
  msgid : Z;
  lock : bool;
  inloop_lock : bool;
  on_done : option callback;
  progress : option nat
}.

Definition set_p v q := Queue (ip q) (port q) v (socket q) (loop q) (multithread q) (query q) (msgid q) (lock q) (inloop_lock q) (on_done q) (progress q).
Definition set_socket v q := Queue (ip q) (port q) (p q) v (loop q) (multithread q) (query q) (msgid q) (lock q) (inloop_lock q) (on_done q) (progress q).
Definition set_loop v q := Queue (ip q) (port q) (p q) (socket q) v (multithread q) (query q) (msgid q) (lock q) (inloop_lock q) (on_done q) (progress q).
Definition set_msgid v q := Queue (ip q) (port q) (p q) (socket q) (loop q) (multithread q) (query q) v (lock q) (inloop_lock q) (on_done q) (progress q).
Definition set_lock v q := Queue (ip q) (port q) (p q) (socket q) (loop q) (multithread q) (query q) (msgid q) v (inloop_lock q) (on_done q) (progress q).
Definition set_inloop v q := Queue (ip q) (port q) (p q) (socket q) (loop q) (multithread q) (query q) (msgid q) (lock q) v (on_done q) (progress q).

(** What a run leaves behind besides the new state. *)
Inductive event :=
| OnDone (q : nat) (tl : option tl_t)    (* a call of [on_done] *)
| Slept (seconds : Z)
| IpToDatabase (ip : list Z)
| DoUpdates (tl : tl_t)                  (* [tg_do_updates] *)
| Started (t : thread)
| Opened (fd : Z) (ip : list Z) (port : Z)
| Sent (fd : Z) (bytes : list Z)
| Closed (fd : Z).

(** The future of a connection: the blocks of bytes that arrive, or an
    error ([None]); after the last one the peer has closed it. *)
Abbreviation stream := (list (option (list Z))).

Record world := World {
  w_tg : tg_t;
  w_ip : list Z;                                  (* tg->ip *)
  w_port : Z;                                     (* tg->port *)
  w_config : option (list (option (Z * buf_t)));  (* tg->config->dc_options_: id_, ip_address_ *)
  w_queues : gmap nat tg_queue_t;
  w_next : nat;                                   (* the next address [malloc] returns *)
  w_nodes : gmap nat (@list_t nat);
  w_head : option nat;                            (* tg->queue *)
  w_queue_lock : bool;
  w_socket_mutex : bool;
  w_slots : gmap nat (option tl_t);               (* variables of waiting callers *)
  w_net : gmap Z stream;                          (* open sockets *)
  w_fds : Z;                                      (* the next descriptor *)
  w_events : list event
}.

Definition set_tg v w := World v (w_ip w) (w_port w) (w_config w) (w_queues w) (w_next w) (w_nodes w) (w_head w) (w_queue_lock w) (w_socket_mutex w) (w_slots w) (w_net w) (w_fds w) (w_events w).
Definition set_server i n w := World (w_tg w) i n (w_config w) (w_queues w) (w_next w) (w_nodes w) (w_head w) (w_queue_lock w) (w_socket_mutex w) (w_slots w) (w_net w) (w_fds w) (w_events w).
Definition set_queues v w := World (w_tg w) (w_ip w) (w_port w) (w_config w) v (w_next w) (w_nodes w) (w_head w) (w_queue_lock w) (w_socket_mutex w) (w_slots w) (w_net w) (w_fds w) (w_events w).
Definition set_next v w := World (w_tg w) (w_ip w) (w_port w) (w_config w) (w_queues w) v (w_nodes w) (w_head w) (w_queue_lock w) (w_socket_mutex w) (w_slots w) (w_net w) (w_fds w) (w_events w).
Definition set_list h l w := World (w_tg w) (w_ip w) (w_port w) (w_config w) (w_queues w) (w_next w) h l (w_queue_lock w) (w_socket_mutex w) (w_slots w) (w_net w) (w_fds w) (w_events w).
Definition set_queue_lock v w := World (w_tg w) (w_ip w) (w_port w) (w_config w) (w_queues w) (w_next w) (w_nodes w) (w_head w) v (w_socket_mutex w) (w_slots w) (w_net w) (w_fds w) (w_events w).
Definition set_socket_mutex v w := World (w_tg w) (w_ip w) (w_port w) (w_config w) (w_queues w) (w_next w) (w_nodes w) (w_head w) (w_queue_lock w) v (w_slots w) (w_net w) (w_fds w) (w_events w).
Definition set_slots v w := World (w_tg w) (w_ip w) (w_port w) (w_config w) (w_queues w) (w_next w) (w_nodes w) (w_head w) (w_queue_lock w) (w_socket_mutex w) v (w_net w) (w_fds w) (w_events w).
Definition set_net v n w := World (w_tg w) (w_ip w) (w_port w) (w_config w) (w_queues w) (w_next w) (w_nodes w) (w_head w) (w_queue_lock w) (w_socket_mutex w) (w_slots w) v n (w_events w).
Definition log e w := World (w_tg w) (w_ip w) (w_port w) (w_config w) (w_queues w) (w_next w) (w_nodes w) (w_head w) (w_queue_lock w) (w_socket_mutex w) (w_slots w) (w_net w) (w_fds w) (w_events w ++ [e]).

Abbreviation Q := (ST world).

(** The handshake of mtx ([api.app.open] and [shared_rc]), what a connection
    attempt yields, and the application's progress callbacks. *)
Record shared_rc_t := SharedRc {
  rc_key : list Z; rc_salt : list Z; rc_seqnh : Z; rc_stream : stream
}.
Class Network := {
  app_open : list Z -> Z -> shared_rc_t;
  dial : list Z -> Z -> Z -> option stream;
  progress_cb : nat -> Z -> Z -> Z
}.

Section Queue.
Context `{Env} `{OpenSSL} `{Zlib} `{Network}.
Variable tl_table : list (Z * (buf_t -> res (option tl_t * buf_t))).

(** ** Access to the world *)
Definition on_tg {A} (m : TG A) : Q A := zoom w_tg set_tg m.

Definition get_queue (a : nat) : Q tg_queue_t := fun w =>
  match w_queues w !! a with Some q => Ok (q, w) | None => Err UseAfterFree end.
Definition put_queue (a : nat) (f : tg_queue_t -> tg_queue_t) : Q unit :=
  q ← get_queue a; modify (fun w => set_queues (<[a := f q]> (w_queues w)) w).

(** [tg_mutex_lock] on a queue's lock, on [tg->queue_lock], and on the lock
    a thread holds while it runs. *)
Definition lock_queue (a : nat) : Q unit :=
  q ← get_queue a;
  if lock q then fail Deadlock else put_queue a (set_lock true).
Definition unlock_queue (a : nat) : Q unit := put_queue a (set_lock false).
Definition lock_list : Q unit :=
  l ← gets w_queue_lock;
  if l : bool then fail Deadlock else modify (set_queue_lock true).
Definition unlock_list : Q unit := modify (set_queue_lock false).
Definition lock_inloop (a : nat) : Q unit :=
  q ← get_queue a;
  if inloop_lock q then fail Deadlock else put_queue a (set_inloop true).

Fixpoint for_all {A} (f : A -> Q unit) (l : list A) : Q unit :=
  match l with [] => mret tt | x :: l => _ ← f x; for_all f l end.

(** ** Sockets *)
Definition new_socket (s : stream) : Q Z :=
  fd ← gets w_fds;
  _ ← modify (fun w => set_net (<[fd := s]> (w_net w)) (fd + 1) w);
  mret fd.

Definition tg_net_open (ip : list Z) (port : Z) : Q Z :=
  n ← gets w_fds;
  match dial ip port n with
  | None => mret (-1)
  | Some s =>
      fd ← new_socket s;
      _ ← modify (log (Opened fd ip port));
      _ ← modify (log (Sent fd [0xee; 0xee; 0xee; 0xee]));
      mret fd
  end.

Definition tg_net_close (fd : Z) : Q unit :=
  _ ← modify (fun w => set_net (delete fd (w_net w)) (w_fds w) w);
  modify (log (Closed fd)).

(** [None] is the return value -1; a closed connection delivers no bytes. *)
Definition recv (fd n : Z) : Q (option (list Z)) := fun w =>
  match w_net w !! fd with
  | None => Ok (None, w)
  | Some [] => Ok (Some [], w)
  | Some (None :: s) => Ok (None, set_net (<[fd := s]> (w_net w)) (w_fds w) w)
  | Some (Some bs :: s) =>
      if zlen bs <=? n then Ok (Some bs, set_net (<[fd := s]> (w_net w)) (w_fds w) w)
      else Ok (Some (take (Z.to_nat n) bs),
               set_net (<[fd := Some (drop (Z.to_nat n) bs) :: s]> (w_net w)) (w_fds w) w)
  end.

(** 0, or -1 on a closed socket. *)
Definition send (fd : Z) (b : buf_t) : Q Z :=
  n ← gets w_net;
  match n !! fd with
  | None => mret (-1)
  | Some _ => bs ← lift (load b (b_size b)); _ ← modify (log (Sent fd bs)); mret 0
  end.

(** ** The list of queues *)
Definition cmp_msgid (qs : gmap nat tg_queue_t) (msg_id : Z) (item : nat) : res bool :=
  match qs !! item with Some q => Ok (msg_id =? msgid q) | None => Err UseAfterFree end.

Definition tg_queue_cut (msg_id : Z) : Q (option nat) :=
  _ ← lock_list;
  w ← gets id;
  r ← lift (list_cut (cmp_msgid (w_queues w) msg_id) (w_nodes w) (w_head w));
  let '(queue, h, l) := r in
  _ ← modify (set_list h l);
  _ ← unlock_list;
  mret queue.

Definition tg_queue_add (queue : nat) : Q unit :=
  _ ← lock_list;
  w ← gets id;
  let '(_, h, l) := list_add (Some (base.fresh (dom (w_nodes w)))) (w_nodes w) (w_head w) queue in
  _ ← modify (set_list h l);
  unlock_list.

(** [strncpy(ip, s, 15)] into 16 zeroed bytes. *)
Definition copy_ip (s : list Z) : list Z := take 15 s.

Definition tg_queue_new (query : buf_t) (ip : list Z) (port : Z) (multithread : bool)
    (on_done : option callback) (progress : option nat) : Q nat :=
  a ← gets w_next;
  _ ← modify (set_next (S a));
  copy ← lift (buf_add_buf query);
  let q := Queue (copy_ip ip) port None 0 true multithread copy 0 false false on_done progress in
  _ ← modify (fun w => set_queues (<[a := q]> (w_queues w)) w);
  _ ← put_queue a (set_p (Some (RunThread a)));
  _ ← modify (log (Started (RunThread a)));
  _ ← put_queue a (set_p (Some (TimerThread a)));
  _ ← modify (log (Started (TimerThread a)));
  mret a.

(** ** Errors that restart a query *)
Definition flood_wait_for_seconds (queue : nat) (seconds : Z) : Q unit :=
  _ ← modify (log (Slept (u32 seconds)));
  q ← get_queue queue;
  _ ← tg_queue_new (Queue.query q) (ip q) (port q) (multithread q) (on_done q) (progress q);
  mret tt.

Fixpoint dc_option (l : list (option (Z * buf_t))) (dc : Z) : option buf_t :=
  match l with
  | [] => None
  | None :: l => dc_option l dc
  | Some (id_, ip_address_) :: l => if id_ =? dc then Some ip_address_ else dc_option l dc
  end.

Definition tg_ip_address_for_dc (dc : Z) : Q (option (list Z)) :=
  c ← gets w_config;
  match c with
  | None => mret None
  | Some l =>
      match dc_option l dc with
      | None => mret None
      | Some b => s ← lift (c_str (data_at b 0)); mret (Some s)
      end
  end.

Definition tg_set_server_address (ip : list Z) (port : Z) : Q unit :=
  modify (set_server (copy_ip ip) port).

(** [tl] enters only through its error text. *)
Definition migrate_to_dc (queue : nat) (dc : Z) (error : list Z) : Q unit :=
  d ← lift (dc_at dc);
  ip ← tg_ip_address_for_dc (number d);
  let ip := default (chars (ipv4 d)) ip in
  _ ← match tg_error_file_migrate (Some error) with
      | None =>
          n ← gets w_port;
          _ ← tg_set_server_address ip n;
          modify (log (IpToDatabase ip))
      | Some _ => mret tt
      end;
  q ← get_queue queue;
  _ ← tg_queue_new (Queue.query q) ip (port q) (multithread q) (on_done q) (progress q);
  mret tt.
(** ** Delivering a result *)
(** [ntp_time_diff] of ntp.c returns at its first statement. *)
Definition ntp_time_diff : Z := 0.
Definition reset_timediff : Q unit := on_tg (modify (set_timediff ntp_time_diff)).

(** [*tlp = tl_deserialize(&tl->_buf)] *)
Definition tg_send_query_sync_cb (slot : nat) (tl : option tl_t) : Q unit :=
  match tl with
  | None => fail NullDeref
  | Some tl =>
      r ← lift (deserialize tl_table (_buf tl));
      modify (fun w => set_slots (<[slot := r]> (w_slots w)) w)
  end.

(** [if (queue->on_done) queue->on_done(queue->userdata, tl);] *)
Definition run_on_done (queue : nat) (tl : option tl_t) : Q unit :=
  q ← get_queue queue;
  match on_done q with
  | None => mret tt
  | Some c =>
      _ ← modify (log (OnDone queue tl));
      match c with
      | Sync slot => tg_send_query_sync_cb slot tl
      | User _ => mret tt
      end
  end.

(** [queue->loop = false; tg_mutex_unlock(&queue->lock);] *)
Definition stop_queue (queue : nat) : Q unit :=
  _ ← put_queue queue (set_loop false); unlock_queue queue.

Definition finish_queue (queue : nat) (tl : option tl_t) : Q unit :=
  _ ← run_on_done queue tl; stop_queue queue.

(** The text of an [rpc_error]: [RPC_ERROR(tl)]. *)
Definition RPC_ERROR (error_message_ : buf_t) : res (list Z) := c_str (data_at error_message_ 0).

Definition catched_tl (msg_id : Z) (tl : option tl_t) : Q unit :=
  o ← tg_queue_cut msg_id;
  match o with
  | None => mret tt
  | Some queue =>
      q ← get_queue queue;
      if negb (loop q) then mret tt
      else
        _ ← lock_queue queue;
        match tl with
        | None => _ ← run_on_done queue None; unlock_queue queue
        | Some t =>
            match obj t with
            | Gzip_packed packed =>
                g ← lift (gunzip_buf packed);
                ttl ← (if negb (fst g =? 0) then mret None
                       else lift (deserialize tl_table (snd g)));
                finish_queue queue ttl
            | Bad_msg_notification _ =>
                _ ← reset_timediff;
                finish_queue queue None
            | Rpc_error _ message =>
                error ← lift (RPC_ERROR message);
                match tg_error_migrate (Some error) with
                | Some dc => _ ← migrate_to_dc queue dc error; stop_queue queue
                | None =>
                    let wait := tg_error_flood_wait (Some error) in
                    if negb (wait =? 0) then _ ← flood_wait_for_seconds queue wait; stop_queue queue
                    else finish_queue queue tl
                end
            | _ => finish_queue queue tl
            end
        end
  end.

(** The recursion is bounded by [fuel]; objects nest through containers and
    compressed objects. *)
Fixpoint handle_tl (fuel : nat) (queue : nat) (tl : option tl_t) : Q unit :=
  match tl with
  | None => mret tt
  | Some t =>
      match fuel with
      | O => fail NoFuel
      | S fuel =>
          match obj t with
          | Gzip_packed packed =>
              (* an error of [gunzip_buf] is only reported *)
              g ← lift (gunzip_buf packed);
              ttl ← lift (deserialize tl_table (snd g));
              handle_tl fuel queue ttl
          | Msg_container messages =>
              for_all (fun m =>
                _ ← on_tg (tg_add_msgid (u64 (msg_id m)));
                ttl ← lift (deserialize tl_table (body m));
                handle_tl fuel queue ttl) messages
          | Bad_msg_notification _ => reset_timediff
          | Rpc_error _ message =>
              error ← lift (RPC_ERROR message);
              match tg_error_migrate (Some error) with
              | Some dc => _ ← migrate_to_dc queue dc error; put_queue queue (set_loop false)
              | None =>
                  let wait := tg_error_flood_wait (Some error) in
                  if negb (wait =? 0) then
                    _ ← flood_wait_for_seconds queue wait; put_queue queue (set_loop false)
                  else mret tt
              end
          | Msg_detailed_info answer | Msg_new_detailed_info answer => catched_tl answer None
          | Rpc_result req result => catched_tl req result
          | UpdatesTooLong | UpdateShort _ | UpdateShortMessage _ | UpdateShortChatMessage _
          | UpdateShortSentMessage | UpdatesCombined _ | Updates _ => modify (log (DoUpdates t))
          | _ => mret tt
          end
      end
  end.

(** ** Receiving a packet *)
Inductive RTL := RTL_EXIT | RTL_ERROR | RTL_REREAD | RTL_RESEND.

(** [while (received < len)]: the filled buffer, or the value the function
    returns early. *)
Fixpoint receive_loop (fuel : nat) (queue : nat) (sockfd len received : Z) (r : buf_t)
  : Q (RTL + buf_t) :=
  if received <? len then
    match fuel with
    | O => fail NoFuel
    | S fuel =>
        s ← recv sockfd (len - received);
        match s with
        | None => mret (inl RTL_ERROR)
        | Some bs =>
            m ← lift (copy_loop (length bs) 0 (b_mem r) (fun i => b_off r + received + i) bs);
            let r := set_mem r m in
            let received := received + zlen bs in
            q ← get_queue queue;
            match progress q with
            | Some k =>
                if negb (progress_cb k received len =? 0) then
                  _ ← on_tg (tg_add_todrop (msgid q)); mret (inl RTL_EXIT)
                else receive_loop fuel queue sockfd len received r
            | None => receive_loop fuel queue sockfd len received r
            end
        end
    end
  else mret (inr r).

(** [junk]: the uninitialised bytes of the variable [len]. *)
Definition _tg_receive (fuel : nat) (junk : list Z) (queue : nat) (sockfd : Z) : Q RTL :=
  r ← lift buf_new;
  s ← recv sockfd 4;
  match s with
  | None => mret RTL_ERROR
  | Some bs =>
      let len := le_num (bs ++ drop (length bs) junk) in
      e ← lift (buf_realloc r len);
      if negb (fst e =? 0) then mret RTL_ERROR
      else
        x ← receive_loop fuel queue sockfd len 0 (snd e);
        match x with
        | inl res => mret res
        | inr r =>
            let r := set_size r len in
            w0 ← (if b_size r =? 4 then lift (buf_get_ui32 r) else mret 0);
            if w0 =? 0xfffffe6c then mret RTL_ERROR
            else
              tg ← gets w_tg;
              d ← lift (tg_decrypt tg r true);
              if b_size d =? 0 then mret RTL_ERROR
              else
                msg ← on_tg (tg_deheader d true);
                tl ← lift (deserialize tl_table msg);
                match tl with
                | None => fail NullDeref
                | Some t =>
                    match obj t with
                    | Bad_server_salt => mret RTL_RESEND
                    | _ => _ ← handle_tl fuel queue tl; mret RTL_REREAD
                    end
                end
        end
  end.

(** ** Sending *)
Definition tg_send_ack (queue : nat) : Q unit :=
  ack ← on_tg tg_ack;
  if b_size ack <? 1 then mret tt
  else
    r ← on_tg (tg_prepare_query ack true None);
    q ← get_queue queue;
    _ ← send (socket q) (fst r);
    mret tt.

Definition tg_prepare_mtproto (queue : nat) : Q unit :=
  k ← on_tg (gets key);
  _ ← (if b_size k =? 0 then
         i ← gets w_ip; n ← gets w_port;
         let rc := app_open i n in
         key ← lift (buf_add (rc_key rc) (zlen (rc_key rc)));
         _ ← on_tg (modify (set_key key));
         salt ← lift (buf_add (rc_salt rc) (zlen (rc_salt rc)));
         _ ← on_tg (modify (set_salt salt));
         fd ← new_socket (rc_stream rc);
         _ ← put_queue queue (set_socket fd);
         on_tg (modify (set_seqn (i32 (rc_seqnh rc + 1))))
       else mret tt);
  s ← on_tg (gets ssid);
  _ ← (if b_size s =? 0 then
         t ← on_tg (gets ticks);
         b ← lift (buf_rand (wall t) 8); on_tg (modify (set_ssid b))
       else mret tt);
  s ← on_tg (gets salt);
  if b_size s =? 0 then
    t ← on_tg (gets ticks);
    b ← lift (buf_rand (wall t) 8); on_tg (modify (set_salt b))
  else mret tt.

Definition tg_send (queue : nat) : Q Z :=
  _ ← lock_list;
  _ ← tg_prepare_mtproto queue;
  _ ← unlock_list;
  q ← get_queue queue;
  r ← on_tg (tg_prepare_query (query q) true (Some (msgid q)));
  let '(b, id) := r in
  _ ← put_queue queue (set_msgid (default (msgid q) id));
  q ← get_queue queue;
  if b_size b =? 0 then _ ← tg_net_close (socket q); mret 1
  else
    s ← send (socket q) b;
    if s <? 0 then _ ← tg_net_close (socket q); mret 1
    else mret 0.

(** ** The thread of a query *)
Definition tg_queue_free (queue : nat) : Q unit :=
  _ ← get_queue queue;
  modify (fun w => set_queues (delete queue (w_queues w)) w).

Definition tg_run_queue_exit (queue : nat) : Q unit := put_queue queue (set_inloop false).

(** One turn of the loop: whether to go on. *)
Definition after_receive (queue : nat) (res : RTL) : Q bool :=
  match res with
  | RTL_RESEND => e ← tg_send queue; mret (e =? 0)
  | RTL_EXIT | RTL_ERROR => mret false
  | RTL_REREAD => mret true
  end.

Definition run_turn (fuel : nat) (junk : list Z) (queue : nat) : Q bool :=
  q ← get_queue queue;
  if multithread q then
    res ← _tg_receive fuel junk queue (socket q);
    after_receive queue res
  else
    (* pthread_mutex_trylock(&tg->socket_mutex): 0 when it got the mutex *)
    busy ← gets w_socket_mutex;
    if busy : bool then
      res ← _tg_receive fuel junk queue (socket q);
      _ ← modify (set_socket_mutex false);
      after_receive queue res
    else
      _ ← modify (set_socket_mutex true);
      mret true.

Fixpoint run_loop (turns fuel : nat) (junk : list Z) (queue : nat) : Q unit :=
  q ← get_queue queue;
  if negb (loop q) then mret tt
  else
    match turns with
    | O => fail NoFuel
    | S turns =>
        again ← run_turn fuel junk queue;
        if again : bool then run_loop turns fuel junk queue else mret tt
    end.

Definition tg_run_queue (turns fuel : nat) (junk : list Z) (queue : nat) : Q unit :=
  _ ← lock_inloop queue;
  q ← get_queue queue;
  fd ← tg_net_open (ip q) (port q);
  _ ← put_queue queue (set_socket fd);
  if fd <? 0 then tg_run_queue_exit queue
  else
    _ ← tg_queue_add queue;
    e ← tg_send queue;
    _ ← (if negb (e =? 0) then put_queue queue (set_loop false) else mret tt);
    _ ← run_loop turns fuel junk queue;
    q ← get_queue queue;
    _ ← (if 0 <=? socket q then tg_net_close (socket q) else mret tt);
    q ← get_queue queue;
    _ ← tg_queue_cut (msgid q);
    tg_run_queue_exit queue.

Definition tg_run_timer (queue : nat) : Q unit :=
  _ ← modify (log (Slept 60));
  _ ← put_queue queue (set_loop false);
  _ ← lock_inloop queue;
  tg_queue_free queue.

(** ** Entry points *)
Definition tg_send_query_async_with_progress (query : buf_t) (multithread : bool)
    (callback : option callback) (progress : option nat) : Q thread :=
  i ← gets w_ip; n ← gets w_port;
  queue ← tg_queue_new query i n multithread callback progress;
  q ← get_queue queue;
  match p q with Some t => mret t | None => fail Uninit end.

Definition tg_send_query_async (query : buf_t) (multithread : bool) (callback : option callback)
  : Q thread := tg_send_query_async_with_progress query multithread callback None.

(** [pthread_join] on the returned thread, in the schedule where the query
    thread ends before its timer fires: both run, in this order, when the
    thread waited for is the timer. *)
Definition pthread_join (turns fuel : nat) (junk : list Z) (t : thread) : Q unit :=
  match t with
  | RunThread q => tg_run_queue turns fuel junk q
  | TimerThread q => _ ← tg_run_queue turns fuel junk q; tg_run_timer q
  end.

(** [slot]: the address of the variable [tl]. *)
Definition tg_send_query_sync_with_progress (turns fuel : nat) (junk : list Z) (slot : nat)
    (query : buf_t) (progress : option nat) : Q (option tl_t) :=
  _ ← modify (fun w => set_slots (<[slot := None]> (w_slots w)) w);
  t ← tg_send_query_async_with_progress query false (Some (Sync slot)) progress;
  _ ← pthread_join turns fuel junk t;
  s ← gets w_slots;
  match s !! slot with Some tl => mret tl | None => fail Uninit end.

Definition tg_send_query_sync (turns fuel : nat) (junk : list Z) (slot : nat) (query : buf_t)
  : Q (option tl_t) :=
  tg_send_query_sync_with_progress turns fuel junk slot query None.

Definition tg_send_query := tg_send_query_sync.

Definition tg_queue_cancell_all : Q unit :=
  _ ← lock_list;
  w ← gets id;
  items ← lift (list_for_each (w_nodes w) (w_head w));
  _ ← for_all (fun queue =>
        q ← get_queue queue;
        if lock q then mret tt else put_queue queue (set_loop false)) items;
  w ← gets id;
  r ← lift (list_free (w_nodes w) (w_head w));
  _ ← modify (set_list (fst r) (snd r));
  unlock_list.

Definition tg_queue_cancell_queue (msg_id : Z) : Q Z :=
  o ← tg_queue_cut msg_id;
  match o with
  | None => mret 1
  | Some queue =>
      _ ← lock_queue queue;
      _ ← put_queue queue (set_loop false);
      _ ← unlock_queue queue;
      mret 0
  end.

(** tg/tg.c *)
Definition tg_new_session : Q unit :=
  _ ← lock_list;
  t ← on_tg (gets ticks);
  b ← lift (buf_rand (wall t) 8);
  _ ← on_tg (modify (set_ssid b));
  unlock_list.
End Queue.
