(* ===== verification/QueueInv.v ===== *)
(** * The invariant of the query queue

    [Inv ll held pend w]: the list mutex is held exactly if [ll], no queue's
    mutex is held except that of [held], the linked list is a list, and no
    queue is both waiting (in the list, or in [pend]) and answered, nor
    answered twice, and every waiting queue is one that was not freed.  The
    operations of Queue.v keep [Inv false None []]; the timer, which frees a
    queue, keeps it exactly if the queue is not in the list. *)
From S2P Require Import Prelude TlBuf Serial Tg Packet LinkedList Errors Objects Queue.

(** The queues whose [on_done] has been called, in order. *)
Definition dones (es : list event) : list nat :=
  omap (fun e => match e with OnDone q _ => Some q | _ => None end) es.

(** The queues that were allocated and not freed. *)
Definition live (qs : gmap nat tg_queue_t) (a : nat) : Prop := is_Some (qs !! a).

Record Inv (ll : bool) (held : option nat) (pend : list nat) (w : world) : Prop := {
  inv_list_lock : w_queue_lock w = ll;
  inv_locks : forall a q, w_queues w !! a = Some q ->
    lock q = bool_decide (held = Some a) /\ (a < w_next w)%nat;
  inv_held : forall a, held = Some a -> (a < w_next w)%nat;
  inv_items : exists ds, holds_items (w_nodes w) (w_head w) ds /\
    NoDup (dones (w_events w) ++ pend ++ ds) /\ Forall (live (w_queues w)) (pend ++ ds)
}.

(** The list [tg->queue] does not hold [a]; only [a] can have the message
    identifier [id] in it. *)
Definition unlisted (a : nat) (w : world) : Prop :=
  exists ds, holds_items (w_nodes w) (w_head w) ds /\ a ∉ ds.
Definition alone (id : Z) (a : nat) (w : world) : Prop :=
  exists ds, holds_items (w_nodes w) (w_head w) ds /\
    forall b q, b ∈ ds -> w_queues w !! b = Some q -> (msgid q = id <-> b = a).

Lemma live_insert qs a q l : Forall (live qs) l -> Forall (live (<[a := q]> qs)) l.
Proof.
  apply Forall_impl. intros b Hb. unfold live. destruct (decide (a = b)) as [<- | Hne];
    [rewrite lookup_insert_eq; eauto | by rewrite lookup_insert_ne].
Qed.

(** Partial correctness: what holds after [m] returns. *)
Definition triple {A} (P : world -> Prop) (m : Q A) (R : A -> world -> Prop) : Prop :=
  forall w a w', P w -> m w = Ok (a, w') -> R a w'.
Definition keeps {A} (P : world -> Prop) (m : Q A) : Prop := triple P m (fun _ => P).

Section Rules.
Context (P : world -> Prop).

Lemma triple_bind {A B} (m : Q A) (k : A -> Q B) R T :
  triple P m R -> (forall a, triple (R a) (k a) T) -> triple P (m ≫= k) T.
Proof. intros Hm Hk w b w' Hp E. apply bind_inv in E as (a & w1 & E1 & E2). eapply Hk; eauto. Qed.
Lemma keeps_bind {A B} (m : Q A) (k : A -> Q B) :
  keeps P m -> (forall a, keeps P (k a)) -> keeps P (m ≫= k).
Proof. intros. by eapply triple_bind. Qed.
Lemma keeps_ret {A} (a : A) : keeps P (mret a).
Proof. intros w b w' Hp E. by injection E as <- <-. Qed.
Lemma keeps_lift {A} (m : res A) : keeps P (lift m).
Proof. intros w a w' Hp E. unfold lift in E. destruct m; [by injection E as <- <- | done]. Qed.
Lemma keeps_gets {A} (f : world -> A) : keeps P (gets f).
Proof. intros w a w' Hp E. by injection E as <- <-. Qed.
Lemma keeps_fail {A} f : keeps P (@fail world A f).
Proof. by intros w a w' Hp E. Qed.
Lemma keeps_modify f : (forall w, P w -> P (f w)) -> keeps P (modify f).
Proof. intros Hf w a w' Hp E. injection E as <- <-. auto. Qed.
Lemma keeps_for_all {A} (f : A -> Q unit) l : (forall x, keeps P (f x)) -> keeps P (for_all f l).
Proof.
  intros Hf. induction l as [|x l IH]; [apply keeps_ret |]. apply keeps_bind; [done | by intros].
Qed.
Lemma keeps_get_queue a : keeps P (get_queue a).
Proof. intros w q w' Hp E. unfold get_queue in E. destruct (_ !! a); [by injection E as <- <- | done]. Qed.
Lemma keeps_use {A} (m : Q A) w a w' : keeps P m -> m w = Ok (a, w') -> P w -> P w'.
Proof. intros Hk E Hp. exact (Hk w a w' Hp E). Qed.
Lemma triple_modify f R : (forall w, P w -> R (f w)) -> triple P (modify f) (fun _ => R).
Proof. intros Hf w a w' Hp E. injection E as <- <-. auto. Qed.
End Rules.

Create HintDb keeps.
#[export] Hint Resolve keeps_ret keeps_lift keeps_gets keeps_fail keeps_get_queue : keeps.

(** One step of a composed operation. *)
Ltac keep1 :=
  lazymatch goal with
  | |- keeps _ (mbind _ _) => apply keeps_bind; [| intros ?]
  | |- keeps _ (for_all _ _) => apply keeps_for_all; intros ?
  | |- keeps _ (if ?b then _ else _) => destruct b
  | |- keeps _ (match ?x with _ => _ end) => destruct x
  | |- keeps _ (let '(_, _) := ?x in _) => destruct x
  end.
Ltac keep := intros; repeat first [solve [auto with keeps] | keep1]; auto with keeps.

Section Invariant.
Context `{Env} `{OpenSSL} `{Zlib} `{Network}.
Variable tl_table : list (Z * (buf_t -> res (option tl_t * buf_t))).
Context (ll : bool) (held : option nat) (pend : list nat).
Abbreviation I := (Inv ll held pend).

(** Updates the invariant does not see. *)
Lemma inv_same w w' :
  w_queue_lock w' = w_queue_lock w -> w_queues w' = w_queues w -> (w_next w <= w_next w')%nat ->
  w_nodes w' = w_nodes w -> w_head w' = w_head w -> dones (w_events w') = dones (w_events w) ->
  I w -> I w'.
Proof.
  intros E1 E2 E3 E4 E5 E6 [L K N D]. split.
  - by rewrite E1.
  - intros a q. rewrite E2. intros Hq. destruct (K a q Hq). split; [done | lia].
  - intros a Ha. specialize (N a Ha). lia.
  - by rewrite E2, E4, E5, E6.
Qed.

Lemma dones_app es e : dones (es ++ [e]) = dones es ++ dones [e].
Proof. apply omap_app. Qed.

Lemma keeps_log e : dones [e] = [] -> keeps I (modify (log e)).
Proof.
  intros He. apply keeps_modify. intros w. apply inv_same; try done; cbn.
  by rewrite dones_app, He, app_nil_r.
Qed.
Lemma keeps_on_tg {A} (m : TG A) : keeps I (on_tg m).
Proof.
  intros w a w' Hp E. unfold on_tg, zoom in E. destruct (m (w_tg w)) as [[? t]|]; [| done].
  injection E as <- <-. by revert Hp; apply inv_same.
Qed.
Lemma keeps_net f g : keeps I (modify (fun w => set_net (f w) (g w) w)).
Proof. apply keeps_modify. intros w. by apply inv_same. Qed.
Lemma keeps_server i n : keeps I (modify (set_server i n)).
Proof. apply keeps_modify. intros w. by apply inv_same. Qed.
Lemma keeps_slots f : keeps I (modify (fun w => set_slots (f w) w)).
Proof. apply keeps_modify. intros w. by apply inv_same. Qed.
Lemma keeps_socket_mutex b : keeps I (modify (set_socket_mutex b)).
Proof. apply keeps_modify. intros w. by apply inv_same. Qed.
Lemma keeps_recv fd n : keeps I (recv fd n).
Proof.
  intros w a w' Hp E. unfold recv in E.
  destruct (w_net w !! fd) as [[|[bs|] s]|]; [| destruct (zlen bs <=? n) | |];
    injection E as <- <-; (done || (by revert Hp; apply inv_same)).
Qed.

Lemma keeps_put_queue a f :
  (forall q, lock (f q) = lock q) -> keeps I (put_queue a f).
Proof.
  intros Hf w x w' Hp E. unfold put_queue in E. apply bind_inv in E as (q & w1 & E1 & E2).
  unfold get_queue in E1. destruct (w_queues w !! a) as [q'|] eqn:Hq; [| done].
  injection E1 as <- <-. injection E2 as <- <-. destruct Hp as [L K N (ds & Hl & Hd & Hv)].
  split; try done; [| exists ds; split_and!; [done | done | by apply live_insert]].
  cbn. intros b q. destruct (decide (a = b)) as [<- | Hne].
  - rewrite lookup_insert_eq. intros [= <-]. rewrite Hf. by apply K.
  - rewrite lookup_insert_ne by done. apply K.
Qed.
End Invariant.

#[export] Hint Resolve keeps_on_tg keeps_net keeps_server keeps_slots keeps_socket_mutex keeps_recv : keeps.
#[export] Hint Extern 2 (keeps _ (modify (log _))) => apply keeps_log; reflexivity : keeps.
#[export] Hint Extern 2 (keeps _ (put_queue _ _)) => apply keeps_put_queue; intros; reflexivity : keeps.

Section Operations.
Context `{Env} `{OpenSSL} `{Zlib} `{Network}.
Variable tl_table : list (Z * (buf_t -> res (option tl_t * buf_t))).
Abbreviation Free := (Inv false None []).

Ltac split_bind E := let w := fresh "w" in let x := fresh "x" in let E1 := fresh "E" in
  apply bind_inv in E as (x & w & E1 & E).
(* Steps that read or write a field. *)
Ltac run E := unfold mbind, st_bind, gets, modify, mret, st_ret in E; cbn beta iota in E.

Lemma cut_perm (cmp : nat -> res bool) ds o ds' :
  cut cmp ds = Ok (o, ds') -> ds ≡ₚ option_list o ++ ds'.
Proof.
  revert ds'. induction ds as [|d ds IH]; intros ds' E; cbn [cut] in E; [by injection E as <- <- |].
  destruct (cmp d) as [[|]|]; rewrite ?res_bind_ok in E; [by injection E as <- <- | | done].
  inv_res E. destruct a as [o' ds1]. cbn [fst snd] in E. injection E as <- <-.
  rewrite (IH _ Ha). by rewrite Permutation_middle.
Qed.

Lemma cut_triple held msg_id :
  triple (Inv false held []) (tg_queue_cut msg_id) (fun o => Inv false held (option_list o)).
Proof.
  intros w o w' [L K N (ds & Hl & Hd & Hv)] E. unfold tg_queue_cut, lock_list, unlock_list in E.
  run E. rewrite L in E. cbn in E.
  pose proof (list_cut_ok (cmp_msgid (w_queues w) msg_id) _ _ _ Hl) as Hc.
  unfold lift in E. destruct (cut _ ds) as [[o' ds']|] eqn:Ec.
  - destruct Hc as (h' & l' & Hc & Hl'). rewrite Hc in E. cbn in E. injection E as <- <-.
    split; try done. cbn. exists ds'. split; [done |].
    by rewrite <- (cut_perm _ _ _ _ Ec).
  - rewrite Hc in E. done.
Qed.

Lemma add_triple a : triple (Inv false None [a]) (tg_queue_add a) (fun _ => Free).
Proof.
  intros w u w' [L K N (ds & Hl & Hd & Hv)] E. unfold tg_queue_add, lock_list, unlock_list in E.
  run E. rewrite L in E. cbn in E. injection E as <- <-. split; try done. cbn.
  destruct (list_add_ok _ _ _ (base.fresh (dom (w_nodes w))) a Hl) as (h' & E & Hl');
    [apply is_fresh |].
  cbn in E. injection E as <-. by exists (a :: ds).
Qed.

Lemma lock_triple a pend :
  triple (Inv false None pend) (lock_queue a) (fun _ => Inv false (Some a) pend).
Proof.
  intros w u w' [L K N D] E. unfold lock_queue, put_queue, get_queue in E. run E.
  destruct (w_queues w !! a) as [q|] eqn:Hq; [| done]. destruct (lock q) eqn:Hk; [done |].
  cbn in E. rewrite Hq in E. injection E as <- <-. destruct (K a q Hq) as [_ Ha].
  destruct D as (ds & Hl & Hd & Hv).
  split; try done; [| | exists ds; split_and!; [done | done | by apply live_insert]].
  - cbn. intros b q'. destruct (decide (a = b)) as [<- | Hne].
    + rewrite lookup_insert_eq. intros [= <-]. cbn. by rewrite bool_decide_eq_true_2.
    + rewrite lookup_insert_ne by done. intros Hb. destruct (K b q' Hb) as [-> ?].
      split; [| done]. by rewrite !bool_decide_eq_false_2 by congruence.
  - by intros b [= <-].
Qed.

Lemma unlock_triple a pend :
  triple (Inv false (Some a) pend) (unlock_queue a) (fun _ => Inv false None pend).
Proof.
  intros w u w' [L K N D] E. unfold unlock_queue, put_queue, get_queue in E. run E.
  destruct (w_queues w !! a) as [q|] eqn:Hq; [| done].
  cbn in E. injection E as <- <-. destruct (K a q Hq) as [_ Ha].
  destruct D as (ds & Hl & Hd & Hv).
  split; try done; [| exists ds; split_and!; [done | done | by apply live_insert]].
  cbn. intros b q'. destruct (decide (a = b)) as [<- | Hne].
  - rewrite lookup_insert_eq. intros [= <-]. cbn. done.
  - rewrite lookup_insert_ne by done. intros Hb. destruct (K b q' Hb) as [-> ?].
    split; [| done]. by rewrite !bool_decide_eq_false_2 by congruence.
Qed.

Lemma inv_unpend ll held a w : Inv ll held [a] w -> Inv ll held [] w.
Proof.
  intros [L K N (ds & Hl & Hd & Hv)]. split; try done. exists ds. split; [done |]. cbn in *.
  apply Forall_cons_1 in Hv as [_ Hv].
  rewrite list.NoDup_app in Hd |- *. destruct Hd as (? & Hx & Hy). apply list.NoDup_cons in Hy as [??].
  split; [| done]. split_and!; [done | set_solver | done].
Qed.

Lemma on_done_triple a tl :
  triple (Inv false (Some a) [a]) (run_on_done tl_table a tl) (fun _ => Inv false (Some a) []).
Proof.
  intros w u w' HI E. unfold run_on_done, get_queue in E. apply bind_inv in E as (q & w1 & E1 & E).
  destruct (w_queues w !! a) as [q'|]; [| done]. injection E1 as <- <-.
  destruct (on_done q') as [c|]; [| injection E as <- <-; by apply inv_unpend in HI].
  apply bind_inv in E as ([] & w1 & E1 & E). injection E1 as <-.
  assert (HI' : Inv false (Some a) [] (log (OnDone a tl) w)).
  { destruct HI as [L K N (ds & Hl & Hd & Hv)]. split; try done. exists ds. split; [done |].
    apply Forall_cons_1 in Hv as [_ Hv]. split; [| done].
    cbn. unfold dones in *. rewrite omap_app. cbn. by rewrite <- app_assoc. }
  destruct c as [slot|k]; [| by injection E as <- <-].
  eapply keeps_use; [| exact E | exact HI']. unfold tg_send_query_sync_cb. keep.
Qed.

Lemma stop_triple a pend :
  triple (Inv false (Some a) pend) (stop_queue a) (fun _ => Inv false None pend).
Proof.
  unfold stop_queue. eapply triple_bind; [| intros; apply unlock_triple].
  apply keeps_put_queue. done.
Qed.

Lemma finish_triple a tl :
  triple (Inv false (Some a) [a]) (finish_queue tl_table a tl) (fun _ => Free).
Proof.
  unfold finish_queue. eapply triple_bind; [apply on_done_triple |]. intros. apply stop_triple.
Qed.

Lemma keeps_queue_new ll held pend qu i n mt od pr : keeps (Inv ll held pend) (tg_queue_new qu i n mt od pr).
Proof.
  intros w a w' HI E. unfold tg_queue_new in E.
  apply bind_inv in E as (b & w1 & E1 & E). injection E1 as <- <-.
  apply bind_inv in E as ([] & w1 & E1 & E). injection E1 as <-.
  apply bind_inv in E as (copy & w1 & E1 & E). unfold lift in E1.
  destruct (buf_add_buf qu) as [c|]; [| done]. injection E1 as -> <-.
  apply bind_inv in E as ([] & w1 & E1 & E). injection E1 as <-.
  eapply keeps_use; [| exact E |]; [keep |].
  destruct HI as [L K N (ds & Hl & Hd & Hv)]. split; cbn; try done;
    [| | exists ds; split_and!; [done | done | by apply live_insert]].
  - intros b q. destruct (decide (w_next w = b)) as [<- | Hne].
    + rewrite lookup_insert_eq. intros [= <-]. split; [cbn | lia].
      rewrite bool_decide_eq_false_2; [done |]. intros Hh. specialize (N _ Hh). lia.
    + rewrite lookup_insert_ne by done. intros Hb. destruct (K b q Hb). split; [done | lia].
  - intros b Hb. specialize (N b Hb). lia.
Qed.

Lemma keeps_flood ll held pend a n : keeps (Inv ll held pend) (flood_wait_for_seconds a n).
Proof. unfold flood_wait_for_seconds. keep. apply keeps_queue_new. Qed.

Lemma keeps_ip_address P dc : keeps P (tg_ip_address_for_dc dc).
Proof. unfold tg_ip_address_for_dc. keep. Qed.

Lemma keeps_migrate ll held pend a dc e : keeps (Inv ll held pend) (migrate_to_dc a dc e).
Proof.
  unfold migrate_to_dc. keep; [apply keeps_ip_address | | apply keeps_queue_new].
  unfold tg_set_server_address. keep.
Qed.

Lemma keeps_catched_tl msg_id tl : keeps Free (catched_tl tl_table msg_id tl).
Proof.
  unfold catched_tl. eapply triple_bind; [apply cut_triple |]. intros [a|]; [| apply keeps_ret].
  cbn [option_list]. eapply triple_bind; [apply keeps_get_queue |]. intros q.
  destruct (negb (loop q)).
  { intros w u w' HI E. injection E as <- <-. by apply inv_unpend in HI. }
  eapply triple_bind; [apply lock_triple |]. intros [].
  destruct tl as [t|].
  2: { eapply triple_bind; [apply on_done_triple |]. intros []. apply unlock_triple. }
  assert (Hfin : forall tl, triple (Inv false (Some a) [a]) (finish_queue tl_table a tl) (fun _ => Free))
    by (intros; apply finish_triple).
  assert (Hstop : forall m : Q unit, keeps (Inv false (Some a) [a]) m ->
            triple (Inv false (Some a) [a]) (_ ← m; stop_queue a) (fun _ => Free)).
  { intros m Hm. eapply triple_bind; [exact Hm |]. intros [] w u w' HI E.
    apply inv_unpend in HI. by eapply stop_triple in E. }
  destruct (obj t); try apply Hfin.
  - eapply triple_bind; [apply keeps_lift |]. intros error.
    destruct (tg_error_migrate _) as [dc|]; [apply Hstop, keeps_migrate |].
    destruct (negb _); [apply Hstop, keeps_flood | apply Hfin].
  - eapply triple_bind; [apply keeps_lift |]. intros g.
    eapply triple_bind; [destruct (negb _); [apply keeps_ret | apply keeps_lift] |]. intros ttl. apply Hfin.
  - eapply triple_bind; [unfold reset_timediff; apply keeps_on_tg |]. intros []. apply Hfin.
Qed.

Lemma keeps_handle_tl fuel : forall queue tl, keeps Free (handle_tl tl_table fuel queue tl).
Proof.
  induction fuel as [|fuel IH]; intros queue [t|]; cbn [handle_tl]; try solve [keep].
  destruct (obj t); try solve [keep | apply keeps_catched_tl].
  - keep; [apply keeps_migrate | apply keeps_flood].
  - unfold reset_timediff. keep.
Qed.

Lemma keeps_receive_loop P fuel : (forall fd n, keeps P (recv fd n)) ->
  (forall A (m : TG A), keeps P (on_tg m)) ->
  forall queue fd len n r, keeps P (receive_loop fuel queue fd len n r).
Proof.
  intros Hr Ht. induction fuel as [|fuel IH]; intros; cbn [receive_loop]; keep.
Qed.

Lemma keeps_receive fuel junk queue fd : keeps Free (_tg_receive tl_table fuel junk queue fd).
Proof.
  unfold _tg_receive. keep; try apply keeps_handle_tl.
  apply keeps_receive_loop; intros; [apply keeps_recv | apply keeps_on_tg].
Qed.

Lemma keeps_new_socket ll held pend s : keeps (Inv ll held pend) (new_socket s).
Proof. unfold new_socket. keep. Qed.

Lemma keeps_close ll held pend fd : keeps (Inv ll held pend) (tg_net_close fd).
Proof. unfold tg_net_close. keep. Qed.

Lemma keeps_prepare ll held pend queue : keeps (Inv ll held pend) (tg_prepare_mtproto queue).
Proof. unfold tg_prepare_mtproto. keep; apply keeps_new_socket. Qed.

(** A section under the list mutex. *)
Lemma keeps_locked {A B} (m : Q A) (k : A -> Q B) :
  (forall ll, keeps (Inv ll None []) m) -> (forall a, keeps Free (k a)) ->
  keeps Free (_ ← lock_list; a ← m; _ ← unlock_list; k a).
Proof.
  intros Hm Hk w b w' HI E. apply bind_inv in E as ([] & w1 & E1 & E).
  unfold lock_list in E1. run E1. rewrite (inv_list_lock _ _ _ _ HI) in E1. injection E1 as <-.
  apply bind_inv in E as (a & w2 & E2 & E). apply bind_inv in E as ([] & w3 & E3 & E).
  injection E3 as <-. refine (Hk _ _ _ _ _ E).
  assert (HI1 : Inv true None [] (set_queue_lock true w)) by (destruct HI; by split).
  apply (Hm true _ _ _ HI1) in E2. destruct E2. by split.
Qed.

Lemma keeps_send held pend ll fd b : keeps (Inv ll held pend) (send fd b).
Proof. unfold send. keep. Qed.

Lemma keeps_tg_send queue : keeps Free (tg_send queue).
Proof.
  unfold tg_send. apply keeps_locked; [intros; apply keeps_prepare |]. intros _.
  keep; first [apply keeps_close | apply keeps_send].
Qed.

Lemma keeps_run_turn fuel junk queue : keeps Free (run_turn tl_table fuel junk queue).
Proof.
  unfold run_turn. keep; try apply keeps_receive; unfold after_receive; keep; apply keeps_tg_send.
Qed.

Lemma keeps_run_loop turns fuel junk queue : keeps Free (run_loop tl_table turns fuel junk queue).
Proof. induction turns as [|turns IH]; cbn [run_loop]; keep. apply keeps_run_turn. Qed.

Lemma keeps_unpend {A} (m : Q A) held a :
  triple (Inv false held [a]) m (fun _ => Inv false held [a]) ->
  triple (Inv false held [a]) m (fun _ => Inv false held []).
Proof. intros Hm w x w' HI E. eapply inv_unpend, Hm; eauto. Qed.

Lemma keeps_lock_inloop ll held pend a : keeps (Inv ll held pend) (lock_inloop a).
Proof. unfold lock_inloop. keep. Qed.
Lemma keeps_net_open ll held pend i n : keeps (Inv ll held pend) (tg_net_open i n).
Proof. unfold tg_net_open. keep. apply keeps_new_socket. Qed.
Lemma keeps_exit ll held pend a : keeps (Inv ll held pend) (tg_run_queue_exit a).
Proof. unfold tg_run_queue_exit. keep. Qed.

Lemma run_queue_triple turns fuel junk a :
  triple (Inv false None [a]) (tg_run_queue tl_table turns fuel junk a) (fun _ => Free).
Proof.
  unfold tg_run_queue. eapply triple_bind; [apply keeps_lock_inloop |]. intros [].
  eapply triple_bind; [apply keeps_get_queue |]. intros q.
  eapply triple_bind; [apply keeps_net_open |]. intros fd.
  eapply triple_bind; [apply keeps_put_queue; done |]. intros [].
  destruct (fd <? 0); [apply keeps_unpend, keeps_exit |].
  eapply triple_bind; [apply add_triple |]. intros [].
  change (keeps Free (e ← tg_send a;
    _ ← (if negb (e =? 0) then put_queue a (set_loop false) else mret tt);
    _ ← run_loop tl_table turns fuel junk a;
    q ← get_queue a;
    _ ← (if 0 <=? socket q then tg_net_close (socket q) else mret tt);
    q ← get_queue a;
    _ ← tg_queue_cut (msgid q);
    tg_run_queue_exit a)).
  keep; first [apply keeps_tg_send | apply keeps_run_loop | apply keeps_close | apply keeps_exit | idtac].
  intros w o w' HI E. pose proof (cut_triple _ _ _ _ _ HI E) as HI'. destruct o; [by apply inv_unpend in HI' | exact HI'].
Qed.

Lemma keeps_cancel_all : keeps Free tg_queue_cancell_all.
Proof.
  intros w u w' HI E. unfold tg_queue_cancell_all in E.
  apply bind_inv in E as ([] & w1 & E1 & E). unfold lock_list in E1. run E1.
  rewrite (inv_list_lock _ _ _ _ HI) in E1. injection E1 as <-.
  apply bind_inv in E as (w1 & ? & E1 & E). injection E1 as <- <-.
  apply bind_inv in E as (items & w2 & E1 & E).
  assert (HI1 : Inv true None [] (set_queue_lock true w)) by (destruct HI; by split).
  pose proof (keeps_use _ _ _ _ _ (keeps_lift _ _) E1 HI1) as HI2. clear HI HI1 E1.
  apply bind_inv in E as ([] & w3 & E2 & E).
  assert (Hk : keeps (Inv true None []) (for_all (fun queue =>
        q ← get_queue queue;
        if lock q then mret tt else put_queue queue (set_loop false)) items)) by keep.
  pose proof (keeps_use _ _ _ _ _ Hk E2 HI2) as HI3. clear E2 HI2.
  apply bind_inv in E as (w4 & ? & E1 & E). injection E1 as <- <-.
  apply bind_inv in E as ([h l] & w5 & E1 & E). destruct HI3 as [L K N (ds & Hl & Hd & Hv)].
  unfold lift in E1. rewrite (list_free_ok _ _ _ Hl) in E1. injection E1 as <- <- <-.
  injection E as <- <-. split; try done. exists []. split; [apply holds_nil |]. cbn in *.
  rewrite list.NoDup_app in Hd |- *. destruct Hd as (? & _).
  split; [| constructor]. split_and!; [done | set_solver | constructor].
Qed.

Lemma keeps_cancel_queue msg_id : keeps Free (tg_queue_cancell_queue msg_id).
Proof.
  unfold tg_queue_cancell_queue. eapply triple_bind; [apply cut_triple |].
  intros [a|]; [| apply keeps_ret]. cbn [option_list].
  eapply triple_bind; [apply lock_triple |]. intros [].
  eapply triple_bind; [apply keeps_put_queue; done |]. intros [].
  eapply triple_bind; [apply unlock_triple |]. intros []. apply keeps_unpend, keeps_ret.
Qed.

(** ** The timer, which frees the queue *)
Lemma keeps_unlisted {A} (m : Q A) a :
  (forall w x w', m w = Ok (x, w') -> w_nodes w' = w_nodes w /\ w_head w' = w_head w) ->
  keeps (unlisted a) m.
Proof.
  intros Hm w x w' (ds & Hl & Ha) E. destruct (Hm w x w' E) as [E1 E2].
  exists ds. by rewrite E1, E2.
Qed.

(** The world in which the timer frees its queue. *)
Lemma run_timer_inv a w u w' :
  tg_run_timer a w = Ok (u, w') ->
  exists f q, (forall q, lock (f q) = lock q) /\ w_queues w !! a = Some q /\
    w' = set_queues (delete a (<[a := f q]> (w_queues w))) (log (Slept 60) w).
Proof.
  intros E. unfold tg_run_timer, tg_queue_free, lock_inloop, put_queue, get_queue in E. run E. cbn in E.
  destruct (w_queues w !! a) as [q|] eqn:Hq; [| done]. cbn in E.
  rewrite !lookup_insert_eq in E. cbn in E.
  destruct (inloop_lock q); [done |]. cbn in E. rewrite lookup_insert_eq in E. cbn in E.
  rewrite lookup_insert_eq in E. injection E as <- <-. exists (fun q => set_inloop true (set_loop false q)), q. split_and!; try done.
  cbn. by rewrite insert_insert_eq.
Qed.

Lemma run_timer_free a w u w' :
  Free w -> tg_run_timer a w = Ok (u, w') -> (Free w' <-> unlisted a w).
Proof.
  intros [L K N (ds & Hl & Hd & Hv)] E. destruct (run_timer_inv _ _ _ _ E) as (f & q & Hf & Hq & ->).
  split.
  - intros [_ _ _ (ds' & Hl' & _ & Hv')]. exists ds'. split; [exact Hl' |]. cbn in Hv'.
    intros Ha. rewrite list.Forall_forall in Hv'. specialize (Hv' a Ha). unfold live in Hv'.
    rewrite lookup_delete_eq in Hv'. by apply is_Some_None in Hv'.
  - intros (ds' & Hl' & Ha). split; try done.
    + cbn. intros b q'. rewrite delete_insert_eq. intros Hb%lookup_delete_Some. by apply K, Hb.
    + exists ds. cbn in *. split_and!; [done | unfold dones in *; by rewrite omap_app, app_nil_r |].
      assert (Ha' : a ∉ ds) by (by rewrite (holds_items_unique _ _ _ _ Hl Hl')).
      rewrite list.Forall_forall in Hv |- *. intros b Hb. unfold live.
      rewrite delete_insert_eq, lookup_delete_ne by (intros <-; done). by apply Hv.
Qed.

(** The last statement of a run takes the queue out of the list. *)
Lemma cut_unlists id a :
  triple (fun w => Free w /\ alone id a w) (tg_queue_cut id) (fun _ w => Free w /\ unlisted a w).
Proof.
  intros w o w' [HI (ds & Hl & Hal)] E. split.
  { pose proof (cut_triple _ _ _ _ _ HI E) as HI'. destruct o; [by apply inv_unpend in HI' | exact HI']. }
  destruct HI as [L K N (ds' & Hl' & Hd & _)].
  rewrite (holds_items_unique _ _ _ _ Hl' Hl) in Hd. clear ds' Hl'.
  rewrite list.NoDup_app in Hd. destruct Hd as (_ & _ & Hd). cbn in Hd.
  unfold tg_queue_cut, lock_list, unlock_list in E. run E. rewrite L in E. cbn in E.
  pose proof (list_cut_ok (cmp_msgid (w_queues w) id) _ _ _ Hl) as Hc.
  unfold lift in E. destruct (cut _ ds) as [[o' ds']|] eqn:Ec; [| rewrite Hc in E; done].
  destruct Hc as (h' & l' & Hc & Hl'). rewrite Hc in E. cbn in E. injection E as <- <-.
  exists ds'. split; [done |]. clear Hl Hc Hl'. revert o' ds' Ec.
  induction ds as [|b ds IH]; intros o' ds' Ec; cbn [cut] in Ec.
  { injection Ec as <- <-. apply not_elem_of_nil. }
  apply list.NoDup_cons in Hd as [Hb Hd].
  destruct (cmp_msgid (w_queues w) id b) as [c|] eqn:Hcmp; rewrite ?res_bind_ok in Ec; [| done].
  unfold cmp_msgid in Hcmp. destruct (w_queues w !! b) as [q|] eqn:Hq; [| done].
  injection Hcmp as <-. destruct (Hal b q ltac:(left) Hq) as [Hm1 Hm2].
  destruct (Z.eqb_spec id (msgid q)) as [Hi | Hi].
  - injection Ec as <- <-. by rewrite <- (Hm1 (eq_sym Hi)).
  - inv_res Ec. destruct a0 as [o1 ds1]. cbn [fst snd] in Ec. injection Ec as <- <-.
    rewrite elem_of_cons. intros [-> | Hin]; [by apply Hi; rewrite Hm2 |].
    refine (IH Hd _ _ _ Ha Hin). intros c qc Hc. apply Hal. by right.
Qed.

End Operations.
