(* ===== verification/Delivery.v ===== *)
(** * What becomes of an answer

    The functional behaviour of the query queue: how [catched_tl] delivers
    an object to the query that waits for it, how [_tg_receive] gets from
    bytes on a socket to [handle_tl], and a complete synchronous call. *)
From S2P Require Import Prelude TlBuf Serial Tg Packet Header LinkedList Errors Objects Queue.

Section Delivery.
Context `{Env} `{OpenSSL} `{Zlib} `{Network}.
Variable tl_table : list (Z * (buf_t -> res (option tl_t * buf_t))).
Abbreviation deserialize := (deserialize tl_table).
Abbreviation catched_tl := (catched_tl tl_table).
Abbreviation handle_tl := (handle_tl tl_table).

#[local] Arguments Objects.deserialize : simpl never.
#[local] Arguments gunzip_buf : simpl never.

(** Query [a] waits for the answer to [id]; [ds'] are the others. *)
Record waiting (w : world) (id : Z) (a : nat) (q : tg_queue_t) (ds' : list nat) : Prop := {
  wt_lock : w_queue_lock w = false;
  wt_items : exists ds, holds_items (w_nodes w) (w_head w) ds /\
    cut (cmp_msgid (w_queues w) id) ds = Ok (Some a, ds');
  wt_queue : w_queues w !! a = Some q;
  wt_unlocked : lock q = false;
  wt_loop : loop q = true
}.

(** The object handed to [on_done] for the result [t], and the session
    change that goes with it. *)
Definition answer (t : tl_t) : res (option tl_t) :=
  match obj t with
  | Gzip_packed packed =>
      g ← gunzip_buf packed;
      if negb (fst g =? 0) then Ok None else deserialize (snd g)
  | Bad_msg_notification _ => Ok None
  | _ => Ok (Some t)
  end.
Definition answer_session (t : tl_t) (w : world) : world :=
  match obj t with
  | Bad_msg_notification _ => set_tg (set_timediff 0 (w_tg w)) w
  | _ => w
  end.
Definition is_rpc_error (t : tl_t) : bool := match obj t with Rpc_error _ _ => true | _ => false end.

(** What a callback does to the world. *)
Definition call (a : nat) (c : option callback) (r : option tl_t) (w : world) : res world :=
  match c with
  | None => Ok w
  | Some (User _) => Ok (log (OnDone a r) w)
  | Some (Sync slot) =>
      match r with
      | None => Err NullDeref
      | Some t =>
          v ← deserialize (_buf t);
          Ok (set_slots (<[slot := v]> (w_slots w)) (log (OnDone a r) w))
      end
  end.

Lemma bind_ok {A B} (m : Q A) (k : A -> Q B) w a w' r :
  m w = Ok (a, w') -> k a w' = r -> (m ≫= k) w = r.
Proof. intros E <-. by apply bind_eq. Qed.

Lemma set_list_locked w h l :
  w_queue_lock w = false -> set_queue_lock false (set_list h l (set_queue_lock true w)) = set_list h l w.
Proof. destruct w. cbn. by intros ->. Qed.

Lemma cut_ok w id ds o ds' :
  w_queue_lock w = false -> holds_items (w_nodes w) (w_head w) ds ->
  cut (cmp_msgid (w_queues w) id) ds = Ok (o, ds') ->
  exists h l, tg_queue_cut id w = Ok (o, set_list h l w) /\ holds_items h l ds'.
Proof.
  intros L Hl Hc. pose proof (list_cut_ok (cmp_msgid (w_queues w) id) _ _ _ Hl) as E.
  rewrite Hc in E. destruct E as (h & l & E & Hl'). exists h, l. split; [| done].
  unfold tg_queue_cut, lock_list, unlock_list, mbind, st_bind, gets, modify, mret, st_ret, lift.
  rewrite L. cbn. rewrite E. cbn. by rewrite set_list_locked.
Qed.

Lemma put_ok w a q f :
  w_queues w !! a = Some q -> put_queue a f w = Ok (tt, set_queues (<[a := f q]> (w_queues w)) w).
Proof. intros E. unfold put_queue, get_queue, mbind, st_bind. by rewrite E. Qed.

Lemma lock_ok w a q :
  w_queues w !! a = Some q -> lock q = false ->
  lock_queue a w = Ok (tt, set_queues (<[a := set_lock true q]> (w_queues w)) w).
Proof.
  intros E L. unfold lock_queue. eapply bind_ok; [unfold get_queue; by rewrite E |]. rewrite L.
  by apply put_ok.
Qed.

Lemma stop_ok w a q :
  w_queues w !! a = Some (set_lock true q) -> lock q = false ->
  stop_queue a w = Ok (tt, set_queues (<[a := set_loop false q]> (w_queues w)) w).
Proof.
  intros E L. unfold stop_queue. eapply bind_ok; [exact (put_ok _ _ _ _ E) |].
  unfold unlock_queue.
  rewrite (put_ok _ a (set_loop false (set_lock true q))) by (cbn; by rewrite lookup_insert_eq).
  assert (Eq : set_lock false (set_loop false (set_lock true q)) = set_loop false q)
    by (destruct q; cbn in *; by rewrite L).
  rewrite Eq. cbn. by rewrite insert_insert_eq.
Qed.

Lemma call_queues a c r w w1 : call a c r w = Ok w1 -> w_queues w1 = w_queues w.
Proof.
  unfold call. destruct c as [[slot|k]|]; [| by intros [= <-] | by intros [= <-]].
  destruct r as [t|]; [| done]. destruct (deserialize (_buf t)); [| done]. by intros [= <-].
Qed.

Lemma on_done_ok w a q r :
  w_queues w !! a = Some q ->
  run_on_done tl_table a r w = match call a (on_done q) r w with Ok w1 => Ok (tt, w1) | Err f => Err f end.
Proof.
  intros E. unfold run_on_done. unfold get_queue, mbind, st_bind. rewrite E.
  destruct (on_done q) as [[slot|k]|]; [| done | done]. cbn.
  destruct r as [t|]; [| done].
  unfold tg_send_query_sync_cb, lift, modify, mbind, st_bind, res_bind.
  by destruct (deserialize (_buf t)).
Qed.

(** Calls commute with updates of the queues and the list. *)
Lemma call_frame a c r w qs h l :
  call a c r (set_queues qs (set_list h l w)) =
  match call a c r w with Ok w1 => Ok (set_queues qs (set_list h l w1)) | Err f => Err f end.
Proof.
  unfold call. destruct c as [[slot|k]|]; [| done | done]. destruct r as [t|]; [| done].
  destruct (deserialize (_buf t)); [| done]. by rewrite !res_bind_ok.
Qed.

Lemma finish_ok w h l a q r :
  w_queues w !! a = Some q -> lock q = false ->
  finish_queue tl_table a r (set_queues (<[a := set_lock true q]> (w_queues w)) (set_list h l w)) =
  match call a (on_done q) r w with
  | Ok w1 => Ok (tt, set_queues (<[a := set_loop false q]> (w_queues w)) (set_list h l w1))
  | Err f => Err f
  end.
Proof.
  intros Hq L. unfold finish_queue, mbind, st_bind.
  rewrite (on_done_ok _ _ (set_lock true q)) by (cbn; by rewrite lookup_insert_eq).
  change (on_done (set_lock true q)) with (on_done q). rewrite call_frame.
  destruct (call a (on_done q) r w) as [w1|] eqn:Ec; [| done].
  rewrite (stop_ok _ _ q); [| cbn; by rewrite lookup_insert_eq | done].
  cbn. by rewrite insert_insert_eq.
Qed.

(** Until the mutex of the queue is taken. *)
Lemma catched_start w id a q ds' tl :
  waiting w id a q ds' ->
  exists h l, holds_items h l ds' /\
    catched_tl id (Some tl) w =
    match obj tl with
    | Gzip_packed packed =>
        (g ← lift (gunzip_buf packed);
         ttl ← (if negb (fst g =? 0) then mret None else lift (deserialize (snd g)));
         finish_queue tl_table a ttl)
    | Bad_msg_notification _ => (_ ← reset_timediff; finish_queue tl_table a None)
    | Rpc_error _ message =>
        (error ← lift (RPC_ERROR message);
         match tg_error_migrate (Some error) with
         | Some dc => _ ← migrate_to_dc a dc error; stop_queue a
         | None =>
             let wait := tg_error_flood_wait (Some error) in
             if negb (wait =? 0) then _ ← flood_wait_for_seconds a wait; stop_queue a
             else finish_queue tl_table a (Some tl)
         end)
    | _ => finish_queue tl_table a (Some tl)
    end (set_queues (<[a := set_lock true q]> (w_queues w)) (set_list h l w)).
Proof.
  intros [L (ds & Hl & Hc) Hq Hk Hlp]. destruct (cut_ok w id ds _ _ L Hl Hc) as (h & l & E & Hl').
  exists h, l. split; [done |]. unfold Queue.catched_tl.
  eapply bind_ok; [exact E |]. cbv beta iota.
  eapply bind_ok; [unfold get_queue; cbn; by rewrite Hq |]. rewrite Hlp. cbn [negb].
  eapply bind_ok; [apply lock_ok; [exact Hq | done] |]. done.
Qed.

Lemma catched_tl_ok w id a q ds' t r :
  waiting w id a q ds' -> is_rpc_error t = false -> answer t = Ok r ->
  exists h l, holds_items h l ds' /\
    catched_tl id (Some t) w =
    match call a (on_done q) r (answer_session t w) with
    | Ok w1 => Ok (tt, set_queues (<[a := set_loop false q]> (w_queues w)) (set_list h l w1))
    | Err f => Err f
    end.
Proof.
  intros Hw Hr Ha. destruct (catched_start w id a q ds' t Hw) as (h & l & Hl & ->).
  exists h, l. split; [done |]. destruct Hw as [_ _ Hq Hk _].
  unfold answer, answer_session, is_rpc_error in *.
  destruct (obj t) eqn:Eo; try discriminate Hr; try (injection Ha as <-; by rewrite finish_ok).
  - apply res_bind_inv in Ha as (g & Hg & Ha).
    eapply bind_ok; [by apply lift_eq |]. cbv beta. destruct (negb (fst g =? 0)).
    + injection Ha as <-. eapply bind_ok; [reflexivity |]. by apply finish_ok.
    + eapply bind_ok; [by apply lift_eq |]. by apply finish_ok.
  - injection Ha as <-. eapply bind_ok; [reflexivity |].
    exact (finish_ok (set_tg (set_timediff 0 (w_tg w)) w) h l a q None Hq Hk).
Qed.

(** A NULL result: the callback runs, but the loop goes on. *)
Lemma catched_null w id a q ds' :
  waiting w id a q ds' ->
  exists h l, holds_items h l ds' /\
    catched_tl id None w =
    match call a (on_done q) None w with
    | Ok w1 => Ok (tt, set_list h l w1)
    | Err f => Err f
    end.
Proof.
  intros [L (ds & Hl & Hc) Hq Hk Hlp]. destruct (cut_ok w id ds _ _ L Hl Hc) as (h & l & E & Hl').
  exists h, l. split; [done |]. unfold Queue.catched_tl.
  erewrite bind_eq by exact E. cbv beta iota.
  erewrite bind_eq by (unfold get_queue; cbn; by rewrite Hq). rewrite Hlp. cbn [negb].
  rewrite (bind_eq _ _ _ _ _ (lock_ok (set_list h l w) a q Hq Hk)).
  set (w1 := set_queues _ _). unfold mbind, st_bind.
  rewrite (on_done_ok _ _ (set_lock true q)) by (cbn; by rewrite lookup_insert_eq).
  change (on_done (set_lock true q)) with (on_done q). unfold w1. rewrite call_frame.
  destruct (call a (on_done q) None w) as [w2|] eqn:Ec; [| done].
  unfold unlock_queue. rewrite (put_ok _ a (set_lock true q)) by (cbn; by rewrite lookup_insert_eq).
  assert (Eq : set_lock false (set_lock true q) = q) by (destruct q; cbn in *; by rewrite Hk).
  rewrite Eq. cbn. rewrite insert_insert_eq, insert_id by done.
  pose proof (call_queues _ _ _ _ _ Ec) as Hqs. do 3 f_equal. rewrite <- Hqs. by destruct w2.
Qed.

(** C10: a result reaches the query that asked.  When query [a] waits for
    [id] with an application callback, [catched_tl] with any object but an
    [rpc_error] - plain, compressed, or a bad-message notification - calls
    the callback once, with the object (decompressed, or NULL), takes the
    query out of the list, stops its loop and leaves its mutex free; the
    other queries and the sockets are untouched. *)
Theorem catched_tl_delivers w id a q ds' t r k :
  waiting w id a q ds' -> on_done q = Some (User k) -> is_rpc_error t = false -> answer t = Ok r ->
  exists w', catched_tl id (Some t) w = Ok (tt, w') /\
    w_events w' = w_events w ++ [OnDone a r] /\
    w_queues w' = <[a := set_loop false q]> (w_queues w) /\
    holds_items (w_nodes w') (w_head w') ds' /\
    w_tg w' = w_tg (answer_session t w) /\ w_net w' = w_net w.
Proof.
  intros Hw Hd Hr Ha. destruct (catched_tl_ok w id a q ds' t r Hw Hr Ha) as (h & l & Hl & ->).
  rewrite Hd. cbn [call]. eexists; split; [reflexivity |]. cbn.
  unfold answer_session. by destruct (obj t).
Qed.

(** a detailed-info notice costs the query its answer.  The notice
    names the id of the server's answer; [handle_tl] takes it for the id of
    the request.  When it matches a waiting query, the callback gets NULL
    and the query leaves the list while its loop goes on, and the result
    that arrives next for that id is dropped. *)
Theorem detailed_info_loses_answer w id a b q ds' t k x y :
  waiting w id a q ds' -> on_done q = Some (User k) ->
  cut (cmp_msgid (w_queues w) id) ds' = Ok (None, ds') ->
  exists w1 w2,
    handle_tl 1 b (Some (Tl x (Msg_detailed_info id))) w = Ok (tt, w1) /\
    handle_tl 1 b (Some (Tl y (Rpc_result id (Some t)))) w1 = Ok (tt, w2) /\
    w_events w2 = w_events w ++ [OnDone a None] /\
    (loop <$> w_queues w2 !! a) = Some true.
Proof.
  intros Hw Hd Hc. destruct (catched_null w id a q ds' Hw) as (h & l & Hl & E).
  rewrite Hd in E. cbn [call] in E. destruct Hw as [L _ Hq _ Hlp].
  destruct (cut_ok (set_list h l (log (OnDone a None) w)) id ds' None ds' L Hl Hc) as (h' & l' & E' & _).
  do 2 eexists. split_and!; [exact E | | |].
  - cbn [Queue.handle_tl obj]. unfold Queue.catched_tl. erewrite bind_eq by exact E'. reflexivity.
  - reflexivity.
  - cbn. rewrite Hq. cbn. by rewrite Hlp.
Qed.

(** a synchronous query crashes on a NULL answer.  The callback of
    [tg_send_query_sync] reads [tl->_buf] without a check: a detailed-info
    notice for its id, a result that does not parse, one that does not
    decompress and a bad-message notification all end in a NULL
    dereference. *)
Theorem sync_null_answer w id a b q ds' slot x :
  waiting w id a q ds' -> on_done q = Some (Sync slot) ->
  handle_tl 1 b (Some (Tl x (Msg_detailed_info id))) w = Err NullDeref /\
  handle_tl 1 b (Some (Tl x (Rpc_result id None))) w = Err NullDeref /\
  forall t, is_rpc_error t = false -> answer t = Ok None ->
    handle_tl 1 b (Some (Tl x (Rpc_result id (Some t)))) w = Err NullDeref.
Proof.
  intros Hw Hd. cbn [Queue.handle_tl obj].
  destruct (catched_null w id a q ds' Hw) as (h & l & _ & E). rewrite Hd in E.
  split_and!; [exact E | exact E |]. intros t Hr Ha.
  destruct (catched_tl_ok w id a q ds' t None Hw Hr Ha) as (h' & l' & _ & ->). by rewrite Hd.
Qed.

(** ** Restarted queries *)
(** A queue object as [tg_queue_new] leaves it. *)
Definition new_queue (a : nat) (qu : buf_t) (i : list Z) (n : Z) (mt : bool)
    (od : option callback) (pr : option nat) : tg_queue_t :=
  Queue (copy_ip i) n (Some (TimerThread a)) 0 true mt (fresh (contents qu)) 0 false false od pr.

Definition started (a : nat) (q : tg_queue_t) (w : world) : world :=
  log (Started (TimerThread a)) (log (Started (RunThread a))
    (set_queues (<[a := q]> (w_queues w)) (set_next (S a) w))).

Lemma queue_new_ok qu i n mt od pr w :
  buf_wf qu ->
  tg_queue_new qu i n mt od pr w =
    Ok (w_next w, started (w_next w) (new_queue (w_next w) qu i n mt od pr) w).
Proof.
  intros Hq. unfold tg_queue_new. eapply bind_ok; [reflexivity |]. eapply bind_ok; [reflexivity |].
  eapply bind_ok; [by apply lift_eq, buf_add_buf_ok |]. eapply bind_ok; [reflexivity |]. cbv beta zeta.
  eapply bind_ok; [refine (put_ok _ _ _ _ _); cbn; by rewrite lookup_insert_eq |].
  eapply bind_ok; [reflexivity |].
  eapply bind_ok; [refine (put_ok _ _ _ _ _); cbn; by rewrite lookup_insert_eq |].
  eapply bind_ok; [reflexivity |]. cbn. by rewrite !insert_insert_eq.
Qed.

(** The server address after a migration. *)
Definition is_file (error : list Z) : bool :=
  match tg_error_file_migrate (Some error) with Some _ => true | None => false end.
Definition moved (file : bool) (server : list Z) (w : world) : world :=
  if file then w else log (IpToDatabase server) (set_server (copy_ip server) (w_port w) w).

(** The query of [q] started again at address [i]. *)
Definition again (a : nat) (q : tg_queue_t) (i : list Z) : tg_queue_t :=
  new_queue a (query q) i (port q) (multithread q) (on_done q) (progress q).

Lemma get_ok w a q : w_queues w !! a = Some q -> get_queue a w = Ok (q, w).
Proof. unfold get_queue. by intros ->. Qed.

(** The address of a data centre: the first option of the fetched
    configuration with its number, else the one of the table. *)
Inductive dc_address (w : world) (d : dc_t) : list Z -> Prop :=
| address_of_config pre b post server :
    w_config w = Some (pre ++ Some (number d, b) :: post) ->
    (forall b', Some (number d, b') ∉ pre) -> c_str (data_at b 0) = Ok server -> dc_address w d server
| address_of_table :
    (forall l b, w_config w = Some l -> Some (number d, b) ∉ l) -> dc_address w d (chars (ipv4 d)).

Lemma dc_option_first pre n b post :
  (forall b', Some (n, b') ∉ pre) -> dc_option (pre ++ Some (n, b) :: post) n = Some b.
Proof.
  induction pre as [|[[n' b']|] pre IH]; intros Hn; cbn [app dc_option].
  - by rewrite Z.eqb_refl.
  - destruct (Z.eqb_spec n' n) as [-> |]; [by destruct (Hn b'); left |].
    apply IH. intros c Hc. apply (Hn c). by right.
  - apply IH. intros c Hc. apply (Hn c). by right.
Qed.

Lemma dc_option_none l n : (forall b, Some (n, b) ∉ l) -> dc_option l n = None.
Proof.
  induction l as [|[[n' b']|] l IH]; intros Hn; cbn [dc_option]; [done | |].
  - destruct (Z.eqb_spec n' n) as [-> |]; [by destruct (Hn b'); left |].
    apply IH. intros c Hc. apply (Hn c). by right.
  - apply IH. intros c Hc. apply (Hn c). by right.
Qed.

Lemma ip_address_ok w d server :
  dc_address w d server ->
  exists ip, tg_ip_address_for_dc (number d) w = Ok (ip, w) /\ default (chars (ipv4 d)) ip = server.
Proof.
  intros [pre b post i Hc Hp Hs | Hn]; unfold tg_ip_address_for_dc.
  - exists (Some i). split; [| done]. eapply bind_ok; [reflexivity |]. rewrite Hc, dc_option_first by done.
    eapply bind_ok; [by apply lift_eq |]. done.
  - exists None. split; [| done]. eapply bind_ok; [reflexivity |].
    destruct (w_config w) as [l|]; [| done]. by rewrite dc_option_none by (intros; by apply Hn).
Qed.

Lemma migrate_ok w a q n d error server :
  w_queues w !! a = Some q -> buf_wf (query q) -> dc_address w d server -> dc_at n = Ok d ->
  migrate_to_dc a n error w =
    Ok (tt, started (w_next w) (again (w_next w) q server) (moved (is_file error) server w)).
Proof.
  intros Hq Hw Hc Hd. unfold migrate_to_dc. eapply bind_ok; [by apply lift_eq |].
  destruct (ip_address_ok w d server Hc) as (ip & Ei & Es).
  eapply bind_ok; [exact Ei |]. rewrite Es. unfold moved, is_file.
  destruct (tg_error_file_migrate (Some error)).
  - eapply bind_ok; [reflexivity |]. eapply bind_ok; [by apply get_ok |].
    by rewrite (bind_eq _ _ _ _ _ (queue_new_ok _ _ _ _ _ _ _ Hw)).
  - eapply bind_ok; [reflexivity |]. eapply bind_ok; [by apply get_ok |].
    by rewrite (bind_eq _ _ _ _ _ (queue_new_ok _ _ _ _ _ _ _ Hw)).
Qed.

Lemma flood_ok w a q n :
  w_queues w !! a = Some q -> buf_wf (query q) ->
  flood_wait_for_seconds a n w =
    Ok (tt, started (w_next w) (again (w_next w) q (ip q)) (log (Slept (u32 n)) w)).
Proof.
  intros Hq Hw. unfold flood_wait_for_seconds. eapply bind_ok; [reflexivity |].
  eapply bind_ok; [by apply get_ok |]. by rewrite (bind_eq _ _ _ _ _ (queue_new_ok _ _ _ _ _ _ _ Hw)).
Qed.

Lemma queues_commute (m : gmap nat tg_queue_t) a a' x y z :
  a' <> a -> <[a := z]> (<[a' := y]> (<[a := x]> m)) = <[a := z]> (<[a' := y]> m).
Proof.
  intros Hne. rewrite (insert_insert_ne _ a a') by done. rewrite insert_insert_eq.
  by rewrite insert_insert_ne by done.
Qed.

(** The number decimal digits denote. *)
Definition decimal (ds : list Z) : Z := foldl (fun v c => 10 * v + (c - 48)) 0 ds.
Definition is_decimal (ds : list Z) : Prop := ds <> [] /\ Forall (fun c => 48 <= c <= 57) ds.

Lemma digits_decimal ds : Forall (fun c => 48 <= c <= 57) ds -> digits 0 ds = decimal ds.
Proof.
  unfold decimal. generalize 0. intros v Hd. revert v.
  induction Hd as [|c ds Hc _ IH]; intros v; [done |]. cbn [digits foldl].
  replace (is_digit c) with true by (unfold is_digit; lia). rewrite IH. f_equal. lia.
Qed.

Lemma no_letter ds pat c :
  Forall (fun c => 48 <= c <= 57) ds -> 57 < c -> strstr ds (c :: pat) = None.
Proof.
  intros Hd Hc. induction Hd as [|d ds Hr _ IH]; [done |].
  cbn [strstr starts_with]. by replace (c =? d) with false by lia.
Qed.

(** What the client makes of the two texts. *)
Lemma migrate_reads k n :
  1 <= n <= 8 -> let error := chars (kind_name k) ++ chars "MIGRATE_" ++ [48 + n] in
  tg_error_migrate (Some error) = Some n /\ is_file error = match k with FILE => true | _ => false end /\
  exists d, DCs !! Z.to_nat n = Some d /\ dc_at n = Ok d.
Proof.
  intros Hn error. assert (Hc : n = 1 \/ n = 2 \/ n = 3 \/ n = 4 \/ n = 5 \/ n = 6 \/ n = 7 \/ n = 8) by lia.
  assert (Hd : exists d, DCs !! Z.to_nat n = Some d /\ dc_at n = Ok d)
    by (decompose [or] Hc; subst n; eexists; by split).
  assert (Ha : atoi [48 + n] = n).
  { rewrite <- (app_nil_r [48 + n]), atoi_digits; cbn [digits];
      replace (is_digit (48 + n)) with true by (unfold is_digit; lia); try done; try lia.
    repeat constructor. unfold is_digit. lia. }
  split_and!; [| | exact Hd].
  - unfold tg_error_migrate, migrate, tg_error_get_num.
    replace (strstr error (chars "MIGRATE_")) with (Some (chars "MIGRATE_" ++ [48 + n])) by (by destruct k).
    change (drop _ _) with [48 + n]. rewrite Ha. by replace (n =? 0) with false by lia.
  - unfold is_file, tg_error_file_migrate, migrate, tg_error_get_num. clear Hc Hd. destruct k.
    1: { replace (strstr error (chars "FILE_MIGRATE_")) with (Some error) by done.
         change (drop _ _) with [48 + n]. rewrite Ha. by replace (n =? 0) with false by lia. }
    all: replace (strstr error (chars "FILE_MIGRATE_")) with (@None (list Z)); [done |];
      symmetry; cbn -[Z.add Z.eqb]; by rewrite ?andb_false_r.
Qed.

Lemma flood_reads ds :
  is_decimal ds -> 0 < decimal ds < 2147483648 ->
  tg_error_migrate (Some (chars "FLOOD_WAIT_" ++ ds)) = None /\
  tg_error_flood_wait (Some (chars "FLOOD_WAIT_" ++ ds)) = decimal ds.
Proof.
  intros [Hne Hd] Hv.
  assert (Ha : atoi ds = decimal ds).
  { rewrite <- (app_nil_r ds) at 1. rewrite atoi_digits, digits_decimal; try done.
    - revert Hd. apply Forall_impl. intros c. unfold is_digit. lia.
    - rewrite digits_decimal by done. lia. }
  split.
  - unfold tg_error_migrate, migrate, tg_error_get_num.
    change (strstr (chars "FLOOD_WAIT_" ++ ds) (chars "MIGRATE_")) with (strstr ds (chars "MIGRATE_")).
    change (chars "MIGRATE_") with (77 :: chars "IGRATE_"). by rewrite no_letter by (done || lia).
  - unfold tg_error_flood_wait, tg_error_get_num.
    change (strstr (chars "FLOOD_WAIT_" ++ ds) (chars "FLOOD_WAIT_")) with (Some (chars "FLOOD_WAIT_" ++ ds)).
    cbv beta iota. rewrite drop_app_length, Ha. by replace (decimal ds =? 0) with false by lia.
Qed.

(** C11: errors that ask for patience restart the query.  A waiting query
    is answered by an [rpc_error].  With a text "FILE_MIGRATE_n",
    "PHONE_MIGRATE_n", "USER_MIGRATE_n", "NETWORK_MIGRATE_n" or
    "STATS_MIGRATE_n", [n] from 1 to 8, the same query with the same callback
    is started anew against the address of data centre [n] - the first of
    the fetched configuration with its number, else the one of the table;
    for all but file migrations that address also becomes the server of the
    session and is saved.  With a text "FLOOD_WAIT_" and a positive decimal
    number below 2^31 the thread sleeps for that many seconds and starts the
    query anew against its old address.  In both cases [on_done] is not
    called, the old query leaves the list and stops, with its mutex free. *)
Theorem rpc_error_restarts w id a q ds' code msg x :
  waiting w id a q ds' -> (a < w_next w)%nat -> buf_wf (query q) ->
  let a' := w_next w in
  let threads := [Started (RunThread a'); Started (TimerThread a')] in
  (forall k n d server, 1 <= n <= 8 ->
   RPC_ERROR msg = Ok (chars (kind_name k) ++ chars "MIGRATE_" ++ [48 + n]) ->
   DCs !! Z.to_nat n = Some d -> dc_address w d server ->
   let file := match k with FILE => true | _ => false end in
   exists w', catched_tl id (Some (Tl x (Rpc_error code msg))) w = Ok (tt, w') /\
     w_queues w' = <[a := set_loop false q]> (<[a' := again a' q server]> (w_queues w)) /\
     w_events w' = w_events w ++ (if file then [] else [IpToDatabase server]) ++ threads /\
     w_ip w' = (if file then w_ip w else copy_ip server) /\
     holds_items (w_nodes w') (w_head w') ds') /\
  (forall ds, RPC_ERROR msg = Ok (chars "FLOOD_WAIT_" ++ ds) ->
   is_decimal ds -> 0 < decimal ds < 2147483648 ->
   exists w', catched_tl id (Some (Tl x (Rpc_error code msg))) w = Ok (tt, w') /\
     w_queues w' = <[a := set_loop false q]> (<[a' := again a' q (ip q)]> (w_queues w)) /\
     w_events w' = w_events w ++ Slept (decimal ds) :: threads /\
     w_ip w' = w_ip w /\ holds_items (w_nodes w') (w_head w') ds').
Proof.
  intros Hw Ha Hqw a' threads. assert (Hne : a' <> a) by (unfold a'; lia).
  destruct (catched_start w id a q ds' (Tl x (Rpc_error code msg)) Hw) as (h & l & Hl & E).
  cbn [obj] in E. destruct Hw as [_ _ Hq Hk _]. set (w1 := set_queues _ _) in E.
  assert (Hq1 : w_queues w1 !! a = Some (set_lock true q)) by (cbn; by rewrite lookup_insert_eq).
  assert (Hfin : forall w2 q', w_queues w2 = <[a' := q']> (w_queues w1) ->
    stop_queue a w2 = Ok (tt, set_queues (<[a := set_loop false q]> (w_queues w2)) w2)).
  { intros w2 q' E2. apply stop_ok; [| done]. rewrite E2. by rewrite lookup_insert_ne. }
  split.
  - intros k n d server Hn He Hd Hs file. rewrite (bind_eq _ _ _ _ _ (lift_eq _ _ _ He)) in E.
    destruct (migrate_reads k n Hn) as (Em & Ef & d' & Hd' & Hat).
    rewrite Em in E. rewrite Hd in Hd'. injection Hd' as <-.
    assert (Hs1 : dc_address w1 d server) by (destruct Hs; [by eapply address_of_config | by apply address_of_table]).
    rewrite (bind_eq _ _ _ _ _ (migrate_ok w1 a _ n d _ server Hq1 Hqw Hs1 Hat)) in E.
    rewrite Ef in E. fold file in E.
    erewrite Hfin in E by (unfold moved; by destruct file).
    eexists; split; [exact E |]. unfold moved. destruct file; cbn;
      (split_and!; [by apply queues_commute | by rewrite <- !app_assoc | done | done]).
  - intros ds He Hdec Hv. rewrite (bind_eq _ _ _ _ _ (lift_eq _ _ _ He)) in E.
    destruct (flood_reads ds Hdec Hv) as (Em & Ef). rewrite Em, Ef in E. cbv zeta in E.
    replace (negb (decimal ds =? 0)) with true in E by lia.
    rewrite (bind_eq _ _ _ _ _ (flood_ok w1 a _ (decimal ds) Hq1 Hqw)) in E.
    erewrite Hfin in E by done. eexists; split; [exact E |]. cbn.
    split_and!; [by apply queues_commute | | done | done].
    unfold u32. rewrite Z.mod_small by lia. by rewrite <- !app_assoc.
Qed.
End Delivery.
