(* ===== verification/Receive.v ===== *)
(** * From the socket to the caller

    [_tg_receive] reassembles a packet from the blocks the network
    delivers, decrypts it and hands the object to [handle_tl]; a whole
    synchronous call is followed from the query to its answer. *)
From S2P Require Import Prelude TlBuf Serial Tg Packet Header LinkedList Errors Objects Queue Delivery.

Section Receive.
Context `{Env} `{OpenSSL} `{Zlib} `{Network}.
Variable tl_table : list (Z * (buf_t -> res (option tl_t * buf_t))).
Abbreviation deserialize := (deserialize tl_table).
Abbreviation handle_tl := (handle_tl tl_table).
Abbreviation _tg_receive := (_tg_receive tl_table).

#[local] Arguments Objects.deserialize : simpl never.

(** The world after [fd] delivered everything up to [rest]. *)
Definition rest_of (fd : Z) (rest : stream) (w : world) : world :=
  set_net (<[fd := rest]> (w_net w)) (w_fds w) w.

Lemma rest_of_id fd rest w : w_net w !! fd = Some rest -> rest_of fd rest w = w.
Proof. intros E. unfold rest_of. rewrite insert_id by done. by destruct w. Qed.

Lemma rest_of_rest fd r r' w : rest_of fd r' (rest_of fd r w) = rest_of fd r' w.
Proof. unfold rest_of. cbn. by rewrite insert_insert_eq. Qed.

Lemma recv_ok w fd n bs s :
  w_net w !! fd = Some (Some bs :: s) -> zlen bs <= n ->
  recv fd n w = Ok (Some bs, rest_of fd s w).
Proof. intros E Hn. unfold recv. rewrite E. by replace (zlen bs <=? n) with true by lia. Qed.

(** Blocks are stored one after the other. *)
Lemma receive_blocks chunks : forall fuel w a q fd len received r rest,
  w_queues w !! a = Some q -> progress q = None ->
  w_net w !! fd = Some ((Some <$> chunks) ++ rest) -> Forall (fun c => c <> []) chunks ->
  0 <= received -> b_off r = 0 -> received + zlen (mjoin chunks) <= len -> len <= zlen (b_mem r) ->
  receive_loop (length chunks + fuel) a fd len received r w =
  receive_loop fuel a fd len (received + zlen (mjoin chunks))
    (set_mem r (splice (b_mem r) received (mjoin chunks))) (rest_of fd rest w).
Proof.
  induction chunks as [|c chunks IH]; intros fuel w a q fd len received r rest Hq Hp Hn Hne Hr0 Ho Hlen Hcap.
  { cbn. change (zlen []) with 0. rewrite Z.add_0_r, splice_nil, rest_of_id by done. by destruct r. }
  apply Forall_cons_1 in Hne as [Hc Hne].
  change (mjoin (c :: chunks)) with (c ++ mjoin chunks) in *. rewrite zlen_app in *.
  assert (0 < zlen c) by (destruct c; [done | rewrite zlen_cons; pose proof (zlen_nonneg c); lia]).
  pose proof (zlen_nonneg (mjoin chunks)). cbn [length Nat.add receive_loop].
  replace (received <? len) with true by lia.
  erewrite bind_eq by (apply recv_ok; [exact Hn | lia]). cbv beta iota.
  assert (Hcopy : copy_loop (length c) 0 (b_mem r) (fun i => b_off r + received + i) c =
    Ok (splice (b_mem r) received c)).
  { rewrite (copy_loop_ok _ _ _ _ received); [| intros; lia | lia | lia | unfold zlen; lia | fold (zlen c); lia].
    rewrite Z.add_0_r. fold (zlen c). by rewrite slice_all by lia. }
  erewrite bind_eq by (apply lift_eq, Hcopy).
  erewrite bind_eq by (apply get_ok; exact Hq). rewrite Hp.
  erewrite (IH fuel _ a q fd len _ _ rest); [| exact Hq | done | | done | lia | done | lia |].
  - rewrite rest_of_rest. cbn [set_mem b_mem]. rewrite splice_app by lia.
    unfold set_mem. cbn [b_off b_size b_asize]. by rewrite Z.add_assoc.
  - cbn. by rewrite lookup_insert_eq.
  - cbn. rewrite zlen_splice; lia.
Qed.

Lemma receive_done fuel a fd len r : receive_loop fuel a fd len len r = mret (inr r).
Proof. destruct fuel; cbn [receive_loop]; by rewrite Z.ltb_irrefl. Qed.

(** With the peer gone the loop receives nothing for ever. *)
Lemma receive_closed fuel : forall w a q fd len received r,
  w_queues w !! a = Some q -> progress q = None -> w_net w !! fd = Some [] -> received < len ->
  receive_loop fuel a fd len received r w = Err NoFuel.
Proof.
  induction fuel as [|fuel IH]; intros w a q fd len received r Hq Hp Hn Hlt; cbn [receive_loop];
    replace (received <? len) with true by lia; [done |].
  assert (E : recv fd (len - received) w = Ok (Some [], w)) by (unfold recv; by rewrite Hn).
  erewrite bind_eq by exact E. cbn [length copy_loop]. change (zlen []) with 0. rewrite Z.add_0_r.
  erewrite bind_eq by reflexivity. erewrite bind_eq by (apply get_ok; exact Hq). rewrite Hp.
  by apply (IH _ _ q).
Qed.

(** The length word: the bytes [recv] returned, and what the variable held
    before in place of those it did not. *)
Definition length_word (bs junk : list Z) : Z := le_num (bs ++ drop (length bs) junk).

(** What follows the length [n]. *)
Definition after_length (fuel a : nat) (fd n : Z) : Q RTL :=
  x ← receive_loop fuel a fd n 0 (mk_buf [] (Z.max BUFSIZ n));
  match x with
  | inl res => mret res
  | inr r =>
      let r := set_size r n in
      w0 ← (if b_size r =? 4 then lift (buf_get_ui32 r) else mret 0);
      if w0 =? 0xfffffe6c then mret RTL_ERROR
      else
        tg ← gets w_tg;
        d ← lift (tg_decrypt tg r true);
        if b_size d =? 0 then mret RTL_ERROR
        else
          msg ← on_tg (tg_deheader d true);
          tl ← lift (deserialize msg);
          match tl with
          | None => fail NullDeref
          | Some t =>
              match obj t with
              | Bad_server_salt => mret RTL_RESEND
              | _ => _ ← handle_tl fuel a tl; mret RTL_REREAD
              end
          end
  end.

Lemma receive_word fuel junk w a fd bs s :
  w_net w !! fd = Some (Some bs :: s) -> zlen bs <= 4 -> fits (length_word bs junk) ->
  _tg_receive fuel junk a fd w = after_length fuel a fd (length_word bs junk) (rest_of fd s w).
Proof.
  intros Hn Hb Hf. unfold Queue._tg_receive, buf_new.
  erewrite bind_eq by (apply lift_eq, buf_init_ok).
  erewrite bind_eq by (apply recv_ok; [exact Hn | done]). cbv beta iota zeta.
  fold (length_word bs junk).
  erewrite bind_eq by (apply lift_eq, realloc_fresh, Hf). reflexivity.
Qed.

Lemma receive_length fuel junk w a fd n s :
  w_net w !! fd = Some (Some (le_bytes 4 n) :: s) -> is_u32 n -> fits n -> length junk = 4%nat ->
  _tg_receive fuel junk a fd w = after_length fuel a fd n (rest_of fd s w).
Proof.
  intros Hn Hu Hf Hj. assert (E : length_word (le_bytes 4 n) junk = n).
  { unfold length_word. change (length (le_bytes 4 n)) with 4%nat.
    by rewrite drop_ge, app_nil_r, le_num_bytes4, u32_id by (done || lia). }
  rewrite (receive_word _ _ _ _ _ _ _ Hn); [by rewrite E | by rewrite zlen_le_bytes | by rewrite E].
Qed.

(** The peer closes before [n] bytes have come. *)
Lemma after_length_closed fuel w a q fd n chunks :
  w_queues w !! a = Some q -> progress q = None -> w_net w !! fd = Some (Some <$> chunks) ->
  Forall (fun c => c <> []) chunks -> zlen (mjoin chunks) < n ->
  after_length (length chunks + fuel) a fd n w = Err NoFuel.
Proof.
  intros Hq Hp Hn Hne Hlt. pose proof (zlen_nonneg (mjoin chunks)). platform. apply bind_err.
  erewrite (receive_blocks chunks _ _ _ q _ _ _ _ []); [| exact Hq | done | by rewrite app_nil_r | done | lia | done | lia |].
  - apply (receive_closed _ _ _ q); [done | done | | lia]. cbn. by rewrite lookup_insert_eq.
  - unfold mk_buf. cbn [b_mem app length]. rewrite zlen_replicate. lia.
Qed.

(** ** A packet of the server *)
Record packet := Pkt {
  pk_salt : list Z; pk_ssid : list Z; pk_id : Z; pk_seqno : Z; pk_body : list Z; pk_tail : list Z
}.
Definition plain (p : packet) : list Z :=
  enc_packet (pk_salt p) (pk_ssid p) (pk_id p) (pk_seqno p) (pk_body p) (pk_tail p).

Record packet_ok (p : packet) : Prop := {
  pk_salt_8 : zlen (pk_salt p) = 8;
  pk_ssid_8 : zlen (pk_ssid p) = 8;
  pk_id_64 : is_u64 (pk_id p);
  pk_bytes : bytes_ok (plain p);
  pk_blocks : zlen (plain p) mod 16 = 0;
  pk_fits : fits (zlen (plain p) * 3 + 256)
}.

(** [fd] delivers the length word and the sealed packet, cut into [chunks]. *)
Definition delivers (w : world) (fd : Z) (p : packet) (chunks : list (list Z)) (rest : stream) : Prop :=
  w_net w !! fd = Some (Some (le_bytes 4 (24 + zlen (plain p))) :: (Some <$> chunks) ++ rest) /\
  mjoin chunks = seal 8 (contents (key (w_tg w))) (plain p) /\ Forall (fun c => c <> []) chunks.

Definition session_ready (w : world) : Prop :=
  key_ok (w_tg w) /\ buf_wf (ssid (w_tg w)) /\ b_size (ssid (w_tg w)) = 8.

(** The session has the salt of the packet and will acknowledge it. *)
Definition noted (p : packet) (w : world) : world :=
  set_tg (set_msgids (msgids (w_tg w) ++ [pk_id p]) (set_salt (fresh (pk_salt p)) (w_tg w))) w.

Lemma zlen_seal x k m : zlen (seal x k m) = 24 + zlen m.
Proof. unfold seal. rewrite !zlen_app, zlen_key_id, zlen_msg_key, ige_encrypt_length. lia. Qed.

Lemma seal_bytes x k m : bytes_ok (seal x k m).
Proof.
  unfold seal. repeat apply Forall_app_2; [apply key_id_bytes | apply msg_key_bytes | apply ige_encrypt_bytes].
Qed.

Lemma deheader_packet p tg d :
  packet_ok p -> buf_wf (ssid tg) -> b_size (ssid tg) = 8 -> buf_wf d -> contents d = plain p ->
  tg_deheader d true tg =
    Ok (fresh (pk_body p), set_msgids (msgids tg ++ [pk_id p]) (set_salt (fresh (pk_salt p)) tg)).
Proof.
  intros [Ls Ld Hid Hb _ Hf] Wd Sd Hw Hc. pose proof Hb as Hb'. unfold plain, enc_packet in Hb'.
  apply Forall_app in Hb' as [Bs _].
  rewrite (deheader_enc_ok tg d _ _ _ _ _ _ (pk_body p) (pk_tail p) Hw Hc);
    rewrite ?zlen_le_bytes; try done.
  - rewrite le_num_bytes8, u64_id by done. do 3 f_equal.
    rewrite <- (le_bytes_num (pk_salt p)) at 2 by done. do 3 f_equal. unfold zlen in Ls. lia.
  - rewrite le_num_bytes4, u32_id; [done |]. unfold plain, enc_packet in Hf.
    rewrite !zlen_app, !zlen_le_bytes in Hf. platform. unfold is_u32.
    pose proof (zlen_nonneg (pk_body p)). pose proof (zlen_nonneg (pk_tail p)). lia.
Qed.

Lemma receive_ok fuel junk w a q fd p chunks rest :
  session_ready w -> w_queues w !! a = Some q -> progress q = None ->
  packet_ok p -> delivers w fd p chunks rest -> length junk = 4%nat ->
  _tg_receive (length chunks + fuel) junk a fd w =
  (tl ← lift (deserialize (fresh (pk_body p)));
   match tl with
   | None => fail NullDeref
   | Some t =>
       match obj t with
       | Bad_server_salt => mret RTL_RESEND
       | _ => _ ← handle_tl (length chunks + fuel) a tl; mret RTL_REREAD
       end
   end) (noted p (rest_of fd rest w)).
Proof.
  intros (Hk & Wd & Sd) Hq Hp Hpk (Hn & Hj & Hne) Hjunk. pose proof Hpk as [_ _ _ Hb Hm Hf].
  set (n := 24 + zlen (plain p)) in *. pose proof (zlen_nonneg (plain p)). platform.
  assert (Ln : zlen (mjoin chunks) = n) by (rewrite Hj; apply zlen_seal).
  rewrite (receive_length _ _ _ _ _ n _ Hn) by (unfold is_u32, fits; lia).
  unfold after_length. set (r0 := mk_buf [] _).
  assert (Hcap : n <= zlen (b_mem r0)).
  { unfold r0, mk_buf. cbn [b_mem app length]. rewrite zlen_replicate. lia. }
  erewrite bind_eq; [| erewrite (receive_blocks chunks _ _ _ q _ _ _ _ rest); [| exact Hq | done | | done | lia | done | lia | done]].
  2: { rewrite Z.add_0_l, Ln, receive_done. reflexivity. }
  2: { cbn. by rewrite lookup_insert_eq. }
  rewrite rest_of_rest. cbv beta iota zeta. set (r := set_size _ n).
  assert (Er : r = mk_buf (mjoin chunks) (Z.max BUFSIZ n)).
  { unfold r, r0, set_size, set_mem. cbn [b_mem b_off b_size b_asize].
    change 0 with (zlen (@nil Z)) at 1. rewrite splice_mk by (change (zlen []) with 0; lia).
    rewrite app_nil_l. unfold mk_buf. cbn. by rewrite Ln. }
  assert (Wr : buf_wf r).
  { rewrite Er. apply mk_buf_wf; [rewrite Hj; apply seal_bytes | lia | unfold fits in *; lia]. }
  assert (Cr : contents r = seal 8 (contents (key (w_tg w))) (plain p)) by (by rewrite Er, contents_mk).
  assert (Sr : b_size r = n) by done. rewrite Sr.
  replace (n =? 4) with false by lia. erewrite bind_eq by reflexivity. cbn [Z.eqb].
  erewrite bind_eq by reflexivity.
  destruct (decrypt_seal (w_tg w) r (plain p) Hk Wr Cr Hm Hb) as (d & Ed & Wdd & Cd); [unfold fits in *; lia |].
  erewrite bind_eq by (apply lift_eq; exact Ed).
  pose proof (zlen_contents d Wdd) as Sdd. rewrite Cd in Sdd.
  assert (b_size d <> 0).
  { rewrite <- Sdd. unfold plain, enc_packet. rewrite !zlen_app, !zlen_le_bytes. zpos. lia. }
  replace (b_size d =? 0) with false by lia.
  assert (Eh : on_tg (tg_deheader d true) (rest_of fd rest w) =
    Ok (fresh (pk_body p), noted p (rest_of fd rest w))).
  { unfold on_tg, noted. apply zoom_eq. by apply deheader_packet. }
  erewrite bind_eq by exact Eh. reflexivity.
Qed.

Lemma waiting_noted p fd rest w id a q ds' :
  waiting w id a q ds' -> waiting (noted p (rest_of fd rest w)) id a q ds'.
Proof. intros [L D Q K P]. by split. Qed.

(** C2: a result travels from the socket to its callback.  The length word
    arrives in one block; however the network cuts the sealed packet that
    follows, [_tg_receive] puts it back together, decrypts it, takes over
    the salt, queues the message id for acknowledgement, and calls the
    callback of the query that waits for the result (one that is not an
    [rpc_error]), once, leaving what follows on the socket.  A wrong-salt
    notice asks for the query to be sent again, with the new salt in place;
    an object with an unknown constructor makes it dereference NULL; any
    other object goes to [handle_tl] in the session so changed.  A length
    word that arrives in part is not waited for: the length is then made of
    what came and of what the variable held before, and when fewer bytes
    than that follow before the peer closes, the call does not return. *)
Theorem receive_delivers_result fuel junk w a q fd p chunks rest id a' q' ds' k :
  session_ready w -> w_queues w !! a = Some q -> progress q = None ->
  packet_ok p -> delivers w fd p chunks rest -> length junk = 4%nat ->
  waiting w id a' q' ds' -> on_done q' = Some (User k) ->
  (forall x t r, deserialize (fresh (pk_body p)) = Ok (Some (Tl x (Rpc_result id (Some t)))) ->
     is_rpc_error t = false -> answer tl_table t = Ok r ->
     exists w', _tg_receive (length chunks + S fuel) junk a fd w = Ok (RTL_REREAD, w') /\
       w_events w' = w_events w ++ [OnDone a' r] /\
       w_queues w' = <[a' := set_loop false q']> (w_queues w) /\
       msgids (w_tg w') = msgids (w_tg w) ++ [pk_id p] /\ salt (w_tg w') = fresh (pk_salt p) /\
       w_net w' !! fd = Some rest) /\
  (forall x, deserialize (fresh (pk_body p)) = Ok (Some (Tl x Bad_server_salt)) ->
     exists w', _tg_receive (length chunks + S fuel) junk a fd w = Ok (RTL_RESEND, w') /\
       salt (w_tg w') = fresh (pk_salt p)) /\
  (deserialize (fresh (pk_body p)) = Ok None ->
     _tg_receive (length chunks + S fuel) junk a fd w = Err NullDeref) /\
  (forall t, deserialize (fresh (pk_body p)) = Ok (Some t) -> obj t <> Bad_server_salt ->
     _tg_receive (length chunks + S fuel) junk a fd w =
       (_ ← handle_tl (length chunks + S fuel) a (Some t); mret RTL_REREAD) (noted p (rest_of fd rest w))) /\
  (forall w bs blocks, w_queues w !! a = Some q -> w_net w !! fd = Some (Some bs :: (Some <$> blocks)) ->
     zlen bs < 4 -> Forall (fun c => c <> []) blocks -> fits (length_word bs junk) ->
     zlen (mjoin blocks) < length_word bs junk ->
     _tg_receive (length blocks + fuel) junk a fd w = Err NoFuel).
Proof.
  intros Hs Hq Hp Hpk Hd Hj Hw Hk. rewrite (receive_ok (S fuel) junk w a q fd p chunks rest) by done.
  set (w0 := noted p (rest_of fd rest w)).
  pose proof (waiting_noted p fd rest w id a' q' ds' Hw) as Hw0. fold w0 in Hw0.
  split_and!.
  - intros x t r Ht Hr Ha. destruct (catched_tl_ok tl_table w0 id a' q' ds' t r Hw0 Hr Ha) as (h & l & _ & E).
    rewrite Hk in E. cbn [call] in E. rewrite (bind_eq _ _ _ _ _ (lift_eq _ _ _ Ht)). cbn [obj].
    rewrite Nat.add_succ_r. eexists; split; [eapply bind_ok; [exact E | reflexivity] |].
    unfold answer_session. destruct (obj t); cbn; rewrite lookup_insert_eq; done.
  - intros x Ht. rewrite (bind_eq _ _ _ _ _ (lift_eq _ _ _ Ht)). by eexists.
  - intros Ht. by rewrite (bind_eq _ _ _ _ _ (lift_eq _ _ _ Ht)).
  - intros t Ht Ho. rewrite (bind_eq _ _ _ _ _ (lift_eq _ _ _ Ht)). by destruct (obj t).
  - intros w' bs blocks Hq' Hn Hb Hne Hf Hlt.
    rewrite (receive_word _ _ _ _ _ _ _ Hn) by (lia || done).
    apply (after_length_closed _ _ _ q); [done | done | | done | done]. cbn. by rewrite lookup_insert_eq.
Qed.

(** C36: a peer that closes in the middle of a packet is read for ever.
    [recv] then returns 0, which the loop does not tell from data that is
    yet to come: after the length word and any blocks shorter than
    announced, [_tg_receive] ends for no number of turns. *)
Theorem receive_closed_spins fuel junk w a q fd n chunks :
  w_queues w !! a = Some q -> progress q = None ->
  w_net w !! fd = Some (Some (le_bytes 4 n) :: (Some <$> chunks)) ->
  Forall (fun c => c <> []) chunks -> zlen (mjoin chunks) < n -> is_u32 n -> fits n ->
  length junk = 4%nat ->
  _tg_receive (length chunks + fuel) junk a fd w = Err NoFuel.
Proof.
  intros Hq Hp Hn Hne Hlt Hu Hf Hj. rewrite (receive_length _ _ _ _ _ n _ Hn) by done.
  apply (after_length_closed _ _ _ q); try done. cbn. by rewrite lookup_insert_eq.
Qed.
End Receive.
