(* ===== verification/Sync.v ===== *)
(** * A synchronous query from end to end

    [tg_send_query_sync]: a queue object is created, its thread opens a
    connection, sends the query, takes its turns at receiving, and ends when
    the answer has been delivered; the timer then frees the object. *)
From S2P Require Import Prelude TlBuf Serial Tg Packet Header LinkedList Errors Objects Queue Delivery Receive.

Section Sync.
Context `{Env} `{OpenSSL} `{Zlib} `{Network}.
Variable tl_table : list (Z * (buf_t -> res (option tl_t * buf_t))).
Abbreviation deserialize := (deserialize tl_table).

#[local] Arguments Objects.deserialize : simpl never.

(** [qstep E] runs one operation whose result the proof [E] gives. *)
Ltac qstep E := eapply bind_ok; [exact E | cbv beta iota].

Lemma queue_add_ok w ds a :
  w_queue_lock w = false -> holds_items (w_nodes w) (w_head w) ds ->
  exists h l, tg_queue_add a w = Ok (tt, set_list h l w) /\ holds_items h l (a :: ds).
Proof.
  intros L Hl.
  destruct (list_add_ok _ _ _ (base.fresh (dom (w_nodes w))) a Hl (is_fresh _)) as (h & E & Hl').
  exists h, (Some (base.fresh (dom (w_nodes w)))). split; [| done].
  unfold tg_queue_add, lock_list, unlock_list, mbind, st_bind, gets, modify. rewrite L. cbn.
  cbn in E. injection E as ->. by rewrite set_list_locked.
Qed.

Definition session_full (w : world) : Prop :=
  session_ok (w_tg w) /\ key_ok (w_tg w) /\ msgids (w_tg w) = [].

Lemma prepare_mtproto_ok w a : session_full w -> tg_prepare_mtproto a w = Ok (tt, w).
Proof.
  intros ((Ws & Ss & Wd & Sd) & (Wk & Sk) & _). unfold tg_prepare_mtproto.
  assert (Et : set_tg (w_tg w) w = w) by (by destruct w).
  assert (Eg : forall A (f : tg_t -> A), on_tg (gets f) w = Ok (f (w_tg w), w)).
  { intros. unfold on_tg, zoom, gets. by rewrite Et. }
  qstep (Eg _ key). rewrite Sk. cbn [Z.eqb]. eapply bind_ok; [reflexivity |].
  qstep (Eg _ ssid). rewrite Sd. cbn [Z.eqb]. eapply bind_ok; [reflexivity |].
  qstep (Eg _ salt). by rewrite Ss.
Qed.

(** The world after [a]'s query was sent as [bs]. *)
Definition sent (a : nat) (q : tg_queue_t) (bs : list Z) (w : world) : world :=
  log (Sent (socket q) bs)
    (set_queues (<[a := set_msgid (mid (w_tg w) (ticks (w_tg w))) q]> (w_queues w))
       (set_tg (bump true (w_tg w)) w)).

Definition carries (w : world) (qu bs : list Z) : Prop :=
  exists sealed padding, bs = le_bytes 4 (zlen sealed) ++ sealed /\
    open 0 (contents (key (w_tg w))) sealed =
      Some (enc_packet (contents (salt (w_tg w))) (contents (ssid (w_tg w)))
              (mid (w_tg w) (ticks (w_tg w))) (i32 (seqn (w_tg w) * 2 + 1)) qu padding).

Lemma send_ok w a q s :
  w_queue_lock w = false -> session_full w -> w_queues w !! a = Some q -> buf_wf (query q) ->
  fits (b_size (query q) * 3 + 512) -> w_net w !! socket q = Some s ->
  exists bs, tg_send a w = Ok (0, sent a q bs w) /\ carries w (contents (query q)) bs.
Proof.
  intros L Hs Hq Hw Hf Hn. pose proof Hs as (Hses & Hk & Hm).
  destruct (prepare_query_ok (query q) (msgid q) (w_tg w) Hses Hk Hw Hm Hf)
    as (t & sealed & padding & E & -> & Bs & Fs & Ho).
  set (bs := le_bytes 4 (zlen sealed) ++ sealed) in *.
  assert (Lb : zlen bs = 4 + zlen sealed) by (unfold bs; by rewrite zlen_app, zlen_le_bytes).
  exists bs. split; [| by exists sealed, padding].
  assert (E1 : lock_list w = Ok (tt, set_queue_lock true w)) by (unfold lock_list, mbind, st_bind, gets; by rewrite L).
  assert (E2 : unlock_list (set_queue_lock true w) = Ok (tt, w)).
  { unfold unlock_list, modify. do 2 f_equal. destruct w; cbn in *; by rewrite L. }
  unfold tg_send. qstep E1. qstep (prepare_mtproto_ok (set_queue_lock true w) a Hs). qstep E2.
  qstep (get_ok w a q Hq). eapply bind_ok; [by apply zoom_eq |]. cbv beta iota.
  eapply bind_ok; [by apply (put_ok _ a q) |]. cbn [default].
  eapply bind_ok; [apply get_ok; cbn; by rewrite lookup_insert_eq |].
  rewrite size_fresh. replace (zlen bs =? 0) with false by (pose proof (zlen_nonneg sealed); lia).
  assert (Wt : buf_wf (fresh bs)).
  { apply fresh_wf; [apply Forall_app_2; [apply le_bytes_ok | done] | by rewrite Lb]. }
  eapply bind_ok.
  { unfold Queue.send. eapply bind_ok; [reflexivity |]. cbn [w_net set_queues set_tg socket set_msgid].
    rewrite Hn. eapply bind_ok; [apply lift_eq, load_ok, Wt |]. rewrite contents_fresh. reflexivity. }
  reflexivity.
Qed.

(** A thread that finds the mutex free takes it and turns again. *)
Lemma turn_lock fuel junk w a q :
  w_queues w !! a = Some q -> multithread q = false -> w_socket_mutex w = false ->
  run_turn tl_table fuel junk a w = Ok (true, set_socket_mutex true w).
Proof.
  intros Hq Hm Hs. unfold run_turn. qstep (get_ok w a q Hq). rewrite Hm.
  eapply bind_ok; [reflexivity |]. by rewrite Hs.
Qed.

Lemma turn_receive fuel junk w a q w' :
  w_queues w !! a = Some q -> multithread q = false -> w_socket_mutex w = true ->
  _tg_receive tl_table fuel junk a (socket q) w = Ok (RTL_REREAD, w') ->
  run_turn tl_table fuel junk a w = Ok (true, set_socket_mutex false w').
Proof.
  intros Hq Hm Hs E. unfold run_turn. qstep (get_ok w a q Hq). rewrite Hm.
  eapply bind_ok; [reflexivity |]. rewrite Hs. cbv beta iota. qstep E. reflexivity.
Qed.

(** What the thread of a query finds: a fresh queue object, an idle session,
    and a server that will answer. *)
Record runnable (w : world) (a : nat) (q : tg_queue_t) (slot : nat) : Prop := {
  rn_list : w_queue_lock w = false;
  rn_mutex : w_socket_mutex w = false;
  rn_items : holds_items (w_nodes w) (w_head w) [];
  rn_fds : 0 <= w_fds w;
  rn_session : session_full w;
  rn_queue : w_queues w !! a = Some q;
  rn_loop : loop q = true;
  rn_lock : lock q = false;
  rn_inloop : inloop_lock q = false;
  rn_multi : multithread q = false;
  rn_progress : progress q = None;
  rn_done : on_done q = Some (Sync slot);
  rn_query : buf_wf (query q);
  rn_fits : fits (b_size (query q) * 3 + 512)
}.

Record server_answers (w : world) (i : list Z) (n : Z) (p : packet) (chunks : list (list Z))
    (rest : stream) (u : tl_t) (v : option tl_t) : Prop := {
  sa_dial : dial i n (w_fds w) =
    Some (Some (le_bytes 4 (24 + zlen (plain p))) :: (Some <$> chunks) ++ rest);
  sa_packet : packet_ok p;
  sa_chunks : mjoin chunks = seal 8 (contents (key (w_tg w))) (plain p);
  sa_nonempty : Forall (fun c => c <> []) chunks;
  sa_object : exists x t, deserialize (fresh (pk_body p)) =
      Ok (Some (Tl x (Rpc_result (mid (w_tg w) (ticks (w_tg w))) (Some t)))) /\
    is_rpc_error t = false /\ answer tl_table t = Ok (Some u);
  sa_copy : deserialize (_buf u) = Ok v
}.

(** The connection is open and the queue is in the list. *)
Lemma run_start turns fuel junk w a q s :
  w_queue_lock w = false -> holds_items (w_nodes w) (w_head w) [] -> 0 <= w_fds w ->
  w_queues w !! a = Some q -> inloop_lock q = false -> dial (ip q) (port q) (w_fds w) = Some s ->
  exists h l, holds_items h l [a] /\
    let fd := w_fds w in
    let w1 := set_list h l (set_queues (<[a := set_socket fd (set_inloop true q)]> (w_queues w))
       (log (Sent fd [0xee; 0xee; 0xee; 0xee]) (log (Opened fd (ip q) (port q))
         (set_net (<[fd := s]> (w_net w)) (fd + 1) w)))) in
    tg_run_queue tl_table turns fuel junk a w =
    (e ← tg_send a;
     _ ← (if negb (e =? 0) then put_queue a (set_loop false) else mret tt);
     _ ← run_loop tl_table turns fuel junk a;
     q ← get_queue a;
     _ ← (if 0 <=? socket q then tg_net_close (socket q) else mret tt);
     q ← get_queue a;
     _ ← tg_queue_cut (msgid q);
     tg_run_queue_exit a) w1.
Proof.
  intros L Hl Hfd Hq Hi Hd. set (fd := w_fds w).
  set (w0 := set_queues (<[a := set_socket fd (set_inloop true q)]> (w_queues w))
       (log (Sent fd [0xee; 0xee; 0xee; 0xee]) (log (Opened fd (ip q) (port q))
         (set_net (<[fd := s]> (w_net w)) (fd + 1) w)))).
  destruct (queue_add_ok w0 [] a L Hl) as (h & l & Ea & Hl'). exists h, l. split; [done |]. cbv zeta.
  unfold tg_run_queue. eapply bind_ok.
  { unfold lock_inloop. qstep (get_ok w a q Hq). rewrite Hi. exact (put_ok w a q (set_inloop true) Hq). }
  cbv beta. eapply bind_ok; [apply get_ok; cbn; by rewrite lookup_insert_eq |].
  eapply bind_ok.
  { unfold tg_net_open. eapply bind_ok; [reflexivity |]. cbn [w_fds set_queues ip port set_inloop].
    rewrite Hd. eapply bind_ok; [reflexivity |]. do 2 (eapply bind_ok; [reflexivity |]). reflexivity. }
  cbn [w_fds set_queues]. fold fd.
  eapply bind_ok; [apply (put_ok _ a (set_inloop true q)); cbn; by rewrite lookup_insert_eq |].
  replace (fd <? 0) with false by lia.
  match goal with |- (_ ≫= _) ?wx = _ => replace wx with w0 end.
  2: { unfold w0, set_queues, log, set_net, set_queues. cbn. by rewrite insert_insert_eq. }
  erewrite bind_eq by exact Ea. reflexivity.
Qed.

(** The turns of the loop: one takes the mutex, one receives the answer. *)
Lemma run_answered turns fuel junk w a q slot p chunks rest x t u v :
  w_queue_lock w = false -> w_socket_mutex w = false -> holds_items (w_nodes w) (w_head w) [a] ->
  w_queues w !! a = Some q -> loop q = true -> lock q = false -> multithread q = false ->
  progress q = None -> on_done q = Some (Sync slot) -> session_ready w ->
  packet_ok p -> delivers w (socket q) p chunks rest -> length junk = 4%nat ->
  deserialize (fresh (pk_body p)) = Ok (Some (Tl x (Rpc_result (msgid q) (Some t)))) ->
  is_rpc_error t = false -> answer tl_table t = Ok (Some u) -> deserialize (_buf u) = Ok v ->
  exists h l, holds_items h l [] /\
    run_loop tl_table (S (S (S turns))) (length chunks + S fuel) junk a w =
    Ok (tt, set_socket_mutex false (set_queues (<[a := set_loop false q]> (w_queues w))
      (set_list h l (set_slots (<[slot := v]> (w_slots w)) (log (OnDone a (Some u))
        (answer_session t (noted p (rest_of (socket q) rest w)))))))).
Proof.
  intros L M Hl Hq Hlp Hk Hmt Hp Hd Hs Hpk Hdl Hj Ht Hr Ha Hv.
  set (w1 := set_socket_mutex true w). set (w2 := noted p (rest_of (socket q) rest w1)).
  assert (Hwt : waiting w2 (msgid q) a q []).
  { split; try done. exists [a]. split; [done |]. cbn. unfold cmp_msgid. rewrite Hq. cbn.
    by rewrite Z.eqb_refl. }
  destruct (catched_tl_ok tl_table w2 (msgid q) a q [] t (Some u) Hwt Hr Ha) as (h & l & Hl' & Ec).
  rewrite Hd in Ec. cbn [call] in Ec. rewrite Hv, res_bind_ok in Ec.
  exists h, l. split; [done |].
  assert (E1 : run_turn tl_table (length chunks + S fuel) junk a w = Ok (true, w1))
    by (by apply (turn_lock _ _ _ _ q)).
  assert (Er : _tg_receive tl_table (length chunks + S fuel) junk a (socket q) w1 =
    Ok (RTL_REREAD, set_queues (<[a := set_loop false q]> (w_queues w2)) (set_list h l
      (set_slots (<[slot := v]> (w_slots (answer_session t w2))) (log (OnDone a (Some u)) (answer_session t w2)))))).
  { rewrite (receive_ok tl_table (S fuel) junk w1 a q (socket q) p chunks rest) by done. fold w2.
    rewrite (bind_eq _ _ _ _ _ (lift_eq _ _ _ Ht)). cbn [obj]. rewrite Nat.add_succ_r.
    eapply bind_ok; [exact Ec | reflexivity]. }
  cbn [run_loop]. qstep (get_ok w a q Hq). rewrite Hlp. cbn [negb]. qstep E1.
  qstep (get_ok w1 a q Hq). rewrite Hlp. cbn [negb].
  eapply bind_ok; [by apply (turn_receive _ _ w1 a q) |]. cbv beta iota.
  eapply bind_ok; [apply get_ok; cbn; by rewrite lookup_insert_eq |]. cbn [loop set_loop negb].
  unfold mret, st_ret, answer_session. by destruct (obj t).
Qed.

(** The thread closes its socket and ends; its queue has left the list. *)
Lemma run_end w a q :
  w_queue_lock w = false -> holds_items (w_nodes w) (w_head w) [] -> w_queues w !! a = Some q ->
  0 <= socket q ->
  exists h l, holds_items h l [] /\
  (q ← get_queue a;
   _ ← (if 0 <=? socket q then tg_net_close (socket q) else mret tt);
   q ← get_queue a;
   _ ← tg_queue_cut (msgid q);
   tg_run_queue_exit a) w =
  Ok (tt, set_queues (<[a := set_inloop false q]> (w_queues w)) (set_list h l (log (Closed (socket q))
    (set_net (delete (socket q) (w_net w)) (w_fds w) w)))).
Proof.
  intros L Hl Hq Hs.
  set (w1 := log (Closed (socket q)) (set_net (delete (socket q) (w_net w)) (w_fds w) w)).
  destruct (cut_ok w1 (msgid q) [] None [] L Hl eq_refl) as (h & l & E & Hl').
  exists h, l. split; [done |]. qstep (get_ok w a q Hq).
  replace (0 <=? socket q) with true by lia.
  eapply bind_ok; [unfold tg_net_close; eapply bind_ok; reflexivity |].
  qstep (get_ok w1 a q Hq). qstep E. unfold tg_run_queue_exit.
  by rewrite (put_ok _ a q).
Qed.

(** The whole thread. *)
Lemma run_queue_ok turns fuel junk w a q slot p chunks rest u v :
  runnable w a q slot -> server_answers w (ip q) (port q) p chunks rest u v -> length junk = 4%nat ->
  exists bs w', tg_run_queue tl_table (S (S (S turns))) (length chunks + S fuel) junk a w = Ok (tt, w') /\
    carries w (contents (query q)) bs /\
    w_events w' = w_events w ++ [Opened (w_fds w) (ip q) (port q);
      Sent (w_fds w) [0xee; 0xee; 0xee; 0xee]; Sent (w_fds w) bs; OnDone a (Some u); Closed (w_fds w)] /\
    w_slots w' = <[slot := v]> (w_slots w) /\
    (exists q', w_queues w' = <[a := q']> (w_queues w) /\ inloop_lock q' = false) /\
    holds_items (w_nodes w') (w_head w') [] /\ w_queue_lock w' = false /\ w_socket_mutex w' = false /\
    w_net w' = delete (w_fds w) (w_net w) /\
    msgids (w_tg w') = [pk_id p] /\ salt (w_tg w') = fresh (pk_salt p).
Proof.
  intros [L M Hl Hfd Hs Hq Hlp Hk Hi Hmt Hp Hd Hw Hf] [Hdial Hpk Hch Hne (x & t & Ht & Hr & Ha) Hv] Hj.
  set (fd := w_fds w). set (qb := set_socket fd (set_inloop true q)).
  destruct (run_start (S (S (S turns))) (length chunks + S fuel) junk w a q _ L Hl Hfd Hq Hi Hdial)
    as (h & l & Hl1 & E). cbv zeta in E. fold fd qb in E. set (w1 := set_list h l _) in E.
  assert (Hq1 : w_queues w1 !! a = Some qb) by (cbn; by rewrite lookup_insert_eq).
  destruct (send_ok w1 a qb _ L Hs Hq1 Hw Hf (lookup_insert_eq _ _ _)) as (bs & Es & Hc).
  rewrite (bind_eq _ _ _ _ _ Es) in E. cbn [Z.eqb negb] in E. set (w2 := sent a qb bs w1) in E.
  set (q2 := set_msgid (mid (w_tg w) (ticks (w_tg w))) qb).
  assert (Hq2 : w_queues w2 !! a = Some q2) by (cbn; by rewrite lookup_insert_eq).
  destruct (run_answered turns fuel junk w2 a q2 slot p chunks rest x t u v) as (h' & l' & Hl2 & Er);
    try done.
  { destruct Hs as ((_ & _ & Wd & Sd) & Hkey & _). by split_and!. }
  { split; [cbn; by rewrite lookup_insert_eq | done]. }
  erewrite bind_eq in E by reflexivity. rewrite (bind_eq _ _ _ _ _ Er) in E. clear Er.
  set (w3 := set_socket_mutex false _) in E.
  assert (Hq3 : w_queues w3 !! a = Some (set_loop false q2)) by (cbn; by rewrite lookup_insert_eq).
  assert (L3 : w_queue_lock w3 = false) by (cbn; unfold answer_session; by destruct (obj t)).
  destruct (run_end w3 a (set_loop false q2) L3 Hl2 Hq3 Hfd) as (h'' & l'' & Hl3 & Ee).
  rewrite Ee in E. clear Ee. exists bs. eexists. split; [exact E |]. split; [exact Hc |].
  assert (Hans : forall A (f : world -> A) w', (forall tg, f (set_tg tg w') = f w') ->
    f (answer_session t w') = f w') by (intros A f w' Hg; unfold answer_session; destruct (obj t); auto).
  subst w3. cbn -[answer_session]. split_and!; try done.
  - rewrite (Hans _ w_events) by done. cbn. by rewrite <- !app_assoc.
  - eexists. rewrite !insert_insert_eq. split; [reflexivity | done].
  - rewrite (Hans _ w_net) by done. cbn. by rewrite !insert_insert_eq, delete_insert_eq.
  - destruct Hs as (_ & _ & Hm). unfold answer_session. destruct (obj t); cbn; by rewrite Hm.
  - unfold answer_session. by destruct (obj t).
Qed.

(** C1: a synchronous query returns its answer.  On an idle session with a
    key, [tg_send_query_sync] against a server that answers terminates and
    returns the object of the answer, copied: the connection is opened with
    the transport's marker, one packet is sent, which the server's side of
    the protocol opens to exactly the query under this session, the answer
    is taken from however many blocks it arrives in, the callback runs
    once, the socket is closed and the queue object freed, no mutex stays
    locked, and the answer's message id is queued for acknowledgement.  The
    call waits for the timer thread, that is for sixty seconds. *)
Theorem sync_query_answers turns fuel junk w slot qu p chunks rest u v :
  w_queue_lock w = false -> w_socket_mutex w = false -> holds_items (w_nodes w) (w_head w) [] ->
  0 <= w_fds w -> session_full w -> buf_wf qu -> fits (b_size qu * 3 + 512) ->
  server_answers w (copy_ip (w_ip w)) (w_port w) p chunks rest u v -> length junk = 4%nat ->
  w_queues w !! w_next w = None ->
  exists bs w', tg_send_query_sync tl_table (S (S (S turns))) (length chunks + S fuel) junk slot qu w =
      Ok (v, w') /\
    carries w (contents qu) bs /\
    w_events w' = w_events w ++
      [Started (RunThread (w_next w)); Started (TimerThread (w_next w));
       Opened (w_fds w) (copy_ip (w_ip w)) (w_port w); Sent (w_fds w) [0xee; 0xee; 0xee; 0xee];
       Sent (w_fds w) bs; OnDone (w_next w) (Some u); Closed (w_fds w); Slept 60] /\
    w_queues w' = w_queues w /\ holds_items (w_nodes w') (w_head w') [] /\
    w_queue_lock w' = false /\ w_socket_mutex w' = false /\ w_net w' = delete (w_fds w) (w_net w) /\
    msgids (w_tg w') = [pk_id p].
Proof.
  intros L M Hl Hfd Hs Hw Hf Hsrv Hj Hfree. set (a := w_next w).
  set (w0 := set_slots (<[slot := None]> (w_slots w)) w).
  set (q := new_queue a qu (w_ip w) (w_port w) false (Some (Sync slot)) None).
  set (w1 := started a q w0).
  assert (Hq1 : w_queues w1 !! a = Some q) by (cbn; by rewrite lookup_insert_eq).
  assert (Ea : tg_send_query_async_with_progress qu false (Some (Sync slot)) None w0 = Ok (TimerThread a, w1)).
  { unfold tg_send_query_async_with_progress. do 2 (eapply bind_ok; [reflexivity |]).
    eapply bind_ok; [by apply queue_new_ok |]. by qstep (get_ok w1 a q Hq1). }
  assert (Hqc : contents (query q) = contents qu) by apply contents_fresh.
  assert (Hqs : b_size (query q) = b_size qu) by apply (zlen_contents qu Hw).
  assert (Hrun : runnable w1 a q slot).
  { pose proof Hw as (_ & _ & _ & ? & _). platform.
    split; try done; [| by rewrite Hqs]. apply fresh_wf; [by apply contents_ok |].
    rewrite zlen_contents by done. unfold fits in *. lia. }
  destruct (run_queue_ok turns fuel junk w1 a q slot p chunks rest u v Hrun) as
    (bs & w2 & E & Hc & Hev & Hsl & (q' & Hqq & Hin) & Hli & Hql & Hsm & Hnet & Hmsg & _); [| done |].
  { destruct Hsrv. by split. }
  assert (Hq2 : w_queues w2 !! a = Some q') by (rewrite Hqq; by rewrite lookup_insert_eq).
  assert (Et : tg_run_timer a w2 =
    Ok (tt, set_queues (w_queues w) (log (Slept 60) w2))).
  { unfold tg_run_timer. eapply bind_ok; [reflexivity |].
    eapply bind_ok; [by apply (put_ok _ a q') |]. eapply bind_ok.
    { unfold lock_inloop. eapply bind_ok; [apply get_ok; cbn; by rewrite lookup_insert_eq |].
      cbn [inloop_lock set_loop]. rewrite Hin.
      apply (put_ok _ a (set_loop false q')). cbn. by rewrite lookup_insert_eq. }
    unfold tg_queue_free. eapply bind_ok; [apply get_ok; cbn; by rewrite lookup_insert_eq |].
    unfold modify. cbn. rewrite !insert_insert_eq, Hqq. cbn.
    rewrite !insert_insert_eq, delete_insert_id by done. reflexivity. }
  exists bs. eexists. split.
  - unfold tg_send_query_sync, tg_send_query_sync_with_progress.
    eapply bind_ok; [reflexivity |]. qstep Ea. cbn [pthread_join].
    eapply bind_ok; [qstep E; exact Et |]. eapply bind_ok; [reflexivity |].
    cbn. rewrite Hsl. cbn. by rewrite lookup_insert_eq.
  - rewrite <- Hqc. split; [exact Hc |]. cbn. rewrite Hev. cbn. rewrite <- !app_assoc. by split_and!.
Qed.
End Sync.
