(* ===== verification/SocketLock.v ===== *)
(** * Query threads on one socket mutex: the loop of tg_run_queue

    The threads of all queries that are not multithreaded share
    [tg->socket_mutex].  Each turn of [while (queue->loop)] tries to lock
    it; the code enters the receiving branch when [pthread_mutex_trylock]
    returns a non-zero value.  The model interleaves the turns of any number
    of threads; [inverted] selects the test as written, or the opposite one. *)
From S2P Require Import Prelude.

(** Where a thread is: at the top of the loop or inside [_tg_receive]. *)
Inductive pc := Turn | Receiving.

Record sys := Sys {
  owner : option nat;          (* the thread that holds the mutex *)
  pcs : gmap nat pc            (* absent: not running *)
}.

Section SocketLock.
Variable inverted : bool.

(** [pthread_mutex_trylock]: 0 and the mutex, or EBUSY. *)
Definition trylock (t : nat) (s : sys) : Z * option nat :=
  match owner s with None => (0, Some t) | Some o => (16, Some o) end.

(** The condition of the [if]. *)
Definition enters (r : Z) : bool := if inverted then negb (r =? 0) else r =? 0.

Inductive step : sys -> sys -> Prop :=
| step_enter s t r o :
    pcs s !! t = Some Turn -> trylock t s = (r, o) -> enters r = true ->
    step s (Sys o (<[t := Receiving]> (pcs s)))
| step_continue s t r o :
    pcs s !! t = Some Turn -> trylock t s = (r, o) -> enters r = false ->
    step s (Sys o (pcs s))
| step_received s t :
    (* tg_mutex_unlock: whoever holds it *)
    pcs s !! t = Some Receiving -> step s (Sys None (<[t := Turn]> (pcs s))).

Inductive reachable (n : nat) : sys -> Prop :=
| reach_init : reachable n (Sys None (gset_to_gmap Turn (set_seq 0 n)))
| reach_step s s' : reachable n s -> step s s' -> reachable n s'.

Definition both_receive (s : sys) : Prop :=
  exists t1 t2, t1 <> t2 /\ pcs s !! t1 = Some Receiving /\ pcs s !! t2 = Some Receiving.
End SocketLock.

(** With the test the right way round the receiver owns the mutex. *)
Lemma receiver_owns n s :
  reachable false n s -> forall t, pcs s !! t = Some Receiving <-> owner s = Some t.
Proof.
  induction 1 as [|s s' Hs IH Hstep]; intros t.
  { cbn. rewrite lookup_gset_to_gmap_Some. split; [intros [_ ?]; discriminate | discriminate]. }
  destruct Hstep as [s t' r o Ht E Hr | s t' r o Ht E Hr | s t' Ht]; cbn;
    unfold trylock in *; try (destruct (owner s) as [o'|] eqn:Eo; injection E as <- <-; try discriminate Hr).
  - destruct (decide (t' = t)) as [-> | Hne].
    + rewrite lookup_insert_eq. by split.
    + rewrite lookup_insert_ne by done. rewrite IH. split; congruence.
  - by rewrite IH.
  - apply IH in Ht. destruct (decide (t' = t)) as [-> | Hne].
    + rewrite lookup_insert_eq. by split.
    + rewrite lookup_insert_ne by done. rewrite IH. split; congruence.
Qed.

(** the mutex does not keep receivers apart.  [tg_run_queue] receives
    when [pthread_mutex_trylock] fails: with two or more query threads a
    state is reachable in which two of them are inside [_tg_receive] at
    once.  With the test negated, at most one thread receives in every
    reachable state, and it is the one that holds the mutex.  A thread that
    runs alone still gets its turn to receive, after taking the mutex from
    itself. *)
Theorem socket_mutex_inverted :
  (forall n, (2 <= n)%nat -> exists s, reachable true n s /\ both_receive s) /\
  (forall n s, reachable false n s -> ~ both_receive s) /\
  (exists s, reachable true 1 s /\ pcs s !! 0%nat = Some Receiving /\ owner s = Some 0%nat).
Proof.
  assert (Hinit : forall n t, (t < n)%nat -> gset_to_gmap Turn (set_seq (C := gset nat) 0 n) !! t = Some Turn).
  { intros n t Ht. rewrite lookup_gset_to_gmap_Some. split; [apply elem_of_set_seq; lia | done]. }
  assert (H0 : forall n, (1 <= n)%nat -> reachable true n (Sys (Some 0%nat)
             (<[0%nat := Receiving]> (gset_to_gmap Turn (set_seq 0 n))))).
  { intros n Hn. eapply reach_step; [eapply reach_step; [apply reach_init |] |].
    - eapply (step_continue _ _ 0%nat); [by apply Hinit | reflexivity | reflexivity].
    - eapply (step_enter _ (Sys (Some 0%nat) _) 0%nat 16); [by apply Hinit | reflexivity | reflexivity]. }
  split_and!.
  - intros n Hn. eexists. split.
    + eapply reach_step; [apply H0; lia |].
      eapply (step_enter _ (Sys (Some 0%nat) _) 1%nat 16); [| reflexivity | reflexivity].
      cbn. rewrite lookup_insert_ne by done. by apply Hinit.
    + exists 0%nat, 1%nat. cbn. split; [done |]. rewrite lookup_insert_eq.
      rewrite lookup_insert_ne, lookup_insert_eq by done. done.
  - intros n s Hs (t1 & t2 & Hne & E1 & E2).
    apply (receiver_owns _ _ Hs) in E1, E2. congruence.
  - eexists. split; [apply (H0 1%nat); lia |]. cbn. by rewrite lookup_insert_eq.
Qed.
