(* ===== verification/SendQuery.v ===== *)
(** * Queries without the queue: libtg/tg/send_query.c, answer.c

    [tg_send_query_via_with_progress] sends a query on a connection of its
    own and loops until [tg_parse_answer] has stored an answer or something
    else has to be returned.  The calls share the world of Queue.v; the
    mutex [tg->send_query] and the local variable [answer] are added. *)
From S2P Require Import Prelude TlBuf Serial Tg Packet LinkedList Errors Objects Queue.

Module SendQuery.

Record caller := Caller {
  c_world : world;
  c_send_query : bool;              (* tg->send_query is locked *)
  c_answer : option tl_t            (* answer *)
}.
Definition set_world (w : world) (c : caller) : caller := Caller w (c_send_query c) (c_answer c).
Definition set_mutex (b : bool) (c : caller) : caller := Caller (c_world c) b (c_answer c).
Definition set_answer (a : option tl_t) (c : caller) : caller := Caller (c_world c) (c_send_query c) a.

Abbreviation C := (ST caller).

Section SendQuery.
Context `{Env} `{OpenSSL} `{Zlib} `{Network}.
Variable tl_table : list (Z * (buf_t -> res (option tl_t * buf_t))).

Definition on_world {A} (m : Q A) : C A := zoom c_world set_world m.
Definition in_session {A} (m : TG A) : C A := on_world (on_tg m).

(** ** answer.c *)
(** [if (callback) if (callback(ptr, tl)) break;]: whether to break. *)
Definition run_callback (callback : option (option tl_t -> C Z)) (tl : option tl_t) : C bool :=
  match callback with
  | None => mret false
  | Some cb => e ← cb tl; mret (negb (e =? 0))
  end.

(** The loop over the acknowledged ids, with its [ret]. *)
Fixpoint ack_loop (msg_id : Z) (tl : tl_t) (callback : option (option tl_t -> C Z)) (ids : list Z)
    (ret : Z) : C Z :=
  match ids with
  | [] => mret ret
  | id :: ids =>
      if msg_id =? id then
        stop ← run_callback callback (Some tl);
        if stop : bool then mret 0 else ack_loop msg_id tl callback ids 0
      else ack_loop msg_id tl callback ids ret
  end.

Fixpoint for_each (f : mtp_message_t -> C unit) (l : list mtp_message_t) : C unit :=
  match l with [] => mret tt | x :: l => _ ← f x; for_each f l end.

Fixpoint tg_parse_answer (fuel : nat) (tl : option tl_t) (msg_id : Z)
    (callback : option (option tl_t -> C Z)) : C Z :=
  match tl with
  | None => mret 1
  | Some t =>
      match fuel with
      | O => fail NoFuel
      | S fuel =>
          match obj t with
          | Rpc_result req result =>
              _ ← in_session (tg_add_msgid msg_id);
              if msg_id =? req then _ ← run_callback callback result; mret 0
              else mret 1
          | Msg_detailed_info answer | Msg_new_detailed_info answer =>
              if msg_id =? answer then
                _ ← in_session (tg_add_msgid answer);
                _ ← run_callback callback tl; mret 0
              else mret 1
          | Rpc_error _ _ | Bad_msg_notification _ =>
              _ ← in_session (modify (set_timediff ntp_time_diff)); mret 1
          | UpdatesTooLong | UpdateShort _ | UpdateShortMessage _ | UpdateShortChatMessage _
          | UpdateShortSentMessage | UpdatesCombined _ | Updates _ =>
              _ ← on_world (modify (log (DoUpdates t))); mret 1
          | Msg_container messages =>
              _ ← for_each (fun m =>
                    tl ← lift (deserialize tl_table (body m));
                    _ ← tg_parse_answer fuel tl msg_id callback;
                    mret tt) messages;
              mret 1
          | Gzip_packed _ =>
              (* tl_t *tl = tg_tl_from_gzip(tg, tl): the argument is the new variable *)
              fail Uninit
          | Msgs_ack ids => ack_loop msg_id t callback ids 1
          | _ => mret 1
          end
      end
  end.

(** ** send_query.c *)
Definition tg_parse_answer_callback (tl : option tl_t) : C Z :=
  match tl with
  | None => fail NullDeref
  | Some tl =>
      a ← lift (deserialize tl_table (_buf tl));
      _ ← modify (set_answer a);
      mret 0
  end.

(** The message id, or 0 on error, and the socket, which a new key replaces. *)
Definition tg_send (query : buf_t) (socket : Z) : C (Z * Z) :=
  k ← in_session (gets key);
  socket ← (if b_size k =? 0 then
    _ ← on_world (tg_net_close socket);
    i ← on_world (gets w_ip);
    let rc := app_open i 80 in
    key ← lift (buf_add (rc_key rc) (zlen (rc_key rc)));
    _ ← in_session (modify (set_key key));
    salt ← lift (buf_add (rc_salt rc) (zlen (rc_salt rc)));
    _ ← in_session (modify (set_salt salt));
    fd ← on_world (new_socket (rc_stream rc));
    _ ← in_session (modify (set_seqn (i32 (rc_seqnh rc + 1))));
    mret fd
  else mret socket);
  s ← in_session (gets ssid);
  _ ← (if b_size s =? 0 then
         t ← in_session (gets ticks);
         b ← lift (buf_rand (wall t) 8); in_session (modify (set_ssid b))
       else mret tt);
  s ← in_session (gets salt);
  _ ← (if b_size s =? 0 then
         t ← in_session (gets ticks);
         b ← lift (buf_rand (wall t) 8); in_session (modify (set_salt b))
       else mret tt);
  r ← in_session (tg_prepare_query query true (Some 0));
  let '(b, id) := r in
  if b_size b =? 0 then _ ← on_world (tg_net_close socket); mret (0, socket)
  else
    s ← on_world (send socket b);
    if s <? 0 then mret (0, socket)
    else
      _ ← lift (buf_get_ui32 query);
      mret (default 0 id, socket).

Fixpoint receive_loop (fuel : nat) (sockfd len received : Z) (buf : buf_t) : C (option buf_t) :=
  if received <? len then
    match fuel with
    | O => fail NoFuel
    | S fuel =>
        s ← on_world (recv sockfd (len - received));
        match s with
        | None => mret None
        | Some bs =>
            m ← lift (copy_loop (length bs) 0 (b_mem buf) (fun i => b_off buf + received + i) bs);
            receive_loop fuel sockfd len (received + zlen bs) (set_mem buf m)
        end
    end
  else mret (Some buf).

(** 0 and the message, or [None] for the return value 1.  [fdset] holds the
    one socket it was given. *)
Definition tg_receive (fuel : nat) (junk : list Z) (sockfd fdset : Z) : C (option buf_t) :=
  if negb (sockfd =? fdset) then mret None
  else
    s ← on_world (recv sockfd 4);
    match s with
    | None => mret None
    | Some bs =>
        let len := le_num (bs ++ drop (length bs) junk) in
        buf ← lift buf_new;
        e ← lift (buf_realloc buf len);
        if negb (fst e =? 0) then mret None
        else
          x ← receive_loop fuel sockfd len 0 (snd e);
          match x with
          | None => mret None
          | Some buf =>
              let buf := set_size buf len in
              w0 ← (if b_size buf =? 4 then lift (buf_get_ui32 buf) else mret 0);
              if w0 =? 0xfffffe6c then mret None
              else
                tg ← in_session (gets id);
                d ← lift (tg_decrypt tg buf true);
                if b_size d =? 0 then mret None
                else msg ← in_session (tg_deheader d true); mret (Some msg)
          end
    end.

(** What happens at [recevive_data]: an object to return, a query to send
    again, or another packet to wait for. *)
Inductive outcome := Return (tl : option tl_t) | Resend | Again.

Definition receive_data (fuel : nat) (junk : list Z) (msg_id socket fdset : Z) : C outcome :=
  r ← tg_receive fuel junk socket fdset;
  match r with
  | None => mret (Return None)
  | Some r =>
      tl ← lift (deserialize tl_table r);
      _ ← modify (set_answer None);
      _ ← tg_parse_answer fuel tl msg_id (Some tg_parse_answer_callback);
      answer ← gets c_answer;
      let tl := match answer with Some a => Some a | None => tl end in
      match tl with
      | None => mret (Return None)
      | Some t =>
          tl ← match obj t with
               | Gzip_packed _ => lift (tg_tl_from_gzip tl_table tl)
               | _ => mret tl
               end;
          match tl with
          | None => fail NullDeref       (* tl->_id *)
          | Some t =>
              match obj t with
              | Bad_server_salt => mret Resend
              | Msgs_ack _ => mret Again
              | _ => mret (Return tl)
              end
          end
      end
  end.

Fixpoint receive_all (turns fuel : nat) (junk : list Z) (msg_id socket fdset : Z) : C outcome :=
  match turns with
  | O => fail NoFuel
  | S turns =>
      o ← receive_data fuel junk msg_id socket fdset;
      match o with
      | Again => receive_all turns fuel junk msg_id socket fdset
      | _ => mret o
      end
  end.

(** [resends] bounds the recursion, [turns] the jumps back. *)
Fixpoint tg_send_query_via_with_progress (resends turns fuel : nat) (junk : list Z) (query : buf_t)
    (ip : list Z) (port : Z) : C (option tl_t) :=
  match resends with
  | O => fail NoFuel
  | S resends =>
      fdset ← on_world (tg_net_open ip 80);
      if fdset <? 0 then mret None
      else
        busy ← gets c_send_query;
        if busy : bool then fail Deadlock
        else
          _ ← modify (set_mutex true);
          r ← tg_send query fdset;
          let '(msg_id, socket) := r in
          o ← (if msg_id =? 0 then mret (Return None)
               else receive_all turns fuel junk msg_id socket fdset);
          match o with
          | Resend =>
              _ ← on_world (tg_net_close socket);
              _ ← modify (set_mutex false);
              tg_send_query_via_with_progress resends turns fuel junk query ip port
          | Return tl =>
              _ ← modify (set_mutex false);
              _ ← on_world (tg_net_close socket);
              mret tl
          | Again => fail NoFuel
          end
  end.

Definition tg_send_query_via resends turns fuel junk (query : buf_t) (ip : list Z) (port : Z) :=
  tg_send_query_via_with_progress resends turns fuel junk query ip port.

Definition tg_send_query_with_progress resends turns fuel junk (query : buf_t) : C (option tl_t) :=
  i ← on_world (gets w_ip); n ← on_world (gets w_port);
  tg_send_query_via_with_progress resends turns fuel junk query i n.
End SendQuery.
End SendQuery.

Import SendQuery.

Section Facts.
Context `{Env} `{OpenSSL} `{Zlib} `{Network}.
Variable tl_table : list (Z * (buf_t -> res (option tl_t * buf_t))).
Abbreviation deserialize := (deserialize tl_table).
Abbreviation parse := (tg_parse_answer tl_table).
Abbreviation cb := (Some (tg_parse_answer_callback tl_table)).

#[local] Arguments Objects.deserialize : simpl never.

(** Objects that are not about message [id]. *)
Definition inert (id : Z) (t : tl_t) : Prop :=
  match obj t with
  | Rpc_result req _ => id <> req
  | Msg_detailed_info a | Msg_new_detailed_info a => id <> a
  | Msgs_ack ids => id ∉ ids
  | Msg_container _ | Gzip_packed _ => False
  | _ => True
  end.

Lemma ack_loop_inert id t ids c :
  id ∉ ids -> ack_loop id t cb ids 1 c = Ok (1, c).
Proof.
  induction ids as [|x ids IH]; intros Hin; [done |]. cbn [ack_loop].
  apply not_elem_of_cons in Hin as [Hne Hin]. destruct (Z.eqb_spec id x); [done | auto].
Qed.

Lemma parse_inert fuel id t c :
  inert id t -> exists c', parse (S fuel) (Some t) id cb c = Ok (1, c') /\ c_answer c' = c_answer c.
Proof.
  intros Hi. cbn [tg_parse_answer]. unfold inert in Hi.
  destruct (obj t); try done; try (eexists; split; [reflexivity | done]).
  - eexists. rewrite (bind_eq _ _ _ tt (set_world (set_tg (set_msgids (msgids (w_tg (c_world c)) ++ [id])
      (w_tg (c_world c))) (c_world c)) c)) by reflexivity.
    destruct (Z.eqb_spec id req_msg_id_); [done |]. by split.
  - exists c. by rewrite ack_loop_inert.
  - destruct (Z.eqb_spec id answer_msg_id_); [done |]. by exists c.
  - destruct (Z.eqb_spec id answer_msg_id_); [done |]. by exists c.
Qed.

(** One message of a container. *)
Abbreviation one fuel id := (fun m : mtp_message_t =>
  tl ← lift (deserialize (body m)); _ ← parse fuel tl id cb; mret tt : C unit).

Lemma for_each_inert fuel id ms : forall c,
  Forall (fun m => exists t, deserialize (body m) = Ok (Some t) /\ inert id t) ms ->
  exists c', for_each (one (S fuel) id) ms c = Ok (tt, c') /\ c_answer c' = c_answer c.
Proof.
  induction ms as [|m ms IH]; intros c Hms; [by exists c |].
  apply Forall_cons_1 in Hms as [(t & Ht & Hi) Hms]. cbn [for_each].
  destruct (parse_inert fuel id t c Hi) as (c1 & E1 & A1). destruct (IH c1 Hms) as (c2 & E2 & A2).
  exists c2. split; [| by rewrite A2, A1].
  eapply st_bind_step; [| exact E2]. eapply st_bind_step; [by apply lift_eq |]. cbv beta.
  by rewrite (bind_eq _ _ _ _ _ E1).
Qed.

Lemma for_each_app f l k : forall c c1,
  for_each f l c = Ok (tt, c1) -> for_each f (l ++ k) c = for_each f k c1.
Proof.
  induction l as [|x l IH]; intros c c1 E; cbn [app for_each] in *; [by injection E as <- |].
  apply bind_inv in E as ([] & c2 & E1 & E2). rewrite (bind_eq _ _ _ _ _ E1). by apply IH.
Qed.

(** An answer somewhere in a container. *)
Lemma parse_container fuel id x pre m post y r v c :
  Forall (fun m => exists t, deserialize (body m) = Ok (Some t) /\ inert id t) (pre ++ post) ->
  deserialize (body m) = Ok (Some (Tl y (Rpc_result id (Some r)))) -> deserialize (_buf r) = Ok v ->
  exists c', parse (S (S fuel)) (Some (Tl x (Msg_container (pre ++ m :: post)))) id cb c = Ok (1, c') /\
    c_answer c' = v.
Proof.
  intros Hms Hm Hr. apply Forall_app in Hms as [Hpre Hpost].
  destruct (for_each_inert fuel id pre c Hpre) as (c1 & E1 & _).
  set (c2 := set_answer v (set_world (set_tg (set_msgids (msgids (w_tg (c_world c1)) ++ [id])
    (w_tg (c_world c1))) (c_world c1)) c1)).
  assert (E2 : one (S fuel) id m c1 = Ok (tt, c2)).
  { eapply st_bind_step; [by apply lift_eq |]. cbn [tg_parse_answer obj].
    rewrite Z.eqb_refl. unfold mbind, st_bind, in_session, on_world, on_tg, zoom, lift. cbn. by rewrite Hr. }
  destruct (for_each_inert fuel id post c2 Hpost) as (c3 & E3 & A3).
  exists c3. split; [| by rewrite A3].
  change (parse (S (S fuel)) (Some (Tl x (Msg_container (pre ++ m :: post)))) id cb)
    with (_ ← for_each (one (S fuel) id) (pre ++ m :: post); mret 1 : C Z).
  erewrite bind_eq; [reflexivity |]. rewrite (for_each_app _ _ _ _ _ E1).
  cbn [for_each]. by rewrite (bind_eq _ _ _ _ _ E2).
Qed.

(** The objects the caller gets back as they are. *)
Definition final (t : tl_t) : bool :=
  match obj t with Gzip_packed _ | Bad_server_salt | Msgs_ack _ => false | _ => true end.

(** what a query returns is the first thing that arrives.  For a packet
    that is a container with the result for [msg_id] among other messages,
    [tg_send_query_via_with_progress] returns the copy of that result (and
    [tg_parse_answer] returns 1, "msgid mismatch", all the same).  For a
    packet with nothing about [msg_id] - an update, a pong, a new session,
    the result of another query - that object itself is returned as the
    answer. *)
Theorem first_object_is_answer fuel junk id sock fdset c r c1 :
  tg_receive (S (S fuel)) junk sock fdset c = Ok (Some r, c1) ->
  (forall x pre m post y a v,
     deserialize r = Ok (Some (Tl x (Msg_container (pre ++ m :: post)))) ->
     Forall (fun m => exists t, deserialize (body m) = Ok (Some t) /\ inert id t) (pre ++ post) ->
     deserialize (body m) = Ok (Some (Tl y (Rpc_result id (Some a)))) ->
     deserialize (_buf a) = Ok (Some v) -> final v = true ->
     exists c', receive_data tl_table (S (S fuel)) junk id sock fdset c = Ok (Return (Some v), c')) /\
  (forall t, deserialize r = Ok (Some t) -> inert id t -> final t = true ->
     exists c', receive_data tl_table (S (S fuel)) junk id sock fdset c = Ok (Return (Some t), c')).
Proof.
  intros Hr. unfold receive_data. rewrite (bind_eq _ _ _ _ _ Hr). split.
  - intros x pre m post y a v Ht Hms Hm Ha Hv. rewrite (bind_eq _ _ _ _ _ (lift_eq _ _ _ Ht)).
    erewrite bind_eq by reflexivity.
    destruct (parse_container fuel id x pre m post y a (Some v) (set_answer None c1) Hms Hm Ha) as (c2 & E & A).
    rewrite (bind_eq _ _ _ _ _ E). erewrite bind_eq by reflexivity. rewrite A. exists c2.
    unfold final in Hv. destruct (obj v) eqn:Eo; try discriminate Hv;
      (erewrite bind_eq by reflexivity); cbv beta iota; by rewrite Eo.
  - intros t Ht Hi Hf. rewrite (bind_eq _ _ _ _ _ (lift_eq _ _ _ Ht)).
    erewrite bind_eq by reflexivity.
    destruct (parse_inert (S fuel) id t (set_answer None c1) Hi) as (c2 & E & A).
    rewrite (bind_eq _ _ _ _ _ E). erewrite bind_eq by reflexivity. rewrite A. exists c2.
    unfold final in Hf. cbn [c_answer set_answer]. destruct (obj t) eqn:Eo; try discriminate Hf;
      (erewrite bind_eq by reflexivity); cbv beta iota; by rewrite Eo.
Qed.

(** compressed objects are parsed through an uninitialised pointer.
    The gzip branch of [tg_parse_answer] initialises a new variable [tl]
    from itself: a compressed answer, at the top or behind other messages
    of a container, never reaches the callback. *)
Theorem parse_answer_gzip_uninit fuel id x y packed pre m post c :
  parse (S fuel) (Some (Tl x (Gzip_packed packed))) id cb c = Err Uninit /\
  (Forall (fun m => exists t, deserialize (body m) = Ok (Some t) /\ inert id t) pre ->
   deserialize (body m) = Ok (Some (Tl y (Gzip_packed packed))) ->
   parse (S (S fuel)) (Some (Tl x (Msg_container (pre ++ m :: post)))) id cb c = Err Uninit).
Proof.
  split; [done |]. intros Hpre Hm.
  destruct (for_each_inert fuel id pre c Hpre) as (c1 & E1 & _).
  change (parse (S (S fuel)) (Some (Tl x (Msg_container (pre ++ m :: post)))) id cb)
    with (_ ← for_each (one (S fuel) id) (pre ++ m :: post); mret 1 : C Z).
  apply bind_err. rewrite (for_each_app _ _ _ _ _ E1). cbn [for_each]. apply bind_err.
  by rewrite (bind_eq _ _ _ _ _ (lift_eq _ _ _ Hm)).
Qed.
End Facts.
