(* ===== verification/Mtx.v ===== *)
(** * The key exchange library: libtg/mtx, its data

    mtx is the part of the library that negotiates the authorisation key.
    It has buffers of a fixed size of its own ([buf_t_], passed by value),
    one global structure [shared_rc], and a record per TL object it knows.
    This file has the buffers (src/buf.c), the global state (src/types.c),
    the objects (include/tgt.h) and what the environment provides.

    An uninitialised variable holds an arbitrary value: the class [Frame]
    names them, and assumes the sizes of the arrays only.  The theorems about
    the whole of [srl_auth] assume one value more: the size field of [dwh] in
    method_req_DH_params_init (src/tgt.c line 729), which the code appends to
    without having written it, must happen to be zero; with another value the
    hash and the data of the second request are not where the server looks
    for them, or the copies leave the array. *)
From stdpp Require Import strings.
From S2P Require Import Prelude TlBuf HashCommon Sha1 Tg.

(** ** Buffers: include/types.h *)
Definition max_buf_size : Z := 800.

Record buf_t_ := Buf_ { mdata : list Z; msize : Z }.
Definition set_msize (n : Z) (b : buf_t_) : buf_t_ := Buf_ (mdata b) n.
Definition set_mdata (m : list Z) (b : buf_t_) : buf_t_ := Buf_ m (msize b).

(** [buf_t_ b = {};] *)
Definition empty_ : buf_t_ := Buf_ (replicate (Z.to_nat max_buf_size) 0) 0.

(** What is readable from [b.data + k]. *)
Definition at_ (b : buf_t_) (k : Z) : list Z := drop (Z.to_nat k) (mdata b).

(** ** Objects: include/tgt.h *)
Inductive msg_t := API | RFC | CTER.
Inductive stk_mode_t := SEND | SEND_RECEIVE.

Inductive tl_type_t :=
| TYPE_QX | TYPE_BOOL | TYPE_CHAT | TYPE_CHATFULL | TYPE_CHATPARTICIPANTS | TYPE_CHATPHOTO
| TYPE_FILELOCATION | TYPE_GEOPOINT | TYPE_INPUTCHATPHOTO | TYPE_INPUTFILE
| TYPE_INPUTFILELOCATION | TYPE_INPUTGEOPOINT | TYPE_INPUTMEDIA | TYPE_INPUTNOTIFYPEER
| TYPE_INPUTPEER | TYPE_INPUTPEERNOTIFYSETTINGS | TYPE_INPUTPHOTO | TYPE_INPUTPHOTOCROP
| TYPE_INPUTUSER | TYPE_INPUTVIDEO | TYPE_MESSAGE | TYPE_MESSAGEACTION | TYPE_MESSAGEMEDIA
| TYPE_MESSAGESFILTER | TYPE_PEER | TYPE_PEERNOTIFYSETTINGS | TYPE_PHOTO | TYPE_PHOTOSIZE
| TYPE_UPDATE | TYPE_USER | TYPE_USERPROFILEPHOTO | TYPE_USERSTATUS | TYPE_VECTOR_CHAT
| TYPE_VECTOR_CHATPARTICIPANT | TYPE_VECTOR_CONTACT | TYPE_VECTOR_CONTACTBLOCKED
| TYPE_VECTOR_CONTACTFOUND | TYPE_VECTOR_CONTACTSUGGESTED | TYPE_VECTOR_DCOPTION
| TYPE_VECTOR_DIALOG | TYPE_VECTOR_IMPORTEDCONTACT | TYPE_VECTOR_INPUTAPPEVENT
| TYPE_VECTOR_INPUTCONTACT | TYPE_VECTOR_INPUTUSER | TYPE_VECTOR_MESSAGE | TYPE_VECTOR_PHOTO
| TYPE_VECTOR_PHOTOSIZE | TYPE_VECTOR_UPDATE | TYPE_VECTOR_USER | TYPE_VECTOR_INT
| TYPE_VECTOR_LONG | TYPE_VECTOR_STRING | TYPE_VIDEO | TYPE_BYTES | TYPE_CONTACTS_FOREIGNLINK
| TYPE_CONTACTS_LINK | TYPE_CONTACTS_MYLINK | TYPE_DOUBLE | TYPE_INT | TYPE_INT128
| TYPE_INT256 | TYPE_LONG | TYPE_STRING | TYPE_UPDATES_STATE | TYPE_ID.

Record param_t := Param { p_id : Z; p_value : buf_t_; p_type : tl_type_t }.
Definition set_value (v : buf_t_) (p : param_t) : param_t := Param (p_id p) v (p_type p).
Definition zero_param : param_t := Param 0 empty_ TYPE_QX.
(** [{ .value = {}, .type = ty }] *)
Definition static_param (ty : tl_type_t) : param_t := Param 0 empty_ ty.

Record abstract_t := Abstract {
  a_params : list param_t;
  a_size : Z;
  a_type : msg_t;
  a_stk_mode : stk_mode_t
}.
Definition set_stk_mode (m : stk_mode_t) (a : abstract_t) : abstract_t :=
  Abstract (a_params a) (a_size a) (a_type a) m.

(** The records leave out [type__], which is stored and never read. *)
Record ctor_ResPQ_t := ResPQ {
  rpq_id__ : Z; rpq_nonce : param_t; rpq_server_nonce : param_t; rpq_pq : param_t;
  rpq_server_public_key_fingerprints : param_t
}.
Record method_req_pq_t := Req_pq {
  req_id__ : Z; req_nonce : param_t; req_ResPQ : ctor_ResPQ_t
}.
Record ctor_P_Q_inner_data_t := P_Q_inner_data {
  pqi_id__ : Z; pqi_pq : param_t; pqi_p : param_t; pqi_q : param_t; pqi_nonce : param_t;
  pqi_server_nonce : param_t; pqi_new_nonce : param_t
}.
Record ctor_Server_DH_Params_ok_t := Server_DH_Params_ok {
  dhp_id__ : Z; dhp_nonce : param_t; dhp_server_nonce : param_t; dhp_encrypted_answer : param_t
}.
Record method_req_DH_params_t := Req_DH_params {
  rdh_id__ : Z; rdh_nonce : param_t; rdh_server_nonce : param_t; rdh_p : param_t; rdh_q : param_t;
  rdh_public_key_fingerprint : param_t; rdh_encrypted_data : param_t;
  rdh_Server_DH_Params : ctor_Server_DH_Params_ok_t; rdh_P_Q_inner_data : ctor_P_Q_inner_data_t
}.
Record ctor_Server_DH_inner_data_t := Server_DH_inner_data {
  sdh_id__ : Z; sdh_nonce : param_t; sdh_server_nonce : param_t; sdh_g : param_t;
  sdh_dh_prime : param_t; sdh_g_a : param_t; sdh_server_time : param_t;
  sdh_answer : buf_t_; sdh_tmp_aes_key : buf_t_; sdh_tmp_aes_iv : buf_t_
}.
Record ctor_Client_DH_Inner_Data_t := Client_DH_Inner_Data {
  cdh_id__ : Z; cdh_nonce : param_t; cdh_server_nonce : param_t; cdh_retry_id : param_t;
  cdh_g_b : param_t; cdh_b : buf_t_
}.
Record ctor_Set_client_DH_params_answer_ok_t := Dh_gen_ok {
  ans_id__ : Z; ans_nonce : param_t; ans_server_nonce : param_t; ans_new_nonce_hash1 : param_t
}.
Record method_set_client_DH_params_t := Set_client_DH_params {
  scd_id__ : Z; scd_nonce : param_t; scd_server_nonce : param_t; scd_encrypted_data : param_t;
  scd_answer : ctor_Set_client_DH_params_answer_ok_t;
  scd_Server_DH_inner_data : ctor_Server_DH_inner_data_t;
  scd_Client_DH_Inner_Data : ctor_Client_DH_Inner_Data_t;
  scd_salt : buf_t_
}.
Record ctor_Pong_t := Pong_ { pong_id__ : Z; pong_msg_id : param_t; pong_ping_id : param_t }.
Record method_ping_t := Ping { ping_id__ : Z; ping_ping_id : param_t; ping_Pong : ctor_Pong_t }.
Record method_msgs_ack_t := Msgs_ack_ { ack_id__ : Z; ack_msg_ids : param_t }.
Record method_auth_sendCode_t := Auth_sendCode {
  code_id__ : Z; code_phone_number : param_t; code_sms_type : param_t; code_api_id : param_t;
  code_api_hash : param_t; code_lang_code : param_t
}.
Record ctor_NewSession_t := NewSession {
  ns_id__ : Z; ns_first_msg_id : param_t; ns_unique_id : param_t; ns_server_salt : param_t
}.

(** [Server_DH_Params_fail], [MessageContainer] and [auth_SentCode] are
    fields that nothing reads or writes. *)
Record tg_api_type_system_t := Tg_api_type_system {
  t_req_pq : method_req_pq_t;
  t_req_DH_params : method_req_DH_params_t;
  t_set_client_DH_params : method_set_client_DH_params_t;
  t_ping : method_ping_t;
  t_auth_sendCode : method_auth_sendCode_t;
  t_msgs_ack : method_msgs_ack_t;
  t_ResPQ : ctor_ResPQ_t;
  t_Server_DH_Params_ok : ctor_Server_DH_Params_ok_t;
  t_P_Q_inner_data : ctor_P_Q_inner_data_t;
  t_Server_DH_inner_data : ctor_Server_DH_inner_data_t;
  t_Client_DH_Inner_Data : ctor_Client_DH_Inner_Data_t;
  t_answer_ok : ctor_Set_client_DH_params_answer_ok_t;
  t_Pong : ctor_Pong_t;
  t_NewSession : ctor_NewSession_t
}.

(** [= {}] for each of them. *)
Definition zero_ResPQ := ResPQ 0 zero_param zero_param zero_param zero_param.
Definition zero_P_Q := P_Q_inner_data 0 zero_param zero_param zero_param zero_param zero_param zero_param.
Definition zero_DH_ok := Server_DH_Params_ok 0 zero_param zero_param zero_param.
Definition zero_DH_inner := Server_DH_inner_data 0 zero_param zero_param zero_param zero_param zero_param
  zero_param empty_ empty_ empty_.
Definition zero_client := Client_DH_Inner_Data 0 zero_param zero_param zero_param zero_param empty_.
Definition zero_answer := Dh_gen_ok 0 zero_param zero_param zero_param.
Definition zero_Pong := Pong_ 0 zero_param zero_param.
Definition zero_req := Req_pq 0 zero_param zero_ResPQ.
Definition zero_req_DH := Req_DH_params 0 zero_param zero_param zero_param zero_param zero_param zero_param
  zero_DH_ok zero_P_Q.
Definition zero_set_client := Set_client_DH_params 0 zero_param zero_param zero_param zero_answer
  zero_DH_inner zero_client empty_.
Definition zero_types : tg_api_type_system_t :=
  Tg_api_type_system zero_req zero_req_DH zero_set_client (Ping 0 zero_param zero_Pong)
    (Auth_sendCode 0 zero_param zero_param zero_param zero_param zero_param) (Msgs_ack_ 0 zero_param)
    zero_ResPQ zero_DH_ok zero_P_Q zero_DH_inner zero_client zero_answer zero_Pong
    (NewSession 0 zero_param zero_param zero_param).

(** [tg_api_type_system_t t = {}; t.f = x;] *)
Definition of_req_pq (x : method_req_pq_t) : tg_api_type_system_t :=
  let '(Tg_api_type_system _ b c d e f g h i j k l m n) := zero_types in
  Tg_api_type_system x b c d e f g h i j k l m n.
Definition of_req_DH_params (x : method_req_DH_params_t) : tg_api_type_system_t :=
  let '(Tg_api_type_system a _ c d e f g h i j k l m n) := zero_types in
  Tg_api_type_system a x c d e f g h i j k l m n.
Definition of_set_client_DH_params (x : method_set_client_DH_params_t) : tg_api_type_system_t :=
  let '(Tg_api_type_system a b _ d e f g h i j k l m n) := zero_types in
  Tg_api_type_system a b x d e f g h i j k l m n.
Definition of_ping (x : method_ping_t) : tg_api_type_system_t :=
  let '(Tg_api_type_system a b c _ e f g h i j k l m n) := zero_types in
  Tg_api_type_system a b c x e f g h i j k l m n.
Definition of_msgs_ack (x : method_msgs_ack_t) : tg_api_type_system_t :=
  let '(Tg_api_type_system a b c d e _ g h i j k l m n) := zero_types in
  Tg_api_type_system a b c d e x g h i j k l m n.
Definition of_P_Q_inner_data (x : ctor_P_Q_inner_data_t) : tg_api_type_system_t :=
  let '(Tg_api_type_system a b c d e f g h _ j k l m n) := zero_types in
  Tg_api_type_system a b c d e f g h x j k l m n.
Definition of_Client_DH_Inner_Data (x : ctor_Client_DH_Inner_Data_t) : tg_api_type_system_t :=
  let '(Tg_api_type_system a b c d e f g h i j _ l m n) := zero_types in
  Tg_api_type_system a b c d e f g h i j x l m n.

(** [t.ctor = x;] on the global of sil.c. *)
Definition put_ResPQ (x : ctor_ResPQ_t) (t : tg_api_type_system_t) : tg_api_type_system_t :=
  let '(Tg_api_type_system a b c d e f _ h i j k l m n) := t in
  Tg_api_type_system a b c d e f x h i j k l m n.
Definition put_Server_DH_Params_ok (x : ctor_Server_DH_Params_ok_t) (t : tg_api_type_system_t) :=
  let '(Tg_api_type_system a b c d e f g _ i j k l m n) := t in
  Tg_api_type_system a b c d e f g x i j k l m n.
Definition put_Server_DH_inner_data (x : ctor_Server_DH_inner_data_t) (t : tg_api_type_system_t) :=
  let '(Tg_api_type_system a b c d e f g h i _ k l m n) := t in
  Tg_api_type_system a b c d e f g h i x k l m n.
Definition put_answer_ok (x : ctor_Set_client_DH_params_answer_ok_t) (t : tg_api_type_system_t) :=
  let '(Tg_api_type_system a b c d e f g h i j k _ m n) := t in
  Tg_api_type_system a b c d e f g h i j k x m n.
Definition put_Pong (x : ctor_Pong_t) (t : tg_api_type_system_t) :=
  let '(Tg_api_type_system a b c d e f g h i j k l _ n) := t in
  Tg_api_type_system a b c d e f g h i j k l x n.
Definition put_NewSession (x : ctor_NewSession_t) (t : tg_api_type_system_t) :=
  let '(Tg_api_type_system a b c d e f g h i j k l m _) := t in
  Tg_api_type_system a b c d e f g h i j k l m x.

(** ** State: src/types.c *)
Record mtx_t := MtxState {
  rc_key : buf_t_; rc_salt : buf_t_; rc_ssid : buf_t_;
  rc_seqn : Z; rc_seqnh : Z; rc_sockfd : Z; rc_last_msg_id : buf_t_;
  types : tg_api_type_system_t;   (* [t] of sil.c *)
  types_flag : Z;                 (* [reset_tg_api_type_system_flag] *)
  mticks : nat;                   (* readings of the clock so far *)
  sent : list (list Z);           (* what was written to the socket *)
  errors : list string            (* what [log_error] has printed *)
}.
Definition set_shared (k sl : buf_t_) (s : mtx_t) : mtx_t :=
  MtxState k sl (rc_ssid s) (rc_seqn s) (rc_seqnh s) (rc_sockfd s) (rc_last_msg_id s) (types s)
    (types_flag s) (mticks s) (sent s) (errors s).
Definition set_rc_ssid (b : buf_t_) (s : mtx_t) : mtx_t :=
  MtxState (rc_key s) (rc_salt s) b (rc_seqn s) (rc_seqnh s) (rc_sockfd s) (rc_last_msg_id s) (types s)
    (types_flag s) (mticks s) (sent s) (errors s).
Definition set_rc_seqnh (n : Z) (s : mtx_t) : mtx_t :=
  MtxState (rc_key s) (rc_salt s) (rc_ssid s) (rc_seqn s) n (rc_sockfd s) (rc_last_msg_id s) (types s)
    (types_flag s) (mticks s) (sent s) (errors s).
Definition set_rc_sockfd (n : Z) (s : mtx_t) : mtx_t :=
  MtxState (rc_key s) (rc_salt s) (rc_ssid s) (rc_seqn s) (rc_seqnh s) n (rc_last_msg_id s) (types s)
    (types_flag s) (mticks s) (sent s) (errors s).
Definition set_rc_last (b : buf_t_) (s : mtx_t) : mtx_t :=
  MtxState (rc_key s) (rc_salt s) (rc_ssid s) (rc_seqn s) (rc_seqnh s) (rc_sockfd s) b (types s)
    (types_flag s) (mticks s) (sent s) (errors s).
Definition set_types (t : tg_api_type_system_t) (f : Z) (s : mtx_t) : mtx_t :=
  MtxState (rc_key s) (rc_salt s) (rc_ssid s) (rc_seqn s) (rc_seqnh s) (rc_sockfd s) (rc_last_msg_id s) t
    f (mticks s) (sent s) (errors s).
Definition tick (s : mtx_t) : mtx_t :=
  MtxState (rc_key s) (rc_salt s) (rc_ssid s) (rc_seqn s) (rc_seqnh s) (rc_sockfd s) (rc_last_msg_id s)
    (types s) (types_flag s) (S (mticks s)) (sent s) (errors s).
Definition wrote (bs : list Z) (s : mtx_t) : mtx_t :=
  MtxState (rc_key s) (rc_salt s) (rc_ssid s) (rc_seqn s) (rc_seqnh s) (rc_sockfd s) (rc_last_msg_id s)
    (types s) (types_flag s) (mticks s) (sent s ++ [bs]) (errors s).
Definition reported (e : string) (s : mtx_t) : mtx_t :=
  MtxState (rc_key s) (rc_salt s) (rc_ssid s) (rc_seqn s) (rc_seqnh s) (rc_sockfd s) (rc_last_msg_id s)
    (types s) (types_flag s) (mticks s) (sent s) (errors s ++ [e]).

Definition reset_shared_rc (s : mtx_t) : mtx_t :=
  MtxState (set_msize 0 (rc_key s)) (set_msize 0 (rc_salt s)) (set_msize 0 (rc_ssid s)) (-1) 0 0
    (rc_last_msg_id s) (types s) (types_flag s) (mticks s) (sent s) (errors s).

Abbreviation M := (ST mtx_t).

(** [log_error] of src/log.c prints and goes on: its [exit] is a comment. *)
Definition log_error (e : string) : M unit := modify (reported e).

(** [return ++shared_rc.seqnh;] *)
Definition shared_rc_get_seqnh : M Z :=
  n ← gets rc_seqnh; let n := u32 (n + 1) in _ ← modify (set_rc_seqnh n); mret n.

(** ** The environment *)
(** The uninitialised variables, by what is declared. *)
Inductive site := in_hsh | in_net_receive | in_buf_xor | in_pow_mod | in_req_DH_params | in_vector.

Class Frame := {
  junk_buf : site -> buf_t_;
  junk_id : Z;
  junk_abstract : abstract_t;
  junk_DH_inner : ctor_Server_DH_inner_data_t;
  junk_sha1 : Sha1.sha1nfo;
  junk_size : forall x, zlen (mdata (junk_buf x)) = max_buf_size;
  junk_sha1_size : length (Sha1.buffer junk_sha1) = 64%nat;
  junk_sha1_bytes : bytes_ok (Sha1.buffer junk_sha1)
}.

(** What one [recv] of at most [max_buf_size] bytes delivers after the
    packets written so far; [None] for an error. *)
Class Peer := {
  recv_reply : list (list Z) -> option (list Z);
  recv_bound : forall l bs, recv_reply l = Some bs -> zlen bs <= max_buf_size
}.

(** OpenSSL's big numbers, and the RSA key of the file [pub.pkcs]. *)
Class BigNum := {
  bin2bn : list Z -> Z;
  bn2bin : Z -> list Z;
  mod_exp : Z -> Z -> Z -> Z;
  rsa_n : Z;
  rsa_e : Z;
  bin2bn_num : forall l, bytes_ok l -> bin2bn l = be_num l;
  bn2bin_num : forall z, 0 <= z -> be_num (bn2bin z) = z;
  bn2bin_bytes : forall z, bytes_ok (bn2bin z);
  bn2bin_short : forall z n, 0 <= z < 256 ^ n -> 0 <= n -> zlen (bn2bin z) <= n;
  mod_exp_num : forall g e m, 0 <= g -> 0 <= e -> 0 < m -> mod_exp g e m = g ^ e mod m
}.

(** src/fact.cpp: the smaller and the larger entry of the map of prime
    factors.  Fact.v models the file, FactClient.v makes it an instance. *)
Class Factor := factor : Z -> Z * Z.

(** ** Buffers: src/buf.c *)
Section Buffers.
Context `{Env} `{Frame}.

Definition when (b : bool) (m : M unit) : M unit := if b then m else mret tt.

(** [src]: what is readable from the pointer. *)
Definition buf_add_ (src : list Z) (size : Z) : M buf_t_ :=
  _ ← when (max_buf_size <? size) (log_error "can't add to buffer");
  m ← lift (copy_loop (Z.to_nat size) 0 (mdata empty_) (fun i => i) src);
  mret (Buf_ m size).

Definition buf_cat_ (dest src : buf_t_) : M buf_t_ :=
  let s := u32 (msize dest + msize src) in
  _ ← when (max_buf_size <? s) (log_error "can't cat to buffer");
  let offset := i32 (msize dest) in
  m ← lift (copy_loop (Z.to_nat (msize src)) 0 (mdata dest) (fun i => u32 (i + offset)) (at_ src 0));
  mret (Buf_ m s).

(** The [log_hex] at the end prints the bytes it reads. *)
Definition buf_dump_ (b : buf_t_) : M unit :=
  _ ← (if max_buf_size <? msize b then log_error "Error: buf_dump: max size reached"
       else when (msize b =? 0) (log_error "Error: buf_dump: buffer is empty"));
  if max_buf_size <? msize b then fail OutOfBounds else mret tt.

Definition buf_cmp_ (a b : buf_t_) : M bool :=
  _ ← when (negb (msize a =? msize b)) (log_error "Error: buf_cmp: different sizes");
  r ← lift (cmp_loop (Z.to_nat (msize a)) 0 (mdata a) (mdata b));
  mret (negb (r =? 0)).

Definition buf_swap_ (b : buf_t_) : M buf_t_ :=
  m ← lift (swap_loop (Z.to_nat (msize b)) (mdata b) 0 (msize b - 1));
  mret (set_mdata m b).

Definition buf_add_ui32_ (v : Z) : M buf_t_ := buf_add_ (le_bytes 4 v) 4.
Definition buf_add_ui64_ (v : Z) : M buf_t_ := buf_add_ (le_bytes 8 v) 8.
Definition buf_get_ui32_ (b : buf_t_) : Z := le_num (take 4 (mdata b)).
Definition buf_get_ui64_ (b : buf_t_) : Z := le_num (take 8 (mdata b)).

Definition buf_rand_ (s : Z) : M buf_t_ :=
  n ← gets mticks;
  _ ← modify tick;
  m ← lift (fill_loop (Z.to_nat s) 0 (mdata empty_) 0
        (fun i => Ok (rand_seq (u32 (wall n)) (Z.to_nat i) mod 256)));
  mret (Buf_ m s).

Definition buf_xor_ (a b : buf_t_) : M buf_t_ :=
  _ ← when (negb (msize a =? msize b)) (log_error "Error: buf_cmp: different sizes");
  m ← lift (fill_loop (Z.to_nat (msize a)) 0 (mdata (junk_buf in_buf_xor)) 0
        (fun i => x ← rd (mdata a) i; y ← rd (mdata b) i; Ok (Z.lxor x y)));
  mret (Buf_ m (msize a)).
End Buffers.

(** ** What the buffer operations do *)
(** The buffer [buf_add_] makes of the bytes [l]. *)
Definition mk_ (l : list Z) : buf_t_ :=
  Buf_ (l ++ replicate (Z.to_nat max_buf_size - length l) 0) (zlen l).

(** [b] holds the bytes [l], whatever is behind them. *)
Definition has (b : buf_t_) (l : list Z) : Prop :=
  zlen (mdata b) = max_buf_size /\ msize b = zlen l /\ take (length l) (mdata b) = l.

Section BufferFacts.
Context `{Env} `{Frame}.

Lemma has_bound b l : has b l -> zlen l <= max_buf_size.
Proof.
  intros (Hm & _ & Ht). apply (f_equal length) in Ht. rewrite length_take in Ht.
  unfold zlen in *. lia.
Qed.

Lemma has_size b l : has b l -> msize b = zlen l.
Proof. by intros (_ & ? & _). Qed.

Lemma has_mk l : zlen l <= max_buf_size -> has (mk_ l) l.
Proof.
  intros Hl. unfold has, mk_. cbn [mdata msize]. split_and!; [| done | apply take_app_length].
  rewrite zlen_app, zlen_replicate. unfold zlen, max_buf_size in *. lia.
Qed.

Lemma has_split b l : has b l -> exists r, mdata b = l ++ r /\ zlen l + zlen r = max_buf_size.
Proof.
  intros (Hm & _ & Ht). exists (drop (length l) (mdata b)). split.
  - rewrite <- Ht at 1. by rewrite take_drop.
  - rewrite <- Hm. rewrite <- Ht at 1. by rewrite <- zlen_app, take_drop.
Qed.

Lemma mk_zeros n : 0 <= n <= max_buf_size -> set_msize n empty_ = mk_ (replicate (Z.to_nat n) 0).
Proof.
  intros Hn. unfold set_msize, mk_, empty_. cbn [mdata]. rewrite length_replicate, <- replicate_add, zlen_replicate.
  unfold max_buf_size in *. f_equal; [f_equal; lia | lia].
Qed.

Lemma empty_mk : empty_ = mk_ [].
Proof. reflexivity. Qed.

Lemma slice_at b l k n :
  has b l -> 0 <= k -> 0 <= n -> k + n <= zlen l -> take (Z.to_nat n) (at_ b k) = slice l k n.
Proof.
  intros Hb ???. destruct (has_split b l Hb) as (r & E & _). unfold at_, slice. rewrite E.
  rewrite drop_app_le by (unfold zlen in *; lia). rewrite take_app_le; [done |].
  rewrite length_drop. unfold zlen in *. lia.
Qed.

Lemma zlen_at b k : zlen (mdata b) = max_buf_size -> 0 <= k <= max_buf_size -> zlen (at_ b k) = max_buf_size - k.
Proof. unfold at_, zlen. intros. rewrite length_drop. lia. Qed.

Lemma when_false b m (s : mtx_t) : b = false -> when b m s = Ok (tt, s).
Proof. by intros ->. Qed.

Lemma add_ok_ src n s :
  0 <= n <= max_buf_size -> n <= zlen src -> buf_add_ src n s = Ok (mk_ (take (Z.to_nat n) src), s).
Proof.
  intros Hn Hs. unfold buf_add_. erewrite bind_eq by (apply when_false; lia).
  erewrite bind_eq; [| apply lift_eq, (copy_loop_ok _ _ _ _ 0); try lia].
  2: { unfold empty_, max_buf_size in *. cbn [mdata]. rewrite zlen_replicate. lia. }
  unfold mret, st_ret, mk_. do 3 f_equal.
  - rewrite slice_0, Nat2Z.id. unfold splice, empty_. cbn [mdata].
    rewrite drop_replicate, length_take. cbn. do 2 f_equal.
  - unfold zlen in *. rewrite length_take. lia.
Qed.

Lemma add_all_ src n s :
  n = zlen src -> n <= max_buf_size -> buf_add_ src n s = Ok (mk_ src, s).
Proof.
  intros -> Hl. rewrite add_ok_ by (pose proof (zlen_nonneg src); lia).
  unfold zlen. by rewrite Nat2Z.id, take_ge by lia.
Qed.

Lemma add_at b l k n s :
  has b l -> 0 <= k -> 0 <= n -> k + n <= zlen l -> buf_add_ (at_ b k) n s = Ok (mk_ (slice l k n), s).
Proof.
  intros Hb ???. pose proof (has_bound _ _ Hb). pose proof Hb as (Hm & _).
  rewrite add_ok_; [by rewrite (slice_at b l) | lia |]. rewrite zlen_at by lia. lia.
Qed.

(** Sizes that wrapped around below zero. *)
Lemma add_wrapped src n s :
  max_buf_size < n -> buf_add_ src n s = Err OutOfBounds.
Proof.
  intros Hn. unfold buf_add_. replace (max_buf_size <? n) with true by lia.
  erewrite bind_eq by reflexivity. apply bind_err, lift_err.
  unfold max_buf_size in *. destruct (decide (n <= zlen src)).
  - apply copy_loop_dst_oob; [lia | lia | lia |]. unfold empty_, max_buf_size. cbn [mdata]. rewrite zlen_replicate. lia.
  - apply copy_loop_src_oob; lia.
Qed.

Lemma add_ui32_ok v s : buf_add_ui32_ v s = Ok (mk_ (le_bytes 4 v), s).
Proof. by apply add_all_. Qed.
Lemma add_ui64_ok v s : buf_add_ui64_ v s = Ok (mk_ (le_bytes 8 v), s).
Proof. by apply add_all_. Qed.

Lemma cat_loop dest a b l :
  has dest a -> has b l -> zlen a + zlen l <= max_buf_size ->
  copy_loop (Z.to_nat (msize b)) 0 (mdata dest) (fun i => u32 (i + i32 (msize dest))) (at_ b 0) =
  Ok (splice (mdata dest) (zlen a) l).
Proof.
  intros Ha Hb Hs. rewrite (has_size _ _ Ha), (has_size _ _ Hb). pose proof Ha as (Hm & _). pose proof Hb as (Hm' & _).
  pose proof (zlen_nonneg a). pose proof (zlen_nonneg l). unfold max_buf_size in *.
  assert (Ei : i32 (zlen a) = zlen a) by (unfold i32; rewrite Z.mod_small; lia). rewrite Ei.
  rewrite (copy_loop_ok _ _ _ _ (zlen a)).
  - rewrite Z.add_0_r, Z2Nat.id by lia. do 2 f_equal. unfold slice. rewrite drop_0.
    transitivity (take (Z.to_nat (zlen l)) (at_ b 0)); [done |]. rewrite (slice_at b l) by (done || lia).
    apply slice_all. lia.
  - intros j Hj. rewrite u32_id; [lia |]. unfold is_u32. lia.
  - lia.
  - lia.
  - rewrite zlen_at by (unfold max_buf_size; lia). unfold max_buf_size. lia.
  - lia.
Qed.

Lemma cat_sum (a l : list Z) : zlen a + zlen l <= max_buf_size -> u32 (zlen a + zlen l) = zlen a + zlen l.
Proof.
  intros. apply u32_id. unfold is_u32, max_buf_size in *. pose proof (zlen_nonneg a). pose proof (zlen_nonneg l). lia.
Qed.

Lemma cat_has dest a b l s :
  has dest a -> has b l -> zlen a + zlen l <= max_buf_size ->
  exists r, buf_cat_ dest b s = Ok (r, s) /\ has r (a ++ l).
Proof.
  intros Ha Hb Hs. unfold buf_cat_. rewrite (has_size _ _ Ha), (has_size _ _ Hb), cat_sum by done.
  eexists. split.
  - erewrite bind_eq by (apply when_false; lia). rewrite <- (has_size _ _ Ha), <- (has_size _ _ Hb).
    erewrite bind_eq by (apply lift_eq; by apply cat_loop). reflexivity.
  - destruct (has_split _ _ Ha) as (r & E & Er). rewrite (has_size _ _ Ha), (has_size _ _ Hb).
    unfold has. cbn [mdata msize]. rewrite E, splice_at by done.
    pose proof (zlen_nonneg l). split_and!.
    + rewrite !zlen_app. unfold zlen in *. rewrite length_drop. lia.
    + by rewrite zlen_app.
    + rewrite app_assoc. apply take_app_length.
Qed.

Lemma cat_mk a b l s :
  has b l -> zlen a + zlen l <= max_buf_size -> buf_cat_ (mk_ a) b s = Ok (mk_ (a ++ l), s).
Proof.
  intros Hb Hs. pose proof (zlen_nonneg l).
  assert (Ha : has (mk_ a) a) by (apply has_mk; lia).
  unfold buf_cat_. rewrite (has_size _ _ Ha), (has_size _ _ Hb), cat_sum by done.
  erewrite bind_eq by (apply when_false; lia). rewrite <- (has_size _ _ Ha), <- (has_size _ _ Hb).
  erewrite bind_eq by (apply lift_eq; by apply cat_loop). rewrite (has_size _ _ Ha), (has_size _ _ Hb).
  unfold mret, st_ret, mk_. cbn [mdata]. rewrite splice_at by done. rewrite <- app_assoc, zlen_app.
  rewrite drop_replicate, length_app, Nat.sub_add_distr. done.
Qed.

Lemma cat_empty b l s : has b l -> buf_cat_ empty_ b s = Ok (mk_ l, s).
Proof. intros Hb. rewrite empty_mk. rewrite (cat_mk [] b l); [done.. |]. change (zlen []) with 0. by apply has_bound in Hb. Qed.

Lemma swap_mk l s : zlen l <= max_buf_size -> buf_swap_ (mk_ l) s = Ok (mk_ (rev l), s).
Proof.
  intros Hl. unfold buf_swap_, mk_. cbn [mdata msize]. erewrite bind_eq.
  2: { apply lift_eq. pose proof (swap_loop_ok (length l) [] l (replicate (Z.to_nat max_buf_size - length l) 0)
         ltac:(lia)) as E. change (zlen []) with 0 in E. rewrite !app_nil_l, Z.add_0_l in E.
       unfold zlen at 1. rewrite Nat2Z.id. exact E. }
  unfold mret, st_ret, set_mdata, mk_. cbn [msize]. unfold zlen. by rewrite length_rev.
Qed.

(** Equal sizes: no complaint, and the answer is the comparison. *)
Lemma cmp_has a b la lb s :
  has a la -> has b lb -> zlen la = zlen lb -> buf_cmp_ a b s = Ok (bool_decide (la = lb), s).
Proof.
  intros Ha Hb Hl. unfold buf_cmp_. rewrite (has_size _ _ Ha), (has_size _ _ Hb), Hl, Z.eqb_refl.
  pose proof (has_bound _ _ Hb). pose proof Ha as (Ma & _ & Ta). pose proof Hb as (Mb & _ & Tb).
  erewrite bind_eq by reflexivity. pose proof (zlen_nonneg lb).
  erewrite bind_eq by (apply lift_eq, cmp_loop_ok; lia).
  rewrite Z2Nat.id, !slice_0 by lia. unfold zlen. rewrite !Nat2Z.id, Tb.
  assert (Ta' : take (length lb) (mdata a) = la).
  { etransitivity; [| exact Ta]. f_equal. unfold zlen in Hl. lia. }
  rewrite Ta'. unfold mret, st_ret. do 2 f_equal. case_decide; by case_bool_decide.
Qed.

Lemma rand_ok_ n s :
  0 <= n <= max_buf_size -> buf_rand_ n s = Ok (mk_ (rand_bytes (wall (mticks s)) (Z.to_nat n)), tick s).
Proof.
  intros Hn. unfold buf_rand_. do 2 (erewrite bind_eq by reflexivity).
  set (l := rand_bytes (wall (mticks s)) (Z.to_nat n)).
  assert (Ll : length l = Z.to_nat n) by (unfold l, rand_bytes; by rewrite length_fmap, length_seq).
  erewrite bind_eq; [| apply lift_eq, (fill_loop_ok _ _ _ _ _ l); [lia | lia | done | |]].
  - unfold mret, st_ret, mk_. rewrite Z.add_0_r, splice_0. cbn [mdata empty_].
    rewrite drop_replicate. unfold zlen. rewrite Ll, Z2Nat.id by lia. done.
  - intros j x Hx. unfold l, rand_bytes in Hx. rewrite list_lookup_fmap in Hx.
    apply fmap_Some in Hx as (k & Hk & ->). apply lookup_seq in Hk as [-> _].
    by rewrite Z.add_0_l, Nat2Z.id.
  - unfold empty_. cbn [mdata]. rewrite zlen_replicate. unfold max_buf_size in *. lia.
Qed.

Lemma xor_has a b la lb s :
  has a la -> has b lb -> zlen la = zlen lb ->
  exists r, buf_xor_ a b s = Ok (r, s) /\ has r (xor_bytes la lb).
Proof.
  intros Ha Hb Hl. unfold buf_xor_. rewrite (has_size _ _ Ha), (has_size _ _ Hb), Hl, Z.eqb_refl.
  pose proof (has_bound _ _ Hb). destruct (has_split _ _ Ha) as (ra & Ea & _).
  destruct (has_split _ _ Hb) as (rb & Eb & _). pose proof (junk_size in_buf_xor) as Hj. pose proof (zlen_nonneg lb).
  assert (Lx : zlen (xor_bytes la lb) = zlen lb).
  { unfold xor_bytes, zlen in *. rewrite length_zip_with. lia. }
  eexists. split.
  - erewrite bind_eq by reflexivity.
    erewrite bind_eq; [reflexivity |]. apply lift_eq, (fill_loop_ok _ _ _ _ _ (xor_bytes la lb)); [lia | lia | | | lia].
    + unfold zlen in Lx |- *. lia.
    + intros j x Hx. unfold xor_bytes in Hx. apply lookup_zip_with_Some in Hx as (x1 & x2 & -> & H1' & H2').
      by rewrite Ea, Eb, !Z.add_0_l, (rd_prefix _ ra _ _ H1'), res_bind_ok, (rd_prefix _ rb _ _ H2').
  - unfold has. cbn [mdata msize]. rewrite Z.add_0_l, splice_0.
    split_and!; [| done | apply take_app_length].
    rewrite zlen_app. unfold zlen in *. rewrite length_drop. lia.
Qed.

Lemma get_ui32_has b l : has b l -> 4 <= zlen l -> buf_get_ui32_ b = le_num (slice l 0 4).
Proof.
  intros Hb Hl. pose proof (slice_at b l 0 4 Hb) as E. unfold at_ in E. rewrite drop_0 in E.
  unfold buf_get_ui32_. change 4%nat with (Z.to_nat 4). by rewrite E by lia.
Qed.
Lemma get_ui64_has b l : has b l -> 8 <= zlen l -> buf_get_ui64_ b = le_num (slice l 0 8).
Proof.
  intros Hb Hl. pose proof (slice_at b l 0 8 Hb) as E. unfold at_ in E. rewrite drop_0 in E.
  unfold buf_get_ui64_. change 8%nat with (Z.to_nat 8). by rewrite E by lia.
Qed.

(** [len_.size = 4; get_ui32(len_)] for a buffer of three bytes: the byte
    behind them is zero. *)
Lemma get_ui32_short l : zlen l = 3 -> buf_get_ui32_ (set_msize 4 (mk_ l)) = le_num l.
Proof.
  intros Hl. destruct l as [|a [|b [|c [|]]]]; try (unfold zlen in Hl; cbn in Hl; lia).
  change (buf_get_ui32_ (set_msize 4 (mk_ [a; b; c]))) with (le_num [a; b; c; 0]). cbn [le_num]. lia.
Qed.
End BufferFacts.
