(* ===== verification/MtxLayers.v ===== *)
(** * The layers of mtx: src/hsh.c, cry.c, rsa.c, cmn.c, trl.c, hdl.c,
    enl.c, net.c, sel.c

    Hashing and encryption, the transport, header and encryption layers a
    message passes, the socket, and the serialisation of parameters. *)
From stdpp Require Import strings.
From S2P Require Import Prelude TlBuf HashCommon Sha1 Tg Packet Mtx.

Section Layers.
Context `{Env} `{Frame} `{OpenSSL} `{BigNum} `{Factor} `{Peer}.

(** ** hsh.c, cry.c, rsa.c, cmn.c *)
(** The [n] bytes a library function reads from [src] on. *)
Definition mload (src : list Z) (n : Z) : res (list Z) :=
  if zlen src <? n then Err OutOfBounds else Ok (take (Z.to_nat n) src).
(** A library function writes [bs] to the array [m] of a buffer. *)
Definition mstore (m bs : list Z) : res (list Z) :=
  copy_loop (length bs) 0 m (fun i => i) bs.

Definition hsh_sha1 (b : buf_t_) : M buf_t_ :=
  d ← lift (mload (mdata b) (msize b));
  h ← lift (Sha1.sha1 junk_sha1 d);
  m ← lift (mstore (mdata (junk_buf in_hsh)) h);
  mret (Buf_ m 20).

(** [BN_mod_exp] fails for a modulus of zero. *)
Definition rsax (from : list Z) (to_ : list Z) (to_len : Z) (N E : Z) : res (list Z) :=
  let x := bin2bn from in
  _ ← guard_res (negb (N =? 0)) AssertFailed;
  let y := mod_exp x E N in
  to_ ← mstore to_ (replicate (Z.to_nat to_len) 0);
  mstore to_ (bn2bin y).

Definition rsa (from to_ : list Z) (from_size to_size : Z) : res (list Z) :=
  _ ← guard_res ((from_size =? 255) || (to_size =? 256)) AssertFailed;
  from ← mload from from_size;
  rsax from to_ to_size rsa_n rsa_e.

Definition cry_rsa_e (b : buf_t_) : M buf_t_ :=
  let r := set_msize 256 empty_ in
  m ← lift (rsa (mdata b) (mdata r) (msize b) (msize r));
  mret (set_mdata m r).

(** [AES_ige_encrypt] asserts that the length is a multiple of the block. *)
Definition aes_run (f : list Z -> list Z -> list Z -> list Z) (b key iv : buf_t_) : res (list Z) :=
  k ← mload (mdata key) 32;
  _ ← guard_res (msize b mod 16 =? 0) AssertFailed;
  v ← mload (mdata iv) 32;
  m ← mload (mdata b) (msize b);
  mstore (mdata empty_) (f k v m).

Definition cry_aes_e (b key iv : buf_t_) : M buf_t_ :=
  m ← lift (aes_run ige_encrypt b key iv);
  let l := msize b in
  _ ← when (l =? 0) (log_error "error during aes encryption");
  mret (Buf_ m l).

Definition cry_aes_d (b key iv : buf_t_) : M buf_t_ :=
  m ← lift (aes_run ige_decrypt b key iv);
  let l := msize b in
  _ ← when (l =? 0) (log_error "error during aes decryption");
  mret (Buf_ m l).

(** The result and its length. *)
Definition pow_mod (y g : list Z) (g_s : Z) (e : list Z) (e_s : Z) (m : list Z) (m_s : Z) : res (list Z * Z) :=
  _ ← mload y m_s;
  g_ ← mload g g_s; e_ ← mload e e_s; m_ ← mload m m_s;
  _ ← guard_res (negb (bin2bn m_ =? 0)) AssertFailed;
  let y_ := mod_exp (bin2bn g_) (bin2bn e_) (bin2bn m_) in
  y ← mstore y (replicate (Z.to_nat m_s) 0);
  y ← mstore y (bn2bin y_);
  Ok (y, zlen (bn2bin y_)).

Definition cmn_pow_mod (g e m : buf_t_) : M buf_t_ :=
  _ ← when (negb (msize e =? msize m) || negb (msize e =? 256)) (log_error "can't pow_mod");
  r ← lift (pow_mod (mdata (junk_buf in_pow_mod)) (mdata g) (msize g) (mdata e) (msize e) (mdata m) (msize m));
  _ ← when (snd r =? 0) (log_error "pow_mod failed");
  mret (Buf_ (fst r) (snd r)).

Definition cmn_fact (pq : Z) : Z * Z := factor pq.

(** ** trl.c *)
Definition trl_transport (buf : buf_t_) : M buf_t_ :=
  b ← buf_add_ui32_ (msize buf); buf_cat_ b buf.

Definition trl_detransport (a : buf_t_) : M buf_t_ :=
  _ ← when (msize a =? 0) (log_error "trl_transport: received nothing");
  a_len ← buf_add_ (at_ a 0) 4;
  a_len_ ← buf_add_ (le_bytes 4 (msize a)) 4;
  same ← buf_cmp_ a_len a_len_;
  _ ← when (negb same) (log_error "trl_transport: len mismatch");
  buf_add_ (at_ a 4) (u32 (msize a - 4)).

(** ** hdl.c *)
(** [(long long)((1LL << 32) * get_utime(CLOCK_REALTIME)) & -4] *)
Definition get_current_time : M Z :=
  n ← gets mticks; _ ← modify tick; mret (Z.land (utime n) (-4)).

Definition hdl_header (b : buf_t_) (t : msg_t) : M buf_t_ :=
  let s := empty_ in
  match t with
  | RFC =>
      msg_id_ ← get_current_time;
      msg_id ← buf_add_ (le_bytes 8 (u64 msg_id_)) 8;
      s ← buf_cat_ s msg_id;
      msg_data_len ← buf_add_ (le_bytes 4 (msize b)) 4;
      s ← buf_cat_ s msg_data_len;
      buf_cat_ s b
  | API =>
      salt ← gets rc_salt; s ← buf_cat_ s salt;
      session_id ← gets rc_ssid; s ← buf_cat_ s session_id;
      msg_id_ ← get_current_time;
      msg_id ← buf_add_ (le_bytes 8 (u64 msg_id_)) 8;
      s ← buf_cat_ s msg_id;
      seqnh ← shared_rc_get_seqnh;
      seq_no ← buf_add_ui32_ seqnh;
      s ← buf_cat_ s seq_no;
      msg_data_len ← buf_add_ (le_bytes 4 (msize b)) 4;
      s ← buf_cat_ s msg_data_len;
      buf_cat_ s b
  | CTER => _ ← log_error "do not know this type"; mret s
  end.

Definition hdl_deheader (b : buf_t_) (t : msg_t) : M buf_t_ :=
  match t with
  | RFC =>
      d ← buf_add_ (at_ b 8) (u32 (msize b - 8));
      let msg_data_len := buf_get_ui32_ d in
      let d := set_msize (u32 (msize d - 4)) d in
      _ ← when (negb (msg_data_len =? msize d)) (log_error "msg_data_len mismatch");
      buf_add_ (at_ d 4) (msize d)
  | API =>
      d ← buf_add_ (at_ b 8) (u32 (msize b - 8));
      d ← buf_add_ (at_ d 8) (u32 (msize d - 8));
      last ← buf_add_ (at_ d 0) 8;
      _ ← modify (set_rc_last last);
      d ← buf_add_ (at_ d 8) (u32 (msize d - 8));
      d ← buf_add_ (at_ d 4) (u32 (msize d - 4));
      let msg_data_len := buf_get_ui32_ d in
      let d := set_msize (u32 (msize d - 4)) d in
      _ ← when (negb (msg_data_len =? msize d)) (log_error "msg_data_len mismatch");
      buf_add_ (at_ d 4) (msize d)
  | CTER =>
      d ← buf_add_ (at_ b 8) (u32 (msize b - 8));
      d ← buf_add_ (at_ d 4) (u32 (msize d - 4));
      let msg_data_len := buf_get_ui32_ d in
      buf_add_ (at_ d 4) msg_data_len
  end.

(** ** enl.c: MTProto 1.0 *)
Inductive get_params_mode_t := MODE_C2S | MODE_S2C.

Definition enl_get_params (auth_key msg_key : buf_t_) (m : get_params_mode_t) : M (buf_t_ * buf_t_) :=
  let x := match m with MODE_C2S => 0 | MODE_S2C => 8 end in
  let aes_key := empty_ in
  let aes_iv := empty_ in
  tmp ← buf_add_ (at_ msg_key 0) 16;
  t ← buf_add_ (at_ auth_key x) 32; tmp ← buf_cat_ tmp t;
  hash ← hsh_sha1 tmp;
  t ← buf_add_ (at_ hash 0) 8; aes_key ← buf_cat_ aes_key t;
  t ← buf_add_ (at_ hash 8) 12; aes_iv ← buf_cat_ aes_iv t;
  tmp ← buf_add_ (at_ auth_key (32 + x)) 16;
  t ← buf_add_ (at_ msg_key 0) 16; tmp ← buf_cat_ tmp t;
  t ← buf_add_ (at_ auth_key (48 + x)) 16; tmp ← buf_cat_ tmp t;
  hash ← hsh_sha1 tmp;
  t ← buf_add_ (at_ hash 8) 12; aes_key ← buf_cat_ aes_key t;
  t ← buf_add_ (at_ hash 0) 8; aes_iv ← buf_cat_ aes_iv t;
  tmp ← buf_add_ (at_ auth_key (64 + x)) 32;
  t ← buf_add_ (at_ msg_key 0) 16; tmp ← buf_cat_ tmp t;
  hash ← hsh_sha1 tmp;
  t ← buf_add_ (at_ hash 4) 12; aes_key ← buf_cat_ aes_key t;
  t ← buf_add_ (at_ hash 16) 4; aes_iv ← buf_cat_ aes_iv t;
  tmp ← buf_add_ (at_ msg_key 0) 16;
  t ← buf_add_ (at_ auth_key (96 + x)) 32; tmp ← buf_cat_ tmp t;
  hash ← hsh_sha1 tmp;
  t ← buf_add_ (at_ hash 0) 8; aes_iv ← buf_cat_ aes_iv t;
  mret (aes_key, aes_iv).

Definition enl_encrypt (b : buf_t_) (t : msg_t) : M buf_t_ :=
  let e := empty_ in
  match t with
  | API =>
      key ← gets rc_key;
      key_hash ← hsh_sha1 key;
      auth_key_id ← buf_add_ (at_ key_hash 12) 8;
      e ← buf_cat_ e auth_key_id;
      data_hash ← hsh_sha1 b;
      msg_key ← buf_add_ (at_ data_hash 4) 16;
      e ← buf_cat_ e msg_key;
      let pad_ := (16 - msize b mod 16) mod 16 in
      b ← (if pad_ =? 0 then mret b else buf_cat_ b (set_msize pad_ empty_));
      p ← enl_get_params key msg_key MODE_C2S;
      enc ← cry_aes_e b (fst p) (snd p);
      buf_cat_ e enc
  | RFC => e ← buf_add_ (at_ empty_ 0) 8; buf_cat_ e b
  | CTER => _ ← log_error "unknown type"; mret e
  end.

Definition enl_decrypt (m : buf_t_) (t : msg_t) : M buf_t_ :=
  match t with
  | API =>
      key ← gets rc_key;
      key_hash ← hsh_sha1 key;
      auth_key_id ← buf_add_ (at_ key_hash 12) 8;
      auth_key_id_ ← buf_add_ (at_ m 0) 8;
      same ← buf_cmp_ auth_key_id auth_key_id_;
      _ ← when (negb same) (log_error "different auth key id's");
      m ← buf_add_ (at_ m 8) (u32 (msize m - 8));
      msg_key ← buf_add_ (at_ m 0) 16;
      m ← buf_add_ (at_ m 16) (u32 (msize m - 16));
      p ← enl_get_params key msg_key MODE_S2C;
      d ← cry_aes_d m (fst p) (snd p);
      l_ ← buf_add_ (at_ d 28) 4;
      let l := buf_get_ui32_ l_ in
      let pad_ := (16 - l mod 16) mod 16 in
      d ← (if pad_ =? 0 then mret d else buf_add_ (at_ d 0) (u32 (msize d - pad_)));
      data_hash ← hsh_sha1 d;
      msg_key_ ← buf_add_ (at_ data_hash 4) 16;
      same ← buf_cmp_ msg_key_ msg_key;
      _ ← when (negb same) (log_error "different msg key's");
      mret d
  | RFC =>
      d_key ← buf_add_ (at_ m 0) 8;
      same ← buf_cmp_ (set_msize 8 empty_) d_key;
      _ ← when (negb same) (log_error "trl_transport: keys mismatch");
      buf_add_ (at_ m 8) (u32 (msize m - 8))
  | CTER => fail Uninit
  end.

(** ** net.c *)
(** [send] of the whole buffer; its result is only reported. *)
Definition net_send (buf : buf_t_) : M unit :=
  bs ← lift (mload (mdata buf) (msize buf)); modify (wrote bs).

(** One [recv] for the whole packet. *)
Definition net_receive : M buf_t_ :=
  l ← gets sent;
  let m := mdata (junk_buf in_net_receive) in
  match recv_reply l with
  | None => _ ← log_error "ERROR reading from socket"; mret (Buf_ m (u32 (-1)))
  | Some bs => m ← lift (mstore m bs); mret (Buf_ m (zlen bs))
  end.

Definition net_drive (buf : buf_t_) (m : stk_mode_t) : M buf_t_ :=
  _ ← net_send buf;
  match m with SEND_RECEIVE => net_receive | SEND => mret empty_ end.

(** ** sel.c *)
Definition sel_deserialize_string (b : buf_t_) : M buf_t_ :=
  byte ← buf_add_ (at_ b 0) 4;
  let b0 := le_num (take 1 (mdata byte)) in
  if b0 <=? 253 then buf_add_ (at_ b 1) b0
  else
    s1 ← buf_add_ [0xfe] 1;
    s2 ← buf_add_ (at_ b 0) 1;
    same ← buf_cmp_ s1 s2;
    _ ← when (negb same) (log_error "can't deserialize string");
    len_ ← buf_add_ (at_ b 1) 3;
    let len := buf_get_ui32_ (set_msize 4 len_) in
    b ← buf_add_ (at_ b 4) (u32 (msize b - 4));
    buf_add_ (at_ b 0) len.

Definition sel_serialize_string (b : buf_t_) : M buf_t_ :=
  let size := msize b in
  if size <=? 253 then
    s ← buf_add_ (le_bytes 4 size) 1;
    s ← buf_cat_ s b;
    let pad := (4 - msize s mod 4) mod 4 in
    buf_cat_ s (set_msize pad empty_)
  else
    s ← buf_add_ [0xfe] 1;
    len ← buf_add_ (le_bytes 4 size) 3;
    s ← buf_cat_ s len;
    s ← buf_cat_ s b;
    let pad := (4 - msize s mod 4) mod 4 in
    if pad =? 0 then mret s else buf_cat_ s (set_msize pad empty_).

(** An unknown type leaves [s] uninitialised. *)
Definition sel_serialize_param (p : param_t) : M buf_t_ :=
  let v := p_value p in
  match p_type p with
  | TYPE_INT | TYPE_ID => buf_add_ (at_ v 0) 4
  | TYPE_INT128 => buf_add_ (at_ v 0) 16
  | TYPE_INT256 => buf_add_ (at_ v 0) 32
  | TYPE_LONG => buf_add_ (at_ v 0) 8
  | TYPE_VECTOR_LONG | TYPE_QX => buf_add_ (at_ v 0) (msize v)
  | TYPE_STRING => sel_serialize_string v
  | _ => _ ← log_error "unknown type"; fail Uninit
  end.

(** [sel_deserialize_param], with the function for vectors as a parameter. *)
Definition deserialize_with (vector : param_t -> M buf_t_) (p : param_t) : M param_t :=
  let v := p_value p in
  s ← match p_type p with
      | TYPE_INT | TYPE_ID => buf_add_ (at_ v 0) 4
      | TYPE_INT128 => buf_add_ (at_ v 0) 16
      | TYPE_INT256 => buf_add_ (at_ v 0) 32
      | TYPE_LONG => buf_add_ (at_ v 0) 8
      | TYPE_VECTOR_LONG | TYPE_VECTOR_MESSAGE => vector p
      | TYPE_STRING => sel_deserialize_string v
      | TYPE_MESSAGE => buf_add_ (at_ v 0) (msize v)
      | _ => _ ← log_error "unknown type"; fail Uninit
      end;
  mret (Param junk_id s (p_type p)).

Definition _id_resPQ : Z := 0x05162463.
Definition _id_Vector : Z := 0x1cb5c415.
Definition _id_Server_DH_Params_ok : Z := 0xd0e8075c.
Definition _id_server_DH_inner_data : Z := 0xb5890dba.
Definition _id_dh_gen_ok : Z := 0x3bcbf734.
Definition _id_msg_container : Z := 0x73f1f8dc.
Definition _id_new_session_created : Z := 0x9ec20908.
Definition _id_pong : Z := 0x347773c5.
Definition _id_bad_msg_notification : Z := 0xa7eff811.
Definition max_param_size : Z := 12.

(** The loop over [q] elements: element [i] of the array [p_] is assigned,
    and all elements are read from the same place. *)
Fixpoint vector_loop (n : nat) (i : Z) (id : Z) (b d : buf_t_) : M buf_t_ :=
  match n with
  | O => mret d
  | S n =>
      let element (ty : tl_type_t) :=
        if max_param_size <=? i then fail OutOfBounds
        else
          p ← deserialize_with (fun _ => fail NoFuel) (Param junk_id b ty);
          vector_loop n (i + 1) id b (p_value p) in
      if id =? _id_resPQ then element TYPE_LONG
      else if id =? _id_msg_container then element TYPE_MESSAGE
      else vector_loop n (i + 1) id b d
  end.

Definition sel_deserialize_vector (p : param_t) : M buf_t_ :=
  let b := p_value p in
  let id := buf_get_ui32_ b in
  _ ← when (negb (id =? _id_Vector)) (log_error "this is not vector id");
  b ← buf_add_ (at_ b 4) (u32 (msize b - 4));
  let q := buf_get_ui32_ b in
  if q =? 0 then mret empty_
  else
    b ← buf_add_ (at_ b 4) (u32 (msize b - 4));
    vector_loop (Z.to_nat q) 0 (p_id p) b (junk_buf in_vector).

Definition sel_deserialize_param : param_t -> M param_t := deserialize_with sel_deserialize_vector.

(** [for (i = 0; i < a.size; ++i)] *)
Fixpoint serialize_loop (n : nat) (i : nat) (ps : list param_t) (s : buf_t_) : M buf_t_ :=
  match n with
  | O => mret s
  | S n =>
      match ps !! i with
      | None => fail OutOfBounds
      | Some p => b ← sel_serialize_param p; s ← buf_cat_ s b; serialize_loop n (S i) ps s
      end
  end.

Definition sel_serialize (a : abstract_t) : M buf_t_ :=
  serialize_loop (Z.to_nat (a_size a)) 0 (a_params a) empty_.

Definition sel_deserialize (b : buf_t_) : M abstract_t :=
  let id := buf_get_ui32_ b in
  v ← buf_add_ui32_ id;
  b ← buf_add_ (at_ b 4) (u32 (msize b - 4));
  let junk (i : nat) := default zero_param (a_params junk_abstract !! i) in
  mret (Abstract ([Param (p_id (junk 0%nat)) v TYPE_ID; set_value b (junk 1%nat)] ++ drop 2 (a_params junk_abstract))
          (a_size junk_abstract) (a_type junk_abstract) (a_stk_mode junk_abstract)).
End Layers.
