(* ===== verification/Handshake.v ===== *)
(** * The key exchange: src/sil.c, tgt.c, stk.c, srl.c, scl.c, app.c

    [srl_auth] runs the three round trips that negotiate the authorisation
    key.  Each goes through [stk_drive]: serialise, header, encryption
    layer, transport, socket, and back. *)
From stdpp Require Import strings.
From S2P Require Import Prelude TlBuf HashCommon Sha1 Tg Packet Mtx MtxLayers.

Section Handshake.
Context `{Env} `{Frame} `{OpenSSL} `{BigNum} `{Factor} `{Peer}.

(** ** sil.c *)
(** [a.params[0], ... = ps; a.size = length ps; a.type = ty] on an
    uninitialised [a]. *)
Definition abstract_of (ty : msg_t) (id : Z) (ps : list param_t) : M abstract_t :=
  v ← buf_add_ui32_ id;
  let ps := Param junk_id v TYPE_ID :: ps in
  mret (Abstract (ps ++ drop (length ps) (a_params junk_abstract)) (zlen ps) ty (a_stk_mode junk_abstract)).

Definition sil_abstract (t : tg_api_type_system_t) : M abstract_t :=
  let set (id : Z) := negb (id =? 0) in
  if set (req_id__ (t_req_pq t)) then
    let m := t_req_pq t in
    abstract_of RFC (req_id__ m) [req_nonce m]
  else if set (pqi_id__ (t_P_Q_inner_data t)) then
    let c := t_P_Q_inner_data t in
    abstract_of RFC (pqi_id__ c)
      [pqi_pq c; pqi_p c; pqi_q c; pqi_nonce c; pqi_server_nonce c; pqi_new_nonce c]
  else if set (rdh_id__ (t_req_DH_params t)) then
    let m := t_req_DH_params t in
    abstract_of RFC (rdh_id__ m)
      [rdh_nonce m; rdh_server_nonce m; rdh_p m; rdh_q m; rdh_public_key_fingerprint m; rdh_encrypted_data m]
  else if set (cdh_id__ (t_Client_DH_Inner_Data t)) then
    let c := t_Client_DH_Inner_Data t in
    abstract_of RFC (cdh_id__ c) [cdh_nonce c; cdh_server_nonce c; cdh_retry_id c; cdh_g_b c]
  else if set (scd_id__ (t_set_client_DH_params t)) then
    let m := t_set_client_DH_params t in
    abstract_of RFC (scd_id__ m) [scd_nonce m; scd_server_nonce m; scd_encrypted_data m]
  else if set (ping_id__ (t_ping t)) then
    let m := t_ping t in abstract_of API (ping_id__ m) [ping_ping_id m]
  else if set (code_id__ (t_auth_sendCode t)) then
    let m := t_auth_sendCode t in
    abstract_of API (code_id__ m)
      [code_phone_number m; code_sms_type m; code_api_id m; code_api_hash m; code_lang_code m]
  else if set (ack_id__ (t_msgs_ack t)) then
    let m := t_msgs_ack t in abstract_of API (ack_id__ m) [ack_msg_ids m]
  else _ ← log_error "can't abstract"; mret junk_abstract.

(** [p.value = s; p.type = ty; ... = deserialize_param(p)] *)
Definition field (id : Z) (ty : tl_type_t) (s : buf_t_) : M param_t :=
  sel_deserialize_param (Param id s ty).
(** [s = api.buf.add(s.data + n, s.size - n);] *)
Definition skip (n : Z) (s : buf_t_) : M buf_t_ := buf_add_ (at_ s n) (u32 (msize s - n)).

(** [t.ctor = x;] for the global [t]. *)
Definition store (f : tg_api_type_system_t -> tg_api_type_system_t) : M unit :=
  modify (fun w => set_types (f (types w)) (types_flag w) w).
(** [l = p.value.size + 4; s = api.buf.add(s.data + l, s.size - l);] *)
Definition skip_string (p : param_t) (s : buf_t_) : M buf_t_ :=
  let l := u32 (msize (p_value p) + 4) in buf_add_ (at_ s l) (u32 (msize s - l)).

(** The cases of [sil_concrete], by the constructor they read. *)
Definition read_resPQ (s : buf_t_) : M unit :=
  let id := _id_resPQ in
  nonce ← field id TYPE_INT128 s; s ← skip 16 s;
  server_nonce ← field id TYPE_INT128 s; s ← skip 16 s;
  pq ← field id TYPE_STRING s; s ← skip_string pq s;
  fps ← field id TYPE_VECTOR_LONG s;
  store (put_ResPQ (ResPQ id nonce server_nonce pq fps)).

Definition read_Server_DH_Params_ok (s : buf_t_) : M unit :=
  let id := _id_Server_DH_Params_ok in
  nonce ← field id TYPE_INT128 s; s ← skip 16 s;
  server_nonce ← field id TYPE_INT128 s; s ← skip 16 s;
  answer ← field id TYPE_STRING s;
  store (put_Server_DH_Params_ok (Server_DH_Params_ok id nonce server_nonce answer)).

Definition read_server_DH_inner_data (s : buf_t_) : M unit :=
  let id := _id_server_DH_inner_data in
  nonce ← field id TYPE_INT128 s; s ← skip 16 s;
  server_nonce ← field id TYPE_INT128 s; s ← skip 16 s;
  g ← field id TYPE_INT s; s ← skip 4 s;
  dh_prime ← field id TYPE_STRING s; s ← skip_string dh_prime s;
  g_a ← field id TYPE_STRING s; s ← skip_string g_a s;
  server_time ← field id TYPE_INT s;
  let c := junk_DH_inner in                   (* ctor_Server_DH_inner_data_t c; *)
  store (put_Server_DH_inner_data (Server_DH_inner_data id nonce server_nonce g dh_prime g_a
    server_time (sdh_answer c) (sdh_tmp_aes_key c) (sdh_tmp_aes_iv c))).

Definition read_dh_gen_ok (s : buf_t_) : M unit :=
  let id := _id_dh_gen_ok in
  nonce ← field id TYPE_INT128 s; s ← skip 16 s;
  server_nonce ← field id TYPE_INT128 s; s ← skip 16 s;
  hash ← field id TYPE_INT128 s;
  store (put_answer_ok (Dh_gen_ok id nonce server_nonce hash)).

(** A container is taken to have two messages. *)
Definition read_msg_container (concrete : abstract_t -> M tg_api_type_system_t) (s : buf_t_) : M unit :=
  content ← buf_add_ (at_ s 0) (msize s);
  v ← buf_add_ui32_ _id_Vector;
  v ← buf_cat_ v content;
  p ← field _id_msg_container TYPE_VECTOR_MESSAGE v;
  let message (v : buf_t_) : M buf_t_ :=
    b ← hdl_deheader v CTER;
    a ← sel_deserialize b;
    _ ← concrete a;
    let l := u32 (msize b + 16) in
    buf_add_ (at_ v l) (u32 (msize v - l)) in
  v ← message (p_value p);
  _ ← message v;
  mret tt.

Definition read_new_session_created (s : buf_t_) : M unit :=
  let id := _id_new_session_created in
  first ← field id TYPE_LONG s; s ← skip 8 s;
  unique ← field id TYPE_LONG s; s ← skip 8 s;
  salt ← field id TYPE_LONG s;
  store (put_NewSession (NewSession id first unique salt)).

Definition read_pong (s : buf_t_) : M unit :=
  let id := _id_pong in
  msg_id ← field id TYPE_LONG s; s ← skip 8 s;
  ping_id ← field id TYPE_LONG s;
  store (put_Pong (Pong_ id msg_id ping_id)).

Definition read_object (concrete : abstract_t -> M tg_api_type_system_t) (id : Z) (s : buf_t_) : M unit :=
  if id =? _id_resPQ then read_resPQ s
  else if id =? _id_Server_DH_Params_ok then read_Server_DH_Params_ok s
  else if id =? _id_server_DH_inner_data then read_server_DH_inner_data s
  else if id =? _id_dh_gen_ok then read_dh_gen_ok s
  else if id =? _id_msg_container then read_msg_container concrete s
  else if id =? _id_new_session_created then read_new_session_created s
  else if id =? _id_pong then read_pong s
  else if id =? _id_bad_msg_notification then log_error "id_bad_msg_notification received"
  else log_error "unknown id".

(** The object is read from [a.params[1]] into the global [t].  [fuel]
    bounds the nesting of containers. *)
Fixpoint sil_concrete (fuel : nat) (a : abstract_t) : M tg_api_type_system_t :=
  flag ← gets types_flag;
  _ ← (if flag =? 0 then modify (set_types zero_types 1) else mret tt);
  match a_params a !! 0%nat, a_params a !! 1%nat with
  | Some p0, Some p1 =>
      let concrete := match fuel with O => fun _ => fail NoFuel | S fuel => sil_concrete fuel end in
      _ ← read_object concrete (buf_get_ui32_ (p_value p0)) (p_value p1);
      gets types
  | _, _ => fail Uninit
  end.

(** ** stk.c *)
Definition stk_drive (a : abstract_t) : M abstract_t :=
  s ← sel_serialize a; _ ← buf_dump_ s;
  s1 ← hdl_header s (a_type a); _ ← buf_dump_ s1;
  e ← enl_encrypt s1 (a_type a); _ ← buf_dump_ e;
  t ← trl_transport e; _ ← buf_dump_ t;
  nr ← net_drive t (a_stk_mode a); _ ← buf_dump_ nr;
  match a_stk_mode a with
  | SEND_RECEIVE =>
      tr ← trl_detransport nr;
      d ← enl_decrypt tr (a_type a);
      s1r ← hdl_deheader d (a_type a);
      sel_deserialize s1r
  | SEND => mret (Abstract (replicate 24 zero_param) 0 API SEND)
  end.

(** ** tgt.c *)
(** The value of a parameter is replaced: [m.f.value = v]. *)
Definition method_req_pq_init : M method_req_pq_t :=
  v ← buf_rand_ 16;
  mret (Req_pq 0x60469778 (set_value v (static_param TYPE_INT128)) zero_ResPQ).

Definition method_req_pq_drive (m : method_req_pq_t) : M method_req_pq_t :=
  a ← sil_abstract (of_req_pq m);
  a ← stk_drive (set_stk_mode SEND_RECEIVE a);
  t ← sil_concrete 2 a;
  mret (Req_pq (req_id__ m) (req_nonce m) (t_ResPQ t)).

(** The new nonce is thirty-two zeros. *)
Definition ctor_P_Q_inner_data_init (m1 : method_req_pq_t) (m2 : method_req_DH_params_t)
  : ctor_P_Q_inner_data_t :=
  let rand_array := set_msize 32 empty_ in
  P_Q_inner_data 0x83c95aec (rpq_pq (req_ResPQ m1)) (rdh_p m2) (rdh_q m2) (req_nonce m1)
    (rpq_server_nonce (req_ResPQ m1)) (Param 0 rand_array TYPE_INT256).

Definition ctor_P_Q_inner_data_drive (c : ctor_P_Q_inner_data_t) : M buf_t_ :=
  a ← sil_abstract (of_P_Q_inner_data c);
  s ← sel_serialize a;
  _ ← buf_dump_ s;
  mret s.

Definition method_req_DH_params_init (m1 : method_req_pq_t) : M method_req_DH_params_t :=
  let r := req_ResPQ m1 in
  swapped ← buf_swap_ (p_value (rpq_pq r));
  let pq := buf_get_ui64_ swapped in
  let '(p, q) := cmn_fact pq in
  let '(p, q) := if p <? q then (p, q) else (q, p) in
  pb ← buf_add_ui32_ p; pb ← buf_swap_ pb;
  qb ← buf_add_ui32_ q; qb ← buf_swap_ qb;
  let m := Req_DH_params 0xd712e4be (req_nonce m1) (rpq_server_nonce r)
    (set_value pb (static_param TYPE_STRING)) (set_value qb (static_param TYPE_STRING))
    (rpq_server_public_key_fingerprints r) (static_param TYPE_STRING) zero_DH_ok zero_P_Q in
  let c := ctor_P_Q_inner_data_init m1 m in
  d ← ctor_P_Q_inner_data_drive c;
  h ← hsh_sha1 d;
  let dwh := junk_buf in_req_DH_params in     (* buf_t_ dwh; *)
  dwh ← buf_cat_ dwh h;
  dwh ← buf_cat_ dwh d;
  let pad := set_msize (u32 (255 - msize dwh)) empty_ in
  dwh ← buf_cat_ dwh pad;
  e ← cry_rsa_e dwh;
  mret (Req_DH_params (rdh_id__ m) (rdh_nonce m) (rdh_server_nonce m) (rdh_p m) (rdh_q m)
          (rdh_public_key_fingerprint m) (Param 0 e TYPE_STRING) (rdh_Server_DH_Params m) c).

Definition method_req_DH_params_drive (m : method_req_DH_params_t) : M method_req_DH_params_t :=
  a ← sil_abstract (of_req_DH_params m);
  a ← stk_drive (set_stk_mode SEND_RECEIVE a);
  t ← sil_concrete 2 a;
  mret (Req_DH_params (rdh_id__ m) (rdh_nonce m) (rdh_server_nonce m) (rdh_p m) (rdh_q m)
          (rdh_public_key_fingerprint m) (rdh_encrypted_data m) (t_Server_DH_Params_ok t) (rdh_P_Q_inner_data m)).

Definition ctor_Server_DH_inner_data_init (m1 : method_req_pq_t) (m2 : method_req_DH_params_t)
  : M ctor_Server_DH_inner_data_t :=
  let nn := ctor_P_Q_inner_data_init m1 m2 in
  let new_nonce := p_value (pqi_new_nonce nn) in
  let server_nonce := p_value (rpq_server_nonce (req_ResPQ m1)) in
  ns ← buf_cat_ empty_ new_nonce; ns ← buf_cat_ ns server_nonce;
  ns_hash ← hsh_sha1 ns;
  sn ← buf_cat_ empty_ server_nonce; sn ← buf_cat_ sn new_nonce;
  sn_hash ← hsh_sha1 sn;
  sub012 ← buf_add_ (at_ sn_hash 0) 12;
  tmp_aes_key ← buf_cat_ empty_ ns_hash;
  tmp_aes_key ← buf_cat_ tmp_aes_key sub012;
  sub128 ← buf_add_ (at_ sn_hash 12) 8;
  nn ← buf_cat_ empty_ new_nonce; nn ← buf_cat_ nn new_nonce;
  nn_hash ← hsh_sha1 nn;
  sub04 ← buf_add_ (at_ new_nonce 0) 4;
  tmp_aes_iv ← buf_cat_ empty_ sub128;
  tmp_aes_iv ← buf_cat_ tmp_aes_iv nn_hash;
  tmp_aes_iv ← buf_cat_ tmp_aes_iv sub04;
  let e := p_value (dhp_encrypted_answer (rdh_Server_DH_Params m2)) in
  answer ← cry_aes_d e tmp_aes_key tmp_aes_iv;
  answer ← skip 20 answer;
  let answer := set_msize (u32 (msize answer - 8)) answer in
  let c := junk_DH_inner in                   (* ctor_Server_DH_inner_data_t c; *)
  mret (Server_DH_inner_data (sdh_id__ c) (sdh_nonce c) (sdh_server_nonce c) (sdh_g c) (sdh_dh_prime c)
          (sdh_g_a c) (sdh_server_time c) answer tmp_aes_key tmp_aes_iv).

Definition ctor_Server_DH_inner_data_drive (b : buf_t_) : M ctor_Server_DH_inner_data_t :=
  a ← sel_deserialize b;
  t ← sil_concrete 2 a;
  mret (t_Server_DH_inner_data t).

Definition ctor_Client_DH_Inner_Data_init (m1 : method_req_pq_t) (c1 : ctor_Server_DH_inner_data_t)
  : M ctor_Client_DH_Inner_Data_t :=
  retry ← buf_add_ui32_ 0;
  g ← buf_swap_ (p_value (sdh_g c1));
  b ← buf_rand_ 256;
  g_b ← cmn_pow_mod g b (p_value (sdh_dh_prime c1));
  mret (Client_DH_Inner_Data 0x6643b654 (sdh_nonce c1) (sdh_server_nonce c1) (Param 0 retry TYPE_LONG)
          (Param 0 g_b TYPE_STRING) b).

Definition ctor_Client_DH_Inner_Data_drive (c : ctor_Client_DH_Inner_Data_t) : M buf_t_ :=
  a ← sil_abstract (of_Client_DH_Inner_Data c); sel_serialize a.

Definition method_set_client_DH_params_init (m1 : method_req_pq_t) (m2 : method_req_DH_params_t)
  : M method_set_client_DH_params_t :=
  c ← ctor_Server_DH_inner_data_init m1 m2;
  c1 ← ctor_Server_DH_inner_data_drive (sdh_answer c);
  c2 ← ctor_Client_DH_Inner_Data_init m1 c1;
  data ← ctor_Client_DH_Inner_Data_drive c2;
  hash ← hsh_sha1 data;
  let pad_ := u32 (msize hash + msize data) in
  let pad_ := (16 - pad_ mod 16) mod 16 in
  rand ← buf_rand_ pad_;
  dwh ← buf_cat_ empty_ hash;
  dwh ← buf_cat_ dwh data;
  dwh ← buf_cat_ dwh rand;
  e ← cry_aes_e dwh (sdh_tmp_aes_key c) (sdh_tmp_aes_iv c);
  let server_nonce := rpq_server_nonce (req_ResPQ m1) in
  new_nonce_s ← buf_add_ (at_ (p_value (pqi_new_nonce (rdh_P_Q_inner_data m2))) 0) 8;
  server_nonce_s ← buf_add_ (at_ (p_value server_nonce) 0) 8;
  salt ← buf_xor_ new_nonce_s server_nonce_s;
  mret (Set_client_DH_params 0xf5045f1f (req_nonce m1) server_nonce (Param 0 e TYPE_STRING) zero_answer
          c1 c2 salt).

Definition method_set_client_DH_params_drive (m : method_set_client_DH_params_t)
  : M method_set_client_DH_params_t :=
  a ← sil_abstract (of_set_client_DH_params m);
  a ← stk_drive (set_stk_mode SEND_RECEIVE a);
  t ← sil_concrete 2 a;
  let ok := t_answer_ok t in
  same ← buf_cmp_ (p_value (ans_nonce ok)) (p_value (sdh_nonce (scd_Server_DH_inner_data m)));
  _ ← when (negb same) (log_error "different nonce's");
  same ← buf_cmp_ (p_value (ans_server_nonce ok)) (p_value (sdh_server_nonce (scd_Server_DH_inner_data m)));
  _ ← when (negb same) (log_error "different server nonce's");
  mret (Set_client_DH_params (scd_id__ m) (scd_nonce m) (scd_server_nonce m) (scd_encrypted_data m) ok
          (scd_Server_DH_inner_data m) (scd_Client_DH_Inner_Data m) (scd_salt m)).

Definition method_ping_init : M method_ping_t :=
  v ← buf_add_ui64_ 0;
  mret (Ping 0x7abe77ec (Param 0 v TYPE_LONG) zero_Pong).

Definition method_ping_drive (m : method_ping_t) : M method_ping_t :=
  a ← sil_abstract (of_ping m);
  a ← stk_drive (set_stk_mode SEND_RECEIVE a);
  t ← sil_concrete 2 a;
  let m := Ping (ping_id__ m) (ping_ping_id m) (t_Pong t) in
  same ← buf_cmp_ (p_value (ping_ping_id m)) (p_value (pong_ping_id (ping_Pong m)));
  _ ← when (negb same) (log_error "unexpected ping id");
  _ ← modify (fun w => set_types (types w) 0 w);
  mret m.

Definition method_msgs_ack_init (msg_id : buf_t_) : method_msgs_ack_t :=
  Msgs_ack_ 0x62d6b459 (set_value msg_id (static_param TYPE_VECTOR_LONG)).

Definition method_msgs_ack_drive (m : method_msgs_ack_t) : M method_msgs_ack_t :=
  a ← sil_abstract (of_msgs_ack m);
  _ ← stk_drive (set_stk_mode SEND a);
  mret m.

(** ** srl.c, scl.c, app.c *)
Definition srl_auth : M unit :=
  m ← method_req_pq_init;
  m ← method_req_pq_drive m;
  m1 ← method_req_DH_params_init m;
  m1 ← method_req_DH_params_drive m1;
  m2 ← method_set_client_DH_params_init m m1;
  m2 ← method_set_client_DH_params_drive m2;
  let g_a := p_value (sdh_g_a (scd_Server_DH_inner_data m2)) in
  let b := cdh_b (scd_Client_DH_Inner_Data m2) in
  let dh_prime := p_value (sdh_dh_prime (scd_Server_DH_inner_data m2)) in
  key ← cmn_pow_mod g_a b dh_prime;
  modify (set_shared key (scd_salt m2)).

Definition srl_ping : M buf_t_ :=
  m ← method_ping_init; _ ← method_ping_drive m; mret empty_.

(** [net_open] connects [sockfd] and announces the transport. *)
Definition scl_open (sockfd : Z) : M unit :=
  _ ← modify (set_rc_sockfd sockfd);
  _ ← modify (wrote [0xee; 0xee; 0xee; 0xee]);
  srl_auth.

Definition mtx_app_open (sockfd : Z) : M unit :=
  _ ← modify reset_shared_rc; scl_open sockfd.
End Handshake.
