(* ===== verification/MtxFacts.v ===== *)
(** * What the layers of mtx do

    Each layer run on buffers that hold given bytes; [drive_rfc] puts them
    together for an unencrypted request and its reply. *)
From stdpp Require Import strings.
From S2P Require Import Prelude TlBuf Serial HashCommon Sha1 Tg Packet Mtx MtxLayers.

Section LayerFacts.
Context `{Env} `{Frame} `{OpenSSL} `{BigNum} `{Factor} `{Peer}.

(** ** Library calls *)
Lemma mload_has b l : has b l -> mload (mdata b) (zlen l) = Ok l.
Proof.
  intros (Hm & Hs & Ht). unfold mload.
  pose proof (has_bound b l (conj Hm (conj Hs Ht))).
  replace (zlen (mdata b) <? zlen l) with false by lia. unfold zlen. by rewrite Nat2Z.id, Ht.
Qed.

Lemma mload_exact b l n : has b l -> zlen l = n -> mload (mdata b) n = Ok l.
Proof. intros Hb <-. by apply mload_has. Qed.

Lemma mstore_ok m bs : zlen bs <= zlen m -> mstore m bs = Ok (bs ++ drop (length bs) m).
Proof.
  intros Hl. unfold mstore. rewrite (copy_loop_ok _ _ _ _ 0); [| intros; lia | lia | lia | unfold zlen; lia | unfold zlen in *; lia].
  rewrite slice_all by (unfold zlen; lia). by rewrite Z.add_0_r, splice_0.
Qed.

Lemma has_stored (m bs : list Z) :
  zlen m = max_buf_size -> zlen bs <= max_buf_size -> has (Buf_ (bs ++ drop (length bs) m) (zlen bs)) bs.
Proof.
  intros Hm Hb. unfold has. cbn [mdata msize]. split_and!; [| done | apply take_app_length].
  rewrite zlen_app. unfold zlen in *. rewrite length_drop. lia.
Qed.

Lemma stored_mk bs : zlen bs <= max_buf_size -> Buf_ (bs ++ drop (length bs) (mdata empty_)) (zlen bs) = mk_ bs.
Proof. intros. unfold mk_, empty_. cbn [mdata]. by rewrite drop_replicate. Qed.

Definition sha (l : list Z) : list Z := Fips.SHA1 l.
Lemma zlen_sha l : zlen (sha l) = 20.
Proof. unfold sha, zlen. by rewrite Sha1.SHA1_length. Qed.
Lemma sha_bytes l : bytes_ok (sha l).
Proof. apply Sha1.SHA1_ok. Qed.

Lemma sha1_has b l s : has b l -> bytes_ok l -> exists r, hsh_sha1 b s = Ok (r, s) /\ has r (sha l).
Proof.
  intros Hb Hl. pose proof (has_bound _ _ Hb) as Hs. unfold hsh_sha1. rewrite (has_size _ _ Hb).
  pose proof (junk_size in_hsh) as Hj. exists (Buf_ (sha l ++ drop (length (sha l)) (mdata (junk_buf in_hsh))) 20).
  split; [| rewrite <- (zlen_sha l); apply has_stored; [done | by rewrite zlen_sha]].
  erewrite bind_eq by (apply lift_eq; by apply mload_has).
  erewrite bind_eq.
  2: { apply lift_eq, sha1_eq; [apply junk_sha1_size | apply junk_sha1_bytes | done |].
       unfold max_buf_size in *. lia. }
  erewrite bind_eq; [reflexivity |]. apply lift_eq, mstore_ok. fold (sha l). rewrite zlen_sha, Hj. done.
Qed.

Lemma zlen_bn2bin z n : 0 <= z < 256 ^ n -> 0 <= n -> zlen (bn2bin z) <= n.
Proof. apply bn2bin_short. Qed.

(** RSA with a 2048-bit modulus: the number is written from the left end of
    the block of 256 bytes. *)
Definition rsa_block (l : list Z) : list Z :=
  let y := bn2bin (mod_exp (be_num l) rsa_e rsa_n) in y ++ replicate (256 - length y) 0.

Definition rsa_key_ok : Prop := 0 <= rsa_e /\ 0 < rsa_n <= 256 ^ 256.

Lemma be_num_bound l : bytes_ok l -> 0 <= be_num l < 256 ^ zlen l.
Proof.
  intros Hl. unfold be_num. replace (zlen l) with (zlen (rev l)) by (unfold zlen; by rewrite length_rev).
  apply le_num_bound. by apply Forall_rev.
Qed.
Lemma be_num_nonneg l : bytes_ok l -> 0 <= be_num l.
Proof. intros Hl. by apply be_num_bound. Qed.

Lemma mod_exp_range g e m : 0 <= g -> 0 <= e -> 0 < m -> 0 <= mod_exp g e m < m.
Proof. intros. rewrite mod_exp_num by done. by apply Z.mod_pos_bound. Qed.

Lemma zlen_mod_exp l g e m n :
  bytes_ok l -> g = be_num l -> 0 <= e -> 0 < m <= 256 ^ n -> 0 <= n -> zlen (bn2bin (mod_exp g e m)) <= n.
Proof.
  intros Hl -> He Hm Hn. pose proof (mod_exp_range (be_num l) e m (be_num_nonneg l Hl) He) as Hr.
  apply bn2bin_short; lia.
Qed.

Lemma zlen_rsa_block l : rsa_key_ok -> bytes_ok l -> zlen (rsa_block l) = 256.
Proof.
  intros [He Hn] Hl. unfold rsa_block. rewrite zlen_app, zlen_replicate.
  pose proof (zlen_mod_exp l _ rsa_e rsa_n 256 Hl eq_refl He Hn ltac:(lia)). unfold zlen in *. lia.
Qed.

Lemma rsa_ok b l s :
  rsa_key_ok -> has b l -> bytes_ok l -> cry_rsa_e b s = Ok (mk_ (rsa_block l), s).
Proof.
  intros [He Hn] Hb Hl. pose proof (zlen_mod_exp l _ rsa_e rsa_n 256 Hl eq_refl He Hn ltac:(lia)) as Ly.
  unfold cry_rsa_e. rewrite (has_size _ _ Hb). set (y := bn2bin (mod_exp (be_num l) rsa_e rsa_n)) in *.
  assert (E0 : mstore (mdata empty_) (replicate (Z.to_nat 256) 0) = Ok (mdata empty_)) by reflexivity.
  assert (E1 : mstore (mdata empty_) y = Ok (y ++ drop (length y) (mdata empty_))).
  { apply mstore_ok. change (zlen (mdata empty_)) with 800. lia. }
  erewrite bind_eq; [| apply lift_eq; unfold rsa; cbn [msize set_msize mdata];
    rewrite Z.eqb_refl, orb_true_r; cbn [guard_res]; rewrite res_bind_ok, (mload_has b l), res_bind_ok by done;
    unfold rsax; replace (rsa_n =? 0) with false by lia; cbn [guard_res negb]; rewrite res_bind_ok;
    rewrite bin2bn_num by done; fold y; change (mdata (set_msize 256 empty_)) with (mdata empty_);
    rewrite E0, res_bind_ok; exact E1 ].
  unfold mret, st_ret, set_mdata, mk_. cbn [msize set_msize]. do 2 f_equal.
  fold (rsa_block l). rewrite (zlen_rsa_block l (conj He Hn) Hl). f_equal. unfold rsa_block. fold y.
  rewrite <- app_assoc, <- replicate_add, length_app, length_replicate. unfold empty_, max_buf_size. cbn [mdata].
  rewrite drop_replicate. do 2 f_equal. unfold zlen in Ly. lia.
Qed.

(** AES-IGE into a cleared buffer. *)
Lemma aes_run_ok f b k iv lb lk lv :
  has b lb -> has k lk -> has iv lv -> zlen lk = 32 -> zlen lv = 32 -> zlen lb mod 16 = 0 ->
  (forall x y m, zlen (f x y m) = zlen m) ->
  aes_run f b k iv = Ok (f lk lv lb ++ drop (length (f lk lv lb)) (mdata empty_)).
Proof.
  intros Hb Hk Hv Lk Lv Hm Hf. unfold aes_run.
  rewrite (mload_exact k lk), res_bind_ok, (has_size _ _ Hb), Hm by done. cbn [guard_res Z.eqb].
  rewrite res_bind_ok, (mload_exact iv lv), res_bind_ok, (mload_has b lb), res_bind_ok by done.
  apply mstore_ok. rewrite Hf. by apply (has_bound b).
Qed.

Lemma aes_result (f : list Z -> list Z -> list Z -> list Z) lk lv lb :
  (forall x y m, zlen (f x y m) = zlen m) -> zlen lb <= max_buf_size ->
  Buf_ (f lk lv lb ++ drop (length (f lk lv lb)) (mdata empty_)) (zlen lb) = mk_ (f lk lv lb).
Proof. intros Hf Hl. rewrite <- (Hf lk lv lb). apply stored_mk. by rewrite Hf. Qed.

Lemma aes_e_ok b k iv lb lk lv s :
  has b lb -> has k lk -> has iv lv -> zlen lk = 32 -> zlen lv = 32 -> zlen lb mod 16 = 0 -> 0 < zlen lb ->
  cry_aes_e b k iv s = Ok (mk_ (ige_encrypt lk lv lb), s).
Proof.
  intros Hb Hk Hv Lk Lv Hm Hpos. unfold cry_aes_e. pose proof (has_bound _ _ Hb).
  erewrite bind_eq by (apply lift_eq, (aes_run_ok _ b k iv lb lk lv); auto using ige_encrypt_length).
  rewrite (has_size _ _ Hb). erewrite bind_eq by (apply when_false; lia).
  by rewrite (aes_result ige_encrypt) by auto using ige_encrypt_length.
Qed.

Lemma aes_d_ok b k iv lb lk lv s :
  has b lb -> has k lk -> has iv lv -> zlen lk = 32 -> zlen lv = 32 -> zlen lb mod 16 = 0 -> 0 < zlen lb ->
  cry_aes_d b k iv s = Ok (mk_ (ige_decrypt lk lv lb), s).
Proof.
  intros Hb Hk Hv Lk Lv Hm Hpos. unfold cry_aes_d. pose proof (has_bound _ _ Hb).
  erewrite bind_eq by (apply lift_eq, (aes_run_ok _ b k iv lb lk lv); auto using ige_decrypt_length).
  rewrite (has_size _ _ Hb). erewrite bind_eq by (apply when_false; lia).
  by rewrite (aes_result ige_decrypt) by auto using ige_decrypt_length.
Qed.

(** Modular exponentiation; a result of zero is reported. *)
Definition pow_bytes (g e m : list Z) : list Z := bn2bin (mod_exp (be_num g) (be_num e) (be_num m)).

Lemma pow_mod_ok g e m lg le lm s :
  has g lg -> has e le -> has m lm -> bytes_ok lg -> bytes_ok le -> bytes_ok lm ->
  zlen le = 256 -> zlen lm = 256 -> 0 < be_num lm -> pow_bytes lg le lm <> [] ->
  exists r, cmn_pow_mod g e m s = Ok (r, s) /\ has r (pow_bytes lg le lm).
Proof.
  intros Hg He Hm Bg Be Bm Le Lm Hpos Hne. unfold cmn_pow_mod.
  rewrite (has_size _ _ Hg), (has_size _ _ He), (has_size _ _ Hm), Le, Lm. cbn [Z.eqb negb orb].
  erewrite bind_eq by reflexivity.
  set (y := mdata (junk_buf in_pow_mod)). assert (Ly : zlen y = 800) by apply junk_size.
  assert (Lp : zlen (pow_bytes lg le lm) <= 256).
  { unfold pow_bytes. apply (zlen_mod_exp lg); [done | done | by apply be_num_nonneg | | lia].
    split; [done |]. pose proof (be_num_bound lm Bm) as Hb. rewrite Lm in Hb. lia. }
  assert (E0 : mstore y (replicate (Z.to_nat 256) 0) = Ok (replicate 256 0 ++ drop 256 y)).
  { rewrite mstore_ok; [done |]. rewrite Ly. done. }
  set (y1 := replicate 256 0 ++ drop 256 y) in *.
  assert (Ly1 : zlen y1 = 800).
  { unfold y1. rewrite zlen_app, zlen_replicate. unfold zlen in *. rewrite length_drop. lia. }
  exists (Buf_ (pow_bytes lg le lm ++ drop (length (pow_bytes lg le lm)) y1) (zlen (pow_bytes lg le lm))).
  split; [| apply has_stored; unfold max_buf_size; lia].
  erewrite bind_eq.
  2: { apply lift_eq. unfold pow_mod.
       assert (Ey : exists x, mload y 256 = Ok x) by (unfold mload; rewrite Ly; by eexists). destruct Ey as [x Ey].
       fold y. rewrite Ey, res_bind_ok, (mload_has g lg), res_bind_ok, (mload_exact e le), res_bind_ok, (mload_exact m lm), res_bind_ok by done.
       fold y. rewrite !bin2bn_num by done. replace (be_num lm =? 0) with false by lia. cbn [guard_res negb].
       rewrite res_bind_ok. fold y. rewrite E0, res_bind_ok. fold (pow_bytes lg le lm). rewrite mstore_ok by lia. rewrite res_bind_ok. reflexivity. }
  cbn [fst snd]. erewrite bind_eq; [reflexivity |]. apply when_false.
  destruct (pow_bytes lg le lm); [done | rewrite zlen_cons; pose proof (zlen_nonneg l); lia].
Qed.

(** ** Transport, header, plain encryption layer *)
Definition frame (l : list Z) : list Z := le_bytes 4 (zlen l) ++ l.

Lemma dump_ok b l s : has b l -> 0 < zlen l -> buf_dump_ b s = Ok (tt, s).
Proof.
  intros Hb Hl. pose proof (has_bound _ _ Hb). unfold buf_dump_. rewrite (has_size _ _ Hb).
  replace (max_buf_size <? zlen l) with false by lia.
  erewrite bind_eq by (apply when_false; lia). reflexivity.
Qed.

Lemma transport_ok b l s :
  has b l -> zlen l + 4 <= max_buf_size -> trl_transport b s = Ok (mk_ (frame l), s).
Proof.
  intros Hb Hl. unfold trl_transport. rewrite (has_size _ _ Hb). erewrite bind_eq by apply add_ui32_ok.
  apply cat_mk; [done |]. rewrite zlen_le_bytes. lia.
Qed.

Lemma wrapped_sub a b : 0 <= b <= a -> a <= max_buf_size -> u32 (a - b) = a - b.
Proof. intros. apply u32_id. unfold is_u32, max_buf_size in *. lia. Qed.

Lemma cut_at b l k s :
  has b l -> 0 <= k <= zlen l -> buf_add_ (at_ b k) (u32 (zlen l - k)) s = Ok (mk_ (drop (Z.to_nat k) l), s).
Proof.
  intros Hb Hk. pose proof (has_bound _ _ Hb). rewrite wrapped_sub by lia. rewrite (add_at b l) by (done || lia).
  do 3 f_equal. unfold slice. apply take_ge. rewrite length_drop. unfold zlen. lia.
Qed.

Lemma cut_app b a l k s :
  has b (a ++ l) -> k = zlen a -> buf_add_ (at_ b k) (u32 (zlen (a ++ l) - k)) s = Ok (mk_ l, s).
Proof.
  intros Hb ->. rewrite (cut_at b (a ++ l)); [| done | rewrite zlen_app; pose proof (zlen_nonneg l); pose proof (zlen_nonneg a); lia].
  unfold zlen. by rewrite Nat2Z.id, drop_app_length.
Qed.

Lemma front_app b a l n s :
  has b (a ++ l) -> n = zlen a -> buf_add_ (at_ b 0) n s = Ok (mk_ a, s).
Proof.
  intros Hb ->. pose proof (zlen_nonneg l). pose proof (zlen_nonneg a).
  rewrite (add_at b (a ++ l)); [by rewrite slice_app_l | done | lia | lia | rewrite zlen_app; lia].
Qed.

(** The length word never counts itself. *)
Lemma detransport_ok b l s :
  has b (frame l) -> trl_detransport b s = Ok (mk_ l, reported "trl_transport: len mismatch" s).
Proof.
  intros Hb. pose proof (has_bound _ _ Hb) as Hl. unfold frame in *. rewrite zlen_app, zlen_le_bytes in Hl.
  pose proof (zlen_nonneg l). unfold trl_detransport. rewrite (has_size _ _ Hb).
  erewrite bind_eq by (apply when_false, Z.eqb_neq; rewrite zlen_app, zlen_le_bytes; lia).
  erewrite bind_eq by (eapply front_app; [exact Hb | by rewrite zlen_le_bytes]).
  erewrite bind_eq by (by apply add_all_).
  erewrite bind_eq by (apply cmp_has; [by apply has_mk | by apply has_mk | done]).
  rewrite bool_decide_false.
  - erewrite bind_eq by reflexivity. apply (cut_app _ (le_bytes 4 (zlen l))); [done | by rewrite zlen_le_bytes].
  - intros E. apply (f_equal le_num) in E. rewrite !le_num_bytes4, zlen_app, zlen_le_bytes in E.
    unfold max_buf_size in *. rewrite !u32_id in E by (unfold is_u32; lia). lia.
Qed.

Lemma header_rfc b l s :
  has b l -> zlen l + 12 <= max_buf_size ->
  hdl_header b RFC s =
    Ok (mk_ (le_bytes 8 (u64 (Z.land (utime (mticks s)) (-4))) ++ le_bytes 4 (zlen l) ++ l), tick s).
Proof.
  intros Hb Hl. unfold hdl_header, get_current_time. rewrite (has_size _ _ Hb). pose proof (zlen_nonneg l).
  erewrite bind_eq by reflexivity.
  erewrite bind_eq by (by apply add_all_).
  erewrite bind_eq by (apply cat_empty; by apply has_mk).
  erewrite bind_eq by (by apply add_all_).
  erewrite bind_eq by (apply cat_mk; [by apply has_mk | done]).
  rewrite (cat_mk _ b l); [by rewrite <- app_assoc | done |]. rewrite zlen_app, !zlen_le_bytes. lia.
Qed.

Lemma encrypt_rfc b l s :
  has b l -> zlen l + 8 <= max_buf_size -> enl_encrypt b RFC s = Ok (mk_ (le_bytes 8 0 ++ l), s).
Proof.
  intros Hb Hl. unfold enl_encrypt. erewrite bind_eq by (apply add_ok_; [done | done]).
  change (take (Z.to_nat 8) (at_ empty_ 0)) with (le_bytes 8 0). apply cat_mk; [done |]. rewrite zlen_le_bytes. lia.
Qed.

Lemma decrypt_rfc b l s :
  has b (le_bytes 8 0 ++ l) -> enl_decrypt b RFC s = Ok (mk_ l, s).
Proof.
  intros Hb. unfold enl_decrypt. rewrite (has_size _ _ Hb).
  erewrite bind_eq by (eapply front_app; [exact Hb | by rewrite zlen_le_bytes]).
  erewrite bind_eq by (rewrite (mk_zeros 8) by done; apply cmp_has; [by apply has_mk | by apply has_mk | done]).
  rewrite bool_decide_true by done. erewrite bind_eq by reflexivity.
  by apply (cut_app _ (le_bytes 8 0)).
Qed.

Lemma deheader_rfc b id l s :
  has b (le_bytes 8 id ++ le_bytes 4 (zlen l) ++ l) -> hdl_deheader b RFC s = Ok (mk_ l, s).
Proof.
  intros Hb. pose proof (has_bound _ _ Hb) as Hl. rewrite !zlen_app, !zlen_le_bytes in Hl. pose proof (zlen_nonneg l).
  unfold hdl_deheader. rewrite (has_size _ _ Hb).
  erewrite bind_eq by (apply cut_app; [exact Hb | by rewrite zlen_le_bytes]). cbv zeta.
  set (d := le_bytes 4 (zlen l) ++ l).
  assert (Ld : zlen d = 4 + zlen l) by (unfold d; by rewrite zlen_app, zlen_le_bytes).
  assert (Hd : has (mk_ d) d) by (apply has_mk; lia).
  assert (Eg : buf_get_ui32_ (mk_ d) = u32 (zlen l)).
  { rewrite (get_ui32_has _ d) by (done || lia). unfold d. by rewrite slice_app_l, le_num_bytes4 by (by rewrite zlen_le_bytes). }
  rewrite Eg.
  rewrite (has_size _ _ Hd), wrapped_sub by (unfold max_buf_size in *; lia). cbn [msize set_msize].
  rewrite u32_id by (unfold is_u32, max_buf_size in *; lia). replace (zlen d - 4) with (zlen l) by lia.
  erewrite bind_eq by (apply when_false; by rewrite Z.eqb_refl).
  change (at_ (set_msize (zlen l) (mk_ d)) 4) with (at_ (mk_ d) 4).
  rewrite (add_at _ d) by (done || lia). unfold d.
  by rewrite (slice_app_r (le_bytes 4 (zlen l))), slice_all by (by rewrite ?zlen_le_bytes).
Qed.

(** ** The socket *)
Lemma net_drive_ok b l s bs :
  has b l -> recv_reply (sent s ++ [l]) = Some bs ->
  exists r, net_drive b SEND_RECEIVE s = Ok (r, wrote l s) /\ has r bs.
Proof.
  intros Hb Hr. pose proof (recv_bound _ _ Hr) as Hl. pose proof (junk_size in_net_receive) as Hj.
  unfold net_drive, net_send, net_receive. eexists. split; [| by apply has_stored].
  erewrite bind_eq.
  2: { rewrite (has_size _ _ Hb). erewrite bind_eq by (apply lift_eq; by apply mload_has). reflexivity. }
  erewrite bind_eq by reflexivity. cbn [sent wrote]. rewrite Hr.
  erewrite bind_eq by (apply lift_eq, mstore_ok; lia). reflexivity.
Qed.

(** ** Strings *)
Lemma serialize_string_ok b l s :
  has b l -> zlen (tl_string l) <= max_buf_size -> sel_serialize_string b s = Ok (mk_ (tl_string l), s).
Proof.
  intros Hb Hl. unfold sel_serialize_string. rewrite (has_size _ _ Hb). rewrite zlen_tl_string in Hl.
  pose proof (zlen_nonneg l). pose proof (pad_of_bounds (zlen (tl_head (zlen l)) + zlen l)) as [Hp _].
  unfold tl_string. unfold tl_head in *. destruct (zlen l <=? 253).
  - erewrite bind_eq by (by apply add_ok_). change (take (Z.to_nat 1) (le_bytes 4 (zlen l))) with [u8 (zlen l)].
    change (zlen [u8 (zlen l)]) with 1 in *.
    erewrite bind_eq by (apply cat_mk; [done | change (zlen [u8 (zlen l)]) with 1; lia]).
    cbn [msize mk_]. rewrite zlen_app. change (zlen [u8 (zlen l)]) with 1. fold (pad_of (1 + zlen l)).
    rewrite mk_zeros by (unfold max_buf_size; lia).
    apply cat_mk; [apply has_mk; rewrite zlen_replicate; unfold max_buf_size; lia |].
    rewrite zlen_app, zlen_replicate. change (zlen [u8 (zlen l)]) with 1. lia.
  - erewrite bind_eq by (by apply add_all_).
    erewrite bind_eq by (by apply add_ok_). change (take (Z.to_nat 3) (le_bytes 4 (zlen l))) with (le_bytes 3 (zlen l)).
    erewrite bind_eq by (apply cat_mk; [by apply has_mk | done]).
    change ([254] ++ le_bytes 3 (zlen l)) with (254 :: le_bytes 3 (zlen l)).
    set (hd := 254 :: le_bytes 3 (zlen l)) in *. change (zlen hd) with 4 in *.
    erewrite bind_eq by (apply cat_mk; [done | change (zlen hd) with 4; lia]).
    cbn [msize mk_]. rewrite zlen_app. change (zlen hd) with 4. fold (pad_of (4 + zlen l)).
    destruct (Z.eqb_spec (pad_of (4 + zlen l)) 0) as [-> |].
    { cbn [Z.to_nat replicate]. by rewrite app_nil_r. }
    rewrite mk_zeros by (unfold max_buf_size; lia).
    apply cat_mk; [apply has_mk; rewrite zlen_replicate; unfold max_buf_size; lia |].
    rewrite zlen_app, zlen_replicate. change (zlen hd) with 4. lia.
Qed.

Lemma first_byte x l : le_num (take 1 (mdata (mk_ (x :: l)))) = x.
Proof. change (x + 256 * 0 = x). lia. Qed.

Lemma deserialize_string_ok l rest s :
  zlen (tl_string l ++ rest) <= max_buf_size ->
  sel_deserialize_string (mk_ (tl_string l ++ rest)) s = Ok (mk_ l, s).
Proof.
  intros Hl. set (w := tl_string l ++ rest) in *. assert (Hw : has (mk_ w) w) by (by apply has_mk).
  pose proof (zlen_nonneg l). pose proof (zlen_nonneg rest).
  destruct (tl_string_split l) as (pad & Es & Ep). pose proof (pad_of_bounds (zlen (tl_head (zlen l)) + zlen l)) as [Hp Hm].
  assert (Ew : w = tl_head (zlen l) ++ l ++ replicate pad 0 ++ rest).
  { unfold w. rewrite Es. by rewrite <- !app_assoc. }
  assert (Lw : zlen w = zlen (tl_head (zlen l)) + zlen l + Z.of_nat pad + zlen rest).
  { rewrite Ew, !zlen_app, zlen_replicate. lia. }
  assert (L4 : 4 <= zlen (tl_head (zlen l)) + zlen l + Z.of_nat pad).
  { rewrite Ep. pose proof (zlen_tl_head (zlen l)). modlia. }
  unfold sel_deserialize_string. erewrite bind_eq by (apply (add_at _ w); [done | lia | lia | lia]).
  clear Es. unfold tl_head in *. destruct (Z.leb_spec (zlen l) 253) as [Hs | Hs].
  - assert (E0 : le_num (take 1 (mdata (mk_ (slice w 0 4)))) = zlen l).
    { rewrite Ew. change (slice ([u8 (zlen l)] ++ l ++ replicate pad 0 ++ rest) 0 4)
        with (u8 (zlen l) :: take 3 (l ++ replicate pad 0 ++ rest)).
      rewrite first_byte. apply u8_id. unfold is_byte. lia. }
    rewrite E0. replace (zlen l <=? 253) with true by lia.
    change (zlen [u8 (zlen l)]) with 1 in *. rewrite (add_at _ w) by (done || lia).
    rewrite Ew, (slice_app_r [u8 (zlen l)]) by done. by rewrite (slice_app_l l) by done.
  - set (hd := 254 :: le_bytes 3 (zlen l)) in *. change (zlen hd) with 4 in *.
    assert (E0 : le_num (take 1 (mdata (mk_ (slice w 0 4)))) = 254) by (by rewrite Ew).
    rewrite E0. cbn [Z.leb Z.compare Pos.compare Pos.compare_cont].
    erewrite bind_eq by (by apply add_all_).
    erewrite bind_eq by (apply (add_at _ w); [done | lia | lia | lia]).
    erewrite bind_eq by (apply cmp_has; [by apply has_mk | apply has_mk; by rewrite Ew | by rewrite Ew]).
    rewrite bool_decide_true by (by rewrite Ew). erewrite bind_eq by reflexivity.
    erewrite bind_eq by (apply (add_at _ w); [done | lia | lia | lia]).
    assert (E3 : slice w 1 3 = le_bytes 3 (zlen l)) by (by rewrite Ew).
    rewrite E3, get_ui32_short by (by rewrite zlen_le_bytes). rewrite le_num_bytes.
    rewrite (has_size _ _ Hw). rewrite Z.mod_small by (unfold max_buf_size in *; change (256 ^ Z.of_nat 3) with 16777216; lia).
    set (r := l ++ replicate pad 0 ++ rest) in *.
    erewrite bind_eq by (rewrite Ew; apply (cut_app _ hd); [by rewrite <- Ew | done]).
    apply (front_app _ l (replicate pad 0 ++ rest)); [| done]. fold r. apply has_mk. unfold r.
    rewrite !zlen_app, zlen_replicate. lia.
Qed.

(** ** Parameters *)
(** How a parameter of a fixed size, and a string, is written. *)
Definition writes (p : param_t) (bs : list Z) : Prop :=
  forall s, sel_serialize_param p s = Ok (mk_ bs, s).

Lemma write_fixed i v ty l n :
  has v l -> zlen l = n ->
  (ty, n) ∈ [(TYPE_INT, 4); (TYPE_ID, 4); (TYPE_INT128, 16); (TYPE_INT256, 32); (TYPE_LONG, 8)] ->
  writes (Param i v ty) l.
Proof.
  intros Hv Hl Hin s. unfold sel_serialize_param. cbn [p_value p_type].
  assert (E : buf_add_ (at_ v 0) n s = Ok (mk_ l, s)).
  { rewrite (add_at v l) by (done || lia || (rewrite <- Hl; apply zlen_nonneg)). by rewrite slice_all by lia. }
  repeat (apply elem_of_cons in Hin as [[= -> ->] | Hin]; [exact E |]). by apply not_elem_of_nil in Hin.
Qed.

Lemma write_sized i v ty l :
  has v l -> ty = TYPE_VECTOR_LONG \/ ty = TYPE_QX -> writes (Param i v ty) l.
Proof.
  intros Hv Ht s. unfold sel_serialize_param. cbn [p_value p_type]. rewrite (has_size _ _ Hv).
  assert (E : buf_add_ (at_ v 0) (zlen l) s = Ok (mk_ l, s)).
  { rewrite (add_at v l) by (done || lia || apply zlen_nonneg). by rewrite slice_all. }
  by destruct Ht as [-> | ->].
Qed.

Lemma write_string i v l :
  has v l -> zlen (tl_string l) <= max_buf_size -> writes (Param i v TYPE_STRING) (tl_string l).
Proof. intros Hv Hl s. by apply serialize_string_ok. Qed.

Lemma serialize_loop_ok ps bss : Forall2 writes ps bss ->
  forall (front rest : list param_t) acc s,
  zlen acc + zlen (mjoin bss) <= max_buf_size ->
  serialize_loop (length ps) (length front) (front ++ ps ++ rest) (mk_ acc) s = Ok (mk_ (acc ++ mjoin bss), s).
Proof.
  induction 1 as [|p bs ps bss Hp Hps IH]; intros front rest acc s Hl; cbn [length serialize_loop].
  { cbn. by rewrite app_nil_r. }
  change (mjoin (bs :: bss)) with (bs ++ mjoin bss) in *. rewrite zlen_app in Hl.
  pose proof (zlen_nonneg (mjoin bss)). pose proof (zlen_nonneg acc).
  rewrite (list_lookup_middle front (ps ++ rest) p) by done.
  rewrite (bind_eq _ _ _ _ _ (Hp s)). erewrite bind_eq by (apply cat_mk; [apply has_mk; lia | lia]).
  specialize (IH (front ++ [p]) rest (acc ++ bs) s). rewrite length_app in IH. cbn [length] in IH.
  rewrite <- (app_assoc front) in IH. replace (S (length front)) with (length front + 1)%nat by lia.
  cbn [app] in *. rewrite IH by (rewrite zlen_app; lia). by rewrite <- app_assoc.
Qed.

Lemma sel_serialize_ok a ps rest bss s :
  a_params a = ps ++ rest -> a_size a = zlen ps -> Forall2 writes ps bss -> zlen (mjoin bss) <= max_buf_size ->
  sel_serialize a s = Ok (mk_ (mjoin bss), s).
Proof.
  intros Hp Hs Hw Hl. unfold sel_serialize. rewrite Hp, Hs. unfold zlen at 1. rewrite Nat2Z.id.
  exact (serialize_loop_ok ps bss Hw [] rest [] s Hl).
Qed.

(** [a] was read from [id] followed by [body]. *)
Definition opened (id : Z) (body : list Z) (a : abstract_t) : Prop :=
  exists p0 p1, a_params a !! 0%nat = Some p0 /\ a_params a !! 1%nat = Some p1 /\
    p_value p0 = mk_ (le_bytes 4 id) /\ p_value p1 = mk_ body.

Lemma sel_deserialize_ok b id body s :
  has b (le_bytes 4 id ++ body) -> is_u32 id -> exists a, sel_deserialize b s = Ok (a, s) /\ opened id body a.
Proof.
  intros Hb Hid. unfold sel_deserialize. pose proof (zlen_nonneg body).
  assert (Ei : buf_get_ui32_ b = id).
  { rewrite (get_ui32_has _ _ Hb) by (rewrite zlen_app, zlen_le_bytes; lia).
    rewrite slice_app_l by (by rewrite zlen_le_bytes). by rewrite le_num_bytes4, u32_id. }
  rewrite Ei, (has_size _ _ Hb). eexists. split.
  - erewrite bind_eq by apply add_ui32_ok. erewrite bind_eq by (by apply (cut_app _ (le_bytes 4 id))). reflexivity.
  - eexists _, _. split_and!; reflexivity.
Qed.

(** Reading one parameter. *)
Definition reads (ty : tl_type_t) (b : buf_t_) (l : list Z) : Prop :=
  forall i s, sel_deserialize_param (Param i b ty) s = Ok (Param junk_id (mk_ l) ty, s).

Lemma read_fixed ty n l rest :
  (ty, n) ∈ [(TYPE_INT, 4); (TYPE_ID, 4); (TYPE_INT128, 16); (TYPE_LONG, 8)] ->
  zlen l = n -> zlen (l ++ rest) <= max_buf_size -> reads ty (mk_ (l ++ rest)) l.
Proof.
  intros Hin Hl Hs i s. unfold sel_deserialize_param, deserialize_with. cbn [p_value p_type].
  assert (E : buf_add_ (at_ (mk_ (l ++ rest)) 0) n s = Ok (mk_ l, s)).
  { by apply (front_app _ l rest); [apply has_mk |]. }
  repeat (apply elem_of_cons in Hin as [[= -> ->] | Hin]; [by rewrite (bind_eq _ _ _ _ _ E) |]).
  by apply not_elem_of_nil in Hin.
Qed.

Lemma read_string l rest :
  zlen (tl_string l ++ rest) <= max_buf_size -> reads TYPE_STRING (mk_ (tl_string l ++ rest)) l.
Proof.
  intros Hs i s. unfold sel_deserialize_param, deserialize_with. cbn [p_value p_type].
  by rewrite (bind_eq _ _ _ _ _ (deserialize_string_ok l rest s Hs)).
Qed.

(** A vector of fingerprints: the first one is read, as many times as there
    are fingerprints; more than twelve overflow the array. *)
Lemma fingerprint_loop n : forall i l rest d s,
  zlen l = 8 -> zlen (l ++ rest) <= max_buf_size -> 0 <= i -> (0 < n)%nat -> i + Z.of_nat n <= 12 ->
  vector_loop n i _id_resPQ (mk_ (l ++ rest)) d s = Ok (mk_ l, s).
Proof.
  induction n as [|n IH]; intros i l rest d s Hl Hs Hi Hn Hi2; [lia |].
  cbn [vector_loop]. unfold max_param_size. replace (12 <=? i) with false by lia. rewrite Z.eqb_refl.
  unfold deserialize_with at 1. cbn [p_value p_type].
  assert (E : buf_add_ (at_ (mk_ (l ++ rest)) 0) 8 s = Ok (mk_ l, s)).
  { by apply (front_app _ l rest); [apply has_mk |]. }
  erewrite bind_eq by (rewrite (bind_eq _ _ _ _ _ E); reflexivity). cbn [p_value].
  destruct n; [done |]. apply IH; (done || lia).
Qed.

Lemma fingerprint_overflow n : forall i l rest d s,
  zlen l = 8 -> zlen (l ++ rest) <= max_buf_size -> 0 <= i <= 12 -> 12 < i + Z.of_nat n ->
  vector_loop n i _id_resPQ (mk_ (l ++ rest)) d s = Err OutOfBounds.
Proof.
  induction n as [|n IH]; intros i l rest d s Hl Hs Hi Hi2; [lia |].
  cbn [vector_loop]. unfold max_param_size. rewrite Z.eqb_refl.
  destruct (Z.leb_spec 12 i); [done |].
  unfold deserialize_with at 1. cbn [p_value p_type].
  assert (E : buf_add_ (at_ (mk_ (l ++ rest)) 0) 8 s = Ok (mk_ l, s)).
  { by apply (front_app _ l rest); [apply has_mk |]. }
  erewrite bind_eq by (rewrite (bind_eq _ _ _ _ _ E); reflexivity). cbn [p_value].
  apply IH; (done || lia).
Qed.

(** The bytes of a vector of longs. *)
Definition tl_vector (l : list Z) : list Z := le_bytes 4 _id_Vector ++ le_bytes 4 (zlen l / 8) ++ l.

Lemma vector_head l i ty s :
  zlen (tl_vector l) <= max_buf_size -> 8 <= zlen l ->
  sel_deserialize_vector (Param i (mk_ (tl_vector l)) ty) s =
  vector_loop (Z.to_nat (zlen l / 8)) 0 i (mk_ l) (junk_buf in_vector) s.
Proof.
  intros Hs Hl. set (w := le_bytes 4 (zlen l / 8) ++ l).
  assert (Lw : zlen w = 4 + zlen l) by (unfold w; by rewrite zlen_app, zlen_le_bytes).
  assert (Lt : zlen (tl_vector l) = 8 + zlen l) by (unfold tl_vector; rewrite !zlen_app, !zlen_le_bytes; lia).
  unfold sel_deserialize_vector. cbn [p_value p_id].
  assert (E1 : buf_get_ui32_ (mk_ (tl_vector l)) = _id_Vector).
  { rewrite (get_ui32_has _ (tl_vector l)) by (by apply has_mk || lia). unfold tl_vector.
    by rewrite slice_app_l by (by rewrite zlen_le_bytes). }
  assert (E2 : buf_get_ui32_ (mk_ w) = zlen l / 8).
  { rewrite (get_ui32_has _ w) by (by (apply has_mk; lia) || lia). unfold w.
    rewrite slice_app_l by (by rewrite zlen_le_bytes). rewrite le_num_bytes4. apply u32_id.
    unfold is_u32, max_buf_size in *. modlia. }
  rewrite E1. erewrite bind_eq by (by apply when_false).
  change (msize (mk_ (tl_vector l))) with (zlen (tl_vector l)).
  erewrite bind_eq by (unfold tl_vector; apply (cut_app _ (le_bytes 4 _id_Vector)); [by apply has_mk | done]).
  fold w. rewrite E2. replace (zlen l / 8 =? 0) with false by modlia.
  change (msize (mk_ w)) with (zlen w).
  erewrite bind_eq by (unfold w; apply (cut_app _ (le_bytes 4 (zlen l / 8))); [apply has_mk; fold w; lia | done]).
  reflexivity.
Qed.
End LayerFacts.
