(* ===== verification/HandshakeFacts.v ===== *)
(** * The key exchange, end to end

    The bytes of the six messages, the round trip of one request, and the
    whole of [srl_auth] against a server that answers. *)
From stdpp Require Import strings.
From S2P Require Import Prelude TlBuf Serial HashCommon Sha1 Tg Packet Mtx MtxLayers Handshake MtxFacts.

Section HandshakeFacts.
Context `{Env} `{Frame} `{OpenSSL} `{BigNum} `{Factor} `{Peer}.

(** The [k]-th message id and the packet that carries [body] under it. *)
Definition clock (k : nat) : Z := u64 (Z.land (utime k) (-4)).
Definition packet (id : Z) (body : list Z) : list Z := frame (plain_packet id body).
Definition mismatch : string := "trl_transport: len mismatch".

(** The state after a round trip that sent [body]. *)
Definition trip (body : list Z) (s : mtx_t) : mtx_t :=
  reported mismatch (wrote (packet (clock (mticks s)) body) (tick s)).

Lemma zlen_plain_packet id body : zlen (plain_packet id body) = 20 + zlen body.
Proof. unfold plain_packet. rewrite !zlen_app, !zlen_le_bytes. lia. Qed.
Lemma zlen_packet id body : zlen (packet id body) = 24 + zlen body.
Proof. unfold packet, frame. rewrite zlen_app, zlen_le_bytes, zlen_plain_packet. lia. Qed.

(** ** One request and its reply *)
Lemma drive_rfc a body s rid id' body' :
  sel_serialize a s = Ok (mk_ body, s) -> a_type a = RFC -> a_stk_mode a = SEND_RECEIVE ->
  0 < zlen body -> zlen body + 24 <= max_buf_size -> is_u32 id' ->
  recv_reply (sent s ++ [packet (clock (mticks s)) body]) = Some (packet rid (le_bytes 4 id' ++ body')) ->
  exists a', stk_drive a s = Ok (a', trip body s) /\ opened id' body' a'.
Proof.
  intros Hs Ht Hm Hp Hl Hid Hr. set (rb := le_bytes 4 id' ++ body') in *.
  set (hd := le_bytes 8 (clock (mticks s)) ++ le_bytes 4 (zlen body) ++ body).
  assert (Lh : zlen hd = 12 + zlen body) by (unfold hd; rewrite !zlen_app, !zlen_le_bytes; lia).
  set (pl := le_bytes 8 0 ++ hd). assert (Lp : zlen pl = 20 + zlen body) by (unfold pl; rewrite zlen_app, zlen_le_bytes; lia).
  set (fr := packet (clock (mticks s)) body) in *.
  assert (Ef : fr = frame pl) by done. assert (Lf : zlen fr = 24 + zlen body) by apply zlen_packet.
  assert (Hb : has (mk_ body) body) by (apply has_mk; lia).
  assert (Hh : has (mk_ hd) hd) by (apply has_mk; lia).
  assert (Hpl : has (mk_ pl) pl) by (apply has_mk; lia).
  assert (Hf : has (mk_ fr) fr) by (apply has_mk; lia).
  pose proof (zlen_packet rid rb) as Lr. pose proof (recv_bound _ _ Hr) as Lr'. pose proof (zlen_nonneg rb).
  destruct (net_drive_ok (mk_ fr) fr (tick s) _ Hf Hr) as (nr & En & Hnr).
  destruct (sel_deserialize_ok (mk_ rb) id' body' (trip body s)) as (a' & Ea & Ho); [apply (has_mk rb); lia | done |].
  exists a'. split; [| done]. unfold stk_drive. rewrite Ht, Hm.
  rewrite (bind_eq _ _ _ _ _ Hs), (bind_eq _ _ _ _ _ (dump_ok _ _ s Hb Hp)).
  erewrite bind_eq by (apply header_rfc; [exact Hb | lia]). fold (clock (mticks s)) hd.
  erewrite bind_eq by (eapply dump_ok; [exact Hh | lia]).
  erewrite bind_eq by (apply encrypt_rfc; [exact Hh | lia]). fold pl.
  erewrite bind_eq by (eapply dump_ok; [exact Hpl | lia]).
  erewrite bind_eq by (apply transport_ok; [exact Hpl | lia]). rewrite <- Ef.
  erewrite bind_eq by (eapply dump_ok; [exact Hf | lia]).
  rewrite (bind_eq _ _ _ _ _ En). erewrite bind_eq by (eapply dump_ok; [exact Hnr | lia]).
  unfold packet in Hnr. erewrite bind_eq by (apply detransport_ok; exact Hnr).
  assert (Lq : zlen (plain_packet rid rb) <= max_buf_size).
  { rewrite zlen_plain_packet. lia. }
  erewrite bind_eq by (apply decrypt_rfc, has_mk; exact Lq).
  erewrite bind_eq by (apply (deheader_rfc _ rid); apply has_mk;
    rewrite !zlen_app, !zlen_le_bytes; lia).
  exact Ea.
Qed.

(** A request with the parameters [ps], written as [bss]. *)
Definition request (id : Z) (bss : list (list Z)) : list Z := le_bytes 4 id ++ mjoin bss.

Lemma zlen_request id bss : zlen (request id bss) = 4 + foldr (fun b n => zlen b + n) 0 bss.
Proof.
  unfold request. rewrite zlen_app, zlen_le_bytes. f_equal.
  induction bss as [|b bss IH]; [done |]. change (mjoin (b :: bss)) with (b ++ mjoin bss). by rewrite zlen_app, IH.
Qed.

Lemma abstract_writes ty id ps bss s :
  Forall2 writes ps bss -> exists a, abstract_of ty id ps s = Ok (a, s) /\ a_type a = ty /\
    forall m s', zlen (request id bss) <= max_buf_size ->
      sel_serialize (set_stk_mode m a) s' = Ok (mk_ (request id bss), s') /\
      sel_serialize a s' = Ok (mk_ (request id bss), s').
Proof.
  intros Hw. eexists. split.
  { unfold abstract_of. erewrite bind_eq by apply add_ui32_ok. reflexivity. }
  split; [done |]. intros m s' Hl.
  assert (Hw' : Forall2 writes (Param junk_id (mk_ (le_bytes 4 id)) TYPE_ID :: ps) (le_bytes 4 id :: bss)).
  { constructor; [| done]. eapply write_fixed; [by apply has_mk | done |]. set_solver. }
  change (request id bss) with (mjoin (le_bytes 4 id :: bss)) in *.
  split; (eapply sel_serialize_ok; [reflexivity | reflexivity | exact Hw' | exact Hl]).
Qed.

Lemma round_trip id ps bss s rid id' body' :
  Forall2 writes ps bss -> zlen (request id bss) + 24 <= max_buf_size -> is_u32 id' ->
  recv_reply (sent s ++ [packet (clock (mticks s)) (request id bss)]) = Some (packet rid (le_bytes 4 id' ++ body')) ->
  exists a a', abstract_of RFC id ps s = Ok (a, s) /\
    stk_drive (set_stk_mode SEND_RECEIVE a) s = Ok (a', trip (request id bss) s) /\ opened id' body' a'.
Proof.
  intros Hw Hl Hid Hr. destruct (abstract_writes RFC id ps bss s Hw) as (a & E & Ht & Hs).
  destruct (drive_rfc (set_stk_mode SEND_RECEIVE a) (request id bss) s rid id' body') as (a' & Ed & Ho); try done.
  - apply (Hs SEND_RECEIVE s ltac:(lia)).
  - by exists a, a'.
Qed.

(** ** Reading the replies *)
Definition got (l : list Z) (ty : tl_type_t) : param_t := Param junk_id (mk_ l) ty.

Lemma field_ok ty b l id s : reads ty b l -> field id ty b s = Ok (got l ty, s).
Proof. intros Hr. apply Hr. Qed.

Lemma skip_ok n l rest s :
  zlen (l ++ rest) <= max_buf_size -> zlen l = n -> skip n (mk_ (l ++ rest)) s = Ok (mk_ rest, s).
Proof. intros Hl <-. unfold skip. apply cut_app; [by apply has_mk | done]. Qed.

(** The code skips four bytes more than the string has: the length word and
    the padding of the strings it expects. *)
Lemma skip_string_ok l rest ty s :
  zlen (tl_string l ++ rest) <= max_buf_size -> zlen (tl_string l) = zlen l + 4 ->
  skip_string (got l ty) (mk_ (tl_string l ++ rest)) s = Ok (mk_ rest, s).
Proof.
  intros Hl He. pose proof (zlen_nonneg l). pose proof (zlen_nonneg rest). rewrite zlen_app in Hl.
  unfold skip_string. cbn [p_value got msize mk_].
  rewrite (u32_id (zlen l + 4)) by (unfold is_u32, max_buf_size in *; lia).
  apply (cut_app _ (tl_string l)); [| done]. apply has_mk. rewrite zlen_app. lia.
Qed.

(** The global [t] and its flag when [sil_concrete] has looked at them. *)
Definition fresh_types (s : mtx_t) : tg_api_type_system_t := if types_flag s =? 0 then zero_types else types s.
Definition fresh_flag (s : mtx_t) : Z := if types_flag s =? 0 then 1 else types_flag s.

Lemma concrete_with fuel id body a s :
  opened id body a -> is_u32 id ->
  sil_concrete fuel a s =
    (_ ← read_object (match fuel with O => fun _ => fail NoFuel | S fuel => sil_concrete fuel end) id (mk_ body);
     gets types : M _) (set_types (fresh_types s) (fresh_flag s) s).
Proof.
  intros (p0 & p1 & E0 & E1 & V0 & V1) Hid.
  assert (Ei : buf_get_ui32_ (p_value p0) = id).
  { rewrite V0, (get_ui32_has _ (le_bytes 4 id)) by (by apply has_mk || done).
    rewrite slice_all, le_num_bytes4 by done. by apply u32_id. }
  unfold fresh_types, fresh_flag.
  destruct fuel; cbn [sil_concrete]; rewrite E0, E1, Ei, V1; (erewrite bind_eq by reflexivity);
    (destruct (types_flag s =? 0) eqn:Ef; (erewrite bind_eq by reflexivity); [reflexivity | by destruct s]).
Qed.

(** [sil_concrete] reads the object and returns the types it updated. *)
Lemma concrete_ok fuel id body a s f :
  opened id body a -> is_u32 id ->
  (forall s c, read_object c id (mk_ body) s = Ok (tt, set_types (f (types s)) (types_flag s) s)) ->
  sil_concrete fuel a s = Ok (f (fresh_types s), set_types (f (fresh_types s)) (fresh_flag s) s).
Proof. intros Ho Hid Hr. rewrite (concrete_with fuel id body a s Ho Hid). by rewrite (bind_eq _ _ _ _ _ (Hr _ _)). Qed.

(** An object that cannot be read ends the program. *)
Lemma concrete_err fuel id body a s e :
  opened id body a -> is_u32 id -> (forall s c, read_object c id (mk_ body) s = Err e) ->
  sil_concrete fuel a s = Err e.
Proof. intros Ho Hid Hr. rewrite (concrete_with fuel id body a s Ho Hid). eapply bind_err. apply Hr. Qed.

(** An unknown object leaves the types as they are. *)
Lemma concrete_unknown fuel id body a s :
  opened id body a -> is_u32 id ->
  (forall s c, read_object c id (mk_ body) s = Ok (tt, reported "unknown id" s)) ->
  sil_concrete fuel a s = Ok (fresh_types s, reported "unknown id" (set_types (fresh_types s) (fresh_flag s) s)).
Proof. intros Ho Hid Hr. rewrite (concrete_with fuel id body a s Ho Hid). by rewrite (bind_eq _ _ _ _ _ (Hr _ _)). Qed.

Lemma types_put t :
  (forall x, t_ResPQ (put_ResPQ x t) = x) /\
  (forall x, t_Server_DH_Params_ok (put_Server_DH_Params_ok x t) = x) /\
  (forall x, t_Server_DH_inner_data (put_Server_DH_inner_data x t) = x) /\
  (forall x, t_answer_ok (put_answer_ok x t) = x).
Proof. by destruct t. Qed.

(** Reading from the front of a buffer that holds [l ++ rest]. *)
Ltac rfield L := eapply st_bind_step; [apply field_ok; L | cbv beta iota].
Ltac rskip := eapply st_bind_step; [by apply skip_ok | cbv beta iota].
Ltac fixed n := apply (read_fixed _ n); [set_solver | done | done].

Section Replies.
Variables nonce sn : list Z.
Hypotheses (Ln : zlen nonce = 16) (Ls : zlen sn = 16).

Lemma read_two_nonces (k : param_t -> param_t -> buf_t_ -> M unit) id rest s r :
  zlen (nonce ++ sn ++ rest) <= max_buf_size ->
  k (got nonce TYPE_INT128) (got sn TYPE_INT128) (mk_ rest) s = r ->
  (n ← field id TYPE_INT128 (mk_ (nonce ++ sn ++ rest)); b ← skip 16 (mk_ (nonce ++ sn ++ rest));
   m ← field id TYPE_INT128 b; c ← skip 16 b; k n m c) s = r.
Proof.
  intros Hl E. assert (zlen (sn ++ rest) <= max_buf_size) by (rewrite zlen_app in Hl; lia).
  rfield ltac:(fixed 16). rskip. rfield ltac:(fixed 16). rskip. exact E.
Qed.

Lemma resPQ_read pq fps s c :
  zlen pq = 8 -> 8 <= zlen fps <= 96 -> zlen fps mod 8 = 0 ->
  read_object c _id_resPQ (mk_ (nonce ++ sn ++ tl_string pq ++ tl_vector fps)) s =
  Ok (tt, set_types (put_ResPQ (ResPQ _id_resPQ (got nonce TYPE_INT128) (got sn TYPE_INT128)
            (got pq TYPE_STRING) (got (take 8 fps) TYPE_VECTOR_LONG)) (types s)) (types_flag s) s).
Proof.
  intros Lp Lf Hm.
  assert (Lt : zlen (tl_string pq) = 12).
  { rewrite zlen_tl_string, Lp. reflexivity. }
  assert (Lv : zlen (tl_vector fps) = 8 + zlen fps) by (unfold tl_vector; rewrite !zlen_app, !zlen_le_bytes; lia).
  assert (Lw : zlen (tl_string pq ++ tl_vector fps) <= max_buf_size) by (rewrite zlen_app; unfold max_buf_size; lia).
  unfold read_object. rewrite Z.eqb_refl. unfold read_resPQ.
  apply read_two_nonces; [rewrite !zlen_app; unfold max_buf_size; lia |].
  rfield ltac:(by apply read_string).
  eapply st_bind_step; [apply skip_string_ok; [done | lia] | cbv beta iota].
  eapply st_bind_step; [| reflexivity].
  unfold field, sel_deserialize_param, deserialize_with. cbn [p_type p_value].
  erewrite bind_eq; [reflexivity |]. rewrite vector_head; [| rewrite Lv; unfold max_buf_size; lia | lia].
  rewrite <- (take_drop 8 fps) at 2.
  apply fingerprint_loop; [unfold zlen in *; rewrite length_take; lia | rewrite take_drop; unfold max_buf_size; lia | lia | modlia | modlia].
Qed.

Lemma DH_params_read answer s c :
  zlen (tl_string answer) + 32 <= max_buf_size ->
  read_object c _id_Server_DH_Params_ok (mk_ (nonce ++ sn ++ tl_string answer)) s =
  Ok (tt, set_types (put_Server_DH_Params_ok (Server_DH_Params_ok _id_Server_DH_Params_ok (got nonce TYPE_INT128)
        (got sn TYPE_INT128) (got answer TYPE_STRING)) (types s)) (types_flag s) s).
Proof.
  intros Hl. unfold read_object. rewrite Z.eqb_refl. change (_id_Server_DH_Params_ok =? _id_resPQ) with false.
  unfold read_Server_DH_Params_ok. apply read_two_nonces; [rewrite !zlen_app; lia |].
  eapply st_bind_step; [apply field_ok; rewrite <- (app_nil_r (tl_string answer)); apply read_string;
    rewrite app_nil_r; lia | reflexivity].
Qed.

Lemma zlen_long_string l : 253 < zlen l -> zlen l mod 4 = 0 -> zlen (tl_string l) = zlen l + 4.
Proof.
  intros Hl Hm. rewrite zlen_tl_string. unfold tl_head. replace (zlen l <=? 253) with false by lia.
  change (zlen (254 :: le_bytes 3 (zlen l))) with 4. unfold pad_of. modlia.
Qed.

Definition inner_data (g : Z) (prime g_a : list Z) (time : Z) : ctor_Server_DH_inner_data_t :=
  Server_DH_inner_data _id_server_DH_inner_data (got nonce TYPE_INT128) (got sn TYPE_INT128)
    (got (le_bytes 4 g) TYPE_INT) (got prime TYPE_STRING) (got g_a TYPE_STRING) (got (le_bytes 4 time) TYPE_INT)
    (sdh_answer junk_DH_inner) (sdh_tmp_aes_key junk_DH_inner) (sdh_tmp_aes_iv junk_DH_inner).

Lemma DH_inner_read g prime g_a time s c :
  zlen prime = 256 -> zlen g_a = 256 ->
  read_object c _id_server_DH_inner_data
    (mk_ (nonce ++ sn ++ le_bytes 4 g ++ tl_string prime ++ tl_string g_a ++ le_bytes 4 time)) s =
  Ok (tt, set_types (put_Server_DH_inner_data (inner_data g prime g_a time) (types s)) (types_flag s) s).
Proof.
  intros Lp La.
  assert (Sp : zlen (tl_string prime) = 260) by (rewrite zlen_long_string; lia || (by rewrite Lp)).
  assert (Sa : zlen (tl_string g_a) = 260) by (rewrite zlen_long_string; lia || (by rewrite La)).
  unfold read_object. rewrite Z.eqb_refl. change (_id_server_DH_inner_data =? _id_resPQ) with false.
  change (_id_server_DH_inner_data =? _id_Server_DH_Params_ok) with false.
  unfold read_server_DH_inner_data.
  apply read_two_nonces; [rewrite !zlen_app, !zlen_le_bytes; unfold max_buf_size; lia |].
  assert (L1 : zlen (le_bytes 4 g ++ tl_string prime ++ tl_string g_a ++ le_bytes 4 time) <= max_buf_size)
    by (rewrite !zlen_app, !zlen_le_bytes; unfold max_buf_size; lia).
  assert (L2 : zlen (tl_string prime ++ tl_string g_a ++ le_bytes 4 time) <= max_buf_size)
    by (rewrite !zlen_app, !zlen_le_bytes; unfold max_buf_size; lia).
  assert (L3 : zlen (tl_string g_a ++ le_bytes 4 time) <= max_buf_size)
    by (rewrite !zlen_app, !zlen_le_bytes; unfold max_buf_size; lia).
  rfield ltac:(fixed 4). rskip.
  rfield ltac:(by apply read_string).
  eapply st_bind_step; [apply skip_string_ok; [done | lia] | cbv beta iota].
  rfield ltac:(by apply read_string).
  eapply st_bind_step; [apply skip_string_ok; [done | lia] | cbv beta iota].
  eapply st_bind_step; [apply field_ok; rewrite <- (app_nil_r (le_bytes 4 time)); fixed 4 | reflexivity].
Qed.

Lemma dh_gen_read hash s c :
  zlen hash = 16 ->
  read_object c _id_dh_gen_ok (mk_ (nonce ++ sn ++ hash)) s =
  Ok (tt, set_types (put_answer_ok (Dh_gen_ok _id_dh_gen_ok (got nonce TYPE_INT128) (got sn TYPE_INT128)
        (got hash TYPE_INT128)) (types s)) (types_flag s) s).
Proof.
  intros Lh. unfold read_object. rewrite Z.eqb_refl. change (_id_dh_gen_ok =? _id_resPQ) with false.
  change (_id_dh_gen_ok =? _id_Server_DH_Params_ok) with false.
  change (_id_dh_gen_ok =? _id_server_DH_inner_data) with false.
  unfold read_dh_gen_ok. apply read_two_nonces; [rewrite !zlen_app; unfold max_buf_size; lia |].
  eapply st_bind_step; [apply field_ok; rewrite <- (app_nil_r hash) at 1; apply (read_fixed _ 16);
    [set_solver | done | rewrite app_nil_r; unfold max_buf_size; lia] | reflexivity].
Qed.
End Replies.
End HandshakeFacts.
