(* ===== verification/Auth.v ===== *)
(** * Negotiating a key: srl_auth against a server

    The six messages of the exchange as byte strings, and what [srl_auth]
    does with a server that sends its three. *)
From stdpp Require Import strings.
From S2P Require Import Prelude TlBuf Serial HashCommon Sha1 Tg Packet Mtx MtxLayers Handshake MtxFacts HandshakeFacts.

(** What the server puts into its messages. *)
Record server := Server {
  sv_id1 : Z; sv_nonce1 : list Z; sv_nonce : list Z; sv_pq : list Z; sv_fps : list Z;
  sv_id2 : Z; sv_nonce2 : list Z; sv_sn2 : list Z;
  sv_hash : list Z; sv_nonce3 : list Z; sv_sn3 : list Z; sv_g : Z; sv_prime : list Z;
  sv_g_a : list Z; sv_time : Z; sv_rand : list Z;
  sv_id3 : Z; sv_nonce4 : list Z; sv_sn4 : list Z; sv_hash4 : list Z
}.

Section Auth.
Context `{Env} `{Frame} `{OpenSSL} `{BigNum} `{Factor} `{Peer}.

Definition zeros (n : nat) : list Z := replicate n 0.

(** [k] counts the readings of the clock when the exchange begins. *)
Definition nonce (k : nat) : list Z := rand_bytes (wall k) 16.
Definition secret (k : nat) : list Z := rand_bytes (wall (3 + k)%nat) 256.

Section Messages.
Variable k : nat.
Variable sv : server.

Definition factors : Z * Z :=
  let '(p, q) := factor (be_num (sv_pq sv)) in if p <? q then (p, q) else (q, p).

Definition request1 : list Z := request 0x60469778 [nonce k].
Definition reply1 : list Z := sv_nonce1 sv ++ sv_nonce sv ++ tl_string (sv_pq sv) ++ tl_vector (sv_fps sv).

Definition inner1 : list Z :=
  request 0x83c95aec [tl_string (sv_pq sv); tl_string (be_bytes 4 (fst factors));
    tl_string (be_bytes 4 (snd factors)); nonce k; sv_nonce sv; zeros 32].
Definition block1 : list Z := sha inner1 ++ inner1 ++ zeros (235 - length inner1).
Definition request2 : list Z :=
  request 0xd712e4be [nonce k; sv_nonce sv; tl_string (be_bytes 4 (fst factors));
    tl_string (be_bytes 4 (snd factors)); take 8 (sv_fps sv); tl_string (rsa_block block1)].

(** The temporary key: the new nonce is zero. *)
Definition tmp_key : list Z :=
  sha (zeros 32 ++ sv_nonce sv) ++ slice (sha (sv_nonce sv ++ zeros 32)) 0 12.
Definition tmp_iv : list Z :=
  slice (sha (sv_nonce sv ++ zeros 32)) 12 8 ++ sha (zeros 32 ++ zeros 32) ++ slice (zeros 32) 0 4.

Definition inner2 : list Z :=
  le_bytes 4 _id_server_DH_inner_data ++ sv_nonce3 sv ++ sv_sn3 sv ++ le_bytes 4 (sv_g sv) ++
  tl_string (sv_prime sv) ++ tl_string (sv_g_a sv) ++ le_bytes 4 (sv_time sv).
Definition encrypted_answer : list Z := ige_encrypt tmp_key tmp_iv (sv_hash sv ++ inner2 ++ sv_rand sv).
Definition reply2 : list Z := sv_nonce2 sv ++ sv_sn2 sv ++ tl_string encrypted_answer.

Definition g_b : list Z := pow_bytes (be_bytes 4 (sv_g sv)) (secret k) (sv_prime sv).
Definition inner3 : list Z :=
  request 0x6643b654 [sv_nonce3 sv; sv_sn3 sv; zeros 8; tl_string g_b].
Definition pad3 : list Z :=
  rand_bytes (wall (4 + k)%nat) (Z.to_nat ((16 - (20 + zlen inner3) mod 16) mod 16)).
Definition request3 : list Z :=
  request 0xf5045f1f [nonce k; sv_nonce sv; tl_string (ige_encrypt tmp_key tmp_iv (sha inner3 ++ inner3 ++ pad3))].
Definition reply3 : list Z := sv_nonce4 sv ++ sv_sn4 sv ++ sv_hash4 sv.

Definition packet1 : list Z := packet (clock (1 + k)%nat) request1.
Definition packet2 : list Z := packet (clock (2 + k)%nat) request2.
Definition packet3 : list Z := packet (clock (5 + k)%nat) request3.

Definition negotiated : list Z := pow_bytes (sv_g_a sv) (secret k) (sv_prime sv).
End Messages.

Record server_ok (k : nat) (sv : server) : Prop := {
  so_nonce1 : zlen (sv_nonce1 sv) = 16; so_nonce : zlen (sv_nonce sv) = 16; so_pq : zlen (sv_pq sv) = 8;
  so_fps : 8 <= zlen (sv_fps sv) <= 96 /\ zlen (sv_fps sv) mod 8 = 0;
  so_nonce2 : zlen (sv_nonce2 sv) = 16; so_sn2 : zlen (sv_sn2 sv) = 16; so_hash : zlen (sv_hash sv) = 20;
  so_nonce3 : zlen (sv_nonce3 sv) = 16; so_sn3 : zlen (sv_sn3 sv) = 16; so_prime : zlen (sv_prime sv) = 256;
  so_g_a : zlen (sv_g_a sv) = 256; so_rand : zlen (sv_rand sv) = 8;
  so_nonce4 : zlen (sv_nonce4 sv) = 16; so_sn4 : zlen (sv_sn4 sv) = 16; so_hash4 : zlen (sv_hash4 sv) = 16;
  so_bytes : bytes_ok (sv_nonce sv) /\ bytes_ok (sv_pq sv) /\ bytes_ok (sv_nonce3 sv) /\ bytes_ok (sv_sn3 sv) /\
    bytes_ok (sv_prime sv) /\ bytes_ok (sv_g_a sv) /\ bytes_ok (sv_hash sv) /\ bytes_ok (sv_rand sv);
  so_modulus : 0 < be_num (sv_prime sv);
  so_g_b : g_b k sv <> []; so_key : negotiated k sv <> []
}.

(** The peer is this server. *)
Definition serves (k : nat) (sv : server) (before : list (list Z)) : Prop :=
  recv_reply (before ++ [packet1 k]) = Some (packet (sv_id1 sv) (le_bytes 4 _id_resPQ ++ reply1 sv)) /\
  recv_reply ((before ++ [packet1 k]) ++ [packet2 k sv]) =
    Some (packet (sv_id2 sv) (le_bytes 4 _id_Server_DH_Params_ok ++ reply2 sv)) /\
  recv_reply (((before ++ [packet1 k]) ++ [packet2 k sv]) ++ [packet3 k sv]) =
    Some (packet (sv_id3 sv) (le_bytes 4 _id_dh_gen_ok ++ reply3 sv)).

(** ** The first round trip *)
Lemma nonce_facts k : zlen (nonce k) = 16 /\ bytes_ok (nonce k).
Proof. split; [apply zlen_rand_bytes | apply rand_bytes_ok]. Qed.
Lemma secret_facts k : zlen (secret k) = 256 /\ bytes_ok (secret k).
Proof. split; [apply zlen_rand_bytes | apply rand_bytes_ok]. Qed.

(** What the client keeps of the first reply. *)
Definition first_reply (k : nat) (sv : server) : method_req_pq_t :=
  Req_pq 0x60469778 (Param 0 (mk_ (nonce k)) TYPE_INT128)
    (ResPQ _id_resPQ (got (sv_nonce1 sv) TYPE_INT128) (got (sv_nonce sv) TYPE_INT128)
       (got (sv_pq sv) TYPE_STRING) (got (take 8 (sv_fps sv)) TYPE_VECTOR_LONG)).

(** The first request, whatever is answered. *)
Lemma send_req_pq k s rid id' body' :
  mticks s = k -> is_u32 id' -> recv_reply (sent s ++ [packet1 k]) = Some (packet rid (le_bytes 4 id' ++ body')) ->
  exists a', opened id' body' a' /\
    (m ← method_req_pq_init; method_req_pq_drive m) s =
    (t ← sil_concrete 2 a';
     mret (Req_pq 0x60469778 (Param 0 (mk_ (nonce k)) TYPE_INT128) (t_ResPQ t)) : M _)
      (trip (request1 k) (tick s)).
Proof.
  intros Hk Hid Hr. destruct (nonce_facts k) as [Ln Bn].
  destruct (round_trip 0x60469778 [Param 0 (mk_ (nonce k)) TYPE_INT128] [nonce k] (tick s) rid id' body')
    as (a & a' & Ea & Ed & Ho).
  - constructor; [| done]. eapply write_fixed; [by apply has_mk; rewrite Ln | exact Ln | set_solver].
  - rewrite zlen_request. cbn [foldr]. rewrite Ln. done.
  - done.
  - cbn [mticks sent tick]. rewrite Hk. exact Hr.
  - exists a'. split; [done |]. fold (request1 k) in Ed. cbn [mticks tick] in Ed.
    erewrite bind_eq.
    2: { unfold method_req_pq_init. erewrite bind_eq by (apply (rand_ok_ 16); done). rewrite Hk. fold (nonce k). reflexivity. }
    unfold method_req_pq_drive.
    change (sil_abstract (of_req_pq _)) with (abstract_of RFC 0x60469778 [Param 0 (mk_ (nonce k)) TYPE_INT128]).
    by rewrite (bind_eq _ _ _ _ _ Ea), (bind_eq _ _ _ _ _ Ed).
Qed.

Lemma run_req_pq k sv s :
  mticks s = k -> server_ok k sv ->
  recv_reply (sent s ++ [packet1 k]) = Some (packet (sv_id1 sv) (le_bytes 4 _id_resPQ ++ reply1 sv)) ->
  (m ← method_req_pq_init; method_req_pq_drive m) s =
    Ok (first_reply k sv, set_types (put_ResPQ (req_ResPQ (first_reply k sv)) (fresh_types s)) (fresh_flag s)
      (trip (request1 k) (tick s))).
Proof.
  intros Hk Hs Hr. destruct (send_req_pq k s _ _id_resPQ _ Hk ltac:(done) Hr) as (a' & Ho & ->).
  pose proof (concrete_ok 2 _id_resPQ (reply1 sv) a' (trip (request1 k) (tick s))
      (put_ResPQ (req_ResPQ (first_reply k sv))) Ho) as Et.
  erewrite bind_eq; [| apply Et; [done |]; intros s' c; apply resPQ_read; apply Hs].
  destruct (types_put (fresh_types s)) as (Ep & _). change (fresh_types (trip _ _)) with (fresh_types s). by rewrite Ep.
Qed.

(** ** The request with the proof of work *)
Definition small (p : Z) : param_t := Param 0 (mk_ (be_bytes 4 p)) TYPE_STRING.

Definition inner_data1 (k : nat) (sv : server) : ctor_P_Q_inner_data_t :=
  P_Q_inner_data 0x83c95aec (got (sv_pq sv) TYPE_STRING) (small (fst (factors sv))) (small (snd (factors sv)))
    (Param 0 (mk_ (nonce k)) TYPE_INT128) (got (sv_nonce sv) TYPE_INT128) (Param 0 (mk_ (zeros 32)) TYPE_INT256).

Definition second_request (k : nat) (sv : server) (ok : ctor_Server_DH_Params_ok_t) : method_req_DH_params_t :=
  Req_DH_params 0xd712e4be (Param 0 (mk_ (nonce k)) TYPE_INT128) (got (sv_nonce sv) TYPE_INT128)
    (small (fst (factors sv))) (small (snd (factors sv))) (got (take 8 (sv_fps sv)) TYPE_VECTOR_LONG)
    (Param 0 (mk_ (rsa_block (block1 k sv))) TYPE_STRING) ok (inner_data1 k sv).

Lemma zlen_small p : zlen (be_bytes 4 p) = 4.
Proof. unfold be_bytes, zlen. by rewrite length_rev. Qed.
Lemma zlen_small_string p : zlen (tl_string (be_bytes 4 p)) = 8.
Proof. rewrite zlen_tl_string, zlen_small. reflexivity. Qed.
Lemma zlen_pq_string sv k : server_ok k sv -> zlen (tl_string (sv_pq sv)) = 12.
Proof. intros Hs. rewrite zlen_tl_string, (so_pq _ _ Hs). reflexivity. Qed.

Lemma zlen_inner1 k sv : server_ok k sv -> zlen (inner1 k sv) = 96.
Proof.
  intros Hs. destruct (nonce_facts k) as [Ln _]. unfold inner1. rewrite zlen_request. cbn [foldr].
  rewrite (zlen_pq_string sv k Hs), !zlen_small_string, Ln, (so_nonce _ _ Hs). reflexivity.
Qed.

Lemma be_bytes_ok n z : bytes_ok (be_bytes n z).
Proof. apply Forall_rev, le_bytes_ok. Qed.

Lemma request_bytes id bss : Forall (fun b => bytes_ok b) bss -> bytes_ok (request id bss).
Proof.
  intros Hb. unfold request. apply Forall_app_2; [apply le_bytes_ok |].
  induction Hb as [|b bss Hb _ IH]; [constructor |]. change (mjoin (b :: bss)) with (b ++ mjoin bss).
  by apply Forall_app_2.
Qed.

Lemma inner1_bytes k sv : server_ok k sv -> bytes_ok (inner1 k sv).
Proof.
  intros Hs. destruct (so_bytes _ _ Hs) as (B1 & B2 & _). destruct (nonce_facts k) as [_ Bn].
  apply request_bytes. rewrite !Forall_cons_iff. split_and!; try done; try (by apply tl_string_ok, be_bytes_ok).
  - by apply tl_string_ok.
  - apply zeros_ok.
Qed.

Lemma write_small p : writes (small p) (tl_string (be_bytes 4 p)).
Proof.
  apply write_string; [apply has_mk; by rewrite zlen_small | rewrite zlen_small_string; done].
Qed.

Lemma inner1_written k sv : server_ok k sv ->
  Forall2 writes [pqi_pq (inner_data1 k sv); pqi_p (inner_data1 k sv); pqi_q (inner_data1 k sv);
     pqi_nonce (inner_data1 k sv); pqi_server_nonce (inner_data1 k sv); pqi_new_nonce (inner_data1 k sv)]
    [tl_string (sv_pq sv); tl_string (be_bytes 4 (fst (factors sv))); tl_string (be_bytes 4 (snd (factors sv)));
     nonce k; sv_nonce sv; zeros 32].
Proof.
  intros Hs. destruct (nonce_facts k) as [Ln _]. pose proof (so_nonce _ _ Hs) as Ls. pose proof (so_pq _ _ Hs) as Lp.
  repeat apply Forall2_cons_2; [| apply write_small | apply write_small | | | | constructor].
  - apply write_string; [apply has_mk; by rewrite Lp | by rewrite (zlen_pq_string sv k Hs)].
  - eapply write_fixed; [apply has_mk; by rewrite Ln | exact Ln | set_solver].
  - eapply write_fixed; [apply has_mk; by rewrite Ls | exact Ls | set_solver].
  - eapply (write_fixed _ _ _ _ 32); [by apply has_mk | done | set_solver].
Qed.

Lemma run_inner1 k sv s : server_ok k sv ->
  ctor_P_Q_inner_data_drive (inner_data1 k sv) s = Ok (mk_ (inner1 k sv), s).
Proof.
  intros Hs. pose proof (zlen_inner1 k sv Hs) as Li. unfold ctor_P_Q_inner_data_drive.
  destruct (abstract_writes RFC 0x83c95aec _ _ s (inner1_written k sv Hs)) as (a & Ea & _ & Hw).
  fold (inner1 k sv) in Hw. destruct (Hw SEND s) as [_ Ew]; [by rewrite Li |].
  change (sil_abstract (of_P_Q_inner_data (inner_data1 k sv))) with
    (abstract_of RFC 0x83c95aec [pqi_pq (inner_data1 k sv); pqi_p (inner_data1 k sv); pqi_q (inner_data1 k sv);
     pqi_nonce (inner_data1 k sv); pqi_server_nonce (inner_data1 k sv); pqi_new_nonce (inner_data1 k sv)]).
  rewrite (bind_eq _ _ _ _ _ Ea), (bind_eq _ _ _ _ _ Ew).
  erewrite bind_eq by (apply (dump_ok _ (inner1 k sv)); [apply has_mk; by rewrite Li | by rewrite Li]). reflexivity.
Qed.

Lemma zlen_block1 k sv : server_ok k sv -> zlen (block1 k sv) = 255.
Proof.
  intros Hs. pose proof (zlen_inner1 k sv Hs) as Li. unfold block1. rewrite !zlen_app, zlen_sha, Li.
  unfold zeros. rewrite zlen_replicate. unfold zlen in Li. lia.
Qed.
Lemma block1_bytes k sv : server_ok k sv -> bytes_ok (block1 k sv).
Proof.
  intros Hs. apply Forall_app_2; [apply sha_bytes |].
  apply Forall_app_2; [by apply inner1_bytes | apply zeros_ok].
Qed.

Lemma run_DH_init k sv s :
  server_ok k sv -> rsa_key_ok -> msize (junk_buf in_req_DH_params) = 0 ->
  method_req_DH_params_init (first_reply k sv) s = Ok (second_request k sv zero_DH_ok, s).
Proof.
  intros Hs Hk Hj. pose proof (so_pq _ _ Hs) as Lp. pose proof (zlen_inner1 k sv Hs) as Li.
  assert (Hi : has (mk_ (inner1 k sv)) (inner1 k sv)) by (apply has_mk; by rewrite Li).
  destruct (sha1_has _ _ s Hi (inner1_bytes k sv Hs)) as (h & Eh & Hh).
  assert (H0' : has (junk_buf in_req_DH_params) []) by (split_and!; [apply junk_size | exact Hj | done]).
  destruct (cat_has _ _ _ _ s H0' Hh) as (d1 & E1 & Hd1); [by rewrite zlen_sha |]. cbn [app] in Hd1.
  destruct (cat_has _ _ _ _ s Hd1 Hi) as (d2 & E2 & Hd2); [by rewrite zlen_sha, Li |].
  assert (L2 : msize d2 = 116) by (rewrite (has_size _ _ Hd2), zlen_app, zlen_sha, Li; done).
  destruct (cat_has d2 _ (mk_ (zeros 139)) (zeros 139) s Hd2) as (d3 & E3 & Hd3);
    [by apply has_mk | by rewrite zlen_app, zlen_sha, Li |].
  assert (Eb : (sha (inner1 k sv) ++ inner1 k sv) ++ zeros 139 = block1 k sv).
  { unfold block1. rewrite <- app_assoc. do 3 f_equal. unfold zlen in Li. lia. }
  rewrite Eb in Hd3.
  unfold method_req_DH_params_init. cbn [first_reply req_ResPQ rpq_pq p_value got].
  erewrite bind_eq by (apply swap_mk; by rewrite Lp).
  assert (Eq : buf_get_ui64_ (mk_ (rev (sv_pq sv))) = be_num (sv_pq sv)).
  { assert (Lr : zlen (rev (sv_pq sv)) = 8) by (unfold zlen in *; by rewrite length_rev).
    rewrite (get_ui64_has _ (rev (sv_pq sv))); [| apply has_mk; by rewrite Lr | by rewrite Lr].
    by rewrite slice_all by (by rewrite Lr). }
  rewrite Eq. unfold cmn_fact.
  assert (Ef : factors sv = let '(p, q) := factor (be_num (sv_pq sv)) in if p <? q then (p, q) else (q, p)) by done.
  destruct (factor (be_num (sv_pq sv))) as [p0 q0]. rewrite <- Ef. destruct (factors sv) as [p q] eqn:Efs.
  erewrite bind_eq by apply add_ui32_ok. erewrite bind_eq by (by apply swap_mk).
  erewrite bind_eq by apply add_ui32_ok. erewrite bind_eq by (by apply swap_mk).
  change (rev (le_bytes 4 p)) with (be_bytes 4 p). change (rev (le_bytes 4 q)) with (be_bytes 4 q).
  match goal with |- context [ctor_P_Q_inner_data_init ?a ?b] =>
    replace (ctor_P_Q_inner_data_init a b) with (inner_data1 k sv) end.
  2: { unfold inner_data1, small, ctor_P_Q_inner_data_init. rewrite Efs, (mk_zeros 32) by done. reflexivity. }
  cbv zeta. rewrite (bind_eq _ _ _ _ _ (run_inner1 k sv s Hs)).
  rewrite (bind_eq _ _ _ _ _ Eh), (bind_eq _ _ _ _ _ E1), (bind_eq _ _ _ _ _ E2), L2.
  change (u32 (255 - 116)) with 139. rewrite (mk_zeros 139) by done. rewrite (bind_eq _ _ _ _ _ E3).
  erewrite bind_eq by (eapply rsa_ok; [done | exact Hd3 | by apply block1_bytes]).
  unfold mret, st_ret, second_request, small. by rewrite Efs.
Qed.

(** ** The second round trip *)
Definition DH_answer (sv : server) : ctor_Server_DH_Params_ok_t :=
  Server_DH_Params_ok _id_Server_DH_Params_ok (got (sv_nonce2 sv) TYPE_INT128) (got (sv_sn2 sv) TYPE_INT128)
    (got (encrypted_answer sv) TYPE_STRING).

Lemma zlen_inner2 k sv : server_ok k sv -> zlen (inner2 sv) = 564.
Proof.
  intros Hs. unfold inner2. rewrite !zlen_app, !zlen_le_bytes, (so_nonce3 _ _ Hs), (so_sn3 _ _ Hs).
  rewrite !zlen_long_string; rewrite ?(so_prime _ _ Hs), ?(so_g_a _ _ Hs); done.
Qed.
Lemma zlen_encrypted_answer k sv : server_ok k sv -> zlen (encrypted_answer sv) = 592.
Proof.
  intros Hs. unfold encrypted_answer.
  rewrite ige_encrypt_length, !zlen_app, (so_hash _ _ Hs), (so_rand _ _ Hs), (zlen_inner2 k sv Hs). done.
Qed.
Lemma zlen_first_fps k sv : server_ok k sv -> zlen (take 8 (sv_fps sv)) = 8.
Proof. intros Hs. destruct (so_fps _ _ Hs) as [Hf _]. unfold zlen in *. rewrite length_take. lia. Qed.

Lemma zlen_rsa_string k sv : rsa_key_ok -> server_ok k sv -> zlen (tl_string (rsa_block (block1 k sv))) = 260.
Proof.
  intros Hk Hs. pose proof (zlen_rsa_block (block1 k sv) Hk (block1_bytes k sv Hs)) as Lr.
  rewrite zlen_long_string; rewrite Lr; done.
Qed.

Lemma zlen_request2 k sv : rsa_key_ok -> server_ok k sv -> zlen (request2 k sv) = 320.
Proof.
  intros Hk Hs. destruct (nonce_facts k) as [Ln _]. unfold request2. rewrite zlen_request. cbn [foldr].
  rewrite Ln, (so_nonce _ _ Hs), !zlen_small_string, (zlen_first_fps k sv Hs), (zlen_rsa_string k sv Hk Hs). done.
Qed.

(** The second request, whatever is answered. *)
Lemma send_DH k sv s rid id' body' :
  mticks s = (2 + k)%nat -> server_ok k sv -> rsa_key_ok -> is_u32 id' ->
  recv_reply (sent s ++ [packet2 k sv]) = Some (packet rid (le_bytes 4 id' ++ body')) ->
  exists a', opened id' body' a' /\
    method_req_DH_params_drive (second_request k sv zero_DH_ok) s =
    (t ← sil_concrete 2 a'; mret (second_request k sv (t_Server_DH_Params_ok t)) : M _) (trip (request2 k sv) s).
Proof.
  intros Hk Hs Hrsa Hid Hr. destruct (nonce_facts k) as [Ln _]. pose proof (so_nonce _ _ Hs) as Ls.
  pose proof (zlen_rsa_block _ Hrsa (block1_bytes k sv Hs)) as Lr.
  pose proof (zlen_first_fps k sv Hs) as Lf. set (m := second_request k sv zero_DH_ok).
  destruct (round_trip 0xd712e4be
    [rdh_nonce m; rdh_server_nonce m; rdh_p m; rdh_q m; rdh_public_key_fingerprint m; rdh_encrypted_data m]
    [nonce k; sv_nonce sv; tl_string (be_bytes 4 (fst (factors sv))); tl_string (be_bytes 4 (snd (factors sv)));
     take 8 (sv_fps sv); tl_string (rsa_block (block1 k sv))] s rid id' body')
    as (a & a' & Ea & Ed & Ho).
  - repeat apply Forall2_cons_2; [| | apply write_small | apply write_small | | | constructor].
    + eapply write_fixed; [apply has_mk; by rewrite Ln | exact Ln | set_solver].
    + eapply write_fixed; [apply has_mk; by rewrite Ls | exact Ls | set_solver].
    + eapply write_sized; [apply has_mk; by rewrite Lf | by left].
    + apply write_string; [apply has_mk; by rewrite Lr | by rewrite (zlen_rsa_string k sv Hrsa Hs)].
  - fold (request2 k sv). by rewrite (zlen_request2 k sv Hrsa Hs).
  - done.
  - fold (request2 k sv). rewrite Hk. exact Hr.
  - exists a'. split; [done |]. fold (request2 k sv) in Ed. unfold method_req_DH_params_drive.
    change (sil_abstract (of_req_DH_params m)) with (abstract_of RFC 0xd712e4be
      [rdh_nonce m; rdh_server_nonce m; rdh_p m; rdh_q m; rdh_public_key_fingerprint m; rdh_encrypted_data m]).
    by rewrite (bind_eq _ _ _ _ _ Ea), (bind_eq _ _ _ _ _ Ed).
Qed.

Lemma run_DH_drive k sv s :
  mticks s = (2 + k)%nat -> server_ok k sv -> rsa_key_ok ->
  recv_reply (sent s ++ [packet2 k sv]) =
    Some (packet (sv_id2 sv) (le_bytes 4 _id_Server_DH_Params_ok ++ reply2 sv)) ->
  exists t n, method_req_DH_params_drive (second_request k sv zero_DH_ok) s =
    Ok (second_request k sv (DH_answer sv), set_types t n (trip (request2 k sv) s)).
Proof.
  intros Hk Hs Hrsa Hr. destruct (send_DH k sv s _ _id_Server_DH_Params_ok _ Hk Hs Hrsa ltac:(done) Hr) as (a' & Ho & ->).
  pose proof (zlen_encrypted_answer k sv Hs) as Le.
  pose proof (concrete_ok 2 _id_Server_DH_Params_ok (reply2 sv) a' (trip (request2 k sv) s)
      (put_Server_DH_Params_ok (DH_answer sv)) Ho) as Et.
  erewrite bind_eq.
  2: { apply Et; [done |]. intros s' c. apply DH_params_read; [apply Hs | apply Hs |]. rewrite zlen_long_string; rewrite Le; done. }
  destruct (types_put (fresh_types (trip (request2 k sv) s))) as (_ & -> & _). by eexists _, _.
Qed.

(** ** The answer of the server *)
Lemma zlen_tmp sv : zlen (tmp_key sv) = 32 /\ zlen (tmp_iv sv) = 32.
Proof.
  unfold tmp_key, tmp_iv. rewrite !zlen_app, !zlen_sha, !zlen_slice; rewrite ?zlen_sha; done.
Qed.

Lemma inner2_bytes k sv : server_ok k sv -> bytes_ok (inner2 sv).
Proof.
  intros Hs. destruct (so_bytes _ _ Hs) as (_ & _ & B3 & B3' & Bp & Ba & _).
  unfold inner2. rewrite !Forall_app. split_and!; try done; try apply le_bytes_ok; by apply tl_string_ok.
Qed.

(** The temporary keys are derived before the answer is looked at. *)
Lemma decrypt_keys k sv ok s :
  server_ok k sv ->
  ctor_Server_DH_inner_data_init (first_reply k sv) (second_request k sv ok) s =
    (answer ← cry_aes_d (p_value (dhp_encrypted_answer ok)) (mk_ (tmp_key sv)) (mk_ (tmp_iv sv));
     answer ← skip 20 answer;
     let answer := set_msize (u32 (msize answer - 8)) answer in
     let c := junk_DH_inner in
     mret (Server_DH_inner_data (sdh_id__ c) (sdh_nonce c) (sdh_server_nonce c) (sdh_g c) (sdh_dh_prime c)
             (sdh_g_a c) (sdh_server_time c) answer (mk_ (tmp_key sv)) (mk_ (tmp_iv sv))) : M _) s.
Proof.
  intros Hs. pose proof (so_nonce _ _ Hs) as Ls. destruct (so_bytes _ _ Hs) as (Bn & _).
  set (nn := zeros 32). assert (Ln : zlen nn = 32) by done. set (sn := sv_nonce sv) in *.
  assert (Bz : bytes_ok nn) by apply zeros_ok.
  assert (Hn : has (mk_ nn) nn) by (by apply has_mk). assert (Hsn : has (mk_ sn) sn) by (apply has_mk; by rewrite Ls).
  assert (Hns : has (mk_ (nn ++ sn)) (nn ++ sn)) by (apply has_mk; by rewrite zlen_app, Ln, Ls).
  assert (Hsnn : has (mk_ (sn ++ nn)) (sn ++ nn)) by (apply has_mk; by rewrite zlen_app, Ln, Ls).
  assert (Hnn : has (mk_ (nn ++ nn)) (nn ++ nn)) by (by apply has_mk).
  destruct (sha1_has _ _ s Hns (Forall_app_2 _ _ _ Bz Bn)) as (h1 & Eh1 & Hh1).
  destruct (sha1_has _ _ s Hsnn (Forall_app_2 _ _ _ Bn Bz)) as (h2 & Eh2 & Hh2).
  destruct (sha1_has _ _ s Hnn (Forall_app_2 _ _ _ Bz Bz)) as (h3 & Eh3 & Hh3).
  set (c1 := slice (sha (sn ++ nn)) 0 12) in *. set (c2 := slice (sha (sn ++ nn)) 12 8) in *.
  set (c3 := slice nn 0 4) in *.
  assert (Lc1 : zlen c1 = 12) by (apply zlen_slice; rewrite ?zlen_sha; done).
  assert (Lc2 : zlen c2 = 8) by (apply zlen_slice; rewrite ?zlen_sha; done).
  assert (Lc3 : zlen c3 = 4) by done.
  assert (Hc1 : has (mk_ c1) c1) by (apply has_mk; by rewrite Lc1).
  assert (Hc2 : has (mk_ c2) c2) by (apply has_mk; by rewrite Lc2).
  assert (Hc3 : has (mk_ c3) c3) by (by apply has_mk).
  unfold ctor_Server_DH_inner_data_init.
  change (p_value (pqi_new_nonce (ctor_P_Q_inner_data_init _ _))) with (set_msize 32 empty_).
  rewrite (mk_zeros 32) by done. change (mk_ (replicate (Z.to_nat 32) 0)) with (mk_ nn).
  change (p_value (rpq_server_nonce (req_ResPQ (first_reply k sv)))) with (mk_ sn).
  change (rdh_Server_DH_Params (second_request k sv ok)) with ok.
  erewrite bind_eq by (by apply cat_empty). erewrite bind_eq by (apply cat_mk; [done | by rewrite Ln, Ls]).
  rewrite (bind_eq _ _ _ _ _ Eh1).
  erewrite bind_eq by (by apply cat_empty). erewrite bind_eq by (apply cat_mk; [done | by rewrite Ln, Ls]).
  rewrite (bind_eq _ _ _ _ _ Eh2).
  erewrite bind_eq by (apply (add_at _ _ 0 12 s Hh2); rewrite ?zlen_sha; done). fold c1.
  erewrite bind_eq by (by apply (cat_empty _ _ s Hh1)).
  erewrite bind_eq by (apply cat_mk; [exact Hc1 | by rewrite zlen_sha, Lc1]).
  change (sha (nn ++ sn) ++ c1) with (tmp_key sv).
  erewrite bind_eq by (apply (add_at _ _ 12 8 s Hh2); rewrite ?zlen_sha; done). fold c2.
  erewrite bind_eq by (by apply cat_empty). erewrite bind_eq by (by apply cat_mk).
  rewrite (bind_eq _ _ _ _ _ Eh3).
  erewrite bind_eq by (by apply (add_at _ nn 0 4)). fold c3.
  erewrite bind_eq by (by apply (cat_empty _ _ s Hc2)).
  erewrite bind_eq by (apply cat_mk; [exact Hh3 | by rewrite zlen_sha, Lc2]).
  erewrite bind_eq by (apply cat_mk; [exact Hc3 | by rewrite zlen_app, zlen_sha, Lc2, Lc3]).
  rewrite <- app_assoc. reflexivity.
Qed.

Lemma tmp_has sv : has (mk_ (tmp_key sv)) (tmp_key sv) /\ has (mk_ (tmp_iv sv)) (tmp_iv sv).
Proof. destruct (zlen_tmp sv) as [Lk Lv]. split; apply has_mk; rewrite ?Lk, ?Lv; done. Qed.

Lemma run_decrypt k sv s :
  server_ok k sv ->
  exists c, ctor_Server_DH_inner_data_init (first_reply k sv) (second_request k sv (DH_answer sv)) s = Ok (c, s) /\
    sdh_answer c = set_msize 564 (mk_ (inner2 sv ++ sv_rand sv)) /\
    sdh_tmp_aes_key c = mk_ (tmp_key sv) /\ sdh_tmp_aes_iv c = mk_ (tmp_iv sv).
Proof.
  intros Hs. destruct (so_bytes _ _ Hs) as (_ & _ & B3 & B3' & Bp & Ba & Bh & Br).
  pose proof (zlen_inner2 k sv Hs) as L2. pose proof (zlen_encrypted_answer k sv Hs) as Le.
  destruct (zlen_tmp sv) as [Lk Lv]. destruct (tmp_has sv) as [Hk1 Hv1].
  assert (He : has (mk_ (encrypted_answer sv)) (encrypted_answer sv)) by (apply has_mk; by rewrite Le).
  eexists. split; [| split_and!].
  { rewrite decrypt_keys by done.
    change (p_value (dhp_encrypted_answer (DH_answer sv))) with (mk_ (encrypted_answer sv)).
    erewrite bind_eq by (eapply aes_d_ok; [exact He | exact Hk1 | exact Hv1 | done | done | by rewrite Le | by rewrite Le]).
    unfold encrypted_answer. rewrite ige_inverse; [| done | done | | ].
    - erewrite bind_eq by (apply skip_ok; [| by apply Hs]; rewrite !zlen_app, (so_hash _ _ Hs), L2, (so_rand _ _ Hs); done).
      cbn [msize mk_]. rewrite zlen_app, L2, (so_rand _ _ Hs). change (u32 (564 + 8 - 8)) with 564. reflexivity.
    - by rewrite !zlen_app, (so_hash _ _ Hs), L2, (so_rand _ _ Hs).
    - apply Forall_app_2; [done |]. apply Forall_app_2; [by apply (inner2_bytes k) | done]. }
  all: reflexivity.
Qed.

(** The size is cut, the bytes behind it stay. *)
Lemma has_cut l r : zlen (l ++ r) <= max_buf_size -> has (set_msize (zlen l) (mk_ (l ++ r))) l.
Proof.
  intros Hl. destruct (has_mk _ Hl) as (Hm & _). unfold has, set_msize, mk_ in *. cbn [mdata msize] in *.
  split_and!; [done | done |]. by rewrite <- app_assoc, take_app_length.
Qed.

Definition answer_data (sv : server) : ctor_Server_DH_inner_data_t :=
  inner_data (sv_nonce3 sv) (sv_sn3 sv) (sv_g sv) (sv_prime sv) (sv_g_a sv) (sv_time sv).

Lemma run_answer k sv s :
  server_ok k sv ->
  exists t n, ctor_Server_DH_inner_data_drive (set_msize 564 (mk_ (inner2 sv ++ sv_rand sv))) s =
    Ok (answer_data sv, set_types t n s).
Proof.
  intros Hs. pose proof (zlen_inner2 k sv Hs) as L2.
  assert (Hb : has (set_msize 564 (mk_ (inner2 sv ++ sv_rand sv))) (inner2 sv)).
  { rewrite <- L2. apply has_cut. rewrite zlen_app, L2, (so_rand _ _ Hs). done. }
  unfold ctor_Server_DH_inner_data_drive.
  destruct (sel_deserialize_ok _ _ _ s Hb) as (a & Ea & Ho); [done |]. rewrite (bind_eq _ _ _ _ _ Ea).
  pose proof (concrete_ok 2 _id_server_DH_inner_data _ a s (put_Server_DH_inner_data (answer_data sv)) Ho) as Et.
  erewrite bind_eq by (apply Et; [done |]; intros s' c; apply DH_inner_read; apply Hs).
  destruct (types_put (fresh_types s)) as (_ & _ & -> & _). by eexists _, _.
Qed.

(** ** The third message *)
Definition client_data (k : nat) (sv : server) (gb : buf_t_) : ctor_Client_DH_Inner_Data_t :=
  Client_DH_Inner_Data 0x6643b654 (got (sv_nonce3 sv) TYPE_INT128) (got (sv_sn3 sv) TYPE_INT128)
    (Param 0 (mk_ (le_bytes 4 0)) TYPE_LONG) (Param 0 gb TYPE_STRING) (mk_ (secret k)).

Lemma zlen_pow g k sv :
  server_ok k sv -> bytes_ok g -> zlen (pow_bytes g (secret k) (sv_prime sv)) <= 256.
Proof.
  intros Hs Hg. destruct (so_bytes _ _ Hs) as (_ & _ & _ & _ & Bp & _). destruct (secret_facts k) as [_ Bs].
  pose proof (be_num_bound _ Bp) as Hp. rewrite (so_prime _ _ Hs) in Hp.
  unfold pow_bytes. apply (zlen_mod_exp g); [done | done | by apply be_num_nonneg | | lia].
  split; [apply Hs | lia].
Qed.

Lemma run_client_init k sv s :
  mticks s = (3 + k)%nat -> server_ok k sv ->
  exists gb, ctor_Client_DH_Inner_Data_init (first_reply k sv) (answer_data sv) s =
    Ok (client_data k sv gb, tick s) /\ has gb (g_b k sv).
Proof.
  intros Hk Hs. destruct (so_bytes _ _ Hs) as (_ & _ & _ & _ & Bp & _). destruct (secret_facts k) as [Lb Bs].
  destruct (pow_mod_ok (mk_ (be_bytes 4 (sv_g sv))) (mk_ (secret k)) (mk_ (sv_prime sv)) (be_bytes 4 (sv_g sv)) (secret k)
    (sv_prime sv) (tick s)) as (gb & Eg & Hg); try done; try apply has_mk; rewrite ?Lb, ?(so_prime _ _ Hs); try done.
  - apply be_bytes_ok.
  - apply Hs.
  - apply (so_g_b _ _ Hs).
  - exists gb. split; [| done]. unfold ctor_Client_DH_Inner_Data_init.
    erewrite bind_eq by apply add_ui32_ok.
    change (p_value (sdh_g (answer_data sv))) with (mk_ (le_bytes 4 (sv_g sv))).
    erewrite bind_eq by (by apply swap_mk). change (rev (le_bytes 4 (sv_g sv))) with (be_bytes 4 (sv_g sv)).
    erewrite bind_eq by (by apply (rand_ok_ 256)). rewrite Hk. change (rand_bytes _ _) with (secret k).
    change (p_value (sdh_dh_prime (answer_data sv))) with (mk_ (sv_prime sv)).
    by rewrite (bind_eq _ _ _ _ _ Eg).
Qed.

Lemma zlen_tl_string_le l : zlen (tl_string l) <= zlen l + 7.
Proof.
  rewrite zlen_tl_string. pose proof (zlen_tl_head (zlen l)).
  pose proof (pad_of_bounds (zlen (tl_head (zlen l)) + zlen l)). lia.
Qed.

Lemma g_b_facts k sv : server_ok k sv -> zlen (g_b k sv) <= 256 /\ bytes_ok (g_b k sv).
Proof. intros Hs. split; [apply zlen_pow; [done | apply be_bytes_ok] | apply bn2bin_bytes]. Qed.

Lemma zlen_inner3 k sv : server_ok k sv -> zlen (inner3 k sv) <= 307.
Proof.
  intros Hs. destruct (g_b_facts k sv Hs) as [Lg _]. pose proof (zlen_tl_string_le (g_b k sv)).
  unfold inner3. rewrite zlen_request. cbn [foldr]. rewrite (so_nonce3 _ _ Hs), (so_sn3 _ _ Hs).
  change (zlen (zeros 8)) with 8. lia.
Qed.
Lemma inner3_u32 k sv : server_ok k sv -> is_u32 (20 + zlen (inner3 k sv)).
Proof. intros Hs. pose proof (zlen_inner3 k sv Hs). pose proof (zlen_nonneg (inner3 k sv)). unfold is_u32. lia. Qed.
Lemma inner3_bytes k sv : server_ok k sv -> bytes_ok (inner3 k sv).
Proof.
  intros Hs. destruct (so_bytes _ _ Hs) as (_ & _ & B3 & B3' & _). destruct (g_b_facts k sv Hs) as [_ Bg].
  apply request_bytes. rewrite !Forall_cons_iff. split_and!; try done; [apply zeros_ok | by apply tl_string_ok].
Qed.

Lemma run_inner3 k sv gb s :
  server_ok k sv -> has gb (g_b k sv) ->
  ctor_Client_DH_Inner_Data_drive (client_data k sv gb) s = Ok (mk_ (inner3 k sv), s).
Proof.
  intros Hs Hg. pose proof (so_nonce3 _ _ Hs) as L3. pose proof (so_sn3 _ _ Hs) as L3'.
  destruct (g_b_facts k sv Hs) as [Lg _]. pose proof (zlen_tl_string_le (g_b k sv)). pose proof (zlen_inner3 k sv Hs).
  set (c := client_data k sv gb). unfold ctor_Client_DH_Inner_Data_drive.
  destruct (abstract_writes RFC 0x6643b654 [cdh_nonce c; cdh_server_nonce c; cdh_retry_id c; cdh_g_b c]
    [sv_nonce3 sv; sv_sn3 sv; zeros 8; tl_string (g_b k sv)] s) as (a & Ea & _ & Hw).
  - repeat apply Forall2_cons_2; [| | | | constructor].
    + eapply write_fixed; [apply has_mk; by rewrite L3 | exact L3 | set_solver].
    + eapply write_fixed; [apply has_mk; by rewrite L3' | exact L3' | set_solver].
    + intros s'. by apply (add_ok_ (at_ (mk_ (le_bytes 4 0)) 0) 8).
    + apply write_string; [done | unfold max_buf_size; lia].
  - fold (inner3 k sv) in Hw. destruct (Hw SEND s) as [_ Ew]; [unfold max_buf_size; lia |].
    change (sil_abstract (of_Client_DH_Inner_Data c)) with
      (abstract_of RFC 0x6643b654 [cdh_nonce c; cdh_server_nonce c; cdh_retry_id c; cdh_g_b c]).
    by rewrite (bind_eq _ _ _ _ _ Ea).
Qed.

Definition block3 (k : nat) (sv : server) : list Z := sha (inner3 k sv) ++ inner3 k sv ++ pad3 k sv.

Lemma pad3_facts k sv : 0 <= zlen (pad3 k sv) < 16 /\ (20 + zlen (inner3 k sv) + zlen (pad3 k sv)) mod 16 = 0.
Proof. unfold pad3. rewrite zlen_rand_bytes. modlia. Qed.
Lemma zlen_block3 k sv : server_ok k sv -> 20 <= zlen (block3 k sv) <= 343 /\ zlen (block3 k sv) mod 16 = 0.
Proof.
  intros Hs. pose proof (zlen_inner3 k sv Hs). destruct (pad3_facts k sv) as [? Hm]. unfold block3.
  rewrite !zlen_app, zlen_sha. pose proof (zlen_nonneg (inner3 k sv)). rewrite Z.add_assoc. split; [lia | done].
Qed.

Definition third_request (k : nat) (sv : server) (ok : ctor_Set_client_DH_params_answer_ok_t) (gb salt : buf_t_)
  : method_set_client_DH_params_t :=
  Set_client_DH_params 0xf5045f1f (Param 0 (mk_ (nonce k)) TYPE_INT128) (got (sv_nonce sv) TYPE_INT128)
    (Param 0 (mk_ (ige_encrypt (tmp_key sv) (tmp_iv sv) (block3 k sv))) TYPE_STRING) ok
    (answer_data sv) (client_data k sv gb) salt.

Lemma xor_zeros l : xor_bytes (zeros (length l)) l = l.
Proof. induction l as [|x l IH]; [done |]. cbn. f_equal. exact IH. Qed.

Lemma run_set_client_init k sv s :
  mticks s = (3 + k)%nat -> server_ok k sv ->
  exists t n gb salt, method_set_client_DH_params_init (first_reply k sv) (second_request k sv (DH_answer sv)) s =
    Ok (third_request k sv zero_answer gb salt, tick (tick (set_types t n s))) /\
    has gb (g_b k sv) /\ has salt (take 8 (sv_nonce sv)).
Proof.
  intros Hk Hs. pose proof (so_nonce _ _ Hs) as Ls. destruct (zlen_tmp sv) as [Lk Lv].
  pose proof (zlen_inner3 k sv Hs) as L3. destruct (zlen_block3 k sv Hs) as [Lb Hm]. destruct (pad3_facts k sv) as [Lp _].
  destruct (run_decrypt k sv s Hs) as (c & Ec & Ha & Hck & Hcv).
  destruct (run_answer k sv s Hs) as (t & n & Et). set (s1 := set_types t n s) in *.
  destruct (run_client_init k sv s1) as (gb & Eg & Hg); [done | done |].
  assert (Hi3 : has (mk_ (inner3 k sv)) (inner3 k sv)) by (apply has_mk; unfold max_buf_size; lia).
  destruct (sha1_has _ _ (tick s1) Hi3 (inner3_bytes k sv Hs)) as (h & Eh & Hh).
  assert (Hsn : has (mk_ (sv_nonce sv)) (sv_nonce sv)) by (apply has_mk; by rewrite Ls).
  assert (Hz8 : has (mk_ (zeros 8)) (zeros 8)) by (by apply has_mk).
  assert (L8 : zlen (take 8 (sv_nonce sv)) = 8) by (unfold zlen in *; rewrite length_take; lia).
  assert (Hs8 : has (mk_ (take 8 (sv_nonce sv))) (take 8 (sv_nonce sv))) by (apply has_mk; by rewrite L8).
  destruct (xor_has _ _ _ _ (tick (tick s1)) Hz8 Hs8) as (salt & Ex & Hsalt); [by rewrite L8 |].
  assert (E8 : xor_bytes (zeros 8) (take 8 (sv_nonce sv)) = take 8 (sv_nonce sv)).
  { replace 8%nat with (length (take 8 (sv_nonce sv))) at 1 by (unfold zlen in L8; lia). apply xor_zeros. }
  rewrite E8 in Hsalt. exists t, n, gb, salt. split; [| exact (conj Hg Hsalt)].
  unfold method_set_client_DH_params_init. rewrite (bind_eq _ _ _ _ _ Ec), Ha, (bind_eq _ _ _ _ _ Et).
  rewrite (bind_eq _ _ _ _ _ Eg). erewrite bind_eq by exact (run_inner3 k sv gb _ Hs Hg). rewrite (bind_eq _ _ _ _ _ Eh).
  rewrite (has_size _ _ Hh), (has_size _ _ Hi3), zlen_sha, (u32_id (20 + zlen (inner3 k sv)))
    by (by apply inner3_u32).
  erewrite bind_eq.
  2: { apply rand_ok_. pose proof (Z.mod_pos_bound (16 - (20 + zlen (inner3 k sv)) mod 16) 16 eq_refl).
       unfold max_buf_size. lia. }
  change (mticks (tick s1)) with (S (mticks s)). rewrite Hk.
  change (rand_bytes (wall (S (3 + k))) _) with (pad3 k sv).
  erewrite bind_eq by (by apply cat_empty).
  erewrite bind_eq by (apply cat_mk; [exact Hi3 | rewrite zlen_sha; unfold max_buf_size; lia]).
  erewrite bind_eq by (apply cat_mk; [apply has_mk; unfold max_buf_size; lia
    | rewrite zlen_app, zlen_sha; unfold max_buf_size; lia]).
  rewrite <- app_assoc. change (sha (inner3 k sv) ++ inner3 k sv ++ pad3 k sv) with (block3 k sv).
  rewrite Hck, Hcv.
  erewrite bind_eq by (eapply aes_e_ok; [apply has_mk; unfold max_buf_size; lia | apply has_mk; by rewrite Lk
    | apply has_mk; by rewrite Lv | done | done | done | lia]).
  change (p_value (pqi_new_nonce (rdh_P_Q_inner_data (second_request k sv (DH_answer sv))))) with (mk_ (zeros 32)).
  assert (Hz32 : has (mk_ (zeros 32)) (zeros 32)) by (by apply has_mk).
  erewrite bind_eq by (apply (add_at _ (zeros 32) 0 8 _ Hz32); done). change (slice (zeros 32) 0 8) with (zeros 8).
  change (p_value (rpq_server_nonce (req_ResPQ (first_reply k sv)))) with (mk_ (sv_nonce sv)).
  erewrite bind_eq by (apply (add_at _ _ 0 8 _ Hsn); rewrite ?Ls; done).
  assert (Es8 : slice (sv_nonce sv) 0 8 = take 8 (sv_nonce sv)) by reflexivity. rewrite Es8.
  rewrite (bind_eq _ _ _ _ _ Ex). reflexivity.
Qed.

(** ** The third round trip *)
Definition gen_ok (sv : server) : ctor_Set_client_DH_params_answer_ok_t :=
  Dh_gen_ok _id_dh_gen_ok (got (sv_nonce4 sv) TYPE_INT128) (got (sv_sn4 sv) TYPE_INT128) (got (sv_hash4 sv) TYPE_INT128).

(** The nonces of the last reply are compared; a difference is reported. *)
Definition complaint (a b : list Z) (e : string) : list string := if decide (a = b) then [] else [e].
Definition complain (l : list string) (s : mtx_t) : mtx_t := foldl (fun s e => reported e s) s l.

Lemma compare_ok a b la lb e s :
  has a la -> has b lb -> zlen la = zlen lb ->
  (same ← buf_cmp_ a b; when (negb same) (log_error e)) s = Ok (tt, complain (complaint la lb e) s).
Proof.
  intros Ha Hb Hl. erewrite bind_eq by (by apply cmp_has). unfold complaint.
  case_bool_decide; case_decide; done.
Qed.

Lemma zlen_string3 k sv : server_ok k sv ->
  zlen (tl_string (ige_encrypt (tmp_key sv) (tmp_iv sv) (block3 k sv))) <= 350.
Proof.
  intros Hs. destruct (zlen_block3 k sv Hs) as [Lb _].
  pose proof (zlen_tl_string_le (ige_encrypt (tmp_key sv) (tmp_iv sv) (block3 k sv))) as Lt.
  rewrite ige_encrypt_length in Lt. lia.
Qed.

Lemma request3_written k sv gb salt :
  server_ok k sv ->
  let m := third_request k sv zero_answer gb salt in
  Forall2 writes [scd_nonce m; scd_server_nonce m; scd_encrypted_data m]
    [nonce k; sv_nonce sv; tl_string (ige_encrypt (tmp_key sv) (tmp_iv sv) (block3 k sv))].
Proof.
  intros Hs m. destruct (nonce_facts k) as [Ln _]. pose proof (so_nonce _ _ Hs) as Ls.
  destruct (zlen_block3 k sv Hs) as [Lb _]. pose proof (zlen_string3 k sv Hs) as Lt.
  repeat apply Forall2_cons_2; [| | | constructor].
  - eapply write_fixed; [apply has_mk; by rewrite Ln | exact Ln | set_solver].
  - eapply write_fixed; [apply has_mk; by rewrite Ls | exact Ls | set_solver].
  - apply write_string; [apply has_mk; rewrite ige_encrypt_length | ]; unfold max_buf_size; lia.
Qed.

Lemma zlen_request3 k sv : server_ok k sv -> 4 + zlen (request3 k sv) <= 400.
Proof.
  intros Hs. destruct (nonce_facts k) as [Ln _]. pose proof (zlen_string3 k sv Hs).
  unfold request3. rewrite zlen_request. cbn [foldr]. rewrite Ln, (so_nonce _ _ Hs). unfold block3 in *. lia.
Qed.

Lemma run_set_client_drive k sv gb salt s :
  mticks s = (5 + k)%nat -> server_ok k sv ->
  recv_reply (sent s ++ [packet3 k sv]) = Some (packet (sv_id3 sv) (le_bytes 4 _id_dh_gen_ok ++ reply3 sv)) ->
  exists t n, method_set_client_DH_params_drive (third_request k sv zero_answer gb salt) s =
    Ok (third_request k sv (gen_ok sv) gb salt,
        complain (complaint (sv_sn4 sv) (sv_sn3 sv) "different server nonce's")
          (complain (complaint (sv_nonce4 sv) (sv_nonce3 sv) "different nonce's")
             (set_types t n (trip (request3 k sv) s)))).
Proof.
  intros Hk Hs Hr. set (m := third_request k sv zero_answer gb salt).
  pose proof (zlen_request3 k sv Hs) as Lr.
  destruct (round_trip 0xf5045f1f _ _ s (sv_id3 sv) _id_dh_gen_ok (reply3 sv) (request3_written k sv gb salt Hs))
    as (a & a' & Ea & Ed & Ho); fold (block3 k sv) in *.
  - change (zlen (request3 k sv) + 24 <= max_buf_size). unfold max_buf_size. lia.
  - done.
  - change (recv_reply (sent s ++ [packet (clock (mticks s)) (request3 k sv)]) =
      Some (packet (sv_id3 sv) (le_bytes 4 _id_dh_gen_ok ++ reply3 sv))). rewrite Hk. exact Hr.
  - unfold method_set_client_DH_params_drive.
    change (sil_abstract (of_set_client_DH_params m)) with
      (abstract_of RFC 0xf5045f1f [scd_nonce m; scd_server_nonce m; scd_encrypted_data m]).
    rewrite (bind_eq _ _ _ _ _ Ea), (bind_eq _ _ _ _ _ Ed).
    pose proof (concrete_ok 2 _id_dh_gen_ok (reply3 sv) a' (trip (request3 k sv) s) (put_answer_ok (gen_ok sv)) Ho) as Et.
    set (t := fresh_types (trip (request3 k sv) s)) in *. set (n := fresh_flag (trip (request3 k sv) s)) in *.
    exists (put_answer_ok (gen_ok sv) t), n.
    assert (Hh : forall l, zlen l = 16 -> has (mk_ l) l) by (intros l Hl; apply has_mk; by rewrite Hl).
    erewrite bind_eq by (apply Et; [done |]; intros s' c; apply dh_gen_read; apply Hs).
    destruct (types_put t) as (_ & _ & _ & ->). cbv zeta.
    set (s1 := set_types _ n (trip (request3 k sv) s)).
    change (p_value (ans_nonce (gen_ok sv))) with (mk_ (sv_nonce4 sv)).
    change (p_value (ans_server_nonce (gen_ok sv))) with (mk_ (sv_sn4 sv)).
    change (p_value (sdh_nonce (scd_Server_DH_inner_data m))) with (mk_ (sv_nonce3 sv)).
    change (p_value (sdh_server_nonce (scd_Server_DH_inner_data m))) with (mk_ (sv_sn3 sv)).
    pose proof (compare_ok _ _ _ _ "different nonce's" s1 (Hh _ (so_nonce4 _ _ Hs)) (Hh _ (so_nonce3 _ _ Hs))) as E1.
    rewrite (so_nonce4 _ _ Hs), (so_nonce3 _ _ Hs) in E1. specialize (E1 eq_refl).
    apply bind_inv in E1 as (b1 & s2 & E1 & E1'). rewrite (bind_eq _ _ _ _ _ E1), (bind_eq _ _ _ _ _ E1').
    set (s3 := complain _ s1).
    pose proof (compare_ok _ _ _ _ "different server nonce's" s3 (Hh _ (so_sn4 _ _ Hs)) (Hh _ (so_sn3 _ _ Hs))) as E2.
    rewrite (so_sn4 _ _ Hs), (so_sn3 _ _ Hs) in E2. specialize (E2 eq_refl).
    apply bind_inv in E2 as (b2 & s4 & E2 & E2'). rewrite (bind_eq _ _ _ _ _ E2), (bind_eq _ _ _ _ _ E2').
    reflexivity.
Qed.

(** ** The whole exchange *)
Lemma complain_fields l s :
  errors (complain l s) = errors s ++ l /\ sent (complain l s) = sent s /\ mticks (complain l s) = mticks s.
Proof.
  revert s. induction l as [|e l IH]; intros s; [by rewrite app_nil_r |].
  destruct (IH (reported e s)) as (E1 & E2 & E3). cbn [complain foldl].
  unfold complain in *. rewrite E1, E2, E3. cbn. by rewrite <- app_assoc.
Qed.

(** What a round trip leaves behind, whatever the parsed types. *)
Lemma trip_fields t n body s s' :
  s' = set_types t n (trip body s) ->
  sent s' = sent s ++ [packet (clock (mticks s)) body] /\ mticks s' = S (mticks s) /\
  errors s' = errors s ++ [mismatch].
Proof. intros ->. split_and!; reflexivity. Qed.
Lemma ticks_fields t n s s' :
  s' = tick (tick (set_types t n s)) ->
  sent s' = sent s /\ mticks s' = S (S (mticks s)) /\ errors s' = errors s.
Proof. intros ->. split_and!; reflexivity. Qed.

(** The exchange up to the key: the three messages, and how the state stands. *)
Lemma auth_state k sv s :
  mticks s = k -> server_ok k sv -> serves k sv (sent s) -> rsa_key_ok ->
  msize (junk_buf in_req_DH_params) = 0 ->
  exists gb salt s5, has gb (g_b k sv) /\ has salt (take 8 (sv_nonce sv)) /\
    srl_auth s = (key ← cmn_pow_mod (mk_ (sv_g_a sv)) (mk_ (secret k)) (mk_ (sv_prime sv));
                  modify (set_shared key salt) : M unit) s5 /\
    sent s5 = sent s ++ [packet1 k; packet2 k sv; packet3 k sv] /\
    errors s5 = errors s ++ [mismatch; mismatch; mismatch]
      ++ complaint (sv_nonce4 sv) (sv_nonce3 sv) "different nonce's"
      ++ complaint (sv_sn4 sv) (sv_sn3 sv) "different server nonce's".
Proof.
  intros Hk Hs Hsv Hrsa Hj. pose proof Hsv as (Hr1 & Hr2 & Hr3).
  pose proof (run_req_pq k sv s Hk Hs Hr1) as E1. apply bind_inv in E1 as (m & s0 & E0 & E1).
  remember (set_types _ _ (trip (request1 k) (tick s))) as s1 eqn:Q1.
  destruct (trip_fields _ _ _ _ _ Q1) as (S1 & K1 & R1). cbn [sent mticks errors tick] in S1, K1, R1.
  rewrite Hk in S1, K1. fold (packet1 k) in S1.
  destruct (run_DH_drive k sv s1 K1 Hs Hrsa) as (t2 & n2 & E2); [rewrite S1; exact Hr2 |].
  remember (set_types t2 n2 (trip (request2 k sv) s1)) as s2 eqn:Q2.
  destruct (trip_fields _ _ _ _ _ Q2) as (S2 & K2 & R2). rewrite K1 in S2, K2. rewrite S1 in S2. fold (packet2 k sv) in S2.
  destruct (run_set_client_init k sv s2 K2 Hs) as (t3 & n3 & gb & salt & E3 & Hg & Hsalt).
  remember (tick (tick (set_types t3 n3 s2))) as s3 eqn:Q3.
  destruct (ticks_fields _ _ _ _ Q3) as (S3 & K3 & R3). rewrite K2 in K3. rewrite S2 in S3.
  destruct (run_set_client_drive k sv gb salt s3 K3 Hs) as (t4 & n4 & E4); [rewrite S3; exact Hr3 |].
  remember (set_types t4 n4 (trip (request3 k sv) s3)) as s4 eqn:Q4.
  destruct (trip_fields _ _ _ _ _ Q4) as (S4 & _ & R4). rewrite S3, K3 in S4. fold (packet3 k sv) in S4.
  set (e1 := complaint (sv_nonce4 sv) (sv_nonce3 sv) "different nonce's") in *.
  set (e2 := complaint (sv_sn4 sv) (sv_sn3 sv) "different server nonce's") in *.
  destruct (complain_fields e1 s4) as (R5 & S5 & _). destruct (complain_fields e2 (complain e1 s4)) as (R6 & S6 & _).
  exists gb, salt, (complain e2 (complain e1 s4)). split_and!; [exact Hg | exact Hsalt | | |].
  - unfold srl_auth. rewrite (bind_eq _ _ _ _ _ E0), (bind_eq _ _ _ _ _ E1).
    rewrite (bind_eq _ _ _ _ _ (run_DH_init k sv s1 Hs Hrsa Hj)), (bind_eq _ _ _ _ _ E2).
    rewrite (bind_eq _ _ _ _ _ E3), (bind_eq _ _ _ _ _ E4). reflexivity.
  - rewrite S6, S5, S4, <- !app_assoc. reflexivity.
  - rewrite R6, R5, R4, R3, R2, R1, <- !app_assoc. reflexivity.
Qed.

Lemma auth_ok k sv s :
  mticks s = k -> server_ok k sv -> serves k sv (sent s) -> rsa_key_ok ->
  msize (junk_buf in_req_DH_params) = 0 ->
  exists s', srl_auth s = Ok (tt, s') /\
    sent s' = sent s ++ [packet1 k; packet2 k sv; packet3 k sv] /\
    has (rc_key s') (negotiated k sv) /\ has (rc_salt s') (take 8 (sv_nonce sv)) /\
    errors s' = errors s ++ [mismatch; mismatch; mismatch]
      ++ complaint (sv_nonce4 sv) (sv_nonce3 sv) "different nonce's"
      ++ complaint (sv_sn4 sv) (sv_sn3 sv) "different server nonce's".
Proof.
  intros Hk Hs Hsv Hrsa Hj. destruct (auth_state k sv s Hk Hs Hsv Hrsa Hj) as (gb & salt & s5 & Hg & Hsalt & E & Es & Er).
  destruct (so_bytes _ _ Hs) as (_ & _ & _ & _ & Bp & Ba & _). destruct (secret_facts k) as [Lb Bs].
  assert (Hl : forall l, zlen l = 256 -> has (mk_ l) l) by (intros l Hl; apply has_mk; by rewrite Hl).
  destruct (pow_mod_ok (mk_ (sv_g_a sv)) (mk_ (secret k)) (mk_ (sv_prime sv)) (sv_g_a sv) (secret k)
    (sv_prime sv) s5 (Hl _ (so_g_a _ _ Hs)) (Hl _ Lb) (Hl _ (so_prime _ _ Hs)) Ba Bs Bp
    Lb (so_prime _ _ Hs) (so_modulus _ _ Hs) (so_key _ _ Hs)) as (key & Ek & Hkey).
  exists (set_shared key salt s5). split_and!; [| exact Es | exact Hkey | exact Hsalt | exact Er].
  rewrite E, (bind_eq _ _ _ _ _ Ek). reflexivity.
Qed.
End Auth.
