(* ===== verification/Negotiation.v ===== *)
(** * The negotiated key: what srl_auth promises and what it does not

    With an honest server both sides hold the same key.  A server whose
    nonces and hashes are wrong is reported at most, and replies the code
    does not expect take it past the end of its buffers. *)
From Stdlib Require Import Zpow_facts.
From stdpp Require Import strings.
From S2P Require Import Prelude TlBuf Serial HashCommon Sha1 Tg Packet Mtx MtxLayers Handshake MtxFacts HandshakeFacts Auth.

Section Negotiation.
Context `{Env} `{Frame} `{OpenSSL} `{BigNum} `{Factor} `{Peer}.

(** ** Diffie-Hellman *)
Lemma be_num_be_bytes4 z : is_u32 z -> be_num (be_bytes 4 z) = z.
Proof. intros Hz. unfold be_bytes. unfold be_num. rewrite rev_involutive, le_num_bytes4. by apply u32_id. Qed.

Lemma pow_mod_swap g a b p : 0 < p -> 0 <= a -> 0 <= b -> (g ^ a mod p) ^ b mod p = (g ^ b mod p) ^ a mod p.
Proof.
  intros Hp Ha Hb. rewrite <- !Zpower_mod by lia. by rewrite <- !Z.pow_mul_r, Z.mul_comm by lia.
Qed.

(** What the two sides compute. *)
Lemma pow_bytes_num g e m :
  bytes_ok g -> bytes_ok e -> bytes_ok m -> 0 < be_num m ->
  pow_bytes g e m = bn2bin (be_num g ^ be_num e mod be_num m).
Proof.
  intros Bg Be Bm Hm. unfold pow_bytes. by rewrite mod_exp_num by (done || by apply be_num_nonneg).
Qed.

Lemma keys_agree k sv a :
  server_ok k sv -> 0 <= a -> is_u32 (sv_g sv) ->
  be_num (sv_g_a sv) = sv_g sv ^ a mod be_num (sv_prime sv) ->
  negotiated k sv = bn2bin (be_num (g_b k sv) ^ a mod be_num (sv_prime sv)).
Proof.
  intros Hs Ha Hg Eg. destruct (so_bytes _ _ Hs) as (_ & _ & _ & _ & Bp & Ba & _). pose proof (so_modulus _ _ Hs) as Hp.
  destruct (secret_facts k) as [_ Bs]. pose proof (be_num_nonneg _ Bs) as Hb.
  unfold negotiated, g_b. rewrite !pow_bytes_num by (done || apply be_bytes_ok).
  rewrite be_num_be_bytes4 by done.
  rewrite (bn2bin_num (_ mod _)) by (apply Z.mod_pos_bound, Hp). rewrite Eg. f_equal. by apply pow_mod_swap.
Qed.

(** C19: provided the variable [dwh] of method_req_DH_params_init, which the
    code reads before it writes it, happens to hold an empty buffer (nothing
    the code does makes it so): against a server whose [g_a] is [g ^ a mod p] and which echoes the
    nonces, [srl_auth] sends three packets and returns.  The key it stores is the
    one the server computes from the [g_b] in the third packet, whose
    encrypted part opens under the temporary key; the salt is the first half
    of the server nonce, and the only complaints are the three about the
    length word. *)
Theorem srl_auth_agrees k sv a s :
  mticks s = k -> server_ok k sv -> serves k sv (sent s) -> rsa_key_ok ->
  msize (junk_buf in_req_DH_params) = 0 ->
  0 <= a -> is_u32 (sv_g sv) -> be_num (sv_g_a sv) = sv_g sv ^ a mod be_num (sv_prime sv) ->
  sv_nonce4 sv = sv_nonce3 sv -> sv_sn4 sv = sv_sn3 sv ->
  exists s', srl_auth s = Ok (tt, s') /\
    sent s' = sent s ++ [packet1 k; packet2 k sv; packet3 k sv] /\
    ige_decrypt (tmp_key sv) (tmp_iv sv) (ige_encrypt (tmp_key sv) (tmp_iv sv) (block3 k sv)) = block3 k sv /\
    has (rc_key s') (bn2bin (be_num (g_b k sv) ^ a mod be_num (sv_prime sv))) /\
    has (rc_salt s') (take 8 (sv_nonce sv)) /\
    errors s' = errors s ++ [mismatch; mismatch; mismatch].
Proof.
  intros Hk Hs Hsv Hrsa Hj Ha Hg Eg E4 E4'.
  destruct (auth_ok k sv s Hk Hs Hsv Hrsa Hj) as (s' & E & Es & Hkey & Hsalt & Er).
  exists s'. rewrite (keys_agree k sv a Hs Ha Hg Eg) in Hkey. rewrite E4, E4' in Er.
  unfold complaint in Er. rewrite !decide_True in Er by done.
  destruct (zlen_tmp sv) as [Lk Lv]. destruct (zlen_block3 k sv Hs) as [_ Lb].
  split_and!; try assumption. apply ige_inverse; try assumption.
  apply Forall_app_2; [apply sha_bytes |]. apply Forall_app_2; [by apply inner3_bytes | apply rand_bytes_ok].
Qed.

(** C20: nothing the server sends is verified.  Provided again that the
    uninitialised [dwh] happens to be empty, whatever nonces, hashes and
    RSA key are on the other side, the key is stored.  A wrong nonce in the
    last reply is reported, one in the earlier replies is not even compared.
    The key is the power of [g_a] by bytes that the second of the clock
    determines. *)
Theorem srl_auth_unverified k sv s :
  mticks s = k -> server_ok k sv -> serves k sv (sent s) -> rsa_key_ok ->
  msize (junk_buf in_req_DH_params) = 0 -> sv_nonce4 sv <> sv_nonce3 sv -> sv_sn4 sv <> sv_sn3 sv ->
  exists s', srl_auth s = Ok (tt, s') /\
    has (rc_key s') (bn2bin (be_num (sv_g_a sv) ^ be_num (rand_bytes (wall (3 + k)%nat) 256) mod be_num (sv_prime sv))) /\
    errors s' = errors s ++ [mismatch; mismatch; mismatch; "different nonce's"; "different server nonce's"].
Proof.
  intros Hk Hs Hsv Hrsa Hj N1 N2. destruct (auth_ok k sv s Hk Hs Hsv Hrsa Hj) as (s' & E & _ & Hkey & _ & Er).
  destruct (so_bytes _ _ Hs) as (_ & _ & _ & _ & Bp & Ba & _). destruct (secret_facts k) as [_ Bs].
  exists s'. unfold negotiated in Hkey. rewrite (pow_bytes_num _ _ _ Ba Bs Bp (so_modulus _ _ Hs)) in Hkey.
  unfold complaint in Er. rewrite !decide_False in Er by done. split_and!; [exact E | exact Hkey | exact Er].
Qed.

(** ** Replies the code does not expect *)
Lemma resPQ_overflow c n sn pq fps s :
  zlen n = 16 -> zlen sn = 16 -> zlen pq = 8 -> 96 < zlen fps -> zlen fps mod 8 = 0 ->
  zlen (n ++ sn ++ tl_string pq ++ tl_vector fps) <= max_buf_size ->
  read_object c _id_resPQ (mk_ (n ++ sn ++ tl_string pq ++ tl_vector fps)) s = Err OutOfBounds.
Proof.
  intros Ln Ls Lp Lf Hm Hl. assert (Lt : zlen (tl_string pq) = 12) by (rewrite zlen_tl_string, Lp; reflexivity).
  assert (Lw : zlen (tl_string pq ++ tl_vector fps) <= max_buf_size).
  { rewrite !(zlen_app n), (zlen_app sn) in Hl. lia. }
  assert (Lv : zlen (tl_vector fps) <= max_buf_size) by (rewrite zlen_app in Lw; lia).
  assert (E8 : zlen (tl_vector fps) = 8 + zlen fps) by (unfold tl_vector; rewrite !zlen_app, !zlen_le_bytes; lia).
  unfold read_object. rewrite Z.eqb_refl. unfold read_resPQ. apply read_two_nonces; [done | done | done |].
  eapply st_bind_step; [by apply field_ok, read_string | cbv beta iota].
  eapply st_bind_step; [apply skip_string_ok; [done | lia] | cbv beta iota].
  apply bind_err. unfold field, sel_deserialize_param, deserialize_with. cbn [p_type p_value].
  apply bind_err. rewrite vector_head by (done || lia).
  rewrite <- (take_drop 8 fps) at 2.
  apply fingerprint_overflow; [unfold zlen in *; rewrite length_take; lia | rewrite take_drop; lia | lia | modlia].
Qed.

Lemma ids_u32 : is_u32 _id_resPQ /\ is_u32 _id_Server_DH_Params_ok.
Proof. done. Qed.

(** C21: a server that announces more than twelve key fingerprints makes the
    reader of the first reply write past its array. *)
Theorem srl_auth_fingerprints_overflow s rid n sn pq fps :
  zlen n = 16 -> zlen sn = 16 -> zlen pq = 8 -> 96 < zlen fps -> zlen fps mod 8 = 0 ->
  recv_reply (sent s ++ [packet1 (mticks s)]) =
    Some (packet rid (le_bytes 4 _id_resPQ ++ n ++ sn ++ tl_string pq ++ tl_vector fps)) ->
  srl_auth s = Err OutOfBounds.
Proof.
  intros Ln Ls Lp Lf Hm Hr. pose proof (recv_bound _ _ Hr) as Hb.
  rewrite zlen_packet, zlen_app, zlen_le_bytes in Hb.
  destruct (send_req_pq (mticks s) s rid _id_resPQ _ eq_refl ltac:(done) Hr) as (a' & Ho & E).
  rewrite (bind_err (sil_concrete 2 a') _ _ OutOfBounds) in E.
  2: { apply (concrete_err 2 _id_resPQ _ _ _ OutOfBounds Ho (proj1 ids_u32)). intros s' c.
       apply resPQ_overflow; try assumption. lia. }
  unfold srl_auth. apply bind_inv_err in E as [E | (m & s' & E1 & E2)]; [by apply bind_err |].
  rewrite (bind_eq _ _ _ _ _ E1). by apply bind_err.
Qed.
(** The reply [server_DH_params_fail]. *)
Definition _id_Server_DH_Params_fail : Z := 0x79cb045d.

Lemma fail_read c rest s :
  read_object c _id_Server_DH_Params_fail (mk_ rest) s = Ok (tt, reported "unknown id" s).
Proof. reflexivity. Qed.

Lemma fail_u32 : is_u32 _id_Server_DH_Params_fail.
Proof. done. Qed.

(** The types read before are kept when the next reply is looked at. *)
Lemma fresh_again s t r b s1 :
  s1 = set_types (put_ResPQ r (fresh_types s)) (fresh_flag s) t ->
  t_Server_DH_Params_ok (fresh_types s) = zero_DH_ok ->
  t_Server_DH_Params_ok (fresh_types (trip b s1)) = zero_DH_ok.
Proof.
  intros -> E. unfold fresh_types at 1, fresh_flag. cbn [trip reported wrote tick set_types types types_flag].
  replace ((if types_flag s =? 0 then 1 else types_flag s) =? 0) with false by (destruct (types_flag s =? 0) eqn:Ef; lia).
  by destruct (fresh_types s).
Qed.

(** Without an answer the size of the plain text wraps below zero. *)
Lemma no_answer_overflow k sv s :
  server_ok k sv ->
  ctor_Server_DH_inner_data_init (first_reply k sv) (second_request k sv zero_DH_ok) s = Err OutOfBounds.
Proof.
  intros Hs. rewrite decrypt_keys by done. destruct (tmp_has sv) as [Hk Hv]. destruct (zlen_tmp sv) as [Lk Lv].
  change (p_value (dhp_encrypted_answer zero_DH_ok)) with empty_.
  assert (He : has empty_ []) by (rewrite empty_mk; by apply has_mk).
  assert (E : aes_run ige_decrypt empty_ (mk_ (tmp_key sv)) (mk_ (tmp_iv sv)) = Ok (mdata empty_)).
  { rewrite (aes_run_ok _ empty_ _ _ [] _ _ He Hk Hv Lk Lv eq_refl ige_decrypt_length).
    pose proof (ige_decrypt_length (tmp_key sv) (tmp_iv sv) []) as L. change (zlen []) with 0 in L.
    assert (E0 : ige_decrypt (tmp_key sv) (tmp_iv sv) [] = []) by (apply nil_length_inv; unfold zlen in L; lia).
    rewrite E0. reflexivity. }
  eapply st_bind_step; [unfold cry_aes_d; eapply st_bind_step; [exact (lift_eq _ _ _ E) | reflexivity] |].
  apply bind_err. unfold skip. apply add_wrapped. reflexivity.
Qed.

(** the error reply of the second step, [server_DH_params_fail], is an
    unknown object: it is reported and the program goes on with the answer
    it does not have, to copy four thousand million bytes. *)
Theorem srl_auth_params_fail k sv s rid rest :
  mticks s = k -> server_ok k sv -> rsa_key_ok -> msize (junk_buf in_req_DH_params) = 0 ->
  t_Server_DH_Params_ok (fresh_types s) = zero_DH_ok ->
  recv_reply (sent s ++ [packet1 k]) = Some (packet (sv_id1 sv) (le_bytes 4 _id_resPQ ++ reply1 sv)) ->
  recv_reply ((sent s ++ [packet1 k]) ++ [packet2 k sv]) =
    Some (packet rid (le_bytes 4 _id_Server_DH_Params_fail ++ rest)) ->
  srl_auth s = Err OutOfBounds.
Proof.
  intros Hk Hs Hrsa Hj Ht Hr1 Hr2. pose proof (run_req_pq k sv s Hk Hs Hr1) as E1.
  apply bind_inv in E1 as (m & s0 & E0 & E1).
  remember (set_types _ _ (trip (request1 k) (tick s))) as s1 eqn:Q1.
  destruct (trip_fields _ _ _ _ _ Q1) as (S1 & K1 & _). cbn [sent mticks tick] in S1, K1.
  rewrite Hk in S1, K1. change (sent s1 = sent s ++ [packet1 k]) in S1. rewrite <- S1 in Hr2.
  destruct (send_DH k sv s1 _ _ _ K1 Hs Hrsa fail_u32 Hr2) as (a' & Ho & E2).
  rewrite (bind_eq _ _ _ _ _ (concrete_unknown 2 _ _ _ _ Ho fail_u32 (fun s c => fail_read c rest s))) in E2.
  assert (E : t_Server_DH_Params_ok (fresh_types (trip (request2 k sv) s1)) = zero_DH_ok) by exact (fresh_again s _ _ _ s1 Q1 Ht).
  rewrite E in E2. unfold srl_auth. rewrite (bind_eq _ _ _ _ _ E0), (bind_eq _ _ _ _ _ E1).
  rewrite (bind_eq _ _ _ _ _ (run_DH_init k sv s1 Hs Hrsa Hj)), (bind_eq _ _ _ _ _ E2).
  apply bind_err. unfold method_set_client_DH_params_init. apply bind_err, no_answer_overflow, Hs.
Qed.
End Negotiation.
