(* ===== verification/TlParser.v ===== *)
(** * The schema parser: libtg/tl_generator/tl_parser.c

    The generator of the serialisers reads the schema line by line.  Lines
    are taken apart with [strtok], which cuts the string in place and keeps
    its position; the calls here are always on strings of their own, so a
    string is a list of characters and the position the rest of it. *)
From stdpp Require Import strings.
From S2P Require Import Prelude TlBuf Serial Errors.

(** ** The C library *)
Definition among (delim : list Z) (c : Z) : bool := existsb (Z.eqb c) delim.

Fixpoint skip_delim (delim s : list Z) : list Z :=
  match s with c :: s' => if among delim c then skip_delim delim s' else s | [] => [] end.
(** The characters up to the first delimiter, and what follows it. *)
Fixpoint span_token (delim s : list Z) : list Z * list Z :=
  match s with
  | [] => ([], [])
  | c :: s' => if among delim c then ([], s') else let r := span_token delim s' in (c :: fst r, snd r)
  end.

(** [strtok(s, delim)]: the token and what the next [strtok(NULL, ...)]
    starts from. *)
Definition strtok (delim s : list Z) : option (list Z * list Z) :=
  match skip_delim delim s with [] => None | s => Some (span_token delim s) end.

(** What is left of the string at [s] when its first token has been cut. *)
Definition cut_at_token (delim s : list Z) : list Z :=
  take (length s - length (skip_delim delim s)) s ++ fst (span_token delim (skip_delim delim s)).

(** The tokens of [strtok_foreach]; every call shortens the string. *)
Fixpoint tokens_ (n : nat) (delim s : list Z) : list (list Z) :=
  match n with
  | O => []
  | S n => match strtok delim s with None => [] | Some (t, r) => t :: tokens_ n delim r end
  end.
Definition strtok_foreach (delim s : list Z) : list (list Z) := tokens_ (S (length s)) delim s.

Definition hex_value (c : Z) : option Z :=
  if is_digit c then Some (c - 48)
  else if (97 <=? c) && (c <=? 102) then Some (c - 87)
  else if (65 <=? c) && (c <=? 70) then Some (c - 55)
  else None.
Definition dec_value (c : Z) : option Z := if is_digit c then Some (c - 48) else None.

(** The value of the digits at the start and what follows; [None] without a
    digit. *)
Fixpoint scan_digits (value : Z -> option Z) (base acc : Z) (s : list Z) : Z * list Z :=
  match s with
  | c :: s' => match value c with Some d => scan_digits value base (acc * base + d) s' | None => (acc, s) end
  | [] => (acc, [])
  end.
Definition scan_number (value : Z -> option Z) (base : Z) (s : list Z) : option (Z * list Z) :=
  match s with
  | c :: s' => match value c with Some _ => Some (scan_digits value base 0 s) | None => None end
  | [] => None
  end.
Definition scan_sign (s : list Z) : bool * list Z :=
  match s with
  | c :: t => if c =? 45 then (true, t) else if c =? 43 then (false, t) else (false, s)
  | [] => (false, [])
  end.

Section TlParser.
Context `{Platform}.

(** [%x]: [strtoul] in base 16 with an optional [0x], stored as an int. *)
Definition scan_x (s : list Z) : option (Z * list Z) :=
  let '(neg, s) := scan_sign (skip_spaces s) in
  let s := match s with
           | a :: b :: t => if (a =? 48) && ((b =? 120) || (b =? 88)) then t else s
           | _ => s
           end in
  match scan_number hex_value 16 s with
  | None => None
  | Some (v, r) => Some (if v <=? 2 ^ long_bits - 1 then u32 (if neg : bool then - v else v)
                         else u32 (2 ^ long_bits - 1), r)
  end.
(** [%d]: [strtol] in base 10. *)
Definition scan_d (s : list Z) : option (Z * list Z) :=
  let '(neg, s) := scan_sign (skip_spaces s) in
  match scan_number dec_value 10 s with
  | None => None
  | Some (v, r) =>
      Some (i32 (Z.min (2 ^ (long_bits - 1) - 1) (Z.max (- 2 ^ (long_bits - 1)) (if neg : bool then - v else v))), r)
  end.

(** What follows a literal part of a format. *)
Definition literal (pat s : list Z) : option (list Z) :=
  if starts_with pat s then Some (drop (length pat) s) else None.

(** ** Declarations *)
Record arg_t := Arg { arg_name : list Z; arg_type : option (list Z); flagn : Z; flagb : Z }.
(** [args] holds the first [argc] of the 64 entries. *)
Record method_t := Method {
  method_name : option (list Z); method_id : Z; method_ret : option (list Z);
  args : list arg_t; nflags : Z
}.
Definition argc (m : method_t) : Z := Z.of_nat (length (args m)).
Definition zero_method : method_t := Method None 0 None [] 0.
Definition set_name v m := Method v (method_id m) (method_ret m) (args m) (nflags m).
Definition set_id v m := Method (method_name m) v (method_ret m) (args m) (nflags m).
Definition set_ret v m := Method (method_name m) (method_id m) v (args m) (nflags m).
Definition set_args v m := Method (method_name m) (method_id m) (method_ret m) v (nflags m).
Definition set_nflags v m := Method (method_name m) (method_id m) (method_ret m) (args m) v.

(** [if (sscanf(flag, "flags.%d", &flagb) < 1) sscanf(flag, "flags%d.%d",
    &flagn, &flagb)], from [flagn = 1] and [flagb = 0]. *)
Definition scan_flag (flag : list Z) : Z * Z :=
  let first := s ← literal (chars "flags.") flag; scan_d s in
  match first with
  | Some (b, _) => (1, b)
  | None =>
      match s ← literal (chars "flags") flag; scan_d s with
      | None => (1, 0)
      | Some (n, s) =>
          match s ← literal (chars ".") s; scan_d s with
          | Some (b, _) => (n, b)
          | None => (n, 0)
          end
      end
  end.

Definition parse_method_args (m : method_t) (buf : list Z) : res method_t :=
  _ ← guard_res (argc m <? 64) OutOfBounds;
  match strtok (chars ":") buf with
  | None => Err NullDeref
  | Some (name, rest) =>
      let is_flags := match strstr name (chars "flags") with Some _ => zlen name <? 7 | None => false end in
      let m := if is_flags then set_nflags (nflags m + 1) m else m in
      let t :=
        match strtok (chars ":") rest with
        | None => Arg name None 0 0
        | Some (ftype, _) =>
            match strtok (chars "?") ftype with
            | None => Arg name (Some ftype) 0 0
            | Some (flag, rest) =>
                match strtok (chars "?") rest with
                | Some (type, _) => let fl := scan_flag flag in Arg name (Some type) (fst fl) (snd fl)
                | None => Arg name (Some (cut_at_token (chars "?") ftype)) 0 0
                end
            end
        end in
      Ok (set_args (args m ++ [t]) m)
  end.

Fixpoint id_and_args_loop (m : method_t) (idx : Z) (l : list (list Z)) : res method_t :=
  match l with
  | [] => Ok m
  | arg :: l =>
      if idx =? 1 then
        let m := match scan_x arg with Some (v, _) => set_id v m | None => m end in
        id_and_args_loop m (idx + 1) l
      else if bool_decide (arg = chars "{X:Type}") then id_and_args_loop m idx l
      else m ← parse_method_args m arg; id_and_args_loop m idx l
  end.
Definition parse_method_id_and_args (m : method_t) (buf : list Z) (idx : Z) : res method_t :=
  id_and_args_loop m idx (strtok_foreach (chars " ") buf).

Fixpoint parse_method_loop (m : method_t) (idx : Z) (l : list (list Z)) : res method_t :=
  match l with
  | [] => Ok m
  | str :: l =>
      if idx =? 0 then
        let slash := match str with c :: _ => c =? 47 | [] => false end in
        _ ← guard_res (negb slash || (2 <=? zlen str)) OutOfBounds;
        let m := set_name (Some (if slash then drop 2 str else str)) m in
        parse_method_loop m (idx + 1) l
      else
        match strstr str (chars "{t:Type}") with
        | Some _ =>
            match strtok (chars " ") str with
            | None => Err NullDeref
            | Some (arg, rest) =>
                let m := match scan_x arg with Some (v, _) => set_id v m | None => m end in
                Ok (set_ret (fst <$> strtok (chars "{t:}") rest) m)
            end
        | None =>
            m ← parse_method_id_and_args m str idx;
            parse_method_loop m (idx + 1) l
        end
  end.
Definition parse_method (m : method_t) (buf : list Z) : res method_t :=
  parse_method_loop m 0 (strtok_foreach (chars "#") buf).

Definition parse_method_return (m : method_t) (buf : list Z) : method_t :=
  match strtok (chars " ;") buf with None => m | Some (ret, _) => set_ret (Some ret) m end.

(** ** The file *)
(** [fgets(buf, size, fp)]: up to [size - 1] characters, up to the newline. *)
Fixpoint fgets (n : nat) (fp : list Z) : list Z * list Z :=
  match n, fp with
  | S n, c :: fp => if c =? 10 then ([c], fp) else let r := fgets n fp in (c :: fst r, snd r)
  | _, _ => ([], fp)
  end.

(** The string in the buffer. *)
Fixpoint before_nul (s : list Z) : list Z :=
  match s with c :: s => if c =? 0 then [] else c :: before_nul s | [] => [] end.

Context {U : Type}.
(** The callback: a declaration or the text of an error; not 0 to stop. *)
Definition callback_t : Type := U -> option method_t -> option (list Z) -> Z * U.

(** What becomes of a line: skipped, the number of the line as the result,
    or a declaration. *)
Inductive line_result := Skip | Stop (i : Z) | Decl (m : method_t).

Definition parse_line (i : Z) (buf : list Z) : res line_result :=
  let s := before_nul buf in
  if bool_decide (s = []) || match s with c :: _ => (c =? 32) || (c =? 10) | [] => false end then Ok Skip
  else
    match strtok (chars "=") s with
    | None => Ok (Stop i)
    | Some (method, rest) =>
        match strtok (chars "=") rest with
        | None => Ok Skip
        | Some (ret, _) =>
            let m := parse_method_return zero_method ret in
            m ← parse_method m method;
            match method_name m with
            | None => Err NullDeref
            | Some name =>
                if existsb (Z.eqb 63) name then Ok Skip
                else if method_id m =? 0 then Ok Skip
                else Ok (Decl m)
            end
        end
    end.

(** Every read takes at least a character: the length of the file is fuel
    enough. *)
Fixpoint parse_schema (fuel : nat) (i : Z) (fp : list Z) (userdata : U) (callback : option callback_t) : res (Z * U) :=
  match fp with
  | [] => Ok (0, userdata)
  | _ =>
      match fuel with
      | O => Err NoFuel
      | S fuel =>
          let r := fgets (Z.to_nat (BUFSIZ * 2 - 1)) fp in
          l ← parse_line i (fst r);
          match l with
          | Skip => parse_schema fuel (i + 1) (snd r) userdata callback
          | Stop i => Ok (i, userdata)
          | Decl m =>
              match callback with
              | None => parse_schema fuel (i + 1) (snd r) userdata callback
              | Some f =>
                  let c := f userdata (Some m) None in
                  if negb (fst c =? 0) then Ok (0, snd c)
                  else parse_schema fuel (i + 1) (snd r) (snd c) callback
              end
          end
      end
  end.

(** [schema_file]: the contents, or [None] when it cannot be opened. *)
Definition tl_parse (schema_file : option (list Z)) (userdata : U) (callback : option callback_t) : res (Z * U) :=
  match schema_file with
  | None =>
      Ok (1, match callback with None => userdata | Some f => snd (f userdata None (Some (chars "can't open file"))) end)
  | Some fp => parse_schema (length fp) 1 fp userdata callback
  end.
End TlParser.
