(* ===== verification/TlParserFacts.v ===== *)
(** * The schema parser reads what a schema says

    A printer for schemas in the syntax of TL, and the round trip: parsing
    the text of a schema hands its declarations to the callback. *)
From stdpp Require Import strings.
From S2P Require Import Prelude TlBuf Serial Errors TlParser.

(** ** Tokens *)
Lemma skip_delim_none delim c s : among delim c = false -> skip_delim delim (c :: s) = c :: s.
Proof. intros E. cbn [skip_delim]. by rewrite E. Qed.

Definition free_of (delim s : list Z) : Prop := Forall (fun c => among delim c = false) s.

Lemma free_app delim a b : free_of delim (a ++ b) <-> free_of delim a /\ free_of delim b.
Proof. apply Forall_app. Qed.

Lemma span_free delim t d r : free_of delim t -> among delim d = true -> span_token delim (t ++ d :: r) = (t, r).
Proof.
  intros Ht Hd. induction Ht as [|c t Hc Ht IH]; [cbn; by rewrite Hd |]. cbn [app span_token]. by rewrite Hc, IH.
Qed.
Lemma span_end delim t : free_of delim t -> span_token delim t = (t, []).
Proof. intros Ht. induction Ht as [|c t Hc Ht IH]; [done |]. cbn [span_token]. by rewrite Hc, IH. Qed.
Lemma skip_free delim t : free_of delim t -> skip_delim delim t = t.
Proof. intros Ht. destruct Ht; [done | by apply skip_delim_none]. Qed.

Lemma strtok_cons delim t d r : t <> [] -> free_of delim t -> among delim d = true ->
  strtok delim (t ++ d :: r) = Some (t, r).
Proof.
  intros Hne Hf Hd. unfold strtok. destruct t as [|c t]; [done |]. inversion Hf; subst. cbn [app].
  rewrite skip_delim_none by done. change (c :: t ++ d :: r) with ((c :: t) ++ d :: r). by rewrite span_free.
Qed.
Lemma strtok_last delim t : t <> [] -> free_of delim t -> strtok delim t = Some (t, []).
Proof. intros Hne Hf. unfold strtok. rewrite skip_free by done. destruct t; [done |]. by rewrite span_end. Qed.
Lemma strtok_skip delim d s : among delim d = true -> strtok delim (d :: s) = strtok delim s.
Proof. intros Hd. unfold strtok. cbn [skip_delim]. by rewrite Hd. Qed.

Lemma cut_free delim t : free_of delim t -> cut_at_token delim t = t.
Proof. intros Hf. unfold cut_at_token. by rewrite skip_free, Nat.sub_diag, take_0, span_end. Qed.

(** Every call leaves a shorter string. *)
Lemma skip_length delim s : (length (skip_delim delim s) <= length s)%nat.
Proof. induction s as [|c s IH]; [done |]. cbn [skip_delim]. destruct (among delim c); cbn [length]; lia. Qed.
Lemma span_length delim s : (length (snd (span_token delim s)) <= length s)%nat.
Proof. induction s as [|c s IH]; [done |]. cbn [span_token]. destruct (among delim c); cbn [snd length]; lia. Qed.
Lemma strtok_shorter delim s t r : strtok delim s = Some (t, r) -> (length r < length s)%nat.
Proof.
  unfold strtok. pose proof (skip_length delim s) as L. destruct (skip_delim delim s) as [|c s'] eqn:E; [done |].
  intros [= E2]. assert (Hc : among delim c = false).
  { clear -E. induction s as [|x s IH]; [done |]. cbn [skip_delim] in E. destruct (among delim x) eqn:Ex; [auto |]. by inversion E; subst. }
  cbn [span_token] in E2. rewrite Hc in E2. inversion E2; subst. pose proof (span_length delim s'). cbn [length] in L. lia.
Qed.

Lemma tokens_fuel delim : forall n m s, (length s < n)%nat -> (length s < m)%nat -> tokens_ n delim s = tokens_ m delim s.
Proof.
  induction n as [|n IH]; intros m s Hn Hm; [lia |]. destruct m as [|m]; [lia |]. cbn [tokens_].
  destruct (strtok delim s) as [[t r]|] eqn:E; [| done]. apply strtok_shorter in E. f_equal. apply IH; lia.
Qed.

Lemma foreach_nil delim : strtok_foreach delim [] = [].
Proof. reflexivity. Qed.
Lemma foreach_cons delim t d r : t <> [] -> free_of delim t -> among delim d = true ->
  strtok_foreach delim (t ++ d :: r) = t :: strtok_foreach delim r.
Proof.
  intros Hne Hf Hd. unfold strtok_foreach at 1. cbn [tokens_]. rewrite strtok_cons by done. f_equal.
  apply tokens_fuel; rewrite ?length_app; cbn [length]; lia.
Qed.
Lemma foreach_last delim t : t <> [] -> free_of delim t -> strtok_foreach delim t = [t].
Proof. intros Hne Hf. unfold strtok_foreach. cbn [tokens_]. rewrite strtok_last by done. by destruct (length t). Qed.
Lemma foreach_skip delim d s : among delim d = true -> strtok_foreach delim (d :: s) = strtok_foreach delim s.
Proof.
  intros Hd. unfold strtok_foreach. rewrite (tokens_fuel delim (S (length s)) (S (length (d :: s))) s) by (cbn [length]; lia).
  cbn [tokens_]. by rewrite strtok_skip.
Qed.

(** ** Numbers *)
Definition hexd (n : Z) : Z := if n <? 10 then 48 + n else 87 + n.
Definition hexn (w : nat) (z : Z) : list Z := drop (8 - w) ((fun i => hexd (z / 16 ^ i mod 16)) <$> [7; 6; 5; 4; 3; 2; 1; 0]).
Definition dec2 (n : Z) : list Z := if n <? 10 then [48 + n] else [48 + n / 10; 48 + n mod 10].

Lemma hex_value_hexd n : 0 <= n < 16 -> hex_value (hexd n) = Some n.
Proof.
  intros Hn. unfold hexd, hex_value, is_digit. destruct (Z.ltb_spec n 10).
  - replace ((48 <=? 48 + n) && (48 + n <=? 57)) with true by lia. f_equal. lia.
  - replace ((48 <=? 87 + n) && (87 + n <=? 57)) with false by lia.
    replace ((97 <=? 87 + n) && (87 + n <=? 102)) with true by lia. f_equal. lia.
Qed.
Lemma hexd_char n : 0 <= n < 16 -> 48 <= hexd n <= 57 \/ 97 <= hexd n <= 102.
Proof. intros Hn. unfold hexd. destruct (Z.ltb_spec n 10); lia. Qed.

(** Nothing more to read. *)
Definition no_digit (r : list Z) : Prop := match r with c :: _ => is_digit c = false | [] => True end.

Section TlParserFacts.
Context `{Platform}.

(** A number of a given width; it never starts like [0x]. *)
Lemma scan_x_digits (ds : list Z) (v : Z) : ds <> [] -> Forall (fun d => 0 <= d < 16) ds -> is_u32 v ->
  foldl (fun acc d => 16 * acc + d) 0 ds = v -> scan_x (hexd <$> ds) = Some (v, []).
Proof.
  intros Hne Hd Hv Ev. destruct ds as [|d ds]; [done |]. apply Forall_cons_1 in Hd as [Hd Hds].
  assert (Hn : forall acc, scan_digits hex_value 16 acc (hexd <$> ds) = (foldl (fun acc d => 16 * acc + d) acc ds, [])).
  { clear -Hds. induction Hds as [|e l He _ IH]; intros acc; [done |]. cbn [fmap list_fmap scan_digits foldl].
    rewrite hex_value_hexd by done. replace (acc * 16 + e) with (16 * acc + e) by lia. apply IH. }
  assert (Hc : hexd d <> 32 /\ (hexd d <=? 13) = false /\ hexd d <> 45 /\ hexd d <> 43) by (destruct (hexd_char d Hd); lia).
  destruct Hc as (H1 & H2 & H3 & H4). unfold scan_x. rewrite fmap_cons. cbn [skip_spaces]. unfold is_space.
  rewrite (proj2 (Z.eqb_neq _ _) H1), H2, andb_false_r. cbn [orb scan_sign].
  rewrite (proj2 (Z.eqb_neq _ _) H3), (proj2 (Z.eqb_neq _ _) H4).
  assert (Hx : match hexd <$> ds with b :: t => if (hexd d =? 48) && ((b =? 120) || (b =? 88)) then t else hexd d :: (hexd <$> ds)
               | [] => hexd d :: (hexd <$> ds) end = hexd d :: (hexd <$> ds)).
  { destruct Hds as [|e l He _]; [done |]. cbn [fmap list_fmap].
    replace (hexd e =? 120) with false by (destruct (hexd_char e He); lia).
    replace (hexd e =? 88) with false by (destruct (hexd_char e He); lia). by rewrite andb_false_r. }
  rewrite Hx. unfold scan_number. rewrite hex_value_hexd by done. cbn [scan_digits]. rewrite hex_value_hexd, Hn by done. cbn [foldl] in Ev. replace (16 * 0 + d) with (0 * 16 + d) in Ev by lia. rewrite Ev.
  unfold is_u32 in Hv. destruct long_bits_cases as [-> | ->]; (replace (v <=? _) with true by lia); rewrite u32_id by (unfold is_u32; lia); done.
Qed.
Lemma scan_x_hexn w z : (1 <= w <= 8)%nat -> 0 <= z < 16 ^ Z.of_nat w -> scan_x (hexn w z) = Some (z, []).
Proof.
  intros Hw Hz. unfold hexn. rewrite <- fmap_drop, (list_fmap_compose (fun i => z / 16 ^ i mod 16) hexd).
  assert (Hcase : w = 1%nat \/ w = 2%nat \/ w = 3%nat \/ w = 4%nat \/ w = 5%nat \/ w = 6%nat \/ w = 7%nat \/ w = 8%nat) by lia.
  apply scan_x_digits.
  - by repeat destruct Hcase as [-> | Hcase]; try subst w.
  - apply Forall_fmap, Forall_true. intros i. cbn. apply Z.mod_pos_bound. lia.
  - unfold is_u32. assert (16 ^ Z.of_nat w <= 16 ^ 8) by (apply Z.pow_le_mono_r; lia). change (16 ^ 8) with 4294967296 in *. lia.
  - repeat destruct Hcase as [-> | Hcase]; try subst w; cbn [Nat.sub drop fmap list_fmap foldl];
      change (16 ^ 7) with 268435456; change (16 ^ 6) with 16777216; change (16 ^ 5) with 1048576; change (16 ^ 4) with 65536;
      change (16 ^ 3) with 4096; change (16 ^ 2) with 256; change (16 ^ 1) with 16; change (16 ^ 0) with 1;
      cbn in Hz; modlia.
Qed.

Lemma scan_d_dec2 n r : 0 <= n < 100 -> no_digit r -> scan_d (dec2 n ++ r) = Some (n, r).
Proof.
  intros Hn Hr. unfold scan_d.
  assert (Hq : 0 <= n / 10 < 10 /\ 0 <= n mod 10 < 10) by modlia.
  assert (Hv : forall d, 0 <= d < 10 -> dec_value (48 + d) = Some d).
  { intros d Hd. unfold dec_value, is_digit. replace ((48 <=? 48 + d) && (48 + d <=? 57)) with true by lia. f_equal. lia. }
  assert (Hend : forall v, scan_digits dec_value 10 v r = (v, r)).
  { intros v. destruct r as [|c r]; [done |]. cbn [scan_digits]. unfold dec_value. cbn in Hr. by rewrite Hr. }
  assert (Hsp : forall d s, 0 <= d < 10 -> skip_spaces (48 + d :: s) = 48 + d :: s).
  { intros d s Hd. cbn [skip_spaces]. unfold is_space. by replace ((48 + d =? 32) || ((9 <=? 48 + d) && (48 + d <=? 13))) with false by lia. }
  assert (Hsg : forall d s, 0 <= d < 10 -> scan_sign (48 + d :: s) = (false, 48 + d :: s)).
  { intros d s Hd. cbn [scan_sign]. replace (48 + d =? 45) with false by lia. by replace (48 + d =? 43) with false by lia. }
  assert (Hres : scan_number dec_value 10 (dec2 n ++ r) = Some (n, r)).
  { unfold dec2. destruct (Z.ltb_spec n 10); cbn [app]; unfold scan_number.
    - rewrite Hv by lia. cbn [scan_digits]. rewrite Hv, Hend by lia. do 2 f_equal; lia.
    - rewrite Hv by lia. cbn [scan_digits]. rewrite !Hv, Hend by lia. do 2 f_equal; modlia. }
  assert (Hpre : scan_sign (skip_spaces (dec2 n ++ r)) = (false, dec2 n ++ r)).
  { unfold dec2. destruct (Z.ltb_spec n 10); cbn [app]; by rewrite Hsp, Hsg by lia. }
  rewrite Hpre, Hres. f_equal. f_equal. destruct long_bits_cases as [-> | ->]; unfold i32; modlia.
Qed.

Lemma scan_d_end n : 0 <= n < 100 -> scan_d (dec2 n) = Some (n, []).
Proof. intros Hn. rewrite <- (app_nil_r (dec2 n)) at 1. by apply scan_d_dec2. Qed.

Lemma scan_flag_first b : 0 <= b < 100 -> scan_flag (chars "flags." ++ dec2 b) = (1, b).
Proof.
  intros Hb. unfold scan_flag, literal. change (starts_with _ (chars "flags." ++ dec2 b)) with true.
  change (drop (length (chars "flags.")) (chars "flags." ++ dec2 b)) with (dec2 b). cbn [mbind option_bind].
  rewrite scan_d_end by done. reflexivity.
Qed.
Lemma scan_flag_other n b : 2 <= n < 10 -> 0 <= b < 100 ->
  scan_flag (chars "flags" ++ dec2 n ++ chars "." ++ dec2 b) = (n, b).
Proof.
  intros Hn Hb. unfold scan_flag, literal.
  assert (E1 : starts_with (chars "flags.") (chars "flags" ++ dec2 n ++ chars "." ++ dec2 b) = false).
  { unfold dec2 at 1. replace (n <? 10) with true by lia.
    change (starts_with _ _) with ((46 =? 48 + n) && true). by replace (46 =? 48 + n) with false by lia. }
  rewrite E1. cbn [mbind option_bind].
  change (starts_with (chars "flags") (chars "flags" ++ dec2 n ++ chars "." ++ dec2 b)) with true. cbv iota.
  change (drop (length (chars "flags")) (chars "flags" ++ dec2 n ++ chars "." ++ dec2 b)) with (dec2 n ++ chars "." ++ dec2 b).
  cbn [mbind option_bind]. rewrite scan_d_dec2 by (lia || done).
  change (starts_with (chars ".") (chars "." ++ dec2 b)) with true. cbv iota.
  change (drop (length (chars ".")) (chars "." ++ dec2 b)) with (dec2 b).
  cbn [mbind option_bind]. rewrite scan_d_end by done. reflexivity.
Qed.

(** ** The syntax *)
Inductive param :=
| Plain (name type : list Z)                (* name:type *)
| Flag (name : list Z) (n b : Z) (type : list Z)   (* name:flags.b?type, name:flagsn.b?type *)
| Flags (n : Z).                            (* flags:#, flagsn:# *)
Record decl := Decl_ { d_name : list Z; d_width : nat; d_id : Z; d_generic : bool; d_params : list param; d_ret : list Z }.
Inductive line :=
| Blank
| Dashes (l : list Z)                       (* ---types--- *)
| Unnumbered (text ret : list Z)            (* int ? = Int;  int128 4*[ int ] = Int128; *)
| Vectors (numbered : bool)                 (* vector {t:Type} # [ t ] = Vector t;  vector#1cb5c415 {t:Type} # [ t ] = Vector t; *)
| Declaration (d : decl).

Definition generic : list Z := chars "{X:Type}".
Definition flags_no (n : Z) : list Z := if n =? 1 then [] else dec2 n.
Definition print_param (p : param) : list Z :=
  match p with
  | Plain name type => name ++ 58 :: type
  | Flag name n b type => name ++ 58 :: chars "flags" ++ flags_no n ++ chars "." ++ dec2 b ++ 63 :: type
  | Flags n => (chars "flags" ++ flags_no n ++ [58]) ++ [35]
  end.
Definition body (ps : list param) : list Z := mjoin ((fun p => print_param p ++ [32]) <$> ps).
Definition head (d : decl) : list Z :=
  d_name d ++ 35 :: hexn (d_width d) (d_id d) ++ 32 :: (if d_generic d then generic ++ [32] else []) ++ body (d_params d).
Definition print_line (l : line) : list Z :=
  match l with
  | Blank => []
  | Dashes l => l
  | Unnumbered text ret => text ++ 32 :: 61 :: 32 :: ret ++ [59]
  | Vectors numbered => chars "vector" ++ (if numbered : bool then chars "#1cb5c415" else []) ++ chars " {t:Type} # [ t ] = Vector t;"
  | Declaration d => head d ++ 61 :: 32 :: d_ret d ++ [59]
  end.
Definition print_schema (ls : list line) : list Z := mjoin ((fun l => print_line l ++ [10]) <$> ls).

(** Letters, digits, [_] and [.]; in types also [<], [>], [!] and [%]. *)
Definition ident_char (c : Z) : bool :=
  (48 <=? c) && (c <=? 57) || (65 <=? c) && (c <=? 90) || (97 <=? c) && (c <=? 122) || (c =? 95) || (c =? 46).
Definition type_char (c : Z) : bool := ident_char c || (c =? 60) || (c =? 62) || (c =? 33) || (c =? 37).
Definition ident (s : list Z) : Prop := s <> [] /\ Forall (fun c => type_char c = true) s.

(** The parser counts a parameter as a word of flags by its name. *)
Definition flags_name (s : list Z) : bool :=
  match strstr s (chars "flags") with Some _ => zlen s <? 7 | None => false end.
Definition param_ok (p : param) : Prop :=
  match p with
  | Plain name type => ident name /\ ident type
  | Flag name n b type => ident name /\ ident type /\ 1 <= n < 10 /\ 0 <= b < 100
  | Flags n => 1 <= n < 10
  end.
Definition decl_ok (d : decl) : Prop :=
  ident (d_name d) /\ ident (d_ret d) /\ (1 <= d_width d <= 8)%nat /\ 0 < d_id d < 16 ^ Z.of_nat (d_width d) /\ Forall param_ok (d_params d) /\
  (length (d_params d) <= 64)%nat.
Definition line_ok (l : line) : Prop :=
  zlen (print_line l) < BUFSIZ * 2 - 1 /\
  match l with
  | Blank => True
  | Dashes l => l <> [] /\ Forall (fun c => type_char c = true \/ c = 45) l
  | Unnumbered text ret => Forall (fun c => ~ In c [0; 10; 35; 61]) text /\ ~ In (hd 32 text) [32; 47] /\ ident ret
  | Vectors _ => True
  | Declaration d => decl_ok d
  end.

(** What the parser is to make of it. *)
Definition arg_of (p : param) : arg_t :=
  match p with
  | Plain name type => Arg name (Some type) 0 0
  | Flag name n b type => Arg name (Some type) n b
  | Flags n => Arg (chars "flags" ++ flags_no n) None 0 0
  end.
Definition is_flags (p : param) : bool := match p with Flags _ => true | _ => false end.
Definition counted (p : param) : bool :=
  match p with Plain name _ | Flag name _ _ _ => flags_name name | Flags _ => true end.
Definition method_of (d : decl) : method_t :=
  Method (Some (d_name d)) (d_id d) (Some (d_ret d)) (arg_of <$> d_params d)
    (Z.of_nat (length (filter (fun p => counted p = true) (d_params d)))).
(** The number of the result of vectors is what stands between its braces. *)
Definition vector_method : method_t := Method (Some (chars "vector")) 0x1cb5c415 (Some (chars "Type")) [] 0.
Definition declared_by (l : line) : option method_t :=
  match l with Declaration d => Some (method_of d) | Vectors true => Some vector_method | _ => None end.
Definition declarations (ls : list line) : list method_t := omap declared_by ls.

(** ** Characters *)
Lemma type_char_not c d : type_char c = true -> In d [0; 10; 32; 35; 45; 47; 58; 59; 61; 63; 123; 125] -> c <> d.
Proof. intros Hc Hd ->. cbn [In] in Hd. repeat destruct Hd as [<- | Hd]; done. Qed.

Lemma among_false delim c : (forall d, In d delim -> c <> d) -> among delim c = false.
Proof.
  intros Hd. unfold among. induction delim as [|x l IH]; [done |]. cbn [existsb].
  rewrite IH by (intros; apply Hd; by right). replace (c =? x) with false; [done |].
  symmetry. apply Z.eqb_neq, Hd. by left.
Qed.

Lemma ident_free s delim : Forall (fun c => type_char c = true) s ->
  (forall d, In d delim -> In d [0; 10; 32; 35; 45; 47; 58; 59; 61; 63; 123; 125]) -> free_of delim s.
Proof. intros Hs Hd. eapply Forall_impl; [| exact Hs]. intros c Hc. apply among_false. intros d Hin. apply (type_char_not c d); auto. Qed.

Lemma hexd_type n : 0 <= n < 16 -> type_char (hexd n) = true.
Proof. intros Hn. unfold type_char, ident_char. destruct (hexd_char n Hn); lia. Qed.
Lemma hexn_type w z : Forall (fun c => type_char c = true) (hexn w z).
Proof. unfold hexn. apply Forall_drop. repeat constructor; apply hexd_type, Z.mod_pos_bound; done. Qed.
Lemma dec2_type n : 0 <= n < 100 -> Forall (fun c => type_char c = true) (dec2 n).
Proof.
  intros Hn. assert (0 <= n / 10 < 10 /\ 0 <= n mod 10 < 10) by modlia. unfold dec2, type_char, ident_char.
  destruct (Z.ltb_spec n 10); repeat constructor; lia.
Qed.
Lemma flags_no_type n : 1 <= n < 10 -> Forall (fun c => type_char c = true) (flags_no n).
Proof. intros Hn. unfold flags_no. destruct (n =? 1); [constructor | apply dec2_type; lia]. Qed.

(** ** One parameter *)
Definition word (p : param) : list Z :=
  match p with Flags n => chars "flags" ++ flags_no n ++ [58] | _ => print_param p end.
Definition add (m : method_t) (p : param) : method_t :=
  set_args (args m ++ [arg_of p]) (if counted p then set_nflags (nflags m + 1) m else m).

Lemma free_of_chars (pat : list Z) delim : forallb (fun c => negb (among delim c)) pat = true -> free_of delim pat.
Proof.
  intros Hp. induction pat as [|c pat IH]; [constructor |]. cbn [forallb] in Hp. apply andb_prop in Hp as [Hc Hp].
  constructor; [by apply negb_true_iff | by apply IH].
Qed.

Lemma free_cons delim c s : among delim c = false -> free_of delim s -> free_of delim (c :: s).
Proof. intros. by constructor. Qed.

Ltac free :=
  match goal with
  | |- free_of _ (_ ++ _) => apply free_app; split; free
  | |- free_of _ (_ :: _) => apply free_cons; [reflexivity | free]
  | |- free_of _ [] => constructor
  | |- free_of _ (chars _) => by apply free_of_chars
  | |- free_of _ (flags_no _) => apply ident_free; [apply flags_no_type; assumption | cbn; tauto]
  | |- free_of _ (dec2 _) => apply ident_free; [apply dec2_type; assumption | cbn; tauto]
  | |- free_of _ (hexn _ _) => apply ident_free; [apply hexn_type | cbn; tauto]
  | |- free_of _ _ => apply ident_free; [assumption | cbn; tauto]
  end.

Lemma scan_flag_ok n b : 1 <= n < 10 -> 0 <= b < 100 ->
  scan_flag (chars "flags" ++ flags_no n ++ chars "." ++ dec2 b) = (n, b).
Proof.
  intros Hn Hb. unfold flags_no. destruct (Z.eqb_spec n 1) as [-> | Hne].
  - exact (scan_flag_first b Hb).
  - apply scan_flag_other; [lia | exact Hb].
Qed.

Lemma parse_arg_ok m p : param_ok p -> argc m < 64 -> parse_method_args m (word p) = Ok (add m p).
Proof.
  intros Hp Hm. unfold parse_method_args. replace (argc m <? 64) with true by lia. cbn [guard_res]. rewrite res_bind_ok.
  destruct p as [name type | name n b type | n]; cbn [param_ok word print_param] in *.
  - destruct Hp as ([Hn1 Hn2] & [Ht1 Ht2]).
    rewrite strtok_cons by first [assumption | free | reflexivity]. fold (flags_name name).
    rewrite (strtok_last (chars ":")) by first [assumption | free].
    rewrite (strtok_last (chars "?")) by first [assumption | free]. cbn [strtok skip_delim].
    change (strtok (chars "?") []) with (@None (list Z * list Z)). cbv iota beta. rewrite cut_free by free.
    unfold add. cbn [counted]. by destruct (flags_name name).
  - destruct Hp as ([Hn1 Hn2] & [Ht1 Ht2] & Hn & Hb).
    rewrite strtok_cons by first [assumption | free | reflexivity]. fold (flags_name name).
    rewrite (strtok_last (chars ":")) by first [discriminate | free].
    replace (chars "flags" ++ flags_no n ++ chars "." ++ dec2 b ++ 63 :: type)
      with ((chars "flags" ++ flags_no n ++ chars "." ++ dec2 b) ++ 63 :: type) by (by rewrite <- !app_assoc).
    rewrite (strtok_cons (chars "?")) by first [discriminate | free | reflexivity].
    rewrite (strtok_last (chars "?")) by first [assumption | free]. rewrite scan_flag_ok by done.
    unfold add. cbn [counted]. by destruct (flags_name name).
  - rewrite app_assoc. rewrite strtok_cons by first [discriminate | free | reflexivity].
    change (strtok (chars ":") []) with (@None (list Z * list Z)). cbv iota beta.
    assert (Hz : (zlen (chars "flags" ++ flags_no n) <? 7) = true).
    { unfold flags_no, dec2. replace (n <? 10) with true by lia. by destruct (n =? 1). }
    change (strstr (chars "flags" ++ flags_no n) (chars "flags")) with (Some (chars "flags" ++ flags_no n)).
    cbv iota beta. by rewrite Hz.
Qed.

(** ** The words of a piece between two [#] *)
Definition words (ws : list (list Z)) : list Z := mjoin ((fun w => w ++ [32]) <$> ws).
Definition word_ok (w : list Z) : Prop := w <> [] /\ free_of [32; 35] w /\ (w = generic \/ free_of [123] w).

Lemma free_weaken delim delim' s : (forall c, among delim' c = true -> among delim c = true) -> free_of delim s -> free_of delim' s.
Proof.
  intros Hd Hs. eapply Forall_impl; [| exact Hs]. intros c Hc. cbv beta in *.
  destruct (among delim' c) eqn:E; [| done]. apply Hd in E. congruence.
Qed.
Lemma among_in d c : among [32; 35] c = false -> In d [32; 35] -> among [d] c = false.
Proof. cbn. intros Hc [<- | [<- | []]]; destruct (c =? 32), (c =? 35); done. Qed.
Lemma word_free d w : word_ok w -> In d [32; 35] -> free_of [d] w.
Proof. intros (_ & Hw & _) Hd. eapply Forall_impl; [| exact Hw]. intros c Hc. by apply among_in. Qed.

Lemma words_tokens ws t : Forall word_ok ws -> (t = [] \/ word_ok t) ->
  strtok_foreach (chars " ") (words ws ++ t) = ws ++ (if bool_decide (t = []) then [] else [t]).
Proof.
  intros Hws Ht. induction Hws as [|w ws Hw Hws IH].
  - cbn [words fmap list_fmap mjoin app]. destruct Ht as [-> | Ht]; [reflexivity |].
    rewrite bool_decide_false by apply Ht. apply foreach_last; [apply Ht |]. apply (word_free 32); [done | cbn; tauto].
  - change (words (w :: ws)) with ((w ++ [32]) ++ words ws). rewrite <- !app_assoc. cbn [app].
    rewrite foreach_cons; [by rewrite IH | apply Hw | apply (word_free 32); [done | cbn; tauto] | reflexivity].
Qed.

Lemma words_free35 ws : Forall word_ok ws -> free_of (chars "#") (words ws).
Proof.
  induction 1 as [|w ws Hw Hws IH]; [constructor |]. change (words (w :: ws)) with ((w ++ [32]) ++ words ws).
  apply free_app. split; [| exact IH]. apply free_app. split; [| by repeat constructor].
  apply (word_free 35); [done | cbn; tauto].
Qed.

(** The declaration of vectors is found by [{t:Type}]. *)
Lemma strstr_skip a b : free_of [123] a -> strstr (a ++ b) (chars "{t:Type}") = strstr b (chars "{t:Type}").
Proof.
  induction 1 as [|c a Hc Ha IH]; [done |]. cbn [app strstr].
  assert (E : starts_with (chars "{t:Type}") (c :: a ++ b) = false).
  { change (starts_with _ _) with ((123 =? c) && starts_with (chars "t:Type}") (a ++ b)).
    rewrite Z.eqb_sym. cbn in Hc. by rewrite orb_false_r in Hc; rewrite Hc. }
  rewrite E. exact IH.
Qed.
Lemma strstr_generic b : strstr (generic ++ b) (chars "{t:Type}") = strstr b (chars "{t:Type}").
Proof. reflexivity. Qed.
Lemma words_no_vector ws t : Forall word_ok ws -> free_of [123] t -> strstr (words ws ++ t) (chars "{t:Type}") = None.
Proof.
  intros Hws Ht. induction Hws as [|w ws Hw Hws IH].
  - pose proof (strstr_skip t [] Ht) as E. rewrite app_nil_r in E. exact E.
  - change (words (w :: ws)) with ((w ++ [32]) ++ words ws). rewrite <- !app_assoc.
    destruct Hw as (_ & _ & [-> | Hw]); [rewrite strstr_generic | rewrite (strstr_skip w) by exact Hw];
      cbn [app]; rewrite <- IH; apply (strstr_skip [32]); by repeat constructor.
Qed.

Lemma loop_snoc ws : forall m idx m' w,
  id_and_args_loop m idx ws = Ok m' -> 1 <= idx -> (idx = 1 -> ws <> []) -> w <> generic ->
  id_and_args_loop m idx (ws ++ [w]) = parse_method_args m' w.
Proof.
  induction ws as [|v ws IH]; intros m idx m' w E Hidx Hne Hw.
  - injection E as <-. assert (Hi : idx <> 1) by (intros ->; by apply Hne). cbn [app id_and_args_loop].
    replace (idx =? 1) with false by lia. rewrite bool_decide_false by exact Hw. by destruct (parse_method_args m w).
  - cbn [app id_and_args_loop] in *. destruct (idx =? 1) eqn:Ei; [apply IH; (exact E || exact Hw || lia) |].
    destruct (bool_decide _); [apply IH; (exact E || exact Hw || lia) |].
    destruct (parse_method_args m v) as [m1|f]; [| done]. rewrite res_bind_ok in *. apply IH; (exact E || exact Hw || lia).
Qed.

Lemma word_facts p : param_ok p -> word_ok (word p) /\ word p <> generic /\ free_of [123] (word p).
Proof.
  intros Hp. assert (Hf : word p <> [] /\ free_of [32; 35] (word p) /\ free_of [123] (word p)).
  { destruct p as [name type | name n b type | n]; cbn [param_ok word print_param] in *.
    - destruct Hp as ([Hn1 Hn2] & [Ht1 Ht2]). split_and!; [by destruct name | free | free].
    - destruct Hp as ([Hn1 Hn2] & [Ht1 Ht2] & Hn & Hb). split_and!; [by destruct name | free | free].
    - split_and!; [discriminate | free | free]. }
  destruct Hf as (H1 & H2 & H3). split; [| split; [| exact H3]].
  - split; [exact H1 | split; [exact H2 | by right]].
  - intros E. rewrite E in H3. by inversion H3.
Qed.

Lemma argc_add m p : argc (add m p) = argc m + 1.
Proof. unfold argc, add. destruct (counted p); cbn [args set_args set_nflags]; rewrite length_app; cbn [length]; lia. Qed.

(** What is read so far ends in the words [ws]. *)
Lemma words_snoc ws w : words (ws ++ [w]) = words ws ++ w ++ [32].
Proof. unfold words. rewrite fmap_app. cbn [fmap list_fmap]. rewrite join_app. f_equal. cbn. by rewrite app_nil_r. Qed.

Lemma pieces_ok ps : forall ws m m' idx sp,
  Forall param_ok ps -> Forall word_ok ws -> (sp = [] \/ sp = [32]) -> 1 <= idx -> (idx = 1 -> ws <> []) ->
  id_and_args_loop m idx ws = Ok m' -> argc m' + Z.of_nat (length ps) <= 64 ->
  parse_method_loop m idx (strtok_foreach (chars "#") (sp ++ words ws ++ body ps)) = Ok (foldl add m' ps).
Proof.
  assert (Hsp : forall sp s, sp = [] \/ sp = [32] -> free_of (chars "#") s ->
    strtok_foreach (chars " ") (sp ++ s) = strtok_foreach (chars " ") s /\ free_of (chars "#") (sp ++ s) /\
    (strstr s (chars "{t:Type}") = None -> strstr (sp ++ s) (chars "{t:Type}") = None)).
  { intros sp s [-> | ->] Hs; [by split_and! |]. split_and!; [by apply foreach_skip | by constructor |].
    intros E. rewrite (strstr_skip [32]) by (by repeat constructor). exact E. }
  induction ps as [|p ps IH]; intros ws m m' idx sp Hps Hws Hs Hidx Hne E Hlen.
  - change (body []) with (@nil Z). cbn [foldl]. pose proof (words_free35 ws Hws) as Hf.
    destruct (Hsp sp (words ws ++ []) Hs) as (Et & Hf' & Hv); [by rewrite app_nil_r |].
    destruct (decide (sp ++ words ws ++ [] = [])) as [En | Hnn].
    + assert (Ews : ws = []) by (destruct ws as [|w ws]; [done |]; destruct sp; [| done]; inversion Hws as [|? ? [? _]]; by destruct w).
      rewrite Ews in E. rewrite En. exact E.
    + rewrite foreach_last by assumption. cbn [parse_method_loop]. replace (idx =? 0) with false by lia.
      rewrite Hv by (apply words_no_vector; [done | constructor]). unfold parse_method_id_and_args.
      rewrite Et, words_tokens by (done || by left). rewrite bool_decide_true, app_nil_r by done. by rewrite E.
  - inversion Hps as [|? ? Hp Hps']; subst. destruct (word_facts p Hp) as (Hw & Hg & Hb). cbn [length] in Hlen.
    assert (E2 : id_and_args_loop m idx (ws ++ [word p]) = Ok (add m' p)).
    { rewrite (loop_snoc ws m idx m') by done. apply parse_arg_ok; [done | lia]. }
    assert (Hws' : Forall word_ok (ws ++ [word p])) by (apply Forall_app_2; [done | by constructor]).
    cbn [foldl]. destruct (is_flags p) eqn:Ef.
    + destruct p as [| | n]; try done. set (w := word (Flags n)) in *.
      replace (sp ++ words ws ++ body (Flags n :: ps)) with ((sp ++ words ws ++ w) ++ 35 :: [32] ++ words [] ++ body ps)
        by (change (body (Flags n :: ps)) with (((w ++ [35]) ++ [32]) ++ body ps); rewrite <- !app_assoc; reflexivity).
      assert (Hfw : free_of (chars "#") (words ws ++ w)).
      { apply free_app. split; [by apply words_free35 | apply (word_free 35); [done | cbn; tauto]]. }
      destruct (Hsp sp (words ws ++ w) Hs Hfw) as (Et & Hf' & Hv).
      rewrite foreach_cons; [| | exact Hf' | reflexivity].
      2: { intros En. apply app_eq_nil in En as [_ En]. apply app_eq_nil in En as [_ En]. by apply Hw in En. }
      cbn [parse_method_loop]. replace (idx =? 0) with false by lia.
      rewrite Hv by (apply words_no_vector; [done | exact Hb]). unfold parse_method_id_and_args.
      rewrite Et, words_tokens by (done || by right). rewrite bool_decide_false by apply Hw. rewrite E2, res_bind_ok.
      apply IH; [done | constructor | by right | lia | lia | reflexivity | rewrite argc_add; lia].
    + replace (words ws ++ body (p :: ps)) with (words (ws ++ [word p]) ++ body ps).
      2: { rewrite words_snoc. change (body (p :: ps)) with ((print_param p ++ [32]) ++ body ps).
           replace (print_param p) with (word p) by (by destruct p). by rewrite <- !app_assoc. }
      apply IH; [done | done | done | done | by destruct ws | exact E2 | rewrite argc_add; lia].
Qed.

Lemma free_sub delim delim' s : (forall d, In d delim' -> In d delim) -> free_of delim s -> free_of delim' s.
Proof.
  intros Hd. apply free_weaken. intros c Hin. unfold among in *. apply existsb_exists in Hin as (x & Hx & Ex).
  apply existsb_exists. exists x. split; [by apply Hd | exact Ex].
Qed.

(** ** A line *)
Lemma foldl_add ps : forall m,
  foldl add m ps = Method (method_name m) (method_id m) (method_ret m) (args m ++ (arg_of <$> ps))
    (nflags m + Z.of_nat (length (filter (fun p => counted p = true) ps))).
Proof.
  induction ps as [|p ps IH]; intros m; [cbn; rewrite app_nil_r, Z.add_0_r; by destruct m |].
  cbn [foldl]. rewrite IH. unfold add. rewrite filter_cons. rewrite fmap_cons.
  destruct (counted p) eqn:E; [rewrite decide_True by done | rewrite decide_False by done];
    cbn [method_name method_id method_ret args nflags set_args set_nflags length]; f_equal; rewrite <- ?app_assoc; try done; lia.
Qed.

Lemma hexn_nonempty w z : (1 <= w <= 8)%nat -> hexn w z <> [].
Proof. intros Hw E. apply (f_equal length) in E. unfold hexn in E. rewrite length_drop in E. cbn [fmap list_fmap length] in E. lia. Qed.

Definition opening (d : decl) : list (list Z) := hexn (d_width d) (d_id d) :: (if d_generic d then [generic] else []).
Lemma opening_ok d : (1 <= d_width d <= 8)%nat -> Forall word_ok (opening d).
Proof.
  intros Hw. constructor.
  - split; [by apply hexn_nonempty | split; [free | right; free]].
  - destruct (d_generic d); [| constructor]. constructor; [| constructor].
    split; [discriminate | split; [by apply (free_of_chars generic) | by left]].
Qed.
Lemma head_words d : head d = d_name d ++ 35 :: [] ++ words (opening d) ++ body (d_params d).
Proof.
  unfold head, opening. do 2 f_equal. cbn [app]. unfold words. rewrite fmap_cons.
  change (mjoin (?a :: ?b)) with (a ++ mjoin b). rewrite <- !app_assoc. f_equal. cbn [app]. f_equal.
  destruct (d_generic d); [| reflexivity]. cbn [fmap list_fmap]. cbn [mjoin list_join]. by rewrite app_nil_r.
Qed.

Lemma parse_method_ok m d : decl_ok d -> args m = [] ->
  parse_method m (head d) = Ok (foldl add (set_id (d_id d) (set_name (Some (d_name d)) m)) (d_params d)).
Proof.
  intros ([Hn1 Hn2] & _ & Hw & Hid & Hps & Hlen) Ha. unfold parse_method. rewrite head_words.
  rewrite foreach_cons by first [assumption | free | reflexivity]. cbn [parse_method_loop Z.eqb].
  assert (Es : (match d_name d with c :: _ => c =? 47 | [] => false end) = false).
  { destruct Hn2 as [|c n Hc _]; [done |]. apply Z.eqb_neq, (type_char_not c 47 Hc). cbn. tauto. }
  rewrite Es. cbn [negb orb guard_res]. rewrite res_bind_ok.
  apply pieces_ok; [exact Hps | by apply opening_ok | by left | done | discriminate | | unfold argc; cbn; rewrite Ha; cbn [length]; lia].
  unfold opening. cbn [id_and_args_loop Z.eqb]. rewrite scan_x_hexn by (done || lia). by destruct (d_generic d).
Qed.

Lemma before_nul_free s : free_of [0] s -> before_nul s = s.
Proof.
  induction 1 as [|c s Hc Hs IH]; [done |]. cbn [before_nul]. cbn in Hc. rewrite orb_false_r in Hc. by rewrite Hc, IH.
Qed.

Lemma body_free delim ps : Forall param_ok ps -> (forall d, In d delim -> In d [0; 10; 61; 59; 47]) -> free_of delim (body ps).
Proof.
  intros Hps Hd. assert (Hd2 : forall d, In d delim -> In d [0; 10; 32; 35; 45; 47; 58; 59; 61; 63; 123; 125]).
  { intros d Hin. apply Hd in Hin. cbn in *. tauto. }
  assert (Hc : forall c, In c [32; 35; 46; 58; 63] -> among delim c = false).
  { intros c Hin. apply among_false. intros d Hin2 ->. apply Hd in Hin2. cbn in *. repeat destruct Hin as [<- | Hin]; cbn in Hin2; lia. }
  assert (Hi : forall s, Forall (fun c => type_char c = true) s -> free_of delim s) by (intros; by apply ident_free).
  assert (Hfl : free_of delim (chars "flags")) by (apply Hi; repeat constructor).
  induction Hps as [|p ps Hp Hps IH]; [constructor |]. change (body (p :: ps)) with ((print_param p ++ [32]) ++ body ps).
  apply free_app. split; [| exact IH]. apply free_app. split; [| apply free_cons; [apply Hc; cbn; tauto | constructor]].
  destruct p as [name type | name n b type | n]; cbn [param_ok print_param] in *.
  - destruct Hp as ([_ Hn] & [_ Ht]). apply free_app. split; [by apply Hi |]. apply free_cons; [apply Hc; cbn; tauto | by apply Hi].
  - destruct Hp as ([_ Hn] & [_ Ht] & Hn1 & Hb). apply free_app. split; [by apply Hi |].
    apply free_cons; [apply Hc; cbn; tauto |]. apply free_app. split; [exact Hfl |]. apply free_app. split; [by apply Hi, flags_no_type |].
    apply free_app. split; [apply free_cons; [apply Hc; cbn; tauto | constructor] |]. apply free_app.
    split; [by apply Hi, dec2_type |]. apply free_cons; [apply Hc; cbn; tauto | by apply Hi].
  - rewrite <- !app_assoc. apply free_app. split; [exact Hfl |]. apply free_app. split; [by apply Hi, flags_no_type |].
    apply free_cons; [apply Hc; cbn; tauto |]. apply free_cons; [apply Hc; cbn; tauto | constructor].
Qed.

Lemma head_free delim d : decl_ok d -> (forall x, In x delim -> In x [0; 10; 61; 59; 47]) -> free_of delim (head d).
Proof.
  intros ([Hn1 Hn2] & _ & _ & _ & Hps & _) Hd.
  assert (Hd2 : forall x, In x delim -> In x [0; 10; 32; 35; 45; 47; 58; 59; 61; 63; 123; 125]).
  { intros x Hin. apply Hd in Hin. cbn in *. tauto. }
  assert (Hc : forall c, In c [32; 35] -> among delim c = false).
  { intros c Hin. apply among_false. intros x Hin2 ->. apply Hd in Hin2. cbn in *. repeat destruct Hin as [<- | Hin]; cbn in Hin2; lia. }
  unfold head. apply free_app. split; [by apply ident_free |]. apply free_cons; [apply Hc; cbn; tauto |].
  apply free_app. split; [apply ident_free; [apply hexn_type | done] |]. apply free_cons; [apply Hc; cbn; tauto |].
  apply free_app. split; [| by apply body_free]. destruct (d_generic d); [| constructor].
  apply (free_sub [0; 10; 61; 59; 47]); [exact Hd | by apply (free_of_chars (generic ++ [32]))].
Qed.

Lemma free_not_in delim t : Forall (fun c => ~ In c [0; 10; 35; 61]) t -> (forall d, In d delim -> In d [0; 10; 35; 61]) -> free_of delim t.
Proof.
  intros Ht Hd. eapply Forall_impl; [| exact Ht]. intros c Hc. apply among_false. intros d Hin ->. apply Hc. by apply Hd.
Qed.
Lemma line_chars l : line_ok l -> free_of [0; 10] (print_line l).
Proof.
  intros [_ Hl]. destruct l as [| l | text ret | numbered | d]; cbn [print_line].
  - constructor.
  - destruct Hl as [_ Hl]. eapply Forall_impl; [| exact Hl]. intros c [Hc | ->]; [| done].
    apply among_false. intros d Hd. apply (type_char_not c d Hc). cbn in *. tauto.
  - destruct Hl as (Ht & _ & [_ Hr]). apply free_app. split; [apply free_not_in; [exact Ht | cbn; tauto] | free].
  - destruct numbered; by apply free_of_chars.
  - pose proof Hl as (_ & [_ Hr] & _). apply free_app. split; [apply head_free; [exact Hl | cbn; tauto] | free].
Qed.

(** A line is its first character, its part before [=] and the rest. *)
Lemma parse_line_eq i method rest c t : method = c :: t -> c <> 32 -> c <> 10 -> free_of [61; 0] method -> free_of [0] rest ->
  parse_line i (method ++ 61 :: rest) =
    match strtok (chars "=") rest with
    | None => Ok Skip
    | Some (ret, _) =>
        m ← parse_method (parse_method_return zero_method ret) method;
        match method_name m with
        | None => Err NullDeref
        | Some name => if existsb (Z.eqb 63) name then Ok Skip else if method_id m =? 0 then Ok Skip else Ok (Decl m)
        end
    end.
Proof.
  intros Em H32 H10 Hm Hr. unfold parse_line.
  assert (H0 : free_of [0] (method ++ 61 :: rest)).
  { apply free_app. split; [| by apply free_cons]. eapply free_sub; [| exact Hm]. cbn. tauto. }
  rewrite before_nul_free by exact H0. rewrite bool_decide_false by (by rewrite Em). cbn [orb].
  assert (Es : (match method ++ 61 :: rest with c :: _ => (c =? 32) || (c =? 10) | [] => false end) = false).
  { rewrite Em. cbn [app]. lia. }
  rewrite Es. rewrite strtok_cons; [reflexivity | by rewrite Em | | reflexivity].
  eapply free_sub; [| exact Hm]. cbn. tauto.
Qed.

Lemma first_ident s : ident s -> exists c t, s = c :: t /\ type_char c = true.
Proof. intros [Hne Hs]. destruct Hs as [|c t Hc _]; [done | by exists c, t]. Qed.

Lemma return_ok m ret s : ident ret -> parse_method_return m (32 :: ret ++ 59 :: s) = set_ret (Some ret) m.
Proof.
  intros [Hn Hr]. unfold parse_method_return. rewrite strtok_skip by reflexivity.
  rewrite strtok_cons by first [assumption | free | reflexivity]. reflexivity.
Qed.

(** A line without a number is passed over, whatever its left side is. *)
Lemma unnumbered_ok i text ret : Forall (fun c => ~ In c [0; 10; 35; 61]) text -> ~ In (hd 32 text) [32; 47] -> ident ret ->
  parse_line i ((text ++ 32 :: 61 :: 32 :: ret ++ [59]) ++ [10]) = Ok Skip.
Proof.
  intros Ht Hh Hr. pose proof Hr as [Hr1 Hr2].
  destruct text as [|c text]; [exfalso; apply Hh; by left |]. cbn [hd] in Hh. pose proof (Forall_inv Ht) as Hc. cbv beta in Hc.
  assert (Hf : forall delim, (forall d, In d delim -> In d [0; 10; 35; 61]) -> among delim 32 = false -> free_of delim ((c :: text) ++ [32])).
  { intros delim Hd H32. apply free_app. split; [by apply free_not_in | by apply free_cons; [| constructor]]. }
  replace (((c :: text) ++ 32 :: 61 :: 32 :: ret ++ [59]) ++ [10])
    with (((c :: text) ++ [32]) ++ 61 :: (32 :: ret ++ 59 :: [10])) by (rewrite <- !app_assoc; cbn; by rewrite <- app_assoc).
  erewrite (parse_line_eq i _ _ c (text ++ [32])); [| reflexivity | intros ->; apply Hh; by left | intros ->; apply Hc; cbn; tauto
    | by apply Hf; [cbn; tauto |] | free].
  rewrite (strtok_last (chars "=")) by first [discriminate | free]. rewrite return_ok by exact Hr.
  unfold parse_method. rewrite foreach_last; [| done | by apply Hf; [cbn; tauto |]]. cbn [parse_method_loop Z.eqb].
  cbn [app]. replace (c =? 47) with false by (symmetry; apply Z.eqb_neq; intros ->; apply Hh; cbn; tauto).
  cbn [negb orb guard_res]. rewrite !res_bind_ok. cbn [method_name set_name]. by destruct (existsb _ _).
Qed.

Lemma vectors_ok i numbered : parse_line i (print_line (Vectors numbered) ++ [10]) =
  Ok (match declared_by (Vectors numbered) with Some m => Decl m | None => Skip end).
Proof.
  destruct numbered; [| reflexivity]. cbn [declared_by].
  assert (Hx : scan_x (chars "1cb5c415") = Some (0x1cb5c415, [])) by (apply (scan_x_hexn 8 0x1cb5c415); lia).
  change (print_line (Vectors true) ++ [10]) with (chars "vector#1cb5c415 {t:Type} # [ t ] " ++ 61 :: (chars " Vector t;" ++ [10])).
  erewrite (parse_line_eq i (chars "vector#1cb5c415 {t:Type} # [ t ] ") (chars " Vector t;" ++ [10]) 118);
    [| reflexivity | discriminate | discriminate | by apply free_of_chars | by apply free_of_chars].
  replace (strtok (chars "=") (chars " Vector t;" ++ [10])) with (Some (chars " Vector t;" ++ [10], @nil Z)) by reflexivity.
  replace (parse_method _ (chars "vector#1cb5c415 {t:Type} # [ t ] ")) with (Ok vector_method); [reflexivity |].
  unfold parse_method.
  replace (strtok_foreach (chars "#") (chars "vector#1cb5c415 {t:Type} # [ t ] "))
    with [chars "vector"; chars "1cb5c415 {t:Type} "; chars " [ t ] "] by reflexivity.
  unfold parse_method_loop.
  replace (strtok (chars " ") (chars "1cb5c415 {t:Type} ")) with (Some (chars "1cb5c415", chars "{t:Type} ")) by reflexivity.
  rewrite Hx. reflexivity.
Qed.
Lemma parse_line_ok i l : line_ok l ->
  parse_line i (print_line l ++ [10]) = Ok (match declared_by l with Some m => Decl m | None => Skip end).
Proof.
  intros Hl. pose proof (line_chars l Hl) as Hc. destruct Hl as [_ Hl]. destruct l as [| l | text ret | numbered | d]; cbn [print_line] in *.
  - reflexivity.
  - destruct Hl as [Hne Hl]. assert (Hf : free_of (chars "=") (l ++ [10])).
    { apply free_app. split; [| by repeat constructor]. eapply Forall_impl; [| exact Hl]. intros c [Hc2 | ->]; [| done].
      apply among_false. intros d [<- | []]. apply (type_char_not c 61 Hc2). cbn. tauto. }
    unfold parse_line. rewrite before_nul_free.
    2: { apply free_app. split; [| by repeat constructor]. eapply free_sub; [| exact Hc]. cbn. tauto. }
    rewrite bool_decide_false by (by destruct l). cbn [orb].
    assert (Es : (match l ++ [10] with c :: _ => (c =? 32) || (c =? 10) | [] => false end) = false).
    { destruct Hl as [|c l [Hc2 | ->] _]; [done | | done]. cbn [app].
      pose proof (type_char_not c 32 Hc2 ltac:(cbn; tauto)). pose proof (type_char_not c 10 Hc2 ltac:(cbn; tauto)). lia. }
    rewrite Es, strtok_last by (done || by destruct l). reflexivity.
  - apply unnumbered_ok; tauto.
  - apply vectors_ok.
  - pose proof Hl as (Hn & Hr & Hw & Hid & Hps & Hlen). destruct (first_ident _ Hn) as (c & t & Ec & Hct). pose proof Hr as [Hr1 Hr2].
    replace ((head d ++ 61 :: 32 :: d_ret d ++ [59]) ++ [10]) with (head d ++ 61 :: (32 :: d_ret d ++ 59 :: [10]))
      by (rewrite <- app_assoc; cbn [app]; by rewrite <- app_assoc).
    erewrite (parse_line_eq i _ _ c); [| unfold head; rewrite Ec; reflexivity | apply (type_char_not c 32 Hct); cbn; tauto
      | apply (type_char_not c 10 Hct); cbn; tauto | apply head_free; [exact Hl | cbn; tauto] | free].
    rewrite (strtok_last (chars "=")) by first [discriminate | free]. rewrite return_ok by exact Hr.
    rewrite parse_method_ok, res_bind_ok, foldl_add by (exact Hl || reflexivity). cbn [method_name set_id set_name].
    assert (Eq : existsb (Z.eqb 63) (d_name d) = false).
    { destruct Hn as [_ Hn]. clear -Hn. induction Hn as [|x l Hx _ IH]; [done |]. cbn [existsb]. rewrite IH, orb_false_r.
      apply Z.eqb_neq. intros <-. done. }
    rewrite Eq. cbn [method_id set_id]. replace (d_id d =? 0) with false by lia. reflexivity.
Qed.

(** ** The file *)
Lemma fgets_line l n rest : free_of [10] l -> (length l < n)%nat -> fgets n (l ++ 10 :: rest) = (l ++ [10], rest).
Proof.
  intros Hl. revert n. induction Hl as [|c l Hc Hl IH]; intros n Hn; (destruct n as [|n]; [cbn in Hn; lia |]); [done |].
  cbn [app fgets]. cbn in Hc. rewrite orb_false_r in Hc. rewrite Hc. rewrite IH by (cbn in Hn; lia). done.
Qed.

Context {U : Type}.

Lemma parse_schema_ok (f : callback_t) : (forall (u : U) m e, fst (f u m e) = 0) -> forall ls fuel i u,
  Forall line_ok ls -> (length (print_schema ls) <= fuel)%nat ->
  parse_schema fuel i (print_schema ls) u (Some f) =
    Ok (0, foldl (fun u d => snd (f u (Some d) None)) u (declarations ls)).
Proof.
  intros Hf. induction ls as [|l ls IH]; intros fuel i u Hls Hfuel; [by destruct fuel |].
  inversion Hls as [|? ? Hl Hls']; subst. change (print_schema (l :: ls)) with ((print_line l ++ [10]) ++ print_schema ls) in *.
  rewrite <- app_assoc in *. cbn [app] in *. rewrite length_app in Hfuel. cbn [length] in Hfuel.
  destruct fuel as [|fuel]; [lia |].
  assert (E : parse_schema (S fuel) i (print_line l ++ 10 :: print_schema ls) u (Some f) =
    (r ← parse_line i (print_line l ++ [10]);
     match r with
     | Skip => parse_schema fuel (i + 1) (print_schema ls) u (Some f)
     | Stop i => Ok (i, u)
     | Decl m => let c := f u (Some m) None in
         if negb (fst c =? 0) then Ok (0, snd c) else parse_schema fuel (i + 1) (print_schema ls) (snd c) (Some f)
     end)).
  { assert (Eg : fgets (Z.to_nat (BUFSIZ * 2 - 1)) (print_line l ++ 10 :: print_schema ls) = (print_line l ++ [10], print_schema ls)).
    { apply fgets_line; [| destruct Hl as [Hl _]; unfold zlen in Hl; lia].
      eapply free_sub; [| by apply line_chars]. cbn. tauto. }
    cbn [parse_schema]. rewrite Eg. by destruct (print_line l). }
  rewrite E, parse_line_ok, res_bind_ok by exact Hl. cbn [declarations omap list_omap]. destruct (declared_by l) as [m|];
    [| apply IH; [exact Hls' | lia]].
  cbv zeta. rewrite Hf. cbn [negb Z.eqb foldl]. apply IH; [exact Hls' | lia].
Qed.

(** the parser reads what the schema says.  For a file made of the lines
    the two schema files are made of (blank lines, section marks, types
    without a number, the two forms of the vector, and declarations with
    numbers of one to eight digits, with plain, conditional and flag
    parameters, at most sixty-four each, generic or not), every declaration
    is handed to the callback once, in order, with its name, number, result
    type and parameters. *)
Theorem tl_parse_reads_schema ls (f : callback_t) (u : U) :
  Forall line_ok ls -> (forall u m e, fst (f u m e) = 0) ->
  tl_parse (Some (print_schema ls)) u (Some f) =
    Ok (0, foldl (fun u d => snd (f u (Some d) None)) u (declarations ls)).
Proof. intros Hls Hf. by apply parse_schema_ok. Qed.

(** Every read takes a character. *)
Lemma fgets_shorter n c fp : (0 < n)%nat -> (length (snd (fgets n (c :: fp))) <= length fp)%nat.
Proof.
  intros Hn. destruct n as [|n]; [lia |]. cbn [fgets]. destruct (c =? 10); [done |]. cbn [snd]. clear.
  revert fp. induction n as [|n IH]; intros fp; [done |]. destruct fp as [|c fp]; [done |]. cbn [fgets].
  destruct (c =? 10); cbn [snd length]; [lia |]. specialize (IH fp). lia.
Qed.

Lemma parse_args_faults m buf f : parse_method_args m buf = Err f -> f <> NoFuel.
Proof.
  unfold parse_method_args. destruct (argc m <? 64); cbn [guard_res mbind res_bind]; [| by intros [= <-]].
  destruct (strtok _ _) as [[name rest]|]; [done | by intros [= <-]].
Qed.
Lemma loop_faults l : forall m idx f, id_and_args_loop m idx l = Err f -> f <> NoFuel.
Proof.
  induction l as [|a l IH]; intros m idx f; [done |]. cbn [id_and_args_loop]. destruct (idx =? 1); [apply IH |].
  destruct (bool_decide _); [apply IH |]. destruct (parse_method_args m a) as [m1|g] eqn:E; cbn [mbind res_bind]; [apply IH |].
  intros [= <-]. by eapply parse_args_faults.
Qed.
Lemma method_faults l : forall m idx f, parse_method_loop m idx l = Err f -> f <> NoFuel.
Proof.
  induction l as [|a l IH]; intros m idx f; [done |]. cbn [parse_method_loop]. destruct (idx =? 0).
  - destruct (_ || _); cbn [guard_res mbind res_bind]; [apply IH | by intros [= <-]].
  - destruct (strstr _ _); [destruct (strtok _ _) as [[? ?]|]; [done | by intros [= <-]] |].
    destruct (parse_method_id_and_args m a idx) as [m1|g] eqn:E; cbn [mbind res_bind]; [apply IH |].
    intros [= <-]. by eapply loop_faults.
Qed.

(** the parser ends for every file: with its result, or in one of the
    faults of a malformed declaration. *)
Theorem tl_parse_terminates schema_file (u : U) callback : tl_parse schema_file u callback <> Err NoFuel.
Proof.
  destruct schema_file as [fp|]; [| done]. cbn [tl_parse]. generalize 1. revert u.
  assert (Hk : (0 < Z.to_nat (BUFSIZ * 2 - 1))%nat) by (pose proof platform_bounds; lia).
  assert (Hn : (length fp <= length fp)%nat) by lia. revert Hn. generalize (length fp) at 2 3 as fuel. intros fuel. revert fp.
  induction fuel as [|fuel IH]; intros fp Hn u i; (destruct fp as [|c fp]; [done |]); cbn [length] in Hn; [lia |].
  cbn [parse_schema]. pose proof (fgets_shorter _ c fp Hk) as Hs.
  assert (Hr : forall u i, parse_schema fuel i (snd (fgets (Z.to_nat (BUFSIZ * 2 - 1)) (c :: fp))) u callback <> Err NoFuel)
    by (intros; apply IH; lia).
  destruct (parse_line i _) as [l|g] eqn:El; cbn [mbind res_bind].
  - destruct l as [| j | m]; [apply Hr | done |]. destruct callback as [f|]; [| apply Hr]. cbv zeta.
    destruct (negb _); [done | apply Hr].
  - intros [= ->]. unfold parse_line in El. destruct (_ || _); [done |].
    destruct (strtok _ _) as [[method rest]|]; [| done]. destruct (strtok _ rest) as [[ret ?]|]; [| done].
    destruct (parse_method _ _) as [m|h] eqn:Em; cbn [mbind res_bind] in El; [| injection El as ->; by apply method_faults in Em].
    destruct (method_name m); [| done]. destruct (existsb _ _); [done |]. by destruct (method_id m =? 0).
Qed.
End TlParserFacts.
