(* ===== verification/Service.v ===== *)
(** * Queries from above: what the parts over the queue use

    The components over libtg/tg/queue.c send a query and wait for its
    answer.  Their state is what was asked so far, the readings of the
    clock and the data of the application's callbacks; the server is a
    function of the queries.  The functions that write queries are
    generated from the schema: the class [Schema]. *)
From stdpp Require Import strings.
From S2P Require Import Prelude TlBuf Serial Tg Packet Objects.

(** What is done besides asking: an answer handed to [tg_do_updates], SQL
    text given to SQLite (a statement with a parameter with its value), and
    the socket of mtx closed. *)
Inductive deed := Do_updates (tl : tl_t) | Exec (sql : list Z) | Bind (sql blob : list Z) | Net_close.

(** The fields of [tg_t] the parts above the queue read and write.
    [tg->config]: [id_] and [ip_address_] of its [dc_options_]. *)
Record conn_t := Conn {
  c_id : Z; c_apiId : Z; c_apiHash : list Z;
  c_key : buf_t; c_ip : list Z; c_port : Z;
  c_config : option (list (option (Z * buf_t)))
}.

Definition set_key (k : buf_t) (c : conn_t) : conn_t :=
  Conn (c_id c) (c_apiId c) (c_apiHash c) k (c_ip c) (c_port c) (c_config c).

Record client (U : Type) := Client {
  asked : list (list Z);      (* the queries, in order *)
  reads : nat;                (* readings of the clock *)
  did : list deed;
  conn : conn_t;
  user : U                    (* the data of the callbacks *)
}.
Arguments Client {U} _ _ _ _ _.
Arguments conn {U} _.
Arguments asked {U} _.
Arguments reads {U} _.
Arguments did {U} _.
Arguments user {U} _.

Section State.
Context {U : Type}.
Definition ask (q : list Z) (s : client U) : client U := Client (asked s ++ [q]) (reads s) (did s) (conn s) (user s).
Definition read_clock (s : client U) : client U := Client (asked s) (S (reads s)) (did s) (conn s) (user s).
Definition does (d : deed) (s : client U) : client U := Client (asked s) (reads s) (did s ++ [d]) (conn s) (user s).
Definition set_user (u : U) (s : client U) : client U := Client (asked s) (reads s) (did s) (conn s) u.
Definition set_conn (c : conn_t) (s : client U) : client U := Client (asked s) (reads s) (did s) c (user s).
End State.

Abbreviation F U := (ST (client U)).

(** The object the server returns for the last of the queries, as
    [tg_send_query_sync] hands it to its caller, [None] for NULL; and the
    key of 256 bytes mtx negotiates with the server at an address
    ([api.app.open]). *)
Class Server := {
  answer : list (list Z) -> option tl_t;
  negotiated : list Z -> Z -> list Z;
  negotiated_ok : forall ip port, bytes_ok (negotiated ip port) /\ zlen (negotiated ip port) = 256
}.

(** The bytes of the queries and objects the generated functions write. *)
Class Schema := {
  tl_upload_getFile : list Z -> Z -> Z -> list Z;
  tl_upload_saveFilePart : Z -> Z -> list Z -> list Z;
  tl_upload_saveBigFilePart : Z -> Z -> Z -> list Z -> list Z;
  tl_upload_getFileHashes : list Z -> Z -> list Z;
  tl_inputPhotoFileLocation : Z -> Z -> list Z -> list Z -> list Z;
  tl_inputPeerPhotoFileLocation : bool -> list Z -> Z -> list Z;
  tl_inputDocumentFileLocation : Z -> Z -> list Z -> list Z -> list Z;
  tl_inputFile : Z -> Z -> list Z -> list Z -> list Z;
  tl_inputFileBig : Z -> Z -> list Z -> list Z;
  tl_inputMediaUploadedPhoto : bool -> list Z -> list (list Z) -> option Z -> list Z;
  tl_inputMediaUploadedDocument : bool -> bool -> bool -> list Z -> list Z -> list (list Z) -> list (list Z) -> option Z -> list Z;
  tl_documentAttributeFilename : list Z -> list Z;
  tl_documentAttributeHasStickers : list Z;
  tl_documentAttributeImageSize : Z -> Z -> list Z;
  tl_documentAttributeVideo : bool -> bool -> bool -> Z -> Z -> Z -> option Z -> option Z -> list Z;
  tl_documentAttributeAudio : bool -> Z -> list Z -> list Z -> option (list Z) -> list Z;
  tl_inputMediaContact : list Z -> list Z -> list Z -> list Z -> list Z;
  tl_inputGeoPoint : Z -> Z -> list Z;
  tl_inputMediaGeoPoint : list Z -> list Z;
  tl_inputPeerChannel : Z -> Z -> list Z;
  tl_inputPeerChat : Z -> list Z;
  tl_inputPeerUser : Z -> Z -> list Z;
  tl_messages_sendMedia : list Z -> list Z -> list Z -> Z -> list Z;
  tl_account_getPassword : list Z;
  tl_auth_checkPassword : list Z -> list Z;
  tl_inputCheckPasswordSRP : Z -> list Z -> list Z -> list Z
}.

Section Service.
Context `{Env} `{Server} {U : Type}.

(** A buffer that holds a query; [None] when it was released. *)
Definition query : Type := option (list Z).

(** The first statement of [tg_prepare_mtproto]: a session without a key
    negotiates one (the salt and the sequence number that come with it are
    not read above the queue; Queue.v has them). *)
Definition tg_prepare_key : F U unit :=
  c ← gets conn;
  if b_size (c_key c) =? 0 then
    let k := negotiated (c_ip c) (c_port c) in
    key ← lift (buf_add k (zlen k));
    modify (set_conn (set_key key c))
  else mret tt.

(** [tg_send_query], [tg_send_query_sync] and the version with a progress
    callback: the query is copied, sent and waited for. *)
Definition tg_send_query (q : query) : F U (option tl_t) :=
  match q with
  | None => fail UseAfterFree
  | Some q => _ ← tg_prepare_key; _ ← modify (ask q); gets (fun s => answer (asked s))
  end.

(** The session after a query. *)
Definition keyed_conn (c : conn_t) : conn_t :=
  if b_size (c_key c) =? 0 then set_key (fresh (negotiated (c_ip c) (c_port c))) c else c.
Definition in_session (s : client U) : client U := set_conn (keyed_conn (conn s)) s.

Lemma prepare_key_ok s : tg_prepare_key s = Ok (tt, in_session s).
Proof.
  unfold tg_prepare_key, in_session, keyed_conn. erewrite bind_eq by reflexivity.
  destruct (b_size (c_key (conn s)) =? 0); [| by destruct s].
  destruct (negotiated_ok (c_ip (conn s)) (c_port (conn s))) as [Hb Hl].
  assert (Hf : fits (zlen (negotiated (c_ip (conn s)) (c_port (conn s))))) by (apply fits_small; lia).
  by rewrite (bind_lift _ _ _ _ (buf_add_all _ Hf)).
Qed.
Lemma send_query_ok q s : tg_send_query (Some q) s = Ok (answer (asked s ++ [q]), ask q (in_session s)).
Proof. unfold tg_send_query. by rewrite (bind_eq _ _ _ _ _ (prepare_key_ok s)). Qed.

Lemma keyed_conn_key c : buf_wf (c_key c) -> buf_wf (c_key (keyed_conn c)).
Proof.
  intros Hw. unfold keyed_conn. destruct (b_size (c_key c) =? 0); [| done].
  destruct (negotiated_ok (c_ip c) (c_port c)) as [Hb Hl]. apply fresh_wf; [done | apply fits_small; lia].
Qed.
Lemma keyed_conn_id c : c_id (keyed_conn c) = c_id c.
Proof. unfold keyed_conn. by destruct (_ =? _). Qed.
Lemma keyed_conn_ip c : c_ip (keyed_conn c) = c_ip c.
Proof. unfold keyed_conn. by destruct (_ =? _). Qed.
Lemma keyed_conn_has c : b_size (c_key c) <> 0 -> keyed_conn c = c.
Proof. intros Hk. unfold keyed_conn. by replace (b_size (c_key c) =? 0) with false by lia. Qed.
Lemma keyed_conn_size c : b_size (c_key (keyed_conn c)) <> 0.
Proof.
  unfold keyed_conn. destruct (Z.eqb_spec (b_size (c_key c)) 0); [| done].
  cbn. by destruct (negotiated_ok (c_ip c) (c_port c)) as [_ ->].
Qed.
Lemma keyed_conn_twice c : keyed_conn (keyed_conn c) = keyed_conn c.
Proof. apply keyed_conn_has, keyed_conn_size. Qed.

Definition rand_buf (n : Z) : F U buf_t :=
  k ← gets reads; _ ← modify read_clock; lift (buf_rand (wall k) n).

(** Signed division traps for a zero divisor and for the one quotient that
    has no representation. *)
Definition div_i32 (a b : Z) : res Z :=
  if (b =? 0) || ((a =? -2147483648) && (b =? -1)) then Err DivByZero else Ok (Z.quot a b).
End Service.

(** ** The file in pieces of [k] bytes *)
Fixpoint pieces (fuel : nat) (k : nat) (l : list Z) : list (list Z) :=
  match fuel, l with
  | S fuel, _ :: _ => take k l :: pieces fuel k (drop k l)
  | _, _ => []
  end.

Lemma pieces_concat fuel k : forall l, (length l <= fuel)%nat -> (0 < k)%nat -> mjoin (pieces fuel k l) = l.
Proof.
  induction fuel as [|fuel IH]; intros l Hl Hk; destruct l as [|x l]; try done; [cbn in Hl; lia |].
  cbn [pieces]. change (mjoin (?a :: ?b)) with (a ++ mjoin b).
  rewrite IH; [by rewrite take_drop | rewrite length_drop; cbn [length] in *; lia | done].
Qed.

Lemma pieces_fuel k n : forall m l, (length l <= n)%nat -> (length l <= m)%nat -> (0 < k)%nat -> pieces n k l = pieces m k l.
Proof.
  induction n as [|n IH]; intros m l Hn Hm Hk; destruct l as [|x l]; cbn [length] in *; try lia; destruct m as [|m]; try done; try lia.
  cbn [pieces]. f_equal. apply IH; [| | done]; rewrite length_drop; cbn [length]; lia.
Qed.

Definition split_by (k : Z) (l : list Z) : list (list Z) := pieces (length l) (Z.to_nat k) l.

Lemma split_by_concat k l : 0 < k -> mjoin (split_by k l) = l.
Proof. intros Hk. apply pieces_concat; lia. Qed.
Lemma split_by_nil k : split_by k [] = [].
Proof. reflexivity. Qed.
Lemma split_by_cons k l : 0 < k -> l <> [] -> split_by k l = take (Z.to_nat k) l :: split_by k (drop (Z.to_nat k) l).
Proof.
  intros Hk Hl. destruct l as [|x l]; [done |]. unfold split_by at 1. cbn [length pieces]. f_equal.
  apply pieces_fuel; [| | lia]; rewrite length_drop; cbn [length]; lia.
Qed.

Lemma length_split_by k : 0 < k -> forall l, Z.of_nat (length (split_by k l)) <= zlen l / k + 1.
Proof.
  intros Hk l. induction l as [l IH] using (induction_ltof1 _ (@length Z)). unfold ltof in IH.
  destruct (decide (l = [])) as [-> | Hl]; [change (zlen []) with 0; rewrite Z.div_0_l by lia; cbn; lia |].
  rewrite split_by_cons by done. cbn [length].
  assert (Hlt : (length (drop (Z.to_nat k) l) < length l)%nat) by (rewrite length_drop; destruct l; [done | cbn [length]; lia]).
  specialize (IH _ Hlt). unfold zlen in *. rewrite length_drop in IH.
  destruct (Z.le_gt_cases k (Z.of_nat (length l))) as [Hc | Hc].
  - replace (Z.of_nat (length l - Z.to_nat k)) with (Z.of_nat (length l) - k) in IH by lia.
    replace (Z.of_nat (length l) - k) with (Z.of_nat (length l) + -1 * k) in IH by lia.
    rewrite Z.div_add in IH by lia. lia.
  - assert (Ed : drop (Z.to_nat k) l = []) by (apply nil_length_inv; rewrite length_drop; lia).
    rewrite Ed in *. cbn [length split_by pieces]. rewrite Z.div_small by lia. cbn. lia.
Qed.
