(* ===== verification/Sql.v ===== *)
(** * SQLite as the library uses it

    The library writes SQL text and hands it to SQLite.  This file has the
    interface of SQLite (a function of what was executed before), the
    statements the library writes with the text of each, and what the
    documentation of SQLite says they do: the class [Documented] states that
    SQLite does it for the texts of a given set. *)
From stdpp Require Import strings pretty.
From S2P Require Import Prelude TlBuf Serial Errors Tg Packet Objects Service.

(** ** Values and tables *)
(** [VNumber s]: the number a text [s] stands for that is not written in
    plain decimal digits (1e3, 12.0), as a column of numbers keeps it. *)
Inductive value := VNull | VInt (z : Z) | VText (s : list Z) | VBlob (s : list Z) | VNumber (s : list Z).
#[export] Instance value_eq_dec : EqDecision value.
Proof. solve_decision. Defined.

(** A row has the columns that were given a value; the others are NULL. *)
Abbreviation row := (gmap string value).
Record table := Table { t_cols : list string; t_ints : list string; t_rows : list row }. (* t_ints: declared INT *)
Abbreviation tables := (gmap string table).
Definition column (c : string) (r : row) : value := default VNull (r !! c).

(** ** Statements *)
(** The library writes names bare or between single quotes. *)
Inductive name := Bare (s : string) | Quoted (s : string).
Definition id_of (n : name) : string := match n with Bare s => s | Quoted s => s end.
Inductive literal := LInt (z : Z) | LText (s : list Z) | LParam.
(** A quoted name is a column in [SET] and a text in [WHERE]. *)
Definition cond : Type := name * Z.
Inductive stmt :=
| CreateTable (t : string) (cs : list (string * bool)) (* of numbers; the second is UNIQUE *)
| DeleteAll (t : name)
| Pragma (setting : string)
| AddColumn (t c : name) (ty : string)
| InsertMissing (t : string) (c : name) (v : Z)
| InsertRow (t : string) (vs : list (name * literal))
| Update (t : string) (sets : list (name * literal)) (w : option cond)
| InsertMissingText (t c : string) (v : list Z)
| UpdateText (t : string) (sets : list (name * literal)) (c : string) (v : list Z) (* WHERE c = 'v' *)
| DeleteWhere (t : string) (w : list cond)
| UpdateTable (t : string) (sets : list (name * literal)) (w : list cond). (* [UPDATE TABLE]: not SQL *)
(** An [ORDER BY] with a quoted name sorts by a text, which is to say not at
    all. *)
Record select := Select {
  s_columns : list string; s_from : string; s_where : list cond; s_order : option string;
  s_range : list (string * bool * Z);  (* true: [>], false: [<] *)
  s_limit : option Z
}.

#[export] Instance name_eq_dec : EqDecision name.
Proof. solve_decision. Defined.
#[export] Instance literal_eq_dec : EqDecision literal.
Proof. solve_decision. Defined.
#[export] Instance stmt_eq_dec : EqDecision stmt.
Proof. solve_decision. Defined.
#[export] Instance select_eq_dec : EqDecision select.
Proof. solve_decision. Defined.

Definition dec (z : Z) : list Z := chars (pretty z).

(** A column declared INT keeps a text that is a number as the number. *)
Definition number_of (t : list Z) : option Z :=
  if forallb is_digit t && negb (bool_decide (t = [])) then Some (digits 0 t) else None.
Definition int_of (s : list Z) : option Z :=
  z ← (match s with [] => None | c :: t => if c =? 45 then Z.opp <$> number_of t else number_of s end);
  if (-9223372036854775808 <=? z) && (z <? 9223372036854775808) then Some z else None.

(** A literal of SQLite that is a number: digits, a fraction, an exponent,
    a sign, spaces around. *)
Fixpoint after_spaces (s : list Z) : list Z :=
  match s with c :: t => if is_space c then after_spaces t else s | [] => [] end.
Definition after_sign (s : list Z) : list Z :=
  match s with c :: t => if (c =? 45) || (c =? 43) then t else s | [] => [] end.
Fixpoint after_digits (n : nat) (s : list Z) : nat * list Z :=
  match s with c :: t => if is_digit c then after_digits (S n) t else (n, s) | [] => (n, []) end.
Definition is_number (s : list Z) : bool :=
  let '(n, s) := after_digits 0 (after_sign (after_spaces s)) in
  let '(n, s) := match s with c :: t => if c =? 46 then after_digits n t else (n, s) | [] => (n, s) end in
  let s := match s with
           | c :: t => if (c =? 101) || (c =? 69) then
                         let '(m, t) := after_digits 0 (after_sign t) in if (0 <? m)%nat then t else s
                       else s
           | [] => []
           end in
  (0 <? n)%nat && bool_decide (after_spaces s = []).
Definition affine (int : bool) (v : value) : value :=
  match v with
  | VText s => if int then match int_of s with Some z => VInt z | None => if is_number s then VNumber s else v end else v
  | _ => v
  end.
Definition print_name (n : name) : list Z :=
  match n with Bare s => chars s | Quoted s => 39 :: chars s ++ [39] end.
Definition print_literal (l : literal) : list Z :=
  match l with LInt z => dec z | LText s => 39 :: s ++ [39] | LParam => chars "(?)" end.
Definition print_cond (c : cond) : list Z := print_name (fst c) ++ chars " = " ++ dec (snd c).

Fixpoint sep_by (sep : list Z) (l : list (list Z)) : list Z :=
  match l with [] => [] | [x] => x | x :: l => x ++ sep ++ sep_by sep l end.

Definition print_stmt (gap : list Z) (s : stmt) : list Z :=
  match s with
  | CreateTable t cs =>
      chars "CREATE TABLE IF NOT EXISTS " ++ chars t ++ chars " (" ++
      sep_by (chars ", ") ((fun c => chars (fst c) ++ chars (if snd c : bool then " INT UNIQUE" else " INT")) <$> cs) ++ chars ")"
  | DeleteAll t => chars "DELETE from " ++ print_name t
  | Pragma p => chars "PRAGMA " ++ chars p
  | AddColumn t c ty => chars "ALTER TABLE " ++ print_name t ++ chars " ADD COLUMN " ++ print_name c ++ 32 :: chars ty
  | InsertMissing t c v =>
      chars "INSERT INTO " ++ print_name (Quoted t) ++ chars " (" ++ print_name c ++ chars ") SELECT" ++ gap ++ dec v ++
      chars " WHERE NOT EXISTS (SELECT 1 FROM " ++ chars t ++ chars " WHERE " ++ chars (id_of c) ++ chars " = " ++ dec v ++ chars ")"
  | InsertRow t vs =>
      chars "INSERT INTO " ++ print_name (Quoted t) ++ chars " (" ++ sep_by (chars ", ") ((fun v => print_name (fst v)) <$> vs) ++
      chars ") VALUES (" ++ sep_by (chars ", ") ((fun v => print_literal (snd v)) <$> vs) ++ chars ")"
  | Update t sets w =>
      chars "UPDATE " ++ print_name (Quoted t) ++ chars " SET " ++
      sep_by (chars ", ") ((fun v => print_name (fst v) ++ chars " = " ++ print_literal (snd v)) <$> sets) ++
      match w with None => [] | Some c => chars " WHERE " ++ print_cond c end
  | InsertMissingText t c v =>
      chars "INSERT INTO " ++ print_name (Quoted t) ++ chars " (" ++ chars c ++ chars ") SELECT" ++ gap ++ print_literal (LText v) ++
      chars " WHERE NOT EXISTS (SELECT 1 FROM " ++ print_name (Quoted t) ++ chars " WHERE " ++ chars c ++ chars " = " ++ print_literal (LText v) ++ chars ")"
  | UpdateText t sets c v =>
      chars "UPDATE " ++ print_name (Quoted t) ++ chars " SET " ++
      sep_by (chars ", ") ((fun v => print_name (fst v) ++ chars " = " ++ print_literal (snd v)) <$> sets) ++
      chars " WHERE " ++ chars c ++ chars " = " ++ print_literal (LText v)
  | DeleteWhere t w => chars "DELETE from " ++ chars t ++ chars " WHERE " ++ sep_by (chars " AND ") (print_cond <$> w)
  | UpdateTable t sets w =>
      chars "UPDATE TABLE " ++ chars t ++ chars " SET " ++
      sep_by (chars ", ") ((fun v => print_name (fst v) ++ chars " = " ++ print_literal (snd v)) <$> sets) ++
      chars " WHERE " ++ sep_by (chars " AND ") (print_cond <$> w)
  end.
(** Where the library has a blank or two, or a new line. *)
Definition print_sql (gap sep fin : list Z) (ss : list stmt) : list Z := sep_by (59 :: sep) (print_stmt gap <$> ss) ++ 59 :: fin.
Definition print_range (c : string * bool * Z) : list Z :=
  chars (fst (fst c)) ++ chars (if snd (fst c) : bool then " > " else " < ") ++ dec (snd c).
Definition print_select (q : select) : list Z :=
  chars "SELECT " ++ sep_by (chars ", ") (chars <$> s_columns q) ++ chars " FROM " ++ chars (s_from q) ++ chars " WHERE " ++
  sep_by (chars " AND ") ((print_cond <$> s_where q) ++ (print_range <$> s_range q)) ++
  match s_order q with None => [] | Some c => chars " ORDER BY " ++ print_name (Quoted c) ++ chars " DESC" end ++
  match s_limit q with None => [] | Some n => chars " LIMIT " ++ dec n end ++ chars ";".

(** A text without a quote stands for itself between quotes. *)
Definition plain_literal (v : name * literal) : Prop := match snd v with LText s => 39 ∉ s | _ => True end.
Definition plain (s : stmt) : Prop :=
  match s with
  | InsertRow _ vs => Forall plain_literal vs
  | Update _ sets _ => Forall plain_literal sets
  | UpdateText _ sets _ v => Forall plain_literal sets /\ 39 ∉ v
  | InsertMissingText _ _ v => 39 ∉ v
  | _ => True
  end.

Definition blank (c : Z) : bool := (c =? 32) || (c =? 10).
Definition blanks (l : list Z) : Prop := Forall (fun c => blank c = true) l.
Definition renders (t : list Z) (ss : list stmt) : Prop :=
  exists gap sep fin, blanks gap /\ gap <> [] /\ blanks sep /\ blanks fin /\ t = print_sql gap sep fin ss.

(** ** What they do *)
Definition literal_value (param : value) (l : literal) : value :=
  match l with LInt z => VInt z | LText s => VText s | LParam => param end.
Definition cond_holds (c : cond) (r : row) : bool :=
  match fst c with
  | Bare n => bool_decide (column n r = VInt (snd c))
  | Quoted n => bool_decide (VText (chars n) = VInt (snd c))
  end.
Definition cond_known (cols : list string) (c : cond) : bool :=
  match fst c with Bare n => bool_decide (n ∈ cols) | Quoted _ => true end.

Definition text_holds (c : string) (v : list Z) (r : row) : bool := bool_decide (column c r = VText v).
(** NULL compares with nothing; a text is greater than a number.  (What a
    [VNumber] compares with is not described: the library compares columns
    it writes numbers to, in plain digits.) *)
Definition range_holds (c : string * bool * Z) (r : row) : bool :=
  match column (fst (fst c)) r with
  | VNull | VNumber _ => false
  | VInt z => if snd (fst c) : bool then snd c <? z else z <? snd c
  | VText _ | VBlob _ => snd (fst c)
  end.

Definition assign (ints : list string) (param : value) (sets : list (name * literal)) (r : row) : row :=
  foldl (fun r v => <[id_of (fst v) := affine (bool_decide (id_of (fst v) ∈ ints)) (literal_value param (snd v))]> r) r sets.
Definition with_rows (tb : table) (rs : list row) : table := Table (t_cols tb) (t_ints tb) rs.
Definition known (cols : list string) (vs : list (name * literal)) : bool :=
  forallb (fun v => bool_decide (id_of (fst v) ∈ cols)) vs.

(** [None] is an error, after which nothing has changed. *)
Definition run_stmt (param : value) (st : tables) (s : stmt) : option tables :=
  match s with
  | CreateTable t cs =>
      Some (match st !! t with Some _ => st | None => <[t := Table (fst <$> cs) (fst <$> cs) []]> st end)
  | DeleteAll t => tb ← st !! id_of t; Some (<[id_of t := with_rows tb []]> st)
  | Pragma _ => Some st
  | AddColumn t c ty =>
      tb ← st !! id_of t;
      if bool_decide (id_of c ∈ t_cols tb) then None (* duplicate column name *)
      else Some (<[id_of t := Table (t_cols tb ++ [id_of c]) (if String.eqb ty "INT" then t_ints tb ++ [id_of c] else t_ints tb) (t_rows tb)]> st)
  | InsertMissing t c v =>
      tb ← st !! t;
      if bool_decide (id_of c ∈ t_cols tb) then
        Some (if existsb (cond_holds (Bare (id_of c), v)) (t_rows tb) then st
              else <[t := with_rows tb (t_rows tb ++ [{[id_of c := VInt v]}])]> st)
      else None
  | InsertRow t vs =>
      tb ← st !! t;
      if known (t_cols tb) vs then Some (<[t := with_rows tb (t_rows tb ++ [assign (t_ints tb) param vs ∅])]> st) else None
  | Update t sets w =>
      tb ← st !! t;
      if known (t_cols tb) sets && match w with None => true | Some c => cond_known (t_cols tb) c end then
        Some (<[t := with_rows tb
                 ((fun r => if match w with None => true | Some c => cond_holds c r end
                            then assign (t_ints tb) param sets r else r) <$> t_rows tb)]> st)
      else None
  | InsertMissingText t c v =>
      tb ← st !! t;
      if bool_decide (c ∈ t_cols tb) then
        Some (if existsb (text_holds c v) (t_rows tb) then st
              else <[t := with_rows tb (t_rows tb ++ [{[c := affine (bool_decide (c ∈ t_ints tb)) (VText v)]}])]> st)
      else None
  | UpdateText t sets c v =>
      tb ← st !! t;
      if known (t_cols tb) sets && bool_decide (c ∈ t_cols tb) then
        Some (<[t := with_rows tb ((fun r => if text_holds c v r then assign (t_ints tb) param sets r else r) <$> t_rows tb)]> st)
      else None
  | DeleteWhere t w =>
      tb ← st !! t;
      if forallb (cond_known (t_cols tb)) w then
        Some (<[t := with_rows tb (filter (fun r => forallb (fun c => cond_holds c r) w = false) (t_rows tb))]> st)
      else None
  | UpdateTable _ _ _ => None (* near TABLE: syntax error *)
  end.

(** [sqlite3_exec]: one after the other up to the first error; what was
    done before it stays. *)
Fixpoint run_all (st : tables) (ss : list stmt) : bool * tables :=
  match ss with
  | [] => (true, st)
  | s :: ss => match run_stmt VNull st s with None => (false, st) | Some st => run_all st ss end
  end.

(** The rows a query selects, before the limit. *)
Definition chosen (q : select) (r : row) : bool :=
  forallb (fun c => cond_holds c r) (s_where q) && forallb (fun c => range_holds c r) (s_range q).
Definition run_select (st : tables) (q : select) : option (list (list value)) :=
  tb ← st !! s_from q;
  if forallb (fun c => bool_decide (c ∈ t_cols tb)) (s_columns q) && forallb (cond_known (t_cols tb)) (s_where q) &&
     forallb (fun c => bool_decide (fst (fst c) ∈ t_cols tb)) (s_range q) then
    Some ((fun r => (fun c => column c r) <$> s_columns q) <$> filter (fun r => chosen q r = true) (t_rows tb))
  else None.
(** A query without ranges and limit. *)
Abbreviation simple cols t w o := (Select cols t w o [] None).
Lemma run_simple st cols t w o :
  run_select st (simple cols t w o) =
  (tb ← st !! t;
   if forallb (fun c => bool_decide (c ∈ t_cols tb)) cols && forallb (cond_known (t_cols tb)) w then
     Some ((fun r => (fun c => column c r) <$> cols) <$> filter (fun r => forallb (fun c => cond_holds c r) w = true) (t_rows tb))
   else None).
Proof.
  unfold run_select. cbn [s_from s_columns s_where s_range]. destruct (st !! t) as [tb|]; cbn [mbind option_bind]; [| done].
  cbn [forallb]. rewrite andb_true_r. destruct (_ && _); [| done]. f_equal. f_equal. apply list_filter_iff. intros r.
  unfold chosen. cbn [s_where s_range forallb]. by rewrite andb_true_r.
Qed.

(** A negative limit is none. *)
Definition limited (limit : option Z) (rows : list (list value)) : list (list value) :=
  match limit with Some n => if n <? 0 then rows else take (Z.to_nat n) rows | None => rows end.
(** Some of the rows, as many as the limit allows, in any order. *)
Definition returns (q : select) (rows selected : list (list value)) : Prop :=
  exists l, l ≡ₚ selected /\ rows = limited (s_limit q) l.

(** ** The interface *)
Class Sqlite := {
  sql_creates : bool;                                    (* sqlite3_open with SQLITE_OPEN_CREATE *)
  sql_fails : list deed -> list Z -> bool;               (* sqlite3_open, sqlite3_exec *)
  sql_binds : list deed -> list Z -> bool;               (* sqlite3_prepare of a statement with a parameter *)
  sql_rows : list deed -> list Z -> option (list (list value));  (* None: open or prepare failed *)
  column_int64 : value -> Z;
  number_text : list Z -> list Z                         (* the text of a [VNumber] *)
}.

(** SQLite does what is documented for the statements of a set. *)
Class Documented `{Sqlite} (statements : list stmt -> Prop) (queries : select -> Prop) := {
  store_of : list deed -> tables;
  exec_documented : forall h t ss, statements ss -> Forall plain ss -> renders t ss ->
    sql_fails h t = negb (fst (run_all (store_of h) ss)) /\ store_of (h ++ [Exec t]) = snd (run_all (store_of h) ss);
  bind_documented : forall h t s blob, statements [s] -> renders t [s] ->
    sql_binds h t = bool_decide (is_Some (run_stmt (VBlob blob) (store_of h) s)) /\
    store_of (h ++ [Bind t blob]) = default (store_of h) (run_stmt (VBlob blob) (store_of h) s);
  rows_documented : forall h q, queries q ->
    option_Forall2 (returns q) (sql_rows h (print_select q)) (run_select (store_of h) q);
  int64_documented : forall z, -9223372036854775808 <= z < 9223372036854775808 -> column_int64 (VInt z) = z
}.
