(* ===== verification/Database.v ===== *)
(** * What is kept in the database: libtg/tg/database.c, database.h

    Every function writes its SQL text into an array of [BUFSIZ] characters
    (or a growing string) and hands it to SQLite.  The mutex [databasem] is
    taken and released inside each function. *)
From stdpp Require Import strings pretty.
From S2P Require Import Prelude TlBuf Serial Errors Str Tg Packet Objects Service Sql.

Section Database.
Context `{Env} `{Sqlite} {U : Type}.

(** [sprintf(sql, ...)] into [char sql[BUFSIZ]] *)
Definition sprintf_ (text : list Z) : F U (list Z) :=
  _ ← lift (guard_res (zlen text <? BUFSIZ) OutOfBounds); mret text.

Definition tg_sqlite3_exec (sql : list Z) : F U Z :=
  h ← gets did;
  _ ← modify (does (Exec sql));
  mret (if sql_fails h sql then 1 else 0).

(** The rows [tg_sqlite3_for_each] steps through: none when the database
    cannot be opened or the statement not be prepared. *)
Definition tg_sqlite3_for_each (sql : list Z) : F U (list (list value)) :=
  h ← gets did; mret (default [] (sql_rows h sql)).

Definition the_id : F U Z := gets (fun s => c_id (conn s)).

(** [sqlite3_column_text] and [sqlite3_column_blob]: NULL for a NULL value;
    [sqlite3_column_bytes] of it is 0. *)
Definition column_bytes_of (r : list value) (i : nat) : option (list Z) :=
  match r !! i with
  | Some (VText s) => Some s
  | Some (VBlob s) => Some s
  | Some (VInt z) => Some (dec z)
  | Some (VNumber s) => Some (number_text s)
  | _ => None
  end.
Definition column_size (r : list value) (i : nat) : Z := zlen (default [] (column_bytes_of r i)).

(** [strcpy(buf, sqlite3_column_text(stmt, 0))] for every row, [char
    buf[BUFSIZ] = {0}]; then a duplicate of [buf], or NULL. *)
Fixpoint last_text (buf : list Z) (rows : list (list value)) : res (list Z) :=
  match rows with
  | [] => Ok buf
  | r :: rows =>
      match column_bytes_of r 0 with
      | None => Err NullDeref
      | Some s => _ ← guard_res (zlen s <? BUFSIZ) OutOfBounds; last_text s rows
      end
  end.
Definition text_from_database (sql : list Z) : F U (option (list Z)) :=
  rows ← tg_sqlite3_for_each sql;
  buf ← lift (last_text [] rows);
  mret (if bool_decide (buf = []) then None else Some buf).

Definition print_id (z : Z) : list Z := dec z.

Definition auth_key_from_database : F U buf_t :=
  id ← the_id;
  sql ← sprintf_ (chars "SELECT auth_key FROM auth_keys WHERE id = " ++ print_id id ++ chars ";");
  rows ← tg_sqlite3_for_each sql;
  let fix loop auth_key rows :=
    match rows with
    | [] => Ok auth_key
    | r :: rows => b ← buf_add (default [] (column_bytes_of r 0)) (column_size r 0); loop b rows
    end in
  lift (loop (Buf [] 0 0 0) rows).

Definition phone_number_from_database : F U (option (list Z)) :=
  id ← the_id;
  sql ← sprintf_ (chars "SELECT phone_number FROM phone_numbers WHERE id = " ++ print_id id ++ chars ";");
  text_from_database sql.

Definition phone_number_to_database (phone_number : list Z) : F U Z :=
  id ← the_id;
  _ ← tg_sqlite3_exec (chars "ALTER TABLE 'phone_numbers' ADD COLUMN 'phone_number' TEXT; ");
  sql ← sprintf_ (chars "INSERT INTO 'phone_numbers' ('id') SELECT " ++ print_id id ++
    chars " WHERE NOT EXISTS (SELECT 1 FROM phone_numbers WHERE id = " ++ print_id id ++ chars "); " ++
    chars "UPDATE 'phone_numbers' SET 'phone_number' = '" ++ phone_number ++ chars "', id = " ++ print_id id ++ chars "; ");
  tg_sqlite3_exec sql.

(** The tokens between semicolons; no separator before the first that is
    not empty. *)
Fixpoint join_tokens (i : Z) (s : list Z) (rows : list (list value)) : list Z :=
  match rows with
  | [] => s
  | r :: rows =>
      let s := if 0 <? i then s ++ chars ";" else s in
      match column_bytes_of r 1 with
      | Some (c :: t) => join_tokens (i + 1) (s ++ c :: t) rows
      | _ => join_tokens i s rows
      end
  end.
Definition auth_tokens_from_database : F U (option (list Z)) :=
  id ← the_id;
  sql ← sprintf_ (chars "SELECT * FROM ((SELECT ROW_NUMBER() OVER (ORDER BY ID) AS Number, auth_token FROM auth_tokens)) WHERE id = " ++
    print_id id ++ chars " ORDER BY Number DESC LIMIT 20;");
  rows ← tg_sqlite3_for_each sql;
  let s := join_tokens 0 [] rows in
  mret (if bool_decide (s = []) then None else Some s).

Definition auth_token_to_database (auth_token : list Z) : F U Z :=
  id ← the_id;
  _ ← tg_sqlite3_exec (chars "ALTER TABLE 'auth_tokens' ADD COLUMN 'auth_token' TEXT; ");
  sql ← sprintf_ (chars "INSERT INTO 'auth_tokens' (id, 'auth_token') VALUES (" ++ print_id id ++ chars ", '" ++ auth_token ++ chars "'); ");
  tg_sqlite3_exec sql.

Definition auth_key_to_database (auth_key : buf_t) : F U Z :=
  id ← the_id;
  _ ← tg_sqlite3_exec (chars "ALTER TABLE 'auth_keys' ADD COLUMN 'auth_key' BLOB; ");
  sql ← sprintf_ (chars "INSERT INTO 'auth_keys' (id) SELECT " ++ print_id id ++
    chars " WHERE NOT EXISTS (SELECT 1 FROM auth_keys WHERE id = " ++ print_id id ++ chars "); ");
  _ ← tg_sqlite3_exec sql;
  sql ← sprintf_ (chars "UPDATE 'auth_keys' SET 'auth_key' = (?) WHERE id = " ++ print_id id ++ chars "; ");
  h ← gets did;
  if sql_binds h sql then
    blob ← lift (load auth_key (b_size auth_key));
    _ ← modify (does (Bind sql blob));
    mret 0
  else mret 1.

(** [uint64_t hash;] has no value before the first row. *)
Fixpoint hash_of (hash : res Z) (rows : list (list value)) : res Z :=
  match rows with
  | [] => hash
  | r :: rows => hash_of (Ok (u64 (column_int64 (default VNull (r !! 0%nat))))) rows
  end.
(** [_LD_]: a [uint64_t] printed as a signed number. *)
Definition ld (z : Z) : list Z := dec (i64 z).

Definition dialogs_hash_from_database : F U Z :=
  id ← the_id;
  sql ← sprintf_ (chars "SELECT hash FROM dialogs_hash WHERE id = " ++ print_id id ++ chars ";");
  rows ← tg_sqlite3_for_each sql;
  lift (hash_of (Err Uninit) rows).

Definition dialogs_hash_to_database (hash : Z) : F U Z :=
  id ← the_id;
  sql ← sprintf_ (chars "ALTER TABLE 'dialogs_hash' ADD COLUMN 'hash' INT; INSERT INTO 'dialogs_hash' ('id') SELECT " ++ print_id id ++
    chars " WHERE NOT EXISTS (SELECT 1 FROM dialogs_hash WHERE id = " ++ print_id id ++
    chars "); UPDATE 'dialogs_hash' SET 'hash' = '" ++ ld hash ++ chars "', id = " ++ print_id id ++ chars "; ");
  tg_sqlite3_exec sql.

Definition messages_hash_from_database (peer_id : Z) : F U Z :=
  id ← the_id;
  sql ← sprintf_ (chars "SELECT hash FROM messages_hash WHERE id = " ++ print_id id ++ chars " AND peer_id = " ++ ld peer_id ++ chars ";");
  rows ← tg_sqlite3_for_each sql;
  lift (hash_of (Err Uninit) rows).

Definition messages_hash_to_database (peer_id hash : Z) : F U Z :=
  id ← the_id;
  sql ← sprintf_ (chars "ALTER TABLE 'messages_hash' ADD COLUMN 'hash' INT; ALTER TABLE 'messages_hash' ADD COLUMN 'peer_id' INT; " ++
    chars "INSERT INTO 'messages_hash' ('peer_id') SELECT " ++ ld peer_id ++
    chars " WHERE NOT EXISTS (SELECT 1 FROM messages_hash WHERE peer_id = " ++ ld peer_id ++
    chars "); UPDATE 'messages_hash' SET 'hash' = " ++ ld hash ++ chars ", id = " ++ print_id id ++
    chars " WHERE 'peer_id' = " ++ ld peer_id ++ chars ";");
  tg_sqlite3_exec sql.

(** The first row with data; [strndup] of a text. *)
Fixpoint first_text (rows : list (list value)) : option (list Z) :=
  match rows with
  | [] => None
  | r :: rows => match column_bytes_of r 0 with Some (c :: t) => Some (c :: t) | _ => first_text rows end
  end.

Definition photo_file_from_database (photo_id : Z) : F U (option (list Z)) :=
  id ← the_id;
  sql ← sprintf_ (chars "SELECT data FROM photos WHERE id = " ++ print_id id ++ chars " AND photo_id = " ++ ld photo_id ++ chars ";");
  rows ← tg_sqlite3_for_each sql;
  mret (first_text rows).

(** A growing string: no limit. *)
Definition photo_to_database (photo_id : Z) (data : list Z) : F U Z :=
  id ← the_id;
  _ ← tg_sqlite3_exec (chars "ALTER TABLE 'photos' ADD COLUMN 'data' TEXT; ALTER TABLE 'photos' ADD COLUMN 'photo_id' INT; ");
  tg_sqlite3_exec (chars "INSERT INTO 'photos' ('photo_id') SELECT " ++ ld photo_id ++
    chars " WHERE NOT EXISTS (SELECT 1 FROM photos WHERE photo_id = " ++ ld photo_id ++
    chars "); UPDATE 'photos' SET 'photo_id' = " ++ ld photo_id ++ chars ", id = " ++ print_id id ++ chars ", data = '" ++ data ++
    chars "' WHERE photo_id = " ++ ld photo_id ++ chars ";").

Definition peer_photo_file_from_database (peer_id photo_id : Z) : F U (option (list Z)) :=
  id ← the_id;
  sql ← sprintf_ (chars "SELECT data FROM peer_photos WHERE id = " ++ print_id id ++ chars " AND peer_id = " ++ ld peer_id ++
    chars " AND photo_id = " ++ ld photo_id ++ chars ";");
  rows ← tg_sqlite3_for_each sql;
  mret (first_text rows).

Definition peer_photo_to_database (peer_id photo_id : Z) (data : list Z) : F U Z :=
  id ← the_id;
  _ ← tg_sqlite3_exec (chars "ALTER TABLE 'peer_photos' ADD COLUMN 'data' TEXT; ALTER TABLE 'peer_photos' ADD COLUMN 'peer_id' INT; ALTER TABLE 'peer_photos' ADD COLUMN 'photo_id' INT; ");
  tg_sqlite3_exec (chars "INSERT INTO 'peer_photos' ('peer_id') SELECT " ++ ld peer_id ++
    chars " WHERE NOT EXISTS (SELECT 1 FROM peer_photos WHERE peer_id = " ++ ld peer_id ++
    chars "); UPDATE 'peer_photos' SET id = " ++ print_id id ++ chars ", 'photo_id' = " ++ ld photo_id ++ chars ", data = '" ++ data ++
    chars "' WHERE peer_id = " ++ ld peer_id ++ chars ";").

Definition ip_address_to_database (ip : list Z) : F U Z :=
  id ← the_id;
  _ ← tg_sqlite3_exec (chars "ALTER TABLE 'ips' ADD COLUMN 'ip' TEXT; ");
  sql ← sprintf_ (chars "INSERT INTO 'ips' ('id') SELECT " ++ print_id id ++
    chars " WHERE NOT EXISTS (SELECT 1 FROM ips WHERE id = " ++ print_id id ++ chars "); " ++
    chars "UPDATE 'ips' SET 'ip' = '" ++ ip ++ chars "', id = " ++ print_id id ++ chars "; ");
  tg_sqlite3_exec sql.

Definition ip_address_from_database : F U (option (list Z)) :=
  id ← the_id;
  sql ← sprintf_ (chars "SELECT ip FROM ips WHERE id = " ++ print_id id ++ chars ";");
  text_from_database sql.
End Database.

(** [update_hash] of tg.c. *)
Definition update_hash (hash msg_id : Z) : Z :=
  let h := hash in
  let h := Z.lxor h (Z.shiftr h 21) in
  let h := Z.lxor h (u64 (Z.shiftl h 35)) in
  let h := Z.lxor h (Z.shiftr h 4) in
  u64 (h + msg_id).
