(* ===== verification/DatabaseFacts.v ===== *)
(** * What the database gives back

    Under what SQLite documents: a phone number is read back, storing it
    touches every account, and a hash of dialogs is stored once. *)
From stdpp Require Import strings pretty.
From S2P Require Import Prelude TlBuf Serial Errors Tg Packet Objects Service Sql Database.

(** ** The text of a number *)
Lemma chars_app a b : chars (a +:+ b) = chars a ++ chars b.
Proof. induction a as [|c a IH]; [done |]. cbn. by rewrite <- IH. Qed.
Lemma zlen_string c s : zlen (chars (String c s)) = 1 + zlen (chars s).
Proof. cbn [chars]. rewrite zlen_cons. lia. Qed.

Lemma digits_bound k : forall x s, (x < 10 ^ N.of_nat k)%N -> zlen (chars (pretty_N_go x s)) <= Z.of_nat k + zlen (chars s).
Proof.
  induction k as [|k IH]; intros x s Hx.
  - replace x with 0%N by (cbn in Hx; lia). rewrite pretty_N_go_0. lia.
  - destruct (decide (x = 0)%N) as [-> | Hne]; [rewrite pretty_N_go_0; lia |].
    rewrite pretty_N_go_step by lia. rewrite Nat2N.inj_succ, N.pow_succ_r' in Hx.
    etrans; [apply IH, N.Div0.div_lt_upper_bound; lia |]. rewrite zlen_string. lia.
Qed.
Lemma zlen_dec k z : Z.abs z < 10 ^ Z.of_nat k -> (0 < k)%nat -> zlen (dec z) <= 1 + Z.of_nat k.
Proof.
  intros Hz Hk. assert (Hp : forall p, Z.pos p < 10 ^ Z.of_nat k -> zlen (chars (pretty p)) <= Z.of_nat k).
  { intros p Hp. change (pretty p) with (pretty_N (N.pos p)). unfold pretty_N. rewrite decide_False by done. etrans; [apply (digits_bound k) | change (zlen (chars "")) with 0; lia].
    apply N2Z.inj_lt. rewrite N2Z.inj_pow, nat_N_Z. exact Hp. }
  unfold dec, pretty, pretty_Z. destruct z as [| p | p]; [change (zlen (chars "0")) with 1; lia | |].
  - pose proof (Hp p Hz). lia.
  - rewrite chars_app, zlen_app. change (zlen (chars "-")) with 1. pose proof (Hp p Hz). lia.
Qed.
Lemma digits_plain s : 39 ∉ chars s -> forall x, 39 ∉ chars (pretty_N_go x s).
Proof.
  intros Hs x. revert s Hs. induction (N.lt_wf_0 x) as [x _ IH]. intros s Hs. destruct (decide (x = 0)%N) as [-> | Hne]; [by rewrite pretty_N_go_0 |].
  rewrite pretty_N_go_step by lia. apply IH; [apply N.div_lt; lia |].
  cbn [chars]. apply not_elem_of_cons. split; [| exact Hs].
  assert (Hm : (x `mod` 10 < 10)%N) by (by apply N.mod_lt). unfold pretty_N_char. by repeat case_match.
Qed.
Lemma dec_plain z : 39 ∉ dec z.
Proof.
  assert (Hp : forall p : positive, 39 ∉ chars (pretty p)).
  { intros p. change (pretty p) with (pretty_N (N.pos p)). unfold pretty_N. rewrite decide_False by done. apply digits_plain, not_elem_of_nil. }
  unfold dec, pretty, pretty_Z. destruct z as [| p | p]; [apply (bool_decide_eq_true_1 _); reflexivity | apply Hp |].
  rewrite chars_app. apply not_elem_of_app. split; [| apply Hp]. apply (bool_decide_eq_true_1 _). reflexivity.
Qed.
(** A number is read as it was written. *)
Lemma digits_read x : forall s, forallb is_digit (chars s) = true ->
  forallb is_digit (chars (pretty_N_go x s)) = true /\ digits 0 (chars (pretty_N_go x s)) = digits (Z.of_N x) (chars s).
Proof.
  induction (N.lt_wf_0 x) as [x _ IH]. intros s Hs. destruct (decide (x = 0)%N) as [-> | Hne]; [by rewrite pretty_N_go_0 |].
  rewrite pretty_N_go_step by lia. assert (Hm : (x `mod` 10 < 10)%N) by (by apply N.mod_lt).
  assert (Hd : forall s', exists c, chars (String (pretty_N_char (x `mod` 10)) s') = c :: chars s' /\ is_digit c = true /\ c - 48 = Z.of_N (x `mod` 10)).
  { intros s'. eexists. split; [reflexivity |]. clear IH. remember (x `mod` 10)%N as m. clear Heqm.
    assert (Hc : (m = 0 \/ m = 1 \/ m = 2 \/ m = 3 \/ m = 4 \/ m = 5 \/ m = 6 \/ m = 7 \/ m = 8 \/ m = 9)%N) by lia.
    repeat (destruct Hc as [-> | Hc]; [by split |]). subst m. by split. }
  destruct (Hd s) as (c & Ec & Hc & Ev). destruct (IH (x `div` 10)%N ltac:(apply N.div_lt; lia) (String (pretty_N_char (x `mod` 10)) s)) as [F D].
  { rewrite Ec. cbn [forallb]. by rewrite Hc. }
  split; [exact F |]. rewrite D, Ec. cbn [digits]. rewrite Hc, Ev. f_equal.
  rewrite N2Z.inj_div, N2Z.inj_mod. pose proof (Z.div_mod (Z.of_N x) 10 ltac:(done)). change (Z.of_N 10) with 10. lia.
Qed.
Lemma pos_read p : number_of (chars (pretty (p : positive))) = Some (Z.pos p) /\
  exists c t, chars (pretty p) = c :: t /\ c <> 45.
Proof.
  change (pretty p) with (pretty_N (N.pos p)). unfold pretty_N. rewrite decide_False by done.
  destruct (digits_read (N.pos p) "" eq_refl) as [F D]. unfold number_of. rewrite F, D.
  destruct (chars (pretty_N_go (N.pos p) "")) as [|c t]; [cbn in D; lia |]. split; [by rewrite bool_decide_false |].
  exists c, t. split; [done | intros ->]. discriminate.
Qed.
Lemma int_of_dec z : -9223372036854775808 <= z < 9223372036854775808 -> int_of (dec z) = Some z.
Proof.
  intros Hz. unfold int_of, dec, pretty, pretty_Z. destruct z as [| p | p]; [reflexivity | |].
  - destruct (pos_read p) as (E & c & t & Ec & Hc). rewrite Ec in *. replace (c =? 45) with false by lia.
    rewrite E. cbn [mbind option_bind]. by replace (_ && _) with true by lia.
  - rewrite chars_app. change (chars "-" ++ ?t) with (45 :: t). cbv iota beta. replace (45 =? 45) with true by done.
    rewrite (proj1 (pos_read p)). cbn [fmap option_fmap option_map mbind option_bind]. by replace (_ && _) with true by lia.
Qed.
Definition is_i32 (z : Z) : Prop := -2147483648 <= z < 2147483648.
Lemma zlen_id z : is_i32 z -> zlen (print_id z) <= 11.
Proof. unfold is_i32. intros Hz. apply (zlen_dec 10); [change (10 ^ Z.of_nat 10) with 10000000000 |]; lia. Qed.
Lemma zlen_ld z : zlen (ld z) <= 20.
Proof.
  unfold ld. apply (zlen_dec 19); [| lia]. unfold i64.
  pose proof (Z.mod_pos_bound (z + 9223372036854775808) 18446744073709551616 ltac:(done)).
  change (10 ^ Z.of_nat 19) with 10000000000000000000. lia.
Qed.

(** The length of a text of known parts. *)
Ltac text_length :=
  repeat rewrite zlen_app; repeat match goal with |- context [zlen (chars ?s)] => let n := eval vm_compute in (zlen (chars s)) in
    change (zlen (chars s)) with n end;
  repeat match goal with
  | |- context [zlen (print_id ?z)] => lazymatch goal with H : zlen (print_id z) <= _ |- _ => fail | _ => assert (zlen (print_id z) <= 11) by (by apply zlen_id) end
  | |- context [zlen (ld ?z)] => lazymatch goal with H : zlen (ld z) <= _ |- _ => fail | _ => pose proof (zlen_ld z) end
  end; pose proof BUFSIZ_min; lia.

Section DatabaseFacts.
Context `{Env} `{Sqlite} {U : Type}.

Lemma sprintf_ok text (s : client U) : zlen text < BUFSIZ -> sprintf_ text s = Ok (text, s).
Proof. intros Ht. unfold sprintf_. replace (zlen text <? BUFSIZ) with true by lia. reflexivity. Qed.
Lemma exec_ok sql (s : client U) :
  tg_sqlite3_exec sql s = Ok (if sql_fails (did s) sql then 1 else 0, does (Exec sql) s).
Proof. reflexivity. Qed.
Lemma rows_ok sql (s : client U) : tg_sqlite3_for_each sql s = Ok (default [] (sql_rows (did s) sql), s).
Proof. reflexivity. Qed.
Lemma id_ok (s : client U) : the_id s = Ok (c_id (conn s), s).
Proof. reflexivity. Qed.
(** What is handed to SQLite for a key and an address. *)
Definition alter_keys : list Z := chars "ALTER TABLE 'auth_keys' ADD COLUMN 'auth_key' BLOB; ".
Definition insert_key (id : Z) : list Z := chars "INSERT INTO 'auth_keys' (id) SELECT " ++ print_id id ++
  chars " WHERE NOT EXISTS (SELECT 1 FROM auth_keys WHERE id = " ++ print_id id ++ chars "); ".
Definition update_key (id : Z) : list Z := chars "UPDATE 'auth_keys' SET 'auth_key' = (?) WHERE id = " ++ print_id id ++ chars "; ".
Definition key_deeds (h : list deed) (id : Z) (key : list Z) : list deed :=
  [Exec alter_keys; Exec (insert_key id)] ++
  if sql_binds (h ++ [Exec alter_keys; Exec (insert_key id)]) (update_key id) then [Bind (update_key id) key] else [].
Definition alter_ips : list Z := chars "ALTER TABLE 'ips' ADD COLUMN 'ip' TEXT; ".
Definition upsert_ip (id : Z) (ip : list Z) : list Z := chars "INSERT INTO 'ips' ('id') SELECT " ++ print_id id ++
  chars " WHERE NOT EXISTS (SELECT 1 FROM ips WHERE id = " ++ print_id id ++ chars "); " ++
  chars "UPDATE 'ips' SET 'ip' = '" ++ ip ++ chars "', id = " ++ print_id id ++ chars "; ".
Definition ip_deeds (id : Z) (ip : list Z) : list deed := [Exec alter_ips; Exec (upsert_ip id ip)].

Definition do_all (ds : list deed) (s : client U) : client U := Client (asked s) (reads s) (did s ++ ds) (conn s) (user s).

Lemma auth_key_to_database_ok key (s : client U) : is_i32 (c_id (conn s)) -> buf_wf key ->
  exists r, auth_key_to_database key s = Ok (r, do_all (key_deeds (did s) (c_id (conn s)) (contents key)) s).
Proof.
  intros Hid Hk. unfold auth_key_to_database. rewrite (bind_eq _ _ _ _ _ (id_ok s)), (bind_eq _ _ _ _ _ (exec_ok _ s)).
  erewrite bind_eq by (apply sprintf_ok; text_length). rewrite (bind_eq _ _ _ _ _ (exec_ok _ _)).
  erewrite bind_eq by (apply sprintf_ok; text_length). erewrite bind_eq by reflexivity.
  fold alter_keys (insert_key (c_id (conn s))) (update_key (c_id (conn s))). cbn [did does]. unfold key_deeds, do_all.
  rewrite <- !app_assoc. cbn [app]. destruct (sql_binds _ _).
  - rewrite (bind_lift _ _ _ _ (load_ok key Hk)). erewrite bind_eq by reflexivity. exists 0. unfold mret, st_ret, does.
    cbn [asked reads did conn user]. by rewrite <- !app_assoc.
  - exists 1. unfold mret, st_ret, does. cbn [asked reads did conn user]. by rewrite <- !app_assoc.
Qed.

Lemma ip_address_to_database_ok ip (s : client U) : is_i32 (c_id (conn s)) -> zlen ip < 16 ->
  exists r, ip_address_to_database ip s = Ok (r, do_all (ip_deeds (c_id (conn s)) ip) s).
Proof.
  intros Hid Hip. unfold ip_address_to_database. rewrite (bind_eq _ _ _ _ _ (id_ok s)), (bind_eq _ _ _ _ _ (exec_ok _ s)).
  erewrite bind_eq by (apply sprintf_ok; text_length). fold alter_ips (upsert_ip (c_id (conn s)) ip).
  rewrite exec_ok. eexists. unfold do_all, ip_deeds, does. cbn [asked reads did conn user]. by rewrite <- app_assoc.
Qed.
End DatabaseFacts.

(** ** The statements of the library *)
Definition alter (t c ty : string) : list stmt := [AddColumn (Quoted t) (Quoted c) ty].
Definition upsert (t c : string) (id : Z) (v : list Z) : list stmt :=
  [InsertMissing t (Quoted "id") id; Update t [(Quoted c, LText v); (Bare "id", LInt id)] None].
Definition own (c t : string) (id : Z) : select := simple [c] t [(Bare "id", id)] None.

(** Both sides are characters and the same numbers. *)
Ltac same_text :=
  unfold print_id, ld, upsert, alter, print_sql, print_select; cbn -[chars dec app];
  unfold print_cond, print_name; cbn -[chars dec app];
  repeat (rewrite <- app_assoc || rewrite <- app_comm_cons);
  repeat match goal with |- context [dec ?z] => generalize (dec z); intros ? end; vm_compute; reflexivity.

Ltac blanks_ok := unfold blanks; repeat first [apply List.Forall_nil | apply List.Forall_cons; [reflexivity |]].
(** A blank between words, [fin] at the end. *)
Ltac rendered fin := exists [32], [32], fin; split_and!; [blanks_ok | discriminate | blanks_ok | blanks_ok | same_text].

Lemma phone_text id v : renders (chars "INSERT INTO 'phone_numbers' ('id') SELECT " ++ print_id id ++
    chars " WHERE NOT EXISTS (SELECT 1 FROM phone_numbers WHERE id = " ++ print_id id ++ chars "); " ++
    chars "UPDATE 'phone_numbers' SET 'phone_number' = '" ++ v ++ chars "', id = " ++ print_id id ++ chars "; ")
  (upsert "phone_numbers" "phone_number" id v).
Proof. rendered [32]. Qed.
Lemma phone_alter : renders (chars "ALTER TABLE 'phone_numbers' ADD COLUMN 'phone_number' TEXT; ") (alter "phone_numbers" "phone_number" "TEXT").
Proof. rendered [32]. Qed.
Lemma phone_select id : chars "SELECT phone_number FROM phone_numbers WHERE id = " ++ print_id id ++ chars ";" =
  print_select (own "phone_number" "phone_numbers" id).
Proof. unfold own. same_text. Qed.
Lemma hash_text id h : renders (chars "ALTER TABLE 'dialogs_hash' ADD COLUMN 'hash' INT; INSERT INTO 'dialogs_hash' ('id') SELECT " ++ print_id id ++
    chars " WHERE NOT EXISTS (SELECT 1 FROM dialogs_hash WHERE id = " ++ print_id id ++
    chars "); UPDATE 'dialogs_hash' SET 'hash' = '" ++ ld h ++ chars "', id = " ++ print_id id ++ chars "; ")
  (alter "dialogs_hash" "hash" "INT" ++ upsert "dialogs_hash" "hash" id (ld h)).
Proof. unfold alter, upsert. cbn [app]. rendered [32]. Qed.

Lemma hash_select id : chars "SELECT hash FROM dialogs_hash WHERE id = " ++ print_id id ++ chars ";" =
  print_select (own "hash" "dialogs_hash" id).
Proof. unfold own. same_text. Qed.

(** ** What they do to a table *)
Lemma last_in (l : list string) x : x ∈ l ++ [x].
Proof. apply elem_of_app. right. by apply list_elem_of_singleton. Qed.
Lemma front_in (l : list string) x y : x ∈ l -> x ∈ l ++ [y].
Proof. intros Hx. apply elem_of_app. by left. Qed.
Definition has_column (st : tables) (t c : string) : Prop := exists tb, st !! t = Some tb /\ c ∈ t_cols tb.

(** Every row is the one of the account. *)
Definition all_own (c : string) (id : Z) (v : value) (tb : table) : Prop :=
  t_rows tb <> [] /\ Forall (fun r => column c r = v /\ column "id" r = VInt id) (t_rows tb).
(** What a column keeps of a text. *)
Definition kept (tb : table) (c : string) (v : list Z) : value := affine (bool_decide (c ∈ t_ints tb)) (VText v).

Lemma assign_own ints c id v r : c <> "id" ->
  let r' := assign ints VNull [(Quoted c, LText v); (Bare "id", LInt id)] r in
  column c r' = affine (bool_decide (c ∈ ints)) (VText v) /\ column "id" r' = VInt id.
Proof. intros Hc. unfold assign, column. cbn -[affine]. split; [by rewrite lookup_insert_ne, lookup_insert_eq | by rewrite lookup_insert_eq]. Qed.

Lemma update_own c id v tb tb0 : c <> "id" -> t_rows tb <> [] -> t_ints tb = t_ints tb0 ->
  all_own c id (kept tb0 c v) (with_rows tb ((fun r => assign (t_ints tb) VNull [(Quoted c, LText v); (Bare "id", LInt id)] r) <$> t_rows tb)).
Proof.
  intros Hc Hne Hi. split; cbn [t_rows with_rows]; [by destruct (t_rows tb) |]. apply Forall_fmap, Forall_true. intros r.
  unfold kept. rewrite <- Hi. by apply assign_own.
Qed.

Lemma run_upsert st t c id v tb : c <> "id" -> st !! t = Some tb -> "id" ∈ t_cols tb -> c ∈ t_cols tb ->
  exists tb', run_all st (upsert t c id v) = (true, <[t := tb']> st) /\ t_cols tb' = t_cols tb /\ all_own c id (kept tb c v) tb'.
Proof.
  intros Hc Et Hid Hcol. unfold upsert. cbn [run_all run_stmt id_of]. rewrite Et. cbn [mbind option_bind].
  rewrite bool_decide_true by exact Hid.
  assert (Hk : forall tb', t_cols tb' = t_cols tb -> known (t_cols tb') [(Quoted c, LText v); (Bare "id", LInt id)] && true = true).
  { intros tb' ->. cbn. by rewrite !bool_decide_true. }
  destruct (existsb _ (t_rows tb)) eqn:Ee.
  - rewrite Et. cbn [mbind option_bind]. rewrite Hk by done. eexists. split; [reflexivity | split; [reflexivity |]].
    apply update_own; [exact Hc | by destruct (t_rows tb) | reflexivity].
  - rewrite lookup_insert_eq. cbn [mbind option_bind].
    rewrite Hk by done. rewrite insert_insert_eq. eexists. split; [reflexivity | split; [reflexivity |]].
    apply (update_own c id v (with_rows tb _)); [exact Hc | | reflexivity]. cbn [t_rows with_rows]. by destruct (t_rows tb).
Qed.

Lemma run_all_cons st a l :
  run_all st (a :: l) = match run_stmt VNull st a with None => (false, st) | Some st' => run_all st' l end.
Proof. reflexivity. Qed.

Lemma run_alter st t c ty tb : st !! t = Some tb ->
  exists tb', snd (run_all st (alter t c ty)) !! t = Some tb' /\ c ∈ t_cols tb' /\ (forall x, x ∈ t_cols tb -> x ∈ t_cols tb') /\
    (ty <> "INT" -> t_ints tb' = t_ints tb).
Proof.
  intros Et. unfold alter. cbn [run_all run_stmt id_of]. rewrite Et. cbn [mbind option_bind]. destruct (decide (c ∈ t_cols tb)) as [Hc | Hc].
  - rewrite bool_decide_true by done. exists tb. by split_and!.
  - rewrite bool_decide_false by done. cbn [snd]. eexists. rewrite lookup_insert_eq. split; [reflexivity |].
    cbn [t_cols t_ints]. split_and!; [apply last_in | intros x; apply front_in |]. intros Hty. by destruct (String.eqb_spec ty "INT").
Qed.

(** Every row of such a table answers its account and no other. *)
Lemma select_own st t c id v tb : st !! t = Some tb -> c ∈ t_cols tb -> "id" ∈ t_cols tb -> all_own c id v tb ->
  exists n, run_select st (own c t id) = Some (replicate (S n) [v]) /\
    forall id', id' <> id -> run_select st (own c t id') = Some [].
Proof.
  intros Et Hc Hid [Hne Hall]. exists (pred (length (t_rows tb))).
  assert (Hq : forall id', run_select st (own c t id') =
    Some ((fun r => [column c r]) <$> filter (fun r => forallb (fun x => cond_holds x r) [(Bare "id", id')] = true) (t_rows tb))).
  { intros id'. unfold own. rewrite run_simple, Et. cbn [mbind option_bind].
    cbn [forallb]. rewrite bool_decide_true by done. cbn. by rewrite bool_decide_true. }
  split.
  - rewrite Hq. f_equal. destruct (t_rows tb) as [|r0 rs] eqn:Er; [done |]. clear Hne Er. cbn [length pred].
    remember (r0 :: rs) as l eqn:El. assert (Hl : length l = S (length rs)) by (by subst). rewrite <- Hl. clear -Hall.
    induction Hall as [|r l [Hv Hi] Hall IH]; [done |]. rewrite filter_cons_True; [| cbn; by rewrite Hi, bool_decide_true].
    rewrite fmap_cons, Hv. cbn [length replicate]. by rewrite IH.
  - intros id' Hne'. rewrite Hq. f_equal. clear -Hall Hne'.
    induction Hall as [|r l [Hv Hi] Hall IH]; [done |]. rewrite filter_cons_False; [exact IH |].
    cbn. rewrite Hi, bool_decide_false by congruence. done.
Qed.

Section Theorems.
Context `{Env} `{Sqlite} (statements : list stmt -> Prop) (queries : select -> Prop) `{!Documented statements queries}.
Context {U : Type}.

Lemma exec_runs t ss (s : client U) : statements ss -> Forall plain ss -> renders t ss ->
  let r := run_all (store_of (did s)) ss in
  tg_sqlite3_exec t s = Ok (if fst r then 0 else 1, does (Exec t) s) /\ store_of (did (does (Exec t) s)) = snd r.
Proof.
  intros Hs Hp Ht. destruct (exec_documented (did s) t ss Hs Hp Ht) as [E1 E2]. cbv zeta. rewrite exec_ok, E1.
  split; [by destruct (fst _) | exact E2].
Qed.
Lemma rows_returned q rs (s : client U) : queries q -> run_select (store_of (did s)) q = Some rs ->
  exists rs', returns q rs' rs /\ tg_sqlite3_for_each (print_select q) s = Ok (rs', s).
Proof.
  intros Hq Hr. pose proof (rows_documented (did s) q Hq) as Hd. rewrite Hr in Hd. inversion Hd as [rs' ? Hp E |]; subst.
  exists rs'. split; [exact Hp |]. by rewrite rows_ok, <- E.
Qed.
Lemma rows_run q rs (s : client U) : queries q -> run_select (store_of (did s)) q = Some rs -> s_limit q = None ->
  exists rs', rs' ≡ₚ rs /\ tg_sqlite3_for_each (print_select q) s = Ok (rs', s).
Proof.
  intros Hq Hr Hl. destruct (rows_returned q rs s Hq Hr) as (rs' & (l & Hp & El) & E). rewrite Hl in El. subst rs'. by exists l.
Qed.
Lemma same_rows q n (r : list value) (s : client U) : queries q -> run_select (store_of (did s)) q = Some (replicate n r) -> s_limit q = None ->
  tg_sqlite3_for_each (print_select q) s = Ok (replicate n r, s).
Proof. intros Hq Hr Hl. destruct (rows_run q _ s Hq Hr Hl) as (rs & Hp & E). by rewrite E, (replicate_Permutation n r rs) by by symmetry. Qed.

Lemma plain_upsert t c id v : 39 ∉ v -> Forall plain (upsert t c id v).
Proof. intros Hv. unfold upsert. repeat constructor. exact Hv. Qed.

Lemma last_text_same n v buf : zlen v < BUFSIZ -> last_text buf (replicate (S n) [VText v]) = Ok v.
Proof.
  intros Hv. assert (Hs : forall b n, last_text b (replicate (S n) [VText v]) = last_text v (replicate n [VText v])).
  { intros b m. cbn. by replace (zlen v <? BUFSIZ) with true by lia. }
  rewrite Hs. induction n as [|n IH]; [done |]. by rewrite Hs.
Qed.

(** a phone number that is stored is read back, for the account that
    stored it; the numbers of all other accounts of the database are lost,
    because the update has no condition. *)
Theorem phone_number_kept_alone n other tb (s : client U) :
  let id := c_id (conn s) in
  statements (alter "phone_numbers" "phone_number" "TEXT") -> statements (upsert "phone_numbers" "phone_number" id n) ->
  queries (own "phone_number" "phone_numbers" id) -> queries (own "phone_number" "phone_numbers" (c_id other)) ->
  is_i32 id -> is_i32 (c_id other) -> c_id other <> id ->
  n <> [] -> 39 ∉ n -> zlen n + 191 < BUFSIZ ->
  store_of (did s) !! "phone_numbers"%string = Some tb -> "id"%string ∈ t_cols tb -> "phone_number"%string ∉ t_ints tb ->
  exists s', phone_number_to_database n s = Ok (0, s') /\ conn s' = conn s /\
    phone_number_from_database s' = Ok (Some n, s') /\
    phone_number_from_database (set_conn other s') = Ok (None, set_conn other s').
Proof.
  intros id Ha Hu Hq Hq2 Hid Hid2 Hne Hn Hplain Hlen Et Hcol Htext.
  set (s1 := does (Exec (chars "ALTER TABLE 'phone_numbers' ADD COLUMN 'phone_number' TEXT; ")) s).
  destruct (exec_runs _ _ s Ha ltac:(by repeat constructor) phone_alter) as [E1 St1]. fold s1 in E1, St1.
  destruct (run_alter (store_of (did s)) "phone_numbers" "phone_number" "TEXT" tb Et) as (tb1 & Et1 & Hc1 & Hk1 & Hi1).
  rewrite <- St1 in Et1.
  destruct (run_upsert _ _ "phone_number" id n tb1 ltac:(done) Et1 (Hk1 _ Hcol) Hc1) as (tb2 & Er & Ecols & Hall).
  unfold kept in Hall. rewrite (Hi1 ltac:(done)), bool_decide_false in Hall by exact Htext. cbn [affine] in Hall.
  destruct (exec_runs _ _ s1 Hu (plain_upsert _ _ _ _ Hplain) (phone_text id n)) as [E2 St2]. rewrite Er in E2, St2. cbn [fst snd] in E2, St2.
  set (s2 := does _ s1) in E2, St2. exists s2. split; [| split; [reflexivity |]].
  - unfold phone_number_to_database. rewrite (bind_eq _ _ _ _ _ (id_ok s)), (bind_eq _ _ _ _ _ E1). fold id.
    erewrite bind_eq by (apply sprintf_ok; text_length). exact E2.
  - destruct (select_own (<["phone_numbers"%string := tb2]> (store_of (did s1))) "phone_numbers" "phone_number" id (VText n) tb2) as (m & Es & Es2);
      [apply lookup_insert_eq | by rewrite Ecols | by rewrite Ecols; apply Hk1 | exact Hall |]. rewrite <- St2 in Es, Es2.
    unfold phone_number_from_database, text_from_database. split.
    + rewrite (bind_eq _ _ _ _ _ (id_ok s2)). change (c_id (conn s2)) with id.
      erewrite bind_eq by (apply sprintf_ok; text_length). rewrite phone_select, (bind_eq _ _ _ _ _ (same_rows _ _ _ s2 Hq Es eq_refl)).
      rewrite (bind_lift _ _ _ _ (last_text_same m n [] ltac:(lia))). by rewrite bool_decide_false.
    + rewrite (bind_eq _ _ _ _ _ (id_ok (set_conn other s2))). change (c_id (conn (set_conn other s2))) with (c_id other).
      erewrite bind_eq by (apply sprintf_ok; text_length). rewrite phone_select. by rewrite (bind_eq _ _ _ _ _ (same_rows _ 0 [] (set_conn other s2) Hq2 (Es2 _ Hne) eq_refl)).
Qed.

(** The same number in every row. *)
Lemma hash_of_same n z h : -9223372036854775808 <= z < 9223372036854775808 ->
  hash_of h (replicate (S n) [VInt z]) = Ok (u64 z).
Proof.
  intros Hz. assert (Hs : forall h n, hash_of h (replicate (S n) [VInt z]) = hash_of (Ok (u64 z)) (replicate n [VInt z])).
  { intros h' m. cbn. by rewrite (int64_documented z Hz). }
  rewrite Hs. induction n as [|n IH]; [done |]. by rewrite Hs.
Qed.
Lemma i64_range z : -9223372036854775808 <= i64 z < 9223372036854775808.
Proof. unfold i64. pose proof (Z.mod_pos_bound (z + 9223372036854775808) 18446744073709551616 ltac:(done)). lia. Qed.
Lemma u64_of_i64 z : is_u64 z -> u64 (i64 z) = z.
Proof. unfold is_u64, u64, i64. intros Hz. change (2 ^ 64) with 18446744073709551616 in *. rewrite Zminus_mod_idemp_l. rewrite Z.mod_small; lia. Qed.

(** the hash of the dialogs is stored once.  The call that adds the
    column succeeds and the hash is read back; every later call stops at
    the column that is there already, fails, and leaves the database as it
    is: the old hash is read. *)
Theorem dialogs_hash_stored_once h1 h2 tb (s : client U) :
  let id := c_id (conn s) in
  let sql h := alter "dialogs_hash" "hash" "INT" ++ upsert "dialogs_hash" "hash" id (ld h) in
  statements (sql h1) -> statements (sql h2) -> queries (own "hash" "dialogs_hash" id) -> is_i32 id -> is_u64 h1 ->
  store_of (did s) !! "dialogs_hash"%string = Some tb -> "id"%string ∈ t_cols tb -> "hash"%string ∉ t_cols tb ->
  exists s1 s2, dialogs_hash_to_database h1 s = Ok (0, s1) /\ dialogs_hash_from_database s1 = Ok (h1, s1) /\
    dialogs_hash_to_database h2 s1 = Ok (1, s2) /\ dialogs_hash_from_database s2 = Ok (h1, s2).
Proof.
  intros id sql H1' H2' Hq Hid Hh Et Hcol Hno. unfold sql in *. clear sql.
  assert (Hplain : forall h, Forall plain (alter "dialogs_hash" "hash" "INT" ++ upsert "dialogs_hash" "hash" id (ld h))).
  { intros h. apply Forall_app_2; [by repeat constructor | apply plain_upsert, dec_plain]. }
  assert (Hcall : forall h (x : client U), c_id (conn x) = id ->
    dialogs_hash_to_database h x = tg_sqlite3_exec (chars "ALTER TABLE 'dialogs_hash' ADD COLUMN 'hash' INT; INSERT INTO 'dialogs_hash' ('id') SELECT " ++ print_id id ++
      chars " WHERE NOT EXISTS (SELECT 1 FROM dialogs_hash WHERE id = " ++ print_id id ++
      chars "); UPDATE 'dialogs_hash' SET 'hash' = '" ++ ld h ++ chars "', id = " ++ print_id id ++ chars "; ") x).
  { intros h x Ex. unfold dialogs_hash_to_database. rewrite (bind_eq _ _ _ _ _ (id_ok x)), Ex. by erewrite bind_eq by (apply sprintf_ok; text_length). }
  destruct (exec_runs _ _ s H1' (Hplain _) (hash_text id h1)) as [E1 St1].
  set (tb1 := Table (t_cols tb ++ ["hash"%string]) (t_ints tb ++ ["hash"%string]) (t_rows tb)).
  set (u1 := <["dialogs_hash"%string := tb1]> (store_of (did s))).
  destruct (run_upsert u1 "dialogs_hash" "hash" id (ld h1) tb1)
    as (tb2 & Er & Ecols & Hall); [done | apply lookup_insert_eq | apply front_in, Hcol | apply last_in |].
  unfold kept in Hall. rewrite bool_decide_true in Hall by apply last_in. unfold affine, ld in Hall. rewrite (int_of_dec _ (i64_range h1)) in Hall.
  assert (Erun : run_all (store_of (did s)) (alter "dialogs_hash" "hash" "INT" ++ upsert "dialogs_hash" "hash" id (ld h1)) =
    (true, <["dialogs_hash"%string := tb2]> u1)).
  { unfold alter. cbn [app]. rewrite run_all_cons. cbn [run_stmt id_of]. rewrite Et. cbn [mbind option_bind]. rewrite bool_decide_false by exact Hno. exact Er. }
  rewrite Erun in E1, St1. cbn [fst snd] in E1, St1. set (s1 := does _ s) in E1, St1.
  destruct (exec_runs _ _ s1 H2' (Hplain _) (hash_text id h2)) as [E2 St2].
  assert (Et2 : store_of (did s1) !! "dialogs_hash"%string = Some tb2) by (rewrite St1; apply lookup_insert_eq).
  assert (Erun2 : run_all (store_of (did s1)) (alter "dialogs_hash" "hash" "INT" ++ upsert "dialogs_hash" "hash" id (ld h2)) =
    (false, store_of (did s1))).
  { unfold alter. cbn [app]. rewrite run_all_cons. cbn [run_stmt id_of]. rewrite Et2. cbn [mbind option_bind]. by rewrite bool_decide_true by (rewrite Ecols; apply last_in). }
  rewrite Erun2 in E2, St2. cbn [fst snd] in E2, St2. set (s2 := does _ s1) in E2, St2.
  assert (Hread : forall x : client U, c_id (conn x) = id -> store_of (did x) !! "dialogs_hash"%string = Some tb2 ->
    dialogs_hash_from_database x = Ok (h1, x)).
  { intros x Ex Ext. destruct (select_own _ "dialogs_hash" "hash" id (VInt (i64 h1)) tb2 Ext) as (m & Es & _); [rewrite Ecols; apply last_in | rewrite Ecols; apply front_in, Hcol | exact Hall |].
    unfold dialogs_hash_from_database. rewrite (bind_eq _ _ _ _ _ (id_ok x)), Ex. erewrite bind_eq by (apply sprintf_ok; text_length).
    rewrite hash_select, (bind_eq _ _ _ _ _ (same_rows _ _ _ x Hq Es eq_refl)). unfold lift.
    by rewrite (hash_of_same m _ _ (i64_range h1)), (u64_of_i64 h1 Hh). }
  exists s1, s2. rewrite (Hcall h1 s eq_refl), (Hcall h2 s1 eq_refl). split; [exact E1 | split; [by apply Hread | split; [exact E2 |]]].
  apply Hread; [reflexivity |]. by rewrite St2.
Qed.
End Theorems.
