(* ===== verification/Entities.v ===== *)
(** * Users, chats, channels and dialogs in the database

    libtg/tg/user.c, chat.c, channel.c, dialogs.c and their headers.  Each
    header has a list of the members of a structure (C type, member, type
    and name of the column) and every function expands it: the structure
    itself, the columns of the table, the text that saves it, the text that
    selects it and the reading of a row.  Here the lists are data, as in the
    headers, and the functions are written once over them. *)
From stdpp Require Import strings pretty.
From S2P Require Import Prelude TlBuf Serial Errors Tg Packet TlParser Objects Service Sql Database.

(** ** The lists *)
Inductive ctype := Bool_ | U32 | U64 | Str_.
Inductive kind := ARG | STR | SPA | SPS. (* numbers and texts; SPA and SPS are not members of the object of the server *)
#[export] Instance ctype_eq_dec : EqDecision ctype.
Proof. solve_decision. Defined.
Record arg := Arg { a_kind : kind; a_type : ctype; a_member : string; a_sql : string; a_name : string; a_ifmin : Z }.

Definition TG_USER_ARGS : list arg := [
  Arg ARG Bool_ "self_" "INT" "self" 0;
  Arg ARG Bool_ "contact_" "INT" "contact" 1;
  Arg ARG Bool_ "mutual_contact_" "INT" "mutual_contact" 1;
  Arg ARG Bool_ "deleted_" "INT" "deleted" 0;
  Arg ARG Bool_ "bot_" "INT" "bot" 0;
  Arg ARG Bool_ "bot_chat_history_" "INT" "bot_chat_history" 0;
  Arg ARG Bool_ "bot_nochats_" "INT" "bot_nochats" 0;
  Arg ARG Bool_ "verified_" "INT" "verified" 0;
  Arg ARG Bool_ "restricted_" "INT" "restricted" 0;
  Arg ARG Bool_ "min_" "INT" "min" 0;
  Arg ARG Bool_ "bot_inline_geo_" "INT" "bot_inline_geo" 0;
  Arg ARG Bool_ "support_" "INT" "support" 0;
  Arg ARG Bool_ "scam_" "INT" "scam" 0;
  Arg ARG Bool_ "apply_min_photo_" "INT" "apply_min_photo" 0;
  Arg ARG Bool_ "fake_" "INT" "fake" 0;
  Arg ARG Bool_ "bot_attach_menu_" "INT" "bot_attach_menu" 0;
  Arg ARG Bool_ "premium_" "INT" "premium" 0;
  Arg ARG Bool_ "attach_menu_enabled_" "INT" "attach_menu_enabled" 0;
  Arg ARG Bool_ "bot_can_edit_" "INT" "bot_can_edit" 0;
  Arg ARG Bool_ "close_friend_" "INT" "close_friend" 1;
  Arg ARG Bool_ "stories_hidden_" "INT" "stories_hidden" 1;
  Arg ARG Bool_ "stories_unavailable_" "INT" "stories_unavailable" 0;
  Arg ARG Bool_ "contact_require_premium_" "INT" "contact_require_premium" 0;
  Arg ARG Bool_ "bot_business_" "INT" "bot_business" 0;
  Arg ARG Bool_ "bot_has_main_app_" "INT" "bot_has_main_app" 0;
  Arg ARG U64 "id_" "INT" "user_id" 0;
  Arg ARG U64 "access_hash_" "INT" "access_hash" 2;
  Arg STR Str_ "first_name_" "TEXT" "first_name" 2;
  Arg STR Str_ "last_name_" "TEXT" "last_name" 2;
  Arg STR Str_ "username_" "TEXT" "username" 2;
  Arg STR Str_ "phone_" "TEXT" "phone" 2;
  Arg SPA Bool_ "photo_has_video" "INT" "photo_has_video" 2;
  Arg SPA Bool_ "photo_personal" "INT" "photo_personal" 2;
  Arg SPA U64 "photo_id" "INT" "photo_id" 2;
  Arg SPS Str_ "photo_stripped_thumb" "INT" "photo_stripped_thumb" 2;
  Arg SPA U32 "photo_dc_id" "INT" "photo_dc_id" 2;
  Arg SPA U32 "user_satus" "INT" "user_status" 2;
  Arg SPA U32 "user_satus_time" "INT" "user_status_time" 2;
  Arg SPA Bool_ "user_satus_byme" "INT" "user_status_byme" 2;
  Arg ARG Bool_ "bot_info_version_" "INT" "bot_info_version" 0;
  Arg STR Str_ "bot_inline_placeholder_" "INT" "bot_inline_placeholder" 0;
  Arg STR Str_ "lang_code_" "INT" "lang_code" 0;
  Arg ARG Bool_ "stories_max_id_" "INT" "stories_max_id" 1;
  Arg SPA U32 "color" "INT" "color" 0;
  Arg SPA U32 "profile_color" "INT" "profile_color" 0;
  Arg ARG U32 "bot_active_users_" "INT" "bot_active_users" 0].
Definition TG_CHAT_ARGS : list arg := [
  Arg ARG Bool_ "creator_" "INT" "creator" 0;
  Arg ARG Bool_ "left_" "INT" "left" 0;
  Arg ARG Bool_ "deactivated_" "INT" "deactivated" 0;
  Arg ARG Bool_ "call_active_" "INT" "call_active" 0;
  Arg ARG Bool_ "call_not_empty_" "INT" "call_not_empty" 0;
  Arg ARG Bool_ "noforwards_" "INT" "call_not_empty" 0;
  Arg ARG U64 "id_" "INT" "chat_id" 0;
  Arg STR Str_ "title_" "TEXT" "title" 0;
  Arg SPA Bool_ "photo_has_video" "INT" "photo_has_video" 0;
  Arg SPA U64 "photo_id" "INT" "photo_id" 0;
  Arg SPS Str_ "photo_stripped_thumb" "TEXT" "photo_stripped_thumb" 0;
  Arg SPA U32 "photo_dc_id" "INT" "photo_dc_id" 0;
  Arg ARG U32 "participants_count_" "INT" "participants_count" 0;
  Arg ARG U32 "date_" "INT" "date" 0;
  Arg ARG U32 "version_" "INT" "version" 0;
  Arg SPA U64 "migrated_to_channel_id" "INT" "migrated_to_channel_id" 0;
  Arg SPA U64 "migrated_to_access_hash" "INT" "migrated_to_access_hash" 0;
  Arg SPA U64 "migrated_to_channel_access_hash" "INT" "migrated_to_channel_access_hash" 0;
  Arg SPA Bool_ "chat_admin_rights_change_info" "INT" "chat_admin_rights_change_info" 0;
  Arg SPA Bool_ "chat_admin_rights_post_messages" "INT" "chat_admin_rights_post_messages" 0;
  Arg SPA Bool_ "chat_admin_rights_edit_messages" "INT" "chat_admin_rights_edit_messages" 0;
  Arg SPA Bool_ "chat_admin_rights_delete_messages" "INT" "chat_admin_rights_delete_messages" 0;
  Arg SPA Bool_ "chat_admin_rights_ban_users" "INT" "chat_admin_rights_ban_users" 0;
  Arg SPA Bool_ "chat_admin_rights_invite_users" "INT" "chat_admin_rights_invite_users" 0;
  Arg SPA Bool_ "chat_admin_rights_pin_messages" "INT" "chat_admin_rights_pin_messages" 0;
  Arg SPA Bool_ "chat_admin_rights_add_admins" "INT" "chat_admin_rights_add_admins" 0;
  Arg SPA Bool_ "chat_admin_rights_anonymous" "INT" "chat_admin_rights_anonymous" 0;
  Arg SPA Bool_ "chat_admin_rights_manage_call" "INT" "chat_admin_rights_manage_call" 0;
  Arg SPA Bool_ "chat_admin_rights_other" "INT" "chat_admin_rights_other" 0;
  Arg SPA Bool_ "chat_admin_rights_manage_topics" "INT" "chat_admin_rights_manage_topics" 0;
  Arg SPA Bool_ "chat_admin_rights_post_stories" "INT" "chat_admin_rights_post_stories" 0;
  Arg SPA Bool_ "chat_admin_rights_edit_stories" "INT" "chat_admin_rights_edit_stories" 0;
  Arg SPA Bool_ "chat_admin_rights_delete_stories" "INT" "chat_admin_rights_delete_stories" 0;
  Arg SPA Bool_ "chat_default_banned_rights_view_messages" "INT" "chat_default_banned_rights_view_messages" 0;
  Arg SPA Bool_ "chat_default_banned_rights_send_messages" "INT" "chat_default_banned_rights_send_messages" 0;
  Arg SPA Bool_ "chat_default_banned_rights_send_media" "INT" "chat_default_banned_rights_send_media" 0;
  Arg SPA Bool_ "chat_default_banned_rights_send_stickers" "INT" "chat_default_banned_rights_send_stickers" 0;
  Arg SPA Bool_ "chat_default_banned_rights_send_gifs" "INT" "chat_default_banned_rights_send_gifs" 0;
  Arg SPA Bool_ "chat_default_banned_rights_send_games" "INT" "chat_default_banned_rights_send_games" 0;
  Arg SPA Bool_ "chat_default_banned_rights_send_inline" "INT" "chat_default_banned_rights_send_inline" 0;
  Arg SPA Bool_ "chat_default_banned_rights_embed_links" "INT" "chat_default_banned_rights_embed_links" 0;
  Arg SPA Bool_ "chat_default_banned_rights_send_polls" "INT" "chat_default_banned_rights_send_polls" 0;
  Arg SPA Bool_ "chat_default_banned_rights_change_info" "INT" "chat_default_banned_rights_change_info" 0;
  Arg SPA Bool_ "chat_default_banned_rights_invite_users" "INT" "chat_default_banned_rights_invite_users" 0;
  Arg SPA Bool_ "chat_default_banned_rights_pin_messages" "INT" "chat_default_banned_rights_pin_messages" 0;
  Arg SPA Bool_ "chat_default_banned_rights_manage_topics" "INT" "chat_default_banned_rights_manage_topics" 0;
  Arg SPA Bool_ "chat_default_banned_rights_send_photos" "INT" "chat_default_banned_rights_send_photos" 0;
  Arg SPA Bool_ "chat_default_banned_rights_send_videos" "INT" "chat_default_banned_rights_send_videos" 0;
  Arg SPA Bool_ "chat_default_banned_rights_send_roundvideos" "INT" "chat_default_banned_rights_send_roundvideos" 0;
  Arg SPA Bool_ "chat_default_banned_rights_send_audios" "INT" "chat_default_banned_rights_send_audios" 0;
  Arg SPA Bool_ "chat_default_banned_rights_send_voices" "INT" "chat_default_banned_rights_send_voices" 0;
  Arg SPA Bool_ "chat_default_banned_rights_send_docs" "INT" "chat_default_banned_rights_send_docs" 0;
  Arg SPA Bool_ "chat_default_banned_rights_send_plain" "INT" "chat_default_banned_rights_send_plain" 0;
  Arg SPA U32 "chat_default_banned_rights_until_date" "INT" "chat_default_banned_rights_until_date" 0].
Definition TG_CHANNEL_ARGS : list arg := [
  Arg ARG Bool_ "creator_" "INT" "creator" 0;
  Arg ARG Bool_ "left_" "INT" "left" 0;
  Arg ARG Bool_ "broadcast_" "INT" "broadcast" 0;
  Arg ARG Bool_ "verified_" "INT" "verified" 0;
  Arg ARG Bool_ "megagroup_" "INT" "megagroup" 0;
  Arg ARG Bool_ "restricted_" "INT" "restricted" 0;
  Arg ARG Bool_ "signatures_" "INT" "signatures" 0;
  Arg ARG Bool_ "min_" "INT" "min" 0;
  Arg ARG Bool_ "scam_" "INT" "scam" 0;
  Arg ARG Bool_ "has_link_" "INT" "has_link" 0;
  Arg ARG Bool_ "has_geo_" "INT" "has_geo" 0;
  Arg ARG Bool_ "slowmode_enabled_" "INT" "slowmode_enabled" 0;
  Arg ARG Bool_ "call_active_" "INT" "call_active" 0;
  Arg ARG Bool_ "call_not_empty_" "INT" "call_not_empty" 0;
  Arg ARG Bool_ "fake_" "INT" "fake" 0;
  Arg ARG Bool_ "gigagroup_" "INT" "gigagroup" 0;
  Arg ARG Bool_ "noforwards_" "INT" "noforwards" 0;
  Arg ARG Bool_ "join_to_send_" "INT" "join_to_send" 0;
  Arg ARG Bool_ "join_request_" "INT" "join_request" 0;
  Arg ARG Bool_ "forum_" "INT" "forum" 0;
  Arg ARG Bool_ "stories_hidden_" "INT" "stories_hidden" 0;
  Arg ARG Bool_ "stories_hidden_min_" "INT" "stories_hidden_min" 0;
  Arg ARG Bool_ "stories_unavailable_" "INT" "stories_unavailable" 0;
  Arg ARG U64 "id_" "INT" "channel_id" 0;
  Arg ARG U64 "access_hash_" "INT" "access_hash" 0;
  Arg STR Str_ "title_" "TEXT" "title" 0;
  Arg STR Str_ "username_" "TEXT" "username" 0;
  Arg SPA Bool_ "photo_has_video" "INT" "photo_has_video" 0;
  Arg SPA U64 "photo_id" "INT" "photo_id" 0;
  Arg SPS Str_ "photo_stripped_thumb" "TEXT" "photo_stripped_thumb" 0;
  Arg SPA U32 "photo_dc_id" "INT" "photo_dc_id" 0;
  Arg ARG U32 "date_" "INT" "date" 0;
  Arg ARG U32 "participants_count_" "INT" "participants_count" 0;
  Arg ARG U32 "stories_max_id_" "INT" "stories_max_id" 0;
  Arg SPA Bool_ "chat_admin_rights_change_info" "INT" "chat_admin_rights_change_info" 0;
  Arg SPA Bool_ "chat_admin_rights_post_messages" "INT" "chat_admin_rights_post_messages" 0;
  Arg SPA Bool_ "chat_admin_rights_edit_messages" "INT" "chat_admin_rights_edit_messages" 0;
  Arg SPA Bool_ "chat_admin_rights_delete_messages" "INT" "chat_admin_rights_delete_messages" 0;
  Arg SPA Bool_ "chat_admin_rights_ban_users" "INT" "chat_admin_rights_ban_users" 0;
  Arg SPA Bool_ "chat_admin_rights_invite_users" "INT" "chat_admin_rights_invite_users" 0;
  Arg SPA Bool_ "chat_admin_rights_pin_messages" "INT" "chat_admin_rights_pin_messages" 0;
  Arg SPA Bool_ "chat_admin_rights_add_admins" "INT" "chat_admin_rights_add_admins" 0;
  Arg SPA Bool_ "chat_admin_rights_anonymous" "INT" "chat_admin_rights_anonymous" 0;
  Arg SPA Bool_ "chat_admin_rights_manage_call" "INT" "chat_admin_rights_manage_call" 0;
  Arg SPA Bool_ "chat_admin_rights_other" "INT" "chat_admin_rights_other" 0;
  Arg SPA Bool_ "chat_admin_rights_manage_topics" "INT" "chat_admin_rights_manage_topics" 0;
  Arg SPA Bool_ "chat_admin_rights_post_stories" "INT" "chat_admin_rights_post_stories" 0;
  Arg SPA Bool_ "chat_admin_rights_edit_stories" "INT" "chat_admin_rights_edit_stories" 0;
  Arg SPA Bool_ "chat_admin_rights_delete_stories" "INT" "chat_admin_rights_delete_stories" 0;
  Arg SPA Bool_ "chat_default_banned_rights_view_messages" "INT" "chat_default_banned_rights_view_messages" 0;
  Arg SPA Bool_ "chat_default_banned_rights_send_messages" "INT" "chat_default_banned_rights_send_messages" 0;
  Arg SPA Bool_ "chat_default_banned_rights_send_media" "INT" "chat_default_banned_rights_send_media" 0;
  Arg SPA Bool_ "chat_default_banned_rights_send_stickers" "INT" "chat_default_banned_rights_send_stickers" 0;
  Arg SPA Bool_ "chat_default_banned_rights_send_gifs" "INT" "chat_default_banned_rights_send_gifs" 0;
  Arg SPA Bool_ "chat_default_banned_rights_send_games" "INT" "chat_default_banned_rights_send_games" 0;
  Arg SPA Bool_ "chat_default_banned_rights_send_inline" "INT" "chat_default_banned_rights_send_inline" 0;
  Arg SPA Bool_ "chat_default_banned_rights_embed_links" "INT" "chat_default_banned_rights_embed_links" 0;
  Arg SPA Bool_ "chat_default_banned_rights_send_polls" "INT" "chat_default_banned_rights_send_polls" 0;
  Arg SPA Bool_ "chat_default_banned_rights_change_info" "INT" "chat_default_banned_rights_change_info" 0;
  Arg SPA Bool_ "chat_default_banned_rights_invite_users" "INT" "chat_default_banned_rights_invite_users" 0;
  Arg SPA Bool_ "chat_default_banned_rights_pin_messages" "INT" "chat_default_banned_rights_pin_messages" 0;
  Arg SPA Bool_ "chat_default_banned_rights_manage_topics" "INT" "chat_default_banned_rights_manage_topics" 0;
  Arg SPA Bool_ "chat_default_banned_rights_send_photos" "INT" "chat_default_banned_rights_send_photos" 0;
  Arg SPA Bool_ "chat_default_banned_rights_send_videos" "INT" "chat_default_banned_rights_send_videos" 0;
  Arg SPA Bool_ "chat_default_banned_rights_send_roundvideos" "INT" "chat_default_banned_rights_send_roundvideos" 0;
  Arg SPA Bool_ "chat_default_banned_rights_send_audios" "INT" "chat_default_banned_rights_send_audios" 0;
  Arg SPA Bool_ "chat_default_banned_rights_send_voices" "INT" "chat_default_banned_rights_send_voices" 0;
  Arg SPA Bool_ "chat_default_banned_rights_send_docs" "INT" "chat_default_banned_rights_send_docs" 0;
  Arg SPA Bool_ "chat_default_banned_rights_send_plain" "INT" "chat_default_banned_rights_send_plain" 0;
  Arg SPA U32 "chat_default_banned_rights_until_date" "INT" "chat_default_banned_rights_until_date" 0;
  Arg SPA U32 "color" "INT" "color" 0;
  Arg SPA U32 "profile_color" "INT" "profile_color" 0].
Definition TG_DIALOG_ARGS : list arg := [
  Arg STR Str_ "name" "TEXT" "name" 0;
  Arg ARG Bool_ "pinned" "INT" "pinned" 0;
  Arg ARG Bool_ "unread_mark" "INT" "unread_mark" 0;
  Arg ARG U32 "top_message_id" "INT" "top_message_id" 0;
  Arg ARG U32 "top_message_from_peer_type" "INT" "top_message_from_peer_type" 0;
  Arg ARG U64 "top_message_from_peer_id" "INT" "top_message_from_peer_id" 0;
  Arg ARG U32 "top_message_date" "INT" "top_message_date" 0;
  Arg STR Str_ "top_message_text" "TEXT" "top_message_text" 0;
  Arg ARG U32 "read_inbox_max_id" "INT" "read_inbox_max_id" 0;
  Arg ARG U32 "read_outbox_max_id" "INT" "read_outbox_max_id" 0;
  Arg ARG U32 "unread_count" "INT" "unread_count" 0;
  Arg ARG U32 "unread_mentions_count" "INT" "unread_mentions_count" 0;
  Arg ARG U32 "unread_reactions_count" "INT" "unread_reactions_count" 0;
  Arg ARG U32 "folder_id" "INT" "folder_id" 0;
  Arg ARG Bool_ "silent" "INT" "silent" 0;
  Arg ARG U32 "mute_until" "INT" "mute_until" 0;
  Arg ARG U32 "peer_type" "INT" "peer_type" 0;
  Arg ARG U64 "peer_id" "INT" "peer_id" 0;
  Arg ARG U64 "photo_id" "INT" "photo_id" 0;
  Arg STR Str_ "thumb" "TEXT" "thumb" 0;
  Arg ARG U64 "access_hash" "INT" "access_hash" 0;
  Arg ARG Bool_ "broadcast" "INT" "broadcat" 0].

Definition is_text (a : arg) : bool := match a_kind a with STR | SPS => true | _ => false end.

(** ** Structures *)
(** A member is a number or a text; one that is missing is zero or NULL, as
    after [memset].  A structure is its members by name. *)
Inductive member := Num (z : Z) | Text (t : option (list Z)).
Abbreviation struct_ := (gmap string member).
Definition num (n : string) (m : struct_) : Z := match m !! n with Some (Num z) => z | _ => 0 end.
Definition text (n : string) (m : struct_) : option (list Z) := match m !! n with Some (Text t) => t | _ => None end.

(** Assignment to a member of the type. *)
Definition cast (t : ctype) (z : Z) : Z :=
  match t with Bool_ => if z =? 0 then 0 else 1 | U32 => u32 z | U64 => u64 z | Str_ => z end.

Record entity := Entity {
  e_args : list arg;
  e_table : string;
  e_key : string;       (* the column that is UNIQUE *)
  e_id : string;        (* and its member *)
  e_min : bool;         (* what is marked is left out of a short object *)
  e_empty : bool        (* an empty text is written *)
}.
Definition users : entity := Entity TG_USER_ARGS "users" "user_id" "id_" true false.
Definition chats : entity := Entity TG_CHAT_ARGS "chats" "chat_id" "id_" false false.
Definition channels : entity := Entity TG_CHANNEL_ARGS "channels" "channel_id" "id_" false false.
Definition dialogs : entity := Entity TG_DIALOG_ARGS "dialogs" "peer_id" "peer_id" false true.

(** ** The texts *)
Definition create_text (e : entity) (fin : list Z) : list Z :=
  chars "CREATE TABLE IF NOT EXISTS " ++ chars (e_table e) ++ chars " (id INT, " ++ chars (e_key e) ++ chars " INT UNIQUE);" ++ fin.
Definition alter_text (e : entity) (fin : list Z) (a : arg) : list Z :=
  chars "ALTER TABLE '" ++ chars (e_table e) ++ chars "' ADD COLUMN '" ++ chars (a_name a) ++ chars "' " ++ chars (a_sql a) ++ chars ";" ++ fin.

(** Is the member written? *)
Definition written (e : entity) (m : struct_) (a : arg) : bool :=
  match a_kind a with
  | STR | SPS => match text (a_member a) m with Some (_ :: _) => true | Some [] => e_empty e | None => false end
  | ARG => negb (e_min e) || (num "min_" m =? 0) || negb (a_ifmin a =? 1)
  | SPA => true
  end.
Definition set_text (m : struct_) (a : arg) : list Z :=
  chars "'" ++ chars (a_name a) ++ chars "' = " ++
  (if is_text a then chars "'" ++ default [] (text (a_member a) m) ++ chars "'" else ld (num (a_member a) m)) ++ chars ", ".
Definition sets_text (e : entity) (m : struct_) : list Z :=
  mjoin ((fun a => if written e m a then set_text m a else []) <$> e_args e).

Definition save_text (e : entity) (id : Z) (m : struct_) : list Z :=
  let key := ld (num (e_id e) m) in
  chars "INSERT INTO '" ++ chars (e_table e) ++ chars "' ('" ++ chars (e_key e) ++ chars "') SELECT  " ++ key ++
  chars " WHERE NOT EXISTS (SELECT 1 FROM " ++ chars (e_table e) ++ chars " WHERE " ++ chars (e_key e) ++ chars " = " ++ key ++ chars ");" ++ [10] ++
  chars "UPDATE '" ++ chars (e_table e) ++ chars "' SET " ++ sets_text e m ++
  chars "id = " ++ print_id id ++ chars " WHERE " ++ chars (e_key e) ++ chars " = " ++ key ++ chars ";" ++ [10].

Definition columns_text (e : entity) : list Z := mjoin ((fun a => chars (a_name a) ++ chars ", ") <$> e_args e).
Definition get_text (e : entity) (id key : Z) : list Z :=
  chars "SELECT " ++ columns_text e ++ chars "id FROM " ++ chars (e_table e) ++ chars " WHERE id = " ++ print_id id ++
  chars " AND " ++ chars (e_key e) ++ chars " = " ++ ld key ++ chars " ORDER BY 'date' DESC;".

Section Entities.
Context `{Env} `{Sqlite} {U : Type}.

(** ** The functions of every header *)
Fixpoint alter_loop (e : entity) (fin : list Z) (l : list arg) : F U unit :=
  match l with
  | [] => mret tt
  | a :: l => sql ← sprintf_ (alter_text e fin a); _ ← tg_sqlite3_exec sql; alter_loop e fin l
  end.
Definition create_table (e : entity) (fin1 fin2 : list Z) : F U unit :=
  sql ← sprintf_ (create_text e fin1);
  _ ← tg_sqlite3_exec sql;
  alter_loop e fin2 (e_args e).

Definition save (e : entity) (m : struct_) : F U Z := id ← the_id; tg_sqlite3_exec (save_text e id m).

(** One column after the other; [strndup] ends at a zero. *)
Fixpoint read_row (keep : bool) (l : list arg) (col : nat) (r : list value) (m : struct_) : struct_ :=
  match l with
  | [] => m
  | a :: l =>
      let m :=
        if is_text a then
          if keep || (0 <? column_size r col) then
            <[a_member a := Text (Some (before_nul (default [] (column_bytes_of r col))))]> m
          else m
        else <[a_member a := Num (cast (a_type a) (column_int64 (default VNull (r !! col))))]> m in
      read_row keep l (S col) r m
  end.

(** The first row, or a structure of zeros. *)
Definition get (e : entity) (sql : list Z) : F U struct_ :=
  rows ← tg_sqlite3_for_each sql;
  mret (match rows with [] => ∅ | r :: _ => read_row false (e_args e) 0 r ∅ end).

Definition delete_all (e : entity) : F U unit :=
  _ ← tg_sqlite3_exec (chars "DELETE from '" ++ chars (e_table e) ++ chars "';"); mret tt.

(** ** user.c *)
Definition tg_user_create_table : F U unit := create_table users [32] [].
Definition tg_user_save (m : struct_) : F U Z := save users m.
Definition tg_user_get (user_id : Z) : F U struct_ := id ← the_id; get users (get_text users id user_id).
Definition tg_user_get_by_phone (phone : list Z) : F U struct_ :=
  id ← the_id;
  get users (chars "SELECT " ++ columns_text users ++ chars "id FROM users WHERE id = " ++ print_id id ++
    chars " AND phone = '" ++ phone ++ chars "'ORDER BY 'date' DESC;").
Definition tg_users_remove_all_from_database : F U unit := delete_all users.

(** ** chat.c *)
Definition tg_chat_create_table : F U unit := create_table chats [32] [].
Definition tg_chat_save (m : struct_) : F U Z := save chats m.
Definition tg_chat_get (chat_id : Z) : F U struct_ := id ← the_id; get chats (get_text chats id chat_id).
Definition tg_chats_remove_all_from_database : F U unit := delete_all chats.

(** ** channel.c *)
Definition tg_channel_create_table : F U unit := create_table channels [32] [].
Definition tg_channel_save (m : struct_) : F U Z := save channels m.
Definition tg_channel_get (channel_id : Z) : F U struct_ := id ← the_id; get channels (get_text channels id channel_id).
Definition tg_channels_remove_all_from_database : F U unit := delete_all channels.

(** ** dialogs.c *)
Definition tg_dialogs_create_table : F U unit := create_table dialogs [] [10].
Definition tg_dialog_to_database (m : struct_) : F U Z := _ ← save dialogs m; mret 0.
Definition tg_dialogs_remove_all_from_database : F U unit := delete_all dialogs.

Fixpoint dialog_rows (callback : option (U -> struct_ -> Z * U)) (rows : list (list value)) : F U unit :=
  match rows with
  | [] => mret tt
  | r :: rows =>
      let d := read_row true TG_DIALOG_ARGS 0 r ∅ in
      stop ← (match callback with
              | None => mret false
              | Some f => u ← gets user; let a := f u d in _ ← modify (set_user (snd a)); mret (negb (fst a =? 0))
              end);
      if stop : bool then mret tt else dialog_rows callback rows
  end.
Definition tg_get_dialogs_from_database (callback : option (U -> struct_ -> Z * U)) : F U Z :=
  id ← the_id;
  rows ← tg_sqlite3_for_each (chars "SELECT " ++ columns_text dialogs ++ chars "id FROM dialogs WHERE id = " ++ print_id id ++
    chars " ORDER BY 'top_message_date' DESC;");
  _ ← dialog_rows callback rows; mret 0.
End Entities.
