(* ===== verification/EntitiesFacts.v ===== *)
(** * What is saved is read back

    The texts of user.c, chat.c and channel.c are the statements they mean;
    what a saved structure reads back as, and for which account. *)
From stdpp Require Import strings pretty.
From S2P Require Import Prelude TlBuf Serial Errors Tg Packet TlParser TlParserFacts Objects Service Sql Database DatabaseFacts Entities.

(** ** The statements *)
Definition set_of (m : struct_) (a : arg) : name * literal :=
  (Quoted (a_name a), if is_text a then LText (default [] (text (a_member a) m)) else LInt (i64 (num (a_member a) m))).
Definition sets_of (e : entity) (id : Z) (m : struct_) : list (name * literal) :=
  (set_of m <$> List.filter (written e m) (e_args e)) ++ [(Bare "id", LInt id)].
Definition key_of (e : entity) (m : struct_) : Z := i64 (num (e_id e) m).
Definition save_stmts (e : entity) (id : Z) (m : struct_) : list stmt :=
  [InsertMissing (e_table e) (Quoted (e_key e)) (key_of e m);
   Update (e_table e) (sets_of e id m) (Some (Bare (e_key e), key_of e m))].
Definition get_query (e : entity) (id key : Z) : select :=
  simple ((a_name <$> e_args e) ++ ["id"]) (e_table e) [(Bare "id", id); (Bare (e_key e), i64 key)] (Some "date").

(** ** Their texts *)
Lemma sep_by_last sep l x : sep_by sep (l ++ [x]) = mjoin ((fun y => y ++ sep) <$> l) ++ x.
Proof.
  induction l as [|y l IH]; [done |]. rewrite fmap_cons. change (mjoin (?a :: ?b)) with (a ++ mjoin b).
  rewrite <- !app_assoc, <- IH. destruct l; reflexivity.
Qed.

Lemma set_text_is m a : set_text m a = (print_name (fst (set_of m a)) ++ chars " = " ++ print_literal (snd (set_of m a))) ++ chars ", ".
Proof.
  unfold set_text, set_of. destruct (is_text a); cbn [fst snd print_name print_literal]; unfold ld;
    cbn [chars app]; by repeat (rewrite <- app_assoc; cbn [app]).
Qed.
Lemma sets_text_is e m : sets_text e m =
  mjoin ((fun y => y ++ chars ", ") <$> ((fun v => print_name (fst v) ++ chars " = " ++ print_literal (snd v)) <$> (set_of m <$> List.filter (written e m) (e_args e)))).
Proof.
  unfold sets_text. induction (e_args e) as [|a l IH]; [done |]. cbn [List.filter fmap list_fmap].
  change (mjoin (?a :: ?b)) with (a ++ mjoin b). rewrite IH. destruct (written e m a); [| done]. cbn [fmap list_fmap].
  change (mjoin (?a :: ?b)) with (a ++ mjoin b). by rewrite set_text_is.
Qed.

Ltac spaces := cbn [chars app fst snd print_name print_literal id_of]; repeat (rewrite <- app_assoc || rewrite <- app_comm_cons); cbn [app].
Lemma save_renders e id m : renders (save_text e id m) (save_stmts e id m).
Proof.
  exists [32; 32], [10], [10]. split_and!; [blanks_ok | discriminate | blanks_ok | blanks_ok |].
  unfold save_text, save_stmts, print_sql. cbn [fmap list_fmap sep_by print_stmt]. unfold sets_of.
  rewrite fmap_app. rewrite list_fmap_singleton, sep_by_last, sets_text_is. unfold key_of, ld, print_id, print_cond. spaces.
  repeat f_equal.
Qed.
Lemma get_text_is e id key : get_text e id key = print_select (get_query e id key).
Proof.
  unfold get_text, print_select, get_query, columns_text. cbn [s_columns s_from s_where s_order s_range s_limit app fmap list_fmap sep_by].
  rewrite fmap_app. rewrite list_fmap_singleton, sep_by_last. unfold ld, print_id, print_cond. cbn [fst snd print_name]. spaces.
  replace (mjoin ((fun y => y ++ [44; 32]) <$> (chars <$> (a_name <$> e_args e)))) with
    (mjoin ((fun a => chars (a_name a) ++ [44; 32]) <$> e_args e)) by (by rewrite <- !list_fmap_compose).
  repeat f_equal.
Qed.

(** ** What an update leaves in a column *)
Section Assign.
Context (ints : list string) (p : value).
Definition names_of (sets : list (name * literal)) : list string := (fun v => id_of (fst v)) <$> sets.
Definition stored (v : name * literal) : value := affine (bool_decide (id_of (fst v) ∈ ints)) (literal_value p (snd v)).

Lemma assign_app a b r : assign ints p (a ++ b) r = assign ints p b (assign ints p a r).
Proof. apply foldl_app. Qed.
Lemma assign_cons v sets r : assign ints p (v :: sets) r = assign ints p sets (<[id_of (fst v) := stored v]> r).
Proof. reflexivity. Qed.
Lemma assign_other c sets r : c ∉ names_of sets -> column c (assign ints p sets r) = column c r.
Proof.
  revert r. induction sets as [|v sets IH]; intros r Hc; [done |]. unfold names_of in Hc. rewrite fmap_cons, not_elem_of_cons in Hc.
  destruct Hc as [Hne Hc]. rewrite assign_cons, IH by exact Hc. unfold column. by rewrite lookup_insert_ne by by symmetry.
Qed.
(** The last one with the name. *)
Lemma assign_last c l1 v l2 r : id_of (fst v) = c -> c ∉ names_of l2 -> column c (assign ints p (l1 ++ v :: l2) r) = stored v.
Proof.
  intros Hv Hc. rewrite assign_app, assign_cons, assign_other by exact Hc.
  unfold column. by rewrite Hv, lookup_insert_eq.
Qed.
End Assign.

Lemma names_of_sets m l : names_of (set_of m <$> l) = a_name <$> l.
Proof. unfold names_of. rewrite <- list_fmap_compose. by apply list_fmap_ext. Qed.
Lemma filter_names e m l : forall c, c ∉ a_name <$> l -> c ∉ a_name <$> List.filter (written e m) l.
Proof.
  intros c. rewrite !list_elem_of_fmap. intros Hn (a & -> & Ha). apply Hn. exists a. split; [done |].
  apply list_elem_of_In in Ha. apply filter_In in Ha as [Ha _]. by apply list_elem_of_In.
Qed.

(** A member that is written and the last one of its column. *)
Lemma saved_column e id m ints l1 a l2 r : e_args e = l1 ++ a :: l2 -> written e m a = true ->
  a_name a ∉ a_name <$> l2 -> a_name a <> "id" ->
  column (a_name a) (assign ints VNull (sets_of e id m) r) = stored ints VNull (set_of m a).
Proof.
  intros El Hw Hl Hid. unfold sets_of. rewrite El, List.filter_app, fmap_app, <- app_assoc. cbn [List.filter]. rewrite Hw, fmap_cons.
  cbn [app]. apply assign_last; [done |]. unfold names_of. rewrite fmap_app. fold (names_of (set_of m <$> List.filter (written e m) l2)).
  rewrite names_of_sets. intros [Hc | Hc]%elem_of_app; [by apply filter_names in Hc |]. cbn in Hc. by apply list_elem_of_singleton in Hc.
Qed.
Lemma unsaved_column e id m ints a r : NoDup (a_name <$> e_args e) -> a ∈ e_args e -> written e m a = false -> a_name a <> "id" ->
  column (a_name a) (assign ints VNull (sets_of e id m) r) = column (a_name a) r.
Proof.
  intros Hnd Ha Hw Hid. apply assign_other. unfold sets_of, names_of. rewrite fmap_app. fold (names_of (set_of m <$> List.filter (written e m) (e_args e))).
  rewrite names_of_sets. intros [Hc | Hc]%elem_of_app; [| cbn in Hc; by apply list_elem_of_singleton in Hc].
  apply list_elem_of_fmap in Hc as (b & E & Hb). apply list_elem_of_In, filter_In in Hb as [Hb Hwb]. apply list_elem_of_In in Hb.
  assert (a = b); [| by subst; congruence].
  apply list_elem_of_lookup in Ha as [i Hi], Hb as [j Hj]. assert (i = j); [| by subst; congruence].
  eapply (NoDup_lookup _ i j (a_name a) Hnd); rewrite list_lookup_fmap; [by rewrite Hi | by rewrite Hj; cbn; rewrite E].
Qed.
Lemma saved_id e id m ints r : column "id" (assign ints VNull (sets_of e id m) r) = VInt id.
Proof. unfold sets_of. rewrite (assign_last ints VNull "id" _ (Bare "id", LInt id) [] r); [done | done | apply not_elem_of_nil]. Qed.

(** ** What the two statements do to the table *)
Definition key_cond (e : entity) (k : Z) : cond := (Bare (e_key e), k).
Definition with_key (e : entity) (k : Z) (rs : list row) : list row :=
  if existsb (cond_holds (key_cond e k)) rs then rs else rs ++ [{[e_key e := VInt k]}].
Definition after_save (e : entity) (id : Z) (m : struct_) (tb : table) : table :=
  with_rows tb ((fun r => if cond_holds (key_cond e (key_of e m)) r then assign (t_ints tb) VNull (sets_of e id m) r else r) <$>
    with_key e (key_of e m) (t_rows tb)).

Definition ready (e : entity) (tb : table) : Prop :=
  "id" ∈ t_cols tb /\ e_key e ∈ t_cols tb /\ Forall (fun a => a_name a ∈ t_cols tb) (e_args e).

Lemma known_sets e id m tb : ready e tb -> known (t_cols tb) (sets_of e id m) = true.
Proof.
  intros (Hid & _ & Ha). unfold known, sets_of. rewrite forallb_app. cbn [forallb id_of fst]. rewrite bool_decide_true by exact Hid.
  rewrite andb_true_r. apply forallb_forall. intros v Hv. apply list_elem_of_In, list_elem_of_fmap in Hv as (a & -> & Hv).
  apply list_elem_of_In, filter_In in Hv as [Hv _]. apply bool_decide_true. cbn. rewrite Forall_forall in Ha. by apply Ha.
Qed.

Lemma run_save e id m st tb : st !! e_table e = Some tb -> ready e tb ->
  run_all st (save_stmts e id m) = (true, <[e_table e := after_save e id m tb]> st).
Proof.
  intros Et Hr. pose proof Hr as (Hid & Hk & Ha). unfold save_stmts. rewrite run_all_cons. cbn [run_stmt id_of]. rewrite Et.
  cbn [mbind option_bind]. rewrite bool_decide_true by exact Hk. unfold after_save, with_key, key_cond.
  assert (Hkn : forall rs, known (t_cols (with_rows tb rs)) (sets_of e id m) && cond_known (t_cols (with_rows tb rs)) (Bare (e_key e), key_of e m) = true).
  { intros rs. cbn [with_rows t_cols]. rewrite (known_sets e id m tb Hr). cbn. by rewrite bool_decide_true. }
  destruct (existsb _ (t_rows tb)) eqn:Ex; rewrite run_all_cons; cbn [run_stmt].
  - rewrite Et. cbn [mbind option_bind]. pose proof (Hkn (t_rows tb)) as Hk'. cbn [with_rows t_cols] in Hk'. rewrite Hk'. reflexivity.
  - rewrite lookup_insert_eq. cbn [mbind option_bind]. rewrite (Hkn (t_rows tb ++ _)), insert_insert_eq. reflexivity. (* the new row *)
Qed.

(** ** The row of a saved structure *)
Lemma assign_keeps ints p c x sets : Forall (fun v => id_of (fst v) = c -> stored ints p v = x) sets ->
  forall r, column c r = x -> column c (assign ints p sets r) = x.
Proof.
  induction 1 as [|v sets Hv Hs IH]; intros r Hr; [done |]. rewrite assign_cons. apply IH. unfold column.
  destruct (decide (id_of (fst v) = c)) as [E | Hne]; [rewrite E, lookup_insert_eq; by apply Hv | by rewrite lookup_insert_ne].
Qed.

(** The column of the key belongs to one member, and no column is [id]. *)
Definition keyed (e : entity) : Prop :=
  e_key e <> "id" /\ Forall (fun a => a_name a <> "id" /\ (a_name a = e_key e -> is_text a = false /\ a_member a = e_id e)) (e_args e).

Lemma key_kept e id m ints r : keyed e -> column (e_key e) r = VInt (key_of e m) ->
  column (e_key e) (assign ints VNull (sets_of e id m) r) = VInt (key_of e m).
Proof.
  intros [Hk Ha]. apply assign_keeps. unfold sets_of. apply Forall_app_2; [| by repeat constructor].
  apply Forall_fmap, Forall_forall. intros a Hin E. cbn in E. apply filter_In in Hin as [Hin _].
  rewrite Forall_forall in Ha. destruct (Ha a) as [_ Hm]; [exact Hin |]. destruct (Hm E) as [Ht Em].
  unfold stored, set_of. by rewrite Ht, Em.
Qed.

Definition holds (e : entity) (id k : Z) (r : row) : bool := cond_holds (Bare "id", id) r && (cond_holds (key_cond e k) r && true).
Lemma select_rows e id key st tb : st !! e_table e = Some tb -> ready e tb ->
  run_select st (get_query e id key) = Some ((fun r => (fun c => column c r) <$> (a_name <$> e_args e) ++ ["id"]) <$>
    filter (fun r => holds e id (i64 key) r = true) (t_rows tb)).
Proof.
  intros Et (Hid & Hk & Ha). unfold get_query. rewrite run_simple, Et. cbn [mbind option_bind].
  assert (Hc : forallb (fun c => bool_decide (c ∈ t_cols tb)) ((a_name <$> e_args e) ++ ["id"]) = true).
  { rewrite forallb_app. cbn [forallb]. rewrite bool_decide_true by exact Hid. rewrite andb_true_r. apply forallb_forall.
    intros c Hc. apply list_elem_of_In, list_elem_of_fmap in Hc as (a & -> & Hin). apply bool_decide_true. rewrite Forall_forall in Ha. by apply Ha, list_elem_of_In. }
  rewrite Hc. cbn [forallb cond_known fst]. by rewrite !bool_decide_true.
Qed.

Lemma no_rows e id k rs : existsb (cond_holds (key_cond e k)) rs = false -> filter (fun r => holds e id k r = true) rs = [].
Proof.
  induction rs as [|r rs IH]; [done |]. cbn [existsb]. intros [Hr Hrs]%orb_false_elim. rewrite filter_cons_False; [by apply IH |].
  unfold holds. by rewrite Hr, andb_false_r.
Qed.
Lemma untouched e k (f : row -> row) rs : existsb (cond_holds (key_cond e k)) rs = false ->
  (fun r => if cond_holds (key_cond e k) r then f r else r) <$> rs = rs.
Proof.
  induction rs as [|r rs IH]; [done |]. cbn [existsb]. intros [Hr Hrs]%orb_false_elim. rewrite fmap_cons, Hr. by rewrite IH.
Qed.

(** The only row of the key. *)
Definition new_row (e : entity) (id : Z) (m : struct_) (tb : table) : row :=
  assign (t_ints tb) VNull (sets_of e id m) {[e_key e := VInt (key_of e m)]}.
Lemma saved_rows e id m tb : keyed e -> existsb (cond_holds (key_cond e (key_of e m))) (t_rows tb) = false ->
  filter (fun r => holds e id (key_of e m) r = true) (t_rows (after_save e id m tb)) = [new_row e id m tb].
Proof.
  intros Hk Hno. unfold after_save, with_key. rewrite Hno. cbn [t_rows with_rows].
  rewrite fmap_app, untouched by exact Hno. rewrite list.filter_app, no_rows by exact Hno. cbn [app].
  rewrite list_fmap_singleton.
  assert (Hkey : cond_holds (key_cond e (key_of e m)) {[e_key e := VInt (key_of e m)]} = true).
  { cbn. apply bool_decide_true. unfold column. by rewrite lookup_singleton_eq. }
  rewrite Hkey. fold (new_row e id m tb). rewrite filter_cons_True; [done |].
  unfold holds, new_row. cbn. rewrite !bool_decide_true; [done | | apply saved_id].
  apply key_kept; [exact Hk |]. unfold column. by rewrite lookup_singleton_eq.
Qed.

Lemma after_save_ready e id m tb : ready e tb -> ready e (after_save e id m tb).
Proof. done. Qed.

(** Another account finds nothing. *)
Lemma saved_moved e id id' m tb : id' <> id -> keyed e ->
  filter (fun r => holds e id' (key_of e m) r = true) (t_rows (after_save e id m tb)) = [].
Proof.
  intros Hne Hk. unfold after_save. cbn [t_rows with_rows]. generalize (with_key e (key_of e m) (t_rows tb)). intros rs.
  induction rs as [|r rs IH]; [done |]. rewrite fmap_cons. rewrite filter_cons_False; [exact IH |].
  unfold holds. destruct (cond_holds (key_cond e (key_of e m)) r) eqn:Ec.
  - cbn [cond_holds fst snd]. rewrite saved_id, bool_decide_false by congruence. done.
  - by rewrite Ec, andb_false_r.
Qed.

(** ** The reading of a row *)
Section Reading.
Context `{Env} `{Sqlite}.

Definition read_member (a : arg) (r : list value) (col : nat) : option member :=
  if is_text a then
    if 0 <? column_size r col then Some (Text (Some (before_nul (default [] (column_bytes_of r col))))) else None
  else Some (Num (cast (a_type a) (column_int64 (default VNull (r !! col))))).

Lemma read_row_other l n : n ∉ a_member <$> l -> forall col r m, read_row false l col r m !! n = m !! n.
Proof.
  induction l as [|a l IH]; intros Hn col r m; [done |]. rewrite fmap_cons, not_elem_of_cons in Hn. destruct Hn as [Hne Hn].
  cbn [read_row]. rewrite IH by exact Hn. destruct (is_text a); [cbn [orb]; destruct (0 <? _); [| done] |]; by rewrite lookup_insert_ne by by symmetry.
Qed.
Lemma read_row_at l : NoDup (a_member <$> l) -> forall i a col r m, l !! i = Some a -> (forall b, b ∈ l -> m !! a_member b = None) ->
  read_row false l col r m !! a_member a = read_member a r (col + i).
Proof.
  induction l as [|b l IH]; intros Hnd i a col r m Hi Hm; [done |]. rewrite fmap_cons in Hnd. apply list.NoDup_cons in Hnd as [Hb Hnd].
  destruct i as [|i]; cbn in Hi.
  - injection Hi as ->. cbn [read_row]. rewrite read_row_other by exact Hb. rewrite Nat.add_0_r. unfold read_member.
    destruct (is_text a); [cbn [orb]; destruct (0 <? _) |]; rewrite ?lookup_insert_eq; try done. apply Hm. by left.
  - cbn [read_row]. rewrite (IH Hnd i a (S col)); [by rewrite Nat.add_succ_r | exact Hi |]. intros c Hc.
    assert (Hne : a_member b <> a_member c) by (intros E; apply Hb; rewrite E; by apply list_elem_of_fmap_2).
    destruct (is_text b); [cbn [orb]; destruct (0 <? _) |]; rewrite ?lookup_insert_ne by done; apply Hm; by right.
Qed.
End Reading.

(** ** Saving and reading *)
Definition shaped (e : entity) : Prop :=
  NoDup (a_name <$> e_args e) /\ NoDup (a_member <$> e_args e) /\ e_empty e = false /\
  Forall (fun a => is_text a = false -> a_type a <> Str_) (e_args e).
#[export] Instance shaped_dec e : Decision (shaped e).
Proof. unfold shaped. apply _. Defined.
#[export] Instance keyed_dec e : Decision (keyed e).
Proof. unfold keyed. apply _. Defined.
(** The members have values of their types; a text has no zero and no quote,
    and the column keeps it as it is. *)
Definition fits_member (tb : table) (m : struct_) (a : arg) : Prop :=
  if is_text a then
    match text (a_member a) m with
    | Some v => free_of [0; 39] v /\ affine (bool_decide (a_name a ∈ t_ints tb)) (VText v) = VText v
    | None => True
    end
  else cast (a_type a) (num (a_member a) m) = num (a_member a) m.
Definition same_member (m m' : struct_) (a : arg) : Prop :=
  if is_text a then text (a_member a) m' = match text (a_member a) m with Some [] => None | t => t end
  else num (a_member a) m' = num (a_member a) m.

Lemma cast_i64 t z : t <> Str_ -> cast t z = z -> cast t (i64 z) = z.
Proof.
  intros Ht Hz. destruct t; [| | | done]; cbn in *.
  - assert (Hb : z = 0 \/ z = 1) by (destruct (z =? 0) eqn:E; lia). by destruct Hb as [-> | ->].
  - pose proof (Z.mod_pos_bound z 4294967296 ltac:(done)) as Hb. unfold u32 in *. rewrite Hz in Hb.
    assert (E : i64 z = z) by (unfold i64; rewrite Z.mod_small; lia). by rewrite E.
  - apply u64_of_i64. rewrite <- Hz. apply u64_range.
Qed.
Lemma free_before s : free_of [0; 39] s -> before_nul s = s /\ 39 ∉ s.
Proof.
  induction 1 as [|c s Hc Hs [IH1 IH2]]; [split; [done | apply not_elem_of_nil] |]. cbn in Hc. rewrite orb_false_r in Hc.
  apply orb_false_elim in Hc as [H0 H39]. cbn [before_nul]. rewrite H0, IH1. split; [done |]. apply not_elem_of_cons. split; [lia | exact IH2].
Qed.

Section Kept.
Context `{Env} `{Sqlite} (statements : list stmt -> Prop) (queries : select -> Prop) `{!Documented statements queries}.
Context {U : Type}.

Lemma plain_save e id m tb : Forall (fits_member tb m) (e_args e) -> Forall plain (save_stmts e id m).
Proof.
  intros Hf. unfold save_stmts. apply List.Forall_cons; [done |]. apply List.Forall_cons; [| apply List.Forall_nil].
  cbn [plain]. unfold sets_of. apply Forall_app_2; [| by repeat constructor]. apply Forall_fmap, Forall_forall.
  intros a Ha. apply filter_In in Ha as [Ha Hw]. rewrite Forall_forall in Hf. specialize (Hf a Ha). unfold plain_literal, set_of, compose, fits_member in *. cbv beta. cbn [snd].
  destruct (is_text a); [| exact I]. destruct (text (a_member a) m) as [v|]; [| apply not_elem_of_nil]. apply free_before, Hf.
Qed.

(** A column of the row, read. *)
Lemma read_saved e id m tb a : shaped e -> keyed e -> Forall (fits_member tb m) (e_args e) -> (e_min e = true -> num "min_" m = 0) ->
  a ∈ e_args e ->
  forall r col, r !! col = Some (column (a_name a) (new_row e id m tb)) ->
  read_member a r col = (if is_text a then match text (a_member a) m with Some (c :: t) => Some (Text (Some (c :: t))) | _ => None end
                         else Some (Num (num (a_member a) m))).
Proof.
  intros (Hn & _ & He & Hty) [Hk Hka] Hf Hmin Ha r col Hr. rewrite !Forall_forall in *.
  pose proof Ha as Hin. apply list_elem_of_In in Hin. specialize (Hf a Hin). specialize (Hty a Hin). destruct (Hka a Hin) as [Hid Hkey]. clear Hin.
  assert (Hcol : written e m a = true -> column (a_name a) (new_row e id m tb) = stored (t_ints tb) VNull (set_of m a)).
  { intros Hw. destruct (list_elem_of_split _ _ Ha) as (l1 & l2 & El). apply (saved_column e id m _ l1 a l2); [exact El | exact Hw | | exact Hid].
    rewrite El, fmap_app in Hn. apply list.NoDup_app in Hn as (_ & _ & Hn). by apply list.NoDup_cons in Hn as [Hn _]. }
  unfold read_member, column_size, column_bytes_of. rewrite Hr. cbn [default]. unfold fits_member in Hf. unfold written in Hcol.
  destruct (is_text a) eqn:Et.
  - assert (Hw : written e m a = match text (a_member a) m with Some (_ :: _) => true | _ => false end).
    { unfold written. destruct (a_kind a) eqn:Ek; unfold is_text in Et; rewrite Ek in Et; try discriminate; by destruct (text (a_member a) m) as [[|] |]. }
    fold (written e m a) in Hcol. rewrite Hw in Hcol. destruct (text (a_member a) m) as [[|c t]|] eqn:Ev.
    2: { rewrite Hcol by done. unfold stored, set_of. cbn [fst snd id_of literal_value]. rewrite Et, Ev.
         change (default [] (Some (c :: t))) with (c :: t). cbn [literal_value]. destruct Hf as [Hz Hkept]. rewrite Hkept.
         change (default [] (Some (c :: t))) with (c :: t). rewrite zlen_cons. pose proof (zlen_nonneg t).
         replace (0 <? zlen t + 1) with true by lia. by rewrite (proj1 (free_before _ Hz)). }
    all: unfold new_row; rewrite unsaved_column by (try exact Hn; try exact Ha; try exact Hw; exact Hid); unfold column;
      rewrite lookup_singleton_ne by (intros E; destruct (Hkey (eq_sym E)); congruence); reflexivity.
  - assert (Hw : written e m a = true).
    { unfold written. destruct (a_kind a) eqn:Ek; unfold is_text in Et; rewrite Ek in Et; try discriminate; [| done].
      destruct (e_min e); [rewrite (Hmin eq_refl) |]; done. }
    fold (written e m a) in Hcol. rewrite (Hcol Hw). unfold stored, set_of. cbn [fst snd id_of]. rewrite Et. cbn [literal_value affine].
    change (Datatypes.id ?x) with x. rewrite (int64_documented _ (i64_range _)). by rewrite cast_i64 by (try exact Hf; by apply Hty).
Qed.

(** Saving runs the two statements. *)
Lemma save_ok e m tb (s : client U) :
  let id := c_id (conn s) in
  statements (save_stmts e id m) -> Forall plain (save_stmts e id m) -> store_of (did s) !! e_table e = Some tb -> ready e tb ->
  let s' := does (Exec (save_text e id m)) s in
  save e m s = Ok (0, s') /\ store_of (did s') = <[e_table e := after_save e id m tb]> (store_of (did s)).
Proof.
  intros id Hs Hp Et Hr s'. destruct (exec_runs statements queries _ _ s Hs Hp (save_renders e id m)) as [E1 E2].
  rewrite (run_save e id m _ tb Et Hr) in E1, E2. split; [| exact E2]. unfold save. rewrite (bind_eq _ _ _ _ _ (id_ok s)). exact E1.
Qed.

(** Reading finds the rows of the account and the key. *)
Lemma get_reads e key tb (s : client U) rs :
  let id := c_id (conn s) in
  queries (get_query e id key) -> store_of (did s) !! e_table e = Some tb -> ready e tb ->
  filter (fun r => holds e id (i64 key) r = true) (t_rows tb) = rs -> (length rs <= 1)%nat ->
  get e (get_text e id key) s =
    Ok (match rs with [] => ∅ | r :: _ => read_row false (e_args e) 0 ((fun c => column c r) <$> (a_name <$> e_args e) ++ ["id"]) ∅ end, s).
Proof.
  intros id Hq Et Hr Hrs Hlen. unfold get. rewrite get_text_is.
  destruct (rows_run statements queries _ _ s Hq (select_rows e id key _ tb Et Hr) eq_refl) as (rs' & Hp & E). rewrite (bind_eq _ _ _ _ _ E).
  rewrite Hrs in Hp. destruct rs as [|r [|r2 rs]]; [| | cbn in Hlen; lia].
  - apply Permutation_nil_r in Hp as ->. reflexivity.
  - rewrite list_fmap_singleton in Hp. apply Permutation_singleton_r in Hp as ->. reflexivity.
Qed.

Lemma read_back e m tb (s : client U) :
  let id := c_id (conn s) in
  statements (save_stmts e id m) -> queries (get_query e id (num (e_id e) m)) ->
  shaped e -> keyed e -> store_of (did s) !! e_table e = Some tb -> ready e tb ->
  Forall (fits_member tb m) (e_args e) -> (e_min e = true -> num "min_" m = 0) ->
  existsb (cond_holds (key_cond e (key_of e m))) (t_rows tb) = false ->
  exists s' m', save e m s = Ok (0, s') /\ conn s' = conn s /\ get e (get_text e id (num (e_id e) m)) s' = Ok (m', s') /\
    Forall (same_member m m') (e_args e).
Proof.
  intros id Hs Hq Hsh Hk Et Hr Hf Hmin Hno.
  destruct (save_ok e m tb s Hs (plain_save e id m tb Hf) Et Hr) as [Es St]. fold id in Es, St. set (s' := does _ s) in *.
  exists s'. eexists. split; [exact Es | split; [reflexivity |]].
  assert (Et' : store_of (did s') !! e_table e = Some (after_save e id m tb)) by (rewrite St; apply lookup_insert_eq).
  pose proof (get_reads e (num (e_id e) m) (after_save e id m tb) s' [new_row e id m tb] Hq Et' (after_save_ready e id m tb Hr)
    (saved_rows e id m tb Hk Hno) (Nat.le_refl _)) as Eg. cbv zeta in Eg. change (c_id (conn s')) with id in Eg. split; [exact Eg |]. clear Eg.
  pose proof Hsh as (_ & Hmem & _). apply Forall_forall. intros a Ha. apply list_elem_of_In in Ha. pose proof Ha as [i Hi]%list_elem_of_lookup.
  set (row := (fun c => column c (new_row e id m tb)) <$> (a_name <$> e_args e) ++ ["id"]).
  assert (Hrow : row !! (0 + i)%nat = Some (column (a_name a) (new_row e id m tb))).
  { cbn [Nat.add]. unfold row. rewrite fmap_app, lookup_app_l by (rewrite !length_fmap; by eapply lookup_lt_Some). by rewrite !list_lookup_fmap, Hi. }
  pose proof (read_row_at (e_args e) Hmem i a 0 row ∅ Hi (fun _ _ => lookup_empty _)) as Hat.
  rewrite (read_saved e id m tb a Hsh Hk Hf Hmin Ha row (0 + i)%nat Hrow) in Hat. unfold same_member, num at 1, text at 1. rewrite Hat.
  destruct (is_text a); [| reflexivity]. by destruct (text (a_member a) m) as [[|] |].
Qed.

(** C31: a user that is saved is read back.  For a user that is not in the
    table yet and is not a short one ([min_]), whose texts have no quote and
    no zero byte (the statement is built with them as they are) and are no
    numbers where the column is declared INT, every number and every text of
    the forty-six members is read as it was saved; an empty text is read as
    NULL. *)
Theorem user_read_back m tb (s : client U) :
  let id := c_id (conn s) in
  statements (save_stmts users id m) -> queries (get_query users id (num "id_" m)) ->
  store_of (did s) !! "users"%string = Some tb -> ready users tb ->
  Forall (fits_member tb m) TG_USER_ARGS -> num "min_" m = 0 ->
  existsb (cond_holds (Bare "user_id", i64 (num "id_" m))) (t_rows tb) = false ->
  exists s' m', tg_user_save m s = Ok (0, s') /\ tg_user_get (num "id_" m) s' = Ok (m', s') /\ Forall (same_member m m') TG_USER_ARGS.
Proof.
  intros id Hs Hq Et Hr Hf Hmin Hno.
  destruct (read_back users m tb s Hs Hq) as (s' & m' & Es & Ec & Eg & Hm);
    [by apply (bool_decide_eq_true_1 _); vm_compute | by apply (bool_decide_eq_true_1 _); vm_compute | exact Et | exact Hr | exact Hf | done | exact Hno |].
  exists s', m'. split; [exact Es | split; [| exact Hm]]. unfold tg_user_get. rewrite (bind_eq _ _ _ _ _ (id_ok s')), Ec. exact Eg.
Qed.

(** a user belongs to the account that saved it last.  The table has one
    row for a user, whoever knows it: when one account saves it, every other
    account of the database reads a structure of zeros, whatever it had
    saved before. *)
Theorem user_moves_to_last_account m other tb (s : client U) :
  let id := c_id (conn s) in
  statements (save_stmts users id m) -> queries (get_query users (c_id other) (num "id_" m)) ->
  store_of (did s) !! "users"%string = Some tb -> ready users tb -> Forall (fits_member tb m) TG_USER_ARGS -> c_id other <> id ->
  exists s', tg_user_save m s = Ok (0, s') /\ tg_user_get (num "id_" m) (set_conn other s') = Ok (∅, set_conn other s').
Proof.
  intros id Hs Hq Et Hr Hf Hne.
  destruct (save_ok users m tb s Hs (plain_save users id m tb Hf) Et Hr) as [Es St]. fold id in Es, St. set (s' := does _ s) in *.
  exists s'. split; [exact Es |]. unfold tg_user_get. rewrite (bind_eq _ _ _ _ _ (id_ok (set_conn other s'))).
  assert (Hk : keyed users) by (by apply (bool_decide_eq_true_1 _); vm_compute).
  exact (get_reads users (num "id_" m) (after_save users id m tb) (set_conn other s') [] Hq
    ltac:(cbn [did set_conn]; rewrite St; apply lookup_insert_eq) (after_save_ready users id m tb Hr) (saved_moved users id _ m tb Hne Hk) (Nat.le_0_l _)).
Qed.

(** whether a chat forbids forwarding is saved in the column that says
    whether its call is empty: a chat that is saved and read back has the
    one flag in the place of the other. *)
Theorem chat_flags_confused m tb (s : client U) :
  let id := c_id (conn s) in
  statements (save_stmts chats id m) -> queries (get_query chats id (num "id_" m)) ->
  store_of (did s) !! "chats"%string = Some tb -> ready chats tb -> Forall (fits_member tb m) TG_CHAT_ARGS ->
  existsb (cond_holds (Bare "chat_id", i64 (num "id_" m))) (t_rows tb) = false ->
  exists s' m', tg_chat_save m s = Ok (0, s') /\ tg_chat_get (num "id_" m) s' = Ok (m', s') /\
    num "call_not_empty_" m' = num "noforwards_" m.
Proof.
  intros id Hs Hq Et Hr Hf Hno. set (a := Arg ARG Bool_ "noforwards_" "INT" "call_not_empty" 0).
  assert (Hk : keyed chats) by (by apply (bool_decide_eq_true_1 _); vm_compute).
  destruct (save_ok chats m tb s Hs (plain_save chats id m tb Hf) Et Hr) as [Es St]. fold id in Es, St. set (s' := does _ s) in *.
  assert (Et' : store_of (did s') !! "chats"%string = Some (after_save chats id m tb)) by (rewrite St; apply lookup_insert_eq).
  pose proof (get_reads chats (num "id_" m) (after_save chats id m tb) s' [new_row chats id m tb] Hq Et' (after_save_ready chats id m tb Hr)
    (saved_rows chats id m tb Hk Hno) (Nat.le_refl _)) as Eg. cbv zeta in Eg.
  exists s'. eexists. split; [exact Es | split; [unfold tg_chat_get; rewrite (bind_eq _ _ _ _ _ (id_ok s')); exact Eg |]].
  unfold num at 1. set (row := (fun c => column c (new_row chats id m tb)) <$> _).
  rewrite (read_row_at (e_args chats) ltac:(by apply (bool_decide_eq_true_1 _); vm_compute) 4
    (Arg ARG Bool_ "call_not_empty_" "INT" "call_not_empty" 0) 0 row ∅ eq_refl (fun _ _ => lookup_empty _)).
  assert (Ec : column "call_not_empty" (new_row chats id m tb) = VInt (i64 (num "noforwards_" m))).
  { unfold new_row. rewrite (saved_column chats id m (t_ints tb) (take 5 TG_CHAT_ARGS) a (drop 6 TG_CHAT_ARGS));
      [reflexivity | reflexivity | reflexivity | apply (bool_decide_eq_true_1 _); reflexivity | discriminate]. }
  unfold read_member. cbn [is_text a_kind a_type Nat.add].
  assert (Er : row !! 4%nat = Some (VInt (i64 (num "noforwards_" m)))) by (unfold row; cbn [e_args chats]; rewrite <- Ec; reflexivity).
  rewrite Er. change (default VNull (Some ?x)) with x. rewrite (int64_documented _ (i64_range _)).
  rewrite Forall_forall in Hf. specialize (Hf a ltac:(do 5 right; by left)). by apply (cast_i64 Bool_).
Qed.
End Kept.
