(* ===== verification/Files.v ===== *)
(** * Files: libtg/tg/files.c, tg_inputPeer of peer.c

    Downloading in parts of one megabyte, uploading in parts of half a
    megabyte, and the messages that carry a file, a contact or a place. *)
From stdpp Require Import strings.
From S2P Require Import Prelude TlBuf Serial Base64 Tg Packet Errors Objects Service.

Record tg_file_t := File { type_ : Z; mtime_ : Z; bytes_ : buf_t }.

Record tg_peer_t := Peer_ { peer_type : Z; peer_id : Z; peer_access_hash : Z }.
Definition TG_PEER_TYPE_USER : Z := 0x59511722.
Definition TG_PEER_TYPE_CHANNEL : Z := 0xa2a5371e.
Definition TG_PEER_TYPE_CHAT : Z := 0x36c6019a.

Inductive DOCUMENT_TYPE :=
| DOCUMENT_TYPE_DEFAUL | DOCUMENT_TYPE_PHOTO | DOCUMENT_TYPE_IMAGE | DOCUMENT_TYPE_VIDEO | DOCUMENT_TYPE_AUDIO.

(** Strings without the terminating zero; pointers that may be NULL are
    options.  The sticker fields that are never read are left out. *)
Record tg_document_t := Document {
  dtype : DOCUMENT_TYPE; filepath : list Z; mime_type : list Z;
  force_file : bool; spoiler : bool; no_sound_video : bool; ttl_seconds : option Z;
  image_w : Z; image_h : Z;
  video_supports_streaming : bool; video_no_sound : bool; video_duration : Z; video_w : Z; video_h : Z;
  video_preload_prefix_size : option Z; video_start_ts : option Z;
  audio_voice : bool; audio_duration : Z; audio_title : list Z; audio_perfomer : list Z;
  audio_waveform : option (list Z);
  filename : list Z; has_stickers : bool; stickers : list (list Z)
}.

(** The file system, MD5 of OpenSSL, and what [sprintf(s, "%s...", s, ...)]
    leaves in [s] for the text [t] behind the "%s": the C standard does not
    define it, since the source and the destination overlap. *)
Class FileSystem := {
  fopen : list Z -> option (list Z);
  MD5 : list Z -> list Z;
  MD5_length : forall m, zlen (MD5 m) = 16;
  MD5_bytes : forall m, bytes_ok (MD5 m);
  sprintf_self (s t : list Z) : list Z
}.

Section Files.
Context `{Env} `{Server} `{Schema} `{FileSystem} {U : Type}.

(** The callback of the application: 0 to go on. *)
Definition callback_t : Type := tg_file_t -> U -> res (Z * U).

Definition tg_inputPeer (peer : tg_peer_t) : list Z :=
  if peer_type peer =? TG_PEER_TYPE_CHANNEL then tl_inputPeerChannel (peer_id peer) (peer_access_hash peer)
  else if peer_type peer =? TG_PEER_TYPE_CHAT then tl_inputPeerChat (peer_id peer)
  else if peer_type peer =? TG_PEER_TYPE_USER then tl_inputPeerUser (peer_id peer) (peer_access_hash peer)
  else [].

(** ** Downloading *)
(** The caller has zeroed the structure. *)
Definition tg_file_from_tl (tl : tl_t) : res tg_file_t :=
  match obj tl with
  | Upload_file ty mt bs =>
      match ty with
      | None => Err NullDeref
      | Some ty => b ← buf_add_buf bs; Ok (File (_id ty) mt b)
      end
  | _ => Ok (File 0 0 (Buf [] 0 0 0))
  end.

Definition run_callback (callback : option callback_t) (file : tg_file_t) : F U Z :=
  match callback with
  | None => mret 0
  | Some cb => u ← gets user; r ← lift (cb file u); _ ← modify (set_user (snd r)); mret (fst r)
  end.

(** The percentage that is printed is [offset/size]. *)
Fixpoint download_loop (fuel : nat) (location : list Z) (size offset : Z) (callback : option callback_t) : F U Z :=
  match fuel with
  | O => fail NoFuel
  | S fuel =>
      let limit := 1048576 in
      if (if 0 <? size then offset <? size else true) then
        _ ← lift (div_i32 offset size);
        tl ← tg_send_query (Some (tl_upload_getFile location (u64 offset) limit));
        match tl with
        | None => mret 1
        | Some tl =>
            match obj tl with
            | Upload_file _ _ _ =>
                file ← lift (tg_file_from_tl tl);
                let offset := i32 (offset + b_size (bytes_ file)) in
                r ← run_callback callback file;
                if negb (r =? 0) then mret 0
                else download_loop fuel location size offset callback
            | _ => mret 1
            end
        end
      else mret 0
  end.

(** The address of the server is copied to an array of 128 bytes. *)
Definition tg_get_file_with_progress (fuel : nat) (ip location : list Z) (size : Z)
    (callback : option callback_t) : F U Z :=
  _ ← lift (guard_res (zlen ip <? 128) OutOfBounds);
  download_loop fuel location size 0 callback.

Definition tg_get_file (fuel : nat) (ip location : list Z) (size : Z) (callback : option callback_t) : F U Z :=
  tg_get_file_with_progress fuel ip location size callback.

Definition tg_get_document (fuel : nat) (ip : list Z) (junk : list Z) (id size access_hash : Z)
    (file_reference : option (list Z)) (callback : option callback_t) : F U Z :=
  fr ← lift (Base64.buf_from_base64 junk file_reference);
  tg_get_file_with_progress fuel ip (tl_inputDocumentFileLocation id access_hash (contents fr) []) (i32 size) callback.
End Files.

(** Photos and thumbnails are taken from the first part: the data of the
    callback is the string that is returned. *)
Section Photos.
Context `{Env} `{Server} `{Schema}.
Definition photo_t : Type := option (list Z).

Definition _photo_file_cb : callback_t (U := photo_t) := fun file _ =>
  s ← Base64.buf_to_base64 (bytes_ file); Ok (1, s).

(** [char *photo = NULL; tg_get_file(tg, &location, 0, &photo, _photo_file_cb); return photo;] *)
Definition get_photo (fuel : nat) (ip location : list Z) : F photo_t photo_t :=
  _ ← modify (set_user None);
  _ ← tg_get_file fuel ip location 0 (Some _photo_file_cb);
  gets user.

Definition tg_get_photo_file (fuel : nat) (ip junk : list Z) (photo_id photo_access_hash : Z)
    (photo_file_reference : option (list Z)) (photo_size : list Z) : F photo_t photo_t :=
  fr ← lift (Base64.buf_from_base64 junk photo_file_reference);
  get_photo fuel ip (tl_inputPhotoFileLocation photo_id photo_access_hash (contents fr) photo_size).

Definition tg_get_peer_photo_file (fuel : nat) (ip : list Z) (peer : tg_peer_t) (big_photo : bool) (photo_id : Z)
  : F photo_t photo_t :=
  get_photo fuel ip (tl_inputPeerPhotoFileLocation true (tg_inputPeer peer) photo_id).

Definition tg_get_document_thumb (fuel : nat) (ip junk : list Z) (id access_hash : Z)
    (file_reference : option (list Z)) (thumb_size : list Z) : F photo_t photo_t :=
  fr ← lift (Base64.buf_from_base64 junk file_reference);
  get_photo fuel ip (tl_inputDocumentFileLocation id access_hash (contents fr) thumb_size).
End Photos.

(** ** Uploading *)
Section Upload.
Context `{Env} `{Server} `{Schema} `{FileSystem} {U : Type}.

Definition part_size : Z := 524288.
Definition progress_t : Type := Z -> Z -> U -> Z * U.

Definition run_progress (progress : option progress_t) (len size : Z) : F U Z :=
  match progress with
  | None => mret 0
  | Some p => u ← gets user; let r := p len size u in _ ← modify (set_user (snd r)); mret (fst r)
  end.

(** [bytes.size = len = fread(bytes.data, 1, part_size, fp)] for the bytes
    that are next in the file. *)
Definition fread_into (bytes : buf_t) (chunk : list Z) : res buf_t :=
  m ← copy_loop (length chunk) 0 (b_mem bytes) (fun i => b_off bytes + i) chunk;
  Ok (set_size (set_mem bytes m) (zlen chunk)).

(** The label before the query and the [goto] after a refusal: the number
    of retries is counted, and reported from the tenth on. *)
Fixpoint save_part (fuel : nat) (q : query) : F U unit :=
  match fuel with
  | O => fail NoFuel
  | S fuel =>
      tl ← tg_send_query q;
      match tl with
      | Some tl => match obj tl with BoolTrue => mret tt | _ => save_part fuel q end
      | None => save_part fuel q
      end
  end.

(** [rest]: what [fread] has not returned yet.  The result is [None] when
    the progress callback cancels, else the file and the number of parts. *)
Fixpoint save_parts (n fuel : nat) (q : Z -> list Z -> query) (cancels : bool) (size : Z)
    (progress : option progress_t) (rest : list Z) (bytes buf : buf_t) (file_part : Z)
  : F U (option (buf_t * Z)) :=
  match n with
  | O => fail NoFuel
  | S n =>
      let chunk := take (Z.to_nat part_size) rest in
      if zlen chunk =? 0 then mret (Some (buf, file_part))
      else
        bytes ← lift (fread_into bytes chunk);
        buf ← lift (buf_cat buf bytes);
        _ ← save_part fuel (q file_part (contents bytes));
        r ← run_progress progress (zlen chunk) size;
        if cancels && negb (r =? 0) then mret None
        else save_parts n fuel q cancels size progress (drop (Z.to_nat part_size) rest) bytes buf (u32 (file_part + 1))
  end.

(** [saveBigFilePart] is released before it is sent. *)
Definition save_big (fuel : nat) (file_id size : Z) (filename : list Z) (progress : option progress_t)
    (file : list Z) (buf : buf_t) : F U (option (buf_t * Z)) :=
  if bool_decide (filename = []) then mret None
  else
    let file_total_parts := Z.quot size part_size + (if Z.rem size part_size =? 0 then 0 else 1) in
    bytes ← lift buf_new; bytes ← lift (buf_realloc_ bytes part_size);
    let q n bs : query :=
      let saveFilePart := tl_upload_saveBigFilePart file_id n file_total_parts bs in
      None (* buf_free(saveFilePart) *) in
    save_parts fuel fuel q true size progress file bytes buf 0.

Definition save_small (fuel : nat) (file_id size : Z) (progress : option progress_t)
    (file : list Z) (buf : buf_t) : F U (option (buf_t * Z)) :=
  bytes ← lift buf_new; bytes ← lift (buf_realloc_ bytes part_size);
  save_parts fuel fuel (fun n bs => Some (tl_upload_saveFilePart file_id n bs)) false size progress file bytes buf 0.

(** [sprintf(md5_checksum, "%s%02x", md5_checksum, md5[i])] for every byte. *)
Definition md5_hex (m : list Z) : list Z :=
  foldl (fun md5_checksum b =>
    sprintf_self md5_checksum (chars (hex_digit (b / 16)) ++ chars (hex_digit (b mod 16)))) [] m.

Definition document_attributes (d : tg_document_t) : list (list Z) :=
  (if bool_decide (filename d = []) then [] else [tl_documentAttributeFilename (filename d)]) ++
  (if has_stickers d then [tl_documentAttributeHasStickers] else []) ++
  match dtype d with
  | DOCUMENT_TYPE_IMAGE => [tl_documentAttributeImageSize (image_w d) (image_h d)]
  | DOCUMENT_TYPE_VIDEO =>
      [tl_documentAttributeVideo false (video_supports_streaming d) (video_no_sound d) (video_duration d)
         (video_w d) (video_h d) (video_preload_prefix_size d) (video_start_ts d)]
  | DOCUMENT_TYPE_AUDIO =>
      [tl_documentAttributeAudio (audio_voice d) (audio_duration d) (audio_title d) (audio_perfomer d) (audio_waveform d)]
  | _ => []
  end.

Definition document_media (d : tg_document_t) (inputFile : list Z) : list Z :=
  match dtype d with
  | DOCUMENT_TYPE_PHOTO => tl_inputMediaUploadedPhoto (spoiler d) inputFile (stickers d) (ttl_seconds d)
  | _ => tl_inputMediaUploadedDocument (no_sound_video d) (force_file d) (spoiler d) inputFile (mime_type d)
           (document_attributes d) (stickers d) (ttl_seconds d)
  end.

Definition tg_document_send (fuel : nat) (peer : tg_peer_t) (document : tg_document_t)
    (message : option (list Z)) (progress : option progress_t) : F U Z :=
  _ ← lift (guard_res (negb (bool_decide (filepath document = []))) AssertFailed);
  match fopen (filepath document) with
  | None => mret 1
  | Some file =>
      let size := i32 (zlen file) in
      file_id_ ← rand_buf 8;
      file_id ← lift (buf_get_ui64 file_id_);
      buf ← lift buf_new;
      r ← (if 10485760 <? size then save_big fuel file_id size (filename document) progress file buf
           else save_small fuel file_id size progress file buf);
      match r with
      | None => mret 1
      | Some (buf, file_part) =>
          m ← lift (load buf (b_size buf));
          let md5_checksum := md5_hex (MD5 m) in
          let inputFile :=
            if 10485760 <? size then tl_inputFileBig file_id file_part (filename document)
            else tl_inputFile file_id file_part (filename document) md5_checksum in
          let media := document_media document inputFile in
          random_id ← rand_buf 8;
          rid ← lift (buf_get_ui64 random_id);
          tl ← tg_send_query (Some (tl_messages_sendMedia (tg_inputPeer peer) media (default [] message) rid));
          match tl with
          | None => mret 1
          | Some tl => _ ← modify (does (Do_updates tl)); mret 0
          end
      end
  end.

(** [strncpy] into arrays the allocation has zeroed. *)
Definition zero_document : tg_document_t :=
  Document DOCUMENT_TYPE_DEFAUL [] [] false false false None 0 0 false false 0 0 0 None None false 0 [] [] None [] false [].
Definition tg_document (path name mime : list Z) : tg_document_t :=
  let d := zero_document in
  Document DOCUMENT_TYPE_DEFAUL (take (Z.to_nat (BUFSIZ - 1)) path) (take 255 mime) (force_file d) (spoiler d)
    (no_sound_video d) (ttl_seconds d) (image_w d) (image_h d) (video_supports_streaming d) (video_no_sound d)
    (video_duration d) (video_w d) (video_h d) (video_preload_prefix_size d) (video_start_ts d) (audio_voice d)
    (audio_duration d) (audio_title d) (audio_perfomer d) (audio_waveform d) (take 255 name) (has_stickers d) (stickers d).
Definition tg_photo (path : list Z) : tg_document_t :=
  let d := zero_document in
  Document DOCUMENT_TYPE_PHOTO (take (Z.to_nat (BUFSIZ - 1)) path) (mime_type d) (force_file d) (spoiler d)
    (no_sound_video d) (ttl_seconds d) (image_w d) (image_h d) (video_supports_streaming d) (video_no_sound d)
    (video_duration d) (video_w d) (video_h d) (video_preload_prefix_size d) (video_start_ts d) (audio_voice d)
    (audio_duration d) (audio_title d) (audio_perfomer d) (audio_waveform d) (filename d) (has_stickers d) (stickers d).
Definition tg_voice_message (path : list Z) : tg_document_t :=
  let d := zero_document in
  Document DOCUMENT_TYPE_AUDIO (take (Z.to_nat (BUFSIZ - 1)) path) (chars "audio/ogg") (force_file d) (spoiler d)
    (no_sound_video d) (ttl_seconds d) (image_w d) (image_h d) (video_supports_streaming d) (video_no_sound d)
    (video_duration d) (video_w d) (video_h d) (video_preload_prefix_size d) (video_start_ts d) true
    (audio_duration d) (audio_title d) (audio_perfomer d) (audio_waveform d) (filename d) (has_stickers d) (stickers d).

(** ** Contacts, places, hashes *)
Definition send_media (inputMedia : list Z) (peer : tg_peer_t) (message : option (list Z)) : F U Z :=
  random_id ← rand_buf 8;
  rid ← lift (buf_get_ui64 random_id);
  tl ← tg_send_query (Some (tl_messages_sendMedia (tg_inputPeer peer) inputMedia (default [] message) rid));
  mret (match tl with
        | None => 1
        | Some tl => match obj tl with Rpc_error _ _ => 1 | _ => 0 end
        end).

Definition tg_contact_send (peer : tg_peer_t) (phone_number first_name last_name vcard : list Z)
    (message : option (list Z)) : F U Z :=
  send_media (tl_inputMediaContact phone_number first_name last_name vcard) peer message.

Definition tg_send_geopoint (peer : tg_peer_t) (lat lon : Z) (message : option (list Z)) : F U Z :=
  send_media (tl_inputMediaGeoPoint (tl_inputGeoPoint lat lon)) peer message.

(** The pointer to the vector is made of the document's [id] instead of the
    answer; no object lies there. *)
Definition tg_get_document_hashes (junk : list Z) (id access_hash : Z) (file_reference : option (list Z)) : F U Z :=
  fr ← lift (Base64.buf_from_base64 junk file_reference);
  tl ← tg_send_query (Some (tl_upload_getFileHashes (tl_inputDocumentFileLocation id access_hash (contents fr) []) 0));
  match tl with
  | None => mret 0
  | Some tl => match obj tl with Vector _ _ => fail OutOfBounds | _ => mret 0 end
  end.
End Upload.
