(* ===== verification/FilesFacts.v ===== *)
(** * What downloading and uploading do

    A server that has a file gives it to the application piece by piece; a
    file that is sent reaches the server piece by piece. *)
From stdpp Require Import strings.
From S2P Require Import Prelude TlBuf Serial Base64 Tg Packet Errors Objects Service Files.

Section FilesFacts.
Context `{Env} `{Server} `{Schema} `{FileSystem} {U : Type}.

(** The server answers a request for the part of [file] at [off]. *)
Definition serves_file (location file : list Z) : Prop :=
  forall before off, 0 <= off < zlen file ->
  exists buf ty mt bs, answer (before ++ [tl_upload_getFile location off 1048576]) =
      Some (Tl buf (Upload_file (Some ty) mt bs)) /\
    buf_wf bs /\ contents bs = take (Z.to_nat 1048576) (drop (Z.to_nat off) file).

(** The application takes every piece. *)
Definition takes (cb : callback_t) (step : U -> list Z -> U) : Prop :=
  forall f u, buf_wf (bytes_ f) -> cb f u = Ok (0, step u (contents (bytes_ f))).

Lemma zlen_drop (l : list Z) n : 0 <= n <= zlen l -> zlen (drop (Z.to_nat n) l) = zlen l - n.
Proof. intros. unfold zlen in *. rewrite length_drop. lia. Qed.
Lemma zlen_take (l : list Z) n : 0 <= n -> zlen (take (Z.to_nat n) l) = Z.min n (zlen l).
Proof. intros. unfold zlen in *. rewrite length_take. lia. Qed.

(** The requests for the parts from [off] on. *)
Fixpoint requests (n : nat) (location : list Z) (off : Z) : list (list Z) :=
  match n with
  | O => []
  | S n => tl_upload_getFile location off 1048576 :: requests n location (off + 1048576)
  end.

Lemma download_loop_ok location file cb step : forall fuel off s,
  serves_file location file -> takes cb step -> zlen file < 2147483648 -> fits 1048576 ->
  0 <= off -> (off < zlen file \/ drop (Z.to_nat off) file = []) -> 0 < zlen file ->
  (length (split_by 1048576 (drop (Z.to_nat off) file)) < fuel)%nat ->
  exists s', download_loop fuel location (zlen file) (Z.min off (zlen file)) (Some cb) s = Ok (0, s') /\
    user s' = foldl step (user s) (split_by 1048576 (drop (Z.to_nat off) file)) /\
    asked s' = asked s ++ requests (length (split_by 1048576 (drop (Z.to_nat off) file))) location off /\
    reads s' = reads s /\ did s' = did s.
Proof.
  induction fuel as [|fuel IH]; intros off s Hs Hcb Hf Ha H0' Hoff Hpos Hl; [lia |].
  destruct (drop (Z.to_nat off) file) as [|x r] eqn:Ed.
  - assert (Hge : zlen file <= off).
    { destruct Hoff as [Hoff | _]; [| unfold zlen; assert (length (drop (Z.to_nat off) file) = 0%nat) as L by (by rewrite Ed);
        rewrite length_drop in L; lia].
      pose proof (zlen_drop file off ltac:(lia)) as L. rewrite Ed in L. change (zlen []) with 0 in L. lia. }
    exists s. cbn [download_loop]. replace (0 <? zlen file) with true by lia.
    replace (Z.min off (zlen file) <? zlen file) with false by lia.
    rewrite split_by_nil. cbn. by rewrite app_nil_r.
  - assert (Hlt : off < zlen file) by (by destruct Hoff). rewrite <- Ed in *.
    rewrite split_by_cons in * by (lia || by rewrite Ed). cbn [length] in Hl. rewrite drop_drop in *.
    replace (Z.to_nat off + Z.to_nat 1048576)%nat with (Z.to_nat (off + 1048576)) in * by lia.
    destruct (Hs (asked s) off ltac:(lia)) as (b & ty & mt & bs & Ea & Wb & Cb).
    set (p := take (Z.to_nat 1048576) (drop (Z.to_nat off) file)) in *.
    assert (Lp : zlen p = Z.min 1048576 (zlen file - off)) by (unfold p; rewrite zlen_take, zlen_drop; lia).
    assert (Lb : b_size bs = zlen p) by (rewrite <- Cb; symmetry; by apply zlen_contents).
    assert (Bp : bytes_ok p) by (rewrite <- Cb; by apply contents_ok).
    assert (Wf : buf_wf (fresh p)) by (apply fresh_wf; [done | unfold fits in *; lia]).
    cbn [download_loop]. replace (0 <? zlen file) with true by lia. rewrite (Z.min_l off) by lia.
    replace (off <? zlen file) with true by lia.
    erewrite bind_lift by (unfold div_i32; replace (zlen file =? 0) with false by lia;
      replace (zlen file =? -1) with false by lia; rewrite andb_false_r; reflexivity).
    rewrite (u64_id off) by (unfold is_u64; lia).
    rewrite (bind_eq _ _ _ _ _ (send_query_ok _ s)), Ea.
    cbn [obj].
    erewrite bind_lift by (unfold tg_file_from_tl; cbn [obj]; rewrite (buf_add_buf_ok _ Wb); reflexivity).
    cbn [bytes_]. rewrite Cb.
    erewrite bind_eq by (unfold run_callback; erewrite bind_eq by reflexivity;
      erewrite bind_lift by (apply Hcb; exact Wf); erewrite bind_eq by reflexivity; reflexivity).
    cbn [fst snd bytes_]. rewrite contents_fresh. change (negb (0 =? 0)) with false. cbv iota.
    change (b_size (fresh p)) with (zlen p). rewrite Lp.
    assert (En : i32 (off + Z.min 1048576 (zlen file - off)) = Z.min (off + 1048576) (zlen file)).
    { unfold i32. modlia. }
    rewrite En.
    destruct (IH (off + 1048576) (set_user (step (user s) p)
      (ask (tl_upload_getFile location off 1048576) (in_session s)))) as (s' & E & Eu & Eq & Er & Edd);
      try done; [lia | | lia |].
    { destruct (Z.lt_ge_cases (off + 1048576) (zlen file)); [by left | right].
      apply nil_length_inv. rewrite length_drop. unfold zlen in *. lia. }
    exists s'. split; [exact E |]. cbn [foldl]. split; [exact Eu |]. split; [| split; [exact Er | exact Edd]].
    rewrite Eq. cbn [asked set_user ask length requests]. by rewrite <- app_assoc.
Qed.

(** a document is downloaded.  When the server returns the part of the
    file at each offset it is asked for, the application's callback gets
    the parts of one megabyte in order, whose concatenation is the file,
    and the call returns 0 after as many requests. *)
Theorem tg_get_file_delivers fuel ip location file cb step s :
  serves_file location file -> takes cb step -> 0 < zlen file < 2147483648 -> fits 1048576 -> zlen ip < 128 ->
  zlen file / 1048576 + 1 < Z.of_nat fuel ->
  exists s', tg_get_file fuel ip location (zlen file) (Some cb) s = Ok (0, s') /\
    user s' = foldl step (user s) (split_by 1048576 file) /\ mjoin (split_by 1048576 file) = file /\
    asked s' = asked s ++ requests (length (split_by 1048576 file)) location 0.
Proof.
  intros Hs Hcb Hf Ha Hip Hfuel.
  destruct (download_loop_ok location file cb step fuel 0 s) as (s' & E & Eu & Eq & _); try done; try lia.
  - rewrite drop_0. pose proof (length_split_by 1048576 ltac:(done) file). change (drop 0 file) with file in *. unfold zlen in *. lia.
  - change (drop (Z.to_nat 0) file) with file in *. rewrite Z.min_l in E by lia. exists s'.
    split; [| split; [exact Eu | split; [by apply split_by_concat | exact Eq]]].
    unfold tg_get_file, tg_get_file_with_progress. replace (zlen ip <? 128) with true by lia.
    by erewrite bind_lift by reflexivity.
Qed.

(** ** Uploading *)
(** The sizes of parts are numbers too large to be unfolded. *)
#[local] Strategy 1000 [Z.to_nat part_size].

Lemma rand8 (s : client U) :
  (b ← rand_buf 8; lift (buf_get_ui64 b)) s = Ok (le_num (rand_bytes (wall (reads s)) 8), read_clock s).
Proof.
  pose proof platform_bounds. erewrite bind_eq.
  2: { unfold rand_buf. erewrite bind_eq by reflexivity. erewrite bind_eq by reflexivity.
       apply lift_eq, buf_rand_ok. lia. }
  apply lift_eq. rewrite buf_get_ui64_fresh by (by rewrite zlen_rand_bytes).
  change (Z.to_nat 8) with 8%nat. by rewrite take_ge by (unfold rand_bytes; by rewrite length_fmap, length_seq).
Qed.

(** The buffer a part is read into. *)
Definition holds_parts (b : buf_t) : Prop := buf_wf b /\ b_off b = 0 /\ part_size <= b_asize b.

Lemma parts_buffer : fits part_size ->
  exists b, buf_realloc_ (fresh []) part_size = Ok b /\ holds_parts b.
Proof.
  intros Hf. platform. unfold part_size in *.
  assert (Hw : buf_wf (fresh [])) by (apply fresh_wf; [constructor | blia]).
  unfold buf_realloc_. destruct (Z.lt_ge_cases (b_asize (fresh [])) 524288) as [Hc | Hc].
  - destruct (buf_realloc_wf _ _ Hw Hc Hf) as (m & Em & Lm & Bm & _). rewrite Em, res_bind_ok. eexists. split; [done |].
    split; [| split; [done | unfold part_size; cbn; lia]].
    split_and!; cbn; try done; unfold zlen in *; cbn; lia.
  - exists (fresh []). unfold buf_realloc. replace (b_asize (fresh []) <? 524288) with false by lia.
    rewrite res_bind_ok. split; [done |]. split; [done | split; [done | unfold part_size; lia]].
Qed.

Lemma fread_into_ok b chunk :
  holds_parts b -> bytes_ok chunk -> zlen chunk <= part_size ->
  exists b', fread_into b chunk = Ok b' /\ holds_parts b' /\ contents b' = chunk /\ b_size b' = zlen chunk.
Proof.
  intros (Hw & Ho & Ha) Hc Hl. pose proof (zlen_nonneg chunk).
  destruct Hw as (W1 & W2 & W3 & W4 & W5 & W6). unfold fread_into.
  assert (Hm : copy_loop (length chunk) 0 (b_mem b) (fun i => b_off b + i) chunk = Ok (splice (b_mem b) 0 chunk)).
  { rewrite (copy_loop_ok _ _ _ _ 0) by (unfold zlen in *; (intros; lia) || lia).
    by rewrite slice_all. }
  rewrite Hm, res_bind_ok. eexists. split; [reflexivity |].
  assert (Lm : zlen (splice (b_mem b) 0 chunk) = zlen (b_mem b)) by (apply zlen_splice; lia).
  unfold holds_parts, buf_wf, set_size, set_mem, contents. cbn [b_mem b_off b_size b_asize].
  rewrite Ho. split_and!; try done; try lia.
  - by apply splice_forall.
  - apply slice_splice; lia.
Qed.

(** The queries for the parts, numbered from [k]. *)
Fixpoint part_queries (Q : Z -> list Z -> list Z) (k : Z) (ps : list (list Z)) : list (list Z) :=
  match ps with [] => [] | p :: ps => Q k p :: part_queries Q (k + 1) ps end.

(** The server says yes to every part. *)
Definition accepts (Q : Z -> list Z -> list Z) : Prop :=
  forall before k bs, exists buf, answer (before ++ [Q k bs]) = Some (Tl buf BoolTrue).

Lemma save_part_ok fuel Q k bs (s : client U) :
  accepts Q -> save_part (S fuel) (Some (Q k bs)) s = Ok (tt, ask (Q k bs) (in_session s)).
Proof.
  intros Ha. destruct (Ha (asked s) k bs) as (b & E). cbn [save_part].
  by rewrite (bind_eq _ _ _ _ _ (send_query_ok _ s)), E.
Qed.

Lemma run_progress_ok (progress : option progress_t) len size (s : client U) :
  exists r u, run_progress progress len size s = Ok (r, set_user u s).
Proof.
  destruct progress as [p|]; [| exists 0, (user s); by destruct s].
  exists (fst (p len size (user s))), (snd (p len size (user s))). reflexivity.
Qed.

Lemma save_parts_ok fuel Q size (progress : option progress_t) : accepts Q ->
  forall n (s : client U) k rest bytes acc,
  holds_parts bytes -> bytes_ok rest -> fits (zlen acc + zlen rest) ->
  (length (split_by part_size rest) < n)%nat -> 0 <= k -> k + Z.of_nat (length (split_by part_size rest)) < 4294967296 ->
  exists s', save_parts n (S fuel) (fun k bs => Some (Q k bs)) false size progress rest bytes (fresh acc) k s =
      Ok (Some (fresh (acc ++ rest), k + Z.of_nat (length (split_by part_size rest))), s') /\
    asked s' = asked s ++ part_queries Q k (split_by part_size rest) /\ reads s' = reads s /\ did s' = did s.
Proof.
  intros Hq. induction n as [|n IH]; intros s k rest bytes acc Hp Hb Hf Hn Hk Hk2; [lia |].
  cbn [save_parts]. assert (Hps : 0 < part_size) by done.
  destruct (decide (rest = [])) as [-> | Hr].
  { rewrite take_nil. change (zlen [] =? 0) with true. exists s. rewrite split_by_nil, !app_nil_r. cbn.
    by rewrite Z.add_0_r. }
  rewrite split_by_cons in * by done. cbn [length part_queries] in *.
  set (c := take (Z.to_nat part_size) rest) in *. set (r := drop (Z.to_nat part_size) rest) in *.
  assert (Er : rest = c ++ r) by (symmetry; apply take_drop).
  assert (Hc : zlen c = Z.min part_size (zlen rest)) by (by apply zlen_take).
  assert (Hpos : 0 < zlen rest) by (destruct rest; [done | unfold zlen; cbn [length]; lia]).
  replace (zlen c =? 0) with false by lia.
  assert (Bc : bytes_ok c /\ bytes_ok r) by (rewrite Er in Hb; by apply Forall_app in Hb).
  destruct Bc as [Bc Br]. assert (Lr : zlen rest = zlen c + zlen r) by (by rewrite Er, zlen_app at 1).
  destruct (fread_into_ok bytes c Hp Bc ltac:(lia)) as (b' & Eb & Hp' & Cb & Sb).
  pose proof (zlen_nonneg r). rewrite (bind_lift _ _ _ _ Eb).
  assert (Ec : buf_cat (fresh acc) b' = Ok (fresh (acc ++ c))).
  { rewrite buf_cat_ok by (apply Hp' || (rewrite Sb; unfold fits in *; lia)). by rewrite Cb. }
  rewrite (bind_lift _ _ _ _ Ec), Cb, (bind_eq _ _ _ _ _ (save_part_ok fuel Q k c s Hq)).
  destruct (run_progress_ok progress (zlen c) size (ask (Q k c) (in_session s))) as (x & u & Ep). rewrite (bind_eq _ _ _ _ _ Ep).
  cbn [andb]. rewrite u32_id by (unfold is_u32; lia).
  destruct (IH (set_user u (ask (Q k c) (in_session s))) (k + 1) r b' (acc ++ c) Hp' Br) as (s' & E & Ea & Ed); try lia.
  { rewrite zlen_app. unfold fits in *. lia. }
  exists s'. rewrite E, Ea, <- app_assoc, <- Er. cbn [asked ask set_user in_session set_conn].
  split; [do 4 f_equal; lia |]. split; [by rewrite <- app_assoc | done].
Qed.

Lemma load_fresh l : bytes_ok l -> fits (zlen l) -> load (fresh l) (zlen l) = Ok l.
Proof.
  intros Hb Hf. unfold load. pose proof (buf_add_buf_ok (fresh l) (fresh_wf l Hb Hf)) as E. unfold buf_add_buf in E.
  change (b_size (fresh l)) with (zlen l) in E. rewrite E, res_bind_ok, !contents_fresh. done.
Qed.

(** The text of an MD5 sum: two digits for every byte. *)
Definition hexadecimal (c v : Z) : Prop := 0 <= v < 16 /\ nth (Z.to_nat v) (chars "0123456789abcdef") 0 = c.
Inductive hex_text : list Z -> list Z -> Prop :=
| hex_none : hex_text [] []
| hex_byte h l x y m t : hexadecimal h x -> hexadecimal l y -> hex_text m t -> hex_text (16 * x + y :: m) (h :: l :: t).

Lemma hex_text_app m t m' t' : hex_text m t -> hex_text m' t' -> hex_text (m ++ m') (t ++ t').
Proof. induction 1; intros; cbn [app]; [done | constructor; auto]. Qed.

Lemma hex_digit_is v : 0 <= v < 16 -> exists c, chars (hex_digit v) = [c] /\ hexadecimal c v.
Proof.
  intros Hv. exists (nth (Z.to_nat v) (chars "0123456789abcdef") 0). split; [| done].
  assert (Hc : v = 0 \/ v = 1 \/ v = 2 \/ v = 3 \/ v = 4 \/ v = 5 \/ v = 6 \/ v = 7 \/ v = 8 \/ v = 9 \/
    v = 10 \/ v = 11 \/ v = 12 \/ v = 13 \/ v = 14 \/ v = 15) by lia.
  decompose [or] Hc; subst v; reflexivity.
Qed.

Lemma md5_hex_text m : (forall s t, sprintf_self s t = s ++ t) -> bytes_ok m -> hex_text m (md5_hex m).
Proof.
  intros Hs Hm. unfold md5_hex.
  assert (E : forall acc m0, hex_text m0 acc -> hex_text (m0 ++ m) (foldl (fun md5_checksum b =>
    sprintf_self md5_checksum (chars (hex_digit (b / 16)) ++ chars (hex_digit (b mod 16)))) acc m)).
  { induction Hm as [|b m Hb _ IH]; intros acc m0 Ht; cbn [foldl]; [by rewrite app_nil_r |].
    unfold is_byte in Hb.
    rewrite Hs. replace (m0 ++ b :: m) with ((m0 ++ [b]) ++ m) by (by rewrite <- app_assoc). apply IH.
    apply hex_text_app; [done |].
    destruct (hex_digit_is (b / 16)) as (h & -> & Hh); [split; [apply Z.div_pos | apply Z.div_lt_upper_bound]; lia |].
    destruct (hex_digit_is (b mod 16)) as (l & -> & Hl); [by apply Z.mod_pos_bound |].
    rewrite (Z.div_mod b 16) at 1 by lia. cbn [app]. exact (hex_byte _ _ _ _ _ _ Hh Hl hex_none). }
  exact (E [] [] hex_none).
Qed.

(** The media of a message with a file: a photo, or a document with the
    attributes of its kind. *)
Inductive name_attribute (d : tg_document_t) : list (list Z) -> Prop :=
| unnamed : filename d = [] -> name_attribute d []
| named : filename d <> [] -> name_attribute d [tl_documentAttributeFilename (filename d)].
Inductive kind_attribute (d : tg_document_t) : list (list Z) -> Prop :=
| kind_default : dtype d = DOCUMENT_TYPE_DEFAUL -> kind_attribute d []
| kind_image : dtype d = DOCUMENT_TYPE_IMAGE -> kind_attribute d [tl_documentAttributeImageSize (image_w d) (image_h d)]
| kind_video : dtype d = DOCUMENT_TYPE_VIDEO -> kind_attribute d
    [tl_documentAttributeVideo false (video_supports_streaming d) (video_no_sound d) (video_duration d)
       (video_w d) (video_h d) (video_preload_prefix_size d) (video_start_ts d)]
| kind_audio : dtype d = DOCUMENT_TYPE_AUDIO -> kind_attribute d
    [tl_documentAttributeAudio (audio_voice d) (audio_duration d) (audio_title d) (audio_perfomer d) (audio_waveform d)].
Inductive media_of (d : tg_document_t) (file : list Z) : list Z -> Prop :=
| media_photo : dtype d = DOCUMENT_TYPE_PHOTO ->
    media_of d file (tl_inputMediaUploadedPhoto (spoiler d) file (stickers d) (ttl_seconds d))
| media_document name kind : name_attribute d name -> kind_attribute d kind ->
    media_of d file (tl_inputMediaUploadedDocument (no_sound_video d) (force_file d) (spoiler d) file (mime_type d)
      (name ++ (if has_stickers d then [tl_documentAttributeHasStickers] else []) ++ kind) (stickers d) (ttl_seconds d)).

Lemma document_media_of d file : media_of d file (document_media d file).
Proof.
  unfold document_media, document_attributes.
  assert (Hn : name_attribute d (if bool_decide (filename d = []) then [] else [tl_documentAttributeFilename (filename d)]))
    by (case_bool_decide; by constructor).
  destruct (dtype d) eqn:Ed; constructor; try done; by constructor.
Qed.

(** C32: a file of up to ten megabytes is sent.  When the server accepts
    every part and answers the message, it is asked to save the pieces of
    half a megabyte of the file under consecutive numbers, and then to send
    the message with the media of the document's kind: a photo, or a
    document with its attributes, made of a file of that number of parts,
    the name and the hexadecimal text of the MD5 sum of the contents; the
    updates it answers are handed on.  (The library is one whose [sprintf]
    appends when its destination is its first argument: the code relies on
    it, the C standard leaves it undefined.) *)
Theorem tg_document_send_delivers fuel peer d message (progress : option progress_t) file (s : client U) :
  let id := le_num (rand_bytes (wall (reads s)) 8) in
  let rid := le_num (rand_bytes (wall (S (reads s))) 8) in
  let parts := split_by part_size file in
  let queries := part_queries (tl_upload_saveFilePart id) 0 parts in
  let send media := tl_messages_sendMedia (tg_inputPeer peer) media (default [] message) rid in
  (forall s t, sprintf_self s t = s ++ t) ->
  filepath d <> [] -> fopen (filepath d) = Some file -> bytes_ok file -> zlen file <= 10485760 ->
  fits part_size -> fits (zlen file) -> accepts (tl_upload_saveFilePart id) -> (22 <= fuel)%nat ->
  (forall media, exists tl, answer (asked s ++ queries ++ [send media]) = Some tl) ->
  exists s' tl text media, tg_document_send fuel peer d message progress s = Ok (0, s') /\
    hex_text (MD5 file) text /\ media_of d (tl_inputFile id (Z.of_nat (length parts)) (filename d) text) media /\
    asked s' = asked s ++ queries ++ [send media] /\ mjoin parts = file /\
    answer (asked s') = Some tl /\ did s' = did s ++ [Do_updates tl].
Proof.
  intros id rid parts queries send Hself Hd Ho Hb Hl Hfp Hff Ha Hfuel Hans.
  pose proof (zlen_nonneg file) as Hnn. pose proof platform_bounds as Hplat.
  assert (Hlen : Z.of_nat (length parts) <= 21).
  { pose proof (length_split_by part_size ltac:(done) file) as L. fold parts in L.
    assert (zlen file / part_size <= 20) by (unfold part_size; modlia). lia. }
  unfold tg_document_send. rewrite bool_decide_false by done. erewrite bind_lift by reflexivity.
  rewrite Ho, (i32_small (zlen file)) by lia. replace (10485760 <? zlen file) with false by lia.
  pose proof (rand8 s) as E1. apply bind_inv in E1 as (b1 & s1 & E1 & E1'). 
  rewrite (bind_eq _ _ _ _ _ E1), (bind_eq _ _ _ _ _ E1'). fold id.
  rewrite (bind_lift _ _ _ _ buf_init_ok).
  unfold save_small. destruct (parts_buffer Hfp) as (pb & Epb & Hpb).
  destruct fuel as [|fuel]; [lia |].
  destruct (save_parts_ok fuel (tl_upload_saveFilePart id) (zlen file) progress Ha (S fuel) (read_clock s) 0 file pb []
    Hpb Hb) as (s2 & E2 & Es2 & Er2 & Ed2); try (fold parts; lia).
  { change (zlen []) with 0. by rewrite Z.add_0_l. }
  erewrite bind_eq.
  2: { rewrite (bind_lift _ _ _ _ buf_init_ok), (bind_lift _ _ _ _ Epb). exact E2. }
  rewrite Z.add_0_l, app_nil_l. fold parts. fold parts in Es2. fold queries in Es2. cbv iota beta.
  change (b_size (fresh file)) with (zlen file). rewrite (bind_lift _ _ _ _ (load_fresh file Hb Hff)).
  set (text := md5_hex (MD5 file)). set (media := document_media d _).
  pose proof (rand8 s2) as E3. apply bind_inv in E3 as (b3 & s3 & E3 & E3').
  rewrite (bind_eq _ _ _ _ _ E3), (bind_eq _ _ _ _ _ E3').
  rewrite Er2. fold rid. change (le_num _) with rid. change (tl_messages_sendMedia _ _ _ _) with (send media).
  rewrite (bind_eq _ _ _ _ _ (send_query_ok _ _)). cbn [asked read_clock]. rewrite Es2. cbn [asked read_clock].
  rewrite <- app_assoc. destruct (Hans media) as (tl & Htl). rewrite Htl.
  eexists _, tl, text, media. split; [reflexivity |].
  split; [by apply md5_hex_text, MD5_bytes |]. split; [apply document_media_of |].
  assert (Ea : asked (ask (send media) (in_session (read_clock s2))) = asked s ++ queries ++ [send media])
    by (cbn; rewrite Es2; cbn; by rewrite <- app_assoc).
  cbn [asked does did ask read_clock in_session set_conn] in *. rewrite Ea, Ed2. split_and!; try done.
  by apply split_by_concat.
Qed.

(** a file of more than ten megabytes (and less than two gigabytes) is
    never sent: the query with its first part is released before it is
    handed to [tg_send_query]. *)
Theorem tg_document_send_big_freed fuel peer d message (progress : option progress_t) file (s : client U) :
  filepath d <> [] -> filename d <> [] -> fopen (filepath d) = Some file -> bytes_ok file ->
  10485760 < zlen file < 2147483648 -> fits part_size -> (0 < fuel)%nat ->
  tg_document_send fuel peer d message progress s = Err UseAfterFree.
Proof.
  intros Hd Hn Ho Hb Hl Hfp Hfuel. unfold tg_document_send.
  rewrite bool_decide_false by done. erewrite bind_lift by reflexivity. rewrite Ho, (i32_small (zlen file)) by lia.
  replace (10485760 <? zlen file) with true by lia.
  pose proof (rand8 s) as E1. apply bind_inv in E1 as (b1 & s1 & E1 & E1').
  rewrite (bind_eq _ _ _ _ _ E1), (bind_eq _ _ _ _ _ E1'), (bind_lift _ _ _ _ buf_init_ok).
  apply bind_err. unfold save_big. rewrite bool_decide_false by done.
  destruct (parts_buffer Hfp) as (pb & Epb & Hpb).
  rewrite (bind_lift _ _ _ _ buf_init_ok), (bind_lift _ _ _ _ Epb).
  destruct fuel as [|fuel]; [lia |]. cbn [save_parts].
  set (c := take (Z.to_nat part_size) file).
  assert (Lc : zlen c = part_size) by (unfold c; rewrite zlen_take by done; unfold part_size; lia).
  replace (zlen c =? 0) with false by (rewrite Lc; done).
  assert (Bc : bytes_ok c) by (by apply Forall_take).
  destruct (fread_into_ok pb c Hpb Bc ltac:(lia)) as (b' & Eb & Hp' & Cb & Sb).
  rewrite (bind_lift _ _ _ _ Eb).
  assert (Ec : buf_cat (fresh []) b' = Ok (fresh ([] ++ c))).
  { rewrite buf_cat_ok by (apply Hp' || (rewrite Sb, Lc; exact Hfp)). by rewrite Cb. }
  rewrite (bind_lift _ _ _ _ Ec). apply bind_err. reflexivity.
Qed.

(** A part the server refuses is sent for ever: no number of attempts ends
    the loop. *)
Lemma save_part_refused (Q : Z -> list Z -> list Z) k bs :
  (forall before tl, answer (before ++ [Q k bs]) = Some tl -> obj tl <> BoolTrue) ->
  forall fuel (s : client U), save_part fuel (Some (Q k bs)) s = Err NoFuel.
Proof.
  intros Ha. induction fuel as [|fuel IH]; intros s; [done |]. cbn [save_part].
  rewrite (bind_eq _ _ _ _ _ (send_query_ok _ s)). specialize (Ha (asked s)). destruct (answer _) as [tl|]; [| apply IH].
  specialize (Ha tl eq_refl). destruct (obj tl); done || apply IH.
Qed.
End FilesFacts.

(** the download of a photo has undefined behaviour before its first
    request: the size is not known, it is passed as zero, and the line that
    prints the percentage divides by it. *)
Theorem tg_get_peer_photo_file_divides `{Env} `{Server} `{Schema} fuel ip peer big id s :
  (0 < fuel)%nat -> zlen ip < 128 -> tg_get_peer_photo_file fuel ip peer big id s = Err DivByZero.
Proof.
  intros Hf Hip. unfold tg_get_peer_photo_file, get_photo. erewrite bind_eq by reflexivity.
  apply bind_err. unfold tg_get_file, tg_get_file_with_progress. replace (zlen ip <? 128) with true by lia.
  erewrite bind_lift by reflexivity. destruct fuel as [|fuel]; [lia |]. reflexivity.
Qed.
