(* ===== verification/Srp.v ===== *)
(** * The password of an account: libtg/crypto/pbkdf2.c, libtg/tg/2fa.c

    The key derivation of the Apple build (HMAC by HMAC) and the client of
    the Secure Remote Password protocol. *)
From S2P Require Import Prelude TlBuf Serial HashCommon Tg Packet Mtx Objects Service Sql Database.

(** HMAC-SHA512 of OpenSSL: key, message. *)
Class Hmac := {
  HMAC_SHA512 : list Z -> list Z -> list Z;
  HMAC_SHA512_length : forall k m, zlen (HMAC_SHA512 k m) = 64;
  HMAC_SHA512_bytes : forall k m, bytes_ok (HMAC_SHA512 k m)
}.

Section Srp.
Context `{Env} `{OpenSSL} `{BigNum} `{Hmac} `{Server} `{Schema} `{Sqlite} {U : Type}.

(** ** pbkdf2.c, the branch for [__APPLE__] *)
(** [for (iter = 1; ...) { HMAC(..., buf, hash_size, buf); dest ^= buf; }] *)
Fixpoint pbkdf2_loop (n : nat) (password : list Z) (dest buf : list Z) : res (list Z) :=
  match n with
  | O => Ok dest
  | S n =>
      let buf := HMAC_SHA512 password buf in
      dest ← fill_loop 64 0 dest 0 (fun i => x ← rd dest i; y ← rd buf i; Ok (Z.lxor x y));
      pbkdf2_loop n password dest buf
  end.

Definition tg_pbkdf2_sha512 (password salt : buf_t) (iteration_count : Z) : res buf_t :=
  _ ← guard_res (0 <? iteration_count) AssertFailed;
  let hash_size := 64 in
  dest ← buf_new;
  pw ← load password (b_size password);
  sl ← load salt (b_size salt);
  let counter := [0; 0; 0; 1] in
  dest ← store dest (HMAC_SHA512 pw (sl ++ counter));
  let dest := set_size dest hash_size in
  if 1 <? iteration_count then
    buf ← load dest (b_size dest);
    m ← pbkdf2_loop (Z.to_nat (iteration_count - 1)) pw buf buf;
    dest ← store dest m;
    Ok (set_size dest hash_size)
  else Ok (set_size dest hash_size).

(** ** 2fa.c *)
(** [SH(data, salt) := H(salt | data | salt)] *)
Definition SH (data salt : buf_t) : res buf_t :=
  _buf ← buf_new;
  _buf ← buf_cat _buf salt;
  _buf ← buf_cat _buf data;
  _buf ← buf_cat _buf salt;
  tg_hsh_sha256 _buf.

Definition buf_new_bufs (a b : buf_t) : res buf_t := c ← buf_add_buf a; buf_cat c b.

Definition buf_concat_sha256 (b1 b2 : buf_t) : res buf_t := b ← buf_new_bufs b1 b2; tg_hsh_sha256 b.

Definition BN_bn2bin_size (a exact_size : Z) : res buf_t :=
  _ ← guard_res (exact_size <=? BUFSIZ) AssertFailed;
  let num_size := zlen (bn2bin a) in
  exact_size ← (if exact_size =? -1 then Ok num_size
                else _ ← guard_res (num_size <=? exact_size) AssertFailed; Ok exact_size);
  res ← buf_new;
  m ← copy_loop (Z.to_nat num_size) 0 (b_mem res) (fun i => b_off res + (exact_size - num_size) + i) (bn2bin a);
  Ok (set_size (set_mem res m) exact_size).

(** [BN_bin2bn] of the contents of a buffer. *)
Definition BN_of (b : buf_t) : res Z := m ← load b (b_size b); Ok (bin2bn m).

(** [assert(BN_mod_exp(...))] *)
Definition BN_mod_exp (g e m : Z) : res Z := _ ← guard_res (negb (m =? 0)) AssertFailed; Ok (mod_exp g e m).

Definition tg_calc_password_hash (password : list Z) (salt1 salt2 : buf_t) : res buf_t :=
  pas ← buf_add password (zlen password);
  buf1 ← SH pas salt1;
  buf2 ← SH buf1 salt2;
  buf3 ← tg_pbkdf2_sha512 buf2 salt1 100000;
  SH buf3 salt2.

(** [M1 := H(H(p) xor H(g) | H(salt1) | H(salt2) | g_a | g_b | K)], [K := H(S)]. *)
Definition srp_M1 (p g_padded salt1 salt2 A B S : buf_t) : res buf_t :=
  K ← tg_hsh_sha256 S;
  h1 ← tg_hsh_sha256 p;
  h2 ← tg_hsh_sha256 g_padded;
  xor ← buf_xor h1 h2;
  salt1_hash ← tg_hsh_sha256 salt1;
  salt2_hash ← tg_hsh_sha256 salt2;
  M1_ ← buf_new;
  M1_ ← buf_cat M1_ xor;
  M1_ ← buf_cat M1_ salt1_hash;
  M1_ ← buf_cat M1_ salt2_hash;
  M1_ ← buf_cat M1_ A;
  M1_ ← buf_cat M1_ B;
  M1_ ← buf_cat M1_ K;
  tg_hsh_sha256 M1_.

(** The bytes of the [InputCheckPasswordSRP]; none for an invalid [B]. *)
Definition tg_get_inputCheckPasswordSRP (password : list Z) (salt1 salt2 : buf_t) (g : Z) (p B : buf_t) (id : Z)
  : F U (list Z) :=
  p_bn ← lift (BN_of p);
  B_bn ← lift (BN_of B);
  if negb (0 <? B_bn) || negb (B_bn <? p_bn) || negb (b_size B =? 256) then mret []
  else
    g_padded ← lift (BN_bn2bin_size g 256);
    x ← lift (tg_calc_password_hash password salt1 salt2);
    x_bn ← lift (BN_of x);
    a ← rand_buf (2048 / 8);
    a_bn ← lift (BN_of a);
    A_bn ← lift (BN_mod_exp g a_bn p_bn);
    A ← lift (BN_bn2bin_size A_bn 256);
    u ← lift (buf_concat_sha256 A B);
    u_bn ← lift (BN_of u);
    k ← lift (buf_concat_sha256 p g_padded);
    k_bn ← lift (BN_of k);
    v_bn ← lift (BN_mod_exp g x_bn p_bn);
    let kv_bn := (k_bn * v_bn) mod p_bn in
    let t_bn := B_bn - kv_bn in
    let t_bn := if t_bn <? 0 then t_bn + p_bn else t_bn in
    let exp_bn := u_bn * x_bn + a_bn in
    S_bn ← lift (BN_mod_exp t_bn exp_bn p_bn);
    S ← lift (BN_bn2bin_size S_bn 256);
    M1 ← lift (srp_M1 p g_padded salt1 salt2 A B S);
    mret (tl_inputCheckPasswordSRP id (contents A) (contents M1)).

(** [account.password], or NULL. *)
Definition tg_account_getPassword : F U (option tl_t) :=
  tl ← tg_send_query (Some tl_account_getPassword);
  match tl with
  | None => mret None
  | Some tl => match obj tl with Account_password _ _ _ => mret (Some tl) | _ => mret None end
  end.

(** The user, or NULL. *)
Definition tg_auth_check_password (password : list Z) : F U (option tl_t) :=
  account_password ← tg_account_getPassword;
  match account_password with
  | None => mret None
  | Some account =>
      match obj account with
      | Account_password algo srp_B_ srp_id_ =>
          match algo with
          | None => fail NullDeref
          | Some algo =>
              match obj algo with
              | PasswordKdfAlgoModPow salt1_ salt2_ g_ p_ =>
                  srp ← tg_get_inputCheckPasswordSRP password salt1_ salt2_ g_ p_ srp_B_ srp_id_;
                  if bool_decide (srp = []) then mret None
                  else
                    tl ← tg_send_query (Some (tl_auth_checkPassword srp));
                    match tl with
                    | None => mret None
                    | Some tl =>
                        match obj tl with
                        | Auth_authorization _ _ user_ =>
                            c ← gets conn;
                            _ ← auth_key_to_database (c_key c);
                            _ ← ip_address_to_database (c_ip c);
                            mret user_
                        | _ => mret None
                        end
                    end
              | _ => mret None
              end
          end
      | _ => mret None
      end
  end.
End Srp.
