(* ===== verification/SrpFacts.v ===== *)
(** * The password check agrees with the server

    PBKDF2 as RFC 8018 defines it, the password hash, and the two sides of
    the protocol: the client's proof is the one the server computes. *)
From Stdlib Require Import Zpow_facts.
From S2P Require Import Prelude TlBuf Serial HashCommon Tg Packet Mtx MtxFacts Objects Service Sql Database DatabaseFacts Srp.

Section SrpFacts.
Context `{Env} `{OpenSSL} `{BigNum} `{Hmac} `{Server} `{Schema} `{Sqlite} {U : Type}.

(** ** PBKDF2 *)
(** RFC 8018, 5.2, for a key of one block:
    [U_1 = PRF (P, S || INT (1))], [U_i = PRF (P, U_{i-1})],
    [T_1 = U_1 xor ... xor U_c]. *)
Fixpoint prf (P S : list Z) (n : nat) : list Z :=
  match n with
  | O => HMAC_SHA512 P (S ++ be_bytes 4 1)
  | S n => HMAC_SHA512 P (prf P S n)
  end.
Fixpoint xor_prf (P S : list Z) (n : nat) : list Z :=
  match n with O => prf P S 0 | S n => xor_bytes (xor_prf P S n) (prf P S (Datatypes.S n)) end.
Definition pbkdf2 (P S : list Z) (c : Z) : list Z := xor_prf P S (Z.to_nat (c - 1)).

Lemma zlen_prf P S n : zlen (prf P S n) = 64 /\ bytes_ok (prf P S n).
Proof. destruct n; split; apply HMAC_SHA512_length || apply HMAC_SHA512_bytes. Qed.

Lemma xor_bytes_ok a b : bytes_ok a -> bytes_ok b -> bytes_ok (xor_bytes a b).
Proof.
  intros Ha. revert b. induction Ha as [|x a Hx Ha IH]; intros b Hb; [constructor |].
  destruct Hb as [|y b Hy Hb]; [constructor |]. constructor; [| by apply IH].
  unfold is_byte in *. split; [by apply Z.lxor_nonneg; split; lia |].
  assert (E : Z.lxor x y = Z.land (Z.lxor x y) 255).
  { symmetry. change 255 with (Z.ones 8). rewrite Z.land_ones by done. apply Z.mod_small. split; [apply Z.lxor_nonneg; split; lia |].
    destruct (Z.eq_dec (Z.lxor x y) 0) as [-> | Hn]; [done |].
    apply Z.log2_lt_pow2; [assert (0 <= Z.lxor x y) by (apply Z.lxor_nonneg; split; lia); lia |].
    eapply Z.le_lt_trans; [apply Z.log2_lxor; lia |].
    apply Z.max_lub_lt; [destruct (Z.eq_dec x 0) as [-> | ] | destruct (Z.eq_dec y 0) as [-> | ]]; try done;
      apply Z.log2_lt_pow2; lia. }
  change 255 with (Z.ones 8) in E. rewrite Z.land_ones in E by done. rewrite E. apply Z.mod_pos_bound. done.
Qed.

Lemma zlen_xor_bytes a b : zlen a = zlen b -> zlen (xor_bytes a b) = zlen a.
Proof. intros Hl. unfold zlen, xor_bytes in *. rewrite length_zip_with. lia. Qed.

Lemma zlen_xor_prf P S n : zlen (xor_prf P S n) = 64 /\ bytes_ok (xor_prf P S n).
Proof.
  induction n as [|n [IH1 IH2]]; [apply (zlen_prf P S 0) |]. cbn [xor_prf]. destruct (zlen_prf P S (Datatypes.S n)) as [L B].
  split; [rewrite zlen_xor_bytes by (by rewrite IH1, L); done | by apply xor_bytes_ok].
Qed.

(** In place: every entry is read before it is written. *)
Lemma xor_in_place a b : zlen a = 64 -> zlen b = 64 ->
  fill_loop 64 0 a 0 (fun i => x ← rd a i; y ← rd b i; Ok (Z.lxor x y)) = Ok (xor_bytes a b).
Proof.
  intros La Lb. assert (Lx : zlen (xor_bytes a b) = 64) by (rewrite zlen_xor_bytes; lia).
  rewrite (fill_loop_ok _ _ _ _ _ (xor_bytes a b)); [| done | done | unfold zlen in Lx; lia | | rewrite La; done].
  - rewrite splice_0, drop_ge, app_nil_r; [done | unfold zlen in *; lia].
  - intros j x Hx. unfold xor_bytes in Hx. apply lookup_zip_with_Some in Hx as (u & v & -> & Hu & Hv).
    rewrite Z.add_0_l. unfold rd.
    assert (Hj : (0 <=? Z.of_nat j) = true) by apply Z.leb_le, Nat2Z.is_nonneg.
    by rewrite Hj, Nat2Z.id, Hu, Hv.
Qed.

Lemma pbkdf2_loop_ok P S n : forall i,
  pbkdf2_loop n P (xor_prf P S i) (prf P S i) = Ok (xor_prf P S (i + n)).
Proof.
  induction n as [|n IH]; intros i; cbn [pbkdf2_loop]; [by rewrite Nat.add_0_r |].
  rewrite xor_in_place by (apply zlen_xor_prf || apply HMAC_SHA512_length). rewrite res_bind_ok.
  change (HMAC_SHA512 P (prf P S i)) with (prf P S (Datatypes.S i)).
  change (xor_bytes (xor_prf P S i) _) with (xor_prf P S (Datatypes.S i)). rewrite IH. do 2 f_equal. lia.
Qed.

(** Overwriting a buffer of the same length. *)
Lemma store_over a b : zlen a = zlen b -> zlen b <= BUFSIZ -> store (fresh a) b = Ok (fresh b).
Proof.
  intros Hl Hb. platform. pose proof (zlen_nonneg b). unfold store, fresh. rewrite Hl, Z.max_l by lia.
  unfold mk_buf. cbn [b_mem b_off].
  rewrite (copy_loop_ok _ _ _ _ 0) by (unfold zlen in *; try intros; rewrite ?length_app, ?length_replicate; lia).
  rewrite res_bind_ok, Z.add_0_l, splice_0. unfold set_mem. cbn [b_off b_size b_asize].
  assert (Es : slice b 0 (Z.of_nat (length b)) = b) by (by apply slice_all). rewrite Es.
  assert (El : length a = length b) by (unfold zlen in *; lia). rewrite <- El at 1.
  by rewrite drop_app_length, El, Hl.
Qed.

Lemma pbkdf2_ok password salt c :
  buf_wf password -> buf_wf salt -> 0 < c ->
  tg_pbkdf2_sha512 password salt c = Ok (fresh (pbkdf2 (contents password) (contents salt) c)).
Proof.
  intros Hp Hs Hc. platform. unfold tg_pbkdf2_sha512, pbkdf2. set (P := contents password). set (S := contents salt).
  replace (0 <? c) with true by lia. cbn [guard_res]. rewrite res_bind_ok.
  unfold buf_new. rewrite buf_init_ok, res_bind_ok, !load_ok, !res_bind_ok by done. fold P S.
  destruct (zlen_xor_prf P S 0) as [L0 B0]. change (HMAC_SHA512 P (S ++ [0; 0; 0; 1])) with (xor_prf P S 0).
  pose proof (store_fresh (xor_prf P S 0) ltac:(rewrite L0; lia)) as E. rewrite L0 in E.
  apply res_bind_inv in E as (h & Eh & E). assert (E' : set_size h 64 = fresh (xor_prf P S 0)) by congruence.
  rewrite Eh, res_bind_ok, E'.
  destruct (Z.ltb_spec 1 c) as [Hc1 | Hc1].
  - change (b_size (fresh (xor_prf P S 0))) with (zlen (xor_prf P S 0)).
    assert (Hw : buf_wf (fresh (xor_prf P S 0))) by (apply fresh_wf; [done | rewrite L0; blia]).
    pose proof (load_ok _ Hw) as El. change (b_size (fresh (xor_prf P S 0))) with (zlen (xor_prf P S 0)) in El.
    rewrite El, contents_fresh, res_bind_ok.
    change (xor_prf P S 0) with (prf P S 0) at 2. rewrite (pbkdf2_loop_ok P S _ 0), res_bind_ok.
    destruct (zlen_xor_prf P S (0 + Z.to_nat (c - 1))) as [L1 B1].
    rewrite store_over, res_bind_ok by (rewrite ?L0, ?L1; lia).
    cbn [Nat.add] in *. unfold set_size. f_equal. unfold fresh, mk_buf. cbn [b_mem b_off b_asize]. by rewrite L1.
  - replace c with 1 by lia. change (xor_prf P S (Z.to_nat (1 - 1))) with (xor_prf P S 0).
    f_equal. unfold set_size, fresh, mk_buf. cbn [b_mem b_off b_asize]. by rewrite L0.
Qed.

(** ** The password hash *)
Definition salted (data salt : list Z) : list Z := SHA256 (salt ++ data ++ salt).
Definition password_hash (password salt1 salt2 : list Z) : list Z :=
  salted (pbkdf2 (salted (salted password salt1) salt2) salt1 100000) salt2.

Lemma SH_ok d data salt :
  d = fresh data -> bytes_ok data -> fits (zlen data) -> buf_wf salt -> fits (2 * b_size salt + zlen data) ->
  SH d salt = Ok (fresh (salted data (contents salt))).
Proof.
  intros -> Hb Hf Hs Hfit. pose proof (zlen_contents salt Hs) as L. pose proof (zlen_nonneg data).
  pose proof (contents_ok salt Hs) as Bs. assert (0 <= b_size salt) by apply Hs.
  assert (Hd : buf_wf (fresh data)) by (by apply fresh_wf).
  unfold SH, buf_new. rewrite buf_init_ok, res_bind_ok.
  rewrite buf_cat_ok, res_bind_ok by (done || (change (zlen []) with 0; unfold fits in *; lia)).
  rewrite app_nil_l, buf_cat_fresh, res_bind_ok by (done || (rewrite L; unfold fits in *; lia)).
  rewrite buf_cat_ok, res_bind_ok by (done || (rewrite zlen_app, L; unfold fits in *; lia)).
  rewrite <- app_assoc. apply hsh_sha256_fresh.
  - by repeat apply Forall_app_2.
  - rewrite !zlen_app, L. unfold fits in *. lia.
Qed.

Lemma password_hash_ok password salt1 salt2 :
  bytes_ok password -> fits (2 * b_size salt1 + zlen password) -> buf_wf salt1 -> buf_wf salt2 ->
  b_size salt1 <= 1024 -> b_size salt2 <= 1024 -> fits 4096 ->
  tg_calc_password_hash password salt1 salt2 = Ok (fresh (password_hash password (contents salt1) (contents salt2))).
Proof.
  intros Hb Hf H1' H2' Hs1 Hs2 Hbig. unfold tg_calc_password_hash. pose proof (zlen_nonneg password).
  assert (0 <= b_size salt1) by apply H1'.
  assert (Hp : fits (zlen password)) by (unfold fits in *; lia).
  rewrite buf_add_all, res_bind_ok by done.
  assert (Hh : forall d s, zlen (salted d s) = 32 /\ bytes_ok (salted d s)) by (intros; split; apply SHA256_length || apply SHA256_bytes).
  assert (Hfit : forall d s, fits (zlen (salted d s))) by (intros d s; rewrite (proj1 (Hh d s)); platform; lia).
  rewrite (SH_ok _ password), res_bind_ok by done.
  rewrite (SH_ok _ (salted password (contents salt1))), res_bind_ok;
    [| done | apply Hh | apply Hfit | done | rewrite (proj1 (Hh _ _)); unfold fits in *; lia].
  rewrite pbkdf2_ok, res_bind_ok; [| apply fresh_wf; [apply Hh | apply Hfit] | done | done].
  rewrite contents_fresh. destruct (zlen_xor_prf (salted (salted password (contents salt1)) (contents salt2)) (contents salt1)
    (Z.to_nat (100000 - 1))) as [Lp Bp].
  apply SH_ok; [done | exact Bp | unfold pbkdf2; rewrite Lp; platform; lia | done |].
  unfold pbkdf2. rewrite Lp. unfold fits in *. lia.
Qed.

(** ** Numbers of 256 bytes *)
Definition padded (z : Z) : list Z := replicate (256 - length (bn2bin z)) 0 ++ bn2bin z.

Lemma rev_zeros n : rev (replicate n 0) = replicate n (0 : Z).
Proof. rewrite rev_alt. exact (reverse_replicate n 0). Qed.

Lemma padded_facts z : 0 <= z < 256 ^ 256 ->
  zlen (bn2bin z) <= 256 /\ zlen (padded z) = 256 /\ bytes_ok (padded z) /\ be_num (padded z) = z.
Proof.
  intros Hz. pose proof (bn2bin_short z 256 Hz ltac:(done)) as Hl. split; [done |].
  unfold padded. split; [| split].
  - rewrite zlen_app, zlen_replicate. unfold zlen in *. lia.
  - apply Forall_app_2; [| apply bn2bin_bytes]. by apply Forall_replicate.
  - unfold be_num. rewrite rev_app_distr, le_num_app, rev_zeros, le_num_zeros, Z.mul_0_r, Z.add_0_r.
    apply bn2bin_num. lia.
Qed.

Lemma bn_size_ok z : 0 <= z < 256 ^ 256 -> BN_bn2bin_size z 256 = Ok (fresh (padded z)).
Proof.
  intros Hz. destruct (padded_facts z Hz) as (Hl & Hp & _). platform. pose proof (zlen_nonneg (bn2bin z)).
  unfold BN_bn2bin_size. replace (256 <=? BUFSIZ) with true by lia. cbn [guard_res]. rewrite res_bind_ok.
  change (256 =? -1) with false. cbv iota. replace (zlen (bn2bin z) <=? 256) with true by lia. cbn [guard_res].
  rewrite !res_bind_ok. unfold buf_new. rewrite buf_init_ok, res_bind_ok.
  set (n := zlen (bn2bin z)) in *.
  assert (En : Z.to_nat n = length (bn2bin z)) by (unfold n, zlen; lia).
  assert (Em : b_mem (fresh []) = replicate (Z.to_nat (256 - n)) 0 ++
    replicate (Z.to_nat n) 0 ++ replicate (Z.to_nat (BUFSIZ + 1 - 256)) 0).
  { unfold fresh, mk_buf. cbn [b_mem app length]. change (zlen []) with 0. rewrite Z.max_l by lia.
    rewrite <- !replicate_add. f_equal. lia. }
  rewrite (copy_loop_ok _ _ _ _ (256 - n)); [| intros; cbn [b_off fresh mk_buf]; lia | lia | lia | unfold n; lia |
    rewrite Em, !zlen_app, !zlen_replicate; lia].
  rewrite res_bind_ok, Z.add_0_r, Em. replace (slice (bn2bin z) 0 (Z.of_nat (Z.to_nat n))) with (bn2bin z)
    by (symmetry; apply slice_all; unfold n; lia).
  unfold splice. rewrite take_app_length' by (by rewrite length_replicate).
  assert (Ed : drop (Z.to_nat (256 - n) + length (bn2bin z)) (replicate (Z.to_nat (256 - n)) 0 ++ replicate (Z.to_nat n) 0 ++
    replicate (Z.to_nat (BUFSIZ + 1 - 256)) 0) = replicate (Z.to_nat (BUFSIZ + 1 - 256)) (0 : Z)).
  { rewrite app_assoc. apply drop_app_length'. rewrite length_app, !length_replicate. lia. }
  rewrite Ed. unfold set_size, set_mem, fresh. cbn [b_off b_size b_asize mk_buf]. unfold mk_buf. rewrite Hp.
  change (zlen []) with 0. rewrite !Z.max_l by lia. f_equal. f_equal.
  unfold padded. rewrite <- app_assoc.
  assert (E1 : Z.to_nat (256 - n) = (256 - length (bn2bin z))%nat) by lia. rewrite E1. cbn [b_mem]. do 4 f_equal.
  rewrite length_app, length_replicate. lia.
Qed.

Lemma BN_of_ok b : buf_wf b -> BN_of b = Ok (be_num (contents b)).
Proof.
  intros Hw. unfold BN_of. rewrite load_ok, res_bind_ok by done. by rewrite bin2bn_num by (by apply contents_ok).
Qed.
Lemma BN_of_fresh l : bytes_ok l -> fits (zlen l) -> BN_of (fresh l) = Ok (be_num l).
Proof. intros. by rewrite BN_of_ok, contents_fresh by (by apply fresh_wf). Qed.

Lemma BN_mod_exp_ok g e m : 0 <= g -> 0 <= e -> 0 < m -> BN_mod_exp g e m = Ok (g ^ e mod m).
Proof.
  intros. unfold BN_mod_exp. replace (m =? 0) with false by lia. cbn [negb guard_res].
  rewrite res_bind_ok. by rewrite mod_exp_num.
Qed.

Lemma concat_sha_ok a b : buf_wf a -> buf_wf b -> fits (b_size a + b_size b) ->
  buf_concat_sha256 a b = Ok (fresh (SHA256 (contents a ++ contents b))).
Proof.
  intros Ha Hb Hf. pose proof (zlen_contents b Hb) as Lb. pose proof (zlen_contents a Ha) as La.
  unfold buf_concat_sha256, buf_new_bufs.
  rewrite (buf_add_buf_ok _ Ha), res_bind_ok, buf_cat_ok, res_bind_ok by (done || by rewrite La).
  apply hsh_sha256_fresh; [apply Forall_app_2; by apply contents_ok | by rewrite zlen_app, La, Lb].
Qed.

(** ** The algebra *)
Lemma mod_pow_mod a n m : 0 < m -> (a mod m) ^ n mod m = a ^ n mod m.
Proof.
  intros Hm. destruct (Z.le_gt_cases 0 n); [symmetry; by apply Zpower_mod | by rewrite !Z.pow_neg_r].
Qed.

Lemma base_recovered k v e P :
  0 < P -> 
  let t := (k * v + e) mod P - (k * v) mod P in
  (if t <? 0 then t + P else t) = e mod P.
Proof.
  intros HP t. pose proof (Z.mod_pos_bound (k * v + e) P HP). pose proof (Z.mod_pos_bound (k * v) P HP).
  assert (Et : t mod P = e mod P).
  { unfold t. rewrite <- Zminus_mod. f_equal. lia. }
  rewrite <- Et. destruct (Z.ltb_spec t 0).
  - symmetry. rewrite <- (Z.mod_add t 1 P), Z.mul_1_l by lia. apply Z.mod_small. unfold t in *. lia.
  - symmetry. apply Z.mod_small. unfold t in *. lia.
Qed.

Lemma secrets_agree g a b x u P :
  0 < P -> 0 <= a -> 0 <= b -> 0 <= x -> 0 <= u ->
  (g ^ b mod P) ^ (u * x + a) mod P = (g ^ a mod P * (g ^ x mod P) ^ u) ^ b mod P.
Proof.
  intros HP Ha Hb Hx Hu. rewrite mod_pow_mod by done.
  rewrite <- (mod_pow_mod (g ^ a mod P * _)) by done.
  rewrite Zmult_mod_idemp_l. rewrite <- (Zmult_mod_idemp_r ((g ^ x mod P) ^ u)), (mod_pow_mod (g ^ x) u) by done.
  rewrite Zmult_mod_idemp_r, mod_pow_mod by done.
  rewrite <- !Z.pow_mul_r, <- Z.pow_add_r, <- Z.pow_mul_r by lia. f_equal. f_equal. lia.
Qed.

(** ** The two sides *)
Section Sides.
Variables (password salt1 salt2 p : list Z) (g : Z).
Let P := be_num p.

Definition srp_x : Z := be_num (password_hash password salt1 salt2).
Definition srp_k : Z := be_num (SHA256 (p ++ padded g)).
(** What the server has stored, and what it sends for its secret [b]. *)
Definition verifier : Z := g ^ srp_x mod P.
Definition server_B (b : Z) : Z := (srp_k * verifier + g ^ b) mod P.
(** The secret it computes from the client's [A], and the proof it expects. *)
Definition srp_u (A B : list Z) : Z := be_num (SHA256 (A ++ B)).
Definition server_S (A b : Z) : Z := (A * verifier ^ srp_u (padded A) (padded (server_B b))) ^ b mod P.
Definition proof (A B S : Z) : list Z :=
  SHA256 (xor_bytes (SHA256 p) (SHA256 (padded g)) ++ SHA256 salt1 ++ SHA256 salt2 ++ padded A ++ padded B ++
          SHA256 (padded S)).
End Sides.

Lemma sha_facts l : zlen (SHA256 l) = 32 /\ bytes_ok (SHA256 l) /\ buf_wf (fresh (SHA256 l)) /\ 0 <= be_num (SHA256 l).
Proof.
  platform. split_and!; [apply SHA256_length | apply SHA256_bytes | | apply be_num_nonneg, SHA256_bytes].
  apply fresh_wf; [apply SHA256_bytes | rewrite SHA256_length; unfold fits; lia].
Qed.

(** The last steps: the proof from the hashes. *)
Lemma proof_ok x h1 h2 A B K :
  bytes_ok x -> bytes_ok h1 -> bytes_ok h2 -> bytes_ok A -> buf_wf B -> bytes_ok K ->
  zlen x = 32 -> zlen h1 = 32 -> zlen h2 = 32 -> zlen A = 256 -> b_size B = 256 -> zlen K = 32 -> fits 4096 ->
  (m ← buf_new; m ← buf_cat m (fresh x); m ← buf_cat m (fresh h1); m ← buf_cat m (fresh h2);
   m ← buf_cat m (fresh A); m ← buf_cat m B; m ← buf_cat m (fresh K); tg_hsh_sha256 m) =
  Ok (fresh (SHA256 (x ++ h1 ++ h2 ++ A ++ contents B ++ K))).
Proof.
  intros Bx B1 B2 BA WB BK Lx L1 L2 LA LB LK Hf. unfold fits in Hf. pose proof (zlen_contents B WB) as LC. pose proof (contents_ok B WB) as BC.
  assert (L0 : zlen (@nil Z) = 0) by done. unfold buf_new. rewrite buf_init_ok, res_bind_ok.
  do 4 (rewrite buf_cat_fresh, res_bind_ok by
    first [assumption | rewrite ?zlen_app, ?L0, ?Lx, ?L1, ?L2, ?LA; unfold fits; lia]).
  rewrite buf_cat_ok, res_bind_ok by first [assumption | rewrite ?zlen_app, ?L0, ?Lx, ?L1, ?L2, ?LA; unfold fits; lia].
  rewrite buf_cat_fresh, res_bind_ok by
    first [assumption | rewrite ?zlen_app, ?L0, ?Lx, ?L1, ?L2, ?LA, ?LC, ?LK; unfold fits; lia].
  rewrite app_nil_l, <- !app_assoc. apply hsh_sha256_fresh.
  - by repeat apply Forall_app_2.
  - rewrite !zlen_app, Lx, L1, L2, LA, LC, LK. unfold fits. lia.
Qed.

Lemma fresh_small l : bytes_ok l -> zlen l <= 256 -> fits 4096 -> buf_wf (fresh l).
Proof. intros Hb Hl Hf. apply fresh_wf; [exact Hb | unfold fits in *; lia]. Qed.

Lemma hash_fresh l : bytes_ok l -> zlen l <= 256 -> fits 4096 -> tg_hsh_sha256 (fresh l) = Ok (fresh (SHA256 l)).
Proof. intros Hb Hl Hf. apply hsh_sha256_fresh; [exact Hb | unfold fits in *; lia]. Qed.

Lemma M1_ok p g salt1 salt2 A B S :
  buf_wf p -> bytes_ok g -> buf_wf salt1 -> buf_wf salt2 -> bytes_ok A -> buf_wf B -> bytes_ok S ->
  zlen g = 256 -> zlen A = 256 -> b_size B = 256 -> zlen S = 256 -> fits 4096 ->
  srp_M1 p (fresh g) salt1 salt2 (fresh A) B (fresh S) =
    Ok (fresh (SHA256 (xor_bytes (SHA256 (contents p)) (SHA256 g) ++ SHA256 (contents salt1) ++
                       SHA256 (contents salt2) ++ A ++ contents B ++ SHA256 S))).
Proof.
  intros Wp Bg W1 W2 BA WB BS Lg LA LB LS Hf.
  destruct (sha_facts (contents p)) as (L1 & B1 & _). destruct (sha_facts g) as (L2 & B2 & _).
  destruct (sha_facts (contents salt1)) as (L3 & B3 & _). destruct (sha_facts (contents salt2)) as (L4 & B4 & _).
  destruct (sha_facts S) as (L5 & B5 & _).
  unfold srp_M1. rewrite (hash_fresh S BS (Z.eq_le_incl _ _ LS) Hf), res_bind_ok.
  rewrite (hsh_sha256_ok p Wp), res_bind_ok, (hash_fresh g Bg (Z.eq_le_incl _ _ Lg) Hf), res_bind_ok.
  assert (E12 : zlen (SHA256 (contents p)) = zlen (SHA256 g)) by exact (eq_trans L1 (eq_sym L2)).
  rewrite (buf_xor_ok _ _ (Z.eq_le_incl _ _ E12)), res_bind_ok by (rewrite L1; unfold fits in *; lia).
  rewrite (hsh_sha256_ok salt1 W1), res_bind_ok, (hsh_sha256_ok salt2 W2), res_bind_ok.
  apply proof_ok; try assumption; [exact (xor_bytes_ok _ _ B1 B2) |].
  rewrite zlen_xor_bytes; [exact L1 | exact E12].
Qed.

(** What the client recovers from the server's [B]. *)
Lemma client_secret k g x a b u P :
  0 < P -> 0 <= a -> 0 <= b -> 0 <= x -> 0 <= u ->
  let t := (k * (g ^ x mod P) + g ^ b) mod P - (k * (g ^ x mod P)) mod P in
  BN_mod_exp (if t <? 0 then t + P else t) (u * x + a) P = Ok ((g ^ a mod P * (g ^ x mod P) ^ u) ^ b mod P).
Proof.
  intros HP Ha Hb Hx Hu t. unfold t. rewrite (base_recovered k (g ^ x mod P) (g ^ b) P HP).
  rewrite BN_mod_exp_ok; [f_equal; exact (secrets_agree g a b x u P HP Ha Hb Hx Hu) | | | exact HP].
  - apply Z.mod_pos_bound, HP.
  - exact (Z.add_nonneg_nonneg _ _ (Z.mul_nonneg_nonneg _ _ Hu Hx) Ha).
Qed.

Lemma BN_of_hash l : fits 4096 -> BN_of (fresh (SHA256 l)) = Ok (be_num (SHA256 l)).
Proof. intros Hf. apply BN_of_fresh; [apply SHA256_bytes | rewrite SHA256_length; unfold fits in *; lia]. Qed.

Lemma concat_hash_ok a b : buf_wf a -> buf_wf b -> b_size a = 256 -> b_size b = 256 -> fits 4096 ->
  buf_concat_sha256 a b = Ok (fresh (SHA256 (contents a ++ contents b))).
Proof. intros Wa Wb La Lb Hf. apply concat_sha_ok; [done | done | rewrite La, Lb; unfold fits in *; lia]. Qed.

Lemma rand_secret (s : client U) : fits 4096 ->
  let r := rand_bytes (wall (reads s)) 256 in
  rand_buf (U := U) (2048 / 8) s = Ok (fresh r, read_clock s) /\ BN_of (fresh r) = Ok (be_num r) /\ 0 <= be_num r.
Proof.
  intros Hf r. pose proof platform_bounds. assert (Hr : bytes_ok r) by apply rand_bytes_ok. split_and!.
  - unfold rand_buf. erewrite bind_eq by reflexivity. erewrite bind_eq by reflexivity.
    apply lift_eq. apply (buf_rand_ok _ 256). lia.
  - apply BN_of_fresh; [exact Hr | unfold r; rewrite zlen_rand_bytes; unfold fits in *; lia].
  - by apply be_num_nonneg.
Qed.

(** The bytes of the answer to the challenge. *)
Lemma srp_ok password salt1 salt2 g p B id b s :
  let a := be_num (rand_bytes (wall (reads s)) 256) in
  let P := be_num (contents p) in
  let A := g ^ a mod P in
  let Bn := server_B password (contents salt1) (contents salt2) (contents p) g b in
  bytes_ok password -> buf_wf salt1 -> buf_wf salt2 -> buf_wf p -> buf_wf B -> is_u32 g -> 0 <= b ->
  b_size salt1 <= 1024 -> b_size salt2 <= 1024 -> fits (4096 + zlen password) -> b_size p = 256 ->
  contents B = padded Bn -> 0 < P -> 0 < Bn ->
  tg_get_inputCheckPasswordSRP (U := U) password salt1 salt2 g p B id s =
    Ok (tl_inputCheckPasswordSRP id (padded A)
          (proof (contents salt1) (contents salt2) (contents p) g A Bn
             (server_S password (contents salt1) (contents salt2) (contents p) g A b)), read_clock s).
Proof.
  intros a P A Bn Hpw W1 W2 Wp WB Hg Hb Hs1 Hs2 Hfit Lp EB HP HB.
  pose proof (zlen_nonneg password) as Hn. assert (Hf : fits 4096) by (unfold fits in *; lia). unfold is_u32 in Hg.
  assert (HP2 : P < 256 ^ 256).
  { pose proof (be_num_bound _ (contents_ok p Wp)) as Hbd. rewrite (zlen_contents p Wp), Lp in Hbd. exact (proj2 Hbd). }
  assert (Hmod : forall z, 0 <= z mod P < 256 ^ 256).
  { intros z. destruct (Z.mod_pos_bound z P HP) as [Hz1 Hz2]. exact (conj Hz1 (Z.lt_trans _ _ _ Hz2 HP2)). }
  assert (Eg : 0 <= g < 256 ^ 256) by (split; [lia |]; eapply Z.lt_trans; [apply Hg | done]).
  pose proof (proj2 (Z.mod_pos_bound (srp_k (contents p) g * verifier password (contents salt1) (contents salt2) (contents p) g + g ^ b) P HP)) as HB2.
  change (Bn < P) in HB2.
  destruct (padded_facts A (Hmod _)) as (_ & LA & BA & _). destruct (padded_facts Bn (Hmod _)) as (_ & LB & BB & NB).
  destruct (padded_facts g Eg) as (_ & Lg & Bg & _).
  assert (SB : b_size B = 256) by (rewrite <- (zlen_contents B WB), EB; exact LB).
  pose proof (fresh_small _ Bg (Z.eq_le_incl _ _ Lg) Hf) as Wg. pose proof (fresh_small _ BA (Z.eq_le_incl _ _ LA) Hf) as WA.
  destruct (rand_secret s Hf) as (Er & Ea & Ha).
  unfold tg_get_inputCheckPasswordSRP.
  rewrite (bind_lift _ _ _ _ (BN_of_ok p Wp)), (bind_lift _ _ _ _ (BN_of_ok B WB)). fold P. rewrite EB, NB, SB.
  replace (negb (0 <? Bn) || negb (Bn <? P) || negb (256 =? 256)) with false by lia.
  rewrite (bind_lift _ _ _ _ (bn_size_ok g Eg)).
  assert (Hph : tg_calc_password_hash password salt1 salt2 =
    Ok (fresh (password_hash password (contents salt1) (contents salt2))))
    by (apply password_hash_ok; try assumption; unfold fits in *; lia).
  rewrite (bind_lift _ _ _ _ Hph). clear Hph.
  assert (Ex : BN_of (fresh (password_hash password (contents salt1) (contents salt2))) =
    Ok (srp_x password (contents salt1) (contents salt2))) by exact (BN_of_hash _ Hf).
  rewrite (bind_lift _ _ _ _ Ex). clear Ex.
  set (x := srp_x password (contents salt1) (contents salt2)) in *.
  assert (Hx : 0 <= x) by apply be_num_nonneg, SHA256_bytes.
  rewrite (bind_eq _ _ _ _ _ Er), (bind_lift _ _ _ _ Ea).
  rewrite (bind_lift _ _ _ _ (BN_mod_exp_ok g a P (proj1 Eg) Ha HP)). fold A.
  rewrite (bind_lift _ _ _ _ (bn_size_ok A (Hmod _))).
  rewrite (bind_lift _ _ _ _ (concat_hash_ok _ _ WA WB LA SB Hf)), contents_fresh, EB, (bind_lift _ _ _ _ (BN_of_hash _ Hf)).
  rewrite (bind_lift _ _ _ _ (concat_hash_ok _ _ Wp Wg Lp Lg Hf)), contents_fresh, (bind_lift _ _ _ _ (BN_of_hash _ Hf)).
  rewrite (bind_lift _ _ _ _ (BN_mod_exp_ok g x P (proj1 Eg) Hx HP)).
  rewrite (bind_lift _ _ _ _ (client_secret (srp_k (contents p) g) g x a b (srp_u (padded A) (padded Bn)) P HP Ha Hb Hx
    (proj2 (proj2 (proj2 (sha_facts _)))))).
  set (Sn := server_S password (contents salt1) (contents salt2) (contents p) g A b).
  change ((g ^ a mod P * (g ^ x mod P) ^ srp_u (padded A) (padded Bn)) ^ b mod P) with Sn.
  destruct (padded_facts Sn (Hmod _)) as (_ & LS & BS & _).
  rewrite (bind_lift _ _ _ _ (bn_size_ok Sn (Hmod _))).
  rewrite (bind_lift _ _ _ _ (M1_ok p _ salt1 salt2 _ B _ Wp Bg W1 W2 BA WB BS Lg LA SB LS Hf)), !contents_fresh, EB.
  reflexivity.
Qed.

(** The server of the account: it keeps the salts, the group and the
    verifier of the password, has sent [B] for its secret [b], and gives the
    authorization to the one proof that it computes itself. *)
Definition checks_password (before : list (list Z)) (password salt1 salt2 p : list Z) (g id b : Z) (auth : tl_t) : Prop :=
  forall A M1, 0 <= A < 256 ^ 256 -> zlen M1 = 32 ->
    answer (before ++ [tl_auth_checkPassword (tl_inputCheckPasswordSRP id (padded A) M1)]) =
      (if bool_decide (M1 = proof salt1 salt2 p g A (server_B password salt1 salt2 p g b)
                              (server_S password salt1 salt2 p g A b))
       then Some auth else None).

Lemma getPassword_ok account algo B id (s : client U) :
  answer (asked s ++ [tl_account_getPassword]) = Some account -> obj account = Account_password algo B id ->
  tg_account_getPassword s = Ok (Some account, ask tl_account_getPassword (in_session s)).
Proof.
  intros Hget Hacc. unfold tg_account_getPassword. rewrite (bind_eq _ _ _ _ _ (send_query_ok _ s)), Hget, Hacc.
  reflexivity.
Qed.

(** The whole call. *)
Lemma check_password_ok password salt1 salt2 g p B id b account algo auth required token user (s : client U) :
  let P := be_num (contents p) in
  let A := g ^ be_num (rand_bytes (wall (reads s)) 256) mod P in
  let Bn := server_B password (contents salt1) (contents salt2) (contents p) g b in
  let M1 := proof (contents salt1) (contents salt2) (contents p) g A Bn
    (server_S password (contents salt1) (contents salt2) (contents p) g A b) in
  bytes_ok password -> buf_wf salt1 -> buf_wf salt2 -> buf_wf p -> buf_wf B -> is_u32 g -> 0 <= b ->
  b_size salt1 <= 1024 -> b_size salt2 <= 1024 -> fits (4096 + zlen password) -> b_size p = 256 ->
  contents B = padded Bn -> 0 < P -> 0 < Bn ->
  (forall i a m, tl_inputCheckPasswordSRP i a m <> []) ->
  obj algo = PasswordKdfAlgoModPow salt1 salt2 g p -> obj account = Account_password (Some algo) B id ->
  obj auth = Auth_authorization required token user ->
  is_i32 (c_id (conn s)) -> buf_wf (c_key (conn s)) -> zlen (c_ip (conn s)) < 16 ->
  answer (asked s ++ [tl_account_getPassword]) = Some account ->
  checks_password (asked s ++ [tl_account_getPassword]) password (contents salt1) (contents salt2) (contents p) g id b auth ->
  tg_auth_check_password password s = Ok (user,
    Client (asked s ++ [tl_account_getPassword; tl_auth_checkPassword (tl_inputCheckPasswordSRP id (padded A) M1)])
      (S (reads s)) (did s ++ key_deeds (did s) (c_id (conn s)) (contents (c_key (keyed_conn (conn s)))) ++ ip_deeds (c_id (conn s)) (c_ip (conn s)))
      (keyed_conn (conn s)) (Service.user s)).
Proof.
  intros P A Bn M1 Hpw W1 W2 Wp WB Hg Hb Hs1 Hs2 Hfit Lp EB HP HB Hne Halgo Hacc Hauth Hid Hkey Hip Hget Hchk.
  pose proof (srp_ok password salt1 salt2 g p B id b (ask tl_account_getPassword (in_session s))
    Hpw W1 W2 Wp WB Hg Hb Hs1 Hs2 Hfit Lp EB HP HB) as Esrp.
  assert (HA : 0 <= A < 256 ^ 256).
  { destruct (Z.mod_pos_bound (g ^ be_num (rand_bytes (wall (reads s)) 256)) P HP) as [HA1 HA2].
    pose proof (be_num_bound _ (contents_ok p Wp)) as Hbd. rewrite (zlen_contents p Wp), Lp in Hbd.
    exact (conj HA1 (Z.lt_trans _ _ _ HA2 (proj2 Hbd))). }
  specialize (Hchk A M1 HA (SHA256_length _)). rewrite bool_decide_true in Hchk by reflexivity.
  unfold tg_auth_check_password.
  rewrite (bind_eq _ _ _ _ _ (getPassword_ok account _ B id s Hget Hacc)).
  rewrite Hacc, Halgo. rewrite (bind_eq _ _ _ _ _ Esrp). rewrite bool_decide_false by apply Hne.
  rewrite (bind_eq _ _ _ _ _ (send_query_ok _ _)). cbn [asked ask read_clock reads in_session set_conn].
  fold P A Bn M1. rewrite Hchk, Hauth. erewrite bind_eq by reflexivity. cbn [conn ask read_clock set_conn].
  set (c := keyed_conn (conn s)).
  assert (Ec0 : conn (in_session (read_clock (ask tl_account_getPassword (in_session s)))) = c) by apply keyed_conn_twice.
  rewrite Ec0.
  assert (Hid' : is_i32 (c_id c)) by (unfold c; by rewrite keyed_conn_id).
  assert (Hip' : zlen (c_ip c) < 16) by (unfold c; by rewrite keyed_conn_ip).
  set (s1 := ask (tl_auth_checkPassword _) _).
  assert (Ec : conn s1 = c) by exact Ec0.
  destruct (auth_key_to_database_ok (c_key c) s1) as (r1 & E1); [by rewrite Ec | by apply keyed_conn_key |].
  rewrite (bind_eq _ _ _ _ _ E1).
  destruct (ip_address_to_database_ok (c_ip c) (do_all (key_deeds (did s1) (c_id (conn s1)) (contents (c_key c))) s1))
    as (r2 & E2); [cbn [conn do_all]; unfold do_all; cbn [conn]; by rewrite Ec | done |].
  rewrite (bind_eq _ _ _ _ _ E2). unfold mret, st_ret, do_all. cbn [conn]. rewrite Ec. unfold s1, ask, read_clock.
  cbn [asked reads did conn Service.user in_session set_conn]. unfold c.
  rewrite keyed_conn_id, keyed_conn_ip. by rewrite <- !app_assoc.
Qed.

(** C25: the right password opens the account.  A server that keeps only
    the verifier and accepts only the proof it computes from its own secret
    accepts the proof of the client, which computes it from the password
    and a secret of its own: the call returns the user, after the two
    queries, and the key of the session (the first query negotiates one if
    there is none) and the address of the server are stored. *)
Theorem tg_auth_check_password_proves password salt1 salt2 g p B id b account algo auth required token user (s : client U) :
  let P := be_num (contents p) in
  let A := g ^ be_num (rand_bytes (wall (reads s)) 256) mod P in
  let Bn := server_B password (contents salt1) (contents salt2) (contents p) g b in
  let M1 := proof (contents salt1) (contents salt2) (contents p) g A Bn
    (server_S password (contents salt1) (contents salt2) (contents p) g A b) in
  bytes_ok password -> buf_wf salt1 -> buf_wf salt2 -> buf_wf p -> buf_wf B -> is_u32 g -> 0 <= b ->
  b_size salt1 <= 1024 -> b_size salt2 <= 1024 -> fits (4096 + zlen password) -> b_size p = 256 ->
  contents B = padded Bn -> 0 < P -> 0 < Bn ->
  (forall i a m, tl_inputCheckPasswordSRP i a m <> []) ->
  obj algo = PasswordKdfAlgoModPow salt1 salt2 g p -> obj account = Account_password (Some algo) B id ->
  obj auth = Auth_authorization required token user ->
  is_i32 (c_id (conn s)) -> buf_wf (c_key (conn s)) -> zlen (c_ip (conn s)) < 16 ->
  answer (asked s ++ [tl_account_getPassword]) = Some account ->
  checks_password (asked s ++ [tl_account_getPassword]) password (contents salt1) (contents salt2) (contents p) g id b auth ->
  tg_auth_check_password password s = Ok (user,
    Client (asked s ++ [tl_account_getPassword; tl_auth_checkPassword (tl_inputCheckPasswordSRP id (padded A) M1)])
      (S (reads s)) (did s ++ key_deeds (did s) (c_id (conn s)) (contents (c_key (keyed_conn (conn s)))) ++ ip_deeds (c_id (conn s)) (c_ip (conn s)))
      (keyed_conn (conn s)) (Service.user s)).
Proof. exact (check_password_ok password salt1 salt2 g p B id b account algo auth required token user s). Qed.

(** an account that has no password answers [account.password]
    without an algorithm, and the client reads through the null pointer. *)
Theorem tg_auth_check_password_without_password password B id account (s : client U) :
  answer (asked s ++ [tl_account_getPassword]) = Some account -> obj account = Account_password None B id ->
  tg_auth_check_password password s = Err NullDeref.
Proof.
  intros Hget Hacc. unfold tg_auth_check_password.
  rewrite (bind_eq _ _ _ _ _ (getPassword_ok account _ B id s Hget Hacc)). cbv iota beta. by rewrite Hacc.
Qed.

(** the key derivation of the Apple build is PBKDF2 with HMAC-SHA512 of
    RFC 8018, for a key of one block. *)
Theorem tg_pbkdf2_sha512_rfc8018 password salt c :
  buf_wf password -> buf_wf salt -> 0 < c ->
  tg_pbkdf2_sha512 password salt c = Ok (fresh (pbkdf2 (contents password) (contents salt) c)).
Proof. apply pbkdf2_ok. Qed.
End SrpFacts.
