(* ===== verification/Login.v ===== *)
(** * Logging in: libtg/tg/auth.c, connect.c, tg.c

    [tg_connect] leads a conversation with the application: is there a
    session already, which phone number, which code, which password.  The
    application's callback is a function on data of its own; the texts it
    is given are written into an array of 256 characters.  The messages of
    [ON_LOG] and [ON_ERR], for which [tg_connect] sets handlers that hand them
    to the same callback (connect.c lines 66 and 67), are left out: what the
    theorems say of the events is about the conversation only. *)
From stdpp Require Import strings pretty.
From S2P Require Import Prelude TlBuf Serial Errors Tg Packet Queue TlParser Mtx Objects Service Sql Database Srp.

(** The generated functions that write the queries of this part. *)
Class LoginSchema := {
  tl_help_getConfig : list Z;
  tl_initConnection : Z -> list Z -> list Z -> list Z -> list Z -> list Z -> list Z -> list Z -> list Z;
  tl_invokeWithLayer : Z -> list Z -> list Z;
  tl_inputUserSelf : list Z;
  tl_users_getUsers : list (list Z) -> list Z;
  tl_codeSettings : list (list Z) -> list Z;
  tl_auth_sendCode : list Z -> Z -> list Z -> list Z -> list Z;
  tl_auth_signIn : list Z -> list Z -> list Z -> list Z;
  tl_account_registerDevice : Z -> list Z -> list Z -> list Z -> list Z;
  tl_boolTrue : list Z;
  tl_boolFalse : list Z
}.

Inductive TG_AUTH :=
| TG_AUTH_ERROR | TG_AUTH_INFO | TG_AUTH_PHONE_NUMBER_NEEDED | TG_AUTH_PHONE_CODE_NEEDED
| TG_AUTH_PASSWORD_NEEDED | TG_AUTH_SUCCESS.

Definition API_LAYER : Z := 185.
Definition PACKAGE_NAME : list Z := chars "iTgLegacy".
Definition PACKAGE_VERSION : list Z := chars "1.16.32".

Section Login.
Context `{Env} `{OpenSSL} `{BigNum} `{Hmac} `{Server} `{Schema} `{LoginSchema} `{Sqlite} {U : Type}.
Variable tl_table : list (Z * (buf_t -> res (option tl_t * buf_t))).

(** ** tg.c *)
Definition set_address (ip : list Z) (port : Z) (c : conn_t) : conn_t :=
  Conn (c_id c) (c_apiId c) (c_apiHash c) (c_key c) ip port (c_config c).
Definition set_config (l : list (option (Z * buf_t))) (c : conn_t) : conn_t :=
  Conn (c_id c) (c_apiId c) (c_apiHash c) (c_key c) (c_ip c) (c_port c) (Some l).
Definition on_conn (f : conn_t -> conn_t) : F U unit := modify (fun s => set_conn (f (conn s)) s).

Definition tg_set_server_address (ip : list Z) (port : Z) : F U unit := on_conn (set_address (copy_ip ip) port).

Definition tg_ip_address_for_dc (dc : Z) : F U (option (list Z)) :=
  c ← gets (fun s => c_config (conn s));
  match c with
  | None => mret None
  | Some l =>
      match dc_option l dc with
      | None => mret None
      | Some b => s ← lift (c_str (data_at b 0)); mret (Some s)
      end
  end.

Definition tg_get_config : F U (option tl_t) :=
  tl ← tg_send_query (Some tl_help_getConfig);
  mret (match tl with
        | Some tl => match obj tl with Config _ => Some tl | _ => None end
        | None => None
        end).

Definition tg_account_register_ios (token : list Z) (development : bool) : F U Z :=
  tl ← tg_send_query (Some (tl_account_registerDevice 1 token (if development then tl_boolTrue else tl_boolFalse) []));
  mret (match tl with
        | Some tl => match obj tl with BoolTrue => 0 | _ => 1 end
        | None => 1
        end).

(** ** auth.c *)
Definition initConnection (query : list Z) : F U (list Z) :=
  c ← gets conn;
  mret (tl_invokeWithLayer API_LAYER
          (tl_initConnection (c_apiId c) PACKAGE_NAME PACKAGE_VERSION PACKAGE_VERSION (chars "ru") (chars "LibTg") (chars "ru") query)).

(** [tg_help_getConfig] in a new connection; [tg->config] when the answer is
    one. *)
Definition init_config : F U bool :=
  init ← initConnection tl_help_getConfig;
  tl ← tg_send_query (Some init);
  match tl with
  | Some tl => match obj tl with Config l => _ ← on_conn (set_config l); mret true | _ => mret false end
  | None => mret false
  end.

Definition tg_is_authorized : F U (option tl_t) :=
  c ← gets conn;
  if b_size (c_key c) =? 0 then mret None
  else
    ok ← init_config;
    if negb ok then mret None
    else
      tl ← tg_send_query (Some (tl_users_getUsers [tl_inputUserSelf]));
      match tl with
      | None => mret None
      | Some tl =>
          match obj tl with
          | Vector len_ data_ =>
              user ← lift (deserialize tl_table data_);
              mret (match user with
                    | Some u => match obj u with User _ => Some u | _ => None end
                    | None => None
                    end)
          | _ => mret None
          end
      end.

(** [buf_t t[20]]: a buffer for every token. *)
Fixpoint read_tokens (tn : Z) (tokens : list (list Z)) : res (list (list Z)) :=
  match tokens with
  | [] => Ok []
  | token :: tokens =>
      _ ← guard_res (tn <? 20) OutOfBounds;
      b ← buf_add token (zlen token);
      l ← read_tokens (tn + 1) tokens;
      Ok (contents b :: l)
  end.

Fixpoint tg_auth_sendCode (fuel : nat) (phone_number : list Z) : F U (option tl_t) :=
  match fuel with
  | O => fail NoFuel
  | S fuel =>
      ok ← init_config;
      if negb ok then mret None
      else
        auth_tokens ← auth_tokens_from_database;
        t ← lift (match auth_tokens with
                  | None => Ok []
                  | Some l => read_tokens 0 (strtok_foreach (chars ";") l)
                  end);
        c ← gets conn;
        tl ← tg_send_query (Some (tl_auth_sendCode phone_number (c_apiId c) (c_apiHash c) (tl_codeSettings t)));
        match tl with
        | None => mret None
        | Some tl =>
            match obj tl with
            | Rpc_error _ error_message_ =>
                error ← lift (c_str (data_at error_message_ 0));
                match strstr error (chars "PHONE_MIGRATE_") with
                | Some str =>
                    ip ← tg_ip_address_for_dc (atoi (drop (length (chars "PHONE_MIGRATE_")) str));
                    match ip with
                    | None => mret None
                    | Some ip =>
                        _ ← tg_set_server_address ip 443;
                        _ ← modify (does Net_close);
                        _ ← on_conn (fun c => set_key (set_size (c_key c) 0) c);
                        tg_auth_sendCode fuel phone_number
                    end
                | None => mret None
                end
            | Auth_sentCode _ => mret (Some tl)
            | _ => mret None
            end
        end
  end.

(** [strncpy(auth_token, data, size)] into an array that holds [stack]; the
    string goes on behind [size] when the data have no zero. *)
Definition strncpy_token (stack : list Z) (token : buf_t) : res (list Z) :=
  let n := b_size token in
  _ ← guard_res (n <=? BUFSIZ) OutOfBounds;
  m ← load token n;
  let s := before_nul m in
  c_str (s ++ replicate (Z.to_nat (n - zlen s)) 0 ++ drop (Z.to_nat n) stack).

Definition tg_auth_signIn (stack : list Z) (sentCode : tl_t) (phone_number phone_code : list Z) : F U (option tl_t) :=
  match obj sentCode with
  | Auth_sentCode phone_code_hash_ =>
      hash ← lift (c_str (data_at phone_code_hash_ 0));
      tl ← tg_send_query (Some (tl_auth_signIn phone_number hash phone_code));
      match tl with
      | None => mret None
      | Some tl =>
          match obj tl with
          | Auth_authorization setup_password_required_ future_auth_token_ user_ =>
              if setup_password_required_ : bool then mret None
              else
                _ ← (if 0 <? b_size future_auth_token_ then
                       auth_token ← lift (strncpy_token stack future_auth_token_);
                       _ ← auth_token_to_database auth_token; mret tt
                     else mret tt);
                c ← gets conn;
                _ ← auth_key_to_database (c_key c);
                _ ← ip_address_to_database (c_ip c);
                mret user_
          | _ => mret None
          end
      end
  | _ => mret None
  end.

(** ** connect.c *)
Definition auth_callback : Type := U -> TG_AUTH -> option tl_t -> list Z -> option (list Z) * U.

(** [char err[256]; sprintf(err, ...)]; NULL without a callback. *)
Definition _TG_CB (callback : option auth_callback) (auth : TG_AUTH) (tl : option tl_t) (text : list Z) : F U (option (list Z)) :=
  _ ← lift (guard_res (zlen text <? 256) OutOfBounds);
  match callback with
  | None => mret None
  | Some f => u ← gets user; let r := f u auth tl text in _ ← modify (set_user (snd r)); mret (fst r)
  end.

(** [user_] of an authorization is cast to a user as it is. *)
Definition tg_connect (fuel : nat) (stack : list Z) (callback : option auth_callback) : F U Z :=
  let cb := _TG_CB callback in
  user ← tg_is_authorized;
  match user with
  | Some _ => _ ← cb TG_AUTH_SUCCESS user (chars "authorized!"); mret 0
  | None =>
      stored ← phone_number_from_database;
      phone_number ← (match stored with
                      | None => cb TG_AUTH_PHONE_NUMBER_NEEDED None (chars "enter phone number (+7XXXXXXXXXX)")
                      | Some _ => mret stored
                      end);
      match phone_number with
      | None => _ ← cb TG_AUTH_ERROR None (chars "phone number is NULL"); mret 1
      | Some phone_number =>
          _ ← cb TG_AUTH_INFO None (chars "phone number: " ++ phone_number);
          sentCode ← tg_auth_sendCode fuel phone_number;
          match sentCode with
          | None => mret 1
          | Some code =>
              phone_code ← cb TG_AUTH_PHONE_CODE_NEEDED sentCode (chars "enter code");
              match phone_code with
              | None => _ ← cb TG_AUTH_ERROR None (chars "phone code is NULL"); mret 1
              | Some phone_code =>
                  _ ← cb TG_AUTH_INFO None (chars "phone code: " ++ phone_code);
                  user ← tg_auth_signIn stack code phone_number phone_code;
                  match user with
                  | Some _ => _ ← cb TG_AUTH_SUCCESS user (chars "authorized!"); mret 0
                  | None =>
                      password ← cb TG_AUTH_PASSWORD_NEEDED sentCode (chars "enter password");
                      match password with
                      | None => _ ← cb TG_AUTH_ERROR sentCode (chars "password is NULL"); mret 1
                      | Some password =>
                          _ ← cb TG_AUTH_INFO None (chars "password: " ++ password);
                          user ← tg_auth_check_password password;
                          match user with
                          | Some _ => _ ← cb TG_AUTH_SUCCESS user (chars "authorized!"); mret 0
                          | None => _ ← cb TG_AUTH_ERROR sentCode (chars "password is incorrect!"); mret 1
                          end
                      end
                  end
              end
          end
      end
  end.
End Login.
