(* ===== verification/LoginFacts.v ===== *)
(** * A conversation that logs in

    The queries of a login, the conversation with the application when the
    account has a password, and what goes wrong with long answers and with
    the token of a login. *)
From stdpp Require Import strings pretty.
From S2P Require Import Prelude TlBuf Serial HashCommon Base64 Errors Tg Packet Queue TlParser TlParserFacts Mtx MtxFacts Objects Service Sql Database DatabaseFacts Srp SrpFacts Login.

Section LoginFacts.
Context `{Env} `{OpenSSL} `{BigNum} `{Hmac} `{Server} `{Schema} `{LoginSchema} `{Sqlite}.
Variable tl_table : list (Z * (buf_t -> res (option tl_t * buf_t))).

Definition init_query (c : conn_t) : list Z :=
  tl_invokeWithLayer API_LAYER
    (tl_initConnection (c_apiId c) PACKAGE_NAME PACKAGE_VERSION PACKAGE_VERSION (chars "ru") (chars "LibTg") (chars "ru") tl_help_getConfig).
Definition code_query (c : conn_t) (phone : list Z) : list Z :=
  tl_auth_sendCode phone (c_apiId c) (c_apiHash c) (tl_codeSettings []).

Definition phone_sql (id : Z) : list Z := chars "SELECT phone_number FROM phone_numbers WHERE id = " ++ print_id id ++ chars ";".
Definition tokens_sql (id : Z) : list Z :=
  chars "SELECT * FROM ((SELECT ROW_NUMBER() OVER (ORDER BY ID) AS Number, auth_token FROM auth_tokens)) WHERE id = " ++
    print_id id ++ chars " ORDER BY Number DESC LIMIT 20;".

Section Steps.
Context {U : Type}.

Lemma query_answered q tl (s : client U) : answer (asked s ++ [q]) = tl -> tg_send_query (Some q) s = Ok (tl, ask q (in_session s)).
Proof. intros <-. apply send_query_ok. Qed.

Lemma keyed_config l c : keyed_conn (set_config l (keyed_conn c)) = set_config l (keyed_conn c).
Proof. apply keyed_conn_has, keyed_conn_size. Qed.
Lemma keyed_init c : init_query (keyed_conn c) = init_query c.
Proof. unfold keyed_conn. by destruct (_ =? _). Qed.
Lemma keyed_code c l phone : code_query (set_config l (keyed_conn c)) phone = code_query c phone.
Proof. unfold keyed_conn. by destruct (_ =? _). Qed.

Lemma init_config_ok cfg l (s : client U) :
  answer (asked s ++ [init_query (conn s)]) = Some cfg -> obj cfg = Config l ->
  init_config s = Ok (true, set_conn (set_config l (keyed_conn (conn s))) (ask (init_query (conn s)) s)).
Proof.
  intros Ha Ho. unfold init_config. erewrite bind_eq by reflexivity. fold (init_query (conn s)).
  rewrite (bind_eq _ _ _ _ _ (query_answered _ _ s Ha)), Ho. reflexivity.
Qed.

Lemma no_text sql (s : client U) : default [] (sql_rows (did s) sql) = [] -> text_from_database sql s = Ok (None, s).
Proof. intros Hr. unfold text_from_database. rewrite (bind_eq _ _ _ _ _ (rows_ok sql s)), Hr. reflexivity. Qed.

Lemma no_phone (s : client U) : is_i32 (c_id (conn s)) -> default [] (sql_rows (did s) (phone_sql (c_id (conn s)))) = [] ->
  phone_number_from_database s = Ok (None, s).
Proof.
  intros Hid Hr. unfold phone_number_from_database. rewrite (bind_eq _ _ _ _ _ (id_ok s)).
  erewrite bind_eq by (apply sprintf_ok; text_length). by apply no_text.
Qed.
Lemma no_tokens (s : client U) : is_i32 (c_id (conn s)) -> default [] (sql_rows (did s) (tokens_sql (c_id (conn s)))) = [] ->
  auth_tokens_from_database s = Ok (None, s).
Proof.
  intros Hid Hr. unfold auth_tokens_from_database. rewrite (bind_eq _ _ _ _ _ (id_ok s)).
  erewrite bind_eq by (apply sprintf_ok; text_length). fold (tokens_sql (c_id (conn s))).
  rewrite (bind_eq _ _ _ _ _ (rows_ok _ s)), Hr. reflexivity.
Qed.

Lemma sendCode_ok fuel phone cfg l sent hash (s : client U) :
  is_i32 (c_id (conn s)) ->
  answer (asked s ++ [init_query (conn s)]) = Some cfg -> obj cfg = Config l ->
  default [] (sql_rows (did s) (tokens_sql (c_id (conn s)))) = [] ->
  answer (asked s ++ [init_query (conn s); code_query (conn s) phone]) = Some sent -> obj sent = Auth_sentCode hash ->
  tg_auth_sendCode (S fuel) phone s =
    Ok (Some sent, Client (asked s ++ [init_query (conn s); code_query (conn s) phone]) (reads s) (did s) (set_config l (keyed_conn (conn s))) (user s)).
Proof.
  intros Hid Hc Ho Ht Hs Hos. cbn [tg_auth_sendCode]. rewrite (bind_eq _ _ _ _ _ (init_config_ok cfg l s Hc Ho)). cbn [negb].
  set (s1 := set_conn _ _).
  assert (Eid : c_id (conn s1) = c_id (conn s)) by (cbn; apply keyed_conn_id).
  assert (Ht1 : default [] (sql_rows (did s1) (tokens_sql (c_id (conn s1)))) = []) by (rewrite Eid; exact Ht).
  rewrite <- Eid in Hid. rewrite (bind_eq _ _ _ _ _ (no_tokens s1 Hid Ht1)). erewrite bind_eq by reflexivity.
  erewrite bind_eq by reflexivity. fold (code_query (conn s1) phone).
  assert (Eq : code_query (conn s1) phone = code_query (conn s) phone) by apply keyed_code. rewrite Eq.
  assert (Ha : answer (asked s1 ++ [code_query (conn s) phone]) = Some sent).
  { unfold s1. cbn [asked set_conn ask]. rewrite <- app_assoc. exact Hs. }
  rewrite (bind_eq _ _ _ _ _ (query_answered _ _ s1 Ha)), Hos. unfold mret, st_ret. do 2 f_equal.
  unfold in_session, s1, ask, set_conn. cbn [asked reads did conn user]. rewrite keyed_config, <- app_assoc. reflexivity.
Qed.

(** The server asks for the password. *)
Lemma signIn_refused stack sent hash text phone code err e m (s : client U) :
  obj sent = Auth_sentCode hash -> c_str (data_at hash 0) = Ok text ->
  answer (asked s ++ [tl_auth_signIn phone text code]) = Some err -> obj err = Rpc_error e m ->
  tg_auth_signIn stack sent phone code s = Ok (None, ask (tl_auth_signIn phone text code) (in_session s)).
Proof.
  intros Hs Ht Ha He. unfold tg_auth_signIn. rewrite Hs, (bind_lift _ _ _ _ Ht), (bind_eq _ _ _ _ _ (query_answered _ _ s Ha)), He. reflexivity.
Qed.

Lemma cb_ok (f : auth_callback) auth tl text (s : client U) : zlen text < 256 ->
  _TG_CB (Some f) auth tl text s = Ok (fst (f (user s) auth tl text), set_user (snd (f (user s) auth tl text)) s).
Proof.
  intros Ht. unfold _TG_CB. erewrite bind_lift by (unfold guard_res; replace (zlen text <? 256) with true by lia; reflexivity).
  reflexivity.
Qed.
End Steps.

#[local] Ltac told := erewrite bind_eq by (apply cb_ok; rewrite ?zlen_app;
  repeat match goal with |- context [zlen (chars ?t)] => let n := eval vm_compute in (zlen (chars t)) in change (zlen (chars t)) with n end; lia).

(** ** The token of a login *)
Lemma c_str_at t rest : free_of [0] t -> c_str (t ++ 0 :: rest) = Ok t.
Proof.
  intros Ht. unfold c_str. rewrite strlen_ok by (eapply Forall_impl; [| exact Ht]; cbn; intros c; lia). cbn. f_equal. unfold zlen. rewrite Nat2Z.id. apply take_app_length.
Qed.

Definition alter_tokens : list Z := chars "ALTER TABLE 'auth_tokens' ADD COLUMN 'auth_token' TEXT; ".
Definition insert_token (id : Z) (token : list Z) : list Z :=
  chars "INSERT INTO 'auth_tokens' (id, 'auth_token') VALUES (" ++ print_id id ++ chars ", '" ++ token ++ chars "'); ".

(** the token of a login is stored with what lay behind it on the
    stack: [strncpy] ends no string that fills its size, and the text of
    the statement goes on to the next zero of the array. *)
Theorem tg_auth_signIn_stores_stack {U} stack rest more sent hash text phone code auth token user (s : client U) :
  obj sent = Auth_sentCode hash -> c_str (data_at hash 0) = Ok text ->
  answer (asked s ++ [tl_auth_signIn phone text code]) = Some auth -> obj auth = Auth_authorization false token user ->
  buf_wf token -> 0 < b_size token -> free_of [0] (contents token) ->
  drop (Z.to_nat (b_size token)) stack = rest ++ 0 :: more -> free_of [0] rest ->
  b_size token + zlen rest + 80 < BUFSIZ ->
  is_i32 (c_id (conn s)) -> buf_wf (c_key (conn s)) -> zlen (c_ip (conn s)) < 16 ->
  exists s', tg_auth_signIn stack sent phone code s = Ok (user, s') /\
    take 2 (drop (length (did s)) (did s')) = [Exec alter_tokens; Exec (insert_token (c_id (conn s)) (contents token ++ rest))].
Proof.
  intros Hs Ht Ha Ho Wt Hpos Hz Hst Hr Hlen Hid Hk Hip. unfold tg_auth_signIn.
  rewrite Hs, (bind_lift _ _ _ _ Ht), (bind_eq _ _ _ _ _ (query_answered _ _ s Ha)), Ho. set (s1 := ask _ (in_session s)).
  assert (Eid : c_id (conn s1) = c_id (conn s)) by apply keyed_conn_id.
  assert (Hk1 : buf_wf (c_key (conn s1))) by (by apply keyed_conn_key).
  assert (Hip1 : zlen (c_ip (conn s1)) < 16) by (unfold s1, in_session; cbn [conn ask set_conn]; by rewrite keyed_conn_ip).
  assert (Hid1 : is_i32 (c_id (conn s1))) by (by rewrite Eid).
  assert (Lt : zlen (contents token) = b_size token) by (apply zlen_contents, Wt).
  assert (Et : strncpy_token stack token = Ok (contents token ++ rest)).
  { unfold strncpy_token, guard_res. replace (b_size token <=? BUFSIZ) with true by (pose proof (zlen_nonneg rest); lia).
    cbn [mbind res_bind]. rewrite (load_ok token Wt). cbn [mbind res_bind]. rewrite before_nul_free by exact Hz.
    rewrite Lt, Z.sub_diag, Hst. change (replicate (Z.to_nat 0) 0 ++ ?l) with l. rewrite app_assoc. apply c_str_at. by apply Forall_app_2. }
  replace (0 <? b_size token) with true by lia.
  set (s2 := does (Exec (insert_token (c_id (conn s)) (contents token ++ rest))) (does (Exec alter_tokens) s1)).
  assert (Esave : auth_token_to_database (contents token ++ rest) s1 = Ok (if sql_fails (did (does (Exec alter_tokens) s1)) (insert_token (c_id (conn s)) (contents token ++ rest)) then 1 else 0, s2)).
  { unfold auth_token_to_database. rewrite (bind_eq _ _ _ _ _ (id_ok s1)), (bind_eq _ _ _ _ _ (exec_ok _ s1)).
    rewrite Eid.
    erewrite bind_eq by (apply sprintf_ok; text_length). apply exec_ok. }
  erewrite bind_eq.
  2: { rewrite (bind_lift _ _ _ _ Et), (bind_eq _ _ _ _ _ Esave). reflexivity. }
  cbv iota beta. erewrite bind_eq by reflexivity.
  destruct (auth_key_to_database_ok (c_key (conn s2)) s2 Hid1 Hk1) as (r1 & E1). rewrite (bind_eq _ _ _ _ _ E1).
  destruct (ip_address_to_database_ok (c_ip (conn s2)) (do_all (key_deeds (did s2) (c_id (conn s2)) (contents (c_key (conn s2)))) s2) Hid1 Hip1)
    as (r2 & E2). rewrite (bind_eq _ _ _ _ _ E2).
  eexists. split; [reflexivity |]. unfold do_all. cbn [did]. unfold s2, does, s1, ask. cbn [did]. rewrite <- !app_assoc.
  by rewrite drop_app_length.
Qed.

(** ** The conversation *)
(** An application that keeps what it is told and knows the answers. *)
Definition event : Type := TG_AUTH * list Z.
Definition application (phone code password : list Z) : auth_callback (U := list event) := fun u auth tl text =>
  (match auth with
   | TG_AUTH_PHONE_NUMBER_NEEDED => Some phone
   | TG_AUTH_PHONE_CODE_NEEDED => Some code
   | TG_AUTH_PASSWORD_NEEDED => Some password
   | _ => None
   end, u ++ [(auth, text)]).

Definition conversation (phone code password : list Z) : list event :=
  [(TG_AUTH_PHONE_NUMBER_NEEDED, chars "enter phone number (+7XXXXXXXXXX)"); (TG_AUTH_INFO, chars "phone number: " ++ phone);
   (TG_AUTH_PHONE_CODE_NEEDED, chars "enter code"); (TG_AUTH_INFO, chars "phone code: " ++ code);
   (TG_AUTH_PASSWORD_NEEDED, chars "enter password"); (TG_AUTH_INFO, chars "password: " ++ password);
   (TG_AUTH_SUCCESS, chars "authorized!")].

(** C26: an account with a password is opened.  Without a key and a stored
    number, the application is asked for the phone number, the code and the
    password, in this order; the server, which wants a password after the
    code and accepts the proof of the right one, gets the connection, the
    request for the code, the code, and the two queries of the password
    check; the application is told, the key the first query has negotiated
    and the address are stored, and the call returns 0.  (The handlers of
    [ON_LOG] and [ON_ERR] pass their messages to the application as well;
    they are not part of the model.) *)
Theorem tg_connect_with_password fuel stack phone code password salt1 salt2 g p B id b
    cfg l sent hash text err e m account algo auth required token me (s : client (list event)) :
  let c := conn s in
  let P := be_num (contents p) in
  let A := g ^ be_num (rand_bytes (wall (reads s)) 256) mod P in
  let Bn := server_B password (contents salt1) (contents salt2) (contents p) g b in
  let M1 := proof (contents salt1) (contents salt2) (contents p) g A Bn
    (server_S password (contents salt1) (contents salt2) (contents p) g A b) in
  let queries := [init_query c; code_query c phone; tl_auth_signIn phone text code] in
  (* the application and the session *)
  zlen phone < 240 -> zlen code < 240 -> zlen password < 240 -> bytes_ok password ->
  b_size (c_key c) = 0 -> buf_wf (c_key c) -> is_i32 (c_id c) -> zlen (c_ip c) < 16 ->
  default [] (sql_rows (did s) (phone_sql (c_id c))) = [] -> default [] (sql_rows (did s) (tokens_sql (c_id c))) = [] ->
  (* the server up to the code *)
  answer (asked s ++ [init_query c]) = Some cfg -> obj cfg = Config l ->
  answer (asked s ++ [init_query c; code_query c phone]) = Some sent -> obj sent = Auth_sentCode hash ->
  c_str (data_at hash 0) = Ok text ->
  answer (asked s ++ queries) = Some err -> obj err = Rpc_error e m ->
  (* and the password *)
  buf_wf salt1 -> buf_wf salt2 -> buf_wf p -> buf_wf B -> is_u32 g -> 0 <= b ->
  b_size salt1 <= 1024 -> b_size salt2 <= 1024 -> fits (4096 + zlen password) -> b_size p = 256 ->
  contents B = padded Bn -> 0 < P -> 0 < Bn ->
  (forall i a m, tl_inputCheckPasswordSRP i a m <> []) ->
  obj algo = PasswordKdfAlgoModPow salt1 salt2 g p -> obj account = Account_password (Some algo) B id ->
  obj auth = Auth_authorization required token (Some me) ->
  answer (asked s ++ queries ++ [tl_account_getPassword]) = Some account ->
  checks_password (asked s ++ queries ++ [tl_account_getPassword]) password (contents salt1) (contents salt2) (contents p) g id b auth ->
  exists s', tg_connect tl_table (S fuel) stack (Some (application phone code password)) s = Ok (0, s') /\
    user s' = user s ++ conversation phone code password /\
    asked s' = asked s ++ queries ++ [tl_account_getPassword; tl_auth_checkPassword (tl_inputCheckPasswordSRP id (padded A) M1)] /\
    did s' = did s ++ key_deeds (did s) (c_id c) (negotiated (c_ip c) (c_port c)) ++ ip_deeds (c_id c) (c_ip c) /\
    contents (c_key (conn s')) = negotiated (c_ip c) (c_port c).
Proof.
  intros c P A Bn M1 queries Hph Hco Hpa Hpw Hk0 Hkw Hid Hip Hdb Htok Hc Hoc Hs Hos Hh He Hoe
    W1 W2 Wp WB Hg Hb Hs1 Hs2 Hfit Lp EB HP HB Hne Halgo Hacc Hauth Hget Hchk.
  set (f := application phone code password). unfold tg_connect.
  erewrite bind_eq by (unfold tg_is_authorized; erewrite bind_eq by reflexivity; fold c; rewrite Hk0; reflexivity).
  cbv iota beta. rewrite (bind_eq _ _ _ _ _ (no_phone s Hid Hdb)). told. cbn [fst f application].
  set (s1 := set_user _ s). told.
  set (s2 := set_user _ s1). rewrite (bind_eq _ _ _ _ _ (sendCode_ok fuel phone cfg l sent hash s2 Hid Hc Hoc Htok Hs Hos)).
  set (s3 := Client _ _ _ _ _). told. cbn [fst f application].
  set (s4 := set_user _ s3). told.
  set (s5 := set_user _ s4).
  assert (Ea5 : asked s5 = asked s ++ [init_query c; code_query c phone]) by reflexivity.
  assert (He5 : answer (asked s5 ++ [tl_auth_signIn phone text code]) = Some err) by (rewrite Ea5, <- app_assoc; exact He).
  rewrite (bind_eq _ _ _ _ _ (signIn_refused stack sent hash text phone code err e m s5 Hos Hh He5 Hoe)).
  set (s6 := ask _ (in_session s5)).
  assert (Ea6 : asked s6 = asked s ++ queries) by (unfold s6, ask, in_session; cbn [asked set_conn]; rewrite Ea5, <- app_assoc; reflexivity).
  assert (Ec6 : conn s6 = set_config l (keyed_conn c)) by apply keyed_config.
  told. cbn [fst f application].
  set (s7 := set_user _ s6). told.
  set (s8 := set_user _ s7). assert (Ea8 : asked s8 = asked s ++ queries) by exact Ea6.
  assert (Ec8 : conn s8 = set_config l (keyed_conn c)) by exact Ec6.
  assert (Hget8 : answer (asked s8 ++ [tl_account_getPassword]) = Some account) by (rewrite Ea8, <- app_assoc; exact Hget).
  assert (Hchk8 : checks_password (asked s8 ++ [tl_account_getPassword]) password (contents salt1) (contents salt2) (contents p) g id b auth)
    by (rewrite Ea8, <- app_assoc; exact Hchk).
  assert (Eid : c_id (conn s8) = c_id c) by (rewrite Ec8; apply keyed_conn_id).
  assert (Eip : c_ip (conn s8) = c_ip c) by (rewrite Ec8; apply keyed_conn_ip).
  assert (Hid8 : is_i32 (c_id (conn s8))) by (by rewrite Eid).
  assert (Hip8 : zlen (c_ip (conn s8)) < 16) by (by rewrite Eip).
  assert (Hkw8 : buf_wf (c_key (conn s8))) by (rewrite Ec8; by apply keyed_conn_key).
  assert (Ek : contents (c_key (keyed_conn (conn s8))) = negotiated (c_ip c) (c_port c)).
  { rewrite Ec8, keyed_config. unfold keyed_conn. rewrite Hk0. apply contents_fresh. }
  pose proof (check_password_ok password salt1 salt2 g p B id b account algo auth required token (Some me) s8
    Hpw W1 W2 Wp WB Hg Hb Hs1 Hs2 Hfit Lp EB HP HB Hne Halgo Hacc Hauth Hid8 Hkw8 Hip8 Hget8 Hchk8) as E9. cbv zeta in E9.
  rewrite Eid, Eip, Ek in E9.
  rewrite (bind_eq _ _ _ _ _ E9). set (s9 := Client _ _ _ _ _).
  told. eexists. split; [reflexivity |]. split; [| split; [| split]].
  - unfold s9, s8, s7, s6, s5, s4, s3, s2, s1. cbn [user set_user ask in_session set_conn Service.user snd f application]. unfold conversation. by rewrite <- !app_assoc.
  - cbn [asked set_user]. unfold s9. cbn [asked]. rewrite Ea8, <- app_assoc. reflexivity.
  - reflexivity.
  - exact Ek.
Qed.

(** the answers of the application are written into an array of 256
    characters: a phone number of 242 characters or more overflows it. *)
Theorem tg_connect_long_phone_overflows fuel stack phone code password (s : client (list event)) :
  b_size (c_key (conn s)) = 0 -> is_i32 (c_id (conn s)) -> default [] (sql_rows (did s) (phone_sql (c_id (conn s)))) = [] ->
  242 <= zlen phone ->
  tg_connect tl_table fuel stack (Some (application phone code password)) s = Err OutOfBounds.
Proof.
  intros Hk Hid Hdb Hl. unfold tg_connect.
  erewrite bind_eq by (unfold tg_is_authorized; erewrite bind_eq by reflexivity; rewrite Hk; reflexivity).
  cbv iota beta. rewrite (bind_eq _ _ _ _ _ (no_phone s Hid Hdb)). told. cbn [fst application].
  apply bind_err. unfold _TG_CB. apply bind_err. unfold lift. rewrite zlen_app. change (zlen (chars "phone number: ")) with 14.
  by replace (14 + zlen phone <? 256) with false by lia.
Qed.
End LoginFacts.
