(* ===== verification/Init.v ===== *)
(** * A session begins: database_init, tg_new

    libtg/tg/database.c, tg.c and the table of libtg/tg/messages.c.  The
    tables are made, columns that are there already give errors that are
    ignored, and the key and the address of the account are read. *)
From stdpp Require Import strings pretty.
From S2P Require Import Prelude TlBuf Serial Errors Tg Packet Queue Objects Service Sql Database Entities Login.

Section Init.
Context `{Env} `{OpenSSL} `{Sqlite} {U : Type}.

(** ** messages.c *)
Fixpoint exec_all (l : list (list Z)) : F U unit :=
  match l with [] => mret tt | sql :: l => sql ← sprintf_ sql; _ ← tg_sqlite3_exec sql; exec_all l end.
Definition messages_texts : list (list Z) :=
  [chars "CREATE TABLE IF NOT EXISTS messages (id INT); ";
   chars "ALTER TABLE messages ADD COLUMN msg_id_ INT; ";
   chars "ALTER TABLE messages ADD COLUMN id_peer_id_msg_id_ TEXT; ";
   chars "ALTER TABLE messages ADD COLUMN message_data BLOB; ";
   chars "ALTER TABLE messages ADD COLUMN date INT; ";
   chars "ALTER TABLE messages ADD COLUMN peer_id INT; "].
Definition tg_messages_create_table : F U unit := exec_all messages_texts.

(** ** database.c *)
Definition tables_text : list Z :=
  chars "CREATE TABLE IF NOT EXISTS ips (id INT); " ++
  chars "CREATE TABLE IF NOT EXISTS phone_numbers (id INT); " ++
  chars "CREATE TABLE IF NOT EXISTS auth_tokens (id INT); " ++
  chars "CREATE TABLE IF NOT EXISTS auth_keys (id INT); " ++
  chars "CREATE TABLE IF NOT EXISTS dialogs_hash (id INT); " ++
  chars "CREATE TABLE IF NOT EXISTS messages_hash (id INT); " ++
  chars "CREATE TABLE IF NOT EXISTS photos (id INT); " ++
  chars "CREATE TABLE IF NOT EXISTS peer_photos (id INT); ".
Definition database_init : F U Z :=
  if negb sql_creates then mret 1
  else
    _ ← tg_sqlite3_exec (chars "PRAGMA journal_mode = wal;");
    _ ← tg_sqlite3_exec (chars "PRAGMA busy_timeout = 5000;");
    _ ← tg_sqlite3_exec tables_text;
    _ ← tg_messages_create_table;
    _ ← tg_dialogs_create_table;
    _ ← tg_chat_create_table;
    _ ← tg_channel_create_table;
    _ ← tg_user_create_table;
    mret 0.

(** ** tg.c *)
Definition SERVER_IP : list Z := chars "149.154.167.50".
Definition SERVER_PORT : Z := 443.

(** The bytes 12 to 19 of the digest. *)
Definition init_key_id (key : buf_t) : res Z :=
  key_hash ← tg_hsh_sha1 key;
  auth_key_id ← buf_add (data_at key_hash 12) 8;
  buf_get_ui64 auth_key_id.

(** The fields of the new [tg_t], and its [key_id]; [None] for NULL.  The
    mutexes are taken to be initialised. *)
Definition tg_new (id apiId : Z) (apiHash : list Z) : F U (option Z) :=
  _ ← on_conn (fun _ => Conn id 0 [] (Buf [] 0 0 0) [] 0 None);
  failed ← database_init;
  if negb (failed =? 0) then mret None
  else
    _ ← on_conn (fun c => Conn id apiId (take 33 apiHash) (c_key c) (c_ip c) (c_port c) None);
    ip ← ip_address_from_database;
    let ip := match ip with Some ip => ip | None => SERVER_IP end in
    _ ← on_conn (set_address (copy_ip ip) SERVER_PORT);
    key ← auth_key_from_database;
    _ ← on_conn (set_key key);
    if b_size key =? 0 then mret (Some 0) else k ← lift (init_key_id key); mret (Some k).
End Init.
