(* ===== verification/InitFacts.v ===== *)
(** * A session is restored

    What a login stores, a later start of the program reads: the key, its
    number and the address, while the tables are made again. *)
From stdpp Require Import strings pretty.
From S2P Require Import Prelude TlBuf Serial HashCommon Errors Tg Packet TlParser TlParserFacts Queue Objects Service Sql Database DatabaseFacts Entities EntitiesFacts Login Init.

(** ** The texts of the tables *)
Definition add_column (e : entity) (a : arg) : list stmt := [AddColumn (Quoted (e_table e)) (Quoted (a_name a)) (a_sql a)].
Definition create_stmt (e : entity) : list stmt := [CreateTable (e_table e) [("id"%string, false); (e_key e, true)]].
Lemma alter_renders e fin a : blanks fin -> renders (alter_text e fin a) (add_column e a).
Proof.
  intros Hf. exists [32], [32], fin. split_and!; [blanks_ok | discriminate | blanks_ok | exact Hf |].
  unfold alter_text, add_column, print_sql. cbn [fmap list_fmap sep_by print_stmt print_name]. spaces. reflexivity.
Qed.
Lemma create_renders e fin : blanks fin -> renders (create_text e fin) (create_stmt e).
Proof.
  intros Hf. exists [32], [32], fin. split_and!; [blanks_ok | discriminate | blanks_ok | exact Hf |].
  unfold create_text, create_stmt, print_sql. cbn [fmap list_fmap sep_by print_stmt fst snd]. spaces. reflexivity.
Qed.

Definition bare_column (c ty : string) : list stmt := [AddColumn (Bare "messages") (Bare c) ty].
Definition messages_stmts : list (list stmt) :=
  [[CreateTable "messages" [("id"%string, false)]]; bare_column "msg_id_" "INT"; bare_column "id_peer_id_msg_id_" "TEXT";
   bare_column "message_data" "BLOB"; bare_column "date" "INT"; bare_column "peer_id" "INT"].
Definition tables_stmts : list stmt :=
  (fun t => CreateTable t [("id"%string, false)]) <$>
    ["ips"; "phone_numbers"; "auth_tokens"; "auth_keys"; "dialogs_hash"; "messages_hash"; "photos"; "peer_photos"]%string.
Definition pragmas : list (list stmt) := [[Pragma "journal_mode = wal"]; [Pragma "busy_timeout = 5000"]].

Lemma messages_render : Forall2 renders messages_texts messages_stmts.
Proof. repeat apply List.Forall2_cons; try apply List.Forall2_nil; exists [32], [32], [32]; (split_and!; [blanks_ok | discriminate | blanks_ok | blanks_ok | reflexivity]). Qed.
Lemma tables_render : renders tables_text tables_stmts.
Proof. exists [32], [32], [32]. split_and!; [blanks_ok | discriminate | blanks_ok | blanks_ok | vm_compute; reflexivity]. Qed.
Lemma pragmas_render : Forall2 renders [chars "PRAGMA journal_mode = wal;"; chars "PRAGMA busy_timeout = 5000;"] pragmas.
Proof. repeat apply List.Forall2_cons; try apply List.Forall2_nil; exists [32], [32], []; (split_and!; [blanks_ok | discriminate | blanks_ok | blanks_ok | reflexivity]). Qed.

Definition entity_stmts (e : entity) : list (list stmt) := create_stmt e :: (add_column e <$> e_args e).
(** Everything [database_init] executes. *)
Definition init_stmts : list (list stmt) :=
  pragmas ++ [tables_stmts] ++ messages_stmts ++ entity_stmts dialogs ++ entity_stmts chats ++ entity_stmts channels ++ entity_stmts users.

(** ** Tables that are left as they are *)
Definition keeps (t : string) (s : stmt) : Prop :=
  match s with CreateTable _ _ | Pragma _ => True | AddColumn t' _ _ => id_of t' <> t | _ => False end.
Lemma stmt_keeps t tb st s st' : keeps t s -> st !! t = Some tb -> run_stmt VNull st s = Some st' -> st' !! t = Some tb.
Proof.
  destruct s as [t' cs | | | [t' | t'] c ty | | | | | | |]; cbn [keeps run_stmt id_of]; try done; intros Hk Et.
  - intros [= <-]. destruct (st !! t') eqn:E; [exact Et |]. rewrite lookup_insert_ne by congruence. exact Et.
  - intros [= <-]. exact Et.
  - destruct (st !! t') as [tb'|]; [| discriminate]. cbn [mbind option_bind]. destruct (bool_decide _); [discriminate |]. intros [= <-]. by rewrite lookup_insert_ne.
  - destruct (st !! t') as [tb'|]; [| discriminate]. cbn [mbind option_bind]. destruct (bool_decide _); [discriminate |]. intros [= <-]. by rewrite lookup_insert_ne.
Qed.
Lemma run_keeps t tb ss : Forall (keeps t) ss -> forall st, st !! t = Some tb -> snd (run_all st ss) !! t = Some tb.
Proof.
  induction 1 as [|s ss Hs Hss IH]; intros st Et; [done |]. rewrite run_all_cons. destruct (run_stmt VNull st s) as [st'|] eqn:E; [| exact Et].
  apply IH. by eapply stmt_keeps.
Qed.
Definition session_tables_kept (ss : list stmt) : Prop := Forall (fun s => keeps "auth_keys" s /\ keeps "ips" s) ss.
#[export] Instance keeps_dec t s : Decision (keeps t s).
Proof. destruct s; apply _. Defined.
Lemma init_keeps : Forall session_tables_kept init_stmts.
Proof. unfold session_tables_kept. apply (bool_decide_eq_true_1 _). vm_compute. reflexivity. Qed.
Lemma init_plain : Forall (Forall (fun s => match s with CreateTable _ _ | Pragma _ | AddColumn _ _ _ => true | _ => false end = true)) init_stmts.
Proof. apply (bool_decide_eq_true_1 _). vm_compute. reflexivity. Qed.

Section InitFacts.
Context `{Env} `{OpenSSL} `{Sqlite} (statements : list stmt -> Prop) (queries : select -> Prop) `{!Documented statements queries}.
Context {U : Type}.

(** What a step leaves as it is: the session and two of the tables. *)
Definition silent (s s' : client U) : Prop :=
  conn s' = conn s /\ forall t tb, t = "auth_keys"%string \/ t = "ips"%string ->
    store_of (did s) !! t = Some tb -> store_of (did s') !! t = Some tb.
#[local] Instance silent_preorder : PreOrder silent.
Proof. split; [by intros s; split |]. intros a b c [E1 K1] [E2 K2]. split; [congruence | eauto]. Qed.

Lemma exec_silent sql ss (s : client U) : statements ss -> ss ∈ init_stmts -> renders sql ss ->
  exists r, tg_sqlite3_exec sql s = Ok (r, does (Exec sql) s) /\ silent s (does (Exec sql) s).
Proof.
  intros Hs Hin Ht. pose proof init_keeps as Hk. pose proof init_plain as Hp. rewrite Forall_forall in Hk, Hp.
  apply list_elem_of_In in Hin. specialize (Hk _ Hin). specialize (Hp _ Hin).
  assert (Hpl : Forall plain ss) by (eapply Forall_impl; [| exact Hp]; intros []; done).
  destruct (exec_runs statements queries _ _ s Hs Hpl Ht) as [E St]. eexists. split; [exact E |]. split; [reflexivity |].
  intros t tb Htt Et. rewrite St. apply run_keeps; [| exact Et]. eapply Forall_impl; [| exact Hk]. cbv beta. intros x [K1 K2]. by destruct Htt as [-> | ->].
Qed.

Lemma exec_all_silent l ls : Forall2 renders l ls -> Forall (fun ss => statements ss /\ ss ∈ init_stmts) ls -> Forall (fun t => zlen t < 256) l ->
  forall s : client U, exists s', exec_all l s = Ok (tt, s') /\ silent s s'.
Proof.
  induction 1 as [|t ss l ls Ht Hl IH]; intros Hs Hz s; [by exists s |].
  apply Forall_cons_1 in Hs as [[Hs1 Hs2] Hs], Hz as [Hz1 Hz]. pose proof BUFSIZ_min.
  destruct (exec_silent t ss s Hs1 Hs2 Ht) as (r & E & K). destruct (IH Hs Hz (does (Exec t) s)) as (s' & E' & K').
  exists s'. split; [| by etrans]. cbn [exec_all]. erewrite bind_eq by (apply sprintf_ok; lia). rewrite (bind_eq _ _ _ _ _ E). exact E'.
Qed.

Lemma alter_loop_silent e fin l : blanks fin -> Forall (fun a => statements (add_column e a) /\ add_column e a ∈ init_stmts) l ->
  Forall (fun a => zlen (alter_text e fin a) < 256) l ->
  forall s : client U, exists s', alter_loop e fin l s = Ok (tt, s') /\ silent s s'.
Proof.
  intros Hb. induction l as [|a l IH]; intros Hs Hz s; [by exists s |].
  apply Forall_cons_1 in Hs as [[Hs1 Hs2] Hs], Hz as [Hz1 Hz]. pose proof BUFSIZ_min.
  destruct (exec_silent _ _ s Hs1 Hs2 (alter_renders e fin a Hb)) as (r & E & K). destruct (IH Hs Hz (does (Exec (alter_text e fin a)) s)) as (s' & E' & K').
  exists s'. split; [| by etrans]. cbn [alter_loop]. erewrite bind_eq by (apply sprintf_ok; lia). rewrite (bind_eq _ _ _ _ _ E). exact E'.
Qed.

Lemma create_silent e fin1 fin2 : blanks fin1 -> blanks fin2 -> Forall statements (entity_stmts e) -> Forall (.∈ init_stmts) (entity_stmts e) ->
  zlen (create_text e fin1) < 256 -> Forall (fun a => zlen (alter_text e fin2 a) < 256) (e_args e) ->
  forall s : client U, exists s', create_table e fin1 fin2 s = Ok (tt, s') /\ silent s s'.
Proof.
  intros H1' H2' Hs Hi Hz1 Hz2 s. apply Forall_cons_1 in Hs as [Hs1 Hs], Hi as [Hi1 Hi]. pose proof BUFSIZ_min.
  destruct (exec_silent _ _ s Hs1 Hi1 (create_renders e fin1 H1')) as (r & E & K).
  assert (Ha : Forall (fun a => statements (add_column e a) /\ add_column e a ∈ init_stmts) (e_args e)).
  { rewrite Forall_fmap in Hs, Hi. by apply Forall_and. }
  destruct (alter_loop_silent e fin2 _ H2' Ha Hz2 (does (Exec (create_text e fin1)) s)) as (s' & E' & K').
  exists s'. split; [| by etrans]. unfold create_table. erewrite bind_eq by (apply sprintf_ok; lia). rewrite (bind_eq _ _ _ _ _ E). exact E'.
Qed.

Lemma among_init (P : list stmt -> Prop) : Forall P init_stmts ->
  Forall P pragmas /\ P tables_stmts /\ Forall P messages_stmts /\ Forall P (entity_stmts dialogs) /\ Forall P (entity_stmts chats) /\
  Forall P (entity_stmts channels) /\ Forall P (entity_stmts users).
Proof.
  unfold init_stmts. rewrite !Forall_app, Forall_singleton. tauto.
Qed.

(** The four tables with many columns. *)
Lemma made_silent e fin1 fin2 : (e, fin1, fin2) ∈ [(dialogs, [], [10]); (chats, [32], []); (channels, [32], []); (users, [32], [])] ->
  Forall statements init_stmts -> forall s : client U, exists s', create_table e fin1 fin2 s = Ok (tt, s') /\ silent s s'.
Proof.
  intros He Hs. destruct (among_init _ Hs) as (_ & _ & _ & Sd & Sc & Sch & Su).
  assert (Hall : Forall (.∈ init_stmts) init_stmts) by (apply Forall_forall; intros x Hx; by apply list_elem_of_In).
  destruct (among_init _ Hall) as (_ & _ & _ & Id & Ic & Ich & Iu). clear Hall Hs.
  assert (Hf : forall e, Forall statements (entity_stmts e) -> Forall (.∈ init_stmts) (entity_stmts e) -> blanks fin1 -> blanks fin2 ->
    (bool_decide (zlen (create_text e fin1) < 256) && forallb (fun a => zlen (alter_text e fin2 a) <? 256) (e_args e)) = true ->
    forall s : client U, exists s', create_table e fin1 fin2 s = Ok (tt, s') /\ silent s s').
  { intros e' Hs Hi B1 B2 [Hz1%bool_decide_eq_true_1 Hz2]%andb_prop. apply create_silent; try done.
    apply Forall_forall. intros a Ha. rewrite forallb_forall in Hz2. specialize (Hz2 a). rewrite Z.ltb_lt in Hz2. exact (Hz2 Ha). }
  repeat (apply elem_of_cons in He as [[= -> -> ->] | He]; [apply Hf; [assumption | assumption | blanks_ok | blanks_ok | vm_compute; reflexivity] |]).
  by apply not_elem_of_nil in He.
Qed.

Lemma database_init_silent (s : client U) : Forall statements init_stmts -> sql_creates = true ->
  exists s', database_init s = Ok (0, s') /\ silent s s'.
Proof.
  intros Hs Hc. unfold database_init. rewrite Hc. cbn [negb].
  destruct (among_init _ Hs) as (Sp & St & Sm & _).
  assert (Hall : Forall (.∈ init_stmts) init_stmts) by (apply Forall_forall; intros x Hx; by apply list_elem_of_In).
  destruct (among_init _ Hall) as (Ip & It & Im & _). clear Hall.
  pose proof pragmas_render as Rp. inversion Rp as [|? ? ? ? R1 Rp']; subst. inversion Rp' as [|? ? ? ? R2 _]; subst.
  apply Forall_cons_1 in Sp as [Sp1 [Sp2 _]%Forall_cons_1], Ip as [Ip1 [Ip2 _]%Forall_cons_1].
  destruct (exec_silent _ _ s Sp1 Ip1 R1) as (r1 & E1 & K1). rewrite (bind_eq _ _ _ _ _ E1).
  set (s1 := does _ s) in *. destruct (exec_silent _ _ s1 Sp2 Ip2 R2) as (r2 & E2 & K2). rewrite (bind_eq _ _ _ _ _ E2).
  set (s2 := does _ s1) in *. destruct (exec_silent _ _ s2 St It tables_render) as (r3 & E3 & K3). rewrite (bind_eq _ _ _ _ _ E3).
  set (s3 := does _ s2) in *.
  destruct (exec_all_silent _ _ messages_render ltac:(by apply Forall_and) ltac:(repeat constructor) s3) as (s4 & E4 & K4).
  unfold tg_messages_create_table. rewrite (bind_eq _ _ _ _ _ E4).
  destruct (made_silent dialogs [] [10] ltac:(by left) Hs s4) as (s5 & E5 & K5).
  destruct (made_silent chats [32] [] ltac:(by right; left) Hs s5) as (s6 & E6 & K6).
  destruct (made_silent channels [32] [] ltac:(by do 2 right; left) Hs s6) as (s7 & E7 & K7).
  destruct (made_silent users [32] [] ltac:(by do 3 right; left) Hs s7) as (s8 & E8 & K8).
  unfold tg_dialogs_create_table, tg_chat_create_table, tg_channel_create_table, tg_user_create_table.
  rewrite (bind_eq _ _ _ _ _ E5), (bind_eq _ _ _ _ _ E6), (bind_eq _ _ _ _ _ E7), (bind_eq _ _ _ _ _ E8).
  exists s8. split; [reflexivity |]. do 7 (etrans; [eassumption |]). eassumption.
Qed.

(** ** What a login stores *)
Definition insert_key_stmt (id : Z) : list stmt := [InsertMissing "auth_keys" (Bare "id") id].
Definition update_key_stmt (id : Z) : stmt := Update "auth_keys" [(Quoted "auth_key", LParam)] (Some (Bare "id", id)).
Definition login_stmts (id : Z) (ip : list Z) : list (list stmt) :=
  [alter "auth_keys" "auth_key" "BLOB"; insert_key_stmt id; [update_key_stmt id]; alter "ips" "ip" "TEXT"; upsert "ips" "ip" id ip].

Lemma alter_keys_render : renders alter_keys (alter "auth_keys" "auth_key" "BLOB").
Proof. unfold alter_keys. rendered [32]. Qed.
Lemma insert_key_render id : renders (insert_key id) (insert_key_stmt id).
Proof. unfold insert_key, insert_key_stmt. rendered [32]. Qed.
Lemma update_key_render id : renders (update_key id) [update_key_stmt id].
Proof. unfold update_key, update_key_stmt. rendered [32]. Qed.
Lemma alter_ips_render : renders alter_ips (alter "ips" "ip" "TEXT").
Proof. unfold alter_ips. rendered [32]. Qed.
Lemma upsert_ip_render id ip : renders (upsert_ip id ip) (upsert "ips" "ip" id ip).
Proof. unfold upsert_ip. rendered [32]. Qed.

(** Rows of the account have its key, and there is one. *)
Definition has_key (id : Z) (key : list Z) (tb : table) : Prop :=
  exists n, (fun r => [column "auth_key" r]) <$> filter (fun r => forallb (fun x => cond_holds x r) [(Bare "id", id)] = true) (t_rows tb) =
    replicate (S n) [VBlob key].

Lemma update_has_key id key rs : existsb (cond_holds (Bare "id", id)) rs = true ->
  exists n, (fun r => [column "auth_key" r]) <$> filter (fun r => forallb (fun x => cond_holds x r) [(Bare "id", id)] = true)
    ((fun r => if cond_holds (Bare "id", id) r then <["auth_key"%string := VBlob key]> r else r) <$> rs) = replicate (S n) [VBlob key].
Proof.
  assert (Hpre : forall rs, exists n, (fun r => [column "auth_key" r]) <$> filter (fun r => forallb (fun x => cond_holds x r) [(Bare "id", id)] = true)
    ((fun r => if cond_holds (Bare "id", id) r then <["auth_key"%string := VBlob key]> r else r) <$> rs) = replicate n [VBlob key] /\
    (existsb (cond_holds (Bare "id", id)) rs = true -> (0 < n)%nat)).
  { clear rs. induction rs as [|r rs (n & IH & Hn)]; [by exists 0%nat |]. rewrite fmap_cons.
    destruct (cond_holds (Bare "id", id) r) eqn:Er.
    - exists (S n). split; [| lia]. rewrite filter_cons_True.
      + rewrite fmap_cons, IH. unfold column. by rewrite lookup_insert_eq.
      + cbn in *. rewrite andb_true_r. unfold column in *. by rewrite lookup_insert_ne.
    - exists n. rewrite filter_cons_False by (cbn in *; by rewrite Er). split; [exact IH |]. cbn [existsb]. by rewrite Er. }
  intros Hex. destruct (Hpre rs) as (n & E & Hn). specialize (Hn Hex). exists (pred n). rewrite E. by rewrite Nat.succ_pred_pos.
Qed.

Lemma key_stored key tb (s : client U) :
  let id := c_id (conn s) in
  Forall statements (take 3 (login_stmts id [])) -> is_i32 id -> buf_wf key ->
  store_of (did s) !! "auth_keys"%string = Some tb -> "id"%string ∈ t_cols tb ->
  exists s' tb', auth_key_to_database key s = Ok (0, s') /\ conn s' = conn s /\
    store_of (did s') !! "auth_keys"%string = Some tb' /\ "id"%string ∈ t_cols tb' /\ "auth_key"%string ∈ t_cols tb' /\ has_key id (contents key) tb' /\
    (forall t, t <> "auth_keys"%string -> store_of (did s') !! t = store_of (did s) !! t).
Proof.
  intros id Hs Hid Hk Et Hcol. apply Forall_cons_1 in Hs as [S1 [S2 [S3 _]%Forall_cons_1]%Forall_cons_1].
  destruct (exec_runs statements queries _ _ s S1 ltac:(by repeat constructor) alter_keys_render) as [E1 St1].
  destruct (run_alter (store_of (did s)) "auth_keys" "auth_key" "BLOB" tb Et) as (tb1 & Et1 & Hc1 & Hk1 & _).
  assert (Ho1 : forall t, t <> "auth_keys"%string -> store_of (did (does (Exec alter_keys) s)) !! t = store_of (did s) !! t).
  { intros t Ht. rewrite St1. unfold alter. cbn [run_all run_stmt id_of]. rewrite Et. cbn [mbind option_bind]. destruct (bool_decide _); [done |].
    cbn [snd]. by rewrite lookup_insert_ne. }
  rewrite <- St1 in Et1. set (s1 := does _ s) in *.
  destruct (exec_runs statements queries _ _ s1 S2 ltac:(by repeat constructor) (insert_key_render id)) as [E2 St2].
  set (s2 := does _ s1) in *.
  set (rs2 := if existsb (cond_holds (Bare "id", id)) (t_rows tb1) then t_rows tb1 else t_rows tb1 ++ [{["id"%string := VInt id]}]).
  assert (Hr2 : run_all (store_of (did s1)) (insert_key_stmt id) = (true, <["auth_keys"%string := with_rows tb1 rs2]> (store_of (did s1)))).
  { unfold insert_key_stmt. cbn [run_all run_stmt id_of]. rewrite Et1. cbn [mbind option_bind]. rewrite bool_decide_true by (by apply Hk1).
    unfold rs2. destruct (existsb _ _); [| done]. f_equal. symmetry. apply insert_id. rewrite Et1. by destruct tb1. }
  rewrite Hr2 in E2, St2. cbn [fst snd] in E2, St2.
  assert (Hex : existsb (cond_holds (Bare "id", id)) rs2 = true).
  { unfold rs2. destruct (existsb _ (t_rows tb1)) eqn:Ex; [exact Ex |]. rewrite existsb_app. apply orb_true_intro. right.
    cbn. rewrite orb_false_r. apply bool_decide_true. unfold column. by rewrite lookup_singleton_eq. }
  destruct (bind_documented (did s2) (update_key id) (update_key_stmt id) (contents key) S3 (update_key_render id)) as [Eb Stb].
  assert (Hr3 : run_stmt (VBlob (contents key)) (store_of (did s2)) (update_key_stmt id) = Some (<["auth_keys"%string := with_rows tb1
    ((fun r => if cond_holds (Bare "id", id) r then <["auth_key"%string := VBlob (contents key)]> r else r) <$> rs2)]> (store_of (did s1)))).
  { rewrite St2. unfold update_key_stmt. cbn [run_stmt]. rewrite lookup_insert_eq. cbn [mbind option_bind with_rows t_cols known forallb fst id_of cond_known].
    rewrite !bool_decide_true by (try exact Hc1; by apply Hk1). cbn [andb]. rewrite insert_insert_eq. reflexivity. }
  rewrite Hr3 in Eb, Stb. rewrite bool_decide_true in Eb by eauto. change (default ?x (Some ?y)) with y in Stb.
  eexists (does (Bind (update_key id) (contents key)) s2), _. split; [| split; [reflexivity |]].
  - unfold auth_key_to_database. rewrite (bind_eq _ _ _ _ _ (id_ok s)). fold id alter_keys. rewrite (bind_eq _ _ _ _ _ E1).
    erewrite bind_eq by (apply sprintf_ok; text_length). fold (insert_key id). rewrite (bind_eq _ _ _ _ _ E2).
    erewrite bind_eq by (apply sprintf_ok; text_length). fold (update_key id). erewrite bind_eq by reflexivity. cbv beta. change (did (does _ s1)) with (did s2).
    rewrite Eb. rewrite (bind_lift _ _ _ _ (load_ok key Hk)). reflexivity.
  - change (did (does (Bind (update_key id) (contents key)) s2)) with (did s2 ++ [Bind (update_key id) (contents key)]). rewrite Stb.
    split; [apply lookup_insert_eq |]. split_and!; [by apply Hk1 | exact Hc1 | by apply update_has_key |].
    intros t Ht. rewrite lookup_insert_ne by by symmetry. by apply Ho1.
Qed.

Lemma ip_stored ip tb (s : client U) :
  let id := c_id (conn s) in
  Forall statements (drop 3 (login_stmts id ip)) -> is_i32 id -> 39 ∉ ip -> zlen ip < 16 ->
  store_of (did s) !! "ips"%string = Some tb -> "id"%string ∈ t_cols tb -> "ip"%string ∉ t_ints tb ->
  exists s' tb', ip_address_to_database ip s = Ok (0, s') /\ conn s' = conn s /\
    store_of (did s') !! "ips"%string = Some tb' /\ "id"%string ∈ t_cols tb' /\ "ip"%string ∈ t_cols tb' /\ all_own "ip" id (VText ip) tb' /\
    (forall t, t <> "ips"%string -> store_of (did s') !! t = store_of (did s) !! t).
Proof.
  intros id Hs Hid Hplain Hlen Et Hcol Htext. apply Forall_cons_1 in Hs as [S1 [S2 _]%Forall_cons_1].
  destruct (exec_runs statements queries _ _ s S1 ltac:(by repeat constructor) alter_ips_render) as [E1 St1].
  destruct (run_alter (store_of (did s)) "ips" "ip" "TEXT" tb Et) as (tb1 & Et1 & Hc1 & Hk1 & Hi1).
  assert (Ho1 : forall t, t <> "ips"%string -> store_of (did (does (Exec alter_ips) s)) !! t = store_of (did s) !! t).
  { intros t Ht. rewrite St1. unfold alter. cbn [run_all run_stmt id_of]. rewrite Et. cbn [mbind option_bind]. destruct (bool_decide _); [done |].
    cbn [snd]. by rewrite lookup_insert_ne. }
  rewrite <- St1 in Et1. set (s1 := does _ s) in *.
  destruct (run_upsert _ _ "ip" id ip tb1 ltac:(done) Et1 (Hk1 _ Hcol) Hc1) as (tb2 & Er & Ecols & Hall).
  unfold kept in Hall. rewrite (Hi1 ltac:(done)), bool_decide_false in Hall by exact Htext. cbn [affine] in Hall.
  destruct (exec_runs statements queries _ _ s1 S2 (plain_upsert _ _ _ _ Hplain) (upsert_ip_render id ip)) as [E2 St2].
  rewrite Er in E2, St2. cbn [fst snd] in E2, St2.
  exists (does (Exec (upsert_ip id ip)) s1), tb2. split; [| split; [reflexivity |]].
  - unfold ip_address_to_database. rewrite (bind_eq _ _ _ _ _ (id_ok s)). fold id alter_ips. rewrite (bind_eq _ _ _ _ _ E1).
    erewrite bind_eq by (apply sprintf_ok; text_length). exact E2.
  - rewrite St2. split; [apply lookup_insert_eq |]. rewrite Ecols. split_and!; [by apply Hk1 | exact Hc1 | exact Hall |].
    intros t Ht. rewrite lookup_insert_ne by by symmetry. by apply Ho1.
Qed.

Lemma key_select id tb st : st !! "auth_keys"%string = Some tb -> "id"%string ∈ t_cols tb -> "auth_key"%string ∈ t_cols tb ->
  forall key, has_key id key tb -> exists n, run_select st (own "auth_key" "auth_keys" id) = Some (replicate (S n) [VBlob key]).
Proof.
  intros Et Hid Hc key (n & E). exists n. unfold own. rewrite run_simple, Et. cbn [mbind option_bind forallb].
  rewrite bool_decide_true by exact Hc. cbn [andb cond_known fst]. rewrite bool_decide_true by exact Hid. cbn [andb]. f_equal. exact E.
Qed.

Lemma read_key key (s : client U) : is_i32 (c_id (conn s)) -> queries (own "auth_key" "auth_keys" (c_id (conn s))) ->
  fits (zlen key) ->
  (exists n, run_select (store_of (did s)) (own "auth_key" "auth_keys" (c_id (conn s))) = Some (replicate (S n) [VBlob key])) ->
  auth_key_from_database s = Ok (fresh key, s).
Proof.
  intros Hid Hq Hf (n & E). unfold auth_key_from_database. rewrite (bind_eq _ _ _ _ _ (id_ok s)).
  erewrite bind_eq by (apply sprintf_ok; text_length).
  replace (chars "SELECT auth_key FROM auth_keys WHERE id = " ++ print_id (c_id (conn s)) ++ chars ";") with
    (print_select (own "auth_key" "auth_keys" (c_id (conn s)))) by (symmetry; unfold own; same_text).
  rewrite (bind_eq _ _ _ _ _ (same_rows statements queries _ _ _ s Hq E eq_refl)). unfold lift. clear E.
  assert (Hadd : buf_add key (zlen key) = Ok (fresh key)).
  { rewrite buf_add_ok; [by rewrite take_ge by (unfold zlen; lia) | | exact Hf]. pose proof (zlen_nonneg key). lia. }
  set (b0 := Buf [] 0 0 0). generalize b0. induction n as [|n IH]; intros b.
  - cbn. unfold column_size, column_bytes_of. cbn. change (Datatypes.id key) with key. by rewrite Hadd.
  - specialize (IH b). cbn in *. unfold column_size, column_bytes_of in *. cbn in *. change (Datatypes.id key) with key in *. rewrite Hadd in *. cbn in *. exact IH.
Qed.

Lemma read_ip ip tb (s : client U) : is_i32 (c_id (conn s)) -> queries (own "ip" "ips" (c_id (conn s))) -> ip <> [] -> zlen ip < 16 ->
  store_of (did s) !! "ips"%string = Some tb -> "ip"%string ∈ t_cols tb -> "id"%string ∈ t_cols tb -> all_own "ip" (c_id (conn s)) (VText ip) tb ->
  ip_address_from_database s = Ok (Some ip, s).
Proof.
  intros Hid Hq Hne Hlen Et Hc Hi Hall. destruct (select_own _ "ips" "ip" (c_id (conn s)) (VText ip) tb Et Hc Hi Hall) as (n & E & _).
  unfold ip_address_from_database, text_from_database. rewrite (bind_eq _ _ _ _ _ (id_ok s)).
  erewrite bind_eq by (apply sprintf_ok; text_length).
  replace (chars "SELECT ip FROM ips WHERE id = " ++ print_id (c_id (conn s)) ++ chars ";") with
    (print_select (own "ip" "ips" (c_id (conn s)))) by (symmetry; unfold own; same_text).
  rewrite (bind_eq _ _ _ _ _ (same_rows statements queries _ _ _ s Hq E eq_refl)).
  assert (Hl : zlen ip < BUFSIZ) by (pose proof BUFSIZ_min; lia). rewrite (bind_lift _ _ _ _ (last_text_same n ip [] Hl)). by rewrite bool_decide_false.
Qed.

Lemma init_key_id_ok key : bytes_ok key -> fits (zlen key) -> init_key_id (fresh key) = Ok (le_num (sub (SHA1 key) 12 8)).
Proof.
  intros Hb Hf. unfold init_key_id. rewrite hsh_sha1_ok, res_bind_ok, contents_fresh by by apply fresh_wf.
  rewrite buf_add_sub, res_bind_ok by (try apply SHA1_bytes; try (rewrite SHA1_length; platform; unfold fits in *; lia); lia).
  assert (L : zlen (sub (SHA1 key) 12 8) = 8) by (rewrite zlen_sub; rewrite ?SHA1_length; lia).
  rewrite buf_get_ui64_fresh by lia. by rewrite take_ge by (unfold zlen in L; lia).
Qed.

(** C27: a session is restored.  The key and the address that a login stores
    are the ones a later [tg_new] for the same account finds, with the
    number of the key: [database_init], which executes 214 statements in
    between, leaves them. *)
Theorem session_restored key ip tk ti (s : client U) :
  let id := c_id (conn s) in
  Forall statements (login_stmts id ip) -> Forall statements init_stmts ->
  queries (own "auth_key" "auth_keys" id) -> queries (own "ip" "ips" id) -> sql_creates = true ->
  is_i32 id -> buf_wf key -> 0 < b_size key -> ip <> [] -> 39 ∉ ip -> zlen ip < 16 ->
  store_of (did s) !! "auth_keys"%string = Some tk -> "id"%string ∈ t_cols tk ->
  store_of (did s) !! "ips"%string = Some ti -> "id"%string ∈ t_cols ti -> "ip"%string ∉ t_ints ti ->
  exists s1, (_ ← auth_key_to_database key; ip_address_to_database ip) s = Ok (0, s1) /\
    forall apiId apiHash, exists s2,
      tg_new id apiId apiHash s1 = Ok (Some (le_num (sub (SHA1 (contents key)) 12 8)), s2) /\
      conn s2 = Conn id apiId (take 33 apiHash) (fresh (contents key)) ip SERVER_PORT None.
Proof.
  intros id Hs Hinit Hqk Hqi Hc Hid Hk Hpos Hne Hplain Hlen Etk Hck Eti Hci Htext.
  rewrite <- (take_drop 3 (login_stmts id ip)) in Hs. apply Forall_app in Hs as [Hs1 Hs2].
  destruct (key_stored key tk s Hs1 Hid Hk Etk Hck) as (sk & tk' & Ek & Ck & Etk' & Hik & Hak & Hkey & Hother).
  rewrite <- (Hother "ips"%string ltac:(done)) in Eti.
  destruct (ip_stored ip ti sk) as (s1 & ti' & Ei & Ci & Eti' & Hii & Hai & Hip & Hother2); try (rewrite Ck); try assumption.
  rewrite <- (Hother2 "auth_keys"%string ltac:(done)) in Etk'.
  exists s1. split; [by rewrite (bind_eq _ _ _ _ _ Ek) |]. intros apiId apiHash.
  assert (Bk : bytes_ok (contents key)) by by apply contents_ok. assert (Lk : zlen (contents key) = b_size key) by by apply zlen_contents.
  assert (Fk : fits (zlen (contents key))) by (rewrite Lk; destruct Hk as (_ & _ & ? & ? & ? & ?); unfold fits; lia).
  set (s2 := set_conn (Conn id 0 [] (Buf [] 0 0 0) [] 0 None) s1).
  destruct (database_init_silent s2 Hinit Hc) as (s3 & E3 & C3 & K3).
  pose proof (K3 _ _ (or_introl eq_refl) Etk') as Etk3. pose proof (K3 _ _ (or_intror eq_refl) Eti') as Eti3.
  set (s4 := set_conn (Conn id apiId (take 33 apiHash) (Buf [] 0 0 0) [] 0 None) s3).
  assert (Cip : copy_ip ip = ip) by (unfold copy_ip; apply take_ge; unfold zlen in Hlen; lia).
  set (s5 := set_conn (set_address ip SERVER_PORT (conn s4)) s4).
  rewrite Ck in Hip. change (c_id (conn s)) with id in Hip.
  exists (set_conn (set_key (fresh (contents key)) (conn s5)) s5). split; [| reflexivity].
  unfold tg_new. erewrite bind_eq by reflexivity. fold s2. rewrite (bind_eq _ _ _ _ _ E3). cbn [Z.eqb negb].
  erewrite bind_eq by reflexivity. replace (set_conn _ s3) with s4 by (unfold s4; by rewrite C3).
  rewrite (bind_eq _ _ _ _ _ (read_ip ip ti' s4 Hid Hqi Hne Hlen Eti3 Hai Hii Hip)). cbv zeta iota. rewrite Cip.
  erewrite bind_eq by reflexivity. fold s5.
  rewrite (bind_eq _ _ _ _ _ (read_key (contents key) s5 Hid Hqk Fk (key_select id tk' _ Etk3 Hik Hak _ Hkey))).
  erewrite bind_eq by reflexivity. replace (b_size (fresh (contents key)) =? 0) with false by (rewrite size_fresh; lia).
  by rewrite (bind_lift _ _ _ _ (init_key_id_ok (contents key) Bk Fk)).
Qed.
End InitFacts.
