(* ===== verification/Peers.v ===== *)
(** * Users, chats, channels and peers of the server

    libtg/tg/user.c, chat.c, channel.c (what is made of the objects of the
    server, and which of them are saved) and libtg/tg/peer.c.  The macros
    that copy the members of the lists in the headers are functions on these
    lists (Entities.v). *)
From stdpp Require Import strings pretty.
From S2P Require Import Prelude TlBuf Serial Base64 Images Errors Tg Packet TlParser Objects Service Sql Database Entities Files.

(** ** Constructor numbers *)
Definition id_user : Z := 0x83314fca.
Definition id_chat : Z := 0x41cbf256.
Definition id_channel : Z := 0x0aadfc8f.
Definition id_userProfilePhoto : Z := 0x82d1f706.
Definition id_chatPhoto : Z := 0x1c6e1c11.
Definition id_userStatusEmpty : Z := 0x09d05049.
Definition id_userStatusOnline : Z := 0xedb93949.
Definition id_userStatusOffline : Z := 0x008c703f.
Definition id_userStatusRecently : Z := 0x7b197dc8.
Definition id_userStatusLastWeek : Z := 0x541a1d1a.
Definition id_userStatusLastMonth : Z := 0x65899777.
Definition id_peerColor : Z := 0xb54b5acf.
Definition id_inputChannel : Z := 0xf35aec28.
Definition id_inputChannelFromMessage : Z := 0x5b934f9d.
Definition id_chatAdminRights : Z := 0x5fb224d5.
Definition id_chatBannedRights : Z := 0x9f120418.
Definition id_messages_messages : Z := 0x8c718e87.
Definition id_messages_messagesSlice : Z := 0x3a54685e.
Definition id_messages_channelMessages : Z := 0xc776ba4e.
Definition id_contacts_resolvedPeer : Z := 0x7f077ad9.
Definition id_help_peerColorSet : Z := 0x26219a58.
Definition id_help_peerColorProfileSet : Z := 0x767d61eb.
Definition id_help_peerColors : Z := 0x00f8ed08.
Definition id_help_peerColorOption : Z := 0xadec6ebe.

(** The generated functions that write the queries of this part. *)
Class PeerSchema := {
  tl_peerChannel : Z -> list Z;
  tl_peerChat : Z -> list Z;
  tl_peerUser : Z -> list Z;
  tl_contacts_resolvePhone : list Z -> list Z;
  tl_help_getPeerColors : Z -> list Z;
  tl_help_getPeerProfileColors : Z -> list Z;
  tl_inputPeerEmpty : list Z;
  tl_inputChannel : Z -> Z -> list Z;
  tl_channels_readHistory : list Z -> Z -> list Z;
  (* q, filter, offset_peer, offset_id, limit; the dates and the rate are 0 *)
  tl_messages_searchGlobal : list Z -> list Z -> list Z -> Z -> Z -> list Z
}.

(** ** Copying members *)
(** [strndup(data, n)] *)
Fixpoint strndup (data : list Z) (n : nat) : res (list Z) :=
  match n, data with
  | O, _ => Ok []
  | S _, [] => Err OutOfBounds
  | S n, c :: data => if c =? 0 then Ok [] else s ← strndup data n; Ok (c :: s)
  end.
Definition buf_strdup (b : buf_t) : res (list Z) := strndup (data_at b 0) (Z.to_nat (b_size b)).

Definition type_of (l : list arg) (n : string) : ctype :=
  match List.find (fun a => String.eqb (a_member a) n) l with Some a => a_type a | None => U64 end.
Definition put (l : list arg) (n : string) (z : Z) (m : struct_) : struct_ := <[n := Num (cast (type_of l n) z)]> m.
Definition put_text (n : string) (t : option (list Z)) (m : struct_) : struct_ := <[n := Text t]> m.

(** The macro [TG_..._ARGS] in the functions [tg_..._from_tl]. *)
Fixpoint from_args (l : list arg) (t : tl_t) (m : struct_) : res struct_ :=
  match l with
  | [] => Ok m
  | a :: l =>
      m ← (match a_kind a with
           | ARG => Ok (<[a_member a := Num (cast (a_type a) (num_of (a_member a) t))]> m)
           | STR =>
               let b := buf_of (a_member a) t in
               if 0 <? b_size b then s ← buf_strdup b; Ok (put_text (a_member a) (Some s) m) else Ok m
           | _ => Ok m
           end);
      from_args l t m
  end.

(** A member that points to an object of one constructor. *)
Definition sub (n : string) (id : Z) (t : tl_t) : option tl_t :=
  match ptr_of n t with Some p => if _id p =? id then Some p else None | None => None end.
Definition when {A} (o : option A) (f : A -> struct_ -> res struct_) (m : struct_) : res struct_ :=
  match o with Some a => f a m | None => Ok m end.

Definition admin_rights : list string := [
  "change_info"; "post_messages"; "edit_messages"; "delete_messages"; "ban_users"; "invite_users"; "pin_messages";
  "add_admins"; "anonymous"; "manage_call"; "other"; "manage_topics"; "post_stories"; "edit_stories"; "delete_stories"].
Definition banned_rights : list string := [
  "view_messages"; "send_messages"; "send_media"; "send_stickers"; "send_gifs"; "send_games"; "send_inline"; "embed_links";
  "send_polls"; "change_info"; "invite_users"; "pin_messages"; "manage_topics"; "send_photos"; "send_videos";
  "send_roundvideos"; "send_audios"; "send_voices"; "send_docs"; "send_plain"; "until_date"].
Definition put_rights (l : list arg) (prefix : string) (names : list string) (ar : tl_t) (m : struct_) : struct_ :=
  foldl (fun m n => put l (prefix ++ n) (num_of (n ++ "_") ar) m) m names.

Section Peers.
Context `{Env} `{Server} `{Schema} `{PeerSchema} `{Sqlite} {U : Type}.

(** The macro BUF2IMG. *)
Definition BUF2IMG (b : buf_t) : res (option (list Z)) := i ← image_from_photo_stripped b; Base64.buf_to_base64 i.

Definition put_photo (l : list arg) (photo : tl_t) (m : struct_) : res struct_ :=
  thumb ← BUF2IMG (buf_of "stripped_thumb_" photo);
  Ok (put l "photo_dc_id" (num_of "dc_id_" photo)
       (put_text "photo_stripped_thumb" thumb
         (put l "photo_id" (num_of "photo_id_" photo) (put l "photo_has_video" (num_of "has_video_" photo) m)))).
Definition put_color (l : list arg) (n : string) (color : tl_t) (m : struct_) : res struct_ :=
  Ok (put l n (num_of "color_" color) m).
Definition put_admin_rights (l : list arg) (ar : tl_t) (m : struct_) : res struct_ :=
  Ok (put_rights l "chat_admin_rights_" admin_rights ar m).
Definition put_banned_rights (l : list arg) (br : tl_t) (m : struct_) : res struct_ :=
  Ok (put_rights l "chat_default_banned_rights_" banned_rights br m).

(** ** user.c *)
Definition put_status (us : tl_t) (m : struct_) : res struct_ :=
  let p := put TG_USER_ARGS in
  Ok (if _id us =? id_userStatusEmpty then p "user_satus" id_userStatusEmpty m
      else if _id us =? id_userStatusOnline then
        p "user_satus_time" (num_of "expires_" us) (p "user_satus" id_userStatusOnline m)
      else if _id us =? id_userStatusOffline then
        p "user_satus_time" (num_of "was_online_" us) (p "user_satus" id_userStatusOffline m)
      else if _id us =? id_userStatusLastWeek then
        p "user_satus_byme" (num_of "by_me_" us) (p "user_satus" id_userStatusLastWeek m)
      else if _id us =? id_userStatusLastMonth then
        p "user_satus_byme" (num_of "by_me_" us) (p "user_satus" id_userStatusLastMonth m)
      else m).

Definition tg_user_from_tl (tlm : tl_t) : res struct_ :=
  m ← from_args TG_USER_ARGS tlm ∅;
  m ← when (sub "photo_" id_userProfilePhoto tlm) (put_photo TG_USER_ARGS) m;
  m ← when (ptr_of "status_" tlm) put_status m;
  m ← when (sub "color_" id_peerColor tlm) (put_color TG_USER_ARGS "color") m;
  when (sub "profile_color_" id_peerColor tlm) (put_color TG_USER_ARGS "profile_color") m.

Fixpoint tg_users_save (array : list (option tl_t)) : F U unit :=
  match array with
  | [] => mret tt
  | None :: array => tg_users_save array
  | Some user :: array =>
      if _id user =? id_user then
        tgm ← lift (tg_user_from_tl user);
        _ ← tg_user_save tgm;
        tg_users_save array
      else tg_users_save array
  end.

(** ** chat.c *)
Definition tg_chat_from_tl (tlm : tl_t) : res struct_ :=
  m ← from_args TG_CHAT_ARGS tlm ∅;
  m ← when (ptr_of "migrated_to_" tlm) (fun ic m =>
        Ok (if _id ic =? id_inputChannel then
              put TG_CHAT_ARGS "migrated_to_access_hash" (num_of "access_hash_" ic)
                (put TG_CHAT_ARGS "migrated_to_channel_id" (num_of "channel_id_" ic) m)
            else if _id ic =? id_inputChannelFromMessage then
              put TG_CHAT_ARGS "migrated_to_channel_id" (num_of "channel_id_" ic) m
            else m)) m;
  m ← when (sub "photo_" id_chatPhoto tlm) (put_photo TG_CHAT_ARGS) m;
  m ← when (sub "admin_rights_" id_chatAdminRights tlm) (put_admin_rights TG_CHAT_ARGS) m;
  when (sub "default_banned_rights_" id_chatBannedRights tlm) (put_banned_rights TG_CHAT_ARGS) m.

(** ** channel.c *)
Definition tg_channel_from_tl (tlm : tl_t) : res struct_ :=
  m ← from_args TG_CHANNEL_ARGS tlm ∅;
  m ← when (sub "photo_" id_chatPhoto tlm) (put_photo TG_CHANNEL_ARGS) m;
  m ← when (sub "admin_rights_" id_chatAdminRights tlm) (put_admin_rights TG_CHANNEL_ARGS) m;
  m ← when (sub "default_banned_rights_" id_chatBannedRights tlm) (put_banned_rights TG_CHANNEL_ARGS) m;
  m ← when (sub "color_" id_peerColor tlm) (put_color TG_CHANNEL_ARGS "color") m;
  when (sub "profile_color_" id_peerColor tlm) (put_color TG_CHANNEL_ARGS "profile_color") m.

Fixpoint tg_chats_save (array : list (option tl_t)) : F U unit :=
  match array with
  | [] => mret tt
  | None :: array => tg_chats_save array
  | Some c :: array =>
      if _id c =? id_chat then
        tgm ← lift (tg_chat_from_tl c); _ ← tg_chat_save tgm; tg_chats_save array
      else if _id c =? id_channel then
        tgm ← lift (tg_channel_from_tl c); _ ← tg_channel_save tgm; tg_chats_save array
      else tg_chats_save array
  end.

(** The application's callback on a structure; a value that is not 0 stops.
    [None] is NULL. *)
Definition callback_t : Type := option (U -> struct_ -> Z * U).
Definition calls (callback : callback_t) (m : struct_) : F U bool :=
  match callback with
  | None => mret false
  | Some f => u ← gets user; let a := f u m in _ ← modify (set_user (snd a)); mret (negb (fst a =? 0))
  end.

Fixpoint tg_parse_chennels (n : Z) (argv : list (option tl_t)) (callback : callback_t) : F U Z :=
  match argv with
  | [] => mret n
  | None :: _ => fail NullDeref
  | Some c :: argv =>
      if _id c =? id_channel then
        tgm ← lift (tg_channel_from_tl c);
        stop ← calls callback tgm;
        if stop : bool then mret (n + 1) else tg_parse_chennels (n + 1) argv callback
      else tg_parse_chennels n argv callback
  end.

Definition is_messages (tl : tl_t) : bool :=
  (_id tl =? id_messages_channelMessages) || (_id tl =? id_messages_messages) || (_id tl =? id_messages_messagesSlice).

Definition tg_channel_search_global_cb (tl : option tl_t) (callback : callback_t) (on_done : option (U -> U)) : F U unit :=
  _ ← (match tl with
       | Some tl => if is_messages tl then _ ← tg_parse_chennels 0 (vec_of "chats_" tl) callback; mret tt else mret tt
       | None => mret tt
       end);
  match on_done with Some f => modify (fun s => set_user (f (user s)) s) | None => mret tt end.

Definition tg_channel_search_global (query filter : list Z) (offset limit : Z) (callback : callback_t) : F U Z :=
  tl ← tg_send_query (Some (tl_messages_searchGlobal query filter tl_inputPeerEmpty offset limit));
  match tl with
  | None => mret 0
  | Some tl => if is_messages tl then tg_parse_chennels 0 (vec_of "chats_" tl) callback else mret 0
  end.

Definition tg_channel_set_read (peer : tg_peer_t) (max_id : Z) : F U Z :=
  _ ← tg_send_query (Some (tl_channels_readHistory (tl_inputChannel (peer_id peer) (peer_access_hash peer)) max_id));
  mret 0.

(** ** peer.c *)
Definition tg_peer (peer : tg_peer_t) : list Z :=
  if peer_type peer =? TG_PEER_TYPE_CHANNEL then tl_peerChannel (peer_id peer)
  else if peer_type peer =? TG_PEER_TYPE_CHAT then tl_peerChat (peer_id peer)
  else if peer_type peer =? TG_PEER_TYPE_USER then tl_peerUser (peer_id peer)
  else [].

(** The hash of the first of the users, whoever it is. *)
Definition tg_peer_by_phone (phone : list Z) : F U tg_peer_t :=
  tl ← tg_send_query (Some (tl_contacts_resolvePhone phone));
  mret (match tl with
        | Some rp =>
            if _id rp =? id_contacts_resolvedPeer then
              match ptr_of "peer_" rp with
              | Some p =>
                  let type := if (_id p =? TG_PEER_TYPE_USER) || (_id p =? TG_PEER_TYPE_CHANNEL) || (_id p =? TG_PEER_TYPE_CHAT)
                              then _id p else 0 in
                  Peer_ type (first_num p)
                    (match vec_of "users_" rp with Some user :: _ => num_of "access_hash_" user | _ => 0 end)
              | None => Peer_ 0 0 0
              end
            else Peer_ 0 0 0
        | None => Peer_ 0 0 0
        end).

Record tg_colors_t := Colors { rgb0 : Z; rgb1 : Z; rgb2 : Z }.
Fixpoint colors_loop (i : Z) (l : list Z) (c : tg_colors_t) : tg_colors_t :=
  match l with
  | [] => c
  | x :: l =>
      colors_loop (i + 1) l
        (if i =? 0 then Colors x (rgb1 c) (rgb2 c)
         else if i =? 1 then Colors (rgb0 c) x (rgb2 c)
         else if i =? 2 then Colors (rgb0 c) x (rgb2 c)
         else c)
  end.
Definition tg_peer_color_set_to_colors (c : tg_colors_t) (tl : tl_t) : tg_colors_t :=
  if _id tl =? id_help_peerColorSet then colors_loop 0 (nums_of "colors_" tl) c
  else if _id tl =? id_help_peerColorProfileSet then colors_loop 0 (nums_of "palette_colors_" tl) c
  else c.
Definition colors_member (n : string) (pco : tl_t) : tg_colors_t :=
  match ptr_of n pco with Some tl => tg_peer_color_set_to_colors (Colors 0 0 0) tl | None => Colors 0 0 0 end.

(** The loop over the colours; true when the callback stops it. *)
Definition colors_callback_t : Type := option (U -> Z -> tg_colors_t -> tg_colors_t -> Z * U).
Fixpoint peer_colors_loop (l : list (option tl_t)) (callback : colors_callback_t) : F U bool :=
  match l with
  | [] => mret false
  | None :: _ => fail NullDeref
  | Some pco :: l =>
      if _id pco =? id_help_peerColorOption then
        stop ← (match callback with
                | None => mret false
                | Some f =>
                    u ← gets user;
                    let a := f u (num_of "color_id_" pco) (colors_member "colors_" pco) (colors_member "dark_colors_" pco) in
                    _ ← modify (set_user (snd a)); mret (negb (fst a =? 0))
                end);
        if stop : bool then mret true else peer_colors_loop l callback
      else peer_colors_loop l callback
  end.

(** [return hpc->hash_] behind [tl_free(tl)].  The generated reader leaves
    [colors_] NULL when there are no colours. *)
Definition peer_colors (query : list Z) (callback : colors_callback_t) : F U Z :=
  tl ← tg_send_query (Some query);
  match tl with
  | None => mret 0
  | Some hpc =>
      if _id hpc =? id_help_peerColors then
        match vec_of "colors_" hpc with
        | [] => mret 0
        | l => stop ← peer_colors_loop l callback; if stop : bool then mret 0 else fail UseAfterFree
        end
      else mret 0
  end.
Definition tg_get_peer_colors (hash : Z) (callback : colors_callback_t) : F U Z := peer_colors (tl_help_getPeerColors 0) callback.
Definition tg_get_peer_profile_colors (hash : Z) (callback : colors_callback_t) : F U Z :=
  peer_colors (tl_help_getPeerProfileColors 0) callback.
End Peers.
