(* ===== verification/Messages.v ===== *)
(** * Messages: libtg/tg/messages.c, messages.h

    What the library makes of the messages of the server, how it keeps them
    in the database, and the queries about messages.  The database keeps the
    bytes a message was read from, and they are read again when it is asked
    for. *)
From stdpp Require Import strings pretty.
From S2P Require Import Prelude TlBuf Serial Base64 Str Images Errors Tg Packet TlParser Objects Service Sql Database Entities Files Peers.

(** ** The lists of members in the header *)
(** Their SQL types and columns are used by disabled code only.  A [double]
    is the number of its 64 bits. *)
Inductive mkind := M_ARG | M_STR | M_PER | M_SPA | M_SPS | M_RPL | M_FWD.
Record marg := MArg { m_kind : mkind; m_type : ctype; m_member : string }.

Definition TG_MESSAGE_FWD_HEADER_ARGS : list marg := [
  MArg M_ARG Bool_ "imported_";
  MArg M_ARG Bool_ "saved_out_";
  MArg M_PER U64 "from_id_";
  MArg M_STR Str_ "from_name_";
  MArg M_ARG U32 "date_";
  MArg M_ARG U32 "channel_post_";
  MArg M_STR Str_ "post_author_";
  MArg M_PER U64 "saved_from_peer_";
  MArg M_ARG U32 "saved_from_msg_id_";
  MArg M_PER U64 "saved_from_id_";
  MArg M_STR Str_ "saved_from_name_";
  MArg M_ARG U32 "saved_date_";
  MArg M_STR Str_ "psa_type_"].

Definition TG_MESSAGE_REPLY_HEADER_ARGS : list marg := [
  MArg M_ARG Bool_ "reply_to_scheduled_";
  MArg M_ARG Bool_ "forum_topic_";
  MArg M_ARG Bool_ "quote_";
  MArg M_ARG U32 "reply_to_msg_id_";
  MArg M_PER U64 "reply_to_peer_id_";
  MArg M_ARG U32 "reply_to_top_id_";
  MArg M_STR Str_ "quote_text_";
  MArg M_ARG U32 "quote_offset_";
  MArg M_FWD Str_ "reply_from_"].

Definition TG_MESSAGE_ARGS : list marg := [
  MArg M_ARG Bool_ "out_";
  MArg M_ARG Bool_ "mentioned_";
  MArg M_ARG Bool_ "media_unread_";
  MArg M_ARG Bool_ "silent_";
  MArg M_ARG Bool_ "post_";
  MArg M_ARG Bool_ "from_scheduled_";
  MArg M_ARG Bool_ "legacy_";
  MArg M_ARG Bool_ "edit_hide_";
  MArg M_ARG Bool_ "pinned_";
  MArg M_ARG Bool_ "noforwards_";
  MArg M_ARG Bool_ "invert_media_";
  MArg M_ARG Bool_ "offline_";
  MArg M_ARG U32 "id_";
  MArg M_PER U64 "from_id_";
  MArg M_ARG U32 "from_boosts_applied_";
  MArg M_PER U64 "peer_id_";
  MArg M_PER U64 "saved_peer_id_";
  MArg M_ARG U32 "date_";
  MArg M_STR Str_ "message_";
  MArg M_SPA U32 "media_type";
  MArg M_SPA U64 "photo_id";
  MArg M_SPA U64 "photo_access_hash";
  MArg M_SPA U32 "photo_dc_id";
  MArg M_SPA U32 "photo_date";
  MArg M_SPS Str_ "photo_file_reference";
  MArg M_SPS Str_ "photo_stripped";
  MArg M_SPS Str_ "photo_cached_size";
  MArg M_SPS Str_ "photo_sizes";
  MArg M_SPS Str_ "photo_svg";
  MArg M_SPA U64 "geo_long";
  MArg M_SPA U64 "geo_lat";
  MArg M_SPA U64 "geo_access_hash";
  MArg M_SPA U32 "geo_accuracy_radius";
  MArg M_SPS Str_ "video_sizes";
  MArg M_SPA Bool_ "doc_isVideo";
  MArg M_SPA Bool_ "doc_isRound";
  MArg M_SPA Bool_ "doc_isVoice";
  MArg M_SPA U64 "doc_id";
  MArg M_SPA U64 "doc_access_hash";
  MArg M_SPS Str_ "doc_file_reference";
  MArg M_SPA U32 "doc_date";
  MArg M_SPS Str_ "doc_mime_type";
  MArg M_SPA U64 "doc_size";
  MArg M_SPS Str_ "doc_thumbs";
  MArg M_SPS Str_ "doc_video_thumbs";
  MArg M_SPA U32 "doc_dc_id";
  MArg M_SPS Str_ "doc_file_name";
  MArg M_SPA U32 "doc_w";
  MArg M_SPA U32 "doc_h";
  MArg M_SPA U32 "doc_vw";
  MArg M_SPA U32 "doc_vh";
  MArg M_SPA U64 "doc_aduration";
  MArg M_SPA U64 "doc_vduration";
  MArg M_SPS Str_ "doc_title";
  MArg M_SPA U64 "web_id";
  MArg M_SPS Str_ "web_url";
  MArg M_SPS Str_ "web_display_url";
  MArg M_SPA U32 "web_hash";
  MArg M_SPS Str_ "web_type";
  MArg M_SPS Str_ "web_site_name";
  MArg M_SPS Str_ "web_title";
  MArg M_SPS Str_ "web_description";
  MArg M_SPA U64 "web_photo_id";
  MArg M_SPA U64 "web_photo_access_hash";
  MArg M_SPA U32 "web_photo_dc_id";
  MArg M_SPA U32 "web_photo_date";
  MArg M_SPS Str_ "web_photo_file_reference";
  MArg M_SPS Str_ "contact_phone_number";
  MArg M_SPS Str_ "contact_first_name";
  MArg M_SPS Str_ "contact_last_name";
  MArg M_SPS Str_ "contact_vcard";
  MArg M_SPA U64 "contact_user_id";
  MArg M_SPA Bool_ "is_service";
  MArg M_SPA U32 "ttl_period_";
  MArg M_RPL Str_ "reply_to_";
  MArg M_SPA Bool_ "is_sticker";
  MArg M_SPA Bool_ "phone_call_video";
  MArg M_SPA U64 "phone_call_id";
  MArg M_SPA U32 "phone_call_duration";
  MArg M_SPA U32 "phone_call_reason"].

Definition id_messageFwdHeader : Z := 0x4e4df4bb.
Definition id_messageReplyHeader : Z := 0xafbc09db.
Definition id_message : Z := 0x94345242.
Definition id_messageService : Z := 0x2b085862.
Definition id_photo : Z := 0xfb197a65.
Definition id_photoSize : Z := 0x75c78e60.
Definition id_photoCachedSize : Z := 0x021e1ad6.
Definition id_photoStrippedSize : Z := 0xe0b0bc2e.
Definition id_photoPathSize : Z := 0xd8214d41.
Definition id_videoSize : Z := 0xde33b094.
Definition id_messageEntityTextUrl : Z := 0x76a6d327.
Definition id_messageEntityBlockquote : Z := 0xf1ccaaac.
Definition id_messageEntityMentionName : Z := 0xdc7b1140.
Definition id_messageEntityCustomEmoji : Z := 0xc8cf05f8.
Definition id_messageMediaPhoto : Z := 0x695150d7.
Definition id_messageMediaGeo : Z := 0x56e0d474.
Definition id_messageMediaContact : Z := 0x70322949.
Definition id_messageMediaDocument : Z := 0x4cf4d72d.
Definition id_messageMediaWebPage : Z := 0xddf10c3b.
Definition id_geoPoint : Z := 0xb2a2f663.
Definition id_document : Z := 0x8fd4c4d8.
Definition id_webPage : Z := 0xe89c45b2.
Definition id_documentAttributeImageSize : Z := 0x6c37c15c.
Definition id_documentAttributeVideo : Z := 0x17399fad.
Definition id_documentAttributeAudio : Z := 0x9852f9c6.
Definition id_documentAttributeFilename : Z := 0x15590068.
Definition id_documentAttributeSticker : Z := 0x6319d612.
Definition id_messageActionEmpty : Z := 0xb6aef7b0.
Definition id_messageActionChatCreate : Z := 0xbd47cbad.
Definition id_messageActionChatEditTitle : Z := 0xb5a1ce5a.
Definition id_messageActionChatEditPhoto : Z := 0x7fcb13a8.
Definition id_messageActionChatDeletePhoto : Z := 0x95e3fbef.
Definition id_messageActionChatAddUser : Z := 0x15cefd00.
Definition id_messageActionChatDeleteUser : Z := 0xa43f30cc.
Definition id_messageActionChatJoinedByLink : Z := 0x031224c3.
Definition id_messageActionChannelCreate : Z := 0x95d2ac92.
Definition id_messageActionChatMigrateTo : Z := 0xe1037f92.
Definition id_messageActionChannelMigrateFrom : Z := 0xea3948e9.
Definition id_messageActionPhoneCall : Z := 0x80e11a7f.
Definition id_messageActionCustomAction : Z := 0xfae69f56.
Definition id_phoneCallDiscardReasonMissed : Z := 0x85e42301.
Definition id_phoneCallDiscardReasonDisconnect : Z := 0xe095c1a0.
Definition id_phoneCallDiscardReasonHangup : Z := 0x57adc690.
Definition id_phoneCallDiscardReasonBusy : Z := 0xfaf7e8c9.
Definition id_outboxReadDate : Z := 0x3bb842ac.
Definition id_messages_affectedMessages : Z := 0x84d19185.

(** The generated functions that write the queries of this part. *)
Class MessageSchema := {
  (* peer, offset_id, offset_date, add_offset, limit, max_id, min_id, hash *)
  tl_messages_getHistory : list Z -> Z -> Z -> Z -> Z -> Z -> Z -> Z -> list Z;
  tl_inputMessageID : Z -> list Z;
  tl_messages_getMessages : list (list Z) -> list Z;
  tl_channels_getMessages : list Z -> list (list Z) -> list Z;
  tl_messages_sendMessage : list Z -> list Z -> Z -> list Z;
  tl_sendMessageTypingAction : list Z;
  tl_sendMessageCancelAction : list Z;
  tl_messages_setTyping : list Z -> list Z -> list Z;
  tl_messages_readHistory : list Z -> Z -> list Z;
  tl_messages_getOutboxReadDate : list Z -> Z -> list Z;
  tl_messages_deleteMessages : bool -> list Z -> list Z
}.

(** [reply_to_] and, inside it, [reply_from_]; [entities_len] is the length
    of [entities]. *)
Record tg_message_t := Message {
  message_data : buf_t;
  msg : struct_;
  reply_to_ : struct_;
  reply_from_ : struct_;
  entities : list struct_
}.
Definition with_msg (f : struct_ -> struct_) (t : tg_message_t) : tg_message_t :=
  Message (message_data t) (f (msg t)) (reply_to_ t) (reply_from_ t) (entities t).

Definition mtype_of (n : string) : ctype :=
  match List.find (fun a => String.eqb (m_member a) n) TG_MESSAGE_ARGS with Some a => m_type a | None => U64 end.
Definition sets (n : string) (z : Z) (m : struct_) : struct_ := <[n := Num (cast (mtype_of n) z)]> m.

(** The macros TG_MESSAGE..._ARG, STR and PER; a peer is read through a cast
    to [tl_peerUser_t], and its number goes to an [int]. *)
Fixpoint from_margs (l : list marg) (t : tl_t) (m : struct_) : res struct_ :=
  match l with
  | [] => Ok m
  | a :: l =>
      let n := m_member a in
      m ← (match m_kind a with
           | M_ARG => Ok (<[n := Num (cast (m_type a) (num_of n t))]> m)
           | M_STR => let b := buf_of n t in if 0 <? b_size b then s ← buf_strdup b; Ok (put_text n (Some s) m) else Ok m
           | M_PER =>
               Ok (match ptr_of n t with
                   | Some peer => <["type_" +:+ n := Num (i32 (_id peer))]> (<[n := Num (cast (m_type a) (first_num peer))]> m)
                   | None => m
                   end)
           | M_SPA | M_SPS | M_RPL | M_FWD => Ok m
           end);
      from_margs l t m
  end.

Definition tg_message_fwd (tlh : tl_t) : res struct_ := from_margs TG_MESSAGE_FWD_HEADER_ARGS tlh ∅.
Definition tg_message_reply (tlh : tl_t) : res (struct_ * struct_) :=
  m ← from_margs TG_MESSAGE_REPLY_HEADER_ARGS tlh ∅;
  fwd ← (match sub "reply_from_" id_messageFwdHeader tlh with Some h => tg_message_fwd h | None => Ok ∅ end);
  Ok (m, fwd).
Definition reply_of (tlm : tl_t) : res (struct_ * struct_) :=
  match sub "reply_to_" id_messageReplyHeader tlm with Some h => tg_message_reply h | None => Ok (∅, ∅) end.

(** The conversion of a [double] to [uint64_t]; only numbers from 0 on that
    fit have one. *)
Definition u64_of_double (d : Z) : res Z :=
  let e := Z.land (Z.shiftr d 52) 2047 in
  let m := Z.land d (Z.ones 52) in
  if e <? 1023 then Ok 0
  else if (Z.testbit d 63) || (1086 <? e) then Err OutOfBounds
  else Ok (Z.shiftl (Z.setbit m 52) (e - 1075)).

(** ** Entities, media *)
Definition entity_of (t : tl_t) : res struct_ :=
  let n := fun k m => <[k := Num (num_of k t)]> m in
  let base : struct_ := n "length_" (n "offset_" (<["entityType" := Num (_id t)]> ∅)) in
  if _id t =? id_messageEntityTextUrl then s ← buf_strdup (buf_of "url_" t); Ok (put_text "url_" (Some s) base)
  else if _id t =? id_messageEntityBlockquote then Ok (n "collapsed_" base)
  else if _id t =? id_messageEntityMentionName then Ok (n "user_id_" base)
  else if _id t =? id_messageEntityCustomEmoji then Ok (n "document_id_" base)
  else Ok base.
Fixpoint entities_of (l : list (option tl_t)) : res (list struct_) :=
  match l with
  | [] => Ok []
  | None :: _ => Err NullDeref
  | Some t :: l => e ← entity_of t; es ← entities_of l; Ok (e :: es)
  end.

Section Convert.
Context `{Platform}.
(* the fresh block of a string; [%lf]; [TL_NAME_FROM_ID] *)
Variable junk : list Z.
Variable print_lf : Z -> list Z.
Variable TL_NAME_FROM_ID : Z -> option string.

(** [str_appendf] and the macro STR cut the text to their array. *)
Definition STR (t : list Z) : list Z := take (Z.to_nat (BUFSIZ - 2)) t.
(** [%s] of a byte string of the server. *)
Definition s_of (b : buf_t) : res (list Z) := c_str (data_at b 0).
Definition d_of (n : string) (t : tl_t) : list Z := dec (i32 (num_of n t)).

Fixpoint video_loop (argv : list (option tl_t)) (s : list Z) : res (list Z) :=
  match argv with
  | [] => Ok s
  | None :: argv => video_loop argv s
  | Some vs :: argv =>
      if _id vs =? id_videoSize then
        ty ← s_of (buf_of "type_" vs);
        video_loop argv (s ++ STR (ty ++ chars "=" ++ d_of "w_" vs ++ chars "x" ++ d_of "h_" vs ++ chars "=" ++ d_of "size_" vs ++
          chars "=" ++ print_lf (num_of "video_start_ts_" vs) ++ chars " "))
      else video_loop argv s
  end.
Definition video_sizes (argv : list (option tl_t)) (m : struct_) : res struct_ :=
  s ← video_loop argv []; Ok (put_text "video_sizes" (Some s) m).

Fixpoint photo_loop (argv : list (option tl_t)) (s : list Z) (m : struct_) : res (list Z * struct_) :=
  match argv with
  | [] => Ok (s, m)
  | None :: argv => photo_loop argv s m
  | Some ps :: argv =>
      if _id ps =? id_photoSize then
        ty ← s_of (buf_of "type_" ps);
        photo_loop argv (s ++ STR (ty ++ chars "=" ++ d_of "w_" ps ++ chars "x" ++ d_of "h_" ps ++ chars " ")) m
      else if _id ps =? id_photoCachedSize then
        photo_loop argv s (put_text "photo_cached_size" (Some (d_of "w_" ps ++ chars "x" ++ d_of "h_" ps)) m)
      else if _id ps =? id_photoStrippedSize then
        i ← BUF2IMG (buf_of "bytes_" ps); photo_loop argv s (put_text "photo_stripped" i m)
      else if _id ps =? id_photoPathSize then
        svg ← image_from_svg_path junk (buf_of "bytes_" ps); photo_loop argv s (put_text "photo_svg" (Some svg) m)
      else photo_loop argv s m
  end.
Definition photo_sizes (argv : list (option tl_t)) (m : struct_) : res struct_ :=
  r ← photo_loop argv [] m; Ok (put_text "photo_sizes" (Some (fst r)) (snd r)).

(** [tgm->member = buf_strdup(...)] and [= buf_to_base64(...)] *)
Definition dup (n k : string) (t : tl_t) (m : struct_) : res struct_ := s ← buf_strdup (buf_of k t); Ok (put_text n (Some s) m).
Definition base64 (n k : string) (t : tl_t) (m : struct_) : res struct_ :=
  s ← Base64.buf_to_base64 (buf_of k t); Ok (put_text n s m).
Definition nums (l : list (string * string)) (t : tl_t) (m : struct_) : struct_ :=
  foldl (fun m p => sets (fst p) (num_of (snd p) t) m) m l.

Definition media_photo (photo : tl_t) (m : struct_) : res struct_ :=
  m ← base64 "photo_file_reference" "file_reference_" photo
        (nums [("photo_access_hash", "access_hash_"); ("photo_id", "id_"); ("photo_dc_id", "dc_id_"); ("photo_date", "date_")] photo m);
  photo_sizes (vec_of "sizes_" photo) m.

Definition attribute (a : tl_t) (m : struct_) : res struct_ :=
  if _id a =? id_documentAttributeImageSize then Ok (nums [("doc_w", "w_"); ("doc_h", "h_")] a m)
  else if _id a =? id_documentAttributeVideo then
    d ← u64_of_double (num_of "duration_" a);
    Ok (sets "doc_isVideo" 1 (sets "doc_vduration" d (nums [("doc_vw", "w_"); ("doc_vh", "h_")] a m)))
  else if _id a =? id_documentAttributeAudio then
    m ← dup "doc_title" "title_" a m; Ok (nums [("doc_aduration", "duration_")] a m)
  else if _id a =? id_documentAttributeFilename then dup "doc_file_name" "file_name_" a m
  else if _id a =? id_documentAttributeSticker then
    m ← dup "message_" "alt_" a m; Ok (sets "is_sticker" 1 m)
  else Ok m.
Fixpoint attributes (l : list (option tl_t)) (m : struct_) : res struct_ :=
  match l with
  | [] => Ok m
  | None :: l => attributes l m
  | Some a :: l => m ← attribute a m; attributes l m
  end.

(** [doc_isVoice] takes the flag of a video first. *)
Definition media_document (mmp doc : tl_t) (m : struct_) : res struct_ :=
  let m := nums [("doc_isVoice", "video_"); ("doc_isRound", "round_"); ("doc_isVoice", "voice_")] mmp m in
  let m := nums [("doc_id", "id_"); ("doc_access_hash", "access_hash_")] doc m in
  m ← base64 "doc_file_reference" "file_reference_" doc m;
  let m := nums [("doc_date", "date_"); ("doc_size", "size_"); ("doc_dc_id", "dc_id_")] doc m in
  m ← photo_sizes (vec_of "thumbs_" doc) m;
  m ← video_sizes (vec_of "video_thumbs_" doc) m;
  attributes (vec_of "attributes_" doc) m.

Definition media_webpage (web : tl_t) (m : struct_) : res struct_ :=
  let m := nums [("web_id", "id_")] web m in
  m ← dup "web_url" "url_" web m;
  m ← dup "web_display_url" "display_url_" web m;
  let m := nums [("web_hash", "hash_")] web m in
  m ← dup "web_type" "type_" web m;
  m ← dup "web_site_name" "site_name_" web m;
  m ← dup "web_title" "title_" web m;
  m ← dup "web_description" "description_" web m;
  when (sub "photo_" id_photo web) (fun photo m =>
    base64 "web_photo_file_reference" "file_reference_" photo
      (nums [("web_photo_id", "id_"); ("web_photo_access_hash", "access_hash_"); ("web_photo_dc_id", "dc_id_");
             ("web_photo_date", "date_")] photo m)) m.

Definition media_contact (mmp : tl_t) (m : struct_) : res struct_ :=
  m ← dup "contact_phone_number" "phone_number_" mmp m;
  m ← dup "contact_first_name" "first_name_" mmp m;
  m ← dup "contact_last_name" "last_name_" mmp m;
  m ← dup "contact_vcard" "vcard_" mmp m;
  Ok (nums [("contact_user_id", "user_id_")] mmp m).

Definition media (t : tl_t) (m : struct_) : res struct_ :=
  let m := sets "media_type" (_id t) m in
  if _id t =? id_messageMediaPhoto then when (sub "photo_" id_photo t) media_photo m
  else if _id t =? id_messageMediaGeo then
    when (sub "geo_" id_geoPoint t) (fun geo m =>
      Ok (nums [("geo_long", "long_"); ("geo_lat", "lat_"); ("geo_access_hash", "access_hash_");
                ("geo_accuracy_radius", "accuracy_radius_")] geo m)) m
  else if _id t =? id_messageMediaDocument then when (sub "document_" id_document t) (media_document t) m
  else if _id t =? id_messageMediaWebPage then when (sub "webpage_" id_webPage t) media_webpage m
  else if _id t =? id_messageMediaContact then media_contact t m
  else Ok m.

(** ** A message *)
Definition tg_message_from_tl (tlm : tl_t) : res tg_message_t :=
  data ← buf_add_buf (_buf tlm);
  m ← from_margs TG_MESSAGE_ARGS tlm ∅;
  r ← reply_of tlm;
  es ← entities_of (vec_of "entities_" tlm);
  m ← when (ptr_of "media_" tlm) media m;
  Ok (Message data m (fst r) (snd r) es).

(** ** A message of the service *)
(** The text is duplicated from an array of the macro STR. *)
Definition says (t : list Z) (m : struct_) : struct_ := put_text "message_" (Some (STR t)) m.
Definition quote : list Z := [34].
Definition says_title (before : string) (p : tl_t) (m : struct_) : res struct_ :=
  t ← s_of (buf_of "title_" p); Ok (says (chars before ++ quote ++ t ++ quote) m).
Definition says_number (before n : string) (p : tl_t) (m : struct_) : res struct_ :=
  Ok (says (chars before ++ ld (num_of n p)) m).

(** The users who were added are compared with the number of the
    constructor of a user. *)
Fixpoint added_users (l : list Z) (s : list Z) : list Z :=
  match l with
  | u :: l => if u =? id_user then added_users l (s ++ STR (ld u ++ chars " ")) else s
  | [] => s
  end.

Definition call_text (reason : Z) (video : bool) : option string :=
  if reason =? id_phoneCallDiscardReasonMissed then Some (if video then "missed video call" else "missed phone call")
  else if reason =? id_phoneCallDiscardReasonDisconnect then Some (if video then "video call disconnected" else "phone call disconnected")
  else if reason =? id_phoneCallDiscardReasonHangup then Some (if video then "video call hanged up" else "phone call hanged up")
  else if reason =? id_phoneCallDiscardReasonBusy then Some (if video then "video call busy" else "phone call busy")
  else None.
(** [p->reason_->_id] is read before [p->reason_] is tested. *)
Definition phone_call (p : tl_t) (m : struct_) : res struct_ :=
  let m := nums [("phone_call_video", "video_"); ("phone_call_id", "call_id_"); ("phone_call_duration", "duration_")] p m in
  match ptr_of "reason_" p with
  | None => Err NullDeref
  | Some reason =>
      let m := sets "phone_call_reason" (_id reason) m in
      Ok (match call_text (_id reason) (negb (num_of "video_" p =? 0)) with
          | Some t => put_text "message_" (Some (chars t)) m
          | None => m
          end)
  end.

Definition action (p : tl_t) (m : struct_) : res struct_ :=
  let i := _id p in
  let text t := Ok (put_text "message_" (Some (chars t)) m) in
  if i =? id_messageActionEmpty then text "empty"
  else if i =? id_messageActionChatCreate then says_title "chat create: " p m
  else if i =? id_messageActionChatEditTitle then says_title "chat edit title: " p m
  else if i =? id_messageActionChatEditPhoto then text "chat edit photo"
  else if i =? id_messageActionChatDeletePhoto then text "chat delete photo"
  else if i =? id_messageActionChatAddUser then
    Ok (put_text "message_" (Some (added_users (nums_of "users_" p) (chars "chat add users: "))) m)
  else if i =? id_messageActionChatDeleteUser then says_number "chat delete user: " "user_id_" p m
  else if i =? id_messageActionChatJoinedByLink then says_number "chat joined by link: " "inviter_id_" p m
  else if i =? id_messageActionChannelCreate then says_title "channel create: " p m
  else if i =? id_messageActionChatMigrateTo then says_number "chat migrate to: " "channel_id_" p m
  else if i =? id_messageActionChannelMigrateFrom then says_number "chat migrate from: " "chat_id_" p m
  else if i =? id_messageActionPhoneCall then phone_call p m
  else if i =? id_messageActionCustomAction then dup "message_" "message_" p m
  else match TL_NAME_FROM_ID i with None => Err NullDeref | Some n => text n end.

Definition service_args : list marg :=
  List.filter (fun a => existsb (String.eqb (m_member a))
    ["out_"; "mentioned_"; "media_unread_"; "silent_"; "post_"; "legacy_"; "id_"; "from_id_"; "peer_id_"; "date_"]) TG_MESSAGE_ARGS.
Definition tg_message_from_tl_service (tlm : tl_t) : res tg_message_t :=
  data ← buf_add_buf (_buf tlm);
  m ← from_margs service_args tlm (sets "is_service" 1 ∅);
  r ← reply_of tlm;
  m ← (match ptr_of "action_" tlm with None => Err NullDeref | Some p => action p m end);
  Ok (Message data (nums [("ttl_period_", "ttl_period_")] tlm m) (fst r) (snd r) []).

(** [None] is a structure that has no value yet. *)
Definition tg_message_from_tl_unknown (tgm : option tg_message_t) (tlm : option tl_t) : res (option tg_message_t) :=
  match tlm with
  | None => Ok tgm
  | Some t =>
      if _id t =? id_message then m ← tg_message_from_tl t; Ok (Some m)
      else if _id t =? id_messageService then m ← tg_message_from_tl_service t; Ok (Some m)
      else Ok tgm
  end.
End Convert.

(** ** Storing, asking *)
Section Messages.
Context `{Env} `{Server} `{Schema} `{PeerSchema} `{MessageSchema} `{Zlib} `{Sqlite} {U : Type}.
Variable tl_table : list (Z * (buf_t -> res (option tl_t * buf_t))).
Variable junk : list Z.
Variable print_lf : Z -> list Z.
Variable TL_NAME_FROM_ID : Z -> option string.

(** The name of a message in the table: account, peer and number. *)
Definition message_key (id : Z) (m : struct_) : list Z :=
  print_id id ++ chars "_" ++ ld (num "peer_id_" m) ++ chars "_" ++ dec (i32 (num "id_" m)).

(** The statement with the parameter is executed twice: [sqlite3_step] after
    SQLITE_DONE starts again. *)
Definition tg_message_to_database (m : tg_message_t) : F U Z :=
  id ← the_id;
  let key := message_key id (msg m) in
  sql ← sprintf_ (chars "INSERT INTO 'messages' (id_peer_id_msg_id_) SELECT '" ++ key ++
    chars "' WHERE NOT EXISTS (SELECT 1 FROM 'messages' WHERE id_peer_id_msg_id_ = '" ++ key ++ chars "');" ++ [10]);
  _ ← tg_sqlite3_exec sql;
  sql ← sprintf_ (chars "UPDATE 'messages' SET id = " ++ print_id id ++ chars ", date = " ++ dec (i32 (num "date_" (msg m))) ++
    chars ", msg_id_ = " ++ dec (i32 (num "id_" (msg m))) ++ chars ", peer_id = " ++ ld (num "peer_id_" (msg m)) ++
    chars ", message_data = (?) WHERE id_peer_id_msg_id_ = '" ++ key ++ chars "';");
  h ← gets did;
  if sql_binds h sql then
    blob ← lift (load (message_data m) (b_size (message_data m)));
    _ ← modify (does (Bind sql blob));
    _ ← modify (does (Bind sql blob));
    mret 0
  else mret 0.

Definition mcallback_t : Type := option (U -> tg_message_t -> Z * U).
Definition hands (callback : mcallback_t) (m : tg_message_t) : F U bool :=
  match callback with
  | None => mret false
  | Some f => u ← gets user; let a := f u m in _ ← modify (set_user (snd a)); mret (negb (fst a =? 0))
  end.

(** The structure is a variable of the loop's body: it has no value when the
    object is neither a message nor a message of the service. *)
Fixpoint parse_msgs (i : Z) (argv : list (option tl_t)) (callback : mcallback_t) : F U Z :=
  match argv with
  | [] => mret i
  | None :: argv => parse_msgs (i + 1) argv callback
  | Some t :: argv =>
      o ← lift (tg_message_from_tl_unknown junk print_lf TL_NAME_FROM_ID None (Some t));
      match o with
      | None => fail Uninit
      | Some m =>
          _ ← tg_message_to_database m;
          stop ← hands callback m;
          if stop : bool then mret i else parse_msgs (i + 1) argv callback
      end
  end.

Definition parse_tl (tl : option tl_t) (callback : mcallback_t) : F U Z :=
  match tl with
  | None => mret 0
  | Some msgs =>
      if is_messages msgs then
        _ ← tg_users_save (vec_of "users_" msgs);
        _ ← tg_chats_save (vec_of "chats_" msgs);
        parse_msgs 0 (vec_of "messages_" msgs) callback
      else mret 0
  end.

Definition tg_messages_get_history (peer : tg_peer_t) (offset_id offset_date add_offset limit max_id min_id : Z)
    (hash : option Z) (callback : mcallback_t) : F U Z :=
  tl ← tg_send_query (Some (tl_messages_getHistory (tg_inputPeer peer) offset_id offset_date add_offset limit max_id min_id (default 0 hash)));
  parse_tl tl callback.

(** The asynchronous version: what runs when the answer is there. *)
Definition tg_messages_get_history_async_cb (tl : option tl_t) (callback : mcallback_t) (on_done : option (U -> U)) : F U unit :=
  _ ← (match tl with None => mret 0 | Some _ => parse_tl tl callback end);
  match on_done with Some f => modify (fun s => set_user (f (user s)) s) | None => mret tt end.
Definition tg_messages_get_history_async (peer : tg_peer_t) (offset_id offset_date add_offset limit max_id min_id : Z)
    (hash : option Z) (callback : mcallback_t) (on_done : option (U -> U)) : F U unit :=
  tl ← tg_send_query (Some (tl_messages_getHistory (tg_inputPeer peer) offset_id offset_date add_offset limit max_id min_id (default 0 hash)));
  tg_messages_get_history_async_cb tl callback on_done.

Definition tg_get_messages (msgids : list Z) (callback : mcallback_t) : F U Z :=
  tl ← tg_send_query (Some (tl_messages_getMessages (tl_inputMessageID <$> msgids)));
  parse_tl tl callback.

Definition tg_get_channel_messages (channel : tg_peer_t) (msgids : list Z) (callback : mcallback_t) : F U Z :=
  tl ← tg_send_query (Some (tl_channels_getMessages (tl_inputChannel (peer_id channel) (peer_access_hash channel)) (tl_inputMessageID <$> msgids)));
  parse_tl tl callback.

(** ** From the database *)
Definition no_message : tg_message_t := Message (Buf [] 0 0 0) ∅ ∅ ∅ [].
(** What the callback returns is not looked at. *)
Fixpoint message_rows (callback : mcallback_t) (rows : list (list value)) : F U unit :=
  match rows with
  | [] => mret tt
  | r :: rows =>
      buf ← lift (buf_add (default [] (column_bytes_of r 0)) (column_size r 0));
      tl ← lift (deserialize tl_table buf);
      match tl with
      | None => message_rows callback rows
      | Some t =>
          o ← lift (tg_message_from_tl_unknown junk print_lf TL_NAME_FROM_ID (Some no_message) (Some t));
          _ ← hands callback (default no_message o);
          message_rows callback rows
      end
  end.
(** The function has no [return]: its value is not one. *)
Definition tg_get_messages_from_database (peer : tg_peer_t) (offset_date limit : Z) (callback : mcallback_t) : F U unit :=
  id ← the_id;
  sql ← sprintf_ (chars "SELECT message_data FROM messages WHERE id = " ++ print_id id ++ chars " AND peer_id = " ++ ld (peer_id peer) ++
    chars " AND date < " ++ dec offset_date ++ chars " AND date > 0 ORDER BY 'date' DESC LIMIT " ++ dec limit ++ chars ";");
  rows ← tg_sqlite3_for_each sql;
  message_rows callback rows.

(** ** Single messages *)
Definition tg_messages_set_typing (peer : tg_peer_t) (typing : bool) : F U Z :=
  _ ← tg_send_query (Some (tl_messages_setTyping (tg_inputPeer peer)
        (if typing then tl_sendMessageTypingAction else tl_sendMessageCancelAction)));
  mret 0.

Definition tg_messages_set_read (peer : tg_peer_t) (max_id : Z) : F U Z :=
  _ ← tg_send_query (Some (tl_messages_readHistory (tg_inputPeer peer) max_id));
  id ← the_id;
  sql ← sprintf_ (chars "UPDATE TABLE dialogs SET unread_count = 0 WHERE peer_id = " ++ ld (peer_id peer) ++
    chars " AND id = " ++ print_id id ++ chars ";");
  _ ← tg_sqlite3_exec sql;
  mret 0.

Definition tg_messages_get_read_date (peer : tg_peer_t) (msg_id : Z) : F U Z :=
  tl ← tg_send_query (Some (tl_messages_getOutboxReadDate (tg_inputPeer peer) msg_id));
  match tl with
  | None => mret (-1)
  | Some t =>
      match obj t with
      | Rpc_error _ message =>
          e ← lift (c_str (data_at message 0));
          mret (if bool_decide (e = chars "MESSAGE_NOT_READ_YET") then 0 else -1)
      | _ => mret (if _id t =? id_outboxReadDate then i32 (num_of "date_" t) else -1)
      end
  end.

Definition tg_messages_delete_message_ (msg_id : Z) : F U Z :=
  tl ← tg_send_query (Some (tl_messages_deleteMessages true [msg_id]));
  mret (match tl with Some t => if _id t =? id_messages_affectedMessages then 0 else -1 | None => -1 end).
Definition tg_messages_delete_message (peer_id msg_id : Z) : F U Z :=
  e ← tg_messages_delete_message_ msg_id;
  if negb (e =? 0) then mret (-1)
  else
    id ← the_id;
    sql ← sprintf_ (chars "DELETE from messages WHERE id = " ++ print_id id ++ chars " AND peer_id = " ++ ld peer_id ++
      chars " AND msg_id_ = " ++ dec (i32 msg_id) ++ chars ";");
    _ ← tg_sqlite3_exec sql;
    mret 0.

Definition tg_messages_remove_all_from_database : F U unit := _ ← tg_sqlite3_exec (chars "DELETE from messages;"); mret tt.
End Messages.
