(* ===== verification/MessagesFacts.v ===== *)
(** * What becomes of messages

    The history of a peer is kept in the database and can be read without
    the server; an empty message stops everything. *)
From stdpp Require Import strings pretty.
From S2P Require Import Prelude TlBuf Serial Errors Tg Packet TlParser Objects Service Sql Database DatabaseFacts Entities EntitiesFacts Files Peers Messages.

(** ** The statements *)
Definition key_column : string := "id_peer_id_msg_id_".
Definition m_peer (m : tg_message_t) : Z := i64 (num "peer_id_" (msg m)).
Definition m_number (m : tg_message_t) : Z := i32 (num "id_" (msg m)).
Definition m_date (m : tg_message_t) : Z := i32 (num "date_" (msg m)).
Definition key_of_message (id : Z) (m : tg_message_t) : list Z := message_key id (msg m).

Definition message_sets (id : Z) (m : tg_message_t) : list (name * literal) :=
  [(Bare "id", LInt id); (Bare "date", LInt (m_date m)); (Bare "msg_id_", LInt (m_number m)); (Bare "peer_id", LInt (m_peer m));
   (Bare "message_data", LParam)].
Definition insert_message (id : Z) (m : tg_message_t) : stmt := InsertMissingText "messages" key_column (key_of_message id m).
Definition update_message (id : Z) (m : tg_message_t) : stmt := UpdateText "messages" (message_sets id m) key_column (key_of_message id m).
Definition messages_query (id peer before limit : Z) : select :=
  Select ["message_data"%string] "messages" [(Bare "id", id); (Bare "peer_id", i64 peer)] (Some "date"%string)
    [("date"%string, false, before); ("date"%string, true, 0)] (Some limit).

Lemma insert_renders id m : renders (chars "INSERT INTO 'messages' (id_peer_id_msg_id_) SELECT '" ++ key_of_message id m ++
    chars "' WHERE NOT EXISTS (SELECT 1 FROM 'messages' WHERE id_peer_id_msg_id_ = '" ++ key_of_message id m ++ chars "');" ++ [10])
  [insert_message id m].
Proof. unfold insert_message, key_column. generalize (key_of_message id m). intros k. rendered [10]. Qed.
Lemma update_renders id m : renders (chars "UPDATE 'messages' SET id = " ++ print_id id ++ chars ", date = " ++ dec (m_date m) ++
    chars ", msg_id_ = " ++ dec (m_number m) ++ chars ", peer_id = " ++ ld (num "peer_id_" (msg m)) ++
    chars ", message_data = (?) WHERE id_peer_id_msg_id_ = '" ++ key_of_message id m ++ chars "';") [update_message id m].
Proof. unfold update_message, message_sets, key_column, m_peer. generalize (key_of_message id m). intros k. rendered (@nil Z). Qed.
Lemma messages_query_text id peer before limit :
  chars "SELECT message_data FROM messages WHERE id = " ++ print_id id ++ chars " AND peer_id = " ++ ld peer ++
    chars " AND date < " ++ dec before ++ chars " AND date > 0 ORDER BY 'date' DESC LIMIT " ++ dec limit ++ chars ";" =
  print_select (messages_query id peer before limit).
Proof.
  unfold messages_query, print_select. cbn [s_columns s_from s_where s_order s_range s_limit fmap list_fmap app sep_by].
  unfold print_cond, print_range, ld, print_id. cbn [fst snd print_name]. change (dec 0) with (chars "0").
  repeat rewrite <- app_assoc. same_text.
Qed.

(** ** The table *)
Definition message_table (tb : table) : Prop :=
  Forall (fun c => c ∈ t_cols tb) [key_column; "id"; "date"; "msg_id_"; "peer_id"; "message_data"]%string /\ key_column ∉ t_ints tb.
Definition message_row (id : Z) (m : tg_message_t) : row :=
  assign [] (VBlob (contents (message_data m))) (message_sets id m) {[key_column := VText (key_of_message id m)]}.
Definition absent (id : Z) (m : tg_message_t) (rs : list row) : Prop :=
  existsb (text_holds key_column (key_of_message id m)) rs = false.

Lemma assign_message ints id m r :
  assign ints (VBlob (contents (message_data m))) (message_sets id m) r = assign [] (VBlob (contents (message_data m))) (message_sets id m) r.
Proof. reflexivity. Qed.
Lemma message_again p id m r : assign [] p (message_sets id m) (assign [] p (message_sets id m) r) = assign [] p (message_sets id m) r.
Proof.
  unfold assign, message_sets. cbn [foldl fst snd id_of].
  repeat match goal with |- context [affine ?b ?v] => generalize (affine b v); intros ? end.
  apply map_eq. intros c. rewrite !lookup_insert. by repeat case_decide.
Qed.
Lemma message_keeps_key p id m r k : text_holds key_column k (assign [] p (message_sets id m) r) = text_holds key_column k r.
Proof. unfold text_holds, column, assign, message_sets. cbn [foldl fst snd id_of]. by rewrite !lookup_insert_ne by done. Qed.

(** Only the row of the message changes. *)
Lemma others_kept k (f : row -> row) rs : existsb (text_holds key_column k) rs = false ->
  (fun r => if text_holds key_column k r then f r else r) <$> rs = rs.
Proof.
  induction rs as [|r rs IH]; [done |]. cbn [existsb fmap list_fmap]. intros [-> Hr]%orb_false_elim. f_equal. by apply IH.
Qed.

Lemma run_insert_message id m st tb p : st !! "messages"%string = Some tb -> message_table tb -> absent id m (t_rows tb) ->
  run_stmt p st (insert_message id m) =
    Some (<["messages"%string := with_rows tb (t_rows tb ++ [{[key_column := VText (key_of_message id m)]}])]> st).
Proof.
  intros Et [Hc Hi] Ha. cbn [insert_message run_stmt]. rewrite Et. cbn [mbind option_bind].
  rewrite bool_decide_true by (by apply Forall_cons_1 in Hc as [? _]). unfold absent in Ha. rewrite Ha.
  by rewrite bool_decide_false.
Qed.
Lemma message_known tb id m rs : message_table tb ->
  known (t_cols (with_rows tb rs)) (message_sets id m) && bool_decide (key_column ∈ t_cols (with_rows tb rs)) = true.
Proof.
  intros [Hc _]. cbn [with_rows t_cols]. unfold known, message_sets. cbn [forallb fst id_of].
  repeat (apply Forall_cons_1 in Hc as [? Hc]). by rewrite !bool_decide_true.
Qed.
Lemma run_update_message id m st tb rs r0 :
  let p := VBlob (contents (message_data m)) in
  st !! "messages"%string = Some (with_rows tb (rs ++ [r0])) -> message_table tb -> absent id m rs ->
  text_holds key_column (key_of_message id m) r0 = true ->
  run_stmt p st (update_message id m) = Some (<["messages"%string := with_rows tb (rs ++ [assign [] p (message_sets id m) r0])]> st).
Proof.
  intros p Et Ht Ha H0. cbn [update_message run_stmt]. rewrite Et. cbn [mbind option_bind]. rewrite message_known by done.
  cbn [with_rows t_rows t_ints t_cols]. rewrite fmap_app, (others_kept _ _ rs Ha). cbn [fmap list_fmap]. rewrite H0.
  unfold p. by rewrite assign_message.
Qed.

Section Store.
Context `{Env} `{Server} `{Schema} `{PeerSchema} `{MessageSchema} `{Zlib} `{Sqlite}.
Context (statements : list stmt -> Prop) (queries : select -> Prop) `{!Documented statements queries} {U : Type}.
Variable tl_table : list (Z * (buf_t -> res (option tl_t * buf_t))).
Variable junk : list Z.
Variable print_lf : Z -> list Z.
Variable TL_NAME_FROM_ID : Z -> option string.

Lemma i32_range z : is_i32 (i32 z).
Proof. unfold is_i32, i32. pose proof (Z.mod_pos_bound (z + 2147483648) 4294967296 ltac:(done)). lia. Qed.
Lemma zlen_key id m : is_i32 id -> zlen (key_of_message id m) <= 44.
Proof.
  intros Hid. unfold key_of_message, message_key. fold (m_number m). change (dec (m_number m)) with (print_id (m_number m)).
  assert (is_i32 (m_number m)) by apply i32_range. rewrite !zlen_app. change (zlen (chars "_")) with 1.
  pose proof (zlen_id id Hid). pose proof (zlen_id (m_number m) ltac:(done)). pose proof (zlen_ld (num "peer_id_" (msg m))). lia.
Qed.
Lemma key_plain id m : 39 ∉ key_of_message id m.
Proof.
  unfold key_of_message, message_key, print_id, ld.
  repeat (apply not_elem_of_app; split); try apply dec_plain; apply (bool_decide_eq_true_1 _); reflexivity.
Qed.

Definition storable (id : Z) (m : tg_message_t) : Prop :=
  buf_wf (message_data m) /\ statements [insert_message id m] /\ statements [update_message id m].

(** A message that is not in the table becomes its last row. *)
Lemma to_database_ok m tb (s : client U) :
  let id := c_id (conn s) in
  is_i32 id -> storable id m -> store_of (did s) !! "messages"%string = Some tb -> message_table tb -> absent id m (t_rows tb) ->
  exists s', tg_message_to_database m s = Ok (0, s') /\ conn s' = conn s /\ user s' = user s /\ asked s' = asked s /\
    store_of (did s') !! "messages"%string = Some (with_rows tb (t_rows tb ++ [message_row id m])).
Proof.
  intros id Hid (Hw & Hs1 & Hs2) Et Ht Ha. pose proof (zlen_key id m Hid) as Hk. assert (Hnl : zlen [10] = 1) by reflexivity. unfold tg_message_to_database.
  rewrite (bind_eq _ _ _ _ _ (id_ok s)). fold id. change (message_key id (msg m)) with (key_of_message id m).
  erewrite bind_eq by (apply sprintf_ok; text_length).
  destruct (exec_runs statements queries _ _ s Hs1 ltac:(repeat constructor; apply key_plain) (insert_renders id m)) as [E1 St1].
  rewrite (bind_eq _ _ _ _ _ E1). set (s1 := does _ s) in *.
  cbn [run_all] in St1. rewrite (run_insert_message id m _ tb VNull Et Ht Ha) in St1. cbn [snd] in St1.
  fold (m_date m) (m_number m). change (dec (m_number m)) with (print_id (m_number m)). change (dec (m_date m)) with (print_id (m_date m)).
  assert (is_i32 (m_number m)) by apply i32_range. assert (is_i32 (m_date m)) by apply i32_range.
  erewrite bind_eq by (apply sprintf_ok; text_length). erewrite bind_eq by reflexivity.
  match goal with |- context [sql_binds _ ?t] => set (sql := t) end. pose proof (update_renders id m) as Hr. change (renders sql [update_message id m]) in Hr.
  set (p := VBlob (contents (message_data m))). set (r0 := {[key_column := VText (key_of_message id m)]} : row) in *.
  assert (Hkey : text_holds key_column (key_of_message id m) r0 = true).
  { unfold text_holds, column, r0. rewrite lookup_singleton_eq. by apply bool_decide_true. }
  assert (Hrun : forall st r, st !! "messages"%string = Some (with_rows tb (t_rows tb ++ [r])) -> text_holds key_column (key_of_message id m) r = true ->
    run_stmt p st (update_message id m) = Some (<["messages"%string := with_rows tb (t_rows tb ++ [assign [] p (message_sets id m) r])]> st))
    by (intros st r E Hr0; by apply run_update_message).
  assert (Hb : forall h st' blob, blob = contents (message_data m) -> run_stmt p (store_of h) (update_message id m) = Some st' ->
    store_of (h ++ [Bind sql blob]) = st').
  { intros h st' blob -> E. destruct (bind_documented h sql (update_message id m) (contents (message_data m)) Hs2 Hr) as [_ E2].
    fold p in E2. by rewrite E2, E. }
  assert (Et1 : store_of (did s1) !! "messages"%string = Some (with_rows tb (t_rows tb ++ [r0]))) by (rewrite St1; apply lookup_insert_eq).
  destruct (bind_documented (did s1) sql (update_message id m) (contents (message_data m)) Hs2 Hr) as [Eb _]. fold p in Eb.
  rewrite (Hrun _ _ Et1 Hkey) in Eb. rewrite bool_decide_true in Eb by done. rewrite Eb.
  rewrite (bind_lift _ _ _ _ (load_ok (message_data m) Hw)). erewrite bind_eq by reflexivity. erewrite bind_eq by reflexivity.
  eexists. split; [reflexivity |]. split_and!; [reflexivity .. |]. unfold does. cbn [did].
  erewrite Hb; [| reflexivity | apply Hrun].
  2: { erewrite Hb; [| reflexivity | by apply Hrun]. apply lookup_insert_eq. }
  2: { by rewrite message_keeps_key. }
  rewrite lookup_insert_eq, message_again. reflexivity.
Qed.

(** ** Many messages *)
(** What an object is made. *)
Definition becomes (t : tl_t) (m : tg_message_t) : Prop :=
  tg_message_from_tl_unknown junk print_lf TL_NAME_FROM_ID None (Some t) = Ok (Some m).
(** The bytes of the object are those it is read from, as the generated
    functions keep them. *)
Definition reads_back (t : tl_t) : Prop :=
  exists bs, _buf t = fresh bs /\ bytes_ok bs /\ fits (zlen bs) /\ deserialize tl_table (fresh bs) = Ok (Some t).

Lemma becomes_data t m : becomes t m -> buf_add_buf (_buf t) = Ok (message_data m).
Proof.
  unfold becomes, tg_message_from_tl_unknown. destruct (_id t =? id_message).
  - intros (m' & E & [= ->])%res_bind_inv. unfold tg_message_from_tl in E.
    apply res_bind_inv in E as (d & Ed & E). repeat (apply res_bind_inv in E as (? & _ & E)). by injection E as <-.
  - destruct (_id t =? id_messageService); [| discriminate]. intros (m' & E & [= ->])%res_bind_inv. unfold tg_message_from_tl_service in E.
    apply res_bind_inv in E as (d & Ed & E). repeat (apply res_bind_inv in E as (? & _ & E)). by injection E as <-.
Qed.
Lemma becomes_any t m o : becomes t m -> tg_message_from_tl_unknown junk print_lf TL_NAME_FROM_ID o (Some t) = Ok (Some m).
Proof.
  unfold becomes, tg_message_from_tl_unknown. destruct (_id t =? id_message); [done |]. by destruct (_id t =? id_messageService).
Qed.
Lemma becomes_contents t m : becomes t m -> reads_back t ->
  exists bs, contents (message_data m) = bs /\ bytes_ok bs /\ fits (zlen bs) /\ deserialize tl_table (fresh bs) = Ok (Some t).
Proof.
  intros E%becomes_data (bs & Eb & Hb & Hf & Hd). exists bs. split_and!; try done. rewrite Eb in E.
  rewrite buf_add_buf_ok in E by (by apply fresh_wf). injection E as <-. by rewrite !contents_fresh.
Qed.

Lemma absent_app id m m' rs : absent id m rs -> key_of_message id m <> key_of_message id m' -> absent id m (rs ++ [message_row id m']).
Proof.
  unfold absent. intros E Hne. rewrite existsb_app, E. cbn [existsb orb]. unfold message_row. rewrite message_keeps_key.
  unfold text_holds, column. rewrite lookup_singleton_eq. rewrite bool_decide_false; [done |]. cbn. congruence.
Qed.

Definition hand (f : U -> tg_message_t -> Z * U) (ms : list tg_message_t) (u : U) : U := foldl (fun u m => snd (f u m)) u ms.
Lemma hands_ok f m (s : client U) : (forall u m, fst (f u m) = 0) ->
  hands (Some f) m s = Ok (false, set_user (snd (f (user s) m)) s).
Proof. intros Hf. unfold hands. erewrite bind_eq by reflexivity. cbv zeta. erewrite bind_eq by reflexivity. unfold mret, st_ret. by rewrite Hf. Qed.

Lemma parse_msgs_ok f : (forall u m, fst (f u m) = 0) -> forall tms i tb (s : client U),
  let id := c_id (conn s) in
  is_i32 id -> Forall (fun tm => becomes tm.1 tm.2 /\ storable id tm.2 /\ absent id tm.2 (t_rows tb)) tms ->
  NoDup ((fun tm => key_of_message id tm.2) <$> tms) ->
  store_of (did s) !! "messages"%string = Some tb -> message_table tb ->
  exists s', parse_msgs junk print_lf TL_NAME_FROM_ID i ((fun tm => Some tm.1) <$> tms) (Some f) s = Ok (i + Z.of_nat (length tms), s') /\
    conn s' = conn s /\ user s' = hand f tms.*2 (user s) /\ asked s' = asked s /\
    store_of (did s') !! "messages"%string = Some (with_rows tb (t_rows tb ++ ((fun tm => message_row id tm.2) <$> tms))).
Proof.
  intros Hf tms. induction tms as [|[t m] tms IH]; intros i tb s id Hid Hall Hnd Et Ht.
  - exists s. cbn. rewrite Z.add_0_r, app_nil_r. split_and!; try done. rewrite Et. by destruct tb.
  - apply List.Forall_cons_iff in Hall as [(Hb & Hs & Ha) Hall]. rewrite fmap_cons in Hnd. apply list.NoDup_cons in Hnd as [Hk Hnd].
    cbn [fst snd] in *. rewrite fmap_cons. cbn [parse_msgs fst]. rewrite (bind_lift _ _ _ _ Hb).
    destruct (to_database_ok m tb s Hid Hs Et Ht Ha) as (s1 & E1 & C1 & U1 & A1 & St1).
    rewrite (bind_eq _ _ _ _ _ E1), (bind_eq _ _ _ _ _ (hands_ok f m s1 Hf)). set (s2 := set_user _ s1).
    destruct (IH (i + 1) (with_rows tb (t_rows tb ++ [message_row id m])) s2) as (s' & E & C & Eu & A & St).
    + cbn [s2 set_user conn]. by rewrite C1.
    + cbn [s2 set_user conn with_rows t_rows]. rewrite C1. fold id. rewrite Forall_forall in Hall |- *. intros tm Hin.
      destruct (Hall tm Hin) as (Hb' & Hs' & Ha'). split_and!; [done | done |]. apply absent_app; [done |]. intros Ek. apply Hk.
      rewrite <- Ek. apply (list_elem_of_fmap_2 (fun tm => key_of_message id tm.2)). by apply list_elem_of_In.
    + cbn [s2 set_user conn]. rewrite C1. exact Hnd.
    + exact St1.
    + exact Ht.
    + exists s'. rewrite E. split; [f_equal; f_equal; cbn [length]; lia |]. split_and!.
      * rewrite C. cbn [s2 set_user conn]. exact C1.
      * rewrite Eu. cbn [s2 set_user user]. rewrite U1. reflexivity.
      * rewrite A. cbn [s2 set_user asked]. exact A1.
      * rewrite St. cbn [s2 set_user conn]. rewrite C1. fold id. cbn [with_rows t_rows]. rewrite fmap_cons, <- app_assoc. reflexivity.
Qed.

(** What comes behind messages that were handled. *)
Lemma parse_msgs_app f l rest : (forall u m, fst (f u m) = 0) -> forall i n (s s1 : client U),
  parse_msgs junk print_lf TL_NAME_FROM_ID i l (Some f) s = Ok (n, s1) ->
  parse_msgs junk print_lf TL_NAME_FROM_ID i (l ++ rest) (Some f) s = parse_msgs junk print_lf TL_NAME_FROM_ID n rest (Some f) s1.
Proof.
  intros Hf. induction l as [|[t|] l IH]; intros i n s s1 E; cbn [parse_msgs app] in *.
  - by injection E as <- <-.
  - apply bind_inv in E as (o & s2 & Eo & E). rewrite (bind_eq _ _ _ _ _ Eo). destruct o as [m|]; [| discriminate].
    apply bind_inv in E as (r & s3 & Es & E). rewrite (bind_eq _ _ _ _ _ Es). rewrite (bind_eq _ _ _ _ _ (hands_ok f m s3 Hf)). rewrite (bind_eq _ _ _ _ _ (hands_ok f m s3 Hf)) in E. by apply IH.
  - by apply IH.
Qed.

(** ** Reading *)
Lemma message_rows_ok f : (forall u m, fst (f u m) = 0) -> forall tms (s : client U),
  Forall (fun tm => becomes tm.1 tm.2 /\ reads_back tm.1) tms ->
  message_rows tl_table junk print_lf TL_NAME_FROM_ID (Some f) ((fun tm => [VBlob (contents (message_data tm.2))]) <$> tms) s =
    Ok (tt, set_user (hand f tms.*2 (user s)) s).
Proof.
  intros Hf tms. induction tms as [|[t m] tms IH]; intros s Hall; [by destruct s |].
  apply List.Forall_cons_iff in Hall as [[Hb Hr] Hall]. cbn [fst snd] in *.
  destruct (becomes_contents t m Hb Hr) as (bs & Eb & Hbytes & Hfit & Hd). rewrite fmap_cons. cbn [message_rows snd]. rewrite Eb.
  unfold column_size, column_bytes_of. cbn [lookup list_lookup]. change (default [] (Some bs)) with bs.
  erewrite bind_lift by (apply buf_add_ok; [pose proof (zlen_nonneg bs); lia | exact Hfit]).
  rewrite take_ge by (unfold zlen; lia). rewrite (bind_lift _ _ _ _ Hd), (bind_lift _ _ _ _ (becomes_any t m _ Hb)).
  change (default no_message (Some m)) with m. rewrite (bind_eq _ _ _ _ _ (hands_ok f m s Hf)). rewrite (IH _ Hall). reflexivity.
Qed.
Lemma row_data id m : column "message_data" (message_row id m) = VBlob (contents (message_data m)).
Proof. reflexivity. Qed.
Lemma row_chosen id peer before limit m : m_peer m = i64 peer -> 0 < m_date m < before ->
  chosen (messages_query id peer before limit) (message_row id m) = true.
Proof.
  intros Hp Hd. unfold chosen, messages_query. cbn [s_where s_range forallb]. unfold cond_holds, range_holds. cbn [fst snd].
  change (column "id" (message_row id m)) with (VInt id). change (column "peer_id" (message_row id m)) with (VInt (m_peer m)).
  change (column "date" (message_row id m)) with (VInt (m_date m)). rewrite Hp, !bool_decide_true by done. cbn [andb].
  replace (m_date m <? before) with true by lia. by replace (0 <? m_date m) with true by lia.
Qed.

(** The rows of the peer are those of the messages. *)
Lemma select_messages id peer before limit ms tb st :
  let q := messages_query id peer before limit in
  st !! "messages"%string = Some (with_rows tb (t_rows tb ++ (message_row id <$> ms))) -> message_table tb ->
  Forall (fun m => m_peer m = i64 peer /\ 0 < m_date m < before) ms ->
  Forall (fun r => chosen q r = false) (t_rows tb) ->
  run_select st q = Some ((fun m => [VBlob (contents (message_data m))]) <$> ms).
Proof.
  intros q Et [Hc _] Hms Hno. unfold run_select. cbn [q messages_query s_from s_columns s_where s_range]. rewrite Et. cbn [mbind option_bind].
  cbn [with_rows t_cols t_rows forallb cond_known fst snd]. repeat (apply Forall_cons_1 in Hc as [? Hc]).
  rewrite !bool_decide_true by done. cbn [andb]. f_equal. rewrite list.filter_app. fold q.
  replace (filter (fun r => chosen q r = true) (t_rows tb)) with (@nil row).
  2: { clear -Hno. induction Hno as [|r rs Hr Hrs IH]; [done |]. rewrite filter_cons_False by congruence. exact IH. }
  cbn [app]. clear -Hms. induction Hms as [|m ms [Hp Hd] Hms IH]; [done |]. rewrite !fmap_cons.
  rewrite filter_cons_True by (by apply row_chosen). rewrite fmap_cons, IH. reflexivity.
Qed.

Lemma limited_fmap {A} (g : A -> list value) limit l :
  limited limit (g <$> l) = g <$> (match limit with Some n => if n <? 0 then l else take (Z.to_nat n) l | None => l end).
Proof. unfold limited. destruct limit as [n|]; [| done]. destruct (n <? 0); [done |]. by rewrite fmap_take. Qed.

Lemma from_database_ok f peer before limit tms tb (s : client U) :
  let id := c_id (conn s) in
  (forall u m, fst (f u m) = 0) -> is_i32 id -> is_i32 before -> is_i32 limit ->
  queries (messages_query id (peer_id peer) before limit) ->
  store_of (did s) !! "messages"%string = Some (with_rows tb (t_rows tb ++ (message_row id <$> tms.*2))) -> message_table tb ->
  Forall (fun tm => becomes tm.1 tm.2 /\ reads_back tm.1) tms ->
  Forall (fun m => m_peer m = i64 (peer_id peer) /\ 0 < m_date m < before) tms.*2 ->
  Forall (fun r => chosen (messages_query id (peer_id peer) before limit) r = false) (t_rows tb) ->
  exists all, all ≡ₚ tms.*2 /\
    tg_get_messages_from_database tl_table junk print_lf TL_NAME_FROM_ID peer before limit (Some f) s =
      Ok (tt, set_user (hand f (if limit <? 0 then all else take (Z.to_nat limit) all) (user s)) s).
Proof.
  intros id Hf Hid Hbef Hlim Hq Et Ht Hall Hms Hno. unfold tg_get_messages_from_database. rewrite (bind_eq _ _ _ _ _ (id_ok s)). fold id.
  change (dec before) with (print_id before). change (dec limit) with (print_id limit). erewrite bind_eq by (apply sprintf_ok; text_length).
  change (print_id before) with (dec before). change (print_id limit) with (dec limit). rewrite messages_query_text.
  destruct (rows_returned statements queries _ _ s Hq (select_messages id (peer_id peer) before limit _ tb _ Et Ht Hms Hno))
    as (rows & (l & Hp & ->) & Er). rewrite (bind_eq _ _ _ _ _ Er). cbn [messages_query s_limit].
  rewrite <- list_fmap_compose in Hp. apply Permutation_map_inv in Hp as (tms' & -> & Hp).
  exists (tms'.*2). split; [by rewrite Hp |]. rewrite limited_fmap.
  set (shown := if limit <? 0 then tms' else take (Z.to_nat limit) tms').
  assert (Hshown : Forall (fun tm => becomes tm.1 tm.2 /\ reads_back tm.1) shown).
  { rewrite Hp in Hall. unfold shown. destruct (limit <? 0); [exact Hall | by apply Forall_take]. }
  pose proof (message_rows_ok f Hf shown s Hshown) as Em. unfold shown in *. destruct (limit <? 0); [exact Em |].
  rewrite <- fmap_take. exact Em.
Qed.

(** ** The users and chats of an answer *)
Definition saves_row (e : entity) (id : Z) (m : struct_) : Prop :=
  statements (save_stmts e id m) /\ Forall Sql.plain (save_stmts e id m).
Inductive saves_user (id : Z) : option tl_t -> Prop :=
| user_null : saves_user id None
| user_other t : _id t <> id_user -> saves_user id (Some t)
| user_saved t m : _id t = id_user -> tg_user_from_tl t = Ok m -> saves_row users id m -> saves_user id (Some t).
Inductive saves_chat (id : Z) : option tl_t -> Prop :=
| chat_null : saves_chat id None
| chat_other t : _id t <> id_chat -> _id t <> id_channel -> saves_chat id (Some t)
| chat_saved t m : _id t = id_chat -> tg_chat_from_tl t = Ok m -> saves_row chats id m -> saves_chat id (Some t)
| channel_saved t m : _id t = id_channel -> tg_channel_from_tl t = Ok m -> saves_row channels id m -> saves_chat id (Some t).

(** What saving peers leaves alone. *)
Definition but_peers (s s' : client U) : Prop :=
  conn s' = conn s /\ user s' = user s /\ asked s' = asked s /\
  store_of (did s') !! "messages"%string = store_of (did s) !! "messages"%string.

Lemma run_save_other e id m st t : t <> e_table e -> (run_all st (save_stmts e id m)).2 !! t = st !! t.
Proof.
  intros Ht. unfold save_stmts. cbn [run_all run_stmt].
  destruct (st !! e_table e) as [tb|] eqn:Et; cbn [mbind option_bind]; [| done].
  destruct (bool_decide _); [| done].
  match goal with |- context [if ?b then st else ?st'] => set (st1 := if b then st else st');
    assert (E1 : st1 !! t = st !! t) by (unfold st1; destruct b; [done | by rewrite lookup_insert_ne]) end.
  destruct (st1 !! e_table e) as [tb1|]; cbn [mbind option_bind]; [| exact E1].
  destruct (_ && _); [| exact E1]. cbn [snd]. by rewrite lookup_insert_ne.
Qed.

Lemma save_but e m (s : client U) : saves_row e (c_id (conn s)) m -> "messages"%string <> e_table e ->
  exists r s', save e m s = Ok (r, s') /\ but_peers s s'.
Proof.
  intros [Hs Hp] Ht. destruct (exec_runs statements queries _ _ s Hs Hp (save_renders e (c_id (conn s)) m)) as [E St].
  do 2 eexists. split; [unfold save; rewrite (bind_eq _ _ _ _ _ (id_ok s)); exact E |].
  split_and!; [done .. |]. rewrite St. by apply run_save_other.
Qed.

Lemma but_peers_trans s s1 s2 : but_peers s s1 -> but_peers s1 s2 -> but_peers s s2.
Proof. intros (?&?&?&?) (?&?&?&?). split_and!; congruence. Qed.
Lemma but_peers_refl s : but_peers s s.
Proof. by split_and!. Qed.

Lemma users_save_ok us : forall s : client U, Forall (saves_user (c_id (conn s))) us ->
  exists s', tg_users_save us s = Ok (tt, s') /\ but_peers s s'.
Proof.
  induction us as [|u us IH]; intros s Hall; [exists s; split; [done | apply but_peers_refl] |].
  apply Forall_cons_1 in Hall as [Hu Hall]. inversion Hu as [E | t Ht E | t m Ht Hm Hsv E]; subst u; cbn [tg_users_save].
  - by apply IH.
  - replace (_id t =? id_user) with false by lia. by apply IH.
  - rewrite Ht, Z.eqb_refl, (bind_lift _ _ _ _ Hm). destruct (save_but users m s Hsv ltac:(done)) as (r & s1 & E1 & B1).
    unfold tg_user_save. rewrite (bind_eq _ _ _ _ _ E1).
    destruct (IH s1) as (s2 & E2 & B2); [by destruct B1 as (-> & _) |].
    exists s2. split; [done | by eapply but_peers_trans].
Qed.
Lemma chats_save_ok cs : forall s : client U, Forall (saves_chat (c_id (conn s))) cs ->
  exists s', tg_chats_save cs s = Ok (tt, s') /\ but_peers s s'.
Proof.
  induction cs as [|u cs IH]; intros s Hall; [exists s; split; [done | apply but_peers_refl] |].
  apply Forall_cons_1 in Hall as [Hu Hall].
  assert (Hgo : forall e m, saves_row e (c_id (conn s)) m -> "messages"%string <> e_table e ->
    exists s', (_ ← save e m; tg_chats_save cs) s = Ok (tt, s') /\ but_peers s s').
  { intros e m Hsv He. destruct (save_but e m s Hsv He) as (r & s1 & E1 & B1). rewrite (bind_eq _ _ _ _ _ E1).
    destruct (IH s1) as (s2 & E2 & B2); [by destruct B1 as (-> & _) |].
    exists s2. split; [done | by eapply but_peers_trans]. }
  inversion Hu as [E | t Hn1 Hn2 E | t m Ht Hm Hsv E | t m Ht Hm Hsv E]; subst u; cbn [tg_chats_save].
  - by apply IH.
  - replace (_id t =? id_chat) with false by lia. replace (_id t =? id_channel) with false by lia. by apply IH.
  - rewrite Ht, Z.eqb_refl, (bind_lift _ _ _ _ Hm). by apply (Hgo chats).
  - rewrite Ht. change (id_channel =? id_chat) with false. cbv iota. rewrite Z.eqb_refl, (bind_lift _ _ _ _ Hm).
    by apply (Hgo channels).
Qed.

(** C28: the history of a peer is kept.  The server answers with messages
    (none of them deleted) that are not in the table yet, and with users,
    chats and channels whose statements the database runs (texts without
    quotes); the application's callback never stops.
    [tg_messages_get_history] then hands each message to the application, in
    order, and returns their number; afterwards, without the server,
    [tg_get_messages_from_database] hands the same messages over, if they
    are of the peer and of the period asked for and the table had none such
    before: each once, in an order of the database, and of a limit that is
    smaller any as many: the clause that should sort by date sorts by a
    text. *)
Theorem history_kept_offline f peer offset_id offset_date add_offset limit max_id min_id hash tms msgs tb (s : client U) :
  let id := c_id (conn s) in
  let q := tl_messages_getHistory (tg_inputPeer peer) offset_id offset_date add_offset limit max_id min_id (default 0 hash) in
  (forall u m, fst (f u m) = 0) -> is_i32 id ->
  answer (asked s ++ [q]) = Some msgs -> is_messages msgs = true ->
  Forall (saves_user id) (vec_of "users_" msgs) -> Forall (saves_chat id) (vec_of "chats_" msgs) ->
  vec_of "messages_" msgs = (fun tm => Some tm.1) <$> tms ->
  Forall (fun tm => becomes tm.1 tm.2 /\ reads_back tm.1 /\ storable id tm.2 /\ absent id tm.2 (t_rows tb)) tms ->
  NoDup ((fun tm => key_of_message id tm.2) <$> tms) ->
  store_of (did s) !! "messages"%string = Some tb -> message_table tb ->
  exists s1, tg_messages_get_history junk print_lf TL_NAME_FROM_ID peer offset_id offset_date add_offset limit max_id min_id hash (Some f) s =
      Ok (Z.of_nat (length tms), s1) /\ user s1 = hand f tms.*2 (user s) /\
    forall before most,
      is_i32 before -> is_i32 most -> queries (messages_query id (peer_id peer) before most) ->
      Forall (fun m => m_peer m = i64 (peer_id peer) /\ 0 < m_date m < before) tms.*2 ->
      Forall (fun r => chosen (messages_query id (peer_id peer) before most) r = false) (t_rows tb) ->
      exists s2 all, all ≡ₚ tms.*2 /\
        tg_get_messages_from_database tl_table junk print_lf TL_NAME_FROM_ID peer before most (Some f) s1 = Ok (tt, s2) /\
        user s2 = hand f (if most <? 0 then all else take (Z.to_nat most) all) (user s1).
Proof.
  intros id q Hf Hid Ha Hm Hu Hc Hv Hall Hnd Et Ht.
  assert (Hp : Forall (fun tm => becomes tm.1 tm.2 /\ storable id tm.2 /\ absent id tm.2 (t_rows tb)) tms)
    by (revert Hall; apply Forall_impl; intros tm (?&?&?&?); by split_and!).
  assert (Hb : Forall (fun tm => becomes tm.1 tm.2 /\ reads_back tm.1) tms) by (revert Hall; apply Forall_impl; intros tm (?&?&?&?); by split).
  set (s0 := ask q (in_session s)). assert (Eid : c_id (conn s0) = id) by apply keyed_conn_id.
  rewrite <- Eid in Hu, Hc. destruct (users_save_ok _ s0 Hu) as (su & Esu & Bu).
  assert (Hc' : Forall (saves_chat (c_id (conn su))) (vec_of "chats_" msgs)) by (by destruct Bu as (-> & _)).
  destruct (chats_save_ok _ su Hc') as (sc & Esc & Bc). pose proof (but_peers_trans _ _ _ Bu Bc) as (C & U0 & A & St0).
  assert (Eidc : c_id (conn sc) = id) by (rewrite C; exact Eid).
  change (did s0) with (did s) in St0. rewrite Et in St0.
  destruct (parse_msgs_ok f Hf tms 0 tb sc) as (s1 & E & C1 & Eu & _ & St); rewrite ?Eidc; try done.
  rewrite U0 in Eu. rewrite Eidc in St.
  exists s1. split; [| split; [exact Eu |]].
  - unfold tg_messages_get_history. fold q. rewrite (bind_eq _ _ _ _ _ (send_query_ok q s)), Ha. unfold parse_tl.
    rewrite Hm. fold s0. rewrite (bind_eq _ _ _ _ _ Esu), (bind_eq _ _ _ _ _ Esc), Hv. exact E.
  - intros before most Hbef Hmost Hq Hms Hno. assert (Eid1 : c_id (conn s1) = id) by (rewrite C1; exact Eidc).
    destruct (from_database_ok f peer before most tms tb s1) as (all & Hperm & Ef); rewrite ?Eid1; try done.
    + rewrite St. by rewrite <- list_fmap_compose.
    + eexists _, all. split; [exact Hperm |]. split; [exact Ef | reflexivity].
Qed.

(** an empty message stops everything.  The server sends messageEmpty
    for a message that was deleted; nothing is made of it, and the structure
    that is saved and handed on has no value: whatever messages come before
    it, the run ends in undefined behaviour. *)
Theorem history_empty_message f peer offset_id offset_date add_offset limit max_id min_id hash tms empty rest msgs tb (s : client U) :
  let id := c_id (conn s) in
  let q := tl_messages_getHistory (tg_inputPeer peer) offset_id offset_date add_offset limit max_id min_id (default 0 hash) in
  (forall u m, fst (f u m) = 0) -> is_i32 id ->
  answer (asked s ++ [q]) = Some msgs -> is_messages msgs = true ->
  vec_of "users_" msgs = [] -> vec_of "chats_" msgs = [] ->
  vec_of "messages_" msgs = ((fun tm => Some tm.1) <$> tms) ++ Some empty :: rest ->
  _id empty = 0x90a6ca84 (* messageEmpty *) ->
  Forall (fun tm => becomes tm.1 tm.2 /\ storable id tm.2 /\ absent id tm.2 (t_rows tb)) tms ->
  NoDup ((fun tm => key_of_message id tm.2) <$> tms) ->
  store_of (did s) !! "messages"%string = Some tb -> message_table tb ->
  tg_messages_get_history junk print_lf TL_NAME_FROM_ID peer offset_id offset_date add_offset limit max_id min_id hash (Some f) s = Err Uninit.
Proof.
  intros id q Hf Hid Ha Hm Hu Hc Hv He Hall Hnd Et Ht.
  unfold tg_messages_get_history. fold q. rewrite (bind_eq _ _ _ _ _ (send_query_ok q s)), Ha. unfold parse_tl. rewrite Hm, Hu, Hc, Hv.
  cbn [tg_users_save tg_chats_save]. erewrite bind_eq by reflexivity. erewrite bind_eq by reflexivity.
  assert (Eid : c_id (conn (ask q (in_session s))) = id) by apply keyed_conn_id.
  destruct (parse_msgs_ok f Hf tms 0 tb (ask q (in_session s))) as (s1 & E & _); rewrite ?Eid; try done.
  rewrite (parse_msgs_app f _ _ Hf _ _ _ _ E). cbn [parse_msgs]. rewrite bind_lift with (a := None); [reflexivity |].
  unfold tg_message_from_tl_unknown. by rewrite He.
Qed.
End Store.

(** ** Saving without a database to speak of *)
Section Saved.
Context `{Env} `{Server} `{Schema} `{PeerSchema} `{MessageSchema} `{Sqlite} {U : Type}.
Variable junk : list Z.
Variable print_lf : Z -> list Z.

(** [s'] is [s] but for statements that were executed and the data of the
    application. *)
Definition only_deeds (s s' : client U) : Prop :=
  asked s' = asked s /\ conn s' = conn s /\ exists new, did s' = did s ++ new.
Lemma only_deeds_refl s : only_deeds s s.
Proof. split_and!; [done | done |]. exists []. by rewrite app_nil_r. Qed.
Lemma only_deeds_trans s s1 s2 : only_deeds s s1 -> only_deeds s1 s2 -> only_deeds s s2.
Proof.
  intros (A1 & C1 & n1 & D1) (A2 & C2 & n2 & D2). split_and!; [congruence | congruence |].
  exists (n1 ++ n2). by rewrite D2, D1, <- app_assoc.
Qed.
Lemma only_deeds_did s s' e : only_deeds s s' -> e ∈ did s -> e ∈ did s'.
Proof. intros (_ & _ & n & ->) He. apply elem_of_app. by left. Qed.
Lemma only_deeds_does s d : only_deeds s (does d s).
Proof. split_and!; [done | done | by exists [d]]. Qed.

(** Saving a message ends, whatever the table holds. *)
Lemma message_saved m (s : client U) : is_i32 (c_id (conn s)) -> buf_wf (message_data m) ->
  exists r s', tg_message_to_database m s = Ok (r, s') /\ only_deeds s s' /\ user s' = user s.
Proof.
  intros Hid Hw. pose proof (zlen_key (c_id (conn s)) m Hid) as Hk. unfold tg_message_to_database.
  rewrite (bind_eq _ _ _ _ _ (id_ok s)). change (message_key _ (msg m)) with (key_of_message (c_id (conn s)) m).
  assert (Hnl : zlen [10] = 1) by reflexivity. erewrite bind_eq by (apply sprintf_ok; text_length).
  rewrite (bind_eq _ _ _ _ _ (exec_ok _ s)). set (s1 := does _ s).
  fold (m_date m) (m_number m). change (dec (m_number m)) with (print_id (m_number m)). change (dec (m_date m)) with (print_id (m_date m)).
  assert (is_i32 (m_number m)) by apply i32_range. assert (is_i32 (m_date m)) by apply i32_range.
  erewrite bind_eq by (apply sprintf_ok; text_length). erewrite bind_eq by reflexivity.
  destruct (sql_binds _ _).
  - rewrite (bind_lift _ _ _ _ (load_ok (message_data m) Hw)). erewrite bind_eq by reflexivity. erewrite bind_eq by reflexivity.
    do 2 eexists. split; [reflexivity |]. split; [| done].
    eapply only_deeds_trans; [eapply only_deeds_trans |]; apply only_deeds_does.
  - do 2 eexists. split; [reflexivity |]. split; [apply only_deeds_does | done].
Qed.

Lemma message_from_tl_data m tgm : tg_message_from_tl junk print_lf m = Ok tgm -> buf_wf (_buf m) -> buf_wf (message_data tgm).
Proof.
  intros E Hw. unfold tg_message_from_tl in E. apply res_bind_inv in E as (d & Ed & E).
  rewrite buf_add_buf_ok in Ed by done. injection Ed as <-.
  repeat (apply res_bind_inv in E as (? & _ & E)). injection E as <-. cbn.
  apply fresh_wf; [by apply contents_ok |]. rewrite zlen_contents by done. destruct Hw as (_ & _ & ? & ? & ? & ?). unfold fits. lia.
Qed.
End Saved.
