(* ===== verification/Updates.v ===== *)
(** * Updates: libtg/tg/updates.c, updates.h, and tg_message_send

    What the server sends without being asked, and what the application is
    told of it through [tg->on_update]. *)
From stdpp Require Import strings pretty.
From S2P Require Import Prelude TlBuf Serial Errors Tg Packet Objects Service Sql Database Entities Files Peers Messages.

Definition id_updateNewMessage : Z := 0x1f2b0afd.
Definition id_updateDeleteMessages : Z := 0xa20db0e5.
Definition id_updateUserTyping : Z := 0xc01e857f.
Definition id_updateChatUserTyping : Z := 0x83487af0.
Definition id_updateChannelUserTyping : Z := 0x8c88c923.
Definition id_updateUserStatus : Z := 0xe5bdf8de.
Definition id_sendMessageTypingAction : Z := 0x16bf744e.
Definition id_sendMessageCancelAction : Z := 0xfd5ec8f5.
Definition id_sendMessageUploadVideoAction : Z := 0xe9763aec.
Definition id_sendMessageUploadAudioAction : Z := 0xf351d7ab.
Definition id_sendMessageUploadPhotoAction : Z := 0xd1d34a26.
Definition id_sendMessageUploadDocumentAction : Z := 0xaa0cd9e4.
Definition id_sendMessageRecordAudioAction : Z := 0xd52f73f7.
Definition id_sendMessageRecordRoundAction : Z := 0x88f27fbc.

Inductive TG_UPDATE :=
| TG_UPDATE_NULL | TG_UPDATE_MESSAGE | TG_UPDATE_MESSAGE_DELETE
| TG_UPDATE_USER_TYPING | TG_UPDATE_USER_CANCEL | TG_UPDATE_USER_UPLOAD_VIDEO | TG_UPDATE_USER_UPLOAD_AUDIO
| TG_UPDATE_USER_UPLOAD_PHOTO | TG_UPDATE_USER_UPLOAD_DOCUMENT | TG_UPDATE_USER_RECORD_AUDIO | TG_UPDATE_USER_RECORD_ROUND
| TG_UPDATE_CHAT_MESSAGE
| TG_UPDATE_CHAT_USER_TYPING | TG_UPDATE_CHAT_USER_CANCEL | TG_UPDATE_CHAT_USER_UPLOAD_VIDEO | TG_UPDATE_CHAT_USER_UPLOAD_AUDIO
| TG_UPDATE_CHAT_USER_UPLOAD_PHOTO | TG_UPDATE_CHAT_USER_UPLOAD_DOCUMENT | TG_UPDATE_CHAT_USER_RECORD_AUDIO
| TG_UPDATE_CHAT_USER_RECORD_ROUND
| TG_UPDATE_USER_STATUS.

(** What the pointer of the callback points to. *)
Inductive update_data :=
| D_message (m : tg_message_t)
| D_id (id : Z)
| D_pair (a b : Z)
| D_chat_message (chat_id : Z) (m : tg_message_t).

Definition user_action (a : Z) : option TG_UPDATE :=
  if a =? id_sendMessageTypingAction then Some TG_UPDATE_USER_TYPING
  else if a =? id_sendMessageCancelAction then Some TG_UPDATE_USER_CANCEL
  else if a =? id_sendMessageUploadVideoAction then Some TG_UPDATE_USER_UPLOAD_VIDEO
  else if a =? id_sendMessageUploadAudioAction then Some TG_UPDATE_USER_UPLOAD_AUDIO
  else if a =? id_sendMessageUploadPhotoAction then Some TG_UPDATE_USER_UPLOAD_PHOTO
  else if a =? id_sendMessageUploadDocumentAction then Some TG_UPDATE_USER_UPLOAD_DOCUMENT
  else if a =? id_sendMessageRecordAudioAction then Some TG_UPDATE_USER_RECORD_AUDIO
  else if a =? id_sendMessageRecordRoundAction then Some TG_UPDATE_USER_RECORD_ROUND
  else None.
(** The same for chats, and for channels. *)
Definition chat_action (a : Z) : option TG_UPDATE :=
  if a =? id_sendMessageTypingAction then Some TG_UPDATE_CHAT_USER_TYPING
  else if a =? id_sendMessageCancelAction then Some TG_UPDATE_CHAT_USER_CANCEL
  else if a =? id_sendMessageUploadVideoAction then Some TG_UPDATE_CHAT_USER_UPLOAD_VIDEO
  else if a =? id_sendMessageUploadAudioAction then Some TG_UPDATE_CHAT_USER_UPLOAD_AUDIO
  else if a =? id_sendMessageUploadPhotoAction then Some TG_UPDATE_CHAT_USER_UPLOAD_PHOTO
  else if a =? id_sendMessageUploadDocumentAction then Some TG_UPDATE_CHAT_USER_UPLOAD_DOCUMENT
  else if a =? id_sendMessageRecordAudioAction then Some TG_UPDATE_CHAT_USER_RECORD_AUDIO
  else if a =? id_sendMessageRecordRoundAction then Some TG_UPDATE_CHAT_USER_RECORD_ROUND
  else None.

(** The rest of the structure is zero. *)
Definition user_status (status : Z) : Z :=
  if existsb (Z.eqb status) [id_userStatusEmpty; id_userStatusOnline; id_userStatusOffline; id_userStatusRecently;
       id_userStatusLastWeek; id_userStatusLastMonth]
  then status else 0.

Section Updates.
Context `{Env} `{Server} `{Schema} `{PeerSchema} `{MessageSchema} `{Sqlite} {U : Type}.
Variable junk : list Z.
Variable print_lf : Z -> list Z.
Variable TL_NAME_FROM_ID : Z -> option string.
(* [tg->on_log] is set; [tg->on_update] *)
Variable logs : bool.
Variable on_update : option (U -> TG_UPDATE -> update_data -> U).

Definition ON_UPDATE (type : TG_UPDATE) (data : update_data) : F U unit :=
  match on_update with
  | Some f => modify (fun s => set_user (f (user s) type data) s)
  | None => mret tt
  end.

Fixpoint deleted (l : list Z) : F U unit :=
  match l with [] => mret tt | i :: l => _ ← ON_UPDATE TG_UPDATE_MESSAGE_DELETE (D_id (u32 i)); deleted l end.

(** A typing user; [action_] is read without a test. *)
Definition does_action (f : Z -> option TG_UPDATE) (m : tl_t) (data : update_data) : F U unit :=
  match ptr_of "action_" m with
  | None => fail NullDeref
  | Some a => match f (_id a) with Some type => ON_UPDATE type data | None => mret tt end
  end.

(** [ON_LOG] reads the number of the update before it is tested. *)
Definition tg_do_update (update : option tl_t) : F U unit :=
  match update with
  | None => if logs then fail NullDeref else mret tt
  | Some m =>
      let id := _id m in
      if id =? id_updateNewMessage then
        o ← lift (tg_message_from_tl_unknown junk print_lf TL_NAME_FROM_ID None (ptr_of "message_" m));
        match o with
        | None => fail Uninit
        | Some tgm => _ ← tg_message_to_database tgm; ON_UPDATE TG_UPDATE_MESSAGE (D_message tgm)
        end
      else if id =? id_updateDeleteMessages then deleted (nums_of "messages_" m)
      else if id =? id_updateUserTyping then does_action user_action m (D_id (num_of "user_id_" m))
      else if id =? id_updateChatUserTyping then
        match ptr_of "from_id_" m with
        | None => mret tt
        | Some peer => does_action chat_action m (D_pair (num_of "chat_id_" m) (first_num peer))
        end
      else if id =? id_updateChannelUserTyping then
        match ptr_of "from_id_" m with
        | None => mret tt
        | Some peer => does_action chat_action m (D_pair (num_of "channel_id_" m) (first_num peer))
        end
      else if id =? id_updateUserStatus then
        match ptr_of "status_" m with
        | None => fail NullDeref
        | Some status => ON_UPDATE TG_UPDATE_USER_STATUS (D_pair (num_of "user_id_" m) (user_status (_id status)))
        end
      else mret tt
  end.

(** The message of an updateShortMessage or updateShortChatMessage and the
    number of the chat.  In the second case [id_] gets the number of the
    constructor; in the first the author is left out. *)
Definition message_update (tl : tl_t) : res (Z * tg_message_t) :=
  text ← buf_strdup (buf_of "message_" tl);
  let chat := _id tl =? 0x4d6deea5 in
  let m := if chat then sets "from_id_" (num_of "from_id_" tl) ∅ else ∅ in
  let m := nums [("out_", "out_"); ("mentioned_", "mentioned_"); ("media_unread_", "media_unread_"); ("silent_", "silent_")] tl m in
  let m := sets "id_" (if chat then _id tl else num_of "id_" tl) m in
  let m := put_text "message_" (Some text) m in
  let m := nums [("date_", "date_"); ("ttl_period_", "ttl_period_")] tl m in
  Ok (if chat then num_of "chat_id_" tl else 0, Message (Buf [] 0 0 0) m ∅ ∅ []).

Fixpoint all_updates (l : list (option tl_t)) : F U unit :=
  match l with
  | [] => mret tt
  | None :: l => all_updates l
  | Some u :: l => _ ← tg_do_update (Some u); all_updates l
  end.

Definition tg_do_updates (tl : option tl_t) : F U Z :=
  match tl with
  | None => mret 1
  | Some tl =>
      match obj tl with
      | UpdatesTooLong | UpdateShortSentMessage => mret 0
      | UpdateShortMessage _ => r ← lift (message_update tl); _ ← ON_UPDATE TG_UPDATE_MESSAGE (D_message (snd r)); mret 0
      | UpdateShortChatMessage _ =>
          r ← lift (message_update tl); _ ← ON_UPDATE TG_UPDATE_CHAT_MESSAGE (D_chat_message (fst r) (snd r)); mret 0
      | UpdateShort _ => _ ← tg_do_update (ptr_of "update_" tl); mret 0
      | UpdatesCombined _ | Updates _ => _ ← all_updates (vec_of "updates_" tl); mret 0
      | _ => mret 1
      end
  end.

(** messages.c *)
Definition tg_message_send (peer : tg_peer_t) (message : list Z) : F U Z :=
  random_id ← rand_buf 8;
  rid ← lift (buf_get_ui64 random_id);
  tl ← tg_send_query (Some (tl_messages_sendMessage (tg_inputPeer peer) message rid));
  match tl with
  | None => mret 1
  | Some _ => _ ← tg_do_updates tl; mret 0
  end.
End Updates.
