(* ===== verification/UpdatesFacts.v ===== *)
(** * What the application is told

    The updates of one answer reach the application in order; short
    messages lose their author and their number on the way. *)
From stdpp Require Import strings pretty.
From S2P Require Import Prelude TlBuf Serial Errors Tg Packet Objects Service Sql Database DatabaseFacts Entities EntitiesFacts Files Peers Messages MessagesFacts Updates.

Section UpdatesFacts.
Context `{Env} `{Server} `{Schema} `{PeerSchema} `{MessageSchema} `{Sqlite} {U : Type}.
Variable junk : list Z.
Variable print_lf : Z -> list Z.
Variable TL_NAME_FROM_ID : Z -> option string.
Variable logs : bool.
Variable f : U -> TG_UPDATE -> update_data -> U.
#[local] Abbreviation updates := (tg_do_updates junk print_lf TL_NAME_FROM_ID logs (Some f)).
#[local] Abbreviation update := (tg_do_update junk print_lf TL_NAME_FROM_ID logs (Some f)).

(** What a user can be doing, by the constructor of the schema: as the
    application is told it of a user, and of a member of a chat. *)
Definition activities : list (Z * TG_UPDATE * TG_UPDATE) := [
  (0x16bf744e, TG_UPDATE_USER_TYPING, TG_UPDATE_CHAT_USER_TYPING);                   (* sendMessageTypingAction *)
  (0xfd5ec8f5, TG_UPDATE_USER_CANCEL, TG_UPDATE_CHAT_USER_CANCEL);                   (* sendMessageCancelAction *)
  (0xe9763aec, TG_UPDATE_USER_UPLOAD_VIDEO, TG_UPDATE_CHAT_USER_UPLOAD_VIDEO);       (* sendMessageUploadVideoAction *)
  (0xf351d7ab, TG_UPDATE_USER_UPLOAD_AUDIO, TG_UPDATE_CHAT_USER_UPLOAD_AUDIO);       (* sendMessageUploadAudioAction *)
  (0xd1d34a26, TG_UPDATE_USER_UPLOAD_PHOTO, TG_UPDATE_CHAT_USER_UPLOAD_PHOTO);       (* sendMessageUploadPhotoAction *)
  (0xaa0cd9e4, TG_UPDATE_USER_UPLOAD_DOCUMENT, TG_UPDATE_CHAT_USER_UPLOAD_DOCUMENT); (* sendMessageUploadDocumentAction *)
  (0xd52f73f7, TG_UPDATE_USER_RECORD_AUDIO, TG_UPDATE_CHAT_USER_RECORD_AUDIO);       (* sendMessageRecordAudioAction *)
  (0x88f27fbc, TG_UPDATE_USER_RECORD_ROUND, TG_UPDATE_CHAT_USER_RECORD_ROUND)        (* sendMessageRecordRoundAction *)
].
(** userStatusEmpty, Online, Offline, Recently, LastWeek, LastMonth. *)
Definition statuses : list Z := [0x09d05049; 0xedb93949; 0x008c703f; 0x7b197dc8; 0x541a1d1a; 0x65899777].

(** What the protocol says an update means: who does what where. *)
Definition event : Type := TG_UPDATE * update_data.
Inductive means : tl_t -> list event -> Prop :=
| means_message t m tgm : _id t = 0x1f2b0afd (* updateNewMessage *) -> ptr_of "message_" t = Some m ->
    becomes junk print_lf TL_NAME_FROM_ID m tgm -> buf_wf (_buf m) -> means t [(TG_UPDATE_MESSAGE, D_message tgm)]
| means_deleted t : _id t = 0xa20db0e5 (* updateDeleteMessages *) ->
    means t ((fun i => (TG_UPDATE_MESSAGE_DELETE, D_id (i mod 4294967296))) <$> nums_of "messages_" t)
| means_user t a u c : _id t = 0xc01e857f (* updateUserTyping *) -> ptr_of "action_" t = Some a -> (_id a, u, c) ∈ activities ->
    means t [(u, D_id (num_of "user_id_" t))]
| means_chat t a u c peer : _id t = 0x83487af0 (* updateChatUserTyping *) -> ptr_of "action_" t = Some a ->
    ptr_of "from_id_" t = Some peer -> (_id a, u, c) ∈ activities ->
    means t [(c, D_pair (num_of "chat_id_" t) (first_num peer))]
| means_channel t a u c peer : _id t = 0x8c88c923 (* updateChannelUserTyping *) -> ptr_of "action_" t = Some a ->
    ptr_of "from_id_" t = Some peer -> (_id a, u, c) ∈ activities ->
    means t [(c, D_pair (num_of "channel_id_" t) (first_num peer))]
| means_status t st : _id t = 0xe5bdf8de (* updateUserStatus *) -> ptr_of "status_" t = Some st -> _id st ∈ statuses ->
    means t [(TG_UPDATE_USER_STATUS, D_pair (num_of "user_id_" t) (_id st))]
| means_nothing t : _id t ∉ [0x1f2b0afd; 0xa20db0e5; 0xc01e857f; 0x83487af0; 0x8c88c923; 0xe5bdf8de] -> means t []
| means_unknown t a : _id t ∈ [0xc01e857f; 0x83487af0; 0x8c88c923] -> ptr_of "action_" t = Some a ->
    _id a ∉ activities.*1.*1 -> means t [].

Definition tell (es : list event) (u : U) : U := foldl (fun u e => f u (fst e) (snd e)) u es.

Lemma activity a u c : (a, u, c) ∈ activities -> user_action a = Some u /\ chat_action a = Some c.
Proof. unfold activities. rewrite !elem_of_cons. intros E.
  repeat (destruct E as [[= -> -> ->] | E]; [by split |]). by apply not_elem_of_nil in E.
Qed.
Lemma inactivity a : a ∉ activities.*1.*1 -> user_action a = None /\ chat_action a = None.
Proof.
  unfold activities. cbn [fmap list_fmap fst]. rewrite !not_elem_of_cons. intros (?&?&?&?&?&?&?&?&_).
  unfold user_action, chat_action. by rewrite !(proj2 (Z.eqb_neq _ _)) by done.
Qed.
Lemma status_kept st : st ∈ statuses -> user_status st = st.
Proof. unfold statuses. rewrite !elem_of_cons. intros E.
  repeat (destruct E as [-> | E]; [done |]). by apply not_elem_of_nil in E.
Qed.

Lemma becomes_wf m tgm : becomes junk print_lf TL_NAME_FROM_ID m tgm -> buf_wf (_buf m) -> buf_wf (message_data tgm).
Proof.
  intros E%becomes_data Hw. rewrite buf_add_buf_ok in E by done. injection E as <-. apply fresh_wf; [by apply contents_ok |].
  rewrite zlen_contents by done. destruct Hw as (_ & _ & ? & ? & ? & ?). unfold fits. lia.
Qed.

Lemma deleted_ok l : forall s : client U,
  deleted (Some f) l s = Ok (tt, set_user (tell ((fun i => (TG_UPDATE_MESSAGE_DELETE, D_id (u32 i))) <$> l) (user s)) s).
Proof.
  induction l as [|i l IH]; intros s; [by destruct s |]. cbn [deleted]. erewrite bind_eq by reflexivity. rewrite IH. reflexivity.
Qed.
Lemma update_ok t es (s : client U) : is_i32 (c_id (conn s)) -> means t es ->
  exists s', update (Some t) s = Ok (tt, s') /\ only_deeds s s' /\ user s' = tell es (user s).
Proof.
  intros Hid Hm.
  assert (Hsame : forall es, update (Some t) s = Ok (tt, set_user (tell es (user s)) s) ->
    exists s', update (Some t) s = Ok (tt, s') /\ only_deeds s s' /\ user s' = tell es (user s)).
  { intros es' E. eexists. split; [exact E |]. split; [| done]. split_and!; [done | done |]. exists []. by rewrite app_nil_r. }
  destruct Hm as [t m tgm Hi Hp Hb Hw | t Hi | t a u c Hi Ha Hk | t a u c peer Hi Ha Hp Hk | t a u c peer Hi Ha Hp Hk
    | t st Hi Hs Hk | t Hn | t a Hi Ha Hk]; [| apply Hsame ..]; cbn [tg_do_update].
  - rewrite Hi, Hp. cbn. rewrite (bind_lift _ _ _ _ Hb).
    destruct (message_saved tgm s Hid (becomes_wf m tgm Hb Hw)) as (x & s1 & E1 & (D1 & D2 & D3) & U1). rewrite (bind_eq _ _ _ _ _ E1).
    eexists. split; [reflexivity |]. split; [by split | by cbn; rewrite U1].
  - rewrite Hi. exact (deleted_ok _ s).
  - rewrite Hi. cbn. unfold does_action. by rewrite Ha, (proj1 (activity _ _ _ Hk)).
  - rewrite Hi. cbn. unfold does_action. by rewrite Ha, Hp, (proj2 (activity _ _ _ Hk)).
  - rewrite Hi. cbn. unfold does_action. by rewrite Ha, Hp, (proj2 (activity _ _ _ Hk)).
  - rewrite Hi. cbn. by rewrite Hs, status_kept.
  - rewrite !not_elem_of_cons in Hn. destruct Hn as (?&?&?&?&?&?&_). rewrite !(proj2 (Z.eqb_neq _ _)) by done. by destruct s.
  - destruct (inactivity _ Hk) as [Hu Hc]. rewrite !elem_of_cons in Hi.
    assert (Hnil : set_user (tell [] (user s)) s = s) by (by destruct s). rewrite Hnil.
    destruct Hi as [-> | [-> | [-> | Hi]]]; [| | | by apply not_elem_of_nil in Hi]; cbn; unfold does_action;
      rewrite Ha, ?Hu, ?Hc; try done; by destruct (ptr_of "from_id_" t).
Qed.


(** Two objects with the same members but some. *)
Definition same_but (ns : list string) (m m' : list (string * slot)) : Prop := forall n, n ∉ ns -> slot_of n m = slot_of n m'.
Lemma same_num ns n t t' : same_but ns (members t) (members t') -> n ∉ ns -> num_of n t = num_of n t'.
Proof. intros Hs Hn. unfold num_of. by rewrite (Hs n Hn). Qed.
Lemma same_buf ns n t t' : same_but ns (members t) (members t') -> n ∉ ns -> buf_of n t = buf_of n t'.
Proof. intros Hs Hn. unfold buf_of. by rewrite (Hs n Hn). Qed.

(** short messages lose author and number.  A message of a user is
    handed over without its author: whoever sends it, the application gets
    the same.  A message in a group is handed over with the number of the
    constructor instead of its own: the application gets the same for every
    number. *)
Theorem short_message_identity_lost b b' m m' (s : client U) :
  (same_but ["user_id_"%string] m m' ->
    updates (Some (Tl b (UpdateShortMessage m))) s = updates (Some (Tl b' (UpdateShortMessage m'))) s) /\
  (same_but ["id_"%string] m m' ->
    updates (Some (Tl b (UpdateShortChatMessage m))) s = updates (Some (Tl b' (UpdateShortChatMessage m'))) s).
Proof.
  split; intros Hs; cbn [tg_do_updates obj].
  - assert (E : message_update (Tl b (UpdateShortMessage m)) = message_update (Tl b' (UpdateShortMessage m'))); [| by rewrite E].
    set (t := Tl b (UpdateShortMessage m)). set (t' := Tl b' (UpdateShortMessage m')).
    assert (Hn : forall n, n ∉ ["user_id_"%string] -> num_of n t = num_of n t') by (intros n Hn; by eapply (same_num _ n t t')).
    unfold message_update. rewrite (same_buf _ "message_" t t' Hs) by (apply (bool_decide_eq_true_1 _); reflexivity).
    change (_id t) with 0x313bc7f8. change (_id t') with 0x313bc7f8. unfold nums. cbn [foldl fst snd].
    by rewrite !(Hn _) by (apply (bool_decide_eq_true_1 _); reflexivity).
  - assert (E : message_update (Tl b (UpdateShortChatMessage m)) = message_update (Tl b' (UpdateShortChatMessage m'))); [| by rewrite E].
    set (t := Tl b (UpdateShortChatMessage m)). set (t' := Tl b' (UpdateShortChatMessage m')).
    assert (Hn : forall n, n ∉ ["id_"%string] -> num_of n t = num_of n t') by (intros n Hn; by eapply (same_num _ n t t')).
    unfold message_update. rewrite (same_buf _ "message_" t t' Hs) by (apply (bool_decide_eq_true_1 _); reflexivity).
    change (_id t) with 0x4d6deea5. change (_id t') with 0x4d6deea5. unfold nums. cbn [foldl fst snd Z.eqb Pos.eqb].
    by rewrite !(Hn _) by (apply (bool_decide_eq_true_1 _); reflexivity).
Qed.
End UpdatesFacts.
