(* ===== verification/Dialogs.v ===== *)
(** * Dialogs of the server: libtg/tg/dialogs.c

    What [tg_get_dialogs] asks for, what it makes of the answers, and when
    it stops asking.  The table of dialogs is in Entities.v. *)
From stdpp Require Import strings pretty.
From S2P Require Import Prelude TlBuf Serial Errors Tg Packet Queue Objects Service Sql Database Entities Files Peers Messages.

Definition id_dialog : Z := 0xd58a08c6.
Definition id_dialogFolder : Z := 0x71bd134c.
Definition id_messages_dialogs : Z := 0x15ba6c40.
Definition id_messages_dialogsSlice : Z := 0x71e094f3.
Definition id_messages_dialogsNotModified : Z := 0xf0e3e596.

Class DialogSchema := {
  tl_inputPeerSelf : list Z;
  (* folder_id, offset_date, offset_id, offset_peer, limit, hash *)
  tl_messages_getDialogs : option Z -> Z -> Z -> list Z -> Z -> Z -> list Z
}.

(** [struct tg_get_dialogs_t]; [*hash] is [None] for a null pointer. *)
Record progress := Progress { count : Z; total : Z; hash : option Z; offset_id : Z; offset_date : Z; stop : bool }.
Definition set_total (z : Z) (p : progress) : progress := Progress (count p) z (hash p) (offset_id p) (offset_date p) (stop p).
Definition add_count (z : Z) (p : progress) : progress := Progress (count p + z) (total p) (hash p) (offset_id p) (offset_date p) (stop p).
Definition set_hash (h : option Z) (p : progress) : progress := Progress (count p) (total p) h (offset_id p) (offset_date p) (stop p).
Definition stopped (p : progress) : progress := Progress (count p) (total p) (hash p) (offset_id p) (offset_date p) true.

Definition dput : string -> Z -> struct_ -> struct_ := put TG_DIALOG_ARGS.
Definition dputs (l : list (string * string)) (t : tl_t) (d : struct_) : struct_ :=
  foldl (fun d p => dput (fst p) (num_of (snd p) t) d) d l.

Section Dialog.
Context `{Platform}.

(** ** One dialog *)
(** A folder is made a dialog: the other members are zero. *)
Definition dialog_of (t : tl_t) : res (option tl_t) :=
  if _id t =? id_dialogFolder then
    match ptr_of "folder_" t with
    | None => Err NullDeref
    | Some folder =>
        Ok (Some (Tl (Buf [] 0 0 0) (Object 0 [
          ("peer_", SPtr (ptr_of "peer_" t)); ("top_message_", SNum (num_of "top_message_" t)); ("pinned_", SNum (num_of "pinned_" t));
          ("unread_count_", SNum (num_of "unread_unmuted_messages_count_" t)); ("folder_id_", SNum (num_of "id_" folder))])))
    end
  else Ok (if _id t =? id_dialog then Some t else None).

(** [silent_] is of type Bool, a pointer: its value is whether it is there. *)
Definition dialog_base (t : tl_t) : struct_ :=
  let d := dputs [("top_message_id", "top_message_"); ("pinned", "pinned_"); ("unread_mark", "unread_mark_");
    ("read_inbox_max_id", "read_inbox_max_id_"); ("read_outbox_max_id", "read_outbox_max_id_"); ("unread_count", "unread_count_");
    ("unread_mentions_count", "unread_mentions_count_"); ("unread_reactions_count", "unread_reactions_count_");
    ("folder_id", "folder_id_")] t ∅ in
  let d := match ptr_of "peer_" t with Some peer => dput "peer_id" (first_num peer) d | None => d end in
  match ptr_of "notify_settings_" t with
  | Some pns =>
      dput "mute_until" (num_of "mute_until_" pns)
        (dput "silent" (match ptr_of "silent_" pns with Some _ => 1 | None => 0 end) d)
  | None => d
  end.

(** Name and photo from what has the number of the peer; users, channels and
    chats are not told apart. *)
Definition dname (b : buf_t) (d : struct_) : res struct_ := s ← buf_strdup b; Ok (put_text "name" (Some s) d).
Definition dphoto (id : Z) (t : tl_t) (d : struct_) : res struct_ :=
  when (sub "photo_" id t) (fun photo d =>
    thumb ← BUF2IMG (buf_of "stripped_thumb_" photo);
    Ok (put_text "thumb" thumb (dput "photo_id" (num_of "photo_id_" photo) d))) d.
Definition same_number (d : struct_) (t : tl_t) : bool := num "peer_id" d =? num_of "id_" t.

Definition from_user (t : tl_t) (d : struct_) : res struct_ :=
  if (_id t =? id_user) && same_number d t then
    let d := dput "peer_type" TG_PEER_TYPE_USER (dput "access_hash" (num_of "access_hash_" t) d) in
    d ← dname (if b_size (buf_of "username_" t) =? 0 then buf_of "first_name_" t else buf_of "username_" t) d;
    dphoto id_userProfilePhoto t d
  else Ok d.
Definition from_chat (t : tl_t) (d : struct_) : res struct_ :=
  if (_id t =? id_channel) && same_number d t then
    let d := dput "peer_type" TG_PEER_TYPE_CHANNEL (dput "access_hash" (num_of "access_hash_" t) d) in
    d ← dname (buf_of "title_" t) d;
    dphoto id_chatPhoto t (dput "broadcast" (num_of "broadcast_" t) d)
  else if (_id t =? id_chat) && same_number d t then
    d ← dname (buf_of "title_" t) (dput "peer_type" TG_PEER_TYPE_CHAT d);
    dphoto id_chatPhoto t d
  else Ok d.
Fixpoint over (f : tl_t -> struct_ -> res struct_) (l : list (option tl_t)) (d : struct_) : res struct_ :=
  match l with
  | [] => Ok d
  | None :: l => over f l d
  | Some t :: l => d ← f t d; over f l d
  end.

(** The text shown for the last message. *)
Definition top_text (message : tl_t) (m : struct_) (d : struct_) : res struct_ :=
  let say t d := put_text "top_message_text" (Some (chars t)) d in
  let flag n := negb (num n m =? 0) in
  if 0 <? b_size (buf_of "message_" message) then
    s ← buf_strdup (buf_of "message_" message); Ok (put_text "top_message_text" (Some s) d)
  else Ok (
    if flag "doc_isVideo" then say "*video*" d
    else if flag "doc_isRound" then say "*round*" d
    else if flag "doc_isVoice" then say "*voice message*" d
    else match text "doc_title" m with
    | Some t => put_text "top_message_text" (Some t) d
    | None =>
        if flag "doc_id" then say "*document*" d
        else if num "media_type" m =? id_messageMediaDocument then say "*document*" d
        else if num "media_type" m =? id_messageMediaContact then say "*contact*" d
        else if num "media_type" m =? id_messageMediaPhoto then say "*photo*" d
        else if num "media_type" m =? id_messageMediaGeo then say "*geopoint*" d
        else d
    end).
Definition top_from (message : tl_t) (d : struct_) : struct_ :=
  match ptr_of "from_id_" message with
  | None => d
  | Some from =>
      let i := _id from in
      if (i =? TG_PEER_TYPE_USER) || (i =? TG_PEER_TYPE_CHANNEL) || (i =? TG_PEER_TYPE_CHAT) then
        dput "top_message_from_peer_id" (first_num from) (dput "top_message_from_peer_type" i d)
      else dput "top_message_from_peer_type" 0 d
  end.
End Dialog.

Section Dialogs.
Context `{Env} `{Server} `{Schema} `{PeerSchema} `{MessageSchema} `{DialogSchema} `{Sqlite} {U : Type}.
Variable junk : list Z.
Variable print_lf : Z -> list Z.
Variable TL_NAME_FROM_ID : Z -> option string.
(* [tg->on_log] is set; a NULL answer reaches the callback *)
Variable logs : bool.
Variable null_delivered : bool.

(** The last message is found by its number alone. *)
Fixpoint top_messages (l : list (option tl_t)) (d : struct_) : F U struct_ :=
  match l with
  | [] => mret d
  | None :: l => top_messages l d
  | Some message :: l =>
      if (_id message =? id_message) && (num_of "id_" message =? num "top_message_id" d) then
        tgm ← lift (tg_message_from_tl junk print_lf message);
        d ← lift (top_text message (msg tgm) (dput "top_message_date" (num_of "date_" message) d));
        _ ← tg_message_to_database tgm;
        top_messages l (top_from message d)
      else top_messages l d
  end.

(** The loop over the dialogs of an answer: the number of those that were
    handled, or -1 when the callback stops it. *)
Fixpoint dialogs_loop (md : tl_t) (l : list (option tl_t)) (n : Z) (p : progress) (callback : callback_t) : F U (Z * progress) :=
  match l with
  | [] => mret (n, p)
  | None :: l => dialogs_loop md l n p callback
  | Some t :: l =>
      o ← lift (dialog_of t);
      match o with
      | None => dialogs_loop md l n p callback
      | Some dialog =>
          d ← lift (over from_user (vec_of "users_" md) (dialog_base dialog));
          d ← lift (over from_chat (vec_of "chats_" md) d);
          if num "peer_type" d =? 0 then
            if logs && bool_decide (ptr_of "peer_" dialog = None) then fail NullDeref
            else dialogs_loop md l n p callback
          else
            d ← top_messages (vec_of "messages_" md) d;
            _ ← tg_dialog_to_database d;
            let p := set_hash ((fun h => update_hash h (num "top_message_id" d)) <$> hash p) p in
            stop ← calls callback d;
            if stop : bool then mret (-1, p) else dialogs_loop md l (n + 1) p callback
      end
  end.

Definition tg_dialogs_from_tl (p : progress) (tl : tl_t) (callback : callback_t) : F U (Z * progress) :=
  if (_id tl =? id_messages_dialogsSlice) || (_id tl =? id_messages_dialogs) then
    let p := if _id tl =? id_messages_dialogsSlice then set_total (i32 (num_of "count_" tl)) p else p in
    let l := vec_of "dialogs_" tl in
    let p := add_count (Z.of_nat (length l)) p in
    if bool_decide (l = []) then mret (0, p) else dialogs_loop tl l 0 p callback
  else mret (0, p).

(** The seconds of a FLOOD_WAIT are slept. *)
Definition tg_get_dialogs_callback (p : progress) (tl : tl_t) (callback : callback_t) : F U progress :=
  _ ← (match obj tl with Rpc_error _ message => _ ← lift (RPC_ERROR message); mret tt | _ => mret tt end);
  r ← tg_dialogs_from_tl p tl callback;
  mret (if fst r <? 0 then stopped (snd r) else snd r).

Fixpoint get_dialogs_loop (fuel : nat) (limit : Z) (folder_id : option Z) (p : progress) (callback : callback_t) : F U progress :=
  match fuel with
  | O => fail NoFuel
  | S fuel =>
      if count p <? total p then
        tl ← tg_send_query (Some (tl_messages_getDialogs folder_id (offset_date p) (offset_id p) tl_inputPeerSelf
               (if 0 <? limit then limit else 20) (default 0 (hash p))));
        p ← (match tl with
             | Some tl => tg_get_dialogs_callback p tl callback
             | None => if null_delivered then fail AssertFailed else mret p
             end);
        if 0 <? limit then mret p
        else if stop p then mret p
        else get_dialogs_loop fuel limit folder_id p callback
      else mret p
  end.

(** The value is what [hash] points to afterwards. *)
Definition tg_get_dialogs (fuel : nat) (limit offset_date : Z) (h : option Z) (folder_id : option Z) (callback : callback_t) : F U (option Z) :=
  p ← get_dialogs_loop fuel limit folder_id (Progress 0 1 h 4294967295 offset_date false) callback;
  mret (hash p).

Definition tg_dialog_set_top_message (peer_id msg_id : Z) (message : list Z) : F U Z :=
  id ← the_id;
  tg_sqlite3_exec (chars "UPDATE TABLE 'dialogs' SET top_message_id = " ++ dec (i32 msg_id) ++ chars ", 'top_message_text' = " ++ message ++
    chars "WHERE 'peer_id' = " ++ ld peer_id ++ chars " AND id = " ++ print_id id ++ chars ";").
End Dialogs.
