(* ===== verification/DialogsFacts.v ===== *)
(** * What tg_get_dialogs asks for and hands over

    The dialogs of a page are described, saved and handed to the
    application; the next page is never asked for, and without a dialog the
    function asks for ever. *)
From stdpp Require Import strings pretty.
From S2P Require Import Prelude TlBuf Serial Errors Tg Packet Queue Objects Service Sql Database DatabaseFacts Entities EntitiesFacts Files Peers Messages MessagesFacts Dialogs.

Section DialogsFacts.
Context `{Env} `{Server} `{Schema} `{PeerSchema} `{MessageSchema} `{DialogSchema} `{Sqlite} {U : Type}.
Variable junk : list Z.
Variable print_lf : Z -> list Z.
Variable TL_NAME_FROM_ID : Z -> option string.
Variable logs : bool.
Variable null_delivered : bool.
#[local] Abbreviation get_loop := (get_dialogs_loop junk print_lf logs null_delivered).

(** What the last message adds to a dialog: the messages of the page with
    the number the dialog names, as far as they are messages. *)
Inductive topped : list (option tl_t) -> struct_ -> struct_ -> Prop :=
| topped_end d : topped [] d d
| topped_null l d d' : topped l d d' -> topped (None :: l) d d'
| topped_other m l d d' : _id m <> id_message \/ num_of "id_" m <> num "top_message_id" d ->
    topped l d d' -> topped (Some m :: l) d d'
| topped_this m l d tgm d1 d' : _id m = id_message -> num_of "id_" m = num "top_message_id" d -> buf_wf (_buf m) ->
    tg_message_from_tl junk print_lf m = Ok tgm ->
    top_text m (msg tgm) (dput "top_message_date" (num_of "date_" m) d) = Ok d1 ->
    topped l (top_from m d1) d' -> topped (Some m :: l) d d'.

(** The description of a dialog from the users, chats and messages of the
    page. *)
Definition described (md t : tl_t) (d : struct_) : Prop :=
  exists dialog d1 d2, dialog_of t = Ok (Some dialog) /\ over from_user (vec_of "users_" md) (dialog_base dialog) = Ok d1 /\
    over from_chat (vec_of "chats_" md) d1 = Ok d2 /\ num "peer_type" d2 <> 0 /\ topped (vec_of "messages_" md) d2 d.

Definition hand_dialogs (f : U -> struct_ -> Z * U) (ds : list struct_) (u : U) : U := foldl (fun u d => snd (f u d)) u ds.
Definition saved_dialogs (id : Z) (ds : list struct_) : list deed := (fun d => Exec (save_text dialogs id d)) <$> ds.
Definition hashed (ds : list struct_) (h : option Z) : option Z :=
  (fun h => foldl (fun h d => update_hash h (num "top_message_id" d)) h ds) <$> h.

Lemma hashed_cons d ds h : hashed (d :: ds) h = hashed ds ((fun h => update_hash h (num "top_message_id" d)) <$> h).
Proof. by destruct h. Qed.
Lemma set_hash_twice h h' p : set_hash h (set_hash h' p) = set_hash h p.
Proof. reflexivity. Qed.

Lemma top_messages_ok l d d' : topped l d d' -> forall s : client U, is_i32 (c_id (conn s)) ->
  exists s', top_messages junk print_lf l d s = Ok (d', s') /\ only_deeds s s' /\ user s' = user s.
Proof.
  induction 1 as [d | l d d' _ IH | m l d d' Hm _ IH | m l d tgm d1 d' Hm Hn Hw Hg Hx _ IH]; intros s Hid; cbn [top_messages].
  - exists s. split_and!; [done | apply only_deeds_refl | done].
  - by apply IH.
  - replace ((_id m =? id_message) && (num_of "id_" m =? num "top_message_id" d)) with false; [by apply IH |].
    symmetry. apply andb_false_iff. rewrite !Z.eqb_neq. done.
  - rewrite Hm, Hn, !Z.eqb_refl. cbn [andb]. rewrite (bind_lift _ _ _ _ Hg), (bind_lift _ _ _ _ Hx).
    destruct (message_saved tgm s Hid) as (r & s1 & E1 & D1 & U1); [by eapply message_from_tl_data |].
    rewrite (bind_eq _ _ _ _ _ E1).
    destruct (IH s1) as (s2 & E2 & D2 & U2); [by destruct D1 as (_ & -> & _) |].
    exists s2. split_and!; [done | by eapply only_deeds_trans | congruence].
Qed.

Definition saves (id : Z) (d : struct_) : deed := Exec (save_text dialogs id d).
Lemma dialogs_loop_ok md f : (forall u d, fst (f u d) = 0) -> forall ts ds n p (s : client U),
  is_i32 (c_id (conn s)) -> Forall2 (described md) ts ds ->
  exists s', dialogs_loop junk print_lf logs md (Some <$> ts) n p (Some f) s =
      Ok ((n + Z.of_nat (length ts), set_hash (hashed ds (hash p)) p), s') /\
    only_deeds s s' /\ user s' = hand_dialogs f ds (user s) /\
    forall d, d ∈ ds -> saves (c_id (conn s)) d ∈ did s'.
Proof.
  intros Hf ts. induction ts as [|t ts IH]; intros ds n p s Hid Hall.
  - apply Forall2_nil_inv_l in Hall as ->. exists s. cbn. rewrite Z.add_0_r. split_and!.
    + destruct p as [? ? [?|] ? ? ?]; done.
    + apply only_deeds_refl.
    + done.
    + intros d Hd. by apply not_elem_of_nil in Hd.
  - apply Forall2_cons_inv_l in Hall as (d & ds' & (dialog & d1 & d2 & Ed & Eu & Ec & Hp & Ht) & Hall & ->).
    rewrite fmap_cons. cbn [dialogs_loop]. rewrite (bind_lift _ _ _ _ Ed), (bind_lift _ _ _ _ Eu), (bind_lift _ _ _ _ Ec).
    replace (num "peer_type" d2 =? 0) with false by lia.
    destruct (top_messages_ok _ _ _ Ht s Hid) as (s1 & E1 & D1 & U1). rewrite (bind_eq _ _ _ _ _ E1).
    assert (Ec1 : conn s1 = conn s) by apply D1.
    unfold tg_dialog_to_database, save. erewrite bind_eq.
    2: { erewrite bind_eq; [reflexivity |]. rewrite (bind_eq _ _ _ _ _ (id_ok s1)). apply exec_ok. }
    cbv zeta. erewrite bind_eq.
    2: { unfold calls. erewrite bind_eq by reflexivity. cbv zeta. erewrite bind_eq by reflexivity. unfold mret, st_ret. by rewrite Hf. }
    change (negb (0 =? 0)) with false. cbv iota. rewrite Ec1. change (Exec (save_text dialogs (c_id (conn s)) d)) with (saves (c_id (conn s)) d).
    set (s2 := set_user _ _). assert (Ec2 : conn s2 = conn s) by exact Ec1.
    assert (D2 : only_deeds s s2).
    { eapply only_deeds_trans; [exact D1 |]. split_and!; [done | done |]. by exists [saves (c_id (conn s)) d]. }
    destruct (IH ds' (n + 1) (set_hash ((fun h => update_hash h (num "top_message_id" d)) <$> hash p) p) s2)
      as (s' & E & D & Eu' & Hs); [by rewrite Ec2 | done |].
    exists s'. split_and!.
    + rewrite E. do 2 f_equal. f_equal; [cbn [length]; lia |]. rewrite hashed_cons. by destruct p.
    + by eapply only_deeds_trans.
    + rewrite Eu'. unfold s2. cbn [user set_user]. change (user (does ?e s1)) with (user s1). by rewrite U1.
    + intros x Hx. apply elem_of_cons in Hx as [-> | Hx].
      * eapply only_deeds_did; [exact D |]. unfold s2. cbn [did set_user does]. apply elem_of_app. right. by left.
      * rewrite <- Ec2. by apply Hs.
Qed.

(** A page of dialogs that can be described. *)
Record page (md : tl_t) (ts : list tl_t) (ds : list struct_) : Prop := {
  page_id : _id md = id_messages_dialogsSlice \/ _id md = id_messages_dialogs;
  page_obj : match obj md with Rpc_error _ _ => False | _ => True end;
  page_dialogs : vec_of "dialogs_" md = Some <$> ts;
  page_described : Forall2 (described md) ts ds;
  page_some : ts <> []
}.
(** The number of dialogs there are, as far as the page tells. *)
Definition known_total (md : tl_t) (before : Z) : Z := if _id md =? id_messages_dialogsSlice then i32 (num_of "count_" md) else before.

Lemma page_handled md ts ds f p (s : client U) : (forall u d, fst (f u d) = 0) -> is_i32 (c_id (conn s)) -> page md ts ds ->
  exists s', tg_get_dialogs_callback junk print_lf logs p md (Some f) s =
    Ok (Progress (count p + Z.of_nat (length ts)) (known_total md (total p)) (hashed ds (hash p)) (offset_id p) (offset_date p) (stop p), s') /\
    only_deeds s s' /\ user s' = hand_dialogs f ds (user s) /\
    forall d, d ∈ ds -> saves (c_id (conn s)) d ∈ did s'.
Proof.
  intros Hf Hid [Hi Ho Hd Hall Hne]. unfold tg_get_dialogs_callback.
  set (p1 := if _id md =? id_messages_dialogsSlice then set_total (i32 (num_of "count_" md)) p else p).
  destruct (dialogs_loop_ok md f Hf ts ds 0 (add_count (Z.of_nat (length ts)) p1) s Hid Hall) as (s' & E & D & Eu & Hs).
  exists s'. split; [| done]. erewrite bind_eq by (destruct (obj md); done).
  unfold tg_dialogs_from_tl, known_total.
  replace ((_id md =? id_messages_dialogsSlice) || (_id md =? id_messages_dialogs)) with true by (destruct Hi as [-> | ->]; reflexivity).
  rewrite Hd, length_fmap. rewrite bool_decide_false by (by destruct ts). erewrite bind_eq by exact E.
  cbn [fst snd]. rewrite (proj2 (Z.ltb_ge (0 + Z.of_nat (length ts)) 0)) by lia. unfold mret, st_ret. f_equal. f_equal.
  unfold p1. destruct (_id md =? id_messages_dialogsSlice); by destruct p.
Qed.

Definition iter_pages (f : U -> struct_ -> Z * U) (ds : list struct_) (k : nat) (u : U) : U := Nat.iter k (hand_dialogs f ds) u.

(** The query of every turn. *)
Definition dialogs_query (folder_id : option Z) (limit offset_date : Z) (h : option Z) : list Z :=
  tl_messages_getDialogs folder_id offset_date 4294967295 tl_inputPeerSelf (if 0 <? limit then limit else 20) (default 0 h).

(** The queries of [k] turns: they differ in the hash. *)
Definition page_queries (folder_id : option Z) (limit offset_date : Z) (ds : list struct_) (h : option Z) (k : nat) : list (list Z) :=
  (fun i => dialogs_query folder_id limit offset_date (Nat.iter i (hashed ds) h)) <$> seq 0 k.

Lemma page_queries_S folder_id limit offset_date ds h k :
  page_queries folder_id limit offset_date ds h (S k) =
    dialogs_query folder_id limit offset_date h :: page_queries folder_id limit offset_date ds (hashed ds h) k.
Proof.
  unfold page_queries. cbn [seq]. rewrite fmap_cons. f_equal. rewrite <- fmap_S_seq, <- list_fmap_compose.
  apply list_fmap_ext. intros i x _. cbn [compose]. by rewrite Nat.iter_succ_r.
Qed.

(** What a page makes of the state of the loop. *)
Definition after_page (md : tl_t) (ts : list tl_t) (ds : list struct_) (p : progress) : progress :=
  Progress (count p + Z.of_nat (length ts)) (known_total md (total p)) (hashed ds (hash p)) (offset_id p) (offset_date p) false.

Record starting (p : progress) : Prop := { goes_on : stop p = false; from_the_end : offset_id p = 4294967295 }.
Lemma after_page_starting md ts ds p : starting p -> starting (after_page md ts ds p).
Proof. by intros [Hs Ho]. Qed.

Lemma turn fuel md ts ds f folder_id limit p (s : client U) : (forall u d, fst (f u d) = 0) -> is_i32 (c_id (conn s)) ->
  page md ts ds -> limit <= 0 -> starting p -> count p < total p ->
  answer (asked s ++ [dialogs_query folder_id limit (offset_date p) (hash p)]) = Some md ->
  exists s', get_loop (S fuel) limit folder_id p (Some f) s = get_loop fuel limit folder_id (after_page md ts ds p) (Some f) s' /\
    asked s' = asked s ++ [dialogs_query folder_id limit (offset_date p) (hash p)] /\
    c_id (conn s') = c_id (conn s) /\ user s' = hand_dialogs f ds (user s) /\
    (forall e, e ∈ did s -> e ∈ did s') /\ forall d, d ∈ ds -> saves (c_id (conn s)) d ∈ did s'.
Proof.
  intros Hf Hid Hp Hl [Hs Ho] Hc Ha. set (q := dialogs_query _ _ _ _) in *. set (s1 := ask q (in_session s)).
  assert (Ec : c_id (conn s1) = c_id (conn s)) by apply keyed_conn_id.
  destruct (page_handled md ts ds f p s1 Hf ltac:(by rewrite Ec) Hp) as (s' & E & D & Eu & Hd).
  exists s'. destruct D as (A & C & new & D). split_and!.
  - cbn [get_dialogs_loop]. replace (count p <? total p) with true by lia. rewrite Ho. fold (dialogs_query folder_id limit (offset_date p) (hash p)). fold q.
    rewrite (bind_eq _ _ _ _ _ (send_query_ok q s)), Ha, (bind_eq _ _ _ _ _ E).
    replace (0 <? limit) with false by lia. cbn [stop]. rewrite Hs. unfold after_page. by rewrite Ho.
  - exact A.
  - by rewrite C.
  - exact Eu.
  - intros e He. rewrite D. apply elem_of_app. by left.
  - intros d Hin. rewrite <- Ec. by apply Hd.
Qed.

Lemma pages_loop md ts ds f folder_id limit date : (forall u d, fst (f u d) = 0) -> page md ts ds -> limit <= 0 ->
  forall k p (s : client U), is_i32 (c_id (conn s)) -> starting p -> offset_date p = date ->
  (forall j, (j < k)%nat -> answer (asked s ++ page_queries folder_id limit date ds (hash p) (S j)) = Some md) ->
  known_total md (total p) = total p ->
  (forall j, (j < k)%nat -> count p + Z.of_nat j * Z.of_nat (length ts) < total p) ->
  total p <= count p + Z.of_nat k * Z.of_nat (length ts) ->
  forall fuel, (k < fuel)%nat -> exists p' s', get_loop fuel limit folder_id p (Some f) s = Ok (p', s') /\
    hash p' = Nat.iter k (hashed ds) (hash p) /\
    asked s' = asked s ++ page_queries folder_id limit date ds (hash p) k /\ user s' = iter_pages f ds k (user s) /\
    (forall e, e ∈ did s -> e ∈ did s').
Proof.
  intros Hf Hp Hl k. induction k as [|k IH]; intros p s Hid Hr Hd Ha Ht Hlow Hhigh [|fuel] Hfuel; try lia.
  - cbn [get_dialogs_loop]. replace (count p <? total p) with false by lia. exists p, s. cbn. by rewrite app_nil_r.
  - pose proof (Ha 0%nat ltac:(lia)) as Ha0. rewrite page_queries_S in Ha0. change (page_queries _ _ _ _ _ 0) with (@nil (list Z)) in Ha0.
    rewrite <- Hd in Ha0.
    destruct (turn fuel md ts ds f folder_id limit p s Hf Hid Hp Hl Hr ltac:(specialize (Hlow 0%nat); lia) Ha0)
      as (s1 & E1 & A1 & C1 & U1 & D1 & _). rewrite E1.
    destruct (IH (after_page md ts ds p) s1) with (fuel := fuel) as (p' & s' & E & Hh' & Ea & Eu & D); try done; try lia.
    + by rewrite C1.
    + by apply after_page_starting.
    + intros j Hj. rewrite A1, <- app_assoc. cbn [app hash after_page]. rewrite Hd, <- page_queries_S. apply (Ha (S j)). lia.
    + cbn [total after_page]. by rewrite !Ht.
    + intros j Hj. cbn [count total after_page]. rewrite Ht. specialize (Hlow (S j)). lia.
    + cbn [count total after_page]. rewrite Ht. lia.
    + exists p', s'. split_and!.
      * exact E.
      * rewrite Hh'. cbn [hash after_page]. by rewrite <- Nat.iter_succ_r.
      * rewrite Ea, A1, <- app_assoc. cbn [app hash after_page]. by rewrite Hd, <- page_queries_S.
      * rewrite Eu, U1. unfold iter_pages. by rewrite <- Nat.iter_succ_r.
      * intros e He. by apply D, D1.
Qed.
Lemma known_total_twice md z : known_total md (known_total md z) = known_total md z.
Proof. unfold known_total. by destruct (_id md =? id_messages_dialogsSlice). Qed.

(** The number of queries: as many as pages of this length would fill the
    total, and at least one. *)
Definition turns (md : tl_t) (ts : list tl_t) : nat :=
  S (Z.to_nat ((known_total md 1 - 1) / Z.of_nat (length ts))).

(** C30: Without a limit [tg_get_dialogs] asks again and again, once for
    every [length ts] of the announced total: neither the date nor the number
    of the message to go on from is moved, only the hash of the query (if the
    caller keeps one).  A server that answers such queries with its first
    page gives it each time: its dialogs are described from the users, chats
    and top messages of the page, saved and handed to the application (one
    that does not stop), and the dialogs after it never arrive.  The function
    ends, the number of turns is exact, and the hash that is returned is the
    one of the dialogs that were handled. *)
Theorem dialogs_pages md ts ds f folder_id limit offset_date h (s : client U) fuel :
  let queries := page_queries folder_id limit offset_date ds h in
  (forall u d, fst (f u d) = 0) -> is_i32 (c_id (conn s)) -> page md ts ds -> limit <= 0 ->
  (forall j, (j < turns md ts)%nat -> answer (asked s ++ queries (S j)) = Some md) ->
  (turns md ts < fuel)%nat ->
  exists s', tg_get_dialogs junk print_lf logs null_delivered fuel limit offset_date h folder_id (Some f) s =
      Ok (Nat.iter (turns md ts) (hashed ds) h, s') /\
    asked s' = asked s ++ queries (turns md ts) /\
    user s' = iter_pages f ds (turns md ts) (user s) /\
    forall d, d ∈ ds -> Exec (save_text dialogs (c_id (conn s)) d) ∈ did s'.
Proof.
  intros queries Hf Hid Hp Hl Ha Hfuel. unfold turns in *. set (T := known_total md 1) in *. set (L := Z.of_nat (length ts)) in *.
  assert (HL : 0 < L) by (destruct Hp as [_ _ _ _ Hne]; subst L; destruct ts; [done | cbn [length]; lia]).
  set (k := Z.to_nat ((T - 1) / L)) in *. set (p0 := Progress 0 1 h 4294967295 offset_date false).
  destruct fuel as [|fuel]; [lia |]. pose proof (Ha 0%nat ltac:(lia)) as Ha0. unfold queries in Ha0. rewrite page_queries_S in Ha0.
  destruct (turn fuel md ts ds f folder_id limit p0 s Hf Hid Hp Hl ltac:(done) ltac:(done) Ha0) as (s1 & E1 & A1 & C1 & U1 & D1 & S1).
  destruct (pages_loop md ts ds f folder_id limit offset_date Hf Hp Hl k (after_page md ts ds p0) s1) with (fuel := fuel)
    as (p' & s' & E & Hh & Eq & Eu & D); try done; try lia.
  - by rewrite C1.
  - intros j Hj. rewrite A1, <- app_assoc. cbn [app]. change (hash (after_page md ts ds p0)) with (hashed ds h).
    change (Dialogs.offset_date p0) with offset_date. change (hash p0) with h. rewrite <- page_queries_S. apply (Ha (S j)). lia.
  - apply known_total_twice.
  - intros j Hj. cbn [count total after_page p0]. fold T L. assert (Z.of_nat j + 1 <= (T - 1) / L) by lia.
    pose proof (Z.mul_div_le (T - 1) L HL). nia.
  - cbn [count total after_page p0]. fold T L. pose proof (Z.mul_succ_div_gt (T - 1) L HL). destruct (decide (1 <= T)).
    + assert (0 <= (T - 1) / L) by (apply Z.div_pos; lia). nia.
    + nia.
  - exists s'. split_and!.
    + unfold tg_get_dialogs. fold p0. erewrite bind_eq by (rewrite E1; exact E). unfold mret, st_ret. rewrite Hh.
      cbn [hash after_page p0]. by rewrite <- Nat.iter_succ_r.
    + rewrite Eq, A1, <- app_assoc. cbn [app hash after_page p0 Dialogs.offset_date]. unfold queries. by rewrite page_queries_S.
    + rewrite Eu, U1. unfold iter_pages. by rewrite <- Nat.iter_succ_r.
    + intros d Hd. by apply D, S1.
Qed.

(** ** Answers without dialogs *)
Definition nothing (o : option tl_t) : Prop :=
  match o with
  | None => null_delivered = false
  | Some tl =>
      (forall id m, obj tl = Rpc_error id m -> exists e, RPC_ERROR m = Ok e) /\
      (_id tl = id_messages_dialogsSlice /\ 0 < i32 (num_of "count_" tl) \/ _id tl <> id_messages_dialogsSlice) /\
      (_id tl = id_messages_dialogsSlice \/ _id tl = id_messages_dialogs -> vec_of "dialogs_" tl = [])
  end.

Lemma add_nothing p : add_count 0 p = p.
Proof. destruct p as [c t h i d b]. unfold add_count. cbn [count total hash offset_id offset_date stop]. by rewrite Z.add_0_r. Qed.

Lemma nothing_handled tl f p : nothing (Some tl) -> 0 < total p ->
  exists t, 0 < t /\ forall s : client U, tg_get_dialogs_callback junk print_lf logs p tl f s = Ok (set_total t p, s).
Proof.
  intros (He & Hc & Hd) Ht.
  enough (exists t, 0 < t /\ forall s : client U, tg_dialogs_from_tl junk print_lf logs p tl f s = Ok ((0, set_total t p), s)) as (t & H1t & Et).
  { exists t. split; [done |]. intros s. unfold tg_get_dialogs_callback. erewrite bind_eq.
    2: { destruct (obj tl) eqn:E; try reflexivity. destruct (He _ _ eq_refl) as [e Ee]. by rewrite (bind_lift _ _ _ _ Ee). }
    by rewrite (bind_eq _ _ _ _ _ (Et s)). }
  unfold tg_dialogs_from_tl. destruct (_id tl =? id_messages_dialogsSlice) eqn:E1; cbn [orb].
  - rewrite Hd by lia. exists (i32 (num_of "count_" tl)). split; [lia |]. intros s. cbn [fst snd length Z.of_nat]. by rewrite add_nothing.
  - exists (total p). split; [done |]. intros s. destruct (_id tl =? id_messages_dialogs) eqn:E2; [rewrite Hd by lia |];
      cbn [fst snd length Z.of_nat]; rewrite ?add_nothing; by destruct p.
Qed.

(** When the server answers without dialogs (an empty list, an error, or no
    answer at all), [tg_get_dialogs] without a limit never returns, whatever
    the number of turns. *)
Theorem dialogs_asked_for_ever folder_id limit offset_date h f (s : client U) fuel : limit <= 0 -> (forall qs, nothing (answer qs)) ->
  tg_get_dialogs junk print_lf logs null_delivered fuel limit offset_date h folder_id f s = Err NoFuel.
Proof.
  intros Hl Ha. unfold tg_get_dialogs. apply bind_err.
  enough (forall p s, count p = 0 -> 0 < total p -> stop p = false -> get_loop fuel limit folder_id p f s = Err NoFuel) as E by (apply E; done).
  induction fuel as [|fuel IH]; intros p s' Hc Ht Hs; [done |]. cbn [get_dialogs_loop].
  replace (count p <? total p) with true by lia.
  rewrite (bind_eq _ _ _ _ _ (send_query_ok _ s')).
  specialize (Ha (asked s' ++ [tl_messages_getDialogs folder_id (Dialogs.offset_date p) (offset_id p) tl_inputPeerSelf
    (if 0 <? limit then limit else 20) (default 0 (hash p))])).
  replace (0 <? limit) with false in * by lia. destruct (answer _) as [tl|] eqn:E.
  - destruct (nothing_handled tl f p Ha Ht) as (t & Ht' & Et). rewrite (bind_eq _ _ _ _ _ (Et _)). cbn [stop set_total]. rewrite Hs. by apply IH.
  - cbn in Ha. erewrite bind_eq by (rewrite Ha; reflexivity). rewrite Hs. by apply IH.
Qed.
End DialogsFacts.
