(* ===== verification/Generator.v ===== *)
(** * The generated readers and writers: libtg/tl_generator/generator.c

    The generator prints, for every declaration of the schema, a structure,
    a function that reads it, one that writes it, and one that releases it.
    The C text it prints is modelled by what it does: the functions below
    take a declaration as the parser (TlParser.v) hands it over and go
    through its arguments as the printed statements do.  [schema] is the
    list of the declarations of the two schema files. *)
From stdpp Require Import strings.
From S2P Require Import Prelude TlBuf Serial Errors Tg Packet TlParser Objects.

(** ** What the comparisons with type names distinguish *)
Inductive base := B_int | B_true | B_bool | B_long | B_double | B_string | B_bytes | B_int128 | B_int256 | B_message | B_object.
Inductive kind := Single (b : base) | Vec (b : base).
#[export] Instance base_eq_dec : EqDecision base.
Proof. solve_decision. Defined.
#[export] Instance kind_eq_dec : EqDecision kind.
Proof. solve_decision. Defined.

(** [strcmp(type, "...") == 0] *)
Definition is_type (type : list Z) (s : string) : bool := bool_decide (type = chars s).
Definition base_of (type : list Z) : base :=
  if is_type type "int" then B_int
  else if is_type type "true" then B_true
  else if is_type type "bool" then B_bool
  else if is_type type "long" then B_long
  else if is_type type "double" then B_double
  else if is_type type "string" then B_string
  else if is_type type "bytes" then B_bytes
  else if is_type type "int128" then B_int128
  else if is_type type "int256" then B_int256
  else if is_type type "%Message" then B_message
  else B_object.
(** The element type is cut out of Vector<...> and vector<...>. *)
Definition kind_of (type : list Z) : res kind :=
  match strstr type (chars "ector<") with
  | None => Ok (Single (base_of type))
  | Some p =>
      let p := drop 6 p in
      match strstr p (chars ">") with
      | None => Err NullDeref
      | Some q => Ok (Vec (base_of (take (length p - length q) p)))
      end
  end.

(** A word of flags; the name of a member. *)
Definition is_flags (a : arg_t) : bool := match strstr (arg_name a) (chars "flags") with Some _ => true | None => false end.
Definition str_of (l : list Z) : string :=
  fold_right (fun c s => String (Ascii.ascii_of_N (Z.to_N c)) s) EmptyString l.
Definition member (a : arg_t) : string := str_of (arg_name a) +:+ "_".
Definition is_vector (m : method_t) : bool := bool_decide (method_name m = Some (chars "vector")).
Definition id_of_method (m : method_t) : Z := u32 (method_id m).
Definition id_vector : Z := 0x1cb5c415.

(** ** Structures *)
(** What the zeroed structure holds. *)
Definition zero_slot (k : kind) : slot :=
  match k with
  | Single (B_int | B_true | B_bool | B_long | B_double) => SNum 0
  | Single (B_string | B_bytes | B_int128 | B_int256) => SBuf (Buf [] 0 0 0)
  | Single (B_message | B_object) => SPtr None
  | Vec (B_int | B_bool | B_long | B_double) => SNums []
  | Vec (B_string | B_bytes) => SBufs []
  | Vec B_message => SMsgs []
  | Vec (B_true | B_int128 | B_int256 | B_object) => SVec []
  end.
Fixpoint blank_args (l : list arg_t) : list (string * slot) :=
  match l with
  | [] => []
  | a :: l =>
      match arg_type a with
      | None => if is_flags a then blank_args l else (member a, SNum 0) :: blank_args l
      | Some type => (member a, match kind_of type with Ok k => zero_slot k | Err _ => SNum 0 end) :: blank_args l
      end
  end.

(** The structure as the other parts look at it. *)
Definition num_in (n : string) (m : list (string * slot)) : Z := match slot_of n m with Some (SNum z) => z | _ => 0 end.
Definition buf_in (n : string) (m : list (string * slot)) : buf_t := match slot_of n m with Some (SBuf b) => b | _ => Buf [] 0 0 0 end.
Definition ptr_in (n : string) (m : list (string * slot)) : option tl_t := match slot_of n m with Some (SPtr p) => p | _ => None end.
Definition vec_in (n : string) (m : list (string * slot)) : list (option tl_t) := match slot_of n m with Some (SVec l) => l | _ => [] end.
Definition nums_in (n : string) (m : list (string * slot)) : list Z := match slot_of n m with Some (SNums l) => l | _ => [] end.
Definition msgs_in (n : string) (m : list (string * slot)) : list mtp_message_t := match slot_of n m with Some (SMsgs l) => l | _ => [] end.
Definition view (id : Z) (m : list (string * slot)) : tl_obj :=
  if id =? 0xf35c6d01 then Rpc_result (num_in "req_msg_id_" m) (ptr_in "result_" m)
  else if id =? 0x2144ca19 then Rpc_error (num_in "error_code_" m) (buf_in "error_message_" m)
  else if id =? 0x73f1f8dc then Msg_container (msgs_in "messages_" m)
  else if id =? 0x3072cfa1 then Gzip_packed (buf_in "packed_data_" m)
  else if id =? 0xedab447b then Bad_server_salt
  else if id =? 0xa7eff811 then Bad_msg_notification (num_in "error_code_" m)
  else if id =? 0x9ec20908 then New_session_created
  else if id =? 0x347773c5 then Pong
  else if id =? 0x62d6b459 then Msgs_ack (nums_in "msg_ids_" m)
  else if id =? 0x276d3ec6 then Msg_detailed_info (num_in "answer_msg_id_" m)
  else if id =? 0x809db6df then Msg_new_detailed_info (num_in "answer_msg_id_" m)
  else if id =? 0xe317af7e then UpdatesTooLong
  else if id =? 0x78d4dec1 then UpdateShort m
  else if id =? 0x313bc7f8 then UpdateShortMessage m
  else if id =? 0x4d6deea5 then UpdateShortChatMessage m
  else if id =? 0x9015e101 then UpdateShortSentMessage
  else if id =? 0x725b04c3 then UpdatesCombined m
  else if id =? 0x74ae4240 then Updates m
  else if id =? 0x997275b5 then BoolTrue
  else if id =? 0x096a18d5 then Upload_file (ptr_in "type_" m) (num_in "mtime_" m) (buf_in "bytes_" m)
  else if id =? 0x1cb5c415 then Vector (num_in "len_" m) (buf_in "data_" m)
  else if id =? 0x957b50fb then Account_password (ptr_in "current_algo_" m) (buf_in "srp_B_" m) (num_in "srp_id_" m)
  else if id =? 0x3a912d4a then
    PasswordKdfAlgoModPow (buf_in "salt1_" m) (buf_in "salt2_" m) (num_in "g_" m) (buf_in "p_" m)
  else if id =? 0x2ea2c0d4 then
    Auth_authorization (negb (num_in "setup_password_required_" m =? 0)) (buf_in "future_auth_token_" m) (ptr_in "user_" m)
  else if id =? 0x5e002502 then Auth_sentCode (buf_in "phone_code_hash_" m)
  else if id =? 0xcc1a241e then
    Config (map (option_map (fun t => (num_of "id_" t, buf_of "ip_address_" t))) (vec_in "dc_options_" m))
  else if id =? 0x83314fca then User m
  else Object id m.

Section Generator.
Context `{Platform}.

(** The condition of a member: bit [flagb] of the word number [flagn]. *)
Definition flag_bit (a : arg_t) : Z := Z.shiftl 1 (flagb a).
Definition flag_word {A} (flags : list A) (a : arg_t) : res A :=
  if flagn a <? 1 then Err Uninit
  else match flags !! Z.to_nat (flagn a - 1) with Some w => Ok w | None => Err Uninit end.
Definition is_here (flags : list Z) (a : arg_t) : res bool :=
  if flagn a =? 0 then Ok true
  else w ← flag_word flags a; Ok (Z.land w (flag_bit a) =? flag_bit a).

(** ** Reading *)
Section Reader.
(* [tl_deserialize], which the printed functions call *)
Variable self : buf_t -> res (option tl_t * buf_t).

Definition boolean (z : Z) : Z := if z =? 0 then 0 else 1.
Definition read_base (b : base) (buf : buf_t) : res (slot * buf_t) :=
  match b with
  | B_int => '(z, buf) ← deserialize_ui32 buf; Ok (SNum z, buf)
  | B_true => Ok (SNum 1, buf)
  | B_bool => '(z, buf) ← deserialize_ui32 buf; Ok (SNum (boolean z), buf)
  | B_long => '(z, buf) ← deserialize_ui64 buf; Ok (SNum z, buf)
  | B_double => '(z, buf) ← deserialize_double buf; Ok (SNum z, buf)
  | B_string | B_bytes => '(s, buf) ← deserialize_bytes buf; Ok (SBuf s, buf)
  | B_int128 => '(s, buf) ← deserialize_buf buf 16; Ok (SBuf s, buf)
  | B_int256 => '(s, buf) ← deserialize_buf buf 32; Ok (SBuf s, buf)
  | B_message | B_object => '(t, buf) ← self buf; Ok (SPtr t, buf)
  end.

(** [for (i = 0; i < n; ++i) a[i] = f(buf);] *)
Fixpoint times {A} (f : buf_t -> res (A * buf_t)) (n : nat) (buf : buf_t) : res (list A * buf_t) :=
  match n with
  | O => Ok ([], buf)
  | S n => '(x, buf) ← f buf; '(l, buf) ← times f n buf; Ok (x :: l, buf)
  end.
Definition read_elems (b : base) (n : nat) (buf : buf_t) : res (slot * buf_t) :=
  match b with
  | B_int => '(l, buf) ← times deserialize_ui32 n buf; Ok (SNums l, buf)
  | B_bool => '(l, buf) ← times deserialize_ui32 n buf; Ok (SNums (boolean <$> l), buf)
  | B_long => '(l, buf) ← times deserialize_ui64 n buf; Ok (SNums l, buf)
  | B_double => '(l, buf) ← times deserialize_double n buf; Ok (SNums l, buf)
  | B_string | B_bytes => '(l, buf) ← times deserialize_bytes n buf; Ok (SBufs l, buf)
  | B_message => '(l, buf) ← times deserialize_mtp_message n buf; Ok (SMsgs l, buf)
  | B_true | B_int128 | B_int256 | B_object => '(l, buf) ← times self n buf; Ok (SVec l, buf)
  end.

(** The length; the constructor of the vector before it may be missing. *)
Definition read_length (buf : buf_t) : res (Z * buf_t) :=
  '(n, buf) ← deserialize_ui32 buf; if n =? id_vector then deserialize_ui32 buf else Ok (n, buf).
(** True when the function returns at once, with a length that is refused. *)
Definition read_vector (b : base) (buf : buf_t) : res (bool * slot * buf_t) :=
  '(n, buf) ← read_length buf;
  let n := i32 n in
  if (n <? 0) || (10000 <? n) then Ok (true, SLen n, buf)
  else if n =? 0 then Ok (false, zero_slot (Vec b), buf)
  else '(s, buf) ← read_elems b (Z.to_nat n) buf; Ok (false, s, buf).
Definition read_kind (k : kind) (buf : buf_t) : res (bool * slot * buf_t) :=
  match k with
  | Single b => '(s, buf) ← read_base b buf; Ok (false, s, buf)
  | Vec b => read_vector b buf
  end.

Fixpoint read_args (l : list arg_t) (flags : list Z) (buf : buf_t) : res (list (string * slot) * buf_t) :=
  match l with
  | [] => Ok ([], buf)
  | a :: l =>
      match arg_type a with
      | None =>
          if is_flags a then '(w, buf) ← deserialize_ui32 buf; read_args l (flags ++ [w]) buf
          else '(m, buf) ← read_args l flags buf; Ok ((member a, SNum 0) :: m, buf)
      | Some type =>
          k ← kind_of type;
          here ← is_here flags a;
          if here : bool then
            '(stop, s, buf) ← read_kind k buf;
            if stop : bool then Ok ((member a, s) :: blank_args l, buf)
            else '(m, buf) ← read_args l flags buf; Ok ((member a, s) :: m, buf)
          else '(m, buf) ← read_args l flags buf; Ok ((member a, zero_slot k) :: m, buf)
      end
  end.

(** [tl_deserialize_<name>] *)
Definition tl_deserialize_ (m : method_t) (buf : buf_t) : res (option tl_t * buf_t) :=
  _buf ← buf_add_buf buf;
  '(id, buf) ← deserialize_ui32 buf;
  '(head, buf) ← (if is_vector m then
      '(n, buf) ← deserialize_ui32 buf;
      data ← buf_add_buf buf;
      Ok ([("len_"%string, SNum n); ("data_"%string, SBuf data)], buf)
    else Ok ([], buf));
  '(rest, buf) ← read_args (args m) [] buf;
  Ok (Some (Tl _buf (view id (head ++ rest))), buf).
End Reader.


(** ** Writing *)
(** An argument of a printed writer: NULL or false, a number, a buffer, the
    memory at a [char *], or an array of these and its length. *)
Inductive value :=
| V_null
| V_num (z : Z)
| V_buf (b : buf_t)
| V_str (s : list Z)
| V_nums (l : list Z)
| V_bufs (l : list buf_t)
| V_strs (l : list (list Z)).
Definition is_null (v : value) : bool := match v with V_null => true | _ => false end.

Section Writer.
(* [g->isMtproto] *)
Variable isMtproto : bool.

(** An argument of another C type is no program. *)
Definition write_base (b : base) (v : value) (buf : buf_t) : res buf_t :=
  match b, v with
  | (B_int | B_bool), V_num z => buf_cat_ui32 buf z
  | B_long, V_num z => buf_cat_ui64 buf z
  | B_double, V_num z => buf_cat_double buf z
  | B_int128, V_buf x => buf_cat_data buf (data_at x 0) 16
  | B_int256, V_buf x => buf_cat_data buf (data_at x 0) 32
  | B_bytes, V_buf x => _bytes ← serialize_bytes (data_at x 0) (b_size x); buf_cat buf _bytes
  | B_string, V_buf x => if isMtproto then s ← serialize_str x; buf_cat buf s else Err NullDeref
  | B_string, V_str s => if isMtproto then Err NullDeref else _string ← serialize_string s; buf_cat buf _string
  | (B_message | B_object), V_buf x => buf_cat buf x
  | _, _ => Err NullDeref
  end.

(** [for (i=0; i<len; ++i) { buf = f(buf, a[i]); }] *)
Fixpoint each {A} (f : buf_t -> A -> res buf_t) (l : list A) (buf : buf_t) : res buf_t :=
  match l with [] => Ok buf | x :: l => buf ← f buf x; each f l buf end.
Definition write_elems (b : base) (v : value) (buf : buf_t) : res buf_t :=
  match b, v with
  | B_bytes, V_bufs l => each (fun buf x => _bytes ← serialize_bytes (data_at x 0) (b_size x); buf_cat buf _bytes) l buf
  | B_string, V_strs l => each (fun buf s => _string ← serialize_string s; buf_cat buf _string) l buf
  | (B_int | B_bool), V_nums l => each buf_cat_ui32 l buf
  | B_long, V_nums l => each buf_cat_ui64 l buf
  | B_double, V_nums l => each buf_cat_double l buf
  | (B_true | B_int128 | B_int256 | B_message | B_object), V_bufs l => each buf_cat l buf
  | _, _ => Err NullDeref
  end.
Definition tl_vector : res buf_t := buf_add_ui32 id_vector.
Definition count (v : value) : Z :=
  match v with V_nums l => zlen l | V_bufs l => zlen l | V_strs l => zlen l | _ => 0 end.
Definition write_kind (k : kind) (v : value) (buf : buf_t) : res buf_t :=
  match k with
  | Single b => write_base b v buf
  | Vec b => h ← tl_vector; buf ← buf_cat buf h; buf ← buf_cat_ui32 buf (count v); write_elems b v buf
  end.

(** [uint32_t *flag = (uint32_t * )(&buf.data[buf.size]);] the offset in the
    block, and the size of the block it points into: a block of another size
    is one [realloc] returned later. *)
Definition flag_pointer (buf : buf_t) : Z * Z := (b_off buf + b_size buf, b_asize buf).
(** [*flag |= (1 << b);] *)
Definition set_flag (p : Z * Z) (bit : Z) (buf : buf_t) : res buf_t :=
  let '(pos, asize) := p in
  if negb (asize =? b_asize buf) then Err UseAfterFree
  else
    w ← rd_le 4 (b_mem buf) pos;
    m ← copy_loop 4 0 (b_mem buf) (fun i => pos + i) (le_bytes 4 (Z.lor w bit));
    Ok (set_mem buf m).

Fixpoint write_args (l : list arg_t) (vs : list value) (flags : list (Z * Z)) (buf : buf_t) : res buf_t :=
  match l, vs with
  | [], _ => Ok buf
  | a :: l, vs =>
      if (match arg_type a with None => true | Some _ => false end) && is_flags a then
        let p := flag_pointer buf in
        buf ← buf_cat_ui32 buf 0; write_args l vs (flags ++ [p]) buf
      else
        match vs, arg_type a with
        | [], _ => Err Uninit
        | _ :: vs, None => write_args l vs flags buf
        | v :: vs, Some type =>
            k ← kind_of type;
            if decide (k = Single B_true) then
              if negb (flagn a =? 0) && negb (is_null v) then
                p ← flag_word flags a; buf ← set_flag p (flag_bit a) buf; write_args l vs flags buf
              else write_args l vs flags buf
            else if flagn a =? 0 then
              buf ← write_kind k v buf; write_args l vs flags buf
            else if is_null v then write_args l vs flags buf
            else
              buf ← write_kind k v buf; p ← flag_word flags a; buf ← set_flag p (flag_bit a) buf; write_args l vs flags buf
        end
  end.

(** [tl_<name>] *)
Definition tl_ (m : method_t) (vs : list value) : res buf_t :=
  buf ← buf_add_ui32 (id_of_method m); write_args (args m) vs [] buf.
End Writer.

(** ** Releasing *)
(** What a printed function hands to [buf_free] and [tl_free], in order;
    [free(tl)] follows. *)
Inductive freed := F_buf (b : buf_t) | F_obj (t : option tl_t).
(** A single message would be a structure inside the object, and its body be
    released; no schema has such a member (the printed reader assigns the
    pointer [tl_deserialize] returns to it, which does not compile). *)
Definition free_base (b : base) (s : slot) : list freed :=
  match b, s with
  | (B_string | B_bytes | B_int128 | B_int256), SBuf x => [F_buf x]
  | B_object, SPtr t => [F_obj t]
  | B_message, SMsgs [m] => [F_buf (body m)]
  | _, _ => []
  end.
(** [for (i = 0; i < len; ++i) f(a[i]); free(a);] where [a] may be NULL.  The
    elements of a vector of messages are left alone. *)
Definition free_elems (b : base) (s : slot) : res (list freed) :=
  match b, s with
  | (B_string | B_bytes), SBufs l => Ok (F_buf <$> l)
  | B_object, SVec l => Ok (F_obj <$> l)
  | (B_string | B_bytes | B_int128 | B_int256 | B_object), SLen n => if 0 <? n then Err NullDeref else Ok []
  | _, _ => Ok []
  end.
Definition free_kind (k : kind) (s : slot) : res (list freed) :=
  match k with Single b => Ok (free_base b s) | Vec b => free_elems b s end.
Fixpoint free_args (l : list arg_t) (ms : list (string * slot)) : res (list freed) :=
  match l with
  | [] => Ok []
  | a :: l =>
      match arg_type a with
      | None => if is_flags a then free_args l ms else free_args l (tail ms)
      | Some type =>
          match ms with
          | [] => Err Uninit
          | (_, s) :: ms => k ← kind_of type; f ← free_kind k s; fs ← free_args l ms; Ok (f ++ fs)
          end
      end
  end.
(** [tl_<name>_free], [data] being the copy a vector has of its elements. *)
Definition tl_free_ (m : method_t) (_buf data : buf_t) (ms : list (string * slot)) : res (list freed) :=
  fs ← free_args (args m) ms;
  Ok ((if is_vector m then [F_buf data] else []) ++ fs ++ [F_buf _buf]).

(** ** The run *)
(** [change_dots_to_underline]: the last dot, as long as there is one, [len]
    times at most. *)
Fixpoint strrchr_ (i : nat) (found : option nat) (s : list Z) (c : Z) : option nat :=
  match s with [] => found | x :: s => strrchr_ (S i) (if x =? c then Some i else found) s c end.
Definition strrchr (s : list Z) (c : Z) : option nat := strrchr_ 0 None s c.
Fixpoint change_dots_to_underline (len : nat) (s : list Z) : list Z :=
  match len with
  | O => s
  | S len => match strrchr s 46 with None => s | Some i => change_dots_to_underline len (<[i:=95]> s) end
  end.
Definition BLEN : nat := 1024.
Definition change_arg (a : arg_t) : arg_t :=
  Arg (change_dots_to_underline BLEN (arg_name a)) (change_dots_to_underline BLEN <$> arg_type a) (flagn a) (flagb a).
Definition method_change_dots_to_underline (m : method_t) : method_t :=
  set_args (change_arg <$> args m) (set_ret (change_dots_to_underline BLEN <$> method_ret m)
    (set_name (change_dots_to_underline BLEN <$> method_name m) m)).

(** [generator_t], the files being what was printed into them: the
    declarations, each with the schema it is from. *)
Record generator_t := Generator_ { isMtproto_ : bool; printed : list (bool * method_t) }.
Definition cb (g : generator_t) (m : option method_t) (error : option (list Z)) : Z * generator_t :=
  match error, m with
  | Some _, _ | _, None => (0, g)
  | None, Some m => (0, Generator_ (isMtproto_ g) (printed g ++ [(isMtproto_ g, method_change_dots_to_underline m)]))
  end.
(** [main], with the contents of the two files. *)
Definition generate (mtproto_api telegram_api : option (list Z)) : res (list (bool * method_t)) :=
  '(_, g) ← tl_parse mtproto_api (Generator_ true []) (Some cb);
  '(_, g) ← tl_parse telegram_api (Generator_ false (printed g)) (Some cb);
  Ok (printed g).

(** names.h *)
Definition TL_METHOD_NAMES (schema : list method_t) : list (string * Z) :=
  (fun m => (str_of (default [] (method_name m)), id_of_method m)) <$> schema.
Fixpoint TL_NAME_FROM_ID (names : list (string * Z)) (id : Z) : option string :=
  match names with
  | [] => None
  | (name, k) :: names => if id =? k then Some name else TL_NAME_FROM_ID names id
  end.

(** ** The table *)
(** The functions of the table call [tl_deserialize], which looks them up in
    the table.  Every object takes four bytes. *)
Fixpoint tl_table (schema : list method_t) (fuel : nat) : list (Z * (buf_t -> res (option tl_t * buf_t))) :=
  (fun m => (id_of_method m,
     match fuel with
     | O => fun _ => Err NoFuel
     | S fuel => tl_deserialize_ (fun buf => tl_deserialize (tl_table schema fuel) buf) m
     end)) <$> schema.
End Generator.
