(* ===== verification/GeneratorFacts.v ===== *)
(** * What the generated readers read

    The layout of the objects on the wire is a grammar: relations between
    the bytes, what is left of them, and the value.  [object_at d] allows
    objects to nest [d] deep.  It is written from the description of the
    type language, without the functions of the generator: its own table of
    the types, of the bit that announces a member, of the value of a member
    that is missing, and of the structure a number stands for.  What is not
    well formed (an unknown number, a length that is refused) is not in it.
    The readers implement it, and end. *)
From stdpp Require Import strings.
From S2P Require Import Prelude TlBuf Serial Errors Tg Packet TlParser Objects Generator.

(** ** Types *)
Definition scalar_types : list (string * base) :=
  [("int", B_int); ("true", B_true); ("bool", B_bool); ("long", B_long); ("double", B_double); ("string", B_string);
   ("bytes", B_bytes); ("int128", B_int128); ("int256", B_int256); ("%Message", B_message)]%string.
(** Every other name is the one of a boxed type. *)
Inductive names_base : list Z -> base -> Prop :=
| names_scalar n b : (n, b) ∈ scalar_types -> names_base (chars n) b
| names_boxed t : Forall (fun x => t <> chars x.1) scalar_types -> names_base t B_object.
Inductive names_kind : list Z -> kind -> Prop :=
| names_single t b : (forall u v, t <> u ++ chars "ector<" ++ v) -> names_base t b -> names_kind t (Single b)
| names_vector c t b : c = 86 \/ c = 118 -> 62 ∉ t -> names_base t b ->
    names_kind ([c] ++ chars "ector<" ++ t ++ [62]) (Vec b).

Lemma starts_with_app pat v : starts_with pat (pat ++ v) = true.
Proof. induction pat as [|p pat IH]; [done |]. cbn. by rewrite Z.eqb_refl, IH. Qed.
Lemma starts_with_inv pat s : starts_with pat s = true -> exists v, s = pat ++ v.
Proof.
  revert s. induction pat as [|p pat IH]; intros s E; [by exists s |]. destruct s as [|c s]; [done |]. cbn in E.
  apply andb_true_iff in E as [Ec E]. apply Z.eqb_eq in Ec as ->. destruct (IH s E) as [v ->]. by exists v.
Qed.
Lemma strstr_nowhere pat s : (forall u v, s <> u ++ pat ++ v) -> strstr s pat = None.
Proof.
  induction s as [|c s IH]; intros Hn; cbn [strstr]; destruct (starts_with pat _) eqn:E.
  - apply starts_with_inv in E as [v E]. by destruct (Hn [] v).
  - done.
  - apply starts_with_inv in E as [v E]. by destruct (Hn [] v).
  - apply IH. intros u v ->. by destruct (Hn (c :: u) v).
Qed.
Lemma strstr_none pat s : strstr s pat = None -> forall u v, s <> u ++ pat ++ v.
Proof.
  intros E u v ->. induction u as [|c u IH].
  - cbn [app] in E. pose proof (starts_with_app pat v) as Hs. destruct (pat ++ v); cbn [strstr] in E; by rewrite Hs in E.
  - cbn [app strstr] in E. by destruct (starts_with pat (c :: u ++ pat ++ v)); [| apply IH].
Qed.
Lemma strstr_gt t : 62 ∉ t -> strstr (t ++ [62]) [62] = Some [62].
Proof.
  induction t as [|c t IH]; intros Hn; [done |]. apply not_elem_of_cons in Hn as [Hc Hn]. cbn [app strstr starts_with].
  by replace (62 =? c) with false by lia; rewrite IH.
Qed.

Lemma base_named t b : names_base t b -> base_of t = b.
Proof.
  intros [n b' Hin | t' Hn].
  - unfold scalar_types in Hin. repeat (apply elem_of_cons in Hin as [[= -> ->] | Hin]; [reflexivity |]). by apply not_elem_of_nil in Hin.
  - unfold scalar_types in Hn. do 10 (apply Forall_cons_1 in Hn as [? Hn]). cbn [fst] in *.
    unfold base_of, is_type. rewrite !bool_decide_eq_false_2 by done. done.
Qed.
Lemma kind_named t k : names_kind t k -> kind_of t = Ok k.
Proof.
  intros [t' b Hn Hb | c t' b Hc Hg Hb]; unfold kind_of; [by rewrite strstr_nowhere, (base_named _ _ Hb) by done |].
  assert (E : strstr ([c] ++ chars "ector<" ++ t' ++ [62]) (chars "ector<") = Some (chars "ector<" ++ t' ++ [62])).
  { destruct Hc as [-> | ->]; reflexivity. }
  rewrite E. change (drop 6 (chars "ector<" ++ t' ++ [62])) with (t' ++ [62]). cbn zeta. change (chars ">") with [62].
  rewrite strstr_gt by done. replace (length (t' ++ [62%Z]) - length [62%Z])%nat with (length t') by (rewrite length_app; cbn; lia).
  by rewrite take_app_length, (base_named _ _ Hb).
Qed.

(** For a name that is written down. *)
Lemma base_names t : names_base t (base_of t).
Proof.
  destruct (decide (Exists (fun x => t = chars x.1) scalar_types)) as [He | Hn].
  - apply Exists_exists in He as ([n b] & Hin & ->). cbn [fst]. assert (Hb : names_base (chars n) b) by (constructor; by apply list_elem_of_In).
    by rewrite (base_named _ _ Hb).
  - assert (Hb : names_base t B_object) by (constructor; by apply Forall_Exists_neg). by rewrite (base_named _ _ Hb).
Qed.
Definition plain_name (t : list Z) : bool :=
  match strstr t (chars "ector<"), t with
  | None, _ => true
  | Some _, [] => false
  | Some _, c :: _ =>
      let e := take (length t - 8) (drop 7 t) in
      ((c =? 86) || (c =? 118)) && bool_decide (62 ∉ e) && bool_decide (t = [c] ++ chars "ector<" ++ e ++ [62])
  end.
Lemma kind_names t k : kind_of t = Ok k -> plain_name t = true -> names_kind t k.
Proof.
  intros Hk Hp. assert (exists k', names_kind t k') as [k' Hk'].
  { unfold plain_name in Hp. destruct (strstr t (chars "ector<")) eqn:E.
    - destruct t as [|c t]; [done |]. cbv zeta in Hp. set (e := take _ _) in Hp. apply andb_true_iff in Hp as [[Hc Hn]%andb_true_iff Ht].
      apply bool_decide_eq_true in Hn, Ht. rewrite Ht. eexists. apply (names_vector c e (base_of e)); [lia | done | apply base_names].
    - eexists. apply names_single; [by apply strstr_none | apply base_names]. }
  pose proof (kind_named _ _ Hk'). by assert (k' = k) as <- by congruence.
Qed.

(** ** Members *)
(** A truth value: any word but zero. *)
Definition truth (z : Z) : Z := Z.b2z (bool_decide (z <> 0)).
Lemma boolean_truth z : boolean z = truth z.
Proof. unfold boolean, truth. case_bool_decide; destruct (Z.eqb_spec z 0); done. Qed.
Lemma booleans_truth (xs : list Z) : boolean <$> xs = truth <$> xs.
Proof. apply list_fmap_ext. intros. apply boolean_truth. Qed.
(** A member without a condition is there; the others when their bit is set
    in their word, which was read before. *)
Definition shown (flags : list Z) (a : arg_t) : Prop :=
  flagn a = 0 \/ exists n w, flagn a = Z.of_nat n + 1 /\ flags !! n = Some w /\ Z.testbit w (flagb a) = true.
Definition hidden (flags : list Z) (a : arg_t) : Prop :=
  exists n w, flagn a = Z.of_nat n + 1 /\ 0 <= flagb a /\ flags !! n = Some w /\ Z.testbit w (flagb a) = false.
(** The value of a member that is not there. *)
Inductive nothing : kind -> slot -> Prop :=
| no_number b : b ∈ [B_int; B_true; B_bool; B_long; B_double] -> nothing (Single b) (SNum 0)
| no_buffer b : b ∈ [B_string; B_bytes; B_int128; B_int256] -> nothing (Single b) (SBuf {| b_mem := []; b_asize := 0; b_off := 0; b_size := 0 |})
| no_object b : b ∈ [B_message; B_object] -> nothing (Single b) (SPtr None)
| no_numbers b : b ∈ [B_int; B_bool; B_long; B_double] -> nothing (Vec b) (SNums [])
| no_buffers b : b ∈ [B_string; B_bytes] -> nothing (Vec b) (SBufs [])
| no_messages : nothing (Vec B_message) (SMsgs [])
| no_objects : nothing (Vec B_object) (SVec []).

Ltac in_list := repeat first [apply list_elem_of_here | apply list_elem_of_further].
Ltac no_member :=
  first [apply no_objects | apply no_messages | apply no_number; solve [in_list] | apply no_buffer; solve [in_list]
    | apply no_object; solve [in_list] | apply no_numbers; solve [in_list] | apply no_buffers; solve [in_list]].
Lemma testbit_land w n : 0 <= n -> Z.testbit w n = (Z.land w (Z.shiftl 1 n) =? Z.shiftl 1 n).
Proof.
  intros Hn. rewrite Z.shiftl_1_l. destruct (Z.testbit w n) eqn:E; symmetry; [apply Z.eqb_eq | apply Z.eqb_neq].
  - apply Z.bits_inj'. intros m Hm. rewrite Z.land_spec, Z.pow2_bits_eqb by done. destruct (Z.eqb_spec n m) as [-> | _]; [by rewrite E | apply andb_false_r].
  - intros Hl. assert (Z.testbit (Z.land w (2 ^ n)) n = true) as Hb by (rewrite Hl; by apply Z.pow2_bits_true).
    rewrite Z.land_spec, E in Hb. done.
Qed.
Lemma zero_of k s : nothing k s -> zero_slot k = s.
Proof.
  intros [b Hb | b Hb | b Hb | b Hb | b Hb | | ]; try reflexivity;
    repeat (apply elem_of_cons in Hb as [-> | Hb]; [reflexivity |]); by apply not_elem_of_nil in Hb.
Qed.

(** The structure the number of a constructor stands for, for the parts
    that look at its members; the others keep number and members. *)
Definition cast_numbers : list Z :=
  [0xf35c6d01; 0x2144ca19; 0x73f1f8dc; 0x3072cfa1; 0xedab447b; 0xa7eff811; 0x9ec20908; 0x347773c5; 0x62d6b459; 0x276d3ec6;
   0x809db6df; 0xe317af7e; 0x78d4dec1; 0x313bc7f8; 0x4d6deea5; 0x9015e101; 0x725b04c3; 0x74ae4240; 0x997275b5; 0x096a18d5;
   0x1cb5c415; 0x957b50fb; 0x3a912d4a; 0x2ea2c0d4; 0x5e002502; 0xcc1a241e; 0x83314fca].
Section Sees.
Variable ms : list (string * slot).
Definition has (n : string) (s : slot) : Prop := slot_of (n +:+ "_") ms = Some s.
Definition option_of (t : option tl_t) (o : option (Z * buf_t)) : Prop :=
  match t, o with
  | None, None => True
  | Some t, Some (i, ip) => slot_of "id_" (members t) = Some (SNum i) /\ slot_of "ip_address_" (members t) = Some (SBuf ip)
  | _, _ => False
  end.
Inductive sees : Z -> tl_obj -> Prop :=
| sees_result i t : has "req_msg_id" (SNum i) -> has "result" (SPtr t) -> sees 0xf35c6d01 (Rpc_result i t)
| sees_error c b : has "error_code" (SNum c) -> has "error_message" (SBuf b) -> sees 0x2144ca19 (Rpc_error c b)
| sees_container l : has "messages" (SMsgs l) -> sees 0x73f1f8dc (Msg_container l)
| sees_packed b : has "packed_data" (SBuf b) -> sees 0x3072cfa1 (Gzip_packed b)
| sees_salt : sees 0xedab447b Bad_server_salt
| sees_bad c : has "error_code" (SNum c) -> sees 0xa7eff811 (Bad_msg_notification c)
| sees_session : sees 0x9ec20908 New_session_created
| sees_pong : sees 0x347773c5 Pong
| sees_ack l : has "msg_ids" (SNums l) -> sees 0x62d6b459 (Msgs_ack l)
| sees_detailed i : has "answer_msg_id" (SNum i) -> sees 0x276d3ec6 (Msg_detailed_info i)
| sees_new_detailed i : has "answer_msg_id" (SNum i) -> sees 0x809db6df (Msg_new_detailed_info i)
| sees_too_long : sees 0xe317af7e UpdatesTooLong
| sees_short : sees 0x78d4dec1 (UpdateShort ms)
| sees_short_message : sees 0x313bc7f8 (UpdateShortMessage ms)
| sees_short_chat : sees 0x4d6deea5 (UpdateShortChatMessage ms)
| sees_short_sent : sees 0x9015e101 UpdateShortSentMessage
| sees_combined : sees 0x725b04c3 (UpdatesCombined ms)
| sees_updates : sees 0x74ae4240 (Updates ms)
| sees_true : sees 0x997275b5 BoolTrue
| sees_file t m b : has "type" (SPtr t) -> has "mtime" (SNum m) -> has "bytes" (SBuf b) -> sees 0x096a18d5 (Upload_file t m b)
| sees_vector n b : has "len" (SNum n) -> has "data" (SBuf b) -> sees 0x1cb5c415 (Vector n b)
| sees_password t b i : has "current_algo" (SPtr t) -> has "srp_B" (SBuf b) -> has "srp_id" (SNum i) ->
    sees 0x957b50fb (Account_password t b i)
| sees_algo s1 s2 g p : has "salt1" (SBuf s1) -> has "salt2" (SBuf s2) -> has "g" (SNum g) -> has "p" (SBuf p) ->
    sees 0x3a912d4a (PasswordKdfAlgoModPow s1 s2 g p)
| sees_authorization z b u : has "setup_password_required" (SNum z) -> has "future_auth_token" (SBuf b) -> has "user" (SPtr u) ->
    sees 0x2ea2c0d4 (Auth_authorization (bool_decide (z <> 0)) b u)
| sees_code b : has "phone_code_hash" (SBuf b) -> sees 0x5e002502 (Auth_sentCode b)
| sees_config l os : has "dc_options" (SVec l) -> Forall2 option_of l os -> sees 0xcc1a241e (Config os)
| sees_user : sees 0x83314fca (User ms)
| sees_other i : i ∉ cast_numbers -> sees i (Object i ms).
End Sees.
Lemma options_of l os : Forall2 option_of l os -> map (option_map (fun t => (num_of "id_" t, buf_of "ip_address_" t))) l = os.
Proof.
  induction 1 as [| [t|] [[i ip]|] l os Ho _ IH]; try done; cbn [map option_map]; rewrite IH; [| done].
  destruct Ho as [Hi Hp]. unfold num_of, buf_of. by rewrite Hi, Hp.
Qed.
Lemma view_other ms i : i ∉ cast_numbers -> view i ms = Object i ms.
Proof.
  unfold view, cast_numbers. intros H. repeat (apply not_elem_of_cons in H as [? H]). rewrite !(proj2 (Z.eqb_neq _ _)) by done. done.
Qed.
Lemma view_seen ms i o : sees ms i o -> view i ms = o.
Proof.
  intros Hs. destruct Hs; try (by apply view_other); unfold has in *; cbv [String.append] in *; cbv [view Z.eqb Pos.eqb];
    unfold num_in, buf_in, ptr_in, vec_in, nums_in, msgs_in;
    repeat match goal with E : slot_of _ _ = Some _ |- _ => rewrite E; clear E end; try reflexivity.
  - case_bool_decide; destruct z; done.
  - by rewrite (options_of l os).
Qed.

(** ** The grammar *)
Section Grammar.
Context `{Platform}.

Lemma here_shown flags a : 0 <= flagb a -> shown flags a -> is_here flags a = Ok true.
Proof.
  intros Hb [Hz | (n & w & Hn & Hw & Ht)]; unfold is_here; [by rewrite Hz |]. rewrite (proj2 (Z.eqb_neq _ _)) by lia.
  unfold flag_word. replace (flagn a <? 1) with false by lia. replace (Z.to_nat (flagn a - 1)) with n by lia.
  rewrite Hw, res_bind_ok. unfold flag_bit. by rewrite <- testbit_land, Ht.
Qed.
Lemma not_here_hidden flags a : hidden flags a -> is_here flags a = Ok false.
Proof.
  intros (n & w & Hn & Hb & Hw & Ht); unfold is_here. rewrite (proj2 (Z.eqb_neq _ _)) by lia.
  unfold flag_word. replace (flagn a <? 1) with false by lia. replace (Z.to_nat (flagn a - 1)) with n by lia.
  rewrite Hw, res_bind_ok. unfold flag_bit. by rewrite <- testbit_land, Ht.
Qed.

Definition u32_at (l r : list Z) (z : Z) : Prop := is_u32 z /\ l = le_bytes 4 z ++ r.
Definition u64_at (l r : list Z) (z : Z) : Prop := is_u64 z /\ l = le_bytes 8 z ++ r.
Definition str_at (l r : list Z) (b : buf_t) : Prop :=
  exists bs, bytes_ok bs /\ zlen bs < 16777216 /\ fits (zlen bs + 8) /\ l = tl_string bs ++ r /\ b = fresh bs.
Definition raw_at (n : Z) (l r : list Z) (b : buf_t) : Prop := exists w, zlen w = n /\ l = w ++ r /\ b = fresh w.
Definition message_at (l r : list Z) (m : mtp_message_t) : Prop :=
  exists id sq w, is_u64 id /\ is_u32 sq /\ zlen w < 2147483648 /\
    l = le_bytes 8 id ++ le_bytes 4 sq ++ le_bytes 4 (zlen w) ++ w ++ r /\
    m = MtpMessage (to_long id) (i32 sq) (zlen w) (fresh w).

Inductive seq_at {A} (R : list Z -> list Z -> A -> Prop) : nat -> list Z -> list Z -> list A -> Prop :=
| seq_nil l : seq_at R 0 l l []
| seq_cons n l t r x xs : R l t x -> seq_at R n t r xs -> seq_at R (S n) l r (x :: xs).

Section Layer.
Variable schema : list method_t.
(* the objects inside *)
Variable inner : list Z -> list Z -> option tl_t -> Prop.

Inductive base_at : base -> list Z -> list Z -> slot -> Prop :=
| at_int l r z : u32_at l r z -> base_at B_int l r (SNum z)
| at_true l : base_at B_true l l (SNum 1)
| at_bool l r z : u32_at l r z -> base_at B_bool l r (SNum (truth z))
| at_long l r z : u64_at l r z -> base_at B_long l r (SNum z)
| at_double l r z : u64_at l r z -> base_at B_double l r (SNum z)
| at_string l r b : str_at l r b -> base_at B_string l r (SBuf b)
| at_bytes l r b : str_at l r b -> base_at B_bytes l r (SBuf b)
| at_int128 l r b : raw_at 16 l r b -> base_at B_int128 l r (SBuf b)
| at_int256 l r b : raw_at 32 l r b -> base_at B_int256 l r (SBuf b)
| at_message l r t : inner l r t -> base_at B_message l r (SPtr t)
| at_object l r t : inner l r t -> base_at B_object l r (SPtr t).

Inductive elems_at (n : nat) (l r : list Z) : base -> slot -> Prop :=
| elems_int xs : seq_at u32_at n l r xs -> elems_at n l r B_int (SNums xs)
| elems_bool xs : seq_at u32_at n l r xs -> elems_at n l r B_bool (SNums (truth <$> xs))
| elems_long xs : seq_at u64_at n l r xs -> elems_at n l r B_long (SNums xs)
| elems_double xs : seq_at u64_at n l r xs -> elems_at n l r B_double (SNums xs)
| elems_string xs : seq_at str_at n l r xs -> elems_at n l r B_string (SBufs xs)
| elems_bytes xs : seq_at str_at n l r xs -> elems_at n l r B_bytes (SBufs xs)
| elems_message xs : seq_at message_at n l r xs -> elems_at n l r B_message (SMsgs xs)
| elems_object xs : seq_at inner n l r xs -> elems_at n l r B_object (SVec xs).

(** The constructor of a vector may be missing. *)
Definition length_at (l r : list Z) (n : Z) : Prop :=
  u32_at l r n /\ n <> 0x1cb5c415 \/ exists t, u32_at l t 0x1cb5c415 /\ u32_at t r n.
Inductive kind_at : kind -> list Z -> list Z -> slot -> Prop :=
| kind_single b l r s : base_at b l r s -> kind_at (Single b) l r s
| kind_empty b l r s : length_at l r 0 -> nothing (Vec b) s -> kind_at (Vec b) l r s
| kind_elems b l t r n s : length_at l t n -> 1 <= n <= 10000 -> elems_at (Z.to_nat n) t r b s -> kind_at (Vec b) l r s.

Inductive args_at : list arg_t -> list Z -> list Z -> list Z -> list (string * slot) -> Prop :=
| args_none flags l : args_at [] flags l l []
| args_flags a args flags l t r w m : arg_type a = None -> is_flags a = true -> u32_at l t w ->
    args_at args (flags ++ [w]) t r m -> args_at (a :: args) flags l r m
| args_untyped a args flags l r m : arg_type a = None -> is_flags a = false ->
    args_at args flags l r m -> args_at (a :: args) flags l r ((member a, SNum 0) :: m)
| args_here a type k args flags l t r s m : arg_type a = Some type -> names_kind type k -> 0 <= flagb a -> shown flags a ->
    kind_at k l t s -> args_at args flags t r m -> args_at (a :: args) flags l r ((member a, s) :: m)
| args_absent a type k args flags l r s m : arg_type a = Some type -> names_kind type k -> hidden flags a ->
    nothing k s -> args_at args flags l r m -> args_at (a :: args) flags l r ((member a, s) :: m).

Definition find_method (id : Z) : option method_t := List.find (fun m => id_of_method m =? id) schema.

Inductive layer : list Z -> list Z -> option tl_t -> Prop :=
| layer_object id m t r ms o : is_u32 id -> id <> 0 -> find_method id = Some m -> is_vector m = false ->
    args_at (args m) [] t r ms -> sees ms id o -> layer (le_bytes 4 id ++ t) r (Some (Tl (fresh (le_bytes 4 id ++ t)) o))
| layer_vector id m n t r ms o : is_u32 id -> id <> 0 -> find_method id = Some m -> is_vector m = true -> is_u32 n ->
    args_at (args m) [] t r ms -> sees (("len_"%string, SNum n) :: ("data_"%string, SBuf (fresh t)) :: ms) id o ->
    layer (le_bytes 4 id ++ le_bytes 4 n ++ t) r (Some (Tl (fresh (le_bytes 4 id ++ le_bytes 4 n ++ t)) o)).
End Layer.

Fixpoint object_at (schema : list method_t) (d : nat) : list Z -> list Z -> option tl_t -> Prop :=
  match d with O => fun _ _ _ => False | S d => layer schema (object_at schema d) end.
End Grammar.

(** ** The readers read the grammar *)
Section Reads.
Context `{Platform}.

(** The value of one run, and what it leaves. *)
Definition gives {A} (c : res (A * buf_t)) (x : A) (r : list Z) : Prop :=
  exists buf', c = Ok (x, buf') /\ buf_wf buf' /\ contents buf' = r.
Definition reads {A} (R : list Z -> list Z -> A -> Prop) (f : buf_t -> res (A * buf_t)) : Prop :=
  forall l r x buf, buf_wf buf -> contents buf = l -> R l r x -> gives (f buf) x r.

(** The rest of a sequence, from the buffer the first reader leaves. *)
Lemma reads_step {A B} (R : list Z -> list Z -> A -> Prop) f (k : A * buf_t -> res (B * buf_t)) l t x y r buf :
  reads R f -> buf_wf buf -> contents buf = l -> R l t x ->
  (forall buf', buf_wf buf' -> contents buf' = t -> gives (k (x, buf')) y r) -> gives (f buf ≫= k) y r.
Proof. intros Hf Hw Hc HR HQ. destruct (Hf _ _ _ _ Hw Hc HR) as (b' & -> & ? & ?). rewrite res_bind_ok. auto. Qed.
Lemma gives_ok {A} (x : A) r buf : buf_wf buf -> contents buf = r -> gives (Ok (x, buf)) x r.
Proof. unfold gives. eauto. Qed.

Lemma reads_advance {A} (x : A) buf w r :
  buf_wf buf -> contents buf = w ++ r ->
  gives (Ok (x, advance buf (zlen w))) x r.
Proof. intros Hw Hc. destruct (advance_ok buf w r Hw Hc) as (? & ? & _). by apply gives_ok. Qed.

Lemma reads_ui32 : reads u32_at deserialize_ui32.
Proof.
  intros l r z buf Hw Hc [Hz ->].
  rewrite (deserialize_ui32_window buf (le_bytes 4 z) r), le_num_bytes, Z.mod_small by first [done | apply zlen_le_bytes].
  by apply (reads_advance z buf (le_bytes 4 z)).
Qed.
Lemma reads_ui64 : reads u64_at deserialize_ui64.
Proof.
  intros l r z buf Hw Hc [Hz ->].
  rewrite (deserialize_ui64_window buf (le_bytes 8 z) r), le_num_bytes, Z.mod_small by first [done | apply zlen_le_bytes].
  by apply (reads_advance z buf (le_bytes 8 z)).
Qed.
Lemma reads_double : reads u64_at deserialize_double.
Proof. exact reads_ui64. Qed.
Lemma reads_bytes : reads str_at deserialize_bytes.
Proof. intros l r b buf Hw Hc (bs & ? & ? & ? & -> & ->). by apply (deserialize_serialize_bytes bs r). Qed.
Lemma reads_buf n : reads (raw_at n) (fun b => deserialize_buf b n).
Proof.
  intros l r b buf Hw Hc (w & <- & -> & ->). rewrite (deserialize_buf_window buf w r) by done. by apply (reads_advance (fresh w)).
Qed.

(** [next L]: one reader of a sequence, by its lemma. *)
Ltac next L := eapply (reads_step _ _ _ _ _ _ _ _ _ L); [eassumption | first [eassumption | reflexivity] | eassumption | intros ? ? ?; cbn beta iota].

Lemma reads_mtp_message : reads message_at deserialize_mtp_message.
Proof.
  intros l r m buf Hw Hc (id & sq & w & ? & ? & ? & -> & ->). pose proof (zlen_nonneg w). unfold deserialize_mtp_message.
  assert (is_u32 (zlen w)) by (unfold is_u32; lia).
  eapply (reads_step _ _ _ _ _ _ _ _ _ reads_ui64 Hw Hc); [by split; [| reflexivity] |]. intros b1 Hw1 Hc1. cbn beta iota.
  eapply (reads_step _ _ _ _ _ _ _ _ _ reads_ui32 Hw1 Hc1); [by split; [| reflexivity] |]. intros b2 Hw2 Hc2. cbn beta iota.
  eapply (reads_step _ _ _ _ _ _ _ _ _ reads_ui32 Hw2 Hc2); [by split; [| reflexivity] |]. intros b3 Hw3 Hc3. cbn beta iota.
  rewrite (i32_small (zlen w)) by lia.
  eapply (reads_step _ _ _ _ _ _ _ _ _ (reads_buf (zlen w)) Hw3 Hc3); [by exists w |]. intros b4 Hw4 Hc4. by apply gives_ok.
Qed.

Lemma reads_times {A} (R : list Z -> list Z -> A -> Prop) f n : reads R f -> reads (seq_at R n) (times f n).
Proof.
  intros Hf. induction n as [|n IH]; intros l r xs buf Hw Hc Hxs; inversion Hxs; subst; cbn [times]; [by apply gives_ok |].
  next Hf. next IH. by apply gives_ok.
Qed.

Lemma reads_map {A B} (R : list Z -> list Z -> A -> Prop) f (g : A -> B) l r x buf :
  reads R f -> buf_wf buf -> contents buf = l -> R l r x -> gives ('(x, buf) ← f buf; Ok (g x, buf)) (g x) r.
Proof. intros Hf Hw Hc HR. next Hf. by apply gives_ok. Qed.

Section Layer.
Variable schema : list method_t.
Variable inner : list Z -> list Z -> option tl_t -> Prop.
Variable self : buf_t -> res (option tl_t * buf_t).
Hypothesis self_reads : reads inner self.

(** [read_next]: the reader that comes next, with its lemma. *)
Ltac read_next :=
  lazymatch goal with
  | |- gives (deserialize_ui32 _ ≫= _) _ _ => next reads_ui32
  | |- gives (deserialize_ui64 _ ≫= _) _ _ => next reads_ui64
  | |- gives (deserialize_double _ ≫= _) _ _ => next reads_double
  | |- gives (deserialize_bytes _ ≫= _) _ _ => next reads_bytes
  | |- gives (deserialize_buf _ ?n ≫= _) _ _ => next (reads_buf n)
  | |- gives (self _ ≫= _) _ _ => next self_reads
  | |- gives (times deserialize_ui32 ?n _ ≫= _) _ _ => next (reads_times _ _ n reads_ui32)
  | |- gives (times deserialize_ui64 ?n _ ≫= _) _ _ => next (reads_times _ _ n reads_ui64)
  | |- gives (times deserialize_double ?n _ ≫= _) _ _ => next (reads_times _ _ n reads_double)
  | |- gives (times deserialize_bytes ?n _ ≫= _) _ _ => next (reads_times _ _ n reads_bytes)
  | |- gives (times deserialize_mtp_message ?n _ ≫= _) _ _ => next (reads_times _ _ n reads_mtp_message)
  | |- gives (times self ?n _ ≫= _) _ _ => next (reads_times _ _ n self_reads)
  end.

Lemma reads_base b : reads (base_at inner b) (read_base self b).
Proof.
  intros l r s buf Hw Hc Hs. inversion Hs; subst; cbn [read_base]; try (by apply gives_ok);
    read_next; rewrite ?boolean_truth; by apply gives_ok.
Qed.

Lemma reads_elems b n : reads (fun l r s => elems_at inner n l r b s) (read_elems self b n).
Proof.
  intros l r s buf Hw Hc Hs. inversion Hs; subst; cbn [read_elems];
    read_next; rewrite ?booleans_truth; by apply gives_ok.
Qed.

Lemma reads_length : reads length_at read_length.
Proof.
  intros l r n buf Hw Hc [[Hl Hn] | (t & Hl & Ht)]; unfold read_length, id_vector; next reads_ui32.
  - rewrite (proj2 (Z.eqb_neq _ _)) by done. by apply gives_ok.
  - rewrite Z.eqb_refl. by eapply reads_ui32.
Qed.

Lemma reads_vector b l r s buf :
  buf_wf buf -> contents buf = l -> kind_at inner (Vec b) l r s -> gives (read_vector self b buf) (false, s) r.
Proof.
  intros Hw Hc Hs. inversion Hs as [| b' l' r' s' Hl Hn | ]; subst; unfold read_vector; next reads_length; cbn zeta.
  - rewrite <- (zero_of _ _ Hn). by apply gives_ok.
  - rewrite i32_small by lia. replace ((n <? 0) || (10000 <? n)) with false by lia. replace (n =? 0) with false by lia.
    next (reads_elems b (Z.to_nat n)). by apply gives_ok.
Qed.
Lemma reads_kind k l r s buf :
  buf_wf buf -> contents buf = l -> kind_at inner k l r s -> gives (read_kind self k buf) (false, s) r.
Proof.
  destruct k as [b | b]; [| apply reads_vector]. intros Hw Hc Hs. inversion Hs; subst.
  cbn [read_kind]. next (reads_base b). by apply gives_ok.
Qed.

(** A step whose outcome is known. *)
Lemma gives_step {A B} (c : res (A * buf_t)) (k : A * buf_t -> res (B * buf_t)) x t y r :
  gives c x t -> (forall buf', buf_wf buf' -> contents buf' = t -> gives (k (x, buf')) y r) -> gives (c ≫= k) y r.
Proof. intros (b & -> & ? & ?) Hk. rewrite res_bind_ok. auto. Qed.

Lemma reads_args args flags l r ms buf :
  buf_wf buf -> contents buf = l -> args_at inner args flags l r ms -> gives (read_args self args flags buf) ms r.
Proof.
  intros Hw Hc Hs. revert buf Hw Hc.
  induction Hs as [ | a args flags l t r w m Ht Hf Hu _ IH | a args flags l r m Ht Hf _ IH
    | a type k args flags l t r s m Ht Hk Hb Hh Hx _ IH | a type k args flags l r s m Ht Hk Hh Hz _ IH ];
    intros buf Hw Hc; cbn [read_args]; rewrite ?Ht, ?Hf, ?(kind_named _ _ Hk), ?res_bind_ok.
  - by apply gives_ok.
  - next reads_ui32. auto.
  - eapply gives_step; [by apply IH |]. intros. by apply gives_ok.
  - rewrite (here_shown _ _ Hb Hh), res_bind_ok. eapply gives_step; [by eapply reads_kind |]. intros b1 ? ?. cbn beta iota.
    eapply gives_step; [by apply IH |]. intros. by apply gives_ok.
  - rewrite (not_here_hidden _ _ Hh), res_bind_ok, (zero_of _ _ Hz). eapply gives_step; [by apply IH |]. intros. by apply gives_ok.
Qed.
End Layer.

(** ** The table *)
Variable schema : list method_t.

Lemma find_id_map {F} (g : method_t -> F) id l : forall i,
  snd <$> find_id i ((fun m => (id_of_method m, g m)) <$> l) id = g <$> find_method l id.
Proof. unfold find_method. induction l as [|m l IH]; intros i; cbn; [done |]. destruct (id_of_method m =? id); [done | apply IH]. Qed.
Definition table_entry (fuel : nat) : method_t -> buf_t -> res (option tl_t * buf_t) :=
  match fuel with O => fun _ _ => Err NoFuel | S fuel => tl_deserialize_ (tl_deserialize (tl_table schema fuel)) end.
Lemma table_fun fuel id : get_fun (tl_table schema fuel) id = table_entry fuel <$> find_method schema id.
Proof.
  rewrite <- (find_id_map _ id schema 0). unfold get_fun.
  assert (tl_table schema fuel = (fun m => (id_of_method m, table_entry fuel m)) <$> schema) as -> by (by destruct fuel).
  by destruct (find_id 0 _ id) as [[? ?] |].
Qed.

Lemma get_id buf id t : buf_wf buf -> contents buf = le_bytes 4 id ++ t -> is_u32 id -> buf_get_ui32 buf = Ok id.
Proof.
  intros Hw Hc Hi. unfold buf_get_ui32. erewrite rd_le_window by (done || reflexivity).
  by rewrite le_num_bytes, Z.mod_small.
Qed.

Lemma reads_object fuel : forall d, (d <= fuel)%nat -> reads (object_at schema d) (tl_deserialize (tl_table schema fuel)).
Proof.
  induction fuel as [|fuel IH]; intros [|d] Hd l r t buf Hw Hc Hx; try (by destruct Hx); [lia |].
  assert (Hself : reads (object_at schema d) (tl_deserialize (tl_table schema fuel))) by (apply IH; lia).
  cbn [object_at] in Hx. unfold tl_deserialize.
  destruct Hx as [id m t r ms o Hi Hn Hm Hv Ha Hs | id m n t r ms o Hi Hn Hm Hv Hu Ha Hs];
    rewrite (get_id _ _ _ Hw Hc Hi), res_bind_ok, table_fun; rewrite <- (view_seen _ _ _ Hs).
  - replace (id =? 0) with false by lia. rewrite Hm. cbn [fmap option_fmap option_map table_entry]. unfold tl_deserialize_.
    rewrite buf_add_buf_ok, res_bind_ok, Hc, Hv by done.
    eapply (reads_step _ _ _ _ _ _ _ _ _ reads_ui32 Hw Hc); [by split; [| reflexivity] |]. intros b1 Hw1 Hc1. cbn beta iota.
    rewrite res_bind_ok. eapply gives_step; [eapply reads_args; eassumption |]. intros b2 Hw2 Hc2. by apply gives_ok.
  - replace (id =? 0) with false by lia. rewrite Hm. cbn [fmap option_fmap option_map table_entry]. unfold tl_deserialize_.
    rewrite buf_add_buf_ok, res_bind_ok, Hc, Hv by done.
    eapply (reads_step _ _ _ _ _ _ _ _ _ reads_ui32 Hw Hc); [by split; [| reflexivity] |]. intros b1 Hw1 Hc1. cbn beta iota.
    rewrite res_bind_assoc.
    eapply (reads_step _ _ _ _ _ _ _ _ _ reads_ui32 Hw1 Hc1); [by split; [| reflexivity] |]. intros b2 Hw2 Hc2. cbn beta iota.
    rewrite buf_add_buf_ok, !res_bind_ok, Hc2 by done.
    eapply gives_step; [eapply reads_args; eassumption |]. intros b3 Hw3 Hc3. by apply gives_ok.
Qed.
End Reads.
