(* ===== verification/GeneratorEnds.v ===== *)
(** * The generated readers end

    Every object takes four bytes of the block, so the nesting of the calls
    is bounded by what is left of it: more fuel than that makes no
    difference. *)
From stdpp Require Import strings.
From S2P Require Import Prelude TlBuf Serial Errors Tg Packet TlParser Objects Generator GeneratorFacts.

(** ** Runs that do not ask for fuel *)
Definition sane {A} (c : res A) : Prop := c <> Err NoFuel.
Create HintDb sane.

Lemma sane_ok {A} (x : A) : sane (Ok x).
Proof. discriminate. Qed.
Lemma sane_bind {A B} (c : res A) (k : A -> res B) : sane c -> (forall x, c = Ok x -> sane (k x)) -> sane (c ≫= k).
Proof. destruct c as [x | e]; intros Hc Hk; [by apply Hk |]. intros E. apply Hc. cbn in E. congruence. Qed.
Lemma sane_rd m i : sane (rd m i).
Proof. unfold rd. destruct (0 <=? i); [destruct (m !! _) |]; discriminate. Qed.
Lemma sane_wr m i x : sane (wr m i x).
Proof. unfold wr. destruct (_ && _); discriminate. Qed.
#[export] Hint Resolve sane_ok sane_rd sane_wr : sane.
Ltac sane := repeat (lazymatch goal with |- sane (_ ≫= _) => apply sane_bind; [| intros] end); auto with sane.

Lemma sane_copy_loop n : forall i dst f src, sane (copy_loop n i dst f src).
Proof. induction n as [|n IH]; intros; cbn [copy_loop]; sane. Qed.
Lemma sane_fill_loop n g : (forall i, sane (g i)) -> forall i dst off, sane (fill_loop n i dst off g).
Proof. intros Hg. induction n as [|n IH]; intros; cbn [fill_loop]; sane. Qed.
Lemma sane_cmp_loop n : forall i a b, sane (cmp_loop n i a b).
Proof. induction n as [|n IH]; intros; cbn [cmp_loop]; sane. destruct (_ =? _); auto with sane. Qed.
Lemma sane_rd_le n : forall m i, sane (rd_le n m i).
Proof. induction n as [|n IH]; intros; cbn [rd_le]; sane. Qed.
#[export] Hint Resolve sane_copy_loop sane_fill_loop sane_cmp_loop sane_rd_le : sane.

Section Ends.
Context `{Platform}.

Lemma sane_buf_init : sane buf_init.
Proof. unfold buf_init. destruct (_ <=? _); discriminate. Qed.
Lemma sane_buf_realloc_ b n : sane (buf_realloc_ b n).
Proof.
  unfold buf_realloc_, buf_realloc. sane. destruct (_ <? _); [| auto with sane]. destruct (_ =? 0); [discriminate |].
  destruct (_ <=? _); sane.
Qed.
#[local] Hint Resolve sane_buf_init sane_buf_realloc_ : sane.
Lemma sane_buf_add data n : sane (buf_add data n).
Proof. unfold buf_add. sane. destruct (_ <? _); auto with sane. Qed.
#[local] Hint Resolve sane_buf_add : sane.

(** What succeeds copied bytes that were there. *)
Lemma buf_add_within data n b : buf_add data n = Ok b -> n <= zlen data.
Proof.
  intros E. destruct (Z.le_gt_cases n (zlen data)) as [? | Hn]; [done |]. pose proof (zlen_nonneg data).
  unfold buf_add in E. inv_res E. inv_res E. inv_res E. rewrite copy_loop_src_oob in Ha1 by lia. done.
Qed.
Lemma buf_add_is data n b : 0 <= n <= 256 -> buf_add data n = Ok b -> b = fresh (take (Z.to_nat n) data).
Proof.
  intros Hn E. pose proof (buf_add_within _ _ _ E). rewrite buf_add_ok in E by first [lia | by apply fits_small; lia]. congruence.
Qed.

(** ** Readers that go forward *)
Variable m : list Z.
Hypothesis m_bytes : bytes_ok m.
Hypothesis m_size : zlen m < 2147483648.

(** The buffer is a window into the block [m], at [lo] or after it. *)
Definition after (lo : Z) (buf : buf_t) : Prop := b_mem buf = m /\ lo <= b_off buf.
Definition moves {A} (lo : Z) (c : res (A * buf_t)) : Prop :=
  match c with Ok (_, buf) => after lo buf | Err e => e <> NoFuel end.
Definition forward {A} (lo : Z) (f : buf_t -> res (A * buf_t)) : Prop := forall lo' buf, lo <= lo' -> after lo' buf -> moves lo' (f buf).

Lemma moves_bind {A B} lo (c : res (A * buf_t)) (k : A * buf_t -> res (B * buf_t)) :
  moves lo c -> (forall x buf, after lo buf -> moves lo (k (x, buf))) -> moves lo (c ≫= k).
Proof. destruct c as [[x buf] | e]; cbn; auto. Qed.
Lemma moves_pure {A B} lo (c : res A) (k : A -> res (B * buf_t)) :
  sane c -> (forall x, c = Ok x -> moves lo (k x)) -> moves lo (c ≫= k).
Proof. destruct c as [x | e]; cbn; [auto |]. intros Hc _ ->. by apply Hc. Qed.
Lemma after_advance lo buf n : after lo buf -> 0 <= n -> after lo (advance buf n).
Proof. intros [? ?] ?. split; [done |]. cbn. lia. Qed.

Lemma forward_ui32 lo : forward lo deserialize_ui32.
Proof. intros lo' buf Hlo Hb. apply moves_pure; [apply sane_rd_le |]. intros x _. cbn. by apply after_advance. Qed.
Lemma forward_ui64 lo : forward lo deserialize_ui64.
Proof. intros lo' buf Hlo Hb. apply moves_pure; [apply sane_rd_le |]. intros x _. cbn. by apply after_advance. Qed.
Lemma forward_double lo : forward lo deserialize_double.
Proof. exact (forward_ui64 lo). Qed.
Lemma u32_i32 n : u32 (i32 n) = u32 n.
Proof. unfold u32, i32. modlia. Qed.
Lemma zlen_data_le buf k : b_mem buf = m -> zlen (data_at buf k) <= zlen m.
Proof. intros <-. unfold data_at, zlen. rewrite length_drop. lia. Qed.
Lemma forward_buf lo n : -2147483648 <= n < 2147483648 -> forward lo (fun b => deserialize_buf b n).
Proof.
  intros Hn lo' buf Hlo Hb. unfold deserialize_buf. apply moves_pure; [apply sane_buf_add |]. intros x E. cbn.
  apply after_advance; [done |]. pose proof (buf_add_within _ _ _ E). pose proof (zlen_data_le buf 0 (proj1 Hb)).
  destruct (Z.le_gt_cases 0 n); [done |]. exfalso. unfold u32 in *. revert H0. rewrite <- (Z.mod_unique n 4294967296 (-1) (n + 4294967296)) by lia. lia.
Qed.
Lemma forward_mtp_message lo : forward lo deserialize_mtp_message.
Proof.
  intros lo' buf Hlo Hb. unfold deserialize_mtp_message.
  apply moves_bind; [by eapply forward_ui64 |]. intros ? b1 Hb1. cbn beta iota.
  apply moves_bind; [by eapply forward_ui32 |]. intros ? b2 Hb2. cbn beta iota.
  apply moves_bind; [by eapply forward_ui32 |]. intros n b3 Hb3. cbn beta iota.
  apply moves_bind; [| by auto]. eapply (forward_buf lo); [unfold i32; modlia | done | done].
Qed.

Lemma bytes_at buf k : b_mem buf = m -> bytes_ok (data_at buf k).
Proof. intros E. unfold data_at. rewrite E. by apply Forall_drop. Qed.
Lemma get_len_nonneg l n : bytes_ok l -> buf_get_ui32 (set_size (fresh l) 4) = Ok n -> 0 <= n.
Proof.
  intros Hl E. platform. unfold buf_get_ui32, set_size, fresh, mk_buf in E. cbn [b_mem b_off] in E.
  rewrite (rd_le_ok 4) in E by (rewrite ?zlen_app, ?zlen_replicate; pose proof (zlen_nonneg l); unfold zlen in *; lia).
  injection E as <-. apply le_num_bound, slice_forall, Forall_app. split; [done |]. apply Forall_replicate. unfold is_byte. lia.
Qed.
Lemma forward_bytes lo : forward lo deserialize_bytes.
Proof.
  intros lo' buf Hlo Hb. pose proof (bytes_at buf 0 (proj1 Hb)) as H0. unfold deserialize_bytes.
  apply moves_pure; [apply sane_buf_init |]. intros s0 _.
  apply moves_pure; [apply sane_buf_add |]. intros byte E. pose proof (buf_add_within _ _ _ E).
  apply buf_add_is in E as ->; [| lia].
  apply moves_pure; [apply sane_rd |]. intros b0 Eb.
  assert (Hb0 : 0 <= b0).
  { destruct (data_at buf 0) as [|x l]; [unfold zlen in *; cbn in *; lia |]. cbn in Eb. injection Eb as <-.
    inversion H0; subst. unfold is_byte in *. lia. }
  apply moves_pure.
  - destruct (b0 <=? 253); [sane; auto using sane_buf_add |]. destruct (254 <=? b0); [| auto with sane].
    sane; auto using sane_buf_add; [apply sane_cmp_loop | apply sane_rd_le].
  - intros [[[s b] len] off] Er.
    assert (after lo' b /\ 0 <= len) as [Hb' Hlen].
    { destruct (b0 <=? 253).
      - inv_res Er. injection Er as <- <- <- <-. split; [by apply after_advance | done].
      - destruct (254 <=? b0); [| injection Er as <- <- <- <-; split; [done | lia]].
        inv_res Er. inv_res Er. inv_res Er. inv_res Er. inv_res Er. inv_res Er. injection Er as <- <- <- <-.
        split; [by apply after_advance |]. apply buf_add_is in Ha2 as ->; [| lia].
        eapply get_len_nonneg; [| exact Ha3]. apply Forall_take. by apply bytes_at, (proj1 Hb). }
    cbn zeta. pose proof (pad_of_bounds (len + off)). destruct (_ =? 0); cbn; repeat apply after_advance; try done; modlia.
Qed.
#[local] Hint Resolve forward_ui32 forward_ui64 forward_double forward_bytes forward_mtp_message : sane.

Lemma forward_times {A} lo (f : buf_t -> res (A * buf_t)) n : forward lo f -> forward lo (times f n).
Proof.
  intros Hf. induction n as [|n IH]; intros lo' buf Hlo Hb; cbn [times]; [done |].
  apply moves_bind; [by apply Hf |]. intros x b1 Hb1. cbn beta iota. apply moves_bind; [by apply IH | by auto].
Qed.
Lemma forward_map {A B} lo (f : buf_t -> res (A * buf_t)) (g : A -> B) :
  forward lo f -> forward lo (fun buf => '(x, buf) ← f buf; Ok (g x, buf)).
Proof. intros Hf lo' buf Hlo Hb. apply moves_bind; [by apply Hf | by auto]. Qed.

Section Layer.
Variable self : buf_t -> res (option tl_t * buf_t).
Variable lo : Z.
Hypothesis self_forward : forward lo self.

Lemma forward_base b : forward lo (read_base self b).
Proof.
  destruct b; cbn [read_base]; try (intros lo' buf ? ?; done);
    first [ apply forward_map | idtac ]; auto with sane; apply forward_buf; lia.
Qed.
Lemma forward_elems b n : forward lo (read_elems self b n).
Proof.
  destruct b; cbn [read_elems]; first [ apply (forward_map lo (times _ n) _), forward_times; auto with sane ].
Qed.
Lemma forward_vector b : forward lo (read_vector self b).
Proof.
  intros lo' buf Hlo Hb. unfold read_vector, read_length.
  apply moves_bind.
  - apply moves_bind; [by eapply forward_ui32 |]. intros n b1 Hb1. cbn beta iota. destruct (n =? id_vector); [by eapply forward_ui32 | done].
  - intros n b1 Hb1. cbn beta iota zeta. destruct (_ || _); [done |]. destruct (_ =? 0); [done |].
    apply moves_bind; [by apply forward_elems | by auto].
Qed.
Lemma forward_kind k : forward lo (read_kind self k).
Proof. destruct k as [b | b]; cbn [read_kind]; [apply (forward_map lo (read_base self b)), forward_base | apply forward_vector]. Qed.

Lemma sane_kind_of type : sane (kind_of type).
Proof. unfold kind_of. destruct (strstr _ _); [| discriminate]. cbn zeta. destruct (strstr _ _); discriminate. Qed.
Lemma sane_is_here flags a : sane (is_here flags a).
Proof.
  unfold is_here, flag_word. destruct (_ =? 0); [discriminate |]. destruct (_ <? _); [discriminate |]. destruct (flags !! _); discriminate.
Qed.
Lemma forward_args args : forall flags, forward lo (read_args self args flags).
Proof.
  induction args as [|a args IH]; intros flags lo' buf Hlo Hb; cbn [read_args]; [done |].
  destruct (arg_type a) as [type |].
  - apply moves_pure; [apply sane_kind_of |]. intros k _. apply moves_pure; [apply sane_is_here |]. intros [|] _.
    + apply moves_bind; [by apply forward_kind |]. intros [[|] s] b1 Hb1; cbn beta iota; [done |].
      apply moves_bind; [by apply IH | by auto].
    + apply moves_bind; [by apply IH | by auto].
  - destruct (is_flags a).
    + apply moves_bind; [by eapply forward_ui32 |]. intros w b1 Hb1. cbn beta iota. by apply IH.
    + apply moves_bind; [by apply IH | by auto].
Qed.
End Layer.

Lemma get_within lo buf id : 0 <= lo -> after lo buf -> buf_get_ui32 buf = Ok id -> lo + 4 <= zlen m.
Proof.
  intros Hlo [E Ho] Ei. destruct (Z.le_gt_cases (b_off buf + 4) (zlen m)) as [? | Hgt]; [lia |].
  unfold buf_get_ui32 in Ei. cbn [rd_le] in Ei. rewrite (rd_oob _ (b_off buf + 1 + 1 + 1)) in Ei by (rewrite E; lia).
  inv_res Ei. inv_res Ei. inv_res Ha0. inv_res Ha0. inv_res Ha2. inv_res Ha2. done.
Qed.
Lemma forward_call schema fuel : forall lo, 0 <= lo -> zlen m - lo < 4 * Z.of_nat fuel ->
  forward lo (tl_deserialize (tl_table schema fuel)).
Proof.
  induction fuel as [|fuel IH]; intros lo Hlo Hf lo' buf Hlo' Hb; unfold tl_deserialize;
    (apply moves_pure; [apply sane_rd_le |]); intros id Ei; (destruct (id =? 0); [done |]); rewrite table_fun;
    (destruct (find_method schema id) as [md |]; [| done]); cbn [fmap option_fmap option_map table_entry].
  - pose proof (get_within lo' _ _ ltac:(lia) Hb Ei). lia.
  - pose proof (get_within lo' _ _ ltac:(lia) Hb Ei) as Hin.
    assert (Hself : forward (lo' + 4) (tl_deserialize (tl_table schema fuel))) by (apply IH; lia).
    unfold tl_deserialize_. apply moves_pure; [apply sane_buf_add |]. intros _buf _.
    assert (Hid : deserialize_ui32 buf = Ok (id, advance buf 4)) by (unfold deserialize_ui32; by rewrite Ei).
    rewrite Hid, res_bind_ok.
    assert (Hb4 : after (lo' + 4) (advance buf 4)) by (destruct Hb; split; [done | cbn; lia]).
    assert (Hweak : forall A (c : res (A * buf_t)), moves (lo' + 4) c -> moves lo' c).
    { intros A [[x b] | e]; cbn; [| done]. intros [? ?]. split; [done | lia]. }
    apply Hweak, moves_bind.
    + destruct (is_vector md); [| done]. apply moves_bind; [by eapply forward_ui32 |]. intros n b1 Hb1. cbn beta iota.
      apply moves_pure; [apply sane_buf_add |]. intros d _. done.
    + intros head b1 Hb1. cbn beta iota. apply moves_bind; [by eapply forward_args | by auto].
Qed.
End Ends.

(** ** More fuel makes no difference *)
Section Fuel.
Context `{Platform}.

(** The second run is the first, where that did not ask for fuel. *)
Definition approx {A} (c d : res A) : Prop := c = Err NoFuel \/ c = d.
Lemma approx_refl {A} (c : res A) : approx c c.
Proof. by right. Qed.
Lemma approx_bind {A B} (c d : res A) (k l : A -> res B) :
  approx c d -> (forall x, approx (k x) (l x)) -> approx (c ≫= k) (d ≫= l).
Proof. intros [-> | ->] Hk; [by left |]. destruct d as [x | e]; [apply Hk | by right]. Qed.
#[local] Hint Resolve approx_refl : sane.

Section Layer.
Variables self self' : buf_t -> res (option tl_t * buf_t).
Hypothesis self_approx : forall buf, approx (self buf) (self' buf).

Lemma approx_times {A} (f g : buf_t -> res (A * buf_t)) n : (forall buf, approx (f buf) (g buf)) -> forall buf, approx (times f n buf) (times g n buf).
Proof.
  intros Hf. induction n as [|n IH]; intros buf; cbn [times]; [by right |].
  apply approx_bind; [done |]. intros [x b]. apply approx_bind; [done |]. by intros [? ?]; right.
Qed.
Lemma approx_kind k buf : approx (read_kind self k buf) (read_kind self' k buf).
Proof.
  destruct k as [b | b]; cbn [read_kind].
  - apply approx_bind; [| by intros [? ?]; right].
    destruct b; cbn [read_base]; first [ by right | apply approx_bind; [done | by intros [? ?]; right] ].
  - unfold read_vector. apply approx_bind; [by right |]. intros [n b1]. cbn zeta.
    destruct (_ || _); [by right |]. destruct (_ =? 0); [by right |]. apply approx_bind; [| by intros [? ?]; right].
    destruct b; cbn [read_elems]; first [ by right | apply approx_bind; [by apply approx_times | by intros [? ?]; right] ].
Qed.
Lemma approx_args args : forall flags buf, approx (read_args self args flags buf) (read_args self' args flags buf).
Proof.
  induction args as [|a args IH]; intros flags buf; cbn [read_args]; [by right |].
  destruct (arg_type a) as [type |]; [| destruct (is_flags a)].
  - apply approx_bind; [by right |]. intros k. apply approx_bind; [by right |]. intros [|].
    + apply approx_bind; [apply approx_kind |]. intros [[[|] s] b]; [by right |].
      apply approx_bind; [apply IH | by intros [? ?]; right].
    + apply approx_bind; [apply IH | by intros [? ?]; right].
  - apply approx_bind; [by right |]. intros [w b]. apply IH.
  - apply approx_bind; [apply IH | by intros [? ?]; right].
Qed.
Lemma approx_object md buf : approx (tl_deserialize_ self md buf) (tl_deserialize_ self' md buf).
Proof.
  unfold tl_deserialize_. apply approx_bind; [by right |]. intros _b. apply approx_bind; [by right |]. intros [id b].
  apply approx_bind; [by right |]. intros [head b1]. apply approx_bind; [apply approx_args | by intros [? ?]; right].
Qed.
End Layer.

Lemma approx_call schema fuel fuel' buf : (fuel <= fuel')%nat ->
  approx (tl_deserialize (tl_table schema fuel) buf) (tl_deserialize (tl_table schema fuel') buf).
Proof.
  revert fuel' buf. induction fuel as [|fuel IH]; intros [|fuel'] buf Hf; try lia; unfold tl_deserialize;
    (apply approx_bind; [by right |]); intros id; (destruct (id =? 0); [by right |]); rewrite !table_fun;
    (destruct (find_method schema id) as [md |]; [| by right]); cbn [fmap option_fmap option_map table_entry]; [by left.. |].
  apply approx_object. intros b. apply IH. lia.
Qed.

(** What is left of the block, in objects. *)
Definition enough (buf : buf_t) (fuel : nat) : Prop := zlen (b_mem buf) - b_off buf < 4 * Z.of_nat fuel.
Definition block_ok (buf : buf_t) : Prop := bytes_ok (b_mem buf) /\ zlen (b_mem buf) < 2147483648 /\ 0 <= b_off buf.

Lemma call_ends schema fuel buf : block_ok buf -> enough buf fuel -> sane (tl_deserialize (tl_table schema fuel) buf).
Proof.
  intros (Hb & Hs & Ho) He.
  pose proof (forward_call (b_mem buf) Hb Hs schema fuel (b_off buf) Ho He (b_off buf) buf ltac:(lia) ltac:(split; [done | lia])) as Hm.
  destruct (tl_deserialize _ buf) as [[t b] | e]; [discriminate |]. intros E. apply Hm. congruence.
Qed.
Lemma call_same schema fuel fuel' buf : block_ok buf -> enough buf fuel -> enough buf fuel' ->
  tl_deserialize (tl_table schema fuel) buf = tl_deserialize (tl_table schema fuel') buf.
Proof.
  intros Hb H1 H2.
  destruct (Nat.le_ge_cases fuel fuel') as [Hl | Hl]; destruct (approx_call schema _ _ buf Hl) as [E | E]; try done.
  - by destruct (call_ends schema fuel buf Hb H1).
  - by destruct (call_ends schema fuel' buf Hb H2).
Qed.

(** C14: reading ends and gives the whole answer to how it went: for any bytes
    at all, any schema and any depth the sender chose, the calls of
    [tl_deserialize] through the table never outlast the bytes of the block,
    and a larger bound gives the same result, fault or object. *)
Theorem generated_readers_end schema buf fuel fuel' :
  block_ok buf -> enough buf fuel -> enough buf fuel' ->
  tl_deserialize (tl_table schema fuel) buf <> Err NoFuel /\
  tl_deserialize (tl_table schema fuel') buf = tl_deserialize (tl_table schema fuel) buf.
Proof. intros Hb H1 H2. split; [by apply call_ends | by apply call_same]. Qed.

Lemma object_read schema d l r t buf fuel :
  object_at schema d l r t -> buf_wf buf -> contents buf = l -> zlen (b_mem buf) < 2147483648 -> enough buf fuel ->
  exists buf', tl_deserialize (tl_table schema fuel) buf = Ok (t, buf') /\ buf_wf buf' /\ contents buf' = r.
Proof.
  intros Ht Hw Hc Hs He. pose proof Hw as (_ & Hb & Ho & _ & _ & _).
  rewrite (call_same schema fuel (Nat.max fuel d) buf); [| by split_and! | done | unfold enough in *; lia].
  by apply (reads_object schema (Nat.max fuel d) d ltac:(lia) l r t buf).
Qed.

(** C15: the readers read the grammar: on a well-formed buffer whose bytes start
    with the layout of an object, nested to any depth, the generated reader
    returns exactly that object, its flagged members where their bits are set
    and zero elsewhere, and leaves the bytes after it. *)
Theorem generated_readers_read schema d l r t buf fuel :
  object_at schema d l r t -> buf_wf buf -> contents buf = l -> zlen (b_mem buf) < 2147483648 -> enough buf fuel ->
  exists buf', tl_deserialize (tl_table schema fuel) buf = Ok (t, buf') /\ buf_wf buf' /\ contents buf' = r.
Proof. apply object_read. Qed.
End Fuel.
