(* ===== verification/GeneratorWrites.v ===== *)
(** * What the generated writers write

    [enc] is the text of the arguments of a declaration, with the words of
    flags as the arguments that are given make them; the printed writers
    build it and set the bits through pointers into the block as they go. *)
From stdpp Require Import strings.
From S2P Require Import Prelude TlBuf Serial Errors Tg Packet TlParser Objects Generator GeneratorFacts GeneratorEnds.

Section Text.
Context `{Platform}.

(** ** The text of a value *)
Definition text (b : base) (v : value) : list Z :=
  match b, v with
  | (B_int | B_bool), V_num z => le_bytes 4 z
  | (B_long | B_double), V_num z => le_bytes 8 z
  | B_int128, V_buf x => slice (contents x) 0 16
  | B_int256, V_buf x => slice (contents x) 0 32
  | (B_string | B_bytes), V_buf x => tl_string (contents x)
  | B_string, V_str s => tl_string (before_nul s)
  | (B_message | B_object), V_buf x => contents x
  | _, _ => []
  end.
Definition text_array (b : base) (v : value) : list Z :=
  match v with
  | V_nums l => mjoin ((fun z => text b (V_num z)) <$> l)
  | V_bufs l => mjoin ((fun x => text b (V_buf x)) <$> l)
  | V_strs l => mjoin ((fun s => text b (V_str s)) <$> l)
  | _ => []
  end.
Definition text_kind (k : kind) (v : value) : list Z :=
  match k with
  | Single b => text b v
  | Vec b => le_bytes 4 id_vector ++ le_bytes 4 (count v) ++ text_array b v
  end.

(** A value of the C type of the argument. *)
Definition short (n : Z) : Prop := n < 16777216 /\ fits (n + 8).
Definition base_ok (isMtproto : bool) (b : base) (v : value) : Prop :=
  match b, v with
  | (B_int | B_bool), V_num z => is_u32 z
  | (B_long | B_double), V_num z => is_u64 z
  | B_int128, V_buf x => buf_wf x /\ 16 <= b_size x
  | B_int256, V_buf x => buf_wf x /\ 32 <= b_size x
  | B_bytes, V_buf x => buf_wf x /\ short (b_size x)
  | B_string, V_buf x => isMtproto = true /\ buf_wf x /\ short (b_size x)
  | B_string, V_str s => isMtproto = false /\ bytes_ok s /\ 0 ∈ s /\ short (zlen (before_nul s))
  | (B_message | B_object), V_buf x => buf_wf x
  | _, _ => False
  end.
Definition array_ok (b : base) (v : value) : Prop :=
  match b, v with
  | (B_int | B_bool), V_nums l => Forall is_u32 l
  | (B_long | B_double), V_nums l => Forall is_u64 l
  | B_string, V_strs l => Forall (fun s => base_ok false B_string (V_str s)) l
  | B_bytes, V_bufs l => Forall (fun x => base_ok false B_bytes (V_buf x)) l
  | (B_message | B_object), V_bufs l => Forall buf_wf l
  | _, _ => False
  end.
Definition kind_ok (isMtproto : bool) (k : kind) (v : value) : Prop :=
  match k with
  | Single b => base_ok isMtproto b v
  | Vec b => array_ok b v /\ count v <= 10000
  end.

(** ** Writing a value *)
Lemma c_string s : 0 ∈ s -> exists rest, s = before_nul s ++ 0 :: rest /\ strlen s = Ok (zlen (before_nul s)).
Proof.
  induction s as [|c s IH]; intros Hs; [by apply not_elem_of_nil in Hs |]. cbn. destruct (Z.eqb_spec c 0) as [-> | Hc].
  - by exists s.
  - apply elem_of_cons in Hs as [? | Hs]; [done |]. destruct (IH Hs) as (rest & E & ->). exists rest.
    split; [cbn; by f_equal |]. rewrite res_bind_ok, zlen_cons. done.
Qed.
Lemma before_nul_ok s : bytes_ok s -> bytes_ok (before_nul s).
Proof. induction 1 as [|c s Hc _ IH]; cbn; [done |]. destruct (c =? 0); auto with bytes. Qed.

Lemma serialize_cat bs s rest : bytes_ok s -> short (zlen s) -> fits (zlen bs + zlen (tl_string s)) ->
  (_bytes ← serialize_bytes (s ++ rest) (zlen s); buf_cat (fresh bs) _bytes) = Ok (fresh (bs ++ tl_string s)).
Proof.
  intros Hs [_ Hf] Hb. rewrite serialize_bytes_ok, res_bind_ok by done. apply buf_cat_fresh; [by apply tl_string_ok | done].
Qed.
Lemma serialize_buf_cat bs x : buf_wf x -> short (b_size x) -> fits (zlen bs + zlen (tl_string (contents x))) ->
  (_bytes ← serialize_bytes (data_at x 0) (b_size x); buf_cat (fresh bs) _bytes) = Ok (fresh (bs ++ tl_string (contents x))).
Proof.
  intros Hx [_ Hf] Hb. destruct (serialize_str_eq_bytes x Hx Hf) as (_ & -> & _). rewrite res_bind_ok.
  apply buf_cat_fresh; [by apply tl_string_ok, contents_ok | done].
Qed.
Lemma serialize_string_cat bs s : bytes_ok s -> 0 ∈ s -> short (zlen (before_nul s)) -> fits (zlen bs + zlen (tl_string (before_nul s))) ->
  (_string ← serialize_string s; buf_cat (fresh bs) _string) = Ok (fresh (bs ++ tl_string (before_nul s))).
Proof.
  intros Hs H0 Hsh Hb. destruct (c_string s H0) as (rest & E & El). unfold serialize_string. rewrite El, res_bind_ok.
  rewrite E at 1. by apply serialize_cat; [apply before_nul_ok | |].
Qed.
Lemma cat_part bs x n : buf_wf x -> 0 <= n <= b_size x -> fits (zlen bs + n) ->
  buf_cat_data (fresh bs) (data_at x 0) n = Ok (fresh (bs ++ slice (contents x) 0 n)).
Proof. intros. apply buf_cat_data_at; [done | lia | lia | lia | done]. Qed.

Lemma zlen_part x n : buf_wf x -> 0 <= n <= b_size x -> zlen (slice (contents x) 0 n) = n.
Proof. intros Hx Hn. rewrite zlen_slice; rewrite ?zlen_contents by done; lia. Qed.

Lemma write_base_ok mt b v bs : base_ok mt b v -> fits (zlen bs + zlen (text b v)) ->
  write_base mt b v (fresh bs) = Ok (fresh (bs ++ text b v)).
Proof.
  intros Hv Hf. destruct b, v as [| z | x | s | l | l | l]; cbn [base_ok text write_base] in *; try contradiction;
    try (rewrite zlen_le_bytes in Hf;
         lazymatch goal with
         | |- buf_cat_ui32 _ _ = _ => exact (buf_cat_ui32_ok bs z Hf)
         | |- _ => exact (buf_cat_ui64_ok bs z Hf)
         end);
    try (rewrite zlen_contents in Hf by exact Hv; exact (buf_cat_ok bs x Hv Hf)).
  - destruct Hv as (-> & Hw & Hs). destruct (serialize_str_eq_bytes x Hw (proj2 Hs)) as (-> & _ & _). rewrite res_bind_ok.
    apply buf_cat_fresh; [by apply tl_string_ok, contents_ok | exact Hf].
  - destruct Hv as (-> & Hb & H0 & Hs). by apply serialize_string_cat.
  - destruct Hv as [Hw Hs]. by apply serialize_buf_cat.
  - destruct Hv as [Hw Hs]. rewrite zlen_part in Hf by (exact Hw || lia). apply cat_part; [exact Hw | lia | exact Hf].
  - destruct Hv as [Hw Hs]. rewrite zlen_part in Hf by (exact Hw || lia). apply cat_part; [exact Hw | lia | exact Hf].
Qed.

Lemma each_ok {A} (P : A -> Prop) (f : buf_t -> A -> res buf_t) (g : A -> list Z) :
  (forall x bs, P x -> fits (zlen bs + zlen (g x)) -> f (fresh bs) x = Ok (fresh (bs ++ g x))) ->
  forall l bs, Forall P l -> fits (zlen bs + zlen (mjoin (g <$> l))) -> each f l (fresh bs) = Ok (fresh (bs ++ mjoin (g <$> l))).
Proof.
  intros Hf. induction l as [|x l IH]; intros bs Hl Hb; cbn [each]; [cbn; by rewrite app_nil_r |].
  inversion Hl; subst. change (mjoin (g <$> x :: l)) with (g x ++ mjoin (g <$> l)) in *. rewrite zlen_app in Hb.
  pose proof (zlen_nonneg (mjoin (g <$> l))). rewrite Hf, res_bind_ok by (done || (unfold fits in *; lia)).
  rewrite IH; [by rewrite <- app_assoc | done |]. rewrite zlen_app. unfold fits in *. lia.
Qed.
Lemma write_elems_ok b v bs : array_ok b v -> fits (zlen bs + zlen (text_array b v)) ->
  write_elems b v (fresh bs) = Ok (fresh (bs ++ text_array b v)).
Proof.
  intros Hv Hf. destruct b, v as [| z | x | s | l | l | l]; cbn [array_ok text_array write_elems] in *; try contradiction;
    (eapply each_ok; [| exact Hv | exact Hf]); intros y ys Hy Hb;
    lazymatch goal with
    | |- buf_cat_ui32 _ _ = _ => cbn [text] in Hb; rewrite zlen_le_bytes in Hb; exact (buf_cat_ui32_ok ys y Hb)
    | |- buf_cat_ui64 _ _ = _ => cbn [text] in Hb; rewrite zlen_le_bytes in Hb; exact (buf_cat_ui64_ok ys y Hb)
    | |- buf_cat_double _ _ = _ => cbn [text] in Hb; rewrite zlen_le_bytes in Hb; exact (buf_cat_ui64_ok ys y Hb)
    | |- buf_cat _ _ = _ => cbn [text] in Hb; rewrite zlen_contents in Hb by exact Hy; exact (buf_cat_ok ys y Hy Hb)
    | |- _ => idtac
    end.
  - exact (write_base_ok false B_string (V_str y) ys Hy Hb).
  - exact (write_base_ok false B_bytes (V_buf y) ys Hy Hb).
Qed.
Lemma tl_vector_ok : tl_vector = Ok (fresh (le_bytes 4 id_vector)).
Proof. apply buf_add_ui32_ok. Qed.
Lemma write_kind_ok mt k v bs : kind_ok mt k v -> fits (zlen bs + zlen (text_kind k v)) ->
  write_kind mt k v (fresh bs) = Ok (fresh (bs ++ text_kind k v)).
Proof.
  destruct k as [b | b]; cbn [kind_ok text_kind write_kind]; [apply write_base_ok |].
  intros [Hv _] Hf. rewrite !zlen_app, !zlen_le_bytes in Hf. pose proof (zlen_nonneg (text_array b v)).
  rewrite tl_vector_ok, res_bind_ok, buf_cat_fresh, res_bind_ok by (auto with bytes; rewrite zlen_le_bytes; unfold fits in *; lia).
  rewrite buf_cat_ui32_ok, res_bind_ok by (rewrite zlen_app, zlen_le_bytes; unfold fits in *; lia).
  rewrite write_elems_ok, <- !app_assoc; [done | done |]. rewrite !zlen_app, !zlen_le_bytes. unfold fits in *. lia.
Qed.
End Text.

(** ** The words of flags *)
Section Words.
Context `{Platform}.

(** The block as the words of flags in it, and what is between them. *)
Inductive seg := Word (w : Z) | Bytes (bs : list Z).
Definition flat1 (s : seg) : list Z := match s with Word w => le_bytes 4 w | Bytes bs => bs end.
Definition flat (l : list seg) : list Z := mjoin (flat1 <$> l).
Fixpoint words (l : list seg) : nat := match l with [] => 0 | Word _ :: l => S (words l) | Bytes _ :: l => words l end.
(** The pointers to them, in a block that starts at [off]. *)
Fixpoint pointers (off : Z) (l : list seg) : list (Z * Z) :=
  match l with
  | [] => []
  | Word w :: l => (off, BUFSIZ) :: pointers (off + 4) l
  | Bytes bs :: l => pointers (off + zlen bs) l
  end.
(** Word number [i] changed, and all of them. *)
Fixpoint change (i : nat) (f : Z -> Z) (l : list seg) : list seg :=
  match l with
  | [] => []
  | Word w :: l => match i with O => Word (f w) :: l | S i => Word w :: change i f l end
  | Bytes bs :: l => Bytes bs :: change i f l
  end.
Fixpoint merge (k : Z) (W : Z -> Z) (l : list seg) : list seg :=
  match l with
  | [] => []
  | Word w :: l => Word (Z.lor (W k) w) :: merge (k + 1) W l
  | Bytes bs :: l => Bytes bs :: merge k W l
  end.

Lemma flat_app l l' : flat (l ++ l') = flat l ++ flat l'.
Proof. induction l as [|s l IH]; [done |]. change (flat1 s ++ flat (l ++ l') = (flat1 s ++ flat l) ++ flat l'). by rewrite IH, app_assoc. Qed.
Lemma flat_cons s l : flat (s :: l) = flat1 s ++ flat l.
Proof. reflexivity. Qed.
Lemma words_app l l' : words (l ++ l') = (words l + words l')%nat.
Proof. induction l as [|[w | bs] l IH]; cbn; [done | by rewrite IH | done]. Qed.
Lemma length_pointers l : forall off, length (pointers off l) = words l.
Proof. induction l as [|[w | bs] l IH]; intros off; cbn; auto. Qed.
Lemma pointers_app l l' : forall off, pointers off (l ++ l') = pointers off l ++ pointers (off + zlen (flat l)) l'.
Proof.
  induction l as [|[w | bs] l IH]; intros off; cbn [pointers app]; rewrite ?flat_cons, ?zlen_app; cbn [flat1]; rewrite ?zlen_le_bytes.
  - cbn. by rewrite Z.add_0_r.
  - rewrite IH. cbn [app]. do 2 f_equal. f_equal. lia.
  - rewrite IH. do 2 f_equal. lia.
Qed.
Lemma merge_app l l' W : forall k, merge k W (l ++ l') = merge k W l ++ merge (k + Z.of_nat (words l)) W l'.
Proof.
  induction l as [|[w | bs] l IH]; intros k; cbn [merge app words]; [by rewrite Z.add_0_r | |]; rewrite IH; [| done].
  by replace (k + Z.of_nat (S (words l))) with (k + 1 + Z.of_nat (words l)) by lia.
Qed.
Lemma words_change l f : forall i, words (change i f l) = words l.
Proof. induction l as [|[w | bs] l IH]; intros i; cbn; [done | | apply IH]. destruct i; cbn; by rewrite ?IH. Qed.
Lemma pointers_change l f : forall i off, pointers off (change i f l) = pointers off l.
Proof. induction l as [|[w | bs] l IH]; intros i off; cbn; [done | | apply IH]. destruct i; cbn; by rewrite ?IH. Qed.
Lemma zlen_flat_change l f : forall i, zlen (flat (change i f l)) = zlen (flat l).
Proof.
  induction l as [|[w | bs] l IH]; intros i; cbn [change]; [done | |]; [destruct i |]; rewrite !flat_cons, !zlen_app, ?IH; cbn [flat1];
    by rewrite ?zlen_le_bytes.
Qed.

Lemma merge_ext l (W W' : Z -> Z) : forall k, (forall j, k <= j -> W j = W' j) -> merge k W l = merge k W' l.
Proof.
  induction l as [|[w | bs] l IH]; intros k HW; cbn [merge]; [done | |].
  - rewrite HW by lia. f_equal. apply IH. intros. apply HW. lia.
  - f_equal. by apply IH.
Qed.
(** Changing one word before they are all merged. *)
Lemma merge_change l bit (W W' : Z -> Z) : forall i k,
  (forall j, W j = if j =? k + Z.of_nat i then Z.lor (W' j) bit else W' j) ->
  merge k W' (change i (fun w => Z.lor w bit) l) = merge k W l.
Proof.
  induction l as [|[w | bs] l IH]; intros i k HW; cbn [change merge]; [done | | f_equal; by apply IH].
  destruct i as [|i]; cbn [merge]; rewrite HW.
  - rewrite (proj2 (Z.eqb_eq k (k + Z.of_nat 0))) by lia. f_equal.
    + f_equal. rewrite <- Z.lor_assoc. f_equal. apply Z.lor_comm.
    + apply merge_ext. intros j Hj. rewrite HW. by rewrite (proj2 (Z.eqb_neq j (k + Z.of_nat 0))) by lia.
  - rewrite (proj2 (Z.eqb_neq k (k + Z.of_nat (S i)))) by lia. f_equal. apply IH. intros j. rewrite HW.
    by replace (k + 1 + Z.of_nat i) with (k + Z.of_nat (S i)) by lia.
Qed.

Lemma merge_0 l : forall k, merge k (fun _ => 0) l = l.
Proof. induction l as [|[w | bs] l IH]; intros k; cbn [merge]; rewrite ?IH; done. Qed.

Lemma pointer_split l f : forall i off p, pointers off l !! i = Some p ->
  exists l1 w l2, l = l1 ++ Word w :: l2 /\ p = (off + zlen (flat l1), BUFSIZ) /\ change i f l = l1 ++ Word (f w) :: l2.
Proof.
  induction l as [|[w | bs] l IH]; intros i off p Hp; cbn [pointers change] in *; [done | destruct i as [|i] |].
  - injection Hp as <-. exists [], w, l. cbn. by rewrite Z.add_0_r.
  - destruct (IH i _ _ Hp) as (l1 & w1 & l2 & -> & -> & ->). exists (Word w :: l1), w1, l2.
    rewrite flat_cons, zlen_app. cbn [flat1]. rewrite zlen_le_bytes, Z.add_assoc. done.
  - destruct (IH i _ _ Hp) as (l1 & w1 & l2 & -> & -> & ->). exists (Bytes bs :: l1), w1, l2.
    rewrite flat_cons, zlen_app, Z.add_assoc. done.
Qed.

Definition words_ok (l : list seg) : Prop := Forall (fun s => match s with Word w => is_u32 w | Bytes _ => True end) l.

(** Writing a word through its pointer changes the word. *)
Lemma set_flag_ok l i p bit : words_ok l -> zlen (flat l) <= BUFSIZ -> pointers 0 l !! i = Some p ->
  set_flag p bit (fresh (flat l)) = Ok (fresh (flat (change i (fun w => Z.lor w bit) l))).
Proof.
  intros Hw Hl Hp. pose proof (zlen_flat_change l (fun w => Z.lor w bit) i) as Hz.
  destruct (pointer_split l (fun w => Z.lor w bit) i 0 p Hp) as (l1 & w & l2 & -> & -> & E).
  rewrite E in *. apply Forall_app in Hw as [_ Hw]. apply Forall_cons_1 in Hw as [Hw _].
  rewrite flat_app, flat_cons in *. cbn [flat1] in *. rewrite Z.add_0_l. unfold set_flag, fresh, mk_buf. cbn [b_asize b_mem].
  rewrite ?flat_app, ?flat_cons in Hz |- *. cbn [flat1] in Hz |- *. rewrite Hz, Z.max_l by done. rewrite Z.eqb_refl. cbn [negb].
  rewrite !zlen_app, zlen_le_bytes in Hl. pose proof (zlen_nonneg (flat l2)). pose proof (zlen_nonneg (flat l1)).
  rewrite (rd_le_ok 4), res_bind_ok by (rewrite ?zlen_app, ?zlen_le_bytes; pose proof (zlen_nonneg (replicate (Z.to_nat (BUFSIZ + 1) - length (flat l1 ++ le_bytes 4 w ++ flat l2)) 0)); lia).
  rewrite <- !app_assoc, (slice_app_r (flat l1)), slice_app_l by (done || by rewrite zlen_le_bytes).
  rewrite le_num_bytes, Z.mod_small by done.
  rewrite (copy_loop_ok 4 0 _ _ (zlen (flat l1))), res_bind_ok;
    [| by intros; lia | lia | done | by rewrite zlen_le_bytes | rewrite !zlen_app, zlen_le_bytes; zpos; lia].
  rewrite Z.add_0_r, splice_at by done. unfold set_mem. cbn [b_off b_size b_asize].
  rewrite (slice_all (le_bytes 4 _)) by (by rewrite zlen_le_bytes).
  do 4 f_equal. change (length (le_bytes 4 (Z.lor w bit))) with (length (le_bytes 4 w)). rewrite drop_app_length.
    do 2 f_equal. rewrite !length_app. reflexivity.
Qed.
End Words.

(** ** The text of the arguments *)
Section Args.
Context `{Platform}.

Definition word_arg (a : arg_t) : bool := match arg_type a with None => is_flags a | Some _ => false end.
Definition given (a : arg_t) (v : value) : bool := (flagn a =? 0) || negb (is_null v).
(** The bits of word [k]. *)
Fixpoint word (k : Z) (l : list arg_t) (vs : list value) : Z :=
  match l with
  | [] => 0
  | a :: l =>
      if word_arg a then word k l vs
      else match vs with
           | [] => 0
           | v :: vs =>
               if (flagn a =? k) && negb (flagn a =? 0) && negb (is_null v) then Z.lor (word k l vs) (flag_bit a) else word k l vs
           end
  end.
Definition field (a : arg_t) (v : value) : list Z :=
  match arg_type a with
  | None => []
  | Some type => match kind_of type with Ok k => if given a v then text_kind k v else [] | Err _ => [] end
  end.
(** The arguments after [n] words, where the words are [W]. *)
Fixpoint enc (W : Z -> Z) (n : nat) (l : list arg_t) (vs : list value) : list Z :=
  match l with
  | [] => []
  | a :: l =>
      if word_arg a then le_bytes 4 (W (Z.of_nat n + 1)) ++ enc W (S n) l vs
      else match vs with [] => [] | v :: vs => field a v ++ enc W n l vs end
  end.
Definition enc_method (m : method_t) (vs : list value) : list Z :=
  le_bytes 4 (id_of_method m) ++ enc (fun k => word k (args m) vs) 0 (args m) vs.

(** The call is well typed, after [n] words: the flag of an argument is in
    a word before it. *)
Inductive args_ok (isMtproto : bool) : nat -> list arg_t -> list value -> Prop :=
| ok_none n : args_ok isMtproto n [] []
| ok_word n a l vs : arg_type a = None -> is_flags a = true -> args_ok isMtproto (S n) l vs -> args_ok isMtproto n (a :: l) vs
| ok_untyped n a v l vs : arg_type a = None -> is_flags a = false -> flagn a = 0 -> args_ok isMtproto n l vs ->
    args_ok isMtproto n (a :: l) (v :: vs)
| ok_typed n a type k v l vs : arg_type a = Some type -> kind_of type = Ok k ->
    flagn a = 0 \/ 1 <= flagn a <= Z.of_nat n -> 0 <= flagb a < 32 ->
    (given a v = true -> k = Single B_true \/ kind_ok isMtproto k v) ->
    args_ok isMtproto n l vs -> args_ok isMtproto n (a :: l) (v :: vs).

Lemma lor_u32 x y : is_u32 x -> is_u32 y -> is_u32 (Z.lor x y).
Proof.
  unfold is_u32. intros Hx Hy. split; [apply Z.lor_nonneg; lia |].
  destruct (decide (Z.lor x y = 0)) as [-> | Hz]; [lia |].
  change 4294967296 with (2 ^ 32). apply Z.log2_lt_cancel. rewrite Z.log2_lor, Z.log2_pow2 by lia.
  assert (Hlog : forall z, 0 <= z < 2 ^ 32 -> Z.log2 z < 32).
  { intros z Hz'. destruct (decide (z = 0)) as [-> |]; [cbn; lia |]. apply Z.log2_lt_pow2; lia. }
  apply Z.max_lub_lt; apply Hlog; lia.
Qed.
Lemma flag_bit_u32 a : 0 <= flagb a < 32 -> is_u32 (flag_bit a).
Proof.
  intros Hb. unfold is_u32, flag_bit. rewrite Z.shiftl_1_l. split; [by apply Z.pow_nonneg |].
  change 4294967296 with (2 ^ 32). apply Z.pow_lt_mono_r; lia.
Qed.
Lemma words_ok_change l bit i : words_ok l -> is_u32 bit -> words_ok (change i (fun w => Z.lor w bit) l).
Proof.
  intros Hl Hb. revert i. induction Hl as [|[w | bs] l Hs Hl IH]; intros i; cbn [change]; [constructor | |].
  - destruct i; constructor; [by apply lor_u32 | exact Hl | exact Hs | apply IH].
  - constructor; [done | apply IH].
Qed.

Lemma enc_ext mt n l vs (W W' : Z -> Z) : args_ok mt n l vs -> (forall k, Z.of_nat n < k -> W k = W' k) -> enc W n l vs = enc W' n l vs.
Proof.
  intros Ha. induction Ha as [n | n a l vs Ht Hf Ha IH | n a v l vs Ht Hf Hn Ha IH | n a type k v l vs Ht Hk Hn Hb Hv Ha IH]; intros HW;
    cbn [enc]; [done | | |]; unfold word_arg; rewrite Ht, ?Hf.
  - rewrite HW, IH by (intros; try apply HW; lia). done.
  - by rewrite IH.
  - by rewrite IH.
Qed.

(** [word], one argument further. *)
Lemma word_given k a v l vs : word_arg a = false -> flagn a <> 0 -> is_null v = false ->
  word k (a :: l) (v :: vs) = if k =? flagn a then Z.lor (word k l vs) (flag_bit a) else word k l vs.
Proof.
  intros Hw Hn Hv. cbn [word]. rewrite Hw, Hv, (Z.eqb_sym k). rewrite (proj2 (Z.eqb_neq (flagn a) 0)) by done. by destruct (_ =? _).
Qed.
Lemma word_plain k a v l vs : word_arg a = false -> flagn a = 0 \/ is_null v = true -> word k (a :: l) (v :: vs) = word k l vs.
Proof.
  intros Hw Hv. cbn [word]. rewrite Hw. destruct Hv as [-> | ->]; [| by rewrite andb_false_r]. cbn. by rewrite andb_false_r.
Qed.

Lemma flat_bytes l bs : flat (l ++ [Bytes bs]) = flat l ++ bs.
Proof. rewrite flat_app. cbn. by rewrite app_nil_r. Qed.
Lemma words_bytes l bs : words (l ++ [Bytes bs]) = words l.
Proof. rewrite words_app. cbn. lia. Qed.
Lemma pointers_bytes l bs off : pointers off (l ++ [Bytes bs]) = pointers off l.
Proof. rewrite pointers_app. cbn. by rewrite app_nil_r. Qed.
Lemma merge_bytes l bs k W : merge k W (l ++ [Bytes bs]) = merge k W l ++ [Bytes bs].
Proof. rewrite merge_app. done. Qed.
Lemma zlen_merge l W : forall k, zlen (flat (merge k W l)) = zlen (flat l).
Proof.
  induction l as [|[w | bs] l IH]; intros k; cbn [merge]; [done | |]; rewrite !flat_cons, !zlen_app, IH; cbn [flat1]; by rewrite ?zlen_le_bytes.
Qed.

Lemma flag_pointer_of l a : 1 <= flagn a <= Z.of_nat (words l) ->
  exists p, flag_word (pointers 0 l) a = Ok p /\ pointers 0 l !! Z.to_nat (flagn a - 1) = Some p.
Proof.
  intros Hn. unfold flag_word. replace (flagn a <? 1) with false by lia.
  destruct (lookup_lt_is_Some_2 (pointers 0 l) (Z.to_nat (flagn a - 1))) as [p Hp]; [rewrite length_pointers; lia |].
  exists p. by rewrite Hp.
Qed.

(** The arguments are written, after [n] words. *)
Definition writes (mt : bool) (n : nat) (args : list arg_t) (vs : list value) : Prop :=
  forall W, W = (fun k => word k args vs) -> forall l, words l = n -> words_ok l -> zlen (flat l) + zlen (enc W n args vs) <= BUFSIZ ->
  write_args mt args vs (pointers 0 l) (fresh (flat l)) = Ok (fresh (flat (merge 1 W l) ++ enc W n args vs)).

Lemma writes_word mt n a args vs : arg_type a = None -> is_flags a = true -> writes mt (S n) args vs -> writes mt n (a :: args) vs.
Proof.
  intros Ht Hf IH W HW l Hl Hw Hz. assert (Hwa : word_arg a = true) by (unfold word_arg; by rewrite Ht).
  assert (HE : enc W n (a :: args) vs = le_bytes 4 (W (Z.of_nat n + 1)) ++ enc W (S n) args vs) by (cbn [enc]; by rewrite Hwa).
  rewrite HE, zlen_app, zlen_le_bytes in Hz. rewrite HE.
  pose proof platform_bounds. pose proof (zlen_nonneg (flat l)). pose proof (zlen_nonneg (enc W (S n) args vs)).
  cbn [write_args]. rewrite Ht, Hf. cbn [andb]. rewrite buf_cat_ui32_ok, res_bind_ok by (unfold fits; lia).
  assert (Hp : pointers 0 l ++ [flag_pointer (fresh (flat l))] = pointers 0 (l ++ [Word 0])).
  { rewrite pointers_app. cbn [pointers]. unfold flag_pointer, fresh, mk_buf. cbn [b_off b_size b_asize]. by rewrite Z.max_l by lia. }
  assert (Hflat : flat l ++ le_bytes 4 0 = flat (l ++ [Word 0])) by (by rewrite flat_app).
  assert (HW' : W = fun k => word k args vs) by (rewrite HW; cbn [word]; by rewrite Hwa).
  rewrite Hp, Hflat, (IH W HW').
  - rewrite merge_app, flat_app. cbn [merge]. rewrite Z.lor_0_r, Hl, flat_cons. cbn [flat1].
    change (flat []) with (@nil Z). by rewrite app_nil_r, <- app_assoc, (Z.add_comm 1).
  - rewrite words_app, Hl. cbn. lia.
  - apply Forall_app. split; [exact Hw |]. constructor; [unfold is_u32; lia | constructor].
  - rewrite <- Hflat, zlen_app, zlen_le_bytes. lia.
Qed.

(** What an argument adds, and the arguments after it. *)
Lemma enc_arg mt n a v args vs (W W' : Z -> Z) : word_arg a = false -> args_ok mt n args vs -> 0 <= flagn a <= Z.of_nat n ->
  W = (fun k => word k (a :: args) (v :: vs)) -> W' = (fun k => word k args vs) ->
  enc W n (a :: args) (v :: vs) = field a v ++ enc W' n args vs.
Proof.
  intros Hwa Ha Hn -> ->. cbn [enc]. rewrite Hwa. f_equal. apply (enc_ext mt); [done |]. intros j Hj.
  destruct (decide (flagn a = 0 \/ is_null v = true)) as [Hc | Hc]; [by apply word_plain |].
  rewrite word_given; [| done | tauto | destruct (is_null v); tauto]. by rewrite (proj2 (Z.eqb_neq j (flagn a))) by lia.
Qed.
(** The rest, once the bytes [bs] of an argument are in the block. *)
Lemma writes_after mt n args vs l bs (W : Z -> Z) : writes mt n args vs -> (forall k, W k = word k args vs) -> words l = n -> words_ok l ->
  zlen (flat l) + zlen (bs ++ enc W n args vs) <= BUFSIZ -> enc W n args vs = enc (fun k => word k args vs) n args vs ->
  write_args mt args vs (pointers 0 l) (fresh (flat l ++ bs)) = Ok (fresh (flat (merge 1 W l) ++ bs ++ enc W n args vs)).
Proof.
  intros IH HW Hl Hw Hz HE. rewrite HE in *. rewrite zlen_app in Hz. rewrite <- (pointers_bytes l bs 0), <- (flat_bytes l bs).
  rewrite (IH _ eq_refl); [| by rewrite words_bytes | by apply Forall_app; split; [| constructor] | rewrite flat_bytes, zlen_app; lia].
  rewrite merge_bytes, flat_bytes, <- app_assoc. by rewrite (merge_ext l W (fun k => word k args vs)) by done.
Qed.
(** The same, and the bit of the argument. *)
Lemma writes_bit mt n a v args vs l bs (W : Z -> Z) : writes mt n args vs -> word_arg a = false ->
  W = (fun k => word k (a :: args) (v :: vs)) -> is_null v = false ->
  1 <= flagn a <= Z.of_nat n -> 0 <= flagb a < 32 -> words l = n -> words_ok l ->
  let E := enc (fun k => word k args vs) n args vs in
  zlen (flat l) + zlen (bs ++ E) <= BUFSIZ ->
  (p ← flag_word (pointers 0 l) a; buf ← set_flag p (flag_bit a) (fresh (flat l ++ bs)); write_args mt args vs (pointers 0 l) buf) =
  Ok (fresh (flat (merge 1 W l) ++ bs ++ E)).
Proof.
  intros IH Hwa HW Hnull Hn Hb Hl Hw E Hz. rewrite zlen_app in Hz. pose proof (zlen_nonneg E).
  destruct (flag_pointer_of l a ltac:(lia)) as (p & -> & Hlk). rewrite res_bind_ok, <- (flat_bytes l bs).
  set (l2 := l ++ [Bytes bs]). set (i := Z.to_nat (flagn a - 1)) in *. set (f := fun w => Z.lor w (flag_bit a)).
  assert (Hw2 : words_ok l2) by (by apply Forall_app; split; [| constructor]).
  assert (Hz2 : zlen (flat l2) = zlen (flat l) + zlen bs) by (unfold l2; by rewrite flat_bytes, zlen_app).
  rewrite (set_flag_ok l2 i), res_bind_ok; [| done | lia | unfold l2; by rewrite pointers_bytes].
  fold f. rewrite <- (pointers_bytes l bs 0). fold l2. rewrite <- (pointers_change l2 f i 0).
  rewrite (IH _ eq_refl); [| by rewrite words_change; unfold l2; rewrite words_bytes
               | apply words_ok_change; [done | by apply flag_bit_u32] | rewrite zlen_flat_change; fold E; lia].
  rewrite (merge_change l2 (flag_bit a) W (fun k => word k args vs)).
  - unfold l2. by rewrite merge_bytes, flat_bytes, <- app_assoc.
  - intros j. rewrite HW. rewrite word_given by (done || lia). unfold i. by replace (1 + Z.of_nat (Z.to_nat (flagn a - 1))) with (flagn a) by lia.
Qed.

(** An argument that sets no bit. *)
Lemma writes_plain mt n a type k v args vs : arg_type a = Some type -> kind_of type = Ok k ->
  flagn a = 0 \/ is_null v = true -> flagn a = 0 \/ 1 <= flagn a <= Z.of_nat n ->
  (given a v = true -> k = Single B_true \/ kind_ok mt k v) -> args_ok mt n args vs -> writes mt n args vs -> writes mt n (a :: args) (v :: vs).
Proof.
  intros Ht Hk Hc Hn Hv Ha IH W HWd l Hl Hw Hz. assert (Hwa : word_arg a = false) by (unfold word_arg; by rewrite Ht).
  assert (HW : forall j, W j = word j args vs) by (intros j; rewrite HWd; by apply word_plain).
  assert (HX : enc W n args vs = enc (fun j => word j args vs) n args vs) by (apply (enc_ext mt); auto).
  rewrite (enc_arg mt n a v args vs W _ Hwa Ha ltac:(lia) HWd eq_refl), <- HX in *.
  pose proof platform_bounds. pose proof (zlen_nonneg (flat l)). pose proof (zlen_nonneg (enc W n args vs)).
  rewrite <- (writes_after mt n args vs l (field a v) W IH HW Hl Hw Hz HX). rewrite zlen_app in Hz.
  cbn [write_args]. rewrite Ht. cbn [andb]. rewrite Hk, res_bind_ok. unfold field in *. rewrite Ht, Hk in *.
  assert (E : negb (flagn a =? 0) && negb (is_null v) = false) by (destruct Hc as [-> | ->]; [done | by rewrite andb_false_r]).
  destruct (decide (k = Single B_true)) as [-> | Hkt]; [rewrite E; destruct (given a v); cbn; by rewrite app_nil_r |].
  destruct (Z.eqb_spec (flagn a) 0) as [Hz0 | Hz0].
  - assert (Hg : given a v = true) by (unfold given; by rewrite Hz0). rewrite Hg in *.
    rewrite (write_kind_ok mt k v) by first [by destruct (Hv eq_refl) | unfold fits; lia]. by rewrite res_bind_ok.
  - destruct Hc as [? | Hc]; [done |]. unfold given. rewrite Hc, (proj2 (Z.eqb_neq _ _) Hz0). cbn. by rewrite app_nil_r.
Qed.
(** An argument that sets its bit. *)
Lemma writes_flagged mt n a type k v args vs : arg_type a = Some type -> kind_of type = Ok k -> is_null v = false ->
  1 <= flagn a <= Z.of_nat n -> 0 <= flagb a < 32 -> k = Single B_true \/ kind_ok mt k v ->
  args_ok mt n args vs -> writes mt n args vs -> writes mt n (a :: args) (v :: vs).
Proof.
  intros Ht Hk Hnull Hn Hb Hv Ha IH W HWd l Hl Hw Hz. assert (Hwa : word_arg a = false) by (unfold word_arg; by rewrite Ht).
  rewrite (enc_arg mt n a v args vs W _ Hwa Ha ltac:(lia) HWd eq_refl) in *.
  pose proof platform_bounds. pose proof (zlen_nonneg (flat l)). pose proof (zlen_nonneg (enc (fun j => word j args vs) n args vs)).
  rewrite <- (writes_bit mt n a v args vs l (field a v) W IH Hwa HWd Hnull Hn Hb Hl Hw Hz). rewrite zlen_app in Hz.
  cbn [write_args]. rewrite Ht. cbn [andb]. rewrite Hk, res_bind_ok. unfold field, given in *. rewrite Ht, Hk, Hnull, orb_true_r in *.
  rewrite (proj2 (Z.eqb_neq (flagn a) 0)) by lia. cbn [negb andb].
  destruct (decide (k = Single B_true)) as [-> | Hkt]; [cbn [text_kind text]; by rewrite app_nil_r |].
  rewrite (write_kind_ok mt k v) by first [by destruct Hv | unfold fits; lia]. by rewrite res_bind_ok.
Qed.

Lemma write_args_ok mt n args vs : args_ok mt n args vs -> writes mt n args vs.
Proof.
  induction 1 as [n | n a args vs Ht Hf Ha IH | n a v args vs Ht Hf Hn Ha IH | n a type k v args vs Ht Hk Hn Hb Hv Ha IH].
  - intros W -> l Hl Hw Hz. cbn. by rewrite merge_0, app_nil_r.
  - by apply writes_word.
  - intros W HWd l Hl Hw Hz. assert (Hwa : word_arg a = false) by (unfold word_arg; by rewrite Ht).
    rewrite (enc_arg mt n a v args vs W _ Hwa Ha ltac:(lia) HWd eq_refl) in *. unfold field in *. rewrite Ht in *. cbn [app] in *.
    cbn [write_args]. rewrite Ht, Hf. cbn [andb]. rewrite (IH _ eq_refl) by done. do 2 f_equal. f_equal. f_equal. apply merge_ext. intros j _.
    rewrite HWd. symmetry. apply word_plain; auto.
  - destruct (decide (flagn a = 0 \/ is_null v = true)) as [Hc | Hc]; [by eapply writes_plain |].
    assert (is_null v = false) as Hnull by (destruct (is_null v); tauto).
    eapply writes_flagged; [done | done | done | tauto | done | | done | done]. apply Hv. unfold given. by rewrite Hnull, orb_true_r.
Qed.

Lemma writer_writes mt m vs : args_ok mt 0 (args m) vs -> zlen (enc_method m vs) <= BUFSIZ ->
  tl_ mt m vs = Ok (fresh (enc_method m vs)).
Proof.
  intros Ha Hz. unfold tl_, enc_method in *. rewrite zlen_app in Hz. rewrite buf_add_ui32_ok, res_bind_ok.
  pose proof (write_args_ok mt 0 (args m) vs Ha _ eq_refl [Bytes (le_bytes 4 (id_of_method m))] eq_refl) as Hw.
  change (flat [Bytes (le_bytes 4 (id_of_method m))]) with (le_bytes 4 (id_of_method m)) in Hw. apply Hw; [by repeat constructor | done].
Qed.

(** C16: a printed writer, given arguments of its types that fit into a first
    block, writes the number of the constructor, the words of flags with
    exactly the bits of the arguments that are given, and the fields of
    those, in the order of the schema. *)
Theorem generated_writer_writes mt m vs : args_ok mt 0 (args m) vs -> zlen (enc_method m vs) <= BUFSIZ ->
  tl_ mt m vs = Ok (fresh (enc_method m vs)).
Proof. apply writer_writes. Qed.
End Args.
