(* ===== verification/GeneratorRound.v ===== *)
(** * What is written is read back

    A call of a printed writer and the object the printed reader makes of
    its bytes; and what becomes of the words of flags when the text outgrows
    the first block. *)
From stdpp Require Import strings.
From S2P Require Import Prelude TlBuf Serial Errors Tg Packet TlParser TlParserFacts Objects Generator GeneratorFacts GeneratorEnds GeneratorWrites.

(** ** The bits *)
Section Bits.
Fixpoint pairs (l : list arg_t) (vs : list value) : list (arg_t * value) :=
  match l with
  | [] => []
  | a :: l => if word_arg a then pairs l vs else match vs with [] => [] | v :: vs => (a, v) :: pairs l vs end
  end.
(** Arguments that share a bit are given together or not at all. *)
Definition coherent (l : list arg_t) (vs : list value) : Prop :=
  forall x y, x ∈ pairs l vs -> y ∈ pairs l vs -> flagn x.1 <> 0 -> flagn x.1 = flagn y.1 -> flagb x.1 = flagb y.1 ->
  is_null x.2 = is_null y.2.
Definition sets (k b : Z) (x : arg_t * value) : bool :=
  (flagn x.1 =? k) && negb (flagn x.1 =? 0) && negb (is_null x.2) && (flagb x.1 =? b).

Lemma flag_testbit a b : 0 <= flagb a -> 0 <= b -> Z.testbit (flag_bit a) b = (flagb a =? b).
Proof.
  intros Ha Hb. unfold flag_bit. rewrite Z.shiftl_1_l. destruct (Z.eqb_spec (flagb a) b) as [-> | Hne].
  - by apply Z.pow2_bits_true.
  - by apply Z.pow2_bits_false.
Qed.
Lemma land_flag w a : 0 <= flagb a -> (Z.land w (flag_bit a) =? flag_bit a) = Z.testbit w (flagb a).
Proof.
  intros Ha. destruct (Z.testbit w (flagb a)) eqn:Et.
  - apply Z.eqb_eq, Z.bits_inj'. intros n Hn. rewrite Z.land_spec, flag_testbit by done.
    destruct (Z.eqb_spec (flagb a) n) as [<- | _]; [by rewrite Et | by rewrite andb_false_r].
  - apply Z.eqb_neq. intros E. assert (Hb : Z.testbit (Z.land w (flag_bit a)) (flagb a) = true).
    { rewrite E, flag_testbit, Z.eqb_refl by done. done. }
    rewrite Z.land_spec, Et in Hb. done.
Qed.

Context `{Platform}.

Lemma word_testbit mt n l vs k b : args_ok mt n l vs -> 0 <= b -> Z.testbit (word k l vs) b = existsb (sets k b) (pairs l vs).
Proof.
  intros Ha Hb. induction Ha as [n | n a l vs Ht Hf Ha IH | n a v l vs Ht Hf Hn Ha IH | n a type j v l vs Ht Hk Hn Hfb Hv Ha IH];
    cbn [word pairs].
  - by rewrite Z.testbit_0_l.
  - unfold word_arg. by rewrite Ht, Hf.
  - unfold word_arg. rewrite Ht, Hf, Hn. cbn [existsb]. unfold sets at 1. cbn [fst snd]. rewrite Hn. cbn.
    by rewrite andb_false_r.
  - unfold word_arg. rewrite Ht. cbn [existsb]. unfold sets at 1. cbn [fst snd].
    destruct (_ && _) eqn:E; [| by rewrite IH]. by rewrite Z.lor_spec, IH, flag_testbit, orb_comm by lia.
Qed.
Lemma word_u32 mt n l vs k : args_ok mt n l vs -> is_u32 (word k l vs).
Proof.
  intros Ha. induction Ha as [n | n a l vs Ht Hf Ha IH | n a v l vs Ht Hf Hn Ha IH | n a type j v l vs Ht Hk Hn Hfb Hv Ha IH];
    cbn [word].
  - unfold is_u32. lia.
  - unfold word_arg. by rewrite Ht, Hf.
  - unfold word_arg. rewrite Ht, Hf, Hn. cbn. by rewrite andb_false_r.
  - unfold word_arg. rewrite Ht. destruct (_ && _); [apply lor_u32; [done | by apply flag_bit_u32] | done].
Qed.

(** The bit of an argument tells whether it is given. *)
Lemma bit_given mt n l vs a v : args_ok mt n l vs -> coherent l vs -> (a, v) ∈ pairs l vs -> flagn a <> 0 -> 0 <= flagb a ->
  (Z.land (word (flagn a) l vs) (flag_bit a) =? flag_bit a) = negb (is_null v).
Proof.
  intros Ha Hc Hin Hn Hb. rewrite land_flag, (word_testbit mt n l vs) by done. destruct (is_null v) eqn:Hv; cbn [negb].
  - apply not_true_iff_false. intros He. apply existsb_exists in He as ([a' v'] & Hin' & Hs). apply list_elem_of_In in Hin'.
    unfold sets in Hs. cbn [fst snd] in Hs. apply andb_prop in Hs as [Hs Hbb]. apply andb_prop in Hs as [Hs Hv']. apply andb_prop in Hs as [Hk _].
    apply Z.eqb_eq in Hk, Hbb. specialize (Hc _ _ Hin Hin'). cbn in Hc. rewrite Hv in Hc. rewrite <- Hc in Hv' by congruence. done.
  - apply existsb_exists. exists (a, v). split; [by apply list_elem_of_In |]. unfold sets. cbn [fst snd].
    by rewrite !Z.eqb_refl, Hv, (proj2 (Z.eqb_neq _ _) Hn).
Qed.
End Bits.

(** ** What a value becomes *)
Section Holds.
Context `{Platform}.
Variable inner : list Z -> list Z -> option tl_t -> Prop.

(** [r] is the text that follows: an object keeps a copy of it. *)
Inductive holds_base (r : list Z) : base -> value -> slot -> Prop :=
| h_int z : holds_base r B_int (V_num z) (SNum z)
| h_true v : holds_base r B_true v (SNum 1)
| h_bool z : holds_base r B_bool (V_num z) (SNum (truth z))
| h_long z : holds_base r B_long (V_num z) (SNum z)
| h_double z : holds_base r B_double (V_num z) (SNum z)
| h_buf x : holds_base r B_string (V_buf x) (SBuf (fresh (contents x)))
| h_str s : holds_base r B_string (V_str s) (SBuf (fresh (before_nul s)))
| h_bytes x : holds_base r B_bytes (V_buf x) (SBuf (fresh (contents x)))
| h_int128 x : holds_base r B_int128 (V_buf x) (SBuf (fresh (slice (contents x) 0 16)))
| h_int256 x : holds_base r B_int256 (V_buf x) (SBuf (fresh (slice (contents x) 0 32)))
| h_message x t : inner (contents x ++ r) r t -> holds_base r B_message (V_buf x) (SPtr t)
| h_object x t : inner (contents x ++ r) r t -> holds_base r B_object (V_buf x) (SPtr t).
Inductive holds_array (r : list Z) : base -> value -> slot -> Prop :=
| ha_int l : holds_array r B_int (V_nums l) (SNums l)
| ha_bool l : holds_array r B_bool (V_nums l) (SNums (truth <$> l))
| ha_long l : holds_array r B_long (V_nums l) (SNums l)
| ha_double l : holds_array r B_double (V_nums l) (SNums l)
| ha_string l : holds_array r B_string (V_strs l) (SBufs ((fun s => fresh (before_nul s)) <$> l))
| ha_bytes l : holds_array r B_bytes (V_bufs l) (SBufs ((fun x => fresh (contents x)) <$> l))
| ha_message l ms : seq_at message_at (length l) (mjoin (contents <$> l) ++ r) r ms -> holds_array r B_message (V_bufs l) (SMsgs ms)
| ha_object l ts : seq_at inner (length l) (mjoin (contents <$> l) ++ r) r ts -> holds_array r B_object (V_bufs l) (SVec ts).
Definition holds (r : list Z) (k : kind) (v : value) (s : slot) : Prop :=
  match k with Single b => holds_base r b v s | Vec b => holds_array r b v s end.

(** The members a call becomes, [W] being the words and [n] those before. *)
Inductive becomes_members (W : Z -> Z) (r : list Z) : nat -> list arg_t -> list value -> list (string * slot) -> Prop :=
| m_none n : becomes_members W r n [] [] []
| m_word n a l vs ms : word_arg a = true -> becomes_members W r (S n) l vs ms -> becomes_members W r n (a :: l) vs ms
| m_untyped n a v l vs ms : arg_type a = None -> is_flags a = false -> becomes_members W r n l vs ms ->
    becomes_members W r n (a :: l) (v :: vs) ((member a, SNum 0) :: ms)
| m_given n a type k v l vs s ms : arg_type a = Some type -> names_kind type k -> given a v = true ->
    holds (enc W n l vs ++ r) k v s -> becomes_members W r n l vs ms ->
    becomes_members W r n (a :: l) (v :: vs) ((member a, s) :: ms)
| m_absent n a type k v l vs s ms : arg_type a = Some type -> names_kind type k -> given a v = false ->
    nothing k s -> becomes_members W r n l vs ms -> becomes_members W r n (a :: l) (v :: vs) ((member a, s) :: ms).

Lemma str_at_contents x r : buf_wf x -> short (b_size x) -> str_at (tl_string (contents x) ++ r) r (fresh (contents x)).
Proof. intros Hx [? ?]. exists (contents x). rewrite zlen_contents by done. split_and!; [by apply contents_ok | done..]. Qed.
Lemma str_at_string s r : bytes_ok s -> short (zlen (before_nul s)) -> str_at (tl_string (before_nul s) ++ r) r (fresh (before_nul s)).
Proof. intros Hs [? ?]. exists (before_nul s). split_and!; [by apply before_nul_ok | done..]. Qed.
Lemma raw_at_part x n r : buf_wf x -> 0 <= n <= b_size x -> raw_at n (slice (contents x) 0 n ++ r) r (fresh (slice (contents x) 0 n)).
Proof. intros Hx Hn. exists (slice (contents x) 0 n). split_and!; [by apply zlen_part | done | done]. Qed.

Lemma base_written mt b v r s : base_ok mt b v -> holds_base r b v s -> base_at inner b (text b v ++ r) r s.
Proof.
  intros Hv Hs. destruct Hs; cbn [base_ok text] in *; constructor; try contradiction; try (by split); try done;
    first [ by destruct Hv as (_ & ? & ?); apply str_at_contents | by destruct Hv as (_ & ? & _ & ?); apply str_at_string
          | by destruct Hv; apply str_at_contents | destruct Hv; apply raw_at_part; [done | lia] ].
Qed.

Lemma seq_written {A B} (R : list Z -> list Z -> B -> Prop) (Pr : A -> Prop) (g : A -> list Z) (h : A -> B) l r :
  (forall x r, Pr x -> R (g x ++ r) r (h x)) -> Forall Pr l -> seq_at R (length l) (mjoin (g <$> l) ++ r) r (h <$> l).
Proof.
  intros HR Hl. induction Hl as [|x l Hx _ IH]; [constructor |].
  change (mjoin (g <$> x :: l)) with (g x ++ mjoin (g <$> l)). rewrite <- app_assoc. cbn. econstructor; [by apply HR | exact IH].
Qed.
Lemma seq_same {A} (R : list Z -> list Z -> A -> Prop) (Pr : A -> Prop) (g : A -> list Z) l r :
  (forall x r, Pr x -> R (g x ++ r) r x) -> Forall Pr l -> seq_at R (length l) (mjoin (g <$> l) ++ r) r l.
Proof. intros HR Hl. pose proof (seq_written R Pr g (fun x => x) l r HR Hl) as Hs. by rewrite list_fmap_id in Hs. Qed.
Lemma elems_written b v r s : array_ok b v -> holds_array r b v s ->
  elems_at inner (Z.to_nat (count v)) (text_array b v ++ r) r b s.
Proof.
  intros Hv Hs. destruct Hs; cbn [array_ok text_array count] in *; unfold zlen; rewrite Nat2Z.id; constructor; try done.
  - by apply (seq_same u32_at is_u32).
  - by apply (seq_same u32_at is_u32).
  - by apply (seq_same u64_at is_u64).
  - by apply (seq_same u64_at is_u64).
  - eapply (seq_written str_at); [| exact Hv]. intros x r' (_ & ? & _ & ?). by apply str_at_string.
  - eapply (seq_written str_at); [| exact Hv]. intros x r' (? & ?). by apply str_at_contents.
Qed.
Lemma array_empty b v r s : array_ok b v -> count v = 0 -> holds_array r b v s -> text_array b v = [] /\ nothing (Vec b) s.
Proof.
  intros Hv Hc Hs. destruct Hs as [l | l | l | l | l | l | l ms Hm | l ts Hm]; cbn [count] in Hc; unfold zlen in Hc;
    (destruct l; [| cbn in Hc; lia]); (split; [done |]); cbn in *; try (inversion Hm; subst); constructor; by repeat constructor.
Qed.
Lemma kind_written mt k v r s : kind_ok mt k v -> holds r k v s -> kind_at inner k (text_kind k v ++ r) r s.
Proof.
  destruct k as [b | b]; cbn [kind_ok holds text_kind]; intros Hv Hs; [constructor; by eapply base_written |].
  destruct Hv as [Hv Hn]. rewrite <- !app_assoc. pose proof (zlen_nonneg (text_array b v)).
  assert (0 <= count v) by (destruct v; cbn; auto with bytes; lia).
  unfold id_vector in *. assert (Hlen : length_at (le_bytes 4 0x1cb5c415 ++ le_bytes 4 (count v) ++ text_array b v ++ r) (text_array b v ++ r) (count v)).
  { right. eexists. split; [by split; [unfold is_u32; lia | reflexivity] |]. split; [unfold is_u32; lia | reflexivity]. }
  destruct (decide (count v = 0)) as [Hz | Hz].
  - destruct (array_empty b v r s Hv Hz Hs) as [Ht Hs0]. rewrite Ht, Hz in *. by apply kind_empty.
  - eapply kind_elems; [exact Hlen | lia |]. by apply elems_written.
Qed.

(** The words that were read so far. *)
Definition read_so_far (W : Z -> Z) (n : nat) (flags : list Z) : Prop :=
  length flags = n /\ forall k, (k < n)%nat -> flags !! k = Some (W (Z.of_nat k + 1)).
Definition bits_of (W : Z -> Z) (l : list arg_t) (vs : list value) : Prop :=
  forall a v, (a, v) ∈ pairs l vs -> flagn a <> 0 -> 0 <= flagb a -> (Z.land (W (flagn a)) (flag_bit a) =? flag_bit a) = negb (is_null v).
Lemma read_word W n flags : read_so_far W n flags -> read_so_far W (S n) (flags ++ [W (Z.of_nat n + 1)]).
Proof.
  intros [Hl HW]. split; [rewrite length_app; cbn; lia |]. intros k Hk. destruct (decide (k = n)) as [-> | Hne].
  - rewrite lookup_app_r by lia. by rewrite Hl, Nat.sub_diag.
  - rewrite lookup_app_l by lia. apply HW. lia.
Qed.
Lemma read_flag W n flags a v l vs : read_so_far W n flags -> bits_of W (a :: l) (v :: vs) -> word_arg a = false ->
  flagn a = 0 \/ 1 <= flagn a <= Z.of_nat n -> 0 <= flagb a -> if given a v then shown flags a else hidden flags a.
Proof.
  intros [Hl HW] Hb Hwa Hn Hfb. unfold given. destruct (Z.eqb_spec (flagn a) 0) as [Hz | Hne]; [by left |]. cbn [negb orb].
  assert (Hf : flags !! Z.to_nat (flagn a - 1) = Some (W (flagn a))) by (rewrite HW by lia; f_equal; f_equal; lia).
  assert (Ht : Z.testbit (W (flagn a)) (flagb a) = negb (is_null v)).
  { rewrite testbit_land by done. apply Hb; [cbn [pairs]; rewrite Hwa; apply list_elem_of_here | done | done]. }
  destruct (is_null v); [| right]; exists (Z.to_nat (flagn a - 1)), (W (flagn a)); split_and?; try done; lia.
Qed.
Lemma bits_of_tail W a v l vs : word_arg a = false -> bits_of W (a :: l) (v :: vs) -> bits_of W l vs.
Proof. intros Hwa Hb a' v' Hin. apply Hb. cbn [pairs]. rewrite Hwa. by apply list_elem_of_further. Qed.

Lemma args_ok_word mt n a l vs : args_ok mt n (a :: l) vs -> word_arg a = true ->
  arg_type a = None /\ is_flags a = true /\ args_ok mt (S n) l vs.
Proof. unfold word_arg. intros Ha Hwa. inversion Ha as [| ? ? ? ? Ht | ? ? ? ? ? Ht Hf | ? ? ? ? ? ? ? Ht]; subst; rewrite Ht in Hwa; [done | congruence | done]. Qed.

(** The members are read where the writer put them. *)
Lemma args_written mt W n l vs r ms : args_ok mt n l vs -> becomes_members W r n l vs ms -> (forall k, is_u32 (W k)) ->
  forall flags, read_so_far W n flags -> bits_of W l vs -> args_at inner l flags (enc W n l vs ++ r) r ms.
Proof.
  intros Ha Hm Hu. revert Ha. induction Hm as [n | n a l vs ms Hwa Hm IH | n a v l vs ms Ht Hf Hm IH
    | n a type k v l vs s ms Ht Hk Hg Hs Hm IH | n a type k v l vs s ms Ht Hk Hg Hz Hm IH]; intros Ha flags Hr Hb; cbn [enc]; [constructor | | | |].
  - destruct (args_ok_word mt n a l vs Ha Hwa) as (Ht & Hf & Ha').
    rewrite Hwa, <- app_assoc. eapply args_flags; [done | done | by split |]. apply IH; [done | by apply read_word |].
    intros a' v' Hin. apply Hb. cbn [pairs]. by rewrite Hwa.
  - assert (Hwa : word_arg a = false) by (unfold word_arg; by rewrite Ht). rewrite Hwa.
    assert (Ha' : args_ok mt n l vs) by (inversion Ha; congruence).
    unfold field. rewrite Ht. apply args_untyped; [done | done |]. apply IH; [done | done | by eapply bits_of_tail].
  - assert (Hwa : word_arg a = false) by (unfold word_arg; by rewrite Ht). rewrite Hwa, <- app_assoc.
    inversion Ha as [| | | n' a' type' k' v' l' vs' Ht' Hk' Hn Hfb Hv Ha']; subst; [congruence | congruence |].
    pose proof (kind_named _ _ Hk) as Hk''. assert (k' = k) as -> by congruence. unfold field. rewrite Ht, Hk'', Hg.
    pose proof (read_flag W n flags a v l vs Hr Hb Hwa Hn ltac:(lia)) as Hsh. rewrite Hg in Hsh.
    eapply args_here; [exact Ht | exact Hk | lia | exact Hsh | | apply IH; [done | done | by eapply bits_of_tail]].
    destruct (Hv Hg) as [-> | Hok]; [| by eapply kind_written]. cbn [text_kind text holds app] in *. inversion Hs; subst. constructor. constructor.
  - assert (Hwa : word_arg a = false) by (unfold word_arg; by rewrite Ht). rewrite Hwa.
    inversion Ha as [| | | n' a' type' k' v' l' vs' Ht' Hk' Hn Hfb Hv Ha']; subst; [congruence | congruence |].
    pose proof (read_flag W n flags a v l vs Hr Hb Hwa Hn ltac:(lia)) as Hsh. rewrite Hg in Hsh.
    unfold field. rewrite Ht, (kind_named _ _ Hk), Hg. cbn [app].
    eapply args_absent; [exact Ht | exact Hk | exact Hsh | exact Hz | apply IH; [done | done | by eapply bits_of_tail]].
Qed.
End Holds.

(** ** The call and the object *)
Section Round.
Context `{Platform}.
Variable schema : list method_t.

Definition word_of (m : method_t) (vs : list value) (k : Z) : Z := word k (args m) vs.
(** A call of the writer for [m] that is read back: the declaration is the
    one its number finds, its arguments are well typed and agree on the
    bits they share. *)
Definition callable (mt : bool) (m : method_t) (vs : list value) : Prop :=
  find_method schema (id_of_method m) = Some m /\ is_vector m = false /\ id_of_method m <> 0 /\
  args_ok mt 0 (args m) vs /\ coherent (args m) vs.

Lemma text_ok mt b v : base_ok mt b v -> bytes_ok (text b v).
Proof.
  destruct b, v as [| z | x | s | l | l | l]; cbn [base_ok text]; try contradiction; intros Hv; try apply le_bytes_ok.
  - apply tl_string_ok, contents_ok. tauto.
  - apply tl_string_ok, before_nul_ok. tauto.
  - apply tl_string_ok, contents_ok. tauto.
  - apply slice_forall, contents_ok. tauto.
  - apply slice_forall, contents_ok. tauto.
  - by apply contents_ok.
  - by apply contents_ok.
Qed.
Lemma mjoin_ok {A} (Pr : A -> Prop) (g : A -> list Z) l : (forall x, Pr x -> bytes_ok (g x)) -> Forall Pr l -> bytes_ok (mjoin (g <$> l)).
Proof. intros Hg. induction 1 as [|x l Hx _ IH]; [constructor |]. change (bytes_ok (g x ++ mjoin (g <$> l))). apply Forall_app. auto. Qed.
Lemma array_text_ok b v : array_ok b v -> bytes_ok (text_array b v).
Proof.
  destruct b, v as [| z | x | s | l | l | l]; cbn [array_ok text_array]; try contradiction; intros Hv; (eapply mjoin_ok; [| exact Hv]); intros y Hy;
    cbn [text]; try apply le_bytes_ok; try (by apply contents_ok).
  - apply (text_ok false B_string (V_str y)). exact Hy.
  - apply (text_ok false B_bytes (V_buf y)). exact Hy.
Qed.
Lemma enc_ok mt W n l vs : args_ok mt n l vs -> bytes_ok (enc W n l vs).
Proof.
  intros Ha. induction Ha as [n | n a l vs Ht Hf Ha IH | n a v l vs Ht Hf Hn Ha IH | n a type k v l vs Ht Hk Hn Hfb Hv Ha IH];
    cbn [enc]; [constructor | | |]; unfold word_arg, field; rewrite Ht, ?Hf, ?Hk; apply Forall_app; (split; [| exact IH]); try apply le_bytes_ok; [constructor |].
  destruct (given a v); [| constructor]. destruct (Hv eq_refl) as [-> | Hok]; [constructor |].
  destruct k as [b | b]; cbn [kind_ok text_kind] in *; [by eapply text_ok |].
  destruct Hok as [Hok _]. apply Forall_app_2; [apply le_bytes_ok | apply Forall_app_2; [apply le_bytes_ok | by apply array_text_ok]].
Qed.
Lemma enc_method_ok mt m vs : args_ok mt 0 (args m) vs -> bytes_ok (enc_method m vs).
Proof. intros Ha. apply Forall_app. split; [apply le_bytes_ok | by eapply enc_ok]. Qed.

Lemma call_members mt inner m vs r ms : callable mt m vs -> becomes_members inner (word_of m vs) r 0 (args m) vs ms ->
  args_at inner (args m) [] (enc (word_of m vs) 0 (args m) vs ++ r) r ms.
Proof.
  intros (_ & _ & _ & Ha & Hc) Hm.
  eapply (args_written _ mt (word_of m vs) 0); [done | done | intros k; by eapply word_u32 | split; [done | lia] |].
  intros a v Hin Hn Hb. by eapply bit_given.
Qed.
(** The text of a call is an object of the grammar: calls nest. *)
Lemma call_is_object mt d m vs r ms o : callable mt m vs ->
  becomes_members (object_at schema d) (word_of m vs) r 0 (args m) vs ms -> sees ms (id_of_method m) o ->
  object_at schema (S d) (enc_method m vs ++ r) r (Some (Tl (fresh (enc_method m vs ++ r)) o)).
Proof.
  intros Hcall Hm Hs. pose proof Hcall as (Hf & Hv & Hid & _). unfold enc_method. rewrite <- app_assoc. cbn [object_at].
  eapply layer_object; [apply u32_range | done | done | done | | exact Hs]. by eapply call_members.
Qed.

(** C13: what a printed writer writes, the printed reader reads.  For a
    declaration of the schema that its own number finds (not the constructor
    of vectors), and arguments of its types that agree where they share a bit
    (nested objects are texts of the grammar themselves), as long as the whole
    text fits into a first block (BUFSIZ bytes: beyond it the writers write
    flags to released memory), the call succeeds, and the reader finds an
    object with the given arguments as its members, the omitted ones zero, and
    nothing left over. *)
Theorem generated_roundtrip mt d m vs ms o : callable mt m vs -> zlen (enc_method m vs) <= BUFSIZ -> BUFSIZ < 2147483647 ->
  becomes_members (object_at schema d) (word_of m vs) [] 0 (args m) vs ms -> sees ms (id_of_method m) o ->
  exists b b', tl_ mt m vs = Ok b /\ (forall fuel, enough b fuel -> tl_deserialize (tl_table schema fuel) b =
    Ok (Some (Tl (fresh (contents b)) o), b')) /\ contents b' = [].
Proof.
  intros Hcall Hz HB Hm Hs. pose proof Hcall as (_ & _ & _ & Ha & _). pose proof (call_is_object mt d m vs [] ms o Hcall Hm Hs) as Hobj.
  rewrite app_nil_r in Hobj. pose proof platform_bounds as HBB.
  assert (Hw : buf_wf (fresh (enc_method m vs))) by (apply fresh_wf; [by eapply enc_method_ok | unfold fits; lia]).
  assert (Hmem : zlen (b_mem (fresh (enc_method m vs))) < 2147483648).
  { unfold fresh, mk_buf. cbn [b_mem]. rewrite zlen_app, zlen_replicate, Z.max_l by lia. pose proof (zlen_nonneg (enc_method m vs)). unfold zlen in *. lia. }
  set (fuel := S (Z.to_nat (zlen (b_mem (fresh (enc_method m vs)))))).
  assert (He : enough (fresh (enc_method m vs)) fuel) by (unfold enough, fuel, fresh, mk_buf; cbn [b_off]; lia).
  destruct (object_read schema _ _ _ _ _ fuel Hobj Hw (contents_fresh _) Hmem He) as (b' & Hb' & _ & Hc').
  exists (fresh (enc_method m vs)), b'. rewrite contents_fresh. split; [by apply writer_writes |]. split; [| exact Hc'].
  intros fuel' He'. rewrite <- Hb'. apply call_same; [| done | done]. pose proof Hw as (_ & ? & ? & _). by split_and!.
Qed.
End Round.

(** ** When the block moves *)
Section Moves.
Context `{Platform}.
Variable mt : bool.

(** Arguments that set no bit, and their text. *)
Inductive quiet : list arg_t -> list value -> list Z -> Prop :=
| quiet_none : quiet [] [] []
| quiet_arg a type k v l vs t : arg_type a = Some type -> kind_of type = Ok k -> flagn a = 0 \/ is_null v = true ->
    (given a v = true -> k = Single B_true \/ kind_ok mt k v) -> quiet l vs t -> quiet (a :: l) (v :: vs) (field a v ++ t).

Lemma write_quiet l1 vs1 t l2 vs2 flags : quiet l1 vs1 t -> forall bs, fits (zlen bs + zlen t) ->
  write_args mt (l1 ++ l2) (vs1 ++ vs2) flags (fresh bs) = write_args mt l2 vs2 flags (fresh (bs ++ t)).
Proof.
  induction 1 as [| a type k v l vs t Ht Hk Hc Hv Hq IH]; intros bs Hf; cbn [app write_args]; [by rewrite app_nil_r |].
  rewrite zlen_app in Hf. pose proof (zlen_nonneg t). rewrite app_assoc, <- IH by (by rewrite zlen_app, <- Z.add_assoc).
  rewrite Ht. cbn [andb]. rewrite Hk, res_bind_ok. unfold field in *. rewrite Ht, Hk in *.
  assert (E : negb (flagn a =? 0) && negb (is_null v) = false) by (destruct Hc as [-> | ->]; [done | by rewrite andb_false_r]).
  destruct (decide (k = Single B_true)) as [-> | Hkt]; [rewrite E; destruct (given a v); cbn; by rewrite app_nil_r |].
  destruct (Z.eqb_spec (flagn a) 0) as [Hz | Hz].
  - assert (Hg : given a v = true) by (unfold given; by rewrite Hz). rewrite Hg in *.
    rewrite (write_kind_ok mt k v) by first [by destruct (Hv eq_refl) | unfold fits in *; lia]. by rewrite res_bind_ok.
  - destruct Hc as [? | Hc]; [done |]. unfold given. rewrite Hc, (proj2 (Z.eqb_neq _ _) Hz). cbn. by rewrite app_nil_r.
Qed.

(** The pointer was taken into a block of the first size. *)
Lemma set_flag_dangles pos bit bs : BUFSIZ < zlen bs -> set_flag (pos, BUFSIZ) bit (fresh bs) = Err UseAfterFree.
Proof.
  intros Hb. unfold set_flag, fresh, mk_buf. cbn [b_asize]. by rewrite (proj2 (Z.eqb_neq _ _)) by lia.
Qed.

End Moves.

(** ** The run of the generator *)
Section Run.
Context `{Platform}.

Lemma print_all (mt : bool) ds : forall g, isMtproto_ g = mt ->
  foldl (fun u d => snd (cb u (Some d) None)) g ds =
  Generator_ mt (printed g ++ ((fun d => (mt, method_change_dots_to_underline d)) <$> ds)).
Proof.
  induction ds as [|d ds IH]; intros g <-; cbn [foldl fmap list_fmap]; [by rewrite app_nil_r; destruct g |].
  rewrite IH by done. cbn [cb snd isMtproto_ printed]. by rewrite <- app_assoc.
Qed.

(** C18: the generator covers the two schema files: for files made of the
    lines [line_ok] describes (as every line of mtproto_api.tl and
    telegram_api.tl is: blank lines, section marks, types without a number,
    the vector, declarations), it prints a structure, a reader and a writer
    for every declaration with a number, those of the first file and then of
    the second, in their order, with the names free of dots, and knows which
    schema each is from. *)
Theorem generate_prints_all mtproto telegram : Forall line_ok mtproto -> Forall line_ok telegram ->
  generate (Some (print_schema mtproto)) (Some (print_schema telegram)) =
  Ok (((fun d => (true, method_change_dots_to_underline d)) <$> declarations mtproto) ++
      ((fun d => (false, method_change_dots_to_underline d)) <$> declarations telegram)).
Proof.
  intros Hm Ht. unfold generate. rewrite (tl_parse_reads_schema mtproto cb), res_bind_ok by (done || by intros [] [] []).
  rewrite (print_all true), (tl_parse_reads_schema telegram cb), res_bind_ok by (done || by intros [] [] []).
  by rewrite (print_all false).
Qed.
End Run.
