(* ===== verification/GeneratedAnswers.v ===== *)
(** * Answers through the generated readers

    The session reads what it decrypts with the table the generator wrote:
    from the arguments the server called a printed writer with to the
    callback of the query. *)
From stdpp Require Import strings.
From S2P Require Import Prelude TlBuf Serial Tg Packet Header LinkedList Errors Objects Queue Delivery Receive TlParser Generator GeneratorFacts GeneratorEnds GeneratorWrites GeneratorRound.

Section Answers.
Context `{Env} `{OpenSSL} `{Zlib} `{Network}.
Variable schema : list method_t.

(** [rpc_result#f35c6d01 req_msg_id:long result:Object = RpcResult] *)
Definition req_msg_id_arg : arg_t := Arg (chars "req_msg_id") (Some (chars "long")) 0 0.
Definition result_arg : arg_t := Arg (chars "result") (Some (chars "Object")) 0 0.
Definition rpc_result_args : list arg_t := [req_msg_id_arg; result_arg].
Definition declares_results (rpc : method_t) : Prop :=
  find_method schema 0xf35c6d01 = Some rpc /\ id_of_method rpc = 0xf35c6d01 /\ is_vector rpc = false /\ args rpc = rpc_result_args.

(** The body the server sends for the query [id]. *)
Definition result_for (rpc : method_t) (id : Z) (m : method_t) (vs : list value) : list Z :=
  enc_method rpc [V_num id; V_buf (fresh (enc_method m vs))].

Lemma sees_rpc_result id t : sees [(member req_msg_id_arg, SNum id); (member result_arg, SPtr t)] 0xf35c6d01 (Rpc_result id t).
Proof. constructor; reflexivity. Qed.
Lemma names_long : names_kind (chars "long") (Single B_long).
Proof. by apply kind_names. Qed.
Lemma names_object : names_kind (chars "Object") (Single B_object).
Proof. by apply kind_names. Qed.
Lemma result_args_ok rpc id bs : declares_results rpc -> is_u64 id -> bytes_ok bs -> fits (zlen bs) ->
  args_ok true 0 (args rpc) [V_num id; V_buf (fresh bs)].
Proof.
  intros (_ & _ & _ & ->) Hu Hb Hfit. unfold rpc_result_args.
  eapply ok_typed; [reflexivity | reflexivity | by left | cbn; lia | by right |].
  eapply ok_typed; [reflexivity | reflexivity | by left | cbn; lia | | apply ok_none].
  intros _. right. by apply fresh_wf.
Qed.
Lemma result_contains rpc id m vs : declares_results rpc -> zlen (enc_method m vs) <= zlen (result_for rpc id m vs).
Proof.
  intros (_ & _ & _ & Ha). unfold result_for. remember (enc_method m vs) as bs eqn:Ebs. unfold enc_method. rewrite Ha.
  replace (enc _ 0 rpc_result_args _) with (le_bytes 8 id ++ contents (fresh bs) ++ []) by reflexivity.
  rewrite contents_fresh, app_nil_r, !zlen_app.
  pose proof (zlen_nonneg (le_bytes 8 id)). pose proof (zlen_nonneg (le_bytes 4 (id_of_method rpc))). lia.
Qed.
Lemma result_is_object d rpc id m vs ms o : declares_results rpc -> is_u64 id -> callable schema true m vs -> fits (zlen (enc_method m vs)) ->
  becomes_members (object_at schema d) (word_of m vs) [] 0 (args m) vs ms -> sees ms (id_of_method m) o ->
  object_at schema (S (S d)) (result_for rpc id m vs) []
    (Some (Tl (fresh (result_for rpc id m vs))
       (Rpc_result id (Some (Tl (fresh (enc_method m vs)) o))))).
Proof.
  intros Hr Hu Hm Hfit Hms Hs. pose proof Hr as (Hf & Hid & Hv & Ha).
  pose proof Hm as (_ & _ & _ & Hma & _).
  pose proof (call_is_object schema true d m vs [] ms o Hm Hms Hs) as Hobj. rewrite app_nil_r in Hobj.
  set (t := Tl _ o) in *.
  set (vs' := [V_num id; V_buf (fresh (enc_method m vs))]).
  assert (Hargs : args_ok true 0 (args rpc) vs') by (apply result_args_ok; [done | done | by eapply enc_method_ok | done]).
  assert (Hcall : callable schema true rpc vs').
  { split_and!; [by rewrite Hid | done | by rewrite Hid | done |]. rewrite Ha. intros x y Hx _ Hn. exfalso. apply Hn.
    cbn in Hx. apply elem_of_cons in Hx as [-> | Hx]; [done |]. apply elem_of_cons in Hx as [-> | Hx]; [done | by apply not_elem_of_nil in Hx]. }
  pose proof (call_is_object schema true (S d) rpc vs' [] [(member req_msg_id_arg, SNum id); (member result_arg, SPtr (Some t))] (Rpc_result id (Some t)) Hcall) as Hres.
  rewrite app_nil_r, Hid in Hres. apply Hres; [| apply sees_rpc_result]. rewrite Ha. unfold rpc_result_args, vs'.
  eapply (m_given _ _ _ 0 _ _ (Single B_long)); [reflexivity | apply names_long | reflexivity | constructor |].
  eapply (m_given _ _ _ 0 _ _ (Single B_object)); [reflexivity | apply names_object | reflexivity | | constructor].
  apply h_object. cbn [enc app]. rewrite contents_fresh, app_nil_r. exact Hobj.
Qed.

Lemma body_wf p : packet_ok p -> buf_wf (fresh (pk_body p)).
Proof.
  intros [_ _ _ Hb _ Hf]. unfold plain, enc_packet in *. rewrite !Forall_app in Hb. rewrite !zlen_app in Hf.
  apply fresh_wf; [tauto |]. unfold fits in *. rewrite !zlen_le_bytes in Hf. pose proof (zlen_nonneg (pk_salt p)). pose proof (zlen_nonneg (pk_ssid p)).
  pose proof (zlen_nonneg (pk_tail p)). pose proof (zlen_nonneg (pk_body p)). lia.
Qed.

End Answers.
