(* ===== verification/GeneratorFree.v ===== *)
(** * What the generated functions release

    An object owns the buffers and the objects its members point to. *)
From stdpp Require Import strings.
From S2P Require Import Prelude TlBuf Serial Errors Tg Packet TlParser Objects Generator GeneratorFacts.

Section Free.
Context `{Platform}.

Definition owned (s : slot) : list freed :=
  match s with
  | SBuf b => [F_buf b]
  | SPtr t => [F_obj t]
  | SVec l => F_obj <$> l
  | SBufs l => F_buf <$> l
  | SMsgs l => (fun m => F_buf (body m)) <$> l
  | _ => []
  end.
Definition owned_all (ms : list (string * slot)) : list freed := mjoin ((fun m => owned m.2) <$> ms).
(** The bodies of a vector of messages are left behind. *)
Definition released (s : slot) : list freed := match s with SMsgs _ => [] | s => owned s end.
Definition released_all (ms : list (string * slot)) : list freed := mjoin ((fun m => released m.2) <$> ms).

Variable inner : list Z -> list Z -> option tl_t -> Prop.

Lemma free_nothing k s : k <> Single B_message -> nothing k s -> free_kind k s = Ok (released s).
Proof.
  intros Hk Hn. revert Hk. destruct Hn as [b Hb | b Hb | b Hb | b Hb | b Hb | | ]; intros Hk; try reflexivity;
    repeat (apply elem_of_cons in Hb as [-> | Hb]; [first [reflexivity | congruence] |]); by apply not_elem_of_nil in Hb.
Qed.
Lemma free_read k l r s : k <> Single B_message -> kind_at inner k l r s -> free_kind k s = Ok (released s).
Proof.
  intros Hk Hs. inversion Hs as [b l' r' s' Hb | b l' r' s' Hl Hn | b l' t r' n s' Hl Hn He]; subst.
  - inversion Hb; subst; done.
  - by apply free_nothing.
  - inversion He; subst; done.
Qed.

Definition no_message (a : arg_t) : Prop := forall type, arg_type a = Some type -> type <> chars "%Message".
Lemma not_message a type k : arg_type a = Some type -> names_kind type k -> no_message a -> k <> Single B_message.
Proof.
  intros Ht Hk Ha ->. inversion Hk as [? ? _ Hb' |]; subst. inversion Hb' as [n b Hin |]; subst. apply (Ha _ Ht). f_equal.
  unfold scalar_types in Hin. repeat (apply elem_of_cons in Hin as [E | Hin]; [congruence |]). by apply not_elem_of_nil in Hin.
Qed.

(** C17: releasing an object releases what it owns.  For an object the reader
    reads in the layout of the grammar, the printed function frees every buffer
    of a member and passes every object of a member to [tl_free], each once and
    in order, those of an omitted member as zeros, and then its own copy of the
    text (and first the copy of its elements, for the constructor of vectors).
    The bodies of a vector of messages are left behind.  A single message as a
    member is excluded: no schema has one. *)
Theorem released_once m flags l r ms _buf data :
  args_at inner (args m) flags l r ms -> Forall no_message (args m) ->
  tl_free_ m _buf data ms = Ok ((if is_vector m then [F_buf data] else []) ++ released_all ms ++ [F_buf _buf]).
Proof.
  intros Ha Hp. unfold tl_free_. enough (free_args (args m) ms = Ok (released_all ms)) as -> by done.
  induction Ha as [ | a args flags l t r w ms Ht Hf Hu _ IH | a args flags l r ms Ht Hf _ IH
    | a type k args flags l t r s ms Ht Hk Hb Hh Hx _ IH | a type k args flags l r s ms Ht Hk Hh Hz _ IH ];
    cbn [free_args]; [done | | | |]; apply Forall_cons_1 in Hp as [Hpa Hp]; rewrite ?Ht, ?Hf.
  - by apply IH.
  - cbn [tail]. by rewrite IH.
  - rewrite (kind_named _ _ Hk), res_bind_ok, (free_read k l t s), res_bind_ok, IH, res_bind_ok; [done | done | | done].
    by eapply not_message.
  - rewrite (kind_named _ _ Hk), res_bind_ok, (free_nothing k), res_bind_ok, IH; [done | done | | done]. by eapply not_message.
Qed.

(** A length that was refused for being too large is walked all the same. *)
Lemma refused_length_walked a type k n l ms : arg_type a = Some type -> kind_of type = Ok k ->
  k = Vec B_object \/ k = Vec B_string \/ k = Vec B_bytes -> 10000 < n -> free_args (a :: l) ((member a, SLen n) :: ms) = Err NullDeref.
Proof.
  intros Ht Hk Hkk Hn. cbn [free_args]. rewrite Ht, Hk, res_bind_ok. unfold free_kind, free_elems.
  destruct Hkk as [-> | [-> | ->]]; replace (0 <? n) with true by lia; done.
Qed.
End Free.
