(* ===== verification/Fact.v ===== *)
(** * The factorisation of pq: mtx/src/fact.cpp

    The templates at the types [factor] instantiates them with: [T] is
    [long long], [T2] is [int] in the tests and [long long] in [factorize];
    the two tables of primes are static variables.  Signed arithmetic wraps.
    [rand] of the C library is a stream of numbers.  A [while] whose number
    of turns is known has constant fuel; the searches that depend on the
    number ([lucas_selfridge], [pollard_p_1], [ferma], [factorize]) take fuel.
    crypto/fact.cpp is the same text below a longer comment. *)
From Stdlib Require Import SpecFloat.
From S2P Require Import Prelude.

(** ** Loops *)

(** [step] ends a turn with the next state or leaves the loop. *)
Fixpoint loop {S R} (fuel : nat) (body : S -> res (S + R)) (s : S) : res R :=
  match fuel with
  | O => Err NoFuel
  | Datatypes.S fuel =>
    r ← body s;
    match r with inl s' => loop fuel body s' | inr r => Ok r end
  end.

(** [C]'s [%] and [/]. *)
Definition crem (a b : Z) : res Z := if b =? 0 then Err DivByZero else Ok (Z.rem a b).
Definition cquot (a b : Z) : res Z := if b =? 0 then Err DivByZero else Ok (Z.quot a b).

(** Enough turns for 64 bits. *)
Definition bits_fuel : nat := 200.

(** The numbers [rand()] returns. *)
Class Rand := {
  rand : nat -> Z;
  rand_range : forall i, 0 <= rand i < 2147483648
}.

(** The static variables of [get_primes<int, int>] and of
    [pollard_monte_carlo<long long>], and the number of calls of [rand]. *)
Record statics := Statics {
  primes : list Z;
  counted_b : Z;
  mc_primes : list Z;
  m_max : Z;
  rands : nat
}.
Definition start : statics := Statics [] 0 [] 0 0.

Module Fact.

(** ** Helpers *)
Definition even (n : Z) : bool := Z.land n 1 =? 0.
Definition bisect (n : Z) : Z := Z.shiftr n 1.
Definition redouble (n : Z) : Z := i64 (Z.shiftl n 1).
Definition abs (n : Z) : Z := i64 (Z.abs n).

(** [double]: 53 bits, round to nearest even. *)
Definition of_Z (n : Z) : spec_float := binary_normalize 53 1024 n 0 false.
Definition sqrt (n : Z) : spec_float := SFsqrt 53 1024 (of_Z n).
Definition floor (x : spec_float) : Z :=
  match x with
  | S754_finite s m e =>
    let m := if s then Z.neg m else Z.pos m in
    if 0 <=? e then m * 2 ^ e else m / 2 ^ (- e)
  | _ => 0
  end.
Definition ceil (x : spec_float) : Z :=
  match x with
  | S754_finite s m e => - floor (S754_finite (negb s) m e)
  | _ => 0
  end.

Definition perfect_square (n : Z) : bool :=
  let sq := ceil (sqrt n) in i64 (sq * sq) =? n.
Definition sq_root (n : Z) : Z := floor (sqrt n).

Definition bits_in_number (n : Z) : res Z :=
  if n =? 0 then Ok 1
  else loop bits_fuel (fun '(n, result) =>
    if n =? 0 then Ok (inr result) else Ok (inl (bisect n, u32 (result + 1)))) (n, 0).

Definition test_bit (n k : Z) : bool := negb (Z.land n (i64 (Z.shiftl 1 k)) =? 0).

(** [mulmod<unsigned long long>] *)
Definition reduce (x n : Z) : res Z :=
  loop bits_fuel (fun x => if n <=? x then Ok (inl (u64 (x - n))) else Ok (inr x)) x.

Definition mulmod_step (n : Z) : Z * Z * Z -> res (Z * Z * Z + Z) := fun '(a, b, r) =>
  if b =? 0 then Ok (inr r)
  else if negb (even b) then
    r ← reduce (u64 (r + a)) n;
    Ok (inl (a, u64 (b - 1), r))
  else
    a ← reduce (u64 (Z.shiftl a 1)) n;
    Ok (inl (a, bisect b, r)).

Definition umulmod (a b n : Z) : res Z :=
  a ← (if n <=? a then crem a n else Ok a);
  b ← (if n <=? b then crem b n else Ok b);
  loop bits_fuel (mulmod_step n) (a, b, 0).

(** [mulmod<long long>] *)
Definition mulmod (a b n : Z) : res Z :=
  let neg := xorb (a <? 0) (b <? 0) in
  let a := if a <? 0 then i64 (- a) else a in
  let b := if b <? 0 then i64 (- b) else b in
  aa ← umulmod (u64 a) (u64 b) (u64 n);
  Ok (i64 (i64 aa * (if neg then -1 else 1))).

Definition powmod_step (n : Z) : Z * Z * Z -> res (Z * Z * Z + Z) := fun '(a, k, r) =>
  if k =? 0 then Ok (inr r)
  else if negb (even k) then
    r ← mulmod r a n;
    Ok (inl (a, i64 (k - 1), r))
  else
    a ← mulmod a a n;
    Ok (inl (a, bisect k, r)).
Definition powmod (a k n : Z) : res Z := loop bits_fuel (powmod_step n) (a, k, 1).

(** The exponent of two and the odd rest. *)
Definition transform_num (n : Z) : res (Z * Z) :=
  loop bits_fuel (fun '(n, p) =>
    if even n then Ok (inl (bisect n, p + 1)) else Ok (inr (p, n))) (n, 0).

Definition gcd (a b : Z) : res Z :=
  loop bits_fuel (fun '(a, b) =>
    if a =? 0 then Ok (inr b) else r ← crem b a; Ok (inl (r, a))) (a, b).

Fixpoint jacobi_ (fuel : nat) (a b : Z) : res Z :=
  match fuel with
  | O => Err NoFuel
  | S fuel =>
    if a =? 0 then Ok 0
    else if a =? 1 then Ok 1
    else if a <? 0 then
      j ← jacobi_ fuel (i64 (- a)) b;
      Ok (if Z.land b 2 =? 0 then j else - j)
    else
      '(e, a1) ← transform_num a;
      let s := if even e || (Z.land b 7 =? 1) || (Z.land b 7 =? 7) then 1 else -1 in
      let s := if (Z.land b 3 =? 3) && (Z.land a1 3 =? 3) then - s else s in
      if a1 =? 1 then Ok s
      else
        r ← crem b a1;
        j ← jacobi_ fuel r a1;
        Ok (s * j)
  end.
Definition jacobi : Z -> Z -> res Z := jacobi_ bits_fuel.

(** ** Tables of primes *)

(** The inner loop of both tables: no prime up to the root divides. *)
Fixpoint cur_is_prime (l : list Z) (cur : Z) : bool :=
  match l with
  | [] => true
  | div :: l =>
    if cur <? div * div then true
    else if Z.rem cur div =? 0 then false
    else cur_is_prime l cur
  end.

(** [for (T cur = ...; cur <= b; ++++cur)] *)
Definition sieve (b : Z) : Z * list Z -> res (list Z) :=
  loop (Z.to_nat (b + 2)) (fun '(cur, l) =>
    if b <? cur then Ok (inr l)
    else Ok (inl (cur + 2, if cur_is_prime l cur then l ++ [cur] else l))).

Definition upper_bound (l : list Z) (b : Z) : Z := zlen (filter (fun x => x <= b) l).

Definition get_primes (b : Z) (st : statics) : res (Z * statics) :=
  if b <=? counted_b st then Ok (upper_bound (primes st) b, st)
  else
    let '(l, c) := if counted_b st =? 0 then (primes st ++ [2], 2) else (primes st, counted_b st) in
    let first := if c =? 2 then 3 else List.last l 0 + 2 in
    l ← sieve b (first, l);
    Ok (zlen l, Statics l b (mc_primes st) (m_max st) (rands st)).

(** The loop of [prime_div_trivial]: [None] when no prime up to the root
    divides. *)
Fixpoint first_divisor (l : list Z) (n : Z) : option Z :=
  match l with
  | [] => None
  | div :: l =>
    if n <? div * div then None
    else if Z.rem n div =? 0 then Some div
    else first_divisor l n
  end.

Definition prime_div_trivial (n m : Z) (st : statics) : res (Z * statics) :=
  if (n =? 2) || (n =? 3) then Ok (1, st)
  else if n <? 2 then Ok (0, st)
  else if even n then Ok (2, st)
  else
    '(pi, st) ← get_primes m st;
    Ok (match first_divisor (primes st) n with
        | Some div => div
        | None => if n <? m * m then 1 else 0
        end, st).

(** ** The tests *)

(** The base [b] must have no divisor in common with [n]. *)
Definition coprime_base (n b : Z) : res (option Z) :=
  loop bits_fuel (fun b =>
    g ← gcd n b;
    Ok (if g =? 1 then inr (Some b) else if g <? n then inr None else inl (b + 1))) b.

Definition miller_rabin (n b : Z) : res bool :=
  if n =? 2 then Ok true
  else if (n <? 2) || even n then Ok false
  else
    let b := if b <? 2 then 2 else b in
    r ← coprime_base n b;
    match r with
    | None => Ok false
    | Some b =>
      let n_1 := n - 1 in
      '(p, q) ← transform_num n_1;
      rem ← powmod b q n;
      if (rem =? 1) || (rem =? n_1) then Ok true
      else loop bits_fuel (fun '(i, rem) =>
        if i <? p then
          rem ← mulmod rem rem n;
          if rem =? n_1 then Ok (inr true) else Ok (inl (i + 1, rem))
        else Ok (inr false)) (1, rem)
    end.

(** The parameter of the Lucas sequence: the first of 5, -7, 9, ... whose
    symbol is -1; [None] when a factor of [n] is found on the way. *)
Definition selfridge (fuel : nat) (n : Z) : res (option Z) :=
  loop fuel (fun '(d_abs, d_sign) =>
    let dd := d_abs * d_sign in
    g ← gcd n d_abs;
    if (1 <? g) && (g <? n) then Ok (inr None)
    else
      j ← jacobi dd n;
      if j =? -1 then Ok (inr (Some dd))
      else Ok (inl (i32 (d_abs + 2), - d_sign))) (5, 1).

(** The variables of the main loop. *)
Record lucas := Lucas {
  u : Z; v : Z; u2m : Z; v2m : Z; qm : Z; qm2 : Z; qkd : Z
}.

Definition half (x n : Z) : res Z :=
  let x := if negb (even x) then i64 (x + n) else x in crem (bisect x) n.

Definition lucas_bit (n dd d bit : Z) (w : lucas) : res lucas :=
  u2m ← mulmod (u2m w) (v2m w) n;
  v2m ← mulmod (v2m w) (v2m w) n;
  v2m ← loop bits_fuel (fun x => if x <? qm2 w then Ok (inl (i64 (x + n))) else Ok (inr x)) v2m;
  let v2m := i64 (v2m - qm2 w) in
  qm ← mulmod (qm w) (qm w) n;
  let qm2 := redouble qm in
  if test_bit d bit then
    t1 ← mulmod u2m (v w) n;
    t2 ← mulmod v2m (u w) n;
    t3 ← mulmod v2m (v w) n;
    t4 ← mulmod u2m (u w) n;
    t4 ← mulmod t4 dd n;
    u ← half (i64 (t1 + t2)) n;
    v ← half (i64 (t3 + t4)) n;
    qkd ← mulmod (qkd w) qm n;
    Ok (Lucas u v u2m v2m qm qm2 qkd)
  else Ok (Lucas (u w) (v w) u2m v2m qm qm2 (qkd w)).

(** The loop over [r]. *)
Definition lucas_double (n s : Z) : Z * Z * Z * Z -> res (Z * Z * Z * Z + bool) :=
  fun '(r, v, qkd, qkd2) =>
  if r <? s then
    v ← mulmod v v n;
    let v := i64 (v - qkd2) in
    let v := if v <? 0 then i64 (v + n) else v in
    let v := if v <? 0 then i64 (v + n) else v in
    let v := if n <=? v then i64 (v - n) else v in
    let v := if n <=? v then i64 (v - n) else v in
    if v =? 0 then Ok (inr true)
    else if r <? s - 1 then
      qkd ← mulmod qkd qkd n;
      Ok (inl (r + 1, v, qkd, redouble qkd))
    else Ok (inl (r + 1, v, qkd, qkd2))
  else Ok (inr false).

Definition lucas_selfridge (fuel : nat) (n : Z) : res bool :=
  if n =? 2 then Ok true
  else if (n <? 2) || even n then Ok false
  else if perfect_square n then Ok false
  else
    found ← selfridge fuel n;
    match found with
    | None => Ok false
    | Some dd =>
      let p := 1 in
      q ← cquot (p * p - dd) 4;
      let n_1 := i64 (n + 1) in
      '(s, d) ← transform_num n_1;
      bits ← bits_in_number d;
      w ← loop bits_fuel (fun '(bit, w) =>
            if bit <? bits then w ← lucas_bit n dd d bit w; Ok (inl (bit + 1, w)) else Ok (inr w))
            (1, Lucas 1 p 1 p q (q * 2) q);
      if (u w =? 0) || (v w =? 0) then Ok true
      else loop bits_fuel (lucas_double n s) (1, v w, qkd w, redouble (qkd w))
    end.

Section Search.
Context `{Rand}.
(** Fuel of the loops that depend on the number. *)
Variable fuel : nat.

Definition baillie_pomerance_selfridge_wagstaff (n : Z) (st : statics) : res (bool * statics) :=
  '(div, st) ← prime_div_trivial n 29 st;
  if div =? 1 then Ok (true, st)
  else if 1 <? div then Ok (false, st)
  else
    m ← miller_rabin n 2;
    if negb m then Ok (false, st)
    else l ← lucas_selfridge fuel n; Ok (l, st).
Definition isprime : Z -> statics -> res (bool * statics) := baillie_pomerance_selfridge_wagstaff.

(** ** The search for a divisor *)

Definition call_rand (st : statics) : Z * statics :=
  (rand (rands st), Statics (primes st) (counted_b st) (mc_primes st) (m_max st) (S (rands st))).

(** [floor(log(13) / log(qq))]: the greatest exponent with [qq ^ e <= 13]. *)
Definition log_ratio (qq : Z) : Z :=
  if 13 <? qq * qq then 1 else if 13 <? qq * qq * qq then 2 else 3.

Definition p_1_bases : list Z := [2; 3; 5; 7; 11; 13].

(** The loop over the six primes; [None] when it ends. *)
Fixpoint p_1_round (qs : list Z) (a n : Z) : res (option Z) :=
  match qs with
  | [] => Ok None
  | qq :: qs =>
    e ← powmod qq (log_ratio qq) n;
    aa ← powmod a e n;
    if aa =? 0 then p_1_round qs a n
    else
      g ← gcd (aa - 1) n;
      if (1 <? g) && (g <? n) then Ok (Some g) else p_1_round qs a n
  end.

(** [while (gcd(a, n) != 1)] *)
Definition p_1_base (a n : Z) : res Z :=
  loop fuel (fun a =>
    g ← gcd a n;
    if g =? 1 then Ok (inr a)
    else a ← mulmod a a n; a ← crem (i64 (a + 3)) n; Ok (inl a)) a.

Definition pollard_p_1 (n : Z) : res Z :=
  a ← crem 5 n;
  loop bits_fuel (fun '(j, a) =>
    if j <? 10 then
      a ← p_1_base a n;
      r ← p_1_round p_1_bases a n;
      match r with Some g => Ok (inr g) | None => Ok (inl (j + 1, a)) end
    else Ok (inr 1)) (0, a).

(** [++b; if (b == n) b = 0] *)
Definition next (b n : Z) : Z := let b := i64 (b + 1) in if b =? n then 0 else b.

Definition rho_step (iterations_count n : Z) : Z * Z * Z * Z -> res (Z * Z * Z * Z + Z) :=
  fun '(count, b0, b1, g) =>
  if (count <? iterations_count) && ((g =? 1) || (g =? n)) then
    b0 ← mulmod b0 b0 n;
    let b0 := next b0 n in
    b1 ← mulmod b1 b1 n;
    let b1 := i64 (b1 + 1) in
    b1 ← mulmod b1 b1 n;
    let b1 := next b1 n in
    g ← gcd (abs (i64 (b1 - b0))) n;
    Ok (inl (count + 1, b0, b1, g))
  else Ok (inr g).

Definition pollard_rho (n iterations_count : Z) (st : statics) : res (Z * statics) :=
  let '(r, st) := call_rand st in
  b0 ← crem r n;
  b1 ← mulmod b0 b0 n;
  let b1 := next b1 n in
  g ← gcd (abs (i64 (b1 - b0))) n;
  g ← loop (S (Z.to_nat iterations_count)) (rho_step iterations_count n) (0, b0, b1, g);
  Ok (g, st).

(** The inner loop of [pollard_bent]. *)
Definition bent_series (series_len b0 n : Z) (b1 g : Z) : res (Z * Z) :=
  loop (S (Z.to_nat series_len)) (fun '(len, b1, g) =>
    if (len <? series_len) && ((g =? 1) && (g =? n)) then
      b1 ← crem (i64 (i64 (b1 * b1) + 2)) n;
      g ← gcd (abs (i64 (b1 - b0))) n;
      Ok (inl (len + 1, b1, g))
    else Ok (inr (b1, g))) (0, b1, g).

Definition pollard_bent (n iterations_count : Z) (st : statics) : res (Z * statics) :=
  let '(r, st) := call_rand st in
  b0 ← crem r n;
  b1 ← crem (i64 (i64 (b0 * b0) + 2)) n;
  g ← loop bits_fuel (fun '(iteration, series_len, b0, b1, a) =>
    if iteration <? iterations_count then
      g ← gcd (i64 (b1 - b0)) n;
      '(b1, g) ← bent_series series_len b0 n b1 g;
      let b0 := a in
      let a := b1 in
      if negb (g =? 1) && negb (g =? n) then Ok (inr g)
      else Ok (inl (iteration + 1, u32 (series_len * 2), b0, b1, a))
    else Ok (inr 1)) (0, 1, b0, b1, b1);
  Ok (g, st).

(** The odd primes up to [m], counted once. *)
Definition mc_table (m : Z) (st : statics) : res statics :=
  let l := match mc_primes st with [] => [3] | l => l end in
  if m_max st <? m then
    l ← sieve m (5, l);
    Ok (Statics (primes st) (counted_b st) l m (rands st))
  else Ok (Statics (primes st) (counted_b st) l (m_max st) (rands st)).

(** [cur]: the greatest power of [p] up to [n], if it does not wrap. *)
Definition mc_power (p n : Z) : res Z :=
  cur ← loop (10 * bits_fuel) (fun cur =>
    if cur <=? n then Ok (inl (i64 (cur * p))) else Ok (inr cur)) p;
  cquot cur p.

Fixpoint mc_round (l : list Z) (n b g : Z) : res Z :=
  match l with
  | [] => Ok g
  | p :: l =>
    if g =? 1 then
      cur ← mc_power p n;
      b ← powmod b cur n;
      g ← gcd (abs (i64 (b - 1))) n;
      mc_round l n b (if g =? n then 1 else g)
    else Ok g
  end.

Definition pollard_monte_carlo (n m : Z) (st : statics) : res (Z * statics) :=
  let '(r, st) := call_rand st in
  b ← crem r (m - 2);
  st ← mc_table m st;
  g ← mc_round (mc_primes st) n (b + 2) 1;
  Ok (g, st).

Definition ferma (n : Z) : res Z :=
  let x := sq_root n in
  loop fuel (fun '(x, y, r) =>
    if r =? 0 then Ok (inr (if x =? y then i64 (x + y) else i64 (x - y)))
    else if 0 <? r then Ok (inl (x, i64 (y + 1), i64 (r - i64 (y + y + 1))))
    else Ok (inl (i64 (x + 1), y, i64 (r + i64 (x + x + 1))))) (x, 0, i64 (i64 (x * x) - n)).

(** ** factorize *)

(** [++result[k]] on a [std::map]: its entries by increasing key. *)
Fixpoint incr (k : Z) (m : list (Z * Z)) : list (Z * Z) :=
  match m with
  | [] => [(k, 1)]
  | (j, c) :: t =>
    if k <? j then (k, 1) :: m
    else if k =? j then (j, u32 (c + 1)) :: t
    else (j, c) :: incr k t
  end.

(** The methods in turn, as long as the divisor is 1. *)
Definition search_div (n : Z) (st : statics) : res (Z * statics) :=
  '(div, st) ← pollard_monte_carlo n 100 st;
  '(div, st) ← (if div =? 1 then pollard_rho n 100000 st else Ok (div, st));
  div ← (if div =? 1 then pollard_p_1 n else Ok div);
  '(div, st) ← (if div =? 1 then pollard_bent n 19 st else Ok (div, st));
  div ← (if div =? 1 then ferma n else Ok div);
  Ok (div, st).

Fixpoint factorize_ (depth : nat) (n : Z) (result : list (Z * Z)) (st : statics) :
    res (list (Z * Z) * statics) :=
  match depth with
  | O => Err NoFuel
  | S depth =>
    if n =? 1 then Ok (result, st)
    else
      '(prime, st) ← isprime n st;
      if (prime : bool) then Ok (incr n result, st)
      else if n <? 1000 * 1000 then
        '(div, st) ← prime_div_trivial n 1000 st;
        let result := incr div result in
        n ← cquot n div;
        factorize_ depth n result st
      else
        '(div, st) ← search_div n st;
        '(result, st) ← factorize_ depth div result st;
        n ← cquot n div;
        factorize_ depth n result st
  end.
Definition factorize (n : Z) (result : list (Z * Z)) (st : statics) :
    res (list (Z * Z) * statics) := factorize_ fuel n result st.

(** The copy of the keys to [r[2]], and [p] and [q] from it. *)
Definition copy_keys (m : list (Z * Z)) : res (Z * Z) :=
  match m with
  | _ :: _ :: _ :: _ => Err OutOfBounds
  | [(p, _); (q, _)] => Ok (u32 p, u32 q)
  | _ => Err Uninit
  end.

Definition factor (pq : Z) (st : statics) : res (Z * Z * statics) :=
  '(m, st) ← factorize (i64 pq) [] st;
  r ← copy_keys m;
  Ok (r, st).

End Search.
End Fact.
