(* ===== verification/FactFacts.v ===== *)
(** * The arithmetic of the factorisation

    Loops by an invariant and a measure; multiplication and powers modulo
    [n] do not wrap below 2^63; Euclid's algorithm; the tables of primes and
    trial division. *)
From Stdlib Require Import Znumtheory Zpow_facts.
From S2P Require Import Prelude Fact.
Import Fact.

(** ** Loops *)
Section Loops.
Context {S R : Type} (body : S -> res (S + R)) (I : S -> Prop) (Q : R -> Prop).

(** What leaves a loop that keeps [I]. *)
Lemma loop_inv fuel s r :
  (forall s o, I s -> body s = Ok o -> match o with inl s' => I s' | inr r => Q r end) ->
  I s -> loop fuel body s = Ok r -> Q r.
Proof.
  intros Hb. revert s. induction fuel as [|fuel IH]; intros s HI E; [done |]. cbn in E.
  inv_res E. specialize (Hb s a HI Ha). destruct a as [s' | r']; [by apply (IH s') | by simplify_eq/=].
Qed.

(** A loop whose measure decreases ends. *)
Lemma loop_total (mu : S -> Z) fuel s :
  (forall s, I s -> (exists s', body s = Ok (inl s') /\ I s' /\ 0 <= mu s' < mu s) \/
                    (exists r, body s = Ok (inr r) /\ Q r)) ->
  I s -> 0 <= mu s < Z.of_nat fuel -> exists r, loop fuel body s = Ok r /\ Q r.
Proof.
  intros Hb. revert s. induction fuel as [|fuel IH]; intros s HI Hf; [lia |].
  destruct (Hb s HI) as [(s' & E & HI' & Hm) | (r & E & HQ)]; cbn; rewrite E; cbn; [| by exists r].
  apply IH; [done | lia].
Qed.

End Loops.

(** A loop with one possible result. *)
Lemma loop_value {S R} (body : S -> res (S + R)) (I : S -> Prop) (mu : S -> Z) fuel s (r : R) :
  (forall s, I s -> (exists s', body s = Ok (inl s') /\ I s' /\ 0 <= mu s' < mu s) \/ body s = Ok (inr r)) ->
  I s -> 0 <= mu s < Z.of_nat fuel -> loop fuel body s = Ok r.
Proof.
  intros Hb HI Hf. edestruct (loop_total body I (eq r) mu fuel s) as (r' & E & <-); [| done | done | done].
  intros s0 H0. destruct (Hb s0 H0) as [H1 | H1]; [by left | right; by exists r].
Qed.

(** More turns do not change a result. *)
Lemma loop_more {S R} (body : S -> res (S + R)) f f' s r :
  loop f body s = Ok r -> (f <= f')%nat -> loop f' body s = Ok r.
Proof.
  revert f' s. induction f as [|f IH]; intros f' s E Hf; [done |]. destruct f' as [|f']; [lia |].
  cbn in *. destruct (body s) as [[s' | r'] | e]; cbn in *; [| done | done]. apply IH; [done | lia].
Qed.

Lemma loop_turn {S R} (body : S -> res (S + R)) f s s' (r : res R) :
  body s = Ok (inl s') -> loop f body s' = r -> loop (Datatypes.S f) body s = r.
Proof. intros E <-. cbn. by rewrite E. Qed.

(** ** Halving *)
Lemma even_spec n : even n = (n mod 2 =? 0).
Proof. unfold even. change (Z.land n 1) with (Z.land n (Z.ones 1)). by rewrite Z.land_ones. Qed.
Lemma bisect_spec n : bisect n = n / 2.
Proof. unfold bisect. by rewrite Z.shiftr_div_pow2. Qed.
Lemma u64_small z : 0 <= z < 18446744073709551616 -> u64 z = z.
Proof. apply u64_id. Qed.
Lemma i64_small z : -9223372036854775808 <= z < 9223372036854775808 -> i64 z = z.
Proof. intros. unfold i64. rewrite Z.mod_small by lia. lia. Qed.
Lemma long_long_range z : -9223372036854775808 <= i64 z < 9223372036854775808.
Proof. unfold i64. modlia. Qed.

(** The turns of a loop that halves even numbers and decrements odd ones. *)
Definition turns (b : Z) : Z := if b =? 0 then 0 else 2 * Z.log2 b + 1 + b mod 2.

Lemma turns_bound b : 0 <= b < 18446744073709551616 -> 0 <= turns b < 200.
Proof.
  intros Hb. unfold turns. destruct (Z.eqb_spec b 0); [lia |].
  pose proof (Z.log2_nonneg b). assert (Z.log2 b < 64) by (apply Z.log2_lt_pow2; lia). modlia.
Qed.
Lemma turns_odd b : 0 < b -> b mod 2 <> 0 -> 0 <= turns (b - 1) < turns b.
Proof.
  intros Hb Ho. unfold turns. destruct (Z.eqb_spec b 0); [lia |]. pose proof (Z.log2_nonneg b).
  pose proof (Z.log2_nonneg (b - 1)). destruct (Z.eqb_spec (b - 1) 0); [modlia |].
  assert (Z.log2 (b - 1) <= Z.log2 b) by (apply Z.log2_le_mono; lia). modlia.
Qed.
Lemma turns_even b : 0 < b -> b mod 2 = 0 -> 0 <= turns (b / 2) < turns b.
Proof.
  intros Hb Ho. unfold turns. destruct (Z.eqb_spec b 0); [lia |].
  assert (Eb : b = 2 * (b / 2)) by modlia. assert (0 < b / 2) by modlia.
  destruct (Z.eqb_spec (b / 2) 0); [lia |].
  assert (Z.log2 b = Z.succ (Z.log2 (b / 2))) by (rewrite Eb at 1; by apply Z.log2_double).
  pose proof (Z.log2_nonneg (b / 2)). modlia.
Qed.

(** ** Multiplication and powers modulo [n] *)
Lemma reduce_spec x n : 0 < n < 9223372036854775808 -> 0 <= x < 2 * n -> reduce x n = Ok (x mod n).
Proof.
  intros Hn Hx. unfold reduce.
  apply (loop_value _ (fun y => 0 <= y < 2 * n /\ y mod n = x mod n) (fun y => y / n)); [| done | unfold bits_fuel].
  - intros y (Hy & Ey). destruct (Z.leb_spec n y); [left | right].
    + exists (y - n). rewrite u64_small by lia. split_and!; [done | lia | lia | | | ].
      * rewrite <- Ey. replace y with (y - n + 1 * n) at 2 by lia. by rewrite Z_mod_plus_full.
      * apply Z.div_pos; lia.
      * replace y with (y - n + 1 * n) at 2 by lia. rewrite Z.div_add by lia. lia.
    + rewrite <- Ey. by rewrite Z.mod_small by lia.
  - split; [apply Z.div_pos; lia |]. cut (x / n < 2); [lia |]. apply Z.div_lt_upper_bound; lia.
Qed.

Lemma umulmod_spec a b n : 0 < n < 9223372036854775808 ->
  0 <= a < 18446744073709551616 -> 0 <= b < 18446744073709551616 -> umulmod a b n = Ok ((a * b) mod n).
Proof.
  intros Hn Ha Hb. unfold umulmod.
  assert (Er : forall x, 0 <= x -> (if n <=? x then crem x n else Ok x) = Ok (x mod n)).
  { intros x Hx. unfold crem. destruct (Z.eqb_spec n 0); [lia |].
    destruct (Z.leb_spec n x); [by rewrite Z.rem_mod_nonneg by lia | by rewrite Z.mod_small by lia]. }
  rewrite !Er by lia. cbn [mbind res_bind].
  pose proof (Z.mod_pos_bound a n). pose proof (Z.mod_pos_bound b n).
  apply (loop_value _ (fun '(x, y, r) => 0 <= x < n /\ 0 <= y < n /\ 0 <= r < n /\ (r + x * y) mod n = (a * b) mod n)
    (fun '(x, y, r) => turns y)).
  - intros [[x y] r] (Hx & Hy & Hr & E). unfold mulmod_step. rewrite even_spec.
    destruct (Z.eqb_spec y 0) as [-> | Hy0]; [right |left].
    { rewrite <- E. by rewrite Z.mul_0_r, Z.add_0_r, Z.mod_small by lia. }
    destruct (Z.eqb_spec (y mod 2) 0) as [Ev | Ev]; cbn [negb].
    + rewrite Z.shiftl_mul_pow2, u64_small, reduce_spec by lia. cbn [mbind res_bind]. eexists.
      split; [done |]. rewrite bisect_spec.
      pose proof (Z.mod_pos_bound (x * 2 ^ 1) n). split_and!; try solve [lia | modlia | apply turns_even; lia].
      rewrite <- E. rewrite Zplus_mod, Zmult_mod_idemp_l, <- Zplus_mod. f_equal.
      assert (Ey : y = 2 * (y / 2)) by modlia.
      replace (x * 2 ^ 1 * (y / 2)) with (x * (2 * (y / 2))) by ring. by rewrite <- Ey.
    + rewrite (u64_small (r + x)), (u64_small (y - 1)), reduce_spec by lia. cbn [mbind res_bind]. eexists.
      split; [done |]. pose proof (Z.mod_pos_bound (r + x) n).
      split_and!; try solve [lia | apply turns_odd; lia].
      rewrite Zplus_mod_idemp_l. rewrite <- E. f_equal. lia.
  - split_and!; [lia.. |]. by rewrite Z.add_0_l, <- Zmult_mod.
  - change (Z.of_nat bits_fuel) with 200. apply turns_bound. lia.
Qed.

(** [mulmod<long long>] is the product, with the sign of C's remainder. *)
Lemma mulmod_rem a b n : 0 < n < 9223372036854775808 ->
  -9223372036854775808 < a < 9223372036854775808 -> -9223372036854775808 < b < 9223372036854775808 ->
  mulmod a b n = Ok (Z.rem (a * b) n).
Proof.
  intros Hn Ha Hb. unfold mulmod.
  assert (Es : forall x, -9223372036854775808 < x < 9223372036854775808 ->
    u64 (if x <? 0 then i64 (- x) else x) = Z.abs x).
  { intros x Hx. destruct (Z.ltb_spec x 0); [rewrite i64_small by lia |]; rewrite u64_small; lia. }
  rewrite !Es by done. rewrite (u64_small n), umulmod_spec by lia. cbn [mbind res_bind].
  pose proof (Z.mod_pos_bound (Z.abs a * Z.abs b) n). rewrite (i64_small (_ mod _)) by lia.
  f_equal. rewrite <- Z.abs_mul in *. destruct (xorb (a <? 0) (b <? 0)) eqn:E.
  - rewrite i64_small by lia. rewrite Z.rem_eq by lia.
    assert (a * b <= 0) by (destruct (Z.ltb_spec a 0), (Z.ltb_spec b 0); simplify_eq/=; nia).
    rewrite Z.abs_neq by done. rewrite <- Z.rem_mod_nonneg by lia. rewrite Z.rem_opp_l by lia.
    rewrite Z.rem_eq by lia. lia.
  - rewrite Z.mul_1_r, i64_small by lia.
    assert (0 <= a * b) by (destruct (Z.ltb_spec a 0), (Z.ltb_spec b 0); simplify_eq/=; nia).
    rewrite Z.abs_eq by done. by rewrite <- Z.rem_mod_nonneg by lia.
Qed.

Lemma mulmod_spec a b n : 0 < n < 9223372036854775808 ->
  0 <= a < 9223372036854775808 -> 0 <= b < 9223372036854775808 -> mulmod a b n = Ok ((a * b) mod n).
Proof. intros. rewrite mulmod_rem by lia. by rewrite Z.rem_mod_nonneg by nia. Qed.

Lemma powmod_spec a k n : 1 < n < 9223372036854775808 ->
  0 <= a < 9223372036854775808 -> 0 <= k < 9223372036854775808 -> powmod a k n = Ok (a ^ k mod n).
Proof.
  intros Hn Ha Hk. unfold powmod.
  apply (loop_value _ (fun '(x, j, r) => 0 <= x < 9223372036854775808 /\ 0 <= j < 9223372036854775808 /\ 0 <= r < n /\
    (r * x ^ j) mod n = a ^ k mod n) (fun '(x, j, r) => turns j)).
  - intros [[x j] r] (Hx & Hj & Hr & E). unfold powmod_step. rewrite even_spec.
    destruct (Z.eqb_spec j 0) as [-> | Hj0]; [right | left].
    { rewrite <- E. by rewrite Z.pow_0_r, Z.mul_1_r, Z.mod_small by lia. }
    destruct (Z.eqb_spec (j mod 2) 0) as [Ev | Ev]; cbn [negb];
      rewrite mulmod_spec by lia; cbn [mbind res_bind]; eexists; (split; [done |]).
    + rewrite bisect_spec. pose proof (Z.mod_pos_bound (x * x) n).
      split_and!; try solve [lia | modlia | apply turns_even; lia].
      rewrite <- E. rewrite <- Zmult_mod_idemp_r, <- Zpower_mod, Zmult_mod_idemp_r by lia. f_equal. f_equal.
      assert (Ej : j = 2 * (j / 2)) by modlia. rewrite Ej at 2. rewrite Z.pow_mul_r by modlia. f_equal. lia.
    + rewrite i64_small by lia. pose proof (Z.mod_pos_bound (r * x) n).
      split_and!; try solve [lia | apply turns_odd; lia].
      rewrite Zmult_mod_idemp_l. rewrite <- E. f_equal. rewrite <- Z.mul_assoc. f_equal.
      rewrite <- Z.pow_succ_r by lia. f_equal. lia.
  - split_and!; [lia.. |]. by rewrite Z.mul_1_l.
  - change (Z.of_nat bits_fuel) with 200. apply turns_bound. lia.
Qed.

(** ** Euclid *)
Lemma gcd_spec a b : 0 <= a < 9223372036854775808 -> 0 <= b < 9223372036854775808 ->
  gcd a b = Ok (Z.gcd a b).
Proof.
  intros Ha Hb. unfold gcd.
  assert (Main : forall a b, 0 <= a -> a <= b -> b < 9223372036854775808 ->
    loop 150 (fun '(a, b) => if a =? 0 then Ok (inr b) else r ← crem b a; Ok (inl (r, a))) (a, b) = Ok (Z.gcd a b)).
  { intros x y Hx Hxy Hy.
    apply (loop_value _ (fun '(c, d) => 0 <= c <= d /\ d < 9223372036854775808 /\ Z.gcd c d = Z.gcd x y)
      (fun '(c, d) => if c =? 0 then 0 else Z.log2 c + Z.log2 d + 1)).
    - intros [c d] (Hc & Hd & E). destruct (Z.eqb_spec c 0) as [-> | Hc0]; [right | left].
      { rewrite <- E. by rewrite Z.gcd_0_l, Z.abs_eq by lia. }
      unfold crem. destruct (Z.eqb_spec c 0); [done |]. cbn [mbind res_bind]. rewrite Z.rem_mod_nonneg by lia.
      eexists. split; [done |]. pose proof (Z.mod_pos_bound d c).
      split_and!; [lia.. | by rewrite <- E; rewrite Z.gcd_mod by lia | |].
      { destruct (_ =? 0); [lia |]. pose proof (Z.log2_nonneg (d mod c)). pose proof (Z.log2_nonneg c). lia. }
      pose proof (Z.log2_nonneg d). pose proof (Z.log2_nonneg c).
      destruct (Z.eqb_spec (d mod c) 0); [lia |].
      cut (Z.log2 (d mod c) < Z.log2 d); [lia |].
      assert (2 * (d mod c) <= d) by (pose proof (Z.div_mod d c); assert (1 <= d / c) by (apply Z.div_le_lower_bound; lia); nia).
      cut (Z.log2 (2 * (d mod c)) <= Z.log2 d); [rewrite Z.log2_double by lia; lia |]. by apply Z.log2_le_mono.
    - split; [lia | done].
    - destruct (x =? 0); [lia |]. pose proof (Z.log2_nonneg x). pose proof (Z.log2_nonneg y).
      destruct (Z.eqb_spec y 0) as [-> |]; [assert (x = 0) by lia; subst; cbn; lia |].
      assert (Z.log2 y < 63) by (apply Z.log2_lt_pow2; lia).
      assert (Z.log2 x <= Z.log2 y) by (apply Z.log2_le_mono; lia). lia. }
  destruct (Z.le_gt_cases a b); [apply (loop_more _ 150); [by apply Main; lia | unfold bits_fuel; lia] |].
  apply (loop_turn _ 199 _ (b, a)).
  - unfold crem. by rewrite (proj2 (Z.eqb_neq a 0)), Z.rem_small by lia.
  - rewrite Z.gcd_comm. apply (loop_more _ 150); [apply Main; lia | lia].
Qed.
