(* ===== verification/FactPrimes.v ===== *)
(** * Tables of primes and trial division

    The two static tables of mtx/src/fact.cpp hold the primes up to their
    bounds at every call, and [prime_div_trivial] is exact below the square
    of its bound. *)
From Stdlib Require Import Znumtheory Sorted.
From S2P Require Import Prelude Fact FactFacts.
From stdpp Require Import list.
Open Scope Z_scope.
Import Fact.

(** ** Prime divisors *)
Lemma is_prime_dec n : {Z.prime n} + {~ Z.prime n}.
Proof. destruct (prime_dec n); [left | right]; by rewrite prime_alt. Defined.
#[export] Instance prime_decision n : Decision (Z.prime n) := is_prime_dec n.

Lemma has_divisor n : 1 < n -> ~ Z.prime n -> exists d, 1 < d < n /\ (d | n).
Proof. rewrite prime_alt. apply not_prime_divide. Qed.

Lemma prime_factor n : 1 < n -> exists p, Z.prime p /\ (p | n).
Proof.
  intros Hn. assert (Hn0 : 0 <= n) by lia. revert Hn. pattern n. apply Z_lt_induction; [| done].
  intros m IH Hm. destruct (is_prime_dec m) as [Hp | Hp]; [by exists m |].
  destruct (has_divisor m Hm Hp) as (d & Hd & Dm). destruct (IH d) as (p & Pp & Dp); [lia.. |].
  exists p. split; [done |]. by transitivity d.
Qed.

Lemma small_factor n : 1 < n -> ~ Z.prime n -> exists p, Z.prime p /\ (p | n) /\ p * p <= n.
Proof.
  intros Hn Np. destruct (has_divisor n Hn Np) as (d & Hd & k & Ek).
  assert (1 < k) by nia.
  destruct (Z.le_gt_cases d k).
  - destruct (prime_factor d) as (p & Pp & Dp); [lia |]. exists p.
    split_and!; [done | transitivity d; [done | by exists k] |].
    assert (p <= d) by (apply Z.divide_pos_le; [lia | done]). pose proof (Z.prime_ge_2 p Pp). nia.
  - destruct (prime_factor k) as (p & Pp & Dp); [lia |]. exists p.
    split_and!; [done | transitivity k; [done | exists d; lia] |].
    assert (p <= k) by (apply Z.divide_pos_le; [lia | done]). pose proof (Z.prime_ge_2 p Pp). nia.
Qed.

Lemma even_not_prime n : 2 < n -> n mod 2 = 0 -> ~ Z.prime n.
Proof.
  intros Hn He Hp. destruct (Z.divide_prime_r 2 n Hp) as [E | [E | [E | E]]]; [by apply Z.mod_divide | lia..].
Qed.

Lemma rem_divide n d : 0 <= n -> 0 < d -> (Z.rem n d =? 0) = true <-> (d | n).
Proof. intros. rewrite Z.eqb_eq, Z.rem_mod_nonneg by lia. apply Z.mod_divide. lia. Qed.

(** ** Scanning a table *)

(** [l] is the primes from [lo] below [c], in order. *)
Definition table (lo c : Z) (l : list Z) : Prop :=
  StronglySorted Z.lt l /\ forall x, x ∈ l <-> Z.prime x /\ lo <= x < c.

Lemma scan_none l n : StronglySorted Z.lt l -> Forall (fun x => 0 < x) l -> 0 <= n ->
  first_divisor l n = None -> forall x, x ∈ l -> x * x <= n -> ~ (x | n).
Proof.
  intros Hs Hp Hn. induction Hs as [|d l Hs IH Hd]; intros E x Hx; [by apply not_elem_of_nil in Hx |].
  apply Forall_cons_1 in Hp as [Pd Hp]. cbn in E. destruct (Z.ltb_spec n (d * d)) as [Hlt | Hle].
  - intros Hxx. exfalso. apply elem_of_cons in Hx as [-> | Hx]; [lia |].
    rewrite Forall_forall in Hd. specialize (Hd x Hx). nia.
  - destruct (Z.rem n d =? 0) eqn:Er; [done |].
    apply elem_of_cons in Hx as [-> | Hx]; [| by apply IH].
    intros _ Dx. apply (rem_divide n d) in Dx; [congruence | lia..].
Qed.

Lemma scan_some l n d : Forall (fun x => 0 < x) l -> 0 <= n ->
  first_divisor l n = Some d -> d ∈ l /\ (d | n) /\ d * d <= n.
Proof.
  intros Hp Hn. induction l as [|x l IH]; intros E; [done |]. apply Forall_cons_1 in Hp as [Px Hp]. cbn in E.
  destruct (Z.ltb_spec n (x * x)) as [| Hle]; [done |]. destruct (Z.rem n x =? 0) eqn:Er.
  - simplify_eq. split_and!; [by left | by apply rem_divide | done].
  - destruct (IH Hp E) as (? & ? & ?). split_and!; [by right | done..].
Qed.

Lemma cur_is_prime_scan l n :
  cur_is_prime l n = match first_divisor l n with Some _ => false | None => true end.
Proof. induction l as [|d l IH]; [done |]. cbn. by destruct (n <? d * d), (Z.rem n d =? 0). Qed.

Lemma table_pos lo c l : table lo c l -> Forall (fun x => 0 < x) l.
Proof. intros [_ H]. apply Forall_forall. intros x Hx. apply H in Hx as [Px _]. pose proof (Z.prime_ge_2 x Px). lia. Qed.

(** No divisor in a table that reaches the root: the number is prime.  A
    table of odd primes serves for odd numbers. *)
Lemma scan_prime lo c l n : table lo c l -> 1 < n -> lo <= 2 \/ lo <= 3 /\ n mod 2 <> 0 -> n < c * c -> 0 < c ->
  first_divisor l n = None -> Z.prime n.
Proof.
  intros T Hn Hlo Hc Hc0 E. destruct (is_prime_dec n) as [| Np]; [done | exfalso].
  destruct (small_factor n Hn Np) as (p & Pp & Dp & Hpp). pose proof (Z.prime_ge_2 p Pp).
  refine (scan_none l n _ _ _ E p _ Hpp Dp); [apply T | by eapply table_pos | lia |].
  apply T. split; [done |]. split; [| nia].
  destruct Hlo as [Hlo | [Hlo Ho]]; [lia |]. destruct (decide (p = 2)) as [-> | ?]; [| lia].
  exfalso. apply Ho. by apply Z.mod0_divide.
Qed.

(** ** The sieve *)
Lemma sorted_snoc l x : StronglySorted Z.lt l -> Forall (fun y => y < x) l ->
  StronglySorted Z.lt (l ++ [x]).
Proof.
  intros Hs Hx. induction Hs as [|y l Hs IH Hy]; cbn; [repeat constructor |].
  apply Forall_cons_1 in Hx as [Hyx Hx]. constructor; [by apply IH |].
  apply Forall_app. split; [done | by constructor].
Qed.

Lemma table_next lo c l : table lo c l -> lo = 2 \/ lo = 3 -> 3 <= c -> c mod 2 = 1 ->
  table lo (c + 2) (if cur_is_prime l c then l ++ [c] else l).
Proof.
  intros T Hlo Hc Ho. rewrite cur_is_prime_scan.
  assert (Ne : ~ Z.prime (c + 1)) by (apply even_not_prime; [lia | modlia]).
  destruct (first_divisor l c) as [d |] eqn:E.
  - destruct (scan_some l c d) as (Hd & Dd & Hdd); [by eapply table_pos | lia | done |].
    split; [apply T |]. intros x. rewrite (proj2 T). split; intros [Px Hx]; (split; [done |]); [lia |].
    assert (x <> c + 1) by congruence. cut (x <> c); [lia |]. intros ->.
    apply (proj2 T) in Hd as [Pd Hd]. pose proof (Z.prime_ge_2 d Pd).
    destruct (Z.divide_prime_r d c Px Dd) as [? | [? | [? | ?]]]; nia.
  - assert (Pc : Z.prime c) by (eapply (scan_prime lo c l); [done | lia | lia | nia | lia | done]).
    split.
    + apply sorted_snoc; [apply T |]. apply Forall_forall. intros x Hx. apply (proj2 T) in Hx. lia.
    + intros x. rewrite elem_of_app, list_elem_of_singleton, (proj2 T). split.
      * intros [[Px Hx] | ->]; (split; [done | lia]).
      * intros [Px Hx]. assert (x <> c + 1) by congruence. destruct (decide (x = c)); [by right | left; split; [done | lia]].
Qed.

Lemma sieve_spec lo b c l : table lo c l -> lo = 2 \/ lo = 3 -> 3 <= c -> c mod 2 = 1 -> c <= b + 2 -> 2 <= b ->
  exists l', sieve b (c, l) = Ok l' /\ table lo (b + 1) l'.
Proof.
  intros T Hlo Hc Ho Hb Hb2. unfold sieve.
  apply (loop_total _ (fun '(c, l) => table lo c l /\ 3 <= c <= b + 2 /\ c mod 2 = 1) _ (fun '(c, l) => b + 2 - c));
    [| split_and!; [done | lia..] | lia].
  intros [x t] (Tx & Hx & Hxo). destruct (Z.ltb_spec b x); [right | left].
  - exists t. split; [done |]. split; [apply Tx |]. intros y. rewrite (proj2 Tx).
    split; intros [Py Hy]; (split; [done |]); [| lia].
    cut (y <> b + 1 \/ x = b + 1); [lia |]. destruct (decide (x = b + 1)); [by right | left].
    intros ->. revert Py. apply even_not_prime; [lia | modlia].
  - eexists. split; [done |]. split_and!; [by apply table_next; [| | lia |] | lia | lia | modlia | lia | lia].
Qed.

(** ** The static tables *)
Definition tables_ok (st : statics) : Prop :=
  (counted_b st = 0 /\ primes st = [] \/ 3 <= counted_b st /\ table 2 (counted_b st + 1) (primes st)) /\
  (m_max st = 0 /\ mc_primes st = [] \/ m_max st = 100 /\ table 3 101 (mc_primes st)).

Lemma start_ok : tables_ok start.
Proof. by split; left. Qed.

Lemma sorted_last l x : StronglySorted Z.lt l -> x ∈ l -> x <= List.last l 0 /\ List.last l 0 ∈ l.
Proof.
  intros Hs. revert x. induction Hs as [|y l Hs IH Hy]; intros x Hx; [by apply not_elem_of_nil in Hx |].
  destruct l as [|z l].
  - apply list_elem_of_singleton in Hx as ->. split; [done | by left].
  - change (List.last (y :: z :: l) 0) with (List.last (z :: l) 0).
    apply elem_of_cons in Hx as [-> | Hx].
    + destruct (IH z ltac:(by left)) as [Hz Hin]. split; [| by right].
      rewrite Forall_forall in Hy. specialize (Hy z ltac:(by left)). lia.
    + destruct (IH x Hx). split; [done | by right].
Qed.

Lemma get_primes_spec b st : tables_ok st -> 3 <= b -> exists pi st',
  get_primes b st = Ok (pi, st') /\ tables_ok st' /\ b <= counted_b st' /\
  mc_primes st' = mc_primes st /\ m_max st' = m_max st /\ rands st' = rands st.
Proof.
  intros [T1 T2] Hb. unfold get_primes. destruct (Z.leb_spec b (counted_b st)).
  { by exists (upper_bound (primes st) b), st. }
  assert (Done : forall l c, table 2 c l -> 3 <= c <= b + 2 -> c mod 2 = 1 -> exists pi st',
    (l ← sieve b (c, l); Ok (zlen l, Statics l b (mc_primes st) (m_max st) (rands st))) = Ok (pi, st') /\
    tables_ok st' /\ b <= counted_b st' /\
    mc_primes st' = mc_primes st /\ m_max st' = m_max st /\ rands st' = rands st).
  { intros l c T Hc Ho. destruct (sieve_spec 2 b c l) as (l' & E & T'); [done | by left | lia | done | lia | lia |].
    rewrite E. do 2 eexists. split; [reflexivity |]. split_and!; try done. by split; [right | done]. }
  destruct T1 as [[Ec Ep] | [Hc T]].
  - rewrite Ec, Ep. cbn. apply Done; [| lia | done]. split; [repeat constructor |].
    intros x. rewrite list_elem_of_singleton. split; [intros ->; split; [apply Z.prime_2 | lia] |].
    intros [Px Hx]. lia.
  - rewrite (proj2 (Z.eqb_neq _ 0)) by lia. rewrite (proj2 (Z.eqb_neq (counted_b st) 2)) by lia.
    assert (H3 : 3 ∈ primes st) by (apply T; split; [apply Z.prime_3 | lia]).
    destruct (sorted_last _ _ (proj1 T) H3) as [H3l Hin]. set (z := List.last (primes st) 0) in *.
    pose proof (proj1 (proj2 T z) Hin) as [Pz Hz].
    assert (Ho : z mod 2 <> 0) by (intros He; apply (even_not_prime z); [lia | done | done]).
    apply Done; [| lia | modlia]. split; [apply T |]. intros x. rewrite (proj2 T).
    split; intros [Px Hx]; (split; [done |]).
    + assert (x ∈ primes st) by (apply T; split; [done | lia]).
      destruct (sorted_last _ x (proj1 T)) as [Hxz _]; [done |]. fold z in Hxz. lia.
    + cut (x <> z + 1); [lia |]. intros ->. apply (even_not_prime (z + 1)); [lia | modlia | done].
Qed.

(** ** Trial division *)
Variant trial_result (n m : Z) : Z -> Prop :=
| Trial_prime : Z.prime n -> trial_result n m 1
| Trial_divisor d : Z.prime d -> (d | n) -> 1 < d < n -> trial_result n m d
| Trial_small : n < 2 -> trial_result n m 0
| Trial_unknown : m * m <= n -> trial_result n m 0.

(** [st'] has other tables at most. *)
Definition same_rand (st st' : statics) : Prop :=
  mc_primes st' = mc_primes st /\ m_max st' = m_max st /\ rands st' = rands st.

Lemma prime_div_trivial_spec n m st : tables_ok st -> 3 <= m -> exists d st',
  prime_div_trivial n m st = Ok (d, st') /\ tables_ok st' /\ same_rand st st' /\ trial_result n m d.
Proof.
  intros T Hm. unfold prime_div_trivial.
  destruct (Z.eqb_spec n 2) as [-> |]; [by exists 1, st; split_and!; try done; constructor; apply Z.prime_2 |].
  destruct (Z.eqb_spec n 3) as [-> |]; [by exists 1, st; split_and!; try done; constructor; apply Z.prime_3 |].
  cbn [orb]. destruct (Z.ltb_spec n 2); [by exists 0, st; split_and!; try done; constructor |].
  rewrite even_spec. destruct (Z.eqb_spec (n mod 2) 0) as [Ev | Ev].
  { exists 2, st. split_and!; try done. apply Trial_divisor; [apply Z.prime_2 | by apply Z.mod_divide | lia]. }
  destruct (get_primes_spec m st T Hm) as (pi & st' & E & T' & Hc & Hr). rewrite E. cbn [mbind res_bind].
  do 2 eexists. split; [reflexivity |]. split_and!; [done | apply Hr.. |].
  destruct (proj1 T') as [[Ec _] | [_ Tp]]; [lia |].
  destruct (first_divisor (primes st') n) as [d |] eqn:Ed.
  - destruct (scan_some (primes st') n d (table_pos _ _ _ Tp) ltac:(lia) Ed) as (Hd & Dd & Hdd).
    apply Tp in Hd as [Pd Hd]. pose proof (Z.prime_ge_2 d Pd). apply Trial_divisor; [done | done | nia].
  - destruct (Z.ltb_spec n (m * m)); [apply Trial_prime | by apply Trial_unknown].
    eapply scan_prime; [exact Tp | lia | by left | nia | lia | done].
Qed.
