(* ===== verification/Factorize.v ===== *)
(** * Search, factorize, factor

    What [factorize] leaves in its map, for numbers the tests judge rightly:
    below a million it always ends with the prime factors; above, what it
    returns are the prime factors.  [factor] hands out two factors, and
    only numbers with exactly two distinct prime divisors fit its array. *)
From Stdlib Require Import Znumtheory Sorted.
From S2P Require Import Prelude Fact FactFacts FactPrimes.
From stdpp Require Import list.
Open Scope Z_scope.
Import Fact.

(** ** The map of prime factors *)
Section Map.

Fixpoint keys (m : list (Z * Z)) : list Z := match m with [] => [] | (k, _) :: m => k :: keys m end.
Fixpoint value (m : list (Z * Z)) : Z := match m with [] => 1 | (k, c) :: m => k ^ c * value m end.
Fixpoint total (m : list (Z * Z)) : Z := match m with [] => 0 | (k, c) :: m => c + total m end.
Definition map_ok (m : list (Z * Z)) : Prop :=
  StronglySorted Z.lt (keys m) /\ Forall (fun kc => 1 <= snd kc) m.

Lemma total_nonneg m : Forall (fun kc => 1 <= snd kc) m -> 0 <= total m.
Proof. induction 1 as [|[k c] m Hc _ IH]; cbn in *; lia. Qed.

Lemma incr_keys k m x : x ∈ keys (incr k m) <-> x = k \/ x ∈ keys m.
Proof.
  induction m as [|[j c] m IH]; cbn; [rewrite elem_of_cons; tauto |].
  destruct (Z.ltb_spec k j); [| destruct (Z.eqb_spec k j) as [-> |]]; cbn; rewrite ?elem_of_cons; [tauto.. |].
  rewrite IH. tauto.
Qed.

Lemma incr_ok k m : map_ok m -> total m + 1 < 4294967296 ->
  map_ok (incr k m) /\ value (incr k m) = k * value m /\ total (incr k m) = total m + 1.
Proof.
  intros [Hs Hc] Ht. unfold map_ok. induction m as [|[j c] m IH]; cbn in *.
  { split_and!; [repeat constructor | repeat constructor; cbn; lia | lia | lia]. }
  apply StronglySorted_inv in Hs as [Hs Hj]. apply Forall_cons_1 in Hc as [Hc0 Hc]. cbn in Hc0.
  pose proof (total_nonneg m Hc). destruct (Z.ltb_spec k j); [| destruct (Z.eqb_spec k j) as [-> |]]; cbn.
  - split_and!; [| repeat constructor; cbn; done || lia | lia | lia].
    repeat constructor; [done | done | lia |]. eapply List.Forall_impl; [| exact Hj]. cbn. lia.
  - rewrite u32_id by (unfold is_u32; lia).
    split_and!; [by constructor | constructor; [cbn; lia | done] | | lia].
    rewrite Z.pow_add_r by lia. lia.
  - destruct IH as ((Hs' & Hc') & Ev & Et); [done | done | lia |].
    split_and!; [constructor; [done |] | by constructor | rewrite Ev; lia | lia].
    apply Forall_forall. intros x Hx. apply (incr_keys k m) in Hx as [-> | Hx]; [lia |].
    rewrite Forall_forall in Hj. by apply Hj.
Qed.

(** [r'] is [r] with the prime factors of [n]. *)
Definition factored (n : Z) (r r' : list (Z * Z)) : Prop :=
  map_ok r' /\ value r' = n * value r /\ total r' <= total r + Z.log2 n /\
  forall k, k ∈ keys r' <-> k ∈ keys r \/ Z.prime k /\ (k | n).

Lemma prime_divisor_prime k n : Z.prime n -> Z.prime k /\ (k | n) <-> k = n.
Proof.
  intros Pn. split; [intros [Pk D]; by apply Z.divide_prime_prime | by intros ->].
Qed.

Lemma factored_one r : map_ok r -> factored 1 r r.
Proof.
  intros Hr. split_and!; [done | lia | cbn; lia |]. intros k. split; [by left |].
  intros [| [Pk D]]; [done |]. pose proof (Z.prime_ge_2 k Pk). apply Z.divide_1_r in D. lia.
Qed.

Lemma factored_prime n r : Z.prime n -> map_ok r -> total r + 1 < 4294967296 -> factored n r (incr n r).
Proof.
  intros Pn Hr Ht. destruct (incr_ok n r Hr Ht) as (H1 & H2 & H3). pose proof (Z.prime_ge_2 n Pn).
  split_and!; [done | done | | intros k; rewrite incr_keys, prime_divisor_prime by done; tauto].
  assert (Z.log2 2 <= Z.log2 n) by (by apply Z.log2_le_mono). cbn in *. lia.
Qed.

Lemma factored_mul a b r r1 r2 : 0 < a -> 0 < b -> factored a r r1 -> factored b r1 r2 -> factored (a * b) r r2.
Proof.
  intros Ha Hb (_ & V1 & T1 & K1) (O2 & V2 & T2 & K2). split_and!; [done | rewrite V2, V1; lia | |].
  - pose proof (Z.log2_mul_below a b). lia.
  - intros k. rewrite K2, K1. split; [intros [[|[Pk D]] |[Pk D]]; [by left | right.. ]|].
    + split; [done | by apply Z.divide_mul_l].
    + split; [done | by apply Z.divide_mul_r].
    + intros [| [Pk D]]; [by do 2 left |]. apply (Z.divide_prime_mul _ _ _ Pk) in D as [|]; [left; right | right]; done.
Qed.

Lemma sorted_unique (l l' : list Z) : StronglySorted Z.lt l -> StronglySorted Z.lt l' ->
  (forall x, x ∈ l <-> x ∈ l') -> l = l'.
Proof.
  intros Hs. revert l'. induction Hs as [|a l Hs IH Ha]; intros l' Hs' E.
  - destruct l' as [|b l']; [done |]. exfalso. apply (not_elem_of_nil b), E. by left.
  - destruct Hs' as [|b l' Hs' Hb]; [exfalso; apply (not_elem_of_nil a), E; by left |].
    rewrite Forall_forall in Ha, Hb.
    assert (a = b).
    { assert (H1 : a ∈ b :: l') by (apply E; by left). assert (H2 : b ∈ a :: l) by (apply E; by left).
      apply elem_of_cons in H1 as [| H1]; [done |]. apply elem_of_cons in H2 as [| H2]; [done |].
      specialize (Ha _ H2). specialize (Hb _ H1). lia. }
    subst b. f_equal. apply IH; [done |]. intros x. specialize (E x). rewrite !elem_of_cons in E.
    split; intros Hx.
    + destruct (proj1 E (or_intror Hx)) as [-> |]; [specialize (Ha _ Hx); lia | done].
    + destruct (proj2 E (or_intror Hx)) as [-> |]; [specialize (Hb _ Hx); lia | done].
Qed.

End Map.

(** ** The tests *)
Definition tests (fuel : nat) (n : Z) : res bool :=
  m ← miller_rabin n 2; if negb m then Ok false else lucas_selfridge fuel n.

(** The two probabilistic tests end and are right about [n]. *)
Definition judged (fuel : nat) (n : Z) : Prop := exists b, tests fuel n = Ok b /\ (b = true <-> Z.prime n).

Section Factorize.
Context `{Rand}.
Variable fuel : nat.

Lemma isprime_nonpos n st : n < 2 -> isprime fuel n st = Ok (false, st).
Proof.
  intros Hn. unfold isprime, baillie_pomerance_selfridge_wagstaff, prime_div_trivial, miller_rabin.
  rewrite (proj2 (Z.eqb_neq n 2)), (proj2 (Z.eqb_neq n 3)), (proj2 (Z.ltb_lt n 2)) by lia. done.
Qed.

(** Below 841 the answer is that of trial division. *)
Lemma isprime_spec n st : tables_ok st -> 1 < n -> (841 <= n -> judged fuel n) -> exists b st',
  isprime fuel n st = Ok (b, st') /\ tables_ok st' /\ same_rand st st' /\ (b = true <-> Z.prime n).
Proof.
  intros T Hn Hj. unfold isprime, baillie_pomerance_selfridge_wagstaff.
  destruct (prime_div_trivial_spec n 29 st T) as (d & st' & E & T' & Hr & Ht); [lia |].
  rewrite E. cbn [mbind res_bind]. destruct Ht as [Pn | d Pd Dd Hd | | Hle]; [| | lia |].
  - by exists true, st'.
  - rewrite (proj2 (Z.eqb_neq d 1)), (proj2 (Z.ltb_lt 1 d)) by lia. exists false, st'. split_and!; try done.
    split; [done |]. intros Pn. apply Z.divide_prime_prime in Dd; [lia | done..].
  - destruct Hj as (b & Eb & Hb); [lia |]. unfold tests in Eb. inv_res Eb. rewrite Ha. cbn.
    exists b, st'. destruct a; cbn in *; [by rewrite Eb | by simplify_eq].
Qed.

(** ** Below a million *)
Lemma cquot_exact n d : 0 < d -> (d | n) -> cquot n d = Ok (n / d) /\ n = d * (n / d).
Proof.
  intros Hd [k ->]. unfold cquot. rewrite (proj2 (Z.eqb_neq d 0)) by lia.
  rewrite Z.quot_mul, Z.div_mul by lia. split; [done | lia].
Qed.

Lemma log2_quot n d : 1 < d -> 0 < n -> (d | n) -> 0 < n / d /\ Z.log2 (n / d) < Z.log2 n.
Proof.
  intros Hd Hn Dd. destruct (cquot_exact n d) as [_ E]; [lia | done |].
  assert (Hq : 0 < n / d) by nia. split; [done |].
  cut (Z.log2 (2 * (n / d)) <= Z.log2 n); [rewrite Z.log2_double by done; lia |]. apply Z.log2_le_mono. nia.
Qed.

Lemma factorize_small depth n r st : tables_ok st -> 0 < n < 1000000 -> map_ok r ->
  total r + Z.log2 n < 4294967295 -> (forall m, (m | n) -> 841 <= m -> judged fuel m) ->
  Z.log2 n < Z.of_nat depth ->
  exists r' st', factorize_ fuel depth n r st = Ok (r', st') /\ tables_ok st' /\ rands st' = rands st /\
    factored n r r'.
Proof.
  revert n r st. induction depth as [|depth IH]; intros n r st T Hn Hr Ht Hj Hd;
    pose proof (Z.log2_nonneg n); [lia |].
  cbn [factorize_]. destruct (Z.eqb_spec n 1) as [-> |].
  { exists r, st. split_and!; [done.. |]. by apply factored_one. }
  destruct (isprime_spec n st T) as (b & st1 & E1 & T1 & R1 & Hb); [lia | by apply Hj |].
  rewrite E1. cbn [mbind res_bind]. destruct b.
  { exists (incr n r), st1. split_and!; [done | done | apply R1 |]. apply factored_prime; [by apply Hb | done | lia]. }
  rewrite (proj2 (Z.ltb_lt n (1000 * 1000))) by lia.
  destruct (prime_div_trivial_spec n 1000 st1 T1) as (d & st2 & E2 & T2 & R2 & Htr); [lia |].
  rewrite E2. cbn [mbind res_bind].
  destruct Htr as [Pn | d Pd Dd Hdn | | ]; [by apply Hb in Pn | | lia..].
  destruct (cquot_exact n d) as [Eq En]; [lia | done |]. rewrite Eq. cbn [mbind res_bind].
  destruct (log2_quot n d) as [Hq Hl]; [lia | lia | done |].
  destruct (incr_ok d r Hr) as (O1 & V1 & S1); [lia |].
  destruct (IH (n / d) (incr d r) st2) as (r' & st3 & E3 & T3 & R3 & F); [done | nia | done | lia | | lia |].
  { intros m Dm. apply Hj. rewrite En. by apply Z.divide_mul_r. }
  exists r', st3. split_and!; [done | done | by rewrite R3, (proj2 (proj2 R2)), (proj2 (proj2 R1)) |].
  rewrite En. apply (factored_mul d (n / d) r (incr d r) r'); [lia | done | by apply factored_prime; [| | lia] | done].
Qed.

(** ** Divisors *)
Lemma crem_divide a b r z : crem a b = Ok r -> (z | b) -> (z | r) <-> (z | a).
Proof.
  unfold crem. destruct (Z.eqb_spec b 0); [done |]. intros [= <-] D.
  rewrite (Z.quot_rem' a b) at 2. split; intros D'.
  - apply Z.divide_add_r; [by apply Z.divide_mul_l | done].
  - apply (Z.divide_add_cancel_r _ (b * (a ÷ b))); [by apply Z.divide_mul_l | done].
Qed.

(** Whatever the arguments, [gcd] returns a common divisor. *)
Lemma gcd_divides a b g : gcd a b = Ok g -> (g | a) /\ (g | b).
Proof.
  unfold gcd. apply (loop_inv _ (fun '(c, d) => forall z, (z | c) -> (z | d) -> (z | a) /\ (z | b))
    (fun g => (g | a) /\ (g | b))); [| done].
  intros [c d] o HI E. destruct (Z.eqb_spec c 0) as [-> | Hc].
  - simplify_eq. apply HI; [apply Z.divide_0_r | done].
  - inv_res E. simplify_eq. intros z Dr Dc. apply HI; [done |].
    by apply (proj1 (crem_divide d c _ z Ha Dc)).
Qed.

Lemma rho_divides n count st g st' : pollard_rho n count st = Ok (g, st') ->
  (g | n) /\ st' = snd (call_rand st).
Proof.
  unfold pollard_rho, call_rand. cbv beta iota zeta. intros E. do 4 inv_res E. simplify_eq. split; [| done].
  revert Ha2. apply (loop_inv _ (fun '(_, _, _, g) => (g | n)) (fun g => (g | n))); [| by eapply gcd_divides].
  intros [[[k x] y] h] o Hh E. unfold rho_step in E. destruct (_ && _); [| by simplify_eq].
  do 4 inv_res E. simplify_eq. by eapply gcd_divides.
Qed.

Lemma p_1_round_divides qs a n g : p_1_round qs a n = Ok (Some g) -> (g | n).
Proof.
  induction qs as [|q qs IH]; [done |]. cbn [p_1_round]. intros E. do 2 inv_res E.
  destruct (_ =? 0); [by apply IH |]. inv_res E. destruct (_ && _); [| by apply IH].
  simplify_eq. by eapply gcd_divides.
Qed.

Lemma p_1_divides n g : pollard_p_1 fuel n = Ok g -> (g | n).
Proof.
  unfold pollard_p_1. intros E. inv_res E. revert E.
  apply (loop_inv _ (fun _ => True) (fun g => (g | n))); [| done]. intros [j x] o _ E.
  destruct (j <? 10); [| simplify_eq; apply Z.divide_1_l]. do 2 inv_res E.
  destruct a1 as [h |]; simplify_eq; [by eapply p_1_round_divides | done].
Qed.

(** The inner loop of [pollard_bent] asks for [g = 1] and [g = n] at once:
    it never runs, and neither method does more than one gcd. *)
Lemma bent_series_idle k b0 n b1 g : n <> 1 -> bent_series k b0 n b1 g = Ok (b1, g).
Proof.
  intros Hn. unfold bent_series. cbn [loop].
  replace ((g =? 1) && (g =? n)) with false by (destruct (Z.eqb_spec g 1), (Z.eqb_spec g n); done || lia).
  by rewrite andb_false_r.
Qed.

Lemma bent_divides n count st g st' : n <> 1 -> pollard_bent n count st = Ok (g, st') ->
  (g | n) /\ st' = snd (call_rand st).
Proof.
  unfold pollard_bent, call_rand. cbv beta iota zeta. intros Hn E. do 3 inv_res E. simplify_eq. split; [| done].
  revert Ha1. apply (loop_inv _ (fun _ => True) (fun g => (g | n))); [| done].
  intros [[[[k len] x] y] z] o _ E. destruct (k <? count); [| simplify_eq; apply Z.divide_1_l].
  inv_res E. rewrite bent_series_idle in E by done. cbn in E.
  destruct (_ && _); simplify_eq; [by eapply gcd_divides | done].
Qed.

(** Fermat's search on an odd number keeps [r = x^2 - y^2 - n] exact and
    never passes the trivial factorisation. *)
Definition root_fits (n : Z) : Prop := 1 <= sq_root n <= (n + 1) / 2 /\ sq_root n * sq_root n < 9223372036854775808.

Lemma ferma_divides n d : 1 < n < 4611686018427387904 -> n mod 2 = 1 -> root_fits n ->
  ferma fuel n = Ok d -> (d | n).
Proof.
  intros Hn Ho (Hx0 & Hs). unfold ferma.
  apply (loop_inv _ (fun '(x, y, r) => 0 <= y < x /\ x <= (n + 1) / 2 /\ r = x * x - y * y - n /\
    -4611686018427387904 <= r < 9223372036854775808) (fun d => (d | n))).
  - intros [[x y] r] o (Hy & Hx & Er & Hr) E. assert (Eh : 2 * ((n + 1) / 2) = n + 1) by modlia.
    destruct (Z.eqb_spec r 0) as [E0 | N0]; [| destruct (Z.ltb_spec 0 r)]; simplify_eq/=.
    + rewrite (proj2 (Z.eqb_neq x y)) by lia. rewrite i64_small by lia. exists (x + y). lia.
    + assert (y + 1 <> x).
      { intros <-. assert (2 * (y + 1) - 1 - n > 0) by lia. lia. }
      rewrite (i64_small (y + y + 1)), !i64_small by lia. split_and!; lia.
    + assert (x <> (n + 1) / 2).
      { intros Ex. assert (y * y <= (x - 1) * (x - 1)) by nia. assert (n = 2 * x - 1) by lia. nia. }
      rewrite (i64_small (x + x + 1)), !i64_small by lia. split_and!; lia.
  - rewrite (i64_small (_ * _)), !i64_small by nia. split_and!; lia.
Qed.

(** ** Pollard's p - 1 with a random base *)

(** The powers of the odd numbers below 100 leave [0..2^62), wrapped or not. *)
Definition mc_loop (p n : Z) : res Z :=
  loop (10 * bits_fuel) (fun cur => if cur <=? n then Ok (inl (i64 (cur * p))) else Ok (inr cur)) p.

Lemma mc_leaves : forallb (fun i => match mc_loop (2 * Z.of_nat i + 3) 4611686018427387903 with Ok _ => true | _ => false end)
  (seq 0 49) = true.
Proof. by vm_compute. Qed.

Lemma loop_below p N n k cur c : loop k (fun cur => if cur <=? N then Ok (inl (i64 (cur * p))) else Ok (inr cur)) cur = Ok c ->
  n <= N -> exists c', loop k (fun cur => if cur <=? n then Ok (inl (i64 (cur * p))) else Ok (inr cur)) cur = Ok c' /\
    n < c' /\ (c' = cur \/ -9223372036854775808 <= c' < 9223372036854775808).
Proof.
  intros E Hn. revert cur E. induction k as [|k IH]; intros cur E; [done |]. cbn in *.
  destruct (Z.leb_spec cur n) as [Hle | Hlt]; cbn; [| by exists cur; auto].
  rewrite (proj2 (Z.leb_le cur N)) in E by lia. cbn in E.
  destruct (IH _ E) as (c' & E' & Hc & Hr). exists c'. split_and!; [done | done |]. right.
  destruct Hr as [-> |]; [apply long_long_range | done].
Qed.

Lemma mc_power_spec p n : 3 <= p < 101 -> p mod 2 = 1 -> 0 < n < 4611686018427387904 ->
  exists c, mc_power p n = Ok c /\ 0 <= c < 9223372036854775808.
Proof.
  intros Hp Ho Hn. pose proof mc_leaves as L. rewrite forallb_forall in L.
  specialize (L (Z.to_nat ((p - 3) / 2))). rewrite Z2Nat.id in L by modlia.
  replace (2 * ((p - 3) / 2) + 3) with p in L by modlia.
  destruct (mc_loop p 4611686018427387903) as [c |] eqn:E.
  - destruct (loop_below _ _ n _ _ _ E) as (c' & E' & Hc & Hr); [lia |]. unfold mc_power. rewrite E'. cbn.
    unfold cquot. rewrite (proj2 (Z.eqb_neq p 0)) by lia. eexists. split; [done |].
    rewrite Z.quot_div_nonneg by lia.
    split; [apply Z.div_pos; lia |]. apply Z.div_lt_upper_bound; [lia |]. destruct Hr; nia.
  - exfalso. assert (false = true); [| done]. apply L. apply in_seq. split; [lia |].
    apply Nat2Z.inj_lt. rewrite Z2Nat.id by modlia. cbn. modlia.
Qed.

Lemma mc_round_spec l n b g : Forall (fun p => 3 <= p < 101 /\ p mod 2 = 1) l ->
  1 < n < 4611686018427387904 -> 0 <= b < 9223372036854775808 -> 0 < g < n -> (g | n) ->
  exists h, mc_round l n b g = Ok h /\ 0 < h < n /\ (h | n).
Proof.
  intros Hl Hn. revert b g. induction Hl as [|p l [Hp Ho] _ IH]; intros b g Hb Hg Dg; [by exists g |].
  cbn [mc_round]. destruct (Z.eqb_spec g 1) as [-> |]; [| by exists g].
  destruct (mc_power_spec p n Hp Ho) as (c & Ec & Hc); [lia |]. rewrite Ec. cbn [mbind res_bind].
  rewrite powmod_spec by lia. cbn [mbind res_bind]. pose proof (Z.mod_pos_bound (b ^ c) n).
  unfold abs. rewrite (i64_small (_ - 1)), i64_small, gcd_spec by lia. cbn [mbind res_bind].
  set (d := Z.gcd _ n). assert (Dd : (d | n)) by apply Z.gcd_divide_r.
  assert (0 < d) by (pose proof (Z.gcd_nonneg (Z.abs (b ^ c mod n - 1)) n);
    assert (d <> 0) by (intros E0; apply Z.gcd_eq_0_r in E0; lia); lia).
  assert (d <= n) by (apply Z.divide_pos_le; [lia | done]).
  apply IH; [lia | |]; destruct (Z.eqb_spec d n); [lia.. | apply Z.divide_1_l | done].
Qed.

Definition odd_primes : list Z :=
  [3; 5; 7; 11; 13; 17; 19; 23; 29; 31; 37; 41; 43; 47; 53; 59; 61; 67; 71; 73; 79; 83; 89; 97].

Lemma table_three : table 3 5 [3].
Proof.
  split; [repeat constructor |]. intros x. rewrite list_elem_of_singleton.
  split; [intros ->; split; [apply Z.prime_3 | lia] |]. intros [Px Hx].
  destruct (decide (x = 4)) as [-> |]; [| lia]. exfalso. by apply (even_not_prime 4).
Qed.

Lemma odd_primes_table : sieve 100 (5, [3]) = Ok odd_primes /\ table 3 101 odd_primes.
Proof.
  assert (E : sieve 100 (5, [3]) = Ok odd_primes) by (by vm_compute).
  split; [done |]. destruct (sieve_spec 3 100 5 [3]) as (l & E' & T); [apply table_three | by right | lia | done | lia | lia |].
  rewrite E in E'. by injection E' as ->.
Qed.

Lemma odd_primes_odd : Forall (fun p => 3 <= p < 101 /\ p mod 2 = 1) odd_primes.
Proof. unfold odd_primes. repeat (apply List.Forall_cons; [by split |]). apply List.Forall_nil. Qed.

Lemma mc_table_spec st : tables_ok st -> exists st', mc_table 100 st = Ok st' /\ tables_ok st' /\
  mc_primes st' = odd_primes /\ rands st' = rands st.
Proof.
  intros [T1 T2]. destruct odd_primes_table as [Es To]. unfold mc_table. destruct T2 as [[-> ->] | [Em T2]].
  - change (0 <? 100) with true. cbv iota. rewrite Es. cbn. eexists. split; [reflexivity |].
    split_and!; [| reflexivity..]. split; [done | right; split; [done | exact To]].
  - assert (Eo : mc_primes st = odd_primes) by (apply sorted_unique; [apply T2 | apply To |]; intros x;
      by rewrite (proj2 T2), (proj2 To)).
    rewrite Em, Eo. cbn. eexists. split; [reflexivity |]. split_and!; [| reflexivity..].
    split; [done | right; split; [done | exact To]].
Qed.

(** The divisor one call of [pollard_monte_carlo] finds, from the number drawn. *)
Definition mc_divisor (r n : Z) : res Z := mc_round odd_primes n (r mod 98 + 2) 1.

Lemma monte_carlo_spec n st : tables_ok st -> 1 < n < 4611686018427387904 -> exists d st',
  pollard_monte_carlo n 100 st = Ok (d, st') /\ tables_ok st' /\ 0 < d < n /\ (d | n) /\
  mc_divisor (rand (rands st)) n = Ok d.
Proof.
  intros T Hn. unfold pollard_monte_carlo, call_rand. cbv beta iota zeta.
  change (crem (rand (rands st)) (100 - 2)) with (Ok (Z.rem (rand (rands st)) 98)). cbn [mbind res_bind].
  pose proof (rand_range (rands st)). rewrite Z.rem_mod_nonneg by lia.
  destruct (mc_table_spec (Statics (primes st) (counted_b st) (mc_primes st) (m_max st) (S (rands st))) T)
    as (st' & E & T' & Em & _).
  rewrite E. cbn [mbind res_bind]. rewrite Em. pose proof (Z.mod_pos_bound (rand (rands st)) 98).
  destruct (mc_round_spec odd_primes n (rand (rands st) mod 98 + 2) 1) as (d & Ed & Hd & Dd);
    [apply odd_primes_odd | done | lia | lia | apply Z.divide_1_l |].
  rewrite Ed. by exists d, st'.
Qed.

(** ** Any odd number *)
Lemma search_div_divides n d st st' : tables_ok st -> 1 < n < 4611686018427387904 -> n mod 2 = 1 -> root_fits n ->
  search_div fuel n st = Ok (d, st') -> (d | n) /\ tables_ok st'.
Proof.
  intros T Hn Ho Hf E. unfold search_div in E.
  destruct (monte_carlo_spec n st T Hn) as (d1 & st1 & E1 & T1 & _ & D1 & _). rewrite E1 in E. cbn [mbind res_bind] in E.
  apply res_bind_inv in E as ([d2 st2] & E2 & E).
  assert (H2 : (d2 | n) /\ tables_ok st2).
  { destruct (d1 =? 1); [| by simplify_eq]. apply rho_divides in E2 as [D ->]. by split. }
  destruct H2 as [D2 T2]. apply res_bind_inv in E as (d3 & E3 & E).
  assert (D3 : (d3 | n)) by (destruct (d2 =? 1); [by eapply p_1_divides | by simplify_eq]).
  apply res_bind_inv in E as ([d4 st4] & E4 & E).
  assert (H4 : (d4 | n) /\ tables_ok st4).
  { destruct (d3 =? 1); [| by simplify_eq]. apply bent_divides in E4 as [D ->]; [by split | lia]. }
  destruct H4 as [D4 T4]. apply res_bind_inv in E as (d5 & E5 & E). simplify_eq. split; [| done].
  destruct (d4 =? 1); [by eapply ferma_divides | by simplify_eq].
Qed.

(** What the parts below rely on about the divisors of [n]. *)
Definition tame (n : Z) : Prop := forall m, (m | n) -> 1 < m ->
  (841 <= m -> judged fuel m) /\ (1000000 <= m -> ~ Z.prime m -> root_fits m).

Lemma tame_divisor n d : tame n -> (d | n) -> tame d.
Proof. intros Hn D m Dm. apply Hn. by transitivity d. Qed.

Lemma odd_divisor n d : n mod 2 = 1 -> (d | n) -> d mod 2 = 1.
Proof.
  intros Ho [k ->]. destruct (decide (d mod 2 = 0)) as [E |]; [| modlia].
  rewrite Zmult_mod, E, Z.mul_0_r in Ho. done.
Qed.

Lemma factorize_returns depth n r st r' st' : tables_ok st -> n < 4611686018427387904 -> n mod 2 = 1 -> tame n ->
  map_ok r -> total r + Z.log2 n < 4294967295 -> factorize_ fuel depth n r st = Ok (r', st') ->
  0 < n /\ tables_ok st' /\ factored n r r'.
Proof.
  revert n r st r' st'. induction depth as [|depth IH]; intros n r st r' st' T Hn Ho Ht Hr Hl E; [done |].
  cbn [factorize_] in E. destruct (Z.eqb_spec n 1) as [-> |].
  { simplify_eq. split_and!; [done.. |]. by apply factored_one. }
  assert (Rest : forall d rest st1, tables_ok st1 -> (d | n) -> 0 < n -> 0 < d ->
    map_ok rest -> total rest <= total r + Z.log2 d -> factored d r rest ->
    (n ← cquot n d; factorize_ fuel depth n rest st1) = Ok (r', st') ->
    0 < n /\ tables_ok st' /\ factored n r r').
  { intros d rest st1 T1 Dd Hn0 Hd Hm Hs F E'. destruct (cquot_exact n d Hd Dd) as [Eq En].
    rewrite Eq in E'. cbn [mbind res_bind] in E'. assert (Hq : 0 < n / d) by nia.
    assert (Dq : (n / d | n)) by (exists d; lia). pose proof (Z.log2_mul_below d (n / d) Hd Hq) as Hlog.
    rewrite <- En in Hlog. apply IH in E' as (_ & T' & F'); [| done | nia | by eapply odd_divisor |
      by eapply tame_divisor | done | lia].
    split_and!; [done | done |]. rewrite En. by apply (factored_mul d (n / d) r rest r'). }
  destruct (decide (1 < n)) as [Hn1 |].
  - destruct (isprime_spec n st T Hn1) as (b & st1 & E1 & T1 & _ & Hb); [apply Ht; [done | lia] |].
    rewrite E1 in E. cbn [mbind res_bind] in E. destruct b.
    { simplify_eq. split_and!; [lia | done |]. pose proof (Z.log2_nonneg n).
      apply factored_prime; [by apply Hb | done | lia]. }
    destruct (Z.ltb_spec n (1000 * 1000)).
    + destruct (prime_div_trivial_spec n 1000 st1 T1) as (d & st2 & E2 & T2 & _ & Htr); [lia |].
      rewrite E2 in E. cbn [mbind res_bind] in E.
      destruct Htr as [Pn | d Pd Dd Hdn | | ]; [by apply Hb in Pn | | lia..].
      assert (F : factored d r (incr d r)) by (apply factored_prime; [done | done |];
        pose proof (Z.log2_nonneg n); lia).
      apply (Rest d _ _ T2 Dd) in E; [done | lia | lia | apply F | apply F | done].
    + apply res_bind_inv in E as ([d st2] & E2 & E).
      apply search_div_divides in E2 as [Dd T2]; [| done | lia | done | apply Ht; [done | lia | lia | by intros P; apply Hb in P]].
      apply res_bind_inv in E as ([rest st3] & E3 & E).
      assert (d <= n) by (apply Z.divide_pos_le; [lia | done]).
      assert (Z.log2 d <= Z.log2 n) by (by apply Z.log2_le_mono).
      apply IH in E3 as (Hd & T3 & F); [| done | lia | by eapply odd_divisor | by eapply tame_divisor | done | lia].
      apply (Rest d _ _ T3 Dd) in E; [done | lia | lia | apply F | apply F | done].
  - exfalso. rewrite isprime_nonpos in E by lia. cbn [mbind res_bind] in E.
    rewrite (proj2 (Z.ltb_lt n (1000 * 1000))) in E by lia.
    destruct (prime_div_trivial_spec n 1000 st T) as (d & st2 & E2 & T2 & _ & Htr); [lia |].
    rewrite E2 in E. cbn [mbind res_bind] in E.
    destruct Htr as [Pn | | |]; [apply Z.prime_ge_2 in Pn; lia | lia | done | lia].
Qed.

(** ** factor *)
Lemma i64_pq n : 0 < n < 9223372036854775808 -> i64 n = n.
Proof. intros. apply i64_small. lia. Qed.

Lemma copy_two p q m : keys m = [p; q] -> copy_keys m = Ok (u32 p, u32 q).
Proof. intros E. destruct m as [|[j c] [|[k d] [|[l e] m]]]; cbn in E; by simplify_eq. Qed.

Lemma map_start : map_ok [].
Proof. split; constructor. Qed.

(** The keys of the finished map: the prime divisors in order. *)
Lemma factored_keys n r : factored n [] r ->
  StronglySorted Z.lt (keys r) /\ forall k, k ∈ keys r <-> Z.prime k /\ (k | n).
Proof.
  intros (O & _ & _ & K). split; [apply O |]. intros k. rewrite K. split; [| by right].
  intros [Hk |]; [by apply not_elem_of_nil in Hk | done].
Qed.

Lemma semiprime_divisors p q k : Z.prime p -> Z.prime q -> Z.prime k /\ (k | p * q) <-> k = p \/ k = q.
Proof.
  intros Pp Pq. split.
  - intros [Pk D]. apply (Z.divide_prime_mul _ _ _ Pk) in D as [D | D]; [left | right]; by apply Z.divide_prime_prime.
  - intros [-> | ->]; (split; [done |]); [apply Z.divide_factor_l | apply Z.divide_factor_r].
Qed.

Lemma semiprime_keys p q r : Z.prime p -> Z.prime q -> p < q -> factored (p * q) [] r -> keys r = [p; q].
Proof.
  intros Pp Pq Hpq F. apply factored_keys in F as [Hs Hk]. apply sorted_unique; [done | |].
  - repeat (apply SSorted_cons || constructor); done.
  - intros k. rewrite Hk, semiprime_divisors, !elem_of_cons by done.
    split; [intros [-> | ->]; auto | intros [-> | [-> | Hn]]; [auto.. |]]. by apply not_elem_of_nil in Hn.
Qed.

Lemma divisor_of_semiprime p q m : Z.prime p -> Z.prime q -> 0 < m -> (m | p * q) ->
  m = 1 \/ m = p \/ m = q \/ m = p * q.
Proof.
  intros Pp Pq Hm Dm. destruct (decide (m = 1)) as [| Hm1]; [by left | right].
  pose proof (Z.prime_ge_2 p Pp). pose proof (Z.prime_ge_2 q Pq).
  destruct (prime_factor m) as (k & Pk & l & El); [lia |].
  assert (Dk : (k | p * q)) by (transitivity m; [by exists l | done]). destruct Dm as [z Ez].
  assert (Half : forall a b, Z.prime a -> Z.prime b -> a * b = p * q -> m = l * a -> m = a \/ m = a * b).
  { intros a b Pa Pb Hab Em. pose proof (Z.prime_ge_2 a Pa). pose proof (Z.prime_ge_2 b Pb).
    assert (Db : (l | b)) by (exists z; apply (Z.mul_reg_l _ _ a); nia).
    destruct (Z.divide_prime_r l b Pb Db) as [? | [? | [-> | ->]]]; [nia | nia | left | right]; lia. }
  destruct (proj1 (semiprime_divisors p q k Pp Pq) (conj Pk Dk)) as [-> | ->].
  - destruct (Half p q) as [|]; auto.
  - destruct (Half q p) as [|]; [done | done | lia | done | auto | rewrite Z.mul_comm; auto].
Qed.

Lemma semiprime_judged p q : Z.prime p -> Z.prime q ->
  (841 <= p -> judged fuel p) -> (841 <= q -> judged fuel q) -> (841 <= p * q -> judged fuel (p * q)) ->
  forall m, (m | p * q) -> 841 <= m -> judged fuel m.
Proof.
  intros Pp Pq Jp Jq Jn m Dm Hm.
  destruct (divisor_of_semiprime p q m Pp Pq) as [-> | [-> | [-> | ->]]]; [lia | done | lia | auto..].
Qed.

Lemma semiprime_composite p q : Z.prime p -> Z.prime q -> ~ Z.prime (p * q).
Proof.
  intros Pp Pq P. pose proof (Z.prime_ge_2 p Pp). pose proof (Z.prime_ge_2 q Pq).
  destruct (Z.divide_prime_r p (p * q) P) as [? | [? | [? | ?]]]; [apply Z.divide_factor_l | nia..].
Qed.

Lemma factorize_prime f k r st : tables_ok st -> Z.prime k -> (841 <= k -> judged fuel k) -> exists st',
  factorize_ fuel (S f) k r st = Ok (incr k r, st') /\ tables_ok st'.
Proof.
  intros T Pk Hj. pose proof (Z.prime_ge_2 k Pk). cbn [factorize_].
  rewrite (proj2 (Z.eqb_neq k 1)) by lia.
  destruct (isprime_spec k st T) as (b & st' & E & T' & _ & Hb); [lia | done |].
  rewrite E. cbn [mbind res_bind]. rewrite (proj2 Hb) by done. by exists st'.
Qed.

(** One turn of [factorize] with a divisor of [pollard_monte_carlo]. *)
Lemma factorize_split f n d st : tables_ok st -> 1000000 <= n < 4611686018427387904 -> ~ Z.prime n -> judged fuel n ->
  mc_divisor (rand (rands st)) n = Ok d -> d <> 1 ->
  Z.prime d -> Z.prime (n / d) -> (841 <= d -> judged fuel d) -> (841 <= n / d -> judged fuel (n / d)) ->
  exists st', factorize_ fuel (S (S f)) n [] st = Ok (incr (n / d) (incr d []), st') /\ (d | n).
Proof.
  intros T Hn Np Jn Ed Hd1 Pd Pq Jd Jq. remember (S f) as g eqn:Eg. cbn [factorize_]. rewrite (proj2 (Z.eqb_neq n 1)) by lia.
  destruct (isprime_spec n st T) as (b & st1 & E1 & T1 & R1 & Hb); [lia | done |].
  rewrite E1. cbn [mbind res_bind]. destruct b; [by destruct Np; apply Hb |].
  rewrite (proj2 (Z.ltb_ge n (1000 * 1000))) by lia. unfold search_div.
  destruct (monte_carlo_spec n st1 T1) as (d' & st2 & E2 & T2 & Hd & Dd & Ed'); [lia |].
  rewrite (proj2 (proj2 R1)), Ed in Ed'. injection Ed' as <-.
  rewrite E2. cbn [mbind res_bind]. repeat (rewrite (proj2 (Z.eqb_neq d 1)) by done; cbn [mbind res_bind]).
  destruct (cquot_exact n d) as [Eq En]; [lia | done |].
  destruct (factorize_prime f d [] st2 T2 Pd Jd) as (st3 & E3 & T3).
  rewrite <- Eg in E3. rewrite E3. cbn [mbind res_bind]. rewrite Eq. cbn [mbind res_bind].
  destruct (factorize_prime f (n / d) (incr d []) st3 T3 Pq Jq) as (st4 & E4 & _).
  rewrite <- Eg in E4. rewrite E4. by exists st4.
Qed.

Lemma semiprime_split p q d st : tables_ok st -> Z.prime p -> Z.prime q -> p < q ->
  1000000 <= p * q < 4611686018427387904 -> (forall m, (m | p * q) -> 841 <= m -> judged fuel m) ->
  mc_divisor (rand (rands st)) (p * q) = Ok d -> d <> 1 -> (2 <= fuel)%nat ->
  exists r st', factorize fuel (p * q) [] st = Ok (r, st') /\ keys r = [p; q].
Proof.
  intros T Pp Pq Hpq Hn Hj Ed Hd1 Hf. pose proof (Z.prime_ge_2 p Pp). pose proof (Z.prime_ge_2 q Pq).
  destruct (monte_carlo_spec (p * q) st T) as (d' & _ & _ & _ & Hd & Dd & Ed'); [lia |].
  rewrite Ed in Ed'. injection Ed' as <-. destruct (cquot_exact (p * q) d) as [_ En]; [lia | done |].
  assert (Hpd : d = p /\ p * q / d = q \/ d = q /\ p * q / d = p).
  { destruct (divisor_of_semiprime p q d Pp Pq) as [-> | [-> | [-> | ->]]]; [lia | done | lia | left | right | lia];
      (split; [done |]); [rewrite Z.mul_comm |]; by apply Z.div_mul; lia. }
  assert (Hpd' : Z.prime d /\ Z.prime (p * q / d)) by (destruct Hpd as [[-> ->] | [-> ->]]; done).
  assert (Dq : (p * q / d | p * q)) by (exists d; lia). destruct Hpd' as [Pd Pd'].
  unfold factorize. destruct fuel as [|[|f]] eqn:Ef; [lia.. |]. rewrite <- Ef in *.
  destruct (factorize_split f (p * q) d st) as (st' & E & _);
    [done | done | by apply semiprime_composite | apply Hj; [done | lia] | done.. | by apply Hj | by apply Hj |].
  rewrite <- Ef in E. rewrite E. do 2 eexists. split; [reflexivity |].
  assert (F1 : factored d [] (incr d [])) by (apply factored_prime; [done | apply map_start | done]).
  assert (F2 : factored (p * q / d) (incr d []) (incr (p * q / d) (incr d []))).
  { apply factored_prime; [done | apply F1 |]. unfold incr. cbn. lia. }
  pose proof (factored_mul d (p * q / d) _ _ _ ltac:(lia) ltac:(nia) F1 F2) as F. rewrite <- En in F.
  by apply semiprime_keys.
Qed.

(** C22: [factor] on a product of two odd primes [p < q].  Whatever the
    random numbers and the tables of earlier calls, a result is [(p, q)];
    below a million, and when the first random base of
    [pollard_monte_carlo] finds a divisor, there is a result.  Relied on:
    that the two probabilistic tests are right about the three numbers, and
    that the square root in [double] is in range. *)
Theorem factor_semiprime p q st : tables_ok st -> Z.prime p -> Z.prime q -> 2 < p < q -> q < 4294967296 ->
  p * q < 4611686018427387904 -> root_fits (p * q) ->
  (841 <= p -> judged fuel p) -> (841 <= q -> judged fuel q) -> (841 <= p * q -> judged fuel (p * q)) ->
  (forall r st', factor fuel (p * q) st = Ok (r, st') -> r = (p, q)) /\
  (p * q < 1000000 /\ Z.log2 (p * q) < Z.of_nat fuel \/
   1000000 <= p * q /\ (2 <= fuel)%nat /\ (exists d, mc_divisor (rand (rands st)) (p * q) = Ok d /\ d <> 1) ->
   exists st', factor fuel (p * q) st = Ok ((p, q), st')).
Proof.
  intros T Pp Pq Hpq Hq Hn Hf Jp Jq Jn. pose proof (semiprime_judged p q Pp Pq Jp Jq Jn) as Hj.
  assert (Hlog : Z.log2 (p * q) < 62) by (apply Z.log2_lt_pow2; nia).
  assert (Two : forall r, keys r = [p; q] -> copy_keys r = Ok (p, q)).
  { intros r Er. rewrite (copy_two p q r Er), !u32_id by (unfold is_u32; lia). done. }
  assert (Ho : p * q mod 2 = 1).
  { destruct (decide (p * q mod 2 = 0)) as [E0 |]; [exfalso | modlia]. apply Z.mod_divide in E0; [| done].
    apply (Z.divide_prime_mul _ _ _ Z.prime_2) in E0 as [E0 | E0];
      apply Z.divide_prime_prime in E0; (done || apply Z.prime_2 || lia). }
  unfold factor. rewrite i64_pq by nia. split.
  - intros r st' E. apply res_bind_inv in E as ([m st1] & Ef & E). apply res_bind_inv in E as (a & Ea & E).
    apply factorize_returns in Ef as (_ & _ & F); [| done | done | done | | apply map_start | cbn; lia].
    + rewrite Two in Ea by (apply semiprime_keys; [done | done | lia | done]). by simplify_eq.
    + intros m' Dm Hm. split; [by apply Hj |]. intros Hb Np.
      destruct (divisor_of_semiprime p q m' Pp Pq) as [-> | [-> | [-> | ->]]]; [lia | done | lia | done | done | done].
  - intros Hr. cut (exists r st', factorize fuel (p * q) [] st = Ok (r, st') /\ keys r = [p; q]).
    { intros (r & st' & E & Ek). rewrite E. cbn [mbind res_bind]. rewrite (Two r Ek). by exists st'. }
    destruct Hr as [[Hs Hl] | (Hb & Hfu & d & Ed & Hd)].
    + destruct (factorize_small fuel (p * q) [] st) as (r & st' & E & _ & _ & F);
        [done | nia | apply map_start | cbn; lia | done | done |].
      exists r, st'. split; [done |]. apply semiprime_keys; [done | done | lia | done].
    + apply (semiprime_split p q d); try done; lia.
Qed.

(** C23: [factor] below a million, when the tests are right about the
    divisors of the number: with [ks] its prime divisors in order, the
    result is [ks] when there are two; three or more are written past the
    end of [r[2]], and with fewer [p] or [q] is what the stack held. *)
Theorem factor_below_million n st : tables_ok st -> 0 < n < 1000000 ->
  (forall m, (m | n) -> 841 <= m -> judged fuel m) -> Z.log2 n < Z.of_nat fuel ->
  exists ks, StronglySorted Z.lt ks /\ (forall k, k ∈ ks <-> Z.prime k /\ (k | n)) /\
    match factor fuel n st with
    | Ok ((p, q), _) => ks = [p; q]
    | Err OutOfBounds => (3 <= length ks)%nat
    | Err Uninit => (length ks <= 1)%nat
    | Err _ => False
    end.
Proof.
  intros T Hn Hj Hl. assert (Z.log2 n < 20) by (apply Z.log2_lt_pow2; lia).
  destruct (factorize_small fuel n [] st) as (r & st' & E & _ & _ & F); [done.. | apply map_start | cbn; lia | done | done |].
  apply factored_keys in F as [Hs Hk]. exists (keys r). split_and!; [done | done |].
  unfold factor, factorize. rewrite i64_pq by lia. rewrite E. cbn [mbind res_bind].
  assert (Hr : forall k, k ∈ keys r -> u32 k = k).
  { intros k Dk. apply Hk in Dk as [Pk Dk]. apply Z.divide_pos_le in Dk; [| lia]. pose proof (Z.prime_ge_2 k Pk).
    apply u32_id. unfold is_u32. lia. }
  destruct r as [|[a c] [|[b d] [|[e g] r]]]; cbn in *; [lia.. | | lia].
  rewrite (Hr a), (Hr b) by (by left || (right; left)). done.
Qed.

(** for 0, and for numbers from 2^63 on, which [long long] makes
    negative, [factor] divides by zero. *)
Theorem factor_divides_by_zero pq st : tables_ok st -> i64 pq <= 0 -> (0 < fuel)%nat ->
  factor fuel pq st = Err DivByZero.
Proof.
  intros T Hn Hf. unfold factor, factorize. destruct fuel as [|f] eqn:Ef; [lia |]. rewrite <- Ef at 1.
  cbn [factorize_]. rewrite (proj2 (Z.eqb_neq (i64 pq) 1)), isprime_nonpos by lia. cbn [mbind res_bind].
  rewrite (proj2 (Z.ltb_lt _ (1000 * 1000))) by lia.
  destruct (prime_div_trivial_spec (i64 pq) 1000 st T) as (d & st2 & E2 & T2 & _ & Htr); [lia |].
  rewrite E2. cbn [mbind res_bind]. destruct Htr as [Pn | | |]; [apply Z.prime_ge_2 in Pn; lia | lia | done | lia].
Qed.

(** C24: [pollard_monte_carlo] ends for every number below 2^62, although its
    products wrap, and returns a divisor other than the number itself. *)
Theorem monte_carlo_ends n st : tables_ok st -> 1 < n < 4611686018427387904 -> exists d st',
  pollard_monte_carlo n 100 st = Ok (d, st') /\ tables_ok st' /\ 0 < d < n /\ (d | n).
Proof.
  intros T Hn. destruct (monte_carlo_spec n st T Hn) as (d & st' & E & T' & Hd & Dd & _). by exists d, st'.
Qed.

End Factorize.
