(* ===== verification/FactClient.v ===== *)
(** * The factors in the key exchange

    The class [Factor] of the key exchange with the [factor] of
    mtx/src/fact.cpp: the second request names the factors of the pq the
    server sent. *)
From S2P Require Import Prelude Serial HashCommon Tg Mtx MtxLayers Handshake MtxFacts HandshakeFacts Auth Fact FactPrimes Factorize.

(** [cmn_fact] leaves [p] and [q] to [factor]; a fault is outside the
    theorems below. *)
Definition library_factor `{Rand} (fuel : nat) (st : statics) : Factor := fun pq =>
  match Fact.factor fuel pq st with Ok (r, _) => r | Err _ => (0, 0) end.

Section Client.
Context `{Env} `{Frame} `{OpenSSL} `{BigNum} `{Rand}.
Variable fuel : nat.

Lemma be_num_small z : 0 <= z < 4294967296 -> be_num (be_bytes 4 z) = z.
Proof.
  intros Hz. unfold be_bytes, be_num. rewrite rev_involutive, le_num_bytes. by apply Z.mod_small.
Qed.

(** the client answers the server's pq with its two prime factors, the
    smaller first: [req_DH_params] and its inner data carry numbers whose
    product is pq. *)
Theorem request_names_factors k sv p q st : tables_ok st -> Z.prime p -> Z.prime q -> 2 < p < q -> q < 4294967296 ->
  1000000 <= p * q < 4611686018427387904 ->
  (841 <= p -> judged fuel p) -> (841 <= q -> judged fuel q) -> judged fuel (p * q) ->
  (exists d, mc_divisor (rand (rands st)) (p * q) = Ok d /\ d <> 1) -> (2 <= fuel)%nat ->
  be_num (sv_pq sv) = p * q ->
  let f : Factor := library_factor fuel st in
  cmn_fact (be_num (sv_pq sv)) = (p, q) /\ factors sv = (p, q) /\
  inner1 k sv = request 0x83c95aec [tl_string (sv_pq sv); tl_string (be_bytes 4 p); tl_string (be_bytes 4 q);
    nonce k; sv_nonce sv; zeros 32] /\
  be_num (be_bytes 4 p) * be_num (be_bytes 4 q) = be_num (sv_pq sv).
Proof.
  intros T Pp Pq Hpq Hq Hn Jp Jq Jn (d & Ed & Hd) Hf Epq f.
  assert (Ef : library_factor fuel st (p * q) = (p, q)).
  { destruct (semiprime_split fuel p q d st) as (r & st' & E & Ek);
      [done | done | done | lia | done | by apply semiprime_judged | done | done | done |].
    unfold library_factor, Fact.factor. rewrite i64_pq, E by lia. cbn [mbind res_bind].
    rewrite (copy_two p q r Ek), !u32_id by (unfold is_u32; lia). done. }
  assert (Es : factors sv = (p, q)).
  { unfold factors, factor, f. rewrite Epq, Ef. by rewrite (proj2 (Z.ltb_lt p q)) by lia. }
  split_and!; [by unfold cmn_fact, factor, f; rewrite Epq | done | by unfold inner1; rewrite Es |].
  rewrite !be_num_small by lia. done.
Qed.

End Client.
