(* ===== verification/Audio.v ===== *)
(** * Audio files: tools/cafextract.c, pcm_to_opusogg.c, opus_to_wav.c

    A voice message is recorded as a CAF file, read behind its header and
    handed to the Opus encoder; a received one is decoded into a WAV file.
    opusfile and opusenc are arguments: whether they open, and what each
    call of [op_read_stereo] decodes.  Files are lists of bytes, a stream is
    what is left of one. *)
From S2P Require Import Prelude HashCommon.

(** ** tools/byteswap.h *)
Definition byte_of (i k : Z) : Z := Z.land (Z.shiftr i k) 255.
Definition bswap_16 (i : Z) : Z := (Z.shiftl (byte_of i 0) 8 + byte_of i 8) mod 65536.
Definition bswap_32 (i : Z) : Z :=
  u32 (Z.shiftl (byte_of i 0) 24 + Z.shiftl (byte_of i 8) 16 + Z.shiftl (byte_of i 16) 8 + byte_of i 24).
Definition bswap_64 (i : Z) : Z :=
  u64 (Z.shiftl (byte_of i 0) 56 + Z.shiftl (byte_of i 8) 48 + Z.shiftl (byte_of i 16) 40 + Z.shiftl (byte_of i 24) 32 +
       Z.shiftl (byte_of i 32) 24 + Z.shiftl (byte_of i 40) 16 + Z.shiftl (byte_of i 48) 8 + byte_of i 56).

(** ** tools/cafextract.c *)

(** [fread(mem, sizeof(mem), 1, in)]: a short file leaves the end of [mem]
    as it was. *)
Definition fread (mem stream : list Z) : list Z * list Z :=
  let n := length mem in
  (take n stream ++ drop (length (take n stream)) mem, drop n stream).

(** [struct CAFChunkHeader]: 12 bytes where [int64_t] is aligned to 4, 16
    where it is aligned to 8; and what the stack held.  [aFormat_swapped]:
    what comes of swapping the members of [aFormat], which nothing has
    written (its first member is converted from a double): a fault, or the
    bytes of some structure. *)
Class CafLayout := {
  chunk_stack : list Z;
  chunk_size : length chunk_stack = 12%nat \/ length chunk_stack = 16%nat;
  aFormat_swapped : res (list Z)
}.

Record CAFFileHeader := FileHeader_ { mFileType : Z; mFileVersion : Z; mFileFlags : Z }.
Record CAFChunkHeader := ChunkHeader_ { mChunkType : Z; mChunkSize : Z }.

(** The fields on a little-endian machine, swapped. *)
Definition file_header (b : list Z) : CAFFileHeader :=
  FileHeader_ (le_num (slice b 0 4)) (bswap_16 (le_num (slice b 4 2))) (bswap_16 (le_num (slice b 6 2))).
Definition chunk_header (b : list Z) : CAFChunkHeader :=
  ChunkHeader_ (bswap_32 (le_num (slice b 0 4))) (i64 (bswap_64 (le_num (slice b (zlen b - 8) 8)))).

Definition desc : Z := 0x64657363.

Section Caf.
Context `{CafLayout}.

(** [caf]: the content of the file, [None] when it does not open; [format]:
    whether the caller wants the format.  The second [fread] reads into
    [aChunkHeader] again, and the members of [aFormat] are swapped all the
    same.  The stream, and what is stored at [format]. *)
Definition caf_extract (caf : option (list Z)) (format : bool) : res (option (list Z * option (list Z))) :=
  match caf with
  | None => Ok None
  | Some s =>
    let '(fileHeader, s) := fread (replicate 8 0) s in
    let '(aChunkHeader, s) := fread chunk_stack s in
    if negb (mChunkType (chunk_header aChunkHeader) =? desc) then Ok None
    else
      let '(aChunkHeader, s) := fread aChunkHeader s in
      aFormat ← aFormat_swapped;
      let '(dChunkHeader, s) := fread chunk_stack s in
      let '(mEditCount, s) := fread (replicate 4 0) s in
      Ok (Some (s, if format then Some aFormat else None))
  end.

End Caf.

(** ** tools/pcm_to_opusogg.c *)

(** [fread(buf, size, nmemb, pcm)]: the complete items, and the stream
    behind the bytes it took. *)
Definition fread_items (size nmemb : nat) (pcm : list Z) : nat * list Z * list Z :=
  let got := take (size * nmemb) pcm in
  ((length got / size)%nat, got, drop (size * nmemb) pcm).

Definition i16 (z : Z) : Z := (z + 32768) mod 65536 - 32768.
Fixpoint shorts (bs : list Z) : list Z :=
  match bs with a :: b :: bs => i16 (le_num [a; b]) :: shorts bs | _ => [] end.

(** The blocks handed to [ope_encoder_write]. *)
Fixpoint encode_loop (fuel channels frame_size : nat) (pcm : list Z) : res (list (list Z)) :=
  match fuel with
  | O => Err NoFuel
  | S fuel =>
    let '(ret, buf, pcm) := fread_items (channels * 2) frame_size pcm in
    if (0 <? ret)%nat then
      blocks ← encode_loop fuel channels frame_size pcm;
      Ok (shorts (take (ret * channels * 2) buf) :: blocks)
    else Ok []
  end.

(** [enc]: [None], or the error when there is no encoder; the array [buf]
    must have an element. *)
Definition pcm_to_opusogg (pcm : option (list Z)) (enc : option Z) (channels frame_size : nat) :
    res (Z * list (list Z)) :=
  match pcm with
  | None => Err AssertFailed
  | Some pcm =>
    match enc with
    | Some error => Ok (error, [])
    | None =>
      _ ← guard_res (0 <? channels * frame_size)%nat OutOfBounds;
      blocks ← encode_loop (S (length pcm)) channels frame_size pcm;
      Ok (0, blocks)
    end
  end.

(** ** tools/opus_to_wav.c *)
Definition le_shorts (vs : list Z) : list Z := mjoin (le_bytes 2 <$> vs).

(** What [op_read_stereo] leaves in [pcm]: the decoded values in front. *)
Definition decoded (vs pcm : list Z) : list Z := vs ++ drop (length vs) pcm.

(** [mem_add] of [size] bytes of [pcm] for every call; [size] is
    the number of elements of [pcm]. *)
Fixpoint decode_loop (calls : list (list Z)) (pcm : list Z) (buf : list Z) : res (list Z) :=
  match calls with
  | [] => Ok buf
  | vs :: calls =>
    _ ← guard_res (length vs <=? length pcm)%nat OutOfBounds;
    let pcm := decoded vs pcm in
    decode_loop calls pcm (buf ++ take (length pcm) (le_shorts pcm))
  end.

Definition chars4 (a b c d : Z) : list Z := [a; b; c; d].

(** The writes before the data. *)
Definition wav_header (len : Z) : list Z :=
  let NumChannels := 2 in
  let BitsPerSample := 16 in
  let SamplingRate := 48000 in
  let ByteRate := Z.quot (NumChannels * BitsPerSample * SamplingRate) 8 in
  let BlockAlign := Z.quot (NumChannels * BitsPerSample) 8 in
  let totalSize := i32 (36 + len) in
  chars4 82 73 70 70 ++ le_bytes 4 totalSize ++ chars4 87 65 86 69 ++ chars4 102 109 116 32 ++
  le_bytes 4 16 ++ le_bytes 2 1 ++ le_bytes 2 NumChannels ++ le_bytes 4 SamplingRate ++ le_bytes 4 ByteRate ++
  le_bytes 2 BlockAlign ++ le_bytes 2 BitsPerSample ++ chars4 100 97 116 97 ++ le_bytes 4 len.

(** [test]: the error of [op_test_file] or [op_test_open], 0 for none;
    [wf]: whether the output opens; [pcm]: what the array holds first, of
    [160 * 48 * c / 2] elements. *)
Definition opus_to_wav (test : Z) (wf : bool) (c : Z) (pcm : list Z) (calls : list (list Z)) : res (Z * list Z) :=
  if negb (test =? 0) then Ok (test, [])
  else if negb wf then Ok (-1, [])
  else
    _ ← guard_res ((0 <? c) && (zlen pcm =? Z.quot (160 * 48 * c) 2)) OutOfBounds;
    buf ← decode_loop calls pcm [];
    Ok (0, wav_header (zlen buf) ++ buf).

(** ** Swapped words *)
Lemma byte_of_spec i k : 0 <= k -> byte_of i k = i / 2 ^ k mod 256.
Proof.
  intros Hk. unfold byte_of. change 255 with (Z.ones 8). rewrite Z.land_ones by done.
  by rewrite Z.shiftr_div_pow2.
Qed.

Lemma byte_of_num bs i : bytes_ok bs -> (i < length bs)%nat -> byte_of (le_num bs) (8 * Z.of_nat i) = nth i bs 0.
Proof.
  intros Hb. revert i. induction Hb as [|b bs Hb0 Hb IH]; intros i Hi; cbn [length] in *; [lia |].
  rewrite byte_of_spec by lia. cbn [le_num]. unfold is_byte in Hb0. destruct i as [|i]; cbn [nth].
  - rewrite Z.mul_0_r, Z.pow_0_r, Z.div_1_r. modlia.
  - replace (8 * Z.of_nat (S i)) with (8 + 8 * Z.of_nat i) by lia. rewrite Z.pow_add_r by lia.
    rewrite <- Z.div_div by lia. change (2 ^ 8) with 256.
    replace ((b + 256 * le_num bs) / 256) with (le_num bs) by modlia.
    rewrite <- byte_of_spec by lia. apply IH. lia.
Qed.

Lemma byte_of_nth bs k i : bytes_ok bs -> (i < length bs)%nat -> k = 8 * Z.of_nat i -> byte_of (le_num bs) k = nth i bs 0.
Proof. intros Hb Hi ->. by apply byte_of_num. Qed.

(** [bswap_32] and [bswap_64] read a number most significant byte first. *)
Lemma bswap_32_num bs : bytes_ok bs -> length bs = 4%nat -> bswap_32 (le_num bs) = be_num bs.
Proof.
  intros Hb Hl. unfold bswap_32.
  rewrite (byte_of_nth bs 0 0), (byte_of_nth bs 8 1), (byte_of_nth bs 16 2), (byte_of_nth bs 24 3) by (done || lia).
  destruct bs as [|a [|b [|c [|d [|]]]]]; try done. cbn [nth].
  repeat (apply Forall_cons_1 in Hb as [? Hb]). unfold is_byte in *. rewrite !Z.shiftl_mul_pow2 by done.
  rewrite u32_id by (unfold is_u32; lia). unfold be_num. cbn. lia.
Qed.

Lemma bswap_64_num bs : bytes_ok bs -> length bs = 8%nat -> bswap_64 (le_num bs) = be_num bs.
Proof.
  intros Hb Hl. unfold bswap_64.
  rewrite (byte_of_nth bs 0 0), (byte_of_nth bs 8 1), (byte_of_nth bs 16 2), (byte_of_nth bs 24 3),
    (byte_of_nth bs 32 4), (byte_of_nth bs 40 5), (byte_of_nth bs 48 6), (byte_of_nth bs 56 7) by (done || lia).
  destruct bs as [|a [|b [|c [|d [|e [|f [|g [|h [|]]]]]]]]]; try done. cbn [nth].
  repeat (apply Forall_cons_1 in Hb as [? Hb]). unfold is_byte in *. rewrite !Z.shiftl_mul_pow2 by done.
  rewrite u64_id by (unfold is_u64; lia). unfold be_num. cbn. lia.
Qed.

(** ** Where the samples of a voice message begin *)
Lemma fread_full mem s : (length mem <= length s)%nat -> fread mem s = (take (length mem) s, drop (length mem) s).
Proof.
  intros Hl. unfold fread. rewrite length_take, Nat.min_l by done. by rewrite drop_ge, app_nil_r by done.
Qed.

Section CafFacts.
Context `{CafLayout}.

(** The number of bytes [caf_extract] reads. *)
Definition caf_read : nat := 12 + 3 * length chunk_stack.

(** A file whose first chunk is the description: the structure nothing has
    written is read, and when that gives values, the stream is behind
    [caf_read] bytes, and the format that is stored is not of the file. *)
Lemma caf_extract_desc s : bytes_ok s -> (caf_read <= length s)%nat -> be_num (slice s 8 4) = desc ->
  forall format, caf_extract (Some s) format =
    (aFormat ← aFormat_swapped; Ok (Some (drop caf_read s, if format then Some aFormat else None))).
Proof.
  intros Hb Hl Hd format. unfold caf_read in *. unfold caf_extract.
  rewrite (fread_full (replicate 8 0)) by (rewrite length_replicate; lia). rewrite length_replicate.
  rewrite (fread_full chunk_stack (drop 8 s)) by (rewrite length_drop; lia).
  assert (E : mChunkType (chunk_header (take (length chunk_stack) (drop 8 s))) = desc).
  { unfold chunk_header. cbn [mChunkType]. rewrite bswap_32_num; [rewrite <- Hd; f_equal | |].
    - rewrite slice_0. unfold slice. rewrite take_take. change (Z.to_nat 8) with 8%nat. f_equal. destruct chunk_size; lia.
    - rewrite slice_0. by apply Forall_take, Forall_take, Forall_drop.
    - rewrite slice_0, !length_take, length_drop. destruct chunk_size; lia. }
  rewrite E, Z.eqb_refl. cbn [negb].
  assert (Lh : length (take (length chunk_stack) (drop 8 s)) = length chunk_stack)
    by (rewrite length_take, length_drop; lia).
  rewrite (fread_full (take _ _)) by (rewrite Lh, !length_drop; lia). rewrite Lh. cbv beta iota zeta.
  destruct aFormat_swapped as [aFormat | e]; [| reflexivity]. rewrite !res_bind_ok.
  rewrite (fread_full chunk_stack) by (rewrite !length_drop; lia). cbv beta iota zeta.
  rewrite (fread_full (replicate 4 0)) by (rewrite length_replicate, !length_drop; lia).
  rewrite length_replicate, !drop_drop. do 4 f_equal. lia.
Qed.

End CafFacts.

(** ** The encoder gets every complete frame *)
Lemma shorts_app a b : (exists k, length a = 2 * k)%nat -> shorts (a ++ b) = shorts a ++ shorts b.
Proof.
  intros [k Hk]. revert a Hk. induction k as [|k IH]; intros a Hk.
  - by destruct a.
  - destruct a as [|x [|y a]]; cbn in Hk; [lia.. |]. cbn. f_equal. apply IH. lia.
Qed.

Lemma joined_cons (a : list Z) l : mjoin (a :: l) = a ++ mjoin l.
Proof. reflexivity. Qed.

Lemma frames_encoded fuel channels frame_size pcm : (0 < channels)%nat -> (0 < frame_size)%nat ->
  (length pcm < fuel)%nat -> exists blocks, encode_loop fuel channels frame_size pcm = Ok blocks /\
  mjoin blocks = shorts (take (length pcm / (channels * 2) * (channels * 2)) pcm).
Proof.
  intros Hc Hf. set (w := (channels * 2)%nat). assert (Hw : w <> 0%nat) by (unfold w; lia).
  revert pcm. induction fuel as [|fuel IH]; intros pcm Hl; [lia |]. cbn [encode_loop]. fold w. unfold fread_items.
  destruct (Nat.le_gt_cases (w * frame_size) (length pcm)) as [Hfull | Hshort].
  - rewrite length_take, Nat.min_l, (Nat.mul_comm w frame_size), Nat.div_mul by done.
    rewrite (proj2 (Nat.ltb_lt 0 frame_size)) by done.
    destruct (IH (drop (frame_size * w) pcm)) as (blocks & E & Eb); [rewrite length_drop; nia |].
    rewrite E. cbn [mbind res_bind]. eexists. split; [reflexivity |]. rewrite joined_cons, Eb.
    replace (frame_size * channels * 2)%nat with (frame_size * w)%nat by (unfold w; lia).
    rewrite take_take, Nat.min_id, length_drop.
    rewrite <- shorts_app by (exists (frame_size * channels)%nat; rewrite length_take; unfold w in *; lia).
    f_equal. set (q := ((length pcm - frame_size * w) / w)%nat).
    replace (length pcm / w)%nat with (frame_size + q)%nat; [by rewrite Nat.mul_add_distr_r, take_take_drop |].
    unfold q. rewrite <- (Nat.add_comm (_ / _)), <- Nat.div_add by done. f_equal. lia.
  - rewrite take_ge by lia. rewrite (drop_ge pcm) by lia.
    destruct (Nat.ltb_spec 0 (length pcm / w)) as [Hr | Hr].
    + destruct fuel as [|fuel]; [destruct pcm; cbn in *; [rewrite Nat.Div0.div_0_l in Hr |]; lia |].
      cbn [encode_loop]. fold w. unfold fread_items. rewrite take_nil. cbn [length].
      rewrite Nat.Div0.div_0_l. cbn. eexists. split; [reflexivity |].
      cbn. rewrite app_nil_r. f_equal. f_equal. unfold w. lia.
    + exists []. split; [done |]. replace (length pcm / w)%nat with 0%nat by lia. done.
Qed.

Section Voice.
Context `{CafLayout}.

(** the path of a voice message: [caf_extract], then [pcm_to_opusogg] with
    one channel and frames of 960 samples.  Where reading the unwritten
    [aFormat] gives values, a file with exactly 68 bytes before its samples
    (file header, a description of 12 and 32 bytes and no other chunk, 12
    bytes of the data chunk, the edit count) reaches the encoder with ten
    values of the header before its samples, four where the chunk header is
    padded. *)
Theorem voice_message_samples head samples aFormat : aFormat_swapped = Ok aFormat -> bytes_ok (head ++ samples) -> length head = 68%nat ->
  be_num (slice head 8 4) = desc -> (exists k, length samples = 2 * k)%nat ->
  exists stream lead blocks, caf_extract (Some (head ++ samples)) false = Ok (Some (stream, None)) /\
    pcm_to_opusogg (Some stream) None 1 960 = Ok (0, blocks) /\
    mjoin blocks = lead ++ shorts samples /\
    length lead = (if decide (length chunk_stack = 12%nat) then 10 else 4)%nat.
Proof.
  intros Hf Hb Hh Hd [k Hk].
  assert (Hr : caf_read = if decide (length chunk_stack = 12%nat) then 48%nat else 60%nat)
    by (unfold caf_read; case_decide; destruct chunk_size; lia).
  assert (Hr2 : (caf_read <= 60)%nat /\ exists j, (68 - caf_read = 2 * j)%nat)
    by (rewrite Hr; case_decide; split; [lia | by exists 10%nat | lia | by exists 4%nat]).
  destruct Hr2 as [Hle [j Hj]].
  assert (E : forall format, caf_extract (Some (head ++ samples)) format =
    (aFormat ← aFormat_swapped; Ok (Some (drop caf_read (head ++ samples), if format then Some aFormat else None)))).
  { apply caf_extract_desc; [done | rewrite length_app; lia |].
    rewrite <- Hd. f_equal. unfold slice. rewrite drop_app_le, take_app_le; [done | rewrite length_drop; lia | lia]. }
  specialize (E false). rewrite Hf, res_bind_ok in E.
  exists (drop caf_read head ++ samples), (shorts (drop caf_read head)).
  rewrite drop_app_le in E by lia.
  destruct (frames_encoded (S (length (drop caf_read head ++ samples))) 1 960 (drop caf_read head ++ samples))
    as (blocks & Eb & Em); [lia.. |].
  exists blocks. split_and!; [done | unfold pcm_to_opusogg; by rewrite Eb | |].
  - rewrite Em, take_ge; [apply shorts_app; exists j; rewrite length_drop; lia |].
    change (1 * 2)%nat with 2%nat. rewrite length_app, length_drop, Hh, Hk, Hj.
    replace (2 * j + 2 * k)%nat with ((j + k) * 2)%nat by lia. by rewrite Nat.div_mul.
  - rewrite Hr. do 68 (destruct head as [|? head]; [done |]). destruct head; [| done]. by case_decide.
Qed.

End Voice.

(** ** What of the decoded values a WAV file keeps *)
Lemma length_le_shorts vs : length (le_shorts vs) = (2 * length vs)%nat.
Proof.
  induction vs as [|v vs IH]; [done |].
  change (le_shorts (v :: vs)) with (le_bytes 2 v ++ le_shorts vs). rewrite length_app, IH. cbn. lia.
Qed.
Lemma zlen_le_shorts vs : zlen (le_shorts vs) = 2 * zlen vs.
Proof. unfold zlen. rewrite length_le_shorts. lia. Qed.
Lemma le_shorts_app a b : le_shorts (a ++ b) = le_shorts a ++ le_shorts b.
Proof. unfold le_shorts. by rewrite fmap_app, join_app. Qed.

(** One call: half of the values of a full array are lost, and behind a
    short one comes what the array held before. *)
Lemma decoded_call vs pcm : (length vs <= length pcm)%nat ->
  take (length (decoded vs pcm)) (le_shorts (decoded vs pcm)) =
  take (length pcm) (le_shorts vs) ++ take (length pcm - 2 * length vs) (le_shorts (drop (length vs) pcm)) /\
  length (decoded vs pcm) = length pcm.
Proof.
  intros Hl. assert (E : length (decoded vs pcm) = length pcm) by (unfold decoded; rewrite length_app, length_drop; lia).
  split; [| done]. rewrite E. unfold decoded. by rewrite le_shorts_app, take_app, length_le_shorts.
Qed.

(** The header agrees with the data, whatever was decoded. *)
Lemma decode_loop_size calls pcm buf : Forall (fun vs => (length vs <= length pcm)%nat) calls ->
  exists buf', decode_loop calls pcm buf = Ok buf' /\ length buf' = (length buf + length calls * length pcm)%nat.
Proof.
  revert pcm buf. induction calls as [|vs calls IH]; intros pcm buf Hc; cbn [decode_loop]; [exists buf; split; [done | cbn; lia] |].
  apply Forall_cons_1 in Hc as [Hv Hc]. unfold guard_res. rewrite (proj2 (Nat.leb_le _ _)) by done. cbn [mbind res_bind].
  destruct (decoded_call vs pcm Hv) as [_ El].
  destruct (IH (decoded vs pcm) (buf ++ take (length (decoded vs pcm)) (le_shorts (decoded vs pcm)))) as (b & E & Eb).
  { by rewrite El. }
  exists b. split; [done |]. rewrite Eb, length_app, length_take, length_le_shorts, El. cbn [length]. lia.
Qed.

Lemma decode_loop_exact calls pcm buf : Forall (fun vs => (2 * length vs = length pcm)%nat) calls ->
  decode_loop calls pcm buf = Ok (buf ++ le_shorts (mjoin calls)).
Proof.
  revert pcm buf. induction calls as [|vs calls IH]; intros pcm buf Hc; cbn [decode_loop]; [by rewrite app_nil_r |].
  apply Forall_cons_1 in Hc as [Hv Hc]. unfold guard_res. rewrite (proj2 (Nat.leb_le _ _)) by lia. cbn [mbind res_bind].
  destruct (decoded_call vs pcm) as [Ed El]; [lia |]. rewrite IH by (by rewrite El).
  rewrite Ed, Hv, Nat.sub_diag, take_0, app_nil_r, take_ge by (rewrite length_le_shorts; lia).
  by rewrite joined_cons, le_shorts_app, <- app_assoc.
Qed.

(** A file whose calls decode half an array each (one channel, packets of
    20 ms: 960 frames of two values) becomes a WAV file with exactly the
    decoded values. *)
Theorem opus_to_wav_exact c pcm calls : 0 < c -> zlen pcm = Z.quot (160 * 48 * c) 2 ->
  Forall (fun vs => (2 * length vs = length pcm)%nat) calls ->
  opus_to_wav 0 true c pcm calls = Ok (0, wav_header (2 * zlen (mjoin calls)) ++ le_shorts (mjoin calls)).
Proof.
  intros H0 Hz Hc. unfold opus_to_wav. cbn [negb Z.eqb]. unfold guard_res.
  rewrite (proj2 (Z.ltb_lt _ _) H0), (proj2 (Z.eqb_eq _ _) Hz). cbn [mbind res_bind].
  rewrite decode_loop_exact by done. cbn [mbind res_bind app]. by rewrite zlen_le_shorts.
Qed.

(** Two channels, packets of 20 ms: the array has 7680 elements, a call
    decodes 1920 values, and every second half of the file is what the array
    held before. *)
Theorem opus_to_wav_stereo pcm vs : zlen pcm = 7680 -> length vs = 1920%nat ->
  opus_to_wav 0 true 2 pcm [vs] =
  Ok (0, wav_header 7680 ++ le_shorts vs ++ le_shorts (take 1920 (drop 1920 pcm))).
Proof.
  intros Hz Hv. unfold opus_to_wav. cbn [negb Z.eqb]. unfold guard_res.
  change (Z.quot (160 * 48 * 2) 2) with 7680. rewrite (proj2 (Z.eqb_eq _ _) Hz). unfold zlen in Hz. cbn [andb Z.ltb Z.compare]. cbn [mbind res_bind decode_loop].
  unfold guard_res. rewrite (proj2 (Nat.leb_le _ _)) by lia. cbn [mbind res_bind].
  destruct (decoded_call vs pcm) as [-> _]; [lia |]. cbn [app]. rewrite Hv.
  rewrite take_ge by (rewrite length_le_shorts; lia).
  assert (Et : take (length pcm - 2 * 1920) (le_shorts (drop 1920 pcm)) = le_shorts (take 1920 (drop 1920 pcm))).
  { rewrite <- (take_drop 1920 (drop 1920 pcm)) at 1. rewrite le_shorts_app, take_app_le, take_ge;
      [done | | ]; rewrite length_le_shorts, length_take, length_drop; lia. }
  rewrite Et, zlen_app, !zlen_le_shorts. unfold zlen. rewrite Hv, length_take, length_drop, Nat.min_l by lia. done.
Qed.
