(* ===== verification/Witness.v ===== *)
(** * Concrete instances

    The interfaces of the development instantiated by executable functions,
    and each property with hypotheses applied at concrete arguments: the
    hypotheses can hold.  The hash functions are the reference definitions
    of Sha1.v and Sha256.v; the cipher is a bytewise rotation, which is
    length-preserving and invertible, all that is assumed of AES-IGE. *)
From stdpp Require Import pretty.
From Stdlib Require Import String.
From S2P Require Import Prelude TlBuf Serial HashCommon Sha1 Sha256 Crc32 Base64 Tg Packet Header Str Images LinkedList Errors Objects Queue QueueInv Delivery Receive Sync SocketLock SendQuery.
Import SendQuery.SendQuery.

Lemma rand_pos seed n : 0 <= (seed * 1103515245 + 12345 + Z.of_nat n * 7919) mod 32768.
Proof. apply Z.mod_pos_bound. lia. Qed.

(** A 32-bit Darwin device. *)
#[export, refine] Instance darwin : Platform := {|
  BUFSIZ := 1024;
  alloc_limit := 2147483648;
  rand_seq := fun seed n => (seed * 1103515245 + 12345 + Z.of_nat n * 7919) mod 32768;
  long_bits := 32
|}.
Proof. all: [> lia | lia | lia | exact rand_pos | by left]. Defined.

(** [rpc_drop_answer#58e4a740 req_msg_id:long] and
    [msgs_ack#62d6b459 msg_ids:Vector<long>]. *)
Definition drop_answer_bytes (id : Z) : list Z := le_bytes 4 0x58e4a740 ++ le_bytes 8 id.
Definition msgs_ack_bytes (ids : list Z) : list Z :=
  le_bytes 4 0x62d6b459 ++ le_bytes 4 0x1cb5c415 ++ le_bytes 4 (zlen ids) ++ mjoin (le_bytes 8 <$> ids).

#[export] Instance clock : Env := {|
  utime := fun n => 4294967296 * (1700000000 + Z.of_nat n);
  wall := fun n => 1700000000 + Z.of_nat n;
  tl_msgs_ack := fun ids => Ok (fresh (msgs_ack_bytes ids));
  tl_rpc_drop_answer := fun id => Ok (fresh (drop_answer_bytes id))
|}.

Definition rot (k : Z) (m : list Z) : list Z := (fun x => u8 (x + k)) <$> m.

Lemma rot_length k m : zlen (rot k m) = zlen m.
Proof. unfold rot, zlen. by rewrite length_fmap. Qed.
Lemma rot_ok k m : bytes_ok (rot k m).
Proof. unfold rot. apply Forall_fmap, Forall_forall. intros. apply u8_range. Qed.
Lemma rot_inv m : bytes_ok m -> rot (-1) (rot 1 m) = m.
Proof.
  intros Hm. unfold rot. rewrite <- list_fmap_compose. rewrite <- (list_fmap_id m) at 2.
  apply list_fmap_ext. intros i x Hx. pose proof (Forall_lookup_1 _ _ _ _ Hm Hx).
  cbn. unfold_int. modlia.
Qed.

Lemma zlen_SHA1 m : zlen (Fips.SHA1 m) = 20.
Proof. unfold zlen. by rewrite Sha1.SHA1_length. Qed.
Lemma zlen_SHA256 m : zlen (Fips256.SHA256 m) = 32.
Proof.
  unfold zlen, Fips256.SHA256. rewrite be_bytes_of_length.
  assert (E : length (foldl Fips256.compress Fips256.H0 (blocks (md_pad m))) = 8%nat); [| by rewrite E].
  generalize (blocks (md_pad m)). intros l. assert (Hl : length Fips256.H0 = 8%nat) by (by vm_compute).
  revert Hl. generalize Fips256.H0. induction l as [|b l IH]; intros h Hh; [done |].
  cbn [foldl]. apply IH. destruct h as [|h0 [|h1 [|h2 [|h3 [|h4 [|h5 [|h6 [|h7 [|]]]]]]]]]; try discriminate Hh.
  cbn [Fips256.compress]. by destruct (Fips256.rounds _ _) as [[[[[[[? ?] ?] ?] ?] ?] ?] ?].
Qed.

#[export, refine] Instance openssl : OpenSSL := {|
  SHA1 := Fips.SHA1;
  SHA256 := Fips256.SHA256;
  ige_encrypt := fun _ _ => rot 1;
  ige_decrypt := fun _ _ => rot (-1)
|}.
Proof.
  all: intros.
  - apply zlen_SHA1.
  - apply SHA1_ok.
  - apply zlen_SHA256.
  - apply be_bytes_of_ok.
  - apply rot_length.
  - apply rot_ok.
  - apply rot_length.
  - apply rot_ok.
  - by apply rot_inv.
Defined.

(** Closing the side conditions by evaluation. *)
Ltac dec := apply (bool_decide_eq_true_1 _); vm_compute; reflexivity.
Ltac ev := first [reflexivity | vm_compute; reflexivity | dec | vm_compute; discriminate
                 | split; vm_compute; first [reflexivity | discriminate]].
Ltac wfd := apply fresh_wf; [dec | vm_compute; reflexivity].

Definition seqn0 (n : nat) : list Z := Z.of_nat <$> seq 1 n.

(** A session after the key exchange. *)
Definition session : tg_t :=
  Tg (fresh (u8 <$> seqn0 256)) (fresh (seqn0 8)) (fresh (rev (seqn0 8))) 3 [] [] 0 7.
Definition busy : tg_t := set_msgids [11; 12] (set_todrop [13] session).

Lemma session_is_ok : session_ok session.
Proof. split_and!; [wfd | ev | wfd | ev]. Qed.
Lemma busy_is_ok : session_ok busy.
Proof. exact session_is_ok. Qed.
Lemma session_key_ok : key_ok session.
Proof. split; [wfd | ev]. Qed.

(** ** Buffers and serialisation *)
Definition b3 : buf_t := fresh [1; 2; 3].
Definition b8 : buf_t := fresh (seqn0 8).
Definition advanced : buf_t := Buf (replicate 1025 0) 1000 20 1024.

Lemma buf_cat_appends_witness :
  exists r, buf_cat b3 (fresh [4; 5]) = Ok r /\ buf_wf r /\ b_off r = 0 /\
    contents r = contents b3 ++ contents (fresh [4; 5]).
Proof. apply buf_cat_appends; [wfd | ev | wfd | ev]. Defined.

Lemma advanced_wf : buf_wf advanced.
Proof. split_and!; [ev | dec | ev ..]. Qed.

Lemma buf_cat_advanced_overflow_witness :
  buf_cat advanced (fresh (seqn0 10)) = Err OutOfBounds.
Proof. apply buf_cat_advanced_overflow; [exact advanced_wf | wfd | ev | ev]. Defined.

Lemma buf_rand_same_second_witness :
  exists a b, buf_rand 1700000000 16 = Ok a /\ buf_rand 1700000000 256 = Ok b /\
    zlen (contents a) = 16 /\ contents a = take (Z.to_nat 16) (contents b).
Proof. apply buf_rand_same_second; [ev | split; ev | ev]. Defined.

Lemma serialize_str_eq_bytes_witness :
  serialize_str b3 = Ok (fresh (tl_string (contents b3))) /\
  serialize_bytes (data_at b3 0) (b_size b3) = Ok (fresh (tl_string (contents b3))) /\
  zlen (tl_string (contents b3)) mod 4 = 0.
Proof. apply serialize_str_eq_bytes; [wfd | ev]. Defined.

Lemma deserialize_serialize_bytes_witness :
  exists b', deserialize_bytes (fresh (tl_string [1; 2; 3; 4; 5] ++ [9; 9])) = Ok (fresh [1; 2; 3; 4; 5], b') /\
    buf_wf b' /\ contents b' = [9; 9].
Proof. apply deserialize_serialize_bytes; [dec | ev | ev | wfd | apply contents_fresh]. Defined.

Lemma deserialize_bytes_overread_witness :
  deserialize_bytes (fresh [254; 0; 0; 1; 7]) = Err OutOfBounds.
Proof.
  apply (deserialize_bytes_overread _ 0 0 1 [7]); [wfd | apply contents_fresh | ev | ev].
Defined.

(** A pong and a msgs_ack, reduced to their ids. *)
Definition dtable : list (Z * (buf_t -> res (option Z * buf_t))) :=
  [(0x347773c5, fun b => Ok (Some 0x347773c5, b)); (0x62d6b459, fun b => Ok (Some 0x62d6b459, b))].
Definition ftable : list (Z * (Z -> res unit)) :=
  [(0x347773c5, fun _ => Ok tt); (0x62d6b459, fun _ => Err NullDeref)].

Lemma get_free_fun_aligned_witness :
  get_free_fun dtable ftable 0x62d6b459 = Ok (snd <$> find_id 0 ftable 0x62d6b459) /\
  (get_free_fun dtable ftable 0x62d6b459 = Ok None <-> get_fun dtable 0x62d6b459 = None).
Proof. apply get_free_fun_aligned. reflexivity. Defined.

Lemma str_appends_concat_witness :
  exists s, (s0 ← str_init (replicate 1024 7); append_all s0 [[97; 98]; []; [99]]) = Ok s /\
    str_value s = mjoin [[97; 98]; []; [99]] /\ str_wf s /\
    str_append s None (zlen (mjoin [[97; 98]; []; [99]])) = Ok s /\ str_append s (Some []) 0 = Ok s.
Proof. apply str_appends_concat; ev. Defined.

(** ** Hashes, checksum and base64 *)
Definition abc : list Z := [97; 98; 99].
Definition key80 : list Z := replicate 80 0xaa.

Lemma sha1_fips_witness : Sha1.sha1 zeros_info abc = Ok (Fips.SHA1 abc).
Proof. apply sha1_fips; ev. Defined.

Lemma sha1_hmac_rfc2104_witness :
  exists s1 s2 s3, Sha1.sha1_initHmac zeros_info key80 = Ok s1 /\ Sha1.sha1_write s1 abc = Ok s2 /\
    Sha1.sha1_resultHmac s2 = Ok s3 /\ take 20 (Sha1.state s3) = Fips.HMAC key80 abc.
Proof. apply sha1_hmac_rfc2104; ev. Defined.

Lemma sha256_fips_witness :
  Sha256.sha256_bytes zeros_sha abc = Ok (Fips256.SHA256 abc) /\
  Sha256.sha256_hex zeros_sha abc = Ok (Fips256.hex (Fips256.SHA256 abc) ++ [0]).
Proof. apply sha256_fips; ev. Defined.

Lemma crc32_is_reference_witness :
  Crc32.crc32_ 0 abc = crc32_reference abc /\
  Crc32.crc32_ 0 (abc ++ [100]) = Crc32.crc32_ (Crc32.crc32_ 0 abc) [100].
Proof. apply crc32_is_reference. ev. Defined.

Lemma buf_base64_roundtrip_witness :
  exists s, Base64.buf_to_base64 b3 = Ok (Some s) /\ s = rfc4648 (contents b3) /\
    forall x, exists b', Base64.buf_from_base64 (replicate 256 9) (Some (s ++ 0 :: x)) = Ok b' /\
      contents b' = contents b3.
Proof. apply buf_base64_roundtrip; [wfd | ev | ev]. Defined.

Lemma buf_from_base64_empty_witness :
  Base64.buf_from_base64 (replicate 256 0) (Some (0 :: [65])) = Err OutOfBounds.
Proof. apply buf_from_base64_empty. ev. Defined.

(** ** Packets *)
Definition plain16 : list Z := seqn0 32.

Lemma tg_encrypt_seals_witness :
  exists e, tg_encrypt session (fresh plain16) true = Ok e /\ buf_wf e /\
    contents e = seal 0 (contents (key session)) (contents (fresh plain16)) /\
    open 0 (contents (key session)) (contents e) = Some (contents (fresh plain16)).
Proof. apply tg_encrypt_seals; [exact session_key_ok | wfd | ev | ev]. Defined.

Lemma seal_ok x k p : bytes_ok (seal x k p).
Proof.
  unfold seal. repeat apply Forall_app_2.
  - apply Forall_take, Forall_drop, SHA1_bytes.
  - apply Forall_take, Forall_drop, SHA256_bytes.
  - apply ige_encrypt_bytes.
Qed.

Lemma seal_wf x k p : fits (zlen p + 24) -> buf_wf (fresh (seal x k p)).
Proof.
  intros Hf. apply fresh_wf; [apply seal_ok |].
  assert (zlen (seal x k p) <= zlen p + 24); [| unfold fits in *; lia].
  unfold seal. rewrite !zlen_app, ige_encrypt_length. unfold key_id_of, msg_key_of, sub, slice.
  unfold zlen. rewrite !length_take. lia.
Qed.

Lemma tg_decrypt_opens_witness :
  (exists d, tg_decrypt session (fresh (seal 8 (contents (key session)) plain16)) true = Ok d /\
    buf_wf d /\ contents d = plain16) /\
  open 8 (contents (key session)) (contents (fresh (seal 8 (contents (key session)) plain16))) = Some plain16.
Proof.
  apply tg_decrypt_opens; [exact session_key_ok | apply seal_wf; ev | apply contents_fresh | ev | ev | ev].
Defined.

Lemma tg_decrypt_unauthenticated_witness :
  let k := contents (key session) in
  let m := fresh (key_id_of k ++ replicate 16 0 ++ replicate 32 0) in
  let plain := ige_decrypt (kdf_key 8 k (replicate 16 0)) (kdf_iv 8 k (replicate 16 0)) (replicate 32 0) in
  (exists d, tg_decrypt session m true = Ok d /\ contents d = plain) /\
  (replicate 16 0 <> msg_key_of 8 k plain -> open 8 k (contents m) = None).
Proof.
  apply tg_decrypt_unauthenticated;
    [exact session_key_ok | wfd | ev | ev | apply contents_fresh | ev].
Defined.

(** ** Headers and the transport *)
Lemma transport_roundtrip_witness :
  (exists t, tg_transport b8 = Ok t /\ tg_detransport t = Ok (fresh (contents b8))) /\
  (buf_wf (fresh (le_bytes 4 99 ++ seqn0 8)) ->
   contents (fresh (le_bytes 4 99 ++ seqn0 8)) = le_bytes 4 99 ++ contents b8 ->
   is_u32 99 -> 99 <> 0xfffffe6c -> 99 <> b_size b8 ->
   tg_detransport (fresh (le_bytes 4 99 ++ seqn0 8)) = Ok (fresh (le_bytes 4 (-405)))).
Proof. apply transport_roundtrip; [wfd | ev ..]. Defined.

Lemma header_deheader_witness :
  exists s tg' id,
    tg_header b8 true true (Some 0) session = Ok (s, Some id, tg') /\
    id = mid session (ticks session) /\ b_size s mod 16 = 0 /\
    12 <= b_size s - 32 - b_size b8 <= 1024 /\
    seqn tg' = i32 (seqn session + 1) /\
    (exists padding, contents s = enc_packet (contents (salt session)) (contents (ssid session)) id
       (i32 (seqn session * 2 + 1)) (contents b8) padding) /\
    exists tg'', tg_deheader s true tg' = Ok (fresh (contents b8), tg'') /\
      contents (salt tg'') = contents (salt session) /\ msgids tg'' = [id].
Proof. apply (header_deheader b8 true 0 session); [exact session_is_ok | wfd | ev | ev]. Defined.

Lemma drop_bytes_shape id : zlen (drop_answer_bytes id) = 12 /\ bytes_ok (drop_answer_bytes id).
Proof. split; [reflexivity |]. apply Forall_app_2; apply le_bytes_ok. Qed.

Lemma header_piggybacks_acks_witness :
  exists s tg' outer_id outer_seq padding,
    tg_header b8 true true (Some 0) busy = Ok (s, Some (mid busy (ticks busy)), tg') /\
    contents s = enc_packet (contents (salt busy)) (contents (ssid busy)) outer_id outer_seq
      (le_bytes 4 id_msg_container ++ le_bytes 4 (2 + zlen (todrop busy))
       ++ mtp_message (mid busy (ticks busy)) (i32 (seqn busy * 2 + 1)) (contents b8)
       ++ mtp_message (mid busy (S (ticks busy))) (i32 (i32 (seqn busy + 1) * 2))
            (contents (fresh (msgs_ack_bytes (msgids busy))))
       ++ drop_messages drop_answer_bytes (after_acks busy) (todrop busy)) padding /\
    b_size s mod 16 = 0 /\ msgids tg' = [] /\ todrop tg' = [].
Proof.
  apply header_piggybacks_acks; [reflexivity | exact drop_bytes_shape | exact busy_is_ok | wfd
    | discriminate | reflexivity | wfd | ev | ev | ev].
Defined.

Lemma deheader_overread_witness :
  tg_deheader (fresh (seqn0 8 ++ rev (seqn0 8) ++ seqn0 8 ++ le_bytes 4 1 ++ le_bytes 4 65536 ++ [])) true
    session = Err OutOfBounds.
Proof.
  eapply (deheader_overread _ _ (seqn0 8) (rev (seqn0 8)) (seqn0 8) (le_bytes 4 1) (le_bytes 4 65536) []);
    [wfd | apply contents_fresh | ev | ev | ev | ev | ev | wfd | ev | ev | ev].
Defined.

Lemma prepare_query_delivers_witness :
  exists t id tg' sealed padding,
    tg_prepare_query b8 true (Some 0) session = Ok (t, Some id, tg') /\
    contents t = le_bytes 4 (zlen sealed) ++ sealed /\
    open 0 (contents (key session)) sealed =
      Some (enc_packet (contents (salt session)) (contents (ssid session)) id
              (i32 (seqn session * 2 + 1)) (contents b8) padding) /\
    seqn tg' = i32 (seqn session + 1).
Proof.
  apply prepare_query_delivers; [exact session_is_ok | exact session_key_ok | wfd | ev | ev].
Defined.

(** ** Thumbnails *)
Lemma svg_path_expansion_witness :
  image_from_svg_path (replicate 1024 0) (fresh [200; 130; 70; 5]) =
    Ok (svg_open ++ [77] ++ mjoin (code_char <$> contents (fresh [200; 130; 70; 5])) ++ [122]
        ++ svg_path_end ++ svg_end) /\
  code_char 70 <> documented_char 70.
Proof. apply svg_path_expansion; [ev | wfd | ev | ev]. Defined.

Lemma photo_stripped_jpeg_witness :
  exists r, image_from_photo_stripped (fresh [1; 40; 30; 5; 6]) = Ok r /\
    contents r = <[166%nat := 30]> (<[164%nat := 40]> header) ++ [5; 6] ++ footer.
Proof. apply (photo_stripped_jpeg (fresh [1; 40; 30; 5; 6])); [wfd | ev]. Defined.

(** ** Lists and errors *)
Lemma list_refines_witness :
  let h : gmap nat (@list_t nat) := {[0%nat := Node None 5%nat]} in
  let cmp := fun d => Ok (bool_decide (d = 5%nat)) in
  (exists h', list_add (Some 1%nat) h (Some 0%nat) 6%nat = (0, h', Some 1%nat) /\
     holds_items h' (Some 1%nat) [6%nat; 5%nat]) /\
  list_for_each h (Some 0%nat) = Ok [5%nat] /\ list_free h (Some 0%nat) = Ok (∅, None) /\
  match cut cmp [5%nat] with
  | Ok (o, ds') => exists h' l', list_cut cmp h (Some 0%nat) = Ok (o, h', l') /\ holds_items h' l' ds'
  | Err f => list_cut cmp h (Some 0%nat) = Err f
  end.
Proof.
  apply (list_refines (fun d => Ok (bool_decide (d = 5%nat))) {[0%nat := Node None 5%nat]} (Some 0%nat) [5%nat]
           1%nat 6%nat).
  - exists [0%nat]. split_and!; [| repeat constructor; by apply not_elem_of_nil | set_solver].
    apply (chain_cons _ 0%nat None); [reflexivity | constructor].
  - set_solver.
Defined.

Lemma error_number_selects_row_witness :
  let n := digits 0 [50] in
  tg_error_migrate (Some (migrate_text USER [50] [])) = (if n =? 0 then None else Some n) /\
  (1 <= n <= 8 -> exists d, dc_at n = Ok d /\ dc d = n) /\
  (9 <= n -> dc_at n = Err OutOfBounds) /\
  tg_error_flood_wait (Some (chars "FLOOD_WAIT_" ++ [50] ++ [])) = n.
Proof.
  apply (error_number_selects_row USER [50] []); [discriminate | repeat constructor | discriminate | reflexivity].
Defined.

(** ** A codec *)
Definition big : list Z := replicate (Z.to_nat 20000) 7.
Definition toy_data (s : list Z) : list Z :=
  match s with [] => [] | x :: m => if x =? 77 then big else u8 <$> m end.
Definition toy_gzip (m : list Z) : list Z := if decide (m = big) then [77] else 31 :: m.
Definition toy_inflate (s : list Z) (n : Z) : Z * list Z :=
  let d := toy_data s in if zlen d <=? n then (1, d) else (-5, take (Z.to_nat n) d).

Lemma toy_data_ok s : bytes_ok (toy_data s).
Proof.
  destruct s as [|x m]; [constructor |]. cbn [toy_data].
  destruct (x =? 77); [apply Forall_replicate; unfold is_byte; lia |].
  apply Forall_fmap, Forall_forall. intros. apply u8_range.
Qed.
Lemma toy_gzip_ok m : bytes_ok m -> bytes_ok (toy_gzip m).
Proof.
  intros. unfold toy_gzip. destruct (decide _); repeat (apply Forall_cons_2; [unfold is_byte; lia |]); auto.
Qed.
Lemma toy_bound s n : 0 <= n -> zlen (snd (toy_inflate s n)) <= n.
Proof.
  intros. unfold toy_inflate. destruct (Z.leb_spec (zlen (toy_data s)) n); [done |].
  cbn [snd]. unfold zlen. rewrite length_take. lia.
Qed.
Lemma toy_ok s n : bytes_ok (snd (toy_inflate s n)).
Proof.
  unfold toy_inflate. destruct (_ <=? n); [apply toy_data_ok | apply Forall_take, toy_data_ok].
Qed.
Lemma toy_inverse m n : bytes_ok m -> 0 <= n ->
  toy_inflate (toy_gzip m) n = if zlen m <=? n then (1, m) else (-5, take (Z.to_nat n) m).
Proof.
  intros Hm _. unfold toy_inflate. assert (E : toy_data (toy_gzip m) = m); [| by rewrite E].
  unfold toy_gzip. destruct (decide (m = big)) as [-> | _]; [done |]. cbn [toy_data Z.eqb].
  rewrite <- (list_fmap_id m) at 2. apply list_fmap_ext. intros i x Hx.
  apply u8_id. exact (Forall_lookup_1 _ _ _ _ Hm Hx).
Qed.
#[export] Instance zlib : Zlib := {|
  gzip := toy_gzip; inflate := toy_inflate; gzip_ok := toy_gzip_ok; inflate_bound := toy_bound;
  inflate_ok := toy_ok; inflate_gzip := toy_inverse
|}.

Lemma gunzip_ratio_limit_witness :
  (zlen big <= gunzip_room (b_size (fresh [77])) ->
   exists b, gunzip_buf (fresh [77]) = Ok (0, b) /\ buf_wf b /\ contents b = big) /\
  (gunzip_room (b_size (fresh [77])) < zlen big ->
   (exists b, gunzip_buf (fresh [77]) = Ok (Z_BUF_ERROR, b) /\ b_size b = 0) /\
   tg_tl_from_gzip [] (Some (Tl b3 (Gzip_packed (fresh [77])))) = Ok None).
Proof.
  apply gunzip_ratio_limit; [wfd | vm_compute; reflexivity | apply Forall_replicate; vm_compute; split; congruence | ev | ev].
Defined.

(** ** A server *)
Definition server_ip : list Z := chars "149.154.167.50".

(** The generated parser, reduced to four constructors. *)
Definition parse_result (b : buf_t) : res (option tl_t * buf_t) :=
  '(req, rest) ← deserialize_ui64 (advance b 4);
  Ok (Some (Tl (fresh (contents b)) (Rpc_result req (Some (Tl (fresh (contents rest)) Pong)))), rest).
Definition parser : list (Z * (buf_t -> res (option tl_t * buf_t))) :=
  [(0xf35c6d01, parse_result); (0x347773c5, fun b => Ok (Some (Tl (fresh (contents b)) Pong), b));
   (0xedab447b, fun b => Ok (Some (Tl (fresh (contents b)) Bad_server_salt), b));
   (0x3072cfa1, fun b => Ok (Some (Tl (fresh (contents b)) (Gzip_packed (advance b 4))), b))].

(** The result of the first query of [session]: a pong. *)
Definition first_id : Z := mid session (ticks session).
Definition pong_bytes : list Z := le_bytes 4 0x347773c5 ++ replicate 16 9.
Definition result_body : list Z := le_bytes 4 0xf35c6d01 ++ le_bytes 8 first_id ++ pong_bytes.
Definition reply : packet := Pkt (seqn0 8) (rev (seqn0 8)) 77 1 result_body (replicate 16 3).
Definition sealed_reply : list Z := seal 8 (contents (key session)) (plain reply).
Definition reply_chunks : list (list Z) := [take 10 sealed_reply; drop 10 sealed_reply].
Definition reply_stream : stream :=
  Some (le_bytes 4 (24 + zlen (plain reply))) :: (Some <$> reply_chunks) ++ [].

#[export] Instance network : Network := {|
  app_open := fun _ _ => SharedRc (u8 <$> seqn0 256) (seqn0 8) 0 [];
  dial := fun _ _ _ => Some reply_stream;
  progress_cb := fun _ _ _ => 0
|}.

Definition junk4 : list Z := [170; 170; 170; 170].

(** One query waits for the reply, with the callback [c]. *)
Definition waiting_queue (c : callback) : tg_queue_t :=
  Queue server_ip 443 None 3 true false b8 first_id false true (Some c) None.
Definition waiting_world (c : callback) : world :=
  World session server_ip 443 None {[0%nat := waiting_queue c]} 1 {[0%nat := Node None 0%nat]} (Some 0%nat)
    false false ∅ {[3 := reply_stream]} 4 [].
Definition idle_world : world :=
  World session server_ip 443 None ∅ 0 ∅ None false false ∅ ∅ 3 [].

Lemma one_item : holds_items {[0%nat := Node None 0%nat]} (Some 0%nat) [0%nat].
Proof.
  exists [0%nat]. split_and!; [| repeat constructor; by apply not_elem_of_nil | set_solver].
  apply (chain_cons _ 0%nat None); [reflexivity | constructor].
Qed.
Lemma waits c : waiting (waiting_world c) first_id 0 (waiting_queue c) [].
Proof. split; try reflexivity. exists [0%nat]. split; [apply one_item | by vm_compute]. Qed.
Lemma waits_inv : Inv false None [] (waiting_world (User 9)).
Proof.
  split; cbn; [done | | done |].
  - intros a q [<- <-]%lookup_singleton_Some. split; [done | lia].
  - exists [0%nat]. split_and!; [apply one_item | repeat constructor; by apply not_elem_of_nil |].
    constructor; [by eexists | constructor].
Qed.
Lemma waits_alone : alone first_id 0 (waiting_world (User 9)).
Proof.
  exists [0%nat]. split; [apply one_item |]. intros b q ->%list_elem_of_singleton.
  cbn. rewrite lookup_singleton_eq. by intros [= <-].
Qed.

Lemma two_chunks (l : list Z) : mjoin [take 10 l; drop 10 l] = l.
Proof.
  change (mjoin [take 10 l; drop 10 l]) with (take 10 l ++ drop 10 l ++ []).
  by rewrite app_nil_r, take_drop.
Qed.
Lemma two_nonempty (l : list Z) : (10 < length l)%nat -> Forall (fun c => c <> []) [take 10 l; drop 10 l].
Proof.
  intros L. repeat (apply Forall_cons_2; [intros E; apply (f_equal length) in E;
    rewrite ?length_take, ?length_drop in E; cbn [length] in E; lia |]).
  constructor.
Qed.
Lemma sealed_length k p : (10 < length (seal 8 k p))%nat.
Proof. pose proof (zlen_seal 8 k p) as L. pose proof (zlen_nonneg p). unfold zlen in *. lia. Qed.
Lemma reply_cut : mjoin reply_chunks = seal 8 (contents (key session)) (plain reply).
Proof. unfold reply_chunks, sealed_reply. apply two_chunks. Qed.
Lemma reply_nonempty : Forall (fun c => c <> []) reply_chunks.
Proof. unfold reply_chunks, sealed_reply. apply two_nonempty, sealed_length. Qed.
Lemma reply_ok : packet_ok reply.
Proof. split; ev. Qed.
Lemma reply_delivers c : delivers (waiting_world c) 3 reply reply_chunks [].
Proof. split_and!; [reflexivity | exact reply_cut | exact reply_nonempty]. Qed.
Lemma world_ready c : session_ready (waiting_world c).
Proof. split_and!; [exact session_key_ok | wfd | ev]. Qed.
Lemma idle_full : session_full idle_world.
Proof. split_and!; [exact session_is_ok | exact session_key_ok | reflexivity]. Qed.


Lemma catched_tl_delivers_witness :
  exists w', catched_tl parser first_id (Some (Tl b3 Pong)) (waiting_world (User 9)) = Ok (tt, w') /\
    w_events w' = w_events (waiting_world (User 9)) ++ [OnDone 0 (Some (Tl b3 Pong))] /\
    w_queues w' = <[0%nat := set_loop false (waiting_queue (User 9))]> (w_queues (waiting_world (User 9))) /\
    holds_items (w_nodes w') (w_head w') [] /\
    w_tg w' = w_tg (answer_session (Tl b3 Pong) (waiting_world (User 9))) /\
    w_net w' = w_net (waiting_world (User 9)).
Proof. eapply catched_tl_delivers; [apply waits | reflexivity | reflexivity | reflexivity]. Defined.

Lemma detailed_info_loses_answer_witness :
  exists w1 w2,
    handle_tl parser 1 0 (Some (Tl b3 (Msg_detailed_info first_id))) (waiting_world (User 9)) = Ok (tt, w1) /\
    handle_tl parser 1 0 (Some (Tl b8 (Rpc_result first_id (Some (Tl b3 Pong))))) w1 = Ok (tt, w2) /\
    w_events w2 = w_events (waiting_world (User 9)) ++ [OnDone 0 None] /\
    (loop <$> w_queues w2 !! 0%nat) = Some true.
Proof. eapply detailed_info_loses_answer; [apply waits | reflexivity | reflexivity]. Defined.

Lemma sync_null_answer_witness :
  handle_tl parser 1 0 (Some (Tl b3 (Msg_detailed_info first_id))) (waiting_world (Sync 4)) = Err NullDeref /\
  handle_tl parser 1 0 (Some (Tl b3 (Rpc_result first_id None))) (waiting_world (Sync 4)) = Err NullDeref /\
  forall t, is_rpc_error t = false -> answer parser t = Ok None ->
    handle_tl parser 1 0 (Some (Tl b3 (Rpc_result first_id (Some t)))) (waiting_world (Sync 4)) = Err NullDeref.
Proof. eapply sync_null_answer; [apply waits | reflexivity]. Defined.

Definition migrate_msg : buf_t := fresh (chars "USER_MIGRATE_2").

Definition flood_msg : buf_t := fresh (chars "FLOOD_WAIT_30").

Lemma rpc_error_restarts_witness :
  let w := waiting_world (User 9) in
  let q := waiting_queue (User 9) in
  let server := chars "149.154.167.51" in
  (exists w', catched_tl parser first_id (Some (Tl b3 (Rpc_error 303 migrate_msg))) w = Ok (tt, w') /\
     w_queues w' = <[0%nat := set_loop false q]> (<[1%nat := again 1 q server]> (w_queues w)) /\
     w_events w' = [IpToDatabase server; Started (RunThread 1); Started (TimerThread 1)] /\
     w_ip w' = server /\ holds_items (w_nodes w') (w_head w') []) /\
  (exists w', catched_tl parser first_id (Some (Tl b3 (Rpc_error 420 flood_msg))) w = Ok (tt, w') /\
     w_queues w' = <[0%nat := set_loop false q]> (<[1%nat := again 1 q (ip q)]> (w_queues w)) /\
     w_events w' = [Slept 30; Started (RunThread 1); Started (TimerThread 1)] /\
     w_ip w' = w_ip w /\ holds_items (w_nodes w') (w_head w') []).
Proof.
  split.
  - eapply (rpc_error_restarts parser (waiting_world (User 9)) first_id 0 (waiting_queue (User 9)))
      with (k := USER) (n := 2) (d := DC 2 2 "venus" "149.154.167.51" "2001:67c:4e8:f002::a" "AMS, Amsterdam, NL");
      [apply waits | cbn; lia | wfd | lia | reflexivity | reflexivity | by apply address_of_table].
  - eapply (rpc_error_restarts parser (waiting_world (User 9)) first_id 0 (waiting_queue (User 9)))
      with (ds := [51; 48]);
      [apply waits | cbn; lia | wfd | reflexivity | split; [done | repeat constructor; lia] | cbn; lia].
Defined.

(** ** Receiving *)
Definition pong : tl_t := Tl (fresh pong_bytes) Pong.
Lemma reply_object : deserialize parser (fresh (pk_body reply)) =
  Ok (Some (Tl (fresh result_body) (Rpc_result first_id (Some pong)))).
Proof. vm_compute. reflexivity. Qed.

Lemma receive_delivers_result_witness :
  exists w', _tg_receive parser (length reply_chunks + 1) junk4 0 3 (waiting_world (User 9)) = Ok (RTL_REREAD, w') /\
    w_events w' = [] ++ [OnDone 0 (Some pong)] /\
    w_queues w' = <[0%nat := set_loop false (waiting_queue (User 9))]> (w_queues (waiting_world (User 9))) /\
    msgids (w_tg w') = [] ++ [pk_id reply] /\ salt (w_tg w') = fresh (pk_salt reply) /\
    w_net w' !! 3 = Some [].
Proof.
  eapply (receive_delivers_result parser 0 junk4 (waiting_world (User 9)) 0 (waiting_queue (User 9)) 3 reply
    reply_chunks [] first_id 0 (waiting_queue (User 9)) [] 9).
  - apply world_ready.
  - reflexivity.
  - reflexivity.
  - exact reply_ok.
  - apply reply_delivers.
  - reflexivity.
  - apply waits.
  - reflexivity.
  - exact reply_object.
  - reflexivity.
  - reflexivity.
Defined.

Definition short_stream : stream := Some (le_bytes 4 100) :: (Some <$> [[1; 2; 3]; [4]]).
Definition closing_world : world :=
  set_net {[3 := short_stream]} 4 (waiting_world (User 9)).

Lemma receive_closed_spins_witness :
  _tg_receive parser (2 + 1000) junk4 0 3 closing_world = Err NoFuel.
Proof.
  apply (receive_closed_spins parser 1000 junk4 closing_world 0 (waiting_queue (User 9)) 3 100 [[1; 2; 3]; [4]]);
    [reflexivity | reflexivity | reflexivity | dec | ev | split; ev | ev | reflexivity].
Defined.

Lemma reply_answers :
  server_answers parser idle_world (copy_ip server_ip) 443 reply reply_chunks [] pong (Some pong).
Proof.
  split; [reflexivity | exact reply_ok | exact reply_cut | exact reply_nonempty | |].
  - exists (fresh result_body), pong. split; [exact reply_object | by split].
  - vm_compute. reflexivity.
Qed.

Lemma sync_query_answers_witness :
  exists bs w', tg_send_query_sync parser 3 (length reply_chunks + 1) junk4 7 b8 idle_world = Ok (Some pong, w') /\
    carries idle_world (contents b8) bs /\
    w_events w' = [] ++
      [Started (RunThread 0); Started (TimerThread 0); Opened 3 (copy_ip server_ip) 443;
       Sent 3 [0xee; 0xee; 0xee; 0xee]; Sent 3 bs; OnDone 0 (Some pong); Closed 3; Slept 60] /\
    w_queues w' = ∅ /\ holds_items (w_nodes w') (w_head w') [] /\
    w_queue_lock w' = false /\ w_socket_mutex w' = false /\ w_net w' = delete 3 ∅ /\
    msgids (w_tg w') = [pk_id reply].
Proof.
  apply (sync_query_answers parser 0 0 junk4 idle_world 7 b8 reply reply_chunks [] pong (Some pong)).
  - reflexivity.
  - reflexivity.
  - exists []. split_and!; [constructor | constructor | done].
  - cbn. lia.
  - exact idle_full.
  - wfd.
  - ev.
  - exact reply_answers.
  - reflexivity.
  - reflexivity.
Defined.

(** A query sent on a connection of its own. *)
Definition calling : caller := Caller (waiting_world (User 9)) true None.
Definition received : option (buf_t * caller) :=
  Eval vm_compute in match tg_receive 4 junk4 3 3 calling with Ok (Some r, c) => Some (r, c) | _ => None end.
Definition message : buf_t := default b3 (fst <$> received).
Definition after : caller := default calling (snd <$> received).

Lemma first_object_is_answer_witness :
  exists c', receive_data parser 4 junk4 5 3 3 calling =
    Ok (Return (Some (Tl (fresh result_body) (Rpc_result first_id (Some pong)))), c').
Proof.
  apply (first_object_is_answer parser 2 junk4 5 3 3 calling message after).
  - vm_compute. reflexivity.
  - vm_compute. reflexivity.
  - cbn. discriminate.
  - reflexivity.
Defined.

Definition zipped : buf_t := fresh (le_bytes 4 0x3072cfa1 ++ [31; 1]).
Lemma parse_answer_gzip_uninit_witness :
  tg_parse_answer parser 2 (Some (Tl b3 (Msg_container ([] ++ MtpMessage 1 2 6 zipped :: []))))
     5 (Some (tg_parse_answer_callback parser)) calling = Err Uninit.
Proof.
  apply (parse_answer_gzip_uninit parser 0 5 b3 (fresh (contents zipped)) (advance zipped 4) []);
    [constructor | reflexivity].
Defined.
