(* ===== verification/MtxWitness.v ===== *)
(** * Concrete instances for the key exchange

    Big numbers by [Z], an RSA modulus, and servers that answer by the
    number of packets they have seen.  The exponents of the exchange are
    random bytes, so the witnesses reason about the powers they do not
    compute: the modulus is a power of two and the bases are odd. *)
From Stdlib Require Import Zpow_facts.
From stdpp Require Import strings.
From S2P Require Import Prelude TlBuf Serial HashCommon Sha1 Tg Packet Mtx MtxLayers Handshake MtxFacts HandshakeFacts Auth Negotiation Witness.

(** ** Big numbers *)
Definition width (z : Z) : nat := if z =? 0 then 0%nat else Z.to_nat (Z.log2 z / 8 + 1).

Lemma width_spec z : 0 <= z -> z < 256 ^ Z.of_nat (width z).
Proof.
  intros Hz. unfold width. destruct (Z.eqb_spec z 0) as [-> | Hne]; [done |].
  pose proof (Z.log2_nonneg z). rewrite Z2Nat.id by modlia.
  change 256 with (2 ^ 8). rewrite <- Z.pow_mul_r by modlia.
  apply Z.log2_lt_pow2; [lia |]. modlia.
Qed.
Lemma width_least z n : 0 <= z < 256 ^ n -> 0 <= n -> Z.of_nat (width z) <= n.
Proof.
  intros Hz Hn. unfold width. destruct (Z.eqb_spec z 0) as [-> | Hne]; [done |].
  pose proof (Z.log2_nonneg z). rewrite Z2Nat.id by modlia.
  change 256 with (2 ^ 8) in Hz. rewrite <- Z.pow_mul_r in Hz by lia.
  assert (Z.log2 z < 8 * n) by (apply Z.log2_lt_pow2; lia). modlia.
Qed.

Definition to_bin (z : Z) : list Z := be_bytes (width z) z.
Lemma to_bin_num z : 0 <= z -> be_num (to_bin z) = z.
Proof.
  intros Hz. unfold to_bin, be_bytes, be_num. rewrite rev_involutive, le_num_bytes.
  apply Z.mod_small. split; [done | by apply width_spec].
Qed.

#[export, refine] Instance bignum : BigNum := {|
  bin2bn := be_num;
  bn2bin := to_bin;
  mod_exp := fun g e m => g ^ e mod m;
  rsa_n := 256 ^ 255 + 1;
  rsa_e := 65537
|}.
Proof.
  - done.
  - apply to_bin_num.
  - intros z. apply be_bytes_ok.
  - intros z n Hz Hn. unfold to_bin, be_bytes, zlen. rewrite length_rev.
    pose proof (zlen_le_bytes (width z) z) as L. unfold zlen in L. rewrite L. by apply width_least.
  - done.
Defined.

Lemma key_file_ok : rsa_key_ok.
Proof. by vm_compute. Qed.

(** Trial division. *)
Fixpoint trial (n : nat) (d x : Z) : Z * Z :=
  match n with
  | O => (1, x)
  | S n => if x mod d =? 0 then (d, x / d) else trial n (d + 1) x
  end.
#[export] Instance division : Factor := fun x => trial 1000 2 x.

(** The stack is found as zeros. *)
#[export, refine] Instance clean_frame : Frame := {|
  junk_buf := fun _ => empty_;
  junk_id := 0;
  junk_abstract := Abstract (replicate 24 zero_param) 0 API SEND;
  junk_DH_inner := zero_DH_inner;
  junk_sha1 := Sha1.Sha1nfo (replicate 64 0) 0 (replicate 5 0) 0 (replicate 64 0) (replicate 20 0)
|}.
Proof. all: try done. dec. Defined.

(** A power of an odd number modulo a power of two is not zero. *)
Lemma odd_pow x n : 0 <= n -> Z.odd x = true -> Z.odd (x ^ n) = true.
Proof.
  intros Hn Hx. pattern n. apply natlike_ind; [done | | done]. intros m Hm IH.
  by rewrite Z.pow_succ_r, Z.odd_mul, Hx, IH.
Qed.
Lemma odd_mod x m : 0 < m -> Z.even m = true -> Z.odd x = true -> x mod m <> 0.
Proof.
  intros Hm He Hx E. apply Z.mod_divide in E as [k ->]; [| lia].
  rewrite Z.odd_mul in Hx. apply andb_prop in Hx as [_ Hx]. by rewrite <- Z.negb_even, He in Hx.
Qed.

Lemma odd_power g e m :
  bytes_ok g -> bytes_ok e -> bytes_ok m -> 0 < be_num m -> Z.even (be_num m) = true -> Z.odd (be_num g) = true ->
  pow_bytes g e m <> [].
Proof.
  intros Bg Be Bm Hm He Hg E. apply (f_equal be_num) in E. unfold pow_bytes in E. cbn [bn2bin mod_exp bignum] in E.
  rewrite to_bin_num in E by (apply Z.mod_pos_bound, Hm). change (be_num []) with 0 in E. revert E.
  apply odd_mod; [done | done |]. apply odd_pow; [by apply be_num_nonneg | done].
Qed.

(** ** Servers *)
Definition honest : server := {|
  sv_id1 := 1; sv_nonce1 := nonce 0; sv_nonce := seqn0 16; sv_pq := be_bytes 8 323; sv_fps := le_bytes 8 77;
  sv_id2 := 2; sv_nonce2 := nonce 0; sv_sn2 := seqn0 16; sv_hash := replicate 20 9;
  sv_nonce3 := nonce 0; sv_sn3 := seqn0 16; sv_g := 3; sv_prime := 128 :: replicate 255 0;
  sv_g_a := replicate 255 0 ++ [243]; sv_time := 1700000000; sv_rand := replicate 8 5;
  sv_id3 := 3; sv_nonce4 := nonce 0; sv_sn4 := seqn0 16; sv_hash4 := replicate 16 4
|}.
(** Whoever is on the line: no nonce is the client's. *)
Definition impostor : server := {|
  sv_id1 := 1; sv_nonce1 := replicate 16 1; sv_nonce := replicate 16 2; sv_pq := be_bytes 8 323; sv_fps := le_bytes 8 77;
  sv_id2 := 2; sv_nonce2 := replicate 16 3; sv_sn2 := replicate 16 4; sv_hash := replicate 20 0;
  sv_nonce3 := replicate 16 5; sv_sn3 := replicate 16 6; sv_g := 3; sv_prime := 128 :: replicate 255 0;
  sv_g_a := replicate 255 0 ++ [27]; sv_time := 0; sv_rand := replicate 8 0;
  sv_id3 := 3; sv_nonce4 := replicate 16 7; sv_sn4 := replicate 16 8; sv_hash4 := replicate 16 0
|}.

Lemma prime_even : 0 < be_num (128 :: replicate 255 0) /\ Z.even (be_num (128 :: replicate 255 0)) = true.
Proof. split; by vm_compute. Qed.
Lemma prime_bytes : bytes_ok (128 :: replicate 255 0).
Proof. dec. Qed.

Lemma powers g : bytes_ok g -> Z.odd (be_num g) = true -> pow_bytes g (secret 0) (128 :: replicate 255 0) <> [].
Proof.
  intros Bg Hg. apply odd_power; [exact Bg | apply secret_facts | apply prime_bytes | apply prime_even
    | apply prime_even | exact Hg].
Qed.

Ltac server_facts :=
  split; try apply powers; first [reflexivity | dec | split; ev | split_and!; dec | apply prime_even].
Lemma honest_ok : server_ok 0 honest.
Proof. server_facts. Qed.
Lemma impostor_ok : server_ok 0 impostor.
Proof. server_facts. Qed.

(** A peer that sends three replies, in this order. *)
Definition answers (r1 r2 r3 : list Z) (l : list (list Z)) : option (list Z) :=
  match l with [_] => Some r1 | [_; _] => Some r2 | [_; _; _] => Some r3 | _ => None end.

Lemma answers_bound r1 r2 r3 :
  zlen r1 <= max_buf_size -> zlen r2 <= max_buf_size -> zlen r3 <= max_buf_size ->
  forall l bs, answers r1 r2 r3 l = Some bs -> zlen bs <= max_buf_size.
Proof. intros H1 H2 H3 [|? [|? [|? [|]]]] bs E; by inversion E; subst. Qed.

Definition replies (sv : server) (n : nat) : list Z :=
  match n with
  | 0%nat => packet (sv_id1 sv) (le_bytes 4 _id_resPQ ++ reply1 sv)
  | 1%nat => packet (sv_id2 sv) (le_bytes 4 _id_Server_DH_Params_ok ++ reply2 sv)
  | _ => packet (sv_id3 sv) (le_bytes 4 _id_dh_gen_ok ++ reply3 sv)
  end.

Lemma replies_bound sv n : server_ok 0 sv -> zlen (replies sv n) <= max_buf_size.
Proof.
  intros Hs. destruct (so_fps _ _ Hs) as [Lf _]. unfold max_buf_size.
  destruct n as [|[|n]]; cbn [replies]; rewrite zlen_packet, zlen_app, zlen_le_bytes.
  - unfold reply1, tl_vector. rewrite !zlen_app, !zlen_le_bytes, (so_nonce1 _ _ Hs), (so_nonce _ _ Hs), (zlen_pq_string sv 0 Hs). lia.
  - unfold reply2. rewrite !zlen_app, (so_nonce2 _ _ Hs), (so_sn2 _ _ Hs).
    pose proof (zlen_tl_string_le (encrypted_answer sv)). rewrite (zlen_encrypted_answer 0 sv Hs) in *. lia.
  - unfold reply3. rewrite !zlen_app, (so_nonce4 _ _ Hs), (so_sn4 _ _ Hs), (so_hash4 _ _ Hs). lia.
Qed.

#[refine] Instance peer_of (sv : server) (Hs : server_ok 0 sv) : Peer := {|
  recv_reply := answers (replies sv 0) (replies sv 1) (replies sv 2)
|}.
Proof. apply answers_bound; by apply replies_bound. Defined.

Lemma peer_serves sv Hs : @serves _ _ _ _ _ (peer_of sv Hs) 0 sv [].
Proof. split_and!; reflexivity. Qed.

(** The program has just connected. *)
Definition connected : mtx_t :=
  MtxState empty_ empty_ empty_ 0 0 3 empty_ zero_types 0 0 [] [].

Section Honest.
#[local] Instance on_line : Peer := peer_of honest honest_ok.

Lemma srl_auth_agrees_witness :
  exists s', srl_auth connected = Ok (tt, s') /\
    sent s' = sent connected ++ [packet1 0; packet2 0 honest; packet3 0 honest] /\
    ige_decrypt (tmp_key honest) (tmp_iv honest)
      (ige_encrypt (tmp_key honest) (tmp_iv honest) (block3 0 honest)) = block3 0 honest /\
    has (rc_key s') (bn2bin (be_num (g_b 0 honest) ^ 5 mod be_num (sv_prime honest))) /\
    has (rc_salt s') (take 8 (sv_nonce honest)) /\
    errors s' = errors connected ++ [mismatch; mismatch; mismatch].
Proof.
  apply (srl_auth_agrees 0 honest 5 connected);
    [reflexivity | exact honest_ok | apply peer_serves | exact key_file_ok | reflexivity | ev | ev
    | vm_compute; reflexivity | reflexivity | reflexivity].
Defined.
End Honest.

Section Impostor.
#[local] Instance in_between : Peer := peer_of impostor impostor_ok.

Lemma srl_auth_unverified_witness :
  exists s', srl_auth connected = Ok (tt, s') /\
    has (rc_key s') (bn2bin (be_num (sv_g_a impostor) ^
      be_num (rand_bytes (wall 3) 256) mod be_num (sv_prime impostor))) /\
    errors s' = errors connected ++ [mismatch; mismatch; mismatch; "different nonce's"; "different server nonce's"]%string.
Proof.
  apply (srl_auth_unverified 0 impostor connected);
    [reflexivity | exact impostor_ok | apply peer_serves | exact key_file_ok | reflexivity | dec | dec].
Defined.
End Impostor.

(** A server with thirteen keys. *)
Definition many_keys : list Z :=
  packet 1 (le_bytes 4 _id_resPQ ++ replicate 16 1 ++ replicate 16 2 ++ tl_string (be_bytes 8 323) ++
    tl_vector (replicate 104 7)).
#[refine] Instance many_keys_peer : Peer := {| recv_reply := answers many_keys many_keys many_keys |}.
Proof. by apply answers_bound; vm_compute. Defined.

Lemma srl_auth_fingerprints_overflow_witness : srl_auth (H5 := many_keys_peer) connected = Err OutOfBounds.
Proof.
  apply (srl_auth_fingerprints_overflow connected 1 (replicate 16 1) (replicate 16 2) (be_bytes 8 323) (replicate 104 7));
    ev.
Defined.

(** A server that refuses the second request. *)
Definition refusal : list Z :=
  packet 2 (le_bytes 4 _id_Server_DH_Params_fail ++ nonce 0 ++ seqn0 16 ++ replicate 16 0).
#[refine] Instance refusing_peer : Peer := {| recv_reply := answers (replies honest 0) refusal [] |}.
Proof. apply answers_bound; [apply replies_bound, honest_ok | by vm_compute | by vm_compute]. Defined.

Lemma srl_auth_params_fail_witness : srl_auth (H5 := refusing_peer) connected = Err OutOfBounds.
Proof.
  apply (srl_auth_params_fail 0 honest connected 2 (nonce 0 ++ seqn0 16 ++ replicate 16 0));
    [reflexivity | exact honest_ok | exact key_file_ok | reflexivity | reflexivity | reflexivity | reflexivity].
Defined.
