(* ===== verification/DatabaseWitness.v ===== *)
(** * A database that does what is documented

    For a finite set of statements and queries: the text is looked up among
    theirs, and the meaning of the statement is run. *)
From stdpp Require Import strings pretty.
From S2P Require Import Prelude TlBuf Serial Errors Tg Packet Objects Service Sql Database DatabaseFacts Witness.

(** The text without its blanks. *)
Definition strip (t : list Z) : list Z := List.filter (fun c => negb (blank c)) t.
Lemma strip_app a b : strip (a ++ b) = strip a ++ strip b.
Proof. apply List.filter_app. Qed.
Lemma strip_blanks l : blanks l -> strip l = [].
Proof. induction 1 as [|c l Hc Hl IH]; [done |]. unfold strip. cbn. by rewrite Hc. Qed.

(** The blanks between words and statements do not matter. *)
Lemma strip_stmt gap s : blanks gap -> strip (print_stmt gap s) = strip (print_stmt [32] s).
Proof.
  intros Hg. destruct s; cbn [print_stmt]; try reflexivity; rewrite !strip_app; by rewrite (strip_blanks gap Hg).
Qed.
Lemma strip_sql gap sep fin ss : blanks gap -> blanks sep -> blanks fin ->
  strip (print_sql gap sep fin ss) = strip (print_sql [32] [32] [32] ss).
Proof.
  intros Hg Hs Hf. unfold print_sql. rewrite !strip_app. f_equal.
  - induction ss as [|s ss IH]; [done |]. rewrite !fmap_cons. destruct ss as [|s' ss]; [by apply strip_stmt |].
    cbn [sep_by fmap list_fmap] in *. rewrite !strip_app. rewrite (strip_stmt gap s Hg). f_equal. f_equal; [| exact IH].
    change (strip (59 :: sep)) with (59 :: strip sep). by rewrite (strip_blanks sep Hs).
  - change (strip (59 :: fin)) with (59 :: strip fin). by rewrite (strip_blanks fin Hf).
Qed.

Section Library.
Variables (ss0 : list (list stmt)) (qs0 : list select) (st0 : tables).

Definition find_stmts (t : list Z) : option (list stmt) := List.find (fun ss => bool_decide (strip (print_sql [32] [32] [32] ss) = strip t)) ss0.
Definition find_select (t : list Z) : option select := List.find (fun q => bool_decide (print_select q = t)) qs0.

Definition effect (st : tables) (d : deed) : tables :=
  match d with
  | Exec t => match find_stmts t with Some ss => snd (run_all st ss) | None => st end
  | Bind t blob => match find_stmts t with Some [s] => default st (run_stmt (VBlob blob) st s) | _ => st end
  | _ => st
  end.
Definition content_of (h : list deed) : tables := foldl effect st0 h.

Definition library : Sqlite := {|
  sql_creates := true;
  sql_fails := fun h t => match find_stmts t with Some ss => negb (fst (run_all (content_of h) ss)) | None => true end;
  sql_binds := fun h t => match find_stmts t with
    | Some [s] => bool_decide (is_Some (run_stmt (VBlob []) (content_of h) s))
    | _ => false
    end;
  sql_rows := fun h t => q ← find_select t; limited (s_limit q) <$> run_select (content_of h) q;
  column_int64 := fun v => match v with VInt z => z | _ => 0 end;
  number_text := id
|}.

(** The texts can be told apart. *)
Definition told_apart : bool :=
  forallb (fun ss => bool_decide (find_stmts (print_sql [32] [32] [32] ss) = Some ss)) ss0 &&
  forallb (fun q => bool_decide (find_select (print_select q) = Some q)) qs0.

Lemma found t ss : told_apart = true -> ss ∈ ss0 -> renders t ss -> find_stmts t = Some ss.
Proof.
  unfold told_apart. intros [Ha _]%andb_prop Hin Ht. rewrite forallb_forall in Ha.
  apply list_elem_of_In, Ha, bool_decide_eq_true_1 in Hin. destruct Ht as (gap & sep & fin & Hg & _ & Hs & Hf & ->).
  rewrite <- Hin. unfold find_stmts. by rewrite (strip_sql gap sep fin ss Hg Hs Hf).
Qed.

Lemma bind_runs st s blob : is_Some (run_stmt (VBlob blob) st s) <-> is_Some (run_stmt (VBlob []) st s).
Proof.
  assert (Hm : forall {A} (o : option A) {B} (f g : A -> option B), (forall a, is_Some (f a) <-> is_Some (g a)) -> is_Some (o ≫= f) <-> is_Some (o ≫= g)).
  { intros A [a|] B f g Hfg; [apply Hfg | done]. }
  destruct s; cbn [run_stmt]; try done; [apply Hm; intros tb; try case_match; by rewrite ?is_Some_alt ..].
Qed.

Lemma library_documented : told_apart = true -> @Documented library (.∈ ss0) (.∈ qs0).
Proof.
  intros Hok. refine {| store_of := content_of |}.
  - intros h t ss Hin _ Ht. pose proof (found t ss Hok Hin Ht) as Ef. split; [cbn; by rewrite Ef |].
    unfold content_of at 1. rewrite foldl_snoc. cbn [effect]. by rewrite Ef.
  - intros h t s blob Hin Ht. pose proof (found t [s] Hok Hin Ht) as Ef. split.
    + cbn. rewrite Ef. apply bool_decide_ext. symmetry. apply bind_runs.
    + unfold content_of at 1. rewrite foldl_snoc. cbn [effect]. by rewrite Ef.
  - intros h q Hin. cbn [sql_rows library]. apply andb_prop in Hok as [_ Hq]. rewrite forallb_forall in Hq.
    apply list_elem_of_In, Hq, bool_decide_eq_true_1 in Hin. rewrite Hin. cbn [mbind option_bind].
    unfold content_of. destruct (run_select _ q) as [l|]; constructor. by exists l.
  - reflexivity.
Defined.
End Library.

(** ** Two accounts *)
Definition conn_of (id : Z) : conn_t := Conn id 2040 (chars "b18441a1") (fresh []) (chars "149.154.167.50") 443 None.
Definition session {U} (id : Z) (u : U) : client U := Client [] 0 [] (conn_of id) u.
Definition ann : list Z := chars "+79990000001".
Definition row_of (id : Z) : row := {["id"%string := VInt id]}.

Section Phones.
Definition phones : tables := {["phone_numbers"%string := Table ["id"%string] ["id"%string] [row_of 8]]}.
Definition phone_stmts : list (list stmt) := [alter "phone_numbers" "phone_number" "TEXT"; upsert "phone_numbers" "phone_number" 7 ann].
Definition phone_selects : list select := [own "phone_number" "phone_numbers" 7; own "phone_number" "phone_numbers" 8].
#[local] Instance phone_library : Sqlite := library phone_stmts phone_selects phones.
#[local] Instance phone_documented : Documented (.∈ phone_stmts) (.∈ phone_selects).
Proof. apply library_documented. vm_compute. reflexivity. Defined.

Lemma phone_number_kept_alone_witness :
  exists s', phone_number_to_database ann (session 7 tt) = Ok (0, s') /\ conn s' = conn (session 7 tt) /\
    phone_number_from_database s' = Ok (Some ann, s') /\
    phone_number_from_database (set_conn (conn_of 8) s') = Ok (None, set_conn (conn_of 8) s').
Proof.
  apply (phone_number_kept_alone (.∈ phone_stmts) (.∈ phone_selects) ann (conn_of 8)
    (Table ["id"%string] ["id"%string] [row_of 8]) (session 7 tt));
    first [ apply (bool_decide_eq_true_1 _); vm_compute; reflexivity | ev | reflexivity | discriminate ].
Defined.
End Phones.

Section Hashes.
Definition hashes : tables := {["dialogs_hash"%string := Table ["id"%string] ["id"%string] []]}.
Definition hash_stmts : list (list stmt) :=
  [alter "dialogs_hash" "hash" "INT" ++ upsert "dialogs_hash" "hash" 7 (ld 18446744073709551615);
   alter "dialogs_hash" "hash" "INT" ++ upsert "dialogs_hash" "hash" 7 (ld 12)].
Definition hash_selects : list select := [own "hash" "dialogs_hash" 7].
#[local] Instance hash_library : Sqlite := library hash_stmts hash_selects hashes.
#[local] Instance hash_documented : Documented (.∈ hash_stmts) (.∈ hash_selects).
Proof. apply library_documented. vm_compute. reflexivity. Defined.

Lemma dialogs_hash_stored_once_witness :
  exists s1 s2, dialogs_hash_to_database 18446744073709551615 (session 7 tt) = Ok (0, s1) /\
    dialogs_hash_from_database s1 = Ok (18446744073709551615, s1) /\
    dialogs_hash_to_database 12 s1 = Ok (1, s2) /\ dialogs_hash_from_database s2 = Ok (18446744073709551615, s2).
Proof.
  apply (dialogs_hash_stored_once (.∈ hash_stmts) (.∈ hash_selects) 18446744073709551615 12
    (Table ["id"%string] ["id"%string] []) (session 7 tt));
    first [ apply (bool_decide_eq_true_1 _); vm_compute; reflexivity | ev | reflexivity | discriminate ].
Defined.
End Hashes.
