(* ===== verification/ServiceWitness.v ===== *)
(** * Concrete instances for files and passwords

    The queries as the schema writes them, servers that look at the last
    query, a file system of two files. *)
From stdpp Require Import strings.
From S2P Require Import Prelude TlBuf Serial HashCommon Sha1 Sha256 Tg Packet Errors Mtx MtxFacts MtxLayers Objects Service Sql Database DatabaseFacts Files FilesFacts Srp SrpFacts Witness MtxWitness DatabaseWitness.

Definition flag (b : bool) (n : Z) : Z := if b then 2 ^ n else 0.
Definition is_given {A} (o : option A) : bool := bool_decide (is_Some o).
Definition num (i n : Z) : list Z := le_bytes 4 i ++ le_bytes 4 n.
Definition opt4 (o : option Z) : list Z := match o with Some z => le_bytes 4 z | None => [] end.
Definition stickers_of (l : list (list Z)) : list Z :=
  if bool_decide (l = []) then [] else num 0x1cb5c415 (Z.of_nat (length l)) ++ mjoin l.

#[export] Instance layer : Schema := {|
  tl_upload_getFile := fun loc off limit => num 0xbe5335be 0 ++ loc ++ le_bytes 8 off ++ le_bytes 4 limit;
  tl_upload_saveFilePart := fun id n bs => le_bytes 4 0xb304a621 ++ le_bytes 8 id ++ le_bytes 4 n ++ tl_string bs;
  tl_upload_saveBigFilePart := fun id n total bs =>
    le_bytes 4 0xde7b673d ++ le_bytes 8 id ++ le_bytes 4 n ++ le_bytes 4 total ++ tl_string bs;
  tl_upload_getFileHashes := fun loc off => le_bytes 4 0x9156982a ++ loc ++ le_bytes 8 off;
  tl_inputPhotoFileLocation := fun id h fr sz =>
    le_bytes 4 0x40181ffe ++ le_bytes 8 id ++ le_bytes 8 h ++ tl_string fr ++ tl_string sz;
  tl_inputPeerPhotoFileLocation := fun big peer id => num 0x37257e99 (flag big 0) ++ peer ++ le_bytes 8 id;
  tl_inputDocumentFileLocation := fun id h fr sz =>
    le_bytes 4 0xbad07584 ++ le_bytes 8 id ++ le_bytes 8 h ++ tl_string fr ++ tl_string sz;
  tl_inputFile := fun id n name md5 => le_bytes 4 0xf52ff27f ++ le_bytes 8 id ++ le_bytes 4 n ++ tl_string name ++ tl_string md5;
  tl_inputFileBig := fun id n name => le_bytes 4 0xfa4f0bb5 ++ le_bytes 8 id ++ le_bytes 4 n ++ tl_string name;
  tl_inputMediaUploadedPhoto := fun sp file st ttl =>
    num 0x1e287d04 (flag sp 2 + flag (bool_decide (st <> [])) 0 + flag (is_given ttl) 1) ++ file ++ stickers_of st ++ opt4 ttl;
  tl_inputMediaUploadedDocument := fun ns ff sp file mime attrs st ttl =>
    num 0x5b38c6c1 (flag ns 3 + flag ff 4 + flag sp 5 + flag (bool_decide (st <> [])) 0 + flag (is_given ttl) 1) ++
    file ++ tl_string mime ++ num 0x1cb5c415 (Z.of_nat (length attrs)) ++ mjoin attrs ++ stickers_of st ++ opt4 ttl;
  tl_documentAttributeFilename := fun name => le_bytes 4 0x15590068 ++ tl_string name;
  tl_documentAttributeHasStickers := le_bytes 4 0x9801d2f7;
  tl_documentAttributeImageSize := fun w h => num 0x6c37c15c w ++ le_bytes 4 h;
  tl_documentAttributeVideo := fun rm ss ns d w h pre start =>
    num 0xd38ff1c2 (flag rm 0 + flag ss 1 + flag ns 3 + flag (is_given pre) 2 + flag (is_given start) 4) ++
    le_bytes 8 d ++ le_bytes 4 w ++ le_bytes 4 h ++ opt4 pre ++ opt4 start;
  tl_documentAttributeAudio := fun v d t p w =>
    num 0x9852f9c6 (flag v 10 + 3 + flag (is_given w) 2) ++ le_bytes 4 d ++ tl_string t ++ tl_string p ++
    match w with Some w => tl_string w | None => [] end;
  tl_inputMediaContact := fun a b c d => le_bytes 4 0xf8ab7dfb ++ tl_string a ++ tl_string b ++ tl_string c ++ tl_string d;
  tl_inputGeoPoint := fun lat lon => num 0x48222faf 0 ++ le_bytes 8 lat ++ le_bytes 8 lon;
  tl_inputMediaGeoPoint := fun p => le_bytes 4 0xf9c44144 ++ p;
  tl_inputPeerChannel := fun id h => le_bytes 4 0x27bcbbfc ++ le_bytes 8 id ++ le_bytes 8 h;
  tl_inputPeerChat := fun id => le_bytes 4 0x35a95cb9 ++ le_bytes 8 id;
  tl_inputPeerUser := fun id h => le_bytes 4 0xdde8a54c ++ le_bytes 8 id ++ le_bytes 8 h;
  tl_messages_sendMedia := fun peer media msg rid =>
    num 0x7547c966 0 ++ peer ++ media ++ tl_string msg ++ le_bytes 8 rid;
  tl_account_getPassword := le_bytes 4 0x548a30f5;
  tl_auth_checkPassword := fun srp => le_bytes 4 0xd18b4d16 ++ srp;
  tl_inputCheckPasswordSRP := fun id A M1 => le_bytes 4 0xd27ff082 ++ le_bytes 8 id ++ tl_string A ++ tl_string M1
|}.

Definition last_query (qs : list (list Z)) : list Z := hd [] (rev qs).
Lemma last_query_snoc before q : last_query (before ++ [q]) = q.
Proof. unfold last_query. by rewrite rev_app_distr. Qed.
Definition constructor (q : list Z) : Z := le_num (take 4 q).

(** The key such a server negotiates. *)
Definition agreed_key : list Z := u8 <$> seqn0 256.
Lemma agreed_key_ok : bytes_ok agreed_key /\ zlen agreed_key = 256.
Proof. split; [dec | reflexivity]. Qed.
Definition server_of (f : list (list Z) -> option tl_t) : Server :=
  {| answer := f; negotiated := fun _ _ => agreed_key; negotiated_ok := fun _ _ => agreed_key_ok |}.

Definition start {U} (u : U) : client U := session 7 u.

(** ** Files *)
Definition content : list Z := seqn0 40.
Definition large : list Z := replicate (Z.to_nat 10485761) 7.

#[export, refine] Instance disk : FileSystem := {|
  fopen := fun path => if bool_decide (path = chars "a.txt") then Some content
                       else if bool_decide (path = chars "b.iso") then Some large else None;
  MD5 := fun m => take 16 (Sha1.Fips.SHA1 m);
  sprintf_self := fun s t => s ++ t
|}.
Proof.
  - intros m. pose proof (zlen_SHA1 m) as L. unfold zlen in *. rewrite length_take. lia.
  - intros m. apply Forall_take, Sha1.SHA1_ok.
Defined.

Definition updates_tl : tl_t := Tl (fresh (le_bytes 4 0xe317af7e)) UpdatesTooLong.
Definition true_tl : tl_t := Tl (fresh (le_bytes 4 0x997275b5)) BoolTrue.

(** A file of forty bytes at a location of four. *)
Definition location4 : list Z := [1; 2; 3; 4].
Definition piece (off : Z) : tl_t :=
  Tl (fresh []) (Upload_file (Some (Tl (fresh []) BoolTrue)) 1700000000
    (fresh (take (Z.to_nat 1048576) (drop (Z.to_nat off) content)))).
Definition file_server (qs : list (list Z)) : option tl_t :=
  let q := last_query qs in
  match constructor q with
  | 0xbe5335be => Some (piece (le_num (take 8 (drop 12 q))))
  | 0xb304a621 => Some true_tl
  | 0x7547c966 => Some updates_tl
  | _ => None
  end.

(** A callback that keeps what it is given. *)
Definition collect (f : tg_file_t) (u : list Z) : res (Z * list Z) := Ok (0, u ++ contents (bytes_ f)).

Section Downloads.
#[local] Instance files : Server := server_of file_server.

Lemma file_served : serves_file location4 content.
Proof.
  intros before off Hoff. eexists _, _, _, _. split.
  - unfold answer, files, server_of, file_server. rewrite last_query_snoc.
    change (constructor _) with 0xbe5335be. cbv iota. change (take 8 _) with (le_bytes 8 off). rewrite le_num_bytes.
    change (256 ^ Z.of_nat 8) with 18446744073709551616. change (zlen content) with 40 in Hoff.
    rewrite Z.mod_small by lia. reflexivity.
  - assert (Hb : bytes_ok (take (Z.to_nat 1048576) (drop (Z.to_nat off) content)))
      by (apply Forall_take, Forall_drop; dec).
    split; [| apply contents_fresh]. apply fresh_wf; [exact Hb |].
    assert (zlen (take (Z.to_nat 1048576) (drop (Z.to_nat off) content)) <= 40).
    { unfold zlen. rewrite length_take, length_drop. change (length content) with 40%nat. lia. }
    unfold fits. change alloc_limit with 2147483648. change BUFSIZ with 1024. lia.
Qed.

Lemma tg_get_file_delivers_witness :
  exists s', tg_get_file 3 server_ip location4 (zlen content) (Some collect) (start []) = Ok (0, s') /\
    user s' = foldl (fun u p => u ++ p) (user (start [])) (split_by 1048576 content) /\
    mjoin (split_by 1048576 content) = content /\
    asked s' = asked (start (@nil Z)) ++ requests (length (split_by 1048576 content)) location4 0.
Proof.
  apply (tg_get_file_delivers 3 server_ip location4 content collect (fun u p => u ++ p) (start []));
    [exact file_served | intros f u _; reflexivity | ev | ev | ev | ev].
Defined.

Definition small_doc : tg_document_t := tg_document (chars "a.txt") (chars "a.txt") (chars "text/plain").
Definition large_doc : tg_document_t := tg_document (chars "b.iso") (chars "b.iso") (chars "application/x-iso").
Definition someone : tg_peer_t := Peer_ TG_PEER_TYPE_USER 4242 77.

Lemma parts_accepted id : accepts (tl_upload_saveFilePart id).
Proof.
  intros before k bs. eexists. unfold answer, files, server_of, file_server. rewrite last_query_snoc. reflexivity.
Qed.

Lemma message_sent before peer media m rid : answer (before ++ [tl_messages_sendMedia peer media m rid]) = Some updates_tl.
Proof. unfold answer, files, server_of, file_server. rewrite last_query_snoc. reflexivity. Qed.

#[local] Strategy 1000 [Z.to_nat].
Lemma tg_document_send_delivers_witness :
  let id := le_num (rand_bytes (wall (reads (start tt))) 8) in
  let rid := le_num (rand_bytes (wall (S (reads (start tt)))) 8) in
  let parts := split_by part_size content in
  let queries := part_queries (tl_upload_saveFilePart id) 0 parts in
  let send media := tl_messages_sendMedia (tg_inputPeer someone) media (default [] (Some (chars "hi"))) rid in
  exists s' tl text media, tg_document_send 22 someone small_doc (Some (chars "hi")) None (start tt) = Ok (0, s') /\
    hex_text (MD5 content) text /\
    media_of small_doc (tl_inputFile id (Z.of_nat (length parts)) (filename small_doc) text) media /\
    asked s' = asked (start tt) ++ queries ++ [send media] /\ mjoin parts = content /\
    answer (asked s') = Some tl /\ did s' = did (start tt) ++ [Do_updates tl].
Proof.
  apply (tg_document_send_delivers 22 someone small_doc (Some (chars "hi")) None content (start tt));
    [reflexivity | dec | vm_compute; reflexivity | dec | ev | ev | ev | apply parts_accepted | apply Nat.le_refl |].
  intros media. exists updates_tl. rewrite app_assoc. apply message_sent.
Defined.

Lemma sevens n : 0 <= n -> zlen (replicate (Z.to_nat n) 7) = n /\ bytes_ok (replicate (Z.to_nat n) 7).
Proof. intros Hn. split; [unfold zlen; rewrite length_replicate; lia | by apply Forall_replicate]. Qed.
Lemma large_facts : zlen large = 10485761 /\ bytes_ok large.
Proof. exact (sevens 10485761 ltac:(discriminate)). Qed.

Lemma tg_document_send_big_freed_witness :
  tg_document_send 1 someone large_doc None None (start tt) = Err UseAfterFree.
Proof.
  apply (tg_document_send_big_freed 1 someone large_doc None None large (start tt));
    [dec | dec | reflexivity | apply large_facts | rewrite (proj1 large_facts); lia | ev | apply Nat.lt_0_1].
Defined.

Lemma tg_get_peer_photo_file_divides_witness :
  tg_get_peer_photo_file 1 server_ip someone true 5 (start None) = Err DivByZero.
Proof. apply (tg_get_peer_photo_file_divides 1 server_ip someone true 5 (start None)); [apply Nat.lt_0_1 | ev]. Defined.
End Downloads.

(** ** The password *)
#[export, refine] Instance hmac : Hmac := {| HMAC_SHA512 := fun k m => SHA256 (k ++ m) ++ SHA256 (m ++ k) |}.
Proof.
  - intros k m. by rewrite zlen_app, !SHA256_length.
  - intros k m. apply Forall_app_2; apply SHA256_bytes.
Defined.

Definition secret_word : list Z := chars "correct horse".
Definition salt_a : buf_t := fresh (seqn0 40).
Definition salt_b : buf_t := fresh (rev (seqn0 16)).
Definition group : buf_t := fresh (128 :: replicate 255 0).
(** The server's secret is 7, the generator 5. *)
Definition server_num : Z := server_B secret_word (contents salt_a) (contents salt_b) (contents group) 5 7.
Definition algorithm : tl_t := Tl (fresh []) (PasswordKdfAlgoModPow salt_a salt_b 5 group).
Definition account : tl_t := Tl (fresh []) (Account_password (Some algorithm) (fresh (padded server_num)) 99).
Definition authorization : tl_t := Tl (fresh []) (Auth_authorization false (fresh []) (Some (Tl (fresh []) BoolTrue))).

(** The server reads the number [A] of the query and compares the whole. *)
Definition expected (A : Z) : list Z :=
  tl_auth_checkPassword (tl_inputCheckPasswordSRP 99 (padded A)
    (proof (contents salt_a) (contents salt_b) (contents group) 5 A server_num
       (server_S secret_word (contents salt_a) (contents salt_b) (contents group) 5 A 7))).
Definition password_server (qs : list (list Z)) : option tl_t :=
  let q := last_query qs in
  match constructor q with
  | 0x548a30f5 => Some account
  | 0xd18b4d16 => if bool_decide (q = expected (be_num (take 256 (drop 20 q)))) then Some authorization else None
  | _ => None
  end.

Lemma group_even : 0 < be_num (contents group) /\ Z.even (be_num (contents group)) = true.
Proof. split; by vm_compute. Qed.
Lemma k_even : Z.even (srp_k (contents group) 5) = true.
Proof. by vm_compute. Qed.
Lemma server_num_pos : 0 < server_num < 256 ^ 256.
Proof.
  destruct group_even as [Hp He]. unfold server_num, server_B.
  set (P := be_num (contents group)) in *. set (k := srp_k (contents group) 5).
  set (v := verifier _ _ _ _ _).
  pose proof (Z.mod_pos_bound (k * v + 5 ^ 7) P Hp) as Hb.
  assert ((k * v + 5 ^ 7) mod P <> 0).
  { apply odd_mod; [exact Hp | exact He |]. rewrite Z.odd_add, Z.odd_mul, <- (Z.negb_even k).
    unfold k. rewrite k_even. reflexivity. }
  assert (P < 256 ^ 256) by (by vm_compute). lia.
Qed.

Lemma decide_eq_if {A B C} `{EqDecision A} `{EqDecision B} (a a' : A) (b b' : B) (x y : C) :
  (a = a' <-> b = b') -> (if bool_decide (a = a') then x else y) = (if bool_decide (b = b') then x else y).
Proof. intros Hab. by rewrite (bool_decide_ext _ _ Hab). Qed.

(** The fields are told apart by their lengths. *)
Lemma long_head a : zlen a = 256 -> tl_string a = [254; 0; 1; 0] ++ a.
Proof.
  intros Ha. unfold tl_string. rewrite Ha, zlen_app, Ha. change (tl_head 256) with [254; 0; 1; 0].
  change (pad_of (zlen [254; 0; 1; 0] + 256)) with 0. apply app_nil_r.
Qed.
Lemma short_inj a b : zlen a = 32 -> zlen b = 32 -> tl_string a = tl_string b -> a = b.
Proof.
  intros Ha Hb E. unfold tl_string in E. rewrite !zlen_app, Ha, Hb, <- !app_assoc in E.
  apply app_inv_head in E. by apply app_inv_tail in E.
Qed.

Lemma query_A id A M1 : 0 <= A < 256 ^ 256 ->
  be_num (take 256 (drop 20 (tl_auth_checkPassword (tl_inputCheckPasswordSRP id (padded A) M1)))) = A.
Proof.
  intros HA. destruct (padded_facts A HA) as (_ & LA & _ & NA).
  change (tl_auth_checkPassword (tl_inputCheckPasswordSRP id (padded A) M1)) with
    (le_bytes 4 0xd18b4d16 ++ le_bytes 4 0xd27ff082 ++ le_bytes 8 id ++ tl_string (padded A) ++ tl_string M1).
  rewrite long_head by exact LA. set (r := tl_string M1). set (a := padded A) in *. clearbody r a.
  change (drop 20 _) with (a ++ r). rewrite take_app_length'; [exact NA |]. unfold zlen in LA. lia.
Qed.
Lemma query_inj id A M1 M2 : zlen M1 = 32 -> zlen M2 = 32 ->
  tl_auth_checkPassword (tl_inputCheckPasswordSRP id (padded A) M1) =
  tl_auth_checkPassword (tl_inputCheckPasswordSRP id (padded A) M2) <-> M1 = M2.
Proof.
  intros H1 H2. split; [| by intros ->]. intros E.
  do 4 apply app_inv_head in E. by apply short_inj.
Qed.

Lemma tg_pbkdf2_sha512_rfc8018_witness :
  tg_pbkdf2_sha512 salt_b salt_a 3 = Ok (fresh (pbkdf2 (contents salt_b) (contents salt_a) 3)).
Proof. apply (tg_pbkdf2_sha512_rfc8018 salt_b salt_a 3); [apply fresh_wf; [dec | ev] | apply fresh_wf; [dec | ev] | ev]. Defined.

(** The statements that keep the key and the address. *)
Definition session_stmts : list (list stmt) :=
  [alter "auth_keys" "auth_key" "BLOB"; [InsertMissing "auth_keys" (Bare "id") 7];
   [Update "auth_keys" [(Quoted "auth_key", LParam)] (Some (Bare "id", 7))];
   alter "ips" "ip" "TEXT"; upsert "ips" "ip" 7 (c_ip (conn_of 7))].
Definition session_tables : tables :=
  {["auth_keys"%string := Table ["id"%string] ["id"%string] []; "ips"%string := Table ["id"%string] ["id"%string] []]}.
#[export] Instance session_library : Sqlite := library session_stmts [] session_tables.

(** They are the ones the library writes. *)
Example session_texts : forallb (fun d => match d with Exec t | Bind t _ => bool_decide (is_Some (find_stmts session_stmts t)) | _ => false end)
  (key_deeds [] 7 [1; 2; 3] ++ ip_deeds 7 (c_ip (conn_of 7))) = true /\ length (key_deeds [] 7 [1; 2; 3]) = 3%nat.
Proof. vm_compute. done. Qed.

Section Password.
#[local] Instance passwords : Server := server_of password_server.

Lemma password_checked before :
  checks_password before secret_word (contents salt_a) (contents salt_b) (contents group) 5 99 7 authorization.
Proof.
  intros A M1 HA HM. unfold answer, passwords, server_of, password_server. rewrite last_query_snoc.
  change (constructor _) with 0xd18b4d16. cbv iota. rewrite (query_A 99 A M1 HA).
  apply decide_eq_if. unfold expected. apply query_inj; [exact HM | apply SHA256_length].
Qed.

(** Nothing is to be computed. *)
#[local] Strategy 1000 [server_B server_S proof padded be_num rand_bytes contents srp_x srp_k Z.pow Z.modulo].
Lemma tg_auth_check_password_proves_witness :
  let A := 5 ^ be_num (rand_bytes (wall (reads (start tt))) 256) mod be_num (contents group) in
  let M1 := proof (contents salt_a) (contents salt_b) (contents group) 5 A
    (server_B secret_word (contents salt_a) (contents salt_b) (contents group) 5 7)
    (server_S secret_word (contents salt_a) (contents salt_b) (contents group) 5 A 7) in
  tg_auth_check_password secret_word (start tt) = Ok (Some (Tl (fresh []) BoolTrue),
    Client (asked (start tt) ++ [tl_account_getPassword; tl_auth_checkPassword (tl_inputCheckPasswordSRP 99 (padded A) M1)])
      (S (reads (start tt))) (did (start tt) ++ key_deeds (did (start tt)) (c_id (conn (start tt))) (contents (c_key (keyed_conn (conn (start tt))))) ++
          ip_deeds (c_id (conn (start tt))) (c_ip (conn (start tt))))
      (keyed_conn (conn (start tt))) (Service.user (start tt))).
Proof.
  destruct server_num_pos as [Hn1 Hn2]. destruct (padded_facts server_num (conj (Z.lt_le_incl _ _ Hn1) Hn2)) as (_ & LB & BB & _).
  apply (tg_auth_check_password_proves secret_word salt_a salt_b 5 group (fresh (padded server_num)) 99 7 account algorithm
    authorization false (fresh []) (Some (Tl (fresh []) BoolTrue)) (start tt)).
  - dec.
  - apply fresh_wf; [dec | ev].
  - apply fresh_wf; [dec | ev].
  - apply fresh_wf; [dec | ev].
  - apply fresh_wf; [exact BB | rewrite LB; ev].
  - ev.
  - ev.
  - ev.
  - ev.
  - ev.
  - reflexivity.
  - rewrite contents_fresh. unfold server_num. reflexivity.
  - exact (proj1 group_even).
  - unfold server_num in Hn1. exact Hn1.
  - discriminate.
  - reflexivity.
  - reflexivity.
  - reflexivity.
  - split; vm_compute; first [reflexivity | discriminate].
  - apply fresh_wf; [constructor | ev].
  - reflexivity.
  - reflexivity.
  - apply password_checked.
Defined.
End Password.
