(* ===== verification/LoginWitness.v ===== *)
(** * A login with a password

    The queries of the login as the schema writes them, and a server that
    looks at the last query: it sends its configuration, a code, wants the
    password and checks its proof. *)
From stdpp Require Import strings pretty.
From S2P Require Import Prelude TlBuf Serial HashCommon Errors Tg Packet Queue TlParser TlParserFacts Mtx MtxFacts Objects Service Sql Database DatabaseFacts Srp SrpFacts Login LoginFacts Witness MtxWitness DatabaseWitness ServiceWitness.

#[export] Instance login_layer : LoginSchema := {|
  tl_help_getConfig := le_bytes 4 0xc4f9186b;
  tl_initConnection := fun id device system app lang pack code q =>
    num 0xc1cd5ea9 0 ++ le_bytes 4 id ++ tl_string device ++ tl_string system ++ tl_string app ++ tl_string lang ++
    tl_string pack ++ tl_string code ++ q;
  tl_invokeWithLayer := fun n q => num 0xda9b0d0d n ++ q;
  tl_inputUserSelf := le_bytes 4 0xf7c1b13f;
  tl_users_getUsers := fun us => le_bytes 4 0x0d91a548 ++ num 0x1cb5c415 (Z.of_nat (length us)) ++ mjoin (M:=list) us;
  tl_codeSettings := fun ts => num 0xad253d78 (flag (bool_decide (ts <> [])) 6) ++
    if bool_decide (ts = []) then [] else num 0x1cb5c415 (Z.of_nat (length ts)) ++ mjoin (M:=list) (tl_string <$> ts);
  tl_auth_sendCode := fun phone id hash st => le_bytes 4 0xa677244f ++ tl_string phone ++ le_bytes 4 id ++ tl_string hash ++ st;
  tl_auth_signIn := fun phone hash code => num 0x8d52a951 1 ++ tl_string phone ++ tl_string hash ++ tl_string code;
  tl_account_registerDevice := fun ty token sandbox uids =>
    num 0xec86017a 0 ++ le_bytes 4 ty ++ tl_string token ++ sandbox ++ tl_string [] ++ num 0x1cb5c415 (Z.of_nat (length uids)) ++ mjoin (M:=list) (le_bytes 8 <$> uids);
  tl_boolTrue := le_bytes 4 0x997275b5;
  tl_boolFalse := le_bytes 4 0xbc799737
|}.

Definition no_table : list (Z * (buf_t -> res (option tl_t * buf_t))) := [].
Definition my_code : list Z := chars "12345".
Definition code_hash : list Z := chars "f00dfeed".
Definition sent_code : tl_t := Tl (fresh []) (Auth_sentCode (fresh code_hash)).
Definition configuration : tl_t := Tl (fresh []) (Config [Some (2, fresh (chars "149.154.167.50"))]).
Definition refusal : tl_t := Tl (fresh []) (Rpc_error 401 (fresh (chars "SESSION_PASSWORD_NEEDED"))).
Definition login_server (qs : list (list Z)) : option tl_t :=
  match constructor (last_query qs) with
  | 0xda9b0d0d => Some configuration
  | 0xa677244f => Some sent_code
  | 0x8d52a951 => Some refusal
  | _ => password_server qs
  end.

Section Conversation.
#[local] Instance logins : Server := server_of login_server.

Lemma conversation_checked before :
  checks_password before secret_word (contents salt_a) (contents salt_b) (contents group) 5 99 7 authorization.
Proof.
  intros A M1 HA HM. unfold answer, logins, server_of, login_server. rewrite last_query_snoc.
  change (constructor _) with 0xd18b4d16. cbv iota. exact (password_checked before A M1 HA HM).
Qed.

#[local] Strategy 1000 [server_B server_S proof padded be_num rand_bytes contents srp_x srp_k Z.pow Z.modulo].
Lemma tg_connect_with_password_witness :
  let s := start (@nil event) in
  let c := conn s in
  let A := 5 ^ be_num (rand_bytes (wall (reads s)) 256) mod be_num (contents group) in
  let M1 := proof (contents salt_a) (contents salt_b) (contents group) 5 A
    (server_B secret_word (contents salt_a) (contents salt_b) (contents group) 5 7)
    (server_S secret_word (contents salt_a) (contents salt_b) (contents group) 5 A 7) in
  let queries := [init_query c; code_query c ann; tl_auth_signIn ann code_hash my_code] in
  exists s', tg_connect no_table 1 [] (Some (application ann my_code secret_word)) s = Ok (0, s') /\
    user s' = user s ++ conversation ann my_code secret_word /\
    asked s' = asked s ++ queries ++ [tl_account_getPassword; tl_auth_checkPassword (tl_inputCheckPasswordSRP 99 (padded A) M1)] /\
    did s' = did s ++ key_deeds (did s) (c_id c) (negotiated (c_ip c) (c_port c)) ++ ip_deeds (c_id c) (c_ip c) /\
    contents (c_key (conn s')) = negotiated (c_ip c) (c_port c).
Proof.
  destruct server_num_pos as [Hn1 Hn2]. destruct (padded_facts server_num (conj (Z.lt_le_incl _ _ Hn1) Hn2)) as (_ & LB & BB & _).
  apply (tg_connect_with_password no_table 0 [] ann my_code secret_word salt_a salt_b 5 group (fresh (padded server_num)) 99 7
    configuration [Some (2, fresh (chars "149.154.167.50"))] sent_code (fresh code_hash) code_hash refusal 401
    (fresh (chars "SESSION_PASSWORD_NEEDED")) account algorithm authorization false (fresh []) (Tl (fresh []) BoolTrue) (start [])).
  - ev.
  - ev.
  - ev.
  - dec.
  - ev.
  - apply fresh_wf; [constructor | ev].
  - split; vm_compute; first [reflexivity | discriminate].
  - ev.
  - ev.
  - ev.
  - reflexivity.
  - reflexivity.
  - reflexivity.
  - reflexivity.
  - ev.
  - reflexivity.
  - reflexivity.
  - apply fresh_wf; [dec | ev].
  - apply fresh_wf; [dec | ev].
  - apply fresh_wf; [dec | ev].
  - apply fresh_wf; [exact BB | rewrite LB; ev].
  - ev.
  - ev.
  - ev.
  - ev.
  - ev.
  - reflexivity.
  - rewrite contents_fresh. unfold server_num. reflexivity.
  - exact (proj1 group_even).
  - unfold server_num in Hn1. exact Hn1.
  - discriminate.
  - reflexivity.
  - reflexivity.
  - reflexivity.
  - reflexivity.
  - apply conversation_checked.
Defined.

Definition long_phone : list Z := replicate 242 55.
Lemma tg_connect_long_phone_overflows_witness :
  tg_connect no_table 1 [] (Some (application long_phone my_code secret_word)) (start (@nil event)) = Err OutOfBounds.
Proof.
  apply (tg_connect_long_phone_overflows no_table 1 [] long_phone my_code secret_word (start []));
    first [ split; vm_compute; first [reflexivity | discriminate] | ev ].
Defined.
End Conversation.

(** ** A token of three bytes on a stack that was used before *)
Section Token.
Definition token : buf_t := fresh (chars "abc").
Definition old_stack : list Z := chars "xxx-old-password" ++ [0; 1; 2].
Definition token_authorization : tl_t := Tl (fresh []) (Auth_authorization false token (Some (Tl (fresh []) BoolTrue))).
#[local] Instance tokens : Server := server_of (fun _ => Some token_authorization).

Lemma tg_auth_signIn_stores_stack_witness :
  exists s', tg_auth_signIn old_stack sent_code ann my_code (start tt) = Ok (Some (Tl (fresh []) BoolTrue), s') /\
    take 2 (drop (length (did (start tt))) (did s')) =
      [Exec alter_tokens; Exec (insert_token (c_id (conn (start tt))) (contents token ++ chars "-old-password"))].
Proof.
  apply (tg_auth_signIn_stores_stack old_stack (chars "-old-password") [1; 2] sent_code (fresh code_hash) code_hash ann my_code
    token_authorization token (Some (Tl (fresh []) BoolTrue)) (start tt)).
  - reflexivity.
  - ev.
  - reflexivity.
  - reflexivity.
  - apply fresh_wf; [dec | ev].
  - ev.
  - unfold free_of. dec.
  - reflexivity.
  - unfold free_of. dec.
  - ev.
  - split; vm_compute; first [reflexivity | discriminate].
  - apply fresh_wf; [constructor | ev].
  - ev.
Defined.
End Token.
