(* ===== verification/StoreWitness.v ===== *)
(** * Users, chats and sessions in a real database

    The database as [database_init] makes it, two accounts, a user and a
    chat. *)
From stdpp Require Import strings pretty.
From S2P Require Import Prelude TlBuf Serial HashCommon Errors Tg Packet TlParser TlParserFacts Queue Objects Service Sql Database DatabaseFacts Entities EntitiesFacts Login Init InitFacts Witness DatabaseWitness.

(** The tables after [database_init]. *)
Definition fresh_tables : tables := foldl (fun st ss => snd (run_all st ss)) ∅ init_stmts.
Definition table_of (t : string) : table := default (Table [] [] []) (fresh_tables !! t).

#[export] Instance fits_member_dec tb m a : Decision (fits_member tb m a).
Proof. unfold fits_member, free_of. destruct (is_text a); [destruct (text (a_member a) m) |]; apply _. Defined.
#[export] Instance ready_dec e tb : Decision (ready e tb).
Proof. unfold ready. apply _. Defined.

Definition bob : struct_ :=
  {["id_" := Num 777000; "access_hash_" := Num 13835058055282163712; "first_name_" := Text (Some (chars "Bob"));
    "username_" := Text (Some []); "phone_" := Text (Some (chars "42777")); "contact_" := Num 1; "photo_id" := Num 5;
    "lang_code_" := Text (Some (chars "en")); "user_satus" := Num 4187207]}.
Definition group_ : struct_ :=
  {["id_" := Num 4242; "title_" := Text (Some (chars "friends")); "noforwards_" := Num 1; "date_" := Num 1700000000]}.

Definition other_conn : conn_t := conn_of 8.

Section Users.
Definition user_stmts : list (list stmt) := [save_stmts users 7 bob].
Definition user_queries : list select := [get_query users 7 777000; get_query users 8 777000].
#[local] Instance user_library : Sqlite := library user_stmts user_queries fresh_tables.
#[local] Instance user_documented : Documented (.∈ user_stmts) (.∈ user_queries).
Proof. apply library_documented. vm_compute. reflexivity. Defined.

Lemma user_read_back_witness :
  exists s' m', tg_user_save bob (session 7 tt) = Ok (0, s') /\ tg_user_get (num "id_" bob) s' = Ok (m', s') /\
    Forall (same_member bob m') TG_USER_ARGS.
Proof.
  apply (user_read_back (.∈ user_stmts) (.∈ user_queries) bob (table_of "users") (session 7 tt));
    first [ apply (bool_decide_eq_true_1 _); vm_compute; reflexivity | vm_compute; reflexivity ].
Defined.

Lemma user_moves_to_last_account_witness :
  exists s', tg_user_save bob (session 7 tt) = Ok (0, s') /\ tg_user_get (num "id_" bob) (set_conn other_conn s') = Ok (∅, set_conn other_conn s').
Proof.
  apply (user_moves_to_last_account (.∈ user_stmts) (.∈ user_queries) bob other_conn (table_of "users") (session 7 tt));
    first [ apply (bool_decide_eq_true_1 _); vm_compute; reflexivity | vm_compute; reflexivity | discriminate ].
Defined.
End Users.

Section Chats.
Definition chat_stmts : list (list stmt) := [save_stmts chats 7 group_].
Definition chat_queries : list select := [get_query chats 7 4242].
#[local] Instance chat_library : Sqlite := library chat_stmts chat_queries fresh_tables.
#[local] Instance chat_documented : Documented (.∈ chat_stmts) (.∈ chat_queries).
Proof. apply library_documented. vm_compute. reflexivity. Defined.

Lemma chat_flags_confused_witness :
  exists s' m', tg_chat_save group_ (session 7 tt) = Ok (0, s') /\ tg_chat_get (num "id_" group_) s' = Ok (m', s') /\
    num "call_not_empty_" m' = num "noforwards_" group_.
Proof.
  apply (chat_flags_confused (.∈ chat_stmts) (.∈ chat_queries) group_ (table_of "chats") (session 7 tt));
    first [ apply (bool_decide_eq_true_1 _); vm_compute; reflexivity | vm_compute; reflexivity ].
Defined.
End Chats.

Section Sessions.
Definition my_key : buf_t := fresh (Z.of_nat <$> seq 0 256).
Definition my_ip : list Z := chars "149.154.167.91".
Definition session_stmts_ : list (list stmt) := login_stmts 7 my_ip ++ init_stmts.
Definition session_queries : list select := [own "auth_key" "auth_keys" 7; own "ip" "ips" 7].
#[local] Instance restored_library : Sqlite := library session_stmts_ session_queries fresh_tables.
#[local] Instance restored_documented : Documented (.∈ session_stmts_) (.∈ session_queries).
Proof. apply library_documented. vm_compute. reflexivity. Defined.

Lemma all_in_app {A} (l1 l2 : list A) : Forall (.∈ l1 ++ l2) l1 /\ Forall (.∈ l1 ++ l2) l2.
Proof. split; apply Forall_forall; intros x Hx; apply elem_of_app; [left | right]; by apply list_elem_of_In. Qed.

#[local] Strategy 1000 [Packet.SHA1].
Lemma session_restored_witness :
  exists s1, (_ ← auth_key_to_database my_key; ip_address_to_database my_ip) (session 7 tt) = Ok (0, s1) /\
    forall apiId apiHash, exists s2,
      tg_new (c_id (conn (session 7 tt))) apiId apiHash s1 = Ok (Some (le_num (sub (SHA1 (contents my_key)) 12 8)), s2) /\
      conn s2 = Conn (c_id (conn (session 7 tt))) apiId (take 33 apiHash) (fresh (contents my_key)) my_ip SERVER_PORT None.
Proof.
  apply (session_restored (.∈ session_stmts_) (.∈ session_queries) my_key my_ip (table_of "auth_keys") (table_of "ips") (session 7 tt)).
  - apply (all_in_app (login_stmts 7 my_ip) init_stmts).
  - apply (all_in_app (login_stmts 7 my_ip) init_stmts).
  - by left.
  - by right; left.
  - reflexivity.
  - split; vm_compute; first [reflexivity | discriminate].
  - apply fresh_wf; [dec | ev].
  - ev.
  - discriminate.
  - dec.
  - ev.
  - vm_compute. reflexivity.
  - dec.
  - vm_compute. reflexivity.
  - dec.
  - dec.
Defined.
End Sessions.
