(* ===== verification/MessagesWitness.v ===== *)
(** * Messages, updates and dialogs of a small server

    A history of two messages in the database of [database_init], and a
    server with a page of dialogs. *)
From stdpp Require Import strings pretty.
From S2P Require Import Prelude TlBuf Serial Errors Tg Packet TlParser Queue Objects Service Sql Database DatabaseFacts Entities EntitiesFacts Files Init InitFacts Peers Messages MessagesFacts Updates UpdatesFacts Dialogs DialogsFacts Witness DatabaseWitness ServiceWitness StoreWitness.

#[export] Instance message_layer : MessageSchema := {|
  tl_messages_getHistory := fun peer i d a l mx mn h =>
    le_bytes 4 0x4423e6c5 ++ peer ++ mjoin (le_bytes 4 <$> [i; d; a; l; mx; mn]) ++ le_bytes 8 h;
  tl_inputMessageID := fun n => num 0xa676a322 n;
  tl_messages_getMessages := fun l => le_bytes 4 0x63c66506 ++ num 0x1cb5c415 (Z.of_nat (length l)) ++ mjoin l;
  tl_channels_getMessages := fun c l => le_bytes 4 0xad8c9a23 ++ c ++ num 0x1cb5c415 (Z.of_nat (length l)) ++ mjoin l;
  tl_messages_sendMessage := fun peer m rid => num 0x280d096f 0 ++ peer ++ tl_string m ++ le_bytes 8 rid;
  tl_sendMessageTypingAction := le_bytes 4 0x16bf744e;
  tl_sendMessageCancelAction := le_bytes 4 0xfd5ec8f5;
  tl_messages_setTyping := fun peer a => num 0x58943ee2 0 ++ peer ++ a;
  tl_messages_readHistory := fun peer n => le_bytes 4 0x0e306d3a ++ peer ++ le_bytes 4 n;
  tl_messages_getOutboxReadDate := fun peer n => le_bytes 4 0x8c4bfe5d ++ peer ++ le_bytes 4 n;
  tl_messages_deleteMessages := fun revoke l => num 0xe58e95d2 (flag revoke 0) ++ num 0x1cb5c415 (Z.of_nat (length l)) ++ mjoin (le_bytes 4 <$> l)
|}.
#[export] Instance peer_layer : PeerSchema := {|
  tl_peerChannel := fun i => le_bytes 4 0xa2a5371e ++ le_bytes 8 i;
  tl_peerChat := fun i => le_bytes 4 0x36c6019a ++ le_bytes 8 i;
  tl_peerUser := fun i => le_bytes 4 0x59511722 ++ le_bytes 8 i;
  tl_contacts_resolvePhone := fun p => le_bytes 4 0x8af94344 ++ tl_string p;
  tl_help_getPeerColors := fun h => num 0xda80f42f h;
  tl_help_getPeerProfileColors := fun h => num 0xabcfa9fd h;
  tl_inputPeerEmpty := le_bytes 4 0x7f3b18ea;
  tl_inputChannel := fun i h => le_bytes 4 0xf35aec28 ++ le_bytes 8 i ++ le_bytes 8 h;
  tl_channels_readHistory := fun c n => le_bytes 4 0xcc104937 ++ c ++ le_bytes 4 n;
  tl_messages_searchGlobal := fun q f p i l =>
    num 0x4bc6589a 0 ++ tl_string q ++ f ++ mjoin (le_bytes 4 <$> [0; 0; 0]) ++ p ++ mjoin (le_bytes 4 <$> [i; l])
|}.
#[export] Instance dialog_layer : DialogSchema := {|
  tl_inputPeerSelf := le_bytes 4 0x7da07ec9;
  tl_messages_getDialogs := fun folder d i p l h =>
    num 0xa0f4cb4f (flag (is_given folder) 1) ++ opt4 folder ++ mjoin (le_bytes 4 <$> [d; i]) ++ p ++ le_bytes 4 l ++ le_bytes 8 h
|}.

Definition no_name : Z -> option string := fun _ => None.
Definition lf (z : Z) : list Z := print_id z.
Definition from_ann : tl_t := Tl (fresh []) (Object TG_PEER_TYPE_USER [("user_id_", SNum 4242)]).
Definition note (n date : Z) (text : string) : tl_t :=
  Tl (fresh (num id_message n)) (Object id_message [("id_", SNum n); ("date_", SNum date); ("peer_id_", SPtr (Some from_ann));
    ("message_", SBuf (fresh (chars text)))]).
Definition hello : tl_t := note 1 1700000000 "hello".
Definition world_ : tl_t := note 2 1700000060 "world".
Definition table_of_notes : list (Z * (buf_t -> res (option tl_t * buf_t))) :=
  [(id_message, fun b => n ← buf_get_ui32 (advance b 4); Ok (Some (if n =? 1 then hello else world_), advance b 8))].
Definition made (t : tl_t) : tg_message_t :=
  match tg_message_from_tl_unknown [] lf no_name None (Some t) with Ok (Some m) => m | _ => no_message end.
Definition notes : list (tl_t * tg_message_t) := [(hello, made hello); (world_, made world_)].

Definition ann_user : tl_t := Tl (fresh []) (User [("id_", SNum 4242); ("access_hash_", SNum 77); ("first_name_", SBuf (fresh (chars "Ann")))]).
Definition ann_saved : struct_ := match tg_user_from_tl ann_user with Ok m => m | Err _ => ∅ end.
Definition history : tl_t := Tl (fresh []) (Object id_messages_messages [("messages_", SVec [Some hello; Some world_]); ("users_", SVec [None; Some ann_user])]).
Definition nothing_there : tl_t := Tl (fresh []) (Object 0x90a6ca84 []).
Definition gap_history : tl_t :=
  Tl (fresh []) (Object id_messages_messages [("messages_", SVec [Some hello; Some nothing_there; Some world_])]).
Definition keep (u : list Z) (m : tg_message_t) : Z * list Z := (0, u ++ [Entities.num "id_" (msg m)]).

Lemma made_becomes tm : tm = (hello, made hello) \/ tm = (world_, made world_) -> becomes [] lf no_name tm.1 tm.2.
Proof. unfold becomes. intros [-> | ->]; vm_compute; reflexivity. Qed.
Lemma made_reads tm : tm = (hello, made hello) \/ tm = (world_, made world_) -> reads_back table_of_notes tm.1.
Proof. intros [-> | ->]; eexists; (split; [reflexivity |]); (split; [dec |]); (split; [by vm_compute | vm_compute; reflexivity]). Qed.
Definition note_stmts : list (list stmt) :=
  [[insert_message 7 (made hello)]; [update_message 7 (made hello)]; [insert_message 7 (made world_)]; [update_message 7 (made world_)];
   save_stmts users 7 ann_saved].
Definition note_queries : list select := [messages_query 7 4242 1800000000 20].
Definition notes_table : table := table_of "messages".
Definition me : tg_peer_t := Peer_ TG_PEER_TYPE_USER 4242 77.

Section History.
#[local] Instance note_library : Sqlite := library note_stmts note_queries fresh_tables.
#[local] Instance note_documented : Documented (.∈ note_stmts) (.∈ note_queries).
Proof. apply library_documented. vm_compute. reflexivity. Defined.

Lemma in_notes (P : tl_t * tg_message_t -> Prop) : P (hello, made hello) -> P (world_, made world_) -> Forall P notes.
Proof. repeat constructor; assumption. Qed.
Lemma notes_storable tm : tm = (hello, made hello) \/ tm = (world_, made world_) ->
  storable (.∈ note_stmts) 7 tm.2 /\ absent 7 tm.2 (t_rows notes_table).
Proof.
  intros [-> | ->]; (split; [split; [| split] | vm_compute; reflexivity]);
    first [apply (bool_decide_eq_true_1 _); vm_compute; reflexivity | idtac].
Qed.

Lemma ann_is_saved : saves_user (.∈ note_stmts) 7 (Some ann_user).
Proof.
  apply (user_saved _ _ _ ann_saved); [reflexivity | vm_compute; reflexivity |]. split; [do 4 right; by left |].
  apply (plain_save users 7 ann_saved (table_of "users")). apply (bool_decide_eq_true_1 _). vm_compute. reflexivity.
Qed.

Section Kept.
#[local] Instance history_server : Server := server_of (fun qs => if constructor (last_query qs) =? 0x4423e6c5 then Some history else None).

Lemma history_kept_offline_witness :
  exists s1, tg_messages_get_history [] lf no_name me 0 0 0 50 0 0 None (Some keep) (session 7 []) = Ok (2, s1) /\
    user s1 = [1; 2] /\
    exists s2 all, all ≡ₚ notes.*2 /\
      tg_get_messages_from_database table_of_notes [] lf no_name me 1800000000 20 (Some keep) s1 = Ok (tt, s2) /\
      user s2 = hand keep (take 20 all) (user s1).
Proof.
  destruct (history_kept_offline (.∈ note_stmts) (.∈ note_queries) table_of_notes [] lf no_name keep me 0 0 0 50 0 0 None notes history
    notes_table (session 7 [])) as (s1 & E & Eu & Hall).
  - reflexivity.
  - ev.
  - vm_compute. reflexivity.
  - reflexivity.
  - constructor; [constructor |]. constructor; [exact ann_is_saved | constructor].
  - constructor.
  - reflexivity.
  - apply in_notes; (split; [apply made_becomes | split; [apply made_reads | apply notes_storable]]); auto.
  - dec.
  - vm_compute. reflexivity.
  - split; dec.
  - exists s1. split; [exact E |]. split; [exact Eu |].
    destruct (Hall 1800000000 20) as (s2 & all & Hp & E2 & Eu2).
    + ev.
    + ev.
    + by left.
    + repeat constructor.
    + dec.
    + exists s2, all. split; [exact Hp |]. split; [exact E2 | exact Eu2].
Defined.
End Kept.

Section Gap.
#[local] Instance gap_server : Server := server_of (fun _ => Some gap_history).
Lemma history_empty_message_witness :
  tg_messages_get_history [] lf no_name me 0 0 0 50 0 0 None (Some keep) (session 7 []) = Err Uninit.
Proof.
  apply (history_empty_message (.∈ note_stmts) (.∈ note_queries) [] lf no_name keep me 0 0 0 50 0 0 None [(hello, made hello)]
    nothing_there [Some world_] gap_history notes_table (session 7 [])).
  - reflexivity.
  - ev.
  - reflexivity.
  - reflexivity.
  - reflexivity.
  - reflexivity.
  - reflexivity.
  - reflexivity.
  - apply Forall_singleton. split; [apply made_becomes | apply notes_storable]; auto.
  - dec.
  - vm_compute. reflexivity.
  - split; dec.
Defined.
End Gap.
End History.

(** ** Updates *)
Definition log_event (u : list (TG_UPDATE * update_data)) (k : TG_UPDATE) (d : update_data) : list (TG_UPDATE * update_data) := u ++ [(k, d)].
Definition typing : tl_t :=
  Tl (fresh []) (Object id_updateUserTyping [("user_id_", SNum 4242); ("action_", SPtr (Some (Tl (fresh []) (Object id_sendMessageTypingAction []))))]).
Definition gone : tl_t := Tl (fresh []) (Object id_updateDeleteMessages [("messages_", SNums [5; 6])]).
Definition new_one : tl_t := Tl (fresh []) (Object id_updateNewMessage [("message_", SPtr (Some hello))]).
Definition some_updates : list (string * slot) := [("updates_", SVec [Some typing; None; Some new_one; Some gone])].
Definition told : list (TG_UPDATE * update_data) :=
  [(TG_UPDATE_USER_TYPING, D_id 4242); (TG_UPDATE_MESSAGE, D_message (made hello)); (TG_UPDATE_MESSAGE_DELETE, D_id 5); (TG_UPDATE_MESSAGE_DELETE, D_id 6)].

Section Told.
#[local] Instance silent_server : Server := server_of (fun _ => None).
#[local] Instance empty_library : Sqlite := library [] [] fresh_tables.


(** Two messages of two users. *)
Definition short (from : Z) : list (string * slot) := [("id_", SNum 9); ("user_id_", SNum from); ("message_", SBuf (fresh (chars "hi")))].
Definition short_chat (n : Z) : list (string * slot) := [("chat_id_", SNum 4242); ("from_id_", SNum 3); ("message_", SBuf (fresh (chars "hi"))); ("id_", SNum n)].
Lemma differs_in k m v v' m' : same_but [k] (m ++ (k, v) :: m') (m ++ (k, v') :: m').
Proof.
  intros n Hn. induction m as [|[k' w] m IH]; cbn [app slot_of]; [| by destruct (String.eqb n k')].
  destruct (String.eqb_spec n k) as [-> |]; [| done]. by rewrite list_elem_of_singleton in Hn.
Qed.
Lemma short_message_identity_lost_witness :
  tg_do_updates [] lf no_name true (Some log_event) (Some (Tl (fresh []) (UpdateShortMessage (short 1)))) (session 7 []) =
    tg_do_updates [] lf no_name true (Some log_event) (Some (Tl (fresh []) (UpdateShortMessage (short 2)))) (session 7 []) /\
  tg_do_updates [] lf no_name true (Some log_event) (Some (Tl (fresh []) (UpdateShortChatMessage (short_chat 1)))) (session 7 []) =
    tg_do_updates [] lf no_name true (Some log_event) (Some (Tl (fresh []) (UpdateShortChatMessage (short_chat 2)))) (session 7 []).
Proof.
  split.
  - apply (proj1 (short_message_identity_lost [] lf no_name true log_event (fresh []) (fresh []) (short 1) (short 2) (session 7 []))).
    apply (differs_in "user_id_" [("id_"%string, SNum 9)]).
  - apply (proj2 (short_message_identity_lost [] lf no_name true log_event (fresh []) (fresh []) (short_chat 1) (short_chat 2) (session 7 []))).
    apply (differs_in "id_" [_; _; _] _ _ []).
Defined.
End Told.

(** ** Dialogs *)
Definition with_ann : tl_t := Tl (fresh []) (Object id_dialog [("peer_", SPtr (Some from_ann)); ("top_message_", SNum 2)]).
Definition dialogs_of_ann (total : Z) : tl_t :=
  Tl (fresh []) (Object id_messages_dialogsSlice [("count_", SNum total); ("dialogs_", SVec [Some with_ann]); ("users_", SVec [Some ann_user]);
    ("messages_", SVec [Some hello; Some world_])]).
Definition ann_base : struct_ := match from_user ann_user (dialog_base with_ann) with Ok d => d | Err _ => ∅ end.
Definition ann_text : struct_ :=
  match top_text world_ (msg (made world_)) (dput "top_message_date" (num_of "date_" world_) ann_base) with Ok d => d | Err _ => ∅ end.
Definition ann_dialog : struct_ := top_from world_ ann_text.
Definition names (u : list Z) (d : struct_) : Z * list Z := (0, u ++ [Entities.num "peer_id" d]).

Lemma ann_is_found : from_user ann_user (dialog_base with_ann) = Ok ann_base.
Proof.
  unfold ann_base. assert (E : match from_user ann_user (dialog_base with_ann) with Ok _ => true | Err _ => false end = true) by (vm_compute; reflexivity).
  by destruct (from_user _ _).
Qed.
Lemma ann_has_text : top_text world_ (msg (made world_)) (dput "top_message_date" (num_of "date_" world_) ann_base) = Ok ann_text.
Proof.
  unfold ann_text.
  assert (E : match top_text world_ (msg (made world_)) (dput "top_message_date" (num_of "date_" world_) ann_base) with Ok _ => true | Err _ => false end = true)
    by (vm_compute; reflexivity).
  by destruct (top_text _ _ _).
Qed.
Lemma world_is_message : tg_message_from_tl [] lf world_ = Ok (made world_).
Proof.
  unfold made, tg_message_from_tl_unknown. change (_id world_ =? id_message) with true. cbv iota.
  assert (E : match tg_message_from_tl [] lf world_ with Ok _ => true | Err _ => false end = true) by (vm_compute; reflexivity).
  by destruct (tg_message_from_tl [] lf world_).
Qed.
Lemma ann_described total : described [] lf (dialogs_of_ann total) with_ann ann_dialog.
Proof.
  exists with_ann, ann_base, ann_base. split_and!; [reflexivity | | reflexivity | vm_compute; discriminate |].
  - change (over from_user (vec_of "users_" (dialogs_of_ann total)) (dialog_base with_ann)) with (d ← from_user ann_user (dialog_base with_ann); Ok d).
    by rewrite ann_is_found.
  - apply topped_other; [right; vm_compute; discriminate |].
    apply (topped_this _ _ world_ [] ann_base (made world_) ann_text ann_dialog); [reflexivity | by vm_compute | | apply world_is_message | apply ann_has_text |].
    + apply fresh_wf; [dec | ev].
    + apply topped_end.
Qed.

Section Dialogs.
#[local] Instance no_library : Sqlite := library [] [] fresh_tables.

Section Pages.
#[local] Instance dialog_server : Server := server_of (fun _ => Some (dialogs_of_ann 3)).
(** Three dialogs, one on a page: the first comes three times. *)
Lemma dialogs_pages_witness :
  exists s', tg_get_dialogs [] lf true false 4 0 0 (Some 5) None (Some names) (session 7 []) = Ok (Nat.iter 3 (hashed [ann_dialog]) (Some 5), s') /\
    asked s' = page_queries None 0 0 [ann_dialog] (Some 5) 3 /\ user s' = [4242; 4242; 4242] /\
    forall d, d ∈ [ann_dialog] -> Exec (save_text dialogs 7 d) ∈ did s'.
Proof.
  apply (dialogs_pages [] lf true false (dialogs_of_ann 3) [with_ann] [ann_dialog] names None 0 0 (Some 5) (session 7 []) 4).
  - reflexivity.
  - split; vm_compute; first [reflexivity | discriminate].
  - split; [by left | done | reflexivity | | discriminate].
    apply List.Forall2_cons; [apply ann_described | apply List.Forall2_nil].
  - lia.
  - intros j _. reflexivity.
  - vm_compute. lia.
Defined.
End Pages.

#[local] Instance empty_server : Server := server_of (fun _ => Some (Tl (fresh []) (Object id_messages_dialogs []))).
Lemma dialogs_asked_for_ever_witness : tg_get_dialogs [] lf true false 1000 0 0 None None (Some names) (session 7 []) = Err NoFuel.
Proof.
  apply (dialogs_asked_for_ever [] lf true false None 0 0 None (Some names) (session 7 []) 1000); [lia |].
  intros qs. split; [discriminate | split; [by right | done]].
Defined.
End Dialogs.
