(* ===== verification/SchemaWitness.v ===== *)
(** * The schema of the protocol, and a small one

    mtproto_api.tl, line by line, and lines of telegram_api.tl as they stand
    there; and a callback that collects what it is handed. *)
From stdpp Require Import strings.
From S2P Require Import Prelude TlBuf Serial Errors TlParser TlParserFacts Witness.

Definition declaration (name : string) (width : nat) (id : Z) (g : bool) (ps : list param) (ret : string) : line :=
  Declaration (Decl_ (chars name) width id g ps (chars ret)).
Definition mtproto_schema : list line :=
  [ Unnumbered (chars "int ?") (chars "Int");
    Unnumbered (chars "long ?") (chars "Long");
    Unnumbered (chars "double ?") (chars "Double");
    Unnumbered (chars "string ?") (chars "String");
    Blank;
    Vectors false;
    Blank;
    Unnumbered (chars "int128 4*[ int ]") (chars "Int128");
    Unnumbered (chars "int256 8*[ int ]") (chars "Int256");
    Blank;
    declaration "resPQ" 8 0x05162463 false [Plain (chars "nonce") (chars "int128"); Plain (chars "server_nonce") (chars "int128"); Plain (chars "pq") (chars "bytes"); Plain (chars "server_public_key_fingerprints") (chars "Vector<long>")] "ResPQ";
    Blank;
    declaration "p_q_inner_data_dc" 8 0xa9f55f95 false [Plain (chars "pq") (chars "bytes"); Plain (chars "p") (chars "bytes"); Plain (chars "q") (chars "bytes"); Plain (chars "nonce") (chars "int128"); Plain (chars "server_nonce") (chars "int128"); Plain (chars "new_nonce") (chars "int256"); Plain (chars "dc") (chars "int")] "P_Q_inner_data";
    declaration "p_q_inner_data_temp_dc" 8 0x56fddf88 false [Plain (chars "pq") (chars "bytes"); Plain (chars "p") (chars "bytes"); Plain (chars "q") (chars "bytes"); Plain (chars "nonce") (chars "int128"); Plain (chars "server_nonce") (chars "int128"); Plain (chars "new_nonce") (chars "int256"); Plain (chars "dc") (chars "int"); Plain (chars "expires_in") (chars "int")] "P_Q_inner_data";
    Blank;
    declaration "server_DH_params_ok" 8 0xd0e8075c false [Plain (chars "nonce") (chars "int128"); Plain (chars "server_nonce") (chars "int128"); Plain (chars "encrypted_answer") (chars "bytes")] "Server_DH_Params";
    Blank;
    declaration "server_DH_inner_data" 8 0xb5890dba false [Plain (chars "nonce") (chars "int128"); Plain (chars "server_nonce") (chars "int128"); Plain (chars "g") (chars "int"); Plain (chars "dh_prime") (chars "bytes"); Plain (chars "g_a") (chars "bytes"); Plain (chars "server_time") (chars "int")] "Server_DH_inner_data";
    Blank;
    declaration "client_DH_inner_data" 8 0x6643b654 false [Plain (chars "nonce") (chars "int128"); Plain (chars "server_nonce") (chars "int128"); Plain (chars "retry_id") (chars "long"); Plain (chars "g_b") (chars "bytes")] "Client_DH_Inner_Data";
    Blank;
    declaration "dh_gen_ok" 8 0x3bcbf734 false [Plain (chars "nonce") (chars "int128"); Plain (chars "server_nonce") (chars "int128"); Plain (chars "new_nonce_hash1") (chars "int128")] "Set_client_DH_params_answer";
    declaration "dh_gen_retry" 8 0x46dc1fb9 false [Plain (chars "nonce") (chars "int128"); Plain (chars "server_nonce") (chars "int128"); Plain (chars "new_nonce_hash2") (chars "int128")] "Set_client_DH_params_answer";
    declaration "dh_gen_fail" 8 0xa69dae02 false [Plain (chars "nonce") (chars "int128"); Plain (chars "server_nonce") (chars "int128"); Plain (chars "new_nonce_hash3") (chars "int128")] "Set_client_DH_params_answer";
    Blank;
    declaration "bind_auth_key_inner" 8 0x75a3f765 false [Plain (chars "nonce") (chars "long"); Plain (chars "temp_auth_key_id") (chars "long"); Plain (chars "perm_auth_key_id") (chars "long"); Plain (chars "temp_session_id") (chars "long"); Plain (chars "expires_at") (chars "int")] "BindAuthKeyInner";
    Blank;
    declaration "rpc_result" 8 0xf35c6d01 false [Plain (chars "req_msg_id") (chars "long"); Plain (chars "result") (chars "Object")] "RpcResult";
    declaration "rpc_error" 8 0x2144ca19 false [Plain (chars "error_code") (chars "int"); Plain (chars "error_message") (chars "string")] "RpcError";
    Blank;
    declaration "rpc_answer_unknown" 8 0x5e2ad36e false [] "RpcDropAnswer";
    declaration "rpc_answer_dropped_running" 8 0xcd78e586 false [] "RpcDropAnswer";
    declaration "rpc_answer_dropped" 8 0xa43ad8b7 false [Plain (chars "msg_id") (chars "long"); Plain (chars "seq_no") (chars "int"); Plain (chars "bytes") (chars "int")] "RpcDropAnswer";
    Blank;
    declaration "future_salt" 8 0x0949d9dc false [Plain (chars "valid_since") (chars "int"); Plain (chars "valid_until") (chars "int"); Plain (chars "salt") (chars "long")] "FutureSalt";
    declaration "future_salts" 8 0xae500895 false [Plain (chars "req_msg_id") (chars "long"); Plain (chars "now") (chars "int"); Plain (chars "salts") (chars "vector<future_salt>")] "FutureSalts";
    Blank;
    declaration "pong" 8 0x347773c5 false [Plain (chars "msg_id") (chars "long"); Plain (chars "ping_id") (chars "long")] "Pong";
    Blank;
    declaration "destroy_session_ok" 8 0xe22045fc false [Plain (chars "session_id") (chars "long")] "DestroySessionRes";
    declaration "destroy_session_none" 8 0x62d350c9 false [Plain (chars "session_id") (chars "long")] "DestroySessionRes";
    Blank;
    declaration "new_session_created" 8 0x9ec20908 false [Plain (chars "first_msg_id") (chars "long"); Plain (chars "unique_id") (chars "long"); Plain (chars "server_salt") (chars "long")] "NewSession";
    Blank;
    declaration "msg_container" 8 0x73f1f8dc false [Plain (chars "messages") (chars "vector<%Message>")] "MessageContainer";
    Unnumbered (chars "message msg_id:long seqno:int bytes:int body:Object") (chars "Message");
    declaration "msg_copy" 8 0xe06046b2 false [Plain (chars "orig_message") (chars "Message")] "MessageCopy";
    Blank;
    declaration "gzip_packed" 8 0x3072cfa1 false [Plain (chars "packed_data") (chars "bytes")] "Object";
    Blank;
    declaration "msgs_ack" 8 0x62d6b459 false [Plain (chars "msg_ids") (chars "Vector<long>")] "MsgsAck";
    Blank;
    declaration "bad_msg_notification" 8 0xa7eff811 false [Plain (chars "bad_msg_id") (chars "long"); Plain (chars "bad_msg_seqno") (chars "int"); Plain (chars "error_code") (chars "int")] "BadMsgNotification";
    declaration "bad_server_salt" 8 0xedab447b false [Plain (chars "bad_msg_id") (chars "long"); Plain (chars "bad_msg_seqno") (chars "int"); Plain (chars "error_code") (chars "int"); Plain (chars "new_server_salt") (chars "long")] "BadMsgNotification";
    Blank;
    declaration "msg_resend_req" 8 0x7d861a08 false [Plain (chars "msg_ids") (chars "Vector<long>")] "MsgResendReq";
    declaration "msgs_state_req" 8 0xda69fb52 false [Plain (chars "msg_ids") (chars "Vector<long>")] "MsgsStateReq";
    declaration "msgs_state_info" 8 0x04deb57d false [Plain (chars "req_msg_id") (chars "long"); Plain (chars "info") (chars "bytes")] "MsgsStateInfo";
    declaration "msgs_all_info" 8 0x8cc0d131 false [Plain (chars "msg_ids") (chars "Vector<long>"); Plain (chars "info") (chars "bytes")] "MsgsAllInfo";
    declaration "msg_detailed_info" 8 0x276d3ec6 false [Plain (chars "msg_id") (chars "long"); Plain (chars "answer_msg_id") (chars "long"); Plain (chars "bytes") (chars "int"); Plain (chars "status") (chars "int")] "MsgDetailedInfo";
    declaration "msg_new_detailed_info" 8 0x809db6df false [Plain (chars "answer_msg_id") (chars "long"); Plain (chars "bytes") (chars "int"); Plain (chars "status") (chars "int")] "MsgDetailedInfo";
    Blank;
    declaration "destroy_auth_key_ok" 8 0xf660e1d4 false [] "DestroyAuthKeyRes";
    declaration "destroy_auth_key_none" 8 0x0a9f2259 false [] "DestroyAuthKeyRes";
    declaration "destroy_auth_key_fail" 8 0xea109b13 false [] "DestroyAuthKeyRes";
    Blank;
    declaration "http_wait" 8 0x9299359f false [Plain (chars "max_delay") (chars "int"); Plain (chars "wait_after") (chars "int"); Plain (chars "max_wait") (chars "int")] "HttpWait";
    Blank;
    Dashes (chars "---functions---");
    Blank;
    declaration "req_pq_multi" 8 0xbe7e8ef1 false [Plain (chars "nonce") (chars "int128")] "ResPQ";
    Blank;
    declaration "req_DH_params" 8 0xd712e4be false [Plain (chars "nonce") (chars "int128"); Plain (chars "server_nonce") (chars "int128"); Plain (chars "p") (chars "bytes"); Plain (chars "q") (chars "bytes"); Plain (chars "public_key_fingerprint") (chars "long"); Plain (chars "encrypted_data") (chars "bytes")] "Server_DH_Params";
    Blank;
    declaration "set_client_DH_params" 8 0xf5045f1f false [Plain (chars "nonce") (chars "int128"); Plain (chars "server_nonce") (chars "int128"); Plain (chars "encrypted_data") (chars "bytes")] "Set_client_DH_params_answer";
    Blank;
    declaration "rpc_drop_answer" 8 0x58e4a740 false [Plain (chars "req_msg_id") (chars "long")] "RpcDropAnswer";
    declaration "get_future_salts" 8 0xb921bd04 false [Plain (chars "num") (chars "int")] "FutureSalts";
    declaration "ping" 8 0x7abe77ec false [Plain (chars "ping_id") (chars "long")] "Pong";
    declaration "ping_delay_disconnect" 8 0xf3427b8c false [Plain (chars "ping_id") (chars "long"); Plain (chars "disconnect_delay") (chars "int")] "Pong";
    declaration "destroy_session" 8 0xe7512126 false [Plain (chars "session_id") (chars "long")] "DestroySessionRes";
    Blank;
    declaration "destroy_auth_key" 8 0xd1435160 false [] "DestroyAuthKeyRes" ].
Definition small_schema : list line :=
  [ declaration "boolTrue" 8 0x997275b5 false [] "Bool";
    Vectors true;
    declaration "storage.fileJpeg" 6 0x7efe0e false [] "storage.FileType";
    declaration "channel" 7 0xaadfc8f false [Flags 1; Flag (chars "creator") 1 0 (chars "true"); Flag (chars "left") 1 2 (chars "true"); Flag (chars "broadcast") 1 5 (chars "true"); Flag (chars "verified") 1 7 (chars "true"); Flag (chars "megagroup") 1 8 (chars "true"); Flag (chars "restricted") 1 9 (chars "true"); Flag (chars "signatures") 1 11 (chars "true"); Flag (chars "min") 1 12 (chars "true"); Flag (chars "scam") 1 19 (chars "true"); Flag (chars "has_link") 1 20 (chars "true"); Flag (chars "has_geo") 1 21 (chars "true"); Flag (chars "slowmode_enabled") 1 22 (chars "true"); Flag (chars "call_active") 1 23 (chars "true"); Flag (chars "call_not_empty") 1 24 (chars "true"); Flag (chars "fake") 1 25 (chars "true"); Flag (chars "gigagroup") 1 26 (chars "true"); Flag (chars "noforwards") 1 27 (chars "true"); Flag (chars "join_to_send") 1 28 (chars "true"); Flag (chars "join_request") 1 29 (chars "true"); Flag (chars "forum") 1 30 (chars "true"); Flags 2; Flag (chars "stories_hidden") 2 1 (chars "true"); Flag (chars "stories_hidden_min") 2 2 (chars "true"); Flag (chars "stories_unavailable") 2 3 (chars "true"); Plain (chars "id") (chars "long"); Flag (chars "access_hash") 1 13 (chars "long"); Plain (chars "title") (chars "string"); Flag (chars "username") 1 6 (chars "string"); Plain (chars "photo") (chars "ChatPhoto"); Plain (chars "date") (chars "int"); Flag (chars "restriction_reason") 1 9 (chars "Vector<RestrictionReason>"); Flag (chars "admin_rights") 1 14 (chars "ChatAdminRights"); Flag (chars "banned_rights") 1 15 (chars "ChatBannedRights"); Flag (chars "default_banned_rights") 1 18 (chars "ChatBannedRights"); Flag (chars "participants_count") 1 17 (chars "int"); Flag (chars "usernames") 2 0 (chars "Vector<Username>"); Flag (chars "stories_max_id") 2 4 (chars "int"); Flag (chars "color") 2 7 (chars "PeerColor"); Flag (chars "profile_color") 2 8 (chars "PeerColor"); Flag (chars "emoji_status") 2 9 (chars "EmojiStatus"); Flag (chars "level") 2 10 (chars "int")] "Chat";
    declaration "updates.difference" 6 0xf49ca0 false [Plain (chars "new_messages") (chars "Vector<Message>"); Plain (chars "new_encrypted_messages") (chars "Vector<EncryptedMessage>"); Plain (chars "other_updates") (chars "Vector<Update>"); Plain (chars "chats") (chars "Vector<Chat>"); Plain (chars "users") (chars "Vector<User>"); Plain (chars "state") (chars "updates.State")] "updates.Difference";
    declaration "upload.file" 7 0x96a18d5 false [Plain (chars "type") (chars "storage.FileType"); Plain (chars "mtime") (chars "int"); Plain (chars "bytes") (chars "bytes")] "upload.File";
    declaration "receivedNotifyMessage" 8 0xa384b779 false [Plain (chars "id") (chars "int"); Plain (chars "flags") (chars "int")] "ReceivedNotifyMessage";
    declaration "invokeWithLayer" 8 0xda9b0d0d true [Plain (chars "layer") (chars "int"); Plain (chars "query") (chars "!X")] "X";
    declaration "account.getPassword" 8 0x548a30f5 false [] "account.Password";
    declaration "messages.sendMessage" 8 0x983f9745 false [Flags 1; Flag (chars "no_webpage") 1 1 (chars "true"); Flag (chars "silent") 1 5 (chars "true"); Flag (chars "background") 1 6 (chars "true"); Flag (chars "clear_draft") 1 7 (chars "true"); Flag (chars "noforwards") 1 14 (chars "true"); Flag (chars "update_stickersets_order") 1 15 (chars "true"); Flag (chars "invert_media") 1 16 (chars "true"); Plain (chars "peer") (chars "InputPeer"); Flag (chars "reply_to") 1 0 (chars "InputReplyTo"); Plain (chars "message") (chars "string"); Plain (chars "random_id") (chars "long"); Flag (chars "reply_markup") 1 2 (chars "ReplyMarkup"); Flag (chars "entities") 1 3 (chars "Vector<MessageEntity>"); Flag (chars "schedule_date") 1 10 (chars "int"); Flag (chars "send_as") 1 13 (chars "InputPeer"); Flag (chars "quick_reply_shortcut") 1 17 (chars "InputQuickReplyShortcut"); Flag (chars "effect") 1 18 (chars "long")] "Updates" ].
(** The text is the one of the files. *)
Definition text_of (ls : list string) : list Z := mjoin ((fun l => chars l ++ [10]) <$> ls).
Example mtproto_api_tl : print_schema mtproto_schema = text_of
  [ "int ? = Int;";
    "long ? = Long;";
    "double ? = Double;";
    "string ? = String;";
    "";
    "vector {t:Type} # [ t ] = Vector t;";
    "";
    "int128 4*[ int ] = Int128;";
    "int256 8*[ int ] = Int256;";
    "";
    "resPQ#05162463 nonce:int128 server_nonce:int128 pq:bytes server_public_key_fingerprints:Vector<long> = ResPQ;";
    "";
    "p_q_inner_data_dc#a9f55f95 pq:bytes p:bytes q:bytes nonce:int128 server_nonce:int128 new_nonce:int256 dc:int = P_Q_inner_data;";
    "p_q_inner_data_temp_dc#56fddf88 pq:bytes p:bytes q:bytes nonce:int128 server_nonce:int128 new_nonce:int256 dc:int expires_in:int = P_Q_inner_data;";
    "";
    "server_DH_params_ok#d0e8075c nonce:int128 server_nonce:int128 encrypted_answer:bytes = Server_DH_Params;";
    "";
    "server_DH_inner_data#b5890dba nonce:int128 server_nonce:int128 g:int dh_prime:bytes g_a:bytes server_time:int = Server_DH_inner_data;";
    "";
    "client_DH_inner_data#6643b654 nonce:int128 server_nonce:int128 retry_id:long g_b:bytes = Client_DH_Inner_Data;";
    "";
    "dh_gen_ok#3bcbf734 nonce:int128 server_nonce:int128 new_nonce_hash1:int128 = Set_client_DH_params_answer;";
    "dh_gen_retry#46dc1fb9 nonce:int128 server_nonce:int128 new_nonce_hash2:int128 = Set_client_DH_params_answer;";
    "dh_gen_fail#a69dae02 nonce:int128 server_nonce:int128 new_nonce_hash3:int128 = Set_client_DH_params_answer;";
    "";
    "bind_auth_key_inner#75a3f765 nonce:long temp_auth_key_id:long perm_auth_key_id:long temp_session_id:long expires_at:int = BindAuthKeyInner;";
    "";
    "rpc_result#f35c6d01 req_msg_id:long result:Object = RpcResult;";
    "rpc_error#2144ca19 error_code:int error_message:string = RpcError;";
    "";
    "rpc_answer_unknown#5e2ad36e = RpcDropAnswer;";
    "rpc_answer_dropped_running#cd78e586 = RpcDropAnswer;";
    "rpc_answer_dropped#a43ad8b7 msg_id:long seq_no:int bytes:int = RpcDropAnswer;";
    "";
    "future_salt#0949d9dc valid_since:int valid_until:int salt:long = FutureSalt;";
    "future_salts#ae500895 req_msg_id:long now:int salts:vector<future_salt> = FutureSalts;";
    "";
    "pong#347773c5 msg_id:long ping_id:long = Pong;";
    "";
    "destroy_session_ok#e22045fc session_id:long = DestroySessionRes;";
    "destroy_session_none#62d350c9 session_id:long = DestroySessionRes;";
    "";
    "new_session_created#9ec20908 first_msg_id:long unique_id:long server_salt:long = NewSession;";
    "";
    "msg_container#73f1f8dc messages:vector<%Message> = MessageContainer;";
    "message msg_id:long seqno:int bytes:int body:Object = Message;";
    "msg_copy#e06046b2 orig_message:Message = MessageCopy;";
    "";
    "gzip_packed#3072cfa1 packed_data:bytes = Object;";
    "";
    "msgs_ack#62d6b459 msg_ids:Vector<long> = MsgsAck;";
    "";
    "bad_msg_notification#a7eff811 bad_msg_id:long bad_msg_seqno:int error_code:int = BadMsgNotification;";
    "bad_server_salt#edab447b bad_msg_id:long bad_msg_seqno:int error_code:int new_server_salt:long = BadMsgNotification;";
    "";
    "msg_resend_req#7d861a08 msg_ids:Vector<long> = MsgResendReq;";
    "msgs_state_req#da69fb52 msg_ids:Vector<long> = MsgsStateReq;";
    "msgs_state_info#04deb57d req_msg_id:long info:bytes = MsgsStateInfo;";
    "msgs_all_info#8cc0d131 msg_ids:Vector<long> info:bytes = MsgsAllInfo;";
    "msg_detailed_info#276d3ec6 msg_id:long answer_msg_id:long bytes:int status:int = MsgDetailedInfo;";
    "msg_new_detailed_info#809db6df answer_msg_id:long bytes:int status:int = MsgDetailedInfo;";
    "";
    "destroy_auth_key_ok#f660e1d4 = DestroyAuthKeyRes;";
    "destroy_auth_key_none#0a9f2259 = DestroyAuthKeyRes;";
    "destroy_auth_key_fail#ea109b13 = DestroyAuthKeyRes;";
    "";
    "http_wait#9299359f max_delay:int wait_after:int max_wait:int = HttpWait;";
    "";
    "---functions---";
    "";
    "req_pq_multi#be7e8ef1 nonce:int128 = ResPQ;";
    "";
    "req_DH_params#d712e4be nonce:int128 server_nonce:int128 p:bytes q:bytes public_key_fingerprint:long encrypted_data:bytes = Server_DH_Params;";
    "";
    "set_client_DH_params#f5045f1f nonce:int128 server_nonce:int128 encrypted_data:bytes = Set_client_DH_params_answer;";
    "";
    "rpc_drop_answer#58e4a740 req_msg_id:long = RpcDropAnswer;";
    "get_future_salts#b921bd04 num:int = FutureSalts;";
    "ping#7abe77ec ping_id:long = Pong;";
    "ping_delay_disconnect#f3427b8c ping_id:long disconnect_delay:int = Pong;";
    "destroy_session#e7512126 session_id:long = DestroySessionRes;";
    "";
    "destroy_auth_key#d1435160 = DestroyAuthKeyRes;" ]%string.
Proof. vm_compute. reflexivity. Qed.
Example telegram_api_lines : print_schema small_schema = text_of
  [ "boolTrue#997275b5 = Bool;";
    "vector#1cb5c415 {t:Type} # [ t ] = Vector t;";
    "storage.fileJpeg#7efe0e = storage.FileType;";
    "channel#aadfc8f flags:# creator:flags.0?true left:flags.2?true broadcast:flags.5?true verified:flags.7?true megagroup:flags.8?true restricted:flags.9?true signatures:flags.11?true min:flags.12?true scam:flags.19?true has_link:flags.20?true has_geo:flags.21?true slowmode_enabled:flags.22?true call_active:flags.23?true call_not_empty:flags.24?true fake:flags.25?true gigagroup:flags.26?true noforwards:flags.27?true join_to_send:flags.28?true join_request:flags.29?true forum:flags.30?true flags2:# stories_hidden:flags2.1?true stories_hidden_min:flags2.2?true stories_unavailable:flags2.3?true id:long access_hash:flags.13?long title:string username:flags.6?string photo:ChatPhoto date:int restriction_reason:flags.9?Vector<RestrictionReason> admin_rights:flags.14?ChatAdminRights banned_rights:flags.15?ChatBannedRights default_banned_rights:flags.18?ChatBannedRights participants_count:flags.17?int usernames:flags2.0?Vector<Username> stories_max_id:flags2.4?int color:flags2.7?PeerColor profile_color:flags2.8?PeerColor emoji_status:flags2.9?EmojiStatus level:flags2.10?int = Chat;";
    "updates.difference#f49ca0 new_messages:Vector<Message> new_encrypted_messages:Vector<EncryptedMessage> other_updates:Vector<Update> chats:Vector<Chat> users:Vector<User> state:updates.State = updates.Difference;";
    "upload.file#96a18d5 type:storage.FileType mtime:int bytes:bytes = upload.File;";
    "receivedNotifyMessage#a384b779 id:int flags:int = ReceivedNotifyMessage;";
    "invokeWithLayer#da9b0d0d {X:Type} layer:int query:!X = X;";
    "account.getPassword#548a30f5 = account.Password;";
    "messages.sendMessage#983f9745 flags:# no_webpage:flags.1?true silent:flags.5?true background:flags.6?true clear_draft:flags.7?true noforwards:flags.14?true update_stickersets_order:flags.15?true invert_media:flags.16?true peer:InputPeer reply_to:flags.0?InputReplyTo message:string random_id:long reply_markup:flags.2?ReplyMarkup entities:flags.3?Vector<MessageEntity> schedule_date:flags.10?int send_as:flags.13?InputPeer quick_reply_shortcut:flags.17?InputQuickReplyShortcut effect:flags.18?long = Updates;" ]%string.
Proof. vm_compute. reflexivity. Qed.

Definition collector (u : list method_t) (m : option method_t) (e : option (list Z)) : Z * list method_t :=
  (0, match m with Some m => u ++ [m] | None => u end).

(** The form of a line, decided. *)
Definition identb (s : list Z) : bool := negb (bool_decide (s = [])) && forallb type_char s.
Definition param_okb (p : param) : bool :=
  match p with
  | Plain name type => identb name && identb type
  | Flag name n b type => identb name && identb type && (1 <=? n) && (n <? 10) && (0 <=? b) && (b <? 100)
  | Flags n => (1 <=? n) && (n <? 10)
  end.
Definition line_okb (l : line) : bool :=
  (zlen (print_line l) <? BUFSIZ * 2 - 1) &&
  match l with
  | Blank | Vectors _ => true
  | Dashes l => negb (bool_decide (l = [])) && forallb (fun c => type_char c || (c =? 45)) l
  | Unnumbered text ret =>
      forallb (fun c => negb (existsb (Z.eqb c) [0; 10; 35; 61])) text && negb (existsb (Z.eqb (hd 32 text)) [32; 47]) && identb ret
  | Declaration d =>
      identb (d_name d) && identb (d_ret d) && (1 <=? d_width d)%nat && (d_width d <=? 8)%nat && (0 <? d_id d) &&
      (d_id d <? 16 ^ Z.of_nat (d_width d)) && forallb param_okb (d_params d) && (length (d_params d) <=? 64)%nat
  end.
Lemma forallb_all {A} (f : A -> bool) (P : A -> Prop) l : (forall x, f x = true -> P x) -> forallb f l = true -> Forall P l.
Proof. intros Hf Hl. apply List.Forall_forall. intros x Hx. apply Hf. by apply (proj1 (forallb_forall f l) Hl). Qed.
Lemma not_among c l : negb (existsb (Z.eqb c) l) = true -> ~ In c l.
Proof.
  intros Hn Hin. apply negb_true_iff in Hn. assert (existsb (Z.eqb c) l = true) as E; [| congruence].
  apply existsb_exists. exists c. split; [done | apply Z.eqb_refl].
Qed.
Lemma identb_ok s : identb s = true -> ident s.
Proof. intros [Hn Hs]%andb_true_iff. split; [by apply negb_true_iff, bool_decide_eq_false in Hn | by apply (forallb_all type_char)]. Qed.
Lemma param_okb_ok p : param_okb p = true -> param_ok p.
Proof. destruct p; cbn [param_okb param_ok]; rewrite ?andb_true_iff; intros; destruct_and?; split_and?; try (by apply identb_ok); lia. Qed.
Lemma line_okb_ok l : line_okb l = true -> line_ok l.
Proof.
  unfold line_okb. intros [Hz Hl]%andb_true_iff. split; [lia |]. destruct l as [| l | text ret | | d]; try done; rewrite ?andb_true_iff in Hl; destruct_and? Hl.
  - split; [by apply negb_true_iff, bool_decide_eq_false in H |]. eapply forallb_all; [| eassumption]. cbn. intros c [? | ?%Z.eqb_eq]%orb_true_iff; auto.
  - split_and!; [eapply forallb_all; [| eassumption]; intros c; apply not_among | by apply not_among | by apply identb_ok].
  - unfold decl_ok. split_and!; try (by apply identb_ok); try (by apply Nat.leb_le); try lia. by eapply forallb_all; [apply param_okb_ok |].
Qed.

Lemma mtproto_ok : Forall line_ok mtproto_schema.
Proof. apply (forallb_all line_okb); [apply line_okb_ok | vm_compute; reflexivity]. Qed.
Lemma small_ok : Forall line_ok small_schema.
Proof. apply (forallb_all line_okb); [apply line_okb_ok | vm_compute; reflexivity]. Qed.

Lemma tl_parse_reads_schema_witness :
  tl_parse (Some (print_schema small_schema)) [] (Some collector) =
    Ok (0, foldl (fun u d => snd (collector u (Some d) None)) [] (declarations small_schema)).
Proof. apply (tl_parse_reads_schema small_schema collector []); [exact small_ok | intros; reflexivity]. Defined.
