(* ===== verification/GeneratorWitness.v ===== *)
(** * Readers and writers of six declarations

    The text of six lines of mtproto_api.tl and telegram_api.tl goes through
    the parser and the generator; a message is written, read back and
    released. *)
From stdpp Require Import strings.
From S2P Require Import Prelude TlBuf Serial HashCommon Tg Packet Header LinkedList Errors Objects Queue Delivery Receive TlParser TlParserFacts Generator GeneratorFacts GeneratorEnds GeneratorWrites GeneratorRound GeneratedAnswers GeneratorFree Witness SchemaWitness.

Definition lf1 : list Z := [10].
Definition mtproto_text : list Z :=
  chars "pong#347773c5 msg_id:long ping_id:long = Pong;" ++ lf1 ++
  chars "rpc_result#f35c6d01 req_msg_id:long result:Object = RpcResult;" ++ lf1 ++
  chars "msgs_ack#62d6b459 msg_ids:Vector<long> = MsgsAck;" ++ lf1.
Definition telegram_text : list Z :=
  chars "inputPeerUser#dde8a54c user_id:long access_hash:long = InputPeer;" ++ lf1 ++
  chars "messageEntityBold#bd610bc9 offset:int length:int = MessageEntity;" ++ lf1 ++
  chars "messages.sendMessage#983f9745 flags:# no_webpage:flags.1?true silent:flags.5?true background:flags.6?true clear_draft:flags.7?true noforwards:flags.14?true update_stickersets_order:flags.15?true invert_media:flags.16?true peer:InputPeer reply_to:flags.0?InputReplyTo message:string random_id:long reply_markup:flags.2?ReplyMarkup entities:flags.3?Vector<MessageEntity> schedule_date:flags.10?int send_as:flags.13?InputPeer quick_reply_shortcut:flags.17?InputQuickReplyShortcut effect:flags.18?long = Updates;" ++ lf1.
Definition generated : list (bool * method_t) :=
  Eval vm_compute in match generate (Some mtproto_text) (Some telegram_text) with Ok l => l | Err _ => [] end.
Lemma generated_ok : generate (Some mtproto_text) (Some telegram_text) = Ok generated.
Proof. vm_compute. reflexivity. Qed.
Definition schema : list method_t := Eval vm_compute in snd <$> generated.
Definition declared (i : nat) : method_t := match schema !! i with Some m => m | None => zero_method end.
Definition send : method_t := Eval vm_compute in declared 5.
Definition bold : method_t := Eval vm_compute in declared 4.
Definition user : method_t := Eval vm_compute in declared 3.

Example declared_names : (fun m => default [] (method_name m)) <$> [send; bold; user] =
  [chars "messages_sendMessage"; chars "messageEntityBold"; chars "inputPeerUser"].
Proof. vm_compute. reflexivity. Qed.

Definition user_args : list value := [V_num 4242; V_num 77].
Definition bold_args : list value := [V_num 0; V_num 5].
Definition to_user : buf_t := fresh (enc_method user user_args).
Definition in_bold : buf_t := fresh (enc_method bold bold_args).
Definition send_args (s : list Z) : list value :=
  [V_null; V_num 1; V_null; V_null; V_null; V_null; V_null; V_buf to_user; V_null; V_str s; V_num 99; V_null;
   V_bufs [in_bold]; V_null; V_null; V_null; V_null].

Definition coherent_b (l : list (arg_t * value)) : bool :=
  forallb (fun x => forallb (fun y => negb ((negb (flagn x.1 =? 0)) && (flagn x.1 =? flagn y.1) && (flagb x.1 =? flagb y.1))
    || Bool.eqb (is_null x.2) (is_null y.2)) l) l.
Lemma coherent_dec l vs : coherent_b (pairs l vs) = true -> coherent l vs.
Proof.
  unfold coherent_b. intros Hb x y Hx Hy Hn Ek Eb. apply list_elem_of_In in Hx, Hy.
  rewrite forallb_forall in Hb. specialize (Hb x Hx). rewrite forallb_forall in Hb. specialize (Hb y Hy).
  rewrite <- Ek, <- Eb, !Z.eqb_refl, (proj2 (Z.eqb_neq _ _) Hn) in Hb. cbn in Hb. by apply Bool.eqb_prop in Hb.
Qed.

(** The arguments one after the other. *)
Ltac typed_arg :=
  eapply ok_typed; [reflexivity | vm_compute; reflexivity | cbn; lia | cbn; lia | let H := fresh in intros H; try discriminate H; try (left; reflexivity); right; cbn | ].
Ltac typed_args :=
  repeat first [ apply ok_none | apply ok_word; [reflexivity | reflexivity |] | typed_arg ].

Lemma user_ok mt : args_ok mt 0 (args user) user_args.
Proof. typed_args; unfold is_u64; lia. Qed.
Lemma bold_ok mt : args_ok mt 0 (args bold) bold_args.
Proof. typed_args; unfold is_u32; lia. Qed.
Lemma buf_ok mt m vs : args_ok mt 0 (args m) vs -> zlen (enc_method m vs) < 2147483648 -> buf_wf (fresh (enc_method m vs)).
Proof. intros. apply fresh_wf; [by eapply enc_method_ok | done]. Qed.
Lemma send_typed s : bytes_ok s -> 0 ∈ s -> zlen (before_nul s) < 16777216 -> args_ok false 0 (args send) (send_args s).
Proof.
  intros Hs Hin Hl.
  assert (Hu : buf_wf to_user) by (apply (buf_ok true); [apply user_ok | vm_compute; reflexivity]).
  assert (Hb : buf_wf in_bold) by (apply (buf_ok true); [apply bold_ok | vm_compute; reflexivity]).
  typed_args; [exact Hu | refine (conj eq_refl (conj Hs (conj Hin (conj Hl _)))); unfold fits, alloc_limit, darwin; lia | unfold is_u64; lia |
    split; [by repeat constructor | done]].
Qed.
Lemma is_callable m vs i mt : schema !! i = Some m -> find_method schema (id_of_method m) = Some m -> is_vector m = false ->
  id_of_method m <> 0 -> args_ok mt 0 (args m) vs -> coherent_b (pairs (args m) vs) = true -> callable schema mt m vs.
Proof. intros _ ? ? ? ? Hc. split_and!; try done. by apply coherent_dec. Qed.
Lemma user_callable mt : callable schema mt user user_args.
Proof. apply (is_callable _ _ 3%nat); first [reflexivity | apply user_ok | discriminate]. Qed.
Lemma bold_callable mt : callable schema mt bold bold_args.
Proof. apply (is_callable _ _ 4%nat); first [reflexivity | apply bold_ok | discriminate]. Qed.
Definition hello_ : list Z := chars "hello" ++ [0].
Lemma hello_bytes : bytes_ok hello_ /\ 0 ∈ hello_ /\ zlen (before_nul hello_) < 16777216.
Proof. split; [| split]; apply (bool_decide_unpack _); vm_compute; reflexivity. Qed.
Lemma send_callable : callable schema false send (send_args hello_).
Proof. destruct hello_bytes as (? & ? & ?). apply (is_callable _ _ 5%nat); first [reflexivity | by apply send_typed | discriminate]. Qed.

(** What becomes of them: the members of a call, and the structure. *)
Ltac named := apply kind_names; vm_compute; reflexivity.
Ltac other := apply sees_other; apply (bool_decide_unpack _); vm_compute; exact I.
Ltac given_member := eapply m_given; [reflexivity | named | reflexivity | |].
Ltac number_members := repeat first [apply m_none | given_member; [constructor |]].
Lemma user_object r : object_at schema 1 (contents to_user ++ r) r
  (Some (Tl (fresh (contents to_user ++ r)) (Object 0xdde8a54c [("user_id_"%string, SNum 4242); ("access_hash_"%string, SNum 77)]))).
Proof.
  unfold to_user. rewrite contents_fresh. eapply (call_is_object schema true 0); [apply user_callable | number_members | other].
Qed.
Lemma bold_object r : object_at schema 1 (contents in_bold ++ r) r
  (Some (Tl (fresh (contents in_bold ++ r)) (Object 0xbd610bc9 [("offset_"%string, SNum 0); ("length_"%string, SNum 5)]))).
Proof.
  unfold in_bold. rewrite contents_fresh. eapply (call_is_object schema true 0); [apply bold_callable | number_members | other].
Qed.
Lemma send_members : exists ms, becomes_members (object_at schema 1) (word_of send (send_args hello_)) [] 0 (args send) (send_args hello_) ms /\
  slot_of "message_" ms = Some (SBuf (fresh (chars "hello"))) /\ slot_of "silent_" ms = Some (SNum 1) /\
  slot_of "no_webpage_" ms = Some (SNum 0).
Proof.
  eexists. split; [| split_and!].
  - repeat first [apply m_none | apply m_word; [reflexivity |]
      | eapply m_absent; [reflexivity | named | reflexivity | no_member |]
      | given_member; [cbn [holds] |]].
    + apply h_true.
    + apply h_object, user_object.
    + apply h_str.
    + apply h_long.
    + apply ha_object. change (mjoin (contents <$> [in_bold])) with (contents in_bold ++ []). rewrite app_nil_r.
      eapply seq_cons; [apply bold_object | apply seq_nil].
  - reflexivity.
  - reflexivity.
  - reflexivity.
Qed.
Lemma send_fits : zlen (enc_method send (send_args hello_)) <= BUFSIZ.
Proof. apply Z.leb_le. vm_compute. reflexivity. Qed.

Lemma generated_roundtrip_witness : exists ms b b', tl_ false send (send_args hello_) = Ok b /\
  (forall fuel, enough b fuel -> tl_deserialize (tl_table schema fuel) b = Ok (Some (Tl (fresh (contents b)) (Object 0x983f9745 ms)), b')) /\
  contents b' = [] /\ slot_of "message_" ms = Some (SBuf (fresh (chars "hello"))) /\ slot_of "silent_" ms = Some (SNum 1).
Proof.
  destruct send_members as (ms & Hm & H1 & H2 & _).
  assert (Hs : sees ms (id_of_method send) (Object 0x983f9745 ms)) by other.
  destruct (generated_roundtrip schema false 1 send (send_args hello_) ms _ send_callable send_fits ltac:(reflexivity) Hm Hs) as (b & b' & Hb & Hr & Hc).
  exists ms, b, b'. auto.
Defined.

Lemma generated_writer_writes_witness :
  tl_ false send (send_args hello_) = Ok (fresh (enc_method send (send_args hello_))) /\
  take 8 (enc_method send (send_args hello_)) = le_bytes 4 0x983f9745 ++ le_bytes 4 40.
Proof.
  split; [| vm_compute; reflexivity].
  apply (generated_writer_writes false send (send_args hello_)); [destruct hello_bytes as (? & ? & ?); by apply send_typed | exact send_fits].
Defined.

(** Bytes of a stranger: a message of acknowledgements that announces ten
    thousand and has one. *)
Definition stranger : buf_t := fresh (le_bytes 4 0x62d6b459 ++ le_bytes 4 10000 ++ le_bytes 8 1).
Lemma generated_readers_end_witness :
  tl_deserialize (tl_table schema 300) stranger <> Err NoFuel /\
  tl_deserialize (tl_table schema 400) stranger = tl_deserialize (tl_table schema 300) stranger /\
  tl_deserialize (tl_table schema 300) stranger = Err OutOfBounds.
Proof.
  pose proof (generated_readers_end schema stranger 300 400) as Hend.
  destruct Hend as [H1 H2]; [split; [dec | split; [vm_compute; reflexivity | discriminate]] | vm_compute; reflexivity | vm_compute; reflexivity |].
  split; [exact H1 | split; [exact H2 | vm_compute; reflexivity]].
Defined.

(** The result of a query with the answer to a ping inside. *)
Definition pong : method_t := Eval vm_compute in declared 0.
Definition result : method_t := Eval vm_compute in declared 1.
Definition pong_args : list value := [V_num 6; V_num 7].
Definition in_pong : buf_t := fresh (enc_method pong pong_args).
Definition result_args : list value := [V_num 5; V_buf in_pong].
Definition result_text : list Z := enc_method result result_args.
Lemma pong_ok : args_ok true 0 (args pong) pong_args.
Proof. typed_args; unfold is_u64; lia. Qed.
Lemma result_typed : args_ok true 0 (args result) result_args.
Proof. typed_args; [unfold is_u64; lia | apply (buf_ok true); [apply pong_ok | vm_compute; reflexivity]]. Qed.
Lemma pong_callable : callable schema true pong pong_args.
Proof. apply (is_callable _ _ 0%nat); first [reflexivity | apply pong_ok | discriminate]. Qed.
Lemma result_callable : callable schema true result result_args.
Proof. apply (is_callable _ _ 1%nat); first [reflexivity | apply result_typed | discriminate]. Qed.
Lemma result_object : object_at schema 2 result_text []
  (Some (Tl (fresh result_text) (Rpc_result 5 (Some (Tl (fresh (contents in_pong)) Pong))))).
Proof.
  rewrite <- (app_nil_r result_text).
  apply (call_is_object schema true 1 result result_args [] [("req_msg_id_"%string, SNum 5);
    ("result_"%string, SPtr (Some (Tl (fresh (contents in_pong)) Pong)))]); [apply result_callable | | by constructor].
  given_member; [constructor |]. given_member; [apply h_object | apply m_none].
  unfold in_pong. rewrite contents_fresh.
  apply (call_is_object schema true 0 pong pong_args [] [("msg_id_"%string, SNum 6); ("ping_id_"%string, SNum 7)]);
    [apply pong_callable | number_members | constructor].
Qed.
Lemma result_wf : buf_wf (fresh result_text).
Proof. apply (buf_ok true); [apply result_typed | vm_compute; reflexivity]. Qed.

Lemma generated_readers_read_witness : exists buf',
  tl_deserialize (tl_table schema 300) (fresh result_text) =
    Ok (Some (Tl (fresh result_text) (Rpc_result 5 (Some (Tl (fresh (contents in_pong)) Pong)))), buf') /\
  buf_wf buf' /\ contents buf' = [].
Proof.
  apply (generated_readers_read schema 2 result_text []);
    [exact result_object | exact result_wf | apply contents_fresh | vm_compute; reflexivity | vm_compute; reflexivity].
Defined.

(** A message of eleven hundred characters with a bold part. *)
Definition long_ : list Z := replicate 1100 120 ++ [0].
Definition before_entities : list arg_t := Eval vm_compute in take 12 (drop 1 (args send)).
Definition entities_arg : arg_t := Eval vm_compute in match drop 13 (args send) with a :: _ => a | [] => Arg [] None 0 0 end.
Definition after_entities : list arg_t := Eval vm_compute in drop 14 (args send).
Definition plain_args : list value :=
  [V_null; V_null; V_null; V_null; V_null; V_null; V_null; V_buf to_user; V_null; V_str long_; V_num 99; V_null].
Definition long_field : list Z := tl_string (before_nul long_).
Lemma long_bytes : bytes_ok long_ /\ 0 ∈ long_ /\ zlen (before_nul long_) < 16777216.
Proof. split; [| split]; apply (bool_decide_unpack _); vm_compute; reflexivity. Qed.
Lemma long_quiet : exists t, quiet false before_entities plain_args t /\ zlen t = 1132.
Proof.
  eexists. split.
  - repeat first [apply quiet_none | eapply quiet_arg; [reflexivity | vm_compute; reflexivity | first [left; reflexivity | right; reflexivity]
      | let H := fresh in intros H; try discriminate H; right; cbn [kind_ok base_ok] |]].
    + apply (buf_ok true); [apply user_ok | vm_compute; reflexivity].
    + destruct long_bytes as (Hb & Hin & Hl). refine (conj eq_refl (conj Hb (conj Hin (conj Hl _)))). unfold fits, alloc_limit, darwin. lia.
    + unfold is_u64. lia.
  - vm_compute. reflexivity.
Qed.

Lemma generate_prints_all_witness : exists l, generate (Some (print_schema mtproto_schema)) (Some (print_schema small_schema)) = Ok l /\
  length l = 56%nat /\ (fun x => default [] (method_name x.2)) <$> take 2 l = [chars "resPQ"; chars "p_q_inner_data_dc"].
Proof.
  eexists. split; [apply (generate_prints_all mtproto_schema small_schema mtproto_ok small_ok) | split; vm_compute; reflexivity].
Defined.

(** The reply of Witness.v: the server calls the writers of pong and
    rpc_result. *)
Definition nines : Z := Eval vm_compute in le_num (replicate 8 9).
Definition reply_args : list value := [V_num nines; V_num nines].
Lemma reply_callable : callable schema true pong reply_args.
Proof. apply (is_callable _ _ 0%nat); first [reflexivity | typed_args; unfold is_u64, nines; lia | discriminate]. Qed.
Lemma reply_members : becomes_members (object_at schema 0) (word_of pong reply_args) [] 0 (args pong) reply_args
  [("msg_id_"%string, SNum nines); ("ping_id_"%string, SNum nines)].
Proof. number_members. Qed.
Lemma results_declared : declares_results schema result.
Proof. split_and!; vm_compute; reflexivity. Qed.
Lemma reply_body : pk_body reply = result_for result first_id pong reply_args.
Proof. vm_compute. reflexivity. Qed.

Definition received_object : tl_t := Tl (fresh (enc_method pong reply_args)) Pong.

(** Releasing the message. *)
Lemma send_no_message : Forall no_message (args send).
Proof. repeat (apply List.Forall_cons; [intros type E; first [discriminate E | injection E as <-; discriminate] |]); apply List.Forall_nil. Qed.
Lemma released_once_witness : exists ms fs, slot_of "message_" ms = Some (SBuf (fresh (chars "hello"))) /\
  tl_free_ send (fresh (enc_method send (send_args hello_))) (fresh []) ms = Ok fs /\
  fs = released_all ms ++ [F_buf (fresh (enc_method send (send_args hello_)))].
Proof.
  destruct send_members as (ms & Hm & H1 & _). exists ms. eexists. split; [exact H1 |]. split; [| reflexivity].
  eapply (released_once (object_at schema 1) send); [eapply (call_members schema false); [exact send_callable | exact Hm] | exact send_no_message].
Defined.
