(* ===== verification/FactWitness.v ===== *)
(** * Two factors of a number of seven digits *)
From S2P Require Import Prelude TlBuf Serial HashCommon Tg Mtx MtxLayers Handshake MtxFacts HandshakeFacts Auth MtxWitness Fact FactFacts FactPrimes Factorize FactClient Witness.
Import Fact.

#[export, refine] Instance counted : Rand := {| rand := fun i => (12345 * Z.of_nat i + 2) mod 2147483648 |}.
Proof. intros i. by apply Z.mod_pos_bound. Defined.

Lemma trial_prime n : match prime_div_trivial n 1000 start with Ok (d, _) => d =? 1 | _ => false end = true -> Z.prime n.
Proof.
  destruct (prime_div_trivial_spec n 1000 start start_ok) as (d & st' & E & _ & _ & H); [done |]. rewrite E.
  intros Hd%Z.eqb_eq. subst. inversion H as [| ? ? ? Hd | |]; [done | lia].
Qed.

Lemma p_prime : Z.prime 1019.
Proof. apply trial_prime. by vm_compute. Qed.
Lemma q_prime : Z.prime 1051.
Proof. apply trial_prime. by vm_compute. Qed.

Lemma judged_prime n : tests 100 n = Ok true -> Z.prime n -> judged 100 n.
Proof. intros E P. by exists true. Qed.
Lemma p_judged : judged 100 1019.
Proof. apply judged_prime; [by vm_compute | apply p_prime]. Qed.
Lemma q_judged : judged 100 1051.
Proof. apply judged_prime; [by vm_compute | apply q_prime]. Qed.
Lemma pq_judged : judged 100 (1019 * 1051).
Proof.
  exists false. split; [by vm_compute |]. split; [done |]. intros P.
  by apply (semiprime_composite 1019 1051 p_prime q_prime) in P.
Qed.
Lemma splits : exists d, mc_divisor (rand (rands start)) (1019 * 1051) = Ok d /\ d <> 1.
Proof. exists 1051. split; [by vm_compute | done]. Qed.

Lemma factor_semiprime_witness :
  (forall r st', factor 100 (1019 * 1051) start = Ok (r, st') -> r = (1019, 1051)) /\
  (exists st', factor 100 (1019 * 1051) start = Ok ((1019, 1051), st')).
Proof.
  destruct (factor_semiprime 100 1019 1051 start start_ok p_prime q_prime) as [H1 H2].
  - lia.
  - lia.
  - lia.
  - split; [split; vm_compute; discriminate | by vm_compute].
  - intros _. apply p_judged.
  - intros _. apply q_judged.
  - intros _. apply pq_judged.
  - split; [exact H1 | apply H2]. right. split; [lia |]. split; [lia | apply splits].
Defined.

(** 30 has three prime divisors. *)
Lemma factor_below_million_witness : exists ks, Sorted.StronglySorted Z.lt ks /\
  (forall k, k ∈ ks <-> Z.prime k /\ (k | 30)) /\ factor 100 30 start = Err OutOfBounds /\ (3 <= length ks)%nat.
Proof.
  assert (E : factor 100 30 start = Err OutOfBounds) by (by vm_compute).
  destruct (factor_below_million 100 30 start start_ok) as (ks & Hs & Hk & H).
  - lia.
  - intros m D Hm. apply Z.divide_pos_le in D; lia.
  - by vm_compute.
  - exists ks. rewrite E in H. split_and!; [exact Hs | exact Hk | exact E | exact H].
Defined.

Lemma factor_divides_by_zero_witness : i64 9223372036854775808 <= 0 /\
  factor 100 9223372036854775808 start = Err DivByZero.
Proof. split; [by vm_compute |]. apply factor_divides_by_zero; [apply start_ok | by vm_compute | lia]. Defined.

Lemma monte_carlo_ends_witness : exists d st',
  pollard_monte_carlo 1000000000 100 start = Ok (d, st') /\ tables_ok st' /\ 0 < d < 1000000000 /\ (d | 1000000000).
Proof. apply monte_carlo_ends; [apply start_ok | lia]. Defined.

Definition asks : server :=
  Server (sv_id1 honest) (sv_nonce1 honest) (sv_nonce honest) (be_bytes 8 (1019 * 1051)) (sv_fps honest)
    (sv_id2 honest) (sv_nonce2 honest) (sv_sn2 honest) (sv_hash honest) (sv_nonce3 honest) (sv_sn3 honest) (sv_g honest)
    (sv_prime honest) (sv_g_a honest) (sv_time honest) (sv_rand honest)
    (sv_id3 honest) (sv_nonce4 honest) (sv_sn4 honest) (sv_hash4 honest).

Lemma request_names_factors_witness :
  let f : Factor := library_factor 100 start in
  cmn_fact (be_num (sv_pq asks)) = (1019, 1051) /\ factors asks = (1019, 1051) /\
  inner1 0 asks = request 0x83c95aec [tl_string (sv_pq asks); tl_string (be_bytes 4 1019); tl_string (be_bytes 4 1051);
    nonce 0; sv_nonce asks; zeros 32] /\
  be_num (be_bytes 4 1019) * be_num (be_bytes 4 1051) = be_num (sv_pq asks).
Proof.
  apply request_names_factors; [apply start_ok | apply p_prime | apply q_prime | lia | lia | lia
    | intros _; apply p_judged | intros _; apply q_judged | apply pq_judged | apply splits | lia | by vm_compute].
Defined.
