(* ===== verification/AudioWitness.v ===== *)
(** * A voice message of four samples *)
From S2P Require Import Prelude HashCommon Witness Audio.

#[export, refine] Instance padded_layout : CafLayout := {| chunk_stack := replicate 16 0; aFormat_swapped := Ok (replicate 32 0) |}.
Proof. by right. Defined.

Definition caf_head : list Z := [99; 97; 102; 102; 0; 1; 0; 0; 100; 101; 115; 99] ++ replicate 56 0.
Definition caf_samples : list Z := [1; 0; 255; 255; 2; 0; 254; 255].

Lemma caf_bytes : bytes_ok (caf_head ++ caf_samples).
Proof. by apply (bool_decide_unpack _). Qed.

Lemma voice_message_samples_witness : exists stream lead blocks,
  caf_extract (Some (caf_head ++ caf_samples)) false = Ok (Some (stream, None)) /\
  pcm_to_opusogg (Some stream) None 1 960 = Ok (0, blocks) /\
  mjoin blocks = lead ++ [1; -1; 2; -2] /\ length lead = 4%nat.
Proof.
  destruct (@voice_message_samples padded_layout caf_head caf_samples (replicate 32 0) eq_refl) as (stream & lead & blocks & E & Eb & Em & El).
  - apply caf_bytes.
  - reflexivity.
  - reflexivity.
  - exists 4%nat. reflexivity.
  - exists stream, lead, blocks. split_and!; [exact E | exact Eb | exact Em | exact El].
Defined.

Lemma opus_to_wav_stereo_witness : opus_to_wav 0 true 2 (replicate 7680 9) [replicate 1920 5] =
  Ok (0, wav_header 7680 ++ le_shorts (replicate 1920 5) ++ le_shorts (take 1920 (drop 1920 (replicate 7680 9)))).
Proof. apply opus_to_wav_stereo; [by rewrite zlen_replicate | by rewrite length_replicate]. Defined.

Lemma opus_to_wav_exact_witness : opus_to_wav 0 true 1 (replicate 3840 0) [replicate 1920 5; replicate 1920 6] =
  Ok (0, wav_header (2 * zlen (mjoin [replicate 1920 5; replicate 1920 6])) ++
    le_shorts (mjoin [replicate 1920 5; replicate 1920 6])).
Proof.
  apply opus_to_wav_exact; [lia | by rewrite zlen_replicate |].
  repeat (apply List.Forall_cons; [by rewrite !length_replicate |]). apply List.Forall_nil.
Defined.
